(* ===== verification/_CoqProject ===== *)
-Q . S2P
Prelude.v
Rows.v
PyText.v
Regex.v
Identifiers.v
Timestamps.v
Json.v
Secrets.v
StrictJson.v
JsonRoundtrip.v
CleanText.v
Events.v
Journal.v
JournalInvariant.v
JournalTheorems.v
JournalProperties.v
Effects.v
Files.v
CacheModels.v
CacheManager.v
CachePlan.v
CacheProperties.v
Transfers.v
TransferMemory.v
TransferProperties.v
EnvModels.v
EnvManager.v
EnvLifecycle.v
EnvTotal.v
EnvProperties.v
EnvJournal.v
ResourceModels.v
TelemetryModels.v
Calibration.v
TelemetryStore.v
ResourcePlanner.v
ResourceAdmission.v
AdmissionTotal.v
WorkloadPlans.v
PlanProperties.v
SafePayload.v
Recovery.v
RecoveryInvariant.v
RecoverySteps.v
RecoveryTotal.v
RecoveryProperties.v
Sharding.v
StateRecords.v
StateStore.v
StateOperations.v
StateCodec.v
StateInvariant.v
StateSteps.v
StateReconciler.v
StateConvergence.v
StateProperties.v
ConformanceJson.v
ScaleLedger.v
LedgerInvariant.v
LedgerProperties.v
ScaleController.v
ScaleRuns.v
ScaleProperties.v
ScaleLiveness.v
Bytes.v
TokenCodec.v
TokenBytes.v
TokenCorrect.v
TokenProperties.v
Dicts.v
FaultAttribution.v
TypedIds.v
IdentityProfile.v
CampaignCoordinator.v
AdapterFrames.v
AdapterModel.v
AdapterServer.v
AdapterData.v
AdapterSessions.v
AdapterProperties.v
