(* ===== verification/Prelude.v ===== *)
(** * Regex Conformance: verification development

    Regex Conformance measures how regex engines behave, under campaigns that
    run for weeks on machines that crash, fill their disks and lose their
    network.  The part of the program that keeps such a campaign safe is its
    control plane, src/control-plane/python/regex_conformance_control_plane/
    (CP below), the recovery journal and ledger of its scheduler,
    src/scheduler/python/regex_conformance_scheduler/ (SCH below), and the
    controller of its scale campaigns,
    src/campaigns/python/regex_conformance_scale/ (SCALE below).  What it runs are
    engine adapters, src/adapters/python/regex_conformance_adapters/ (ADAPTERS below).
    This library models them: what may be admitted on a machine, what a cleanup may
    delete, how a download survives interruption, how an environment becomes ready,
    what is recorded about all of that, what is remembered across a restart, how a
    campaign gets to its end, how its evidence is packed and how an adapter talks.

    ** Parts and their files

    Language and text.  [Prelude] holds the exceptions and the [result] monad,
    dataclasses ([Dataclass], [construct]), sorting and the lemmas and tactics
    the other files share.  [PyText], [Regex], [Identifiers] and [Timestamps]
    model the Python text operations, the anchored patterns of the source,
    the UUIDv7 identifiers and RFC 3339 instants.  [Json] holds documents, their
    RFC 8785 form and SHA-256; [Secrets] the credential filter and
    [canonical_object] of CP/state_models.py; [StrictJson] its decoder
    [parse_canonical_object]; [JsonRoundtrip] and [CleanText] what the codecs and
    the filter promise to their clients.

    Lifecycle events.  [Events] is CP/event_models.py, [Journal] is
    CP/event_store.py: an append-only log of events, hash chained, with a head
    per stream, bounded retention and cursors.  A row has the columns of its table;
    the event is in it as canonical JSON text, which every read and check decodes
    and validates again.  [JournalInvariant] (with the round trip of that text),
    [JournalTheorems] and [JournalProperties] prove what the journal guarantees.

    The artifact cache.  [Effects] and [Files] are the interfaces to the world:
    clock, publisher, operating system.  [CacheModels] is CP/cache_models.py with
    the exactness of its path guard; [CacheManager] the class of that name in
    CP/cache_manager.py (reconcile, plan_cleanup, execute_cleanup), [CachePlan]
    its plans and its effects, [CacheProperties] its properties.  [Transfers] is
    [TransferManager] of the same file and the histories of its files,
    [TransferMemory] and [TransferProperties] its theory.

    Environments.  [EnvModels] is CP/environment_models.py and
    CP/environment_fingerprint.py, [EnvManager] CP/environment_manager.py with the
    provider protocol of CP/environment_providers.py.  [EnvLifecycle] holds the logic
    of its steps, [EnvTotal] how a realization ends, [EnvProperties] its properties; [EnvJournal] composes the manager with the event journal.

    Resources and telemetry.  [ResourceModels] is CP/resource_models.py and the
    machine report of CP/models.py; [ResourcePlanner] the preflight of
    CP/resource_planner.py; [ResourceAdmission] its contract and [AdmissionTotal]
    its totality.  [TelemetryModels] and [Calibration] are CP/telemetry_models.py,
    [TelemetryStore] CP/telemetry_store.py and CP/telemetry_collector.py with
    the store's invariant.  [WorkloadPlans] is the rest of CP/resource_planner.py,
    where plans meet telemetry and environments; [PlanProperties] proves the way from
    a recipe to an admission decision.

    Scheduler recovery.  [SafePayload] is SCH/safe_payload.py, [Recovery] is
    SCH/recovery.py: the attempts of every logical execution, their hash-chained
    checkpoints and the commits.  [RecoveryInvariant], [RecoverySteps] and
    [RecoveryTotal] hold its theory, from rows to sessions that come and go,
    [RecoveryProperties] its properties.
    [Sharding] is SCH/sharding.py.

    Scale campaigns.  [ScaleLedger] is SCH/scale_recovery.py over the strict JSON of
    src/schemas/tooling ([ConformanceJson]): sessions, hash-chained segment commits and interruptions in
    SQLite tables, with the transaction a refused statement leaves open.
    [LedgerInvariant] is what every ledger satisfies and how each operation ends,
    [LedgerProperties] what the ledger guarantees.  [ScaleController]
    is ScaleCampaignController of SCALE/execution.py over that ledger; [ScaleRuns]
    shows that each of its parts is a sequence of ledger operations,
    [ScaleProperties] that a session ends and what a completed or interrupted
    campaign has recorded, [ScaleLiveness] that a campaign gets done.

    Evidence.  [Bytes] holds UTF-8, base 64 and what it means that bytes read back.
    [TokenCodec] is [TokenTables] of SCALE/factorized_evidence.py, the tables and the
    variable-length integers evidence documents are written with; [TokenBytes] shows
    that the parts read back (with a model of the binary64 arithmetic of [timestamp]),
    [TokenCorrect] that tables and values do, that the tables of some documents encode
    them, what equal documents are and that decoding ends; [TokenProperties] states it.

    Engine adapters.  [AdapterFrames] is errors.py and jsonio.py of ADAPTERS and shows
    what a frame carries, [AdapterModel] its model.py over the dicts of [Dicts],
    [AdapterServer] its server.py with the shared parts of backend.py.  [AdapterData] shows
    which records are data, [AdapterSessions] that the server is a conversation of messages
    and what a check raises; [AdapterProperties] states it.

    Identity.  [TypedIds] is formats.py and the identifiers of identity.py of
    src/schemas/tooling/python/regex_conformance_schema/: their grammar, the registry of
    namespaces, the generator and the guard against collisions.  [IdentityProfile] is
    profile.py and the content identities of identity.py: which facts identify a record
    and the one form all values alike are projected to.

    Campaigns.  [CampaignCoordinator] is CP/campaign_manager.py, which gives the shards of
    [Sharding] to workers, numbers their attempts with [TypedIds] and publishes them.

    Faults.  [FaultAttribution] is CP/fault_attribution.py: the closed set of facts about
    an injected fault and the layer it is attributed to.

    The operational state.  [StateRecords] is CP/state_models.py from its records
    on, and the migration of CP/state_store.py; [StateStore] and [StateOperations] are
    the rest of CP/state_store.py: the seven tables, their decoding and verification, and
    the operations of [LocalStateStore]; [StateReconciler] its reconciler and service.
    [StateCodec] shows that rows decode to what was encoded; [StateInvariant] and
    [StateSteps] that writing a record, a session, a batch and a reconciliation keep the
    invariant [store_ok], in every sequence of sessions ([reachable]); [StateConvergence] is the theory of plans.
    [StateProperties] states what the store guarantees.  [Rows] holds the lemmas on
    tables as lists that the stores share.

    ** How definitions correspond to the code

    A dataclass is a [Record] of the same name whose [Dataclass] instance is its
    [__post_init__], guard by guard with the source's messages; a field the source
    fixes to a constant (schema versions, authority flags) is not stored and is
    written by [to_dict].  A method is a definition of the same name; one that
    returns or raises is in [result], one that calls collaborators is in the
    effect monad of [Effects], whose world survives an exception.  A SQLite
    transaction is a function from the tables to the new tables: an operation that
    raises returns none, which is the rollback of the source.  [isinstance] guards
    hold by typing, so their branches are absent.  A Python string is a Rocq
    [string] of Latin-1 characters; integers are [Z], with the guards the source
    writes (safe integers, 64-bit columns).

    ** Parameters: what the source calls but does not contain

    [JCS] and [JCSLaws] (package rfc8785: total on documents without floats, and
    decodes back, also an object of members that do, [stable];
    [reference_laws] proves the laws of a concrete serializer), [PyTables] (the
    interpreter's character tables and its check of bracketed hosts), [PyFloat]
    ([float] of a numeral), [NFC] (unicodedata), [JCSError] and [OSText] (texts of
    foreign exceptions), [FileSystem] and [ArtifactFiles] (os, pathlib), the clock,
    identifier and publisher classes of [Effects], the cache and environment
    providers and the calibrator (protocol classes of the source).  SHA-256 is a
    concrete definition; no theorem assumes it to be injective.  [JCSDomain] says that
    rfc8785 refuses integers beyond 2^53, [ScaleWorld] is the worker, the evidence
    store and the store of logical executions of a campaign, [ScaleWorldLaws] that
    their documents are plain and [Cooperative] that their calls return; what the
    schema validation says of a report is open, and decides whether [execute] returns
    it.  [Platform]
    is the C library's text of a year and its error for a date out of range,
    [AdapterBackend] the protocol class of that name, which calls a regex engine.
    [IdSource] and [IdSourceLaws] are the clock and the random bits of identifiers,
    [Campaign] the worker and the evidence sink of a campaign.

    ** The properties

    A property's doc comment starts with its claim number; this is where to find
    them.  [ResourceAdmission], [AdmissionTotal]: a report admits exactly when the
    contract holds, is always built on well-formed inputs, and backpressure means
    that only capacity is short.  [RecoveryProperties]: the audit rejects a journal it
    wrote only when the text of a stored payload does not read back ([readable]), which
    takes a float (1e16, stored as an integer, locks the journal: [float_payload_locks]);
    an execution is committed once, each operation moves one execution as its state
    machine allows, and a restart completes.  [Sharding]:
    every execution is in exactly one shard (a lemma).  [JournalProperties]: draining from a
    cursor that is neither evicted nor ahead yields every later event once and in order,
    a reachable journal always verifies, stored texts and columns included, publishing
    is idempotent, a terminal stream is closed.  [Secrets]:
    what the filter lets through.  [CacheProperties]: only evictable entries are
    selected and only after a matching inspection deleted, the selection is
    minimal, a refusal is justified.  [TransferProperties]: a
    resumed transfer completes with the exact content.  [EnvProperties],
    [EnvJournal]: ready means verified, a realization always settles, every history
    follows the state machine, and two ways a cancellation raises (lemmas).
    [PlanProperties]: telemetry is read back as written, calibration is a
    percentile (a lemma), and plans of environments become decisions.  [StateProperties]: the
    state store never locks itself out while its clock moves forward, what it reads
    is well typed, a batch is an atomic and idempotent compare-and-set that needs a
    reconciliation first (a lemma), ready means that fresh observations agree with every
    record, reconciling again finds nothing to do; and two ways into a store that
    cannot be opened: a crash during creation, and a clock that went back.
    [LedgerProperties]: a shard ledger always verifies, commits a result once and is
    bound by its last digest (a lemma), and a refused statement blocks it.
    [ScaleProperties], [ScaleLiveness]: a session ends (a lemma), works by ledger operations within the plan,
    stops exactly at planned interruptions and completes with one result per shard;
    and with collaborators that return the ledger of the campaign is completed.  [TokenProperties]: an
    archive reads back as equal documents, equal documents have equal bytes, every input
    is decoded or refused, and the bounds of integers and instants.  [FaultAttribution]:
    a fault counts as an observation of the target exactly when nothing else explains it.  [TypedIds]: the
    registry accepts exactly the texts of well-formed registered identifiers; generated
    ones are among them, and the collision guard keeps the first bytes (lemmas).
    [IdentityProfile]: projection is canonical, and content identifiers bind what they
    identify.  [CampaignCoordinator]: a manifest means one published target response per
    logical execution.  [AdapterProperties]:
    a stream of frames carries its messages, a datum has one record, a handshake accepts
    exactly the compatible offers, every request is answered, and a session of any
    bytes is a conversation.

    ** Fuel and bounds

    [loads] runs with fuel 2 * (length + 1), which [loads_fuel] shows is always
    enough.  A transfer attempt reads at most as many blocks as its fuel, a
    parameter of the statement; [transfer_completes] holds for every fuel above
    the content's length.  The loop of a campaign session has as its fuel the passes
    it may take; more than three per shard are never used ([execute_terminates]).  The
    loops of the decoders of [TokenCodec] and of [serve] have the length of their input
    as fuel, since every pass reads a byte ([decode_value_total],
    [serve_conversation]); [_uvarint] has the bits of its value.  Every other recursion
    is structural, and the interpreter's limit on its depth is not modelled.  Ages are compared
    exactly; the source compares floating-point seconds, which is the same
    comparison below 2^34 seconds.  [fromisoformat] is modelled on the RFC 3339
    profile, [loads] on documents whose characters are Latin-1 (others raise).

    ** Not modelled

    In CP: of state_store.py the path checks, the process lock, the PRAGMA settings
    and schema-object checks, and the rebuild of a damaged database; the machine
    doctor and discovery (they read the machine), the command line and its
    controller, containment and its runner (process isolation), the disk-pressure and operating-envelope qualifications and certified
    environments (scripts over the modelled services), [FilesystemCacheProvider]
    (a file-system walk).  In SCALE/execution.py: ScaleLogicalStore, which reads and
    checks segment files, and the plan check of the constructor; of
    factorized_evidence.py the compressed blocks of an archive and its forecasts.  In
    ADAPTERS: the bindings of the engines, the manifests read from files, and the
    diagnostics decoded with replacement characters, which are beyond Latin-1.
    Elsewhere in src/: the rest of the schema tooling, campaign compilers and evidence packs, the
    warehouse and the verifier, which compile and check JSON artifacts; the tools and
    CI scripts.  Also left out everywhere: SQLite itself, file
    permissions, process locks and waiting. *)

From Stdlib Require Export String Ascii ZArith Lia Sorted Permutation.
From stdpp Require Export prelude strings gmap list pretty.

#[global] Open Scope string_scope.
#[global] Open Scope list_scope.
#[global] Open Scope Z_scope.

(** [lia] also reasons about division and remainder by constants. *)
Ltac Zify.zify_post_hook ::= Z.to_euclidean_division_equations.

(** ** Python exceptions and the result monad *)

(** The exception classes the modelled functions raise, each with the message
    the source passes to its constructor. *)
Inductive exn :=
| ValueError (msg : string)
| OverflowError (msg : string)
| KeyError (msg : string)
| StopIteration
| StateModelError (msg : string)
| SecretMaterialError (msg : string)
| EventModelError (msg : string)
| EventJournalConflictError (msg : string)
| EventCursorGapError (requested oldest : Z)
| TransferIntegrityError (msg : string)
| InvalidLifecycleTransition (msg : string)
| LifecycleVerificationError (code msg : string)
| ProviderOperationError (code msg : string) (cleanup_handle : option string) (diagnostics : list string)
| FaultAttributionError (msg : string)
| MatrixCompileError (msg : string)
| CampaignExecutionError (msg : string)
| StateConflictError (msg : string)
| StateAdmissionError (msg : string)
| StaleReconciliationPlanError (msg : string)
| StateCorruptionError (msg : string)
| OSError (cls : string) (errno : Z)
| AdapterException (cls code msg layer kind : string)
| OtherException (cls msg : string).

#[export] Instance exn_eq_dec : EqDecision exn.
Proof. solve_decision. Defined.

(** A call either returns or raises. *)
Inductive result (A : Type) : Type :=
| Ok (a : A)
| Raise (e : exn).
Arguments Ok {A} a.
Arguments Raise {A} e.

#[export] Instance result_eq_dec `{EqDecision A} : EqDecision (result A).
Proof. solve_decision. Defined.

#[export] Instance result_ret : MRet result := fun A a => Ok a.
#[export] Instance result_bind : MBind result := fun A B f m =>
  match m with Ok a => f a | Raise e => Raise e end.
#[export] Instance result_fmap : FMap result := fun A B f m =>
  match m with Ok a => Ok (f a) | Raise e => Raise e end.

(** [if c: raise e] as a statement. *)
Definition raise_if (c : bool) (e : exn) : result unit :=
  if c then Raise e else Ok tt.

Definition is_ok {A} (m : result A) : bool :=
  match m with Ok _ => true | Raise _ => false end.

(** [try: m except: h] *)
Definition try_except {A} (m : result A) (h : exn -> result A) : result A :=
  match m with Ok a => Ok a | Raise e => h e end.

(** [for x in l: f x], stopping at the first exception. *)
Definition for_each {A} (l : list A) (f : A -> result unit) : result unit :=
  (fix go (l : list A) : result unit :=
     match l with
     | [] => Ok tt
     | x :: l' => _ ← f x; go l'
     end) l.

Fixpoint map_result {A B} (f : A -> result B) (l : list A) : result (list B) :=
  match l with
  | [] => Ok []
  | x :: l' => y ← f x; ys ← map_result f l'; Ok (y :: ys)
  end.

(** A loop that carries a state. *)
Fixpoint fold_result {A B} (f : A -> B -> result A) (l : list B) (a : A) : result A :=
  match l with [] => Ok a | x :: l' => a' ← f a x; fold_result f l' a' end.

(** A frozen dataclass whose [__post_init__] validates its fields: [construct]
    is the constructor call, [valid] the condition that it returns. *)
Class Dataclass (A : Type) := post_init : A -> result unit.
Definition construct `{Dataclass A} (x : A) : result A := _ ← post_init x; Ok x.
Definition valid `{Dataclass A} (x : A) : Prop := post_init x = Ok tt.
#[export] Instance valid_dec `{Dataclass A} (x : A) : Decision (valid x).
Proof. unfold valid. apply _. Defined.

Section ResultLemmas.
Context {A B : Type}.

Lemma bind_ok (m : result A) (f : A -> result B) (b : B) :
  (x ← m; f x) = Ok b <-> exists a, m = Ok a /\ f a = Ok b.
Proof. destruct m; cbn; split; naive_solver. Qed.

Lemma bind_Ok_l (a : A) (f : A -> result B) : (x ← Ok a; f x) = f a.
Proof. done. Qed.

Lemma bind_unit_ok (m : result unit) (f : unit -> result B) (b : B) :
  (x ← m; f x) = Ok b <-> m = Ok tt /\ f tt = Ok b.
Proof. destruct m as [[]|]; cbn; split; naive_solver. Qed.

Lemma is_ok_spec (m : result A) : is_ok m = true <-> exists a, m = Ok a.
Proof. destruct m; cbn; naive_solver. Qed.
End ResultLemmas.

Lemma raise_if_ok c e u : raise_if c e = Ok u <-> c = false.
Proof. destruct c, u; cbn; naive_solver. Qed.

Lemma for_each_ok {A} (l : list A) f u :
  for_each l f = Ok u <-> Forall (fun x => f x = Ok tt) l.
Proof.
  destruct u. unfold for_each. induction l as [|x l IH].
  - split; auto.
  - rewrite Forall_cons, <- IH. destruct (f x) as [[]|e]; cbn; naive_solver.
Qed.

Lemma map_result_ok {A B} (f : A -> result B) l ys :
  map_result f l = Ok ys <-> Forall2 (fun x y => f x = Ok y) l ys.
Proof.
  revert ys. induction l as [|x l IH]; intros ys; cbn.
  - split; [intros [= <-]; constructor | by inversion 1].
  - rewrite bind_ok. setoid_rewrite bind_ok. setoid_rewrite IH. split.
    + intros (y & Hy & ys' & H & [= <-]). by constructor.
    + inversion 1; subst. eauto 10.
Qed.

Lemma construct_ok `{Dataclass A} (x y : A) :
  construct x = Ok y <-> valid x /\ y = x.
Proof.
  unfold construct, valid. destruct (post_init x) as [[]|e]; cbn; naive_solver.
Qed.

Lemma construct_valid `{Dataclass A} (x : A) : valid x -> construct x = Ok x.
Proof. intros. by apply construct_ok. Qed.

(** ** Booleans, membership and duplicates *)

Definition mem (s : string) (l : list string) : bool := existsb (String.eqb s) l.

Lemma mem_spec s l : mem s l = true <-> s ∈ l.
Proof.
  unfold mem. rewrite existsb_exists, list_elem_of_In. split.
  - intros (x & Hx & ->%String.eqb_eq). done.
  - intros H. exists s. by rewrite String.eqb_refl.
Qed.

Lemma mem_false s l : mem s l = false <-> s ∉ l.
Proof. rewrite <- mem_spec. destruct (mem s l); naive_solver. Qed.

(** [len(values) != len(set(values))] *)
Definition has_duplicates `{EqDecision A} (l : list A) : bool := negb (bool_decide (NoDup l)).

Lemma has_duplicates_false `{EqDecision A} (l : list A) : has_duplicates l = false <-> NoDup l.
Proof. unfold has_duplicates. rewrite negb_false_iff. apply bool_decide_eq_true. Qed.

(** [not s] for a string, and [not o] for an optional string. *)
Definition str_empty (s : string) : bool := String.eqb s "".
Definition opt_str_empty (o : option string) : bool :=
  match o with None => true | Some s => str_empty s end.
Definition is_none {A} (o : option A) : bool := match o with None => true | Some _ => false end.
Definition is_some {A} (o : option A) : bool := negb (is_none o).
Definition list_empty {A} (l : list A) : bool := match l with [] => true | _ => false end.
(** [x or 0] *)
Definition or_zero (o : option Z) : Z := default 0 o.

Lemma is_none_true {A} (o : option A) : is_none o = true <-> o = None.
Proof. destruct o; cbn; naive_solver. Qed.
Lemma is_none_false {A} (o : option A) : is_none o = false <-> exists x, o = Some x.
Proof. destruct o; cbn; naive_solver. Qed.
Lemma list_empty_true {A} (l : list A) : list_empty l = true <-> l = [].
Proof. destruct l; cbn; naive_solver. Qed.
Lemma list_empty_false {A} (l : list A) : list_empty l = false <-> l <> [].
Proof. destruct l; cbn; naive_solver. Qed.

(** Split a hypothesis or goal about booleans into propositions. *)
Ltac bool_simp_step := match goal with
  | H : negb _ = true |- _ => apply negb_true_iff in H
  | H : negb _ = false |- _ => apply negb_false_iff in H
  | H : (_ || _)%bool = false |- _ => apply orb_false_iff in H as [? ?]
  | H : (_ && _)%bool = true |- _ => apply andb_true_iff in H as [? ?]
  | H : String.eqb _ _ = true |- _ => apply String.eqb_eq in H
  | H : String.eqb _ _ = false |- _ => apply String.eqb_neq in H
  | H : bool_decide _ = true |- _ => apply bool_decide_eq_true in H
  | H : bool_decide _ = false |- _ => apply bool_decide_eq_false in H
  | H : mem _ _ = true |- _ => apply mem_spec in H
  | H : mem _ _ = false |- _ => apply mem_false in H
  | H : has_duplicates _ = false |- _ => apply has_duplicates_false in H
  | H : is_none _ = true |- _ => apply is_none_true in H
  | H : list_empty _ = true |- _ => apply list_empty_true in H
  | H : list_empty _ = false |- _ => apply list_empty_false in H
  | |- negb _ = true => apply negb_true_iff
  | |- negb _ = false => apply negb_false_iff
  | |- (_ || _)%bool = false => apply orb_false_iff; split
  | |- (_ && _)%bool = true => apply andb_true_iff; split
  | |- String.eqb _ _ = true => apply String.eqb_eq
  | |- String.eqb _ _ = false => apply String.eqb_neq
  | |- mem _ _ = true => apply mem_spec
  | |- mem _ _ = false => apply mem_false
  | |- has_duplicates _ = false => apply has_duplicates_false
  end.
Ltac bool_simp := repeat bool_simp_step.

(** Invert a successful run of a monadic body into its guards. *)
Ltac ok_step := match goal with
  | H : mbind _ ?m = Ok _ |- _ =>
      let a := fresh "a" in let E := fresh "E" in
      apply bind_ok in H; destruct H as (a & E & H); try (match type of a with unit => destruct a end)
  | H : raise_if _ _ = Ok _ |- _ => apply raise_if_ok in H
  | H : Ok _ = Ok _ |- _ => injection H as H
  | H : Raise _ = Ok _ |- _ => discriminate H
  | H : for_each _ _ = Ok _ |- _ => apply for_each_ok in H
  end.
Ltac ok_inv := repeat ok_step.

(** Prove that a validator accepts: discharge its guards one by one. *)
Lemma bind_unit_intro {B} (m : result unit) (f : unit -> result B) (r : result B) :
  m = Ok tt -> f tt = r -> (mbind f m) = r.
Proof. by intros -> <-. Qed.
Lemma raise_if_intro c e : c = false -> raise_if c e = Ok tt.
Proof. by intros ->. Qed.
Ltac ok_intro_step := match goal with
  | |- mbind _ _ = _ => apply bind_unit_intro
  | |- raise_if _ _ = Ok tt => apply raise_if_intro
  | |- for_each _ _ = Ok tt => apply for_each_ok
  | |- Ok tt = Ok tt => reflexivity
  end.
Ltac ok_intro := repeat ok_intro_step.

(** ** Orders and [sorted] *)

(** The total order Python compares keys with. *)
Class PyOrd (K : Type) := {
  py_leb : K -> K -> bool;
  py_leb_total : forall a b, py_leb a b = true \/ py_leb b a = true;
  py_leb_trans : forall a b c, py_leb a b = true -> py_leb b c = true -> py_leb a c = true;
  py_leb_antisym : forall a b, py_leb a b = true -> py_leb b a = true -> a = b
}.

#[export] Instance Z_ord : PyOrd Z.
Proof. refine {| py_leb := Z.leb |}; intros; lia. Defined.

(** Strings compare by code point, a proper prefix first. *)
Fixpoint str_leb (s t : string) : bool :=
  match s, t with
  | EmptyString, _ => true
  | String _ _, EmptyString => false
  | String a s', String b t' =>
      (N_of_ascii a <? N_of_ascii b)%N ||
      ((N_of_ascii a =? N_of_ascii b)%N && str_leb s' t')
  end.

Lemma N_of_ascii_inj a b : N_of_ascii a = N_of_ascii b -> a = b.
Proof. intros H. by rewrite <- (ascii_N_embedding a), <- (ascii_N_embedding b), H. Qed.

Lemma str_leb_cons a s b t :
  str_leb (String a s) (String b t) = true <->
  (N_of_ascii a < N_of_ascii b)%N \/ (a = b /\ str_leb s t = true).
Proof.
  cbn. rewrite orb_true_iff, andb_true_iff, N.ltb_lt, N.eqb_eq. split.
  - intros [H|[H ?]]; [by left|]. apply N_of_ascii_inj in H. auto.
  - intros [H|[-> ?]]; auto.
Qed.

#[export] Instance string_ord : PyOrd string.
Proof.
  refine {| py_leb := str_leb |}.
  - intros a. induction a as [|x a IH]; intros [|y b]; auto.
    rewrite !str_leb_cons. destruct (IH b), (N.lt_total (N_of_ascii x) (N_of_ascii y)) as [?|[?|?]];
      auto using N_of_ascii_inj.
  - intros a. induction a as [|x a IH]; intros [|y b] [|z c]; try done.
    rewrite !str_leb_cons. intros [?|[-> ?]] [?|[-> ?]]; eauto using N.lt_trans.
  - intros a. induction a as [|x a IH]; intros [|y b]; try done.
    rewrite !str_leb_cons. intros [?|[-> ?]] [?|[? ?]]; subst; try lia. f_equal. auto.
Defined.

#[export] Instance prod_ord `{PyOrd A} `{EqDecision A} `{PyOrd B} : PyOrd (A * B).
Proof.
  refine {| py_leb := fun p q =>
    if decide (p.1 = q.1) then py_leb p.2 q.2 else py_leb p.1 q.1 |}.
  - intros [a b] [c d]; cbn. repeat case_decide; subst; try congruence; apply py_leb_total.
  - intros [a b] [c d] [e f]; cbn. repeat case_decide; subst; try congruence; eauto using py_leb_trans.
    intros H3 H4. exfalso. eauto using py_leb_antisym.
  - intros [a b] [c d]; cbn. repeat case_decide; subst; try congruence; intros.
    + f_equal. by apply py_leb_antisym.
    + exfalso. eauto using py_leb_antisym.
Defined.

(** [sorted(l, key=f)]: a stable insertion sort. *)
Section Sorting.
Context {A : Type} {K : Type} `{PyOrd K} (key : A -> K).

Definition key_leb (x y : A) : bool := py_leb (key x) (key y).
Definition key_le (x y : A) : Prop := key_leb x y = true.

Fixpoint insert_sorted (x : A) (l : list A) : list A :=
  match l with
  | [] => [x]
  | y :: l' => if key_leb x y then x :: l else y :: insert_sorted x l'
  end.

Definition sorted_by (l : list A) : list A := foldr insert_sorted [] l.

Lemma insert_sorted_perm x l : insert_sorted x l ≡ₚ x :: l.
Proof.
  induction l as [|y l IH]; cbn; [done|]. destruct (key_leb x y); [done|].
  rewrite IH. apply perm_swap.
Qed.

Lemma sorted_by_perm l : sorted_by l ≡ₚ l.
Proof.
  induction l as [|x l IH]; cbn; [done|]. rewrite insert_sorted_perm. by apply perm_skip.
Qed.

Lemma insert_sorted_sorted x l :
  StronglySorted key_le l -> StronglySorted key_le (insert_sorted x l).
Proof.
  induction 1 as [|y l Hl IH Hy]; cbn; [repeat constructor|].
  destruct (key_leb x y) eqn:E.
  - constructor; [by constructor|]. constructor; [done|].
    eapply Forall_impl; [done|]. intros z Hz. unfold key_le, key_leb in *.
    eauto using py_leb_trans.
  - constructor; [done|]. rewrite insert_sorted_perm. constructor; [|done].
    unfold key_le, key_leb in *. destruct (py_leb_total (key x) (key y)); congruence.
Qed.

Lemma sorted_by_sorted l : StronglySorted key_le (sorted_by l).
Proof. induction l; cbn; [constructor|]. by apply insert_sorted_sorted. Qed.

Lemma sorted_by_id l : StronglySorted key_le l -> sorted_by l = l.
Proof.
  induction 1 as [|x l Hl IH Hx]; [done|].
  change (insert_sorted x (sorted_by l) = x :: l). rewrite IH.
  destruct l as [|y l]; cbn; [done|].
  inversion_clear Hx as [|? ? Hxy ?]. unfold key_le in Hxy. by rewrite Hxy.
Qed.

Lemma elem_of_sorted_by x l : x ∈ sorted_by l <-> x ∈ l.
Proof. by rewrite sorted_by_perm. Qed.

Lemma length_sorted_by l : length (sorted_by l) = length l.
Proof. by rewrite sorted_by_perm. Qed.

(** With distinct keys the sorted list depends only on the multiset. *)
Lemma sorted_unique l1 l2 :
  NoDup (key <$> l1) -> StronglySorted key_le l1 -> StronglySorted key_le l2 ->
  l1 ≡ₚ l2 -> l1 = l2.
Proof.
  intros Hnd Hs1. revert Hnd l2. induction Hs1 as [|x l1 Hs1 IH Hx]; intros Hnd l2 Hs2 Hp.
  - symmetry. by apply Permutation_nil.
  - destruct l2 as [|y l2]; [by apply symmetry, Permutation_nil in Hp|].
    apply StronglySorted_inv in Hs2 as [Hs2 Hy]. cbn in Hnd. apply NoDup_cons in Hnd as [Hni Hnd].
    assert (x = y) as ->.
    { assert (y ∈ x :: l1) as Hin by (rewrite Hp; left).
      assert (x ∈ y :: l2) as Hin2 by (rewrite <- Hp; left).
      apply elem_of_cons in Hin as [->|Hin]; [done|].
      apply elem_of_cons in Hin2 as [->|Hin2]; [done|].
      rewrite Forall_forall in Hx, Hy.
      exfalso. apply Hni. rewrite (py_leb_antisym (key x) (key y) (Hx _ Hin) (Hy _ Hin2)).
      by apply list_elem_of_fmap_2. }
    f_equal. apply IH; [done|done|]. by apply Permutation_cons_inv in Hp.
Qed.

Lemma sorted_by_ext l1 l2 :
  NoDup (key <$> l1) -> l1 ≡ₚ l2 -> sorted_by l1 = sorted_by l2.
Proof.
  intros Hnd Hp. apply sorted_unique; auto using sorted_by_sorted.
  - by rewrite sorted_by_perm.
  - by rewrite !sorted_by_perm.
Qed.
End Sorting.

Lemma insert_sorted_Forall2 {A B K} `{PyOrd K} (f : A -> K) (g : B -> K) (R : A -> B -> Prop) x y l k :
  (forall a b, R a b -> f a = g b) -> R x y -> Forall2 R l k -> Forall2 R (insert_sorted f x l) (insert_sorted g y k).
Proof.
  intros HR Hxy. induction 1 as [|a b l k Hab Hlk IH]; cbn; [by repeat constructor|].
  unfold key_leb. rewrite (HR _ _ Hxy), (HR _ _ Hab). destruct (py_leb _ _); by repeat constructor.
Qed.

(** Sorting commutes with a map that keeps the keys. *)
Lemma sorted_by_Forall2 {A B K} `{PyOrd K} (f : A -> K) (g : B -> K) (R : A -> B -> Prop) l k :
  (forall a b, R a b -> f a = g b) -> Forall2 R l k -> Forall2 R (sorted_by f l) (sorted_by g k).
Proof. intros HR. induction 1; cbn; [done|]. by apply insert_sorted_Forall2. Qed.

Definition sorted_strings (l : list string) : list string := sorted_by id l.
(** [sorted(set(l))] *)
Definition sorted_set (l : list string) : list string := sorted_strings (remove_dups l).

(** ** Boolean filters *)

Lemma existsb_false {A} (f : A -> bool) l : existsb f l = false <-> Forall (fun x => f x = false) l.
Proof.
  induction l as [|x l IH]; cbn; [split; auto|]. rewrite orb_false_iff, Forall_cons, IH. done.
Qed.

Lemma elem_of_lfilter {A} (f : A -> bool) l x : x ∈ List.filter f l <-> x ∈ l /\ f x = true.
Proof. by rewrite !list_elem_of_In, List.filter_In. Qed.

Lemma NoDup_fmap_lfilter {A B} (f : A -> B) (P : A -> bool) l :
  NoDup (f <$> l) -> NoDup (f <$> List.filter P l).
Proof.
  induction l as [|x l IH]; [done|]. cbn [List.filter]. rewrite fmap_cons. intros [Hn Hd]%NoDup_cons.
  destruct (P x); [|auto]. rewrite fmap_cons. apply NoDup_cons. split; [|auto].
  intros (y & E & [Hy _]%elem_of_lfilter)%list_elem_of_fmap. apply Hn. rewrite E. by apply list_elem_of_fmap_2.
Qed.

Lemma Forall2_lfilter {A B} (R : A -> B -> Prop) (p : A -> bool) (q : B -> bool) l k :
  (forall a b, R a b -> p a = q b) -> Forall2 R l k -> Forall2 R (List.filter p l) (List.filter q k).
Proof. intros Hpq. induction 1 as [|a b l k Hab Hf IH]; cbn; [done|]. rewrite (Hpq _ _ Hab). destruct (q b); by repeat constructor. Qed.

Lemma NoDup_fmap_elem_inj {A B} (f : A -> B) l x y : NoDup (f <$> l) -> x ∈ l -> y ∈ l -> f x = f y -> x = y.
Proof.
  induction l as [|z l IH]; [by intros _ ?%elem_of_nil|]. rewrite fmap_cons. intros [Hz Hn]%NoDup_cons.
  intros [->|Hx]%elem_of_cons [->|Hy]%elem_of_cons E; [done|..|by apply IH].
  - destruct Hz. rewrite E. by apply list_elem_of_fmap_2.
  - destruct Hz. rewrite <- E. by apply list_elem_of_fmap_2.
Qed.

Lemma elem_of_sorted_set l k : k ∈ sorted_set l <-> k ∈ l.
Proof. unfold sorted_set, sorted_strings. by rewrite elem_of_sorted_by, elem_of_remove_dups. Qed.

Lemma NoDup_sorted_set l : NoDup (sorted_set l).
Proof. unfold sorted_set, sorted_strings. rewrite sorted_by_perm. apply NoDup_remove_dups. Qed.

(** ** Dictionaries built by a comprehension [{key(x): x for x in l}] *)
Definition dict_of {A} (key : A -> string) (l : list A) : gmap string A :=
  foldl (fun m x => <[key x := x]> m) ∅ l.

Lemma dict_of_snoc {A} (key : A -> string) l x :
  dict_of key (l ++ [x]) = <[key x := x]> (dict_of key l).
Proof. unfold dict_of. by rewrite foldl_app. Qed.

Lemma dict_of_lookup_elem {A} (key : A -> string) l k x :
  dict_of key l !! k = Some x -> x ∈ l /\ key x = k.
Proof.
  induction l as [|y l IH] using rev_ind; [done|]. rewrite dict_of_snoc.
  destruct (decide (key y = k)) as [<-|Hne].
  - rewrite lookup_insert_eq. intros [= <-]. set_solver.
  - rewrite lookup_insert_ne by done. intros [??]%IH. set_solver.
Qed.

Lemma dict_of_lookup {A} (key : A -> string) l x :
  NoDup (key <$> l) -> x ∈ l -> dict_of key l !! key x = Some x.
Proof.
  induction l as [|y l IH] using rev_ind; [by intros _ ?%elem_of_nil|].
  rewrite fmap_app, NoDup_app, dict_of_snoc. intros (Hl & Hd & _) Hx.
  apply elem_of_app in Hx as [Hx|Hx].
  - rewrite lookup_insert_ne; [auto|]. intros E. apply (Hd (key x)).
    + by apply list_elem_of_fmap_2.
    + rewrite <- E. cbn. left.
  - apply list_elem_of_singleton in Hx as ->. apply lookup_insert_eq.
Qed.

Lemma dict_of_lookup_None {A} (key : A -> string) l k :
  dict_of key l !! k = None <-> k ∉ (key <$> l).
Proof.
  induction l as [|y l IH] using rev_ind; [set_solver|].
  rewrite dict_of_snoc, lookup_insert_None, IH, fmap_app. cbn. set_solver.
Qed.

(** [sum(values)] *)
Fixpoint sumZ (l : list Z) : Z := match l with [] => 0 | x :: l' => x + sumZ l' end.

Lemma sumZ_nonneg l : Forall (fun z => 0 <= z) l -> 0 <= sumZ l.
Proof. induction 1; cbn; lia. Qed.

Lemma sumZ_app l k : sumZ (l ++ k) = sumZ l + sumZ k.
Proof. induction l as [|x l IH]; cbn; lia. Qed.

Lemma sumZ_in l x : Forall (fun z => 0 <= z) l -> x ∈ l -> x <= sumZ l.
Proof.
  induction 1 as [|y l Hy Hl IH]; [by intros ?%elem_of_nil|].
  intros [->|Hx]%elem_of_cons; cbn; [apply sumZ_nonneg in Hl; lia|]. specialize (IH Hx). lia.
Qed.

(** ** Numbered lists *)

(** [tuple(range(1, n + 1))] *)
Definition ranks (n : nat) : list Z := (fun i => Z.of_nat (S i)) <$> seq 0 n.

Lemma ranks_S n : ranks (S n) = ranks n ++ [Z.of_nat n + 1].
Proof.
  unfold ranks. rewrite seq_S, fmap_app. cbn [fmap list_fmap Nat.add]. do 2 f_equal. lia.
Qed.

Lemma length_ranks n : length (ranks n) = n.
Proof. unfold ranks. by rewrite length_fmap, length_seq. Qed.

Lemma NoDup_ranks n : NoDup (ranks n).
Proof. unfold ranks. apply NoDup_fmap_2; [intros x y ?; lia|apply NoDup_ListNoDup, List.seq_NoDup]. Qed.
