(* ===== verification/Rows.v ===== *)
(** * Rows of a table

    What sorting, filtering, searching and updating the rows of a table do to one
    another, for the stores on SQLite. *)

From S2P Require Export Prelude.

(** ** Sorting rows *)

Lemma insert_sorted_last {A} (key : A -> Z) x y l :
  key x < key y -> insert_sorted key x (l ++ [y]) = insert_sorted key x l ++ [y].
Proof.
  intros Hxy. induction l as [|z l IH]; cbn [app insert_sorted].
  - unfold key_leb. cbn. destruct (Z.leb_spec (key x) (key y)); [done|lia].
  - destruct (key_leb key x z); [done|]. by rewrite IH.
Qed.

Lemma sorted_by_last {A} (key : A -> Z) y l :
  Forall (fun x => key x < key y) l -> sorted_by key (l ++ [y]) = sorted_by key l ++ [y].
Proof.
  induction 1 as [|x l Hx _ IH]; [done|]. change (sorted_by key ((x :: l) ++ [y])) with
    (insert_sorted key x (sorted_by key (l ++ [y]))). by rewrite IH, insert_sorted_last.
Qed.

Lemma sorted_by_update {A K} `{PyOrd K} (key : A -> K) (f : A -> A) l :
  (forall x, key (f x) = key x) -> sorted_by key (f <$> l) = f <$> sorted_by key l.
Proof.
  intros Hf. induction l as [|x l IH]; [done|]. change (insert_sorted key (f x) (sorted_by key (f <$> l)) =
    f <$> insert_sorted key x (sorted_by key l)). rewrite IH. clear IH. induction (sorted_by key l) as [|y k IH]; [done|].
  cbn. unfold key_leb. rewrite !Hf. destruct (py_leb (key x) (key y)); [done|]. cbn. by rewrite IH.
Qed.

Lemma filter_update {A} (p : A -> bool) (f : A -> A) l :
  (forall x, p (f x) = p x) -> List.filter p (f <$> l) = f <$> List.filter p l.
Proof. intros Hf. induction l as [|x l IH]; [done|]. cbn. rewrite Hf. destruct (p x); cbn; by rewrite IH. Qed.

Lemma filter_app {A} (p : A -> bool) l k : List.filter p (l ++ k) = List.filter p l ++ List.filter p k.
Proof. apply List.filter_app. Qed.

Lemma find_update {A} (p : A -> bool) (f : A -> A) l :
  (forall x, p (f x) = p x) -> List.find p (f <$> l) = f <$> List.find p l.
Proof. intros Hf. induction l as [|x l IH]; [done|]. cbn. rewrite Hf. by destruct (p x). Qed.

Lemma find_app {A} (p : A -> bool) l k :
  List.find p (l ++ k) = match List.find p l with Some x => Some x | None => List.find p k end.
Proof. induction l as [|x l IH]; [done|]. cbn. by destruct (p x). Qed.

Lemma find_key {A} (key : A -> string) l x :
  NoDup (key <$> l) -> x ∈ l -> List.find (fun y => String.eqb (key y) (key x)) l = Some x.
Proof.
  intros Hn Hx. destruct (List.find _ l) as [y|] eqn:E.
  - apply List.find_some in E as [Hy ->%String.eqb_eq%(NoDup_fmap_elem_inj key l)]; auto. by apply list_elem_of_In.
  - apply list_elem_of_In in Hx. apply (List.find_none _ _ E) in Hx. by rewrite String.eqb_refl in Hx.
Qed.

Lemma find_key_none {A} (key : A -> string) l k :
  List.find (fun y => String.eqb (key y) k) l = None <-> k ∉ (key <$> l).
Proof.
  split.
  - intros E (x & -> & Hx)%list_elem_of_fmap. apply list_elem_of_In in Hx. apply (List.find_none _ _ E) in Hx.
    by rewrite String.eqb_refl in Hx.
  - intros Hk. destruct (List.find _ l) as [y|] eqn:E; [|done]. apply List.find_some in E as [Hy <-%String.eqb_eq].
    destruct Hk. by apply list_elem_of_fmap_2, list_elem_of_In.
Qed.

Lemma existsb_key {A} (key : A -> string) l k :
  existsb (fun y => String.eqb (key y) k) l = false <-> k ∉ (key <$> l).
Proof.
  rewrite existsb_false, Forall_forall. split.
  - intros Hf (x & -> & Hx)%list_elem_of_fmap. specialize (Hf x Hx). cbn in Hf. by rewrite String.eqb_refl in Hf.
  - intros Hk x Hx. apply String.eqb_neq. intros <-. destruct Hk. by apply list_elem_of_fmap_2.
Qed.

Lemma NoDup_snoc {A} (l : list A) x : NoDup (l ++ [x]) <-> NoDup l /\ (x ∉ l).
Proof. rewrite NoDup_app. split; [intros (? & Hx & _); split; [done|]; intros ?; by apply (Hx x); [|left]|].
  intros [? Hx]. split_and!; [done| |apply NoDup_singleton]. intros y Hy ->%list_elem_of_singleton. done. Qed.

Lemma filter_none {A} (p : A -> bool) l : Forall (fun x => p x = false) l -> List.filter p l = [].
Proof. induction 1 as [|x l Hx _ IH]; [done|]. cbn. by rewrite Hx. Qed.

Lemma Forall_sorted_by {A K} `{PyOrd K} (key : A -> K) (P : A -> Prop) l : Forall P l -> Forall P (sorted_by key l).
Proof. by rewrite sorted_by_perm. Qed.

Lemma filter_shorter {A} (p q : A -> bool) l x :
  (forall y, p y = true -> q y = true) -> x ∈ l -> q x = true -> p x = false -> (length (List.filter p l) < length (List.filter q l))%nat.
Proof.
  intros Hpq Hin Hq Hp. assert (forall l', (length (List.filter p l') <= length (List.filter q l'))%nat) as Hle.
  { induction l' as [|y l' IH]; cbn; [done|]. specialize (Hpq y). destruct (p y), (q y); cbn; lia. }
  induction l as [|y l IH]; [by apply elem_of_nil in Hin|]. cbn. apply elem_of_cons in Hin as [->|Hin].
  - rewrite Hp, Hq. cbn. specialize (Hle l). lia.
  - specialize (IH Hin). specialize (Hpq y). destruct (p y), (q y); cbn; lia.
Qed.

(** ** Folding and mapping what may raise *)

Lemma fold_result_app {A B} (f : A -> B -> result A) l k a :
  fold_result f (l ++ k) a = (a' ← fold_result f l a; fold_result f k a').
Proof. revert a. induction l as [|x l IH]; intros a; cbn; [done|]. destruct (f a x); cbn; [apply IH|done]. Qed.

Lemma map_result_returns {A B} (f : A -> result B) (P : A -> B -> Prop) l :
  Forall (fun x => exists y, f x = Ok y /\ P x y) l -> exists ys, map_result f l = Ok ys /\ Forall2 P l ys.
Proof.
  induction 1 as [|x l (y & Hy & Py) _ (ys & Hys & Pys)]; [by exists []|]. exists (y :: ys). cbn. rewrite Hy. cbn. rewrite Hys. by split; [|constructor].
Qed.

(** ** Dicts as association lists *)

(** [fields.get(key)] *)
Definition find_field {A} (key : string) (fields : list (string * A)) : option A := snd <$> List.find (fun p => String.eqb p.1 key) fields.
Lemma find_field_found {A} (fields : list (string * A)) p : NoDup (fst <$> fields) -> p ∈ fields -> find_field p.1 fields = Some p.2.
Proof. intros Hn Hp. unfold find_field. by rewrite (find_key fst fields p Hn Hp). Qed.

Lemma find_field_in {A} key (fields : list (string * A)) x : find_field key fields = Some x -> (key, x) ∈ fields.
Proof.
  unfold find_field. destruct (List.find _ fields) as [[k y]|] eqn:E; [|done]. intros [= <-]. apply List.find_some in E as [Hin Hk].
  apply String.eqb_eq in Hk. cbn in Hk. subst. by apply list_elem_of_In.
Qed.
Lemma find_field_none {A} key (fields : list (string * A)) : find_field key fields = None <-> key ∉ (fst <$> fields).
Proof. unfold find_field. rewrite <- (find_key_none fst fields key). by destruct (List.find _ fields). Qed.
Lemma find_field_map {A B} (f : A -> B) key fields : find_field key ((fun p => (p.1, f p.2)) <$> fields) = f <$> find_field key fields.
Proof. unfold find_field. induction fields as [|p l IH]; [done|]. cbn. destruct (String.eqb p.1 key); [done|exact IH]. Qed.
Lemma find_field_perm {A} key (f g : list (string * A)) : NoDup (fst <$> f) -> f ≡ₚ g -> find_field key f = find_field key g.
Proof.
  intros Hn Hp. assert (NoDup (fst <$> g)) as Hn' by by rewrite <- Hp. destruct (find_field key f) as [x|] eqn:E.
  - apply find_field_in in E. symmetry. apply (find_field_found g (key, x) Hn'). by rewrite <- Hp.
  - apply find_field_none in E. symmetry. apply find_field_none. by rewrite <- Hp.
Qed.
