(* ===== verification/PyText.v ===== *)
(** * Python text: the string operations of the standard library the source uses

    A Python string is modelled by Rocq's [string], one [ascii] per code point
    (the Latin-1 range U+0000..U+00FF).  [repr], decimal and hexadecimal
    formatting, [str.join], substring search and UTF-8 encoding are executable
    definitions; [unicodedata.normalize("NFC", _)] is the parameter [NFC]. *)

From S2P Require Export Prelude.

#[global] Arguments String.append !_ _ : simpl nomatch.

Class NFC := nfc : string -> string.

(** Decimal rendering of an integer in an f-string. *)
Definition dec (z : Z) : string := pretty z.

Definition dquote : ascii := "034"%char.
Definition squote : ascii := "039"%char.
Definition backslash : ascii := "092"%char.
Definition newline : ascii := "010"%char.
Definition creturn : ascii := "013"%char.
Definition str1 (c : ascii) : string := String c EmptyString.

Definition hex_char (d : Z) : ascii :=
  ascii_of_N (Z.to_N (if d <? 10 then 48 + d else 87 + d)).

(** The low [4 * w] bits of [z] as [w] lowercase hexadecimal digits. *)
Fixpoint hexw (w : nat) (z : Z) : string :=
  match w with
  | O => EmptyString
  | S w' => String (hex_char (Z.land (Z.shiftr z (4 * Z.of_nat w')) 15)) (hexw w' z)
  end.

Definition code (c : ascii) : Z := Z.of_N (N_of_ascii c).

Definition is_digit (c : ascii) : bool := (48 <=? code c) && (code c <=? 57).
Definition is_lower (c : ascii) : bool := (97 <=? code c) && (code c <=? 122).
Definition is_upper (c : ascii) : bool := (65 <=? code c) && (code c <=? 90).
Definition is_hex_lower (c : ascii) : bool := is_digit c || ((97 <=? code c) && (code c <=? 102)).

(** [str.isprintable] on one Latin-1 character. *)
Definition is_printable (c : ascii) : bool :=
  ((32 <=? code c) && (code c <=? 126)) || ((161 <=? code c) && negb (code c =? 173)).

Fixpoint contains_char (c : ascii) (s : string) : bool :=
  match s with
  | EmptyString => false
  | String d s' => Ascii.eqb c d || contains_char c s'
  end.

(** [repr(s)]: single quotes unless the string holds one and no double quote. *)
Definition py_repr (s : string) : string :=
  let q := if contains_char squote s && negb (contains_char dquote s) then dquote else squote in
  let fix go (s : string) : string :=
    match s with
    | EmptyString => str1 q
    | String c s' =>
        (if Ascii.eqb c q || Ascii.eqb c backslash then String backslash (str1 c)
         else if Ascii.eqb c newline then String backslash "n"
         else if Ascii.eqb c creturn then String backslash "r"
         else if Ascii.eqb c "009"%char then String backslash "t"
         else if is_printable c then str1 c
         else String backslash (String "x"%char (hexw 2 (code c)))) +:+ go s'
    end in
  String q (go s).

(** [repr] of a list of strings, and of an optional string. *)
Definition py_repr_list (l : list string) : string :=
  "[" +:+ String.concat ", " (py_repr <$> l) +:+ "]".
Definition py_repr_opt (o : option string) : string :=
  match o with None => "None" | Some s => py_repr s end.

Definition join (sep : string) (l : list string) : string := String.concat sep l.

(** [p in s] for strings: [str_prefix] and substring search. *)
Definition str_startswith (s p : string) : bool := String.prefix p s.
Fixpoint str_contains (s p : string) : bool :=
  String.prefix p s ||
  match s with EmptyString => false | String _ s' => str_contains s' p end.

(** [any(c in value for c in "\r\n\x00")] *)
Definition has_line_breaks (s : string) : bool :=
  contains_char creturn s || contains_char newline s || contains_char "000"%char s.

(** [s.replace(c, t)] for a one-character pattern. *)
Fixpoint replace_char (c : ascii) (t : string) (s : string) : string :=
  match s with
  | EmptyString => EmptyString
  | String d s' => (if Ascii.eqb c d then t else str1 d) +:+ replace_char c t s'
  end.

Definition str_len (s : string) : Z := Z.of_nat (String.length s).

(** [s.encode("utf-8")], one byte per [ascii]. *)
Fixpoint utf8_encode (s : string) : string :=
  match s with
  | EmptyString => EmptyString
  | String c s' =>
      let n := code c in
      if n <? 128 then String c (utf8_encode s')
      else String (ascii_of_N (Z.to_N (192 + n / 64)))
             (String (ascii_of_N (Z.to_N (128 + n mod 64))) (utf8_encode s'))
  end.

(** ** Facts shared by the identifier and timestamp proofs *)

Lemma str_app_assoc (s t u : string) : (s +:+ t) +:+ u = s +:+ (t +:+ u).
Proof. induction s as [|c s IH]; cbn; [done|]. by rewrite IH. Qed.

Lemma str_app_nil_r (s : string) : s +:+ "" = s.
Proof. induction s as [|c s IH]; cbn; [done|]. by rewrite IH. Qed.

Lemma str_length_app (s t : string) :
  String.length (s +:+ t) = (String.length s + String.length t)%nat.
Proof. induction s as [|c s IH]; cbn; [done|]. by rewrite IH. Qed.

Lemma length_hexw w z : String.length (hexw w z) = w.
Proof. induction w as [|w IH]; cbn; [done|]. by rewrite IH. Qed.

Lemma startswith_app p s : str_startswith (p +:+ s) p = true.
Proof.
  unfold str_startswith. induction p as [|c p IH]; cbn; [by destruct s|].
  by destruct (ascii_dec c c).
Qed.

Lemma land_15_bounds z : 0 <= Z.land z 15 < 16.
Proof. change 15 with (Z.ones 4). rewrite Z.land_ones by lia. by apply Z.mod_pos_bound. Qed.

Lemma code_ascii_of_Z z : 0 <= z < 256 -> code (ascii_of_N (Z.to_N z)) = z.
Proof. intros H. unfold code. rewrite N_ascii_embedding by lia. lia. Qed.

Lemma hex_char_code d :
  0 <= d < 16 -> code (hex_char d) = if d <? 10 then 48 + d else 87 + d.
Proof. intros H. unfold hex_char. apply code_ascii_of_Z. destruct (d <? 10) eqn:E; lia. Qed.

Lemma hex_char_is_hex d : 0 <= d < 16 -> is_hex_lower (hex_char d) = true.
Proof.
  intros H. unfold is_hex_lower, is_digit. rewrite hex_char_code by done.
  destruct (d <? 10) eqn:E; lia.
Qed.

Lemma str_len_app s t : str_len (s +:+ t) = str_len s + str_len t.
Proof. unfold str_len. rewrite str_length_app. lia. Qed.

(** ** Slices *)

(** [s[:n]] and [s[n:]] *)
Fixpoint str_take (n : nat) (s : string) : string :=
  match n, s with S n, String c s => String c (str_take n s) | _, _ => EmptyString end.
Fixpoint str_drop (n : nat) (s : string) : string :=
  match n, s with O, _ => s | S n, String _ s => str_drop n s | S _, EmptyString => EmptyString end.

Lemma str_take_drop n s : str_take n s +:+ str_drop n s = s.
Proof. revert s. induction n as [|n IH]; intros [|c s]; cbn; [done..|]. by rewrite IH. Qed.

Lemma str_take_add n k s : str_take (n + k) s = str_take n s +:+ str_take k (str_drop n s).
Proof. revert s. induction n as [|n IH]; intros [|c s]; cbn; [done|done|by destruct k|]. by rewrite IH. Qed.

Lemma str_take_length n s : String.length (str_take n s) = (n `min` String.length s)%nat.
Proof. revert s. induction n as [|n IH]; intros [|c s]; cbn; [done..|]. by rewrite IH. Qed.

Lemma str_drop_length n s : String.length (str_drop n s) = (String.length s - n)%nat.
Proof. revert s. induction n as [|n IH]; intros [|c s]; cbn; [done..|]. by rewrite IH. Qed.

Lemma str_take_all n s : (String.length s <= n)%nat -> str_take n s = s.
Proof. revert s. induction n as [|n IH]; intros [|c s]; cbn; [done|lia|done|]. intros ?. by rewrite IH by lia. Qed.

Lemma str_drop_drop n k s : str_drop n (str_drop k s) = str_drop (k + n) s.
Proof. revert s. induction k as [|k IH]; intros [|c s]; cbn; [done|done|by destruct n|apply IH]. Qed.
Lemma str_take_app a b : str_take (String.length a) (a +:+ b) = a.
Proof. induction a as [|c a IH]; cbn; [by destruct b|by rewrite IH]. Qed.
Lemma str_drop_app a b : str_drop (String.length a) (a +:+ b) = b.
Proof. induction a as [|c a IH]; cbn; [by destruct b|done]. Qed.

(** ** [str.split] *)

(** [s.split(c)] *)
Fixpoint split_on (c : ascii) (s : string) : list string :=
  match s with
  | EmptyString => [EmptyString]
  | String d s' =>
      if Ascii.eqb d c then EmptyString :: split_on c s'
      else match split_on c s' with [] => [str1 d] | w :: ws => String d w :: ws end
  end.

Lemma split_on_no_sep c s : Forall (fun p => contains_char c p = false) (split_on c s).
Proof.
  induction s as [|d s IH]; cbn [split_on]; [by repeat constructor|].
  destruct (Ascii.eqb d c) eqn:E; [by constructor|].
  destruct (split_on c s) as [|w ws]; [by repeat constructor; cbn; rewrite Ascii.eqb_sym, E|].
  apply Forall_cons in IH as [Hw Hws]. constructor; [|done]. cbn. by rewrite Ascii.eqb_sym, E.
Qed.

Lemma split_on_avoids c b s : contains_char b s = false -> Forall (fun p => contains_char b p = false) (split_on c s).
Proof.
  induction s as [|d s IH]; cbn [split_on contains_char]; [by repeat constructor|].
  intros [Hd Hs]%orb_false_iff. specialize (IH Hs). destruct (Ascii.eqb d c); [by constructor|].
  destruct (split_on c s) as [|w ws]; [by repeat constructor; cbn; rewrite Hd|].
  apply Forall_cons in IH as [Hw Hws]. constructor; [|done]. cbn. by rewrite Hd.
Qed.

Lemma split_on_join c p rest :
  contains_char c p = false -> split_on c (p +:+ String c rest) = p :: split_on c rest.
Proof.
  induction p as [|d p IH]; cbn [contains_char append split_on]; [by rewrite Ascii.eqb_refl|].
  intros [Hd Hp]%orb_false_iff. rewrite Ascii.eqb_sym, Hd, IH by done. done.
Qed.

Lemma split_on_single c p : contains_char c p = false -> split_on c p = [p].
Proof.
  induction p as [|d p IH]; cbn [contains_char split_on]; [done|].
  intros [Hd Hp]%orb_false_iff. by rewrite Ascii.eqb_sym, Hd, IH.
Qed.

Lemma split_join c parts :
  parts <> [] -> Forall (fun p => contains_char c p = false) parts -> split_on c (join (str1 c) parts) = parts.
Proof.
  intros Hne Hp. induction Hp as [|p parts Hp Hps IH]; [done|]. destruct parts as [|q parts]; [by apply split_on_single|].
  transitivity (split_on c (p +:+ String c (join (str1 c) (q :: parts)))); [done|]. rewrite split_on_join by done. f_equal. by apply IH.
Qed.
Lemma join_split c s : join (str1 c) (split_on c s) = s.
Proof.
  induction s as [|d s IH]; [done|]. cbn [split_on]. destruct (Ascii.eqb_spec d c) as [->|].
  - destruct (split_on c s) as [|w ws] eqn:E; [by destruct s as [|a s]; cbn in E; [|repeat case_match]|]. rewrite <- IH. done.
  - destruct (split_on c s) as [|w ws] eqn:E; [by destruct s as [|a s]; cbn in E; [|repeat case_match]|]. rewrite <- IH. by destruct ws.
Qed.
