(* ===== verification/Regex.v ===== *)
(** * Python [re]: anchored matching of the source's identifier patterns

    The patterns of the source are regular: literals, character classes,
    concatenation, alternation and repetition.  [fullmatch] decides membership
    by Brzozowski derivatives and [fullmatch_spec] relates it to the
    declarative language [matches]. *)

From S2P Require Export PyText.

Create HintDb regex.

Inductive regex :=
| RNone
| REps
| RClass (ranges : list (ascii * ascii))
| RSeq (r1 r2 : regex)
| RAlt (r1 r2 : regex)
| RStar (r : regex).

Definition in_class (c : ascii) (ranges : list (ascii * ascii)) : bool :=
  existsb (fun p => (code p.1 <=? code c) && (code c <=? code p.2)) ranges.

Inductive matches : regex -> string -> Prop :=
| MEps : matches REps ""
| MClass c ranges : in_class c ranges = true -> matches (RClass ranges) (str1 c)
| MSeq r1 r2 s1 s2 : matches r1 s1 -> matches r2 s2 -> matches (RSeq r1 r2) (s1 +:+ s2)
| MAltL r1 r2 s : matches r1 s -> matches (RAlt r1 r2) s
| MAltR r1 r2 s : matches r2 s -> matches (RAlt r1 r2) s
| MStarNil r : matches (RStar r) ""
| MStarCons r s1 s2 : matches r s1 -> matches (RStar r) s2 -> matches (RStar r) (s1 +:+ s2).
#[export] Hint Constructors matches : regex.

Fixpoint nullable (r : regex) : bool :=
  match r with
  | RNone | RClass _ => false
  | REps | RStar _ => true
  | RSeq r1 r2 => nullable r1 && nullable r2
  | RAlt r1 r2 => nullable r1 || nullable r2
  end.

(** Constructors that keep derivatives small. *)
Definition mk_seq (r1 r2 : regex) : regex :=
  match r1 with RNone => RNone | REps => r2 | _ => RSeq r1 r2 end.
Definition mk_alt (r1 r2 : regex) : regex :=
  match r1, r2 with RNone, _ => r2 | _, RNone => r1 | _, _ => RAlt r1 r2 end.

Fixpoint deriv (c : ascii) (r : regex) : regex :=
  match r with
  | RNone | REps => RNone
  | RClass ranges => if in_class c ranges then REps else RNone
  | RSeq r1 r2 =>
      if nullable r1 then mk_alt (mk_seq (deriv c r1) r2) (deriv c r2)
      else mk_seq (deriv c r1) r2
  | RAlt r1 r2 => mk_alt (deriv c r1) (deriv c r2)
  | RStar r1 => mk_seq (deriv c r1) (RStar r1)
  end.

(** [pattern.fullmatch(s) is not None] *)
Fixpoint fullmatch (r : regex) (s : string) : bool :=
  match s with
  | EmptyString => nullable r
  | String c s' => fullmatch (deriv c r) s'
  end.

Lemma app_nil_inv (s t : string) : s +:+ t = "" -> s = "" /\ t = "".
Proof. destruct s; cbn; [auto|discriminate]. Qed.

Lemma matches_inv r s : matches r s ->
  match r with
  | RNone => False
  | REps => s = ""
  | RClass rs => exists c, s = str1 c /\ in_class c rs = true
  | RSeq r1 r2 => exists s1 s2, s = s1 +:+ s2 /\ matches r1 s1 /\ matches r2 s2
  | RAlt r1 r2 => matches r1 s \/ matches r2 s
  | RStar r1 => s = "" \/ exists c s1 s2, s = String c (s1 +:+ s2)
                  /\ matches r1 (String c s1) /\ matches (RStar r1) s2
  end.
Proof.
  induction 1 as [| | | | | |r s1 s2 H1 IH1 H2 IH2]; eauto 10.
  destruct s1 as [|c s1]; cbn; [exact IH2|]. right. eauto 10.
Qed.

Lemma nullable_spec r : nullable r = true <-> matches r "".
Proof.
  induction r as [| |rs|r1 IH1 r2 IH2|r1 IH1 r2 IH2|r IH]; cbn; split; intros H;
    try discriminate; try (apply matches_inv in H); eauto with regex; try done.
  - by destruct H as (? & ? & ?).
  - apply andb_true_iff in H as [?%IH1 ?%IH2]. by apply (MSeq _ _ "" "").
  - destruct H as (s1 & s2 & E & H1 & H2). symmetry in E. apply app_nil_inv in E as [-> ->].
    apply andb_true_iff. by rewrite IH1, IH2.
  - apply orb_true_iff in H as [?%IH1|?%IH2]; eauto with regex.
  - apply orb_true_iff. rewrite IH1, IH2. done.
Qed.

Lemma mk_seq_spec r1 r2 s : matches (mk_seq r1 r2) s <-> matches (RSeq r1 r2) s.
Proof.
  assert (matches RNone s <-> matches (RSeq RNone r2) s) as HN.
  { split; intros H%matches_inv; [done|]. by destruct H as (? & ? & _ & []%matches_inv & _). }
  assert (matches r2 s <-> matches (RSeq REps r2) s) as HE.
  { split; intros H; [by apply (MSeq _ _ "" s); eauto with regex|].
    apply matches_inv in H as (? & ? & -> & ->%matches_inv & ?). done. }
  destruct r1; cbn; done.
Qed.

Lemma mk_alt_spec r1 r2 s : matches (mk_alt r1 r2) s <-> matches (RAlt r1 r2) s.
Proof.
  assert (forall r, matches r s <-> matches (RAlt RNone r) s) as HL.
  { split; eauto with regex. by intros [[]%matches_inv|]%matches_inv. }
  assert (forall r, matches r s <-> matches (RAlt r RNone) s) as HR.
  { split; eauto with regex. by intros [|[]%matches_inv]%matches_inv. }
  destruct r1, r2; cbn; done.
Qed.

Lemma deriv_spec c r s : matches (deriv c r) s <-> matches r (String c s).
Proof.
  revert s. induction r as [| |rs|r1 IH1 r2 IH2|r1 IH1 r2 IH2|r IH]; intros s; cbn.
  - split; intros []%matches_inv.
  - split; [intros []%matches_inv|]. by intros ?%matches_inv.
  - destruct (in_class c rs) eqn:E; split; intros H%matches_inv; subst.
    + by constructor.
    + destruct H as (d & [= <- ->] & _). constructor.
    + done.
    + destruct H as (d & [= <- ->] & ?). congruence.
  - assert (matches (mk_seq (deriv c r1) r2) s <->
      exists s1 s2, s = s1 +:+ s2 /\ matches r1 (String c s1) /\ matches r2 s2) as Hseq.
    { rewrite mk_seq_spec. split.
      - intros (s1 & s2 & -> & H1%IH1 & H2)%matches_inv. eauto.
      - intros (s1 & s2 & -> & H1%IH1 & H2). by constructor. }
    assert (matches (RSeq r1 r2) (String c s) <->
      (exists s1 s2, s = s1 +:+ s2 /\ matches r1 (String c s1) /\ matches r2 s2)
      \/ (matches r1 "" /\ matches r2 (String c s))) as Hinv.
    { split.
      - intros (s1 & s2 & E & H1 & H2)%matches_inv.
        destruct s1 as [|d s1]; cbn in E; [subst; auto|]. injection E as -> ->. eauto 10.
      - intros [(s1 & s2 & -> & H1 & H2)|[H1 H2]];
          [by apply (MSeq _ _ (String c s1) s2)|by apply (MSeq _ _ "" (String c s))]. }
    rewrite Hinv. destruct (nullable r1) eqn:E.
    + rewrite mk_alt_spec. split.
      * intros [?%Hseq|?%IH2]%matches_inv; [by left|]. right. by rewrite <- nullable_spec.
      * intros [?%Hseq|[_ ?%IH2]]; eauto with regex.
    + rewrite Hseq. split; [by left|]. intros [?|[H%nullable_spec _]]; [done|congruence].
  - rewrite mk_alt_spec. split; intros [H|H]%matches_inv;
      first [apply IH1 in H | apply IH2 in H]; eauto with regex.
  - rewrite mk_seq_spec. split.
    + intros (s1 & s2 & -> & H1%IH & H2)%matches_inv. by apply (MStarCons _ (String c s1) s2).
    + intros [|(d & s1 & s2 & [= <- ->] & H1%IH & H2)]%matches_inv; [done|]. by constructor.
Qed.

(** The decision procedure accepts exactly the strings of the language. *)
Lemma fullmatch_spec r s : fullmatch r s = true <-> matches r s.
Proof.
  revert r. induction s as [|c s IH]; intros r; cbn; [apply nullable_spec|].
  by rewrite IH, deriv_spec.
Qed.

(** ** Derived forms *)

Fixpoint RLit (s : string) : regex :=
  match s with
  | EmptyString => REps
  | String c s' => RSeq (RClass [(c, c)]) (RLit s')
  end.

Fixpoint RRepeat (n : nat) (r : regex) : regex :=
  match n with O => REps | S n' => RSeq r (RRepeat n' r) end.

Definition RPlus (r : regex) : regex := RSeq r (RStar r).

(** [r{0,n}] *)
Fixpoint RUpTo (n : nat) (r : regex) : regex :=
  match n with O => REps | S n' => RAlt REps (RSeq r (RUpTo n' r)) end.

Lemma matches_RLit s : matches (RLit s) s.
Proof.
  induction s as [|c s IH]; cbn; [constructor|].
  apply (MSeq _ _ (str1 c) s); [|done]. constructor. cbn. lia.
Qed.
#[export] Hint Resolve matches_RLit : regex.

Lemma matches_RPlus_one r s : matches r s -> matches (RPlus r) s.
Proof. intros H. rewrite <- (str_app_nil_r s). constructor; [done|constructor]. Qed.

Lemma matches_RStar_app r s t :
  matches (RStar r) s -> matches (RStar r) t -> matches (RStar r) (s +:+ t).
Proof.
  intros Hs Ht. remember (RStar r) as q eqn:E. induction Hs; try discriminate.
  - done.
  - injection E as ->. rewrite str_app_assoc. constructor; auto.
Qed.

Lemma matches_RPlus_app r s t :
  matches (RPlus r) s -> matches (RStar r) t -> matches (RPlus r) (s +:+ t).
Proof.
  intros (s1 & s2 & -> & H1 & H2)%matches_inv Ht. rewrite str_app_assoc.
  constructor; [done|]. by apply matches_RStar_app.
Qed.

(** Repetition of a character class, read on the characters. *)
Fixpoint str_forallb (p : ascii -> bool) (s : string) : bool :=
  match s with EmptyString => true | String c s' => p c && str_forallb p s' end.

Lemma matches_star_class rs s :
  matches (RStar (RClass rs)) s <-> str_forallb (fun c => in_class c rs) s = true.
Proof.
  split.
  - intros H. remember (RStar (RClass rs)) as q eqn:E. induction H; try discriminate; [done|].
    injection E as ->. apply matches_inv in H as (c & -> & Hc). cbn. rewrite Hc. cbn. auto.
  - induction s as [|c s IH]; cbn; [constructor|].
    intros [Hc Hs]%andb_true_iff. apply (MStarCons _ (str1 c) s); auto with regex.
Qed.

Lemma matches_repeat_class n rs s :
  matches (RRepeat n (RClass rs)) s <->
  String.length s = n /\ str_forallb (fun c => in_class c rs) s = true.
Proof.
  revert s. induction n as [|n IH]; intros s; cbn.
  - split; [by intros ->%matches_inv|]. destruct s; cbn; [constructor|intros [? ?]; lia].
  - split.
    + intros (s1 & s2 & -> & (c & -> & Hc)%matches_inv & [H1 H2]%IH)%matches_inv.
      cbn. by rewrite H1, Hc, H2.
    + destruct s as [|c s]; cbn; [by intros []|]. intros [[= H1] [Hc H2]%andb_true_iff].
      apply (MSeq _ _ (str1 c) s); [by constructor|]. by apply IH.
Qed.
