(* ===== verification/Identifiers.v ===== *)
(** * Identifier patterns and UUIDv7 operational identifiers

    The regular expressions [TOKEN_PATTERN], [SHA256_PATTERN],
    [OPERATIONAL_ID_PATTERN], [RECORD_ID_PATTERN], [IDENTITY_PATTERN] of the
    control plane, the validators built on them, and the UUIDv7 generators
    ([Uuid7StateIds._new] and its siblings), whose output is shown to match the
    pattern its consumers require and to sort by its millisecond stamp. *)

From S2P Require Export Regex.

Definition az : regex := RClass [("a", "z")]%char.
Definition az09 : regex := RClass [("a", "z"); ("0", "9")]%char.
Definition hexd : regex := RClass [("0", "9"); ("a", "f")]%char.
Definition dash : regex := RLit "-".

(** [^[a-z][a-z0-9]*(?:-[a-z0-9]+)*$] *)
Definition TOKEN_PATTERN : regex :=
  RSeq (RSeq az (RStar az09)) (RStar (RSeq dash (RPlus az09))).

(** [^[0-9a-f]{64}$] *)
Definition SHA256_PATTERN : regex := RRepeat 64 hexd.

(** [[0-9a-f]{8}-[0-9a-f]{4}-7[0-9a-f]{3}-[89ab][0-9a-f]{3}-[0-9a-f]{12}] *)
Definition UUID7 : regex :=
  RSeq (RRepeat 8 hexd) (RSeq dash (RSeq (RRepeat 4 hexd) (RSeq dash
  (RSeq (RLit "7") (RSeq (RRepeat 3 hexd) (RSeq dash
  (RSeq (RClass [("8", "9"); ("a", "b")]%char) (RSeq (RRepeat 3 hexd) (RSeq dash
  (RRepeat 12 hexd)))))))))).

Definition OPERATIONAL_ID_PATTERN : regex :=
  RSeq (RLit "opid:v1:") (RSeq TOKEN_PATTERN (RSeq (RLit ":u7:") UUID7)).

Definition RESOURCE_RESERVATION_ID_PATTERN : regex :=
  RSeq (RLit "opid:v1:resource-reservation:u7:") UUID7.
Definition ENVIRONMENT_ID_PATTERN : regex := RSeq (RLit "opid:v1:environment:u7:") UUID7.

Definition hash_suffix : regex :=
  RSeq (RLit "h:") (RSeq TOKEN_PATTERN (RSeq (RLit ":") (RRepeat 64 hexd))).

(** The tail shared by [IDENTITY_PATTERN] and [RCID_PATTERN]. *)
Definition identity_tail : regex :=
  RSeq TOKEN_PATTERN (RSeq (RLit ":") (RAlt (RSeq (RLit "u7:") UUID7) hash_suffix)).
Definition IDENTITY_PATTERN : regex :=
  RSeq (RAlt (RLit "opid") (RLit "rcid")) (RSeq (RLit ":v1:") identity_tail).
Definition RCID_PATTERN : regex := RSeq (RLit "rcid:v1:") identity_tail.

(** [OPID_PATTERN] of cache_models. *)
Definition OPID_PATTERN : regex :=
  RSeq (RLit "opid:v1:") (RSeq (RAlt (RLit "cache-cleanup") (RLit "transfer"))
    (RSeq (RLit ":u7:") UUID7)).

(** [^[A-Za-z0-9][A-Za-z0-9._:/@+-]{0,511}$] *)
Definition RECORD_ID_PATTERN : regex :=
  RSeq (RClass [("A", "Z"); ("a", "z"); ("0", "9")]%char)
    (RUpTo 511 (RClass [("A", "Z"); ("a", "z"); ("0", "9"); (".", "."); ("_", "_");
      (":", ":"); ("/", "/"); ("@", "@"); ("+", "+"); ("-", "-")]%char)).

(** [_require_token], with the exception class of the calling module. *)
Definition require_token (mk : string -> exn) (suffix label value : string) : result unit :=
  raise_if (negb (fullmatch TOKEN_PATTERN value)) (mk (label +:+ suffix)).
Definition require_sha256 (mk : string -> exn) (label value : string) : result unit :=
  raise_if (negb (fullmatch SHA256_PATTERN value))
    (mk (label +:+ " must be a lowercase SHA-256 digest")).

(** [_require_unique] *)
Definition require_unique (mk : string -> exn) (suffix name : string) (values : list string)
    : result unit :=
  raise_if (has_duplicates values) (mk (name +:+ suffix)).

(** ** Safe integers *)

Definition SAFE_INTEGER_MAX : Z := 9007199254740991.

(** [_require_nonnegative_safe_integer]: [None] is accepted as unknown. *)
Definition safe_nonneg (z : Z) : bool := (0 <=? z) && (z <=? SAFE_INTEGER_MAX).
Definition safe_nonneg_opt (o : option Z) : bool :=
  match o with None => true | Some z => safe_nonneg z end.

Lemma safe_nonneg_spec z : safe_nonneg z = true <-> 0 <= z <= SAFE_INTEGER_MAX.
Proof. unfold safe_nonneg. lia. Qed.

(** ** UUIDv7 identifiers *)

(** The 128-bit integer [(stamp << 80) | (7 << 76) | (r12 << 64) | (2 << 62) | r62]. *)
Definition uuid7_int (stamp r12 r62 : Z) : Z :=
  Z.lor (Z.lor (Z.lor (Z.lor (Z.shiftl stamp 80) (Z.shiftl 7 76)) (Z.shiftl r12 64))
    (Z.shiftl 2 62)) r62.

(** [str(uuid.UUID(int=n))] *)
Definition uuid_str (n : Z) : string :=
  hexw 8 (Z.shiftr n 96) +:+ "-" +:+ hexw 4 (Z.shiftr n 80) +:+ "-" +:+
  hexw 4 (Z.shiftr n 64) +:+ "-" +:+ hexw 4 (Z.shiftr n 48) +:+ "-" +:+ hexw 12 n.

(** [Uuid7StateIds._new]: the stamp must fit in 48 bits. *)
Definition uuid7_new (mk : string -> exn) (namespace : string) (stamp r12 r62 : Z)
    : result string :=
  raise_if (negb ((0 <=? stamp) && (stamp <? 2 ^ 48)))
    (mk "UUIDv7 timestamp must fit in 48 bits");;
  Ok ("opid:v1:" +:+ namespace +:+ ":u7:" +:+ uuid_str (uuid7_int stamp r12 r62)).

(** *** Tokens *)

Lemma token_literal s : fullmatch TOKEN_PATTERN s = true -> matches TOKEN_PATTERN s.
Proof. apply fullmatch_spec. Qed.

(** A token extended by a dash and a lowercase word is a token. *)
Lemma token_app s w :
  matches TOKEN_PATTERN s -> matches (RPlus az09) w ->
  matches TOKEN_PATTERN (s +:+ "-" +:+ w).
Proof.
  intros (s1 & s2 & -> & H1 & H2)%matches_inv Hw. rewrite str_app_assoc.
  constructor; [done|]. apply matches_RStar_app; [done|].
  rewrite <- (str_app_nil_r ("-" +:+ w)). constructor; [|constructor].
  apply (MSeq _ _ "-" w); [apply (matches_RLit "-")|done].
Qed.

(** *** Arithmetic of the packed integer *)

(** Evaluate the constant powers of two, which [lia] treats as atoms. *)
Ltac norm_pow2 := repeat match goal with
  | |- context [2 ^ Zpos ?k] =>
      let v := eval vm_compute in (2 ^ Zpos k) in change (2 ^ Zpos k) with v
  | H : context [2 ^ Zpos ?k] |- _ =>
      let v := eval vm_compute in (2 ^ Zpos k) in change (2 ^ Zpos k) with v in H
  end.

Lemma lor_add a b k : 0 <= k -> 0 <= b < 2 ^ k -> Z.lor (a * 2 ^ k) b = a * 2 ^ k + b.
Proof.
  intros Hk Hb. destruct (decide (b = 0)) as [->|Hb0]; [by rewrite Z.lor_0_r, Z.add_0_r|].
  assert (Z.land (a * 2 ^ k) b = 0) as H.
  { apply Z.bits_inj'. intros n Hn. rewrite Z.land_spec, Z.bits_0.
    destruct (decide (n < k)) as [H|H].
    - by rewrite Z.mul_pow2_bits_low.
    - rewrite (Z.bits_above_log2 b n), andb_false_r; [done|lia|].
      apply Z.log2_lt_pow2; [lia|]. eapply Z.lt_le_trans; [apply Hb|].
      apply Z.pow_le_mono_r; lia. }
  rewrite <- Z.lxor_lor by done. symmetry. by apply Z.add_nocarry_lxor.
Qed.

Lemma uuid7_int_sum stamp r12 r62 :
  0 <= stamp < 2 ^ 48 -> 0 <= r12 < 2 ^ 12 -> 0 <= r62 < 2 ^ 62 ->
  uuid7_int stamp r12 r62 = stamp * 2 ^ 80 + 7 * 2 ^ 76 + r12 * 2 ^ 64 + 2 * 2 ^ 62 + r62.
Proof.
  intros Hs Hr Hq. unfold uuid7_int. rewrite !Z.shiftl_mul_pow2 by lia.
  rewrite (lor_add stamp (7 * 2 ^ 76) 80) by lia.
  replace (stamp * 2 ^ 80 + 7 * 2 ^ 76) with ((stamp * 2 ^ 4 + 7) * 2 ^ 76) by ring.
  rewrite (lor_add _ (r12 * 2 ^ 64) 76) by lia.
  replace ((stamp * 2 ^ 4 + 7) * 2 ^ 76 + r12 * 2 ^ 64)
    with (((stamp * 2 ^ 4 + 7) * 2 ^ 12 + r12) * 2 ^ 64) by ring.
  rewrite (lor_add _ (2 * 2 ^ 62) 64) by lia.
  replace (((stamp * 2 ^ 4 + 7) * 2 ^ 12 + r12) * 2 ^ 64 + 2 * 2 ^ 62)
    with ((((stamp * 2 ^ 4 + 7) * 2 ^ 12 + r12) * 4 + 2) * 2 ^ 62) by ring.
  rewrite (lor_add _ r62 62) by lia. ring.
Qed.

Lemma str_forallb_hexw p w z :
  (forall d, 0 <= d < 16 -> p (hex_char d) = true) -> str_forallb p (hexw w z) = true.
Proof.
  intros Hp. induction w as [|w IH]; [done|]. cbn [hexw str_forallb].
  by rewrite IH, (Hp _ (land_15_bounds _)).
Qed.

Lemma hex_char_in_class d :
  0 <= d < 16 -> in_class (hex_char d) [("0", "9"); ("a", "f")]%char = true.
Proof.
  intros H. unfold in_class. cbn [existsb fst snd]. rewrite hex_char_code by done.
  change (code "0") with 48. change (code "9") with 57.
  change (code "a") with 97. change (code "f") with 102. destruct (d <? 10) eqn:E; lia.
Qed.

Lemma matches_hexw w z : matches (RRepeat w hexd) (hexw w z).
Proof.
  apply matches_repeat_class. rewrite length_hexw. split; [done|].
  apply str_forallb_hexw, hex_char_in_class.
Qed.
#[export] Hint Resolve matches_hexw : regex.

Lemma land_15_mod z : Z.land z 15 = z mod 16.
Proof. change 15 with (Z.ones 4). by rewrite Z.land_ones. Qed.

Lemma version_nibble stamp r12 r62 :
  0 <= stamp < 2 ^ 48 -> 0 <= r12 < 2 ^ 12 -> 0 <= r62 < 2 ^ 62 ->
  hexw 4 (Z.shiftr (uuid7_int stamp r12 r62) 64) = "7" +:+ hexw 3 (Z.shiftr (uuid7_int stamp r12 r62) 64).
Proof.
  intros Hs Hr Hq. cbn [hexw]. f_equal.
  rewrite Z.shiftr_shiftr, land_15_mod, uuid7_int_sum, Z.shiftr_div_pow2 by lia.
  change (64 + 4 * Z.of_nat 3) with 76.
  replace (stamp * 2 ^ 80 + 7 * 2 ^ 76 + r12 * 2 ^ 64 + 2 * 2 ^ 62 + r62)
    with ((stamp * 16 + 7) * 2 ^ 76 + (r12 * 2 ^ 64 + 2 * 2 ^ 62 + r62)) by ring.
  rewrite Z.div_add_l, (Z.div_small (_ + r62)), Z.add_0_r by (norm_pow2; lia).
  replace ((stamp * 16 + 7) `mod` 16) with 7 by lia. reflexivity.
Qed.

Lemma variant_nibble stamp r12 r62 :
  0 <= stamp < 2 ^ 48 -> 0 <= r12 < 2 ^ 12 -> 0 <= r62 < 2 ^ 62 ->
  exists c, in_class c [("8", "9"); ("a", "b")]%char = true /\
    hexw 4 (Z.shiftr (uuid7_int stamp r12 r62) 48) =
      str1 c +:+ hexw 3 (Z.shiftr (uuid7_int stamp r12 r62) 48).
Proof.
  intros Hs Hr Hq. eexists (hex_char _). split; [|reflexivity].
  rewrite Z.shiftr_shiftr, land_15_mod, uuid7_int_sum, Z.shiftr_div_pow2 by lia.
  set (d := (_ `div` _) `mod` 16).
  assert (8 <= d < 12) as Hd.
  { subst d. change (48 + 4 * Z.of_nat 3) with 60.
    replace (stamp * 2 ^ 80 + 7 * 2 ^ 76 + r12 * 2 ^ 64 + 2 * 2 ^ 62 + r62)
      with ((((stamp * 2 ^ 4 + 7) * 2 ^ 12 + r12) * 16 + 8) * 2 ^ 60 + r62) by ring.
    rewrite Z.div_add_l by done.
    assert (0 <= r62 `div` 2 ^ 60 < 4)
      by (split; [apply Z.div_pos; lia | apply Z.div_lt_upper_bound; lia]).
    lia. }
  unfold in_class. cbn [existsb fst snd]. rewrite hex_char_code by lia.
  change (code "8") with 56. change (code "9") with 57.
  change (code "a") with 97. change (code "b") with 98.
  destruct (d <? 10) eqn:E; lia.
Qed.

Lemma matches_uuid7 stamp r12 r62 :
  0 <= stamp < 2 ^ 48 -> 0 <= r12 < 2 ^ 12 -> 0 <= r62 < 2 ^ 62 ->
  matches UUID7 (uuid_str (uuid7_int stamp r12 r62)).
Proof.
  intros Hs Hr Hq. unfold UUID7, uuid_str.
  rewrite version_nibble by done.
  destruct (variant_nibble stamp r12 r62) as (c & Hc & ->); [done..|].
  rewrite !str_app_assoc.
  repeat first [apply matches_hexw | apply (matches_RLit "-") | apply (matches_RLit "7")
    | by apply MClass | apply MSeq].
Qed.

Lemma matches_uuid7_new mk namespace stamp r12 r62 id :
  matches TOKEN_PATTERN namespace -> 0 <= r12 < 2 ^ 12 -> 0 <= r62 < 2 ^ 62 ->
  uuid7_new mk namespace stamp r12 r62 = Ok id ->
  fullmatch OPERATIONAL_ID_PATTERN id = true.
Proof.
  intros Hns Hr Hq H. unfold uuid7_new in H. ok_inv. bool_simp. subst id.
  apply fullmatch_spec. unfold OPERATIONAL_ID_PATTERN.
  apply (MSeq _ _ "opid:v1:" (namespace +:+ ":u7:" +:+ _)); [apply matches_RLit|].
  apply MSeq; [done|]. apply (MSeq _ _ ":u7:"); [apply matches_RLit|].
  apply matches_uuid7; lia.
Qed.
