(* ===== verification/Timestamps.v ===== *)
(** * RFC 3339 timestamps

    The source keeps instants as text: every record validates its timestamps
    with [datetime.fromisoformat(value.replace("Z", "+00:00"))] and every
    service stamps with [isoformat(timespec="milliseconds")].  This file models
    both on strings, over the proleptic Gregorian calendar, with instants as
    integer microseconds since the Unix epoch (UTC), and shows that a stamp
    written by a service parses back to the same instant, rounded down to the
    millisecond.

    [fromisoformat] is modelled on the RFC 3339 profile (extended calendar date,
    any one-character separator, extended time, optional fraction, numeric
    offset); the ISO 8601 week dates and separator-free forms that newer Python
    versions also accept are rejected here.  [total_seconds()] is exact, where
    Python rounds to a double beyond 2^53 microseconds. *)

From S2P Require Export PyText.

(** ** Calendar *)

Definition is_leap (y : Z) : bool := (y mod 4 =? 0) && (negb (y mod 100 =? 0) || (y mod 400 =? 0)).
Definition days_in_month (y m : Z) : Z :=
  if m =? 2 then (if is_leap y then 29 else 28)
  else if (m =? 4) || (m =? 6) || (m =? 9) || (m =? 11) then 30 else 31.

(** Days since 1970-01-01 of a civil date, and back; years start in March. *)
Definition days_from_civil (y m d : Z) : Z :=
  let y' := if m <=? 2 then y - 1 else y in
  let era := y' / 400 in
  let yoe := y' mod 400 in
  let mp := (m + 9) mod 12 in
  let doy := (153 * mp + 2) / 5 + (d - 1) in
  let doe := yoe * 365 + yoe / 4 - yoe / 100 + doy in
  era * 146097 + doe - 719468.

Definition civil_from_days (n : Z) : Z * Z * Z :=
  let z := n + 719468 in
  let era := z / 146097 in
  let doe := z mod 146097 in
  let yoe := (doe - doe / 1460 + doe / 36524 - doe / 146096) / 365 in
  let doy := doe - (365 * yoe + yoe / 4 - yoe / 100) in
  let mp := (5 * doy + 2) / 153 in
  let d := doy - (153 * mp + 2) / 5 + 1 in
  let m := if mp <? 10 then mp + 3 else mp - 9 in
  let y := yoe + era * 400 + (if m <=? 2 then 1 else 0) in
  (y, m, d).

(** [datetime]: wall-clock microseconds and, when aware, the UTC offset. *)
Record datetime := { local_us : Z; utcoffset : option Z }.

Definition us_per_day : Z := 86400000000.
Definition min_instant : Z := -62135596800000000.
Definition max_instant : Z := 253402300799999999.

(** ** [datetime.fromisoformat] *)

(** Exactly [w] decimal digits. *)
Fixpoint take_digits (w : nat) (acc : Z) (s : string) : option (Z * string) :=
  match w with
  | O => Some (acc, s)
  | S w' =>
      match s with
      | String c s' => if is_digit c then take_digits w' (10 * acc + (code c - 48)) s' else None
      | EmptyString => None
      end
  end.

Definition take_char (p : ascii -> bool) (s : string) : option string :=
  match s with String c s' => if p c then Some s' else None | EmptyString => None end.
Definition is_char (c : ascii) (d : ascii) : bool := Ascii.eqb c d.

(** A run of digits read as a fraction of a second, in microseconds: digits
    past the sixth are dropped. *)
Fixpoint take_fraction (weight acc : Z) (s : string) : Z * string :=
  match s with
  | String c s' =>
      if is_digit c then take_fraction (weight / 10) (acc + weight * (code c - 48)) s'
      else (acc, s)
  | EmptyString => (acc, s)
  end.

(** [HH[:MM[:SS[.ffffff]]]] as microseconds, with the fields for range checks. *)
Definition parse_hms (s : string) : option (Z * Z * Z * Z * string) :=
  '(h, s) ← take_digits 2 0 s;
  match take_char (is_char ":") s with
  | None => Some (h, 0, 0, 0, s)
  | Some s =>
      '(m, s) ← take_digits 2 0 s;
      match take_char (is_char ":") s with
      | None => Some (h, m, 0, 0, s)
      | Some s =>
          '(sec, s) ← take_digits 2 0 s;
          match take_char (fun c => is_char "." c || is_char "," c) s with
          | None => Some (h, m, sec, 0, s)
          | Some s' =>
              match s' with
              | String c _ =>
                  if is_digit c then
                    let '(us, s'') := take_fraction 100000 0 s' in Some (h, m, sec, us, s'')
                  else None
              | EmptyString => None
              end
          end
      end
  end.

Definition hms_us (h m sec us : Z) : Z := ((h * 60 + m) * 60 + sec) * 1000000 + us.

(** The offset: nothing (naive), or a sign and [HH[:MM[:SS[.ffffff]]]]. *)
Definition parse_offset (s : string) : option (option Z) :=
  match s with
  | EmptyString => Some None
  | String c s' =>
      if Ascii.eqb c "+" || Ascii.eqb c "-" then
        '(h, m, sec, us, rest) ← parse_hms s';
        let off := hms_us h m sec us in
        if str_empty rest && (off <? us_per_day)
        then Some (Some (if Ascii.eqb c "-" then - off else off)) else None
      else None
  end.

Definition parse_date (s : string) : option (Z * Z * Z * string) :=
  '(y, s) ← take_digits 4 0 s;
  s ← take_char (is_char "-") s;
  '(m, s) ← take_digits 2 0 s;
  s ← take_char (is_char "-") s;
  '(d, s) ← take_digits 2 0 s;
  Some (y, m, d, s).

Definition fromisoformat (s : string) : option datetime :=
  '(y, m, d, s) ← parse_date s;
  if negb ((1 <=? y) && (1 <=? m) && (m <=? 12) && (1 <=? d) && (d <=? days_in_month y m))
  then None else
  let day := days_from_civil y m d * us_per_day in
  match s with
  | EmptyString => Some {| local_us := day; utcoffset := None |}
  | String _ s =>
      '(h, mi, sec, us, s) ← parse_hms s;
      off ← parse_offset s;
      if (h <? 24) && (mi <? 60) && (sec <? 60)
      then Some {| local_us := day + hms_us h mi sec us; utcoffset := off |} else None
  end.

(** [datetime.fromisoformat(value.replace("Z", "+00:00"))] *)
Definition iso_parse (value : string) : option datetime :=
  fromisoformat (replace_char "Z" "+00:00" value).

Definition instant (d : datetime) : Z := local_us d - default 0 (utcoffset d).

(** [_require_timestamp]: text that parses to an aware datetime. *)
Definition require_timestamp (value : string) : result unit :=
  match iso_parse value with
  | None => Raise (ValueError ("invalid RFC 3339 timestamp: " +:+ py_repr value))
  | Some d => raise_if (is_none (utcoffset d)) (ValueError "timestamp must include a UTC offset")
  end.

(** [datetime.fromisoformat(...).astimezone(timezone.utc)]; a naive datetime is
    read in the host time zone, taken to be UTC. *)
Definition parse_timestamp (value : string) : result Z :=
  match iso_parse value with
  | None => Raise (ValueError ("Invalid isoformat string: " +:+ py_repr value))
  | Some d =>
      raise_if (negb ((min_instant <=? instant d) && (instant d <=? max_instant)))
        (OverflowError "date value out of range");;
      Ok (instant d)
  end.

(** The instant of a validated (aware) timestamp, as the records compare them. *)
Definition instant_of (value : string) : Z :=
  match iso_parse value with Some d => instant d | None => 0 end.

(** ** [isoformat(timespec="milliseconds").replace("+00:00", "Z")] *)

(** [w] decimal digits, zero padded. *)
Fixpoint decw (w : nat) (z : Z) : string :=
  match w with
  | O => EmptyString
  | S w' => String (ascii_of_N (Z.to_N (48 + (z / 10 ^ Z.of_nat w') mod 10))) (decw w' z)
  end.

Definition rfc3339 (t : Z) : string :=
  let '(y, m, d) := civil_from_days (t / us_per_day) in
  let us := t mod us_per_day in
  decw 4 y +:+ "-" +:+ decw 2 m +:+ "-" +:+ decw 2 d +:+ "T" +:+
  decw 2 (us / 3600000000) +:+ ":" +:+ decw 2 (us / 60000000 mod 60) +:+ ":" +:+
  decw 2 (us / 1000000 mod 60) +:+ "." +:+ decw 3 (us / 1000 mod 1000) +:+ "Z".

Definition ms_floor (t : Z) : Z := t / 1000 * 1000.

(** ** Round trip *)

Example rfc3339_epoch : rfc3339 0 = "1970-01-01T00:00:00.000Z".
Proof. reflexivity. Qed.
Example rfc3339_leap : rfc3339 1709164799999999 = "2024-02-28T23:59:59.999Z".
Proof. reflexivity. Qed.
Example rfc3339_parse : parse_timestamp "2024-02-29T00:00:00.250+02:00" = Ok 1709157600250000.
Proof. reflexivity. Qed.

Lemma days_civil_round n :
  let '(y, m, d) := civil_from_days n in days_from_civil y m d = n.
Proof.
  unfold civil_from_days.
  set (z := n + 719468). set (era := z `div` 146097). set (doe := z `mod` 146097).
  set (yoe := (doe - doe `div` 1460 + doe `div` 36524 - doe `div` 146096) `div` 365).
  assert (0 <= doe < 146097) as Hdoe by (subst doe; lia).
  assert (0 <= yoe < 400) as Hyoe by (subst yoe; lia).
  set (doy := doe - (365 * yoe + yoe `div` 4 - yoe `div` 100)).
  assert (0 <= doy < 366) as Hdoy by (subst doy yoe; lia).
  set (mp := (5 * doy + 2) `div` 153). assert (0 <= mp < 12) as Hmp by (subst mp; lia).
  unfold days_from_civil.
  set (m := if mp <? 10 then mp + 3 else mp - 9).
  assert ((if m <=? 2 then yoe + era * 400 + (if m <=? 2 then 1 else 0) - 1
    else yoe + era * 400 + (if m <=? 2 then 1 else 0)) = yoe + era * 400) as ->
    by (destruct (m <=? 2); lia).
  assert ((m + 9) `mod` 12 = mp) as -> by (subst m; destruct (mp <? 10) eqn:E; lia).
  rewrite Z.div_add, Z.mod_add, (Z.div_small yoe 400), (Z.mod_small yoe 400) by lia.
  subst doy doe era z. lia.
Qed.

(** The last day of a March-based year exists only before a leap February. *)
Lemma doy_365_leap doe :
  0 <= doe < 146097 ->
  let yoe := (doe - doe / 1460 + doe / 36524 - doe / 146096) / 365 in
  doe - (365 * yoe + yoe / 4 - yoe / 100) = 365 ->
  (yoe + 1) mod 4 = 0 /\ ((yoe + 1) mod 100 <> 0 \/ (yoe + 1) mod 400 = 0).
Proof. cbn zeta. intros H1 H2. lia. Qed.

Lemma civil_from_days_valid n :
  let '(y, m, d) := civil_from_days n in
  1 <= m <= 12 /\ 1 <= d <= days_in_month y m.
Proof.
  unfold civil_from_days.
  set (z := n + 719468). set (era := z `div` 146097). set (doe := z `mod` 146097).
  assert (0 <= doe < 146097) as Hdoe by (subst doe; lia).
  pose proof (doy_365_leap doe Hdoe) as Hleap. cbn zeta in Hleap.
  set (yoe := (doe - doe `div` 1460 + doe `div` 36524 - doe `div` 146096) `div` 365) in *.
  set (doy := doe - (365 * yoe + yoe `div` 4 - yoe `div` 100)) in *.
  assert (0 <= doy < 366) as Hdoy by (subst doy yoe; lia).
  set (mp := (5 * doy + 2) `div` 153). assert (0 <= mp < 12) as Hmp by (subst mp; lia).
  set (d := doy - (153 * mp + 2) `div` 5 + 1).
  set (m := if mp <? 10 then mp + 3 else mp - 9).
  assert (1 <= m <= 12) as Hm by (subst m; destruct (mp <? 10) eqn:E; lia).
  split; [done|].
  unfold days_in_month. destruct (m =? 2) eqn:Em.
  - assert (mp = 11) as Hmp11 by (subst m; destruct (mp <? 10) eqn:E; lia).
    assert ((m <=? 2) = true) as -> by lia.
    unfold is_leap. subst d. rewrite Hmp11.
    destruct (decide (doy = 365)) as [E|E].
    + specialize (Hleap E). clearbody yoe.
      destruct (_ && _)%bool eqn:El; [lia|]. exfalso. lia.
    + destruct (_ && _)%bool; lia.
  - subst d m mp. destruct (_ <? 10) eqn:E; destruct (_ || _ || _ || _)%bool eqn:Eo; lia.
Qed.

Lemma civil_year_range t :
  min_instant <= t <= max_instant ->
  1 <= (civil_from_days (t / us_per_day)).1.1 <= 9999.
Proof.
  unfold min_instant, max_instant, us_per_day, civil_from_days. intros Ht. cbn [fst].
  set (z := t `div` 86400000000 + 719468).
  assert (306 <= z <= 3652364) as Hz by (subst z; lia). clearbody z.
  set (doe := z `mod` 146097).
  set (yoe := (doe - doe `div` 1460 + doe `div` 36524 - doe `div` 146096) `div` 365).
  set (doy := doe - (365 * yoe + yoe `div` 4 - yoe `div` 100)).
  assert (0 <= doe < 146097) as Hdoe by (subst doe; lia).
  assert (0 <= yoe < 400) as Hyoe by (subst yoe; lia).
  assert (0 <= doy < 366) as Hdoy by (subst doy yoe; lia).
  set (era := z `div` 146097).
  assert (0 <= era <= 24) by (subst era; lia).
  assert (z = era * 146097 + doe) by (subst era doe; lia). clearbody era.
  assert (yoe = 0 -> doy = doe) by (subst doy; lia).
  assert (yoe = 399 -> doy = doe - 145731) by (subst doy; lia).
  clearbody doy yoe doe.
  set (mp := (5 * doy + 2) `div` 153). assert (0 <= mp < 12) by (subst mp; lia).
  assert (doy >= 306 -> mp >= 10) by (subst mp; lia).
  assert (doy <= 305 -> mp < 10) by (subst mp; lia).
  clearbody mp. destruct (mp <? 10) eqn:E; destruct (_ <=? 2) eqn:E2; lia.
Qed.

Lemma digit_char n :
  let c := ascii_of_N (Z.to_N (48 + n mod 10)) in is_digit c = true /\ code c - 48 = n mod 10.
Proof. cbn zeta. unfold is_digit. rewrite code_ascii_of_Z by lia. lia. Qed.

Lemma take_digits_decw w acc n rest :
  take_digits w acc (decw w n +:+ rest) = Some (acc * 10 ^ Z.of_nat w + n mod 10 ^ Z.of_nat w, rest).
Proof.
  revert acc. induction w as [|w IH]; intros acc.
  - cbn. f_equal. f_equal. change (10 ^ 0) with 1. lia.
  - change (decw (S w) n) with (String (ascii_of_N (Z.to_N (48 + (n `div` 10 ^ Z.of_nat w) `mod` 10))) (decw w n)).
    cbn [String.append take_digits].
    destruct (digit_char (n `div` 10 ^ Z.of_nat w)) as [-> ->]. rewrite IH. f_equal. f_equal.
    rewrite Nat2Z.inj_succ, Z.pow_succ_r by lia.
    rewrite (Z.mul_comm 10 (10 ^ _)), Z.rem_mul_r by lia. lia.
Qed.

Lemma take_digits_decw_exact w n rest :
  0 <= n < 10 ^ Z.of_nat w -> take_digits w 0 (decw w n +:+ rest) = Some (n, rest).
Proof. intros H. rewrite take_digits_decw, Z.mod_small by done. done. Qed.

(** The three fraction digits of a millisecond stamp, in microseconds. *)
Lemma take_fraction_decw3 ms rest :
  0 <= ms < 1000 -> (forall c s, rest = String c s -> is_digit c = false) ->
  take_fraction 100000 0 (decw 3 ms +:+ rest) = (1000 * ms, rest).
Proof.
  intros H Hrest. cbn [decw String.append take_fraction].
  change (10 ^ Z.of_nat 2) with 100. change (10 ^ Z.of_nat 1) with 10. change (10 ^ Z.of_nat 0) with 1.
  destruct (digit_char (ms `div` 100)) as [-> ->]. destruct (digit_char (ms `div` 10)) as [-> ->].
  destruct (digit_char (ms `div` 1)) as [-> ->].
  change (100000 / 10) with 10000. change (10000 / 10) with 1000.
  assert (0 + 100000 * ((ms / 100) mod 10) + 10000 * ((ms / 10) mod 10)
    + 1000 * ((ms / 1) mod 10) = 1000 * ms) as -> by lia.
  destruct rest as [|c s]; [done|]. cbn [take_fraction]. by rewrite (Hrest c s).
Qed.

(** No stamp digit is the letter the source replaces before parsing. *)
Lemma replace_Z_decw w n rest :
  replace_char "Z" "+00:00" (decw w n +:+ rest) = decw w n +:+ replace_char "Z" "+00:00" rest.
Proof.
  induction w as [|w IH]; [done|]. cbn [decw String.append replace_char].
  destruct (digit_char (n `div` 10 ^ Z.of_nat w)) as [Hd _].
  destruct (Ascii.eqb_spec "Z" (ascii_of_N (Z.to_N (48 + (n `div` 10 ^ Z.of_nat w) `mod` 10)))) as [E|E].
  - rewrite <- E in Hd. discriminate.
  - rewrite IH. reflexivity.
Qed.

Lemma take_char_hit p c s : p c = true -> take_char p (String c s) = Some s.
Proof. intros H. cbn. by rewrite H. Qed.

(** The time of a millisecond stamp. *)
Lemma parse_hms_stamp h mi sec ms rest :
  0 <= h < 100 -> 0 <= mi < 100 -> 0 <= sec < 100 -> 0 <= ms < 1000 ->
  (forall c s, rest = String c s -> is_digit c = false) ->
  parse_hms (decw 2 h +:+ String ":" (decw 2 mi +:+ String ":" (decw 2 sec +:+
    String "." (decw 3 ms +:+ rest)))) = Some (h, mi, sec, 1000 * ms, rest).
Proof.
  intros Hh Hmi Hsec Hms Hrest. unfold parse_hms.
  rewrite take_digits_decw_exact by (cbn; lia). cbn [mbind option_bind].
  rewrite take_char_hit by done.
  rewrite take_digits_decw_exact by (cbn; lia). cbn [mbind option_bind].
  rewrite take_char_hit by done.
  rewrite take_digits_decw_exact by (cbn; lia). cbn [mbind option_bind].
  rewrite take_char_hit by done.
  assert (exists c s, decw 3 ms +:+ rest = String c s /\ is_digit c = true) as (c & s & E & Hc).
  { cbn [decw String.append]. eexists _, _. split; [reflexivity|]. apply digit_char. }
  pose proof (take_fraction_decw3 ms rest Hms Hrest) as Hf. rewrite E in Hf |- *.
  by rewrite Hc, Hf.
Qed.

(** The main round trip: a stamp parses back to its instant, floored to 1 ms. *)
Lemma iso_parse_rfc3339 t :
  min_instant <= t <= max_instant ->
  iso_parse (rfc3339 t) = Some {| local_us := ms_floor t; utcoffset := Some 0 |}.
Proof.
  intros Ht. pose proof (civil_year_range t Ht) as Hy.
  pose proof (civil_from_days_valid (t / us_per_day)) as Hv.
  pose proof (days_civil_round (t / us_per_day)) as Hr.
  unfold iso_parse, rfc3339. destruct (civil_from_days (t / us_per_day)) as [[y m] d].
  cbn [fst] in Hy. destruct Hv as [Hm Hd].
  assert (d <= 31) as Hd31 by (unfold days_in_month in Hd; repeat case_match; lia).
  set (us := t mod us_per_day). assert (0 <= us < us_per_day) as Hus by (subst us; unfold us_per_day; lia).
  repeat first [rewrite replace_Z_decw
    | progress cbn [String.append replace_char Ascii.eqb Bool.eqb str1]].
  unfold fromisoformat, parse_date.
  do 2 (rewrite take_digits_decw_exact by (cbn; lia); cbn [mbind option_bind];
    rewrite take_char_hit by done; cbn [mbind option_bind]).
  rewrite take_digits_decw_exact by (cbn; lia). cbn [mbind option_bind].
  assert (negb ((1 <=? y) && (1 <=? m) && (m <=? 12) && (1 <=? d) && (d <=? days_in_month y m)) = false)
    as -> by lia.
  unfold us_per_day in Hus.
  rewrite parse_hms_stamp; [|lia..|by intros c s [= <- <-]].
  cbn [mbind option_bind]. change (parse_offset "+00:00") with (Some (Some 0)). cbn [mbind option_bind].
  assert ((us / 3600000000 <? 24) && (us / 60000000 mod 60 <? 60) && (us / 1000000 mod 60 <? 60) = true)
    as -> by lia.
  rewrite Hr. f_equal. f_equal. unfold hms_us, ms_floor, us_per_day.
  subst us. unfold us_per_day. lia.
Qed.

(** A stamp is an aware timestamp whose instant is the clock's, floored to 1 ms. *)
Lemma require_timestamp_rfc3339 t :
  min_instant <= t <= max_instant -> require_timestamp (rfc3339 t) = Ok tt.
Proof. intros Ht. unfold require_timestamp. by rewrite iso_parse_rfc3339. Qed.

Lemma ms_floor_bounds t : t - 999 <= ms_floor t <= t.
Proof. unfold ms_floor. lia. Qed.

Lemma ms_floor_mono t u : t <= u -> ms_floor t <= ms_floor u.
Proof. unfold ms_floor. lia. Qed.

Lemma parse_timestamp_rfc3339 t :
  min_instant <= t <= max_instant -> parse_timestamp (rfc3339 t) = Ok (ms_floor t).
Proof.
  intros Ht. unfold parse_timestamp. rewrite iso_parse_rfc3339 by done.
  unfold instant. cbn [local_us utcoffset default]. rewrite Z.sub_0_r.
  assert (min_instant <= ms_floor t <= max_instant) as [H1 H2]
    by (unfold ms_floor, min_instant, max_instant in *; lia).
  apply Z.leb_le in H1, H2. by rewrite H1, H2.
Qed.

Lemma instant_of_rfc3339 t :
  min_instant <= t <= max_instant -> instant_of (rfc3339 t) = ms_floor t.
Proof.
  intros Ht. unfold instant_of. rewrite iso_parse_rfc3339 by done.
  unfold instant. cbn. lia.
Qed.
