(* ===== verification/Json.v ===== *)
(** * JSON documents, their canonical form and SHA-256

    [json] is the value type the source's [to_dict] methods build.  RFC 8785
    serialization is the third-party package [rfc8785]: the interface [JCS] is
    what the source uses of it ([rfc8785.dumps], [None] when it raises).
    [hashlib.sha256] is modelled concretely. *)

From Stdlib Require Import SpecFloat.
From S2P Require Export Identifiers.

#[warnings="-register-all"]
Inductive json :=
| JNull
| JBool (b : bool)
| JInt (z : Z)
| JFloat (f : spec_float)
| JStr (s : string)
| JArr (l : list json)
| JObj (fields : list (string * json)).

(** Induction through the lists of a document. *)
Lemma json_induction (P : json -> Prop) :
  P JNull -> (forall b, P (JBool b)) -> (forall z, P (JInt z)) -> (forall f, P (JFloat f)) ->
  (forall s, P (JStr s)) -> (forall l, Forall P l -> P (JArr l)) ->
  (forall fields, Forall (fun p => P p.2) fields -> P (JObj fields)) -> forall v, P v.
Proof.
  intros H1 H2 H3 H4 H5 H6 H7. fix IH 1. intros [|b|z|f|s|l|fields];
    [apply H1|apply H2|apply H3|apply H4|apply H5|apply H6|apply H7].
  - induction l as [|x l IHl]; constructor; [apply IH|exact IHl].
  - induction fields as [|[k x] l IHl]; constructor; [apply IH|exact IHl].
Qed.

(** [None]-able fields of a document. *)
Definition JOptStr (o : option string) : json := from_option JStr JNull o.
Definition JOptInt (o : option Z) : json := from_option JInt JNull o.
Definition JStrs (l : list string) : json := JArr (JStr <$> l).

(** [rfc8785.dumps]: the canonical bytes of a document. *)
Class JCS := jcs_dumps : json -> option string.

(** ** SHA-256 *)
Module Sha256.

Definition mask32 : Z := 4294967295.
Definition add32 (a b : Z) : Z := Z.land (a + b) mask32.
Definition rotr (n x : Z) : Z :=
  Z.lor (Z.shiftr x n) (Z.land (Z.shiftl x (32 - n)) mask32).
Definition xor3 (a b c : Z) : Z := Z.lxor a (Z.lxor b c).

Definition round_constants : list Z := [
 1116352408; 1899447441; 3049323471; 3921009573; 961987163; 1508970993; 2453635748; 2870763221;
 3624381080; 310598401; 607225278; 1426881987; 1925078388; 2162078206; 2614888103; 3248222580;
 3835390401; 4022224774; 264347078; 604807628; 770255983; 1249150122; 1555081692; 1996064986;
 2554220882; 2821834349; 2952996808; 3210313671; 3336571891; 3584528711; 113926993; 338241895;
 666307205; 773529912; 1294757372; 1396182291; 1695183700; 1986661051; 2177026350; 2456956037;
 2730485921; 2820302411; 3259730800; 3345764771; 3516065817; 3600352804; 4094571909; 275423344;
 430227734; 506948616; 659060556; 883997877; 958139571; 1322822218; 1537002063; 1747873779;
 1955562222; 2024104815; 2227730452; 2361852424; 2428436474; 2756734187; 3204031479; 3329325298].

Definition initial_state : list Z := [
 1779033703; 3144134277; 1013904242; 2773480762; 1359893119; 2600822924; 528734635; 1541459225].

(** One round on the working variables and the 16-word message window. *)
Definition round (st : list Z * list Z) (k : Z) : list Z * list Z :=
  match st with
  | ([a; b; c; d; e; f; g; h], w0 :: ws) =>
      let s1 := xor3 (rotr 6 e) (rotr 11 e) (rotr 25 e) in
      let ch := Z.lxor (Z.land e f) (Z.land (Z.lxor e mask32) g) in
      let t1 := add32 h (add32 s1 (add32 ch (add32 k w0))) in
      let s0 := xor3 (rotr 2 a) (rotr 13 a) (rotr 22 a) in
      let maj := xor3 (Z.land a b) (Z.land a c) (Z.land b c) in
      let t2 := add32 s0 maj in
      let w1 := nth 0 ws 0 in
      let w9 := nth 8 ws 0 in
      let w14 := nth 13 ws 0 in
      let e0 := xor3 (rotr 7 w1) (rotr 18 w1) (Z.shiftr w1 3) in
      let e1 := xor3 (rotr 17 w14) (rotr 19 w14) (Z.shiftr w14 10) in
      let w16 := add32 e1 (add32 w9 (add32 e0 w0)) in
      ([add32 t1 t2; a; b; c; add32 d t1; e; f; g], ws ++ [w16])
  | _ => st
  end.

Definition compress (h : list Z) (block : list Z) : list Z :=
  zip_with add32 h (foldl round (h, block) round_constants).1.

Fixpoint bytes_of (s : string) : list Z :=
  match s with EmptyString => [] | String c s' => code c :: bytes_of s' end.

Fixpoint words (l : list Z) : list Z :=
  match l with
  | a :: b :: c :: d :: l' => (((a * 256 + b) * 256 + c) * 256 + d) :: words l'
  | _ => []
  end.

Fixpoint blocks (fuel : nat) (l : list Z) : list (list Z) :=
  match fuel, l with
  | S fuel', _ :: _ => take 16 l :: blocks fuel' (drop 16 l)
  | _, _ => []
  end.

Definition pad (l : list Z) : list Z :=
  let n := Z.of_nat (length l) in
  let zeros := Z.to_nat ((55 - n) mod 64) in
  l ++ 128 :: replicate zeros 0 ++
    ((fun i => Z.land (Z.shiftr (8 * n) (8 * i)) 255) <$> [7; 6; 5; 4; 3; 2; 1; 0]).

Definition digest_words (s : string) : list Z :=
  let ws := words (pad (bytes_of s)) in
  foldl compress initial_state (blocks (length ws) ws).

(** [hashlib.sha256(b).hexdigest()] *)
Definition hexdigest (s : string) : string :=
  String.concat "" (hexw 8 <$> digest_words s).

Lemma length_round st k : length st.1 = 8%nat -> length (round st k).1 = 8%nat.
Proof.
  destruct st as [h w]. cbn. intros H. unfold round.
  do 8 (destruct h as [|? h]; [discriminate|]). destruct h; [|discriminate].
  by destruct w.
Qed.

Lemma length_compress h block : length h = 8%nat -> length (compress h block) = 8%nat.
Proof.
  intros H. unfold compress. rewrite length_zip_with, H.
  assert (forall ks st, length st.1 = 8%nat -> length (foldl round st ks).1 = 8%nat) as Hf.
  { induction ks as [|k ks IH]; intros st Hst; cbn; [done|]. by apply IH, length_round. }
  by rewrite Hf.
Qed.

Lemma length_digest_words s : length (digest_words s) = 8%nat.
Proof.
  unfold digest_words. set (bs := blocks _ _). clearbody bs.
  assert (length initial_state = 8%nat) as H by done. revert H. generalize initial_state.
  induction bs as [|b bs IH]; intros h Hh; cbn; [done|]. by apply IH, length_compress.
Qed.

Lemma concat_hexw_hex l :
  String.length (String.concat "" (hexw 8 <$> l)) = (8 * length l)%nat /\
  str_forallb (fun c => in_class c [("0", "9"); ("a", "f")]%char)
    (String.concat "" (hexw 8 <$> l)) = true.
Proof.
  assert (forall s t p, str_forallb p (s +:+ t) = str_forallb p s && str_forallb p t) as Happ.
  { intros s t p. induction s as [|c s IH]; cbn [String.append str_forallb]; [done|].
    by rewrite IH, andb_assoc. }
  induction l as [|x l [IH1 IH2]]; [done|].
  assert (String.concat "" (hexw 8 <$> x :: l) = hexw 8 x +:+ String.concat "" (hexw 8 <$> l)) as ->.
  { destruct l; [|done]. symmetry. apply str_app_nil_r. }
  rewrite str_length_app, Happ, IH1, IH2, length_hexw.
  rewrite str_forallb_hexw by apply hex_char_in_class. split; [cbn; lia|done].
Qed.

(** Every digest is a lowercase SHA-256 digest in the sense of the validators. *)
Lemma hexdigest_pattern s : fullmatch SHA256_PATTERN (hexdigest s) = true.
Proof.
  apply fullmatch_spec, matches_repeat_class. unfold hexdigest.
  destruct (concat_hexw_hex (digest_words s)) as [-> ->]. by rewrite length_digest_words.
Qed.
End Sha256.

Definition sha256 : string -> string := Sha256.hexdigest.

Example sha256_abc :
  sha256 "abc" = "ba7816bf8f01cfea414140de5dae2223b00361a396177a9cb410ff61f20015ad".
Proof. vm_compute. reflexivity. Qed.

(** [hashlib.sha256(rfc8785.dumps(v)).hexdigest()] *)
Definition sha256_json `{JCS} (v : json) : option string := sha256 <$> jcs_dumps v.

(** A concrete serializer, with which the parameter [JCS] is instantiated where
    a result is evaluated on concrete records: object members sorted by key,
    minimal escapes, integers in the safe range; floats are left out. *)
Definition short_escape (c : ascii) : option ascii :=
  if Ascii.eqb c dquote || Ascii.eqb c backslash then Some c
  else if Ascii.eqb c "008" then Some "b"%char
  else if Ascii.eqb c "009" then Some "t"%char
  else if Ascii.eqb c newline then Some "n"%char
  else if Ascii.eqb c "012" then Some "f"%char
  else if Ascii.eqb c creturn then Some "r"%char
  else None.

Definition quote_char (c : ascii) : string :=
  match short_escape c with
  | Some e => String backslash (str1 e)
  | None => if code c <? 32 then String backslash ("u" +:+ hexw 4 (code c)) else utf8_encode (str1 c)
  end.

Fixpoint quote_tail (s : string) : string :=
  match s with
  | EmptyString => str1 dquote
  | String c s' => quote_char c +:+ quote_tail s'
  end.

Definition json_quote (s : string) : string := String dquote (quote_tail s).

Fixpoint json_text (v : json) : option string :=
  match v with
  | JNull => Some "null"
  | JBool true => Some "true"
  | JBool false => Some "false"
  | JInt z => if (Z.abs z <=? SAFE_INTEGER_MAX) then Some (dec z) else None
  | JFloat _ => None
  | JStr s => Some (json_quote s)
  | JArr l =>
      items ← mapM json_text l; Some ("[" +:+ join "," items +:+ "]")
  | JObj fields =>
      items ← mapM (fun p => t ← json_text p.2; Some (p.1, json_quote p.1 +:+ ":" +:+ t)) fields;
      Some ("{" +:+ join "," (snd <$> sorted_by fst items) +:+ "}")
  end.
Definition reference_jcs : JCS := json_text.
