(* ===== verification/Secrets.v ===== *)
(** * Credential filtering and canonical JSON

    The part of state_models.py every persisted document goes through:
    [_string_contains_credentials], [_validate_json_tree], [canonical_json] and
    [canonical_object], with the pieces of [urllib.parse] and of [str.casefold]
    they use.  What depends on data shipped with the interpreter, the character
    tables above Latin-1 and the check of a bracketed host, is the interface
    [PyTables].  Documents are finite trees, so the guard against cyclic
    containers never fires and is left out. *)

From Stdlib Require Import SpecFloat.
From S2P Require Export Json.

(** [wide_fold]/[wide_alnum]: [str.casefold] and [str.isalnum] of a code point
    above 255; [bracketed_netloc_ok]: the check [urlsplit] makes of an authority
    with brackets. *)
Class PyTables := {
  wide_fold : Z -> list Z;
  wide_alnum : Z -> bool;
  bracketed_netloc_ok : string -> bool
}.

Definition _FORBIDDEN_FIELD_NAMES : list string :=
  ["accesstoken"; "apikey"; "authorization"; "bearertoken"; "clientsecret"; "cookie"; "credential";
   "credentials"; "password"; "passwd"; "privatekey"; "refreshtoken"; "secret"; "secretkey";
   "sessioncookie"; "token"].
Definition _FORBIDDEN_QUERY_NAMES : list string :=
  _FORBIDDEN_FIELD_NAMES ++
  ["awsaccesskeyid"; "sig"; "signature"; "sharedaccesssignature"; "xamzsignature"; "xgoogsignature"].

(** ** Characters *)

Definition codes (s : string) : list Z := code <$> list_ascii_of_string s.

(** [isalnum] of a Latin-1 character: letters, digits, superscripts and fractions. *)
Definition latin_alnum (c : Z) : bool :=
  ((48 <=? c) && (c <=? 57)) || ((65 <=? c) && (c <=? 90)) || ((97 <=? c) && (c <=? 122)) ||
  existsb (Z.eqb c) [170; 178; 179; 181; 185; 186; 188; 189; 190] ||
  ((192 <=? c) && (c <=? 255) && negb (c =? 215) && negb (c =? 247)).

(** [casefold] of a Latin-1 character; the micro sign folds to a Greek letter. *)
Definition latin_fold (c : Z) : list Z :=
  if (65 <=? c) && (c <=? 90) then [c + 32]
  else if c =? 181 then [956]
  else if c =? 223 then [115; 115]
  else if (192 <=? c) && (c <=? 222) && negb (c =? 215) then [c + 32]
  else [c].

Definition is_space (c : Z) : bool :=
  ((9 <=? c) && (c <=? 13)) || ((28 <=? c) && (c <=? 32)) || (c =? 133) || (c =? 160).

Section Tables.
Context `{PyTables}.

Definition fold_code (c : Z) : list Z := if c <? 256 then latin_fold c else wide_fold c.
Definition alnum_code (c : Z) : bool := if c <? 256 then latin_alnum c else wide_alnum c.

(** [_normalized_field_name], on code points. *)
Definition normalized_codes (cs : list Z) : list Z :=
  List.filter alnum_code (cs ≫= fold_code).
Definition _normalized_field_name (value : string) : list Z := normalized_codes (codes value).

Definition codes_in (cs : list Z) (names : list string) : bool :=
  existsb (fun n => bool_decide (cs = codes n)) names.

(** ** [_AUTHORIZATION_VALUE.search] *)

Definition token68 (c : ascii) : bool :=
  is_lower c || is_upper c || is_digit c || contains_char c "+/_.=-".
Definition is_word (c : ascii) : bool := latin_alnum (code c) || Ascii.eqb c "_".

Definition lower_char (c : ascii) : ascii :=
  if is_upper c then ascii_of_N (Z.to_N (code c + 32)) else c.
Fixpoint str_lower (s : string) : string :=
  match s with EmptyString => EmptyString | String c s' => String (lower_char c) (str_lower s') end.

Fixpoint span (p : ascii -> bool) (s : string) : nat * string :=
  match s with
  | String c s' => if p c then let '(n, r) := span p s' in (S n, r) else (O, s)
  | EmptyString => (O, s)
  end.

Definition drop_str (n : nat) (s : string) : string := String.substring n (String.length s - n) s.

(** One of the two scheme names here, whitespace, and at least eight credential characters. *)
Definition authorization_here (s : string) : bool :=
  existsb (fun kw =>
    str_startswith (str_lower s) kw &&
    let '(n, rest) := span (fun c => is_space (code c)) (drop_str (String.length kw) s) in
    (1 <=? n)%nat && (8 <=? (span token68 rest).1)%nat) ["basic"; "bearer"].

(** [before]: the previous character is a word character, so no [\b] here. *)
Fixpoint authorization_search (before : bool) (s : string) : bool :=
  (negb before && authorization_here s) ||
  match s with EmptyString => false | String c s' => authorization_search (is_word c) s' end.

(** ** [urllib.parse] *)

(** [s.partition(c)]: the text before the first [c], and after it if there is one. *)
Fixpoint partition_at (p : ascii -> bool) (s : string) : string * option string :=
  match s with
  | EmptyString => (EmptyString, None)
  | String c s' => if p c then (EmptyString, Some s')
                   else let '(a, b) := partition_at p s' in (String c a, b)
  end.
Definition before (c : ascii) (s : string) : string := (partition_at (Ascii.eqb c) s).1.
Definition after (c : ascii) (s : string) : option string := (partition_at (Ascii.eqb c) s).2.

Fixpoint lstrip (p : ascii -> bool) (s : string) : string :=
  match s with String c s' => if p c then lstrip p s' else s | EmptyString => EmptyString end.
Fixpoint remove_chars (p : ascii -> bool) (s : string) : string :=
  match s with
  | EmptyString => EmptyString
  | String c s' => if p c then remove_chars p s' else String c (remove_chars p s')
  end.

Definition scheme_char (c : ascii) : bool :=
  is_lower c || is_upper c || is_digit c || contains_char c "+-.".

(** The text after the scheme, when the text before the first colon is one. *)
Definition strip_scheme (url : string) : string :=
  match url, after ":" url with
  | String c _, Some rest =>
      if (is_lower c || is_upper c) && str_forallb scheme_char (before ":" url) then rest else url
  | _, _ => url
  end.

(** The text up to the first delimiter of the path, and from it on. *)
Fixpoint split_netloc (s : string) : string * string :=
  match s with
  | EmptyString => (EmptyString, EmptyString)
  | String c s' => if contains_char c "/?#" then (EmptyString, s)
                   else let '(a, b) := split_netloc s' in (String c a, b)
  end.

(** [urlsplit]: the authority and the query; [None] for its [ValueError]. *)
Definition urlsplit (value : string) : option (string * string) :=
  let url := remove_chars (fun c => contains_char c (String "009" (String "010" (str1 "013"))))
               (lstrip (fun c => code c <=? 32) value) in
  let url := strip_scheme url in
  let '(netloc, rest) := if str_startswith url "//" then split_netloc (drop_str 2 url) else (EmptyString, url) in
  if negb (Bool.eqb (contains_char "[" netloc) (contains_char "]" netloc)) then None
  else if contains_char "[" netloc && negb (bracketed_netloc_ok netloc) then None
  else Some (netloc, default EmptyString (after "?" (before "#" rest))).

Definition hex_digit (c : ascii) : option Z :=
  if is_digit c then Some (code c - 48)
  else if (97 <=? code c) && (code c <=? 102) then Some (code c - 87)
  else if (65 <=? code c) && (code c <=? 70) then Some (code c - 55)
  else None.

(** [unquote_to_bytes] of text without characters above 127. *)
Fixpoint unquote_bytes (s : string) : list Z :=
  match s with
  | EmptyString => []
  | String "%" (String a (String b s') as r) =>
      match hex_digit a, hex_digit b with
      | Some x, Some y => (16 * x + y) :: unquote_bytes s'
      | _, _ => code "%" :: unquote_bytes r
      end
  | String c s' => code c :: unquote_bytes s'
  end.

Definition cont (lo hi : Z) (b : list Z) : option (Z * list Z) :=
  match b with
  | x :: r => if (lo <=? x) && (x <=? hi) then Some (x - 128, r) else None
  | [] => None
  end.

(** [bytes.decode("utf-8", "replace")]: a malformed prefix becomes U+FFFD. *)
Fixpoint utf8_decode (fuel : nat) (b : list Z) : list Z :=
  match fuel, b with
  | S fuel, x :: r =>
      let bad r := 65533 :: utf8_decode fuel r in
      let more1 lo hi k := match cont lo hi r with Some (a, r1) => k a r1 | None => bad r end in
      let more2 a r1 k := match cont 128 191 r1 with Some (b, r2) => k (64 * a + b) r2 | None => bad r1 end in
      let emit base a r := (base + a) :: utf8_decode fuel r in
      if x <? 128 then x :: utf8_decode fuel r
      else if (194 <=? x) && (x <=? 223) then more1 128 191 (emit (64 * (x - 192)))
      else if (224 <=? x) && (x <=? 239) then
        more1 (if x =? 224 then 160 else 128) (if x =? 237 then 159 else 191)
          (fun a r1 => more2 a r1 (emit (4096 * (x - 224))))
      else if (240 <=? x) && (x <=? 244) then
        more1 (if x =? 240 then 144 else 128) (if x =? 244 then 143 else 191)
          (fun a r1 => more2 a r1 (fun ab r2 => more2 ab r2 (emit (262144 * (x - 240)))))
      else bad r
  | _, _ => []
  end.

(** [unquote]: maximal runs of ASCII are percent-decoded, the rest is kept.
    [run] is the pending ASCII run, reversed. *)
Fixpoint unquote_go (run : string) (s : string) : list Z :=
  let flush := let b := unquote_bytes run in utf8_decode (length b) b in
  match s with
  | EmptyString => flush
  | String c s' =>
      if code c <? 128 then unquote_go (run +:+ str1 c) s'
      else flush ++ code c :: unquote_go EmptyString s'
  end.
Definition unquote (s : string) : list Z := unquote_go EmptyString s.

(** The names [parse_qsl] returns: fields with a [=] and a non-empty value. *)
Definition query_names (query : string) : list (list Z) :=
  omap (fun field =>
    match after "=" field with
    | Some v => if str_empty v then None else Some (unquote (replace_char "+" " " (before "=" field)))
    | None => None
    end) (split_on "&" query).

Definition _string_contains_credentials (value : string) : bool :=
  if str_contains value "-----BEGIN " && str_contains value "PRIVATE KEY-----" then true
  else if authorization_search false value then true
  else if negb (str_contains value "://") then false
  else match urlsplit value with
       | None => false
       | Some (netloc, query) =>
           if contains_char "@" netloc then true
           else existsb (fun key => codes_in (normalized_codes key) _FORBIDDEN_QUERY_NAMES)
                  (query_names query)
       end.

(** ** JSON trees *)

Definition float_is_finite (f : spec_float) : bool :=
  match f with S754_zero _ | S754_finite _ _ _ => true | _ => false end.

Definition field_guard (field_name : option string) : result unit :=
  raise_if (match field_name with
            | Some n => codes_in (_normalized_field_name n) _FORBIDDEN_FIELD_NAMES
            | None => false
            end)
    (SecretMaterialError "operational state cannot persist credential-bearing fields").

Fixpoint _validate_json_tree (field_name : option string) (value : json) : result unit :=
  field_guard field_name;;
  match value with
  | JNull | JBool _ => Ok tt
  | JInt z => raise_if (negb ((- SAFE_INTEGER_MAX <=? z) && (z <=? SAFE_INTEGER_MAX)))
      (StateModelError "operational state integers must remain in the signed safe-integer domain")
  | JFloat f => raise_if (negb (float_is_finite f))
      (StateModelError "operational state cannot contain non-finite numbers")
  | JStr s => raise_if (_string_contains_credentials s)
      (SecretMaterialError "operational state cannot persist credential-bearing values")
  | JArr l => for_each l (_validate_json_tree None)
  | JObj fields => for_each fields (fun p => _validate_json_tree (Some p.1) p.2)
  end.

Context `{JCS}.

(** The canonical UTF-8 bytes. *)
Definition canonical_json (value : json) : result string :=
  _validate_json_tree None value;;
  match jcs_dumps value with
  | Some text => Ok text
  | None => Raise (StateModelError "operational state is not RFC 8785 canonicalizable")
  end.

(** [canonical_object] of an object: its canonical bytes and their digest. *)
Definition canonical_object (value : list (string * json)) : result (string * string) :=
  encoded ← canonical_json (JObj value); Ok (encoded, sha256 encoded).

(** ** What the filter guarantees *)

(** No field name of the tree normalizes to a forbidden one, no string holds
    credentials, and every number is a safe integer or finite. *)
#[warnings="-register-all"]
Inductive clean : json -> Prop :=
| clean_null : clean JNull
| clean_bool b : clean (JBool b)
| clean_int z : - SAFE_INTEGER_MAX <= z <= SAFE_INTEGER_MAX -> clean (JInt z)
| clean_float f : float_is_finite f = true -> clean (JFloat f)
| clean_str s : _string_contains_credentials s = false -> clean (JStr s)
| clean_arr l : Forall clean l -> clean (JArr l)
| clean_obj fields :
    Forall (fun p => codes_in (_normalized_field_name p.1) _FORBIDDEN_FIELD_NAMES = false /\ clean p.2)
      fields -> clean (JObj fields).


Lemma field_guard_ok n :
  field_guard (Some n) = Ok tt <-> codes_in (_normalized_field_name n) _FORBIDDEN_FIELD_NAMES = false.
Proof. unfold field_guard. apply raise_if_ok. Qed.

Lemma validate_named n v :
  _validate_json_tree (Some n) v = Ok tt <->
  field_guard (Some n) = Ok tt /\ _validate_json_tree None v = Ok tt.
Proof.
  assert (forall o, _validate_json_tree o v = Ok tt <->
    field_guard o = Ok tt /\ _validate_json_tree None v = Ok tt) as Hgen; [|apply Hgen].
  intros o. destruct v; cbn [_validate_json_tree]; rewrite !bind_unit_ok;
    assert (field_guard None = Ok tt) as -> by done; tauto.
Qed.

(** The validator accepts exactly the clean trees. *)
Lemma validate_clean v : _validate_json_tree None v = Ok tt <-> clean v.
Proof.
  induction v as [|b|z|f|s|l IH|fields IH] using json_induction; cbn [_validate_json_tree];
    rewrite ?bind_unit_ok; unfold field_guard; cbn [raise_if].
  - split; [constructor|done].
  - split; [constructor|done].
  - rewrite raise_if_ok. split; [intros [_ ?%negb_false_iff]; apply clean_int; lia|inversion 1; subst; split; [done|lia]].
  - rewrite raise_if_ok, negb_false_iff. split; [intros [_ ?]; by constructor|by inversion 1].
  - rewrite raise_if_ok. split; [intros [_ ?]; by constructor|by inversion 1].
  - rewrite for_each_ok. split.
    + intros [_ Hl]. constructor. rewrite Forall_forall in *. intros x Hx. by apply IH, Hl.
    + inversion 1; subst. split; [done|]. rewrite Forall_forall in *. intros x Hx. by apply IH; auto.
  - rewrite for_each_ok. split.
    + intros [_ Hl]. constructor. rewrite Forall_forall in *. intros [k x] Hx.
      apply Hl in Hx as Hk. apply validate_named in Hk as [Hk Hv]. apply field_guard_ok in Hk.
      split; [done|]. by apply (IH (k, x) Hx).
    + inversion 1 as [| | | | | |? Hl]; subst. split; [done|]. rewrite Forall_forall in *.
      intros [k x] Hx. destruct (Hl _ Hx) as [Hk Hv]. apply validate_named. split; [by apply field_guard_ok|].
      by apply (IH (k, x) Hx).
Qed.

Lemma canonical_json_clean v text : canonical_json v = Ok text -> clean v /\ jcs_dumps v = Some text.
Proof.
  unfold canonical_json. intros Hj. ok_inv. apply validate_clean in E.
  destruct (jcs_dumps v); [|done]. by injection Hj as ->.
Qed.

Lemma canonical_json_intro v text :
  clean v -> jcs_dumps v = Some text -> canonical_json v = Ok text.
Proof.
  intros Hc Ht. unfold canonical_json. apply validate_clean in Hc as ->. cbn. by rewrite Ht.
Qed.
End Tables.

(** ** Credentials in an authority *)

Lemma str_forallb_app p s t : str_forallb p (s +:+ t) = str_forallb p s && str_forallb p t.
Proof. induction s as [|c s IH]; cbn; [done|]. by rewrite IH, andb_assoc. Qed.

Lemma str_forallb_impl (p q : ascii -> bool) s :
  (forall c, p c = true -> q c = true) -> str_forallb p s = true -> str_forallb q s = true.
Proof.
  intros H. induction s as [|c s IH]; cbn; [done|]. rewrite !andb_true_iff. intros [? ?]. auto.
Qed.

Lemma contains_char_app c s t : contains_char c (s +:+ t) = contains_char c s || contains_char c t.
Proof. induction s as [|d s IH]; cbn; [done|]. by rewrite IH, orb_assoc. Qed.

Lemma partition_at_app p s c t :
  str_forallb (fun d => negb (p d)) s = true -> p c = true ->
  partition_at p (s +:+ String c t) = (s, Some t).
Proof.
  intros Hs Hc. induction s as [|d s IH]; cbn in *; [by rewrite Hc|].
  apply andb_true_iff in Hs as [Hd Hs]. apply negb_true_iff in Hd. by rewrite Hd, (IH Hs).
Qed.

Lemma split_netloc_app s t :
  str_forallb (fun d => negb (contains_char d "/?#")) s = true ->
  (split_netloc (s +:+ t)).1 = s +:+ (split_netloc t).1.
Proof.
  induction s as [|d s IH]; cbn [str_forallb String.append split_netloc]; [done|].
  rewrite andb_true_iff, negb_true_iff. intros [-> Hs]. specialize (IH Hs).
  destruct (split_netloc (s +:+ t)). cbn in *. by rewrite IH.
Qed.

Lemma remove_chars_id p s : str_forallb (fun c => negb (p c)) s = true -> remove_chars p s = s.
Proof.
  induction s as [|c s IH]; cbn; [done|]. rewrite andb_true_iff, negb_true_iff. intros [-> Hs].
  by rewrite IH.
Qed.

Lemma str_contains_app s p t : str_contains (s +:+ p +:+ t) p = true.
Proof.
  induction s as [|c s IH].
  - change ("" +:+ p +:+ t) with (p +:+ t).
    destruct (p +:+ t) eqn:E; cbn [str_contains]; rewrite <- E;
      change (String.prefix p (p +:+ t)) with (str_startswith (p +:+ t) p); by rewrite startswith_app.
  - change (String c s +:+ p +:+ t) with (String c (s +:+ p +:+ t)). cbn [str_contains].
    rewrite IH. apply orb_true_r.
Qed.

(** Characters that do not end or bracket the authority of a URL. *)
Definition authority_char (c : ascii) : bool :=
  negb (contains_char c "/?#[]") && (32 <? code c).

Lemma scheme_char_printable c : scheme_char c = true -> 
  (32 <? code c) = true /\ Ascii.eqb ":" c = false /\
  contains_char c (String "009" (String "010" (str1 "013"))) = false.
Proof. destruct c as [[][][][][][][][]]; vm_compute; try done; by repeat split. Qed.

Lemma authority_char_facts c : authority_char c = true ->
  contains_char c (String "009" (String "010" (str1 "013"))) = false /\
  contains_char c "/?#" = false /\ Ascii.eqb "[" c = false /\ Ascii.eqb "]" c = false.
Proof. destruct c as [[][][][][][][][]]; vm_compute; try done; by repeat split. Qed.

Lemma no_char c s : str_forallb (fun d => negb (Ascii.eqb c d)) s = true -> contains_char c s = false.
Proof.
  induction s as [|d s IH]; cbn; [done|]. rewrite andb_true_iff, negb_true_iff. intros [-> ?]. auto.
Qed.

Section Userinfo.
Context `{PyTables}.
Context (c : ascii) (scheme user host : string).
Context (Hc : is_lower c || is_upper c = true).
Context (Hscheme : str_forallb scheme_char (String c scheme) = true).
Context (Huser : str_forallb authority_char user = true).
Context (Hhost : str_forallb authority_char host = true).
Let authority : string := user +:+ "@" +:+ host.

Lemma authority_ok : str_forallb authority_char authority = true.
Proof. unfold authority. rewrite !str_forallb_app, Huser, Hhost. done. Qed.

Lemma strip_scheme_url :
  strip_scheme (String c scheme +:+ "://" +:+ authority) = "//" +:+ authority.
Proof.
  assert (partition_at (Ascii.eqb ":") (String c scheme +:+ String ":" ("//" +:+ authority))
    = (String c scheme, Some ("//" +:+ authority))) as E.
  { apply partition_at_app; [|done]. eapply str_forallb_impl; [|done]. intros d (_ & Hd & _)%scheme_char_printable.
    by rewrite Hd. }
  change ("://" +:+ authority) with (String ":" ("//" +:+ authority)).
  unfold strip_scheme, before, after. cbn [String.append] in *. rewrite E. cbn [fst snd].
  by rewrite Hc, Hscheme.
Qed.

Lemma split_netloc_authority : split_netloc authority = (authority, "").
Proof.
  pose proof authority_ok as Ha. induction authority as [|d s IH]; cbn [str_forallb split_netloc] in *; [done|].
  apply andb_true_iff in Ha as [Hd Hs]. apply authority_char_facts in Hd as (_ & -> & _). by rewrite IH.
Qed.

Lemma urlsplit_userinfo :
  exists query, urlsplit (String c scheme +:+ "://" +:+ authority) = Some (authority, query).
Proof.
  assert (remove_chars (fun d => contains_char d (String "009" (String "010" (str1 "013"))))
    (lstrip (fun d => code d <=? 32) (String c scheme +:+ "://" +:+ authority)) =
    String c scheme +:+ "://" +:+ authority) as E.
  { assert (lstrip (fun d => code d <=? 32) (String c scheme +:+ "://" +:+ authority) =
      String c scheme +:+ "://" +:+ authority) as ->.
    { cbn [String.append lstrip]. cbn [str_forallb] in Hscheme.
      apply andb_true_iff in Hscheme as [[H1 _]%scheme_char_printable _].
      assert ((code c <=? 32) = false) as -> by lia. done. }
    apply remove_chars_id. rewrite !str_forallb_app. apply andb_true_iff. split.
    - eapply str_forallb_impl; [|done]. intros d (_ & _ & Hd)%scheme_char_printable. by rewrite Hd.
    - apply andb_true_iff. split; [done|]. eapply str_forallb_impl; [|apply authority_ok].
      intros d (Hd & _)%authority_char_facts. by rewrite Hd. }
  unfold urlsplit. rewrite E, strip_scheme_url.
  assert (str_startswith ("//" +:+ authority) "//" = true) as -> by apply startswith_app.
  assert (drop_str 2 ("//" +:+ authority) = authority) as ->.
  { unfold drop_str. cbn [String.append String.length Nat.sub String.substring].
    rewrite Nat.sub_0_r. clear. induction authority as [|d s IH]; cbn; [done|]. by rewrite IH. }
  rewrite split_netloc_authority.
  assert (contains_char "[" authority = false) as ->.
  { apply no_char. eapply str_forallb_impl; [|apply authority_ok].
    intros d (_ & _ & Hd & _)%authority_char_facts. by rewrite Hd. }
  assert (contains_char "]" authority = false) as ->.
  { apply no_char. eapply str_forallb_impl; [|apply authority_ok].
    intros d (_ & _ & _ & Hd)%authority_char_facts. by rewrite Hd. }
  cbn. eauto.
Qed.
End Userinfo.

(** A URL that carries a user name is never persisted: for every scheme, user part and host, any
    document that holds [scheme://user@host] as one of its strings is rejected as secret material. *)
Theorem userinfo_rejected `{PyTables} `{JCS} c scheme user host :
  is_lower c || is_upper c = true -> str_forallb scheme_char (String c scheme) = true ->
  str_forallb authority_char user = true -> str_forallb authority_char host = true ->
  canonical_json (JStr (String c scheme +:+ "://" +:+ user +:+ "@" +:+ host)) =
  Raise (SecretMaterialError "operational state cannot persist credential-bearing values").
Proof.
  intros Hc Hs Hu Hh. unfold canonical_json. cbn [_validate_json_tree].
  assert (_string_contains_credentials (String c scheme +:+ "://" +:+ user +:+ "@" +:+ host) = true)
    as ->; [|done].
  unfold _string_contains_credentials. destruct (_ && _); [done|].
  destruct (authorization_search _ _); [done|]. rewrite str_contains_app.
  destruct (urlsplit_userinfo c scheme user host Hc Hs Hu Hh) as [q ->].
  assert (contains_char "@" (user +:+ "@" +:+ host) = true) as ->; [|done].
  rewrite contains_char_app. apply orb_true_r.
Qed.

(** Tables for evaluation on ASCII documents. *)
Definition ascii_tables : PyTables :=
  {| wide_fold := fun c => [c]; wide_alnum := fun _ => false; bracketed_netloc_ok := fun _ => true |}.

Lemma userinfo_rejected_witness :
  @canonical_json ascii_tables reference_jcs (JStr "https://user:pw@example.org") =
  Raise (SecretMaterialError "operational state cannot persist credential-bearing values").
Proof.
  apply (@userinfo_rejected ascii_tables reference_jcs "h" "ttps" "user:pw" "example.org"); reflexivity.
Defined.

(** Canonical JSON is produced for exactly the documents whose every field name, string and number
    is admissible and which RFC 8785 can serialize; nothing else is digested or stored. *)
Theorem canonical_json_exact `{PyTables} `{JCS} v text :
  canonical_json v = Ok text <-> clean v /\ jcs_dumps v = Some text.
Proof. split; [apply canonical_json_clean|]. intros [Hv Ht]. by apply canonical_json_intro. Qed.
