(* ===== verification/StrictJson.v ===== *)
(** * Strict JSON: [json.loads] and [parse_canonical_object]

    The decoder of the standard library as [state_models.parse_canonical_object]
    configures it: member lists must not repeat a key, and the constants NaN and
    Infinity raise.  A text is represented by its UTF-8 bytes, a decoded string
    by its Latin-1 characters; a character beyond Latin-1 is outside the model
    and raises [beyond].  [float(text)] is the parameter [PyFloat].

    The functions recurse on fuel; [loads_fuel] shows that the fuel [loads] gives
    them is enough.  [JCSLaws] states what the stores rely on of RFC 8785
    serialization: its output decodes to the same document with members in key
    order, for documents without floats and for objects whose members read back
    ([stable]); [reference_laws] proves it for the concrete serializer. *)

From S2P Require Export Secrets.
From Stdlib Require Import SpecFloat.

Class PyFloat := py_float : string -> spec_float.

Definition JSONDecodeError : exn := OtherException "JSONDecodeError" "".
Definition beyond : exn := OtherException "UnicodeError" "a character beyond Latin-1".
Definition no_fuel : exn := OtherException "RuntimeError" "out of fuel".

(** ** Scanning *)

Definition is_ws (c : ascii) : bool := contains_char c (String " " (String "009" (String newline (str1 creturn)))).
Fixpoint skip_ws (s : string) : string :=
  match s with
  | String c s' => if is_ws c then skip_ws s' else s
  | EmptyString => s
  end.

Definition escaped (c : ascii) : option ascii :=
  if Ascii.eqb c dquote || Ascii.eqb c backslash || Ascii.eqb c "/" then Some c
  else if Ascii.eqb c "b" then Some "008"%char
  else if Ascii.eqb c "f" then Some "012"%char
  else if Ascii.eqb c "n" then Some newline
  else if Ascii.eqb c "r" then Some creturn
  else if Ascii.eqb c "t" then Some "009"%char
  else None.

Definition hex4 (a b c d : ascii) : option Z :=
  match hex_digit a, hex_digit b, hex_digit c, hex_digit d with
  | Some w, Some x, Some y, Some z => Some (((w * 16 + x) * 16 + y) * 16 + z)
  | _, _, _, _ => None
  end.

(** [scanstring], after the opening quote. *)
Fixpoint scan_string (s : string) : result (string * string) :=
  match s with
  | EmptyString => Raise JSONDecodeError
  | String c s1 =>
      if Ascii.eqb c dquote then Ok ("", s1)
      else if Ascii.eqb c backslash then
        match s1 with
        | String x s2 =>
            match escaped x with
            | Some y => '(t, rest) ← scan_string s2; Ok (String y t, rest)
            | None =>
                match s2 with
                | String a (String b (String d (String e s3))) =>
                    match (if Ascii.eqb x "u" then hex4 a b d e else None) with
                    | Some n =>
                        if n <? 256 then '(t, rest) ← scan_string s3; Ok (String (ascii_of_N (Z.to_N n)) t, rest)
                        else Raise beyond
                    | None => Raise JSONDecodeError
                    end
                | _ => Raise JSONDecodeError
                end
            end
        | EmptyString => Raise JSONDecodeError
        end
      else if code c <? 32 then Raise JSONDecodeError
      else if code c <? 128 then '(t, rest) ← scan_string s1; Ok (String c t, rest)
      else
        match s1 with
        | String d s2 =>
            if ((code c =? 194) || (code c =? 195)) && (128 <=? code d) && (code d <? 192) then
              '(t, rest) ← scan_string s2;
              Ok (String (ascii_of_N (Z.to_N (64 * (code c - 192) + (code d - 128)))) t, rest)
            else Raise beyond
        | EmptyString => Raise beyond
        end
  end.

(** The digits a text starts with, and the rest. *)
Fixpoint digits (s : string) : string * string :=
  match s with
  | String c s' => if is_digit c then let '(ds, rest) := digits s' in (String c ds, rest) else ("", s)
  | EmptyString => ("", s)
  end.
Definition digits_value (s : string) : Z :=
  foldl (fun acc c => acc * 10 + (code c - 48)) 0 (list_ascii_of_string s).

(** An optional sign, the integer digits, and the fraction and exponent if any:
    the text of the number and the rest. *)
Definition scan_sign (s : string) : string * string :=
  match s with String "-" s' => ("-", s') | _ => ("", s) end.
Definition scan_integer (s : string) : option (string * string) :=
  match s with
  | String c s' => if Ascii.eqb c "0" then Some ("0", s') else if is_digit c then Some (digits s) else None
  | EmptyString => None
  end.
Definition scan_fraction (s : string) : string * string :=
  match s with
  | String "." s' => let '(ds, rest) := digits s' in if str_empty ds then ("", s) else (String "." ds, rest)
  | _ => ("", s)
  end.
Definition scan_exponent (s : string) : string * string :=
  match s with
  | String c s' =>
      if Ascii.eqb c "e" || Ascii.eqb c "E" then
        let '(sign, s2) := match s' with
          | String d s2 => if Ascii.eqb d "+" || Ascii.eqb d "-" then (str1 d, s2) else ("", s')
          | EmptyString => ("", s')
          end in
        let '(ds, rest) := digits s2 in
        if str_empty ds then ("", s) else (String c (sign +:+ ds), rest)
      else ("", s)
  | EmptyString => ("", s)
  end.

(** What a call of [json.loads] is configured with: [object_pairs_hook] and [parse_constant]. *)
Class JSONHooks := {
  object_pairs_hook : list (string * json) -> result json;
  parse_constant : string -> result json
}.

Section Scanner.
Context `{PyFloat} `{JSONHooks}.

(** [int] refuses more than 4300 digits. *)
Definition scan_number (s : string) : result (json * string) :=
  let '(sign, s1) := scan_sign s in
  match scan_integer s1 with
  | None => Raise JSONDecodeError
  | Some (int, s2) =>
      let '(fraction, s3) := scan_fraction s2 in
      let '(exponent, s4) := scan_exponent s3 in
      if str_empty fraction && str_empty exponent then
        raise_if (4300 <? str_len int) (ValueError "Exceeds the limit (4300 digits) for integer string conversion");;
        Ok (JInt (if str_empty sign then digits_value int else - digits_value int), s4)
      else Ok (JFloat (py_float (sign +:+ int +:+ fraction +:+ exponent)), s4)
  end.

(** A text that does not start with a structural character. *)
Definition scan_scalar (s : string) : result (json * string) :=
  if str_startswith s "null" then Ok (JNull, drop_str 4 s)
  else if str_startswith s "true" then Ok (JBool true, drop_str 4 s)
  else if str_startswith s "false" then Ok (JBool false, drop_str 5 s)
  else if str_startswith s "NaN" then v ← parse_constant "NaN"; Ok (v, drop_str 3 s)
  else if str_startswith s "Infinity" then v ← parse_constant "Infinity"; Ok (v, drop_str 8 s)
  else if str_startswith s "-Infinity" then v ← parse_constant "-Infinity"; Ok (v, drop_str 9 s)
  else scan_number s.

Fixpoint scan_value (fuel : nat) (s : string) : result (json * string) :=
  match fuel, s with
  | O, _ => Raise no_fuel
  | _, EmptyString => Raise JSONDecodeError
  | S n, String c s1 =>
      if Ascii.eqb c dquote then '(t, rest) ← scan_string s1; Ok (JStr t, rest)
      else if Ascii.eqb c "{" then
        match skip_ws s1 with
        | String "}" rest => v ← object_pairs_hook []; Ok (v, rest)
        | s2 => '(pairs, rest) ← scan_members n s2; v ← object_pairs_hook pairs; Ok (v, rest)
        end
      else if Ascii.eqb c "[" then
        match skip_ws s1 with
        | String "]" rest => Ok (JArr [], rest)
        | s2 => '(items, rest) ← scan_items n s2; Ok (JArr items, rest)
        end
      else scan_scalar s
  end
(** The members from the first key to the closing brace. *)
with scan_members (fuel : nat) (s : string) : result (list (string * json) * string) :=
  match fuel, s with
  | O, _ => Raise no_fuel
  | S n, String c s1 =>
      if Ascii.eqb c dquote then
        '(key, s2) ← scan_string s1;
        match skip_ws s2 with
        | String ":" s3 =>
            '(v, s4) ← scan_value n (skip_ws s3);
            match skip_ws s4 with
            | String "}" rest => Ok ([(key, v)], rest)
            | String "," s5 => '(pairs, rest) ← scan_members n (skip_ws s5); Ok ((key, v) :: pairs, rest)
            | _ => Raise JSONDecodeError
            end
        | _ => Raise JSONDecodeError
        end
      else Raise JSONDecodeError
  | S n, EmptyString => Raise JSONDecodeError
  end
(** The items from the first one to the closing bracket. *)
with scan_items (fuel : nat) (s : string) : result (list json * string) :=
  match fuel with
  | O => Raise no_fuel
  | S n =>
      '(v, s2) ← scan_value n s;
      match skip_ws s2 with
      | String "]" rest => Ok ([v], rest)
      | String "," s3 => '(items, rest) ← scan_items n (skip_ws s3); Ok (v :: items, rest)
      | _ => Raise JSONDecodeError
      end
  end.

Definition json_loads (s : string) : result json :=
  '(v, rest) ← scan_value (2 * S (String.length s)) (skip_ws s);
  if str_empty (skip_ws rest) then Ok v else Raise JSONDecodeError.
End Scanner.

(** The hook of [parse_canonical_object] for constants, [invalid_constant]. *)
Definition invalid_constant (constant : string) : result json :=
  Raise (StateModelError ("stored state JSON contains invalid constant " +:+ constant)).

(** Its hook for members. *)
Definition unique_pairs (pairs : list (string * json)) : result json :=
  raise_if (has_duplicates (fst <$> pairs)) (StateModelError "stored state JSON contains a duplicate object key");;
  Ok (JObj pairs).

Definition strict_hooks : JSONHooks := {| object_pairs_hook := unique_pairs; parse_constant := invalid_constant |}.

(** [json.loads] without hooks: a dict keeps the place of a key and its last value. *)
Fixpoint dict_set (k : string) (v : json) (pairs : list (string * json)) : list (string * json) :=
  match pairs with
  | [] => [(k, v)]
  | (k', v') :: rest => if String.eqb k k' then (k, v) :: rest else (k', v') :: dict_set k v rest
  end.
Definition dict_of_pairs (pairs : list (string * json)) : list (string * json) :=
  foldl (fun d p => dict_set p.1 p.2 d) [] pairs.
Definition float_constant (constant : string) : json :=
  JFloat (if String.eqb constant "NaN" then S754_nan else S754_infinity (String.eqb constant "-Infinity")).
Definition default_hooks : JSONHooks :=
  {| object_pairs_hook := fun pairs => Ok (JObj (dict_of_pairs pairs)); parse_constant := fun c => Ok (float_constant c) |}.

Section Loads.
Context `{PyFloat}.

(** The decoder of [parse_canonical_object]. *)
Definition loads (s : string) : result json := @json_loads _ strict_hooks s.

Context `{PyTables} `{JCS}.

Definition parse_canonical_object (value : string) : result (list (string * json)) :=
  parsed ← match loads value with
           | Raise (OtherException cls _ as e) =>
               if String.eqb cls "JSONDecodeError" then Raise (StateModelError "stored state payload is not strict JSON")
               else Raise e
           | Raise (ValueError _) => Raise (StateModelError "stored state payload is not strict JSON")
           | r => r
           end;
  match parsed with
  | JObj fields =>
      encoded ← canonical_json parsed;
      raise_if (negb (String.eqb encoded value)) (StateModelError "stored state payload is not in canonical JCS form");;
      Ok fields
  | _ => Raise (StateModelError "stored state payload must be a JSON object")
  end.
End Loads.

(** ** The fuel is enough

    Whatever the exceptions are that a client allows, as long as they include those of
    the scanner and of its hooks, the scanner raises no other one. *)

Section Raises.
Context (allowed : exn -> Prop).
Hypothesis (Hjson : allowed JSONDecodeError) (Hbeyond : allowed beyond).
Hypothesis (Hdigits : allowed (ValueError "Exceeds the limit (4300 digits) for integer string conversion")).


(** A scan of at most [l] characters consumes or raises an allowed exception. *)
Definition scans {A} (l : nat) (r : result (A * string)) : Prop :=
  match r with
  | Ok (_, rest) => (String.length rest < l)%nat
  | Raise e => allowed e
  end.

Lemma scans_bind {A B} l k (m : result (A * string)) (f : A * string -> result (B * string)) :
  scans l m -> (l <= k)%nat -> (forall a rest, (String.length rest < l)%nat -> scans k (f (a, rest))) -> scans k (mbind f m).
Proof. destruct m as [[a rest]|e]; cbn; auto. Qed.

Lemma scans_ok {A B} l k (m : result (A * string)) (g : A -> B) :
  scans l m -> (l <= k)%nat -> scans k ('(t, rest) ← m; Ok (g t, rest)).
Proof. intros Hm Hl. apply (scans_bind l); [done|done|]. cbn. lia. Qed.

Lemma skip_ws_length s : (String.length (skip_ws s) <= String.length s)%nat.
Proof. induction s as [|c s IH]; cbn [skip_ws String.length]; [done|]. destruct (is_ws c); cbn [String.length]; lia. Qed.

Lemma scan_string_scans s : scans (String.length s) (scan_string s).
Proof.
  assert (forall n s, (String.length s <= n)%nat -> scans (String.length s) (scan_string s)) as Hn; [|by eapply Hn].
  clear s. induction n as [|n IH]; intros [|c s] Hl; cbn [String.length] in *; [done|lia|done|].
  cbn [scan_string]. destruct (Ascii.eqb c dquote); [cbn; lia|]. destruct (Ascii.eqb c backslash).
  { destruct s as [|x s]; [done|]. cbn [String.length] in *. destruct (escaped x).
    { eapply scans_ok; [apply IH|]; lia. }
    do 4 (destruct s as [|? s]; [done|]). cbn [String.length] in *. destruct (if Ascii.eqb x "u" then _ else _) as [z|]; [|done].
    destruct (z <? 256); [|done]. eapply scans_ok; [apply IH|]; lia. }
  destruct (code c <? 32); [done|]. destruct (code c <? 128); [eapply scans_ok; [apply IH|]; lia|].
  destruct s as [|d s]; [done|]. cbn [String.length] in *. destruct (_ && _); [|done].
  eapply scans_ok; [apply IH|]; lia.
Qed.

Lemma digits_length s : (String.length (digits s).2 <= String.length s)%nat.
Proof.
  induction s as [|c s IH]; cbn; [done|]. destruct (is_digit c); [|done]. destruct (digits s). cbn in *. lia.
Qed.
Lemma digits_consume c s : is_digit c = true -> (String.length (digits (String c s)).2 <= String.length s)%nat.
Proof. intros Hc. cbn. rewrite Hc. pose proof (digits_length s). by destruct (digits s). Qed.

Lemma scan_fraction_length s : (String.length (scan_fraction s).2 <= String.length s)%nat.
Proof.
  destruct s as [|c s]; [done|]. unfold scan_fraction. pose proof (digits_length s).
  repeat case_match; cbn in *; simplify_eq; cbn in *; lia.
Qed.
Lemma scan_exponent_length s : (String.length (scan_exponent s).2 <= String.length s)%nat.
Proof.
  destruct s as [|c s]; [done|]. unfold scan_exponent. destruct (_ || _); [|done].
  destruct s as [|d s]; [done|]. destruct (Ascii.eqb d "+" || Ascii.eqb d "-").
  - pose proof (digits_length s). destruct (digits s) as [ds rest]. destruct (str_empty ds); cbn in *; lia.
  - pose proof (digits_length (String d s)). destruct (digits (String d s)) as [ds rest].
    destruct (str_empty ds); cbn in *; lia.
Qed.

Lemma scan_number_scans `{PyFloat} s : scans (String.length s) (scan_number s).
Proof.
  unfold scan_number. assert (forall sign s1, scan_sign s = (sign, s1) -> (String.length s1 <= String.length s)%nat) as Hs.
  { unfold scan_sign. intros sign s1. repeat case_match; intros; simplify_eq; cbn; lia. }
  destruct (scan_sign s) as [sign s1]. specialize (Hs _ _ eq_refl). destruct (scan_integer s1) as [[int s2]|] eqn:E; [|done].
  assert (String.length s2 < String.length s1)%nat as H2.
  { unfold scan_integer in E. destruct s1 as [|c s1]; [done|]. destruct (Ascii.eqb c "0"); [simplify_eq; cbn; lia|].
    destruct (is_digit c) eqn:Hc; [|done]. apply (digits_consume c s1) in Hc.
    assert (digits (String c s1) = (int, s2)) as Ed by congruence. rewrite Ed in Hc. cbn [String.length snd] in *. lia. }
  pose proof (scan_fraction_length s2) as H3. destruct (scan_fraction s2) as [fraction s3].
  pose proof (scan_exponent_length s3) as H4. destruct (scan_exponent s3) as [exponent s4]. cbn in H3, H4.
  destruct (_ && _); [|cbn; lia]. destruct (4300 <? str_len int); cbn; [done|lia].
Qed.

Lemma drop_str_length n s : (String.length (drop_str n s) <= String.length s - n)%nat.
Proof.
  unfold drop_str. remember (String.length s - n)%nat as m eqn:E. clear E. revert n m. induction s as [|c s IH]; intros n m.
  - destruct n, m; cbn; lia.
  - destruct n; cbn; [destruct m; cbn; [lia|]; specialize (IH 0%nat m); lia|]. apply IH.
Qed.

Lemma startswith_length s p : str_startswith s p = true -> (String.length p <= String.length s)%nat.
Proof.
  unfold str_startswith. revert s. induction p as [|c p IH]; intros [|d s]; cbn; try done; [lia|].
  destruct (ascii_dec c d); [|done]. intros ?%IH. lia.
Qed.

Context `{PyFloat} `{hooks : JSONHooks}.
Hypothesis (Hpairs : forall pairs e, object_pairs_hook pairs = Raise e -> allowed e) (Hconstant : forall c e, parse_constant c = Raise e -> allowed e).

Lemma constant_scans c n s :
  str_startswith s c = true -> c <> "" -> n = String.length c ->
  scans (String.length s) (v ← parse_constant c; Ok (v, drop_str n s)).
Proof.
  intros Hs Hc ->. specialize (Hconstant c). destruct (parse_constant c) as [v|e]; cbn; [|by apply Hconstant].
  apply startswith_length in Hs. pose proof (drop_str_length (String.length c) s). destruct c; [done|]. cbn [String.length] in *. lia.
Qed.

Lemma scan_scalar_scans s : scans (String.length s) (scan_scalar s).
Proof.
  unfold scan_scalar.
  repeat match goal with |- context [str_startswith s ?p] =>
    let E := fresh in destruct (str_startswith s p) eqn:E;
      [first [by apply constant_scans|apply startswith_length in E; cbn in E |- *; pose proof (drop_str_length 4 s); pose proof (drop_str_length 5 s); lia]|] end.
  apply scan_number_scans.
Qed.

Lemma scan_total n :
  (forall s, (2 * String.length s + 1 <= n)%nat -> scans (String.length s) (scan_value n s)) /\
  (forall s, (2 * String.length s + 1 <= n)%nat -> scans (String.length s) (scan_members n s)) /\
  (forall s, (2 * String.length s + 2 <= n)%nat -> scans (String.length s) (scan_items n s)).
Proof.
  induction n as [|n (IHv & IHm & IHi)]; [split_and!; intros; lia|].
  assert (forall pairs rest k, (String.length rest < k)%nat -> scans k (v ← object_pairs_hook pairs; Ok (v, rest))) as Hu.
  { intros pairs rest k Hk. specialize (Hpairs pairs). destruct (object_pairs_hook pairs); cbn; [done|by apply Hpairs]. }
  split_and!; intros s Hl.
  - destruct s as [|c s]; [done|]. cbn [scan_value String.length] in *. pose proof (skip_ws_length s) as Hw.
    destruct (Ascii.eqb c dquote); [eapply scans_ok; [apply scan_string_scans|lia]|]. destruct (Ascii.eqb c "{").
    { assert (scans (S (String.length s)) ('(pairs, rest) ← scan_members n (skip_ws s); v ← object_pairs_hook pairs; Ok (v, rest))) as Hm.
      { apply (scans_bind (String.length (skip_ws s))); [apply IHm; lia|lia|]. intros. apply Hu. lia. }
      destruct (skip_ws s) as [|d r]; [done|]. cbn [String.length] in *.
      repeat (case_match; try exact Hm). apply Hu. lia. }
    destruct (Ascii.eqb c "["); [|apply scan_scalar_scans].
    assert (scans (S (String.length s)) ('(items, rest) ← scan_items n (skip_ws s); Ok (JArr items, rest))) as Hi.
    { apply (scans_ok (String.length (skip_ws s))); [apply IHi; lia|lia]. }
    destruct (skip_ws s) as [|d r]; [done|]. cbn [String.length] in *. repeat (case_match; try exact Hi). cbn. lia.
  - destruct s as [|c s]; [done|]. cbn [scan_members String.length] in *. destruct (Ascii.eqb c dquote); [|done].
    apply (scans_bind (String.length s)); [apply scan_string_scans|lia|]. intros key s2 Hs2. cbn.
    pose proof (skip_ws_length s2) as Hw. destruct (skip_ws s2) as [|d s3]; [done|]. cbn [String.length] in *.
    repeat (case_match; try done). pose proof (skip_ws_length s3).
    apply (scans_bind (String.length (skip_ws s3))); [apply IHv; lia|lia|]. intros v s4 Hs4. cbn.
    pose proof (skip_ws_length s4). destruct (skip_ws s4) as [|g s5]; [done|]. cbn [String.length] in *.
    pose proof (skip_ws_length s5). repeat (case_match; try done); cbn; try lia.
    apply (scans_ok (String.length (skip_ws s5))); [apply IHm; lia|lia].
  - cbn [scan_items]. apply (scans_bind (String.length s)); [apply IHv; lia|lia|]. intros v s2 Hs2. cbn.
    pose proof (skip_ws_length s2). destruct (skip_ws s2) as [|d s5]; [done|]. cbn [String.length] in *.
    pose proof (skip_ws_length s5). repeat (case_match; try done); cbn; try lia.
    apply (scans_ok (String.length (skip_ws s5))); [apply IHi; lia|lia].
Qed.

Lemma json_loads_raises s e : json_loads s = Raise e -> allowed e.
Proof.
  unfold json_loads. pose proof (skip_ws_length s). destruct (scan_total (2 * S (String.length s))) as [Hv _].
  specialize (Hv (skip_ws s) ltac:(lia)). destruct (scan_value _ _) as [[v rest]|e']; cbn.
  - destruct (str_empty _); [done|]. by intros [= <-].
  - by intros [= <-].
Qed.
End Raises.

Lemma loads_fuel `{PyFloat} s : loads s <> Raise no_fuel.
Proof.
  intros E. apply (json_loads_raises (fun e => e <> no_fuel)) in E; [done..| |]; cbn.
  - intros pairs e. unfold unique_pairs. destruct (has_duplicates _); [|done]. by intros [= <-].
  - by intros c e [= <-].
Qed.

(** ** What the strict decoder accepts, every decoder reads alike *)

Lemma dict_set_new k v pairs : k ∉ (fst <$> pairs) -> dict_set k v pairs = pairs ++ [(k, v)].
Proof.
  induction pairs as [|[k' v'] pairs IH]; cbn; [done|]. rewrite not_elem_of_cons. intros [Hk Hr].
  apply String.eqb_neq in Hk as ->. by rewrite IH.
Qed.

Lemma dict_of_id pairs : NoDup (fst <$> pairs) -> dict_of_pairs pairs = pairs.
Proof.
  unfold dict_of_pairs. assert (forall done, NoDup (fst <$> (done ++ pairs)) ->
    foldl (fun d p => dict_set p.1 p.2 d) done pairs = done ++ pairs) as Hgen; [|by apply (Hgen [])].
  induction pairs as [|[k v] pairs IH]; intros done Hnd; cbn [foldl fst snd]; [by rewrite app_nil_r|].
  rewrite dict_set_new; [rewrite IH, <- app_assoc; [done|by rewrite <- app_assoc]|].
  rewrite fmap_app, NoDup_app in Hnd. destruct Hnd as (_ & Hd & _). intros Hin. apply (Hd k Hin). cbn. left.
Qed.

Section Lenient.
Context `{PyFloat} `{hooks : JSONHooks}.
Context (Hhooks : forall pairs, NoDup (fst <$> pairs) -> object_pairs_hook pairs = Ok (JObj pairs)).

Lemma unique_pairs_hook pairs v : unique_pairs pairs = Ok v -> object_pairs_hook pairs = Ok v.
Proof. unfold unique_pairs. intros Hu. ok_inv. subst v. by apply Hhooks, has_duplicates_false. Qed.

Lemma scan_lenient n :
  (forall s r, @scan_value _ strict_hooks n s = Ok r -> scan_value n s = Ok r) /\
  (forall s r, @scan_members _ strict_hooks n s = Ok r -> scan_members n s = Ok r) /\
  (forall s r, @scan_items _ strict_hooks n s = Ok r -> scan_items n s = Ok r).
Proof.
  induction n as [|n (IHv & IHm & IHi)]; [by split_and!|].
  split_and!; intros s r.
  - destruct s as [|c s]; [done|]. cbn [scan_value scan_members scan_items]. destruct (Ascii.eqb c dquote); [done|]. destruct (Ascii.eqb c "{").
    { assert (forall t, ('(pairs, rest) ← @scan_members _ strict_hooks n t; v ← @object_pairs_hook strict_hooks pairs; Ok (v, rest)) = Ok r ->
        ('(pairs, rest) ← scan_members n t; v ← object_pairs_hook pairs; Ok (v, rest)) = Ok r) as Hm.
      { intros t ([pairs rest] & Ht & Hr)%bind_ok. apply IHm in Ht as ->. apply bind_ok in Hr as (v & Hv & Hr).
        apply unique_pairs_hook in Hv. cbn. by rewrite Hv. }
      destruct (skip_ws s) as [|d t]; [apply Hm|]. repeat (case_match; try apply Hm).
      intros (v & Hv & Hr)%bind_ok. apply unique_pairs_hook in Hv as ->. done. }
    destruct (Ascii.eqb c "[").
    { assert (forall t, ('(items, rest) ← @scan_items _ strict_hooks n t; Ok (JArr items, rest)) = Ok r ->
        ('(items, rest) ← scan_items n t; Ok (JArr items, rest)) = Ok r) as Hi.
      { intros t (p & Ht & Hr)%bind_ok. by apply IHi in Ht as ->. }
      destruct (skip_ws s) as [|d t]; [apply Hi|]. repeat (case_match; try apply Hi). done. }
    unfold scan_scalar. repeat (case_match; try done).
  - destruct s as [|c s]; [done|]. cbn [scan_value scan_members scan_items]. destruct (Ascii.eqb c dquote); [|done].
    intros ([key s2] & Hk & Hr)%bind_ok. rewrite Hk. cbn [mbind result_bind]. revert Hr.
    destruct (skip_ws s2) as [|d s3]; [done|]. repeat (case_match; try done).
    intros ([v s4] & Hv & Hr)%bind_ok. apply IHv in Hv. apply bind_ok. exists (v, s4). split; [exact Hv|]. revert Hr.
    destruct (skip_ws s4) as [|e s5]; [done|]. repeat (case_match; try done).
    intros (p & Hp & Hr)%bind_ok. apply IHm in Hp. apply bind_ok. exists p. split; [exact Hp|done].
  - cbn [scan_value scan_members scan_items]. intros ([v s2] & Hv & Hr)%bind_ok. apply IHv in Hv. apply bind_ok. exists (v, s2). split; [exact Hv|]. revert Hr.
    destruct (skip_ws s2) as [|e s5]; [done|]. repeat (case_match; try done).
    intros (p & Hp & Hr)%bind_ok. apply IHi in Hp. apply bind_ok. exists p. split; [exact Hp|done].
Qed.

Lemma loads_lenient s v : loads s = Ok v -> json_loads s = Ok v.
Proof.
  unfold loads, json_loads. intros Hl. apply bind_ok in Hl as ([v' rest] & Hv & Hl).
  apply scan_lenient in Hv as ->. exact Hl.
Qed.
End Lenient.

(** ** Documents and their normal form *)

(** What decoding a canonical text gives: the members of every object in key order. *)
Fixpoint normal (v : json) : json :=
  match v with
  | JArr l => JArr (normal <$> l)
  | JObj fields => JObj (sorted_by fst ((fun p => (p.1, normal p.2)) <$> fields))
  | v => v
  end.

(** Documents without floats, with safe integers, whose objects do not repeat a key. *)
#[warnings="-register-all"]
Inductive plain : json -> Prop :=
| plain_null : plain JNull
| plain_bool b : plain (JBool b)
| plain_int z : - SAFE_INTEGER_MAX <= z <= SAFE_INTEGER_MAX -> plain (JInt z)
| plain_str s : plain (JStr s)
| plain_arr l : Forall plain l -> plain (JArr l)
| plain_obj fields : NoDup (fst <$> fields) -> Forall (fun p => plain p.2) fields -> plain (JObj fields).
Create HintDb json.
#[export] Hint Constructors plain : json.

(** The text of the document decodes to the document itself, as that of every value that
    [parse_canonical_object] returned does.  A float such as 1.5 may be stable; 1e16 is not, its text is that of an integer. *)
Definition stable `{JCS} `{PyFloat} (v : json) : Prop := exists text, jcs_dumps v = Some text /\ loads text = Ok v.

(** What the stores rely on of [rfc8785.dumps]. *)
Class JCSLaws `{JCS} `{PyFloat} : Prop := {
  dumps_total v : plain v -> exists text, jcs_dumps v = Some text;
  dumps_loads v text : plain v -> jcs_dumps v = Some text -> loads text = Ok (normal v);
  dumps_normal v text : plain v -> jcs_dumps v = Some text -> jcs_dumps (normal v) = Some text;
  dumps_object fields : NoDup (fst <$> fields) -> Forall (fun p => stable p.2) fields ->
    exists text, jcs_dumps (JObj fields) = Some text /\ loads text = Ok (JObj (sorted_by fst fields))
}.

Lemma plain_stable `{JCSLaws} v : plain v -> normal v = v -> stable v.
Proof.
  intros Hp Hn. destruct (dumps_total v Hp) as (text & Ht). exists text. split; [done|].
  rewrite <- Hn at 1. by apply dumps_loads.
Qed.

Lemma clean_normal `{PyTables} v : clean v -> clean (normal v).
Proof.
  induction v as [| | | | |l IH|fields IH] using json_induction; cbn [normal]; intros Hc; try done.
  - inversion Hc as [| | | | |? Hl|]; subst. constructor. apply Forall_fmap. rewrite Forall_forall in *. intros x Hx. by apply IH, Hl.
  - inversion Hc as [| | | | | |? Hl]; subst. constructor. rewrite sorted_by_perm. apply Forall_fmap.
    rewrite Forall_forall in *. intros [k x] Hx. destruct (Hl _ Hx). split; [done|]. by apply (IH _ Hx).
Qed.

(** What [canonical_object] encodes, [parse_canonical_object] decodes. *)
Lemma canonical_object_parse `{JCSLaws} `{PyTables} fields text digest :
  plain (JObj fields) -> canonical_object fields = Ok (text, digest) ->
  exists fields', normal (JObj fields) = JObj fields' /\ parse_canonical_object text = Ok fields' /\
    canonical_object fields' = Ok (text, digest).
Proof.
  intros Hp Hc. unfold canonical_object in Hc. apply bind_ok in Hc as (encoded & Hc & [= -> <-]).
  apply canonical_json_clean in Hc as [Hc Ht]. exists (sorted_by fst ((fun p => (p.1, normal p.2)) <$> fields)). split; [reflexivity|].
  assert (canonical_json (normal (JObj fields)) = Ok text) as Hn.
  { apply canonical_json_intro; [by apply clean_normal|]. by apply dumps_normal. }
  unfold parse_canonical_object, canonical_object. rewrite (dumps_loads (JObj fields) text Hp Ht).
  cbn [normal mbind result_bind] in *. rewrite Hn. cbn [mbind result_bind].
  rewrite String.eqb_refl. split; reflexivity.
Qed.

(** What [parse_canonical_object] accepts is the canonical text of what it returns. *)
Lemma parse_canonical_ok `{JCS} `{PyFloat} `{PyTables} value fields :
  parse_canonical_object value = Ok fields -> loads value = Ok (JObj fields) /\ canonical_json (JObj fields) = Ok value.
Proof.
  unfold parse_canonical_object. intros Hp. apply bind_ok in Hp as (parsed & Hl & Hp).
  assert (loads value = Ok parsed) as ->.
  { destruct (loads value) as [v|e]; [done|]. destruct e; try done. by destruct (String.eqb _ _). }
  destruct parsed; try done. apply bind_ok in Hp as (encoded & He & Hp). apply bind_ok in Hp as ([] & Hr & [= ->]).
  apply raise_if_ok, negb_false_iff, String.eqb_eq in Hr as ->. done.
Qed.
Lemma parse_canonical_intro `{JCS} `{PyFloat} `{PyTables} value fields :
  loads value = Ok (JObj fields) -> canonical_json (JObj fields) = Ok value -> parse_canonical_object value = Ok fields.
Proof.
  unfold parse_canonical_object. intros -> Hc. cbn [mbind result_bind]. rewrite Hc. cbn [mbind result_bind]. by rewrite String.eqb_refl.
Qed.
Lemma parse_canonical_stable `{JCS} `{PyFloat} `{PyTables} value fields :
  parse_canonical_object value = Ok fields -> stable (JObj fields).
Proof. intros [Hl [_ Ht]%canonical_json_clean]%parse_canonical_ok. by exists value. Qed.
