(* ===== verification/JsonRoundtrip.v ===== *)
(** * The concrete serializer decodes to what it encoded

    [reference_laws]: the serializer [reference_jcs] satisfies [JCSLaws], so the
    theorems that assume these laws of RFC 8785 serialization hold of a concrete
    one. *)

From S2P Require Export StrictJson.

#[local] Existing Instance strict_hooks.

(** ** Strings *)

Lemma scan_char c s :
  scan_string (quote_char c +:+ s) = ('(t, rest) ← scan_string s; Ok (String c t, rest)).
Proof. by destruct c as [[][][][][][][][]]. Qed.

Lemma scan_quoted s rest : scan_string (quote_tail s +:+ rest) = Ok (s, rest).
Proof.
  induction s as [|c s IH]; [done|]. cbn [quote_tail]. rewrite str_app_assoc, scan_char, IH. done.
Qed.

(** ** Numbers *)

Definition all_digits (s : string) : Prop := str_forallb is_digit s = true.

Lemma digits_app s rest :
  all_digits s -> match rest with String c _ => is_digit c = false | "" => True end -> digits (s +:+ rest) = (s, rest).
Proof.
  intros Hs Hr. unfold all_digits in Hs. induction s as [|c s IH]; cbn [String.append].
  - destruct rest as [|c rest]; [done|]. cbn. by rewrite Hr.
  - cbn in Hs. apply andb_true_iff in Hs as [Hc Hs]. cbn [digits]. by rewrite Hc, (IH Hs).
Qed.

Lemma digits_value_cons c s :
  digits_value (String c s) = foldl (fun acc c => acc * 10 + (code c - 48)) (code c - 48) (list_ascii_of_string s).
Proof. done. Qed.

Definition value_from (acc : Z) (s : string) : Z :=
  foldl (fun acc c => acc * 10 + (code c - 48)) acc (list_ascii_of_string s).

(** A decimal numeral: its digits, value and size. *)
Record numeral (x : N) (s : string) : Prop := {
  num_digits : all_digits s;
  num_value acc : value_from acc s = acc * 10 ^ str_len s + Z.of_N x;
  num_head : exists c s', s = String c s' /\ Ascii.eqb c "0" = false;
  num_size : 10 ^ (str_len s - 1) <= Z.of_N x
}.

Lemma pretty_char d : (d < 10)%N ->
  is_digit (pretty_N_char d) = true /\ code (pretty_N_char d) - 48 = Z.of_N d /\
  (Ascii.eqb (pretty_N_char d) "0" = true -> d = 0%N).
Proof.
  intros Hd. assert (d ∈ (N.of_nat <$> seq 0 10)) as Hin.
  { apply list_elem_of_fmap. exists (N.to_nat d). split; [lia|]. apply elem_of_seq. lia. }
  revert d Hd Hin. intros d _. revert d. rewrite <- Forall_forall. repeat constructor; done.
Qed.

Lemma value_from_snoc acc s c : value_from acc (s +:+ str1 c) = value_from acc s * 10 + (code c - 48).
Proof.
  unfold value_from. assert (list_ascii_of_string (s +:+ str1 c) = (list_ascii_of_string s ++ [c])%list) as ->.
  { induction s as [|d s IH]; cbn; [done|]. by rewrite IH. }
  by rewrite foldl_app.
Qed.

Lemma str_len_snoc s c : str_len (s +:+ str1 c) = str_len s + 1.
Proof. unfold str_len. rewrite str_length_app. cbn. lia. Qed.

Lemma numeral_one x : (0 < x < 10)%N -> numeral x (str1 (pretty_N_char x)).
Proof.
  intros Hx. destruct (pretty_char x) as (H1 & H2 & H3); [lia|]. constructor.
  - unfold all_digits. cbn. by rewrite H1.
  - intros acc. unfold value_from. cbn [str1 list_ascii_of_string foldl]. rewrite H2.
    change (str_len _) with 1. lia.
  - do 2 eexists. split; [done|]. destruct (Ascii.eqb _ _); [|done]. specialize (H3 eq_refl). lia.
  - change (str_len _) with 1. lia.
Qed.

Lemma numeral_snoc x s : (10 <= x)%N -> numeral (x / 10) s -> numeral x (s +:+ str1 (pretty_N_char (x mod 10))).
Proof.
  intros Hx [D V (c & s' & -> & Hc) S]. destruct (pretty_char (x mod 10)) as (H1 & H2 & _); [by apply N.mod_lt|].
  assert (0 < str_len (String c s')) as Hl by (unfold str_len; cbn; lia).
  assert (Z.of_N x = Z.of_N (x / 10) * 10 + Z.of_N (x mod 10)) as Ex.
  { rewrite N2Z.inj_div, N2Z.inj_mod. pose proof (Z.div_mod (Z.of_N x) 10). lia. }
  constructor.
  - unfold all_digits in *. rewrite str_forallb_app, D. cbn. by rewrite H1.
  - intros acc. rewrite value_from_snoc, str_len_snoc, V, H2.
    rewrite Z.pow_add_r; [rewrite Ex; ring|lia|lia].
  - exists c, (s' +:+ str1 (pretty_N_char (x mod 10))). by split.
  - rewrite str_len_snoc. replace (str_len (String c s') + 1 - 1) with (str_len (String c s') - 1 + 1) by lia.
    rewrite Z.pow_add_r by lia. lia.
Qed.

Lemma pretty_numeral x : (0 < x)%N -> forall s, exists ds, pretty_N_go x s = ds +:+ s /\ numeral x ds.
Proof.
  induction (N.lt_wf_0 x) as [x _ IH]. intros Hx s. rewrite pretty_N_go_step by done.
  destruct (N.lt_ge_cases x 10) as [Hlt|Hge].
  - rewrite N.div_small, N.mod_small, pretty_N_go_0 by done. eexists (str1 _). split; [done|]. by apply numeral_one.
  - destruct (IH (x / 10)%N) with (s := String (pretty_N_char (x mod 10)) s) as (ds & -> & Hd); [by apply N.div_lt|by apply N.div_str_pos|].
    exists (ds +:+ str1 (pretty_N_char (x mod 10))). split; [by rewrite str_app_assoc|]. by apply numeral_snoc.
Qed.

Lemma dec_pos p : exists s, dec (Zpos p) = s /\ numeral (Npos p) s.
Proof.
  destruct (pretty_numeral (Npos p) ltac:(lia) "") as (ds & E & Hd). exists ds. split; [|done].
  change (dec (Z.pos p)) with (if decide (N.pos p = 0)%N then "0" else pretty_N_go (N.pos p) "").
  rewrite decide_False by done. by rewrite E, str_app_nil_r.
Qed.

(** What may follow a number inside a document. *)
Definition ends (rest : string) : Prop :=
  match rest with
  | String c _ => contains_char c ",]}" = true
  | EmptyString => True
  end.

Lemma ends_char c : contains_char c ",]}" = true ->
  is_digit c = false /\ is_ws c = false /\ Ascii.eqb c "e" = false /\ Ascii.eqb c "E" = false /\ c <> "."%char.
Proof. destruct c as [[][][][][][][][]]; vm_compute; try done; by repeat split. Qed.

Lemma ends_tail rest : ends rest -> scan_fraction rest = ("", rest) /\ scan_exponent rest = ("", rest) /\ skip_ws rest = rest.
Proof.
  destruct rest as [|c rest]; [done|]. cbn [ends]. intros (_ & Hw & He & HE & Hd)%ends_char. split_and!.
  - unfold scan_fraction. repeat case_match; by simplify_eq.
  - unfold scan_exponent. by rewrite He, HE.
  - cbn [skip_ws]. by rewrite Hw.
Qed.

Lemma scan_unsigned `{PyFloat} p ds rest :
  numeral (Npos p) ds -> Zpos p <= SAFE_INTEGER_MAX -> ends rest ->
  scan_integer (ds +:+ rest) = Some (ds, rest) /\ digits_value ds = Zpos p /\ (4300 <? str_len ds) = false.
Proof.
  intros [D V (c & s & -> & Hc) S] Hp Hr. split_and!.
  - cbn [scan_integer String.append]. rewrite Hc. pose proof D as Hd. unfold all_digits in Hd. cbn in Hd. apply andb_true_iff in Hd as [-> _].
    change (String c (s +:+ rest)) with (String c s +:+ rest). rewrite digits_app; [done|done|]. destruct rest; [done|]. by apply ends_char in Hr as [? _].
  - change (value_from 0 (String c s) = Z.pos p). rewrite V. lia.
  - apply Z.ltb_ge. destruct (Z.le_gt_cases (str_len (String c s)) 4300) as [|Hgt]; [done|]. exfalso.
    assert (10 ^ 16 <= 10 ^ (str_len (String c s) - 1)) by (apply Z.pow_le_mono_r; lia).
    unfold SAFE_INTEGER_MAX in *. assert (10 ^ 16 = 10000000000000000) by done. lia.
Qed.

(** A number's text starts with a digit or a sign and a digit. *)
Lemma scan_dec `{PyFloat} z rest :
  Z.abs z <= SAFE_INTEGER_MAX -> ends rest -> scan_scalar (dec z +:+ rest) = Ok (JInt z, rest).
Proof.
  intros Hz Hr. destruct (ends_tail rest Hr) as (Hf & He & _).
  assert (forall p ds, numeral (Npos p) ds -> Zpos p <= SAFE_INTEGER_MAX ->
    scan_scalar (ds +:+ rest) = Ok (JInt (Zpos p), rest) /\ scan_scalar ("-" +:+ ds +:+ rest) = Ok (JInt (Zneg p), rest)) as Hpos.
  { intros p ds Hn Hp. destruct (scan_unsigned p ds rest Hn Hp Hr) as (H1 & H2 & H3).
    destruct Hn as [D _ (c & s & -> & _) _]. unfold all_digits in D. cbn in D. apply andb_true_iff in D as [D _].
    assert (forall t, scan_scalar (String c t) = scan_number (String c t) /\ scan_sign (String c t) = ("", String c t) /\
      scan_scalar ("-" +:+ String c t) = scan_number ("-" +:+ String c t)) as Hc.
    { intros t. clear -D. destruct c as [[][][][][][][][]]; try done. }
    cbn [String.append] in *. destruct (Hc (s +:+ rest)) as (-> & Hsg & ->).
    split; unfold scan_number; [rewrite Hsg|cbn [scan_sign]]; rewrite H1, Hf, He; cbn [str_empty String.eqb andb]; rewrite H3, H2; done. }
  destruct z as [|p|p].
  - unfold scan_scalar. cbn [dec]. change (dec 0 +:+ rest) with (String "0" rest). cbn [str_startswith String.prefix].
    unfold scan_number. cbn. by rewrite Hf, He.
  - destruct (dec_pos p) as (ds & -> & Hn). by apply Hpos.
  - destruct (dec_pos p) as (ds & E & Hn). change (dec (Z.neg p)) with ("-" +:+ dec (Zpos p)). rewrite E, str_app_assoc. by apply Hpos.
Qed.

(** ** Documents *)

Lemma join_cons2 sep x y l : join sep (x :: y :: l) = x +:+ sep +:+ join sep (y :: l).
Proof. done. Qed.

(** The text of a document starts with a character that is no white space and
    does not close anything. *)
Definition opens (t : string) : Prop :=
  exists c s, t = String c s /\ is_ws c = false /\ c <> "]"%char /\ c <> "}"%char.

Lemma opens_skip t rest : opens t -> skip_ws (t +:+ rest) = t +:+ rest.
Proof. intros (c & s & -> & Hw & _). cbn [String.append skip_ws]. by rewrite Hw. Qed.

Lemma dec_opens z : opens (dec z).
Proof.
  assert (forall p ds, numeral p ds -> opens ds) as Hn.
  { intros p ds [D _ (c & s & -> & _) _]. unfold all_digits in D. cbn in D. apply andb_true_iff in D as [D _].
    exists c, s. split; [done|]. by destruct c as [[][][][][][][][]]. }
  destruct z as [|p|p]; [by do 2 eexists| |].
  - destruct (dec_pos p) as (ds & -> & ?). by eapply Hn.
  - change (dec (Z.neg p)) with (String "-" (dec (Zpos p))). by do 2 eexists.
Qed.

Lemma text_opens v t : json_text v = Some t -> opens t.
Proof.
  destruct v as [|[]|z|f|s|l|fields]; cbn; intros Ht; try (simplify_option_eq; by do 2 eexists).
  destruct (_ <=? _); [|done]. injection Ht as <-. apply dec_opens.
Qed.

(** [t] is the text of [v], and the scanner finds its normal form in it. *)
Definition read_back `{PyFloat} (v : json) (t : string) : Prop :=
  opens t /\ forall fuel rest, ends rest -> (2 * String.length t + 1 <= fuel)%nat ->
    scan_value fuel (t +:+ rest) = Ok (normal v, rest).

Lemma scan_items_text `{PyFloat} vs ts :
  vs <> [] -> Forall2 read_back vs ts -> forall fuel rest,
  (2 * String.length (join "," ts) + 2 <= fuel)%nat ->
  scan_items fuel (join "," ts +:+ String "]" rest) = Ok (normal <$> vs, rest).
Proof.
  intros Hne Hf. induction Hf as [|v t vs ts [_ Hv] Hf IH]; [done|]. intros [|fuel] rest Hl; [lia|].
  destruct Hf as [|v2 t2 vs ts [Ho Hv2] Hf].
  - cbn [join String.concat] in *. cbn [scan_items]. rewrite Hv; [done|done|lia].
  - rewrite join_cons2, !str_length_app in *. cbn [String.length] in Hl. rewrite !str_app_assoc.
    cbn [scan_items]. rewrite Hv; [|done|lia].
    change ("," +:+ join "," (t2 :: ts) +:+ String "]" rest) with (String "," (join "," (t2 :: ts) +:+ String "]" rest)).
    cbn [skip_ws mbind result_bind]. change (is_ws ",") with false. cbn iota.
    assert (skip_ws (join "," (t2 :: ts) +:+ String "]" rest) = join "," (t2 :: ts) +:+ String "]" rest) as ->.
    { destruct ts; [by apply opens_skip|]. rewrite join_cons2, str_app_assoc. by apply opens_skip. }
    rewrite IH; [done|done|lia].
Qed.

(** A member and the text [json_text] gives it. *)
Definition member_back `{PyFloat} (p : string * json) (i : string * string) : Prop :=
  p.1 = i.1 /\ exists t, i.2 = json_quote p.1 +:+ ":" +:+ t /\ read_back p.2 t.

Lemma scan_members_text `{PyFloat} ps its :
  ps <> [] -> Forall2 member_back ps its -> forall fuel rest,
  (2 * String.length (join "," (snd <$> its)) + 1 <= fuel)%nat ->
  scan_members fuel (join "," (snd <$> its) +:+ String "}" rest) = Ok ((fun p => (p.1, normal p.2)) <$> ps, rest).
Proof.
  intros Hne Hf. induction Hf as [|[k v] [k' i] ps its (E & t & Et & Ho & Hv) Hf IH]; [done|]. cbn [fst snd] in E, Et, Hv. subst k'.
  assert (String.length t < String.length i)%nat as Hi by (subst i; unfold json_quote; cbn; rewrite !str_length_app; cbn; lia).
  intros [|fuel] rest Hl; [lia|]. rewrite fmap_cons in *. cbn [snd] in *.
  assert (forall tail, scan_members (S fuel) (i +:+ tail) =
    '(v, s4) ← scan_value fuel (t +:+ tail);
    match skip_ws s4 with
    | String "}" rest => Ok ([(k, v)], rest)
    | String "," s5 => '(pairs, rest) ← scan_members fuel (skip_ws s5); Ok ((k, v) :: pairs, rest)
    | _ => Raise JSONDecodeError
    end) as Hstep.
  { intros tail. subst i. rewrite !str_app_assoc. unfold json_quote. cbn [String.append scan_members]. 
    change (Ascii.eqb dquote dquote) with true. cbn iota. rewrite scan_quoted. cbn [mbind result_bind skip_ws].
    change (is_ws ":") with false. cbn iota. by rewrite opens_skip. }
  destruct Hf as [|[k2 v2] [k2' i2] ps its Hm Hf].
  - cbn [fmap list_fmap join String.concat] in *. rewrite Hstep. rewrite Hv; [done|done|lia].
  - rewrite fmap_cons in *. cbn [snd] in *. rewrite join_cons2, !str_length_app in *. cbn [String.length] in Hl.
    rewrite str_app_assoc, Hstep, Hv; [|done|lia].
    change (("," +:+ join "," (i2 :: (snd <$> its))) +:+ String "}" rest)
      with (String "," (join "," (i2 :: (snd <$> its)) +:+ String "}" rest)).
    cbn [skip_ws mbind result_bind]. change (is_ws ",") with false. cbn iota.
    assert (skip_ws (join "," (i2 :: (snd <$> its)) +:+ String "}" rest) = join "," (i2 :: (snd <$> its)) +:+ String "}" rest) as ->.
    { destruct Hm as (_ & t2 & Et2 & _). cbn in Et2. subst i2. unfold json_quote.
      destruct (snd <$> its); [|rewrite join_cons2]; by cbn [join String.concat String.append skip_ws]. }
    rewrite IH; [done|done|lia].
Qed.

Definition item_of (p : string * json) : option (string * string) :=
  t ← json_text p.2; Some (p.1, json_quote p.1 +:+ ":" +:+ t).

Lemma item_of_some p i : item_of p = Some i -> p.1 = i.1 /\ exists t, json_text p.2 = Some t /\ i = (p.1, json_quote p.1 +:+ ":" +:+ t).
Proof. unfold item_of. intros (t & Ht & [= <-])%bind_Some. by split; [|exists t]. Qed.

Lemma json_text_arr l t : json_text (JArr l) = Some t <-> exists ts, Forall2 (fun v t => json_text v = Some t) l ts /\ t = "[" +:+ join "," ts +:+ "]".
Proof.
  cbn [json_text]. rewrite bind_Some. setoid_rewrite mapM_Some. split.
  - intros (ts & ? & [= <-]). by exists ts.
  - intros (ts & ? & ->). by exists ts.
Qed.

Lemma json_text_obj fields t :
  json_text (JObj fields) = Some t <->
  exists items, Forall2 (fun p i => item_of p = Some i) fields items /\ t = "{" +:+ join "," (snd <$> sorted_by fst items) +:+ "}".
Proof.
  cbn [json_text]. rewrite bind_Some. setoid_rewrite mapM_Some. split.
  - intros (ts & ? & [= <-]). by exists ts.
  - intros (ts & ? & ->). by exists ts.
Qed.

Lemma startswith_text `{PyFloat} p v rest : (exists c s, p = String c s /\ Ascii.eqb c dquote = false /\ Ascii.eqb c "{" = false /\ Ascii.eqb c "[" = false) ->
  scan_scalar (p +:+ rest) = Ok (v, rest) -> forall fuel, (1 <= fuel)%nat -> scan_value fuel (p +:+ rest) = Ok (v, rest).
Proof.
  intros (c & s & -> & H1 & H2 & H3) Hs [|fuel] Hl; [lia|]. cbn [String.append scan_value] in *. by rewrite H1, H2, H3.
Qed.

Lemma dec_scalar z : exists c s, dec z = String c s /\ Ascii.eqb c dquote = false /\ Ascii.eqb c "{" = false /\ Ascii.eqb c "[" = false.
Proof.
  assert (forall p ds, numeral p ds -> exists c s, ds = String c s /\ Ascii.eqb c dquote = false /\ Ascii.eqb c "{" = false /\ Ascii.eqb c "[" = false) as Hn.
  { intros p ds [D _ (c & s & -> & _) _]. unfold all_digits in D. cbn in D. apply andb_true_iff in D as [D _].
    exists c, s. split; [done|]. by destruct c as [[][][][][][][][]]. }
  destruct z as [|p|p]; [by do 2 eexists| |].
  - destruct (dec_pos p) as (ds & -> & ?). by eapply Hn.
  - change (dec (Z.neg p)) with (String "-" (dec (Zpos p))). by do 2 eexists.
Qed.

Lemma drop_str_app p s : drop_str (String.length p) (p +:+ s) = s.
Proof.
  unfold drop_str. rewrite str_length_app. replace (_ + _ - _)%nat with (String.length s) by lia.
  induction p as [|c p IH]; [|done]. cbn [String.append String.length]. induction s as [|c s IH]; cbn; [done|]. by rewrite IH.
Qed.

Lemma scan_word `{PyFloat} w v rest :
  (w, v) ∈ [("null", JNull); ("true", JBool true); ("false", JBool false)] -> scan_scalar (w +:+ rest) = Ok (v, rest).
Proof.
  revert w v. assert (Forall (fun p => scan_scalar (p.1 +:+ rest) = Ok (p.2, rest))
    [("null", JNull); ("true", JBool true); ("false", JBool false)]) as Hf.
  { repeat constructor; cbn [fst snd]; unfold scan_scalar;
      [change (drop_str 4 ("null" +:+ rest)) with (drop_str (String.length "null") ("null" +:+ rest))
      |change (drop_str 4 ("true" +:+ rest)) with (drop_str (String.length "true") ("true" +:+ rest))
      |change (drop_str 5 ("false" +:+ rest)) with (drop_str (String.length "false") ("false" +:+ rest))];
      rewrite drop_str_app; by destruct rest. }
  rewrite Forall_forall in Hf. intros w v Hin. apply (Hf _ Hin).
Qed.

Lemma scan_array `{PyFloat} n s c s1 : skip_ws s = String c s1 -> c <> "]"%char ->
  scan_value (S n) (String "[" s) = ('(items, rest) ← scan_items n (String c s1); Ok (JArr items, rest)).
Proof.
  intros Hs Hc. change (scan_value (S n) (String "[" s)) with (match skip_ws s with
    | String "]" rest => Ok (JArr [], rest)
    | s2 => '(items, rest) ← scan_items n s2; Ok (JArr items, rest)
    end). rewrite Hs. by destruct c as [[][][][][][][][]].
Qed.

Lemma scan_object `{PyFloat} n s s1 : skip_ws s = String dquote s1 ->
  scan_value (S n) (String "{" s) =
  ('(pairs, rest) ← scan_members n (String dquote s1); v ← unique_pairs pairs; Ok (v, rest)).
Proof.
  intros Hs. change (scan_value (S n) (String "{" s)) with (match skip_ws s with
    | String "}" rest => v ← unique_pairs []; Ok (v, rest)
    | s2 => '(pairs, rest) ← scan_members n s2; v ← unique_pairs pairs; Ok (v, rest)
    end). by rewrite Hs.
Qed.

Lemma json_reads_back `{PyFloat} v t : plain v -> json_text v = Some t -> read_back v t.
Proof.
  revert t. induction v as [|b|z|f|s|l IH|fields IH] using json_induction; intros t Hp Ht;
    (split; [by eapply text_opens|]); intros fuel rest Hr Hl.
  - injection Ht as <-. apply startswith_text; [by do 2 eexists| |lia]. by apply scan_word; left.
  - destruct b; injection Ht as <-; (apply startswith_text; [by do 2 eexists| |lia]);
      apply scan_word; repeat (first [by left|right]).
  - cbn [json_text] in Ht. destruct (Z.abs z <=? SAFE_INTEGER_MAX) eqn:Ez; [|done]. injection Ht as <-.
    apply startswith_text; [apply dec_scalar|apply scan_dec; [lia|done]|lia].
  - done.
  - injection Ht as <-. destruct fuel; [lia|]. unfold json_quote. cbn [String.append scan_value].
    change (Ascii.eqb dquote dquote) with true. cbn iota. by rewrite scan_quoted.
  - apply json_text_arr in Ht as (ts & Hts & ->). inversion Hp as [| | | |? Hpl|]; subst.
    assert (Forall2 read_back l ts) as Hb.
    { clear Hl Hp. induction Hts; [done|]. apply Forall_cons in IH as [? ?], Hpl as [? ?]. constructor; auto. }
    destruct fuel as [|fuel]; [lia|]. rewrite !str_length_app in Hl. cbn [String.length] in Hl.
    destruct (decide (l = [])) as [->|Hne]; [inversion Hts; by subst|].
    rewrite !str_app_assoc. change ("[" +:+ join "," ts +:+ "]" +:+ rest) with (String "[" (join "," ts +:+ String "]" rest)).
    pose proof (scan_items_text l ts Hne Hb fuel rest ltac:(lia)) as Hs.
    destruct Hb as [|v0 t0 vs ts' [Ho Hv0] Hb]; [done|].
    assert (exists c s, join "," (t0 :: ts') +:+ String "]" rest = String c s /\ is_ws c = false /\ c <> "]"%char) as (c & s & Ec & Hw & Hc).
    { destruct Ho as (c & s & -> & Hw & Hc & _). destruct ts'; [|rewrite join_cons2]; by do 2 eexists. }
    rewrite Ec in Hs |- *. rewrite (scan_array _ _ c s); [|cbn [skip_ws]; by rewrite Hw|done]. by rewrite Hs.
  - apply json_text_obj in Ht as (items & Hts & ->). inversion Hp as [| | | | |? Hnd Hpl]; subst.
    assert (Forall2 member_back (sorted_by fst fields) (sorted_by fst items)) as Hb.
    { apply sorted_by_Forall2; [by intros ?? [? _]|]. clear Hl Hp Hnd. induction Hts as [|p i ? ? Hi]; [done|].
      apply Forall_cons in IH as [? ?], Hpl as [? ?]. constructor; [|auto].
      apply item_of_some in Hi as (_ & t & Ht & ->). split; [done|]. exists t. split; auto. }
    assert (normal (JObj fields) = JObj ((fun p => (p.1, normal p.2)) <$> sorted_by fst fields)) as En.
    { cbn [normal]. f_equal. apply list_eq_Forall2, Forall2_fmap_r.
      eapply Forall2_impl; [apply (sorted_by_Forall2 fst fst (fun p q => p = (q.1, normal q.2)))|]; [by intros ?? ->| |done].
      apply Forall2_fmap_l. by apply Forall_Forall2_diag, Forall_true. }
    rewrite En. assert (NoDup (fst <$> ((fun p => (p.1, normal p.2)) <$> sorted_by fst fields))) as Hnd'.
    { rewrite <- list_fmap_compose. rewrite (fmap_Permutation _ _ _ (sorted_by_perm fst fields)). exact Hnd. }
    destruct fuel as [|fuel]; [lia|]. rewrite !str_length_app in Hl. cbn [String.length] in Hl.
    rewrite !str_app_assoc. set (body := join "," (snd <$> sorted_by fst items)) in *.
    change ("{" +:+ body +:+ "}" +:+ rest) with (String "{" (body +:+ String "}" rest)).
    destruct (decide (sorted_by fst fields = [])) as [Hnil|Hne].
    { rewrite Hnil in Hb |- *. apply Forall2_nil_inv_l in Hb. unfold body. by rewrite Hb. }
    pose proof (scan_members_text _ _ Hne Hb fuel rest ltac:(fold body; lia)) as Hs. fold body in Hs.
    assert (exists s, body = String dquote s) as (s & Es).
    { unfold body. destruct Hb as [|? i0 ? its (_ & t & Et & _) _]; [done|]. rewrite fmap_cons, Et. unfold json_quote.
      destruct (snd <$> its); [|rewrite join_cons2]; cbn [join String.concat String.append]; by eexists. }
    rewrite Es in Hs |- *. cbn [String.append] in *. rewrite (scan_object _ _ (s +:+ String "}" rest)) by done.
    rewrite Hs. cbn [mbind result_bind]. unfold unique_pairs. apply has_duplicates_false in Hnd'. by rewrite Hnd'.
Qed.

(** ** The laws *)

Lemma plain_normal v : plain v -> plain (normal v).
Proof.
  induction v as [| | | | |l IH|fields IH] using json_induction; cbn [normal]; intros Hp; try done.
  - inversion Hp as [| | | |? Hl|]; subst. constructor. apply Forall_fmap. rewrite Forall_forall in *. intros x Hx. by apply IH, Hl.
  - inversion Hp as [| | | | |? Hn Hl]; subst. constructor.
    + rewrite (sorted_by_perm fst). by rewrite <- list_fmap_compose.
    + rewrite sorted_by_perm. apply Forall_fmap. rewrite Forall_forall in *. intros x Hx. apply (IH x Hx), (Hl x Hx).
Qed.

Lemma plain_text_normal v t : plain v -> json_text v = Some t -> json_text (normal v) = Some t.
Proof.
  revert t. induction v as [|b|z|f|s|l IH|fields IH] using json_induction; intros t Hp Ht; try done.
  - cbn [normal]. apply json_text_arr in Ht as (ts & Hts & ->). apply json_text_arr. exists ts. split; [|done].
    inversion Hp as [| | | |? Hpl|]; subst. clear Hp. apply Forall2_fmap_l. induction Hts; [done|].
    apply Forall_cons in IH as [? ?], Hpl as [? ?]. constructor; auto.
  - cbn [normal]. apply json_text_obj in Ht as (items & Hts & ->). inversion Hp as [| | | | |? Hnd Hpl]; subst.
    apply json_text_obj. exists (sorted_by fst items). split.
    + apply sorted_by_Forall2; [by intros ?? [? _]%item_of_some|]. clear Hp Hnd. apply Forall2_fmap_l.
      induction Hts as [|p i ? ? Hi]; [done|]. apply Forall_cons in IH as [Hx ?], Hpl as [Hy ?]. constructor; [|auto].
      apply item_of_some in Hi as (_ & t & Ht & ->). change (item_of (p.1, normal p.2) = Some (p.1, json_quote p.1 +:+ ":" +:+ t)).
      unfold item_of. cbn [fst snd]. by rewrite (Hx t Hy Ht).
    + do 4 f_equal. symmetry. apply sorted_by_id, sorted_by_sorted.
Qed.

Lemma plain_text_total v : plain v -> exists t, json_text v = Some t.
Proof.
  induction v as [|b|z|f|s|l IH|fields IH] using json_induction; intros Hp; try (by eexists); try (by inversion Hp).
  - by destruct b; eexists.
  - inversion Hp; subst. cbn. rewrite (proj2 (Z.leb_le _ _)) by lia. by eexists.
  - inversion Hp as [| | | |? Hpl|]; subst. clear Hp.
    assert (exists ts, Forall2 (fun v t => json_text v = Some t) l ts) as (ts & Hts).
    { induction l as [|v l IHl]; [by eexists|]. apply Forall_cons in IH as [Hx ?], Hpl as [Hy ?].
      destruct (Hx Hy) as (t & Ht), IHl as (ts & Hts); try done. exists (t :: ts). by constructor. }
    eexists. apply json_text_arr. by exists ts.
  - inversion Hp as [| | | | |? Hnd Hpl]; subst. clear Hp Hnd.
    assert (exists its, Forall2 (fun p i => item_of p = Some i) fields its) as (its & Hts).
    { induction fields as [|v l IHl]; [by eexists|]. apply Forall_cons in IH as [Hx ?], Hpl as [Hy ?].
      destruct (Hx Hy) as (t & Ht), IHl as (ts & Hts); try done. eexists (_ :: ts). constructor; [|done].
      unfold item_of. by rewrite Ht. }
    eexists. apply json_text_obj. by exists its.
Qed.

Lemma plain_text_loads `{PyFloat} v t : plain v -> json_text v = Some t -> loads t = Ok (normal v).
Proof.
  intros Hp Ht. apply json_reads_back in Ht as [Ho Hs]; [|done]. unfold loads, json_loads.
  assert (skip_ws t = t +:+ "") as ->.
  { rewrite <- (str_app_nil_r t) at 1. by apply opens_skip. }
  rewrite Hs; [done|done|lia].
Qed.

(** What the strict decoder returns repeats no key. *)
#[warnings="-register-all"]
Inductive distinct : json -> Prop :=
| distinct_scalar v : match v with JArr _ | JObj _ => False | _ => True end -> distinct v
| distinct_arr l : Forall distinct l -> distinct (JArr l)
| distinct_obj fields : NoDup (fst <$> fields) -> Forall (fun p => distinct p.2) fields -> distinct (JObj fields).

Lemma unique_distinct pairs v : unique_pairs pairs = Ok v -> Forall (fun p => distinct p.2) pairs -> distinct v.
Proof. unfold unique_pairs. intros Hu Hp. ok_inv. subst v. constructor; [by apply has_duplicates_false|done]. Qed.

Lemma scalar_distinct `{PyFloat} s v rest : scan_scalar s = Ok (v, rest) -> distinct v.
Proof.
  unfold scan_scalar. repeat (case_match; [intros Hs; first [by injection Hs as <- _; constructor|done]|]).
  unfold scan_number. destruct (scan_sign s) as [sign s1]. destruct (scan_integer s1) as [[int s2]|]; [|done].
  destruct (scan_fraction s2) as [fraction s3]. destruct (scan_exponent s3) as [exponent s4].
  destruct (_ && _); intros Hs; ok_inv; simplify_eq; by constructor.
Qed.

Lemma scan_distinct `{PyFloat} n :
  (forall s v rest, scan_value n s = Ok (v, rest) -> distinct v) /\
  (forall s ps rest, scan_members n s = Ok (ps, rest) -> Forall (fun p => distinct p.2) ps) /\
  (forall s l rest, scan_items n s = Ok (l, rest) -> Forall distinct l).
Proof.
  induction n as [|n (IHv & IHm & IHi)]; [by split_and!|]. split_and!; intros s x rest.
  - destruct s as [|c s]; [done|]. cbn [scan_value]. destruct (Ascii.eqb c dquote).
    { intros ([t r] & _ & [= <- _])%bind_ok. by constructor. }
    destruct (Ascii.eqb c "{").
    { assert (forall t, ('(pairs, rest) ← scan_members n t; v ← object_pairs_hook pairs; Ok (v, rest)) = Ok (x, rest) -> distinct x) as Hm.
      { intros t ([pairs r] & Ht%IHm & Hr)%bind_ok. apply bind_ok in Hr as (v & Hv & [= <- _]). by eapply unique_distinct. }
      destruct (skip_ws s) as [|d t]; [apply Hm|]. repeat (case_match; try apply Hm).
      intros (v & Hv & [= <- _])%bind_ok. by eapply unique_distinct. }
    destruct (Ascii.eqb c "[").
    { assert (forall t, ('(items, rest) ← scan_items n t; Ok (JArr items, rest)) = Ok (x, rest) -> distinct x) as Hi.
      { intros t ([items r] & Ht%IHi & [= <- _])%bind_ok. by constructor. }
      destruct (skip_ws s) as [|d t]; [apply Hi|]. repeat (case_match; try apply Hi). intros [= <- _]. by constructor. }
    apply scalar_distinct.
  - destruct s as [|c s]; [done|]. cbn [scan_members]. destruct (Ascii.eqb c dquote); [|done].
    intros ([key s2] & _ & Hr)%bind_ok. destruct (skip_ws s2) as [|d s3]; [done|]. revert Hr. repeat (case_match; try done).
    intros ([v s4] & Hv%IHv & Hr)%bind_ok. destruct (skip_ws s4) as [|e s5]; [done|]. revert Hr. repeat (case_match; try done);
      first [intros [= <- _]; by apply Forall_singleton|intros ([ps r] & Hp%IHm & [= <- _])%bind_ok; by constructor].
  - cbn [scan_items]. intros ([v s2] & Hv%IHv & Hr)%bind_ok. destruct (skip_ws s2) as [|e s5]; [done|]. revert Hr. repeat (case_match; try done);
      first [intros [= <- _]; by apply Forall_singleton|intros ([l r] & Hl%IHi & [= <- _])%bind_ok; by constructor].
Qed.

Lemma distinct_arr_inv l : distinct (JArr l) -> Forall distinct l.
Proof. by inversion 1. Qed.
Lemma distinct_obj_inv fields : distinct (JObj fields) -> NoDup (fst <$> fields) /\ Forall (fun p => distinct p.2) fields.
Proof. by inversion 1. Qed.

Lemma text_plain v t : json_text v = Some t -> distinct v -> plain v.
Proof.
  revert t. induction v as [|b|z|f|s|l IH|fields IH] using json_induction; intros t Ht Hd; try done; try constructor.
  - cbn in Ht. destruct (_ <=? _) eqn:E; [lia|done].
  - apply json_text_arr in Ht as (ts & Hts & _). apply distinct_arr_inv in Hd as Hl. clear Hd.
    induction Hts; [constructor|]. apply Forall_cons in IH as [? ?], Hl as [? ?]. constructor; eauto.
  - by apply distinct_obj_inv in Hd as [? _].
  - apply json_text_obj in Ht as (items & Hts & _). apply distinct_obj_inv in Hd as [_ Hl].
    induction Hts as [|p i ? ? (_ & u & Hu & _)%item_of_some]; [constructor|]. apply Forall_cons in IH as [? ?], Hl as [? ?]. constructor; eauto.
Qed.

(** With this serializer what reads back has no floats. *)
Lemma reference_stable `{PyFloat} v : @stable reference_jcs _ v -> plain v /\ normal v = v.
Proof.
  intros (t & Ht & Hl). assert (plain v) as Hp.
  { apply (text_plain v t Ht). unfold loads, json_loads in Hl. apply bind_ok in Hl as ([v' rest] & Hv & Hl).
    destruct (str_empty _); [|done]. injection Hl as ->. by apply scan_distinct in Hv. }
  split; [done|]. rewrite (plain_text_loads v t Hp Ht) in Hl. by injection Hl.
Qed.

#[export] Instance reference_laws `{PyFloat} : @JCSLaws reference_jcs _.
Proof.
  constructor; [exact plain_text_total|exact plain_text_loads|exact plain_text_normal|].
  intros fields Hnd Hs. assert (plain (JObj fields)) as Hp.
  { constructor; [done|]. eapply Forall_impl; [exact Hs|]. intros p Hst. by apply reference_stable in Hst as [? _]. }
  destruct (plain_text_total _ Hp) as (t & Ht). exists t. split; [done|]. rewrite (plain_text_loads _ t Hp Ht). cbn [normal]. do 2 f_equal.
  apply (f_equal (sorted_by fst)). transitivity ((fun p => p) <$> fields); [|apply list_fmap_id]. apply list_fmap_ext. intros i [k v] Hi. cbn.
  rewrite Forall_forall in Hs. apply list_elem_of_lookup_2, Hs, reference_stable in Hi as [_ Hn]. cbn in Hn. by rewrite Hn.
Qed.

Example loads_document `{PyFloat} :
  loads ("{" +:+ json_quote "b" +:+ " : [1, -20,true], " +:+ json_quote "a" +:+ ":" +:+ str1 dquote +:+ "x\u00e9" +:+
         str1 dquote +:+ " }") =
  Ok (JObj [("b", JArr [JInt 1; JInt (-20); JBool true]); ("a", JStr (String "x" (str1 "233")))]).
Proof. reflexivity. Qed.
