(* ===== verification/CleanText.v ===== *)
(** * Texts the secret filter never rejects

    Identifiers of the program are built from lower-case letters, digits and a few
    marks; such a text holds no credentials in the sense of state_models.py.
    [alphabet] decides which characters the matches of a pattern consist of. *)

From S2P Require Export StrictJson.

Create HintDb clean.

(** Characters of identifiers, tokens and digests. *)
Definition identifier_char (c : ascii) : bool := is_lower c || is_upper c || is_digit c || contains_char c "-_.:".

Definition class_within (p : ascii -> bool) (ranges : list (ascii * ascii)) : bool :=
  forallb (fun n => negb (in_class (ascii_of_nat n) ranges) || p (ascii_of_nat n)) (seq 0 256).

Fixpoint alphabet (p : ascii -> bool) (r : regex) : bool :=
  match r with
  | RNone | REps => true
  | RClass ranges => class_within p ranges
  | RSeq r1 r2 | RAlt r1 r2 => alphabet p r1 && alphabet p r2
  | RStar r1 => alphabet p r1
  end.

Lemma class_within_spec p ranges c : class_within p ranges = true -> in_class c ranges = true -> p c = true.
Proof.
  intros Hw Hc. unfold class_within in Hw. rewrite forallb_forall in Hw. specialize (Hw (nat_of_ascii c)).
  rewrite ascii_nat_embedding, Hc in Hw. apply Hw, in_seq. pose proof (nat_ascii_bounded c). lia.
Qed.

Lemma alphabet_spec p r s : alphabet p r = true -> matches r s -> str_forallb p s = true.
Proof.
  intros Ha Hm. induction Hm as [|c ranges Hc|r1 r2 s1 s2 _ IH1 _ IH2|r1 r2 s _ IH|r1 r2 s _ IH| |r s1 s2 _ IH1 _ IH2];
    cbn [alphabet] in Ha; rewrite ?andb_true_iff in Ha; try done.
  - cbn. by rewrite (class_within_spec p ranges c Ha Hc).
  - destruct Ha. rewrite str_forallb_app, IH1, IH2; done.
  - apply IH, Ha.
  - apply IH, Ha.
  - rewrite str_forallb_app, IH1, IH2; done.
Qed.

Lemma fullmatch_alphabet p r s : alphabet p r = true -> fullmatch r s = true -> str_forallb p s = true.
Proof. intros Ha Hm%fullmatch_spec. by eapply alphabet_spec. Qed.

(** ** No credentials *)

Lemma str_contains_chars p s t : str_forallb p s = true -> str_contains s t = true -> str_forallb p t = true.
Proof.
  assert (forall s t, String.prefix t s = true -> str_forallb p s = true -> str_forallb p t = true) as Hp.
  { intros s' t'. revert s'. induction t' as [|c t' IH]; intros [|d s']; cbn; try done.
    destruct (ascii_dec c d) as [->|]; [|done]. rewrite !andb_true_iff. intros ? [? ?]. eauto. }
  induction s as [|c s IH]; intros Hs Ht.
  - by destruct t.
  - change (String.prefix t (String c s) || str_contains s t = true) in Ht.
    apply orb_true_iff in Ht as [Ht|Ht]; [by eapply Hp|]. cbn in Hs. apply andb_true_iff in Hs as [_ Hs]. auto.
Qed.

Lemma drop_str_chars p n s : str_forallb p s = true -> str_forallb p (drop_str n s) = true.
Proof.
  unfold drop_str. generalize (String.length s - n)%nat as m. revert n. induction s as [|c s IH]; intros n m Hs.
  - by destruct n, m.
  - cbn [str_forallb] in Hs. apply andb_true_iff in Hs as [Hc Hs]. destruct n as [|n]; [|by apply IH].
    destruct m as [|m]; [done|]. cbn. rewrite Hc. by apply (IH 0%nat m).
Qed.

Definition unspaced (c : ascii) : bool := negb (is_space (code c)).

Lemma authorization_unspaced b s : str_forallb unspaced s = true -> authorization_search b s = false.
Proof.
  assert (forall s, str_forallb unspaced s = true -> authorization_here s = false) as Hh.
  { intros t Ht. unfold authorization_here. apply existsb_false, Forall_true. intros kw.
    destruct (str_startswith _ _); [|done]. pose proof (drop_str_chars unspaced (String.length kw) t Ht) as Hd.
    destruct (drop_str _ t) as [|c r]; [done|]. cbn [str_forallb] in Hd. apply andb_true_iff in Hd as [Hd _].
    cbn [span]. unfold unspaced in Hd. apply negb_true_iff in Hd. by rewrite Hd. }
  revert b. induction s as [|c s IH]; intros b Hs; cbn [authorization_search]; rewrite Hh by done; rewrite andb_false_r; [done|].
  cbn [str_forallb] in Hs. apply andb_true_iff in Hs as [_ Hs]. by apply IH.
Qed.

Lemma identifier_unspaced c : identifier_char c = true -> unspaced c = true.
Proof. by destruct c as [[][][][][][][][]]. Qed.

Lemma identifier_no_credentials `{PyTables} s :
  str_forallb identifier_char s = true -> _string_contains_credentials s = false.
Proof.
  intros Hs. unfold _string_contains_credentials.
  destruct (str_contains s "-----BEGIN ") eqn:E; [by apply (str_contains_chars identifier_char) in E|].
  rewrite authorization_unspaced; [|by eapply str_forallb_impl; [apply identifier_unspaced|]].
  destruct (str_contains s "://") eqn:E2; [by apply (str_contains_chars identifier_char) in E2|done].
Qed.

Lemma identifier_clean `{PyTables} s : str_forallb identifier_char s = true -> clean (JStr s).
Proof. intros. by apply clean_str, identifier_no_credentials. Qed.

Lemma pattern_clean `{PyTables} r s : alphabet identifier_char r = true -> fullmatch r s = true -> clean (JStr s).
Proof. intros ? ?. apply identifier_clean. by eapply fullmatch_alphabet. Qed.

Lemma token_clean `{PyTables} s : fullmatch TOKEN_PATTERN s = true -> clean (JStr s).
Proof. apply pattern_clean. by vm_compute. Qed.
Lemma digest_clean `{PyTables} s : fullmatch SHA256_PATTERN s = true -> clean (JStr s).
Proof. apply pattern_clean. by vm_compute. Qed.

Lemma member_clean `{PyTables} s l : s ∈ l -> Forall (fun x => str_forallb identifier_char x = true) l -> clean (JStr s).
Proof. intros Hs Hl. rewrite Forall_forall in Hl. apply identifier_clean; auto. Qed.

#[export] Hint Resolve token_clean digest_clean clean_null clean_bool : clean.

(** ** Encoding succeeds *)

Lemma canonical_object_total `{JCSLaws} `{PyTables} fields :
  clean (JObj fields) -> plain (JObj fields) -> exists text, canonical_object fields = Ok (text, sha256 text).
Proof.
  intros Hc Hp. destruct (dumps_total _ Hp) as (text & Ht). exists text. unfold canonical_object.
  by rewrite (canonical_json_intro _ text Hc Ht).
Qed.

(** A member whose name is fine and whose value is clean. *)
Lemma clean_member `{PyTables} k v fields :
  codes_in (_normalized_field_name k) _FORBIDDEN_FIELD_NAMES = false -> clean v -> clean (JObj fields) ->
  clean (JObj ((k, v) :: fields)).
Proof. intros Hk Hv Hf. inversion Hf; subst. constructor. by constructor. Qed.

Ltac clean_object := lazymatch goal with
  | |- clean (JObj ((_, _) :: _)) => apply clean_member; [by vm_compute| |clean_object]
  | |- clean (JObj []) => by constructor
  end.
Ltac plain_object := apply plain_obj; [by apply (bool_decide_unpack _); vm_compute|repeat (apply Forall_cons; split); [..|by constructor]; cbn [snd]].
