(* ===== verification/Events.v ===== *)
(** * Lifecycle events and progress projections

    event_models.py: the event dataclasses with their validation, the event
    digest, and [ProgressAggregator.project].  An event keeps its attributes as
    their canonical text only, which is parsed again where the object is needed
    ([lev_attributes]). *)

From S2P Require Export Timestamps StrictJson.

Definition EVENT_TYPES : list string := ["checkpoint"; "diagnostic"; "lifecycle"; "metric"; "progress"].
Definition PROGRESS_UNITS : list string :=
  ["bytes"; "environments"; "executions"; "items"; "shards"; "steps"].
Definition TERMINAL_STATUSES : list string := ["cancelled"; "completed"; "failed"; "partial"; "refused"].

Module Ev.
Definition _require_token (value label : string) : result unit :=
  require_token EventModelError " must be a lowercase hyphenated token" label value.
Definition _require_safe_integer (positive : bool) (value : Z) (label : string) : result unit :=
  raise_if (negb (((if positive then 1 else 0) <=? value) && (value <=? SAFE_INTEGER_MAX)))
    (EventModelError (label +:+ " must be a " +:+ (if positive then "positive " else "non-negative ") +:+
                      "safe integer")).
Definition _require_digest (value label : string) : result unit :=
  raise_if (negb (fullmatch SHA256_PATTERN value))
    (EventModelError (label +:+ " must be a lowercase SHA-256 digest")).
Definition _timestamp (value label : string) : result Z :=
  match iso_parse value with
  | None => Raise (EventModelError (label +:+ " must be an RFC 3339 timestamp"))
  | Some d =>
      raise_if (is_none (utcoffset d)) (EventModelError (label +:+ " must include a timezone"));;
      raise_if (negb ((min_instant <=? instant d) && (instant d <=? max_instant)))
        (OverflowError "date value out of range");;
      Ok (instant d)
  end.
Definition _require_identifier (namespace : option string) (value label : string) : result unit :=
  raise_if (negb (fullmatch OPERATIONAL_ID_PATTERN value))
    (EventModelError (label +:+ " must be an operational UUIDv7"));;
  raise_if (match namespace with
            | Some n => negb (str_startswith value ("opid:v1:" +:+ n +:+ ":u7:"))
            | None => false
            end)
    (EventModelError (label +:+ " uses the wrong operational namespace")).
End Ev.
Import Ev.

(** ** Drafts *)

Record EventDraft := {
  dr_stream_id : string;
  dr_operation_kind : string;
  dr_event_type : string;
  dr_phase : string;
  dr_status : string;
  dr_attempt : Z;
  dr_current : option Z;
  dr_total : option Z;
  dr_unit : option string;
  dr_message : string;
  dr_correlation_id : option string;
  dr_causation_id : option string;
  dr_attributes : list (string * json);
  dr_terminal : bool
}.

(** The same draft with other attributes. *)
Definition with_attributes (attributes : list (string * json)) (d : EventDraft) : EventDraft :=
  {| dr_stream_id := dr_stream_id d; dr_operation_kind := dr_operation_kind d; dr_event_type := dr_event_type d;
     dr_phase := dr_phase d; dr_status := dr_status d; dr_attempt := dr_attempt d; dr_current := dr_current d;
     dr_total := dr_total d; dr_unit := dr_unit d; dr_message := dr_message d; dr_correlation_id := dr_correlation_id d;
     dr_causation_id := dr_causation_id d; dr_attributes := attributes; dr_terminal := dr_terminal d |}.

Definition is_state_error (e : exn) : bool :=
  match e with StateModelError _ | SecretMaterialError _ => true | _ => false end.

Definition require_opt (o : option string) (f : string -> result unit) : result unit :=
  match o with Some v => f v | None => Ok tt end.

Definition unit_ok (u : option string) : bool :=
  match u with Some v => mem v PROGRESS_UNITS | None => false end.

Section Models.
Context `{PyTables} `{JCS} `{PyFloat}.

(** The coordinates of a progress event. *)
Definition progress_guards (event_type : string) (current total : option Z) (u : option string)
    : result unit :=
  match current with
  | None =>
      raise_if (is_some total || is_some u)
        (EventModelError "event progress total/unit require a current value");;
      raise_if (mem event_type ["checkpoint"; "progress"])
        (EventModelError "checkpoint/progress events require progress coordinates")
  | Some c =>
      _require_safe_integer false c "event current progress";;
      raise_if (negb (unit_ok u)) (EventModelError "event progress unit is unsupported");;
      match total with
      | None => Ok tt
      | Some t =>
          _require_safe_integer false t "event total progress";;
          raise_if (t <? c) (EventModelError "event current progress cannot exceed total")
      end
  end.

Definition message_guards (message : string) : result unit :=
  raise_if (str_empty message || (512 <? str_len message) || has_line_breaks message)
    (EventModelError "event message must be bounded non-empty single-line text");;
  match canonical_json (JStr message) with
  | Ok _ => Ok tt
  | Raise e => Raise (if is_state_error e then EventModelError "event message contains unsafe material" else e)
  end.

#[export] Instance EventDraft_post_init : Dataclass EventDraft := fun self =>
  _require_identifier None (dr_stream_id self) "event stream ID";;
  _require_token (dr_operation_kind self) "event operation kind";;
  raise_if (negb (mem (dr_event_type self) EVENT_TYPES)) (EventModelError "event type is unsupported");;
  _require_token (dr_phase self) "event phase";;
  _require_token (dr_status self) "event status";;
  _require_safe_integer true (dr_attempt self) "event attempt";;
  progress_guards (dr_event_type self) (dr_current self) (dr_total self) (dr_unit self);;
  message_guards (dr_message self);;
  require_opt (dr_correlation_id self) (fun v => _require_identifier None v "event correlation ID");;
  require_opt (dr_causation_id self)
    (fun v => _require_identifier (Some "lifecycle-event") v "event causation ID");;
  raise_if (negb (Bool.eqb (dr_terminal self) (mem (dr_status self) TERMINAL_STATUSES)))
    (EventModelError "event terminal flag and status disagree");;
  ao ← canonical_object (dr_attributes self);
  raise_if (16 * 1024 <? str_len ao.1)
    (EventModelError "event attributes exceed the 16 KiB persistence limit").

(** ** Events

    The producer's fields of an event are those of its draft, but for the
    attributes: [lev_draft] has none. *)

Record LifecycleEvent := {
  lev_event_id : string;
  lev_stream_sequence : Z;
  lev_occurred_at : string;
  lev_draft : EventDraft;
  lev_attributes_json : string;
  lev_attributes_sha256 : string;
  lev_event_digest : string
}.

Definition lev_stream_id (e : LifecycleEvent) : string := dr_stream_id (lev_draft e).
Definition lev_operation_kind (e : LifecycleEvent) : string := dr_operation_kind (lev_draft e).
Definition lev_attempt (e : LifecycleEvent) : Z := dr_attempt (lev_draft e).
Definition lev_status (e : LifecycleEvent) : string := dr_status (lev_draft e).
Definition lev_current (e : LifecycleEvent) : option Z := dr_current (lev_draft e).
Definition lev_total (e : LifecycleEvent) : option Z := dr_total (lev_draft e).
Definition lev_unit (e : LifecycleEvent) : option string := dr_unit (lev_draft e).
Definition lev_terminal (e : LifecycleEvent) : bool := dr_terminal (lev_draft e).

(** [_digest_values], with the two members [calculate_digest] adds. *)
Definition _digest_values (event_id : string) (stream_sequence : Z) (occurred_at : string)
    (draft : EventDraft) (attributes_json attributes_sha256 : string) : json :=
  JObj [("event_id", JStr event_id); ("stream_id", JStr (dr_stream_id draft));
        ("stream_sequence", JInt stream_sequence); ("operation_kind", JStr (dr_operation_kind draft));
        ("event_type", JStr (dr_event_type draft)); ("phase", JStr (dr_phase draft));
        ("status", JStr (dr_status draft)); ("attempt", JInt (dr_attempt draft));
        ("occurred_at", JStr occurred_at); ("current", JOptInt (dr_current draft));
        ("total", JOptInt (dr_total draft)); ("unit", JOptStr (dr_unit draft));
        ("message", JStr (dr_message draft)); ("correlation_id", JOptStr (dr_correlation_id draft));
        ("causation_id", JOptStr (dr_causation_id draft)); ("attributes_json", JStr attributes_json);
        ("attributes_sha256", JStr attributes_sha256); ("terminal", JBool (dr_terminal draft));
        ("canonical_authority", JBool false); ("schema_version", JStr "lifecycle-event.v1")].

Definition calculate_digest (event_id : string) (stream_sequence : Z) (occurred_at : string)
    (draft : EventDraft) (attributes_json attributes_sha256 : string) : result string :=
  sha256 <$> canonical_json (_digest_values event_id stream_sequence occurred_at draft
                               attributes_json attributes_sha256).

(** The property [LifecycleEvent.attributes]. *)
Definition lev_attributes (self : LifecycleEvent) : result (list (string * json)) :=
  parse_canonical_object (lev_attributes_json self).

(** What [__post_init__] checks before it looks at the occurrence. *)
Definition event_source_guards (self : LifecycleEvent) : result unit :=
  _require_identifier (Some "lifecycle-event") (lev_event_id self) "event ID";;
  attributes ← lev_attributes self;
  post_init (with_attributes attributes (lev_draft self));;
  _require_safe_integer true (lev_stream_sequence self) "event stream sequence".

#[export] Instance LifecycleEvent_post_init : Dataclass LifecycleEvent := fun self =>
  event_source_guards self;;
  _timestamp (lev_occurred_at self) "event occurrence";;
  _require_digest (lev_attributes_sha256 self) "event attributes digest";;
  raise_if (negb (String.eqb (sha256 (lev_attributes_json self)) (lev_attributes_sha256 self)))
    (EventModelError "event attributes digest does not match");;
  _require_digest (lev_event_digest self) "event digest";;
  digest ← calculate_digest (lev_event_id self) (lev_stream_sequence self) (lev_occurred_at self)
             (lev_draft self) (lev_attributes_json self) (lev_attributes_sha256 self);
  raise_if (negb (String.eqb (lev_event_digest self) digest))
    (EventModelError "event digest does not match its complete content").

Definition build (event_id : string) (stream_sequence : Z) (occurred_at : string) (draft : EventDraft)
    : result LifecycleEvent :=
  ao ← canonical_object (dr_attributes draft);
  digest ← calculate_digest event_id stream_sequence occurred_at draft ao.1 ao.2;
  construct {| lev_event_id := event_id; lev_stream_sequence := stream_sequence;
    lev_occurred_at := occurred_at; lev_draft := with_attributes [] draft; lev_attributes_json := ao.1;
    lev_attributes_sha256 := ao.2; lev_event_digest := digest |}.

(** [LifecycleEvent.to_dict] *)
Definition event_to_dict (e : LifecycleEvent) : result (list (string * json)) :=
  let d := lev_draft e in
  attributes ← lev_attributes e;
  Ok [("attempt", JInt (dr_attempt d)); ("attributes", JObj attributes);
        ("attributes_sha256", JStr (lev_attributes_sha256 e)); ("canonical_authority", JBool false);
        ("causation_id", JOptStr (dr_causation_id d)); ("correlation_id", JOptStr (dr_correlation_id d));
        ("current", JOptInt (dr_current d)); ("event_digest", JStr (lev_event_digest e));
        ("event_id", JStr (lev_event_id e)); ("event_type", JStr (dr_event_type d));
        ("message", JStr (dr_message d)); ("occurred_at", JStr (lev_occurred_at e));
        ("operation_kind", JStr (dr_operation_kind d)); ("phase", JStr (dr_phase d));
        ("schema_version", JStr "lifecycle-event.v1"); ("status", JStr (dr_status d));
        ("stream_id", JStr (dr_stream_id d)); ("stream_sequence", JInt (lev_stream_sequence e));
        ("terminal", JBool (dr_terminal d)); ("total", JOptInt (dr_total d)); ("unit", JOptStr (dr_unit d))].

Record StoredEvent := { st_offset : Z; st_event : LifecycleEvent }.
#[export] Instance StoredEvent_post_init : Dataclass StoredEvent := fun self =>
  _require_safe_integer true (st_offset self) "journal event offset".

Record EventCursor := { cur_journal_id : string; cur_offset : Z }.
#[export] Instance EventCursor_post_init : Dataclass EventCursor := fun self =>
  _require_identifier (Some "event-journal") (cur_journal_id self) "event journal ID";;
  _require_safe_integer false (cur_offset self) "event cursor offset".

Record EventBatch := {
  bat_cursor : EventCursor;
  bat_events : list StoredEvent;
  bat_oldest : option Z;
  bat_newest : option Z;
  bat_has_more : bool
}.

(** [list(range(start, start + n))] *)
Definition zrange (start : Z) (n : nat) : list Z := (fun i => start + Z.of_nat i) <$> seq 0 n.

#[export] Instance EventBatch_post_init : Dataclass EventBatch := fun self =>
  raise_if (negb (Bool.eqb (is_none (bat_oldest self)) (is_none (bat_newest self))))
    (EventModelError "event retention bounds must both be present or absent");;
  match bat_oldest self with
  | None => Ok tt
  | Some oldest =>
      _require_safe_integer true oldest "oldest retained event offset";;
      _require_safe_integer true (or_zero (bat_newest self)) "newest retained event offset";;
      raise_if (or_zero (bat_newest self) <? oldest)
        (EventModelError "event retention bounds are reversed")
  end;;
  match st_offset <$> bat_events self with
  | [] => Ok tt
  | first :: rest =>
      let offsets := first :: rest in
      raise_if (negb (bool_decide (offsets = zrange first (length offsets))))
        (EventModelError "event batch offsets are not contiguous");;
      raise_if (negb (cur_offset (bat_cursor self) =? List.last offsets 0))
        (EventModelError "event batch cursor does not identify its last event")
  end.

(** ** Progress projections *)

Record ProgressProjection := {
  pp_stream_id : string;
  pp_operation_kind : string;
  pp_phase : string;
  pp_status : string;
  pp_attempt : Z;
  pp_current : option Z;
  pp_total : option Z;
  pp_unit : option string;
  pp_percent_basis_points : option Z;
  pp_rate_milliunits_per_second : option Z;
  pp_eta_seconds : option Z;
  pp_updated_at : string;
  pp_terminal : bool;
  pp_history_complete : bool;
  pp_sample_count : Z
}.

Definition opt_safe (label : string) (o : option Z) : result unit :=
  match o with Some v => _require_safe_integer false v label | None => Ok tt end.

#[export] Instance ProgressProjection_post_init : Dataclass ProgressProjection := fun self =>
  _require_identifier None (pp_stream_id self) "progress stream ID";;
  _require_token (pp_operation_kind self) "progress operation kind";;
  _require_token (pp_phase self) "progress phase";;
  _require_token (pp_status self) "progress status";;
  _require_safe_integer true (pp_attempt self) "progress attempt";;
  _timestamp (pp_updated_at self) "progress update";;
  _require_safe_integer true (pp_sample_count self) "progress sample count";;
  match pp_current self with
  | None =>
      raise_if (is_some (pp_total self) || is_some (pp_unit self) ||
                is_some (pp_percent_basis_points self) ||
                is_some (pp_rate_milliunits_per_second self) || is_some (pp_eta_seconds self))
        (EventModelError "non-quantified progress cannot expose quantitative projections")
  | Some c =>
      _require_safe_integer false c "projected current progress";;
      raise_if (negb (unit_ok (pp_unit self)))
        (EventModelError "projected progress unit is unsupported");;
      match pp_total self with
      | None => Ok tt
      | Some t =>
          _require_safe_integer false t "projected total progress";;
          raise_if (t <? c) (EventModelError "projected current progress exceeds total")
      end;;
      opt_safe "progress percentage" (pp_percent_basis_points self);;
      opt_safe "progress rate" (pp_rate_milliunits_per_second self);;
      opt_safe "progress ETA" (pp_eta_seconds self);;
      raise_if (match pp_percent_basis_points self with Some v => 10000 <? v | None => false end)
        (EventModelError "progress percentage exceeds 100 percent")
  end.

(** The variables of the loop in [project]. *)
Record projection_state := {
  ps_expected : Z;
  ps_terminal_seen : bool;
  ps_last_current : option Z;
  ps_last_total : option Z;
  ps_last_unit : option string;
  ps_last_attempt : Z;
  ps_samples : list LifecycleEvent
}.

Definition project_step (st : projection_state) (event : LifecycleEvent) : result projection_state :=
  raise_if (negb (lev_stream_sequence event =? ps_expected st))
    (EventModelError "progress event history contains a sequence gap");;
  raise_if (ps_terminal_seen st) (EventModelError "progress event follows a terminal event");;
  raise_if ((lev_attempt event <? ps_last_attempt st) || (ps_last_attempt st + 1 <? lev_attempt event))
    (EventModelError "progress attempt sequence is not contiguous");;
  let advances := ps_last_attempt st <? lev_attempt event in
  (if advances then
     raise_if (negb (String.eqb (lev_status event) "resumed"))
       (EventModelError "a new progress attempt must begin with resumed status");;
     raise_if (negb (bool_decide (lev_current event = ps_last_current st)))
       (EventModelError "resumed progress must start at the prior durable coordinate")
   else Ok tt);;
  let samples := if advances then [] else ps_samples st in
  let last_attempt := if advances then lev_attempt event else ps_last_attempt st in
  match lev_current event with
  | None =>
      Ok {| ps_expected := ps_expected st + 1; ps_terminal_seen := lev_terminal event;
            ps_last_current := ps_last_current st; ps_last_total := ps_last_total st;
            ps_last_unit := ps_last_unit st; ps_last_attempt := last_attempt; ps_samples := samples |}
  | Some c =>
      raise_if (match ps_last_current st with Some l => c <? l | None => false end)
        (EventModelError "progress current coordinate moved backward");;
      raise_if (is_some (ps_last_unit st) && negb (bool_decide (lev_unit event = ps_last_unit st)))
        (EventModelError "progress unit changed within one stream");;
      raise_if (is_some (ps_last_total st) && is_some (lev_total event) &&
                negb (bool_decide (lev_total event = ps_last_total st)))
        (EventModelError "progress total changed within one stream");;
      Ok {| ps_expected := ps_expected st + 1; ps_terminal_seen := lev_terminal event;
            ps_last_current := Some c;
            ps_last_total := match lev_total event with Some t => Some t | None => ps_last_total st end;
            ps_last_unit := lev_unit event; ps_last_attempt := last_attempt;
            ps_samples := samples ++ [event] |}
  end.

(** [elapsed_ms] of a timedelta in microseconds: its normalized fields, floored. *)
Definition elapsed_ms (us : Z) : Z := us / 1000.

Definition rate_and_eta (samples : list LifecycleEvent) (last_current last_total : option Z)
    : result (option Z * option Z) :=
  match samples with
  | first :: _ :: _ =>
      let last := List.last samples first in
      tl ← _timestamp (lev_occurred_at last) "progress sample";
      tf ← _timestamp (lev_occurred_at first) "progress sample";
      let elapsed := elapsed_ms (tl - tf) in
      let delta := or_zero (lev_current last) - or_zero (lev_current first) in
      if (0 <? elapsed) && (0 <? delta) then
        let rate := Z.min SAFE_INTEGER_MAX (delta * 1000000 / elapsed) in
        match last_total, last_current with
        | Some t, Some c =>
            if 0 <? rate then
              Ok (Some rate, Some (Z.min SAFE_INTEGER_MAX (((t - c) * 1000 + rate - 1) / rate)))
            else Ok (Some rate, None)
        | _, _ => Ok (Some rate, None)
        end
      else Ok (None, None)
  | _ => Ok (None, None)
  end.

Definition percent_of (last_current last_total : option Z) : option Z :=
  match last_current, last_total with
  | Some c, Some t => Some (if t =? 0 then 10000 else c * 10000 / t)
  | _, _ => None
  end.

Definition initial_projection (first : LifecycleEvent) : projection_state :=
  {| ps_expected := lev_stream_sequence first; ps_terminal_seen := false; ps_last_current := None;
     ps_last_total := None; ps_last_unit := None; ps_last_attempt := lev_attempt first;
     ps_samples := [] |}.

Definition project (events : list LifecycleEvent) : result ProgressProjection :=
  match events with
  | [] => Raise (EventModelError "progress projection requires at least one event")
  | e0 :: _ =>
      let ordered := sorted_by lev_stream_sequence events in
      match ordered with
      | [] => Raise (EventModelError "progress projection requires at least one event")
      | first :: _ =>
          raise_if (existsb (fun e => negb (String.eqb (lev_stream_id e) (lev_stream_id e0)) ||
                                      negb (String.eqb (lev_operation_kind e) (lev_operation_kind e0)))
                      ordered)
            (EventModelError "progress projection cannot mix streams or operation kinds");;
          st ← fold_result project_step ordered (initial_projection first);
          let latest := List.last ordered first in
          re ← rate_and_eta (ps_samples st) (ps_last_current st) (ps_last_total st);
          construct {| pp_stream_id := lev_stream_id e0; pp_operation_kind := lev_operation_kind e0;
            pp_phase := dr_phase (lev_draft latest); pp_status := lev_status latest;
            pp_attempt := lev_attempt latest; pp_current := ps_last_current st;
            pp_total := ps_last_total st; pp_unit := ps_last_unit st;
            pp_percent_basis_points := percent_of (ps_last_current st) (ps_last_total st);
            pp_rate_milliunits_per_second := re.1; pp_eta_seconds := re.2;
            pp_updated_at := lev_occurred_at latest; pp_terminal := lev_terminal latest;
            pp_history_complete := lev_stream_sequence first =? 1;
            pp_sample_count := Z.of_nat (length ordered) |}
      end
  end.
End Models.
