(* ===== verification/Journal.v ===== *)
(** * The event journal

    event_store.py: the append journal behind every event publisher.  The
    database is the record [journal]: the metadata row, the retained event rows
    in offset order and the stream heads.  A transaction that raises is rolled
    back, so an operation returns the new journal only when it returns.  A row has
    the columns of the table; an event is in it as its canonical JSON text, decoded
    and validated wherever it is read ([_event_from_json]), with its identifier,
    digest, stream coordinates and occurrence in columns of their own.  The UNIQUE
    constraints of the table follow from the guards ([ji_ids], [ji_linked]).  SQLite,
    the process lock and waiting for changes are not modelled. *)

From S2P Require Export Rows Events.
Import Ev.

Record head := {
  hd_operation_kind : string;
  hd_last_sequence : Z;
  hd_attempt : Z;
  hd_current : option Z;
  hd_total : option Z;
  hd_unit : option string;
  hd_terminal : bool
}.

Record row := {
  row_offset : Z;
  row_event_id : string;
  row_stream_id : string;
  row_stream_sequence : Z;
  row_draft_sha256 : string;
  row_event_json : string;
  row_event_digest : string;
  row_previous : string;
  row_chain : string;
  row_occurred_at : string
}.

Record journal := {
  j_id : string;
  j_maximum : Z;
  j_last_offset : Z;
  j_oldest_offset : Z;
  j_anchor : string;
  j_tail : string;
  j_rows : list row;
  j_heads : gmap string head
}.

Definition EMPTY_DIGEST : string := Eval vm_compute in sha256 "".

Definition JOURNAL_ID_PREFIX : string := "opid:v1:event-journal:u7:".
Definition EVENT_ID_PREFIX : string := "opid:v1:lifecycle-event:u7:".

(** [Uuid7EventIds._new]: 74 random bits, split 12 and 62. *)
Definition event_uuid (milliseconds random_bits : Z) : Z :=
  uuid7_int milliseconds (Z.land (Z.shiftr random_bits 62) 4095) (Z.land random_bits (2 ^ 62 - 1)).

Definition new_event_uuid_id (namespace : string) (milliseconds random_bits : Z) : result string :=
  raise_if (2 ^ 48 <=? milliseconds) (OtherException "RuntimeError" "system time exceeds UUIDv7 timestamp domain");;
  Ok ("opid:v1:" +:+ namespace +:+ ":u7:" +:+ uuid_str (event_uuid milliseconds random_bits)).

Definition corrupt (msg : string) : exn := OtherException "EventJournalCorruptionError" msg.

Section Journal.
Context `{PyTables} `{JCS} `{PyFloat}.

Definition draft_json (draft : EventDraft) : json :=
  JObj [("attempt", JInt (dr_attempt draft)); ("attributes", JObj (dr_attributes draft));
        ("causation_id", JOptStr (dr_causation_id draft)); ("correlation_id", JOptStr (dr_correlation_id draft));
        ("current", JOptInt (dr_current draft)); ("event_type", JStr (dr_event_type draft));
        ("message", JStr (dr_message draft)); ("operation_kind", JStr (dr_operation_kind draft));
        ("phase", JStr (dr_phase draft)); ("status", JStr (dr_status draft));
        ("stream_id", JStr (dr_stream_id draft)); ("terminal", JBool (dr_terminal draft));
        ("total", JOptInt (dr_total draft)); ("unit", JOptStr (dr_unit draft))].

Definition _draft_digest (draft : EventDraft) : result string := sha256 <$> canonical_json (draft_json draft).

(** The draft with attributes of its own, read back from their canonical text. *)
Definition _snapshot_draft (draft : EventDraft) : result EventDraft :=
  ao ← canonical_object (dr_attributes draft);
  attributes ← parse_canonical_object ao.1;
  construct (with_attributes attributes draft).

Definition _draft_from_event (event : LifecycleEvent) : result EventDraft :=
  attributes ← lev_attributes event; construct (with_attributes attributes (lev_draft event)).

Definition _chain_digest (offset : Z) (previous : string) (event : LifecycleEvent) : result string :=
  fields ← event_to_dict event;
  sha256 <$> canonical_json (JObj [("event", JObj fields); ("offset", JInt offset);
                                   ("previous_chain_sha256", JStr previous)]).

(** ** Decoding a stored event *)

(** [parsed[key]] *)
Definition parsed_item (fields : list (string * json)) (key : string) : result json :=
  match find_field key fields with Some v => Ok v | None => Raise (KeyError key) end.

(** A value of a type that no event has there is refused by the checks of the event, with a
    [TypeError] or an [EventModelError]; the decoder treats both alike.  The exception is a message
    that is a list or an object: the source lets it pass when the digests agree, the model, whose
    messages are strings, refuses it. *)
Definition mistyped : exn := OtherException "TypeError" "".
Definition item_str (fields : list (string * json)) (key : string) : result string :=
  v ← parsed_item fields key; match v with JStr s => Ok s | _ => Raise mistyped end.
Definition item_int (fields : list (string * json)) (key : string) : result Z :=
  v ← parsed_item fields key; match v with JInt z => Ok z | _ => Raise mistyped end.
Definition item_bool (fields : list (string * json)) (key : string) : result bool :=
  v ← parsed_item fields key; match v with JBool b => Ok b | _ => Raise mistyped end.
Definition item_opt_str (fields : list (string * json)) (key : string) : result (option string) :=
  v ← parsed_item fields key; match v with JStr s => Ok (Some s) | JNull => Ok None | _ => Raise mistyped end.
Definition item_opt_int (fields : list (string * json)) (key : string) : result (option Z) :=
  v ← parsed_item fields key; match v with JInt z => Ok (Some z) | JNull => Ok None | _ => Raise mistyped end.

Definition EVENT_KEYS : list string :=
  ["event_id"; "stream_id"; "stream_sequence"; "operation_kind"; "event_type"; "phase"; "status"; "attempt"; "occurred_at";
   "current"; "total"; "unit"; "message"; "correlation_id"; "causation_id"; "attributes_sha256"; "terminal"; "event_digest";
   "canonical_authority"; "schema_version"].

Definition draft_of_fields (fields : list (string * json)) : result EventDraft :=
  stream_id ← item_str fields "stream_id";
  operation_kind ← item_str fields "operation_kind";
  event_type ← item_str fields "event_type";
  phase ← item_str fields "phase";
  status ← item_str fields "status";
  attempt ← item_int fields "attempt";
  current ← item_opt_int fields "current";
  total ← item_opt_int fields "total";
  u ← item_opt_str fields "unit";
  message ← item_str fields "message";
  correlation_id ← item_opt_str fields "correlation_id";
  causation_id ← item_opt_str fields "causation_id";
  terminal ← item_bool fields "terminal";
  Ok {| dr_stream_id := stream_id; dr_operation_kind := operation_kind; dr_event_type := event_type; dr_phase := phase;
        dr_status := status; dr_attempt := attempt; dr_current := current; dr_total := total; dr_unit := u;
        dr_message := message; dr_correlation_id := correlation_id; dr_causation_id := causation_id;
        dr_attributes := []; dr_terminal := terminal |}.

(** [LifecycleEvent(event_id=parsed["event_id"], ...)] *)
Definition event_of_fields (fields : list (string * json)) (attributes_json : string) : result LifecycleEvent :=
  for_each EVENT_KEYS (fun key => _ ← parsed_item fields key; Ok tt);;
  event_id ← item_str fields "event_id";
  draft ← draft_of_fields fields;
  stream_sequence ← item_int fields "stream_sequence";
  occurred_at ← parsed_item fields "occurred_at";
  let event occurred attributes_sha256 digest :=
    {| lev_event_id := event_id; lev_stream_sequence := stream_sequence; lev_occurred_at := occurred; lev_draft := draft;
       lev_attributes_json := attributes_json; lev_attributes_sha256 := attributes_sha256; lev_event_digest := digest |} in
  match occurred_at with
  | JStr occurred =>
      attributes_sha256 ← item_str fields "attributes_sha256";
      digest ← item_str fields "event_digest";
      e ← construct (event occurred attributes_sha256 digest);
      authority ← parsed_item fields "canonical_authority";
      raise_if (match authority with JBool false => false | _ => true end)
        (EventModelError "local lifecycle events cannot claim canonical authority");;
      version ← parsed_item fields "schema_version";
      raise_if (match version with JStr v => negb (String.eqb v "lifecycle-event.v1") | _ => true end)
        (EventModelError "unsupported lifecycle event schema");;
      Ok e
  | _ => event_source_guards (event "" "" "");; Raise (OtherException "AttributeError" "replace")
  end.

(** [except (KeyError, TypeError, EventModelError, StateModelError)] *)
Definition model_violation {A} (r : result A) : result A :=
  match r with
  | Raise (KeyError _ | EventModelError _ | StateModelError _ | SecretMaterialError _) =>
      Raise (corrupt "stored lifecycle event violates its model")
  | Raise (OtherException cls _ as e) =>
      Raise (if String.eqb cls "TypeError" then corrupt "stored lifecycle event violates its model" else e)
  | r => r
  end.

Definition _event_from_json (value : string) : result LifecycleEvent :=
  parsed ← match @json_loads _ default_hooks value with
           | Raise (ValueError _) => Raise (corrupt "stored lifecycle event is not JSON")
           | Raise (OtherException cls _ as e) =>
               Raise (if String.eqb cls "JSONDecodeError" then corrupt "stored lifecycle event is not JSON" else e)
           | r => r
           end;
  match parsed with
  | JObj fields =>
      model_violation (
        encoded ← canonical_json parsed;
        raise_if (negb (String.eqb encoded value)) (corrupt "stored lifecycle event is not canonical JSON");;
        attributes ← parsed_item fields "attributes";
        attributes_json ← canonical_json attributes;
        event_of_fields fields attributes_json)
  | _ => Raise (corrupt "stored lifecycle event is not canonical JSON")
  end.

(** ** Creating a journal *)

Definition open_new (journal_id : string) (maximum_events : Z) : result journal :=
  raise_if (negb ((1 <=? maximum_events) && (maximum_events <=? 1000000)))
    (ValueError "event retention must be between 1 and 1,000,000 events");;
  raise_if (negb (str_startswith journal_id JOURNAL_ID_PREFIX))
    (EventModelError "event journal ID generator returned the wrong namespace");;
  Ok {| j_id := journal_id; j_maximum := maximum_events; j_last_offset := 0; j_oldest_offset := 0;
        j_anchor := EMPTY_DIGEST; j_tail := EMPTY_DIGEST; j_rows := []; j_heads := ∅ |}.

(** ** [publish] *)

Definition active_heads (heads : gmap string head) : Z :=
  Z.of_nat (size (filter (fun p => hd_terminal p.2 = false) heads)).

(** The checks of a draft against its stream head; the sequence it gets. *)
Definition next_sequence (j : journal) (draft : EventDraft) : result Z :=
  match j_heads j !! dr_stream_id draft with
  | None =>
      raise_if (j_maximum j <=? active_heads (j_heads j))
        (EventJournalConflictError "active event streams reached the bounded journal policy");;
      raise_if (negb (dr_attempt draft =? 1))
        (EventJournalConflictError "a new event stream must begin with attempt one");;
      Ok 1
  | Some h =>
      raise_if (hd_terminal h) (EventJournalConflictError "terminal event streams are immutable");;
      raise_if (negb (String.eqb (hd_operation_kind h) (dr_operation_kind draft)))
        (EventJournalConflictError "event stream operation kind changed");;
      raise_if (negb ((dr_attempt draft =? hd_attempt h) || (dr_attempt draft =? hd_attempt h + 1)))
        (EventJournalConflictError "event attempt sequence is not contiguous");;
      (if dr_attempt draft =? hd_attempt h + 1 then
         raise_if (negb (String.eqb (dr_status draft) "resumed") ||
                   negb (bool_decide (dr_current draft = hd_current h)))
           (EventJournalConflictError "a resumed attempt must bind the prior durable coordinate")
       else
         raise_if (String.eqb (dr_status draft) "resumed")
           (EventJournalConflictError "resumed status requires a new attempt"));;
      raise_if (match dr_current draft, hd_current h with Some c, Some p => c <? p | _, _ => false end)
        (EventJournalConflictError "event progress moved backward");;
      raise_if (is_some (hd_unit h) && negb (bool_decide (dr_unit draft = hd_unit h)))
        (EventJournalConflictError "event progress unit changed");;
      raise_if (is_some (hd_total h) && is_some (dr_total draft) &&
                negb (bool_decide (dr_total draft = hd_total h)))
        (EventJournalConflictError "event progress total changed");;
      raise_if (SAFE_INTEGER_MAX <? hd_last_sequence h + 1)
        (EventJournalConflictError "event stream exhausted the safe-integer sequence domain");;
      Ok (hd_last_sequence h + 1)
  end.

Definition or_else {A} (a b : option A) : option A := match a with Some x => Some x | None => b end.

(** The upserted head: coordinates an event leaves out keep their last value. *)
Definition new_head (draft : EventDraft) (sequence : Z) (old : option head) : head :=
  {| hd_operation_kind := match old with Some h => hd_operation_kind h | None => dr_operation_kind draft end;
     hd_last_sequence := sequence; hd_attempt := dr_attempt draft;
     hd_current := or_else (dr_current draft) (h ← old; hd_current h);
     hd_total := or_else (dr_total draft) (h ← old; hd_total h);
     hd_unit := or_else (dr_unit draft) (h ← old; hd_unit h);
     hd_terminal := dr_terminal draft |}.

Definition retained (rows : list row) (stream : string) : bool :=
  existsb (fun r => String.eqb (row_stream_id r) stream) rows.

(** Retention: drop the oldest rows, and the terminal heads nothing retained needs. *)
Definition retain (j : journal) : journal :=
  let excess := Z.of_nat (length (j_rows j)) - j_maximum j in
  if 0 <? excess then
    let removed := take (Z.to_nat excess) (j_rows j) in
    let rows := drop (Z.to_nat excess) (j_rows j) in
    match last removed with
    | None => j
    | Some r =>
        {| j_id := j_id j; j_maximum := j_maximum j; j_last_offset := j_last_offset j;
           j_oldest_offset := row_offset r + 1; j_anchor := row_chain r; j_tail := j_tail j;
           j_rows := rows;
           j_heads := filter (fun p => ~ (hd_terminal p.2 = true /\ retained rows p.1 = false)) (j_heads j) |}
    end
  else j.

Definition append_row (j : journal) (r : row) (h : head) : journal :=
  {| j_id := j_id j; j_maximum := j_maximum j; j_last_offset := row_offset r;
     j_oldest_offset := if j_oldest_offset j =? 0 then row_offset r else j_oldest_offset j;
     j_anchor := j_anchor j; j_tail := row_chain r; j_rows := j_rows j ++ [r];
     j_heads := <[row_stream_id r := h]> (j_heads j) |}.

Definition find_event (j : journal) (event_id : string) : option row :=
  List.find (fun r => String.eqb (row_event_id r) event_id) (j_rows j).

(** [event_id or self._ids.new_event_id()] *)
Definition select_id (event_id : option string) (fresh_id : string) : string :=
  match event_id with Some i => if str_empty i then fresh_id else i | None => fresh_id end.

Definition publish (draft : EventDraft) (event_id : option string) (fresh_id : string) (now : Z)
    (j : journal) : result (StoredEvent * journal) :=
  draft ← _snapshot_draft draft;
  let selected_id := select_id event_id fresh_id in
  raise_if (negb (str_startswith selected_id EVENT_ID_PREFIX) ||
            negb (fullmatch OPERATIONAL_ID_PATTERN selected_id))
    (EventModelError "event ID generator returned the wrong namespace");;
  request_digest ← _draft_digest draft;
  match find_event j selected_id with
  | Some r =>
      raise_if (negb (String.eqb (row_draft_sha256 r) request_digest))
        (EventJournalConflictError "event ID was reused with different content");;
      event ← _event_from_json (row_event_json r);
      s ← construct {| st_offset := row_offset r; st_event := event |};
      Ok (s, j)
  | None =>
      let offset := j_last_offset j + 1 in
      raise_if (SAFE_INTEGER_MAX <? offset)
        (EventJournalConflictError "event journal exhausted the safe-integer offset domain");;
      sequence ← next_sequence j draft;
      event ← build selected_id sequence (rfc3339 now) draft;
      chain ← _chain_digest offset (j_tail j) event;
      fields ← event_to_dict event;
      event_json ← canonical_json (JObj fields);
      s ← construct {| st_offset := offset; st_event := event |};
      Ok (s, retain (append_row j
               {| row_offset := offset; row_event_id := lev_event_id event; row_stream_id := lev_stream_id event;
                  row_stream_sequence := lev_stream_sequence event; row_draft_sha256 := request_digest;
                  row_event_json := event_json; row_event_digest := lev_event_digest event; row_previous := j_tail j;
                  row_chain := chain; row_occurred_at := lev_occurred_at event |}
               (new_head draft sequence (j_heads j !! dr_stream_id draft))))
  end.

(** ** Reading *)

Definition cursor (j : journal) : result EventCursor :=
  construct {| cur_journal_id := j_id j; cur_offset := j_last_offset j |}.

Definition stored (r : row) : result StoredEvent :=
  event ← _event_from_json (row_event_json r); construct {| st_offset := row_offset r; st_event := event |}.

(** [n or None] *)
Definition zero_none (n : Z) : option Z := if n =? 0 then None else Some n.

Definition read (j : journal) (cursor : option EventCursor) (maximum_events : Z) : result EventBatch :=
  raise_if (negb ((1 <=? maximum_events) && (maximum_events <=? 10000)))
    (ValueError "event batch size must be between 1 and 10,000");;
  raise_if (match cursor with Some c => negb (String.eqb (cur_journal_id c) (j_id j)) | None => false end)
    (EventJournalConflictError "event cursor belongs to another journal");;
  let oldest := j_oldest_offset j in
  let newest := j_last_offset j in
  let requested := match cursor with
                   | Some c => cur_offset c
                   | None => if oldest =? 0 then 0 else oldest - 1
                   end in
  raise_if (negb (oldest =? 0) && (requested <? oldest - 1)) (EventCursorGapError requested oldest);;
  raise_if (newest <? requested) (EventJournalConflictError "event cursor is ahead of the journal tail");;
  let rows := take (S (Z.to_nat maximum_events)) (List.filter (fun r => requested <? row_offset r) (j_rows j)) in
  let has_more := maximum_events <? Z.of_nat (length rows) in
  events ← map_result stored (take (Z.to_nat maximum_events) rows);
  let next_offset := match last events with Some e => st_offset e | None => requested end in
  c ← construct {| cur_journal_id := j_id j; cur_offset := next_offset |};
  construct {| bat_cursor := c; bat_events := events; bat_oldest := zero_none oldest;
               bat_newest := zero_none newest; bat_has_more := has_more |}.

Definition stream_rows (j : journal) (stream_id : string) : list row :=
  sorted_by row_stream_sequence (List.filter (fun r => String.eqb (row_stream_id r) stream_id) (j_rows j)).

Definition read_stream (j : journal) (stream_id : string) : result (list LifecycleEvent) :=
  raise_if (negb (fullmatch OPERATIONAL_ID_PATTERN stream_id))
    (EventModelError "event stream ID must be an operational UUIDv7");;
  map_result (fun r => _event_from_json (row_event_json r)) (stream_rows j stream_id).

(** ** [_verify]: what every open and health check re-establishes *)

Record verify_state := { vs_previous : string; vs_expected : Z; vs_sequences : gmap string Z }.

Definition verify_row (st : verify_state) (r : row) : result verify_state :=
  raise_if (negb (row_offset r =? vs_expected st)) (corrupt "retained event offsets are not contiguous");;
  event ← _event_from_json (row_event_json r);
  raise_if (negb (String.eqb (lev_event_id event) (row_event_id r)) ||
            negb (String.eqb (lev_event_digest event) (row_event_digest r)))
    (corrupt "event row identity does not match serialized content");;
  raise_if (negb (String.eqb (lev_stream_id event) (row_stream_id r)) ||
            negb (lev_stream_sequence event =? row_stream_sequence r))
    (corrupt "event stream coordinates do not match serialized content");;
  raise_if (negb (String.eqb (row_occurred_at r) (lev_occurred_at event)))
    (corrupt "event occurrence column does not match serialized content");;
  draft ← _draft_from_event event;
  digest ← _draft_digest draft;
  raise_if (negb (String.eqb (row_draft_sha256 r) digest))
    (corrupt "event draft digest does not match serialized content");;
  raise_if (match vs_sequences st !! lev_stream_id event with
            | Some prior => negb (lev_stream_sequence event =? prior + 1)
            | None => false
            end) (corrupt "retained event stream sequence is not contiguous");;
  raise_if (negb (String.eqb (row_previous r) (vs_previous st)))
    (corrupt "event chain predecessor is inconsistent");;
  chain ← _chain_digest (row_offset r) (vs_previous st) event;
  raise_if (negb (String.eqb (row_chain r) chain)) (corrupt "event journal chain digest is invalid");;
  Ok {| vs_previous := chain; vs_expected := vs_expected st + 1;
        vs_sequences := <[lev_stream_id event := lev_stream_sequence event]> (vs_sequences st) |}.

Definition in_safe (lo z : Z) : bool := (lo <=? z) && (z <=? SAFE_INTEGER_MAX).

Definition verify_head (j : journal) (p : string * head) : result unit :=
  let h := p.2 in
  raise_if (negb (fullmatch OPERATIONAL_ID_PATTERN p.1))
    (corrupt "event stream head contains an invalid stream ID");;
  raise_if (negb (in_safe 1 (hd_last_sequence h)) || negb (in_safe 1 (hd_attempt h)))
    (corrupt "event stream head coordinates are outside the safe-integer domain");;
  match last (stream_rows j p.1) with
  | None => raise_if (hd_terminal h)
      (corrupt "terminal event stream head survived complete retention eviction")
  | Some r =>
      event ← _event_from_json (row_event_json r);
      raise_if (negb (String.eqb (hd_operation_kind h) (lev_operation_kind event)) ||
                negb (hd_last_sequence h =? lev_stream_sequence event) ||
                negb (hd_attempt h =? lev_attempt event) ||
                negb (Bool.eqb (hd_terminal h) (lev_terminal event)) ||
                (is_some (lev_current event) && negb (bool_decide (hd_current h = lev_current event))) ||
                (is_some (lev_total event) && negb (bool_decide (hd_total h = lev_total event))) ||
                (is_some (lev_unit event) && negb (bool_decide (hd_unit h = lev_unit event))))
        (corrupt "event stream head disagrees with its latest retained event")
  end.

Definition _verify (j : journal) (requested_maximum : option Z) : result unit :=
  raise_if (negb (str_startswith (j_id j) JOURNAL_ID_PREFIX) || negb (fullmatch OPERATIONAL_ID_PATTERN (j_id j)))
    (corrupt "event journal ID is invalid");;
  raise_if (negb ((1 <=? j_maximum j) && (j_maximum j <=? 1000000)))
    (corrupt "event journal retention metadata is outside the supported domain");;
  raise_if (match requested_maximum with Some m => negb (j_maximum j =? m) | None => false end)
    (EventJournalConflictError "configured event retention differs from the durable journal policy");;
  raise_if (negb (in_safe 0 (j_last_offset j)) || negb (in_safe 0 (j_oldest_offset j)))
    (corrupt "event journal offset is outside the safe-integer domain");;
  raise_if (negb (fullmatch SHA256_PATTERN (j_anchor j)) || negb (fullmatch SHA256_PATTERN (j_tail j)))
    (corrupt "event journal chain metadata is malformed");;
  raise_if (j_maximum j <? Z.of_nat (length (j_rows j))) (corrupt "event journal exceeds its retention policy");;
  match j_rows j, last (j_rows j) with
  | first :: _, Some final =>
      raise_if (negb (row_offset first =? j_oldest_offset j) || negb (row_offset final =? j_last_offset j))
        (corrupt "event retention bounds disagree with stored rows");;
      st ← fold_result verify_row (j_rows j)
        {| vs_previous := j_anchor j; vs_expected := j_oldest_offset j; vs_sequences := ∅ |};
      raise_if (negb (String.eqb (vs_previous st) (j_tail j)))
        (corrupt "event journal tail digest is inconsistent");;
      for_each (sorted_by fst (map_to_list (j_heads j))) (verify_head j);;
      raise_if (existsb (fun p => is_none (j_heads j !! p.1)) (map_to_list (vs_sequences st)))
        (corrupt "retained event stream is missing its durable head")
  | _, _ =>
      raise_if (negb (j_last_offset j =? 0) || negb (j_oldest_offset j =? 0) ||
                negb (String.eqb (j_tail j) EMPTY_DIGEST) || negb (String.eqb (j_anchor j) EMPTY_DIGEST))
        (corrupt "empty event journal metadata is inconsistent");;
      raise_if (negb (bool_decide (j_heads j = ∅))) (corrupt "empty event journal retains a stream head")
  end.

(** [EventJournal.open] on a new database. *)
Definition open (journal_id : string) (maximum_events : Z) : result journal :=
  j ← open_new journal_id maximum_events; _verify j (Some maximum_events);; Ok j.

(** [EventSubscription.next_batch] without waiting: read, then move the cursor. *)
Definition next_batch (j : journal) (cursor : option EventCursor) (maximum_events : Z)
    : result (EventBatch * option EventCursor) :=
  batch ← read j cursor maximum_events; Ok (batch, Some (bat_cursor batch)).
End Journal.
