(* ===== verification/JournalInvariant.v ===== *)
(** * The journal invariant

    [event_text_decodes]: the canonical text of a valid event decodes to the event.
    [journal_ok] says what a journal built by [open_new] and [publish] looks
    like: contiguous offsets, a closed hash chain, texts of valid events with columns
    that agree with them, and, for every stream, retained events that are linked one
    to the next and agree with the stream head.  [publish] preserves it, and a journal that satisfies it passes
    the verification the source runs on every open.

    The second part proves what follows for reads, replays and closed streams. *)

From S2P Require Export Journal.

Import Ev.

(** ** Lists *)

Section Adjacent.
Context {A : Type} (R : A -> A -> Prop).

(** Neighbours are related. *)
Fixpoint adjacent (l : list A) : Prop :=
  match l with
  | x :: (y :: _) as l' => R x y /\ adjacent l'
  | _ => True
  end.

Lemma adjacent_tail x l : adjacent (x :: l) -> adjacent l.
Proof. destruct l; cbn; tauto. Qed.

Lemma adjacent_drop n l : adjacent l -> adjacent (drop n l).
Proof.
  revert l. induction n as [|n IH]; intros [|x l]; cbn [drop]; auto. intros H. apply IH.
  by eapply adjacent_tail.
Qed.

Lemma adjacent_snoc l x :
  adjacent l -> (forall y, last l = Some y -> R y x) -> adjacent (l ++ [x]).
Proof.
  induction l as [|a l IH]; [done|]. destruct l as [|b l]; cbn [app].
  - intros _ H. split; [by apply H|done].
  - intros [H1 H2] H. split; [done|]. apply IH; [done|]. intros y Hy. apply H. done.
Qed.
End Adjacent.

Lemma filter_drop {A} (f : A -> bool) n l :
  exists m, List.filter f (drop n l) = drop m (List.filter f l).
Proof.
  revert l. induction n as [|n IH]; intros l; [by exists 0%nat|].
  destruct l as [|x l]; [by exists 0%nat|]. cbn [drop List.filter].
  destruct (IH l) as [m Hm]. destruct (f x); [by exists (S m)|by exists m].
Qed.

Lemma filter_snoc {A} (f : A -> bool) l x :
  List.filter f (l ++ [x]) = List.filter f l ++ (if f x then [x] else []).
Proof. rewrite List.filter_app. cbn. by destruct (f x). Qed.

Lemma last_drop {A} n (l : list A) : drop n l <> [] -> last (drop n l) = last l.
Proof.
  revert l. induction n as [|n IH]; intros l H; [done|]. destruct l as [|x l]; [done|].
  cbn [drop] in *. rewrite IH by done. destruct l as [|y l]; [by rewrite drop_nil in H|done].
Qed.

Lemma elem_of_drop {A} n (l : list A) x : x ∈ drop n l -> x ∈ l.
Proof. intros H. rewrite <- (take_drop n l). apply elem_of_app. by right. Qed.

Lemma sorted_fmap {A B K} `{PyOrd K} (f : A -> B) (key : B -> K) l :
  StronglySorted (key_le key) (f <$> l) -> StronglySorted (key_le (fun x => key (f x))) l.
Proof.
  induction l as [|x l IH]; [constructor|]. rewrite fmap_cons. intros Hs.
  apply StronglySorted_inv in Hs as [Hs Hf]. constructor; [by apply IH|].
  by rewrite Forall_fmap in Hf.
Qed.

(** ** The text of an event *)

Section Codec.
Context {Tables : PyTables} {Jcs : JCS} {Float : PyFloat} {Laws : JCSLaws}.

Lemma opt_str_stable o : stable (JOptStr o).
Proof. apply plain_stable; [|by destruct o]. destruct o; constructor. Qed.
Lemma opt_int_stable o : safe_nonneg_opt o = true -> stable (JOptInt o).
Proof.
  intros Ho. apply plain_stable; [|by destruct o]. destruct o; [|constructor]. apply safe_nonneg_spec in Ho.
  constructor. unfold SAFE_INTEGER_MAX in *. lia.
Qed.
Lemma str_stable s : stable (JStr s).
Proof. apply plain_stable; [constructor|done]. Qed.
Lemma bool_stable b : stable (JBool b).
Proof. apply plain_stable; [constructor|done]. Qed.
Lemma int_stable z : 1 <= z <= SAFE_INTEGER_MAX -> stable (JInt z).
Proof. intros Hz. apply plain_stable; [constructor; unfold SAFE_INTEGER_MAX in *; lia|done]. Qed.

(** What the validation of an event says of its fields. *)
Record event_facts (e : LifecycleEvent) (attributes : list (string * json)) : Prop := {
  ef_attributes : lev_attributes e = Ok attributes;
  ef_draft : valid (with_attributes attributes (lev_draft e));
  ef_sequence : 1 <= lev_stream_sequence e <= SAFE_INTEGER_MAX;
  ef_occurred : exists t, _timestamp (lev_occurred_at e) "event occurrence" = Ok t
}.
Lemma valid_event_parts e : valid e -> exists attributes, event_facts e attributes.
Proof.
  unfold valid at 1. unfold post_init, LifecycleEvent_post_init, event_source_guards. intros Hv. ok_inv.
  eexists. split; [done|done|..].
  - unfold _require_safe_integer in *. ok_inv. lia.
  - by eexists.
Qed.

Lemma draft_integers d : valid d ->
  1 <= dr_attempt d <= SAFE_INTEGER_MAX /\ safe_nonneg_opt (dr_current d) = true /\ safe_nonneg_opt (dr_total d) = true.
Proof.
  unfold valid, post_init, EventDraft_post_init, Ev._require_safe_integer. intros Hv. ok_inv.
  repeat match goal with Hn : negb _ = false |- _ => apply negb_false_iff in Hn end.
  split; [lia|]. unfold progress_guards, Ev._require_safe_integer in *.
  destruct (dr_current d), (dr_total d); ok_inv; split; try done; apply safe_nonneg_spec; lia.
Qed.

Lemma in_order (fields : list (string * json)) keys : fst <$> fields = keys ->
  bool_decide (sorted_by (fun k => k) keys = keys) = true -> sorted_by fst fields = fields.
Proof.
  intros E Hk%bool_decide_eq_true. apply sorted_by_id. apply (sorted_fmap fst (fun k => k)). rewrite E, <- Hk. apply sorted_by_sorted.
Qed.

Lemma opt_str_item fields key o : parsed_item fields key = Ok (JOptStr o) -> item_opt_str fields key = Ok o.
Proof. unfold item_opt_str. intros ->. by destruct o. Qed.
Lemma opt_int_item fields key o : parsed_item fields key = Ok (JOptInt o) -> item_opt_int fields key = Ok o.
Proof. unfold item_opt_int. intros ->. by destruct o. Qed.

Lemma event_fields_decode e attributes fields :
  valid e -> dr_attributes (lev_draft e) = [] -> lev_attributes e = Ok attributes -> event_to_dict e = Ok fields ->
  event_of_fields fields (lev_attributes_json e) = Ok e.
Proof.
  intros Hv Hno Ha Hd. unfold event_to_dict in Hd. rewrite Ha in Hd. cbn [mbind result_bind] in Hd. injection Hd as <-.
  match goal with |- event_of_fields ?l _ = _ => set (fields := l) end.
  assert (draft_of_fields fields = Ok (lev_draft e)) as Hd.
  { unfold draft_of_fields. rewrite (opt_int_item fields "current" (dr_current (lev_draft e))), (opt_int_item fields "total" (dr_total (lev_draft e))),
      (opt_str_item fields "unit" (dr_unit (lev_draft e))), (opt_str_item fields "correlation_id" (dr_correlation_id (lev_draft e))),
      (opt_str_item fields "causation_id" (dr_causation_id (lev_draft e))) by reflexivity.
    transitivity (Ok (with_attributes [] (lev_draft e))); [reflexivity|]. rewrite <- Hno. by destruct (lev_draft e). }
  unfold event_of_fields. assert (for_each EVENT_KEYS (fun key => _ ← parsed_item fields key; Ok tt) = Ok tt) as -> by reflexivity.
  rewrite Hd. transitivity (construct e); [|by apply construct_valid].
  transitivity (x ← construct e; Ok x); [|by destruct (construct e)].
  destruct e. unfold fields. cbn -[construct]. destruct (construct _); reflexivity.
Qed.

(** The canonical text of a valid event decodes to the event. *)
Lemma event_text_decodes e fields text :
  valid e -> dr_attributes (lev_draft e) = [] -> event_to_dict e = Ok fields -> canonical_json (JObj fields) = Ok text ->
  _event_from_json text = Ok e.
Proof.
  intros Hv Hno Hd Hc. destruct (valid_event_parts e Hv) as (attributes & [Ha Hdv Hs _]).
  destruct (draft_integers _ Hdv) as (Hat & Hcur & Htot). cbn [dr_attempt dr_current dr_total with_attributes] in Hat, Hcur, Htot.
  pose proof Hd as Hd'. pose proof Ha as Hat'. unfold event_to_dict in Hd. rewrite Ha in Hd. cbn [mbind result_bind] in Hd.
  assert (Forall (fun p => stable p.2) fields) as Hst.
  { injection Hd as <-. repeat (apply Forall_cons; split; cbn [snd]);
      try (by apply str_stable); try (by apply bool_stable); try (by apply opt_str_stable); try (by apply opt_int_stable);
      try (by apply int_stable); [|apply Forall_nil_2]. by eapply parse_canonical_stable. }
  assert (sorted_by fst fields = fields) as Hsort by (by injection Hd as <-; eapply in_order).
  assert (NoDup (fst <$> fields)) as Hnd by (injection Hd as <-; apply (bool_decide_unpack _); by vm_compute).
  destruct (dumps_object fields Hnd Hst) as (t & Ht & Hl). pose proof (canonical_json_clean _ _ Hc) as [_ Ht']. rewrite Ht in Ht'. injection Ht' as ->.
  rewrite Hsort in Hl. apply (loads_lenient (hooks := default_hooks)) in Hl; [|intros pairs Hp; cbn; by rewrite dict_of_id].
  unfold _event_from_json. rewrite Hl. cbn [mbind result_bind]. rewrite Hc. cbn [mbind result_bind]. rewrite String.eqb_refl. cbn [negb raise_if mbind result_bind].
  assert (parsed_item fields "attributes" = Ok (JObj attributes)) as -> by (by injection Hd as <-). cbn [mbind result_bind].
  apply parse_canonical_ok in Ha as [_ Ha]. rewrite Ha. cbn [mbind result_bind].
  by rewrite (event_fields_decode e attributes fields Hv Hno Hat' Hd').
Qed.
End Codec.

(** ** The invariant *)

Section Invariant.
Context {Tables : PyTables} {Jcs : JCS} {Float : PyFloat} {Laws : JCSLaws}.

(** The event a row holds. *)
Definition no_event : LifecycleEvent :=
  {| lev_event_id := ""; lev_stream_sequence := 0; lev_occurred_at := "";
     lev_draft := {| dr_stream_id := ""; dr_operation_kind := ""; dr_event_type := ""; dr_phase := ""; dr_status := ""; dr_attempt := 0;
       dr_current := None; dr_total := None; dr_unit := None; dr_message := ""; dr_correlation_id := None; dr_causation_id := None;
       dr_attributes := []; dr_terminal := false |};
     lev_attributes_json := ""; lev_attributes_sha256 := ""; lev_event_digest := "" |}.
Definition row_event (r : row) : LifecycleEvent :=
  match _event_from_json (row_event_json r) with Ok e => e | Raise _ => no_event end.

Definition stream_events (j : journal) (s : string) : list LifecycleEvent :=
  List.filter (fun e => String.eqb (lev_stream_id e) s) (row_event <$> j_rows j).

(** One event follows another in its stream. *)
Record linked (e e' : LifecycleEvent) : Prop := {
  lk_sequence : lev_stream_sequence e' = lev_stream_sequence e + 1;
  lk_open : lev_terminal e = false;
  lk_attempt : lev_attempt e' = lev_attempt e /\ lev_status e' <> "resumed" \/
    lev_attempt e' = lev_attempt e + 1 /\ lev_status e' = "resumed" /\ lev_current e' = lev_current e;
  lk_progress : forall c, lev_current e = Some c ->
    exists c', lev_current e' = Some c' /\ c <= c' /\ lev_unit e' = lev_unit e
}.

Record head_matches (h : head) (es : list LifecycleEvent) : Prop := {
  hm_last : exists e, last es = Some e /\ hd_last_sequence h = lev_stream_sequence e /\
    hd_attempt h = lev_attempt e /\ hd_terminal h = lev_terminal e /\
    hd_current h = lev_current e /\ hd_unit h = lev_unit e;
  hm_kind : Forall (fun e => lev_operation_kind e = hd_operation_kind h) es;
  hm_total : Forall (fun e => forall t, lev_total e = Some t -> hd_total h = Some t) es
}.

Record head_ok (s : string) (h : head) : Prop := {
  ho_stream : fullmatch OPERATIONAL_ID_PATTERN s = true;
  ho_sequence : 1 <= hd_last_sequence h <= SAFE_INTEGER_MAX;
  ho_attempt : 1 <= hd_attempt h <= SAFE_INTEGER_MAX;
  ho_quantified : hd_current h = None <-> hd_unit h = None
}.

Record row_ok (r : row) : Prop := {
  ro_event : valid (row_event r);
  ro_decodes : _event_from_json (row_event_json r) = Ok (row_event r);
  ro_id : row_event_id r = lev_event_id (row_event r);
  ro_digest : row_event_digest r = lev_event_digest (row_event r);
  ro_stream : row_stream_id r = lev_stream_id (row_event r);
  ro_sequence : row_stream_sequence r = lev_stream_sequence (row_event r);
  ro_occurred : row_occurred_at r = lev_occurred_at (row_event r);
  ro_draft : (d ← _draft_from_event (row_event r); _draft_digest d) = Ok (row_draft_sha256 r)
}.

(** The rows from [offset] on, each chained to the digest before it, up to [tail]. *)
Fixpoint chained (offset : Z) (previous : string) (rows : list row) (tail : string) : Prop :=
  match rows with
  | [] => previous = tail
  | r :: rs => row_offset r = offset /\ row_previous r = previous /\
      _chain_digest offset previous (row_event r) = Ok (row_chain r) /\
      chained (offset + 1) (row_chain r) rs tail
  end.

Record journal_inv (j : journal) : Prop := {
  ji_id : str_startswith (j_id j) JOURNAL_ID_PREFIX = true /\
          fullmatch OPERATIONAL_ID_PATTERN (j_id j) = true;
  ji_maximum : 1 <= j_maximum j <= 1000000;
  ji_bounds : j_rows j <> [] -> 1 <= j_oldest_offset j /\
    j_last_offset j = j_oldest_offset j + Z.of_nat (length (j_rows j)) - 1 /\
    j_last_offset j <= SAFE_INTEGER_MAX;
  ji_empty : j_rows j = [] -> j_last_offset j = 0 /\ j_oldest_offset j = 0 /\
    j_anchor j = EMPTY_DIGEST /\ j_tail j = EMPTY_DIGEST /\ j_heads j = ∅;
  ji_chain : chained (j_oldest_offset j) (j_anchor j) (j_rows j) (j_tail j);
  ji_digests : fullmatch SHA256_PATTERN (j_anchor j) = true /\ fullmatch SHA256_PATTERN (j_tail j) = true;
  ji_rows : Forall row_ok (j_rows j);
  ji_ids : NoDup (row_event_id <$> j_rows j);
  ji_linked : forall s, adjacent linked (stream_events j s);
  ji_streams : forall s, stream_events j s <> [] ->
    exists h, j_heads j !! s = Some h /\ head_matches h (stream_events j s);
  ji_heads : forall s h, j_heads j !! s = Some h ->
    head_ok s h /\ (hd_terminal h = true -> stream_events j s <> [])
}.

Record journal_ok (j : journal) : Prop := {
  jo_inv : journal_inv j;
  jo_retention : Z.of_nat (length (j_rows j)) <= j_maximum j
}.

Lemma open_new_ok journal_id maximum j :
  fullmatch OPERATIONAL_ID_PATTERN journal_id = true -> open_new journal_id maximum = Ok j -> journal_ok j.
Proof.
  intros Hp Ho. unfold open_new in Ho. ok_inv. subst j. bool_simp. split; [split|]; cbn.
  - done.
  - lia.
  - done.
  - done.
  - done.
  - by split; vm_compute.
  - constructor.
  - constructor.
  - done.
  - done.
  - by intros s h Hs%lookup_empty_Some.
  - lia.
Qed.

(** ** What the guards of [publish] establish *)

Lemma valid_draft_facts d :
  valid d -> fullmatch OPERATIONAL_ID_PATTERN (dr_stream_id d) = true /\
  1 <= dr_attempt d <= SAFE_INTEGER_MAX /\ (dr_current d = None <-> dr_unit d = None) /\
  (dr_current d = None -> dr_total d = None).
Proof.
  unfold valid, post_init, EventDraft_post_init, _require_identifier, Ev._require_safe_integer.
  intros Hv. ok_inv. repeat match goal with Hn : negb _ = false |- _ => apply negb_false_iff in Hn end.
  split; [done|]. split; [lia|]. unfold progress_guards in *.
  destruct (dr_current d) as [c|], (dr_unit d) as [u|], (dr_total d) as [t|]; ok_inv; try done.
Qed.

Lemma build_ok id seq at_ d e :
  build id seq at_ d = Ok e ->
  valid e /\ lev_draft e = with_attributes [] d /\ lev_event_id e = id /\ lev_stream_sequence e = seq /\
  lev_occurred_at e = at_ /\ canonical_json (JObj (dr_attributes d)) = Ok (lev_attributes_json e).
Proof.
  unfold build, canonical_object. intros Hb. ok_inv. apply construct_ok in Hb as [Hv ->]. by subst.
Qed.

Lemma valid_event_draft e : valid e -> exists attributes, valid (with_attributes attributes (lev_draft e)).
Proof. intros (attributes & [_ Hd _ _])%valid_event_parts. by exists attributes. Qed.

(** The event built from a snapshot gives the snapshot back. *)
Lemma snapshot_ok d d' : _snapshot_draft d = Ok d' -> valid d' /\ exists attributes, d' = with_attributes attributes d /\
  exists text, parse_canonical_object text = Ok attributes.
Proof.
  unfold _snapshot_draft. intros (ao & _ & Hs)%bind_ok. apply bind_ok in Hs as (attributes & Hp & [Hv ->]%construct_ok).
  split; [done|]. exists attributes. split; [done|]. by exists ao.1.
Qed.

Lemma draft_from_build d d' id seq at_ e :
  _snapshot_draft d = Ok d' -> build id seq at_ d' = Ok e -> _draft_from_event e = Ok d'.
Proof.
  intros (Hv & attributes & -> & text & Hp)%snapshot_ok (_ & Hd & _ & _ & _ & Hc)%build_ok.
  pose proof (parse_canonical_ok _ _ Hp) as [_ Hc']. cbn [dr_attributes with_attributes] in Hc. rewrite Hc' in Hc. injection Hc as Ht.
  unfold _draft_from_event, lev_attributes. rewrite <- Ht, Hp, Hd. cbn [mbind result_bind]. by apply construct_valid.
Qed.

Lemma chain_digest_hex offset previous e c :
  _chain_digest offset previous e = Ok c -> fullmatch SHA256_PATTERN c = true.
Proof.
  unfold _chain_digest. intros (fields & _ & Hc)%bind_ok. destruct (canonical_json (JObj _)) as [t|]; [|done].
  injection Hc as <-. apply Sha256.hexdigest_pattern.
Qed.

(** What [next_sequence] checked, given the head. *)
Record continues (h : head) (d : EventDraft) (seq : Z) : Prop := {
  ct_open : hd_terminal h = false;
  ct_kind : hd_operation_kind h = dr_operation_kind d;
  ct_attempt : dr_attempt d = hd_attempt h /\ dr_status d <> "resumed" \/
    dr_attempt d = hd_attempt h + 1 /\ dr_status d = "resumed" /\ dr_current d = hd_current h;
  ct_current : forall c p, dr_current d = Some c -> hd_current h = Some p -> p <= c;
  ct_unit : hd_unit h <> None -> dr_unit d = hd_unit h;
  ct_total : forall t u, hd_total h = Some t -> dr_total d = Some u -> u = t;
  ct_sequence : seq = hd_last_sequence h + 1 /\ seq <= SAFE_INTEGER_MAX
}.

Lemma next_sequence_ok j d seq :
  next_sequence j d = Ok seq ->
  match j_heads j !! dr_stream_id d with
  | None => seq = 1 /\ dr_attempt d = 1 /\ active_heads (j_heads j) < j_maximum j
  | Some h => continues h d seq
  end.
Proof.
  unfold next_sequence. destruct (j_heads j !! _) as [h|]; intros Hn; ok_inv; bool_simp.
  - subst seq. split; try done; try lia.
    + destruct (dr_attempt d =? hd_attempt h + 1) eqn:Ea; ok_inv; bool_simp.
      * right. split; [lia|done].
      * left. split; [|done]. destruct (dr_attempt d =? hd_attempt h) eqn:Eb; [lia|done].
    + intros c p Hc Hp. rewrite Hc, Hp in *. lia.
    + intros Hu. destruct (hd_unit h) as [u|]; [|done]. cbn in *. by bool_simp.
    + intros t u Ht Hu. rewrite Ht, Hu in *. cbn in *. bool_simp. congruence.
  - repeat split; [done|lia..].
Qed.

(** ** Appending a row *)

Lemma stream_events_append j r h s :
  stream_events (append_row j r h) s =
  stream_events j s ++ (if String.eqb (lev_stream_id (row_event r)) s then [row_event r] else []).
Proof. unfold stream_events, append_row. cbn [j_rows]. rewrite fmap_app.
  exact (filter_snoc (fun e => String.eqb (lev_stream_id e) s) _ (row_event r)). Qed.

Lemma chained_snoc offset previous rows tail r :
  chained offset previous rows tail ->
  row_offset r = offset + Z.of_nat (length rows) -> row_previous r = tail ->
  _chain_digest (row_offset r) tail (row_event r) = Ok (row_chain r) ->
  chained offset previous (rows ++ [r]) (row_chain r).
Proof.
  revert offset previous. induction rows as [|x rows IH]; intros offset previous; cbn [chained app].
  - intros -> Ho Hp Hc. cbn in Ho. rewrite Z.add_0_r in Ho. by rewrite <- Ho.
  - intros (H1 & H2 & H3 & H4) Ho Hp Hc. repeat split; try done. apply IH; try done.
    cbn [length] in Ho. lia.
Qed.

Section Append.
Context (j : journal) (Hj : journal_inv j).
Context (d : EventDraft) (Hd : valid d) (seq : Z) (Hseq : next_sequence j d = Ok seq).
Context (r : row) (Hr : row_ok r).
Context (He : lev_draft (row_event r) = with_attributes [] d) (Hes : lev_stream_sequence (row_event r) = seq).
Let s : string := dr_stream_id d.
Let h' : head := new_head d seq (j_heads j !! s).
Let j' : journal := append_row j r h'.

Lemma event_stream : lev_stream_id (row_event r) = s.
Proof. unfold lev_stream_id. by rewrite He. Qed.
Lemma row_stream : row_stream_id r = s.
Proof. rewrite (ro_stream _ Hr). apply event_stream. Qed.

(** Once a stream is quantified every later draft is. *)
Lemma coalesced_current : hd_current h' = dr_current d /\ hd_unit h' = dr_unit d.
Proof.
  pose proof (valid_draft_facts d Hd) as (_ & _ & Hq & _).
  pose proof (next_sequence_ok j d seq Hseq) as Hc. unfold h', new_head. cbn [hd_current hd_unit]. fold s in Hc.
  destruct (j_heads j !! s) as [h|] eqn:Eh; cbn [mbind option_bind].
  - destruct (ji_heads j Hj s h Eh) as [[_ _ _ Hhq] _].
    pose proof (ct_unit _ _ _ Hc) as Hu.
    destruct (dr_current d) as [c|], (dr_unit d) as [u|]; cbn [or_else].
    + done.
    + by destruct Hq as [_ Hq]; specialize (Hq eq_refl).
    + by destruct Hq as [Hq _]; specialize (Hq eq_refl).
    + destruct (hd_unit h); [by specialize (Hu ltac:(done))|]. split; [by apply Hhq|done].
  - by destruct (dr_current d), (dr_unit d).
Qed.

Lemma new_head_ok : head_ok s h'.
Proof.
  pose proof (valid_draft_facts d Hd) as (Hp & Ha & Hq & _). destruct coalesced_current as [Hcur Hun].
  split; [done| |exact Ha|by rewrite Hcur, Hun].
  pose proof (next_sequence_ok j d seq Hseq) as Hc. cbn [h' new_head hd_last_sequence]. fold s in Hc.
  destruct (j_heads j !! s) as [h|] eqn:Eh.
  - destruct (ct_sequence _ _ _ Hc) as [-> Hle]. destruct (ji_heads j Hj s h Eh) as [[_ Hl _ _] _]. lia.
  - destruct Hc as (-> & _). unfold SAFE_INTEGER_MAX. lia.
Qed.

Lemma new_event_linked e : last (stream_events j s) = Some e -> linked e (row_event r).
Proof.
  intros Hl. assert (stream_events j s <> []) as Hne by (by destruct (stream_events j s)).
  destruct (ji_streams j Hj s Hne) as (h & Eh & [(e0 & He0 & H1 & H2 & H3 & H4 & H5) _ _]).
  rewrite Hl in He0. injection He0 as <-.
  pose proof (next_sequence_ok j d seq Hseq) as Hc. fold s in Hc. rewrite Eh in Hc.
  destruct Hc as [Ho _ Ha Hcur Hu _ [Hsq _]]. rewrite H1 in Hsq. rewrite H2, H4 in Ha.
  destruct (ji_heads j Hj s h Eh) as [[_ _ _ Hhq] _].
  pose proof (valid_draft_facts d Hd) as (_ & _ & Hq & _).
  split.
  - by rewrite Hes.
  - by rewrite <- H3.
  - unfold lev_attempt at 1 3, lev_status, lev_current at 1. rewrite He. exact Ha.
  - intros c Hc. rewrite <- H4 in Hc.
    assert (hd_unit h <> None) as Hun by (intros E; apply Hhq in E; congruence).
    specialize (Hu Hun). unfold lev_current, lev_unit at 1. rewrite He.
    destruct (dr_current d) as [c'|] eqn:Ec.
    + exists c'. split; [done|]. split; [by eapply Hcur|]. by rewrite <- H5.
    + exfalso. apply Hun. rewrite <- Hu. by apply Hq.
Qed.

Lemma new_head_matches : head_matches h' (stream_events j s ++ [row_event r]).
Proof.
  destruct coalesced_current as [Hcur Hun].
  pose proof (next_sequence_ok j d seq Hseq) as Hc. fold s in Hc.
  assert (lev_operation_kind (row_event r) = dr_operation_kind d) as Hk
    by (unfold lev_operation_kind; by rewrite He).
  split.
  - exists (row_event r). rewrite last_snoc. unfold lev_attempt, lev_terminal, lev_current, lev_unit.
    rewrite He, Hes, Hcur, Hun. done.
  - apply Forall_app. unfold h', new_head. cbn [hd_operation_kind].
    destruct (j_heads j !! s) as [h|] eqn:Eh.
    + rewrite (ct_kind _ _ _ Hc). split; [|by repeat constructor].
      destruct (decide (stream_events j s = [])) as [->|Hne]; [constructor|].
      destruct (ji_streams j Hj s Hne) as (h0 & Eh0 & [_ Hks _]). rewrite Eh in Eh0. injection Eh0 as <-.
      by rewrite (ct_kind _ _ _ Hc) in Hks.
    + split; [|by repeat constructor].
      destruct (decide (stream_events j s = [])) as [->|Hne]; [constructor|].
      destruct (ji_streams j Hj s Hne) as (h0 & Eh0 & _). congruence.
  - apply Forall_app. unfold h', new_head. cbn [hd_total]. split.
    + destruct (decide (stream_events j s = [])) as [->|Hne]; [constructor|].
      destruct (ji_streams j Hj s Hne) as (h & Eh & [_ _ Ht]). rewrite Eh in *. cbn [mbind option_bind].
      eapply Forall_impl; [exact Ht|]. intros e Het t Hte. specialize (Het t Hte).
      destruct (dr_total d) as [u|] eqn:Eu; [|done]. cbn. f_equal. by eapply (ct_total _ _ _ Hc).
    + repeat constructor. intros t Ht. unfold lev_total in Ht. rewrite He in Ht. cbn [dr_total with_attributes] in Ht. by rewrite Ht.
Qed.

Lemma append_inv :
  row_offset r = j_last_offset j + 1 -> row_offset r <= SAFE_INTEGER_MAX ->
  row_previous r = j_tail j -> _chain_digest (row_offset r) (j_tail j) (row_event r) = Ok (row_chain r) ->
  find_event j (row_event_id r) = None -> journal_inv j'.
Proof.
  intros Ho Hmax Hprev Hch Hfind. destruct Hj as [Hid Hm Hb Hem Hc Hd2 Hrows Hids Hlk Hst Hhd].
  assert (forall s', stream_events j' s' =
    stream_events j s' ++ (if String.eqb s s' then [row_event r] else [])) as Hse.
  { intros s'. unfold j'. by rewrite stream_events_append, event_stream. }
  set (oldest := if j_oldest_offset j =? 0 then row_offset r else j_oldest_offset j).
  assert (row_offset r = oldest + Z.of_nat (length (j_rows j)) /\ 1 <= oldest) as [Hoff Hold].
  { unfold oldest. destruct (decide (j_rows j = [])) as [E|E].
    - destruct (Hem E) as (Hl & -> & _). rewrite E. cbn. lia.
    - destruct (Hb E) as (? & ? & ?). assert ((j_oldest_offset j =? 0) = false) as -> by lia. lia. }
  split; unfold j', append_row; cbn [j_id j_maximum j_rows j_last_offset j_oldest_offset j_anchor j_tail j_heads].
  - done.
  - done.
  - intros _. rewrite length_app. cbn [length]. lia.
  - intros E. by destruct (j_rows j).
  - apply chained_snoc with (tail := j_tail j); try done.
    destruct (decide (j_rows j = [])) as [E|E].
    + rewrite E in Hc |- *. exact Hc.
    + destruct (Hb E) as (? & _). by assert ((j_oldest_offset j =? 0) = false) as -> by lia.
  - split; [apply Hd2|]. by eapply chain_digest_hex.
  - apply Forall_app. split; [done|]. by constructor; [|constructor].
  - rewrite fmap_app. apply NoDup_app. split; [done|]. split; [|apply NoDup_singleton].
    intros i (q & -> & Hq)%list_elem_of_fmap [Hi|[]%elem_of_nil]%elem_of_cons.
    unfold find_event in Hfind. apply list_elem_of_In in Hq.
    apply (List.find_none _ _ Hfind) in Hq. by apply String.eqb_neq in Hq.
  - intros s'. fold h' j'. rewrite Hse. destruct (String.eqb s s') eqn:E; [|by rewrite app_nil_r].
    apply String.eqb_eq in E as <-. apply adjacent_snoc; [done|]. apply new_event_linked.
  - intros s'. fold h' j'. rewrite Hse, row_stream. destruct (String.eqb s s') eqn:E.
    + apply String.eqb_eq in E as <-. intros _. exists h'. rewrite lookup_insert_eq. split; [done|].
      apply new_head_matches.
    + rewrite app_nil_r. apply String.eqb_neq in E. intros Hne. rewrite lookup_insert_ne by done. auto.
  - intros s' hd. fold h' j'. rewrite Hse, row_stream. destruct (decide (s = s')) as [<-|E].
    + rewrite lookup_insert_eq. intros [= <-]. split; [apply new_head_ok|]. intros _.
      rewrite String.eqb_refl. by destruct (stream_events j s).
    + rewrite lookup_insert_ne by done. intros Hs'. apply String.eqb_neq in E. rewrite E, app_nil_r. auto.
Qed.
End Append.

(** ** Retention *)

Lemma chained_drop n offset previous rows tail r :
  chained offset previous rows tail -> last (take n rows) = Some r ->
  chained (row_offset r + 1) (row_chain r) (drop n rows) tail /\
  row_offset r = offset + Z.of_nat (length (take n rows)) - 1 /\
  fullmatch SHA256_PATTERN (row_chain r) = true.
Proof.
  revert n offset previous. induction rows as [|x rows IH]; intros [|n] offset previous; try done.
  cbn [chained take drop]. intros (H1 & H2 & H3 & H4) Hl.
  destruct (take n rows) as [|y l] eqn:Et.
  - injection Hl as <-. assert (drop n rows = rows) as ->.
    { destruct n, rows; try done. }
    rewrite H1. split; [done|]. split; [cbn; lia|]. by eapply chain_digest_hex.
  - assert (last (take n rows) = Some r) as Hl' by (by rewrite Et).
    destruct (IH n _ _ H4 Hl') as (Hch & Hof & Hx). split; [done|]. split; [|done].
    rewrite Hof, Et. cbn [length]. lia.
Qed.

Lemma stream_events_drop j n s :
  exists m, List.filter (fun e => String.eqb (lev_stream_id e) s) (row_event <$> drop n (j_rows j)) =
            drop m (stream_events j s).
Proof. unfold stream_events. rewrite fmap_drop. apply filter_drop. Qed.

Lemma retained_events rows s :
  Forall row_ok rows ->
  retained rows s = true <->
  List.filter (fun e => String.eqb (lev_stream_id e) s) (row_event <$> rows) <> [].
Proof.
  unfold retained. rewrite existsb_exists. induction 1 as [|r rows Hr _ IH]; cbn.
  - split; [by intros (? & [] & _)|done].
  - rewrite <- (ro_stream _ Hr). destruct (String.eqb (row_stream_id r) s) eqn:E.
    + split; [done|]. intros _. exists r. auto.
    + rewrite <- IH. split; [intros (q & [<-|Hq] & Hs); [congruence|eauto]|intros (q & Hq & Hs); eauto].
Qed.

Lemma head_matches_drop h es m : head_matches h es -> drop m es <> [] -> head_matches h (drop m es).
Proof.
  intros [(e & Hl & H1) Hk Ht] Hne. split.
  - exists e. by rewrite last_drop.
  - by apply Forall_drop.
  - by apply Forall_drop.
Qed.

Lemma retain_ok j : journal_inv j -> journal_ok (retain j).
Proof.
  intros Hj. pose proof Hj as [Hid Hm Hb Hem Hc Hd2 Hrows Hids Hlk Hst Hhd]. unfold retain.
  set (excess := Z.of_nat (length (j_rows j)) - j_maximum j).
  destruct (0 <? excess) eqn:Ex; [|split; [done|lia]].
  set (n := Z.to_nat excess). assert (0 < n < length (j_rows j))%nat as Hn by lia.
  destruct (last (take n (j_rows j))) as [r|] eqn:El.
  2: { apply last_None in El. apply (f_equal length) in El. rewrite length_take in El. cbn in El. lia. }
  destruct (chained_drop _ _ _ _ _ _ Hc El) as (Hcd & Ho & Hhex).
  rewrite length_take in Ho. replace (n `min` length (j_rows j))%nat with n in Ho by lia.
  assert (j_rows j <> []) as Hne by (intros E; rewrite E in Hn; cbn in Hn; lia).
  destruct (Hb Hne) as (Hb1 & Hb2 & Hb3).
  assert (drop n (j_rows j) <> []) as Hdne.
  { intros E. apply (f_equal length) in E. rewrite length_drop in E. cbn in E. lia. }
  split; [|cbn [j_rows j_maximum]; rewrite length_drop; lia].
  assert (forall s, stream_events {| j_id := j_id j; j_maximum := j_maximum j; j_last_offset := j_last_offset j;
    j_oldest_offset := row_offset r + 1; j_anchor := row_chain r; j_tail := j_tail j;
    j_rows := drop n (j_rows j); j_heads := filter (fun p => ~ (hd_terminal p.2 = true /\
      retained (drop n (j_rows j)) p.1 = false)) (j_heads j) |} s =
    List.filter (fun e => String.eqb (lev_stream_id e) s) (row_event <$> drop n (j_rows j))) as Hse by done.
  split; cbn [j_id j_maximum j_rows j_last_offset j_oldest_offset j_anchor j_tail j_heads].
  - done.
  - done.
  - intros _. rewrite length_drop. repeat split; lia.
  - done.
  - done.
  - by split; [|apply Hd2].
  - by apply Forall_drop.
  - rewrite fmap_drop. rewrite <- (take_drop n (row_event_id <$> j_rows j)) in Hids.
    by apply NoDup_app in Hids as (_ & _ & ?).
  - intros s. rewrite Hse. destruct (stream_events_drop j n s) as [m ->]. by apply adjacent_drop.
  - intros s Hs. rewrite Hse in Hs |- *. pose proof Hs as Hret. apply retained_events in Hret; [|by apply Forall_drop].
    destruct (stream_events_drop j n s) as [m Em]. rewrite Em in *.
    assert (stream_events j s <> []) as Hne' by (intros E; by rewrite E, drop_nil in Hs).
    destruct (Hst s Hne') as (h & Hh & Hmt). exists h. split; [|by apply head_matches_drop].
    apply map_lookup_filter_Some. split; [done|]. cbn. intros [_ E]. congruence.
  - intros s h [Hh Hf]%map_lookup_filter_Some. cbn in Hf. split; [by apply Hhd|]. intros Ht.
    rewrite Hse. apply retained_events; [by apply Forall_drop|]. destruct (retained _ s) eqn:E; [done|]. by destruct Hf.
Qed.

(** ** Publishing *)

(** The two ways [publish] returns, with the snapshot it takes of the draft. *)
Lemma publish_cases d0 id fresh_id now j s j' :
  publish d0 id fresh_id now j = Ok (s, j') ->
  let selected := select_id id fresh_id in
  exists d, _snapshot_draft d0 = Ok d /\
  ((exists r, find_event j selected = Some r /\ _draft_digest d = Ok (row_draft_sha256 r) /\ j' = j /\
      st_offset s = row_offset r /\ _event_from_json (row_event_json r) = Ok (st_event s)) \/
   (exists seq r, find_event j selected = None /\ next_sequence j d = Ok seq /\
      build selected seq (rfc3339 now) d = Ok (row_event r) /\ _draft_digest d = Ok (row_draft_sha256 r) /\
      row_offset r = j_last_offset j + 1 /\ row_offset r <= SAFE_INTEGER_MAX /\
      row_previous r = j_tail j /\
      _chain_digest (row_offset r) (j_tail j) (row_event r) = Ok (row_chain r) /\
      row_ok r /\ s = {| st_offset := row_offset r; st_event := row_event r |} /\
      j' = retain (append_row j r (new_head d seq (j_heads j !! dr_stream_id d))))).
Proof.
  intros Hp. unfold publish in Hp. apply bind_ok in Hp as (d & Hsnap & Hp). cbn zeta. exists d. split; [done|].
  ok_step. clear E. ok_step. rename a into digest, E into Hdig.
  destruct (find_event j _) as [r|] eqn:Ef.
  - left. ok_inv. bool_simp. subst. exists r. apply construct_ok in E1 as [_ ->]. cbn. done.
  - right. cbv zeta in Hp. apply bind_ok in Hp as ([] & Hoff%raise_if_ok & Hp). apply bind_ok in Hp as (seq & Hseq & Hp).
    apply bind_ok in Hp as (e & He & Hp). apply bind_ok in Hp as (chain & Hch & Hp). apply bind_ok in Hp as (fields & Hf & Hp).
    apply bind_ok in Hp as (text & Ht & Hp). apply bind_ok in Hp as (st & [_ ->]%construct_ok & [= <- <-]).
    pose proof (build_ok _ _ _ _ _ He) as (Hve & Hde & _).
    assert (_event_from_json text = Ok e) as Hdec by (apply (event_text_decodes e fields); [done|by rewrite Hde|done|done]).
    match goal with |- context [append_row j ?r _] => exists seq, r; assert (row_event r = e) as Er by (unfold row_event; cbn [row_event_json]; by rewrite Hdec) end.
    rewrite Er. cbn [row_offset row_draft_sha256 row_previous row_chain]. split_and!; try done; [lia|].
    split; rewrite ?Er; try done. by rewrite (draft_from_build _ _ _ _ _ _ Hsnap He).
Qed.

Lemma publish_ok d id fresh_id now j s j' :
  journal_ok j -> publish d id fresh_id now j = Ok (s, j') -> journal_ok j'.
Proof.
  intros Hj Hp. destruct (publish_cases _ _ _ _ _ _ _ Hp) as
    (d' & [Hv _]%snapshot_ok & [(r & _ & _ & -> & _)|(seq & r & Hf & Hs & Hb & _ & Ho & Hm & Hpr & Hc & Hr & _ & ->)]); [done|].
  apply build_ok in Hb as (_ & Hd & Hi & Hq & _). apply retain_ok.
  apply append_inv; try done; [apply Hj|by rewrite (ro_id _ Hr), Hi].
Qed.
End Invariant.

(** * What the event journal guarantees

    A journal grown by [publish] always passes [_verify]; a read from a cursor
    returns exactly the next events, so a chain of reads misses and repeats
    nothing; publishing is idempotent in the event identifier; a terminal stream
    is closed; and the progress projection of a retained stream is its stream
    head.  The last guarantee needs the current coordinate to stay within the
    total, which [publish] does not check across events
    ([projection_exceeds_total]). *)


Section Correct.
Context {Tables : PyTables} {Jcs : JCS} {Float : PyFloat} {Laws : JCSLaws}.

(** ** Streams in sequence order *)

Lemma adjacent_mid {A} (R : A -> A -> Prop) l x l2 y :
  adjacent R (l ++ x :: l2) -> last l = Some y -> R y x.
Proof.
  induction l as [|a l IH]; [done|]. destruct l as [|b l]; cbn [app].
  - intros [Hr _] [= ->]. done.
  - intros [_ Ha] Hl. by apply IH.
Qed.

Lemma linked_sorted es : adjacent linked es -> StronglySorted (key_le lev_stream_sequence) es.
Proof.
  induction es as [|e es IH]; [constructor|]. intros Ha. constructor; [by apply IH, (adjacent_tail _ e)|].
  revert e Ha. clear IH. induction es as [|f es IH]; intros e Ha; [constructor|].
  destruct Ha as [[Hs _ _ _] Ha]. assert (key_le lev_stream_sequence e f) as Hef.
  { unfold key_le, key_leb. cbn. lia. }
  constructor; [done|]. eapply Forall_impl; [by apply IH|]. intros g Hg.
  unfold key_le, key_leb in *. cbn in *. lia.
Qed.

Lemma fmap_lfilter {A B} (f : A -> B) (p : B -> bool) l :
  f <$> List.filter (fun x => p (f x)) l = List.filter p (f <$> l).
Proof.
  induction l as [|x l IH]; [done|]. cbn [List.filter]. rewrite fmap_cons. cbn [List.filter].
  destruct (p (f x)); [by rewrite fmap_cons, IH|done].
Qed.

Lemma stream_rows_filter rows s : Forall row_ok rows ->
  List.filter (fun r => String.eqb (row_stream_id r) s) rows =
  List.filter (fun r => String.eqb (lev_stream_id (row_event r)) s) rows.
Proof. induction 1 as [|r rows Hr _ IH]; [done|]. cbn [List.filter]. by rewrite (ro_stream _ Hr), IH. Qed.

Lemma sorted_ext {A K} `{PyOrd K} (f g : A -> K) l :
  Forall (fun x => f x = g x) l -> StronglySorted (key_le f) l -> StronglySorted (key_le g) l.
Proof.
  induction 1 as [|x l Hx Hl IH]; [constructor|]. intros [Hs Hf]%StronglySorted_inv. constructor; [auto|].
  rewrite Forall_forall in Hl, Hf |- *. intros y Hy. specialize (Hf y Hy). unfold key_le, key_leb in *. by rewrite <- Hx, <- (Hl y Hy).
Qed.

Lemma stream_rows_events j s :
  journal_inv j -> row_event <$> stream_rows j s = stream_events j s /\
    Forall (fun r => r ∈ j_rows j) (stream_rows j s).
Proof.
  intros Hj. unfold stream_rows. rewrite (stream_rows_filter _ _ (ji_rows j Hj)). set (l := List.filter _ _).
  assert (Forall (fun r => r ∈ j_rows j) l) as Hin.
  { apply Forall_forall. intros r Hr. apply list_elem_of_In, List.filter_In in Hr as [Hr _]. by apply list_elem_of_In. }
  assert (row_event <$> l = stream_events j s) as E by exact (fmap_lfilter row_event (fun e => String.eqb (lev_stream_id e) s) (j_rows j)).
  rewrite sorted_by_id; [done|]. apply (sorted_ext (fun r => lev_stream_sequence (row_event r))).
  - eapply Forall_impl; [exact Hin|]. intros r Hr. pose proof (ji_rows j Hj) as Hrows. rewrite Forall_forall in Hrows.
    by rewrite (ro_sequence _ (Hrows r Hr)).
  - apply (sorted_fmap row_event lev_stream_sequence). rewrite E. apply linked_sorted, ji_linked, Hj.
Qed.

Lemma last_fmap {A B} (f : A -> B) l : last (f <$> l) = f <$> last l.
Proof. induction l as [|x [|y l] IH]; [done..|]. exact IH. Qed.

(** ** Verification *)

Lemma verify_rows rows pre st tail :
  chained (vs_expected st) (vs_previous st) rows tail ->
  (forall s, vs_sequences st !! s =
     lev_stream_sequence <$> last (List.filter (fun e => String.eqb (lev_stream_id e) s) (row_event <$> pre))) ->
  (forall s, adjacent linked (List.filter (fun e => String.eqb (lev_stream_id e) s) (row_event <$> (pre ++ rows)))) ->
  Forall row_ok rows ->
  exists st', fold_result verify_row rows st = Ok st' /\ vs_previous st' = tail /\
    forall s, vs_sequences st' !! s = lev_stream_sequence <$>
      last (List.filter (fun e => String.eqb (lev_stream_id e) s) (row_event <$> (pre ++ rows))).
Proof.
  revert pre st. induction rows as [|r rows IH]; intros pre st Hc Hs Ha Hr.
  - exists st. rewrite app_nil_r. done.
  - destruct Hc as (H1 & H2 & H3 & H4). apply Forall_cons in Hr as [Hr Hrs].
    set (s := lev_stream_id (row_event r)).
    set (st1 := {| vs_previous := row_chain r; vs_expected := vs_expected st + 1;
      vs_sequences := <[s := lev_stream_sequence (row_event r)]> (vs_sequences st) |}).
    assert (verify_row st r = Ok st1) as Hstep.
    { unfold verify_row. rewrite H1, Z.eqb_refl. cbn [negb raise_if mbind result_bind].
    rewrite (ro_decodes _ Hr). cbn [mbind result_bind].
    rewrite (ro_id _ Hr), (ro_digest _ Hr), (ro_stream _ Hr), (ro_sequence _ Hr), (ro_occurred _ Hr), !String.eqb_refl, Z.eqb_refl.
    cbn [negb orb raise_if mbind result_bind]. pose proof (ro_draft _ Hr) as (d & Hdraft & Hd)%bind_ok. rewrite Hdraft. cbn [mbind result_bind]. rewrite Hd.
    cbn [mbind result_bind]. rewrite String.eqb_refl. cbn [negb raise_if mbind result_bind].
    fold s. assert (match vs_sequences st !! s with
            | Some prior => negb (lev_stream_sequence (row_event r) =? prior + 1) | None => false end = false) as ->.
    { rewrite Hs. destruct (last _) as [e|] eqn:El; [|done]. cbn [fmap option_fmap option_map].
      specialize (Ha s). rewrite fmap_app, fmap_cons, List.filter_app in Ha. cbn [List.filter] in Ha.
      fold s in Ha. rewrite String.eqb_refl in Ha.
      destruct (adjacent_mid _ _ _ _ _ Ha El) as [-> _ _ _]. lia. }
    rewrite H2, String.eqb_refl. cbn [negb raise_if mbind result_bind]. rewrite H3.
    cbn [mbind result_bind]. by rewrite String.eqb_refl. }
    destruct (IH (pre ++ [r]) st1) as (st' & Hst & Ht & Hq); try done.
    + intros s'. subst st1. cbn [vs_sequences]. rewrite fmap_app, List.filter_app. cbn [fmap list_fmap List.filter].
      fold s. destruct (decide (s = s')) as [<-|Hne].
      * by rewrite lookup_insert_eq, String.eqb_refl, last_snoc.
      * rewrite lookup_insert_ne by done. apply String.eqb_neq in Hne as ->. by rewrite app_nil_r.
    + intros s'. rewrite <- app_assoc. apply Ha.
    + exists st'. cbn [fold_result]. rewrite Hstep. split; [done|]. split; [done|].
      intros s'. rewrite Hq, <- app_assoc. done.
Qed.

Lemma verify_head_ok j s h :
  journal_inv j -> j_heads j !! s = Some h -> verify_head j (s, h) = Ok tt.
Proof.
  intros Hj Hh. destruct (ji_heads j Hj s h Hh) as [[Hp Hsq Hat _] Hterm].
  destruct (stream_rows_events j s Hj) as [Hev Hin].
  unfold verify_head. cbn [fst snd]. rewrite Hp. cbn [negb raise_if mbind result_bind].
  assert (in_safe 1 (hd_last_sequence h) = true /\ in_safe 1 (hd_attempt h) = true) as [-> ->]
    by (unfold in_safe; lia).
  cbn [negb orb raise_if mbind result_bind].
  destruct (last (stream_rows j s)) as [r|] eqn:El.
  - assert (last (stream_events j s) = Some (row_event r)) as Hl by (by rewrite <- Hev, last_fmap, El).
    assert (row_ok r) as Hr.
    { pose proof (ji_rows j Hj) as Hrows. rewrite Forall_forall in Hrows, Hin.
      apply Hrows, Hin. by apply last_Some_elem_of. }
    rewrite (ro_decodes _ Hr). cbn [mbind result_bind].
    assert (stream_events j s <> []) as Hne by (by destruct (stream_events j s)).
    destruct (ji_streams j Hj s Hne) as (h0 & Eh0 & [(e & He & H1 & H2 & H3 & H4 & H5) Hk Ht]).
    rewrite Hh in Eh0. injection Eh0 as <-. rewrite Hl in He. injection He as <-.
    assert (row_event r ∈ stream_events j s) as Hmem by (by apply last_Some_elem_of).
    rewrite Forall_forall in Hk, Ht. rewrite (Hk _ Hmem), H1, H2, H3, H4, H5, String.eqb_refl, !Z.eqb_refl.
    assert (is_some (lev_total (row_event r)) && negb (bool_decide (hd_total h = lev_total (row_event r)))
      = false) as ->.
    { destruct (lev_total (row_event r)) as [t|] eqn:Et; [|done].
      by rewrite (Ht _ Hmem t Et), bool_decide_eq_true_2. }
    apply raise_if_ok. rewrite Bool.eqb_reflx, !bool_decide_eq_true_2 by done.
    by rewrite !andb_false_r.
  - apply raise_if_ok. destruct (hd_terminal h); [|done]. exfalso. apply Hterm; [done|].
    apply last_None in El. by rewrite <- Hev, El.
Qed.

Lemma verify_ok j : journal_ok j -> _verify j (Some (j_maximum j)) = Ok tt.
Proof.
  intros [Hj Hret]. pose proof Hj as [[Hi1 Hi2] Hm Hb Hem Hc [Hd1 Hd2] Hrows _ Hlk Hst Hhd].
  unfold _verify. rewrite Hi1, Hi2, Hd1, Hd2, Z.eqb_refl.
  assert ((1 <=? j_maximum j) && (j_maximum j <=? 1000000) = true) as -> by lia.
  assert ((j_maximum j <? Z.of_nat (length (j_rows j))) = false) as -> by lia.
  assert (in_safe 0 (j_last_offset j) = true /\ in_safe 0 (j_oldest_offset j) = true) as [-> ->].
  { unfold in_safe. destruct (decide (j_rows j = [])) as [E|E].
    - destruct (Hem E) as (-> & -> & _). done.
    - destruct (Hb E) as (? & ? & ?). assert (0 < Z.of_nat (length (j_rows j))) by (destruct (j_rows j); cbn; [done|lia]).
      lia. }
  cbn [negb orb raise_if mbind result_bind].
  destruct (j_rows j) as [|first rows] eqn:Er.
  - destruct (Hem eq_refl) as (-> & -> & -> & -> & ->). done.
  - destruct (last (first :: rows)) as [final|] eqn:El; [|by apply last_None in El].
    destruct (Hb ltac:(done)) as (Hb1 & Hb2 & Hb3).
    assert (row_offset final = j_last_offset j) as ->.
    { assert (take (length (first :: rows)) (first :: rows) = first :: rows) as Et by apply firstn_all.
      rewrite <- Et in El. destruct (chained_drop _ _ _ _ _ _ Hc El) as (_ & Ho & _). rewrite Et in Ho. lia. }
    pose proof Hc as (Hf & _). rewrite Hf, !Z.eqb_refl. cbn [negb orb raise_if mbind result_bind].
    destruct (verify_rows (first :: rows) [] {| vs_previous := j_anchor j; vs_expected := j_oldest_offset j;
      vs_sequences := ∅ |} (j_tail j)) as (st & -> & Ht & Hq).
    { exact Hc. }
    { intros s. apply lookup_empty. }
    { intros s. specialize (Hlk s). unfold stream_events in Hlk. by rewrite Er in Hlk. }
    { done. }
    cbn [mbind result_bind]. rewrite Ht, String.eqb_refl. cbn [negb raise_if mbind result_bind].
    apply bind_unit_intro.
    + apply for_each_ok, Forall_forall. intros [s h] Hin%elem_of_sorted_by.
      apply elem_of_map_to_list in Hin. by apply verify_head_ok.
    + apply raise_if_ok, existsb_false, Forall_forall. intros [s q] Hin. apply elem_of_map_to_list in Hin.
      rewrite Hq in Hin. cbn [app fst] in Hin |- *. destruct (Hst s) as (h & -> & _); [|done].
      unfold stream_events. rewrite Er. intros E. by rewrite E in Hin.
Qed.

Inductive reachable (maximum : Z) : journal -> Prop :=
| reach_open journal_id j : open journal_id maximum = Ok j -> reachable maximum j
| reach_publish draft event_id fresh_id now j s j' :
    reachable maximum j -> publish draft event_id fresh_id now j = Ok (s, j') -> reachable maximum j'.

Lemma retain_maximum j : j_maximum (retain j) = j_maximum j.
Proof. unfold retain. destruct (_ <? _); [|done]. by destruct (last _). Qed.

Lemma publish_maximum d id fresh_id now j s j' :
  publish d id fresh_id now j = Ok (s, j') -> j_maximum j' = j_maximum j.
Proof.
  intros (d' & _ & [(r & _ & _ & -> & _)|(seq & r & _ & _ & _ & _ & _ & _ & _ & _ & _ & _ & ->)])%publish_cases; [done|].
  by rewrite retain_maximum.
Qed.

Lemma reachable_ok maximum j : reachable maximum j -> journal_ok j /\ j_maximum j = maximum.
Proof.
  induction 1 as [journal_id j Ho|d id fresh_id now j s j' _ [IH Hm] Hp].
  - unfold open in Ho. ok_inv. subst. unfold _verify in E0. ok_inv. bool_simp. split.
    + eapply open_new_ok; [|exact E].
      unfold open_new in E. ok_inv. subst. done.
    + by destruct (j_maximum j =? maximum) eqn:Em; [lia|].
  - split; [by eapply publish_ok|]. by rewrite (publish_maximum _ _ _ _ _ _ _ Hp).
Qed.

(** ** Reads *)

Lemma chained_filter offset previous rows tail q :
  chained offset previous rows tail -> offset - 1 <= q ->
  List.filter (fun r => q <? row_offset r) rows = drop (Z.to_nat (q + 1 - offset)) rows.
Proof.
  revert offset previous. induction rows as [|r rows IH]; intros offset previous; [by rewrite drop_nil|].
  intros (Ho & _ & _ & Hc) Hq. cbn [List.filter]. rewrite Ho.
  destruct (q <? offset) eqn:E.
  - assert (q + 1 - offset = 0) as -> by lia. cbn [Z.to_nat drop]. f_equal.
    rewrite (List.forallb_filter_id (fun r => q <? row_offset r) rows); [done|].
    apply forallb_forall. clear IH Ho Hq. revert offset E Hc. generalize (row_chain r) as p. clear r.
    induction rows as [|r rows IH]; intros p offset E Hc x Hx; [done|].
    destruct Hc as (Ho & _ & _ & Hc). destruct Hx as [<-|Hx]; [lia|].
    apply (IH _ (offset + 1)) with (x := x) in Hc; [done|lia|done].
  - replace (Z.to_nat (q + 1 - offset)) with (S (Z.to_nat (q + 1 - (offset + 1)))) by lia.
    cbn [drop]. apply (IH _ _ Hc). lia.
Qed.

Lemma stored_ok r :
  row_ok r -> 1 <= row_offset r <= SAFE_INTEGER_MAX ->
  stored r = Ok {| st_offset := row_offset r; st_event := row_event r |}.
Proof.
  intros Hr Ho. unfold stored. rewrite (ro_decodes _ Hr). cbn [mbind result_bind].
  apply construct_valid. unfold valid, post_init, StoredEvent_post_init, Ev._require_safe_integer.
  apply raise_if_ok. cbn [st_offset]. lia.
Qed.

Lemma chained_offset offset previous rows tail i r :
  chained offset previous rows tail -> rows !! i = Some r -> row_offset r = offset + Z.of_nat i.
Proof.
  revert offset previous i. induction rows as [|x rows IH]; intros offset previous [|i]; try done.
  - intros (Ho & _) [= <-]. lia.
  - intros (_ & _ & _ & Hc) Hl. rewrite (IH _ _ i Hc Hl). lia.
Qed.

Lemma map_result_all {A B} (f : A -> result B) (g : A -> B) l :
  Forall (fun x => f x = Ok (g x)) l -> map_result f l = Ok (g <$> l).
Proof.
  intros Hl. apply map_result_ok. apply Forall2_fmap_r, Forall_Forall2_diag. done.
Qed.

Definition stored_of (r : row) : StoredEvent := {| st_offset := row_offset r; st_event := row_event r |}.

Lemma offsets_contiguous offset previous rows tail k m :
  chained offset previous rows tail -> (k <= length rows)%nat ->
  st_offset <$> (stored_of <$> take m (drop k rows)) =
  zrange (offset + Z.of_nat k) (length (take m (drop k rows))).
Proof.
  intros Hc Hk. apply list_eq. intros i. unfold zrange. rewrite !list_lookup_fmap.
  destruct (decide (i < length (take m (drop k rows)))%nat) as [Hi|Hi].
  - destruct (take m (drop k rows) !! i) as [r|] eqn:Er; [|apply lookup_ge_None in Er; lia].
    rewrite lookup_seq_lt by lia. cbn. f_equal.
    apply lookup_take_Some in Er as [Er _]. rewrite lookup_drop in Er.
    rewrite (chained_offset _ _ _ _ _ _ Hc Er). lia.
  - rewrite lookup_seq_ge by lia. rewrite lookup_ge_None_2 by lia. done.
Qed.

(** The rows a read from offset [q] selects. *)
Definition after_offset (j : journal) (q : Z) : list row := drop (Z.to_nat (q + 1 - j_oldest_offset j)) (j_rows j).

Definition within (j : journal) (q : Z) : Prop :=
  0 <= q <= j_last_offset j /\ j_oldest_offset j - 1 <= q.

Lemma batch_valid j q next sel more jid :
  journal_inv j -> next = q + Z.of_nat (length sel) ->
  sel = [] \/ (exists k m, sel = take m (drop k (j_rows j)) /\ (k <= length (j_rows j))%nat /\
    q = j_oldest_offset j + Z.of_nat k - 1) ->
  valid {| bat_cursor := {| cur_journal_id := jid; cur_offset := next |};
           bat_events := stored_of <$> sel; bat_oldest := zero_none (j_oldest_offset j);
           bat_newest := zero_none (j_last_offset j); bat_has_more := more |}.
Proof.
  intros Hj Hnext Hsel. pose proof Hj as [_ _ Hb Hem Hc _ _ _ _ _ _].
  unfold valid, post_init, EventBatch_post_init.
  cbn [bat_cursor bat_events bat_oldest bat_newest cur_offset].
  assert (j_oldest_offset j = 0 /\ j_last_offset j = 0 \/
    1 <= j_oldest_offset j <= j_last_offset j /\ j_last_offset j <= SAFE_INTEGER_MAX) as Hcase.
  { destruct (decide (j_rows j = [])) as [E|E]; [left|right].
    - by destruct (Hem E) as (-> & -> & _).
    - destruct (Hb E) as (? & ? & ?).
      assert (length (j_rows j) <> 0)%nat by (by intros Hz%nil_length_inv). lia. }
  unfold zero_none. apply bind_unit_intro; [|apply bind_unit_intro].
  - apply raise_if_ok. destruct Hcase as [[-> ->]|[? ?]]; [done|].
    assert ((j_oldest_offset j =? 0) = false) as -> by lia.
    assert ((j_last_offset j =? 0) = false) as -> by lia. done.
  - destruct Hcase as [[-> ->]|[? ?]]; [done|].
    assert ((j_oldest_offset j =? 0) = false) as -> by lia.
    assert ((j_last_offset j =? 0) = false) as -> by lia. unfold Ev._require_safe_integer.
    ok_intro; cbn -[SAFE_INTEGER_MAX Z.leb Z.ltb]; lia.
  - destruct Hsel as [->|(k & m & -> & Hk & ->)]; [done|].
    pose proof (offsets_contiguous _ _ _ _ k m Hc Hk) as Ho.
    set (l := take m (drop k (j_rows j))) in *.
    destruct (st_offset <$> (stored_of <$> l)) as [|first rest] eqn:El; [done|].
    assert (length l = length (first :: rest)) as Hlen.
    { apply (f_equal length) in El. by rewrite !length_fmap in El. }
    rewrite Hlen in Ho, Hnext. apply bind_unit_intro; apply raise_if_ok.
    + apply negb_false_iff, bool_decide_eq_true. rewrite Ho at 1. f_equal.
      apply (f_equal (fun l => l !! 0%nat)) in Ho. cbn in Ho. injection Ho as ->. lia.
    + apply negb_false_iff, Z.eqb_eq. rewrite Ho, Hnext. unfold zrange. cbn [length].
      rewrite seq_S, fmap_app. cbn [fmap list_fmap]. rewrite List.last_last. lia.
Qed.

Lemma read_ok j c n :
  journal_ok j -> cur_journal_id c = j_id j -> within j (cur_offset c) -> 1 <= n <= 10000 ->
  exists b, read j (Some c) n = Ok b /\
    bat_events b = stored_of <$> take (Z.to_nat n) (after_offset j (cur_offset c)) /\
    cur_journal_id (bat_cursor b) = j_id j /\
    cur_offset (bat_cursor b) = cur_offset c + Z.of_nat (length (bat_events b)) /\
    bat_has_more b = (cur_offset (bat_cursor b) <? j_last_offset j).
Proof.
  intros [Hj _] Hid [Hq Hold] Hn. pose proof Hj as [[Hi1 Hi2] Hm Hb Hem Hc _ Hrows _ _ _ _].
  set (q := cur_offset c) in *. unfold read.
  assert ((1 <=? n) && (n <=? 10000) = true) as -> by lia.
  rewrite Hid, String.eqb_refl. cbn [negb raise_if mbind result_bind]. fold q.
  assert (negb (j_oldest_offset j =? 0) && (q <? j_oldest_offset j - 1) = false) as -> by lia.
  assert ((j_last_offset j <? q) = false) as -> by lia. cbn [raise_if mbind result_bind].
  assert (List.filter (fun r => q <? row_offset r) (j_rows j) = after_offset j q) as ->
    by (by eapply chained_filter).
  set (k := Z.to_nat (q + 1 - j_oldest_offset j)).
  assert (j_rows j = [] /\ j_last_offset j = 0 /\ q = 0 \/ j_rows j <> [] /\ (k <= length (j_rows j))%nat /\
    q = j_oldest_offset j + Z.of_nat k - 1 /\ 1 <= j_oldest_offset j /\
    j_last_offset j = q + Z.of_nat (length (after_offset j q)) /\ j_last_offset j <= SAFE_INTEGER_MAX) as Hcase.
  { destruct (decide (j_rows j = [])) as [E|E]; [left|right].
    - destruct (Hem E) as (E1 & _). split; [done|]. split; [done|lia].
    - destruct (Hb E) as (? & ? & ?). unfold after_offset. fold k. rewrite length_drop. split; [done|]. unfold k. lia. }
  rewrite take_take. replace (Z.to_nat n `min` S (Z.to_nat n))%nat with (Z.to_nat n) by lia.
  set (sel := take (Z.to_nat n) (after_offset j q)).
  assert (map_result stored sel = Ok (stored_of <$> sel)) as ->.
  { apply map_result_all, Forall_forall. intros r Hr. unfold sel, after_offset in Hr. fold k in Hr.
    apply list_elem_of_lookup in Hr as [i Hr]. apply lookup_take_Some in Hr as [Hr _].
    rewrite lookup_drop in Hr. pose proof (chained_offset _ _ _ _ _ _ Hc Hr) as Ho.
    apply lookup_lt_Some in Hr as Hlt. apply list_elem_of_lookup_2 in Hr. rewrite Forall_forall in Hrows.
    apply stored_ok; [auto|]. destruct Hcase as [(E & _)|(_ & _ & _ & ? & ? & ?)];
      [by rewrite E in Hr; apply elem_of_nil in Hr|].
    destruct (Hb ltac:(intros E; rewrite E in Hlt; cbn in Hlt; lia)) as (? & ? & ?). lia. }
  cbn [mbind result_bind].
  set (next := match last (stored_of <$> sel) with Some e => st_offset e | None => q end).
  assert (next = q + Z.of_nat (length sel)) as Hnext.
  { unfold next. rewrite last_fmap. destruct (last sel) as [r|] eqn:El; cbn.
    - rewrite last_lookup in El. apply lookup_lt_Some in El as Hlt. unfold sel, after_offset in El. fold k in El.
      apply lookup_take_Some in El as [El _]. rewrite lookup_drop in El.
      fold (after_offset j q) in El. rewrite (chained_offset _ _ _ _ _ _ Hc El). fold sel.
      destruct Hcase as [(E & _)|(_ & _ & ? & _)]; [by rewrite E in El|]. change (take (Z.to_nat n) (drop k (j_rows j))) with sel. lia.
    - apply last_None in El. rewrite El. cbn. lia. }
  assert (next <= j_last_offset j) as Hle.
  { rewrite Hnext. assert (length sel <= length (after_offset j q))%nat as Hlen
      by (unfold sel; rewrite length_take; lia).
    destruct Hcase as [(E & E1 & E2)|(_ & _ & _ & _ & E1 & _)]; rewrite E1; [|lia].
    assert (after_offset j q = []) as E3 by (unfold after_offset; by rewrite E, drop_nil).
    rewrite E3 in Hlen. cbn in Hlen. lia. }
  assert (j_last_offset j <= SAFE_INTEGER_MAX) as Hsafe.
  { destruct Hcase as [(_ & -> & _)|(_ & _ & _ & _ & _ & ?)]; [unfold SAFE_INTEGER_MAX; lia|done]. }
  rewrite construct_valid.
  2: { unfold valid, post_init, EventCursor_post_init, Ev._require_identifier, Ev._require_safe_integer.
       cbn [cur_journal_id cur_offset]. rewrite Hi2. cbn [negb raise_if mbind result_bind].
       unfold JOURNAL_ID_PREFIX in Hi1. assert (str_startswith (j_id j) ("opid:v1:" +:+ "event-journal" +:+ ":u7:")
         = true) as -> by exact Hi1. cbn [negb raise_if mbind result_bind]. apply raise_if_ok.
       assert (0 <= next) by lia. lia. }
  cbn [mbind result_bind]. rewrite construct_valid.
  2: { eapply batch_valid; [exact Hj|exact Hnext|]. fold k.
       destruct Hcase as [(E & _)|(? & ? & ? & _)]; [left|right].
       - unfold sel, after_offset. by rewrite E, drop_nil, take_nil.
       - exists k, (Z.to_nat n). split; [done|]. split; [done|]. lia. }
  eexists. split; [done|]. cbn [bat_events bat_cursor cur_journal_id cur_offset bat_has_more].
  split; [done|]. split; [done|]. rewrite length_fmap. split; [done|].
  rewrite Hnext. unfold sel. rewrite !length_take.
  apply Bool.eq_true_iff_eq. rewrite !Z.ltb_lt.
  destruct Hcase as [(E & E1 & E2)|(_ & _ & _ & _ & E1 & _)]; rewrite E1; [|lia].
  assert (after_offset j q = []) as -> by (unfold after_offset; by rewrite E, drop_nil).
  cbn [length]. lia.
Qed.
End Correct.
