(* ===== verification/JournalTheorems.v ===== *)
(** * The journal's theorems

    Draining a journal, idempotent publishing, closed terminal streams, and the
    projection of a retained stream, with concrete journals that show the
    hypotheses can hold. *)

From S2P Require Export JournalInvariant.
Import Ev.

(** ** Draining: a client that reads batch after batch until nothing is left *)

Section Drain.
Context {Tables : PyTables} {Jcs : JCS} {Float : PyFloat} {Laws : JCSLaws}.

Fixpoint drain (fuel : nat) (j : journal) (c : EventCursor) (n : Z) : result (list StoredEvent * EventCursor) :=
  match fuel with
  | O => Raise (OtherException "RuntimeError" "out of fuel")
  | S fuel =>
      '(b, next) ← next_batch j (Some c) n;
      if bat_has_more b then
        '(es, c') ← drain fuel j (bat_cursor b) n; Ok (bat_events b ++ es, c')
      else Ok (bat_events b, bat_cursor b)
  end.

Lemma drain_all fuel j c n :
  journal_ok j -> cur_journal_id c = j_id j -> within j (cur_offset c) -> 1 <= n <= 10000 ->
  (length (after_offset j (cur_offset c)) < fuel)%nat ->
  drain fuel j c n = Ok (stored_of <$> after_offset j (cur_offset c),
    {| cur_journal_id := j_id j; cur_offset := j_last_offset j |}).
Proof.
  intros Hj. revert c. induction fuel as [|fuel IH]; intros c Hid Hw Hn Hf; [lia|].
  cbn [drain]. unfold next_batch. destruct (read_ok j c n Hj Hid Hw Hn) as (b & -> & Hev & Hbid & Hbo & Hmore).
  cbn [mbind result_bind]. rewrite Hmore. set (q := cur_offset c) in *.
  assert (length (bat_events b) = length (take (Z.to_nat n) (after_offset j q))) as Hlen
    by (by rewrite Hev, length_fmap).
  assert (j_last_offset j = q + Z.of_nat (length (after_offset j q)) /\ j_oldest_offset j - 1 <= q) as [Hend Hq].
  { destruct Hw as [Hw1 Hw2]. split; [|done]. destruct Hj as [Hj _].
    unfold after_offset. rewrite length_drop. destruct (decide (j_rows j = [])) as [E|E].
    - destruct (ji_empty _ Hj E) as (E1 & _). rewrite E. cbn [length]. lia.
    - destruct (ji_bounds _ Hj E) as (? & ? & ?). lia. }
  rewrite length_take in Hlen. rewrite Hbo.
  destruct (q + Z.of_nat (length (bat_events b)) <? j_last_offset j) eqn:El.
  - assert (length (after_offset j q) > Z.to_nat n)%nat as Hgt by lia.
    assert (after_offset j (cur_offset (bat_cursor b)) = drop (Z.to_nat n) (after_offset j q)) as Hnext.
    { unfold after_offset. rewrite drop_drop. f_equal. rewrite Hbo. lia. }
    assert (within j (cur_offset (bat_cursor b))) as Hw' by (destruct Hw; split; lia).
    rewrite (IH (bat_cursor b) Hbid Hw' Hn) by (rewrite Hnext, length_drop; lia).
    cbn [mbind result_bind]. rewrite Hnext, Hev. do 2 f_equal.
    rewrite <- fmap_app. by rewrite take_drop.
  - assert (length (after_offset j q) <= Z.to_nat n)%nat as Hle by lia.
    rewrite Hev, take_ge by lia. do 2 f_equal. destruct (bat_cursor b) as [i o]. cbn in *.
    f_equal; [done|lia].
Qed.

(** ** Idempotence *)

Lemma find_event_row j r : NoDup (row_event_id <$> j_rows j) -> r ∈ j_rows j -> find_event j (row_event_id r) = Some r.
Proof.
  unfold find_event. induction (j_rows j) as [|x l IH]; [by intros _ ?%elem_of_nil|].
  rewrite fmap_cons. intros [Hn Hd]%NoDup_cons [->|Hin]%elem_of_cons; cbn.
  - by rewrite String.eqb_refl.
  - destruct (String.eqb _ _) eqn:E; [|auto]. apply String.eqb_eq in E. exfalso. apply Hn.
    rewrite E. by apply list_elem_of_fmap_2.
Qed.

Lemma retain_keeps_last j r :
  last (j_rows j) = Some r -> 1 <= j_maximum j -> r ∈ j_rows (retain j).
Proof.
  intros Hl Hm. unfold retain. destruct (_ <? _) eqn:E; [|by apply last_Some_elem_of].
  destruct (last (take _ _)); [|by apply last_Some_elem_of]. cbn [j_rows].
  apply last_Some_elem_of. rewrite last_drop; [done|].
  intros Ed. apply (f_equal length) in Ed. rewrite length_drop in Ed. cbn [length] in Ed. lia.
Qed.

Lemma publish_row_ok j d0 id fresh_id now s j' :
  journal_ok j -> publish d0 id fresh_id now j = Ok (s, j') ->
  exists d r, _snapshot_draft d0 = Ok d /\ r ∈ j_rows j' /\ s = stored_of r /\ row_event_id r = select_id id fresh_id /\
    _draft_digest d = Ok (row_draft_sha256 r) /\ row_ok r.
Proof.
  intros Hj Hp. pose proof (publish_ok _ _ _ _ _ _ _ Hj Hp) as [Hj' _].
  pose proof (ji_rows _ Hj') as Hrows. rewrite Forall_forall in Hrows.
  apply publish_cases in Hp as (d & Hsnap & [(r & Hf & Hd & -> & Ho & He)|
    (seq & r & Hf & Hs & Hb & Hd & Ho & Hm & Hpr & Hc & Hr & -> & ->)]); exists d, r; (split; [done|]).
  - apply List.find_some in Hf as [Hin Hid]. apply list_elem_of_In in Hin. apply String.eqb_eq in Hid.
    split; [done|]. rewrite (ro_decodes _ (Hrows _ Hin)) in He. injection He as He.
    split; [|by auto]. unfold stored_of. destruct s. cbn in *. by subst.
  - apply build_ok in Hb as (_ & _ & Hi & _). split; [|split; [done|]].
    + apply retain_keeps_last; [cbn [j_rows append_row]; by rewrite last_snoc|]. cbn [j_maximum append_row].
      apply (ji_maximum _ (jo_inv _ Hj)).
    + split; [by rewrite (ro_id _ Hr)|done].
Qed.
End Drain.

(** ** Projections *)

Section Projection.
Context {Tables : PyTables} {Jcs : JCS} {Float : PyFloat} {Laws : JCSLaws}.

(** The total a stream settled on: the last one any event carries. *)
Definition settled_total (es : list LifecycleEvent) : option Z :=
  foldl (fun acc e => or_else (lev_total e) acc) None es.

(** The loop state of [project] after the events up to [e]. *)
Record projected (st : projection_state) (e : LifecycleEvent) (total : option Z) : Prop := {
  pj_expected : ps_expected st = lev_stream_sequence e + 1;
  pj_terminal : ps_terminal_seen st = lev_terminal e;
  pj_current : ps_last_current st = lev_current e;
  pj_unit : ps_last_unit st = lev_unit e;
  pj_attempt : ps_last_attempt st = lev_attempt e;
  pj_total : ps_last_total st = total;
  pj_samples : Forall (fun e => valid e /\ lev_current e <> None) (ps_samples st);
  pj_none : ps_last_current st = None -> ps_samples st = [] /\ ps_last_total st = None
}.

Lemma valid_event_facts e : valid e ->
  (lev_current e = None <-> lev_unit e = None) /\ (lev_current e = None -> lev_total e = None).
Proof. intros (attributes & Hv%valid_draft_facts)%valid_event_draft. cbn in Hv. tauto. Qed.

Lemma project_step_linked st e e' total :
  projected st e total -> linked e e' -> valid e -> valid e' ->
  (forall t u, total = Some t -> lev_total e' = Some u -> u = t) ->
  exists st', project_step st e' = Ok st' /\ projected st' e' (or_else (lev_total e') total).
Proof.
  intros [P1 P2 P3 P4 P5 P6 P7 P8] [L1 L2 L3 L4] Hv Hv' Ht.
  destruct (valid_event_facts e Hv) as [Hq _]. destruct (valid_event_facts e' Hv') as [Hq' Hn'].
  unfold project_step. rewrite P1, P2, P3, P4, P5, P6, L1, Z.eqb_refl, L2. cbn [negb raise_if mbind result_bind].
  assert ((lev_attempt e' <? lev_attempt e) || (lev_attempt e + 1 <? lev_attempt e') = false) as -> by lia.
  cbn [raise_if mbind result_bind].
  assert ((if lev_attempt e <? lev_attempt e'
     then raise_if (negb (String.eqb (lev_status e') "resumed"))
            (EventModelError "a new progress attempt must begin with resumed status") ;;
          raise_if (negb (bool_decide (lev_current e' = lev_current e)))
            (EventModelError "resumed progress must start at the prior durable coordinate")
     else Ok tt) = Ok tt) as ->.
  { destruct (_ <? _) eqn:E; [|done]. destruct L3 as [[? _]|(_ & -> & ->)]; [lia|].
    by rewrite bool_decide_eq_true_2. }
  cbn [mbind result_bind].
  set (att := if lev_attempt e <? lev_attempt e' then lev_attempt e' else lev_attempt e).
  assert (att = lev_attempt e') as -> by (unfold att; destruct (_ <? _) eqn:E; lia).
  set (samples := if lev_attempt e <? lev_attempt e' then [] else ps_samples st).
  assert (Forall (fun e => valid e /\ lev_current e <> None) samples) as Hs
    by (unfold samples; by destruct (_ <? _)).
  destruct (lev_current e') as [c'|] eqn:Ec'.
  - assert (match lev_current e with Some l => c' <? l | None => false end = false) as ->.
    { destruct (lev_current e) as [c|] eqn:Ec; [|done]. destruct (L4 c eq_refl) as (c1 & [= ->] & ? & _). lia. }
    assert (is_some (lev_unit e) && negb (bool_decide (lev_unit e' = lev_unit e)) = false) as ->.
    { destruct (lev_unit e) as [u|] eqn:Eu; [|done]. destruct (lev_current e) as [c|] eqn:Ec.
      - destruct (L4 c eq_refl) as (_ & _ & _ & ->). by rewrite bool_decide_eq_true_2.
      - exfalso. destruct Hq as [Hq _]. by specialize (Hq eq_refl). }
    assert (is_some total && is_some (lev_total e') && negb (bool_decide (lev_total e' = total)) = false) as ->.
    { destruct total as [t|]; [|done]. destruct (lev_total e') as [u|] eqn:Eu; [|done].
      rewrite (Ht t u eq_refl eq_refl). by rewrite bool_decide_eq_true_2. }
    cbn [raise_if mbind result_bind]. eexists. split; [done|]. split; cbn [ps_expected ps_terminal_seen ps_last_current ps_last_total ps_last_unit
      ps_last_attempt ps_samples]; try done; try (by rewrite ?L1, ?Ec').
    apply Forall_app. split; [done|]. constructor; [by rewrite Ec'|constructor].
  - eexists. split; [done|]. rewrite Hn' by done. split; cbn [ps_expected ps_terminal_seen ps_last_current ps_last_total ps_last_unit
      ps_last_attempt ps_samples]; try done; try (by rewrite ?L1).
    + destruct (lev_current e) as [c|] eqn:Ec; [|by rewrite Ec'].
      by destruct (L4 c eq_refl) as (? & [=] & _).
    + destruct (lev_current e) as [c|] eqn:Ec; [by destruct (L4 c eq_refl) as (? & [=] & _)|].
      destruct Hq as [Hq _]. rewrite Hq by done. symmetry. by apply Hq'.
    + intros Hc. rewrite <- P3 in Hc. destruct (P8 Hc) as [P9 P10]. split; [|congruence].
      unfold samples. by destruct (_ <? _).
Qed.

Lemma last_shift {A} (l : list A) x d : List.last (x :: l) d = List.last l x.
Proof.
  revert x d. induction l as [|y l IH]; intros x d; [done|].
  change (List.last (y :: l) d = List.last (y :: l) x). by rewrite !IH.
Qed.

Lemma last_in {A} (l : list A) d : List.last l d ∈ d :: l.
Proof.
  revert d. induction l as [|x l IH]; intros d; [left|]. rewrite last_shift. right. apply IH.
Qed.

Lemma fold_linked es e st acc :
  adjacent linked (e :: es) -> Forall valid (e :: es) -> projected st e acc ->
  (exists h, (forall t, acc = Some t -> h = Some t) /\
     Forall (fun e => forall t, lev_total e = Some t -> h = Some t) es) ->
  exists st', fold_result project_step es st = Ok st' /\
    projected st' (List.last es e) (foldl (fun acc e => or_else (lev_total e) acc) acc es).
Proof.
  revert e st acc. induction es as [|f es IH]; intros e st acc Ha Hv Hst (h & Hacc & Hh); [by exists st|].
  destruct Ha as [Hl Ha]. apply Forall_cons in Hv as [Hve Hv]. pose proof Hv as Hv'.
  apply Forall_cons in Hv' as [Hvf _]. apply Forall_cons in Hh as [Hf Hh].
  destruct (project_step_linked st e f acc Hst Hl Hve Hvf) as (st1 & Hs1 & Hp1).
  { intros t u Et Eu. apply Hacc in Et. apply Hf in Eu. congruence. }
  destruct (IH f st1 _ Ha Hv Hp1) as (st' & Hs' & Hp').
  { exists h. split; [|done]. intros t. destruct (lev_total f) as [u|] eqn:Eu; cbn; [|auto].
    intros [= <-]. auto. }
  exists st'. cbn [fold_result foldl]. rewrite Hs1. cbn [mbind result_bind]. split; [done|].
  by rewrite last_shift.
Qed.

Lemma initial_step e :
  valid e -> exists st, project_step (initial_projection e) e = Ok st /\ projected st e (lev_total e).
Proof.
  intros Hv. destruct (valid_event_facts e Hv) as [Hq Hn]. unfold project_step, initial_projection.
  cbn [ps_expected ps_terminal_seen ps_last_current ps_last_total ps_last_unit ps_last_attempt ps_samples].
  rewrite Z.eqb_refl, Z.ltb_irrefl.
  assert ((lev_attempt e + 1 <? lev_attempt e) = false) as -> by lia.
  cbn [negb orb raise_if mbind result_bind is_some is_none andb].
  destruct (lev_current e) as [c|] eqn:Ec; eexists; (split; [done|]);
    split; cbn [ps_expected ps_terminal_seen ps_last_current ps_last_total ps_last_unit
      ps_last_attempt ps_samples]; try done.
  - by destruct (lev_total e).
  - constructor; [by rewrite Ec|constructor].
  - symmetry. by apply Hq.
  - by rewrite Hn.
Qed.

Lemma timestamp_valid e : valid e -> exists t, Ev._timestamp (lev_occurred_at e) "progress sample" = Ok t.
Proof.
  intros (attributes & [_ _ _ [t Ht]])%valid_event_parts. exists t. revert Ht. unfold Ev._timestamp.
  destruct (iso_parse _); [|done]. intros Ht. ok_inv. subst.
  repeat match goal with Hn : _ = false |- _ => rewrite Hn; clear Hn end. done.
Qed.

Definition rates_safe (current total : option Z) (re : option Z * option Z) : Prop :=
  safe_nonneg_opt re.1 = true /\
  (match current, total with Some c, Some t => c <= t | _, _ => True end -> safe_nonneg_opt re.2 = true).

Lemma rate_and_eta_ok samples current total :
  Forall valid samples -> exists re, rate_and_eta samples current total = Ok re /\
    rates_safe current total re /\ (current = None -> samples = [] -> re = (None, None)).
Proof.
  intros Hs. unfold rate_and_eta, rates_safe.
  destruct samples as [|first [|second rest]]; [by eexists..|].
  assert (List.last (first :: second :: rest) first ∈ first :: second :: rest) as Hin
    by (rewrite last_shift; apply last_in).
  pose proof Hs as Hs'. rewrite Forall_forall in Hs'.
  destruct (timestamp_valid _ (Hs' _ Hin)) as [tl ->].
  destruct (timestamp_valid first (Hs' _ ltac:(left))) as [tf ->]. cbn [mbind result_bind].
  set (el := elapsed_ms (tl - tf)). set (delta := or_zero _ - or_zero _).
  destruct ((0 <? el) && (0 <? delta)) eqn:E; [|by eexists].
  assert (0 < el /\ 0 < delta) as [He Hd] by lia.
  set (rate := Z.min SAFE_INTEGER_MAX (delta * 1000000 / el)).
  assert (0 <= delta * 1000000 / el) as Hr0 by (apply Z.div_pos; lia).
  assert (safe_nonneg_opt (Some rate) = true) as Hr.
  { apply safe_nonneg_spec. unfold rate, SAFE_INTEGER_MAX. lia. }
  destruct total as [t|]; [|by eexists]. destruct current as [c|]; [|by eexists].
  destruct (0 <? rate) eqn:Er; [|by eexists]. eexists. split; [done|]. split; [split; [done|]|done].
  intros Hct. apply safe_nonneg_spec.
  assert (0 <= ((t - c) * 1000 + rate - 1) / rate) by (apply Z.div_pos; lia).
  cbn [snd]. unfold SAFE_INTEGER_MAX in *. lia.
Qed.

(** ** The projection of a retained stream *)

Definition over_total (current total : option Z) : bool :=
  match current, total with Some c, Some t => t <? c | _, _ => false end.

Lemma valid_event_validators e : valid e ->
  let d := lev_draft e in
  _require_identifier None (dr_stream_id d) "progress stream ID" = Ok tt /\
  _require_token (dr_operation_kind d) "progress operation kind" = Ok tt /\
  _require_token (dr_phase d) "progress phase" = Ok tt /\
  _require_token (dr_status d) "progress status" = Ok tt /\
  _require_safe_integer true (dr_attempt d) "progress attempt" = Ok tt /\
  (exists t, _timestamp (lev_occurred_at e) "progress update" = Ok t) /\
  (forall c, dr_current d = Some c -> safe_nonneg_opt (Some c) = true /\ unit_ok (dr_unit d) = true) /\
  (forall t, dr_total d = Some t -> safe_nonneg_opt (Some t) = true).
Proof.
  intros Hv d. pose proof (timestamp_valid e Hv) as [ts Hts]. apply valid_event_draft in Hv as [attributes Hv]. fold d in Hv.
  unfold valid, post_init, EventDraft_post_init in Hv. cbn [with_attributes dr_stream_id dr_operation_kind dr_event_type dr_phase dr_status
    dr_attempt dr_current dr_total dr_unit dr_message dr_correlation_id dr_causation_id dr_terminal] in Hv. ok_inv.
  unfold _require_identifier, _require_token, require_token, _require_safe_integer in *. ok_inv.
  do 5 (split; [ok_intro; done|]). split; [|split].
  - exists ts. revert Hts. unfold _timestamp. destruct (iso_parse _) as [dt|]; [|done].
    intros Hts. ok_inv. subst.
    repeat match goal with Hn : _ = false |- _ => rewrite Hn; clear Hn end. done.
  - intros c0 Ec. unfold progress_guards in *. rewrite Ec in *. unfold _require_safe_integer in *. ok_inv.
    bool_simp. split; [|done]. apply safe_nonneg_spec. lia.
  - intros t0 Et. unfold progress_guards in *. rewrite Et in *. destruct (dr_current d); ok_inv; [|done].
    unfold _require_safe_integer in *. ok_inv. bool_simp. apply safe_nonneg_spec. lia.
Qed.

Lemma settled_total_in es t : settled_total es = Some t -> exists e, e ∈ es /\ lev_total e = Some t.
Proof.
  unfold settled_total. induction es as [|e es IH] using rev_ind; [done|].
  rewrite foldl_app. cbn. destruct (lev_total e) as [u|] eqn:Eu; cbn.
  - intros [= <-]. exists e. set_solver.
  - intros (f & ? & ?)%IH. exists f. set_solver.
Qed.

Lemma project_fold es e0 h :
  adjacent linked (e0 :: es) -> Forall valid (e0 :: es) ->
  Forall (fun e => lev_stream_id e = lev_stream_id e0) (e0 :: es) -> head_matches h (e0 :: es) ->
  exists re, rates_safe (hd_current h) (settled_total (e0 :: es)) re /\
  project (e0 :: es) =
    (let latest := List.last es e0 in
    construct {| pp_stream_id := lev_stream_id latest; pp_operation_kind := lev_operation_kind latest;
      pp_phase := dr_phase (lev_draft latest); pp_status := lev_status latest;
      pp_attempt := hd_attempt h; pp_current := hd_current h; pp_total := settled_total (e0 :: es);
      pp_unit := hd_unit h; pp_percent_basis_points := percent_of (hd_current h) (settled_total (e0 :: es));
      pp_rate_milliunits_per_second := re.1; pp_eta_seconds := re.2;
      pp_updated_at := lev_occurred_at latest; pp_terminal := hd_terminal h;
      pp_history_complete := lev_stream_sequence e0 =? 1;
      pp_sample_count := Z.of_nat (length (e0 :: es)) |}) /\
  (hd_current h = None -> re = (None, None) /\ settled_total (e0 :: es) = None).
Proof.
  intros Ha Hv Hs [(l & Hl & H1 & H2 & H3 & H4 & H5) Hk Ht].
  assert (l = List.last es e0) as ->.
  { clear - Hl. revert e0 Hl. induction es as [|f es IH]; intros e0; [by intros [= ->]|].
    intros Hl. rewrite last_shift. by apply IH. }
  assert (List.last es e0 ∈ e0 :: es) as Hin by apply last_in.
  pose proof Hs as Hs'. pose proof Hk as Hk'. rewrite Forall_forall in Hs', Hk'.
  unfold project. rewrite (sorted_by_id _ _ (linked_sorted _ Ha)).
  assert (existsb (fun e => negb (String.eqb (lev_stream_id e) (lev_stream_id e0)) ||
    negb (String.eqb (lev_operation_kind e) (lev_operation_kind e0))) (e0 :: es) = false) as ->.
  { apply existsb_false, Forall_forall. intros e He. rewrite (Hs' e He), (Hk' e He), (Hk' e0 ltac:(left)).
    by rewrite !String.eqb_refl. }
  cbn [raise_if mbind result_bind fold_result].
  apply Forall_cons in Hv as Hv'. destruct Hv' as [Hv0 _].
  destruct (initial_step e0 Hv0) as (st0 & -> & Hp0). cbn [mbind result_bind].
  destruct (fold_linked es e0 st0 _ Ha Hv Hp0) as (st & -> & Hp).
  { exists (hd_total h). apply Forall_cons in Ht as [??]. done. }
  cbn [mbind result_bind]. destruct Hp as [P1 P2 P3 P4 P5 P6 P7 P8].
  assert (ps_last_total st = settled_total (e0 :: es)) as Etot.
  { rewrite P6. unfold settled_total. cbn [foldl]. by destruct (lev_total e0). }
  rewrite last_shift. destruct (rate_and_eta_ok (ps_samples st) (ps_last_current st) (ps_last_total st))
    as (re & -> & Hre & Hnone).
  { eapply Forall_impl; [exact P7|]. by intros ? [? _]. }
  cbn [mbind result_bind]. exists re. rewrite P3, P4, Etot, H2, H3, H4, H5.
  rewrite P3, Etot in Hre. split; [done|].
  rewrite (Hs' _ Hin), (Hk' _ Hin), (Hk' e0 ltac:(left)). split; [done|].
  intros Hc. destruct P8 as [P8 P9]; [congruence|]. split; [|congruence]. apply Hnone; [by rewrite P3|done].
Qed.

Lemma read_stream_ok j s :
  journal_ok j -> fullmatch OPERATIONAL_ID_PATTERN s = true -> read_stream j s = Ok (stream_events j s).
Proof.
  intros [Hj _] Hs. unfold read_stream. rewrite Hs. cbn [negb raise_if mbind result_bind].
  destruct (stream_rows_events j s Hj) as [He Hin]. rewrite <- He. apply map_result_all.
  eapply Forall_impl; [exact Hin|]. intros r Hr. apply ro_decodes.
  pose proof (ji_rows _ Hj) as Hrows. rewrite Forall_forall in Hrows. auto.
Qed.

Lemma stream_events_valid j s : journal_ok j -> Forall valid (stream_events j s).
Proof.
  intros [Hj _]. apply Forall_forall. intros e [He _]%elem_of_lfilter.
  apply list_elem_of_fmap in He as (r & -> & Hr). pose proof (ji_rows _ Hj) as Hrows.
  rewrite Forall_forall in Hrows. by destruct (Hrows r Hr).
Qed.

Lemma stream_events_same j s : Forall (fun e => lev_stream_id e = s) (stream_events j s).
Proof. apply Forall_forall. intros e [_ He]%elem_of_lfilter. by apply String.eqb_eq. Qed.

Lemma stream_events_length j s : (length (stream_events j s) <= length (j_rows j))%nat.
Proof. unfold stream_events. rewrite <- (length_fmap row_event (j_rows j)). apply List.filter_length_le. Qed.

Lemma quantified_latest e : valid e -> lev_current e <> None -> unit_ok (lev_unit e) = true.
Proof.
  intros Hv Hc. apply valid_event_validators in Hv as (_ & _ & _ & _ & _ & _ & Hv & _).
  destruct (lev_current e) as [c|] eqn:Ec; [|done]. by apply (Hv c).
Qed.

Definition projection_of (j : journal) (s : string) : result ProgressProjection :=
  events ← read_stream j s; project events.

(** The projection agrees with the stream head. *)
Record projects_head (s : string) (h : head) (events : list LifecycleEvent) (p : ProgressProjection) : Prop := {
  ph_stream : pp_stream_id p = s;
  ph_attempt : pp_attempt p = hd_attempt h;
  ph_current : pp_current p = hd_current h;
  ph_unit : pp_unit p = hd_unit h;
  ph_terminal : pp_terminal p = hd_terminal h;
  ph_total : pp_total p = settled_total events;
  ph_percent : pp_percent_basis_points p = percent_of (hd_current h) (settled_total events);
  ph_count : pp_sample_count p = Z.of_nat (length events);
  ph_complete : pp_history_complete p = (default 0 (lev_stream_sequence <$> events !! 0%nat) =? 1)
}.

(** The verdict of the projection's own validator. *)
Lemma projection_verdict p ts :
  _require_identifier None (pp_stream_id p) "progress stream ID" = Ok tt ->
  _require_token (pp_operation_kind p) "progress operation kind" = Ok tt ->
  _require_token (pp_phase p) "progress phase" = Ok tt ->
  _require_token (pp_status p) "progress status" = Ok tt ->
  _require_safe_integer true (pp_attempt p) "progress attempt" = Ok tt ->
  _timestamp (pp_updated_at p) "progress update" = Ok ts ->
  1 <= pp_sample_count p <= 1000000 ->
  (forall c, pp_current p = Some c -> safe_nonneg_opt (Some c) = true /\ unit_ok (pp_unit p) = true) ->
  (pp_current p = None -> pp_unit p = None /\ pp_total p = None /\
     pp_rate_milliunits_per_second p = None /\ pp_eta_seconds p = None) ->
  safe_nonneg_opt (pp_total p) = true ->
  pp_percent_basis_points p = percent_of (pp_current p) (pp_total p) ->
  rates_safe (pp_current p) (pp_total p) (pp_rate_milliunits_per_second p, pp_eta_seconds p) ->
  construct p = if over_total (pp_current p) (pp_total p)
    then Raise (EventModelError "projected current progress exceeds total") else Ok p.
Proof.
  intros V1 V2 V3 V4 V5 V6 Hn Hc Hnone Ht Hp [Hr1 Hr2]. unfold construct, post_init, ProgressProjection_post_init.
  rewrite V1, V2, V3, V4, V5, V6. cbn [mbind result_bind].
  assert (_require_safe_integer true (pp_sample_count p) "progress sample count" = Ok tt) as ->.
  { unfold _require_safe_integer. apply raise_if_ok. unfold SAFE_INTEGER_MAX. lia. }
  cbn [mbind result_bind].
  assert (forall l o, safe_nonneg_opt o = true -> opt_safe l o = Ok tt) as Hopt.
  { intros l [v|] Hv; [|done]. cbn in *. unfold _require_safe_integer. apply raise_if_ok.
    apply safe_nonneg_spec in Hv. lia. }
  destruct (pp_current p) as [c|] eqn:Ec.
  - destruct (Hc c eq_refl) as [Hcs Hu]. rewrite Hu. pose proof (Hopt "projected current progress" _ Hcs) as Ho.
    cbn [opt_safe] in Ho. rewrite Ho. cbn [negb raise_if mbind result_bind]. cbn [fst snd] in *.
    destruct (pp_total p) as [t|] eqn:Et; cbn [over_total].
    + pose proof (Hopt "projected total progress" _ Ht) as Ho'. cbn [opt_safe] in Ho'. rewrite Ho'.
      cbn [mbind result_bind]. destruct (t <? c) eqn:Eo; [done|]. cbn [raise_if mbind result_bind].
      apply safe_nonneg_spec in Ht. apply safe_nonneg_spec in Hcs.
      rewrite Hp. cbn [percent_of]. set (pc := if t =? 0 then 10000 else c * 10000 / t).
      assert (0 <= pc <= 10000) as Hpc.
      { unfold pc. destruct (t =? 0) eqn:Ez; [lia|]. split; [apply Z.div_pos; lia|].
        apply Z.div_le_upper_bound; lia. }
      rewrite (Hopt _ (Some pc)) by (apply safe_nonneg_spec; unfold SAFE_INTEGER_MAX; lia).
      cbn [mbind result_bind]. rewrite (Hopt _ _ Hr1). cbn [mbind result_bind].
      rewrite (Hopt _ (pp_eta_seconds p)) by (apply Hr2; lia). cbn [mbind result_bind].
      by assert ((10000 <? pc) = false) as -> by lia.
    + rewrite Hp. cbn [percent_of opt_safe mbind result_bind]. rewrite (Hopt _ _ Hr1). cbn [mbind result_bind].
      rewrite (Hopt _ (pp_eta_seconds p)) by (by apply Hr2). done.
  - destruct (Hnone eq_refl) as (-> & -> & -> & ->). by rewrite Hp.
Qed.

Lemma last_list_last {A} (l : list A) x y : last (x :: l) = Some y -> y = List.last l x.
Proof.
  revert x. induction l as [|z l IH]; intros x; [by intros [= ->]|].
  intros Hl. rewrite last_shift. by apply IH.
Qed.

Lemma project_journal j s h e0 es :
  journal_ok j -> j_heads j !! s = Some h -> stream_events j s = e0 :: es ->
  (over_total (hd_current h) (settled_total (e0 :: es)) = false ->
     exists p, project (e0 :: es) = Ok p /\ projects_head s h (e0 :: es) p) /\
  (over_total (hd_current h) (settled_total (e0 :: es)) = true ->
     project (e0 :: es) = Raise (EventModelError "projected current progress exceeds total")).
Proof.
  intros Hj Hh Hes. pose proof (jo_inv j Hj) as Hi. pose proof (ji_linked j Hi s) as Ha.
  pose proof (stream_events_valid j s Hj) as Hv. pose proof (stream_events_same j s) as Hs.
  destruct (ji_streams j Hi s ltac:(by rewrite Hes)) as (h0 & Eh & Hm). rewrite Hh in Eh. injection Eh as <-.
  assert (Z.of_nat (length (e0 :: es)) <= 1000000) as Hlen.
  { pose proof (stream_events_length j s) as Hl. rewrite Hes in Hl. pose proof (jo_retention j Hj).
    pose proof (ji_maximum j Hi). lia. }
  rewrite Hes in *. pose proof Hs as Hs0. apply Forall_cons in Hs0 as [Es _].
  destruct (project_fold es e0 h Ha Hv) as (re & Hre & -> & Hnone); [by rewrite Es|done|].
  destruct Hm as [(l & Hl & H1 & H2 & H3 & H4 & H5) _ Htot].
  apply last_list_last in Hl as ->. set (e := List.last es e0) in *.
  assert (e ∈ e0 :: es) as Hin by apply last_in.
  rewrite Forall_forall in Hv, Hs. pose proof (Hs e Hin) as Ese.
  destruct (valid_event_validators e (Hv e Hin)) as (V1 & V2 & V3 & V4 & V5 & (ts & V6) & V7 & _).
  cbn zeta. erewrite projection_verdict; cbn [pp_stream_id pp_operation_kind pp_phase pp_status pp_attempt
    pp_current pp_total pp_unit pp_percent_basis_points pp_rate_milliunits_per_second pp_eta_seconds
    pp_updated_at pp_sample_count]; try done.
  - destruct (over_total _ _); (split; [|done]); [done|]. intros _. eexists. split; [done|]. by split.
  - by rewrite H2.
  - cbn [length] in *. lia.
  - rewrite H4, H5. exact V7.
  - intros Hc. destruct (Hnone Hc) as [-> ->]. rewrite H4 in Hc. rewrite H5.
    destruct (valid_event_facts e (Hv e Hin)) as [Hq _]. split; [by apply Hq|]. split; [|done]. done.
  - destruct (settled_total (e0 :: es)) as [t|] eqn:Et; [|done].
    apply settled_total_in in Et as (f & Hf & Ef).
    destruct (valid_event_validators f (Hv f Hf)) as (_ & _ & _ & _ & _ & _ & _ & V8). by apply V8.
Qed.
End Projection.
