(* ===== verification/JournalProperties.v ===== *)
(** * Properties of the event journal

    The guarantees of event_store.py stated over every journal that [open] and
    [publish] can reach, with a concrete journal in [Sample]. *)

From S2P Require Export JsonRoundtrip JournalTheorems.
Import Ev.

Section Helpers.
Context {Tables : PyTables} {Jcs : JCS} {Float : PyFloat} {Laws : JCSLaws}.

Lemma row_offset_bounds j r : journal_inv j -> r ∈ j_rows j -> 1 <= row_offset r <= SAFE_INTEGER_MAX.
Proof.
  intros Hj Hr. assert (j_rows j <> []) as Hne by (intros E; rewrite E in Hr; by apply elem_of_nil in Hr).
  destruct (ji_bounds j Hj Hne) as (? & ? & ?).
  apply list_elem_of_lookup in Hr as [i Hi]. pose proof (chained_offset _ _ _ _ _ _ (ji_chain j Hj) Hi).
  apply lookup_lt_Some in Hi. lia.
Qed.

(** What every publish checks before it looks at the journal. *)
Definition publish_request (d : EventDraft) (selected : string) : result string :=
  d ← _snapshot_draft d;
  raise_if (negb (str_startswith selected EVENT_ID_PREFIX) || negb (fullmatch OPERATIONAL_ID_PATTERN selected))
    (EventModelError "event ID generator returned the wrong namespace");;
  _draft_digest d.

Lemma publish_request_ok d id fresh now j s j' :
  publish d id fresh now j = Ok (s, j') -> exists digest, publish_request d (select_id id fresh) = Ok digest.
Proof.
  unfold publish, publish_request. intros Hp. ok_step. ok_step. ok_step. eexists.
  rewrite E. cbn [mbind result_bind]. rewrite E0. cbn [raise_if mbind result_bind]. exact E1.
Qed.

Lemma publish_known d id fresh now j digest r :
  publish_request d (select_id id fresh) = Ok digest -> journal_ok j -> r ∈ j_rows j ->
  row_event_id r = select_id id fresh ->
  publish d id fresh now j =
    if String.eqb (row_draft_sha256 r) digest then Ok (stored_of r, j)
    else Raise (EventJournalConflictError "event ID was reused with different content").
Proof.
  unfold publish, publish_request. intros Hp Hj Hr Hid. ok_step. ok_step.
  rewrite E. cbn [mbind result_bind]. rewrite E0. cbn [raise_if mbind result_bind]. rewrite Hp.
  cbn [mbind result_bind]. rewrite <- Hid, (find_event_row j r (ji_ids _ (jo_inv _ Hj)) Hr).
  destruct (String.eqb _ _); [|done]. cbn [negb raise_if mbind result_bind].
  pose proof (ji_rows _ (jo_inv _ Hj)) as Hrows. rewrite Forall_forall in Hrows.
  rewrite (ro_decodes _ (Hrows r Hr)). cbn [mbind result_bind].
  pose proof (row_offset_bounds j r (jo_inv _ Hj) Hr) as Hb.
  rewrite construct_valid; [done|].
  unfold valid, post_init, StoredEvent_post_init, Ev._require_safe_integer.
  apply raise_if_ok. cbn [st_offset]. lia.
Qed.

Lemma publish_conflict d id fresh now j s j' d' fresh' now' digest :
  journal_ok j -> publish d id fresh now j = Ok (s, j') ->
  publish_request d' (select_id id fresh') = Ok digest -> select_id id fresh' = select_id id fresh ->
  publish d' id fresh' now' j' =
    if bool_decide (publish_request d (select_id id fresh) = Ok digest) then Ok (s, j')
    else Raise (EventJournalConflictError "event ID was reused with different content").
Proof.
  intros Hj Hp Hq Hsel. pose proof (publish_ok _ _ _ _ _ _ _ Hj Hp) as Hj'.
  destruct (publish_request_ok _ _ _ _ _ _ _ Hp) as (g & Hg). rewrite Hg.
  destruct (publish_row_ok _ _ _ _ _ _ _ Hj Hp) as (ds & r & Hsnap & Hr & -> & Hid & Hd & _).
  rewrite (publish_known d' id fresh' now' j' digest r Hq Hj' Hr) by (by rewrite Hsel).
  assert (g = row_draft_sha256 r) as ->.
  { unfold publish_request in Hg. rewrite Hsnap in Hg. cbn [mbind result_bind] in Hg. ok_step. congruence. }
  destruct (String.eqb _ _) eqn:E; case_bool_decide as Eb; try done.
  - apply String.eqb_eq in E. congruence.
  - apply String.eqb_neq in E. congruence.
Qed.
End Helpers.

(** ** A concrete journal *)

Module Sample.
#[local] Existing Instance ascii_tables.
#[local] Existing Instance reference_jcs.
#[local] Instance sample_float : PyFloat := fun _ => SpecFloat.S754_nan.

Definition journal_id : string := "opid:v1:event-journal:u7:01890a5d-ac96-774b-bcce-b302099a8057".
Definition stream_id : string := "opid:v1:command:u7:01890a5d-ac96-774b-bcce-b302099a8058".
Definition event_id (n : Z) : string :=
  EVENT_ID_PREFIX +:+ "01890a5d-ac96-774b-bcce-b302099a805" +:+ pretty n.

Definition draft (status : string) (current total : option Z) : EventDraft :=
  {| dr_stream_id := stream_id; dr_operation_kind := "cache-transfer"; dr_event_type := "progress";
     dr_phase := "transfer"; dr_status := status; dr_attempt := 1; dr_current := current; dr_total := total;
     dr_unit := Some "bytes"; dr_message := "transferring"; dr_correlation_id := None;
     dr_causation_id := None; dr_attributes := []; dr_terminal := mem status TERMINAL_STATUSES |}.

Definition empty : result journal := open journal_id 2.
Definition publish_all (drafts : list (Z * EventDraft)) : result journal :=
  j ← empty;
  fold_result (fun j p => '(_, j) ← publish p.2 (Some (event_id p.1)) "" (p.1 * 1000000) j; Ok j) drafts j.

Definition now : Z := 1700000000000000.

Lemma publish_all_reachable drafts j : publish_all drafts = Ok j -> reachable 2 j.
Proof.
  unfold publish_all. intros Hp. ok_step. assert (reachable 2 a) as Hr by (by eapply reach_open).
  clear E. revert a Hr Hp. induction drafts as [|p l IH]; intros a Hr Hp; cbn [fold_result] in Hp.
  - by injection Hp as <-.
  - ok_step. ok_step. destruct a1 as [s j1]. injection E as <-. apply (IH j1); [|done]. by eapply reach_publish.
Qed.

Definition or_empty (r : result journal) : journal :=
  match r with
  | Ok j => j
  | Raise _ => {| j_id := ""; j_maximum := 0; j_last_offset := 0; j_oldest_offset := 0; j_anchor := "";
                  j_tail := ""; j_rows := []; j_heads := ∅ |}
  end.

(** Three events of one stream in a journal that keeps two. *)
Definition three : list (Z * EventDraft) :=
  [(1, draft "running" (Some 3) (Some 10)); (2, draft "running" (Some 5) None);
   (3, draft "completed" (Some 10) (Some 10))].
Definition full : journal := Eval vm_compute in or_empty (publish_all three).
Lemma full_reachable : reachable 2 full.
Proof. apply (publish_all_reachable three). vm_cast_no_check (eq_refl (Ok full)). Qed.

Definition blank : journal := Eval vm_compute in or_empty empty.
Lemma blank_reachable : reachable 2 blank.
Proof. apply reach_open with journal_id. by vm_compute. Qed.

(** A second event past the total the first one declared. *)
Definition overrun : list (Z * EventDraft) :=
  [(1, draft "running" (Some 3) (Some 10)); (2, draft "running" (Some 15) None)].
Definition overrun_journal : journal := Eval vm_compute in or_empty (publish_all overrun).
Lemma overrun_reachable : reachable 2 overrun_journal.
Proof. apply (publish_all_reachable overrun). vm_cast_no_check (eq_refl (Ok overrun_journal)). Qed.
End Sample.

(** ** The properties *)

Section Properties.
Context {Tables : PyTables} {Jcs : JCS} {Float : PyFloat} {Laws : JCSLaws}.

(** C25: A journal that open and publish built always passes the verification
    that every open and health check runs: every stored event text decodes, is
    canonical and rebuilds a valid event, its columns agree with it, and offsets,
    hash chain, draft digests, stream sequences and stream heads are never found
    corrupt. *)
Theorem journal_always_verifies maximum j :
  reachable maximum j -> _verify j (Some maximum) = Ok tt.
Proof. intros [Hj <-]%reachable_ok. by apply verify_ok. Qed.

(** C9: Reading batch after batch from a cursor the journal still covers (its
    events are not evicted and it is not ahead of the tail) ends and returns every
    later event exactly once and in order: their offsets are the contiguous range
    from the cursor to the end, and they are what the stored texts decode to,
    whatever the batch size. *)
Theorem drain_complete maximum j c n fuel :
  reachable maximum j -> cur_journal_id c = j_id j -> within j (cur_offset c) -> 1 <= n <= 10000 ->
  (length (j_rows j) < fuel)%nat ->
  exists es, drain fuel j c n = Ok (es, {| cur_journal_id := j_id j; cur_offset := j_last_offset j |}) /\
    st_offset <$> es = zrange (cur_offset c + 1) (Z.to_nat (j_last_offset j - cur_offset c)) /\
    map_result (fun r => _event_from_json (row_event_json r)) (List.filter (fun r => cur_offset c <? row_offset r) (j_rows j)) =
      Ok (st_event <$> es).
Proof.
  intros [Hj _]%reachable_ok Hid Hw Hn Hf. set (q := cur_offset c) in *.
  pose proof Hj as [Hi _]. pose proof (ji_chain j Hi) as Hc. destruct Hw as [Hw1 Hw2].
  exists (stored_of <$> after_offset j q).
  rewrite (drain_all fuel j c n) by (try done; unfold after_offset; rewrite length_drop; lia).
  split; [done|]. set (k := Z.to_nat (q + 1 - j_oldest_offset j)).
  assert (after_offset j q = take (length (j_rows j)) (drop k (j_rows j))) as Ha.
  { unfold after_offset. rewrite take_ge; [done|]. rewrite length_drop. lia. }
  split.
  - rewrite Ha. destruct (decide (j_rows j = [])) as [E|E].
    + destruct (ji_empty j Hi E) as (-> & _). rewrite E. by replace (Z.to_nat (0 - q)) with 0%nat by lia.
    + destruct (ji_bounds j Hi E) as (? & ? & ?).
      rewrite (offsets_contiguous _ _ _ _ k (length (j_rows j)) Hc) by lia.
      rewrite length_take, length_drop. f_equal; lia.
  - rewrite (chained_filter _ _ _ _ q Hc) by lia. rewrite (map_result_all _ row_event); [by rewrite <- list_fmap_compose|].
    apply Forall_drop. eapply Forall_impl; [exact (ji_rows j Hi)|]. apply ro_decodes.
Qed.

(** A cursor whose next event was already evicted is told so: the read raises
    the gap error instead of returning later events as if nothing was lost. *)
Theorem evicted_cursor_raises j c n :
  cur_journal_id c = j_id j -> cur_offset c < j_oldest_offset j - 1 ->
  0 <= cur_offset c -> 1 <= n <= 10000 ->
  read j (Some c) n = Raise (EventCursorGapError (cur_offset c) (j_oldest_offset j)).
Proof.
  intros Hid Hlt Hc Hn. unfold read. assert ((1 <=? n) && (n <=? 10000) = true) as -> by lia.
  rewrite Hid, String.eqb_refl. cbn [negb raise_if mbind result_bind].
  by assert (negb (j_oldest_offset j =? 0) && (cur_offset c <? j_oldest_offset j - 1) = true) as -> by lia.
Qed.

(** Publishing is idempotent in the event identifier: repeating a published
    request, at any later time, returns the stored event and leaves the journal
    as it is; the same identifier with other content is a conflict. *)
Theorem publish_replay maximum j d i fresh now s j' :
  reachable maximum j -> publish d (Some i) fresh now j = Ok (s, j') -> i <> "" ->
  forall d' digest fresh' now', publish_request d' i = Ok digest ->
  publish d' (Some i) fresh' now' j' =
    if bool_decide (publish_request d i = Ok digest) then Ok (s, j')
    else Raise (EventJournalConflictError "event ID was reused with different content").
Proof.
  intros [Hj _]%reachable_ok Hp Hi d' digest fresh' now' Hq. apply String.eqb_neq in Hi.
  assert (select_id (Some i) fresh = i /\ select_id (Some i) fresh' = i) as [E E'] by (unfold select_id, str_empty; by rewrite Hi).
  rewrite (publish_conflict d (Some i) fresh now j s j' d' fresh' now' digest Hj Hp) by (by rewrite E').
  by rewrite E.
Qed.

(** A terminal stream is closed: while its head is retained, a publish that
    returns has only replayed a stored event and changed nothing. *)
Theorem terminal_closed maximum j d id fresh now s j' h :
  reachable maximum j -> j_heads j !! dr_stream_id d = Some h -> hd_terminal h = true ->
  publish d id fresh now j = Ok (s, j') -> j' = j /\ s ∈ stored_of <$> j_rows j.
Proof.
  intros [Hj _]%reachable_ok Hh Ht Hp. pose proof Hp as Hp'.
  apply publish_cases in Hp' as (ds & Hsnap & [(r & Hf & _ & -> & Ho & He)|(seq & r & _ & Hs & _)]).
  - split; [done|]. destruct (publish_row_ok _ _ _ _ _ _ _ Hj Hp) as (_ & r' & _ & Hr & -> & _).
    by apply list_elem_of_fmap_2.
  - apply snapshot_ok in Hsnap as (_ & attributes & -> & _). unfold next_sequence in Hs. cbn [dr_stream_id with_attributes] in Hs.
    by rewrite Hh, Ht in Hs.
Qed.

(** The events a stream reader gets are a gap-free history: sequence numbers
    rise by one, nothing follows a terminal event, an attempt changes only by a
    resume at the same coordinate, progress never moves back and keeps its unit. *)
Theorem read_stream_linked maximum j s :
  reachable maximum j -> fullmatch OPERATIONAL_ID_PATTERN s = true ->
  exists es, read_stream j s = Ok es /\ adjacent linked es /\
    es ≡ₚ List.filter (fun e => String.eqb (lev_stream_id e) s) (row_event <$> j_rows j).
Proof.
  intros [Hj _]%reachable_ok Hs. exists (stream_events j s). split; [by apply read_stream_ok|].
  split; [apply (ji_linked j (jo_inv j Hj))|done].
Qed.

(** The progress projection of a retained stream is its durable head, with the
    total the events settled on, as long as the current coordinate is within
    that total; past it the projection raises. *)
Theorem stream_projection maximum j s h es :
  reachable maximum j -> j_heads j !! s = Some h -> read_stream j s = Ok es -> es <> [] ->
  if over_total (hd_current h) (settled_total es)
  then projection_of j s = Raise (EventModelError "projected current progress exceeds total")
  else exists p, projection_of j s = Ok p /\ projects_head s h es p.
Proof.
  intros [Hj _]%reachable_ok Hh Hr Hne. unfold projection_of. rewrite Hr. cbn [mbind result_bind].
  destruct (ji_heads j (jo_inv j Hj) s h Hh) as [[Hid _ _ _] _].
  rewrite (read_stream_ok j s Hj Hid) in Hr. injection Hr as Hr. destruct es as [|e0 es]; [done|].
  destruct (project_journal j s h e0 es Hj Hh Hr) as [H1 H2]. destruct (over_total _ _); auto.
Qed.
End Properties.

Import Sample.

Section Concrete.
#[local] Existing Instance ascii_tables.
#[local] Existing Instance reference_jcs.
#[local] Existing Instance sample_float.

(** The journal accepts an event whose current coordinate passes the total an
    earlier event of the stream declared, still verifies, and from then on the
    progress projection of that stream raises. *)
Theorem projection_exceeds_total :
  reachable 2 overrun_journal /\ _verify overrun_journal (Some 2) = Ok tt /\
  projection_of overrun_journal stream_id = Raise (EventModelError "projected current progress exceeds total").
Proof. split; [exact overrun_reachable|]. by vm_compute. Qed.

(** ** Witnesses *)

Definition cursor_at (n : Z) : EventCursor := {| cur_journal_id := journal_id; cur_offset := n |}.

Lemma full_within : within full 1.
Proof. unfold within. by vm_compute. Qed.

Lemma journal_always_verifies_witness : _verify full (Some 2) = Ok tt.
Proof. exact (journal_always_verifies 2 full full_reachable). Defined.

Lemma drain_complete_witness : exists es,
  drain 4 full (cursor_at 1) 1 = Ok (es, {| cur_journal_id := j_id full; cur_offset := j_last_offset full |}) /\
  st_offset <$> es = zrange 2 2.
Proof.
  destruct (drain_complete 2 full (cursor_at 1) 1 4 full_reachable ltac:(by vm_compute) full_within ltac:(lia)
    ltac:(apply Nat.ltb_lt; by vm_compute)) as (es & Hd & Ho & _).
  exists es. split; [exact Hd|]. rewrite Ho. by vm_compute.
Defined.

Lemma evicted_cursor_raises_witness : read full (Some (cursor_at 0)) 1 = Raise (EventCursorGapError 0 2).
Proof.
  apply (evicted_cursor_raises full (cursor_at 0) 1); [by vm_compute|by vm_compute|done|lia].
Defined.

Lemma publish_replay_witness : exists s j,
  publish (draft "running" (Some 3) (Some 10)) (Some (event_id 1)) "" now blank = Ok (s, j) /\
  publish (draft "running" (Some 3) (Some 10)) (Some (event_id 1)) "" (now + 5) j = Ok (s, j) /\
  publish (draft "running" (Some 4) (Some 10)) (Some (event_id 1)) "" (now + 5) j =
    Raise (EventJournalConflictError "event ID was reused with different content").
Proof.
  pose proof blank_reachable as Hr.
  destruct (publish (draft "running" (Some 3) (Some 10)) (Some (event_id 1)) "" now blank)
    as [[s j]|] eqn:Ep; [|by vm_compute in Ep].
  pose proof (publish_replay 2 _ _ _ _ _ _ _ Hr Ep ltac:(by vm_compute)) as Hrep.
  exists s, j. split; [reflexivity|]. clear Ep Hr.
  destruct (publish_request (draft "running" (Some 3) (Some 10)) (event_id 1)) as [g|] eqn:Eg; [|by vm_compute in Eg].
  destruct (publish_request (draft "running" (Some 4) (Some 10)) (event_id 1)) as [g'|] eqn:Eg'; [|by vm_compute in Eg'].
  rewrite (Hrep _ g "" (now + 5) Eg), (Hrep _ g' "" (now + 5) Eg'). clear Hrep.
  vm_compute in Eg, Eg'. injection Eg as <-. injection Eg' as <-. split.
  - rewrite bool_decide_eq_true_2 by (by vm_compute). done.
  - rewrite bool_decide_eq_false_2 by (by vm_compute). done.
Defined.

Lemma terminal_closed_witness : exists s,
  publish (draft "completed" (Some 10) (Some 10)) (Some (event_id 3)) "" now full = Ok (s, full) /\
  s ∈ stored_of <$> j_rows full.
Proof.
  destruct (j_heads full !! stream_id) as [h|] eqn:Eh; [|by vm_compute in Eh].
  destruct (publish (draft "completed" (Some 10) (Some 10)) (Some (event_id 3)) "" now full)
    as [[s j]|] eqn:Ep; [|by vm_compute in Ep].
  assert (hd_terminal h = true) as Ht by (vm_compute in Eh; by injection Eh as <-).
  destruct (terminal_closed 2 full (draft "completed" (Some 10) (Some 10)) _ _ _ _ _ h full_reachable Eh Ht Ep) as [-> Hs].
  exists s. split; [reflexivity|exact Hs].
Defined.

Lemma read_stream_linked_witness : exists es,
  read_stream full stream_id = Ok es /\ adjacent linked es /\ length es = 2%nat.
Proof.
  destruct (read_stream_linked 2 full stream_id full_reachable ltac:(by vm_compute)) as (es & Hr & Ha & Hp).
  exists es. split; [done|]. split; [done|]. apply Permutation_length in Hp. rewrite Hp. by vm_compute.
Defined.

Lemma stream_projection_witness : exists p,
  projection_of full stream_id = Ok p /\ pp_current p = Some 10 /\ pp_terminal p = true.
Proof.
  destruct (j_heads full !! stream_id) as [h|] eqn:Eh; [|by vm_compute in Eh].
  destruct (read_stream full stream_id) as [es|] eqn:Er; [|by vm_compute in Er].
  assert (es <> []) as Hne by (intros ->; by vm_compute in Er).
  pose proof (stream_projection 2 full stream_id h es full_reachable Eh Er Hne) as Hp.
  assert (over_total (hd_current h) (settled_total es) = false) as Ho.
  { vm_compute in Eh, Er. injection Eh as <-. injection Er as <-. by vm_compute. }
  rewrite Ho in Hp. destruct Hp as (p & Hp & [_ _ Hc _ Ht _ _ _ _]). exists p. split; [done|].
  rewrite Hc, Ht. clear -Eh. vm_compute in Eh. injection Eh as <-. split; reflexivity.
Defined.
End Concrete.
