(* ===== verification/Effects.v ===== *)
(** * Effects: calls into the world around the control plane

    A method that reads the clock, calls a provider or publishes an event is a
    state transformer over an abstract world [W] that returns a result; the world
    it leaves behind survives an exception.  The collaborators the source takes
    as constructor arguments (protocol classes such as [Clock] and
    [CacheProvider]) are type classes over [W]. *)

From S2P Require Export Events.

Definition eff (W A : Type) : Type := W -> result A * W.

#[export] Instance eff_ret W : MRet (eff W) := fun A a w => (Ok a, w).
#[export] Instance eff_bind W : MBind (eff W) := fun A B f m w =>
  match m w with
  | (Ok a, w') => f a w'
  | (Raise e, w') => (Raise e, w')
  end.

(** A pure computation that may raise. *)
Definition lift {W A} (r : result A) : eff W A := fun w => (r, w).
(** [try: m except Exception as error: h error] *)
Definition try_eff {W A} (m : eff W A) (h : exn -> eff W A) : eff W A := fun w =>
  match m w with
  | (Ok a, w') => (Ok a, w')
  | (Raise e, w') => h e w'
  end.

(** [type(error).__name__] *)
Definition exn_class (e : exn) : string :=
  match e with
  | ValueError _ => "ValueError"
  | OverflowError _ => "OverflowError"
  | KeyError _ => "KeyError"
  | StopIteration => "StopIteration"
  | StateModelError _ => "StateModelError"
  | SecretMaterialError _ => "SecretMaterialError"
  | EventModelError _ => "EventModelError"
  | EventJournalConflictError _ => "EventJournalConflictError"
  | EventCursorGapError _ _ => "EventCursorGapError"
  | TransferIntegrityError _ => "TransferIntegrityError"
  | InvalidLifecycleTransition _ => "InvalidLifecycleTransition"
  | LifecycleVerificationError _ _ => "LifecycleVerificationError"
  | ProviderOperationError _ _ _ _ => "ProviderOperationError"
  | FaultAttributionError _ => "FaultAttributionError"
  | MatrixCompileError _ => "MatrixCompileError"
  | CampaignExecutionError _ => "CampaignExecutionError"
  | StateConflictError _ => "StateConflictError"
  | StateAdmissionError _ => "StateAdmissionError"
  | StaleReconciliationPlanError _ => "StaleReconciliationPlanError"
  | StateCorruptionError _ => "StateCorruptionError"
  | OSError cls _ => cls
  | AdapterException cls _ _ _ _ => cls
  | OtherException cls _ => cls
  end.

(** The text the operating system gives for an error number. *)
Class OSText := os_text : string -> Z -> string.

(** [str(error)] *)
Definition exn_str `{OSText} (e : exn) : string :=
  match e with
  | ValueError m | OverflowError m | StateModelError m | SecretMaterialError m | EventModelError m
  | EventJournalConflictError m | TransferIntegrityError m | InvalidLifecycleTransition m
  | FaultAttributionError m | MatrixCompileError m | CampaignExecutionError m | StateConflictError m
  | StateAdmissionError m | StaleReconciliationPlanError m | StateCorruptionError m
  | LifecycleVerificationError _ m | ProviderOperationError _ m _ _ | OtherException _ m => m
  | KeyError m => py_repr m
  | StopIteration => ""
  | EventCursorGapError requested oldest =>
      "event cursor " +:+ dec requested +:+ " precedes oldest available offset " +:+ dec oldest
  | OSError cls errno => os_text cls errno
  | AdapterException _ code m _ _ => code +:+ ": " +:+ m
  end.

(** [str(error) or type(error).__name__] *)
Definition exn_detail `{OSText} (e : exn) : string :=
  if str_empty (exn_str e) then exn_class e else exn_str e.

(** ** Collaborators shared by the managers *)

(** [clock.now()]: an aware instant, in microseconds since the epoch.  A naive
    clock is one whose [now] raises. *)
Class Clock (W : Type) := now : eff W Z.
Class Cancellation (W : Type) := cancelled : eff W bool.
(** [publisher is not None], and [publisher.publish(draft)]. *)
Class Publisher (W : Type) := {
  publishing : bool;
  publish_draft : EventDraft -> eff W unit
}.

(** [if self._event_publisher is not None: self._event_publisher.publish(EventDraft(...))] *)
Definition emit `{PyTables} `{JCS} {W} `{Publisher W} (draft : EventDraft) : eff W unit :=
  if publishing then d ← lift (construct draft); publish_draft d else mret tt.

Section Lemmas.
Context {W A B : Type}.

Lemma eff_bind_ok (m : eff W A) (f : A -> eff W B) w b w' :
  (x ← m; f x) w = (Ok b, w') <-> exists a w1, m w = (Ok a, w1) /\ f a w1 = (Ok b, w').
Proof.
  unfold mbind, eff_bind. destruct (m w) as [[a|e] w1]; split.
  - eauto.
  - by intros (? & ? & [= -> ->] & ?).
  - done.
  - by intros (? & ? & ? & ?).
Qed.

Lemma lift_ok (r : result A) (w : W) a w' : lift r w = (Ok a, w') <-> r = Ok a /\ w' = w.
Proof. unfold lift. split; [by intros [= -> ->]|by intros [-> ->]]. Qed.

Lemma lift_bind (r : result A) (f : A -> eff W B) w :
  (x ← lift r; f x) w = match r with Ok a => f a w | Raise e => (Raise e, w) end.
Proof. by destruct r. Qed.

Lemma ret_bind (a : A) (f : A -> eff W B) : (x ← mret a; f x) = f a.
Proof. done. Qed.
End Lemmas.

(** Invert a run that returned. *)
Ltac eff_step := match goal with
  | H : mbind _ ?m ?w = (Ok _, _) |- _ =>
      let a := fresh "a" in let w1 := fresh "w" in let E := fresh "E" in
      apply eff_bind_ok in H; destruct H as (a & w1 & E & H)
  | H : lift _ _ = (Ok _, _) |- _ =>
      let E := fresh "E" in apply lift_ok in H; destruct H as [E H]; subst
  | H : mret _ _ = (Ok _, _) |- _ => unfold mret, eff_ret in H; injection H as H; subst
  | H : (Ok _, _) = (Ok _, _) |- _ => injection H as H; subst
  | H : (Raise _, _) = (Ok _, _) |- _ => discriminate H
  end.
Ltac eff_inv := repeat eff_step.
