(* ===== verification/Files.v ===== *)
(** * Files

    What the managers ask the operating system for: the file status, the calls of
    [os] and [pathlib] on absolute paths ([FileSystem]), and [try]/[finally]. *)

From S2P Require Export Effects.

Inductive file_kind := Regular | Symlink | OtherKind.

Record file_stat := {
  fst_kind : file_kind;
  fst_dev : Z;
  fst_ino : Z;
  fst_size : Z;
  fst_nlink : Z;
  fst_blocks : option Z
}.

Definition identity (s : file_stat) : Z * Z := (fst_dev s, fst_ino s).
Definition is_regular (s : file_stat) : bool := match fst_kind s with Regular => true | _ => false end.
Definition is_link (s : file_stat) : bool := match fst_kind s with Symlink => true | _ => false end.

Definition path := list string.

(** How [os.open] is asked to open a path. *)
Inductive open_mode := ReadOnly | AppendExisting | CreateExclusive.

(** The calls of [os] and [pathlib] the managers make. *)
Class FileSystem (W : Type) := {
  fs_resolve : path -> eff W path;
  fs_exists : path -> eff W bool;
  fs_is_symlink : path -> eff W bool;
  fs_mkdir : path -> eff W unit;
  fs_lstat : path -> eff W file_stat;
  fs_open : path -> open_mode -> eff W Z;
  fs_fstat : Z -> eff W file_stat;
  fs_read : Z -> Z -> eff W string;
  fs_append : Z -> string -> eff W unit;
  fs_close : Z -> eff W unit;
  fs_link : path -> path -> eff W unit;
  fs_unlink : path -> eff W unit
}.

Definition is_os_error (e : exn) : bool := match e with OSError _ _ => true | _ => false end.

(** [try: m finally: f] *)
Definition finally {W A} (m : eff W A) (f : eff W unit) : eff W A := fun w =>
  match m w with
  | (r, w') => match f w' with (Ok _, w2) => (r, w2) | (Raise e, w2) => (Raise e, w2) end
  end.

Definition out_of_fuel : exn := OtherException "RuntimeError" "out of fuel".
