(* ===== verification/CacheModels.v ===== *)
(** * Cache, cleanup and transfer records

    cache_models.py: every dataclass with its validation and its rendering.
    A relative cache path is accepted exactly when it is a sequence of plain
    components ([relative_path_exact]), so joining it to a root stays below the
    root. *)

From S2P Require Export Timestamps Secrets.

Definition EMPTY_SHA256 : string := "e3b0c44298fc1c149afbf4c8996fb92427ae41e4649b934ca495991b7852b855".
Definition CACHE_KINDS : list string :=
  ["artifact"; "environment"; "toolchain"; "provider-cache"; "analysis-cache"; "protected-spool"].
Definition RETENTION_CLASSES : list string :=
  ["reacquirable"; "expensive-reconstruction"; "rare-fragile"; "registry-authority"; "protected-spool"].
Definition VERIFICATION_STATES : list string := ["verified"; "provisional"; "missing"; "mismatch"; "unsafe"].
Definition REALITY_STATES : list string := ["verified"; "missing"; "mismatch"; "unsafe"; "provider-error"].

Module Cache.
Definition _require_token (name value : string) : result unit :=
  require_token ValueError " must be a lowercase canonical token" name value.
Definition _require_sha256 (name : string) (value : option string) : result unit :=
  match value with Some v => require_sha256 ValueError name v | None => Ok tt end.
Definition _require_safe_integer (positive : bool) (name : string) (value : option Z) : result unit :=
  match value with
  | None => Ok tt
  | Some v =>
      raise_if (negb (((if positive then 1 else 0) <=? v) && (v <=? SAFE_INTEGER_MAX)))
        (ValueError (name +:+ " must be a " +:+ (if positive then "positive" else "non-negative") +:+ " safe integer"))
  end.
Definition _require_signed_safe_integer (name : string) (value : Z) : result unit :=
  raise_if (negb ((- SAFE_INTEGER_MAX <=? value) && (value <=? SAFE_INTEGER_MAX)))
    (ValueError (name +:+ " must be a signed safe integer")).
Definition _require_timestamp (value : option string) : result unit :=
  match value with Some v => require_timestamp v | None => Ok tt end.
Definition _require_unique (name : string) (values : list string) : result unit :=
  require_unique ValueError " must not contain duplicates" name values.

(** [PurePosixPath(value).parts] without the root, and [as_posix]. *)
Definition posix_parts (value : string) : list string :=
  List.filter (fun part => negb (str_empty part || String.eqb part ".")) (split_on "/" value).
Definition is_absolute (value : string) : bool := str_startswith value "/".
Definition as_posix (value : string) : string :=
  let root := if is_absolute value then
                if str_startswith value "//" && negb (str_startswith value "///") then "//" else "/"
              else "" in
  let text := root +:+ join "/" (posix_parts value) in
  if str_empty text then "." else text.

Definition _require_relative_path (value : string) : result unit :=
  raise_if (str_empty value || contains_char backslash value || is_absolute value ||
            negb (String.eqb (as_posix value) value) ||
            existsb (fun part => mem part [""; "."; ".."]) (posix_parts value))
    (ValueError "cache paths must be normalized root-relative POSIX paths").

(** [a > b] of two validated timestamps. *)
Definition later (a b : string) : bool := instant_of b <? instant_of a.
End Cache.
Import Cache.

(** ** Cache entries *)

Record CacheEntry := {
  ce_cache_key : string;
  ce_kind : string;
  ce_content_id : option string;
  ce_sha256 : string;
  ce_relative_path : string;
  ce_size_bytes : Z;
  ce_reclaimable_bytes : Z;
  ce_accounting_basis : string;
  ce_provider_name : string;
  ce_retention_class : string;
  ce_pinned : bool;
  ce_active_leases : list string;
  ce_future_dependencies : list string;
  ce_dependencies : list string;
  ce_last_used_at : string;
  ce_reacquisition_time_seconds : Z;
  ce_reacquisition_cost_microunits : Z;
  ce_reconstruction_difficulty : Z;
  ce_upstream_fragility : Z;
  ce_verification_status : string;
  ce_verified_at : option string;
  ce_observed_at : string;
  ce_source : string;
  ce_staleness_seconds : Z;
  ce_registry_authority : bool
}.

Definition token_group (name : string) (values : list string) : result unit :=
  _require_unique name values;; for_each values (_require_token name).

#[export] Instance CacheEntry_post_init : Dataclass CacheEntry := fun self =>
  _require_token "cache key" (ce_cache_key self);;
  raise_if (negb (mem (ce_kind self) CACHE_KINDS)) (ValueError ("invalid cache kind: " +:+ ce_kind self));;
  raise_if (match ce_content_id self with Some c => negb (fullmatch RCID_PATTERN c) | None => false end)
    (ValueError "cache content ID must be a canonical rcid");;
  _require_sha256 "cache digest" (Some (ce_sha256 self));;
  _require_relative_path (ce_relative_path self);;
  _require_safe_integer false "size_bytes" (Some (ce_size_bytes self));;
  _require_safe_integer false "reclaimable_bytes" (Some (ce_reclaimable_bytes self));;
  _require_safe_integer false "reacquisition_time_seconds" (Some (ce_reacquisition_time_seconds self));;
  _require_safe_integer false "reacquisition_cost_microunits" (Some (ce_reacquisition_cost_microunits self));;
  _require_safe_integer false "staleness_seconds" (Some (ce_staleness_seconds self));;
  raise_if (negb (mem (ce_accounting_basis self) ["logical"; "allocated"]))
    (ValueError "cache accounting basis must be logical or allocated");;
  _require_token "cache provider name" (ce_provider_name self);;
  raise_if (negb (mem (ce_retention_class self) RETENTION_CLASSES))
    (ValueError ("invalid cache retention class: " +:+ ce_retention_class self));;
  raise_if (ce_registry_authority self) (ValueError "local cache entries can never claim registry authority");;
  token_group "active leases" (ce_active_leases self);;
  token_group "future dependencies" (ce_future_dependencies self);;
  token_group "cache dependencies" (ce_dependencies self);;
  raise_if (mem (ce_cache_key self) (ce_dependencies self))
    (ValueError "cache entries cannot depend on themselves");;
  _require_timestamp (Some (ce_last_used_at self));;
  _require_safe_integer false "reconstruction difficulty" (Some (ce_reconstruction_difficulty self));;
  _require_safe_integer false "upstream fragility" (Some (ce_upstream_fragility self));;
  raise_if (negb ((0 <=? ce_reconstruction_difficulty self) && (ce_reconstruction_difficulty self <=? 100)))
    (ValueError "reconstruction difficulty must be between 0 and 100");;
  raise_if (negb ((0 <=? ce_upstream_fragility self) && (ce_upstream_fragility self <=? 100)))
    (ValueError "upstream fragility must be between 0 and 100");;
  raise_if (negb (mem (ce_verification_status self) VERIFICATION_STATES))
    (ValueError ("invalid cache verification state: " +:+ ce_verification_status self));;
  _require_timestamp (ce_verified_at self);;
  _require_timestamp (Some (ce_observed_at self));;
  raise_if (String.eqb (ce_verification_status self) "verified" && is_none (ce_verified_at self))
    (ValueError "verified cache entries require a verification timestamp");;
  raise_if (negb (String.eqb (ce_verification_status self) "verified") && is_some (ce_verified_at self))
    (ValueError "non-verified cache entries cannot claim a verification timestamp");;
  raise_if (later (ce_last_used_at self) (ce_observed_at self))
    (ValueError "cache last-use time cannot follow its observation");;
  raise_if (match ce_verified_at self with Some v => later v (ce_observed_at self) | None => false end)
    (ValueError "cache verification time cannot follow its observation");;
  raise_if (str_empty (ce_source self)) (ValueError "cache inventory source is required").

Definition hard_protection_reasons (self : CacheEntry) : list string :=
  (if ce_pinned self then ["pinned"] else []) ++
  (if negb (list_empty (ce_active_leases self)) then ["active-lease"] else []) ++
  (if negb (list_empty (ce_future_dependencies self)) then ["future-dependency"] else []) ++
  (if String.eqb (ce_kind self) "protected-spool" || String.eqb (ce_retention_class self) "protected-spool"
   then ["protected-spool"] else []) ++
  (if String.eqb (ce_retention_class self) "registry-authority" then ["registry-authority"] else []) ++
  (if String.eqb (ce_retention_class self) "rare-fragile" then ["rare-fragile"] else []) ++
  (if negb (String.eqb (ce_verification_status self) "verified") then ["not-verified"] else []).

Definition entry_to_dict (self : CacheEntry) : json :=
  JObj [("accounting_basis", JStr (ce_accounting_basis self));
        ("active_leases", JStrs (sorted_strings (ce_active_leases self)));
        ("cache_key", JStr (ce_cache_key self)); ("content_id", JOptStr (ce_content_id self));
        ("dependencies", JStrs (sorted_strings (ce_dependencies self)));
        ("future_dependencies", JStrs (sorted_strings (ce_future_dependencies self)));
        ("kind", JStr (ce_kind self)); ("last_used_at", JStr (ce_last_used_at self));
        ("observed_at", JStr (ce_observed_at self)); ("pinned", JBool (ce_pinned self));
        ("provider_name", JStr (ce_provider_name self));
        ("reacquisition_cost_microunits", JInt (ce_reacquisition_cost_microunits self));
        ("reacquisition_time_seconds", JInt (ce_reacquisition_time_seconds self));
        ("reclaimable_bytes", JInt (ce_reclaimable_bytes self));
        ("reconstruction_difficulty", JInt (ce_reconstruction_difficulty self));
        ("registry_authority", JBool (ce_registry_authority self));
        ("relative_path", JStr (ce_relative_path self)); ("retention_class", JStr (ce_retention_class self));
        ("sha256", JStr (ce_sha256 self)); ("size_bytes", JInt (ce_size_bytes self));
        ("source", JStr (ce_source self)); ("staleness_seconds", JInt (ce_staleness_seconds self));
        ("upstream_fragility", JInt (ce_upstream_fragility self));
        ("verification_status", JStr (ce_verification_status self));
        ("verified_at", JOptStr (ce_verified_at self))].

(** ** Inventories and reconciliations *)

Record CacheInventory := {
  ci_observed_at : string;
  ci_inventory_digest : string;
  ci_entries : list CacheEntry
}.

#[export] Instance CacheInventory_post_init : Dataclass CacheInventory := fun self =>
  _require_timestamp (Some (ci_observed_at self));;
  _require_sha256 "cache inventory digest" (Some (ci_inventory_digest self));;
  _require_unique "cache keys" (ce_cache_key <$> ci_entries self);;
  _require_unique "cache paths" (ce_relative_path <$> ci_entries self);;
  raise_if (existsb (fun item => later (ce_observed_at item) (ci_observed_at self)) (ci_entries self))
    (ValueError "cache entry observations cannot follow the inventory observation").

Definition inventory_to_dict (self : CacheInventory) : json :=
  JObj [("canonical_authority", JBool false);
        ("entries", JArr (entry_to_dict <$> sorted_by ce_cache_key (ci_entries self)));
        ("inventory_digest", JStr (ci_inventory_digest self)); ("observed_at", JStr (ci_observed_at self));
        ("schema_version", JStr "cache-inventory.v1")].

Record CacheReality := {
  cr_cache_key : string;
  cr_status : string;
  cr_actual_sha256 : option string;
  cr_actual_size_bytes : option Z;
  cr_actual_reclaimable_bytes : option Z;
  cr_accounting_basis : option string;
  cr_observed_at : string;
  cr_source : string;
  cr_diagnostic : option string
}.

#[export] Instance CacheReality_post_init : Dataclass CacheReality := fun self =>
  _require_token "cache reality key" (cr_cache_key self);;
  raise_if (negb (mem (cr_status self) REALITY_STATES))
    (ValueError ("invalid cache reality state: " +:+ cr_status self));;
  _require_sha256 "actual cache digest" (cr_actual_sha256 self);;
  _require_safe_integer false "actual cache size" (cr_actual_size_bytes self);;
  _require_safe_integer false "actual reclaimable bytes" (cr_actual_reclaimable_bytes self);;
  raise_if (match cr_accounting_basis self with Some b => negb (mem b ["logical"; "allocated"]) | None => false end)
    (ValueError "invalid cache reality accounting basis");;
  _require_timestamp (Some (cr_observed_at self));;
  raise_if (str_empty (cr_source self)) (ValueError "cache reality source is required");;
  raise_if (String.eqb (cr_status self) "verified" &&
            (is_none (cr_actual_sha256 self) || is_none (cr_actual_size_bytes self) ||
             is_none (cr_actual_reclaimable_bytes self) || is_none (cr_accounting_basis self)))
    (ValueError "verified cache reality requires digest, sizes, and accounting basis");;
  raise_if (negb (String.eqb (cr_status self) "verified") && opt_str_empty (cr_diagnostic self))
    (ValueError "unverified cache reality requires a diagnostic").

Definition reality_to_dict (self : CacheReality) : json :=
  JObj [("accounting_basis", JOptStr (cr_accounting_basis self));
        ("actual_reclaimable_bytes", JOptInt (cr_actual_reclaimable_bytes self));
        ("actual_sha256", JOptStr (cr_actual_sha256 self)); ("actual_size_bytes", JOptInt (cr_actual_size_bytes self));
        ("cache_key", JStr (cr_cache_key self)); ("diagnostic", JOptStr (cr_diagnostic self));
        ("observed_at", JStr (cr_observed_at self)); ("source", JStr (cr_source self));
        ("status", JStr (cr_status self))].

Record CacheReconciliation := {
  crec_inventory_digest : string;
  crec_observed_at : string;
  crec_observations : list CacheReality
}.

#[export] Instance CacheReconciliation_post_init : Dataclass CacheReconciliation := fun self =>
  _require_sha256 "reconciled inventory digest" (Some (crec_inventory_digest self));;
  _require_timestamp (Some (crec_observed_at self));;
  _require_unique "reconciled cache keys" (cr_cache_key <$> crec_observations self);;
  raise_if (existsb (fun item => later (cr_observed_at item) (crec_observed_at self)) (crec_observations self))
    (ValueError "cache reality observations cannot follow their reconciliation").

Definition reconciliation_to_dict (self : CacheReconciliation) : json :=
  JObj [("inventory_digest", JStr (crec_inventory_digest self));
        ("observations", JArr (reality_to_dict <$> sorted_by cr_cache_key (crec_observations self)));
        ("observed_at", JStr (crec_observed_at self))].

(** ** Eviction policies and cleanup plans *)

Record EvictionPolicy := {
  ep_bytes_weight : Z;
  ep_age_weight : Z;
  ep_reacquisition_time_penalty : Z;
  ep_reacquisition_cost_penalty : Z;
  ep_reconstruction_penalty : Z;
  ep_fragility_penalty : Z;
  ep_expensive_reconstruction_penalty : Z;
  ep_maximum_inventory_age_seconds : Z
}.

#[export] Instance EvictionPolicy_post_init : Dataclass EvictionPolicy := fun self =>
  _require_safe_integer true "bytes_weight" (Some (ep_bytes_weight self));;
  _require_safe_integer true "age_weight" (Some (ep_age_weight self));;
  _require_safe_integer true "reacquisition_time_penalty" (Some (ep_reacquisition_time_penalty self));;
  _require_safe_integer true "reacquisition_cost_penalty" (Some (ep_reacquisition_cost_penalty self));;
  _require_safe_integer true "reconstruction_penalty" (Some (ep_reconstruction_penalty self));;
  _require_safe_integer true "fragility_penalty" (Some (ep_fragility_penalty self));;
  _require_safe_integer true "expensive_reconstruction_penalty" (Some (ep_expensive_reconstruction_penalty self));;
  _require_safe_integer true "maximum_inventory_age_seconds" (Some (ep_maximum_inventory_age_seconds self)).

Definition policy_to_dict (self : EvictionPolicy) : json :=
  JObj [("age_weight", JInt (ep_age_weight self)); ("bytes_weight", JInt (ep_bytes_weight self));
        ("expensive_reconstruction_penalty", JInt (ep_expensive_reconstruction_penalty self));
        ("fragility_penalty", JInt (ep_fragility_penalty self));
        ("maximum_inventory_age_seconds", JInt (ep_maximum_inventory_age_seconds self));
        ("reacquisition_cost_penalty", JInt (ep_reacquisition_cost_penalty self));
        ("reacquisition_time_penalty", JInt (ep_reacquisition_time_penalty self));
        ("reconstruction_penalty", JInt (ep_reconstruction_penalty self))].

Record EvictionCandidate := {
  ecand_cache_key : string;
  ecand_score : Z;
  ecand_expected_reclaim_bytes : Z;
  ecand_rank : Z
}.

#[export] Instance EvictionCandidate_post_init : Dataclass EvictionCandidate := fun self =>
  _require_token "eviction candidate key" (ecand_cache_key self);;
  _require_signed_safe_integer "eviction score" (ecand_score self);;
  _require_safe_integer true "expected reclaim bytes" (Some (ecand_expected_reclaim_bytes self));;
  _require_safe_integer true "eviction rank" (Some (ecand_rank self)).

Definition candidate_to_dict (self : EvictionCandidate) : json :=
  JObj [("cache_key", JStr (ecand_cache_key self));
        ("expected_reclaim_bytes", JInt (ecand_expected_reclaim_bytes self));
        ("rank", JInt (ecand_rank self)); ("score", JInt (ecand_score self))].

Record EvictionExclusion := { eexc_cache_key : string; eexc_reasons : list string }.

#[export] Instance EvictionExclusion_post_init : Dataclass EvictionExclusion := fun self =>
  _require_token "excluded cache key" (eexc_cache_key self);;
  raise_if (list_empty (eexc_reasons self)) (ValueError "cache exclusions require reasons");;
  _require_unique "cache exclusion reasons" (eexc_reasons self);;
  for_each (eexc_reasons self) (_require_token "cache exclusion reason").

Definition exclusion_to_dict (self : EvictionExclusion) : json :=
  JObj [("cache_key", JStr (eexc_cache_key self)); ("reasons", JStrs (sorted_strings (eexc_reasons self)))].

Record CleanupPlan := {
  cp_cleanup_id : string;
  cp_inventory_digest : string;
  cp_created_at : string;
  cp_target_reclaim_bytes : Z;
  cp_expected_reclaim_bytes : Z;
  cp_outcome : string;
  cp_policy : EvictionPolicy;
  cp_selected : list EvictionCandidate;
  cp_exclusions : list EvictionExclusion
}.

#[export] Instance CleanupPlan_post_init : Dataclass CleanupPlan := fun self =>
  raise_if (negb (fullmatch OPID_PATTERN (cp_cleanup_id self)) ||
            negb (str_contains (cp_cleanup_id self) ":cache-cleanup:"))
    (ValueError "cleanup ID must be an operational cache-cleanup UUIDv7");;
  _require_sha256 "cleanup inventory digest" (Some (cp_inventory_digest self));;
  _require_timestamp (Some (cp_created_at self));;
  _require_safe_integer true "target reclaim bytes" (Some (cp_target_reclaim_bytes self));;
  _require_safe_integer false "expected reclaim bytes" (Some (cp_expected_reclaim_bytes self));;
  raise_if (negb (mem (cp_outcome self) ["ready"; "refused"]))
    (ValueError "cleanup plan outcome must be ready or refused");;
  _require_unique "selected cache keys" (ecand_cache_key <$> cp_selected self);;
  _require_unique "excluded cache keys" (eexc_cache_key <$> cp_exclusions self);;
  raise_if (existsb (fun k => mem k (eexc_cache_key <$> cp_exclusions self)) (ecand_cache_key <$> cp_selected self))
    (ValueError "cache entries cannot be selected and excluded");;
  raise_if (negb (bool_decide (ecand_rank <$> cp_selected self = ranks (length (cp_selected self)))))
    (ValueError "selected cache candidates require contiguous ranks");;
  raise_if (negb (cp_expected_reclaim_bytes self =? sumZ (ecand_expected_reclaim_bytes <$> cp_selected self)))
    (ValueError "cleanup expected bytes must equal selected candidate bytes");;
  raise_if (String.eqb (cp_outcome self) "ready" && (cp_expected_reclaim_bytes self <? cp_target_reclaim_bytes self))
    (ValueError "ready cleanup plans must meet their reclaim target");;
  raise_if (String.eqb (cp_outcome self) "refused" && (cp_target_reclaim_bytes self <=? cp_expected_reclaim_bytes self))
    (ValueError "refused cleanup plans cannot already meet their target").

Definition plan_to_dict (self : CleanupPlan) : json :=
  JObj [("cleanup_id", JStr (cp_cleanup_id self)); ("created_at", JStr (cp_created_at self));
        ("exclusions", JArr (exclusion_to_dict <$> sorted_by eexc_cache_key (cp_exclusions self)));
        ("expected_reclaim_bytes", JInt (cp_expected_reclaim_bytes self));
        ("inventory_digest", JStr (cp_inventory_digest self)); ("mutation_permitted", JBool false);
        ("outcome", JStr (cp_outcome self)); ("policy", policy_to_dict (cp_policy self));
        ("selected", JArr (candidate_to_dict <$> cp_selected self));
        ("target_reclaim_bytes", JInt (cp_target_reclaim_bytes self))].

(** ** Cleanup reports *)

Record CleanupMutation := {
  mut_cache_key : string;
  mut_expected_reclaim_bytes : Z;
  mut_actual_reclaim_bytes : Z;
  mut_outcome : string;
  mut_code : string;
  mut_detail : string
}.

#[export] Instance CleanupMutation_post_init : Dataclass CleanupMutation := fun self =>
  _require_token "cleanup mutation key" (mut_cache_key self);;
  _require_safe_integer false "expected mutation bytes" (Some (mut_expected_reclaim_bytes self));;
  _require_safe_integer false "actual mutation bytes" (Some (mut_actual_reclaim_bytes self));;
  raise_if (negb (mem (mut_outcome self) ["deleted"; "skipped"; "failed"]))
    (ValueError "invalid cleanup mutation outcome");;
  _require_token "cleanup mutation code" (mut_code self);;
  raise_if (str_empty (mut_detail self)) (ValueError "cleanup mutations require detail");;
  raise_if (negb (String.eqb (mut_outcome self) "deleted") && negb (mut_actual_reclaim_bytes self =? 0))
    (ValueError "only verified deletion may report actual reclaimed bytes").

Definition mutation_to_dict (self : CleanupMutation) : json :=
  JObj [("actual_reclaim_bytes", JInt (mut_actual_reclaim_bytes self)); ("cache_key", JStr (mut_cache_key self));
        ("code", JStr (mut_code self)); ("detail", JStr (mut_detail self));
        ("expected_reclaim_bytes", JInt (mut_expected_reclaim_bytes self)); ("outcome", JStr (mut_outcome self))].

Record CleanupReport := {
  crep_plan : CleanupPlan;
  crep_state : string;
  crep_started_at : string;
  crep_completed_at : string;
  crep_actual_reclaim_bytes : Z;
  crep_mutations : list CleanupMutation
}.

#[export] Instance CleanupReport_post_init : Dataclass CleanupReport := fun self =>
  let plan := crep_plan self in
  let mutations := crep_mutations self in
  let state := crep_state self in
  raise_if (negb (mem state ["completed"; "partial"; "refused"; "cancelled"]))
    (ValueError "invalid cleanup report state");;
  _require_timestamp (Some (crep_started_at self));;
  _require_timestamp (Some (crep_completed_at self));;
  raise_if (later (crep_started_at self) (crep_completed_at self))
    (ValueError "cleanup reports cannot complete before they start");;
  _require_safe_integer false "actual cleanup bytes" (Some (crep_actual_reclaim_bytes self));;
  _require_unique "cleanup mutation keys" (mut_cache_key <$> mutations);;
  raise_if (negb (crep_actual_reclaim_bytes self =? sumZ (mut_actual_reclaim_bytes <$> mutations)))
    (ValueError "cleanup actual bytes must reconcile with mutations");;
  let selected_keys := ecand_cache_key <$> cp_selected plan in
  let mutation_keys := mut_cache_key <$> mutations in
  raise_if (negb (bool_decide (mutation_keys = take (length mutation_keys) selected_keys)))
    (ValueError "cleanup mutations must be an ordered prefix of selected candidates");;
  raise_if (existsb (fun p => negb (mut_expected_reclaim_bytes p.1 =? ecand_expected_reclaim_bytes p.2))
              (zip mutations (cp_selected plan)))
    (ValueError "cleanup mutation expectations must match the immutable plan");;
  raise_if (String.eqb state "refused" &&
            (negb (String.eqb (cp_outcome plan) "refused") || negb (list_empty mutations)))
    (ValueError "refused reports require a refused non-mutating plan");;
  raise_if (mem state ["partial"; "cancelled"] && list_empty mutations)
    (ValueError "partial and cancelled cleanup reports require an attempted candidate");;
  raise_if (String.eqb state "cancelled" &&
            match last mutations with
            | Some m => negb (String.eqb (mut_outcome m) "skipped") || negb (String.eqb (mut_code m) "cancelled")
            | None => false
            end)
    (ValueError "cancelled cleanup reports require a final cancelled skip");;
  raise_if (String.eqb state "completed" && existsb (fun m => negb (String.eqb (mut_outcome m) "deleted")) mutations)
    (ValueError "completed cleanup reports require every selected deletion to succeed");;
  raise_if (String.eqb state "completed" && negb (bool_decide (mutation_keys = selected_keys)))
    (ValueError "completed cleanup reports require every selected candidate");;
  raise_if (String.eqb state "completed" && negb (crep_actual_reclaim_bytes self =? cp_expected_reclaim_bytes plan))
    (ValueError "completed cleanup reports must reconcile every expected byte").

Definition report_to_dict (self : CleanupReport) : json :=
  JObj [("actual_reclaim_bytes", JInt (crep_actual_reclaim_bytes self));
        ("completed_at", JStr (crep_completed_at self));
        ("mutations", JArr (mutation_to_dict <$> crep_mutations self)); ("plan", plan_to_dict (crep_plan self));
        ("registry_authority_mutated", JBool false); ("schema_version", JStr "cache-cleanup.v1");
        ("started_at", JStr (crep_started_at self)); ("state", JStr (crep_state self))].

(** ** Transfers *)

(** [re.search]: some substring is in the language. *)
Definition any_text : regex := RStar (RClass [("000", "255")]%char).
Definition re_search (r : regex) (s : string) : bool := fullmatch (RSeq any_text (RSeq r any_text)) s.

(** A literal under [re.IGNORECASE]. *)
Definition upper_of (c : ascii) : ascii := if is_lower c then ascii_of_N (N_of_ascii c - 32)%N else c.
Fixpoint RLitI (s : string) : regex :=
  match s with EmptyString => REps | String c s' => RSeq (RClass [(c, c); (upper_of c, upper_of c)]) (RLitI s') end.

(** [://[^/?#]*@] *)
Definition LOCATOR_USERINFO : regex :=
  RSeq (RLit "://") (RSeq (RStar (RClass [("000", "034"); ("036", "046"); ("048", "062"); ("064", "255")]%char))
                          (RLit "@")).

(** [[?&](?:access[_-]?token|api[_-]?key|credential|password|secret|token)=], ignoring case *)
Definition LOCATOR_SECRET : regex :=
  let sep := RAlt REps (RClass [("_", "_"); ("-", "-")]%char) in
  RSeq (RClass [("?", "?"); ("&", "&")]%char)
    (RSeq (RAlt (RSeq (RLitI "access") (RSeq sep (RLitI "token")))
          (RAlt (RSeq (RLitI "api") (RSeq sep (RLitI "key")))
          (RAlt (RLitI "credential") (RAlt (RLitI "password") (RAlt (RLitI "secret") (RLitI "token"))))))
      (RLit "=")).

Record TransferRequirement := {
  treq_transfer_id : string;
  treq_operation : string;
  treq_locator : string;
  treq_expected_sha256 : string;
  treq_expected_size_bytes : Z;
  treq_relative_path : string;
  treq_cache_key : option string
}.

#[export] Instance TransferRequirement_post_init : Dataclass TransferRequirement := fun self =>
  raise_if (negb (fullmatch OPID_PATTERN (treq_transfer_id self)) ||
            negb (str_contains (treq_transfer_id self) ":transfer:"))
    (ValueError "transfer ID must be an operational transfer UUIDv7");;
  raise_if (negb (mem (treq_operation self) ["acquire"; "download"; "upload"]))
    (ValueError "invalid transfer operation");;
  raise_if (str_empty (treq_locator self) || has_line_breaks (treq_locator self))
    (ValueError "transfer locator must be a non-empty single-line value");;
  raise_if (re_search LOCATOR_USERINFO (treq_locator self) || re_search LOCATOR_SECRET (treq_locator self))
    (ValueError "transfer locators cannot embed credentials or secret query parameters");;
  _require_sha256 "transfer digest" (Some (treq_expected_sha256 self));;
  _require_safe_integer false "transfer size" (Some (treq_expected_size_bytes self));;
  _require_relative_path (treq_relative_path self);;
  match treq_cache_key self with Some k => _require_token "transfer cache key" k | None => Ok tt end.

Definition requirement_to_dict (self : TransferRequirement) : json :=
  JObj [("cache_key", JOptStr (treq_cache_key self)); ("expected_sha256", JStr (treq_expected_sha256 self));
        ("expected_size_bytes", JInt (treq_expected_size_bytes self)); ("locator", JStr (treq_locator self));
        ("operation", JStr (treq_operation self)); ("relative_path", JStr (treq_relative_path self));
        ("transfer_id", JStr (treq_transfer_id self))].

Record TransferAttempt := {
  tat_sequence : Z;
  tat_started_at : string;
  tat_completed_at : string;
  tat_offset_start : Z;
  tat_offset_end : Z;
  tat_outcome : string;
  tat_code : string;
  tat_detail : string
}.

#[export] Instance TransferAttempt_post_init : Dataclass TransferAttempt := fun self =>
  _require_safe_integer true "transfer attempt sequence" (Some (tat_sequence self));;
  _require_timestamp (Some (tat_started_at self));;
  _require_timestamp (Some (tat_completed_at self));;
  raise_if (later (tat_started_at self) (tat_completed_at self))
    (ValueError "transfer attempts cannot complete before they start");;
  _require_safe_integer false "transfer offset start" (Some (tat_offset_start self));;
  _require_safe_integer false "transfer offset end" (Some (tat_offset_end self));;
  raise_if (tat_offset_end self <? tat_offset_start self)
    (ValueError "transfer attempts cannot move checkpoints backward");;
  raise_if (negb (mem (tat_outcome self) ["interrupted"; "failed"; "completed"]))
    (ValueError "invalid transfer attempt outcome");;
  _require_token "transfer attempt code" (tat_code self);;
  raise_if (str_empty (tat_detail self)) (ValueError "transfer attempts require detail").

Definition attempt_to_dict (self : TransferAttempt) : json :=
  JObj [("code", JStr (tat_code self)); ("completed_at", JStr (tat_completed_at self));
        ("detail", JStr (tat_detail self)); ("offset_end", JInt (tat_offset_end self));
        ("offset_start", JInt (tat_offset_start self)); ("outcome", JStr (tat_outcome self));
        ("sequence", JInt (tat_sequence self)); ("started_at", JStr (tat_started_at self))].

Record TransferRecord := {
  trec_requirement : TransferRequirement;
  trec_state : string;
  trec_bytes_completed : Z;
  trec_checkpoint_sha256 : string;
  trec_attempts : list TransferAttempt;
  trec_verified_sha256 : option string;
  trec_verified_size_bytes : option Z;
  trec_resumable : bool
}.

(** The loop over the attempts: each starts where the last one ended. *)
Fixpoint contiguous_history (expected_offset : Z) (attempts : list TransferAttempt) : result unit :=
  match attempts with
  | [] => Ok tt
  | a :: rest =>
      raise_if (negb (tat_offset_start a =? expected_offset))
        (ValueError "transfer attempts must form a contiguous checkpoint history");;
      contiguous_history (tat_offset_end a) rest
  end.

Definition last_outcome_is (attempts : list TransferAttempt) (outcome : string) : bool :=
  match last attempts with Some a => String.eqb (tat_outcome a) outcome | None => false end.

Definition planned_guards (self : TransferRecord) : result unit :=
  raise_if (negb (trec_bytes_completed self =? 0) || negb (list_empty (trec_attempts self)))
    (ValueError "planned transfers cannot contain physical attempts");;
  raise_if (negb (String.eqb (trec_checkpoint_sha256 self) EMPTY_SHA256))
    (ValueError "planned transfers require the empty-byte checkpoint digest").

Definition completed_guards (self : TransferRecord) : result unit :=
  let requirement := trec_requirement self in
  raise_if (negb (last_outcome_is (trec_attempts self) "completed"))
    (ValueError "completed transfer requires a completed physical attempt");;
  raise_if (negb (bool_decide (trec_verified_sha256 self = Some (treq_expected_sha256 requirement))))
    (ValueError "completed transfer digest must match the immutable requirement");;
  raise_if (negb (bool_decide (trec_verified_size_bytes self = Some (treq_expected_size_bytes requirement))))
    (ValueError "completed transfer size must match the immutable requirement");;
  raise_if (negb (trec_bytes_completed self =? treq_expected_size_bytes requirement))
    (ValueError "completed transfer checkpoint must reach the expected size");;
  raise_if (negb (String.eqb (trec_checkpoint_sha256 self) (treq_expected_sha256 requirement)))
    (ValueError "completed transfer checkpoint must match the expected digest").

Definition incomplete_guards (self : TransferRecord) : result unit :=
  raise_if (mem (trec_state self) ["interrupted"; "failed"] &&
            negb (last_outcome_is (trec_attempts self) (trec_state self)))
    (ValueError "incomplete transfer state must match its latest physical attempt");;
  raise_if (is_some (trec_verified_sha256 self) || is_some (trec_verified_size_bytes self))
    (ValueError "incomplete transfers cannot claim final verification").

#[export] Instance TransferRecord_post_init : Dataclass TransferRecord := fun self =>
  raise_if (negb (mem (trec_state self) ["planned"; "interrupted"; "failed"; "completed"]))
    (ValueError "invalid transfer state");;
  _require_safe_integer false "transfer checkpoint bytes" (Some (trec_bytes_completed self));;
  _require_sha256 "transfer checkpoint digest" (Some (trec_checkpoint_sha256 self));;
  _require_unique "transfer attempt sequences" ((fun a => dec (tat_sequence a)) <$> trec_attempts self);;
  raise_if (negb (bool_decide (tat_sequence <$> trec_attempts self = ranks (length (trec_attempts self)))))
    (ValueError "transfer attempts require contiguous sequence numbers");;
  raise_if (match last (trec_attempts self) with
            | Some a => negb (trec_bytes_completed self =? tat_offset_end a)
            | None => false
            end)
    (ValueError "transfer checkpoint must equal the last physical attempt offset");;
  contiguous_history 0 (trec_attempts self);;
  raise_if (treq_expected_size_bytes (trec_requirement self) <? trec_bytes_completed self)
    (ValueError "transfer checkpoint cannot exceed expected size");;
  _require_sha256 "verified transfer digest" (trec_verified_sha256 self);;
  _require_safe_integer false "verified transfer size" (trec_verified_size_bytes self);;
  (if String.eqb (trec_state self) "planned" then planned_guards self else Ok tt);;
  (if String.eqb (trec_state self) "completed" then completed_guards self else incomplete_guards self).

Definition record_to_dict (self : TransferRecord) : json :=
  JObj [("attempts", JArr (attempt_to_dict <$> trec_attempts self));
        ("bytes_completed", JInt (trec_bytes_completed self));
        ("checkpoint_sha256", JStr (trec_checkpoint_sha256 self));
        ("requirement", requirement_to_dict (trec_requirement self)); ("resumable", JBool (trec_resumable self));
        ("schema_version", JStr "transfer-record.v1"); ("state", JStr (trec_state self));
        ("verified_sha256", JOptStr (trec_verified_sha256 self));
        ("verified_size_bytes", JOptInt (trec_verified_size_bytes self))].

(** A transfer locator cannot carry credentials: sample verdicts. *)
Example locator_secrets :
  (fun l => re_search LOCATOR_USERINFO l || re_search LOCATOR_SECRET l) <$>
    ["https://user@example.org/a"; "https://example.org/a?Access-Token=1"; "https://example.org/a@b?q=token"] =
  [true; true; false].
Proof. by vm_compute. Qed.

(** * Relative paths: the components of an accepted cache path *)


Definition plain_component (p : string) : Prop :=
  p <> "" /\ p <> "." /\ p <> ".." /\ contains_char "/" p = false /\ contains_char backslash p = false.

Lemma join_cons p q l : join "/" (p :: q :: l) = p +:+ String "/" (join "/" (q :: l)).
Proof. done. Qed.

Lemma join_avoids b parts :
  Ascii.eqb b "/" = false -> Forall (fun p => contains_char b p = false) parts ->
  contains_char b (join "/" parts) = false.
Proof.
  intros Hb. induction 1 as [|p parts Hp Hps IH]; [done|]. destruct parts as [|q parts]; [done|].
  rewrite join_cons, contains_char_app, Hp. cbn [contains_char orb]. by rewrite Hb, IH.
Qed.

Lemma plain_posix_parts parts :
  parts <> [] -> Forall plain_component parts -> posix_parts (join "/" parts) = parts.
Proof.
  intros Hne Hp. unfold posix_parts. rewrite (split_join "/"); [|done|by eapply Forall_impl; [exact Hp|intros ? (? & ? & ? & ? & ?)]].
  apply List.forallb_filter_id, List.forallb_forall. intros p Hin%list_elem_of_In.
  rewrite Forall_forall in Hp. destruct (Hp p Hin) as (H1 & H2 & _).
  unfold str_empty. apply String.eqb_neq in H1, H2. by rewrite H1, H2.
Qed.

Lemma plain_relative parts :
  parts <> [] -> Forall plain_component parts ->
  is_absolute (join "/" parts) = false /\ str_empty (join "/" parts) = false.
Proof.
  intros Hne Hp. destruct parts as [|p parts]; [done|]. apply Forall_cons in Hp as [(H1 & _ & _ & H4 & _) _].
  destruct p as [|c p]; [done|]. cbn [contains_char] in H4. apply orb_false_iff in H4 as [H4 _].
  assert (exists rest, join "/" (String c p :: parts) = String c rest) as [rest ->]
    by (destruct parts; [by exists p|by eexists]).
  split; [|done]. unfold is_absolute, str_startswith. cbn [String.prefix]. apply Ascii.eqb_neq in H4.
  by destruct (ascii_dec "/" c).
Qed.

Lemma relative_path_components value :
  _require_relative_path value = Ok tt ->
  value = "." \/ exists parts, parts <> [] /\ Forall plain_component parts /\ value = join "/" parts.
Proof.
  unfold _require_relative_path. rewrite raise_if_ok, !orb_false_iff.
  intros ((((H1 & H2) & H3) & H4) & H5). apply negb_false_iff, String.eqb_eq in H4.
  unfold as_posix in H4. rewrite H3 in H4. cbn [append] in H4.
  destruct (str_empty (join "/" (posix_parts value))) eqn:Ej; [by left|right].
  exists (posix_parts value). split; [by intros E; rewrite E in Ej|]. split; [|done].
  apply Forall_forall. intros p Hp. rewrite existsb_false, Forall_forall in H5.
  specialize (H5 p Hp). apply mem_false in H5. unfold posix_parts in Hp.
  apply elem_of_lfilter in Hp as [Hp _]. pose proof (split_on_no_sep "/" value) as Hs.
  pose proof (split_on_avoids "/" backslash value H2) as Hb. rewrite Forall_forall in Hs, Hb.
  split_and!; try (intros ->; apply H5; set_solver); auto.
Qed.
