(* ===== verification/CacheManager.v ===== *)
(** * The cache manager: reconciliation, cleanup planning and cleanup

    cache_manager.py, [CacheManager].  The clock, the cache provider, the
    operation identifiers, the cancellation flag and the event publisher are the
    collaborators of [Effects.v] and the classes below.  Ages are compared
    exactly in microseconds; the source compares [total_seconds()], which is the
    same comparison for ages below 2^34 seconds. *)

From S2P Require Export Effects CacheModels.
Import Cache.

Record DeletionResult := {
  del_succeeded : bool;
  del_actual_reclaim_bytes : Z;
  del_code : string;
  del_detail : string
}.

#[export] Instance DeletionResult_post_init : Dataclass DeletionResult := fun self =>
  raise_if (negb (safe_nonneg (del_actual_reclaim_bytes self)))
    (ValueError "actual deleted bytes must be a non-negative safe integer");;
  raise_if (negb (del_succeeded self) && negb (del_actual_reclaim_bytes self =? 0))
    (ValueError "failed deletion cannot report reclaimed bytes");;
  raise_if (negb (fullmatch TOKEN_PATTERN (del_code self)) || str_empty (del_detail self))
    (ValueError "deletion results require a code and detail").

Class OperationIds (W : Type) := { new_cleanup_id : eff W string; new_transfer_id : eff W string }.
Class CacheProvider (W : Type) := {
  inspect : CacheEntry -> eff W CacheReality;
  delete_verified : CacheEntry -> string -> eff W DeletionResult
}.

(** ** Digests *)

Section Digests.
Context `{JCS}.

Definition _inventory_payload (observed_at : string) (entries : list CacheEntry) : json :=
  JObj [("canonical_authority", JBool false);
        ("entries", JArr (entry_to_dict <$> sorted_by ce_cache_key entries));
        ("observed_at", JStr observed_at); ("schema_version", JStr "cache-inventory.v1")].

Definition inventory_digest (observed_at : string) (entries : list CacheEntry) : result string :=
  match sha256_json (_inventory_payload observed_at entries) with
  | Some d => Ok d
  | None => Raise (ValueError "cache inventory is not RFC 8785 canonicalizable")
  end.

Definition _verify_inventory (inventory : CacheInventory) : result unit :=
  expected ← inventory_digest (ci_observed_at inventory) (ci_entries inventory);
  raise_if (negb (String.eqb expected (ci_inventory_digest inventory)))
    (ValueError "cache inventory digest does not match its canonical contents").
End Digests.

Definition _safe_score (value : Z) : result Z :=
  raise_if (negb ((- SAFE_INTEGER_MAX <=? value) && (value <=? SAFE_INTEGER_MAX)))
    (OverflowError "eviction score exceeds the signed safe-integer domain");;
  Ok value.

Definition us_per_second : Z := 1000000.

(** ** Planning, the pure part *)

Section Plan.
Context (now_ : Z) (policy : EvictionPolicy).
Let max_age : Z := ep_maximum_inventory_age_seconds policy.

(** [reverse_dependencies[key]] *)
Definition reverse_dependencies (entries : list CacheEntry) (key : string) : list string :=
  ce_cache_key <$> List.filter (fun dependent => mem key (ce_dependencies dependent)) entries.

Definition check_dependencies (entries : list CacheEntry) : result unit :=
  for_each entries (fun dependent =>
    for_each (ce_dependencies dependent) (fun dependency =>
      raise_if (negb (mem dependency (ce_cache_key <$> entries)))
        (ValueError ("cache dependency " +:+ py_repr dependency +:+ " is absent from inventory")))).

(** The provider's observation agrees with the inventory entry. *)
Definition reality_matches (entry : CacheEntry) (reality : CacheReality) : bool :=
  bool_decide (cr_actual_sha256 reality = Some (ce_sha256 entry)) &&
  bool_decide (cr_actual_size_bytes reality = Some (ce_size_bytes entry)) &&
  bool_decide (cr_actual_reclaimable_bytes reality = Some (ce_reclaimable_bytes entry)) &&
  bool_decide (cr_accounting_basis reality = Some (ce_accounting_basis entry)).

Definition when_reason (c : bool) (reason : string) : list string := if c then [reason] else [].

Definition exclusion_reasons (entries : list CacheEntry) (entry : CacheEntry) (reality : CacheReality)
    : result (list string) :=
  entry_observed ← parse_timestamp (ce_observed_at entry);
  reality_observed ← parse_timestamp (cr_observed_at reality);
  last_used ← parse_timestamp (ce_last_used_at entry);
  let entry_age := now_ - entry_observed in
  let reality_age := now_ - reality_observed in
  Ok (hard_protection_reasons entry ++
      when_reason (negb (list_empty (reverse_dependencies entries (ce_cache_key entry)))) "dependency-protected" ++
      when_reason ((entry_age <? 0) || (reality_age <? 0)) "observation-in-future" ++
      when_reason ((max_age * us_per_second <? entry_age) || (max_age * us_per_second <? reality_age) ||
                   (max_age <? ce_staleness_seconds entry)) "inventory-stale" ++
      (if negb (String.eqb (cr_status reality) "verified") then ["reconciliation-" +:+ cr_status reality]
       else when_reason (negb (reality_matches entry reality)) "reconciliation-mismatch") ++
      when_reason (ce_reclaimable_bytes entry =? 0) "no-reclaimable-space" ++
      when_reason (now_ <? last_used) "last-use-in-future").

Definition eviction_score (entry : CacheEntry) (last_used : Z) : Z :=
  let last_use_age_hours := Z.max 0 (Z.quot (now_ - last_used) us_per_second / 3600) in
  ce_reclaimable_bytes entry / 1024 * ep_bytes_weight policy
  + last_use_age_hours * ep_age_weight policy
  - ce_reacquisition_time_seconds entry / 60 * ep_reacquisition_time_penalty policy
  - ce_reacquisition_cost_microunits entry / 1000 * ep_reacquisition_cost_penalty policy
  - ce_reconstruction_difficulty entry * ep_reconstruction_penalty policy
  - ce_upstream_fragility entry * ep_fragility_penalty policy
  - (if String.eqb (ce_retention_class entry) "expensive-reconstruction"
     then ep_expensive_reconstruction_penalty policy else 0).

(** One turn of the loop over the inventory: a candidate or an exclusion. *)
Definition classify (entries : list CacheEntry) (observations : gmap string CacheReality) (entry : CacheEntry)
    : result ((Z * CacheEntry) + EvictionExclusion) :=
  match observations !! ce_cache_key entry with
  | None => Raise (KeyError (ce_cache_key entry))
  | Some reality =>
      reasons ← exclusion_reasons entries entry reality;
      if negb (list_empty reasons) then
        inr <$> construct {| eexc_cache_key := ce_cache_key entry; eexc_reasons := sorted_set reasons |}
      else
        last_used ← parse_timestamp (ce_last_used_at entry);
        match _safe_score (eviction_score entry last_used) with
        | Ok score => Ok (inl (score, entry))
        | Raise (OverflowError _) =>
            inr <$> construct {| eexc_cache_key := ce_cache_key entry; eexc_reasons := ["score-overflow"] |}
        | Raise e => Raise e
        end
  end.

(** [candidates.sort(key=...)]: best score, then most space, then the key. *)
Definition candidate_order (item : Z * CacheEntry) : Z * (Z * string) :=
  (- item.1, (- ce_reclaimable_bytes item.2, ce_cache_key item.2)).

(** The selection loop: [total] bytes and [chosen] candidates so far. *)
Fixpoint select_candidates (target total : Z) (chosen : list EvictionCandidate)
    (candidates : list (Z * CacheEntry)) : result (list EvictionCandidate * Z) :=
  match candidates with
  | [] => Ok (chosen, total)
  | (score, entry) :: rest =>
      if target <=? total then Ok (chosen, total)
      else
        let total := total + ce_reclaimable_bytes entry in
        raise_if (SAFE_INTEGER_MAX <? total)
          (OverflowError "cleanup reclaim plan exceeds the safe-integer domain");;
        candidate ← construct {| ecand_cache_key := ce_cache_key entry; ecand_score := score;
                                 ecand_expected_reclaim_bytes := ce_reclaimable_bytes entry;
                                 ecand_rank := Z.of_nat (length chosen) + 1 |};
        select_candidates target total (chosen ++ [candidate]) rest
  end.

Definition lefts {A B} (l : list (A + B)) : list A := omap (fun x => match x with inl a => Some a | inr _ => None end) l.
Definition rights {A B} (l : list (A + B)) : list B := omap (fun x => match x with inr b => Some b | inl _ => None end) l.

(** The plan but for its identifier. *)
Definition cleanup_plan (inventory : CacheInventory) (observations : gmap string CacheReality)
    (target_reclaim_bytes : Z) : result (string -> CleanupPlan) :=
  let entries := ci_entries inventory in
  check_dependencies entries;;
  classes ← map_result (classify entries observations) (sorted_by ce_cache_key entries);
  '(selected, total) ← select_candidates target_reclaim_bytes 0 [] (sorted_by candidate_order (lefts classes));
  Ok (fun cleanup_id =>
    {| cp_cleanup_id := cleanup_id; cp_inventory_digest := ci_inventory_digest inventory;
       cp_created_at := rfc3339 now_; cp_target_reclaim_bytes := target_reclaim_bytes;
       cp_expected_reclaim_bytes := total;
       cp_outcome := if target_reclaim_bytes <=? total then "ready" else "refused";
       cp_policy := policy; cp_selected := selected; cp_exclusions := rights classes |}).
End Plan.

(** ** The methods *)

Section Manager.
Context `{PyTables} `{JCS} {W : Type} `{Clock W} `{OperationIds W} `{CacheProvider W} `{Cancellation W} `{Publisher W}.

(** [inventory(entries, observed_at=...)] *)
Definition inventory (entries : list CacheEntry) (observed_at : option string) : eff W CacheInventory :=
  stamp ← (match observed_at with
           | Some s => if str_empty s then t ← now; mret (rfc3339 t) else mret s
           | None => t ← now; mret (rfc3339 t)
           end);
  lift (digest ← inventory_digest stamp entries;
        construct {| ci_observed_at := stamp; ci_inventory_digest := digest; ci_entries := entries |}).

Fixpoint eff_map {A B} (f : A -> eff W B) (l : list A) : eff W (list B) :=
  match l with [] => mret [] | x :: l' => y ← f x; ys ← eff_map f l'; mret (y :: ys) end.

Definition observe (entry : CacheEntry) : eff W CacheReality :=
  reality ← try_eff (inspect entry) (fun error =>
    t ← now;
    lift (construct {| cr_cache_key := ce_cache_key entry; cr_status := "provider-error";
      cr_actual_sha256 := None; cr_actual_size_bytes := None; cr_actual_reclaimable_bytes := None;
      cr_accounting_basis := None; cr_observed_at := rfc3339 t; cr_source := ce_provider_name entry;
      cr_diagnostic := Some ("provider inspection failed with " +:+ exn_class error) |}));
  lift (raise_if (negb (String.eqb (cr_cache_key reality) (ce_cache_key entry)))
          (ValueError "cache provider returned reality for a different cache key");;
        raise_if (negb (String.eqb (cr_source reality) (ce_provider_name entry)))
          (ValueError "cache provider returned reality under a different provider identity");;
        Ok reality).

Definition reconcile (inventory : CacheInventory) : eff W CacheReconciliation :=
  _ ← lift (_verify_inventory inventory);
  observations ← eff_map observe (sorted_by ce_cache_key (ci_entries inventory));
  t ← now;
  lift (construct {| crec_inventory_digest := ci_inventory_digest inventory; crec_observed_at := rfc3339 t;
                     crec_observations := observations |}).

Definition cleanup_event (cleanup_id phase status : string) (current total : Z) (message : string)
    (attributes : list (string * json)) (terminal : bool) : EventDraft :=
  {| dr_stream_id := cleanup_id; dr_operation_kind := "cache-cleanup"; dr_event_type := "progress";
     dr_phase := phase; dr_status := status; dr_attempt := 1; dr_current := Some current;
     dr_total := Some total; dr_unit := Some "items"; dr_message := message; dr_correlation_id := None;
     dr_causation_id := None; dr_attributes := attributes; dr_terminal := terminal |}.

Definition plan_cleanup (inventory : CacheInventory) (reconciliation : CacheReconciliation)
    (target_reclaim_bytes : Z) (policy : EvictionPolicy) : eff W CleanupPlan :=
  let observations := dict_of cr_cache_key (crec_observations reconciliation) in
  _ ← lift (_verify_inventory inventory;;
            raise_if (negb (String.eqb (crec_inventory_digest reconciliation) (ci_inventory_digest inventory)))
              (ValueError "cache reconciliation belongs to a different inventory");;
            raise_if ((target_reclaim_bytes <? 1) || (SAFE_INTEGER_MAX <? target_reclaim_bytes))
              (ValueError "cleanup target must be a positive safe integer");;
            raise_if (negb (bool_decide (dom observations = dom (dict_of ce_cache_key (ci_entries inventory)))))
              (ValueError "cache reconciliation must inspect every and only inventory entry"));
  t ← now;
  make ← lift (cleanup_plan t policy inventory observations target_reclaim_bytes);
  cleanup_id ← new_cleanup_id;
  plan ← lift (construct (make cleanup_id));
  let refused := String.eqb (cp_outcome plan) "refused" in
  _ ← emit (cleanup_event (cp_cleanup_id plan) "planning" (if refused then "refused" else "planned")
              0 (Z.of_nat (length (cp_selected plan)))
              (if refused then "cache cleanup plan refused" else "cache cleanup plan ready")
              [("expected_reclaim_bytes", JInt (cp_expected_reclaim_bytes plan));
               ("target_reclaim_bytes", JInt (cp_target_reclaim_bytes plan))] refused);
  mret plan.

(** *** Execution *)

Definition failed_mutation (candidate : EvictionCandidate) (key code detail : string) : result CleanupMutation :=
  construct {| mut_cache_key := key; mut_expected_reclaim_bytes := ecand_expected_reclaim_bytes candidate;
    mut_actual_reclaim_bytes := 0; mut_outcome := "failed"; mut_code := code; mut_detail := detail |}.

(** The observation that lets a deletion go ahead. *)
Definition deletable (execution_now max_age : Z) (entry : CacheEntry) (reality : CacheReality)
    : result bool :=
  observed ← parse_timestamp (cr_observed_at reality);
  let reality_age := execution_now - observed in
  Ok (String.eqb (cr_cache_key reality) (ce_cache_key entry) &&
      String.eqb (cr_source reality) (ce_provider_name entry) &&
      negb (reality_age <? 0) && negb (max_age * us_per_second <? reality_age) &&
      String.eqb (cr_status reality) "verified" && reality_matches entry reality).

(** Delete the entry and account for what the provider reports; the flag says
    that the cleanup is now partial. *)
Definition delete_candidate (plan : CleanupPlan) (entry : CacheEntry) (candidate : EvictionCandidate)
    : eff W (CleanupMutation * bool) :=
  result ← try_eff (delete_verified entry (cp_cleanup_id plan)) (fun error =>
    lift (construct {| del_succeeded := false; del_actual_reclaim_bytes := 0;
      del_code := "provider-delete-error";
      del_detail := "cache provider deletion raised " +:+ exn_class error |}));
  let expected := ecand_expected_reclaim_bytes candidate in
  let diverged := del_succeeded result && negb (del_actual_reclaim_bytes result =? expected) in
  mutation ← lift (construct {| mut_cache_key := ce_cache_key entry; mut_expected_reclaim_bytes := expected;
    mut_actual_reclaim_bytes := del_actual_reclaim_bytes result;
    mut_outcome := if del_succeeded result then "deleted" else "failed";
    mut_code := if diverged then "reclaim-diverged" else del_code result;
    mut_detail := if diverged
      then "provider deleted the entry but reclaimed " +:+ dec (del_actual_reclaim_bytes result) +:+
           " bytes instead of the planned " +:+ dec expected
      else del_detail result |});
  mret (mutation, diverged || negb (del_succeeded result)).

Definition attempt_candidate (plan : CleanupPlan) (execution_now : Z) (protected_dependencies : list string)
    (entry : CacheEntry) (candidate : EvictionCandidate) : eff W (CleanupMutation * bool) :=
  let key := ce_cache_key entry in
  let reasons := hard_protection_reasons entry ++
                 when_reason (mem key protected_dependencies) "dependency-protected" in
  if negb (list_empty reasons) then
    m ← lift (failed_mutation candidate key "protection-changed"
                ("entry became protected: " +:+ join ", " (sorted_set reasons)));
    mret (m, true)
  else
    observed ← try_eff (r ← inspect entry; mret (inl r)) (fun error => mret (inr error));
    match observed with
    | inr error =>
        m ← lift (failed_mutation candidate key "provider-inspection-error"
                    ("cache provider inspection raised " +:+ exn_class error));
        mret (m, true)
    | inl reality =>
        go ← lift (deletable execution_now (ep_maximum_inventory_age_seconds (cp_policy plan)) entry reality);
        if go : bool then delete_candidate plan entry candidate
        else
          m ← lift (failed_mutation candidate key "reconciliation-changed"
                      "provider reality changed after cleanup planning; no deletion attempted");
          mret (m, true)
    end.

Definition publish_accounted_candidate (plan : CleanupPlan) (mutations : list CleanupMutation) : eff W unit :=
  emit (cleanup_event (cp_cleanup_id plan) "cleanup" "running" (Z.of_nat (length mutations))
          (Z.of_nat (length (cp_selected plan))) "cache cleanup candidate accounted"
          [("actual_reclaim_bytes", JInt (sumZ (mut_actual_reclaim_bytes <$> mutations)))] false).

Fixpoint execute_candidates (plan : CleanupPlan) (execution_now : Z) (protected_dependencies : list string)
    (entries : gmap string CacheEntry) (candidates : list EvictionCandidate)
    (mutations : list CleanupMutation) (state : string) : eff W (list CleanupMutation * string) :=
  match candidates with
  | [] => mret (mutations, state)
  | candidate :: rest =>
      entry ← lift (match entries !! ecand_cache_key candidate with
                    | Some e => Ok e
                    | None => Raise (KeyError (ecand_cache_key candidate))
                    end);
      _ ← lift (raise_if (negb (ecand_expected_reclaim_bytes candidate =? ce_reclaimable_bytes entry))
                  (ValueError "cleanup candidate expectation diverges from inventory"));
      stop ← cancelled;
      if stop : bool then
        m ← lift (construct {| mut_cache_key := ce_cache_key entry;
              mut_expected_reclaim_bytes := ecand_expected_reclaim_bytes candidate;
              mut_actual_reclaim_bytes := 0; mut_outcome := "skipped"; mut_code := "cancelled";
              mut_detail := "cleanup cancelled before mutation" |});
        _ ← publish_accounted_candidate plan (mutations ++ [m]);
        mret (mutations ++ [m], "cancelled")
      else
        '(m, partial) ← attempt_candidate plan execution_now protected_dependencies entry candidate;
        _ ← publish_accounted_candidate plan (mutations ++ [m]);
        execute_candidates plan execution_now protected_dependencies entries rest (mutations ++ [m])
          (if partial : bool then "partial" else state)
  end.

(** The checks before anything is touched: the report's start and the instant
    observations are judged at. *)
Definition execution_guards (plan : CleanupPlan) (inventory : CacheInventory) : eff W (string * Z) :=
  _ ← lift (_verify_inventory inventory;;
            raise_if (negb (String.eqb (cp_inventory_digest plan) (ci_inventory_digest inventory)))
              (ValueError "cleanup plan belongs to a different cache inventory"));
  t ← now;
  execution_now ← now;
  _ ← lift (created ← parse_timestamp (cp_created_at plan);
            observed ← parse_timestamp (ci_observed_at inventory);
            let plan_age := execution_now - created in
            let inventory_age := execution_now - observed in
            let limit := ep_maximum_inventory_age_seconds (cp_policy plan) * us_per_second in
            raise_if ((plan_age <? 0) || (inventory_age <? 0))
              (ValueError "cleanup plan and inventory timestamps cannot be in the future");;
            raise_if ((limit <? plan_age) || (limit <? inventory_age))
              (ValueError "cleanup plan or inventory is stale; fresh reconciliation is required"));
  mret (rfc3339 t, execution_now).

Definition execute_cleanup (plan : CleanupPlan) (inventory : CacheInventory) : eff W CleanupReport :=
  '(start, execution_now) ← execution_guards plan inventory;
  if String.eqb (cp_outcome plan) "refused" then
    t ← now;
    lift (construct {| crep_plan := plan; crep_state := "refused"; crep_started_at := start;
      crep_completed_at := rfc3339 t; crep_actual_reclaim_bytes := 0; crep_mutations := [] |})
  else
    let total := Z.of_nat (length (cp_selected plan)) in
    _ ← emit (cleanup_event (cp_cleanup_id plan) "cleanup" "running" 0 total "cache cleanup execution started"
                [("expected_reclaim_bytes", JInt (cp_expected_reclaim_bytes plan))] false);
    let entries := dict_of ce_cache_key (ci_entries inventory) in
    _ ← lift (raise_if (existsb (fun c => is_none (entries !! ecand_cache_key c)) (cp_selected plan))
                (ValueError "cleanup plan selects an entry absent from inventory"));
    let protected_dependencies := mjoin (ce_dependencies <$> ci_entries inventory) in
    '(mutations, state) ←
      execute_candidates plan execution_now protected_dependencies entries (cp_selected plan) [] "completed";
    let state := if (Z.of_nat (length mutations) <? total) && negb (String.eqb state "cancelled")
                 then "partial" else state in
    let actual := sumZ (mut_actual_reclaim_bytes <$> mutations) in
    _ ← lift (raise_if (SAFE_INTEGER_MAX <? actual)
                (OverflowError "actual cleanup reconciliation exceeds the safe-integer domain"));
    t ← now;
    report ← lift (construct {| crep_plan := plan; crep_state := state; crep_started_at := start;
      crep_completed_at := rfc3339 t; crep_actual_reclaim_bytes := actual; crep_mutations := mutations |});
    _ ← emit (cleanup_event (cp_cleanup_id plan) "cleanup" state (Z.of_nat (length mutations)) total
                ("cache cleanup " +:+ state)
                [("actual_reclaim_bytes", JInt actual); ("outcome", JStr state)] true);
    mret report.
End Manager.
