(* ===== verification/CachePlan.v ===== *)
(** * Cleanup planning: what a plan may select

    [evictable] is the contract of an entry a cleanup may delete.  A plan selects
    only evictable entries, takes them best first, stops at the first point where
    the target is met, and is refused only when all evictable entries together do
    not reach the target.

    The second part is what executing a plan does to the provider. *)

From S2P Require Export CacheManager.

Import Cache.

(** ** The contract *)

Record unprotected (e : CacheEntry) : Prop := {
  up_pinned : ce_pinned e = false;
  up_leases : ce_active_leases e = [];
  up_future : ce_future_dependencies e = [];
  up_kind : ce_kind e <> "protected-spool";
  up_retention : ce_retention_class e ∉ ["protected-spool"; "registry-authority"; "rare-fragile"];
  up_verified : ce_verification_status e = "verified"
}.

Record matches_reality (e : CacheEntry) (r : CacheReality) : Prop := {
  mr_status : cr_status r = "verified";
  mr_sha256 : cr_actual_sha256 r = Some (ce_sha256 e);
  mr_size : cr_actual_size_bytes r = Some (ce_size_bytes e);
  mr_reclaimable : cr_actual_reclaimable_bytes r = Some (ce_reclaimable_bytes e);
  mr_basis : cr_accounting_basis r = Some (ce_accounting_basis e)
}.

(** [stamp] lies at most [seconds] before [t], and not after it. *)
Definition fresh_at (t seconds : Z) (stamp : string) : Prop :=
  exists u, parse_timestamp stamp = Ok u /\ t - seconds * us_per_second <= u <= t.

Record evictable (t : Z) (policy : EvictionPolicy) (entries : list CacheEntry) (e : CacheEntry)
    (r : CacheReality) : Prop := {
  ev_unprotected : unprotected e;
  ev_dependents : Forall (fun d => ce_cache_key e ∉ ce_dependencies d) entries;
  ev_entry_fresh : fresh_at t (ep_maximum_inventory_age_seconds policy) (ce_observed_at e);
  ev_reality_fresh : fresh_at t (ep_maximum_inventory_age_seconds policy) (cr_observed_at r);
  ev_staleness : ce_staleness_seconds e <= ep_maximum_inventory_age_seconds policy;
  ev_matches : matches_reality e r;
  ev_space : ce_reclaimable_bytes e <> 0;
  ev_last_used : exists u, parse_timestamp (ce_last_used_at e) = Ok u /\ u <= t
}.

(** ** The reasons of the loop decide the contract *)

Lemma app_nil_iff {A} (l k : list A) : l ++ k = [] <-> l = [] /\ k = [].
Proof. destruct l; naive_solver. Qed.
Lemma when_reason_nil c s : when_reason c s = [] <-> c = false.
Proof. destruct c; naive_solver. Qed.
Lemma if_nil (c : bool) (x : string) : (if c then [x] else []) = [] <-> c = false.
Proof. apply when_reason_nil. Qed.

Lemma hard_protection_nil e : hard_protection_reasons e = [] <-> unprotected e.
Proof.
  unfold hard_protection_reasons. rewrite !app_nil_iff, !if_nil. split.
  - intros (H1 & H2 & H3 & H4 & H5 & H6 & H7). bool_simp. split; try done.
    rewrite !not_elem_of_cons. repeat split; try done. by apply not_elem_of_nil.
  - intros [H1 H2 H3 H4 H5 H6]. rewrite H1, H2, H3, H6. rewrite !not_elem_of_cons in H5.
    destruct H5 as (H5 & H7 & H8 & _). apply String.eqb_neq in H4, H5, H7, H8. by rewrite H4, H5, H7, H8.
Qed.

Lemma reality_matches_true e r :
  reality_matches e r = true <->
  cr_actual_sha256 r = Some (ce_sha256 e) /\ cr_actual_size_bytes r = Some (ce_size_bytes e) /\
  cr_actual_reclaimable_bytes r = Some (ce_reclaimable_bytes e) /\
  cr_accounting_basis r = Some (ce_accounting_basis e).
Proof. unfold reality_matches. rewrite !andb_true_iff, !bool_decide_eq_true. tauto. Qed.

Lemma reality_reasons_nil e r :
  (if negb (String.eqb (cr_status r) "verified") then ["reconciliation-" +:+ cr_status r]
   else when_reason (negb (reality_matches e r)) "reconciliation-mismatch") = [] <-> matches_reality e r.
Proof.
  destruct (String.eqb (cr_status r) "verified") eqn:E; cbn [negb].
  - apply String.eqb_eq in E. rewrite when_reason_nil, negb_false_iff, reality_matches_true.
    split; [intros (? & ? & ? & ?); by split|by intros []].
  - apply String.eqb_neq in E. split; [done|by intros []].
Qed.

Lemma no_dependents entries key :
  reverse_dependencies entries key = [] <->
  Forall (fun d => key ∉ ce_dependencies d) entries.
Proof.
  unfold reverse_dependencies. induction entries as [|d l IH]; cbn [List.filter]; [split; auto|].
  rewrite Forall_cons, <- IH. destruct (mem key (ce_dependencies d)) eqn:Em; bool_simp; cbn; naive_solver.
Qed.

Lemma reasons_nil t policy entries e r :
  exclusion_reasons t policy entries e r = Ok [] <-> evictable t policy entries e r.
Proof.
  unfold exclusion_reasons. rewrite bind_ok. setoid_rewrite bind_ok. setoid_rewrite bind_ok. split.
  - intros (eo & He & ro & Hr & lu & Hl & Hn). injection Hn as Hn.
    rewrite !app_nil_iff, !when_reason_nil in Hn. destruct Hn as (H1 & H2 & H3 & H4 & H5 & H6 & H7).
    apply reality_reasons_nil in H5. apply hard_protection_nil in H1. bool_simp.
    apply no_dependents in H2. unfold us_per_second in *. split; try done; try lia.
    + exists eo. split; [done|]. unfold us_per_second. lia.
    + exists ro. split; [done|]. unfold us_per_second. lia.
    + exists lu. split; [done|lia].
  - intros [H1 H2 (eo & He & H3) (ro & Hr & H4) H5 H6 H7 (lu & Hl & H8)].
    exists eo. split; [done|]. exists ro. split; [done|]. exists lu. split; [done|]. f_equal.
    unfold us_per_second in *. rewrite !app_nil_iff, !when_reason_nil, reality_reasons_nil, hard_protection_nil.
    apply no_dependents in H2 as ->.
    split_and!; done || lia.
Qed.

(** ** Classification *)

Section Classified.
Context (t : Z) (policy : EvictionPolicy) (entries : list CacheEntry) (obs : gmap string CacheReality).

Definition scored (p : Z * CacheEntry) : Prop :=
  (exists r, obs !! ce_cache_key p.2 = Some r /\ evictable t policy entries p.2 r) /\
  (exists u, parse_timestamp (ce_last_used_at p.2) = Ok u /\ p.1 = eviction_score t policy p.2 u) /\
  - SAFE_INTEGER_MAX <= p.1 <= SAFE_INTEGER_MAX.

(** Evictable, but with a score outside the safe integers. *)
Definition overflowing (e : CacheEntry) : Prop :=
  exists u, parse_timestamp (ce_last_used_at e) = Ok u /\
    ~ (- SAFE_INTEGER_MAX <= eviction_score t policy e u <= SAFE_INTEGER_MAX).

Definition eligible (e : CacheEntry) : Prop :=
  exists r, obs !! ce_cache_key e = Some r /\ evictable t policy entries e r.

Lemma classify_ok e c :
  classify t policy entries obs e = Ok c ->
  match c with
  | inl p => p.2 = e /\ scored p
  | inr x => eexc_cache_key x = ce_cache_key e /\ eexc_reasons x <> [] /\ (eligible e -> overflowing e)
  end.
Proof.
  unfold classify. destruct (obs !! ce_cache_key e) as [r|] eqn:Er; [|done]. intros Hc. ok_step.
  destruct a as [|x l]; cbn [list_empty negb] in Hc.
  - apply reasons_nil in E. ok_step. rename a into u, E0 into Eu. unfold _safe_score in Hc.
    destruct (_ && _) eqn:Eb; cbn [negb raise_if mbind result_bind] in Hc.
    + injection Hc as <-. split; [done|]. split; [by exists r|]. split; [by exists u|]. cbn [fst]. lia.
    + destruct (construct _) as [y|] eqn:Ec; [|done]. injection Hc as <-. apply construct_ok in Ec as [_ ->].
      split; [done|]. split; [done|]. intros _. exists u. split; [done|]. lia.
  - destruct (construct _) as [y|] eqn:Ec; [|done]. injection Hc as <-.
    apply construct_ok in Ec as [_ ->]. cbn [eexc_cache_key eexc_reasons]. split; [done|]. split.
    + intros Hn. assert (x ∈ sorted_set (x :: l)) as Hin by (rewrite elem_of_sorted_set; left).
      rewrite Hn in Hin. by apply elem_of_nil in Hin.
    + intros (r' & Er' & Hev). rewrite Er in Er'. injection Er' as <-. apply reasons_nil in Hev. congruence.
Qed.

Lemma classes_lefts l cs :
  map_result (classify t policy entries obs) l = Ok cs ->
  Forall scored (lefts cs) /\ sublist (lefts cs).*2 l /\
  (forall e, e ∈ l -> eligible e -> ~ overflowing e -> e ∈ (lefts cs).*2).
Proof.
  revert cs. induction l as [|e l IH]; intros cs Hm; cbn in Hm; ok_inv; subst.
  - split; [constructor|]. split; [constructor|]. by intros e ?%elem_of_nil.
  - destruct (IH _ E0) as (H1 & H2 & H3). apply classify_ok in E. destruct a as [p|x].
    + change (lefts (inl p :: a0)) with (p :: lefts a0). destruct E as [He Hs]. split; [by constructor|]. split; [cbn; rewrite He; by constructor|].
      intros e' [->|Hin]%elem_of_cons Hel Hno; [rewrite <- He; left|right; by apply H3].
    + change (lefts (inr x :: a0)) with (lefts a0). destruct E as (_ & _ & Hx). split; [done|]. split; [by constructor|].
      intros e' [->|Hin]%elem_of_cons Hel Hno; [|by apply H3]. exfalso. auto.
Qed.
End Classified.

(** ** Selection *)

Definition space (l : list (Z * CacheEntry)) : Z := sumZ ((fun p => ce_reclaimable_bytes p.2) <$> l).

Definition candidate_of (rank : Z) (p : Z * CacheEntry) : EvictionCandidate :=
  {| ecand_cache_key := ce_cache_key p.2; ecand_score := p.1;
     ecand_expected_reclaim_bytes := ce_reclaimable_bytes p.2; ecand_rank := rank |}.

(** Candidates numbered from [k + 1] on. *)
Definition ranked (k : nat) (l : list (Z * CacheEntry)) : list EvictionCandidate :=
  imap (fun i p => candidate_of (Z.of_nat (k + i) + 1) p) l.

Lemma ranked_cons k p l : ranked k (p :: l) = candidate_of (Z.of_nat k + 1) p :: ranked (S k) l.
Proof.
  unfold ranked. rewrite imap_cons. rewrite Nat.add_0_r. f_equal. apply imap_ext. intros i x _.
  unfold compose. f_equal. lia.
Qed.

Record greedy (target total : Z) (l : list (Z * CacheEntry)) (n : nat) : Prop := {
  gr_length : (n <= length l)%nat;
  gr_minimal : forall m, (m < n)%nat -> total + space (take m l) < target;
  gr_stop : target <= total + space (take n l) \/ n = length l;
  gr_positive : Forall (fun p => 0 < ce_reclaimable_bytes p.2) (take n l)
}.

Lemma select_ok target total chosen l sel sum :
  select_candidates target total chosen l = Ok (sel, sum) ->
  exists n, sel = chosen ++ ranked (length chosen) (take n l) /\ sum = total + space (take n l) /\
    greedy target total l n.
Proof.
  revert total chosen. induction l as [|[score e] l IH]; intros total chosen Hs; cbn in Hs.
  - injection Hs as <- <-. exists 0%nat. cbn. rewrite app_nil_r. split; [done|]. split; [unfold space; cbn; lia|].
    split; [cbn; lia|intros; lia|by right|constructor].
  - destruct (target <=? total) eqn:Et.
    + injection Hs as <- <-. exists 0%nat. cbn. rewrite app_nil_r. split; [done|].
      split; [unfold space; cbn; lia|]. split; [cbn; lia|intros; lia|left; unfold space; cbn; lia|constructor].
    + ok_step. ok_step. apply construct_ok in E0 as [Hv ->].
      destruct (IH _ _ Hs) as (n & -> & -> & [G1 G2 G3 G4]).
      exists (S n). cbn [take]. rewrite ranked_cons, length_app, <- app_assoc. cbn [length].
      rewrite Nat.add_1_r. split; [done|].
      assert (forall m, space (take (S m) ((score, e) :: l)) = ce_reclaimable_bytes e + space (take m l)) as Hsp
        by done.
      split; [unfold space; cbn; lia|]. split.
      * cbn. lia.
      * intros [|m] Hm; [unfold space; cbn; lia|]. rewrite Hsp. specialize (G2 m). lia.
      * destruct G3 as [G3|G3]; [left; rewrite Hsp; lia|right; cbn; lia].
      * constructor; [|done]. unfold valid, post_init, EvictionCandidate_post_init in Hv.
        unfold _require_safe_integer in Hv. ok_inv. cbn -[SAFE_INTEGER_MAX Z.leb] in *. lia.
Qed.

(** ** What [cleanup_plan] returns *)

Record planned (t : Z) (policy : EvictionPolicy) (inventory : CacheInventory) (obs : gmap string CacheReality)
    (target : Z) (plan : CleanupPlan) : Prop := {
  pl_digest : cp_inventory_digest plan = ci_inventory_digest inventory;
  pl_created : cp_created_at plan = rfc3339 t;
  pl_policy : cp_policy plan = policy;
  pl_target : cp_target_reclaim_bytes plan = target;
  pl_best : exists ordered n,
    Forall (scored t policy (ci_entries inventory) obs) ordered /\
    StronglySorted (key_le candidate_order) ordered /\
    (exists kept, sublist kept (sorted_by ce_cache_key (ci_entries inventory)) /\ ordered.*2 ≡ₚ kept) /\
    (forall e, e ∈ ci_entries inventory -> eligible t policy (ci_entries inventory) obs e ->
       ~ overflowing t policy e -> e ∈ ordered.*2) /\
    greedy target 0 ordered n /\
    cp_selected plan = ranked 0 (take n ordered) /\
    cp_expected_reclaim_bytes plan = space (take n ordered) /\
    cp_outcome plan = if target <=? space (take n ordered) then "ready" else "refused"
}.

Lemma cleanup_plan_ok t policy inventory obs target make id :
  cleanup_plan t policy inventory obs target = Ok make -> planned t policy inventory obs target (make id).
Proof.
  unfold cleanup_plan. intros Hm. ok_step. ok_step. ok_step. destruct a0 as [sel sum]. injection Hm as <-.
  apply classes_lefts in E0 as (H1 & H2 & H3).
  apply select_ok in E1 as (n & -> & -> & Hg). split; try done.
  exists (sorted_by candidate_order (lefts a)), n. split_and!; try done.
  - by rewrite sorted_by_perm.
  - apply sorted_by_sorted.
  - exists ((lefts a).*2). split; [done|]. by rewrite sorted_by_perm.
  - intros e He Hel Hno. rewrite sorted_by_perm. apply H3; [|done|done]. by apply elem_of_sorted_by.
Qed.

(** ** The methods *)

Section Methods.
Context `{PyTables} `{JCS} {W : Type} `{Clock W} `{OperationIds W} `{Publisher W}.

Lemma plan_cleanup_ok inventory reconciliation target policy w plan w' :
  plan_cleanup inventory reconciliation target policy w = (Ok plan, w') ->
  exists t w1, now w = (Ok t, w1) /\ valid plan /\ 1 <= target <= SAFE_INTEGER_MAX /\
    _verify_inventory inventory = Ok tt /\
    planned t policy inventory (dict_of cr_cache_key (crec_observations reconciliation)) target plan.
Proof.
  unfold plan_cleanup. intros Hp. eff_step. apply lift_ok in E as [E ->]. ok_inv.
  eff_step. rename a0 into t, w0 into w1, E into Et. eff_step. apply lift_ok in E as [E ->].
  eff_step. eff_step. apply lift_ok in E5 as [E5 ->]. apply construct_ok in E5 as [Hv ->].
  eff_step. eff_step. exists t, w1. split; [done|]. split; [done|]. split; [lia|]. split; [by destruct a|].
  by apply cleanup_plan_ok.
Qed.
End Methods.

(** * Cleanup execution: what a cleanup does to the provider

    Calls to the provider are observed by running the manager in a world that
    logs them ([traced]).  Whatever the provider answers or raises, a deletion is
    issued only for an entry the plan selected, right after an inspection of that
    entry whose answer still matches the inventory, and the report accounts for
    exactly the deletions that happened. *)


Inductive call :=
| Inspected (e : CacheEntry) (r : result CacheReality)
| Deleted (e : CacheEntry) (id : string) (r : result DeletionResult).

(** The world of [W] with the log of the calls made to the provider. *)
Definition traced (W : Type) : Type := W * list call.

Definition unlogged {W A} (m : eff W A) : eff (traced W) A := fun w =>
  let '(r, w') := m w.1 in (r, (w', w.2)).
Definition logged {W A} (c : result A -> call) (m : eff W A) : eff (traced W) A := fun w =>
  let '(r, w') := m w.1 in (r, (w', w.2 ++ [c r])).

#[export] Instance traced_clock `{Clock W} : Clock (traced W) := unlogged now.
#[export] Instance traced_cancellation `{Cancellation W} : Cancellation (traced W) := unlogged cancelled.
#[export] Instance traced_publisher `{Publisher W} : Publisher (traced W) :=
  {| publishing := publishing; publish_draft d := unlogged (publish_draft d) |}.
#[export] Instance traced_provider `{CacheProvider W} : CacheProvider (traced W) :=
  {| inspect e := logged (Inspected e) (inspect e); delete_verified e id := logged (Deleted e id) (delete_verified e id) |}.

(** [m] leaves the log alone. *)
Definition silent {W A} (m : eff (traced W) A) : Prop := forall w, (m w).2.2 = w.2.

Section Silent.
Context {W A B : Type}.

Lemma silent_unlogged (m : eff W A) : silent (unlogged m).
Proof. intros [w tr]. unfold unlogged. cbn. by destruct (m w). Qed.

Lemma silent_lift (r : result A) : silent (lift (W := traced W) r).
Proof. by intros w. Qed.

Lemma silent_ret (a : A) : silent (mret (M := eff (traced W)) a).
Proof. by intros w. Qed.

Lemma silent_bind (m : eff (traced W) A) (f : A -> eff (traced W) B) :
  silent m -> (forall a, silent (f a)) -> silent (x ← m; f x).
Proof.
  intros Hm Hf w. unfold mbind, eff_bind. specialize (Hm w). destruct (m w) as [[a|e] w1]; [|done].
  cbn in Hm. by rewrite Hf.
Qed.
End Silent.

Section Trace.
Context `{PyTables} `{JCS} {W : Type} `{Clock W} `{OperationIds W} `{CacheProvider W} `{Cancellation W} `{Publisher W}.

Lemma silent_emit d : silent (emit (W := traced W) d).
Proof.
  unfold emit. destruct publishing; [|by apply silent_ret].
  apply silent_bind; [apply silent_lift|]. intros x. apply silent_unlogged.
Qed.

(** What the log holds for one candidate of the plan. *)
Inductive segment (plan : CleanupPlan) (t : Z) (protected : list string) (e : CacheEntry) : list call -> Prop :=
| seg_none : segment plan t protected e []
| seg_inspect r : segment plan t protected e [Inspected e r]
| seg_delete reality rd :
    unprotected e -> ce_cache_key e ∉ protected ->
    deletable t (ep_maximum_inventory_age_seconds (cp_policy plan)) e reality = Ok true ->
    segment plan t protected e [Inspected e (Ok reality); Deleted e (cp_cleanup_id plan) rd].

Definition freed (c : call) : option (string * Z) :=
  match c with
  | Deleted e _ (Ok d) => if del_succeeded d then Some (ce_cache_key e, del_actual_reclaim_bytes d) else None
  | _ => None
  end.

Definition accounted (m : CleanupMutation) : option (string * Z) :=
  if String.eqb (mut_outcome m) "deleted" then Some (mut_cache_key m, mut_actual_reclaim_bytes m) else None.

(** The mutation a returned attempt accounts for. *)
Record settles (e : CacheEntry) (c : EvictionCandidate) (seg : list call) (m : CleanupMutation) (partial : bool)
    : Prop := {
  se_valid : valid m;
  se_key : mut_cache_key m = ce_cache_key e;
  se_expected : mut_expected_reclaim_bytes m = ecand_expected_reclaim_bytes c;
  se_freed : omap freed seg = omap accounted [m];
  se_whole : partial = false -> mut_outcome m = "deleted" /\
    mut_actual_reclaim_bytes m = ecand_expected_reclaim_bytes c;
  se_outcome : mut_outcome m ∈ ["deleted"; "failed"]
}.

Lemma failed_settles c e code detail m seg :
  failed_mutation c (ce_cache_key e) code detail = Ok m -> omap freed seg = [] -> settles e c seg m true.
Proof.
  unfold failed_mutation. intros [Hv ->]%construct_ok Hs. split; try done. cbn. set_solver.
Qed.

Lemma delete_trace plan e c w :
  exists rd, (delete_candidate (W := traced W) plan e c w).2.2 = w.2 ++ [Deleted e (cp_cleanup_id plan) rd] /\
    forall m partial w', delete_candidate plan e c w = (Ok (m, partial), w') ->
      settles e c [Deleted e (cp_cleanup_id plan) rd] m partial.
Proof.
  destruct w as [w tr]. unfold delete_candidate, try_eff, mbind, eff_bind, lift. cbn -[construct].
  unfold logged. cbn -[construct]. destruct (delete_verified e (cp_cleanup_id plan) w) as [rd w1] eqn:Ed.
  exists rd. cbn -[construct]. destruct rd as [d|x].
  - split; [by destruct (construct _)|]. destruct (construct _) as [m'|] eqn:Ec; [|done].
    intros m partial w' [= -> <- <-]. apply construct_ok in Ec as [Hv ->]. split; try done.
    + cbn. destruct (del_succeeded d); done.
    + intros Hp. apply orb_false_iff in Hp as [Hp1 Hp2]. apply negb_false_iff in Hp2. rewrite Hp2 in Hp1 |- *.
      cbn in Hp1. apply negb_false_iff, Z.eqb_eq in Hp1. done.
    + cbn. destruct (del_succeeded d); set_solver.
  - destruct (construct _) as [d|] eqn:Ec; [|done]. apply construct_ok in Ec as [_ ->].
    cbn -[construct]. split; [by destruct (construct _)|]. destruct (construct _) as [m'|] eqn:Ec; [|done].
    intros m partial w' [= -> <- <-]. apply construct_ok in Ec as [Hv ->]. split; try done. cbn. set_solver.
Qed.

Lemma inspect_step {B} e (k : CacheReality + exn -> eff (traced W) B) w tr :
  let '(r, w1) := inspect e w in
  (observed ← try_eff (r ← inspect e; mret (inl r)) (fun error => mret (inr error)); k observed) (w, tr) =
  k (match r with Ok x => inl x | Raise x => inr x end) (w1, tr ++ [Inspected e r]).
Proof.
  unfold try_eff, mbind, eff_bind, mret, eff_ret. cbn [inspect traced_provider]. unfold logged. cbn [fst snd].
  destruct (inspect e w) as [[r|x] w1]; done.
Qed.

Lemma failed_trace c e code detail seg w tr :
  omap freed seg = [] ->
  let m := (m ← lift (failed_mutation c (ce_cache_key e) code detail); mret (m, true)) : eff (traced W) _ in
  (m (w, tr ++ seg)).2.2 = tr ++ seg /\
  forall r partial w', m (w, tr ++ seg) = (Ok (r, partial), w') -> settles e c seg r partial.
Proof.
  intros Hs. cbn zeta. split.
  - apply (silent_bind (lift _)); [apply silent_lift|]. intros m. apply silent_ret.
  - intros r partial w' Hm. eff_inv. by eapply failed_settles.
Qed.

Lemma attempt_trace plan t protected e c w :
  exists seg, (attempt_candidate (W := traced W) plan t protected e c w).2.2 = w.2 ++ seg /\
    segment plan t protected e seg /\
    (forall m partial w', attempt_candidate plan t protected e c w = (Ok (m, partial), w') ->
       settles e c seg m partial).
Proof.
  destruct w as [w tr]. unfold attempt_candidate. destruct (negb (list_empty _)) eqn:Er.
  { exists []. cbn [snd]. assert ((w, tr) = (w, tr ++ [])) as -> by (by rewrite app_nil_r).
    split_and!; [|constructor|]; by apply failed_trace. }
  apply negb_false_iff, list_empty_true, app_nil_iff in Er as [Hu Hp].
  apply hard_protection_nil in Hu. apply when_reason_nil, mem_false in Hp.
  match goal with |- context [mbind ?k (try_eff _ _)] => pose proof (inspect_step e k w tr) as Hi end.
  destruct (inspect e w) as [[reality|x] w1]; rewrite Hi; clear Hi; cbn [snd].
  2: { exists [Inspected e (Raise x)]. split_and!; [|constructor|]; by apply failed_trace. }
  rewrite lift_bind. destruct (deletable _ _ e reality) as [[|]|x] eqn:Ed.
  - destruct (delete_trace plan e c (w1, tr ++ [Inspected e (Ok reality)])) as (rd & Ht & Hs).
    exists [Inspected e (Ok reality); Deleted e (cp_cleanup_id plan) rd]. split_and!.
    + rewrite Ht. cbn [snd]. by rewrite <- app_assoc.
    + by constructor.
    + intros m partial w' Hm. by destruct (Hs _ _ _ Hm).
  - exists [Inspected e (Ok reality)]. split_and!; [|constructor|]; by apply failed_trace.
  - exists [Inspected e (Ok reality)]. split_and!; [done|constructor|done].
Qed.

(** One candidate's part of the log, for the entry it names. *)
Definition candidate_segment (plan : CleanupPlan) (t : Z) (protected : list string)
    (entries : gmap string CacheEntry) (c : EvictionCandidate) (seg : list call) : Prop :=
  seg = [] \/ exists e, entries !! ecand_cache_key c = Some e /\
    ecand_expected_reclaim_bytes c = ce_reclaimable_bytes e /\ segment plan t protected e seg.

Definition whole (m : CleanupMutation) (c : EvictionCandidate) : Prop :=
  mut_outcome m = "deleted" /\ mut_actual_reclaim_bytes m = ecand_expected_reclaim_bytes c.

Definition answers (m : CleanupMutation) (c : EvictionCandidate) : Prop :=
  valid m /\ mut_cache_key m = ecand_cache_key c /\
  mut_expected_reclaim_bytes m = ecand_expected_reclaim_bytes c.

(** How a run over [cands] that started in [state] ended. *)
Record run_ended (cands : list EvictionCandidate) (state : string) (ms : list CleanupMutation)
    (state' : string) : Prop := {
  re_answers : Forall2 answers ms (take (length ms) cands);
  re_state :
    (state' = "cancelled" /\ exists m, last ms = Some m /\ mut_outcome m = "skipped" /\ mut_code m = "cancelled") \/
    (length ms = length cands /\ ((state' = "partial" /\ ms <> []) \/ (state' = state /\ Forall2 whole ms cands)))
}.

Lemma run_cons c cands state partial m ms state' :
  answers m c -> (partial = false -> whole m c) ->
  run_ended cands (if partial : bool then "partial" else state) ms state' ->
  run_ended (c :: cands) state (m :: ms) state'.
Proof.
  intros Ha Hw [Hans Hst]. split; [cbn [length take]; by constructor|].
  destruct Hst as [(-> & x & Hl & Hx)|(Hlen & Hst)].
  - left. split; [done|]. exists x. split; [|done]. by destruct ms.
  - right. split; [cbn; lia|]. destruct Hst as [[-> _]|[-> Hst]]; [by left|].
    destruct partial; [by left|right]. split; [done|]. constructor; auto.
Qed.

(** What a run of the loop leaves behind, returned or not. *)
Definition loop_post (plan : CleanupPlan) (t : Z) (protected : list string) (entries : gmap string CacheEntry)
    (cands : list EvictionCandidate) (mutations : list CleanupMutation) (state : string) (tr : list call)
    (out : result (list CleanupMutation * string) * traced W) : Prop :=
  exists segs, out.2.2 = tr ++ concat segs /\ (length segs <= length cands)%nat /\
    Forall2 (candidate_segment plan t protected entries) (take (length segs) cands) segs /\
    match out.1 with
    | Ok (ms, state') => exists new, ms = mutations ++ new /\ run_ended cands state new state' /\
        omap freed (concat segs) = omap accounted new
    | Raise _ => True
    end.

Lemma loop_raise plan t protected entries c cands mutations state w x w' seg :
  w'.2 = w ++ seg -> candidate_segment plan t protected entries c seg ->
  loop_post plan t protected entries (c :: cands) mutations state w (Raise x, w').
Proof.
  intros Hw Hs. exists [seg]. cbn. rewrite app_nil_r. split_and!; [done|lia| |done].
  constructor; [done|]. rewrite take_0. constructor.
Qed.

Lemma silent_step {A B} (m : eff (traced W) A) (f : A -> eff (traced W) B) w :
  silent m -> exists w1, w1.2 = w.2 /\
    ((exists a, m w = (Ok a, w1) /\ (x ← m; f x) w = f a w1) \/ (exists e, (x ← m; f x) w = (Raise e, w1))).
Proof.
  intros Hm. specialize (Hm w). unfold mbind, eff_bind. destruct (m w) as [[a|e] w1]; exists w1; eauto.
Qed.

(** Step over a silent call at the head of the run. *)
Ltac silent_case w1 a Hw Hs := match goal with
  | |- _ (mbind ?k ?m ?w) =>
      let Hk := fresh "Hk" in let x := fresh "x" in
      destruct (silent_step m k w Hs) as (w1 & Hw & [(a & _ & Hk)|(x & Hk)]); rewrite Hk; clear Hk
  end.

Lemma execute_trace plan t protected entries cands mutations state w :
  (forall k e, entries !! k = Some e -> ce_cache_key e = k) ->
  loop_post plan t protected entries cands mutations state w.2
    (execute_candidates (W := traced W) plan t protected entries cands mutations state w).
Proof.
  intros Hkeys. revert mutations state w.
  induction cands as [|c cands IH]; intros mutations state w; cbn [execute_candidates].
  { exists []. cbn [fst snd mret eff_ret]. rewrite app_nil_r. split_and!; [done|cbn; lia|constructor|].
    exists []. rewrite app_nil_r. split_and!; [done| |done]. split; [constructor|].
    right. split; [done|]. right. split; [done|constructor]. }
  assert (forall x w', w'.2 = w.2 -> loop_post plan t protected entries (c :: cands) mutations state w.2
    (Raise x, w')) as Hraise.
  { intros x w' Hw. apply (loop_raise _ _ _ _ _ _ _ _ _ _ _ []); [by rewrite app_nil_r|by left]. }
  destruct (entries !! ecand_cache_key c) as [e|] eqn:Ee; [|by apply Hraise].
  pose proof (Hkeys _ _ Ee) as Hkey. rewrite lift_bind.
  destruct (ecand_expected_reclaim_bytes c =? ce_reclaimable_bytes e) eqn:Ex; [|by apply Hraise].
  apply Z.eqb_eq in Ex. rewrite lift_bind. cbn [negb raise_if].
  silent_case w1 stop Hw1 (silent_unlogged (W := W) cancelled); [|by apply Hraise].
  destruct stop.
  - rewrite lift_bind. destruct (construct _) as [m|x] eqn:Em; [|by apply Hraise].
    apply construct_ok in Em as [Hm ->].
    unfold publish_accounted_candidate at 1. match goal with |- context [emit ?d] =>
      silent_case w2 u Hw2 (silent_emit d) end; [|apply Hraise; congruence].
    exists []. cbn [fst snd mret eff_ret]. rewrite app_nil_r. split_and!; [congruence|cbn; lia|constructor|].
    eexists. split; [done|]. split; [|done]. split; [cbn [length take]; by constructor; [|constructor]|].
    left. split; [done|]. by eexists.
  - destruct (attempt_trace plan t protected e c w1) as (seg & Hseg & Hs & Hset).
    assert (candidate_segment plan t protected entries c seg) as Hcs by (right; by exists e).
    unfold mbind at 1, eff_bind at 1. destruct (attempt_candidate (W := traced W) plan t protected e c w1) as [[[m partial]|x] w2];
      cbn [snd] in Hseg; [|apply (loop_raise _ _ _ _ _ _ _ _ _ _ _ seg); congruence].
    destruct (Hset m partial w2 eq_refl) as [S1 S2 S3 S4 S5 _].
    unfold publish_accounted_candidate at 1. match goal with |- context [emit ?d] =>
      silent_case w3 u Hw3 (silent_emit d) end.
    2: { apply (loop_raise _ _ _ _ _ _ _ _ _ _ _ seg); congruence. }
    destruct (IH (mutations ++ [m]) (if partial then "partial" else state) w3) as (segs & T1 & T2 & T3 & T4).
    exists (seg :: segs). split_and!.
    + rewrite T1, Hw3, Hseg, Hw1. cbn [concat]. by rewrite app_assoc.
    + cbn. lia.
    + cbn [length take]. by constructor.
    + destruct (execute_candidates (W := traced W) plan t protected entries cands (mutations ++ [m])
        (if partial then "partial" else state) w3) as [[[ms state']|x] w4]; cbn [fst] in *; [|done].
      destruct T4 as (new & -> & Hrun & Hfree). exists (m :: new). split; [by rewrite <- app_assoc|]. split.
      * apply run_cons with partial; [|by apply S5|done]. split; [done|]. split; congruence.
      * cbn [concat]. change (m :: new) with ([m] ++ new). by rewrite !omap_app, S4, Hfree.
Qed.

(** ** Reading the log *)

(** What must hold when a deletion is issued. *)
Record deletion_justified (plan : CleanupPlan) (inventory : CacheInventory) (t : Z) (before : list call)
    (e : CacheEntry) (id : string) : Prop := {
  dj_entry : e ∈ ci_entries inventory;
  dj_id : id = cp_cleanup_id plan;
  dj_selected : exists c, c ∈ cp_selected plan /\ ecand_cache_key c = ce_cache_key e /\
    ecand_expected_reclaim_bytes c = ce_reclaimable_bytes e;
  dj_unprotected : unprotected e;
  dj_dependents : Forall (fun d => ce_cache_key e ∉ ce_dependencies d) (ci_entries inventory);
  dj_inspected : exists before' r, before = before' ++ [Inspected e (Ok r)] /\ matches_reality e r /\
    cr_cache_key r = ce_cache_key e /\ cr_source r = ce_provider_name e /\
    fresh_at t (ep_maximum_inventory_age_seconds (cp_policy plan)) (cr_observed_at r)
}.

Lemma deletable_true t age e r :
  deletable t age e r = Ok true ->
  cr_cache_key r = ce_cache_key e /\ cr_source r = ce_provider_name e /\ matches_reality e r /\
  fresh_at t age (cr_observed_at r).
Proof.
  unfold deletable. intros Hd. ok_step. injection Hd as Hd. rewrite !andb_true_iff in Hd.
  destruct Hd as [[[[[H1' H2'] H3'] H4'] H5'] H6']. apply String.eqb_eq in H1', H2', H5'.
  apply reality_matches_true in H6' as (? & ? & ? & ?). split; [done|]. split; [done|]. split; [by split|].
  exists a. split; [done|]. unfold us_per_second in *. lia.
Qed.

Lemma not_dependency key entries :
  key ∉ mjoin (ce_dependencies <$> entries) <-> Forall (fun d => key ∉ ce_dependencies d) entries.
Proof.
  induction entries as [|d l IH]; cbn; [split; [constructor|by intros _ ?%elem_of_nil]|].
  rewrite Forall_cons, <- IH, elem_of_app. tauto.
Qed.

Lemma segments_justified plan inventory t cands segs :
  cands ⊆ cp_selected plan ->
  Forall2 (candidate_segment plan t (mjoin (ce_dependencies <$> ci_entries inventory))
             (dict_of ce_cache_key (ci_entries inventory))) cands segs ->
  forall before e id rd rest, concat segs = before ++ Deleted e id rd :: rest ->
  deletion_justified plan inventory t before e id.
Proof.
  intros Hsub Hf. induction Hf as [|c seg cands segs Hc Hf IH]; intros before e id rd rest Hcat.
  { by destruct before. }
  cbn [concat] in Hcat. assert (cands ⊆ cp_selected plan) as Hsub' by set_solver.
  assert (forall more, before = seg ++ more -> deletion_justified plan inventory t before e id) as Hlater.
  { intros more ->. rewrite <- app_assoc in Hcat. apply app_inv_head in Hcat.
    destruct (IH Hsub' _ _ _ _ _ Hcat) as [J1 J2 J3 J4 J5 (b & r & -> & J6)]. split; try done.
    exists (seg ++ b), r. by rewrite app_assoc. }
  destruct Hc as [->|(e0 & He0 & Hx & Hs)]; [by apply (Hlater before)|].
  apply dict_of_lookup_elem in He0 as [Hin Hk].
  inversion Hs as [Hseg|r Hseg|r rd0 Hu Hp Hd Hseg]; subst seg.
  - by apply (Hlater before).
  - destruct before as [|x before]; [done|]. cbn in Hcat. injection Hcat as <- Hcat. by apply (Hlater before).
  - destruct before as [|x [|y before]]; cbn in Hcat; [done| |].
    + injection Hcat as <- <- <- <- _. apply deletable_true in Hd as (D1 & D2 & D3 & D4).
      split; try done.
      * exists c. split; [apply Hsub; left|]. done.
      * by apply not_dependency.
      * exists [], r. done.
    + injection Hcat as <- <- Hcat. by apply (Hlater before).
Qed.

Definition deleted_key (c : call) : option string :=
  match c with Deleted e _ _ => Some (ce_cache_key e) | Inspected _ _ => None end.

Lemma segments_once plan t protected entries cands segs :
  Forall2 (candidate_segment plan t protected entries) cands segs ->
  (forall k e, entries !! k = Some e -> ce_cache_key e = k) ->
  sublist (omap deleted_key (concat segs)) (ecand_cache_key <$> cands).
Proof.
  intros Hf Hk. induction Hf as [|c seg cands segs Hc Hf IH]; [constructor|].
  cbn [concat]. rewrite omap_app, fmap_cons.
  destruct Hc as [->|(e & He & _ & Hs)]; [by constructor|]. apply Hk in He.
  inversion Hs; subst seg; cbn; [by constructor..|]. rewrite He. by constructor.
Qed.

(** ** The whole method *)

Definition cleanup_post (plan : CleanupPlan) (inventory : CacheInventory) (tr : list call)
    (out : result CleanupReport * traced W) : Prop :=
  exists t segs, out.2.2 = tr ++ concat segs /\ (length segs <= length (cp_selected plan))%nat /\
    Forall2 (candidate_segment plan t (mjoin (ce_dependencies <$> ci_entries inventory))
               (dict_of ce_cache_key (ci_entries inventory))) (take (length segs) (cp_selected plan)) segs /\
    match out.1 with
    | Ok report => crep_plan report = plan /\ valid report /\ Forall valid (crep_mutations report) /\
        omap freed (concat segs) = omap accounted (crep_mutations report)
    | Raise _ => True
    end.

Lemma silent_guards plan inventory : silent (execution_guards (W := traced W) plan inventory).
Proof.
  unfold execution_guards. apply silent_bind; [apply silent_lift|intros _].
  apply silent_bind; [apply silent_unlogged|intros t]. apply silent_bind; [apply silent_unlogged|intros t'].
  apply silent_bind; [apply silent_lift|intros _]. apply silent_ret.
Qed.

Lemma execute_cleanup_post plan inventory w :
  cleanup_post plan inventory w.2 (execute_cleanup (W := traced W) plan inventory w).
Proof.
  assert (forall x w', w'.2 = w.2 -> cleanup_post plan inventory w.2 (Raise x, w')) as Hraise.
  { intros x w' Hw. exists 0, []. cbn. rewrite app_nil_r. split_and!; [done|lia|rewrite take_0; constructor|done]. }
  unfold execute_cleanup. silent_case w1 g Hw1 (silent_guards plan inventory); [|by apply Hraise].
  destruct g as [start t]. destruct (String.eqb (cp_outcome plan) "refused").
  { silent_case w2 u Hw2 (silent_unlogged (W := W) now); [|apply Hraise; congruence].
    destruct (construct _) as [report|x] eqn:Er; [|apply Hraise; cbn; congruence].
    apply construct_ok in Er as [Hv ->]. exists 0, []. cbn. rewrite app_nil_r.
    split_and!; [congruence|lia|rewrite take_0; constructor|done|done|constructor|done]. }
  match goal with |- context [emit ?d] => silent_case w2 u Hw2 (silent_emit d) end; [|apply Hraise; congruence].
  rewrite lift_bind. destruct (existsb _ _); [apply Hraise; congruence|]. cbn [raise_if].
  set (protected := mjoin _). set (entries := dict_of _ _).
  assert (forall k e, entries !! k = Some e -> ce_cache_key e = k) as Hkeys
    by (intros k e He; by apply dict_of_lookup_elem in He as [_ ?]).
  pose proof (execute_trace plan t protected entries (cp_selected plan) [] "completed" w2 Hkeys)
    as (segs & T1 & T2 & T3 & T4).
  unfold mbind at 1, eff_bind at 1.
  destruct (execute_candidates (W := traced W) plan t protected entries (cp_selected plan) [] "completed" w2)
    as [[[ms state]|x] w3]; cbn [fst snd] in *.
  2: { exists t, segs. cbn [fst snd]. split_and!; [congruence|done|done|done]. }
  assert (forall x w', w'.2 = w3.2 -> cleanup_post plan inventory w.2 (Raise x, w')) as Hraise'.
  { intros x w' Hw. exists t, segs. cbn [fst snd]. split_and!; [congruence|done|done|done]. }
  rewrite lift_bind. destruct (SAFE_INTEGER_MAX <? _); [by apply Hraise'|]. cbn [raise_if].
  silent_case w4 t' Hw4 (silent_unlogged (W := W) now); [|by apply Hraise'].
  rewrite lift_bind. destruct (construct _) as [report|x] eqn:Er; [|by apply Hraise'].
  apply construct_ok in Er as [Hv ->].
  match goal with |- context [emit ?d] => silent_case w5 u' Hw5 (silent_emit d) end; [|apply Hraise'; congruence].
  destruct T4 as (new & -> & Hrun & Hfree). exists t, segs. cbn [fst snd mret eff_ret].
  split_and!; [congruence|done|done|done|exact Hv| |done]. destruct Hrun as [Hans _].
  eapply Forall2_Forall_l; [exact Hans|]. by apply Forall_forall; intros c _ m [? _].
Qed.
End Trace.
