(* ===== verification/CacheProperties.v ===== *)
(** * Properties of the cache manager *)

From S2P Require Export CachePlan CacheModels.
Import Cache.

(** ** A concrete world *)

Module CacheSample.
#[local] Existing Instance ascii_tables.
#[local] Existing Instance reference_jcs.

(** The world is its clock; every reading advances it by a millisecond.  The
    provider confirms every entry and deletes what it is told to. *)
Definition world : Type := Z.
#[export] Instance sample_clock : Clock world := fun w => (Ok w, w + 1000).
#[export] Instance sample_ids : OperationIds world :=
  {| new_cleanup_id w := (Ok "opid:v1:cache-cleanup:u7:01890a5d-ac96-774b-bcce-b302099a8057", w);
     new_transfer_id w := (Ok "opid:v1:transfer:u7:01890a5d-ac96-774b-bcce-b302099a8058", w) |}.
#[export] Instance sample_cancellation : Cancellation world := fun w => (Ok false, w).
#[export] Instance sample_publisher : Publisher world :=
  {| publishing := false; publish_draft _ w := (Ok tt, w) |}.

Definition reality_of (e : CacheEntry) (t : Z) : CacheReality :=
  {| cr_cache_key := ce_cache_key e; cr_status := "verified"; cr_actual_sha256 := Some (ce_sha256 e);
     cr_actual_size_bytes := Some (ce_size_bytes e); cr_actual_reclaimable_bytes := Some (ce_reclaimable_bytes e);
     cr_accounting_basis := Some (ce_accounting_basis e); cr_observed_at := rfc3339 t;
     cr_source := ce_provider_name e; cr_diagnostic := None |}.

#[export] Instance sample_provider : CacheProvider world :=
  {| inspect e w := (Ok (reality_of e 1700000000000000), w);
     delete_verified e id w :=
       (Ok {| del_succeeded := true; del_actual_reclaim_bytes := ce_reclaimable_bytes e; del_code := "deleted";
              del_detail := "unlinked" |}, w) |}.

Definition entry (key : string) (bytes : Z) (pinned : bool) : CacheEntry :=
  {| ce_cache_key := key; ce_kind := "artifact"; ce_content_id := None; ce_sha256 := EMPTY_SHA256;
     ce_relative_path := "objects/" +:+ key; ce_size_bytes := bytes; ce_reclaimable_bytes := bytes;
     ce_accounting_basis := "allocated"; ce_provider_name := "filesystem"; ce_retention_class := "reacquirable";
     ce_pinned := pinned; ce_active_leases := []; ce_future_dependencies := []; ce_dependencies := [];
     ce_last_used_at := "2023-11-14T20:00:00Z"; ce_reacquisition_time_seconds := 60;
     ce_reacquisition_cost_microunits := 0; ce_reconstruction_difficulty := 1; ce_upstream_fragility := 1;
     ce_verification_status := "verified"; ce_verified_at := Some "2023-11-14T21:00:00Z";
     ce_observed_at := "2023-11-14T22:00:00Z"; ce_source := "scan"; ce_staleness_seconds := 0;
     ce_registry_authority := false |}.

Definition entries : list CacheEntry := [entry "alpha" 4096 false; entry "beta" 8192 false; entry "gamma" 16384 true].
Definition start : Z := 1700000000000000.
Definition policy : EvictionPolicy :=
  {| ep_bytes_weight := 1; ep_age_weight := 1; ep_reacquisition_time_penalty := 1;
     ep_reacquisition_cost_penalty := 1; ep_reconstruction_penalty := 1; ep_fragility_penalty := 1;
     ep_expensive_reconstruction_penalty := 1; ep_maximum_inventory_age_seconds := 3600 |}.

Definition the_inventory : result CacheInventory := (inventory entries None start).1.
Definition or_default {A} (r : result A) (d : A) : A := match r with Ok a => a | Raise _ => d end.
Definition no_inventory : CacheInventory := {| ci_observed_at := ""; ci_inventory_digest := ""; ci_entries := [] |}.
Definition no_plan : CleanupPlan :=
  {| cp_cleanup_id := ""; cp_inventory_digest := ""; cp_created_at := ""; cp_target_reclaim_bytes := 0;
     cp_expected_reclaim_bytes := 0; cp_outcome := ""; cp_policy := policy; cp_selected := []; cp_exclusions := [] |}.

Definition sample_inventory : CacheInventory := Eval vm_compute in or_default (inventory entries None start).1 no_inventory.
Definition sample_reconciliation : CacheReconciliation := Eval vm_compute in
  or_default (reconcile sample_inventory start).1
    {| crec_inventory_digest := ""; crec_observed_at := ""; crec_observations := [] |}.
Definition plan_for (target : Z) : eff world CleanupPlan :=
  plan_cleanup sample_inventory sample_reconciliation target policy.
Definition sample_plan : CleanupPlan := Eval vm_compute in or_default (plan_for 10000 start).1 no_plan.
Definition refused_plan : CleanupPlan := Eval vm_compute in or_default (plan_for 20000 start).1 no_plan.
End CacheSample.

Lemma space_entries l : space l = sumZ (ce_reclaimable_bytes <$> l.*2).
Proof. unfold space. by rewrite <- list_fmap_compose. Qed.

Lemma sumZ_perm l k : l ≡ₚ k -> sumZ l = sumZ k.
Proof. induction 1; cbn; lia. Qed.

Lemma sumZ_submseteq l k : l ⊆+ k -> Forall (fun z => 0 <= z) k -> sumZ l <= sumZ k.
Proof.
  intros (rest & Hp)%submseteq_Permutation Hk. rewrite (sumZ_perm _ _ Hp), sumZ_app.
  rewrite Hp in Hk. apply Forall_app in Hk as [_ Hk]. apply sumZ_nonneg in Hk. lia.
Qed.

Section Properties.
Context `{PyTables} `{JCS} {W : Type} `{Clock W} `{OperationIds W} `{CacheProvider W} `{Cancellation W} `{Publisher W}.

(** Everything a cleanup plan selects may be deleted: the entry is in the
    inventory, unpinned, unleased, not needed by another entry or a future run,
    not in a protected class, verified, fresh, and the provider's observation of
    it matches the inventory byte for byte; the plan books its reclaimable bytes. *)
Theorem cleanup_selects_evictable inventory reconciliation target policy w plan w' c :
  plan_cleanup inventory reconciliation target policy w = (Ok plan, w') -> c ∈ cp_selected plan ->
  exists t w1 e r, now w = (Ok t, w1) /\ e ∈ ci_entries inventory /\
    dict_of cr_cache_key (crec_observations reconciliation) !! ce_cache_key e = Some r /\
    evictable t policy (ci_entries inventory) e r /\
    ecand_cache_key c = ce_cache_key e /\ ecand_expected_reclaim_bytes c = ce_reclaimable_bytes e.
Proof.
  intros (t & w1 & Ht & _ & _ & _ & [_ _ _ _ (ordered & n & Hs & _ & (kept & Hk & Hp) & _ & _ & Hsel & _)])
    %plan_cleanup_ok Hc. exists t, w1.
  rewrite Hsel in Hc. apply elem_of_lookup_imap in Hc as (i & p & -> & Hp').
  apply lookup_take_Some in Hp' as [Hp' _]. apply list_elem_of_lookup_2 in Hp'.
  rewrite Forall_forall in Hs. destruct (Hs p Hp') as ((r & Hr & Hev) & _). exists p.2, r.
  split; [done|]. split; [|done].
  assert (p.2 ∈ ordered.*2) as Hin by (by apply list_elem_of_fmap_2). rewrite Hp in Hin.
  apply (elem_of_sublist _ _ _ Hin) in Hk. by apply elem_of_sorted_by in Hk.
Qed.

(** Selection is best first and minimal: the selected candidates are a prefix,
    in score order, of all evictable entries, no shorter prefix reaches the
    target, and the plan is ready exactly when the prefix does. *)
Theorem cleanup_plan_greedy inventory reconciliation target policy w plan w' :
  plan_cleanup inventory reconciliation target policy w = (Ok plan, w') ->
  exists t ordered n,
    let obs := dict_of cr_cache_key (crec_observations reconciliation) in
    StronglySorted (key_le candidate_order) ordered /\
    Forall (scored t policy (ci_entries inventory) obs) ordered /\
    (forall e, e ∈ ci_entries inventory -> eligible t policy (ci_entries inventory) obs e ->
       ~ overflowing t policy e -> e ∈ ordered.*2) /\
    cp_selected plan = ranked 0 (take n ordered) /\
    cp_expected_reclaim_bytes plan = space (take n ordered) /\
    (forall m, (m < n)%nat -> space (take m ordered) < target) /\
    cp_outcome plan = (if target <=? space (take n ordered) then "ready" else "refused") /\
    (cp_outcome plan = "refused" -> n = length ordered).
Proof.
  intros (t & w1 & _ & _ & _ & _ & [_ _ _ _ (ordered & n & Hs & Hso & _ & Hall & [Hn Hmin Hstop _] & Hsel & Hex & Hout)])
    %plan_cleanup_ok. exists t, ordered, n. cbn zeta. split_and!; try done.
  rewrite Hout. destruct (target <=? space (take n ordered)) eqn:Et; [done|]. intros _.
  destruct Hstop as [?|?]; [lia|done].
Qed.

(** A refused plan is right to refuse: no set of distinct evictable entries of
    the inventory (with representable scores) holds the bytes asked for. *)
Theorem cleanup_refusal_justified inventory reconciliation target policy w plan w' :
  plan_cleanup inventory reconciliation target policy w = (Ok plan, w') -> cp_outcome plan = "refused" ->
  exists t, cp_created_at plan = rfc3339 t /\
    let obs := dict_of cr_cache_key (crec_observations reconciliation) in
    forall l, NoDup l ->
      Forall (fun e => e ∈ ci_entries inventory /\ eligible t policy (ci_entries inventory) obs e /\
                       ~ overflowing t policy e) l ->
      sumZ (ce_reclaimable_bytes <$> l) < target.
Proof.
  intros (t & w1 & _ & _ & _ & _ & [_ Hcr _ _ (ordered & n & Hs & Hso & _ & Hall & [Hn Hmin Hstop Hpos] & Hsel & Hex & Hout)])
    %plan_cleanup_ok Href. exists t. split; [done|]. cbn zeta. intros l Hnd Hl.
  rewrite Hout in Href. destruct (target <=? space (take n ordered)) eqn:Et; [done|].
  destruct Hstop as [?| ->]; [lia|]. rewrite firstn_all in *.
  assert (sumZ (ce_reclaimable_bytes <$> l) <= space ordered) as Hle; [|lia].
  rewrite space_entries. apply sumZ_submseteq.
  - apply fmap_submseteq, NoDup_submseteq; [done|]. intros e He. rewrite Forall_forall in Hl.
    destruct (Hl e He) as (? & ? & ?). auto.
  - apply Forall_fmap, Forall_fmap. eapply Forall_impl; [exact Hpos|]. cbn. lia.
Qed.

(** C7: Whatever the provider answers or raises, a deletion is issued only for a
    selected, unprotected entry that no other entry depends on, under the plan's
    own identifier, and directly after an inspection of it whose verified, fresh
    answer still matches the inventory. *)
Theorem deletion_only_after_matching_inspection plan inventory w out w' tr :
  execute_cleanup (W := traced W) plan inventory (w, []) = (out, (w', tr)) ->
  exists t, forall before e id rd rest, tr = before ++ Deleted e id rd :: rest ->
    deletion_justified plan inventory t before e id.
Proof.
  intros He. destruct (execute_cleanup_post plan inventory (w, [])) as (t & segs & Ht & _ & Hseg & _).
  rewrite He in Ht. cbn in Ht. subst tr. exists t. intros before e id rd rest Hcat.
  eapply segments_justified; [|exact Hseg|exact Hcat].
  intros c Hc. rewrite <- (take_drop (length segs) (cp_selected plan)). apply elem_of_app. by left.
Qed.

(** A cleanup deletes no entry twice. *)
Theorem deletes_at_most_once plan inventory w out w' tr :
  valid plan -> execute_cleanup (W := traced W) plan inventory (w, []) = (out, (w', tr)) ->
  NoDup (omap deleted_key tr).
Proof.
  intros Hv He. destruct (execute_cleanup_post plan inventory (w, [])) as (t & segs & Ht & _ & Hseg & _).
  rewrite He in Ht. cbn in Ht. subst tr. apply segments_once in Hseg.
  2: { intros k e Hk. by apply dict_of_lookup_elem in Hk as [_ ?]. }
  eapply sublist_NoDup; [|exact Hseg]. rewrite fmap_take.
  eapply sublist_NoDup; [|apply sublist_take].
  unfold valid, post_init, CleanupPlan_post_init, _require_unique, require_unique in Hv. ok_inv. by bool_simp.
Qed.

Lemma accounted_sum ms :
  Forall valid ms -> sumZ (mut_actual_reclaim_bytes <$> ms) = sumZ (snd <$> omap accounted ms).
Proof.
  induction 1 as [|m ms Hm _ IH]; [done|]. cbn [omap list_omap]. rewrite fmap_cons. cbn [sumZ]. rewrite IH.
  unfold accounted. unfold valid, post_init, CleanupMutation_post_init in Hm. ok_inv.
  destruct (String.eqb _ _); cbn in *; [done|]. bool_simp. lia.
Qed.

Lemma accounted_all ms :
  existsb (fun m => negb (String.eqb (mut_outcome m) "deleted")) ms = false ->
  fst <$> omap accounted ms = mut_cache_key <$> ms.
Proof.
  induction ms as [|m ms IH]; [done|]. cbn [existsb]. intros [Hm Hms]%orb_false_iff. cbn [omap list_omap].
  unfold accounted at 1. apply negb_false_iff in Hm. rewrite Hm, !fmap_cons. by rewrite IH.
Qed.

(** The report tells the truth about the provider: the entries it calls
    deleted, with their bytes and in their order, are exactly the deletions that
    succeeded, and its total is their sum. *)
Theorem cleanup_report_accounts plan inventory w report w' tr :
  execute_cleanup (W := traced W) plan inventory (w, []) = (Ok report, (w', tr)) ->
  omap accounted (crep_mutations report) = omap freed tr /\
  crep_actual_reclaim_bytes report = sumZ (snd <$> omap freed tr) /\
  (crep_state report = "completed" ->
     fst <$> omap freed tr = ecand_cache_key <$> cp_selected plan /\
     crep_actual_reclaim_bytes report = cp_expected_reclaim_bytes plan).
Proof.
  intros He. destruct (execute_cleanup_post plan inventory (w, [])) as (t & segs & Ht & _ & _ & Hout).
  rewrite He in Ht, Hout. cbn in Ht, Hout. subst tr. destruct Hout as (Hplan & Hv & Hms & Hfree).
  split; [done|]. unfold valid, post_init, CleanupReport_post_init in Hv. rewrite Hplan in Hv. ok_inv.
  split; [rewrite Hfree, <- accounted_sum by done; bool_simp; lia|]. intros Hst. rewrite Hst in *.
  cbn [String.eqb Ascii.eqb Bool.eqb andb] in *. bool_simp. split; [|lia].
  rewrite Hfree, accounted_all; done.
Qed.
End Properties.

(** An inventory digest does not depend on the order entries are listed in:
    reordering a valid inventory keeps it verified. *)
Theorem inventory_digest_order `{JCS} observed_at entries entries' digest :
  NoDup (ce_cache_key <$> entries) -> entries ≡ₚ entries' ->
  _verify_inventory {| ci_observed_at := observed_at; ci_inventory_digest := digest; ci_entries := entries |} =
  _verify_inventory {| ci_observed_at := observed_at; ci_inventory_digest := digest; ci_entries := entries' |}.
Proof.
  intros Hnd Hp. unfold _verify_inventory, inventory_digest, _inventory_payload.
  cbn [ci_observed_at ci_entries ci_inventory_digest]. by rewrite (sorted_by_ext ce_cache_key entries entries').
Qed.

(** A cache path is accepted exactly when it is the root itself written as a
    dot, or a non-empty sequence of plain components: no empty, dot or dot-dot
    component, no slash in front, no backslash anywhere. *)
Theorem relative_path_exact value :
  _require_relative_path value = Ok tt <->
  value = "." \/ exists parts, parts <> [] /\ Forall plain_component parts /\ value = join "/" parts.
Proof.
  split; [apply relative_path_components|]. unfold _require_relative_path. rewrite raise_if_ok, !orb_false_iff.
  intros [->|(parts & Hne & Hp & ->)]; [done|].
  destruct (plain_relative parts Hne Hp) as [Ha He].
  split_and!; [done| |done| |].
  + apply join_avoids; [done|]. eapply Forall_impl; [exact Hp|]. by intros ? (? & ? & ? & ? & ?).
  + unfold as_posix. rewrite Ha, plain_posix_parts by done. cbn [append]. rewrite He. by rewrite String.eqb_refl.
  + rewrite plain_posix_parts by done. apply existsb_false. eapply Forall_impl; [exact Hp|].
    intros p (H1 & H2 & H3 & _). cbv beta. apply mem_false. rewrite !not_elem_of_cons. split_and!; try done. by apply not_elem_of_nil.
Qed.


(** ** Witnesses *)

Import CacheSample.

Section Witnesses.
#[local] Existing Instance ascii_tables.
#[local] Existing Instance reference_jcs.

Lemma sample_planned : plan_for 10000 start = (Ok sample_plan, start + 1000).
Proof. by vm_compute. Qed.
Lemma refused_planned : plan_for 20000 start = (Ok refused_plan, start + 1000).
Proof. by vm_compute. Qed.

Definition log : list call := Eval vm_compute in
  (execute_cleanup (W := traced world) sample_plan sample_inventory (start + 2000, [])).2.2.
Definition sample_report : CleanupReport := Eval vm_compute in
  or_default (execute_cleanup (W := traced world) sample_plan sample_inventory (start + 2000, [])).1
    {| crep_plan := no_plan; crep_state := ""; crep_started_at := ""; crep_completed_at := "";
       crep_actual_reclaim_bytes := 0; crep_mutations := [] |}.
Lemma sample_executed :
  execute_cleanup (W := traced world) sample_plan sample_inventory (start + 2000, []) =
  (Ok sample_report, (start + 5000, log)).
Proof. by vm_compute. Qed.

Lemma cleanup_selects_evictable_witness :
  exists e, e ∈ ci_entries sample_inventory /\ ce_cache_key e = "beta" /\ unprotected e.
Proof.
  destruct (cp_selected sample_plan) as [|c l] eqn:El; [discriminate El|].
  assert (c ∈ cp_selected sample_plan) as Hc by (rewrite El; left).
  destruct (cleanup_selects_evictable sample_inventory sample_reconciliation 10000 policy start sample_plan _ c
    sample_planned Hc) as (t & w1 & e & r & _ & He & _ & [Hu _ _ _ _ _ _ _] & Hk & _).
  exists e. split; [done|]. split; [|done]. rewrite <- Hk. injection El as <- _. done.
Defined.

Lemma cleanup_plan_greedy_witness : exists ordered,
  StronglySorted (key_le candidate_order) ordered /\ cp_selected sample_plan = ranked 0 (take 2 ordered).
Proof.
  destruct (cleanup_plan_greedy sample_inventory sample_reconciliation 10000 policy start sample_plan _
    sample_planned) as (t & ordered & n & Hs & _ & _ & Hsel & _). exists ordered. split; [done|].
  assert (length (cp_selected sample_plan) = 2%nat) as Hl by done.
  rewrite Hsel in Hl |- *. unfold ranked in *. rewrite length_imap, length_take in Hl.
  destruct (decide (n <= 2)%nat); [by replace n with 2%nat by lia|].
  rewrite !(take_ge ordered) by lia. done.
Defined.

Lemma cleanup_refusal_justified_witness : exists t,
  cp_created_at refused_plan = rfc3339 t /\ sumZ (ce_reclaimable_bytes <$> []) < 20000.
Proof.
  destruct (cleanup_refusal_justified sample_inventory sample_reconciliation 20000 policy start refused_plan _
    refused_planned eq_refl) as (t & Ht & Hl). exists t. split; [done|].
  apply Hl; constructor.
Defined.

Lemma deletion_only_after_matching_inspection_witness : exists t,
  forall before e id rd rest, log = before ++ Deleted e id rd :: rest ->
    deletion_justified sample_plan sample_inventory t before e id.
Proof. exact (deletion_only_after_matching_inspection _ _ _ _ _ _ sample_executed). Defined.

Lemma deletes_at_most_once_witness : NoDup (omap deleted_key log) /\ length log = 4%nat.
Proof.
  split; [|done]. refine (deletes_at_most_once _ _ _ _ _ _ _ sample_executed). by vm_compute.
Defined.

Lemma cleanup_report_accounts_witness :
  crep_state sample_report = "completed" /\ crep_actual_reclaim_bytes sample_report = 12288 /\
  fst <$> omap freed log = ["beta"; "alpha"].
Proof.
  destruct (cleanup_report_accounts _ _ _ _ _ _ sample_executed) as (_ & Ha & Hc).
  split; [done|]. destruct (Hc eq_refl) as [Hk Hb]. split; [rewrite Hb; done|rewrite Hk; done].
Defined.

Lemma inventory_digest_order_witness :
  _verify_inventory {| ci_observed_at := ci_observed_at sample_inventory;
    ci_inventory_digest := ci_inventory_digest sample_inventory;
    ci_entries := [entry "gamma" 16384 true; entry "beta" 8192 false; entry "alpha" 4096 false] |} = Ok tt.
Proof.
  rewrite <- (inventory_digest_order (ci_observed_at sample_inventory)
    [entry "alpha" 4096 false; entry "beta" 8192 false; entry "gamma" 16384 true]).
  - by vm_compute.
  - apply (bool_decide_unpack _). by vm_compute.
  - apply (Permutation_rev [entry "alpha" 4096 false; entry "beta" 8192 false; entry "gamma" 16384 true]).
Defined.
End Witnesses.
