(* ===== verification/Transfers.v ===== *)
(** * Resumable transfers

    cache_manager.py, [TransferManager].  The file system is the interface
    [FileSystem]: every operation may fail and may find the file system changed by
    others.  Absolute paths are lists of components.  Reading a file to its end
    takes as many reads as the world provides blocks for; [fuel] bounds them.

    The second part follows a record over its life. *)

From S2P Require Export Files CacheManager.

Import Cache.

Class ChunkSource (W : Type) := read_chunk : string -> Z -> Z -> eff W string.

(** [p.exists() or p.is_symlink()] *)
Definition present {W} `{FileSystem W} (p : path) : eff W bool :=
  e ← fs_exists p; if e : bool then mret true else fs_is_symlink p.

(** The blocks of an open file up to its end, in order. *)
Fixpoint read_all {W} `{FileSystem W} (fuel : nat) (fd : Z) (content : string) : eff W string :=
  match fuel with
  | O => lift (Raise out_of_fuel)
  | S fuel =>
      block ← fs_read fd (1024 * 1024);
      if str_empty block then mret content else read_all fuel fd (content +:+ block)
  end.

(** [TransferManager.EMPTY_SHA256] *)
Definition EMPTY_BYTES_SHA256 : string := Eval vm_compute in sha256 "".

(** ** The manager *)

Section Manager.
Context `{PyTables} `{JCS} {W : Type} `{Clock W} `{OperationIds W} `{Cancellation W} `{Publisher W}.
Context `{FileSystem W} `{ChunkSource W} (root : path) (fuel : nat).

Definition transfer_event (record : TransferRecord) (status phase : string) (attempt : Z) (message : string)
    (terminal : bool) (current : option Z) : EventDraft :=
  {| dr_stream_id := treq_transfer_id (trec_requirement record); dr_operation_kind := "transfer";
     dr_event_type := "progress"; dr_phase := phase; dr_status := status; dr_attempt := attempt;
     dr_current := Some (default (trec_bytes_completed record) current);
     dr_total := Some (treq_expected_size_bytes (trec_requirement record)); dr_unit := Some "bytes";
     dr_message := message; dr_correlation_id := None; dr_causation_id := None;
     dr_attributes := [("operation", JStr (treq_operation (trec_requirement record)));
                       ("resumable", JBool (trec_resumable record))];
     dr_terminal := terminal |}.

Definition _emit_transfer (record : TransferRecord) (status phase : string) (attempt : Z) (message : string)
    (terminal : bool) (current : option Z) : eff W unit :=
  emit (transfer_event record status phase attempt message terminal current).

Definition plan (operation locator expected_sha256 : string) (expected_size_bytes : Z) (relative_path : string)
    (cache_key : option string) : eff W TransferRecord :=
  transfer_id ← new_transfer_id;
  record ← lift (
    requirement ← construct {| treq_transfer_id := transfer_id; treq_operation := operation;
      treq_locator := locator; treq_expected_sha256 := expected_sha256;
      treq_expected_size_bytes := expected_size_bytes; treq_relative_path := relative_path;
      treq_cache_key := cache_key |};
    construct {| trec_requirement := requirement; trec_state := "planned"; trec_bytes_completed := 0;
      trec_checkpoint_sha256 := EMPTY_BYTES_SHA256; trec_attempts := []; trec_verified_sha256 := None;
      trec_verified_size_bytes := None; trec_resumable := true |});
  _ ← _emit_transfer record "planned" "planning" 1 "transfer planned" false None;
  mret record.

(** The record after one more physical attempt that ended in [outcome]. *)
Definition attempted (record : TransferRecord) (attempt : TransferAttempt) (outcome : string)
    (bytes_completed : Z) (checkpoint : string) : TransferRecord :=
  let completed := String.eqb outcome "completed" in
  {| trec_requirement := trec_requirement record; trec_state := outcome;
     trec_bytes_completed := bytes_completed; trec_checkpoint_sha256 := checkpoint;
     trec_attempts := trec_attempts record ++ [attempt];
     trec_verified_sha256 := if completed then Some (treq_expected_sha256 (trec_requirement record)) else None;
     trec_verified_size_bytes := if completed then Some (treq_expected_size_bytes (trec_requirement record)) else None;
     trec_resumable := trec_resumable record |}.

Definition closed_state (state : string) : bool := mem state ["completed"; "failed"].

Definition attempt_number (record : TransferRecord) : Z := Z.of_nat (length (trec_attempts record)) + 1.

Definition record_external_attempt (record : TransferRecord) (bytes_completed : Z)
    (checkpoint_sha256 outcome code detail : string) : eff W TransferRecord :=
  _ ← lift (raise_if (closed_state (trec_state record))
              (ValueError "completed or failed transfers are immutable");;
            raise_if ((bytes_completed <? trec_bytes_completed record) ||
                      (treq_expected_size_bytes (trec_requirement record) <? bytes_completed))
              (ValueError "transfer progress must be monotonic and bounded"));
  started ← now;
  ended ← now;
  let completed := String.eqb outcome "completed" in
  '(attempt, updated) ← lift (
    attempt ← construct {| tat_sequence := attempt_number record; tat_started_at := rfc3339 started;
      tat_completed_at := rfc3339 ended; tat_offset_start := trec_bytes_completed record;
      tat_offset_end := bytes_completed; tat_outcome := outcome; tat_code := code; tat_detail := detail |};
    raise_if (completed && negb (bytes_completed =? treq_expected_size_bytes (trec_requirement record)))
      (ValueError "completed attempts must reach the expected byte count");;
    raise_if (completed && negb (String.eqb checkpoint_sha256 (treq_expected_sha256 (trec_requirement record))))
      (ValueError "completed attempts must prove the immutable expected digest");;
    updated ← construct (attempted record attempt outcome bytes_completed checkpoint_sha256);
    Ok (attempt, updated));
  _ ← (if 1 <? tat_sequence attempt
       then _emit_transfer record "resumed" "transfer" (tat_sequence attempt)
              "external transfer attempt resumed" false None
       else mret tt);
  _ ← _emit_transfer updated (if completed then "completed" else outcome) "transfer" (tat_sequence attempt)
        ("external transfer attempt " +:+ outcome) (completed || String.eqb outcome "failed") None;
  mret updated.

(** ** Local files *)

Definition escapes (p : path) : bool := negb (bool_decide (take (length root) p = root)).

Fixpoint no_symlinked_directory (current : path) (parts : list string) : eff W unit :=
  match parts with
  | [] => mret tt
  | part :: rest =>
      let current := current ++ [part] in
      e ← fs_exists current;
      l ← (if e : bool then fs_is_symlink current else mret false);
      if l : bool then lift (Raise (TransferIntegrityError "transfer path contains a symlinked directory"))
      else no_symlinked_directory current rest
  end.

Definition with_part_suffix (p : path) : path :=
  match rev p with [] => p | name :: above => rev ((name +:+ ".part") :: above) end.

Definition _destination (requirement : TransferRequirement) (partial : bool) : eff W path :=
  let parts := posix_parts (treq_relative_path requirement) in
  let p := root ++ parts in
  parent ← fs_resolve (removelast p);
  _ ← lift (raise_if (escapes parent) (TransferIntegrityError "transfer path escapes the configured root"));
  _ ← no_symlinked_directory root (removelast parts);
  _ ← fs_mkdir parent;
  mret (if partial then with_part_suffix p else p).

Definition _hash_path (p : path) : eff W (Z * string * (Z * Z)) :=
  before ← try_eff (fs_lstat p) (fun e => match e with
    | OSError _ errno => lift (Raise (TransferIntegrityError
        ("transfer checkpoint cannot be inspected (errno " +:+ dec errno +:+ ")")))
    | _ => lift (Raise e)
    end);
  _ ← lift (raise_if (is_link before || negb (is_regular before))
              (TransferIntegrityError "transfer checkpoint is not a regular non-symlink file"));
  fd ← fs_open p ReadOnly;
  '(opened, content, after) ← finally
    (opened ← fs_fstat fd; content ← read_all fuel fd ""; after ← fs_lstat p; mret (opened, content, after))
    (fs_close fd);
  _ ← lift (raise_if (negb (is_regular opened) || negb (bool_decide (identity opened = identity before)) ||
                      negb (bool_decide (identity opened = identity after)))
              (TransferIntegrityError "transfer checkpoint changed identity during verification"));
  mret (str_len content, sha256 content, identity opened).

(** ** [resume_download] *)

(** The local variables of the attempt. *)
Record progress := { pr_offset : Z; pr_chunks : Z; pr_outcome : string; pr_code : string; pr_detail : string }.

Definition settle (p : progress) (outcome code detail : string) : progress :=
  {| pr_offset := pr_offset p; pr_chunks := pr_chunks p; pr_outcome := outcome; pr_code := code; pr_detail := detail |}.

(** Run [m]; an exception leaves the attempt's variables as they are. *)
Definition guarded {A} (p : progress) (m : eff W A) (k : A -> eff W (progress * option exn))
    : eff W (progress * option exn) := fun w =>
  match m w with
  | (Ok a, w') => k a w'
  | (Raise e, w') => (Ok (p, Some e), w')
  end.

(** Ask the source for a block and make it durable. *)
Definition fetch (record : TransferRecord) (fd chunk_size offset : Z) : eff W Z :=
  let requirement := trec_requirement record in
  let request := Z.min chunk_size (treq_expected_size_bytes requirement - offset) in
  block ← read_chunk (treq_locator requirement) offset request;
  _ ← lift (raise_if (str_empty block || (request <? str_len block))
              (TransferIntegrityError "transfer source returned an invalid or premature chunk"));
  _ ← fs_append fd block;
  mret (str_len block).

(** The copy loop.  Every turn makes progress, so as many turns as bytes are left suffice. *)
Fixpoint copy_loop (turns : nat) (record : TransferRecord) (fd chunk_size : Z) (maximum_chunks : option Z)
    (p : progress) : eff W (progress * option exn) :=
  let expected := treq_expected_size_bytes (trec_requirement record) in
  if negb (pr_offset p <? expected) then mret (p, None)
  else
    match turns with
    | O => mret (p, Some out_of_fuel)
    | S turns =>
        guarded p cancelled (fun stop =>
          if stop : bool then
            mret (settle p (pr_outcome p) "cancelled" "transfer cancelled at a durable checkpoint", None)
          else if match maximum_chunks with Some m => m <=? pr_chunks p | None => false end then mret (p, None)
          else guarded p (fetch record fd chunk_size (pr_offset p)) (fun n =>
            let p := {| pr_offset := pr_offset p + n; pr_chunks := pr_chunks p + 1; pr_outcome := pr_outcome p;
                        pr_code := pr_code p; pr_detail := pr_detail p |} in
            guarded p (_emit_transfer record "running" "transfer" (attempt_number record)
                         "transfer checkpoint persisted" false (Some (pr_offset p))) (fun _ =>
              copy_loop turns record fd chunk_size maximum_chunks p)))
    end.

(** The body of the [with] block. *)
Definition copy_open (record : TransferRecord) (fd chunk_size : Z) (maximum_chunks : option Z)
    (checkpoint_identity : option (Z * Z)) (p : progress) : eff W (progress * option exn) :=
  let expected := treq_expected_size_bytes (trec_requirement record) in
  guarded p (opened ← fs_fstat fd;
             lift (raise_if (negb (is_regular opened))
                     (TransferIntegrityError "transfer destination is not a regular file");;
                   raise_if (match checkpoint_identity with
                             | Some i => negb (bool_decide (identity opened = i))
                             | None => false
                             end)
                     (TransferIntegrityError "partial transfer changed identity before resume"))) (fun _ =>
  '(p, failure) ← copy_loop (Z.to_nat (expected - pr_offset p)) record fd chunk_size maximum_chunks p;
  match failure with
  | Some e => mret (p, Some e)
  | None => mret (if pr_offset p =? expected
                  then settle p "completed" "verified" "transfer reached expected size and digest" else p, None)
  end).

(** The [try] statement around the copy. *)
Definition copy (record : TransferRecord) (partial : path) (chunk_size : Z) (maximum_chunks : option Z)
    (checkpoint_identity : option (Z * Z)) (p : progress) : eff W progress := fun w =>
  let failed (p : progress) (e : exn) (w : W) :=
    (Ok (settle p "interrupted" "source-or-write-failed"
           ("transfer source or local write raised " +:+ exn_class e)), w) in
  match fs_open partial (if pr_offset p =? 0 then CreateExclusive else AppendExisting) w with
  | (Raise e, w1) => failed p e w1
  | (Ok fd, w1) =>
      match copy_open record fd chunk_size maximum_chunks checkpoint_identity p w1 with
      | (Raise e, w2) => failed p e w2
      | (Ok (p, failure), w2) =>
          match fs_close fd w2, failure with
          | (Raise e, w3), _ => failed p e w3
          | (Ok _, w3), Some e => failed p e w3
          | (Ok _, w3), None => (Ok p, w3)
          end
      end
  end.

(** Publish the verified partial file under its final name. *)
Definition publish_final (partial final : path) (publication_identity : option (Z * Z)) (p : progress)
    : eff W progress :=
  try_eff
    (_ ← fs_link partial final;
     published ← fs_lstat final;
     current_partial ← fs_lstat partial;
     if negb (is_regular published) || is_none publication_identity ||
        negb (bool_decide (Some (identity published) = publication_identity)) ||
        negb (bool_decide (Some (identity current_partial) = publication_identity))
     then mret (settle p "failed" "publication-identity-mismatch"
                  "filesystem identity changed during atomic transfer publication")
     else
       try_eff (_ ← fs_unlink partial; mret p) (fun e => match e with
         | OSError _ _ => mret (settle p (pr_outcome p) "verified-partial-retained"
             "transfer published exactly; verified partial cleanup is still required")
         | _ => lift (Raise e)
         end))
    (fun e => match e with
     | OSError cls errno =>
         if String.eqb cls "FileExistsError" then
           mret (settle p "failed" "publication-destination-race"
                   "transfer destination appeared before atomic publication")
         else mret (settle p "failed" "publication-failed"
                      ("atomic transfer publication failed with errno " +:+ dec errno))
     | _ => lift (Raise e)
     end).

(** What is on disk after the attempt, and what becomes of it. *)
Definition conclude (record : TransferRecord) (partial final : path) (p : progress)
    : eff W (progress * string) :=
  there ← (if pr_offset p =? 0 then present partial else mret true);
  '(size, checkpoint, publication_identity) ←
    (if there : bool then '(size, digest, id) ← _hash_path partial; mret (size, digest, Some id)
     else mret (0, EMPTY_BYTES_SHA256, None));
  _ ← lift (raise_if (negb (size =? pr_offset p))
              (TransferIntegrityError "physical partial size diverged from transfer checkpoint"));
  p ← (if String.eqb (pr_outcome p) "completed" then
         if negb (String.eqb checkpoint (treq_expected_sha256 (trec_requirement record))) then
           mret (settle p "failed" "digest-mismatch" "completed transfer bytes do not match the immutable digest")
         else publish_final partial final publication_identity p
       else mret p);
  mret (p, checkpoint).

(** The checks before the attempt: the partial and final paths, and the identity
    of the checkpoint it resumes. *)
Definition resume_guards (record : TransferRecord) (chunk_size : Z) (maximum_chunks : option Z)
    : eff W (path * path * option (Z * Z)) :=
  _ ← lift (raise_if (negb (mem (treq_operation (trec_requirement record)) ["acquire"; "download"]))
              (ValueError "local resumable download only supports acquire/download requirements");;
            raise_if (closed_state (trec_state record))
              (ValueError "completed or failed transfers cannot be resumed");;
            raise_if ((chunk_size <? 1) || (64 * 1024 * 1024 <? chunk_size))
              (ValueError "transfer chunk size must be between 1 and 64 MiB");;
            raise_if (match maximum_chunks with Some m => m <? 1 | None => false end)
              (ValueError "maximum chunks must be positive when supplied"));
  partial ← _destination (trec_requirement record) true;
  final ← _destination (trec_requirement record) false;
  exists_final ← present final;
  _ ← lift (raise_if exists_final (TransferIntegrityError "transfer destination already exists"));
  if trec_bytes_completed record =? 0 then
    exists_partial ← present partial;
    _ ← lift (raise_if exists_partial (TransferIntegrityError "unexpected partial transfer exists for a new plan"));
    mret (partial, final, None)
  else
    '(size, digest, id) ← _hash_path partial;
    _ ← lift (raise_if (negb (size =? trec_bytes_completed record) ||
                        negb (String.eqb digest (trec_checkpoint_sha256 record)))
                (TransferIntegrityError "partial transfer does not match its durable checkpoint"));
    mret (partial, final, Some id).

Definition resume_download (record : TransferRecord) (chunk_size : Z) (maximum_chunks : option Z)
    : eff W TransferRecord :=
  '(partial, final, checkpoint_identity) ← resume_guards record chunk_size maximum_chunks;
  started ← now;
  let resumed := negb (list_empty (trec_attempts record)) in
  _ ← _emit_transfer record (if resumed then "resumed" else "running") "transfer" (attempt_number record)
        (if resumed then "transfer attempt resumed" else "transfer attempt started") false None;
  p ← copy record partial chunk_size maximum_chunks checkpoint_identity
        {| pr_offset := trec_bytes_completed record; pr_chunks := 0; pr_outcome := "interrupted";
           pr_code := "chunk-budget-reached"; pr_detail := "transfer paused at the configured chunk budget" |};
  '(p, checkpoint) ← conclude record partial final p;
  ended ← now;
  updated ← lift (
    attempt ← construct {| tat_sequence := attempt_number record; tat_started_at := rfc3339 started;
      tat_completed_at := rfc3339 ended; tat_offset_start := trec_bytes_completed record;
      tat_offset_end := pr_offset p; tat_outcome := pr_outcome p; tat_code := pr_code p;
      tat_detail := pr_detail p |};
    construct (attempted record attempt (pr_outcome p) (pr_offset p) checkpoint));
  _ ← _emit_transfer updated (pr_outcome p) "transfer" (attempt_number record)
        ("transfer attempt " +:+ pr_outcome p) (closed_state (pr_outcome p)) None;
  mret updated.
End Manager.

(** * Transfer records over their life

    Every operation that returns a record appends one attempt to it.  A record
    that [plan] made therefore keeps its requirement, its attempts only grow and
    cover the bytes without a gap, and it is completed only with the required
    size and digest; a completed or failed record accepts no operation. *)


Section History.
Context `{PyTables} `{JCS} {W : Type} `{Clock W} `{OperationIds W} `{Cancellation W} `{Publisher W}.
Context `{FileSystem W} `{ChunkSource W} (root : path) (fuel : nat).

(** One operation on a record, in any state of the world. *)
Inductive transfer_step (record : TransferRecord) : TransferRecord -> Prop :=
| step_external bytes checkpoint outcome code detail w updated w' :
    record_external_attempt record bytes checkpoint outcome code detail w = (Ok updated, w') ->
    transfer_step record updated
| step_resume chunk_size maximum_chunks w updated w' :
    resume_download root fuel record chunk_size maximum_chunks w = (Ok updated, w') ->
    transfer_step record updated.

(** The records a planned transfer goes through. *)
Inductive transfer_reachable (requirement : TransferRequirement) : TransferRecord -> Prop :=
| reach_planned operation locator sha256 size relative_path cache_key w record w' :
    plan operation locator sha256 size relative_path cache_key w = (Ok record, w') ->
    trec_requirement record = requirement -> transfer_reachable requirement record
| reach_step record updated :
    transfer_reachable requirement record -> transfer_step record updated ->
    transfer_reachable requirement updated.

(** What one operation does to the record. *)
Record appends (record updated : TransferRecord) : Prop := {
  ap_open : closed_state (trec_state record) = false;
  ap_valid : valid updated;
  ap_attempt : exists attempt outcome bytes checkpoint,
    updated = attempted record attempt outcome bytes checkpoint /\ valid attempt /\
    tat_offset_start attempt = trec_bytes_completed record /\ tat_offset_end attempt = bytes /\
    tat_outcome attempt = outcome
}.

Lemma step_appends record updated : transfer_step record updated -> appends record updated.
Proof.
  intros [bytes checkpoint outcome code detail w upd w' Hr|chunk_size maximum_chunks w upd w' Hr].
  - unfold record_external_attempt in Hr.
    apply eff_bind_ok in Hr as (u & w1 & [Hg _]%lift_ok & Hr). ok_inv. bool_simp.
    apply eff_bind_ok in Hr as (started & w2 & _ & Hr). apply eff_bind_ok in Hr as (ended & w3 & _ & Hr).
    apply eff_bind_ok in Hr as ([attempt upd'] & w4 & [Hc _]%lift_ok & Hr).
    apply eff_bind_ok in Hr as (u2 & w5 & _ & Hr). apply eff_bind_ok in Hr as (u3 & w6 & _ & Hr).
    eff_inv. ok_inv. subst.
    match goal with Ha : construct {| tat_sequence := _ |} = Ok ?a, Hu : construct (attempted _ _ _ _ _) = Ok ?b |- _ =>
      apply construct_ok in Ha as [Hv Ha]; apply construct_ok in Hu as [Hv' Hu]; subst end.
    split; [done|done|]. by repeat eexists.
  - unfold resume_download in Hr.
    apply eff_bind_ok in Hr as ([[partial final] id] & w1 & Hg & Hr).
    apply eff_bind_ok in Hr as (started & w2 & _ & Hr). apply eff_bind_ok in Hr as (u & w3 & _ & Hr).
    apply eff_bind_ok in Hr as (p & w4 & _ & Hr). apply eff_bind_ok in Hr as ([p' checkpoint] & w5 & _ & Hr).
    apply eff_bind_ok in Hr as (ended & w6 & _ & Hr). apply eff_bind_ok in Hr as (upd' & w7 & [Hc _]%lift_ok & Hr).
    apply eff_bind_ok in Hr as (u2 & w8 & _ & Hr). eff_inv. ok_inv.
    match goal with Ha : construct {| tat_sequence := _ |} = Ok ?a |- _ =>
      apply construct_ok in Ha as [Hv Ha]; subst end.
    apply construct_ok in Hc as [Hv' ->].
    unfold resume_guards in Hg. apply eff_bind_ok in Hg as (u3 & w9 & [Hg' _]%lift_ok & _). ok_inv. bool_simp.
    split; [done|done|]. by repeat eexists.
Qed.

Lemma planned_valid operation locator sha256 size relative_path cache_key w record w' :
  plan operation locator sha256 size relative_path cache_key w = (Ok record, w') -> valid record.
Proof.
  unfold plan. intros Hp. apply eff_bind_ok in Hp as (id & w1 & _ & Hp).
  apply eff_bind_ok in Hp as (r & w2 & [Hc _]%lift_ok & Hp). apply eff_bind_ok in Hp as (u & w3 & _ & Hp).
  eff_inv. ok_inv. by apply construct_ok in Hc as [? ->].
Qed.

Lemma reachable_valid requirement record :
  transfer_reachable requirement record -> valid record /\ trec_requirement record = requirement.
Proof.
  induction 1 as [op loc sha size rel key w record w' Hp Hr|record updated _ [_ IH] Hs].
  - split; [by eapply planned_valid|done].
  - apply step_appends in Hs as [_ Hv (a & o & b & c & -> & _)]. split; [done|exact IH].
Qed.

(** A valid record holds its history together. *)
Lemma valid_record_facts record :
  valid record ->
  tat_sequence <$> trec_attempts record = ranks (length (trec_attempts record)) /\
  contiguous_history 0 (trec_attempts record) = Ok tt /\
  trec_bytes_completed record <= treq_expected_size_bytes (trec_requirement record) /\
  (trec_state record = "completed" ->
     trec_bytes_completed record = treq_expected_size_bytes (trec_requirement record) /\
     trec_checkpoint_sha256 record = treq_expected_sha256 (trec_requirement record) /\
     trec_verified_sha256 record = Some (treq_expected_sha256 (trec_requirement record)) /\
     last_outcome_is (trec_attempts record) "completed" = true).
Proof.
  unfold valid, post_init, TransferRecord_post_init. intros Hv. ok_inv. bool_simp.
  split; [done|]. split; [done|]. split; [lia|]. intros Hs. rewrite Hs in *.
  cbn [String.eqb Ascii.eqb Bool.eqb] in *. unfold completed_guards in *. ok_inv. bool_simp. split_and!; try done; lia.
Qed.

(** The attempts of a record tile its checkpoint: no gap, no overlap. *)
Fixpoint tiles (offset : Z) (attempts : list TransferAttempt) (stop : Z) : Prop :=
  match attempts with
  | [] => offset = stop
  | a :: rest => tat_offset_start a = offset /\ offset <= tat_offset_end a /\ tiles (tat_offset_end a) rest stop
  end.

Definition grows (record updated : TransferRecord) : Prop :=
  trec_requirement updated = trec_requirement record /\
  trec_attempts record `prefix_of` trec_attempts updated /\
  trec_bytes_completed record <= trec_bytes_completed updated.

Lemma appends_grows record updated : appends record updated -> grows record updated.
Proof.
  intros [_ _ (a & o & b & c & -> & Hv & Hs & He & _)]. split; [done|]. split; [by eexists|].
  unfold valid, post_init, TransferAttempt_post_init in Hv. ok_inv. bool_simp.
  cbn [attempted trec_bytes_completed]. lia.
Qed.

Lemma steps_grow record updated : rtc transfer_step record updated -> grows record updated.
Proof.
  induction 1 as [record|record middle updated Hs _ IH]; [split; [done|split; [done|lia]]|].
  apply step_appends, appends_grows in Hs. destruct Hs as (R1 & P1 & B1), IH as (R2 & P2 & B2).
  split; [congruence|]. split; [by etrans|lia].
Qed.

Lemma tiles_snoc offset attempts stop a :
  tiles offset attempts stop -> tat_offset_start a = stop -> stop <= tat_offset_end a ->
  tiles offset (attempts ++ [a]) (tat_offset_end a).
Proof.
  revert offset. induction attempts as [|b attempts IH]; intros offset; cbn; [intros -> ? ?; auto|].
  intros (? & ? & ?) ? ?. auto.
Qed.

Lemma reachable_tiles requirement record :
  transfer_reachable requirement record -> tiles 0 (trec_attempts record) (trec_bytes_completed record).
Proof.
  induction 1 as [op loc sha size rel key w record w' Hp Hr|record updated _ IH Hs].
  - unfold plan in Hp. apply eff_bind_ok in Hp as (id & w1 & _ & Hp).
    apply eff_bind_ok in Hp as (r & w2 & [Hc _]%lift_ok & Hp). apply eff_bind_ok in Hp as (u & w3 & _ & Hp).
    eff_inv. ok_inv. by apply construct_ok in Hc as [_ ->].
  - apply step_appends in Hs as [_ _ (a & o & b & c & -> & Hv & Hst & He & _)].
    cbn [attempted trec_attempts trec_bytes_completed]. rewrite <- He. eapply tiles_snoc; [exact IH|done|].
    unfold valid, post_init, TransferAttempt_post_init in Hv. ok_inv. bool_simp. lia.
Qed.
End History.

(** ** Building the next record *)

Lemma contiguous_tiles offset attempts stop :
  contiguous_history offset attempts = Ok tt -> (forall a, last attempts = Some a -> tat_offset_end a = stop) ->
  (attempts = [] -> offset = stop) -> forall a, tat_offset_start a = stop ->
  contiguous_history offset (attempts ++ [a]) = Ok tt.
Proof.
  revert offset. induction attempts as [|x attempts IH]; intros offset; cbn [contiguous_history app].
  - intros _ _ Hs a <-. rewrite (Hs eq_refl). by rewrite Z.eqb_refl.
  - intros Hc Hl _ a Ha. ok_inv. destruct (tat_offset_start x =? offset) eqn:Ex; [|done].
    cbn [negb raise_if mbind result_bind] in *. apply IH; [done| | |done].
    + intros y Hy. apply Hl. by destruct attempts.
    + intros ->. by apply Hl.
Qed.

Lemma safe_integer_ok name v : 0 <= v <= SAFE_INTEGER_MAX -> _require_safe_integer false name (Some v) = Ok tt.
Proof. intros Hv. unfold _require_safe_integer. apply raise_if_ok. lia. Qed.

Lemma digest_ok name v : fullmatch SHA256_PATTERN v = true -> _require_sha256 name (Some v) = Ok tt.
Proof. intros Hv. unfold _require_sha256, require_sha256. by rewrite Hv. Qed.

Record next_attempt (record : TransferRecord) (attempt : TransferAttempt) (outcome : string) (bytes : Z)
    (checkpoint : string) : Prop := {
  na_valid : valid attempt;
  na_sequence : tat_sequence attempt = attempt_number record;
  na_start : tat_offset_start attempt = trec_bytes_completed record;
  na_end : tat_offset_end attempt = bytes;
  na_outcome : tat_outcome attempt = outcome;
  na_bound : bytes <= treq_expected_size_bytes (trec_requirement record);
  na_digest : fullmatch SHA256_PATTERN checkpoint = true;
  na_completed : outcome = "completed" -> bytes = treq_expected_size_bytes (trec_requirement record) /\
    checkpoint = treq_expected_sha256 (trec_requirement record);
  na_requirement : safe_nonneg (treq_expected_size_bytes (trec_requirement record)) = true
}.

Lemma attempted_valid record attempt outcome bytes checkpoint :
  valid record -> (trec_attempts record = [] -> trec_bytes_completed record = 0) ->
  next_attempt record attempt outcome bytes checkpoint ->
  valid (attempted record attempt outcome bytes checkpoint).
Proof.
  intros Hv Hempty [N1 N2 N3 N4 N5 N6 N7 N8 N9]. pose proof Hv as Hv'.
  apply valid_record_facts in Hv' as (V1 & V2 & V3 & _).
  unfold valid, post_init, TransferRecord_post_init in Hv. ok_inv. bool_simp.
  unfold valid, post_init, TransferAttempt_post_init in N1. ok_inv. bool_simp.
  assert (outcome ∈ ["interrupted"; "failed"; "completed"]) as Hout by (by rewrite <- N5).
  apply safe_nonneg_spec in N9.
  assert (0 <= bytes <= SAFE_INTEGER_MAX) as Hb.
  { unfold _require_safe_integer in *. ok_inv. bool_simp. lia. }
  assert (tat_sequence <$> (trec_attempts record ++ [attempt]) = ranks (length (trec_attempts record ++ [attempt])))
    as Hranks.
  { rewrite fmap_app, V1, length_app, Nat.add_1_r, ranks_S. cbn. by rewrite N2. }
  unfold valid, post_init, TransferRecord_post_init, attempted.
  cbn [trec_state trec_bytes_completed trec_checkpoint_sha256 trec_attempts trec_verified_sha256
       trec_verified_size_bytes trec_requirement].
  assert (mem outcome ["planned"; "interrupted"; "failed"; "completed"] = true) as -> by (bool_simp; set_solver).
  cbn [negb raise_if mbind result_bind]. rewrite safe_integer_ok by done.
  cbn [negb raise_if mbind result_bind]. rewrite digest_ok by done.
  cbn [negb raise_if mbind result_bind]. unfold _require_unique, require_unique.
  assert (has_duplicates ((fun a => dec (tat_sequence a)) <$> (trec_attempts record ++ [attempt])) = false) as ->.
  { bool_simp. rewrite (list_fmap_compose tat_sequence dec), Hranks. apply NoDup_fmap_2; [|apply NoDup_ranks].
    unfold dec. apply _. }
  cbn [negb raise_if mbind result_bind]. rewrite bool_decide_eq_true_2 by done.
  cbn [negb raise_if mbind result_bind]. rewrite last_snoc, N4, Z.eqb_refl. cbn [negb raise_if mbind result_bind].
  rewrite (contiguous_tiles 0 (trec_attempts record) (trec_bytes_completed record)); [|done| |intros Hnil; by rewrite (Hempty Hnil)|done].
  2: { intros a Ha. rewrite Ha in *. bool_simp. lia. }
  cbn [mbind result_bind]. assert ((treq_expected_size_bytes (trec_requirement record) <? bytes) = false) as -> by lia.
  cbn [negb raise_if mbind result_bind].
  assert (last_outcome_is (trec_attempts record ++ [attempt]) outcome = true) as Hlast.
  { unfold last_outcome_is. rewrite last_snoc, N5. apply String.eqb_refl. }
  assert (String.eqb outcome "planned" = false) as ->.
  { destruct (String.eqb outcome "planned") eqn:Ep; [|done]. apply String.eqb_eq in Ep as ->.
    by apply mem_spec in Hout. }
  destruct (String.eqb outcome "completed") eqn:Eo.
  - apply String.eqb_eq in Eo as ->. destruct (N8 eq_refl) as [-> ->]. rewrite digest_ok, safe_integer_ok by done. cbn [negb raise_if mbind result_bind]. unfold completed_guards.
    cbn [trec_state trec_bytes_completed trec_checkpoint_sha256 trec_attempts trec_verified_sha256
         trec_verified_size_bytes trec_requirement].
    rewrite Hlast, !bool_decide_eq_true_2, Z.eqb_refl, String.eqb_refl by done. done.
  - cbn [_require_sha256 _require_safe_integer mbind result_bind]. unfold incomplete_guards.
    cbn [trec_state trec_attempts trec_verified_sha256 trec_verified_size_bytes].
    rewrite Hlast, andb_false_r. done.
Qed.
