(* ===== verification/TransferMemory.v ===== *)
(** * Downloads into an in-memory file system

    A concrete file system, source and clock: names point to inodes, inodes hold
    bytes, the source serves the bytes of [content].  In it a transfer that is
    resumed again and again, with any chunk size and any chunk budget, ends with
    the exact content under its final name ([transfer_completes]).  A source that
    fails before its first block leaves the transfer stuck
    ([empty_interruption_stuck]). *)

From S2P Require Export Transfers.
From S2P Require Import CacheModels.
Import Cache.

Lemma str_len_empty s : str_empty s = true <-> String.length s = 0%nat.
Proof. destruct s; cbn; split; done. Qed.

(** ** The file system *)

Record memory := {
  m_files : gmap path Z;
  m_data : gmap Z string;
  m_position : gmap Z nat;
  m_next : Z
}.

Definition set_data (i : Z) (s : string) (m : memory) : memory :=
  {| m_files := m_files m; m_data := <[i := s]> (m_data m); m_position := m_position m; m_next := m_next m |}.
Definition set_position (i : Z) (n : nat) (m : memory) : memory :=
  {| m_files := m_files m; m_data := m_data m; m_position := <[i := n]> (m_position m); m_next := m_next m |}.
Definition set_files (f : gmap path Z) (m : memory) : memory :=
  {| m_files := f; m_data := m_data m; m_position := m_position m; m_next := m_next m |}.

Definition bytes_of_inode (i : Z) (m : memory) : string := default "" (m_data m !! i).
Definition stat_of (i : Z) (m : memory) : file_stat :=
  {| fst_kind := Regular; fst_dev := 1; fst_ino := i; fst_size := str_len (bytes_of_inode i m); fst_nlink := 1;
     fst_blocks := None |}.

Definition no_such_file : exn := OSError "FileNotFoundError" 2.
Definition file_exists : exn := OSError "FileExistsError" 17.

#[export] Instance memory_files : FileSystem memory :=
  {| fs_resolve p m := (Ok p, m);
     fs_exists p m := (Ok (is_some (m_files m !! p)), m);
     fs_is_symlink p m := (Ok false, m);
     fs_mkdir p m := (Ok tt, m);
     fs_lstat p m := (match m_files m !! p with Some i => Ok (stat_of i m) | None => Raise no_such_file end, m);
     fs_open p mode m :=
       match mode, m_files m !! p with
       | CreateExclusive, Some _ => (Raise file_exists, m)
       | CreateExclusive, None =>
           (Ok (m_next m), {| m_files := <[p := m_next m]> (m_files m); m_data := <[m_next m := ""]> (m_data m);
                              m_position := m_position m; m_next := m_next m + 1 |})
       | _, Some i => (Ok i, set_position i 0 m)
       | _, None => (Raise no_such_file, m)
       end;
     fs_fstat fd m := (Ok (stat_of fd m), m);
     fs_read fd n m :=
       let pos := default 0%nat (m_position m !! fd) in
       let block := str_take (Z.to_nat n) (str_drop pos (bytes_of_inode fd m)) in
       (Ok block, set_position fd (pos + String.length block) m);
     fs_append fd block m := (Ok tt, set_data fd (bytes_of_inode fd m +:+ block) m);
     fs_close fd m := (Ok tt, m);
     fs_link p q m :=
       match m_files m !! p, m_files m !! q with
       | Some i, None => (Ok tt, set_files (<[q := i]> (m_files m)) m)
       | Some _, Some _ => (Raise file_exists, m)
       | None, _ => (Raise no_such_file, m)
       end;
     fs_unlink p m :=
       match m_files m !! p with
       | Some _ => (Ok tt, set_files (delete p (m_files m)) m)
       | None => (Raise no_such_file, m)
       end |}.

Section Memory.
Context `{PyTables} `{JCS} (content : string) (t : Z) (Ht : min_instant <= t <= max_instant).
Context (transfer_id : string) (root : path) (fuel : nat).

#[local] Instance memory_clock : Clock memory := fun m => (Ok t, m).
#[local] Instance memory_ids : OperationIds memory :=
  {| new_cleanup_id m := (Ok "", m); new_transfer_id m := (Ok transfer_id, m) |}.
#[local] Instance memory_cancellation : Cancellation memory := fun m => (Ok false, m).
#[local] Instance memory_publisher : Publisher memory := {| publishing := false; publish_draft _ m := (Ok tt, m) |}.
#[local] Instance memory_source : ChunkSource memory :=
  fun _ offset n m => (Ok (str_take (Z.to_nat n) (str_drop (Z.to_nat offset) content)), m).

Lemma read_all_memory n fd acc m pos :
  m_position m !! fd = Some pos -> (String.length (str_drop pos (bytes_of_inode fd m)) < n)%nat ->
  exists m', read_all n fd acc m = (Ok (acc +:+ str_drop pos (bytes_of_inode fd m)), m') /\
    m_files m' = m_files m /\ m_data m' = m_data m /\ m_next m' = m_next m.
Proof.
  revert acc m pos. induction n as [|n IH]; intros acc m pos Hpos Hn; [lia|]. cbn [read_all].
  unfold mbind, eff_bind. cbn [fs_read memory_files]. rewrite Hpos. change (default 0%nat (Some pos)) with pos.
  set (rest := str_drop pos (bytes_of_inode fd m)) in *.
  set (block := str_take (Z.to_nat (1024 * 1024)) rest).
  assert (String.length block = (Z.to_nat (1024 * 1024) `min` String.length rest)%nat) as Hb by apply str_take_length.
  destruct (str_empty block) eqn:Ee.
  - apply str_len_empty in Ee. assert (rest = "") as Hrest by (destruct rest; [done|cbn in Hb, Ee; lia]).
    eexists. rewrite Hrest, str_app_nil_r. split; [reflexivity|]. by split_and!.
  - assert (String.length block <> 0%nat) as Hne.
    { intros Hz. apply str_len_empty in Hz. congruence. }
    set (m1 := set_position fd (pos + String.length block) m).
    assert (str_drop (pos + String.length block) (bytes_of_inode fd m) = str_drop (String.length block) rest) as Hd
      by (unfold rest; by rewrite str_drop_drop).
    destruct (IH (acc +:+ block) m1 (pos + String.length block)%nat) as (m' & Hr & H1 & H2 & H3).
    { unfold m1. cbn. apply lookup_insert_eq. }
    { change (bytes_of_inode fd m1) with (bytes_of_inode fd m). rewrite Hd, str_drop_length. lia. }
    exists m'. split; [|done]. rewrite Hr. change (bytes_of_inode fd m1) with (bytes_of_inode fd m).
    rewrite Hd, str_app_assoc. do 3 f_equal. rewrite Hb.
    assert (block = str_take (String.length block) rest) as Hbt.
    { rewrite Hb. unfold block. destruct (decide (Z.to_nat (1024 * 1024) <= String.length rest)%nat).
      - by rewrite Nat.min_l.
      - rewrite !str_take_all by lia. done. }
    rewrite <- Hb. rewrite Hbt at 1. apply str_take_drop.
Qed.

Lemma hash_memory p i m :
  m_files m !! p = Some i -> (String.length (bytes_of_inode i m) < fuel)%nat ->
  exists m', _hash_path fuel p m = (Ok (str_len (bytes_of_inode i m), sha256 (bytes_of_inode i m), (1, i)), m') /\
    m_files m' = m_files m /\ m_data m' = m_data m /\ m_next m' = m_next m.
Proof.
  intros Hp Hf. unfold _hash_path, try_eff, finally, mbind, eff_bind, lift, mret, eff_ret.
  cbn [fs_lstat fs_open fs_fstat fs_close memory_files]. rewrite Hp. cbn [is_link is_regular fst_kind stat_of negb orb raise_if].
  set (m1 := set_position i 0 m).
  destruct (read_all_memory fuel i "" m1 0%nat) as (m' & Hr & H1 & H2 & H3).
  { apply lookup_insert_eq. }
  { exact Hf. }
  cbn [str_drop append] in Hr. rewrite Hp. fold m1. rewrite Hr, H1. change (m_files m1) with (m_files m). rewrite Hp.
  assert (stat_of i m' = stat_of i m) as Hst by (unfold stat_of, bytes_of_inode; by rewrite H2).
  change (stat_of i m1) with (stat_of i m). rewrite Hst. cbn [is_regular fst_kind stat_of negb orb].
  rewrite bool_decide_eq_true_2 by done. cbn [negb orb raise_if]. eexists. split; [done|done].
Qed.

Lemma emit_memory d m : emit (W := memory) d m = (Ok tt, m).
Proof. done. Qed.

Lemma str_len_nonneg s : 0 <= str_len s.
Proof. unfold str_len. lia. Qed.

(** The next block of the source. *)
Lemma next_block o cs :
  0 <= o < str_len content -> 1 <= cs ->
  let request := Z.min cs (str_len content - o) in
  let block := str_take (Z.to_nat request) (str_drop (Z.to_nat o) content) in
  str_len block = request /\ str_empty block = false /\
  str_take (Z.to_nat o) content +:+ block = str_take (Z.to_nat (o + request)) content.
Proof.
  intros Ho Hc request block. unfold str_len in *.
  assert (Z.of_nat (String.length block) = request) as Hl.
  { unfold block, request. rewrite str_take_length, str_drop_length. lia. }
  split; [done|]. split.
  - destruct (str_empty block) eqn:E; [|done]. apply str_len_empty in E. lia.
  - unfold block. rewrite Z2Nat.inj_add by lia. by rewrite str_take_add.
Qed.

Record copied (i : Z) (budget : option Z) (p p' : progress) (m m' : memory) : Prop := {
  co_files : m_files m' = m_files m;
  co_next : m_next m' = m_next m;
  co_data : bytes_of_inode i m' = str_take (Z.to_nat (pr_offset p')) content;
  co_offset : pr_offset p <= pr_offset p' <= str_len content;
  co_outcome : (pr_outcome p', pr_code p', pr_detail p') = (pr_outcome p, pr_code p, pr_detail p);
  co_whole : budget = None -> pr_offset p' = str_len content;
  co_moves : pr_offset p < str_len content ->
    match budget with Some b => pr_chunks p < b | None => True end -> pr_offset p < pr_offset p'
}.

Lemma copy_loop_memory turns record i cs budget p m :
  treq_expected_size_bytes (trec_requirement record) = str_len content -> 1 <= cs ->
  0 <= pr_offset p <= str_len content -> bytes_of_inode i m = str_take (Z.to_nat (pr_offset p)) content ->
  str_len content - pr_offset p <= Z.of_nat turns ->
  exists p' m', copy_loop turns record i cs budget p m = (Ok (p', None), m') /\ copied i budget p p' m m'.
Proof.
  intros Hsize Hcs. revert p m. induction turns as [|turns IH]; intros p m Ho Hd Ht'; cbn [copy_loop]; rewrite Hsize.
  - assert (pr_offset p = str_len content) as He by lia.
    assert (negb (pr_offset p <? str_len content) = true) as -> by lia.
    exists p, m. split; [done|]. split; try done; lia.
  - destruct (pr_offset p <? str_len content) eqn:El; cbn [negb].
    2: { exists p, m. split; [done|]. split; try done; lia. }
    unfold guarded at 1. cbn [cancelled memory_cancellation].
    destruct (match budget with Some b => b <=? pr_chunks p | None => false end) eqn:Eb.
    { exists p, m. split; [done|]. split; try done; try lia.
      - intros ->. done.
      - intros _ Hb. destruct budget; [lia|done]. }
    unfold guarded at 1. unfold fetch, mbind, eff_bind, lift, mret, eff_ret. rewrite Hsize.
    cbn [read_chunk memory_source fs_append memory_files].
    destruct (next_block (pr_offset p) cs ltac:(lia) Hcs) as (Hlen & Hne & Happ).
    set (request := Z.min cs (str_len content - pr_offset p)) in *.
    set (block := str_take (Z.to_nat request) (str_drop (Z.to_nat (pr_offset p)) content)) in *.
    rewrite Hne, Hlen, Z.ltb_irrefl. cbn [orb raise_if]. unfold guarded at 1, _emit_transfer.
    rewrite emit_memory.
    set (p1 := {| pr_offset := pr_offset p + request; pr_chunks := pr_chunks p + 1; pr_outcome := pr_outcome p;
                  pr_code := pr_code p; pr_detail := pr_detail p |}).
    set (m1 := set_data i (bytes_of_inode i m +:+ block) m).
    assert (0 < request) as Hreq by (unfold request; lia).
    destruct (IH p1 m1) as (p' & m' & Hr & [C1 C2 C3 C4 C5 C6 C7]).
    + cbn. unfold request in *. lia.
    + unfold m1, bytes_of_inode. cbn. rewrite lookup_insert_eq. cbn. fold (bytes_of_inode i m). by rewrite Hd, Happ.
    + cbn. lia.
    + exists p', m'. split; [exact Hr|]. cbn in C4, C7. split; try done; [lia|]. intros _ _. lia.
Qed.

(** ** One attempt *)

Context (req : TransferRequirement).
Let parts : list string := posix_parts (treq_relative_path req).
Definition final_path : path := root ++ posix_parts (treq_relative_path req).
Definition partial_path : path := with_part_suffix final_path.

(** The transfer the source can serve. *)
Record served : Prop := {
  sv_valid : valid req;
  sv_operation : treq_operation req ∈ ["acquire"; "download"];
  sv_size : treq_expected_size_bytes req = str_len content;
  sv_digest : treq_expected_sha256 req = sha256 content;
  sv_path : treq_relative_path req <> ".";
  sv_fuel : (String.length content < fuel)%nat
}.

(** The record and the files agree, and there is something left to do. *)
Record ready (record : TransferRecord) (m : memory) : Prop := {
  rd_valid : valid record;
  rd_requirement : trec_requirement record = req;
  rd_open : closed_state (trec_state record) = false;
  rd_final : m_files m !! final_path = None;
  rd_partial :
    (trec_bytes_completed record = 0 /\ trec_attempts record = [] /\ m_files m !! partial_path = None) \/
    (0 < trec_bytes_completed record < str_len content /\
     (0 < length (trec_attempts record) <= Z.to_nat (trec_bytes_completed record))%nat /\
     exists i, m_files m !! partial_path = Some i /\
       bytes_of_inode i m = str_take (Z.to_nat (trec_bytes_completed record)) content /\
       trec_checkpoint_sha256 record = sha256 (bytes_of_inode i m))
}.

Definition delivered (record : TransferRecord) (m : memory) : Prop :=
  trec_state record = "completed" /\ m_files m !! partial_path = None /\
  exists i, m_files m !! final_path = Some i /\ bytes_of_inode i m = content.

Section Served.
Context (Hs : served).

Lemma relative_parts : exists above name, parts = above ++ [name].
Proof.
  destruct Hs as [Hv _ _ _ Hp _]. unfold valid, post_init, TransferRequirement_post_init in Hv. ok_inv.
  match goal with Hr : _require_relative_path _ = Ok _ |- _ => rename Hr into Hrel end.
  apply relative_path_components in Hrel as [?|(ps & Hne & Hps & Heq)]; [done|]. unfold parts.
  rewrite Heq, plain_posix_parts by done. destruct (rev ps) as [|name above] eqn:Er.
  - apply (f_equal (@rev _)) in Er. by rewrite rev_involutive in Er.
  - exists (rev above), name. apply (f_equal (@rev _)) in Er. by rewrite rev_involutive in Er.
Qed.

Lemma with_part_suffix_snoc (l : path) name : with_part_suffix (l ++ [name]) = l ++ [name +:+ ".part"].
Proof. unfold with_part_suffix. rewrite rev_app_distr. cbn. by rewrite rev_involutive. Qed.

Lemma partial_not_final : partial_path <> final_path.
Proof.
  destruct relative_parts as (above & name & Hp). unfold partial_path, final_path. fold parts. rewrite Hp, app_assoc.
  rewrite with_part_suffix_snoc. intros [_ E]%app_inj_tail. apply (f_equal String.length) in E.
  rewrite str_length_app in E. cbn in E. lia.
Qed.

Lemma no_symlink_memory current l m : no_symlinked_directory (W := memory) current l m = (Ok tt, m).
Proof.
  revert current. induction l as [|x l IH]; intros current; [done|]. cbn [no_symlinked_directory].
  unfold mbind, eff_bind. cbn [fs_exists fs_is_symlink memory_files].
  destruct (is_some _); cbn; apply IH.
Qed.

Lemma destination_memory partial m :
  _destination root req partial m = (Ok (if partial then partial_path else final_path), m).
Proof.
  destruct relative_parts as (above & name & Hp).
  unfold _destination, mbind, eff_bind, lift, mret, eff_ret. fold parts. cbn [fs_resolve fs_mkdir memory_files].
  assert (removelast (root ++ parts) = root ++ above) as Hr by (by rewrite Hp, app_assoc, removelast_last).
  assert (escapes root (removelast (root ++ parts)) = false) as ->.
  { unfold escapes. rewrite Hr, take_app_length. by rewrite bool_decide_eq_true_2. }
  cbn [raise_if]. rewrite no_symlink_memory. by destruct partial.
Qed.
(** Same files, same bytes. *)
Definition same_disk (m m' : memory) : Prop := m_files m' = m_files m /\ m_data m' = m_data m.

Definition checkpoint_of (record : TransferRecord) (m : memory) : option (Z * Z) :=
  if trec_bytes_completed record =? 0 then None else (fun i => (1, i)) <$> m_files m !! partial_path.

Lemma present_memory q m : present q m = (Ok (is_some (m_files m !! q)), m).
Proof. unfold present, mbind, eff_bind. cbn [fs_exists fs_is_symlink memory_files]. by destruct (is_some _). Qed.

Lemma bytes_at_most record : valid record -> trec_requirement record = req ->
  trec_bytes_completed record <= str_len content.
Proof.
  intros Hv Hr. apply valid_record_facts in Hv as (_ & _ & Hb & _). rewrite Hr, (sv_size Hs) in Hb. done.
Qed.

Lemma prefix_length o : 0 <= o <= str_len content -> str_len (str_take (Z.to_nat o) content) = o.
Proof. intros Ho. unfold str_len in *. rewrite str_take_length. lia. Qed.

Lemma guards_memory record cs budget m :
  ready record m -> 1 <= cs <= 64 * 1024 * 1024 -> match budget with Some b => 1 <= b | None => True end ->
  exists m', resume_guards root fuel record cs budget m =
    (Ok (partial_path, final_path, checkpoint_of record m), m') /\ same_disk m m' /\ m_next m' = m_next m.
Proof.
  intros [R1 R2 R3 R4 R5] Hcs Hb. unfold resume_guards, mbind, eff_bind, lift. rewrite R2.
  assert (mem (treq_operation req) ["acquire"; "download"] = true) as -> by (bool_simp; apply Hs).
  rewrite R3. assert ((cs <? 1) || (64 * 1024 * 1024 <? cs) = false) as -> by lia.
  assert (match budget with Some b => b <? 1 | None => false end = false) as -> by (destruct budget; lia).
  cbn [negb raise_if result_bind]. rewrite !destination_memory, present_memory, R4. cbn [is_some is_none negb raise_if].
  unfold checkpoint_of. destruct (trec_bytes_completed record =? 0) eqn:Ez.
  - destruct R5 as [(_ & _ & Hp)|(? & _)]; [|lia]. rewrite present_memory, Hp.
    cbn [is_some is_none negb raise_if]. eexists. split; [reflexivity|]. done.
  - destruct R5 as [(? & _)|(Hpos & _ & i & Hp & Hd & Hc)]; [lia|].
    pose proof (bytes_at_most record R1 R2) as Hle.
    destruct (hash_memory partial_path i m Hp) as (m' & -> & F1 & F2 & F3).
    { rewrite Hd, str_take_length. pose proof (sv_fuel Hs). lia. }
    rewrite <- Hc, Hd, prefix_length, Z.eqb_refl, String.eqb_refl by lia. cbn [negb orb raise_if].
    rewrite Hp. eexists. split; [reflexivity|]. done.
Qed.

(** The copy: the bytes on disk after it, under the partial name. *)
Lemma copy_memory record cs budget m p :
  ready record m -> 1 <= cs -> match budget with Some b => 1 <= b | None => True end ->
  pr_offset p = trec_bytes_completed record -> pr_chunks p = 0 -> pr_outcome p = "interrupted" ->
  exists p' m' i, copy record partial_path cs budget (checkpoint_of record m) p m = (Ok p', m') /\
    m_files m' = <[partial_path := i]> (m_files m) /\
    bytes_of_inode i m' = str_take (Z.to_nat (pr_offset p')) content /\
    trec_bytes_completed record <= pr_offset p' <= str_len content /\
    (pr_offset p' = str_len content -> pr_outcome p' = "completed" /\ pr_code p' = "verified" /\
       pr_detail p' = "transfer reached expected size and digest") /\
    (pr_offset p' < str_len content ->
       (pr_outcome p', pr_code p', pr_detail p') = (pr_outcome p, pr_code p, pr_detail p) /\ budget <> None /\
       trec_bytes_completed record < pr_offset p').
Proof.
  intros [R1 R2 R3 R4 R5] Hcs Hb Ho Hch Hout. pose proof (bytes_at_most record R1 R2) as Hle.
  assert (0 <= trec_bytes_completed record) as H0le by (destruct R5 as [(-> & _)|(? & _)]; lia).
  assert (exists i m1, fs_open partial_path (if pr_offset p =? 0 then CreateExclusive else AppendExisting) m =
    (Ok i, m1) /\ m_files m1 = <[partial_path := i]> (m_files m) /\
    bytes_of_inode i m1 = str_take (Z.to_nat (pr_offset p)) content /\
    match checkpoint_of record m with Some id => (1, i) = id | None => True end) as (i & m1 & Hopen & O1 & O2 & O3).
  { rewrite Ho. unfold checkpoint_of. destruct R5 as [(-> & _ & Hp)|(Hpos & _ & i & Hp & Hd & _)]; cbn [fs_open memory_files].
    - cbn [Z.eqb]. rewrite Hp. do 2 eexists. split; [reflexivity|]. cbn [m_files]. split; [done|].
      unfold bytes_of_inode. cbn [m_data]. rewrite lookup_insert_eq. done.
    - assert ((trec_bytes_completed record =? 0) = false) as -> by lia. rewrite Hp.
      do 2 eexists. split; [reflexivity|]. cbn. rewrite insert_id by done. done. }
  destruct (copy_loop_memory (Z.to_nat (str_len content - pr_offset p)) record i cs budget p m1) as
    (p' & m' & Hloop & [C1 C2 C3 C4 C5 C6 C7]); try lia.
  { by rewrite R2, (sv_size Hs). }
  { exact O2. }
  unfold copy. rewrite Hopen. unfold copy_open, guarded at 1, mbind at 1, eff_bind at 1.
  cbn [fs_fstat memory_files]. unfold lift at 1. cbn [is_regular fst_kind stat_of negb raise_if mbind result_bind].
  assert (match checkpoint_of record m with
    | Some id => negb (bool_decide (identity (stat_of i m1) = id)) | None => false end = false) as ->.
  { destruct (checkpoint_of record m); [|done]. by rewrite bool_decide_eq_true_2. }
  cbn [raise_if]. unfold mbind at 1, eff_bind at 1. rewrite R2, (sv_size Hs), Hloop.
  destruct (pr_offset p' =? str_len content) eqn:Eq; cbn [mret eff_ret fs_close memory_files].
  - exists (settle p' "completed" "verified" "transfer reached expected size and digest"), m', i.
    cbn [settle pr_offset pr_outcome pr_code pr_detail]. split; [done|]. rewrite C1. split_and!; try done; lia.
  - exists p', m', i. rewrite C1. split_and!; try done; try lia. intros Hlt. split; [done|].
    split; [intros ->; lia|]. assert (pr_offset p < pr_offset p'); [|lia]. apply C7; [lia|].
    destruct budget; lia || done.
Qed.

Lemma publish_memory p i m :
  m_files m !! partial_path = Some i -> m_files m !! final_path = None ->
  publish_final partial_path final_path (Some (1, i)) p m =
    (Ok p, set_files (delete partial_path (<[final_path := i]> (m_files m))) m).
Proof.
  intros Hp Hf. pose proof partial_not_final as Hne. unfold publish_final, try_eff, mbind, eff_bind.
  cbn [fs_link fs_lstat fs_unlink memory_files]. rewrite Hp, Hf. cbn [set_files m_files].
  rewrite lookup_insert_eq, lookup_insert_ne, Hp by done.
  cbn [is_regular fst_kind stat_of is_none negb orb identity fst_dev fst_ino set_files m_files].
  rewrite !bool_decide_eq_true_2 by done. cbn [negb orb]. cbv zeta. unfold set_files at 1 2 3; cbn [m_files]. by rewrite lookup_insert_ne, Hp by done.
Qed.

Lemma conclude_memory record p i m :
  trec_requirement record = req -> m_files m !! partial_path = Some i -> m_files m !! final_path = None ->
  bytes_of_inode i m = str_take (Z.to_nat (pr_offset p)) content -> 0 <= pr_offset p <= str_len content ->
  pr_outcome p = "interrupted" \/ (pr_outcome p = "completed" /\ pr_offset p = str_len content) ->
  exists m', conclude fuel record partial_path final_path p m = (Ok (p, sha256 (bytes_of_inode i m)), m') /\
    m_data m' = m_data m /\
    m_files m' = if String.eqb (pr_outcome p) "completed"
                 then delete partial_path (<[final_path := i]> (m_files m)) else m_files m.
Proof.
  intros Hreq Hp Hf Hd Ho Hout. unfold conclude.
  destruct (hash_memory partial_path i m Hp) as (m1 & Hh & F1 & F2 & F3).
  { rewrite Hd, str_take_length. pose proof (sv_fuel Hs). lia. }
  assert ((if pr_offset p =? 0 then present partial_path else mret true) m = (Ok true, m)) as Hthere.
  { destruct (_ =? 0); [|done]. by rewrite present_memory, Hp. }
  unfold mbind, eff_bind. rewrite Hthere, Hh. unfold lift, mret, eff_ret.
  pose proof (prefix_length (pr_offset p) Ho) as Hl. rewrite <- Hd in Hl. rewrite Hl, Z.eqb_refl. cbn [negb raise_if].
  destruct Hout as [Hout|[Hout Hfull]]; rewrite Hout; cbn [String.eqb Ascii.eqb Bool.eqb].
  - exists m1. by rewrite F1, F2.
  - assert (bytes_of_inode i m = content) as Hall.
    { rewrite Hd, Hfull. apply str_take_all. unfold str_len. lia. }
    rewrite Hreq, (sv_digest Hs), Hall, String.eqb_refl. cbn [negb].
    rewrite publish_memory by (by rewrite F1). eexists. split; [reflexivity|].
    unfold set_files; cbn [m_data m_files]. by rewrite F1, F2.
Qed.

Lemma size_safe : 0 <= str_len content <= SAFE_INTEGER_MAX.
Proof.
  pose proof (sv_valid Hs) as Hv. unfold valid, post_init, TransferRequirement_post_init in Hv. ok_inv.
  unfold _require_safe_integer in *. ok_inv. bool_simp. rewrite <- (sv_size Hs). cbn -[SAFE_INTEGER_MAX] in *. lia.
Qed.

Definition attempt_of (record : TransferRecord) (p : progress) : TransferAttempt :=
  {| tat_sequence := attempt_number record; tat_started_at := rfc3339 t; tat_completed_at := rfc3339 t;
     tat_offset_start := trec_bytes_completed record; tat_offset_end := pr_offset p;
     tat_outcome := pr_outcome p; tat_code := pr_code p; tat_detail := pr_detail p |}.

(** The attempt of a turn is a valid one. *)
Lemma attempt_memory record m p :
  ready record m -> trec_bytes_completed record <= pr_offset p <= str_len content ->
  pr_outcome p ∈ ["interrupted"; "completed"] -> _require_token "transfer attempt code" (pr_code p) = Ok tt ->
  str_empty (pr_detail p) = false ->
  valid (attempt_of record p).
Proof.
  intros [R1 R2 R3 R4 R5] Ho Hout Hcode Hdet. pose proof size_safe as Hsafe.
  assert (0 <= trec_bytes_completed record /\ 1 <= attempt_number record <= SAFE_INTEGER_MAX) as [Hz Hn].
  { unfold attempt_number. destruct R5 as [(Hb & Ha & _)|(Hb & Ha & _)].
    - rewrite Hb, Ha. unfold SAFE_INTEGER_MAX. cbn. lia.
    - lia. }
  unfold valid, post_init, TransferAttempt_post_init, attempt_of. cbn [tat_sequence tat_started_at tat_completed_at
    tat_offset_start tat_offset_end tat_outcome tat_code tat_detail]. ok_intro.
  - unfold _require_safe_integer. apply raise_if_ok. cbn -[SAFE_INTEGER_MAX Z.leb]. lia.
  - by apply require_timestamp_rfc3339.
  - by apply require_timestamp_rfc3339.
  - unfold later. lia.
  - unfold _require_safe_integer. apply raise_if_ok. cbn -[SAFE_INTEGER_MAX Z.leb]. lia.
  - unfold _require_safe_integer. apply raise_if_ok. cbn -[SAFE_INTEGER_MAX Z.leb]. lia.
  - lia.
  - apply negb_false_iff, mem_spec. set_solver.
  - done.
  - done.
Qed.

(** The next record is valid. *)
Lemma next_memory record m p i m2 :
  ready record m -> valid (attempt_of record p) -> 0 <= pr_offset p <= str_len content ->
  bytes_of_inode i m2 = str_take (Z.to_nat (pr_offset p)) content ->
  pr_outcome p = "interrupted" \/ (pr_outcome p = "completed" /\ pr_offset p = str_len content) ->
  valid (attempted record (attempt_of record p) (pr_outcome p) (pr_offset p) (sha256 (bytes_of_inode i m2))).
Proof.
  intros [R1 R2 R3 R4 R5] Hv Ho Hd Hout. apply attempted_valid; [done| |].
  - intros Hnil. destruct R5 as [(? & _)|(_ & Hl & _)]; [done|]. rewrite Hnil in Hl. cbn in Hl. lia.
  - split; try done; rewrite ?R2, ?(sv_size Hs), ?(sv_digest Hs).
    + lia.
    + apply Sha256.hexdigest_pattern.
    + intros Hc. destruct Hout as [Hi|[_ Hfull]]; [by rewrite Hc in Hi|]. split; [done|].
      rewrite Hd, Hfull, str_take_all; [done|]. unfold str_len. lia.
    + apply safe_nonneg_spec, size_safe.
Qed.

Definition fresh_progress (record : TransferRecord) : progress :=
  {| pr_offset := trec_bytes_completed record; pr_chunks := 0; pr_outcome := "interrupted";
     pr_code := "chunk-budget-reached"; pr_detail := "transfer paused at the configured chunk budget" |}.

(** The parts of a call, put together. *)
Lemma resume_turn (source : ChunkSource memory) record cs budget cp p checkpoint m m1 m2 m3 :
  resume_guards root fuel record cs budget m = (Ok (partial_path, final_path, cp), m1) ->
  copy (H6 := source) record partial_path cs budget cp (fresh_progress record) m1 = (Ok p, m2) ->
  conclude fuel record partial_path final_path p m2 = (Ok (p, checkpoint), m3) ->
  valid (attempt_of record p) -> valid (attempted record (attempt_of record p) (pr_outcome p) (pr_offset p) checkpoint) ->
  resume_download (H6 := source) root fuel record cs budget m =
    (Ok (attempted record (attempt_of record p) (pr_outcome p) (pr_offset p) checkpoint), m3).
Proof.
  intros Hg Hc Hconc Hav Hnext. unfold resume_download. unfold mbind at 1, eff_bind at 1. rewrite Hg.
  unfold mbind at 1, eff_bind at 1, now at 1, memory_clock at 1. unfold mbind at 1, eff_bind at 1, _emit_transfer at 1.
  rewrite emit_memory. unfold mbind at 1, eff_bind at 1. fold (fresh_progress record). rewrite Hc.
  unfold mbind at 1, eff_bind at 1. rewrite Hconc. unfold mbind at 1, eff_bind at 1, now at 1, memory_clock at 1.
  unfold mbind at 1, eff_bind at 1, lift at 1. fold (attempt_of record p).
  rewrite (construct_valid _ Hav). cbn [mbind result_bind]. by rewrite (construct_valid _ Hnext).
Qed.

(** One call: the transfer is delivered, or it is ready for the next call with
    more bytes on disk; it is delivered when there is no chunk budget. *)
Lemma resume_memory record cs budget m :
  ready record m -> 1 <= cs <= 64 * 1024 * 1024 -> match budget with Some b => 1 <= b | None => True end ->
  exists updated m', resume_download root fuel record cs budget m = (Ok updated, m') /\
    (delivered updated m' \/
     (ready updated m' /\ budget <> None /\ trec_bytes_completed record < trec_bytes_completed updated)).
Proof.
  intros Hr Hcs Hb. pose proof size_safe as Hsafe.
  destruct (guards_memory record cs budget m Hr Hcs Hb) as (m1 & Hg & [D1 D2] & _).
  assert (ready record m1) as Hr1.
  { destruct Hr as [R1 R2 R3 R4 R5]. split; try done; [by rewrite D1|]. unfold bytes_of_inode. rewrite D1, D2. exact R5. }
  assert (checkpoint_of record m = checkpoint_of record m1) as Hcp by (unfold checkpoint_of; by rewrite D1).
  destruct (copy_memory record cs budget m1 (fresh_progress record) Hr1) as (p & m2 & i & Hc & F2 & B2 & O2 & Hfull & Hpart); try done; [lia|].
  assert (m_files m2 !! final_path = None) as Hfin.
  { rewrite F2, lookup_insert_ne by apply partial_not_final. apply Hr1. }
  assert (0 <= trec_bytes_completed record) as Hz.
  { destruct Hr as [_ _ _ _ [(-> & _)|(? & _)]]; lia. }
  assert (0 <= pr_offset p <= str_len content) as Ho by lia.
  assert (m_files m2 !! partial_path = Some i) as Hpar by (rewrite F2; apply lookup_insert_eq).
  assert ((pr_outcome p = "interrupted" /\ pr_code p = "chunk-budget-reached" /\ pr_offset p < str_len content) \/
          (pr_outcome p = "completed" /\ pr_code p = "verified" /\ pr_offset p = str_len content)) as Hend.
  { destruct (decide (pr_offset p = str_len content)); [right; by destruct Hfull as (? & ? & _)|left].
    destruct Hpart as ([= -> -> _] & _); [lia|]. split_and!; done || lia. }
  assert (str_empty (pr_detail p) = false) as Hdet.
  { destruct (decide (pr_offset p = str_len content)); [by destruct Hfull as (_ & _ & ->)|].
    by destruct Hpart as ([= _ _ ->] & _); [lia|]. }
  assert (pr_outcome p ∈ ["interrupted"; "completed"] /\ _require_token "transfer attempt code" (pr_code p) = Ok tt)
    as [Hset Hcode] by (destruct Hend as [(-> & -> & _)|(-> & -> & _)]; split; done || set_solver).
  assert (pr_outcome p = "interrupted" \/ (pr_outcome p = "completed" /\ pr_offset p = str_len content)) as Hout
    by (destruct Hend as [(? & _)|(? & _ & ?)]; auto).
  pose proof (attempt_memory record m1 p Hr1 O2 Hset Hcode Hdet) as Hav.
  destruct (conclude_memory record p i m2) as (m3 & Hconc & F3d & F3); try done; [by apply Hr|].
  pose proof (next_memory record m1 p i m2 Hr1 Hav Ho B2 Hout) as Hnext.
  exists (attempted record (attempt_of record p) (pr_outcome p) (pr_offset p) (sha256 (bytes_of_inode i m2))), m3. split.
  - eapply resume_turn; try done. by rewrite Hcp.
  - assert (bytes_of_inode i m3 = bytes_of_inode i m2) as B3 by (unfold bytes_of_inode; by rewrite F3d).
    destruct Hend as [(Ho1 & _ & Hlt)|(Ho1 & _ & Hfull')]; rewrite Ho1 in *; cbn [String.eqb Ascii.eqb Bool.eqb] in F3.
    + right. destruct Hpart as (_ & Hbud & Hmore); [lia|]. split; [|done].
      split; cbn [attempted trec_requirement trec_state trec_bytes_completed trec_attempts trec_checkpoint_sha256];
        [done|by apply Hr|done|by rewrite F3|]. right. rewrite F3. split; [lia|]. split; [|exists i; by rewrite B3].
      rewrite length_app. cbn [length]. destruct Hr as [_ _ _ _ [(? & -> & _)|(? & ? & _)]]; [cbn|]; lia.
    + left. split; [done|]. rewrite F3. split; [by rewrite lookup_delete_eq|]. exists i. rewrite B3. split.
      * rewrite lookup_delete_ne by apply partial_not_final. apply lookup_insert_eq.
      * rewrite B2, Hfull'. apply str_take_all. unfold str_len. lia.
Qed.

(** ** From the plan to the final file *)

(** A caller that resumes until the transfer is closed. *)
Fixpoint resume_all (turns : list (Z * option Z)) (record : TransferRecord) : eff memory TransferRecord :=
  match turns with
  | [] => mret record
  | (cs, budget) :: rest =>
      r ← resume_download root fuel record cs budget;
      if closed_state (trec_state r) then mret r else resume_all rest r
  end.

Definition turn_ok (turn : Z * option Z) : Prop :=
  1 <= turn.1 <= 64 * 1024 * 1024 /\ match turn.2 with Some b => 1 <= b | None => True end.

Lemma resume_all_memory turns record m :
  ready record m -> Forall turn_ok turns ->
  str_len content - trec_bytes_completed record < Z.of_nat (length turns) ->
  exists r m', resume_all turns record m = (Ok r, m') /\ delivered r m'.
Proof.
  intros Hr Hturns. revert record m Hr. induction Hturns as [|[cs b] turns [Hcs Hb] _ IH]; intros record m Hr Hlen.
  - pose proof (bytes_at_most record (rd_valid _ _ Hr) (rd_requirement _ _ Hr)). cbn in Hlen. lia.
  - cbn [resume_all]. destruct (resume_memory record cs b m Hr Hcs Hb) as (r & m' & Hres & Hcase).
    unfold mbind, eff_bind. rewrite Hres. destruct Hcase as [Hdel|(Hr' & _ & Hmore)].
    + pose proof Hdel as [Hst _]. rewrite Hst. by exists r, m'.
    + rewrite (rd_open _ _ Hr'). apply IH; [done|]. cbn [length] in Hlen. lia.
Qed.

Definition planned_record : TransferRecord :=
  {| trec_requirement := req; trec_state := "planned"; trec_bytes_completed := 0;
     trec_checkpoint_sha256 := EMPTY_BYTES_SHA256; trec_attempts := []; trec_verified_sha256 := None;
     trec_verified_size_bytes := None; trec_resumable := true |}.

Lemma planned_record_valid : valid planned_record.
Proof.
  pose proof size_safe as Hsafe. unfold valid, post_init, TransferRecord_post_init, planned_record.
  cbn [trec_state trec_bytes_completed trec_checkpoint_sha256 trec_attempts trec_verified_sha256
       trec_verified_size_bytes trec_requirement trec_resumable]. rewrite (sv_size Hs).
  cbn [mem existsb String.eqb Ascii.eqb Bool.eqb orb negb raise_if]. rewrite bind_Ok_l, safe_integer_ok by lia.
  rewrite bind_Ok_l, digest_ok by (by vm_compute).
  assert ((str_len content <? 0) = false) as -> by lia. by vm_compute.
Qed.

Lemma plan_memory m :
  treq_transfer_id req = transfer_id ->
  plan (treq_operation req) (treq_locator req) (treq_expected_sha256 req) (treq_expected_size_bytes req)
    (treq_relative_path req) (treq_cache_key req) m = (Ok planned_record, m).
Proof.
  intros Hid. unfold plan, mbind at 1, eff_bind at 1. cbn [new_transfer_id memory_ids]. rewrite <- Hid.
  assert ({| treq_transfer_id := treq_transfer_id req; treq_operation := treq_operation req;
             treq_locator := treq_locator req; treq_expected_sha256 := treq_expected_sha256 req;
             treq_expected_size_bytes := treq_expected_size_bytes req; treq_relative_path := treq_relative_path req;
             treq_cache_key := treq_cache_key req |} = req) as -> by (by destruct req).
  rewrite (construct_valid req (sv_valid Hs)). cbn [mbind result_bind]. fold planned_record.
  rewrite (construct_valid _ planned_record_valid). done.
Qed.

Lemma planned_ready m :
  m_files m !! final_path = None -> m_files m !! partial_path = None -> ready planned_record m.
Proof. intros Hf Hp. split; [apply planned_record_valid|done|done|done|]. by left. Qed.

(** ** A source that fails first *)

Definition broken_source : ChunkSource memory := fun _ _ _ m => (Raise (OSError "ConnectionError" 104), m).

Lemma broken_copy m cs budget :
  0 < str_len content -> m_files m !! partial_path = None -> match budget with Some b => 1 <= b | None => True end ->
  exists p m' i, copy (H6 := broken_source) planned_record partial_path cs budget None
      (fresh_progress planned_record) m = (Ok p, m') /\
    m_files m' = <[partial_path := i]> (m_files m) /\ bytes_of_inode i m' = "" /\
    p = settle (fresh_progress planned_record) "interrupted" "source-or-write-failed"
          "transfer source or local write raised ConnectionError".
Proof.
  intros Hlen Hp Hb. unfold copy. cbn [fresh_progress planned_record trec_bytes_completed pr_offset Z.eqb].
  cbn [fs_open memory_files]. rewrite Hp. unfold copy_open, guarded at 1, mbind at 1, eff_bind at 1.
  cbn [fs_fstat memory_files]. unfold lift at 1. cbn [is_regular fst_kind stat_of negb raise_if mbind result_bind].
  unfold mbind at 1, eff_bind at 1. cbn [trec_requirement planned_record pr_offset]. rewrite (sv_size Hs), Z.sub_0_r.
  destruct (Z.to_nat (str_len content)) as [|turns] eqn:Et; [lia|]. cbn [copy_loop pr_offset].
  cbn [trec_requirement planned_record]. rewrite (sv_size Hs).
  change (pr_offset (fresh_progress planned_record)) with 0. change (pr_chunks (fresh_progress planned_record)) with 0.
  assert ((0 <? str_len content) = true) as -> by lia. cbn [negb]. unfold guarded at 1. cbn [cancelled memory_cancellation].
  assert (match budget with Some b => b <=? 0 | None => false end = false) as -> by (destruct budget; lia || done).
  cbn [pr_chunks]. unfold guarded at 1, fetch, mbind, eff_bind. cbn [read_chunk broken_source fs_close memory_files].
  eexists _, _, (m_next m). split; [reflexivity|]. split; [done|]. split; [|done].
  unfold bytes_of_inode. cbn [m_data]. by rewrite lookup_insert_eq.
Qed.

(** After such an attempt the record is resumable and the partial file empty. *)
Lemma broken_attempt m cs budget :
  0 < str_len content -> m_files m !! final_path = None -> m_files m !! partial_path = None ->
  1 <= cs <= 64 * 1024 * 1024 -> match budget with Some b => 1 <= b | None => True end ->
  exists updated m', resume_download (H6 := broken_source) root fuel planned_record cs budget m = (Ok updated, m') /\
    trec_requirement updated = req /\ trec_state updated = "interrupted" /\ trec_bytes_completed updated = 0 /\
    m_files m' !! final_path = None /\ is_some (m_files m' !! partial_path) = true.
Proof.
  intros Hlen Hf Hp Hcs Hb. pose proof (planned_ready m Hf Hp) as Hr.
  destruct (guards_memory planned_record cs budget m Hr Hcs Hb) as (m1 & Hg & [D1 D2] & _).
  change (checkpoint_of planned_record m) with (@None (Z * Z)) in Hg.
  destruct (broken_copy m1 cs budget) as (p & m2 & i & Hc & F2 & B2 & Hsettled); [done|by rewrite D1|done|].
  assert (m_files m2 !! partial_path = Some i) as Hpar by (rewrite F2; apply lookup_insert_eq).
  assert (m_files m2 !! final_path = None) as Hfin
    by (rewrite F2, lookup_insert_ne, D1 by apply partial_not_final; done).
  assert (valid (attempt_of planned_record p)) as Hav.
  { apply (attempt_memory _ m p Hr); subst p; cbn [settle pr_offset pr_outcome pr_code pr_detail fresh_progress];
      [cbn; lia|set_solver|by vm_compute|done]. }
  destruct (conclude_memory planned_record p i m2) as (m3 & Hconc & F3d & F3);
    [done|done|done|by subst p|subst p; cbn; lia|by left; subst p|].
  eexists _, m3. split; [eapply resume_turn; [exact Hg|exact Hc|exact Hconc|exact Hav|]|].
  - apply (next_memory planned_record m p i m2 Hr Hav); subst p; [cbn; lia|done|by left].
  - rewrite F3. subst p. cbn. rewrite Hpar. done.
Qed.

(** It can never be resumed. *)
Lemma empty_partial_stuck (source : ChunkSource memory) record m cs budget :
  trec_requirement record = req -> trec_state record = "interrupted" -> trec_bytes_completed record = 0 ->
  m_files m !! final_path = None -> is_some (m_files m !! partial_path) = true ->
  1 <= cs <= 64 * 1024 * 1024 -> match budget with Some b => 1 <= b | None => True end ->
  resume_download (H6 := source) root fuel record cs budget m =
    (Raise (TransferIntegrityError "unexpected partial transfer exists for a new plan"), m).
Proof.
  intros R1 R2 R3 Hf Hp Hcs Hb. unfold resume_download, resume_guards, mbind, eff_bind, lift. rewrite R1, R2, R3.
  assert (mem (treq_operation req) ["acquire"; "download"] = true) as -> by (bool_simp; apply Hs).
  assert ((cs <? 1) || (64 * 1024 * 1024 <? cs) = false) as -> by lia.
  assert (match budget with Some b => b <? 1 | None => false end = false) as -> by (destruct budget; lia).
  cbn [closed_state mem existsb String.eqb Ascii.eqb Bool.eqb orb negb raise_if result_bind mbind].
  rewrite !destination_memory, present_memory, Hf. cbn [is_some is_none negb raise_if Z.eqb].
  by rewrite present_memory, Hp.
Qed.
End Served.
End Memory.
