(* ===== verification/TransferProperties.v ===== *)
(** * Properties of the transfer manager *)

From S2P Require Export TransferMemory.
Import Cache.

Section Properties.
Context `{PyTables} `{JCS} {W : Type} `{Clock W} `{OperationIds W} `{Cancellation W} `{Publisher W}.
Context `{FileSystem W} `{ChunkSource W} (root : path) (fuel : nat).

Abbreviation transfer_step := (transfer_step root fuel).
Abbreviation transfer_reachable := (transfer_reachable root fuel).

(** Along any sequence of attempts on a planned transfer the requirement is
    kept, the recorded attempts and the checkpoint only grow, the attempts tile
    the bytes from zero to the checkpoint with neither gap nor overlap and are
    numbered from one, the checkpoint never passes the required size, and a
    completed record has exactly the required size and digest. *)
Theorem transfer_history requirement record updated :
  transfer_reachable requirement record -> rtc transfer_step record updated ->
  grows record updated /\ trec_requirement updated = requirement /\
  tiles 0 (trec_attempts updated) (trec_bytes_completed updated) /\
  tat_sequence <$> trec_attempts updated = ranks (length (trec_attempts updated)) /\
  trec_bytes_completed updated <= treq_expected_size_bytes requirement /\
  (trec_state updated = "completed" ->
     trec_bytes_completed updated = treq_expected_size_bytes requirement /\
     trec_checkpoint_sha256 updated = treq_expected_sha256 requirement).
Proof.
  intros Hr Hs. assert (transfer_reachable requirement updated) as Hu.
  { revert Hr. induction Hs as [|r m u Hst _ IH]; [done|]. intros Hr. apply IH. by eapply reach_step. }
  destruct (reachable_valid _ _ _ _ Hu) as [Hv Hreq]. destruct (valid_record_facts _ Hv) as (V1 & V2 & V3 & V4).
  rewrite Hreq in V3, V4. split_and!; try done; [by eapply steps_grow|by eapply reachable_tiles|].
  intros Hc. by destruct (V4 Hc) as (? & ? & _).
Qed.

(** Completed and failed transfers are immutable: no operation returns a
    record for them. *)
Theorem closed_transfer_immutable record updated :
  closed_state (trec_state record) = true -> ~ transfer_step record updated.
Proof. intros Hc Hs. apply (step_appends root fuel) in Hs as [Ho _ _]. congruence. Qed.
End Properties.

Section Delivery.
Context `{PyTables} `{JCS} (content : string) (t : Z) (transfer_id : string) (root : path) (fuel : nat).
#[local] Existing Instance memory_publisher.

(** C24: A transfer that the source can serve is delivered: planned into free names and
    resumed with any chunk sizes and any chunk budgets, more often than it has
    bytes, it ends completed with the exact content under the final name and no
    partial file. *)
Theorem transfer_completes req m turns :
  min_instant <= t <= max_instant -> served content fuel req -> treq_transfer_id req = transfer_id ->
  m_files m !! final_path root req = None -> m_files m !! partial_path root req = None ->
  Forall turn_ok turns -> str_len content < Z.of_nat (length turns) ->
  exists r m',
    (record ← plan (H2 := memory_ids transfer_id) (treq_operation req) (treq_locator req) (treq_expected_sha256 req)
                (treq_expected_size_bytes req) (treq_relative_path req) (treq_cache_key req);
     resume_all content t root fuel turns record) m = (Ok r, m') /\
    delivered content root req r m'.
Proof.
  intros Ht Hs Hid Hf Hp Hturns Hlen.
  destruct (resume_all_memory content t Ht root fuel req Hs turns (planned_record req) m) as (r & m' & Hr & Hd);
    [by eapply planned_ready|done|cbn; lia|].
  exists r, m'. split; [|done]. unfold mbind, eff_bind. by erewrite plan_memory.
Qed.

(** A source that fails before its first block leaves the transfer stuck: the
    attempt is recorded as interrupted, hence resumable, but the empty partial
    file it created makes every later attempt raise, whatever the source does. *)
Theorem empty_interruption_stuck req m cs budget :
  min_instant <= t <= max_instant -> served content fuel req -> 0 < str_len content ->
  m_files m !! final_path root req = None -> m_files m !! partial_path root req = None ->
  1 <= cs <= 64 * 1024 * 1024 -> match budget with Some b => 1 <= b | None => True end ->
  exists updated m',
    resume_download (H1 := memory_clock t) (H3 := memory_cancellation) (H6 := broken_source) root fuel
      (planned_record req) cs budget m = (Ok updated, m') /\
    trec_state updated = "interrupted" /\
    forall (source : ChunkSource memory) cs' budget',
      1 <= cs' <= 64 * 1024 * 1024 -> match budget' with Some b => 1 <= b | None => True end ->
      resume_download (H1 := memory_clock t) (H3 := memory_cancellation) (H6 := source) root fuel
        updated cs' budget' m' =
        (Raise (TransferIntegrityError "unexpected partial transfer exists for a new plan"), m').
Proof.
  intros Ht Hs Hlen Hf Hp Hcs Hb.
  destruct (broken_attempt content t Ht root fuel req Hs m cs budget) as (u & m' & Hr & U1 & U2 & U3 & U4 & U5);
    [done..|]. exists u, m'. split; [done|]. split; [done|]. intros source cs' budget' Hcs' Hb'.
  by eapply empty_partial_stuck.
Qed.
End Delivery.

(** ** A concrete transfer *)

Module TransferSample.
#[local] Existing Instance ascii_tables.
#[local] Existing Instance reference_jcs.

Definition content : string := "hello, world".
Definition start : Z := 1700000000000000.
Definition the_id : string := "opid:v1:transfer:u7:01890a5d-ac96-774b-bcce-b302099a8058".
Definition root : path := ["srv"; "cache"].
Definition digest : string := Eval vm_compute in sha256 content.
Definition request : TransferRequirement :=
  {| treq_transfer_id := the_id; treq_operation := "download"; treq_locator := "https://example.org/hello";
     treq_expected_sha256 := digest; treq_expected_size_bytes := 12;
     treq_relative_path := "objects/hello"; treq_cache_key := None |}.
Definition blank : memory := {| m_files := ∅; m_data := ∅; m_position := ∅; m_next := 1 |}.

#[export] Instance clock : Clock memory := memory_clock start.
#[export] Instance ids : OperationIds memory := memory_ids the_id.
#[export] Instance cancellation : Cancellation memory := memory_cancellation.
#[export] Existing Instance memory_publisher.
#[export] Instance source : ChunkSource memory := memory_source content.

Definition first_turn := resume_download root 100 (planned_record request) 5 (Some 1) blank.
Definition paused : TransferRecord := Eval vm_compute in match first_turn.1 with Ok r => r | Raise _ => planned_record request end.
Definition paused_files : memory := first_turn.2.
Definition second_turn := resume_download root 100 paused 5 None paused_files.
Definition finished : TransferRecord := Eval vm_compute in match second_turn.1 with Ok r => r | Raise _ => planned_record request end.

Lemma request_served : served content 100 request.
Proof. split; [by vm_compute|vm_compute; set_solver|done|by vm_compute|done|cbn; lia]. Qed.

Lemma planned_reachable : transfer_reachable root 100 request (planned_record request).
Proof.
  refine (reach_planned _ _ _ _ _ _ _ _ _ blank _ blank _ _).
  - refine (plan_memory content the_id 100 request request_served blank eq_refl).
  - done.
Qed.

Lemma steps_to_finished : rtc (transfer_step root 100) (planned_record request) finished.
Proof.
  apply (rtc_l _ _ paused); [|apply (rtc_l _ _ finished); [|done]].
  - refine (step_resume root 100 _ 5 (Some 1) blank paused paused_files _). by vm_compute.
  - refine (step_resume root 100 _ 5 None paused_files finished second_turn.2 _). by vm_compute.
Qed.

Lemma transfer_history_witness :
  length (trec_attempts finished) = 2%nat /\ tiles 0 (trec_attempts finished) 12 /\
  trec_checkpoint_sha256 finished = sha256 content.
Proof.
  destruct (transfer_history root 100 request (planned_record request) finished planned_reachable steps_to_finished)
    as (_ & _ & Ht & _ & _ & Hc).
  split; [done|]. split; [exact Ht|]. apply Hc. done.
Defined.

Lemma closed_transfer_immutable_witness : ~ transfer_step root 100 finished paused.
Proof. apply (closed_transfer_immutable root 100). done. Defined.

Lemma transfer_completes_witness : exists r m',
  (record ← plan "download" "https://example.org/hello" (treq_expected_sha256 request) 12 "objects/hello" None;
   resume_all content start root 100 (replicate 13 (1, Some 1)) record) blank = (Ok r, m') /\
  delivered content root request r m'.
Proof.
  apply (transfer_completes content start the_id root 100 request blank (replicate 13 (1, Some 1))).
  - by vm_compute.
  - exact request_served.
  - done.
  - done.
  - done.
  - apply Forall_replicate. split; cbn; lia.
  - by vm_compute.
Defined.

Lemma empty_interruption_stuck_witness : exists updated m',
  resume_download (H6 := source) root 100 updated 5 None m' =
    (Raise (TransferIntegrityError "unexpected partial transfer exists for a new plan"), m').
Proof.
  destruct (empty_interruption_stuck content start root 100 request blank 5 None) as (u & m' & _ & _ & Hr).
  - by vm_compute.
  - exact request_served.
  - by vm_compute.
  - done.
  - done.
  - lia.
  - done.
  - exists u, m'. apply (Hr source 5 None); [lia|done].
Defined.
End TransferSample.
