(* ===== verification/EnvModels.v ===== *)
(** * Environment lifecycle records

    environment_models.py: every dataclass with its validation and its rendering.
    Fields that the source fixes ([schema_version]) are left out of the records
    and appear in the renderings.

    The second part is environment_fingerprint.py. *)

From S2P Require Export Timestamps Json.

Definition ENVIRONMENT_LIFECYCLE_SCHEMA_VERSION : string := "environment-lifecycle.v1".
Definition OPERATIONAL_ENVIRONMENT_ID_PATTERN : regex := RSeq (RLit "opid:v1:environment:u7:") UUID7.
Definition CAPABILITY_STATES : list string := ["supported"; "unsupported"; "unknown"].
Definition LIFECYCLE_STATES : list string :=
  ["planned"; "admitted"; "acquiring"; "verifying_artifacts"; "artifacts_verified"; "constructing"; "constructed";
   "verifying_runtime"; "runtime_verified"; "verifying_smoke"; "smoke_verified"; "fingerprinting"; "ready";
   "releasing"; "released"; "cancelled"; "rejected"; "failed"; "cleanup_required"; "release_failed"].
Definition FAILURE_CLASSES : list string := ["admission"; "cancelled"; "input"; "provider"; "verification"].
Definition DIAGNOSIS_STATES : list string := ["healthy"; "degraded"; "unavailable"; "unknown"].

Module Env.
Definition _require_token (name value : string) : result unit :=
  require_token ValueError " must be a lowercase canonical token" name value.
Definition _require_sha256 (name value : string) : result unit := require_sha256 ValueError name value.
Definition _require_rcid (name value : string) : result unit :=
  raise_if (negb (fullmatch RCID_PATTERN value)) (ValueError (name +:+ " must be a canonical rcid:v1 identifier")).
Definition _require_unique (name : string) (values : list string) : result unit :=
  require_unique ValueError " must not contain duplicate identities" name values.
Definition _require_nonnegative_safe_integer (name : string) (value : Z) : result unit :=
  raise_if (negb (safe_nonneg value)) (ValueError (name +:+ " must be a non-negative safe integer")).
End Env.
Import Env.

(** ** Recipes *)

Record NamedValue := { nv_name : string; nv_value : string }.

#[export] Instance NamedValue_post_init : Dataclass NamedValue := fun self =>
  _require_token "fact name" (nv_name self);;
  raise_if (str_empty (nv_value self)) (ValueError "fact value must be a non-empty string").

#[export] Instance NamedValue_eq_dec : EqDecision NamedValue.
Proof. solve_decision. Defined.

Definition named_value_to_dict (self : NamedValue) : json :=
  JObj [("name", JStr (nv_name self)); ("value", JStr (nv_value self))].

Record ArtifactRequirement := {
  areq_name : string;
  areq_sha256 : string;
  areq_size_bytes : Z;
  areq_media_type : string;
  areq_locators : list string
}.

#[export] Instance ArtifactRequirement_post_init : Dataclass ArtifactRequirement := fun self =>
  _require_token "artifact name" (areq_name self);;
  _require_sha256 "artifact sha256" (areq_sha256 self);;
  _require_token "artifact media type" (areq_media_type self);;
  _require_nonnegative_safe_integer "artifact size" (areq_size_bytes self);;
  raise_if (list_empty (areq_locators self) || existsb str_empty (areq_locators self))
    (ValueError "artifact locators must contain non-empty strings").

Definition artifact_requirement_to_dict (self : ArtifactRequirement) : json :=
  JObj [("locators", JStrs (areq_locators self)); ("media_type", JStr (areq_media_type self));
        ("name", JStr (areq_name self)); ("sha256", JStr (areq_sha256 self));
        ("size_bytes", JInt (areq_size_bytes self))].

Record EnvironmentRecipe := {
  rec_recipe_revision_id : string;
  rec_target_profile_id : string;
  rec_target_release_id : string;
  rec_strategy : string;
  rec_artifacts : list ArtifactRequirement;
  rec_expected_runtime_facts : list NamedValue;
  rec_expected_configuration : list NamedValue;
  rec_required_capabilities : list string;
  rec_smoke_probe_ids : list string;
  rec_isolation_policy_digest : string;
  rec_network_policy : string
}.

#[export] Instance EnvironmentRecipe_post_init : Dataclass EnvironmentRecipe := fun self =>
  for_each [("recipe revision", rec_recipe_revision_id self); ("target profile", rec_target_profile_id self);
            ("target release", rec_target_release_id self)] (fun p => _require_rcid p.1 p.2);;
  _require_token "environment strategy" (rec_strategy self);;
  _require_sha256 "isolation policy digest" (rec_isolation_policy_digest self);;
  _require_token "network policy" (rec_network_policy self);;
  _require_unique "artifact requirements" (areq_name <$> rec_artifacts self);;
  _require_unique "expected runtime facts" (nv_name <$> rec_expected_runtime_facts self);;
  _require_unique "expected configuration" (nv_name <$> rec_expected_configuration self);;
  _require_unique "required capabilities" (rec_required_capabilities self);;
  _require_unique "smoke probes" (rec_smoke_probe_ids self);;
  raise_if (list_empty (rec_artifacts self) || list_empty (rec_expected_runtime_facts self) ||
            list_empty (rec_smoke_probe_ids self))
    (ValueError "environment recipes require artifacts, runtime facts, and smoke probes");;
  for_each (rec_required_capabilities self ++ rec_smoke_probe_ids self)
    (_require_token "recipe capability or probe").

Definition recipe_to_dict (self : EnvironmentRecipe) : json :=
  JObj [("artifacts", JArr (artifact_requirement_to_dict <$> sorted_by areq_name (rec_artifacts self)));
        ("expected_configuration", JArr (named_value_to_dict <$> sorted_by nv_name (rec_expected_configuration self)));
        ("expected_runtime_facts", JArr (named_value_to_dict <$> sorted_by nv_name (rec_expected_runtime_facts self)));
        ("isolation_policy_digest", JStr (rec_isolation_policy_digest self));
        ("network_policy", JStr (rec_network_policy self));
        ("recipe_revision_id", JStr (rec_recipe_revision_id self));
        ("required_capabilities", JStrs (sorted_strings (rec_required_capabilities self)));
        ("smoke_probe_ids", JStrs (sorted_strings (rec_smoke_probe_ids self)));
        ("strategy", JStr (rec_strategy self)); ("target_profile_id", JStr (rec_target_profile_id self));
        ("target_release_id", JStr (rec_target_release_id self))].

(** ** Providers *)

Record ProviderCapability := { pcap_name : string; pcap_status : string; pcap_diagnostic : option string }.

#[export] Instance ProviderCapability_post_init : Dataclass ProviderCapability := fun self =>
  _require_token "provider capability" (pcap_name self);;
  raise_if (negb (mem (pcap_status self) CAPABILITY_STATES))
    (ValueError ("invalid provider capability status: " +:+ pcap_status self));;
  raise_if (negb (String.eqb (pcap_status self) "supported") && opt_str_empty (pcap_diagnostic self))
    (ValueError "unsupported or unknown provider capabilities require a diagnostic").

Definition provider_capability_to_dict (self : ProviderCapability) : json :=
  JObj [("diagnostic", JOptStr (pcap_diagnostic self)); ("name", JStr (pcap_name self));
        ("status", JStr (pcap_status self))].

Record ProviderDescriptor := {
  pd_name : string;
  pd_strategy : string;
  pd_implementation_digest : string;
  pd_capabilities : list ProviderCapability
}.

#[export] Instance ProviderDescriptor_post_init : Dataclass ProviderDescriptor := fun self =>
  _require_token "provider name" (pd_name self);;
  _require_token "provider strategy" (pd_strategy self);;
  _require_sha256 "provider implementation digest" (pd_implementation_digest self);;
  _require_unique "provider capabilities" (pcap_name <$> pd_capabilities self);;
  raise_if (list_empty (pd_capabilities self)) (ValueError "provider descriptor requires explicit capabilities").

(** [ProviderDescriptor.capability] *)
Definition capability (self : ProviderDescriptor) (name : string) : option ProviderCapability :=
  List.find (fun item => String.eqb (pcap_name item) name) (pd_capabilities self).

Definition descriptor_to_dict (self : ProviderDescriptor) : json :=
  JObj [("capabilities", JArr (provider_capability_to_dict <$> sorted_by pcap_name (pd_capabilities self)));
        ("implementation_digest", JStr (pd_implementation_digest self)); ("name", JStr (pd_name self));
        ("strategy", JStr (pd_strategy self))].

Record ProviderPlan := {
  pp_provider_name : string;
  pp_plan_token : string;
  pp_expected_download_bytes : Z;
  pp_expected_expanded_bytes : Z;
  pp_expected_scratch_bytes : Z;
  pp_diagnostics : list string;
  pp_mutation_permitted : bool
}.

#[export] Instance ProviderPlan_post_init : Dataclass ProviderPlan := fun self =>
  _require_token "provider name" (pp_provider_name self);;
  raise_if (str_empty (pp_plan_token self)) (ValueError "provider plan token is required");;
  for_each [("expected_download_bytes", pp_expected_download_bytes self);
            ("expected_expanded_bytes", pp_expected_expanded_bytes self);
            ("expected_scratch_bytes", pp_expected_scratch_bytes self)]
    (fun p => _require_nonnegative_safe_integer p.1 p.2);;
  raise_if (pp_mutation_permitted self) (ValueError "environment planning must not permit mutation").

Definition provider_plan_to_dict (self : ProviderPlan) : json :=
  JObj [("diagnostics", JStrs (pp_diagnostics self));
        ("expected_download_bytes", JInt (pp_expected_download_bytes self));
        ("expected_expanded_bytes", JInt (pp_expected_expanded_bytes self));
        ("expected_scratch_bytes", JInt (pp_expected_scratch_bytes self));
        ("mutation_permitted", JBool (pp_mutation_permitted self)); ("plan_token", JStr (pp_plan_token self));
        ("provider_name", JStr (pp_provider_name self))].

Record AdmissionDecision := { ad_admitted : bool; ad_decision_id : string; ad_reason : string }.

#[export] Instance AdmissionDecision_post_init : Dataclass AdmissionDecision := fun self =>
  raise_if (str_empty (ad_decision_id self) || str_empty (ad_reason self))
    (ValueError "admission decision ID and reason are required").

Definition decision_to_dict (self : AdmissionDecision) : json :=
  JObj [("admitted", JBool (ad_admitted self)); ("decision_id", JStr (ad_decision_id self));
        ("reason", JStr (ad_reason self))].

(** ** Observations *)

Record ArtifactObservation := { ao_name : string; ao_path : string }.

#[export] Instance ArtifactObservation_post_init : Dataclass ArtifactObservation := fun self =>
  _require_token "observed artifact name" (ao_name self);;
  raise_if (str_empty (ao_path self)) (ValueError "observed artifact path is required").

Record ProviderAcquisition := { pa_handle : string; pa_artifacts : list ArtifactObservation }.

#[export] Instance ProviderAcquisition_post_init : Dataclass ProviderAcquisition := fun self =>
  raise_if (str_empty (pa_handle self)) (ValueError "provider acquisition handle is required");;
  _require_unique "observed artifacts" (ao_name <$> pa_artifacts self).

Record VerifiedArtifact := { va_name : string; va_sha256 : string; va_size_bytes : Z; va_media_type : string }.

#[export] Instance VerifiedArtifact_post_init : Dataclass VerifiedArtifact := fun self =>
  _require_token "verified artifact name" (va_name self);;
  _require_sha256 "verified artifact digest" (va_sha256 self);;
  _require_token "verified artifact media type" (va_media_type self);;
  _require_nonnegative_safe_integer "verified artifact size" (va_size_bytes self).

Definition verified_artifact_to_dict (self : VerifiedArtifact) : json :=
  JObj [("media_type", JStr (va_media_type self)); ("name", JStr (va_name self));
        ("sha256", JStr (va_sha256 self)); ("size_bytes", JInt (va_size_bytes self))].

Record RuntimeIdentity := {
  ri_strategy : string;
  ri_provider_implementation_digest : string;
  ri_facts : list NamedValue;
  ri_relevant_configuration : list NamedValue;
  ri_isolation_policy_digest : string;
  ri_network_policy : string
}.

#[export] Instance RuntimeIdentity_post_init : Dataclass RuntimeIdentity := fun self =>
  _require_token "runtime strategy" (ri_strategy self);;
  _require_sha256 "runtime provider implementation digest" (ri_provider_implementation_digest self);;
  _require_sha256 "runtime isolation policy digest" (ri_isolation_policy_digest self);;
  _require_token "runtime network policy" (ri_network_policy self);;
  _require_unique "runtime facts" (nv_name <$> ri_facts self);;
  _require_unique "runtime configuration" (nv_name <$> ri_relevant_configuration self);;
  raise_if (list_empty (ri_facts self)) (ValueError "runtime identity requires behaviorally relevant facts").

Definition runtime_to_dict (self : RuntimeIdentity) : json :=
  JObj [("facts", JArr (named_value_to_dict <$> sorted_by nv_name (ri_facts self)));
        ("isolation_policy_digest", JStr (ri_isolation_policy_digest self));
        ("network_policy", JStr (ri_network_policy self));
        ("provider_implementation_digest", JStr (ri_provider_implementation_digest self));
        ("relevant_configuration", JArr (named_value_to_dict <$> sorted_by nv_name (ri_relevant_configuration self)));
        ("strategy", JStr (ri_strategy self))].

Record SmokeObservation := { so_probe_id : string; so_passed : bool; so_diagnostic : option string }.

#[export] Instance SmokeObservation_post_init : Dataclass SmokeObservation := fun self =>
  _require_token "smoke probe ID" (so_probe_id self);;
  raise_if (negb (so_passed self) && opt_str_empty (so_diagnostic self))
    (ValueError "failed smoke probes require a diagnostic").

Definition smoke_to_dict (self : SmokeObservation) : json :=
  JObj [("diagnostic", JOptStr (so_diagnostic self)); ("passed", JBool (so_passed self));
        ("probe_id", JStr (so_probe_id self))].

Record ProviderOutcome := { po_succeeded : bool; po_diagnostics : list string }.

#[export] Instance ProviderOutcome_post_init : Dataclass ProviderOutcome := fun self =>
  raise_if (negb (po_succeeded self) && list_empty (po_diagnostics self))
    (ValueError "failed provider outcomes require diagnostics").

Definition outcome_to_dict (self : ProviderOutcome) : json :=
  JObj [("diagnostics", JStrs (po_diagnostics self)); ("succeeded", JBool (po_succeeded self))].

Record ProviderDiagnosis := { pdg_status : string; pdg_diagnostics : list string }.

#[export] Instance ProviderDiagnosis_post_init : Dataclass ProviderDiagnosis := fun self =>
  raise_if (negb (mem (pdg_status self) DIAGNOSIS_STATES)) (ValueError "invalid provider diagnosis status").

Definition diagnosis_to_dict (self : ProviderDiagnosis) : json :=
  JObj [("diagnostics", JStrs (pdg_diagnostics self)); ("status", JStr (pdg_status self))].

Record EnvironmentDiagnosis := {
  edg_transaction_id : string;
  edg_state : string;
  edg_provider_name : string;
  edg_provider_status : string;
  edg_diagnostics : list string;
  edg_failure_code : option string
}.

#[export] Instance EnvironmentDiagnosis_post_init : Dataclass EnvironmentDiagnosis := fun self =>
  raise_if (negb (fullmatch OPERATIONAL_ENVIRONMENT_ID_PATTERN (edg_transaction_id self)))
    (ValueError "diagnosis transaction ID must be an operational environment UUIDv7");;
  raise_if (negb (mem (edg_state self) LIFECYCLE_STATES)) (ValueError "diagnosis state is invalid");;
  _require_token "diagnosis provider" (edg_provider_name self);;
  raise_if (negb (mem (edg_provider_status self) DIAGNOSIS_STATES))
    (ValueError "diagnosis provider status is invalid").

Definition environment_diagnosis_to_dict (self : EnvironmentDiagnosis) : json :=
  JObj [("diagnostics", JStrs (edg_diagnostics self)); ("failure_code", JOptStr (edg_failure_code self));
        ("provider_name", JStr (edg_provider_name self)); ("provider_status", JStr (edg_provider_status self));
        ("state", JStr (edg_state self)); ("transaction_id", JStr (edg_transaction_id self))].

(** ** The lifecycle *)

Record LifecycleFailure := {
  lf_classification : string;
  lf_code : string;
  lf_message : string;
  lf_cleanup_required : bool
}.

#[export] Instance LifecycleFailure_post_init : Dataclass LifecycleFailure := fun self =>
  raise_if (negb (mem (lf_classification self) FAILURE_CLASSES))
    (ValueError ("invalid lifecycle failure class: " +:+ lf_classification self));;
  _require_token "failure code" (lf_code self);;
  raise_if (str_empty (lf_message self)) (ValueError "failure message is required").

Definition failure_to_dict (self : LifecycleFailure) : json :=
  JObj [("classification", JStr (lf_classification self)); ("cleanup_required", JBool (lf_cleanup_required self));
        ("code", JStr (lf_code self)); ("message", JStr (lf_message self))].

Record LifecycleTransition := {
  lt_sequence : Z;
  lt_from_state : option string;
  lt_to_state : string;
  lt_observed_at : string;
  lt_detail : string
}.

#[export] Instance LifecycleTransition_post_init : Dataclass LifecycleTransition := fun self =>
  raise_if (lt_sequence self <? 1) (ValueError "transition sequence starts at one");;
  match lt_from_state self with
  | Some s => raise_if (negb (mem s LIFECYCLE_STATES)) (ValueError ("invalid source lifecycle state: " +:+ s))
  | None => Ok tt
  end;;
  raise_if (negb (mem (lt_to_state self) LIFECYCLE_STATES))
    (ValueError ("invalid target lifecycle state: " +:+ lt_to_state self));;
  require_timestamp (lt_observed_at self);;
  raise_if (str_empty (lt_detail self)) (ValueError "transition detail is required").

Definition transition_to_dict (self : LifecycleTransition) : json :=
  JObj [("detail", JStr (lt_detail self)); ("from_state", JOptStr (lt_from_state self));
        ("observed_at", JStr (lt_observed_at self)); ("sequence", JInt (lt_sequence self));
        ("to_state", JStr (lt_to_state self))].

Record EnvironmentLifecycleRecord := {
  elr_transaction_id : string;
  elr_state : string;
  elr_recipe : EnvironmentRecipe;
  elr_provider : ProviderDescriptor;
  elr_plan : option ProviderPlan;
  elr_admission : option AdmissionDecision;
  elr_provider_handle : option string;
  elr_verified_artifacts : list VerifiedArtifact;
  elr_runtime_identity : option RuntimeIdentity;
  elr_smoke_observations : list SmokeObservation;
  elr_verification_digest : option string;
  elr_environment_fingerprint_id : option string;
  elr_transitions : list LifecycleTransition;
  elr_failure : option LifecycleFailure;
  elr_rollback : option ProviderOutcome;
  elr_diagnostics : list string
}.

(** The conditions on a Ready record. *)
Definition ready_guards (self : EnvironmentLifecycleRecord) : result unit :=
  raise_if (is_none (elr_provider_handle self) || is_none (elr_runtime_identity self) ||
            is_none (elr_verification_digest self) || is_none (elr_environment_fingerprint_id self) ||
            is_some (elr_failure self))
    (ValueError "Ready requires verified runtime, fingerprint, handle, and no failure");;
  raise_if (is_none (elr_plan self) || match elr_admission self with Some a => negb (ad_admitted a) | None => true end)
    (ValueError "Ready requires an admitted provider plan");;
  raise_if (list_empty (elr_verified_artifacts self) || list_empty (elr_smoke_observations self))
    (ValueError "Ready requires verified artifacts and smoke observations");;
  raise_if (existsb (fun item => negb (so_passed item)) (elr_smoke_observations self))
    (ValueError "Ready cannot contain a failed smoke observation");;
  raise_if (is_some (elr_rollback self)) (ValueError "Ready cannot follow a rollback").

Definition cleanup_flag (self : EnvironmentLifecycleRecord) : bool :=
  match elr_failure self with Some f => lf_cleanup_required f | None => false end.

#[export] Instance EnvironmentLifecycleRecord_post_init : Dataclass EnvironmentLifecycleRecord := fun self =>
  raise_if (negb (fullmatch OPERATIONAL_ENVIRONMENT_ID_PATTERN (elr_transaction_id self)))
    (ValueError "transaction ID must be an operational environment UUIDv7");;
  raise_if (negb (mem (elr_state self) LIFECYCLE_STATES)) (ValueError ("invalid lifecycle state: " +:+ elr_state self));;
  _require_unique "verified artifacts" (va_name <$> elr_verified_artifacts self);;
  _require_unique "smoke observations" (so_probe_id <$> elr_smoke_observations self);;
  match elr_verification_digest self with Some d => _require_sha256 "verification digest" d | None => Ok tt end;;
  match elr_environment_fingerprint_id self with
  | Some f =>
      _require_rcid "environment fingerprint" f;;
      raise_if (negb (str_contains f ":environment-fingerprint:h:"))
        (ValueError "environment fingerprint must use the environment-fingerprint hash namespace")
  | None => Ok tt
  end;;
  (if String.eqb (elr_state self) "ready" then ready_guards self else Ok tt);;
  raise_if (mem (elr_state self) ["rejected"; "failed"; "cleanup_required"; "release_failed"] && is_none (elr_failure self))
    (ValueError (elr_state self +:+ " requires an explicit failure"));;
  raise_if (String.eqb (elr_state self) "cancelled" && is_none (elr_failure self))
    (ValueError "cancelled requires an explicit failure");;
  raise_if (mem (elr_state self) ["cleanup_required"; "release_failed"] && negb (cleanup_flag self))
    (ValueError (elr_state self +:+ " requires cleanup_required failure evidence"));;
  raise_if (negb (bool_decide (lt_sequence <$> elr_transitions self = ranks (length (elr_transitions self)))))
    (ValueError "transition sequence must be contiguous and ordered");;
  raise_if (match last (elr_transitions self) with
            | Some t => negb (String.eqb (lt_to_state t) (elr_state self))
            | None => false
            end)
    (ValueError "last transition must match current lifecycle state").

Definition lifecycle_to_dict (self : EnvironmentLifecycleRecord) : json :=
  JObj [("admission", from_option decision_to_dict JNull (elr_admission self));
        ("diagnostics", JStrs (elr_diagnostics self));
        ("environment_fingerprint_id", JOptStr (elr_environment_fingerprint_id self));
        ("failure", from_option failure_to_dict JNull (elr_failure self));
        ("plan", from_option provider_plan_to_dict JNull (elr_plan self));
        ("provider", descriptor_to_dict (elr_provider self));
        ("provider_handle", JOptStr (elr_provider_handle self));
        ("recipe", recipe_to_dict (elr_recipe self));
        ("rollback", from_option outcome_to_dict JNull (elr_rollback self));
        ("runtime_identity", from_option runtime_to_dict JNull (elr_runtime_identity self));
        ("schema_version", JStr ENVIRONMENT_LIFECYCLE_SCHEMA_VERSION);
        ("smoke_observations", JArr (smoke_to_dict <$> sorted_by so_probe_id (elr_smoke_observations self)));
        ("state", JStr (elr_state self)); ("transaction_id", JStr (elr_transaction_id self));
        ("transitions", JArr (transition_to_dict <$> elr_transitions self));
        ("verification_digest", JOptStr (elr_verification_digest self));
        ("verified_artifacts", JArr (verified_artifact_to_dict <$> sorted_by va_name (elr_verified_artifacts self)))].

(** * Verified environment fingerprints

    environment_fingerprint.py.  The fingerprint is the digest of the canonical
    form of the verified facts; sets are rendered as lists sorted by canonical
    bytes.  The text of a canonicalization error is the parameter [JCSError]. *)

Class JCSError := jcs_error : json -> string.

Definition CONTENT_DOMAIN : string := "strling.regex-conformance.content-id".
Definition VERIFICATION_DOMAIN : string := "strling.regex-conformance.environment-verification".
Definition HASH_POLICY : string := "jcs-sha256-v1".
Definition ENVIRONMENT_FINGERPRINT_SCHEMA_FAMILY_ID : string :=
  "rcid:v1:schema-family:u7:019ff82c-9517-76fb-a67d-c461e9145384".
Definition ENVIRONMENT_FINGERPRINT_SCHEMA_VERSION : string := "1.0.0".

Record FingerprintResult := {
  fr_environment_fingerprint_id : string;
  fr_verification_digest : string;
  fr_identity : json;
  fr_canonical_utf8 : string
}.

Section Fingerprint.
Context `{JCS} `{JCSError} `{NFC}.

Definition _canonical_bytes (value : json) : result string :=
  match jcs_dumps value with
  | Some text => Ok text
  | None => Raise (ValueError ("environment fingerprint canonicalization failed: " +:+ jcs_error value))
  end.

(** A dictionary from canonical bytes to values, listed in the order of its keys. *)
Definition _canonical_set (values : list json) : result (list json) :=
  pairs ← map_result (fun value => key ← _canonical_bytes value; Ok (key, value)) values;
  let keyed := dict_of fst pairs in
  Ok (omap (fun key => snd <$> keyed !! key) (sorted_set pairs.*1)).

Definition value_fact (item : NamedValue) : json :=
  JObj [("name", JStr (nv_name item)); ("value", JStr (nfc (nv_value item)))].
Definition _normalized_values (values : list NamedValue) : result (list json) :=
  _canonical_set (value_fact <$> values).

Definition artifact_fact (item : VerifiedArtifact) : json :=
  JObj [("digest", JStr (va_sha256 item)); ("media_type", JStr (va_media_type item)); ("name", JStr (va_name item));
        ("size_bytes", JInt (va_size_bytes item))].
Definition smoke_fact (item : SmokeObservation) : json :=
  JObj [("diagnostic", JOptStr (nfc <$> so_diagnostic item)); ("passed", JBool (so_passed item));
        ("probe_id", JStr (so_probe_id item))].
Definition capability_fact (item : ProviderCapability) : json :=
  JObj [("name", JStr (pcap_name item)); ("status", JStr (pcap_status item))].

(** The document the content digest is taken of. *)
Definition identity_of (recipe : EnvironmentRecipe) (provider : ProviderDescriptor) (runtime : RuntimeIdentity)
    (artifacts configuration facts capabilities : list json) (verification_digest : string) : json :=
  JObj [("artifacts", JArr artifacts);
        ("isolation_policy_digest", JStr (ri_isolation_policy_digest runtime));
        ("network_policy", JStr (ri_network_policy runtime)); ("provider_capabilities", JArr capabilities);
        ("provider_implementation_digest", JStr (ri_provider_implementation_digest runtime));
        ("provider_name", JStr (pd_name provider)); ("provider_strategy", JStr (ri_strategy runtime));
        ("recipe_revision", JStr (rec_recipe_revision_id recipe)); ("relevant_configuration", JArr configuration);
        ("runtime_facts", JArr facts); ("target_profile", JStr (rec_target_profile_id recipe));
        ("target_release", JStr (rec_target_release_id recipe)); ("verification_digest", JStr verification_digest)].

Definition fingerprint (recipe : EnvironmentRecipe) (provider : ProviderDescriptor)
    (artifacts : list VerifiedArtifact) (runtime : RuntimeIdentity) (smoke : list SmokeObservation)
    : result FingerprintResult :=
  artifact_set ← _canonical_set (artifact_fact <$> artifacts);
  runtime_facts ← _normalized_values (ri_facts runtime);
  smoke_set ← _canonical_set (smoke_fact <$> smoke);
  verification_bytes ← _canonical_bytes (JObj [("domain", JStr VERIFICATION_DOMAIN); ("verification",
    JObj [("artifacts", JArr artifact_set); ("runtime_facts", JArr runtime_facts); ("smoke", JArr smoke_set)])]);
  let verification_digest := sha256 verification_bytes in
  capabilities ← _canonical_set (capability_fact <$> pd_capabilities provider);
  configuration ← _normalized_values (ri_relevant_configuration runtime);
  let identity := identity_of recipe provider runtime artifact_set configuration runtime_facts capabilities
                    verification_digest in
  canonical ← _canonical_bytes (JObj [("domain", JStr CONTENT_DOMAIN); ("hash_policy", JStr HASH_POLICY);
    ("identity", identity); ("identity_schema_family_id", JStr ENVIRONMENT_FINGERPRINT_SCHEMA_FAMILY_ID);
    ("identity_schema_version", JStr ENVIRONMENT_FINGERPRINT_SCHEMA_VERSION);
    ("namespace", JStr "environment-fingerprint")]);
  Ok {| fr_environment_fingerprint_id :=
          "rcid:v1:environment-fingerprint:h:" +:+ HASH_POLICY +:+ ":" +:+ sha256 canonical;
        fr_verification_digest := verification_digest; fr_identity := identity; fr_canonical_utf8 := canonical |}.
End Fingerprint.

(** ** Order independence of the fingerprint *)

Section Order.
Context `{JCS} `{JCSError} `{NFC}.

(** RFC 8785: documents of one shape have the same canonical bytes only when they
    are equal. *)
Definition faithful (values : list json) : Prop :=
  forall v v', v ∈ values -> v' ∈ values -> jcs_dumps v = jcs_dumps v' -> v = v'.

Lemma faithful_nodup values : NoDup (jcs_dumps <$> values) -> faithful values.
Proof.
  intros Hnd v v' (i & Hi)%list_elem_of_lookup (j & Hj)%list_elem_of_lookup E.
  assert (i = j) as ->; [|congruence].
  apply (NoDup_lookup _ _ _ (jcs_dumps v) Hnd); rewrite list_lookup_fmap; [by rewrite Hi|by rewrite Hj, E].
Qed.

Lemma sorted_set_ext l k : (forall x, x ∈ l <-> x ∈ k) -> sorted_set l = sorted_set k.
Proof.
  intros Hlk. unfold sorted_set, sorted_strings. apply sorted_by_ext.
  - rewrite list_fmap_id. apply NoDup_remove_dups.
  - apply NoDup_Permutation; [apply NoDup_remove_dups..|]. intros x. by rewrite !elem_of_remove_dups.
Qed.

Lemma canonical_set_order values values' l :
  values ≡ₚ values' -> faithful values -> _canonical_set values = Ok l -> _canonical_set values' = Ok l.
Proof.
  intros Hp Hf. unfold _canonical_set. set (pair_of := fun value => key ← _canonical_bytes value; Ok (key, value)).
  intros Hc. apply bind_ok in Hc as (pairs & Hpairs & Hl). apply map_result_ok in Hpairs.
  assert (forall v k, pair_of v = Ok k -> jcs_dumps v = Some k.1 /\ k.2 = v) as Hpair.
  { intros v k Hv. unfold pair_of, _canonical_bytes in Hv. destruct (jcs_dumps v); [|done]. by injection Hv as <-. }
  destruct (Permutation_Forall2 Hp Hpairs) as (pairs' & Hpp & Hpairs').
  assert (map_result pair_of values' = Ok pairs') as -> by (by apply map_result_ok).
  cbn [mbind result_bind]. rewrite <- Hl. f_equal.
  assert (sorted_set pairs'.*1 = sorted_set pairs.*1) as -> by (apply sorted_set_ext; intros x; by rewrite Hpp).
  apply list_omap_ext. apply Forall_Forall2_diag, Forall_forall. intros k _.
  assert (forall p, p ∈ pairs -> exists v, v ∈ values /\ jcs_dumps v = Some p.1 /\ p.2 = v) as Hin.
  { intros p (i & Hi)%list_elem_of_lookup. destruct (Forall2_lookup_r _ _ _ _ _ Hpairs Hi) as (v & Hv & Hvp).
    apply Hpair in Hvp as [? ?]. apply list_elem_of_lookup_2 in Hv. by exists v. }
  destruct (dict_of fst pairs !! k) as [p|] eqn:E1, (dict_of fst pairs' !! k) as [p'|] eqn:E2; cbn; try done.
  - apply dict_of_lookup_elem in E1 as [I1 K1], E2 as [I2 K2]. rewrite <- Hpp in I2.
    destruct (Hin _ I1) as (v & Hv & J1 & ->), (Hin _ I2) as (v' & Hv' & J2 & ->). f_equal.
    apply Hf; [done..|]. congruence.
  - apply dict_of_lookup_elem in E1 as [I1 <-]. apply dict_of_lookup_None in E2. exfalso. apply E2. rewrite <- Hpp.
    by apply list_elem_of_fmap_2.
  - apply dict_of_lookup_elem in E2 as [I2 <-]. apply dict_of_lookup_None in E1. exfalso. apply E1. rewrite Hpp.
    by apply list_elem_of_fmap_2.
Qed.
End Order.
