(* ===== verification/EnvManager.v ===== *)
(** * Environment lifecycle manager

    environment_manager.py and environment_providers.py.  A provider is a record
    of operations on the world [W]; the manager's registry is a map from names.
    The local variables of [realize] that its exception handler reads ([current]
    and [handle]) live in the world of the [try] block, so they survive an
    exception as in the source. *)

From S2P Require Export Files EnvModels.

Definition BASE_READY_CAPABILITIES : list string :=
  ["acquisition"; "artifact-digest-visibility"; "construction"; "diagnostics"; "rollback"; "runtime-identity";
   "safe-release"; "smoke-verification"].
Definition MUTATED_STATES : list string :=
  ["acquiring"; "verifying_artifacts"; "artifacts_verified"; "constructing"; "constructed"; "verifying_runtime";
   "runtime_verified"; "verifying_smoke"; "smoke_verified"; "fingerprinting"; "ready"; "releasing"; "release_failed";
   "cleanup_required"].

(** ** Providers *)

Record EnvironmentProvider (W : Type) := {
  prov_descriptor : ProviderDescriptor;
  prov_plan : EnvironmentRecipe -> eff W ProviderPlan;
  prov_acquire : EnvironmentRecipe -> ProviderPlan -> string -> eff W ProviderAcquisition;
  prov_construct : EnvironmentRecipe -> ProviderAcquisition -> string -> eff W string;
  prov_inspect_runtime : EnvironmentRecipe -> string -> string -> eff W RuntimeIdentity;
  prov_smoke_verify : EnvironmentRecipe -> string -> string -> eff W (list SmokeObservation);
  prov_release : string -> string -> eff W ProviderOutcome;
  prov_rollback : option string -> string -> eff W ProviderOutcome;
  prov_diagnose : option string -> string -> eff W ProviderDiagnosis
}.
Arguments prov_descriptor {W} _.
Arguments prov_plan {W} _ _.
Arguments prov_acquire {W} _ _ _ _.
Arguments prov_construct {W} _ _ _ _.
Arguments prov_inspect_runtime {W} _ _ _ _.
Arguments prov_smoke_verify {W} _ _ _ _.
Arguments prov_release {W} _ _ _.
Arguments prov_rollback {W} _ _ _.
Arguments prov_diagnose {W} _ _ _.

Definition provider_name {W} (p : EnvironmentProvider W) : string := pd_name (prov_descriptor p).

(** [ProviderRegistry] *)
Definition ProviderRegistry (W : Type) : Type := gmap string (EnvironmentProvider W).
Definition registry {W} (providers : list (EnvironmentProvider W)) : result (ProviderRegistry W) :=
  raise_if (has_duplicates (provider_name <$> providers))
    (ValueError "provider registry contains duplicate provider names");;
  Ok (dict_of provider_name providers).
Definition registry_get {W} (r : ProviderRegistry W) (name : string) : result (EnvironmentProvider W) :=
  match r !! name with
  | Some p => Ok p
  | None => Raise (ValueError ("environment provider " +:+ py_repr name +:+ " is not registered"))
  end.
Definition descriptors {W} (r : ProviderRegistry W) : list ProviderDescriptor :=
  sorted_by pd_name (prov_descriptor <$> (map_to_list r).*2).

Class EnvironmentIds (W : Type) := new_environment_transaction_id : eff W string.

(** [Uuid7EnvironmentIdGenerator], of a millisecond stamp and random bits. *)
Definition environment_uuid (stamp r12 r62 : Z) : result string := uuid7_new ValueError "environment" stamp r12 r62.

(** Acquired artifacts are read through their path text. *)
Class ArtifactFiles (W : Type) := {
  art_lstat : string -> eff W file_stat;
  art_open : string -> eff W Z;
  art_fstat : Z -> eff W file_stat;
  art_read : Z -> Z -> eff W string;
  art_close : Z -> eff W unit
}.

(** ** [dataclasses.replace] on a lifecycle record *)

Definition with_plan (p : option ProviderPlan) (d : list string) (r : EnvironmentLifecycleRecord) :=
  {| elr_transaction_id := elr_transaction_id r; elr_state := elr_state r; elr_recipe := elr_recipe r;
     elr_provider := elr_provider r; elr_plan := p; elr_admission := elr_admission r;
     elr_provider_handle := elr_provider_handle r; elr_verified_artifacts := elr_verified_artifacts r;
     elr_runtime_identity := elr_runtime_identity r; elr_smoke_observations := elr_smoke_observations r;
     elr_verification_digest := elr_verification_digest r;
     elr_environment_fingerprint_id := elr_environment_fingerprint_id r; elr_transitions := elr_transitions r;
     elr_failure := elr_failure r; elr_rollback := elr_rollback r; elr_diagnostics := d |}.
Definition with_admission (a : option AdmissionDecision) (f : option LifecycleFailure)
    (r : EnvironmentLifecycleRecord) :=
  {| elr_transaction_id := elr_transaction_id r; elr_state := elr_state r; elr_recipe := elr_recipe r;
     elr_provider := elr_provider r; elr_plan := elr_plan r; elr_admission := a;
     elr_provider_handle := elr_provider_handle r; elr_verified_artifacts := elr_verified_artifacts r;
     elr_runtime_identity := elr_runtime_identity r; elr_smoke_observations := elr_smoke_observations r;
     elr_verification_digest := elr_verification_digest r;
     elr_environment_fingerprint_id := elr_environment_fingerprint_id r; elr_transitions := elr_transitions r;
     elr_failure := f; elr_rollback := elr_rollback r; elr_diagnostics := elr_diagnostics r |}.
(** The observations of a realization. *)
Definition with_observed (h : option string) (v : list VerifiedArtifact) (ri : option RuntimeIdentity)
    (s : list SmokeObservation) (d fp : option string) (r : EnvironmentLifecycleRecord) :=
  {| elr_transaction_id := elr_transaction_id r; elr_state := elr_state r; elr_recipe := elr_recipe r;
     elr_provider := elr_provider r; elr_plan := elr_plan r; elr_admission := elr_admission r;
     elr_provider_handle := h; elr_verified_artifacts := v; elr_runtime_identity := ri; elr_smoke_observations := s;
     elr_verification_digest := d; elr_environment_fingerprint_id := fp; elr_transitions := elr_transitions r;
     elr_failure := elr_failure r; elr_rollback := elr_rollback r; elr_diagnostics := elr_diagnostics r |}.
Definition with_handle (h : option string) (r : EnvironmentLifecycleRecord) :=
  with_observed h (elr_verified_artifacts r) (elr_runtime_identity r) (elr_smoke_observations r)
    (elr_verification_digest r) (elr_environment_fingerprint_id r) r.
Definition with_verified (v : list VerifiedArtifact) (r : EnvironmentLifecycleRecord) :=
  with_observed (elr_provider_handle r) v (elr_runtime_identity r) (elr_smoke_observations r)
    (elr_verification_digest r) (elr_environment_fingerprint_id r) r.
Definition with_runtime (ri : RuntimeIdentity) (r : EnvironmentLifecycleRecord) :=
  with_observed (elr_provider_handle r) (elr_verified_artifacts r) (Some ri) (elr_smoke_observations r)
    (elr_verification_digest r) (elr_environment_fingerprint_id r) r.
Definition with_smoke (s : list SmokeObservation) (r : EnvironmentLifecycleRecord) :=
  with_observed (elr_provider_handle r) (elr_verified_artifacts r) (elr_runtime_identity r) s
    (elr_verification_digest r) (elr_environment_fingerprint_id r) r.
Definition with_fingerprint (f : FingerprintResult) (r : EnvironmentLifecycleRecord) :=
  with_observed (elr_provider_handle r) (elr_verified_artifacts r) (elr_runtime_identity r)
    (elr_smoke_observations r) (Some (fr_verification_digest f)) (Some (fr_environment_fingerprint_id f)) r.
(** What follows a failure. *)
Definition with_failure (h : option string) (f : option LifecycleFailure) (o : option ProviderOutcome)
    (d : list string) (r : EnvironmentLifecycleRecord) :=
  {| elr_transaction_id := elr_transaction_id r; elr_state := elr_state r; elr_recipe := elr_recipe r;
     elr_provider := elr_provider r; elr_plan := elr_plan r; elr_admission := elr_admission r;
     elr_provider_handle := h; elr_verified_artifacts := elr_verified_artifacts r;
     elr_runtime_identity := elr_runtime_identity r; elr_smoke_observations := elr_smoke_observations r;
     elr_verification_digest := elr_verification_digest r;
     elr_environment_fingerprint_id := elr_environment_fingerprint_id r; elr_transitions := elr_transitions r;
     elr_failure := f; elr_rollback := o; elr_diagnostics := d |}.
Definition with_diagnostics (d : list string) (r : EnvironmentLifecycleRecord) :=
  with_failure (elr_provider_handle r) (elr_failure r) (elr_rollback r) d r.
Definition with_state (state : string) (ts : list LifecycleTransition) (r : EnvironmentLifecycleRecord) :=
  {| elr_transaction_id := elr_transaction_id r; elr_state := state; elr_recipe := elr_recipe r;
     elr_provider := elr_provider r; elr_plan := elr_plan r; elr_admission := elr_admission r;
     elr_provider_handle := elr_provider_handle r; elr_verified_artifacts := elr_verified_artifacts r;
     elr_runtime_identity := elr_runtime_identity r; elr_smoke_observations := elr_smoke_observations r;
     elr_verification_digest := elr_verification_digest r;
     elr_environment_fingerprint_id := elr_environment_fingerprint_id r; elr_transitions := ts;
     elr_failure := elr_failure r; elr_rollback := elr_rollback r; elr_diagnostics := elr_diagnostics r |}.

(** ** Verification *)

Definition _provider_incompatibility (recipe : EnvironmentRecipe) (provider : ProviderDescriptor) : option string :=
  if negb (String.eqb (pd_strategy provider) (rec_strategy recipe)) then
    Some ("provider strategy " +:+ py_repr (pd_strategy provider) +:+ " does not realize recipe strategy " +:+
          py_repr (rec_strategy recipe))
  else
    let failures := omap (fun name => match capability provider name with
      | None => Some (name +:+ "=absent")
      | Some c => if negb (String.eqb (pcap_status c) "supported") then Some (name +:+ "=" +:+ pcap_status c) else None
      end) (sorted_set (BASE_READY_CAPABILITIES ++ rec_required_capabilities recipe)) in
    if list_empty failures then None
    else Some ("provider cannot satisfy required capabilities: " +:+ join ", " failures).

(** [set(a) - set(b)], sorted. *)
Definition difference (a b : list string) : list string := sorted_set (List.filter (fun k => negb (mem k b)) a).

Definition _verify_named_values (label : string) (expected_values actual_values : list NamedValue) : result unit :=
  let expected := dict_of nv_name expected_values in
  let actual := dict_of nv_name actual_values in
  raise_if (has_duplicates (nv_name <$> actual_values))
    (LifecycleVerificationError (label +:+ "-identity-collision") ("duplicate " +:+ label +:+ " fact names"));;
  let missing := difference (nv_name <$> expected_values) (nv_name <$> actual_values) in
  let mismatched := sorted_set (List.filter (fun name => match expected !! name, actual !! name with
    | Some e, Some a => negb (String.eqb (nv_value e) (nv_value a))
    | _, _ => false
    end) (nv_name <$> expected_values)) in
  raise_if (negb (list_empty missing) || negb (list_empty mismatched))
    (LifecycleVerificationError (label +:+ "-identity-mismatch")
       (label +:+ " identity mismatch; missing=" +:+ py_repr_list missing +:+ ", mismatched=" +:+
        py_repr_list mismatched)).

Definition _verify_runtime (recipe : EnvironmentRecipe) (provider : ProviderDescriptor) (runtime : RuntimeIdentity)
    : result unit :=
  raise_if (negb (String.eqb (ri_strategy runtime) (rec_strategy recipe)) ||
            negb (String.eqb (ri_strategy runtime) (pd_strategy provider)))
    (LifecycleVerificationError "runtime-strategy-mismatch" "realized runtime strategy is not the planned strategy");;
  raise_if (negb (String.eqb (ri_provider_implementation_digest runtime) (pd_implementation_digest provider)))
    (LifecycleVerificationError "provider-implementation-mismatch"
       "runtime inspection does not bind the selected provider implementation");;
  raise_if (negb (String.eqb (ri_isolation_policy_digest runtime) (rec_isolation_policy_digest recipe)))
    (LifecycleVerificationError "isolation-policy-mismatch" "realized isolation policy differs from the recipe");;
  raise_if (negb (String.eqb (ri_network_policy runtime) (rec_network_policy recipe)))
    (LifecycleVerificationError "network-policy-mismatch" "realized network policy differs from the recipe");;
  _verify_named_values "runtime" (rec_expected_runtime_facts recipe) (ri_facts runtime);;
  _verify_named_values "configuration" (rec_expected_configuration recipe) (ri_relevant_configuration runtime).

Definition _verify_smoke (recipe : EnvironmentRecipe) (observations : list SmokeObservation) : result unit :=
  let actual := dict_of so_probe_id observations in
  raise_if (has_duplicates (so_probe_id <$> observations))
    (LifecycleVerificationError "smoke-identity-collision" "duplicate smoke probe IDs");;
  let missing := difference (rec_smoke_probe_ids recipe) (so_probe_id <$> observations) in
  let failed := sorted_strings (List.filter (fun name => match actual !! name with
    | Some o => negb (so_passed o)
    | None => false
    end) (rec_smoke_probe_ids recipe)) in
  raise_if (negb (list_empty missing) || negb (list_empty failed))
    (LifecycleVerificationError "smoke-verification-failed"
       ("required smoke verification failed; missing=" +:+ py_repr_list missing +:+ ", failed=" +:+
        py_repr_list failed)).

Section Artifacts.
Context `{OSText} {W : Type} `{ArtifactFiles W}.

(** Errors of the operating system become verification errors. *)
Definition artifact_errors {A} (name : string) (m : eff W A) : eff W A :=
  try_eff m (fun e => match e with
    | OSError _ _ => lift (Raise (LifecycleVerificationError "artifact-read-failed"
        ("artifact " +:+ py_repr name +:+ " could not be read: " +:+ exn_str e)))
    | _ => lift (Raise e)
    end).

(** The file's bytes, as far as the expected size and one block more.  Every turn
    reads at least one byte, so [expected_size + 1] turns suffice. *)
Fixpoint read_blocks (turns : nat) (fd expected_size size : Z) (content : string) : eff W (string * Z) :=
  match turns with
  | O => lift (Raise out_of_fuel)
  | S turns =>
      chunk ← art_read fd (1024 * 1024);
      if str_empty chunk then mret (sha256 content, size)
      else if expected_size <? size + str_len chunk then mret (sha256 content, size + str_len chunk)
      else read_blocks turns fd expected_size (size + str_len chunk) (content +:+ chunk)
  end.

Definition close_on_error {A} (fd : Z) (m : eff W A) : eff W A :=
  try_eff m (fun e => _ ← art_close fd; lift (Raise e)).

Definition _hash_regular_artifact (name artifact_path : string) (expected_size : Z) : eff W (string * Z) :=
  '(before, fd) ← artifact_errors name (
    before ← art_lstat artifact_path;
    _ ← lift (raise_if (negb (is_regular before)) (LifecycleVerificationError "artifact-path-unsafe"
          ("artifact " +:+ py_repr name +:+ " is not a regular non-symlink file")));
    fd ← art_open artifact_path;
    mret (before, fd));
  opened ← close_on_error fd (artifact_errors name (
    opened ← art_fstat fd;
    _ ← lift (raise_if (negb (is_regular opened) || negb (bool_decide (identity before = identity opened)))
          (LifecycleVerificationError "artifact-path-unsafe"
             ("artifact " +:+ py_repr name +:+ " changed identity during verification")));
    mret opened));
  if negb (fst_size opened =? expected_size) then
    finally (mret (sha256 "", fst_size opened)) (art_close fd)
  else artifact_errors name (finally (read_blocks (S (Z.to_nat expected_size)) fd expected_size 0 "") (art_close fd)).

Definition verify_artifact (requirement : ArtifactRequirement) (observation : ArtifactObservation)
    : eff W VerifiedArtifact :=
  let name := areq_name requirement in
  '(actual_digest, size) ← _hash_regular_artifact name (ao_path observation) (areq_size_bytes requirement);
  lift (raise_if (negb (size =? areq_size_bytes requirement) || negb (String.eqb actual_digest (areq_sha256 requirement)))
          (LifecycleVerificationError "artifact-identity-mismatch"
             ("artifact " +:+ py_repr name +:+ " does not match its pinned size and digest"));;
        construct {| va_name := name; va_sha256 := actual_digest; va_size_bytes := size;
                     va_media_type := areq_media_type requirement |}).

Fixpoint map_eff {A B} (f : A -> eff W B) (l : list A) : eff W (list B) :=
  match l with
  | [] => mret []
  | x :: l => y ← f x; ys ← map_eff f l; mret (y :: ys)
  end.

Definition _verify_artifacts (requirements : list ArtifactRequirement) (observations : list ArtifactObservation)
    : eff W (list VerifiedArtifact) :=
  let expected := dict_of areq_name requirements in
  let observed := dict_of ao_name observations in
  let missing := difference (areq_name <$> requirements) (ao_name <$> observations) in
  let unexpected := difference (ao_name <$> observations) (areq_name <$> requirements) in
  _ ← lift (raise_if (has_duplicates (ao_name <$> observations))
              (LifecycleVerificationError "artifact-identity-collision" "provider returned duplicate artifact names");;
            raise_if (negb (list_empty missing) || negb (list_empty unexpected))
              (LifecycleVerificationError "artifact-set-mismatch"
                 ("artifact set mismatch; missing=" +:+ py_repr_list missing +:+ ", unexpected=" +:+
                  py_repr_list unexpected)));
  map_eff (fun name => match expected !! name, observed !! name with
    | Some requirement, Some observation => verify_artifact requirement observation
    | _, _ => lift (Raise (KeyError name))
    end) (sorted_set (areq_name <$> requirements)).
End Artifacts.

(** ** The manager *)

Section Manager.
Context `{PyTables} `{JCS} `{JCSError} `{NFC} `{OSText} {W : Type} `{Clock W} `{EnvironmentIds W} `{Publisher W}.
Context `{ArtifactFiles W} (providers : ProviderRegistry W).

Definition terminal_status (state : string) : option string :=
  if String.eqb state "cancelled" then Some "cancelled"
  else if mem state ["cleanup_required"; "failed"; "release_failed"] then Some "failed"
  else if String.eqb state "rejected" then Some "refused"
  else if String.eqb state "released" then Some "completed"
  else None.

Definition transition_event (record : EnvironmentLifecycleRecord) (transition : LifecycleTransition) : EventDraft :=
  {| dr_stream_id := elr_transaction_id record; dr_operation_kind := "environment-lifecycle";
     dr_event_type := "lifecycle"; dr_phase := replace_char "_" "-" (elr_state record);
     dr_status := default "running" (terminal_status (elr_state record)); dr_attempt := 1; dr_current := None;
     dr_total := None; dr_unit := None; dr_message := "environment lifecycle entered " +:+ elr_state record;
     dr_correlation_id := None; dr_causation_id := None;
     dr_attributes := [("from_state", JOptStr (lt_from_state transition));
                       ("provider_name", JStr (pd_name (elr_provider record)));
                       ("recipe_revision_id", JStr (rec_recipe_revision_id (elr_recipe record)));
                       ("to_state", JStr (lt_to_state transition));
                       ("transition_sequence", JInt (lt_sequence transition))];
     dr_terminal := is_some (terminal_status (elr_state record)) |}.

Definition _emit_transition (record : EnvironmentLifecycleRecord) (transition : LifecycleTransition) : eff W unit :=
  emit (transition_event record transition).

Definition next_transition (record : EnvironmentLifecycleRecord) (state detail : string) (at_ : Z) : LifecycleTransition :=
  {| lt_sequence := Z.of_nat (length (elr_transitions record)) + 1; lt_from_state := Some (elr_state record);
     lt_to_state := state; lt_observed_at := rfc3339 at_; lt_detail := detail |}.

Definition _transition (record : EnvironmentLifecycleRecord) (state detail : string)
    : eff W EnvironmentLifecycleRecord :=
  t ← now;
  '(transition, updated) ← lift (
    transition ← construct (next_transition record state detail t);
    updated ← construct (with_state state (elr_transitions record ++ [transition]) record);
    Ok (transition, updated));
  _ ← _emit_transition updated transition;
  mret updated.

Definition initial_transition (state : string) (at_ : Z) : LifecycleTransition :=
  {| lt_sequence := 1; lt_from_state := None; lt_to_state := state; lt_observed_at := rfc3339 at_;
     lt_detail := "environment " +:+ state |}.

Definition initial_record (transaction_id : string) (recipe : EnvironmentRecipe) (provider : ProviderDescriptor)
    (state : string) (failure : option LifecycleFailure) (diagnostics : list string)
    (transition : LifecycleTransition) : EnvironmentLifecycleRecord :=
  {| elr_transaction_id := transaction_id; elr_state := state; elr_recipe := recipe; elr_provider := provider;
     elr_plan := None; elr_admission := None; elr_provider_handle := None; elr_verified_artifacts := [];
     elr_runtime_identity := None; elr_smoke_observations := []; elr_verification_digest := None;
     elr_environment_fingerprint_id := None; elr_transitions := [transition]; elr_failure := failure;
     elr_rollback := None; elr_diagnostics := diagnostics |}.

Definition _initial_record (transaction_id : string) (recipe : EnvironmentRecipe) (provider : ProviderDescriptor)
    (state : string) (failure : option LifecycleFailure) (diagnostics : list string)
    : eff W EnvironmentLifecycleRecord :=
  t ← now;
  '(transition, record) ← lift (
    transition ← construct (initial_transition state t);
    record ← construct (initial_record transaction_id recipe provider state failure diagnostics transition);
    Ok (transition, record));
  _ ← _emit_transition record transition;
  mret record.

Definition _require_state (record : EnvironmentLifecycleRecord) (allowed : list string) (operation : string)
    : result unit :=
  raise_if (negb (mem (elr_state record) allowed))
    (InvalidLifecycleTransition ("cannot " +:+ operation +:+ " environment from " +:+ elr_state record)).

Definition failure_of (classification code message : string) (cleanup_required : bool) : result LifecycleFailure :=
  construct {| lf_classification := classification; lf_code := code; lf_message := message;
               lf_cleanup_required := cleanup_required |}.

(** The provider's plan, checked. *)
Definition checked_plan (provider : EnvironmentProvider W) (recipe : EnvironmentRecipe) : eff W ProviderPlan :=
  plan ← prov_plan provider recipe;
  _ ← lift (raise_if (negb (String.eqb (pp_provider_name plan) (provider_name provider)))
              (LifecycleVerificationError "provider-plan-identity-mismatch"
                 "provider plan names a different provider implementation");;
            raise_if (pp_mutation_permitted plan)
              (LifecycleVerificationError "provider-plan-permits-mutation"
                 "provider plan incorrectly permits mutation"));
  mret plan.

Definition plan (recipe : EnvironmentRecipe) (name : string) : eff W EnvironmentLifecycleRecord :=
  provider ← lift (registry_get providers name);
  transaction_id ← new_environment_transaction_id;
  let descriptor := prov_descriptor provider in
  match _provider_incompatibility recipe descriptor with
  | Some incompatibility =>
      failure ← lift (failure_of "input" "provider-capability-mismatch" incompatibility false);
      _initial_record transaction_id recipe descriptor "rejected" (Some failure) []
  | None => fun w =>
      match checked_plan provider recipe w with
      | (Ok plan, w') =>
          (record ← _initial_record transaction_id recipe descriptor "planned" None [];
           lift (construct (with_plan (Some plan) (pp_diagnostics plan) record))) w'
      | (Raise (LifecycleVerificationError code message), w') =>
          (failure ← lift (failure_of "verification" code message false);
           _initial_record transaction_id recipe descriptor "rejected" (Some failure) []) w'
      | (Raise (ProviderOperationError code message _ diagnostics), w') =>
          (failure ← lift (failure_of "provider" code message false);
           _initial_record transaction_id recipe descriptor "failed" (Some failure) diagnostics) w'
      | (Raise error, w') =>
          (failure ← lift (failure_of "provider" "provider-plan-failed" (exn_detail error) false);
           _initial_record transaction_id recipe descriptor "failed" (Some failure) []) w'
      end
  end.

Definition admit_ (record : EnvironmentLifecycleRecord) (decision : AdmissionDecision)
    : eff W EnvironmentLifecycleRecord :=
  _ ← lift (_require_state record ["planned"] "admit");
  if negb (ad_admitted decision) then
    replaced ← lift (failure ← failure_of "admission" "admission-denied" (ad_reason decision) false;
                     construct (with_admission (Some decision) (Some failure) record));
    _transition replaced "rejected" (ad_reason decision)
  else
    replaced ← lift (construct (with_admission (Some decision) (elr_failure record) record));
    _transition replaced "admitted" (ad_reason decision).

(** A provider call whose exceptions count as an unsuccessful outcome. *)
Definition settled_outcome (m : eff W ProviderOutcome) : eff W ProviderOutcome :=
  try_eff m (fun e => lift (construct {| po_succeeded := false; po_diagnostics := match e with
    | ProviderOperationError _ message _ diagnostics => message :: diagnostics
    | _ => [exn_detail e]
    end |})).

(** [handle or record.provider_handle] *)
Definition or_handle (a b : option string) : option string := if opt_str_empty a then b else a.

Definition _rollback (record : EnvironmentLifecycleRecord) (provider : EnvironmentProvider W)
    (handle : option string) (failure : LifecycleFailure) (cancelled : bool) : eff W EnvironmentLifecycleRecord :=
  outcome ← settled_outcome (prov_rollback provider handle (elr_transaction_id record));
  '(failure, target, detail) ← lift (
    if negb (po_succeeded outcome) then
      failure ← failure_of (lf_classification failure) (lf_code failure) (lf_message failure) true;
      Ok (failure, "cleanup_required", "rollback could not prove cleanup; reconciliation is required")
    else if cancelled then Ok (failure, "cancelled", "provider rollback completed after cancellation")
    else Ok (failure, "failed", "provider rollback completed after failure"));
  replaced ← lift (construct (with_failure (or_handle handle (elr_provider_handle record)) (Some failure)
    (Some outcome) (elr_diagnostics record ++ po_diagnostics outcome) record));
  _transition replaced target detail.

Definition _fail_with_rollback (record : EnvironmentLifecycleRecord) (provider : EnvironmentProvider W)
    (error : exn) (handle : option string) : eff W EnvironmentLifecycleRecord :=
  match error with
  | LifecycleVerificationError code message =>
      failure ← lift (failure_of "verification" code message false);
      _rollback record provider handle failure false
  | ProviderOperationError code message cleanup_handle diagnostics =>
      '(failure, replaced) ← lift (
        failure ← failure_of "provider" code message false;
        replaced ← construct (with_diagnostics (elr_diagnostics record ++ diagnostics) record);
        Ok (failure, replaced));
      _rollback replaced provider (or_handle cleanup_handle handle) failure false
  | _ =>
      failure ← lift (failure_of "provider" "provider-operation-failed" (exn_detail error) false);
      _rollback record provider handle failure false
  end.

(** *** Realization *)

(** The [try] block runs in the world extended with [current] and [handle]. *)
Definition locals : Type := EnvironmentLifecycleRecord * option string.
Definition outside {A} (m : eff W A) : eff (W * locals) A := fun s =>
  match m s.1 with (r, w') => (r, (w', s.2)) end.
Definition get_current : eff (W * locals) EnvironmentLifecycleRecord := fun s => (Ok s.2.1, s).
Definition set_current (r : EnvironmentLifecycleRecord) : eff (W * locals) unit := fun s =>
  (Ok tt, (s.1, (r, s.2.2))).
Definition set_handle (h : string) : eff (W * locals) unit := fun s => (Ok tt, (s.1, (s.2.1, Some h))).

(** [current = replace(current, ...)] and [current = self._transition(current, ...)] *)
Definition update (f : EnvironmentLifecycleRecord -> EnvironmentLifecycleRecord) : eff (W * locals) unit :=
  current ← get_current; replaced ← lift (construct (f current)); set_current replaced.
Definition advance (state detail : string) : eff (W * locals) unit :=
  current ← get_current; updated ← outside (_transition current state detail); set_current updated.

Definition realize_body (provider : EnvironmentProvider W) (record : EnvironmentLifecycleRecord)
    (provider_plan : ProviderPlan) : eff (W * locals) EnvironmentLifecycleRecord :=
  let recipe := elr_recipe record in
  let transaction_id := elr_transaction_id record in
  acquisition ← outside (prov_acquire provider recipe provider_plan transaction_id);
  _ ← set_handle (pa_handle acquisition);
  _ ← update (with_handle (Some (pa_handle acquisition)));
  _ ← advance "verifying_artifacts" "independent artifact verification started";
  verified ← outside (_verify_artifacts (rec_artifacts recipe) (pa_artifacts acquisition));
  _ ← update (with_verified verified);
  _ ← advance "artifacts_verified" "all acquired artifact bytes match the recipe";
  _ ← advance "constructing" "provider construction started";
  handle ← outside (prov_construct provider recipe acquisition transaction_id);
  _ ← set_handle handle;
  _ ← lift (raise_if (str_empty handle)
              (LifecycleVerificationError "empty-provider-handle" "provider construction returned an empty handle"));
  _ ← update (with_handle (Some handle));
  _ ← advance "constructed" "provider construction completed";
  _ ← advance "verifying_runtime" "runtime identity inspection started";
  runtime ← outside (prov_inspect_runtime provider recipe handle transaction_id);
  _ ← lift (_verify_runtime recipe (elr_provider record) runtime);
  _ ← update (with_runtime runtime);
  _ ← advance "runtime_verified" "runtime identity matches recipe requirements";
  _ ← advance "verifying_smoke" "identity smoke verification started";
  smoke ← outside (prov_smoke_verify provider recipe handle transaction_id);
  _ ← lift (_verify_smoke recipe smoke);
  _ ← update (with_smoke smoke);
  _ ← advance "smoke_verified" "all required non-conformance smoke probes passed";
  _ ← advance "fingerprinting" "verified realized fingerprint derivation started";
  fingerprinted ← try_eff (lift (fingerprint recipe (elr_provider record) verified runtime smoke)) (fun e => match e with
    | ValueError message => lift (Raise (LifecycleVerificationError "fingerprint-canonicalization-failed"
        (if str_empty message then "verified environment fingerprint could not be canonicalized" else message)))
    | _ => lift (Raise e)
    end);
  _ ← update (with_fingerprint fingerprinted);
  current ← get_current;
  outside (_transition current "ready" "artifact, runtime, smoke, and fingerprint verification passed").

(** [try: realize_body except Exception as error: rollback] *)
Definition guarded_realize (provider : EnvironmentProvider W) (record : EnvironmentLifecycleRecord)
    (provider_plan : ProviderPlan) (current : EnvironmentLifecycleRecord) : eff W EnvironmentLifecycleRecord := fun w =>
  match realize_body provider record provider_plan (w, (current, None)) with
  | (Ok ready, (w', _)) => (Ok ready, w')
  | (Raise error, (w', (current, handle))) => _fail_with_rollback current provider error handle w'
  end.

Definition realize (record : EnvironmentLifecycleRecord) : eff W EnvironmentLifecycleRecord :=
  provider_plan ← lift (
    _require_state record ["admitted"] "realize";;
    match elr_plan record, elr_admission record with
    | Some p, Some a =>
        raise_if (negb (ad_admitted a))
          (InvalidLifecycleTransition "realization requires an admitted provider plan");; Ok p
    | _, _ => Raise (InvalidLifecycleTransition "realization requires an admitted provider plan")
    end);
  provider ← lift (registry_get providers (pd_name (elr_provider record)));
  current ← _transition record "acquiring" "provider acquisition started";
  guarded_realize provider record provider_plan current.

(** *** Cancellation, release, diagnosis *)

Definition cancel (record : EnvironmentLifecycleRecord) (reason : string) : eff W EnvironmentLifecycleRecord :=
  _ ← lift (raise_if (str_empty reason) (ValueError "cancellation reason is required"));
  if mem (elr_state record) ["planned"; "admitted"] then
    replaced ← lift (failure ← failure_of "cancelled" "operation-cancelled" reason false;
                     construct (with_admission (elr_admission record) (Some failure) record));
    _transition replaced "cancelled" reason
  else
    _ ← lift (raise_if (negb (mem (elr_state record) MUTATED_STATES))
                (InvalidLifecycleTransition ("cannot cancel environment from " +:+ elr_state record)));
    provider ← lift (registry_get providers (pd_name (elr_provider record)));
    failure ← lift (failure_of "cancelled" "operation-cancelled" reason false);
    _rollback record provider (elr_provider_handle record) failure true.

Definition release (record : EnvironmentLifecycleRecord) : eff W EnvironmentLifecycleRecord :=
  _ ← lift (_require_state record ["ready"] "release");
  provider ← lift (registry_get providers (pd_name (elr_provider record)));
  current ← _transition record "releasing" "provider release started";
  outcome ← settled_outcome (prov_release provider (default "" (elr_provider_handle record)) (elr_transaction_id record));
  if negb (po_succeeded outcome) then
    replaced ← lift (
      failure ← failure_of "provider" "provider-release-failed" (join "; " (po_diagnostics outcome)) true;
      construct (with_failure (elr_provider_handle current) (Some failure) (elr_rollback current)
                   (elr_diagnostics current ++ po_diagnostics outcome) current));
    _transition replaced "release_failed" "provider could not prove safe release"
  else
    replaced ← lift (construct (with_diagnostics (elr_diagnostics current ++ po_diagnostics outcome) current));
    _transition replaced "released" "provider release completed".

Definition diagnose (record : EnvironmentLifecycleRecord) : eff W EnvironmentDiagnosis :=
  provider ← lift (registry_get providers (pd_name (elr_provider record)));
  '(status, provider_diagnostics) ← try_eff
    (diagnosis ← prov_diagnose provider (elr_provider_handle record) (elr_transaction_id record);
     mret (pdg_status diagnosis, pdg_diagnostics diagnosis))
    (fun e => mret ("unknown", ["provider diagnosis failed: " +:+ exn_detail e]));
  let failure_diagnostics := match elr_failure record with
    | Some f => [lf_code f +:+ ": " +:+ lf_message f]
    | None => []
    end in
  lift (construct {| edg_transaction_id := elr_transaction_id record; edg_state := elr_state record;
    edg_provider_name := pd_name (elr_provider record); edg_provider_status := status;
    edg_diagnostics := elr_diagnostics record ++ failure_diagnostics ++ provider_diagnostics;
    edg_failure_code := lf_code <$> elr_failure record |}).
End Manager.
