(* ===== verification/EnvLifecycle.v ===== *)
(** * The lifecycle of an environment as a state machine

    The states and edges an environment may take ([lifecycle_edges]), and the
    invariant every operation of the manager keeps: a record is valid and its
    transitions walk the graph from the start to its state ([on_course]).  The
    specification [body_spec] reasons about the [try] block of [realize]: what
    holds of its local variables when it returns and when it raises.

    The parts after it are about the [try] block of a realization and about its
    verification steps. *)

From S2P Require Export EnvManager.

Definition INITIAL_STATES : list string := ["planned"; "rejected"; "failed"].
(** The states of a realization in progress, in order. *)
Definition REALIZING_STATES : list string :=
  ["acquiring"; "verifying_artifacts"; "artifacts_verified"; "constructing"; "constructed"; "verifying_runtime";
   "runtime_verified"; "verifying_smoke"; "smoke_verified"; "fingerprinting"].
Definition lifecycle_edges : list (string * string) :=
  [("planned", "admitted"); ("planned", "rejected"); ("planned", "cancelled"); ("admitted", "cancelled");
   ("admitted", "acquiring"); ("acquiring", "verifying_artifacts"); ("verifying_artifacts", "artifacts_verified");
   ("artifacts_verified", "constructing"); ("constructing", "constructed"); ("constructed", "verifying_runtime");
   ("verifying_runtime", "runtime_verified"); ("runtime_verified", "verifying_smoke");
   ("verifying_smoke", "smoke_verified"); ("smoke_verified", "fingerprinting"); ("fingerprinting", "ready");
   ("ready", "releasing"); ("releasing", "released"); ("releasing", "release_failed")] ++
  ((fun s => (s, "failed")) <$> REALIZING_STATES) ++
  ((fun s => (s, "cancelled")) <$> MUTATED_STATES) ++ ((fun s => (s, "cleanup_required")) <$> MUTATED_STATES).

Definition allowed (from : option string) (state : string) : Prop :=
  match from with None => state ∈ INITIAL_STATES | Some s => (s, state) ∈ lifecycle_edges end.
#[export] Instance allowed_dec from state : Decision (allowed from state).
Proof. destruct from; cbn; apply _. Defined.

(** The transitions lead from [from] to [state] along the graph. *)
Fixpoint walks (from : option string) (ts : list LifecycleTransition) (state : string) : Prop :=
  match ts with
  | [] => from = Some state
  | t :: ts => lt_from_state t = from /\ allowed from (lt_to_state t) /\ walks (Some (lt_to_state t)) ts state
  end.

Lemma walks_snoc from ts state t :
  walks from ts state -> lt_from_state t = Some state -> allowed (Some state) (lt_to_state t) ->
  walks from (ts ++ [t]) (lt_to_state t).
Proof.
  revert from. induction ts as [|u ts IH]; intros from; cbn [walks app]; [by intros -> -> ?|].
  intros (? & ? & ?) ? ?. auto.
Qed.

Record on_course (r : EnvironmentLifecycleRecord) : Prop := {
  oc_valid : valid r;
  oc_walk : walks None (elr_transitions r) (elr_state r)
}.

(** The identity of an environment is kept, its history only grows. *)
Record follows (r r' : EnvironmentLifecycleRecord) : Prop := {
  fo_transaction : elr_transaction_id r' = elr_transaction_id r;
  fo_recipe : elr_recipe r' = elr_recipe r;
  fo_provider : elr_provider r' = elr_provider r;
  fo_history : elr_transitions r `prefix_of` elr_transitions r'
}.

#[export] Instance follows_preorder : PreOrder follows.
Proof.
  split; [by intros r; split|]. intros r s u [A1 A2 A3 A4] [B1 B2 B3 B4].
  split; [congruence..|]. by etrans.
Qed.

(** The same environment in the same state, with other observations. *)
Record revises (r r' : EnvironmentLifecycleRecord) : Prop := {
  rv_follows : follows r r';
  rv_transitions : elr_transitions r' = elr_transitions r;
  rv_state : elr_state r' = elr_state r
}.

Lemma revises_course r r' : revises r r' -> on_course r -> valid r' -> on_course r'.
Proof. intros [_ Ht Hs] [_ Hw] Hv. split; [done|]. by rewrite Ht, Hs. Qed.

Create HintDb lifecycle.
(** Membership of a literal in a list of literals. *)
Ltac in_strings := apply mem_spec; reflexivity.
Ltac revise := split; [by split|done|done].
Lemma revises_plan p d r : revises r (with_plan p d r).
Proof. revise. Qed.
Lemma revises_admission a f r : revises r (with_admission a f r).
Proof. revise. Qed.
Lemma revises_handle h r : revises r (with_handle h r).
Proof. revise. Qed.
Lemma revises_verified v r : revises r (with_verified v r).
Proof. revise. Qed.
Lemma revises_runtime i r : revises r (with_runtime i r).
Proof. revise. Qed.
Lemma revises_smoke s r : revises r (with_smoke s r).
Proof. revise. Qed.
Lemma revises_fingerprint f r : revises r (with_fingerprint f r).
Proof. revise. Qed.
Lemma revises_failure h f o d r : revises r (with_failure h f o d r).
Proof. revise. Qed.
Lemma revises_diagnostics d r : revises r (with_diagnostics d r).
Proof. revise. Qed.
#[export] Hint Resolve revises_plan revises_admission revises_handle revises_verified revises_runtime revises_smoke
  revises_fingerprint revises_failure revises_diagnostics : lifecycle.

Section Lifecycle.
Context `{PyTables} `{JCS} `{JCSError} `{NFC} `{OSText} {W : Type} `{Clock W} `{EnvironmentIds W} `{Publisher W}.
Context `{ArtifactFiles W} (providers : ProviderRegistry W).

(** ** One transition *)

Lemma transition_ok r state detail w r' w' :
  _transition r state detail w = (Ok r', w') ->
  exists t, r' = with_state state (elr_transitions r ++ [next_transition r state detail t]) r /\ valid r'.
Proof.
  unfold _transition. intros Ht. apply eff_bind_ok in Ht as (t & w1 & _ & Ht).
  apply eff_bind_ok in Ht as ([tr u] & w2 & [Hc _]%lift_ok & Ht). apply eff_bind_ok in Ht as (x & w3 & _ & Ht).
  eff_inv. ok_inv. apply construct_ok in E as [_ ->]. apply construct_ok in E0 as [Hv ->].
  ok_inv. subst. by exists t.
Qed.

Lemma transition_course r state detail w r' w' :
  _transition r state detail w = (Ok r', w') -> on_course r -> allowed (Some (elr_state r)) state ->
  on_course r' /\ follows r r' /\ elr_state r' = state.
Proof.
  intros (t & -> & Hv)%transition_ok [_ Hw] Ha. split_and!; [|split; try done; by eexists|done].
  split; [done|]. by apply (walks_snoc None _ (elr_state r) (next_transition r state detail t)).
Qed.

Lemma initial_ok id recipe provider state failure diagnostics w r w' :
  _initial_record id recipe provider state failure diagnostics w = (Ok r, w') ->
  exists t, r = initial_record id recipe provider state failure diagnostics (initial_transition state t) /\ valid r.
Proof.
  unfold _initial_record. intros Ht. apply eff_bind_ok in Ht as (t & w1 & _ & Ht).
  apply eff_bind_ok in Ht as ([tr u] & w2 & [Hc _]%lift_ok & Ht). apply eff_bind_ok in Ht as (x & w3 & _ & Ht).
  eff_inv. ok_inv. apply construct_ok in E as [_ ->]. apply construct_ok in E0 as [Hv ->].
  ok_inv. subst. by exists t.
Qed.

Lemma initial_course id recipe provider state failure diagnostics w r w' :
  _initial_record id recipe provider state failure diagnostics w = (Ok r, w') -> state ∈ INITIAL_STATES ->
  on_course r /\ elr_state r = state.
Proof. intros (t & -> & Hv)%initial_ok Hs. by split; [split|]. Qed.

(** ** Rollback *)

Lemma rollback_ok r provider handle failure cancelled w r' w' :
  _rollback r provider handle failure cancelled w = (Ok r', w') ->
  exists outcome w1 f revised target detail,
    settled_outcome (prov_rollback provider handle (elr_transaction_id r)) w = (Ok outcome, w1) /\
    revised = with_failure (or_handle handle (elr_provider_handle r)) (Some f) (Some outcome)
                (elr_diagnostics r ++ po_diagnostics outcome) r /\
    valid revised /\ _transition revised target detail w1 = (Ok r', w') /\
    lf_code f = lf_code failure /\ lf_message f = lf_message failure /\
    target = (if po_succeeded outcome then if cancelled then "cancelled" else "failed" else "cleanup_required") /\
    (po_succeeded outcome = true -> f = failure).
Proof.
  unfold _rollback. intros Hr. apply eff_bind_ok in Hr as (outcome & w1 & Ho & Hr).
  apply eff_bind_ok in Hr as ([[f target] detail] & w2 & [Hc ->]%lift_ok & Hr).
  apply eff_bind_ok in Hr as (revised & w3 & [Hv ->]%lift_ok & Ht). apply construct_ok in Hv as [Hv ->].
  exists outcome, w1, f. do 3 eexists. split; [done|]. split; [reflexivity|]. split; [done|]. split; [exact Ht|].
  destruct (po_succeeded outcome); cbn [negb] in Hc.
  - destruct cancelled; injection Hc as <- <- <-; done.
  - unfold failure_of in Hc. apply bind_ok in Hc as (f' & [_ ->]%construct_ok & Hc). by injection Hc as <- <- <-.
Qed.

Lemma rollback_course r provider handle failure cancelled w r' w' :
  _rollback r provider handle failure cancelled w = (Ok r', w') -> on_course r ->
  (elr_state r, if cancelled then "cancelled" else "failed") ∈ lifecycle_edges ->
  (elr_state r, "cleanup_required") ∈ lifecycle_edges ->
  on_course r' /\ follows r r' /\ elr_state r' ∈ ["failed"; "cancelled"; "cleanup_required"].
Proof.
  intros (outcome & w1 & f & revised & target & detail & _ & Hrev & Hv & Ht & _ & _ & Htg & _)%rollback_ok Hc E1 E2.
  assert (revises r revised) as Hre by (rewrite Hrev; apply revises_failure).
  apply transition_course in Ht as (C1 & C2 & C3).
  - split; [done|]. split; [etrans; [apply Hre|done]|]. rewrite C3, Htg.
    destruct (po_succeeded outcome), cancelled; in_strings.
  - by eapply revises_course.
  - cbn. rewrite (rv_state _ _ Hre), Htg. by destruct (po_succeeded outcome).
Qed.

Lemma realizing_edges state : state ∈ REALIZING_STATES ->
  (state, "failed") ∈ lifecycle_edges /\ (state, "cleanup_required") ∈ lifecycle_edges.
Proof.
  revert state. rewrite <- Forall_forall. apply (bool_decide_unpack _). by vm_compute.
Qed.

Lemma fail_course r provider error handle w r' w' :
  _fail_with_rollback r provider error handle w = (Ok r', w') -> on_course r -> elr_state r ∈ REALIZING_STATES ->
  on_course r' /\ follows r r' /\ elr_state r' ∈ ["failed"; "cancelled"; "cleanup_required"].
Proof.
  intros Hf Hc [E1 E2]%realizing_edges. unfold _fail_with_rollback in Hf.
  destruct error; apply eff_bind_ok in Hf as (f & w1 & Hl & Hf); try (by eapply rollback_course).
  destruct f as [f revised]. apply lift_ok in Hl as [Hl _]. ok_inv. subst.
  match goal with Hx : construct (with_diagnostics ?d r) = Ok ?b |- _ => apply construct_ok in Hx as [Hv ->];
    pose proof (revises_diagnostics d r) as Hre end.
  apply rollback_course in Hf as (C1 & C2 & C3); [|by eapply revises_course|done|done].
  split; [done|]. split; [|done]. etrans; [apply Hre|done].
Qed.
End Lifecycle.

(** * Realization: the [try] block and what it leaves behind

    [body_spec P m Q R]: started with local variables in [P], the block [m] ends
    in [Q] when it returns and in [R] when it raises.  [realize_body_spec] shows
    that [realize] walks the states in order, and that whatever raises, the
    handler finds a record in a realizing state; [realize_verified] that a record
    is ready only with everything the recipe asks for observed. *)


Section Specs.
Context {W : Type}.

Definition throws {A} (E : exn -> Prop) (m : eff W A) : Prop := forall w e w', m w = (Raise e, w') -> E e.
Definition result_throws {A} (E : exn -> Prop) (r : result A) : Prop := forall e, r = Raise e -> E e.

Definition body_spec {A} (P : locals -> Prop) (m : eff (W * locals) A) (Q : A -> locals -> Prop)
    (R : exn -> locals -> Prop) : Prop :=
  forall w l, P l -> match m (w, l) with
    | (Ok a, (_, l')) => Q a l'
    | (Raise e, (_, l')) => R e l'
    end.

Lemma spec_bind {A B} P (m : eff (W * locals) A) Q (f : A -> eff (W * locals) B) Q' R :
  body_spec P m Q R -> (forall a, body_spec (Q a) (f a) Q' R) -> body_spec P (x ← m; f x) Q' R.
Proof.
  intros Hm Hf w l Hl. specialize (Hm w l Hl). unfold mbind, eff_bind.
  destruct (m (w, l)) as [[a|e] [w' l']]; [by apply Hf|done].
Qed.

Lemma spec_outside {A} (P : locals -> Prop) (m : eff W A) (R : exn -> locals -> Prop) :
  (forall e l, P l -> (exists w w', m w = (Raise e, w')) -> R e l) -> body_spec P (outside m) (fun _ => P) R.
Proof.
  intros Hm w l Hl. unfold outside. cbn. destruct (m w) as [[a|e] w'] eqn:E; cbn; [done|]. apply Hm; eauto.
Qed.

Lemma spec_lift {A} (P : locals -> Prop) (r : result A) (R : exn -> locals -> Prop) :
  (forall e l, P l -> r = Raise e -> R e l) -> body_spec P (lift r) (fun a l => P l /\ r = Ok a) R.
Proof. intros Hr w l Hl. unfold lift. destruct r; [done|]. by apply Hr. Qed.

Lemma spec_weaken {A} (P P' : locals -> Prop) (m : eff (W * locals) A) (Q Q' : A -> locals -> Prop) R :
  body_spec P m Q R -> (forall l, P' l -> P l) -> (forall a l, Q a l -> Q' a l) -> body_spec P' m Q' R.
Proof.
  intros Hm HP HQ w l Hl. specialize (Hm w l (HP l Hl)). destruct (m (w, l)) as [[a|e] [w' l']]; auto.
Qed.
End Specs.

Section Realize.
Context `{PyTables} `{JCS} `{JCSError} `{NFC} `{OSText} {W : Type} `{Clock W} `{EnvironmentIds W} `{Publisher W}.
Context `{ArtifactFiles W} (providers : ProviderRegistry W).

(** ** Walking through the states *)

Section Walk.
Context (E : exn -> Prop) (provider : EnvironmentProvider W) (record : EnvironmentLifecycleRecord).
Let recipe := elr_recipe record.

(** Every exception in the block is one of [E]. *)
Record body_throws : Prop := {
  bt_transition : forall r state detail, throws E (_transition r state detail);
  bt_construct : forall r : EnvironmentLifecycleRecord, result_throws E (construct r);
  bt_acquire : forall p id, throws E (prov_acquire provider recipe p id);
  bt_construction : forall a id, throws E (prov_construct provider recipe a id);
  bt_runtime : forall h id, throws E (prov_inspect_runtime provider recipe h id);
  bt_smoke : forall h id, throws E (prov_smoke_verify provider recipe h id);
  bt_artifacts : forall obs, throws E (_verify_artifacts (rec_artifacts recipe) obs);
  bt_verify_runtime : forall ri, result_throws E (_verify_runtime recipe (elr_provider record) ri);
  bt_verify_smoke : forall s, result_throws E (_verify_smoke recipe s);
  bt_literal : forall code message, mem code ["empty-provider-handle"; "fingerprint-canonicalization-failed"] = true ->
    str_empty message = false -> E (LifecycleVerificationError code message);
  bt_fingerprint : forall v ri s, result_throws (fun e => E e) (fingerprint recipe (elr_provider record) v ri s)
}.
Context (HE : body_throws).

(** Between two statements of the block. *)
Definition during (l : locals) : Prop :=
  on_course l.1 /\ follows record l.1 /\ elr_state l.1 ∈ REALIZING_STATES.
Definition in_state (state : string) (l : locals) : Prop := during l /\ elr_state l.1 = state.
Definition broken (e : exn) (l : locals) : Prop := E e /\ during l.

Lemma call_spec {A} state (m : eff W A) :
  throws E m -> body_spec (in_state state) (outside m) (fun _ => in_state state) broken.
Proof. intros Hm. apply spec_outside. intros e l [Hd _] (w & w' & He). split; [by eapply Hm|done]. Qed.

Lemma check_spec {A} state (r : result A) :
  result_throws E r -> body_spec (W := W) (in_state state) (lift r) (fun _ => in_state state) broken.
Proof.
  intros Hr. eapply spec_weaken; [apply (spec_lift (in_state state) r broken)|done|by intros a l [? _]].
  intros e l [Hd _] He. split; [by apply Hr|done].
Qed.

Lemma handle_spec state h : body_spec (W := W) (in_state state) (set_handle h) (fun _ => in_state state) broken.
Proof. by intros w [r h'] Hl. Qed.

Lemma update_spec state f :
  (forall r, revises r (f r)) -> body_spec (W := W) (in_state state) (update f) (fun _ => in_state state) broken.
Proof.
  intros Hf w [r h] [(Hc & Hfo & Hst) Hs]. unfold update, get_current, set_current, mbind, eff_bind, lift. cbn.
  destruct (construct (f r)) as [r'|e] eqn:Ec.
  - apply construct_ok in Ec as [Hv ->]. pose proof (Hf r) as Hre. split; [|by cbn; rewrite (rv_state _ _ Hre)].
    split; [by eapply revises_course|]. split; [by etrans; [|apply Hre]|]. cbn. by rewrite (rv_state _ _ Hre).
  - split; [by eapply (bt_construct HE)|done].
Qed.

Lemma advance_spec state next detail :
  allowed (Some state) next -> next ∈ REALIZING_STATES ->
  body_spec (in_state state) (advance next detail) (fun _ => in_state next) broken.
Proof.
  intros Ha Hn w [r h] [(Hc & Hfo & Hst) Hs]. unfold advance, get_current, set_current, mbind, eff_bind, outside. cbn in *.
  destruct (_transition r next detail w) as [[r'|e] w'] eqn:Et.
  - apply transition_course in Et as (C1 & C2 & C3); [|done|by rewrite Hs].
    split; [|done]. split; [done|]. split; [by etrans|]. cbn. by rewrite C3.
  - split; [by eapply (bt_transition HE)|done].
Qed.

Lemma fingerprint_spec state v ri s :
  body_spec (W := W) (in_state state)
    (try_eff (lift (fingerprint recipe (elr_provider record) v ri s)) (fun e => match e with
       | ValueError message => lift (Raise (LifecycleVerificationError "fingerprint-canonicalization-failed"
           (if str_empty message then "verified environment fingerprint could not be canonicalized" else message)))
       | _ => lift (Raise e)
       end)) (fun _ => in_state state) broken.
Proof.
  intros w l [Hd Hs]. unfold try_eff, lift.
  destruct (fingerprint recipe (elr_provider record) v ri s) as [f|e] eqn:Ef; [done|].
  destruct e; split; try done; try (by eapply (bt_fingerprint HE)).
  apply (bt_literal HE); [done|]. by destruct (str_empty msg) eqn:Em.
Qed.

Lemma ready_spec :
  body_spec (in_state "fingerprinting")
    (current ← get_current;
     outside (_transition current "ready" "artifact, runtime, smoke, and fingerprint verification passed"))
    (fun r _ => on_course r /\ follows record r /\ elr_state r = "ready") broken.
Proof.
  intros w [r h] [(Hc & Hfo & Hst) Hs]. unfold get_current, mbind, eff_bind, outside. cbn in *.
  destruct (_transition r "ready" _ w) as [[r'|e] w'] eqn:Et.
  - apply transition_course in Et as (C1 & C2 & C3); [|done|rewrite Hs; by apply (bool_decide_unpack _)].
    split; [done|]. split; [by etrans|done].
  - split; [by eapply (bt_transition HE)|done].
Qed.

Lemma handle_guard h : result_throws E (raise_if (str_empty h)
  (LifecycleVerificationError "empty-provider-handle" "provider construction returned an empty handle")).
Proof. intros e. destruct (str_empty h); [|done]. intros [= <-]. by apply (bt_literal HE). Qed.

Ltac walk := eapply spec_bind; [first
  [ by apply handle_spec
  | apply update_spec; eauto with lifecycle
  | apply advance_spec; [by apply (bool_decide_unpack _)|in_strings]
  | apply call_spec; by apply HE
  | apply check_spec; by apply HE
  | apply check_spec; by apply handle_guard
  | apply fingerprint_spec ] |intros ?; cbv beta].

Lemma realize_body_spec p :
  body_spec (in_state "acquiring") (realize_body provider record p)
    (fun r _ => on_course r /\ follows record r /\ elr_state r = "ready") broken.
Proof.
  unfold realize_body. repeat walk. apply ready_spec.
Qed.

(** The whole [try] statement, as far as its exceptions go to the rollback. *)
Lemma guarded_realize_cases p current w r' w' :
  on_course current -> follows record current -> elr_state current = "acquiring" ->
  guarded_realize provider record p current w = (Ok r', w') ->
  (exists l, realize_body provider record p (w, (current, None)) = (Ok r', (w', l)) /\
     on_course r' /\ follows record r' /\ elr_state r' = "ready") \/
  (exists e w1 r h, realize_body provider record p (w, (current, None)) = (Raise e, (w1, (r, h))) /\
     E e /\ during (r, h) /\ _fail_with_rollback r provider e h w1 = (Ok r', w')).
Proof.
  intros Hc Hf Hs. unfold guarded_realize.
  assert (in_state "acquiring" (current, None)) as Hin by (split; [split_and!; [done|done|cbn; rewrite Hs; in_strings]|done]).
  pose proof (realize_body_spec p w _ Hin) as Hb.
  assert (forall x, realize_body provider record p (w, (current, None)) = x -> match x with
    | (Ok r, (_, _)) => on_course r /\ follows record r /\ elr_state r = "ready"
    | (Raise e, (_, l)) => broken e l
    end) as Hcase by (intros x <-; exact Hb). clear Hb.
  destruct (realize_body provider record p (w, (current, None))) as [[r|e] [w1 [c h]]];
    specialize (Hcase _ eq_refl); cbn in Hcase; intros Hr.
  - injection Hr as <- <-. left. by exists (c, h).
  - right. exists e, w1, c, h. by destruct Hcase.
Qed.
End Walk.

Lemma anything_throws provider record : body_throws (fun _ => True) provider record.
Proof. split; by intros. Qed.

(** ** The operations keep the course *)

Lemma realize_course r w r' w' :
  realize providers r w = (Ok r', w') -> on_course r ->
  on_course r' /\ follows r r' /\ elr_state r' ∈ ["ready"; "failed"; "cancelled"; "cleanup_required"].
Proof.
  unfold realize. intros Hr Hc. apply eff_bind_ok in Hr as (p & w1 & [Hg ->]%lift_ok & Hr).
  apply eff_bind_ok in Hr as (provider & w2 & [Hp ->]%lift_ok & Hr).
  apply eff_bind_ok in Hr as (current & w3 & Ht & Hr). ok_inv. unfold _require_state in *. ok_inv. bool_simp.
  assert (elr_state r = "admitted") as Hst by set_solver.
  apply transition_course in Ht as (C1 & C2 & C3); [|done|rewrite Hst; by apply (bool_decide_unpack _)].
  destruct (guarded_realize_cases (fun _ => True) provider r (anything_throws _ _) p current w3 r' w' C1 C2 C3 Hr)
    as [(l & _ & ? & ? & Hs)|(e & w4 & c & h & _ & _ & (D1 & D2 & D3) & Hf)].
  - split; [done|]. split; [done|]. rewrite Hs. in_strings.
  - apply fail_course in Hf as (F1 & F2 & F3); [|done|done]. split; [done|]. split; [by etrans|].
    by apply elem_of_cons; right.
Qed.

Lemma plan_course recipe name w r w' :
  plan providers recipe name w = (Ok r, w') -> on_course r /\ elr_state r ∈ INITIAL_STATES.
Proof.
  unfold plan. intros Hr. apply eff_bind_ok in Hr as (provider & w1 & _ & Hr).
  apply eff_bind_ok in Hr as (id & w2 & _ & Hr).
  assert (forall s f d v, s ∈ INITIAL_STATES ->
    _initial_record id recipe (prov_descriptor provider) s f d v = (Ok r, w') ->
    on_course r /\ elr_state r ∈ INITIAL_STATES) as Hinit.
  { intros s f d v Hs Hi. by apply initial_course in Hi as [? ->]. }
  destruct (_provider_incompatibility _ _).
  - apply eff_bind_ok in Hr as (f & w3 & _ & Hr). eapply Hinit; [|exact Hr]. in_strings.
  - destruct (checked_plan provider recipe w2) as [[p|e] w3].
    + apply eff_bind_ok in Hr as (r0 & w4 & Hi & [Hc ->]%lift_ok).
      apply initial_course in Hi as [Ho Hs]; [|in_strings]. apply construct_ok in Hc as [Hv ->].
      pose proof (revises_plan (Some p) (pp_diagnostics p) r0) as Hre. split; [by eapply revises_course|].
      rewrite (rv_state _ _ Hre), Hs. in_strings.
    + destruct e; apply eff_bind_ok in Hr as (f & w4 & _ & Hr); (eapply Hinit; [|exact Hr]); in_strings.
Qed.

Lemma admit_course r decision w r' w' :
  admit_ r decision w = (Ok r', w') -> on_course r ->
  on_course r' /\ follows r r' /\ elr_state r' ∈ ["admitted"; "rejected"].
Proof.
  unfold admit_. intros Hr Hc. apply eff_bind_ok in Hr as (u & w1 & [Hs _]%lift_ok & Hr).
  unfold _require_state in Hs. ok_inv. bool_simp. assert (elr_state r = "planned") as Hst by set_solver.
  assert (forall a f s d v, s ∈ ["admitted"; "rejected"] ->
    valid (with_admission a f r) -> _transition (with_admission a f r) s d v = (Ok r', w') ->
    on_course r' /\ follows r r' /\ elr_state r' ∈ ["admitted"; "rejected"]) as Hstep.
  { intros a f s d v Hin Hv Ht. pose proof (revises_admission a f r) as Hre.
    apply transition_course in Ht as (C1 & C2 & C3); [|by eapply revises_course|].
    - split; [done|]. split; [by etrans; [apply Hre|]|]. by rewrite C3.
    - clear Ht. cbn. rewrite Hst. revert s Hin. rewrite <- Forall_forall. by apply (bool_decide_unpack _). }
  destruct (negb _); apply eff_bind_ok in Hr as (r0 & w2 & [Hx _]%lift_ok & Ht).
  - apply bind_ok in Hx as (f & _ & [Hv ->]%construct_ok). eapply Hstep; [|done|exact Ht]. in_strings.
  - apply construct_ok in Hx as [Hv ->]. eapply Hstep; [|done|exact Ht]. in_strings.
Qed.

Lemma mutated_edges state : state ∈ MUTATED_STATES ->
  (state, "cancelled") ∈ lifecycle_edges /\ (state, "cleanup_required") ∈ lifecycle_edges.
Proof. revert state. rewrite <- Forall_forall. apply (bool_decide_unpack _). by vm_compute. Qed.

Lemma cancel_course r reason w r' w' :
  cancel providers r reason w = (Ok r', w') -> on_course r ->
  on_course r' /\ follows r r' /\ elr_state r' ∈ ["failed"; "cancelled"; "cleanup_required"].
Proof.
  unfold cancel. intros Hr Hc. apply eff_bind_ok in Hr as (u & w1 & _ & Hr).
  destruct (mem _ _) eqn:Em.
  - bool_simp. apply eff_bind_ok in Hr as (r0 & w2 & [Hx _]%lift_ok & Ht).
    apply bind_ok in Hx as (f & _ & [Hv ->]%construct_ok).
    pose proof (revises_admission (elr_admission r) (Some f) r) as Hre.
    apply transition_course in Ht as (C1 & C2 & C3); [|by eapply revises_course|].
    + split; [done|]. split; [by etrans; [apply Hre|]|]. rewrite C3. in_strings.
    + cbn. revert Em. generalize (elr_state r). rewrite <- Forall_forall. by apply (bool_decide_unpack _).
  - apply eff_bind_ok in Hr as (u2 & w2 & [Hg _]%lift_ok & Hr). ok_inv. bool_simp.
    apply eff_bind_ok in Hr as (provider & w3 & _ & Hr). apply eff_bind_ok in Hr as (f & w4 & _ & Hr).
    eapply rollback_course; [exact Hr|done| |]; by apply mutated_edges.
Qed.

Lemma release_course r w r' w' :
  release providers r w = (Ok r', w') -> on_course r ->
  on_course r' /\ follows r r' /\ elr_state r' ∈ ["released"; "release_failed"].
Proof.
  unfold release. intros Hr Hc. apply eff_bind_ok in Hr as (u & w1 & [Hs _]%lift_ok & Hr).
  unfold _require_state in Hs. ok_inv. bool_simp. assert (elr_state r = "ready") as Hst by set_solver.
  apply eff_bind_ok in Hr as (provider & w2 & _ & Hr). apply eff_bind_ok in Hr as (cur & w3 & Ht & Hr).
  apply transition_course in Ht as (C1 & C2 & C3); [|done|rewrite Hst; by apply (bool_decide_unpack _)].
  apply eff_bind_ok in Hr as (o & w4 & _ & Hr).
  assert (forall h f ob d s text v, s ∈ ["released"; "release_failed"] ->
    valid (with_failure h f ob d cur) -> _transition (with_failure h f ob d cur) s text v = (Ok r', w') ->
    on_course r' /\ follows r r' /\ elr_state r' ∈ ["released"; "release_failed"]) as Hstep.
  { intros h f ob d s text v Hin Hv Ht. pose proof (revises_failure h f ob d cur) as Hre.
    apply transition_course in Ht as (D1 & D2 & D3); [|by eapply revises_course|].
    - split; [done|]. split; [etrans; [exact C2|]; by etrans; [apply Hre|]|]. by rewrite D3.
    - clear Ht. cbn. rewrite C3. revert s Hin. rewrite <- Forall_forall. by apply (bool_decide_unpack _). }
  destruct (negb _); apply eff_bind_ok in Hr as (r0 & w5 & [Hx _]%lift_ok & Ht).
  - apply bind_ok in Hx as (f & _ & [Hv ->]%construct_ok). eapply Hstep; [|done|exact Ht]. in_strings.
  - apply construct_ok in Hx as [Hv ->]. eapply Hstep; [|exact Hv|exact Ht]. in_strings.
Qed.
End Realize.

(** * What the verification steps establish

    Each check of a realization that returns: the facts, probes and artifact
    bytes that were observed. *)


Lemma elem_of_difference_list a b k : k ∈ difference a b <-> k ∈ a /\ k ∉ b.
Proof. unfold difference. by rewrite elem_of_sorted_set, elem_of_lfilter, negb_true_iff, mem_false. Qed.

Lemma difference_nil a b : difference a b = [] <-> a ⊆ b.
Proof.
  split.
  - intros Hd k Hk. destruct (decide (k ∈ b)) as [|Hn]; [done|].
    assert (k ∈ difference a b) as Hin by (by apply elem_of_difference_list).
    rewrite Hd in Hin. by apply elem_of_nil in Hin.
  - intros Hs. destruct (difference a b) as [|k l] eqn:E; [done|].
    assert (k ∈ difference a b) as Hin by (rewrite E; left).
    apply elem_of_difference_list in Hin as [Ha Hb]. by apply Hs in Ha.
Qed.

Lemma sorted_strings_nil l : sorted_strings l = [] -> l = [].
Proof. intros Hs. apply Permutation_nil. rewrite <- Hs. unfold sorted_strings. by rewrite sorted_by_perm. Qed.

Lemma sorted_set_nil l : sorted_set l = [] -> l = [].
Proof.
  intros Hs. destruct l as [|k l]; [done|]. assert (k ∈ sorted_set (k :: l)) as Hin by (rewrite elem_of_sorted_set; left).
  rewrite Hs in Hin. by apply elem_of_nil in Hin.
Qed.

(** ** Facts and configuration *)

Lemma verify_named_values_ok label expected actual u :
  NoDup (nv_name <$> expected) -> _verify_named_values label expected actual = Ok u ->
  NoDup (nv_name <$> actual) /\ expected ⊆ actual.
Proof.
  intros Hnd Hv. unfold _verify_named_values in Hv. ok_inv. bool_simp. split; [done|].
  intros v Hin.
  match goal with Hm : difference _ _ = [] |- _ => apply difference_nil in Hm; rename Hm into Hmiss end.
  match goal with Hm : sorted_set _ = [] |- _ => apply sorted_set_nil in Hm; rename Hm into Hwrong end.
  assert (nv_name v ∈ nv_name <$> actual) as (a & Hn & Ha)%list_elem_of_fmap
    by (by apply Hmiss, list_elem_of_fmap_2).
  destruct (String.eqb (nv_value v) (nv_value a)) eqn:Eq.
  - bool_simp. destruct v, a; cbn in *; by subst.
  - exfalso. apply (not_elem_of_nil (nv_name v)). rewrite <- Hwrong, elem_of_lfilter. split; [by apply list_elem_of_fmap_2|].
    rewrite (dict_of_lookup nv_name expected v), Hn, (dict_of_lookup nv_name actual a) by done. by rewrite Eq.
Qed.

Lemma verify_runtime_ok recipe provider runtime u :
  valid recipe -> _verify_runtime recipe provider runtime = Ok u ->
  ri_strategy runtime = rec_strategy recipe /\ ri_strategy runtime = pd_strategy provider /\
  ri_provider_implementation_digest runtime = pd_implementation_digest provider /\
  ri_isolation_policy_digest runtime = rec_isolation_policy_digest recipe /\
  ri_network_policy runtime = rec_network_policy recipe /\
  rec_expected_runtime_facts recipe ⊆ ri_facts runtime /\
  rec_expected_configuration recipe ⊆ ri_relevant_configuration runtime.
Proof.
  intros Hr Hv. unfold valid, post_init, EnvironmentRecipe_post_init, Env._require_unique, require_unique in Hr. ok_inv.
  unfold _verify_runtime in Hv. ok_inv. bool_simp.
  repeat match goal with Hn : _verify_named_values _ _ _ = Ok _ |- _ => apply verify_named_values_ok in Hn as [_ ?]; [|done] end.
  done.
Qed.

(** ** Smoke probes *)

Lemma verify_smoke_ok recipe observations u :
  _verify_smoke recipe observations = Ok u ->
  NoDup (so_probe_id <$> observations) /\
  forall p, p ∈ rec_smoke_probe_ids recipe -> exists o, o ∈ observations /\ so_probe_id o = p /\ so_passed o = true.
Proof.
  intros Hv. unfold _verify_smoke in Hv. ok_inv. bool_simp. split; [done|]. intros p Hp.
  match goal with Hm : difference _ _ = [] |- _ => apply difference_nil in Hm; rename Hm into Hmiss end.
  match goal with Hm : sorted_strings _ = [] |- _ => apply sorted_strings_nil in Hm; rename Hm into Hfail end.
  apply Hmiss in Hp as Ho. apply list_elem_of_fmap in Ho as (o & -> & Ho). exists o. split; [done|]. split; [done|].
  destruct (so_passed o) eqn:Es; [done|]. exfalso. apply (not_elem_of_nil (so_probe_id o)).
  rewrite <- Hfail, elem_of_lfilter. split; [done|]. rewrite (dict_of_lookup so_probe_id observations o) by done. by rewrite Es.
Qed.

(** ** Artifact bytes *)

Section Artifacts.
Context `{OSText} {W : Type} `{ArtifactFiles W}.

(** Reading the open file to its end gives these bytes. *)
Inductive reads_to_end (fd : Z) : string -> W -> W -> Prop :=
| reads_end w w' : art_read fd (1024 * 1024) w = (Ok "", w') -> reads_to_end fd "" w w'
| reads_more chunk rest w w1 w' :
    art_read fd (1024 * 1024) w = (Ok chunk, w1) -> str_empty chunk = false ->
    reads_to_end fd rest w1 w' -> reads_to_end fd (chunk +:+ rest) w w'.

Lemma str_len_positive s : str_empty s = false -> 0 < str_len s.
Proof. destruct s; [done|]. unfold str_len. cbn. lia. Qed.

Lemma read_blocks_ok turns fd expected content w digest size w' :
  read_blocks turns fd expected (str_len content) content w = (Ok (digest, size), w') -> size <= expected ->
  exists rest, reads_to_end fd rest w w' /\ size = str_len (content +:+ rest) /\ digest = sha256 (content +:+ rest).
Proof.
  revert content w. induction turns as [|turns IH]; intros content w; cbn [read_blocks]; [done|].
  intros Hr Hsize. apply eff_bind_ok in Hr as (chunk & w1 & Hread & Hr). destruct (str_empty chunk) eqn:Ee.
  - eff_inv. apply String.eqb_eq in Ee as ->. exists "". rewrite str_app_nil_r. split; [by constructor|done].
  - destruct (expected <? str_len content + str_len chunk) eqn:El; [eff_inv; lia|]. rewrite <- str_len_app in Hr.
    apply IH in Hr as (rest & Hrest & -> & ->); [|done]. exists (chunk +:+ rest). rewrite !str_app_assoc.
    split; [by eapply reads_more|done].
Qed.

(** The reading loop never runs out of turns. *)
Lemma read_blocks_turns turns fd expected size content w w' :
  (forall fd n v v', art_read fd n v <> (Raise out_of_fuel, v')) ->
  0 <= size <= expected -> expected - size < Z.of_nat turns ->
  read_blocks turns fd expected size content w <> (Raise out_of_fuel, w').
Proof.
  intros Hnever. revert size content w. induction turns as [|turns IH]; intros size content w Hs Ht; [lia|].
  cbn [read_blocks]. unfold mbind, eff_bind. destruct (art_read fd (1024 * 1024) w) as [[chunk|e] w1] eqn:Er.
  - destruct (str_empty chunk) eqn:Ee; [done|]. destruct (expected <? size + str_len chunk) eqn:El; [done|].
    apply str_len_positive in Ee. apply IH; lia.
  - intros [= -> ->]. by apply Hnever in Er.
Qed.

Lemma artifact_errors_ok {A} name (m : eff W A) w a w' :
  artifact_errors name m w = (Ok a, w') -> m w = (Ok a, w').
Proof. unfold artifact_errors, try_eff. destruct (m w) as [[x|e] w1]; [done|]. by destruct e. Qed.

Lemma close_on_error_ok {A} fd (m : eff W A) w a w' : close_on_error fd m w = (Ok a, w') -> m w = (Ok a, w').
Proof.
  unfold close_on_error, try_eff. destruct (m w) as [[x|e] w1]; [done|]. unfold mbind, eff_bind, lift.
  by destruct (art_close fd w1) as [[]].
Qed.

Lemma finally_ok {A} (m : eff W A) f w a w' :
  finally m f w = (Ok a, w') -> exists w1 u, m w = (Ok a, w1) /\ f w1 = (Ok u, w').
Proof.
  unfold finally. destruct (m w) as [r w1]. destruct (f w1) as [[u|e] w2] eqn:Ef; [|done]. intros [= -> ->]. eauto.
Qed.

(** A digest of the expected size is that of the whole file, which was regular
    and was the same file when it was looked at and when it was opened. *)
Lemma hash_regular_ok name p expected w digest w' :
  _hash_regular_artifact name p expected w = (Ok (digest, expected), w') ->
  exists before fd opened w1 w2 w3 w4 content,
    art_lstat p w = (Ok before, w1) /\ is_regular before = true /\ art_open p w1 = (Ok fd, w2) /\
    art_fstat fd w2 = (Ok opened, w3) /\ is_regular opened = true /\ identity before = identity opened /\
    reads_to_end fd content w3 w4 /\ str_len content = expected /\ digest = sha256 content.
Proof.
  unfold _hash_regular_artifact. intros Hh. apply eff_bind_ok in Hh as ([before fd] & w2 & Ha & Hh).
  apply artifact_errors_ok in Ha. apply eff_bind_ok in Ha as (b & w1 & Hl & Ha).
  apply eff_bind_ok in Ha as (u & w1' & [Hreg ->]%lift_ok & Ha). apply eff_bind_ok in Ha as (fd' & w2' & Hop & Ha).
  unfold mret, eff_ret in Ha. injection Ha as -> -> ->.
  apply eff_bind_ok in Hh as (opened & w3 & Ho & Hh). apply close_on_error_ok, artifact_errors_ok in Ho.
  apply eff_bind_ok in Ho as (o & w3' & Hf & Ho). apply eff_bind_ok in Ho as (u2 & w3'' & [Hid ->]%lift_ok & Ho).
  unfold mret, eff_ret in Ho. injection Ho as -> ->. ok_inv. bool_simp.
  destruct (fst_size opened =? expected) eqn:Es; cbn [negb] in Hh.
  - apply artifact_errors_ok, finally_ok in Hh as (w4 & u3 & Hr & _).
    apply (read_blocks_ok _ _ _ "") in Hr as (content & Hc & Hsz & ->); [|lia].
    exists before, fd, opened, w1, w2, w3, w4, content. done.
  - apply finally_ok in Hh as (w4 & u3 & Hr & _). 
    apply (f_equal (fun r => match r.1 with Ok (_, z) => z | _ => expected end)) in Hr.
    cbn -[sha256] in Hr. lia.
Qed.

Lemma map_eff_ok {A B} (f : A -> eff W B) l w ys w' :
  map_eff f l w = (Ok ys, w') -> Forall2 (fun x y => exists v v', f x v = (Ok y, v')) l ys.
Proof.
  revert w ys. induction l as [|x l IH]; intros w ys; cbn [map_eff]; intros Hm.
  - unfold mret, eff_ret in Hm. injection Hm as <- _. constructor.
  - apply eff_bind_ok in Hm as (y & w1 & Hy & Hm). apply eff_bind_ok in Hm as (zs & w2 & Hz & Hm).
    unfold mret, eff_ret in Hm. injection Hm as <- <-.
    constructor; [by exists w, w1|by eapply IH].
Qed.

(** The bytes of an observed artifact were read, and are those of the recipe. *)
Definition artifact_proven (requirement : ArtifactRequirement) (observation : ArtifactObservation) : Prop :=
  exists before fd opened w0 w1 w2 w3 w4 content,
    art_lstat (ao_path observation) w0 = (Ok before, w1) /\ is_regular before = true /\
    art_open (ao_path observation) w1 = (Ok fd, w2) /\ art_fstat fd w2 = (Ok opened, w3) /\
    is_regular opened = true /\ identity before = identity opened /\ reads_to_end fd content w3 w4 /\
    str_len content = areq_size_bytes requirement /\ sha256 content = areq_sha256 requirement.

Definition verified_of (requirement : ArtifactRequirement) : VerifiedArtifact :=
  {| va_name := areq_name requirement; va_sha256 := areq_sha256 requirement;
     va_size_bytes := areq_size_bytes requirement; va_media_type := areq_media_type requirement |}.

Lemma verify_artifact_ok requirement observation w v w' :
  verify_artifact requirement observation w = (Ok v, w') ->
  v = verified_of requirement /\ artifact_proven requirement observation.
Proof.
  unfold verify_artifact. intros Hv. apply eff_bind_ok in Hv as ([digest size] & w1 & Hh & [Hl _]%lift_ok).
  ok_inv. bool_simp. apply construct_ok in Hl as [_ ->]. apply Z.eqb_eq in H1. subst size digest. split; [done|].
  apply hash_regular_ok in Hh as (b & fd & o & v1 & v2 & v3 & v4 & content & ? & ? & ? & ? & ? & ? & ? & ? & ?).
  by exists b, fd, o, w, v1, v2, v3, v4, content.
Qed.

Lemma verify_artifacts_ok requirements observations w vs w' :
  NoDup (areq_name <$> requirements) ->
  _verify_artifacts requirements observations w = (Ok vs, w') ->
  vs ≡ₚ verified_of <$> requirements /\ areq_name <$> requirements ≡ₚ ao_name <$> observations /\
  forall q, q ∈ requirements -> exists o, o ∈ observations /\ ao_name o = areq_name q /\ artifact_proven q o.
Proof.
  intros Hnd Hv. unfold _verify_artifacts in Hv. apply eff_bind_ok in Hv as (u & w1 & [Hg ->]%lift_ok & Hm).
  ok_inv. bool_simp. repeat match goal with Hd : difference _ _ = [] |- _ => apply difference_nil in Hd end.
  apply map_eff_ok in Hm. set (names := sorted_set (areq_name <$> requirements)) in *.
  assert (forall k, k ∈ names <-> k ∈ areq_name <$> requirements) as Hnames by (intros; apply elem_of_sorted_set).
  assert (Forall2 (fun x y => exists q o, q ∈ requirements /\ o ∈ observations /\ areq_name q = x /\ ao_name o = x /\
    y = verified_of q /\ artifact_proven q o) names vs) as Hall.
  { eapply Forall2_impl; [exact Hm|]. cbn. intros x y (v & v' & Hx).
    destruct (dict_of areq_name requirements !! x) as [q|] eqn:Eq; [|done].
    destruct (dict_of ao_name observations !! x) as [o|] eqn:Eo; [|done].
    apply dict_of_lookup_elem in Eq as [? ?], Eo as [? ?]. apply verify_artifact_ok in Hx as [-> ?]. by exists q, o. }
  assert (va_name <$> vs = names) as Hvn.
  { clear Hm Hnames. induction Hall as [|x y xs ys (q & o & _ & _ & Hq & _ & -> & _) _ IH]; [done|].
    rewrite fmap_cons, IH. cbn. by rewrite Hq. }
  assert (forall q, q ∈ requirements -> verified_of q ∈ vs /\
    exists o, o ∈ observations /\ ao_name o = areq_name q /\ artifact_proven q o) as Hin.
  { intros q Hq. assert (areq_name q ∈ names) as (i & Hi)%list_elem_of_lookup by (by apply Hnames, list_elem_of_fmap_2).
    destruct (Forall2_lookup_l _ _ _ _ _ Hall Hi) as (y & Hy & q' & o & Hq' & Ho & En & Eo & -> & Hp).
    apply list_elem_of_lookup_2 in Hy.
    pose proof (dict_of_lookup areq_name requirements q Hnd Hq) as D1.
    pose proof (dict_of_lookup areq_name requirements q' Hnd Hq') as D2. rewrite En in D2.
    assert (q' = q) as -> by congruence. split; [done|]. by exists o. }
  split_and!; [|by apply NoDup_Permutation; [| |split; auto]|intros q Hq; by apply Hin].
  apply NoDup_Permutation.
  - apply (NoDup_fmap_1 va_name). rewrite Hvn. apply NoDup_sorted_set.
  - apply (NoDup_fmap_1 va_name). by rewrite <- list_fmap_compose.
  - intros v. rewrite list_elem_of_fmap. split.
    + intros (i & Hi)%list_elem_of_lookup. destruct (Forall2_lookup_r _ _ _ _ _ Hall Hi) as (x & _ & q & o & Hq & _ & _ & _ & -> & _).
      by exists q.
    + intros (q & -> & Hq). by apply Hin.
Qed.
End Artifacts.
