(* ===== verification/EnvTotal.v ===== *)
(** * How a realization ends

    Ready, with the evidence for it ([realize_body_ok]), or rolled back
    ([fail_rolled]).

    The second part shows that it always settles. *)

From S2P Require Export EnvLifecycle.

Section Observed.
Context `{PyTables} `{JCS} `{JCSError} `{NFC} `{OSText} {W : Type} `{Clock W} `{EnvironmentIds W} `{Publisher W}.
Context `{ArtifactFiles W} (providers : ProviderRegistry W).

Lemma update_ok f (w : W) l u s : update f (w, l) = (Ok u, s) -> s = (w, (f l.1, l.2)).
Proof.
  unfold update, get_current, set_current, mbind, eff_bind, lift. cbn. destruct (construct (f l.1)) eqn:E; [|done].
  apply construct_ok in E as [_ ->]. by intros [= _ <-].
Qed.

Lemma advance_ok state detail (w : W) l u s :
  advance state detail (w, l) = (Ok u, s) ->
  exists w1 ts, s = (w1, (with_state state ts l.1, l.2)).
Proof.
  unfold advance, get_current, set_current, mbind, eff_bind, outside. cbn.
  destruct (_transition l.1 state detail w) as [[r|e] w1] eqn:E; [|done]. intros [= _ <-].
  apply transition_ok in E as (t & -> & _). by do 2 eexists.
Qed.

Lemma outside_ok {A} (m : eff W A) (w : W) l a s :
  outside m (w, l) = (Ok a, s) -> exists w1, m w = (Ok a, w1) /\ s = (w1, l).
Proof. unfold outside. cbn. destruct (m w) as [r w1]. intros [= -> <-]. eauto. Qed.

Lemma set_handle_ok h (w : W) l u s : set_handle h (w, l) = (Ok u, s) -> s = (w, (l.1, Some h)).
Proof. by intros [= _ <-]. Qed.

(** Step over the statements of the block, keeping the local variables explicit. *)
Ltac body_step Hr := apply eff_bind_ok in Hr as (? & ? & ?Hm & Hr); cbv beta in Hr;
  match goal with
  | Hm : set_handle _ _ = (Ok _, _) |- _ => apply set_handle_ok in Hm; subst
  | Hm : update _ _ = (Ok _, _) |- _ => apply update_ok in Hm; subst
  | Hm : advance _ _ _ = (Ok _, _) |- _ => apply advance_ok in Hm as (? & ? & ->)
  | Hm : outside _ _ = (Ok _, _) |- _ => apply outside_ok in Hm as (? & ?Hcall & ->)
  | Hm : lift _ _ = (Ok _, _) |- _ => apply lift_ok in Hm as [?Hcheck ->]
  | _ => idtac
  end; cbn [fst snd] in Hr.

(** What a realization that returned has observed. *)
Record evidence (record r : EnvironmentLifecycleRecord) : Prop := {
  ev_artifacts : exists acquisition v v', _verify_artifacts (rec_artifacts (elr_recipe record))
    (pa_artifacts acquisition) v = (Ok (elr_verified_artifacts r), v');
  ev_runtime : exists runtime f, elr_runtime_identity r = Some runtime /\
    _verify_runtime (elr_recipe record) (elr_provider record) runtime = Ok tt /\
    fingerprint (elr_recipe record) (elr_provider record) (elr_verified_artifacts r) runtime
      (elr_smoke_observations r) = Ok f /\
    elr_verification_digest r = Some (fr_verification_digest f) /\
    elr_environment_fingerprint_id r = Some (fr_environment_fingerprint_id f);
  ev_smoke : _verify_smoke (elr_recipe record) (elr_smoke_observations r) = Ok tt;
  ev_state : elr_state r = "ready"
}.

Lemma fingerprint_caught (m : result FingerprintResult) (l : W * locals) f l' :
  try_eff (lift m) (fun e => match e with
    | ValueError message => lift (Raise (LifecycleVerificationError "fingerprint-canonicalization-failed"
        (if str_empty message then "verified environment fingerprint could not be canonicalized" else message)))
    | _ => lift (Raise e)
    end) l = (Ok f, l') -> m = Ok f /\ l' = l.
Proof. unfold try_eff, lift. destruct m as [x|e]; [by intros [= -> <-]|]. by destruct e. Qed.

Lemma realize_body_ok provider record p w current r s :
  realize_body provider record p (w, (current, None)) = (Ok r, s) -> evidence record r.
Proof.
  unfold realize_body. intros Hr. do 25 (body_step Hr).
  match goal with Hf : try_eff _ _ _ = (Ok _, _) |- _ => apply fingerprint_caught in Hf as [Hf ->] end.
  body_step Hr. apply eff_bind_ok in Hr as (c & s1 & Hc & Hr). unfold get_current in Hc. injection Hc as <- <-.
  apply outside_ok in Hr as (w1 & Ht & ->). apply transition_ok in Ht as (t & -> & _).
  repeat match goal with u : unit |- _ => destruct u end. split; cbn [with_state with_fingerprint with_smoke with_runtime
    with_verified with_handle with_observed elr_verified_artifacts elr_runtime_identity elr_smoke_observations
    elr_verification_digest elr_environment_fingerprint_id elr_state]; [by do 3 eexists| |done|done].
  do 2 eexists. split_and!; done.
Qed.

(** A failed realization was rolled back, and its state says how that went. *)
Record rolled_back (provider : EnvironmentProvider W) (id : string) (cancelled : bool) (r : EnvironmentLifecycleRecord)
    : Prop := {
  rb_call : exists handle outcome v v', settled_outcome (prov_rollback provider handle id) v = (Ok outcome, v') /\
    elr_rollback r = Some outcome /\
    elr_state r = (if po_succeeded outcome then if cancelled then "cancelled" else "failed" else "cleanup_required");
  rb_failure : is_some (elr_failure r) = true
}.

Lemma rollback_rolled r provider handle failure cancelled w r' w' :
  _rollback r provider handle failure cancelled w = (Ok r', w') ->
  rolled_back provider (elr_transaction_id r) cancelled r'.
Proof.
  intros (outcome & w1 & f & revised & target & detail & Hcall & -> & _ & Ht & _ & _ & Htg & _)%rollback_ok.
  apply transition_ok in Ht as (t & -> & _). split; [|done]. by exists handle, outcome, w, w1.
Qed.

Lemma fail_rolled r provider error handle w r' w' :
  _fail_with_rollback r provider error handle w = (Ok r', w') ->
  rolled_back provider (elr_transaction_id r) false r'.
Proof.
  unfold _fail_with_rollback. intros Hf.
  destruct error; apply eff_bind_ok in Hf as (f & w1 & Hl & Hf); try (by eapply rollback_rolled).
  destruct f as [f revised]. apply lift_ok in Hl as [Hl _]. apply bind_ok in Hl as (f' & _ & Hl).
  apply bind_ok in Hl as (r0 & Hv & Hl). apply construct_ok in Hv as [_ ->]. injection Hl as -> <-.
  by apply rollback_rolled in Hf.
Qed.

Lemma realize_cases r w r' w' :
  realize providers r w = (Ok r', w') ->
  evidence r r' \/ exists provider id, registry_get providers (pd_name (elr_provider r)) = Ok provider /\
    rolled_back provider id false r'.
Proof.
  unfold realize. intros Hr. apply eff_bind_ok in Hr as (p & w1 & _ & Hr).
  apply eff_bind_ok in Hr as (provider & w2 & [Hp _]%lift_ok & Hr).
  apply eff_bind_ok in Hr as (current & w3 & _ & Hr). unfold guarded_realize in Hr.
  destruct (realize_body provider r p (w3, (current, None))) as [[x|e] [w4 [c h]]] eqn:Eb.
  - injection Hr as -> _. left. by eapply realize_body_ok.
  - right. exists provider, (elr_transaction_id c). split; [done|]. by eapply fail_rolled.
Qed.
End Observed.

(** * Realization always settles

    The exceptions the manager can turn into a failure record ([lawful_exn]), the
    calculus that shows every step raises only those, and the transitions that
    always succeed. *)


(** An exception with a class name; a verification or provider error with a token
    as code and a message, as their constructors demand. *)
Definition lawful_exn (e : exn) : Prop :=
  match e with
  | LifecycleVerificationError code message => fullmatch TOKEN_PATTERN code = true /\ str_empty message = false
  | ProviderOperationError code message _ _ => fullmatch TOKEN_PATTERN code = true /\ str_empty message = false
  | OSError cls _ | OtherException cls _ => str_empty cls = false
  | _ => True
  end.

Section Raising.
Context {E : exn -> Prop}.

Lemma rt_ok {A} (a : A) : result_throws E (Ok a).
Proof. by intros e. Qed.
Lemma rt_raise {A} e : E e -> result_throws E (Raise (A := A) e).
Proof. by intros He e' [= <-]. Qed.
Lemma rt_raise_if c e : E e -> result_throws E (raise_if c e).
Proof. intros He. destruct c; [by apply rt_raise|apply rt_ok]. Qed.
Lemma rt_bind {A B} (m : result A) (f : A -> result B) :
  result_throws E m -> (forall a, result_throws E (f a)) -> result_throws E (x ← m; f x).
Proof. intros Hm Hf e. destruct m as [a|e']; cbn; [apply Hf|]. intros [= <-]. by apply Hm. Qed.
Lemma rt_for_each {A} (l : list A) f : (forall x, result_throws E (f x)) -> result_throws E (for_each l f).
Proof.
  intros Hf. induction l as [|x l IH]; [apply rt_ok|]. apply (rt_bind (f x)); [apply Hf|]. intros _. exact IH.
Qed.
Lemma rt_map_result {A B} (f : A -> result B) l : (forall x, result_throws E (f x)) -> result_throws E (map_result f l).
Proof.
  intros Hf. induction l as [|x l IH]; [apply rt_ok|]. cbn [map_result]. apply rt_bind; [apply Hf|]. intros y.
  apply rt_bind; [exact IH|]. intros ys. apply rt_ok.
Qed.

Context {W : Type}.
Lemma th_lift {A} (r : result A) : result_throws E r -> throws (W := W) E (lift r).
Proof. intros Hr w e w' [= Hre _]. by apply Hr. Qed.
Lemma th_ret {A} (a : A) : throws (W := W) E (mret a).
Proof. by intros w e w'. Qed.
Lemma th_bind {A B} (m : eff W A) (f : A -> eff W B) :
  throws E m -> (forall a, throws E (f a)) -> throws E (x ← m; f x).
Proof.
  intros Hm Hf w e w'. unfold mbind, eff_bind. destruct (m w) as [[a|e'] w1] eqn:Em; [apply Hf|].
  intros [= <- <-]. by eapply Hm.
Qed.
Lemma th_try {A} E' (m : eff W A) h :
  throws E' m -> (forall e, E' e -> throws E (h e)) -> throws E (try_eff m h).
Proof.
  intros Hm Hh w e w'. unfold try_eff. destruct (m w) as [[a|e'] w1] eqn:Em; [done|]. apply Hh. by eapply Hm.
Qed.
Lemma th_finally {A} (m : eff W A) f : throws E m -> throws E f -> throws E (finally m f).
Proof.
  intros Hm Hf w e w'. unfold finally. destruct (m w) as [r w1] eqn:Em. destruct (f w1) as [[u|e'] w2] eqn:Ef.
  - intros [= -> ->]. by eapply Hm.
  - intros [= <- <-]. by eapply Hf.
Qed.
End Raising.

(** Show that a validator raises only exceptions of a class that computes. *)
Ltac rt_step := match goal with
  | |- result_throws _ (Ok _) => apply rt_ok
  | |- result_throws _ (Raise _) => apply rt_raise
  | |- result_throws _ (raise_if _ _) => apply rt_raise_if
  | |- result_throws _ (mbind _ _) => apply rt_bind; [|intros ?; cbv beta]
  | |- result_throws _ (for_each _ _) => apply rt_for_each; intros ?; cbv beta
  | |- result_throws _ (map_result _ _) => apply rt_map_result; intros ?; cbv beta
  | |- result_throws _ (match ?x with _ => _ end) => destruct x
  | |- lawful_exn _ => first [exact I | by vm_compute]
  end.

Lemma rt_unique name l : result_throws lawful_exn (Env._require_unique name l).
Proof. unfold Env._require_unique, require_unique. repeat rt_step. Qed.
Lemma rt_token name v : result_throws lawful_exn (Env._require_token name v).
Proof. unfold Env._require_token, require_token. repeat rt_step. Qed.
Lemma rt_sha name v : result_throws lawful_exn (Env._require_sha256 name v).
Proof. unfold Env._require_sha256, require_sha256. repeat rt_step. Qed.
Lemma rt_timestamp v : result_throws lawful_exn (require_timestamp v).
Proof. unfold require_timestamp. repeat rt_step. Qed.
Lemma rt_failure classification code message cleanup :
  result_throws lawful_exn (failure_of classification code message cleanup).
Proof. unfold failure_of, construct, post_init, LifecycleFailure_post_init. repeat first [apply rt_token|rt_step]. Qed.

Lemma rt_record (r : EnvironmentLifecycleRecord) : result_throws lawful_exn (construct r).
Proof.
  unfold construct, post_init, EnvironmentLifecycleRecord_post_init, ready_guards, Env._require_rcid.
  repeat first [apply rt_token|apply rt_sha|apply rt_unique|rt_step].
Qed.
Lemma rt_transition (t : LifecycleTransition) : result_throws lawful_exn (construct t).
Proof. unfold construct, post_init, LifecycleTransition_post_init. repeat first [apply rt_timestamp|rt_step]. Qed.
Lemma rt_verified (v : VerifiedArtifact) : result_throws lawful_exn (construct v).
Proof.
  unfold construct, post_init, VerifiedArtifact_post_init, Env._require_nonnegative_safe_integer.
  repeat first [apply rt_token|apply rt_sha|rt_step].
Qed.

Lemma rt_named label expected actual :
  fullmatch TOKEN_PATTERN (label +:+ "-identity-collision") = true ->
  fullmatch TOKEN_PATTERN (label +:+ "-identity-mismatch") = true -> str_empty label = false ->
  result_throws lawful_exn (_verify_named_values label expected actual).
Proof.
  intros H1 H2 H3. unfold _verify_named_values. repeat (rt_step || (split; [done|])).
  by destruct label.
Qed.

Lemma rt_runtime recipe provider runtime : result_throws lawful_exn (_verify_runtime recipe provider runtime).
Proof. unfold _verify_runtime. repeat first [by apply rt_named|rt_step]. Qed.

Lemma rt_smoke recipe observations : result_throws lawful_exn (_verify_smoke recipe observations).
Proof. unfold _verify_smoke. repeat rt_step; (split; [by vm_compute|done]). Qed.

Section Lawful.
Context `{PyTables} `{JCS} `{JCSError} `{NFC} `{OSText} {W : Type} `{Clock W} `{EnvironmentIds W} `{Publisher W}.
Context `{ArtifactFiles W} (providers : ProviderRegistry W).

(** The clock gives instants of the calendar, the event journal accepts what the
    manager emits, and the operating system raises its own exceptions. *)
Record lawful_world : Prop := {
  lw_clock : forall w, exists t w', now w = (Ok t, w') /\ min_instant <= t <= max_instant;
  lw_emit : forall r t w, valid r -> valid t -> exists w', _emit_transition r t w = (Ok tt, w');
  lw_lstat : forall p, throws lawful_exn (art_lstat p);
  lw_open : forall p, throws lawful_exn (art_open p);
  lw_fstat : forall fd, throws lawful_exn (art_fstat fd);
  lw_read : forall fd n, throws lawful_exn (art_read fd n);
  lw_close : forall fd, throws lawful_exn (art_close fd)
}.

(** A provider raises well-formed exceptions. *)
Record lawful_provider (p : EnvironmentProvider W) : Prop := {
  lp_acquire : forall r pl id, throws lawful_exn (prov_acquire p r pl id);
  lp_construct : forall r a id, throws lawful_exn (prov_construct p r a id);
  lp_runtime : forall r h id, throws lawful_exn (prov_inspect_runtime p r h id);
  lp_smoke : forall r h id, throws lawful_exn (prov_smoke_verify p r h id);
  lp_rollback : forall h id, throws lawful_exn (prov_rollback p h id)
}.

Context (Hw : lawful_world).

(** ** What the steps raise *)

Lemma th_transition r state detail : throws lawful_exn (_transition r state detail).
Proof.
  intros w e w'. unfold _transition, mbind at 1, eff_bind at 1. destruct (lw_clock Hw w) as (t & w1 & -> & _).
  unfold mbind at 1, eff_bind at 1. unfold lift at 1.
  destruct (construct (next_transition r state detail t)) as [tr|e1] eqn:Et; cbn [mbind result_bind].
  2: { intros [= <- <-]. by eapply rt_transition. }
  destruct (construct (with_state state _ r)) as [u|e2] eqn:Eu; cbn [mbind result_bind].
  2: { intros [= <- <-]. by eapply rt_record. }
  apply construct_ok in Et as [Ht ->], Eu as [Hu ->]. unfold mbind, eff_bind.
  by destruct (lw_emit Hw _ _ w1 Hu Ht) as (w2 & ->).
Qed.

Lemma th_artifact_errors {A} name (m : eff W A) : throws lawful_exn m -> throws lawful_exn (artifact_errors name m).
Proof.
  intros Hm. eapply th_try; [exact Hm|]. intros e He. destruct e; by apply th_lift, rt_raise.
Qed.

Lemma th_close_on_error {A} fd (m : eff W A) : throws lawful_exn m -> throws lawful_exn (close_on_error fd m).
Proof.
  intros Hm. eapply th_try; [exact Hm|]. intros e He. apply th_bind; [apply (lw_close Hw)|]. intros _.
  by apply th_lift, rt_raise.
Qed.

Lemma th_read_blocks turns fd expected size content : throws lawful_exn (read_blocks turns fd expected size content).
Proof.
  revert size content. induction turns as [|turns IH]; intros size content; cbn [read_blocks]; [by apply th_lift, rt_raise|].
  apply th_bind; [apply (lw_read Hw)|]. intros chunk. destruct (str_empty chunk); [apply th_ret|].
  destruct (_ <? _); [apply th_ret|apply IH].
Qed.

Ltac th_step := match goal with
  | |- throws _ (mret _) => apply th_ret
  | |- throws _ (lift _) => apply th_lift; repeat rt_step
  | |- throws _ (mbind _ _) => apply th_bind; [|intros ?; cbv beta]
  | |- throws _ (finally _ _) => apply th_finally
  | |- throws _ (artifact_errors _ _) => apply th_artifact_errors
  | |- throws _ (close_on_error _ _) => apply th_close_on_error
  | |- throws _ (read_blocks _ _ _ _ _) => apply th_read_blocks
  | |- throws _ (match ?x with _ => _ end) => destruct x
  | |- throws _ _ => apply Hw
  end.

Lemma th_verify_artifacts requirements observations : throws lawful_exn (_verify_artifacts requirements observations).
Proof.
  unfold _verify_artifacts. th_step; [th_step; (split; [by vm_compute|done])|].
  generalize (sorted_set (areq_name <$> requirements)). intros names.
  induction names as [|n names IH]; cbn [map_eff]; repeat first [exact IH|th_step];
    unfold verify_artifact, _hash_regular_artifact; repeat th_step; try (split; [by vm_compute|done]); try apply rt_verified.
Qed.

Lemma rt_canonical_bytes v : result_throws lawful_exn (_canonical_bytes v).
Proof. unfold _canonical_bytes. repeat rt_step. Qed.
Lemma rt_canonical_set l : result_throws lawful_exn (_canonical_set l).
Proof. unfold _canonical_set. repeat first [apply rt_canonical_bytes|rt_step]. Qed.
Lemma rt_fingerprint recipe provider v ri s : result_throws lawful_exn (fingerprint recipe provider v ri s).
Proof. unfold fingerprint, _normalized_values. repeat first [apply rt_canonical_bytes|apply rt_canonical_set|rt_step]. Qed.

Lemma lawful_body provider record : lawful_provider provider -> body_throws lawful_exn provider record.
Proof.
  intros Hp. split; intros; try apply Hp.
  - apply th_transition.
  - apply rt_record.
  - apply th_verify_artifacts.
  - apply rt_runtime.
  - apply rt_smoke.
  - match goal with Hc : mem _ _ = true |- _ => apply mem_spec in Hc end. split; [|done].
    match goal with Hc : ?c ∈ _ |- fullmatch _ ?c = true => revert c Hc end.
    rewrite <- Forall_forall. apply (bool_decide_unpack _). by vm_compute.
  - apply rt_fingerprint.
Qed.

(** ** Transitions that succeed *)

(** The failure a state asks for is there. *)
Definition explained (state : string) (r : EnvironmentLifecycleRecord) : Prop :=
  (state ∈ ["rejected"; "failed"; "cleanup_required"; "release_failed"; "cancelled"] -> is_some (elr_failure r) = true) /\
  (state ∈ ["cleanup_required"; "release_failed"] -> cleanup_flag r = true).

Lemma with_state_valid r state ts :
  valid r -> state ∈ LIFECYCLE_STATES -> state <> "ready" -> explained state r ->
  lt_sequence <$> ts = ranks (length ts) -> (forall t, last ts = Some t -> lt_to_state t = state) ->
  valid (with_state state ts r).
Proof.
  intros Hv Hs Hr [He1 He2] Hq Hl. unfold valid, post_init, EnvironmentLifecycleRecord_post_init in *. ok_inv.
  cbn [with_state elr_transaction_id elr_state elr_verified_artifacts elr_smoke_observations elr_verification_digest
    elr_environment_fingerprint_id elr_failure elr_transitions]. ok_intro; try done.
  - by apply negb_false_iff, mem_spec.
  - by destruct (String.eqb state "ready") eqn:Em; [apply String.eqb_eq in Em|].
  - apply andb_false_iff. destruct (mem state _) eqn:Em; [right|by left]. apply mem_spec in Em.
    apply negb_true_iff, He1. set_solver.
  - apply andb_false_iff. destruct (String.eqb state "cancelled") eqn:Em; [right|by left]. apply String.eqb_eq in Em.
    apply negb_true_iff, He1. rewrite Em. in_strings.
  - apply andb_false_iff. destruct (mem state _) eqn:Em; [right|by left]. apply mem_spec in Em.
    by apply negb_false_iff, He2.
  - by apply negb_false_iff, bool_decide_eq_true.
  - destruct (last ts) as [u|]; [|done]. by rewrite (Hl u eq_refl), String.eqb_refl.
Qed.

Lemma transition_total r state detail w :
  valid r -> state ∈ LIFECYCLE_STATES -> state <> "ready" -> explained state r -> str_empty detail = false ->
  exists r' w', _transition r state detail w = (Ok r', w').
Proof.
  intros Hv Hs Hr He Hd. unfold _transition, mbind at 1, eff_bind at 1.
  destruct (lw_clock Hw w) as (t & w1 & -> & Ht). set (tr := next_transition r state detail t).
  pose proof Hv as Hv'. unfold valid, post_init, EnvironmentLifecycleRecord_post_init in Hv'. ok_inv. bool_simp.
  assert (valid tr) as Htr.
  { unfold valid, post_init, LifecycleTransition_post_init, tr, next_transition. cbn [lt_sequence lt_from_state
      lt_to_state lt_observed_at lt_detail]. ok_intro.
    - apply Z.ltb_ge. clear. lia.
    - by apply negb_false_iff, mem_spec.
    - by apply negb_false_iff, mem_spec.
    - by apply require_timestamp_rfc3339.
    - done. }
  assert (valid (with_state state (elr_transitions r ++ [tr]) r)) as Hu.
  { apply with_state_valid; try done.
    - rewrite fmap_app, length_app, Nat.add_1_r, ranks_S. by f_equal.
    - intros u. rewrite last_snoc. by intros [= <-]. }
  unfold mbind at 1, eff_bind at 1, lift at 1. rewrite (construct_valid tr Htr). cbn [mbind result_bind].
  rewrite (construct_valid _ Hu). cbn [mbind result_bind]. unfold mbind, eff_bind. destruct (lw_emit Hw _ _ w1 Hu Htr) as (w2 & ->). eauto.
Qed.

(** ** The rollback always reports *)

Lemma settled_total provider handle id w :
  lawful_provider provider ->
  exists outcome w', settled_outcome (prov_rollback provider handle id) w = (Ok outcome, w').
Proof.
  intros Hp. unfold settled_outcome, try_eff. destruct (prov_rollback provider handle id w) as [[o|e] w1]; [eauto|].
  unfold lift. eexists _, w1. f_equal. apply construct_valid. unfold valid, post_init, ProviderOutcome_post_init. by destruct e.
Qed.

Lemma with_failure_valid h f o d r : valid r -> elr_state r ∈ REALIZING_STATES -> valid (with_failure h f o d r).
Proof.
  intros Hv Hs. unfold valid, post_init, EnvironmentLifecycleRecord_post_init in *. ok_inv. bool_simp.
  cbn [with_failure elr_transaction_id elr_state elr_verified_artifacts elr_smoke_observations elr_verification_digest
    elr_environment_fingerprint_id elr_failure elr_transitions].
  assert (String.eqb (elr_state r) "ready" = false /\ String.eqb (elr_state r) "cancelled" = false /\
    mem (elr_state r) ["rejected"; "failed"; "cleanup_required"; "release_failed"] = false /\
    mem (elr_state r) ["cleanup_required"; "release_failed"] = false) as (N1 & N2 & N3 & N4).
  { revert Hs. generalize (elr_state r). rewrite <- Forall_forall. apply (bool_decide_unpack _). by vm_compute. }
  rewrite N1, N2, N3, N4. ok_intro;
    first [done|by apply negb_false_iff|by apply negb_false_iff, mem_spec|by apply negb_false_iff, bool_decide_eq_true].
Qed.

Lemma rollback_total r provider handle failure w :
  lawful_provider provider -> valid r -> elr_state r ∈ REALIZING_STATES -> valid failure ->
  exists r' w', _rollback r provider handle failure false w = (Ok r', w').
Proof.
  intros Hp Hv Hs Hf. unfold _rollback, mbind at 1, eff_bind at 1.
  destruct (settled_total provider handle (elr_transaction_id r) w Hp) as (o & w1 & ->).
  assert (forall f target detail, (target = "failed" \/ (target = "cleanup_required" /\ lf_cleanup_required f = true)) ->
    str_empty detail = false -> exists r' w',
    (replaced ← lift (construct (with_failure (or_handle handle (elr_provider_handle r)) (Some f) (Some o)
       (elr_diagnostics r ++ po_diagnostics o) r)); _transition replaced target detail) w1 = (Ok r', w')) as Hgo.
  { intros f target detail Ht Hd. unfold mbind at 1, eff_bind at 1, lift at 1.
    rewrite (construct_valid _ (with_failure_valid _ (Some f) (Some o) _ r Hv Hs)).
    apply transition_total; [by apply with_failure_valid| | | |done].
    - destruct Ht as [->|[-> _]]; in_strings.
    - by destruct Ht as [->|[-> _]].
    - split; [done|]. intros Hin. destruct Ht as [->|[-> Hc]]; [|exact Hc]. by apply mem_spec in Hin. }
  unfold mbind at 1, eff_bind at 1, lift at 1. destruct (po_succeeded o); cbn [negb]; [by apply Hgo; [left|]|].
  unfold failure_of. set (f := {| lf_classification := lf_classification failure |}).
  assert (valid f) as Hvf by exact Hf. rewrite (construct_valid f Hvf). by apply Hgo; [right|].
Qed.

Lemma failure_valid classification code message :
  classification ∈ FAILURE_CLASSES -> fullmatch TOKEN_PATTERN code = true -> str_empty message = false ->
  exists f, failure_of classification code message false = Ok f /\ valid f.
Proof.
  intros Hc Ht Hm. unfold failure_of. set (f := {| lf_code := code |}). exists f.
  assert (valid f) as Hv; [|by rewrite (construct_valid f Hv)].
  unfold valid, post_init, LifecycleFailure_post_init. ok_intro; cbn [lf_classification lf_code lf_message f].
  - by apply negb_false_iff, mem_spec.
  - unfold Env._require_token, require_token. by rewrite Ht.
  - done.
Qed.

Lemma exn_detail_nonempty e : lawful_exn e -> str_empty (exn_detail e) = false.
Proof. unfold exn_detail. destruct (str_empty (exn_str e)) eqn:Ee; [|done]. destruct e; cbn in *; try done. by destruct code. Qed.

Lemma fail_total r provider e handle w :
  lawful_provider provider -> valid r -> elr_state r ∈ REALIZING_STATES -> lawful_exn e ->
  exists r' w', _fail_with_rollback r provider e handle w = (Ok r', w').
Proof.
  intros Hp Hv Hs He. unfold _fail_with_rollback.
  assert (forall m, str_empty m = false -> exists f, failure_of "provider" "provider-operation-failed" m false = Ok f /\ valid f)
    as Hother by (intros m Hm; apply failure_valid; [in_strings|by vm_compute|done]).
  assert (exists f, failure_of "provider" "provider-operation-failed" (exn_detail e) false = Ok f /\ valid f)
    as (fo & Hfo & Hvo) by (by apply Hother, exn_detail_nonempty).
  destruct e; unfold mbind at 1, eff_bind at 1, lift at 1; try (rewrite Hfo; by apply rollback_total); destruct He as [H1' H2'].
  - destruct (failure_valid "verification" code msg) as (f & -> & Hf); [in_strings|done|done|]. by apply rollback_total.
  - destruct (failure_valid "provider" code msg) as (f & -> & Hf); [in_strings|done|done|]. cbn [mbind result_bind].
    assert (valid (with_diagnostics (elr_diagnostics r ++ diagnostics) r)) as Hvd by (by apply with_failure_valid).
    rewrite (construct_valid _ Hvd). cbn [mbind result_bind]. by apply rollback_total.
Qed.
End Lawful.
