(* ===== verification/EnvProperties.v ===== *)
(** * Properties of the environment manager *)

From S2P Require Export EnvTotal.

Section Lifecycle.
Context `{PyTables} `{JCS} `{JCSError} `{NFC} `{OSText} {W : Type} `{Clock W} `{EnvironmentIds W} `{Publisher W}.
Context `{ArtifactFiles W} (providers : ProviderRegistry W).

(** One operation of the manager on a record. *)
Inductive env_step (r r' : EnvironmentLifecycleRecord) : Prop :=
| env_admit decision w w' : admit_ r decision w = (Ok r', w') -> env_step r r'
| env_realize w w' : realize providers r w = (Ok r', w') -> env_step r r'
| env_cancel reason w w' : cancel providers r reason w = (Ok r', w') -> env_step r r'
| env_release w w' : release providers r w = (Ok r', w') -> env_step r r'.

Definition CLOSED_STATES : list string := ["released"; "cancelled"; "rejected"; "failed"].

Lemma step_course r r' : env_step r r' -> on_course r -> on_course r' /\ follows r r'.
Proof.
  intros [d w w' Hr|w w' Hr|reason w w' Hr|w w' Hr] Hc.
  - by apply admit_course in Hr as (? & ? & _).
  - by apply realize_course in Hr as (? & ? & _).
  - by apply cancel_course in Hr as (? & ? & _).
  - by apply release_course in Hr as (? & ? & _).
Qed.

Lemma step_open r r' : env_step r r' -> elr_state r ∉ CLOSED_STATES.
Proof.
  intros Hs. assert (elr_state r ∈ ["planned"; "admitted"; "ready"] ++ MUTATED_STATES) as Hin.
  { destruct Hs as [d w w' Hr|w w' Hr|reason w w' Hr|w w' Hr].
    - unfold admit_ in Hr. apply eff_bind_ok in Hr as (u & w1 & [Hg _]%lift_ok & _). unfold _require_state in Hg.
      ok_inv. bool_simp. set_solver.
    - unfold realize in Hr. apply eff_bind_ok in Hr as (u & w1 & [Hg _]%lift_ok & _). unfold _require_state in Hg.
      ok_inv. bool_simp. set_solver.
    - unfold cancel in Hr. apply eff_bind_ok in Hr as (u & w1 & _ & Hr). destruct (mem _ _) eqn:Em.
      + bool_simp. set_solver.
      + apply eff_bind_ok in Hr as (u2 & w2 & [Hg _]%lift_ok & _). ok_inv. bool_simp. set_solver.
    - unfold release in Hr. apply eff_bind_ok in Hr as (u & w1 & [Hg _]%lift_ok & _). unfold _require_state in Hg.
      ok_inv. bool_simp. set_solver. }
  revert Hin. generalize (elr_state r). clear. intros s Hin Hc. revert s Hc Hin. setoid_rewrite <- (mem_false _ _).
  intros s Hc. revert s Hc. rewrite <- Forall_forall. apply (bool_decide_unpack _). by vm_compute.
Qed.

(** C38: Every record the manager makes is valid and took a path of the lifecycle
    graph: its first transition enters planned, rejected or failed, every other
    one starts where the one before ended and follows an edge, and they lead to
    its state.  Further operations keep the transaction, recipe and provider and
    only extend the history; released, cancelled, rejected and failed
    environments admit none. *)
Theorem lifecycle_invariant recipe name w planned w' r :
  plan providers recipe name w = (Ok planned, w') -> rtc env_step planned r ->
  valid r /\ walks None (elr_transitions r) (elr_state r) /\ follows planned r /\
  (elr_state r ∈ CLOSED_STATES -> forall r', ~ env_step r r').
Proof.
  intros [Hc _]%plan_course Hs.
  assert (on_course r /\ follows planned r) as [[Hv Hw] Hf].
  { induction Hs as [r|r m r' Hst _ IH]; [done|]. apply step_course in Hst as [Hm Hrm]; [|done].
    destruct (IH Hm) as [? ?]. split; [done|]. by etrans. }
  split_and!; [done..|]. intros Hcl r' Hst. by apply step_open in Hst.
Qed.

(** C8: Ready means verified.  When [realize] returns a ready record, every artifact
    of the recipe was observed under its name, was one regular file before and
    after opening, and its bytes, read to the end, have the pinned size and
    digest; the runtime has the strategy of recipe and provider, the provider's
    implementation digest, the recipe's isolation and network policies and every
    expected fact and setting; every required smoke probe passed; and the
    fingerprint is that of exactly these observations. *)
Theorem ready_verified r w r' w' :
  valid (elr_recipe r) -> realize providers r w = (Ok r', w') -> elr_state r' = "ready" ->
  let recipe := elr_recipe r in
  elr_verified_artifacts r' ≡ₚ verified_of <$> rec_artifacts recipe /\
  (forall q, q ∈ rec_artifacts recipe -> exists o, ao_name o = areq_name q /\ artifact_proven q o) /\
  exists runtime f, elr_runtime_identity r' = Some runtime /\
    ri_strategy runtime = rec_strategy recipe /\ ri_strategy runtime = pd_strategy (elr_provider r) /\
    ri_provider_implementation_digest runtime = pd_implementation_digest (elr_provider r) /\
    ri_isolation_policy_digest runtime = rec_isolation_policy_digest recipe /\
    ri_network_policy runtime = rec_network_policy recipe /\
    rec_expected_runtime_facts recipe ⊆ ri_facts runtime /\
    rec_expected_configuration recipe ⊆ ri_relevant_configuration runtime /\
    (forall p, p ∈ rec_smoke_probe_ids recipe ->
       exists o, o ∈ elr_smoke_observations r' /\ so_probe_id o = p /\ so_passed o = true) /\
    fingerprint recipe (elr_provider r) (elr_verified_artifacts r') runtime (elr_smoke_observations r') = Ok f /\
    elr_verification_digest r' = Some (fr_verification_digest f) /\
    elr_environment_fingerprint_id r' = Some (fr_environment_fingerprint_id f).
Proof.
  intros Hv Hr Hs recipe. apply realize_cases in Hr as [[(acq & v & v' & Ha) (runtime & f & R1 & R2 & R3 & R4 & R5) Hsm _]|
    (provider & id & _ & [(h & o & v & v' & _ & _ & Hst) _])].
  2: { rewrite Hst in Hs. by destruct (po_succeeded o). }
  pose proof Hv as Hnd. unfold valid, post_init, EnvironmentRecipe_post_init, Env._require_unique, require_unique in Hnd.
  ok_inv. bool_simp. apply verify_artifacts_ok in Ha as (A1 & _ & A3); [|done].
  apply verify_runtime_ok in R2 as (V1 & V2 & V3 & V4 & V5 & V6 & V7); [|done]. apply verify_smoke_ok in Hsm as [_ S2].
  split; [done|]. split; [intros q (o & _ & ? & ?)%A3; by exists o|]. by exists runtime, f.
Qed.

(** C37: Realization always settles: for an admitted record, in a world whose clock,
    event journal, files and provider behave, [realize] never raises.  The record
    it returns is ready, or the provider was asked to roll back and the record is
    failed if the rollback succeeded and cleanup_required otherwise. *)
Theorem realize_settles r provider w :
  lawful_world -> lawful_provider provider -> on_course r -> elr_state r = "admitted" ->
  is_some (elr_plan r) = true -> (exists a, elr_admission r = Some a /\ ad_admitted a = true) ->
  registry_get providers (pd_name (elr_provider r)) = Ok provider ->
  exists r' w', realize providers r w = (Ok r', w') /\
    (elr_state r' = "ready" \/ exists id, rolled_back provider id false r').
Proof.
  intros Hw Hp Hc Hs Hplan (a & Ha & Had) Hreg.
  assert (exists r' w', realize providers r w = (Ok r', w')) as (r' & w' & Hr).
  { unfold realize, _require_state. rewrite Hs, Ha, Had. destruct (elr_plan r) as [p|]; [|done].
    unfold mbind at 1, eff_bind at 1, lift at 1. cbn [mem existsb String.eqb Ascii.eqb Bool.eqb orb negb raise_if mbind result_bind].
    unfold mbind at 1, eff_bind at 1, lift at 1. rewrite Hreg. unfold mbind at 1, eff_bind at 1.
    destruct (transition_total Hw r "acquiring" "provider acquisition started" w) as (cur & w1 & Ht);
      [by apply oc_valid|in_strings|done|by split; intros Hin%mem_spec|done|]. rewrite Ht.
    apply transition_course in Ht as (C1 & C2 & C3); [|done|rewrite Hs; by apply (bool_decide_unpack _)].
    unfold guarded_realize.
    pose proof (realize_body_spec lawful_exn provider r (lawful_body Hw provider r Hp) p w1 (cur, None)) as Hb.
    assert (forall x, realize_body provider r p (w1, (cur, None)) = x -> match x with
      | (Ok r0, (_, _)) => on_course r0 /\ follows r r0 /\ elr_state r0 = "ready"
      | (Raise e, (_, l)) => broken lawful_exn r e l
      end) as Hx.
    { intros x <-. apply Hb. split; [|done]. split_and!; [done|done|]. cbn. rewrite C3. in_strings. }
    destruct (realize_body provider r p (w1, (cur, None))) as [[x|e] [w2 [c h]]]; [eauto|].
    destruct (Hx _ eq_refl) as [He (D1 & D2 & D3)]. apply (fail_total Hw c provider e h w2); [done|by apply oc_valid|done|done]. }
  exists r', w'. split; [done|]. apply realize_cases in Hr as [[_ _ _ Hst]|(pr & id & Hreg' & Hrb)]; [by left|right].
  exists id. congruence.
Qed.

(** A ready environment cannot be cancelled: [cancel] has the provider roll the
    environment back and then always raises, because it sets the failure while the
    record is still in state ready; the outcome of the rollback is lost. *)
Theorem cancel_ready_raises r reason provider outcome w w1 :
  elr_state r = "ready" -> valid r -> str_empty reason = false ->
  registry_get providers (pd_name (elr_provider r)) = Ok provider ->
  settled_outcome (prov_rollback provider (elr_provider_handle r) (elr_transaction_id r)) w = (Ok outcome, w1) ->
  cancel providers r reason w =
    (Raise (ValueError "Ready requires verified runtime, fingerprint, handle, and no failure"), w1).
Proof.
  intros Hs Hv Hre Hreg Hcall. unfold cancel, mbind at 1, eff_bind at 1, lift at 1. rewrite Hre, Hs.
  cbn [raise_if mem existsb String.eqb Ascii.eqb Bool.eqb orb]. unfold mbind at 1, eff_bind at 1, lift at 1.
  change (mem "ready" MUTATED_STATES) with true. cbn [negb raise_if]. unfold mbind at 1, eff_bind at 1, lift at 1.
  rewrite Hreg. destruct (failure_valid "cancelled" "operation-cancelled" reason) as (f & Hf & Hvf); [in_strings|by vm_compute|done|].
  unfold mbind at 1, eff_bind at 1, lift at 1. rewrite Hf. unfold _rollback, mbind at 1, eff_bind at 1. rewrite Hcall.
  assert (forall g h o d, construct (with_failure h (Some g) o d r) =
    Raise (ValueError "Ready requires verified runtime, fingerprint, handle, and no failure")) as Hraise.
  { intros g h o d. unfold construct, valid, post_init, EnvironmentLifecycleRecord_post_init in *. ok_inv.
    cbn [with_failure elr_transaction_id elr_state elr_verified_artifacts elr_smoke_observations elr_verification_digest
      elr_environment_fingerprint_id elr_failure elr_transitions elr_provider_handle elr_runtime_identity].
    repeat match goal with Hx : ?m = Ok tt |- context [mbind _ ?m] => rewrite Hx; cbn [mbind result_bind] end.
    rewrite E, E0, Hs. unfold ready_guards. change (is_some (elr_failure (with_failure h (Some g) o d r))) with true.
    by rewrite orb_true_r. }
  unfold failure_of. destruct (po_succeeded outcome); cbn [negb]; unfold mbind at 1, eff_bind at 1, lift at 1.
  - unfold mbind, eff_bind, lift. by rewrite Hraise.
  - set (g := {| lf_classification := lf_classification f |}). assert (valid g) as Hvg by exact Hvf.
    rewrite (construct_valid g Hvg). cbn [mbind result_bind]. unfold mbind, eff_bind, lift. by rewrite Hraise.
Qed.
End Lifecycle.

(** The same runtime and provider with their facts listed in another order. *)
Record reordered (provider provider' : ProviderDescriptor) (runtime runtime' : RuntimeIdentity) : Prop := {
  ro_provider : pd_name provider' = pd_name provider;
  ro_capabilities : pd_capabilities provider ≡ₚ pd_capabilities provider';
  ro_facts : ri_facts runtime ≡ₚ ri_facts runtime';
  ro_configuration : ri_relevant_configuration runtime ≡ₚ ri_relevant_configuration runtime';
  ro_identity : (ri_strategy runtime', ri_provider_implementation_digest runtime', ri_isolation_policy_digest runtime',
                 ri_network_policy runtime') =
                (ri_strategy runtime, ri_provider_implementation_digest runtime, ri_isolation_policy_digest runtime,
                 ri_network_policy runtime)
}.

(** The fingerprint does not depend on the order in which artifacts, facts,
    settings, probes and capabilities are listed. *)
Theorem fingerprint_order `{JCS} `{JCSError} `{NFC} recipe provider provider' artifacts artifacts' runtime runtime'
    smoke smoke' f :
  artifacts ≡ₚ artifacts' -> smoke ≡ₚ smoke' -> reordered provider provider' runtime runtime' ->
  faithful (artifact_fact <$> artifacts) -> faithful (smoke_fact <$> smoke) ->
  faithful (value_fact <$> ri_facts runtime) -> faithful (value_fact <$> ri_relevant_configuration runtime) ->
  faithful (capability_fact <$> pd_capabilities provider) ->
  fingerprint recipe provider artifacts runtime smoke = Ok f ->
  fingerprint recipe provider' artifacts' runtime' smoke' = Ok f.
Proof.
  intros Ha Hs [Hn Hc Hf Hcfg Hid] F1 F2 F3 F4 F5. injection Hid as I1 I2 I3 I4. unfold fingerprint.
  intros Hok. apply bind_ok in Hok as (a & Ea & Hok). apply bind_ok in Hok as (v & Ev & Hok).
  apply bind_ok in Hok as (s & Es & Hok). apply bind_ok in Hok as (vb & Evb & Hok).
  apply bind_ok in Hok as (c & Ec & Hok). apply bind_ok in Hok as (g & Eg & Hok).
  rewrite (canonical_set_order _ _ a (fmap_Permutation _ _ _ Ha) F1 Ea). cbn [mbind result_bind].
  unfold _normalized_values in *. rewrite (canonical_set_order _ _ v (fmap_Permutation _ _ _ Hf) F3 Ev).
  cbn [mbind result_bind]. rewrite (canonical_set_order _ _ s (fmap_Permutation _ _ _ Hs) F2 Es).
  cbn [mbind result_bind]. rewrite Evb. cbn [mbind result_bind].
  rewrite (canonical_set_order _ _ c (fmap_Permutation _ _ _ Hc) F5 Ec). cbn [mbind result_bind].
  rewrite (canonical_set_order _ _ g (fmap_Permutation _ _ _ Hcfg) F4 Eg). cbn [mbind result_bind].
  unfold identity_of in *. by rewrite Hn, I1, I2, I3, I4.
Qed.

(** ** A concrete environment *)

Module EnvSample.
#[local] Existing Instance ascii_tables.
#[local] Existing Instance reference_jcs.
#[local] Instance error_text : JCSError := fun _ => "not canonicalizable".
#[local] Instance normal_form : NFC := fun s => s.
#[local] Instance system_text : OSText := fun cls _ => cls.

(** The world: whether the one open file is read to its end.  The clock stands. *)
Definition world : Type := bool.
#[local] Instance clock : Clock world := fun w => (Ok 1700000000000000, w).
#[local] Instance ids : EnvironmentIds world := fun w =>
  (Ok "opid:v1:environment:u7:01890a5d-ac96-774b-bcce-b302099a8057", w).
#[local] Instance silent : Publisher world := {| publishing := false; publish_draft _ w := (Ok tt, w) |}.

Definition bytes : string := "re".
Definition status : file_stat :=
  {| fst_kind := Regular; fst_dev := 1; fst_ino := 2; fst_size := 2; fst_nlink := 1; fst_blocks := None |}.
#[local] Instance files : ArtifactFiles world :=
  {| art_lstat _ w := (Ok status, w); art_open _ w := (Ok 3, false); art_fstat _ w := (Ok status, w);
     art_read _ _ w := (Ok (if w : bool then "" else bytes), true); art_close _ w := (Ok tt, w) |}.

Definition digest : string := Eval vm_compute in sha256 bytes.
Definition rcid : string := "rcid:v1:recipe:u7:01890a5d-ac96-774b-bcce-b302099a8057".
Definition fact : NamedValue := {| nv_name := "version"; nv_value := "10" |}.
Definition engine : ArtifactRequirement :=
  {| areq_name := "engine"; areq_sha256 := digest; areq_size_bytes := 2; areq_media_type := "tar";
     areq_locators := ["mirror"] |}.
Definition recipe : EnvironmentRecipe :=
  {| rec_recipe_revision_id := rcid; rec_target_profile_id := rcid; rec_target_release_id := rcid;
     rec_strategy := "source";
     rec_artifacts := [engine];
     rec_expected_runtime_facts := [fact]; rec_expected_configuration := []; rec_required_capabilities := [];
     rec_smoke_probe_ids := ["boots"]; rec_isolation_policy_digest := digest; rec_network_policy := "none" |}.
Definition descriptor : ProviderDescriptor :=
  {| pd_name := "local"; pd_strategy := "source"; pd_implementation_digest := digest;
     pd_capabilities := (fun n => {| pcap_name := n; pcap_status := "supported"; pcap_diagnostic := None |})
                          <$> BASE_READY_CAPABILITIES |}.
Definition runtime : RuntimeIdentity :=
  {| ri_strategy := "source"; ri_provider_implementation_digest := digest; ri_facts := [fact];
     ri_relevant_configuration := []; ri_isolation_policy_digest := digest; ri_network_policy := "none" |}.
Definition success : ProviderOutcome := {| po_succeeded := true; po_diagnostics := [] |}.
Definition local_provider : EnvironmentProvider world :=
  {| prov_descriptor := descriptor;
     prov_plan _ w := (Ok {| pp_provider_name := "local"; pp_plan_token := "t"; pp_expected_download_bytes := 2;
       pp_expected_expanded_bytes := 2; pp_expected_scratch_bytes := 0; pp_diagnostics := [];
       pp_mutation_permitted := false |}, w);
     prov_acquire _ _ _ w := (Ok {| pa_handle := "h"; pa_artifacts := [{| ao_name := "engine"; ao_path := "/e" |}] |}, w);
     prov_construct _ _ _ w := (Ok "h", w); prov_inspect_runtime _ _ _ w := (Ok runtime, w);
     prov_smoke_verify _ _ _ w := (Ok [{| so_probe_id := "boots"; so_passed := true; so_diagnostic := None |}], w);
     prov_release _ _ w := (Ok success, w); prov_rollback _ _ w := (Ok success, w);
     prov_diagnose _ _ w := (Ok {| pdg_status := "healthy"; pdg_diagnostics := [] |}, w) |}.
Definition providers : ProviderRegistry world := dict_of provider_name [local_provider].
Definition start : world := false.
Definition decision : AdmissionDecision := {| ad_admitted := true; ad_decision_id := "d"; ad_reason := "fits" |}.

Definition blank : EnvironmentLifecycleRecord :=
  initial_record "" recipe descriptor "planned" None [] (initial_transition "planned" 0).
Definition record_of (r : result EnvironmentLifecycleRecord) : EnvironmentLifecycleRecord :=
  match r with Ok r => r | Raise _ => blank end.
Definition planned : EnvironmentLifecycleRecord := Eval vm_compute in record_of (plan providers recipe "local" start).1.
Definition admitted : EnvironmentLifecycleRecord := Eval vm_compute in record_of (admit_ planned decision start).1.
Definition realized : EnvironmentLifecycleRecord := Eval vm_compute in record_of (realize providers admitted start).1.
Definition finish : world := true.

Lemma environment_planned : plan providers recipe "local" start = (Ok planned, start).
Proof. by vm_compute. Qed.
Lemma environment_admitted : admit_ planned decision start = (Ok admitted, start).
Proof. by vm_compute. Qed.
Lemma environment_realized : realize providers admitted start = (Ok realized, finish).
Proof. vm_cast_no_check (eq_refl (Ok realized, finish)). Qed.

Lemma sample_world : lawful_world (W := world).
Proof.
  split; try by intros.
  - intros w. exists 1700000000000000, w. split; [done|]. by vm_compute.
  - intros r t w _ _. by exists w.
Qed.
Lemma sample_provider : lawful_provider local_provider.
Proof. split; by intros. Qed.

Lemma lifecycle_invariant_witness :
  walks None (elr_transitions realized) "ready" /\ length (elr_transitions realized) = 13%nat.
Proof.
  assert (rtc (env_step providers) planned realized) as Hs.
  { apply (rtc_l _ _ admitted); [by apply (env_admit providers _ _ decision start start environment_admitted)|].
    apply rtc_once. by apply (env_realize providers _ _ start finish environment_realized). }
  destruct (lifecycle_invariant providers recipe "local" start planned start realized environment_planned Hs) as (_ & Hw & _).
  split; [exact Hw|done].
Defined.

Lemma ready_verified_witness : exists o,
  ao_name o = "engine" /\ artifact_proven (W := world) engine o.
Proof.
  destruct (ready_verified providers admitted start realized finish) as (_ & Ha & _).
  - by vm_compute.
  - exact environment_realized.
  - done.
  - apply (Ha engine). left.
Defined.

Lemma realize_settles_witness : exists r' w', realize providers admitted start = (Ok r', w') /\
  (elr_state r' = "ready" \/ exists id, rolled_back local_provider id false r').
Proof.
  apply (realize_settles providers admitted local_provider start sample_world sample_provider).
  - destruct (plan_course providers recipe "local" start planned start environment_planned) as [Hc _].
    by destruct (admit_course planned decision start admitted start environment_admitted Hc) as [? _].
  - done.
  - done.
  - by eexists.
  - done.
Defined.

Lemma cancel_ready_raises_witness :
  cancel providers realized "no longer needed" finish =
    (Raise (ValueError "Ready requires verified runtime, fingerprint, handle, and no failure"), finish).
Proof.
  apply (cancel_ready_raises providers realized "no longer needed" local_provider success finish finish).
  - done.
  - destruct (plan_course providers recipe "local" start planned start environment_planned) as [Hc _].
    destruct (admit_course planned decision start admitted start environment_admitted Hc) as [Hc' _].
    by destruct (realize_course providers admitted start realized finish environment_realized Hc') as [[Hv _] _].
  - done.
  - done.
  - done.
Defined.

Definition other_fact : NamedValue := {| nv_name := "jit"; nv_value := "off" |}.
Definition runtime_with (facts : list NamedValue) : RuntimeIdentity :=
  {| ri_strategy := "source"; ri_provider_implementation_digest := digest; ri_facts := facts;
     ri_relevant_configuration := []; ri_isolation_policy_digest := digest; ri_network_policy := "none" |}.

Definition fingerprint_of (facts : list NamedValue) : result FingerprintResult :=
  fingerprint recipe descriptor [] (runtime_with facts) [].
Definition the_fingerprint : FingerprintResult := Eval vm_compute in
  match fingerprint_of [fact; other_fact] with
  | Ok f => f
  | Raise _ => {| fr_environment_fingerprint_id := ""; fr_verification_digest := ""; fr_identity := JNull;
                  fr_canonical_utf8 := "" |}
  end.
Lemma sample_fingerprint : fingerprint_of [fact; other_fact] = Ok the_fingerprint.
Proof. vm_cast_no_check (eq_refl (Ok the_fingerprint)). Qed.

Lemma fingerprint_order_witness : fingerprint_of [other_fact; fact] = Ok the_fingerprint.
Proof.
  apply (fingerprint_order recipe descriptor descriptor [] [] (runtime_with [fact; other_fact]) (runtime_with [other_fact; fact])
    [] []).
  - done.
  - done.
  - split; [done|done|apply perm_swap|done|done].
  - by intros v v' ?%elem_of_nil.
  - by intros v v' ?%elem_of_nil.
  - apply faithful_nodup, (bool_decide_unpack _). by vm_compute.
  - by intros v v' ?%elem_of_nil.
  - apply faithful_nodup, (bool_decide_unpack _). by vm_compute.
  - exact sample_fingerprint.
Defined.
End EnvSample.
