(* ===== verification/EnvJournal.v ===== *)
(** * The environment manager publishing to the event journal

    The journal as the manager's event publisher: the world is the journal beside
    the rest of the world, which supplies event identifiers and the instant of
    publication.  Cancelling an environment whose last event was terminal cannot
    return ([cancel_after_terminal_lost]). *)

From S2P Require Export Journal EnvTotal.

Section JournalPublisher.
Context `{PyTables} `{JCS} `{PyFloat} {V : Type} (fresh : V -> string) (tick : V -> Z).

(** [EventJournal.publish] with the journal's own identifiers. *)
Definition journal_publisher : Publisher (journal * V) :=
  {| publishing := true;
     publish_draft draft w := match publish draft None (fresh w.2) (tick w.2) w.1 with
       | Ok (_, j) => (Ok tt, (j, w.2))
       | Raise e => (Raise e, w)
       end |}.

Lemma publish_terminal_raises draft id instant j h s j' :
  find_event j id = None -> j_heads j !! dr_stream_id draft = Some h -> hd_terminal h = true ->
  publish draft None id instant j <> Ok (s, j').
Proof.
  intros Hfind Hh Ht Hp. unfold publish in Hp. apply bind_ok in Hp as (d & Hd & Hp).
  unfold _snapshot_draft in Hd. apply bind_ok in Hd as (o & _ & Hd). apply bind_ok in Hd as (attributes & _ & [_ ->]%construct_ok).
  cbn [select_id] in Hp. apply bind_ok in Hp as ([] & _ & Hp). apply bind_ok in Hp as (digest & _ & Hp).
  rewrite Hfind in Hp. cbv zeta in Hp. apply bind_ok in Hp as ([] & _ & Hp). apply bind_ok in Hp as (seq & Hs & _).
  unfold next_sequence in Hs. cbn [dr_stream_id with_attributes] in Hs. by rewrite Hh, Ht in Hs.
Qed.
End JournalPublisher.

Section Lost.
Context `{PyTables} `{JCS} `{PyFloat} `{JCSError} `{NFC} `{OSText} {V : Type} (fresh : V -> string) (tick : V -> Z).
Context `{Clock (journal * V)} (providers : ProviderRegistry (journal * V)).
#[local] Instance publisher : Publisher (journal * V) := journal_publisher fresh tick.

Lemma emit_terminal_raises d w h u w' :
  find_event w.1 (fresh w.2) = None -> j_heads w.1 !! dr_stream_id d = Some h -> hd_terminal h = true ->
  emit d w <> (Ok u, w').
Proof.
  intros Hf Hh Ht. unfold emit. cbn [publishing publisher journal_publisher]. intros He.
  apply eff_bind_ok in He as (d' & w1 & [Hc ->]%lift_ok & He). apply construct_ok in Hc as [_ ->].
  cbn [publish_draft publisher journal_publisher] in He. destruct (publish d None (fresh w.2) (tick w.2) w.1) as [[s j']|e] eqn:Ep; [|done].
  by eapply publish_terminal_raises in Ep.
Qed.

(** An environment whose cleanup is still required cannot be cancelled while its
    events go to the journal: the event of that state was terminal, so after the
    provider has rolled back, the event of the cancellation is refused and
    [cancel] raises; the record that says how the rollback ended is lost. *)
Theorem cancel_after_terminal_lost r reason provider w outcome j v h :
  elr_state r ∈ ["cleanup_required"; "release_failed"] ->
  registry_get providers (pd_name (elr_provider r)) = Ok provider ->
  settled_outcome (prov_rollback provider (elr_provider_handle r) (elr_transaction_id r)) w = (Ok outcome, (j, v)) ->
  (forall t w', now (j, v) = (Ok t, w') -> w' = (j, v)) ->
  find_event j (fresh v) = None -> j_heads j !! elr_transaction_id r = Some h -> hd_terminal h = true ->
  forall r' w', cancel providers r reason w <> (Ok r', w').
Proof.
  intros Hs Hreg Hcall Hnow Hfind Hh Ht r' w' Hc. unfold cancel in Hc. apply eff_bind_ok in Hc as (u & w1 & [_ ->]%lift_ok & Hc).
  assert (mem (elr_state r) ["planned"; "admitted"] = false) as Hm.
  { revert Hs. generalize (elr_state r). rewrite <- Forall_forall. by apply (bool_decide_unpack _). }
  rewrite Hm in Hc. apply eff_bind_ok in Hc as (u2 & w2 & [_ ->]%lift_ok & Hc).
  apply eff_bind_ok in Hc as (p & w3 & [Hp ->]%lift_ok & Hc). rewrite Hreg in Hp. injection Hp as <-.
  apply eff_bind_ok in Hc as (f & w4 & [_ ->]%lift_ok & Hc).
  apply rollback_ok in Hc as (o & w5 & f' & revised & target & detail & Ho & -> & _ & Htr & _).
  rewrite Hcall in Ho. injection Ho as <- <-. unfold _transition in Htr.
  apply eff_bind_ok in Htr as (t & w6 & Hn & Htr). apply Hnow in Hn as ->.
  apply eff_bind_ok in Htr as ([tr up] & w7 & [Hcon ->]%lift_ok & Htr). apply eff_bind_ok in Htr as (x & w8 & He & _).
  apply bind_ok in Hcon as (tr' & _ & Hcon). apply bind_ok in Hcon as (up' & Hup & Hcon). injection Hcon as -> ->.
  apply construct_ok in Hup as [_ ->]. by eapply emit_terminal_raises in He.
Qed.
End Lost.

(** A world whose journal holds one terminal stream. *)
Module LostSample.
#[local] Existing Instance ascii_tables.
#[local] Existing Instance reference_jcs.
#[local] Instance no_floats : PyFloat := fun _ => SpecFloat.S754_nan.
#[local] Instance error_text : JCSError := fun _ => "not canonicalizable".
#[local] Instance normal_form : NFC := fun s => s.
#[local] Instance system_text : OSText := fun cls _ => cls.

Definition transaction : string := "opid:v1:environment:u7:01890a5d-ac96-774b-bcce-b302099a8057".
Definition closed_head : Journal.head :=
  {| hd_operation_kind := "environment-lifecycle"; hd_last_sequence := 5; hd_attempt := 1; hd_current := None;
     hd_total := None; hd_unit := None; hd_terminal := true |}.
Definition events : journal :=
  {| j_id := "opid:v1:event-journal:u7:01890a5d-ac96-774b-bcce-b302099a8057"; j_maximum := 100; j_last_offset := 0;
     j_oldest_offset := 0; j_anchor := EMPTY_DIGEST; j_tail := EMPTY_DIGEST; j_rows := [];
     j_heads := {[ transaction := closed_head ]} |}.
Definition world : Type := journal * unit.
#[local] Instance clock : Clock world := fun w => (Ok 1700000000000000, w).

Definition descriptor : ProviderDescriptor :=
  {| pd_name := "local"; pd_strategy := "source"; pd_implementation_digest := ""; pd_capabilities := [] |}.
Definition recipe : EnvironmentRecipe :=
  {| rec_recipe_revision_id := ""; rec_target_profile_id := ""; rec_target_release_id := ""; rec_strategy := "source";
     rec_artifacts := []; rec_expected_runtime_facts := []; rec_expected_configuration := [];
     rec_required_capabilities := []; rec_smoke_probe_ids := []; rec_isolation_policy_digest := "";
     rec_network_policy := "" |}.
Definition success : ProviderOutcome := {| po_succeeded := true; po_diagnostics := [] |}.
Definition unused {A} : eff world A := fun w => (Raise StopIteration, w).
Definition local_provider : EnvironmentProvider world :=
  {| prov_descriptor := descriptor; prov_plan _ := unused; prov_acquire _ _ _ := unused;
     prov_construct _ _ _ := unused; prov_inspect_runtime _ _ _ := unused; prov_smoke_verify _ _ _ := unused;
     prov_release _ _ := unused; prov_rollback _ _ w := (Ok success, w); prov_diagnose _ _ := unused |}.
Definition record : EnvironmentLifecycleRecord :=
  initial_record transaction recipe descriptor "cleanup_required" None [] (initial_transition "cleanup_required" 0).

Definition attempt : result EnvironmentLifecycleRecord * world :=
  cancel (H6 := journal_publisher (fun _ => "e") (fun _ => 0)) (dict_of provider_name [local_provider]) record
    "again" (events, tt).

Lemma cancel_after_terminal_lost_witness : is_ok attempt.1 = false.
Proof.
  destruct attempt as [[r'|e] w'] eqn:Ea; [exfalso|done].
  apply (cancel_after_terminal_lost (fun _ => "e") (fun _ => 0) (dict_of provider_name [local_provider]) record "again"
    local_provider (events, tt) success events tt closed_head) in Ea as [].
  - left.
  - done.
  - done.
  - by intros t v [= _ <-].
  - done.
  - done.
  - done.
Defined.
End LostSample.
