(* ===== verification/ResourceModels.v ===== *)
(** * Resource plans, machine inventory and admission reports

    The dataclasses of resource_models.py and of the part of models.py (the
    machine-doctor report) resource admission reads.  A record is the
    dataclass, its [Dataclass] instance the [__post_init__] validation, guard by
    guard and with the source's messages; [construct] is the constructor call.
    The [isinstance] guards hold by typing.  Fields carry a short prefix of
    their class. *)

From S2P Require Export Timestamps Json.

(** ** Closed vocabularies *)

Definition CONFIDENCE_CLASSES : list string :=
  ["known"; "measured"; "estimated"; "bounded"; "unknown"].
Definition MARGIN_CONFIDENCE_CLASSES : list string :=
  ["known"; "measured"; "estimated"; "bounded"].
Definition RESOURCE_POOL_KINDS : list string :=
  ["persistent_disk"; "environment_cache"; "build_scratch"; "execution_scratch";
   "result_spool"; "ram"; "swap"; "cpu"].
Definition RESOURCE_UNITS : list string := ["bytes"; "logical_cpu"].
Definition OPERATION_KINDS : list string := ["environment"; "campaign"; "shard"].
Definition ADMISSION_STAGES : list string := ["preflight"; "dynamic"].
Definition ADMISSION_OUTCOMES : list string := ["admitted"; "rejected"; "backpressure"; "drain"].
Definition EVALUATION_STATES : list string := ["pass"; "fail"; "unknown"].
Definition ISSUE_CATEGORIES : list string :=
  ["inventory"; "provider"; "capability"; "trust"; "resource"; "concurrency"; "plan"].
Definition TRUST_CLASSES : list string :=
  ["unknown"; "development"; "trusted_executioner"; "untrusted_public"].
Definition ACCURACY_CLASSES : list string := ["exact"; "bounded"; "estimated"; "unknown"].
Definition VISIBILITY_CLASSES : list string := ["host"; "process"; "configured"].
Definition RESOURCE_STATES : list string := ["observed"; "partial"; "unknown"].
Definition PROVIDER_STATES : list string :=
  ["available"; "detected_unverified"; "unavailable"; "unknown"].
Definition CAPABILITY_STATES : list string := ["supported"; "unsupported"; "unknown"].
Definition REPORT_STATES : list string := ["healthy"; "degraded"; "unsupported"].

(** ** Field validators *)

Definition _require_token (name value : string) : result unit :=
  require_token ValueError " must be a lowercase canonical token" name value.

Definition _require_nonnegative_safe_integer (name : string) (value : option Z) : result unit :=
  raise_if (negb (safe_nonneg_opt value))
    (ValueError (name +:+ " must be a non-negative safe integer or unknown")).

Definition _require_unique (name : string) (values : list string) : result unit :=
  require_unique ValueError " must not contain duplicate identities" name values.

Definition _validate_forecast (confidence : string) (expected upper_bound : option Z)
    (diagnostic : option string) : result unit :=
  raise_if (negb (mem confidence CONFIDENCE_CLASSES))
    (ValueError ("invalid resource confidence: " +:+ confidence));;
  _require_nonnegative_safe_integer "expected resource amount" expected;;
  _require_nonnegative_safe_integer "resource upper bound" upper_bound;;
  if String.eqb confidence "unknown" then
    raise_if (is_some expected || is_some upper_bound || opt_str_empty diagnostic)
      (ValueError "unknown forecasts require null amounts and a diagnostic")
  else
    match upper_bound with
    | None => Raise (ValueError (confidence +:+ " forecasts require a conservative upper bound"))
    | Some ub =>
        raise_if (mem confidence ["known"; "measured"; "estimated"] && is_none expected)
          (ValueError (confidence +:+ " forecasts require an expected amount"));;
        raise_if (match expected with Some e => ub <? e | None => false end)
          (ValueError "resource upper bound cannot be below the expected amount");;
        raise_if (String.eqb confidence "known" && negb (bool_decide (upper_bound = expected)))
          (ValueError "known forecasts require equal expected and upper-bound amounts")
    end.

(** CPU amounts are counted in [logical_cpu], every other pool in bytes. *)
Definition unit_guards (cpu_msg other_msg kind u : string) : result unit :=
  raise_if (String.eqb kind "cpu" && negb (String.eqb u "logical_cpu")) (ValueError cpu_msg);;
  raise_if (negb (String.eqb kind "cpu") && negb (String.eqb u "bytes")) (ValueError other_msg).

(** ** Plans *)

Record ResourceEstimate := {
  est_name : string;
  est_pool_kind : string;
  est_unit : string;
  est_expected : option Z;
  est_upper_bound : option Z;
  est_confidence : string;
  est_source : string;
  est_diagnostic : option string
}.

#[export] Instance ResourceEstimate_post_init : Dataclass ResourceEstimate := fun self =>
  _require_token "resource estimate name" (est_name self);;
  raise_if (negb (mem (est_pool_kind self) RESOURCE_POOL_KINDS))
    (ValueError ("unknown typed resource pool: " +:+ est_pool_kind self));;
  raise_if (negb (mem (est_unit self) RESOURCE_UNITS))
    (ValueError ("invalid resource unit: " +:+ est_unit self));;
  unit_guards "CPU estimates must use logical_cpu units" "non-CPU estimates must use byte units"
    (est_pool_kind self) (est_unit self);;
  raise_if (str_empty (est_source self)) (ValueError "resource estimate source is required");;
  _validate_forecast (est_confidence self) (est_expected self) (est_upper_bound self)
    (est_diagnostic self).

Record TransferForecast := {
  tf_name : string;
  tf_direction : string;
  tf_expected_bytes : option Z;
  tf_upper_bound_bytes : option Z;
  tf_confidence : string;
  tf_source : string;
  tf_diagnostic : option string
}.

#[export] Instance TransferForecast_post_init : Dataclass TransferForecast := fun self =>
  _require_token "transfer forecast name" (tf_name self);;
  raise_if (negb (mem (tf_direction self) ["download"; "upload"; "internal"]))
    (ValueError ("invalid transfer direction: " +:+ tf_direction self));;
  raise_if (str_empty (tf_source self)) (ValueError "transfer forecast source is required");;
  _validate_forecast (tf_confidence self) (tf_expected_bytes self) (tf_upper_bound_bytes self)
    (tf_diagnostic self).

Record WorkloadResourcePlan := {
  plan_operation_kind : string;
  plan_operation_id : string;
  plan_estimates : list ResourceEstimate;
  plan_transfers : list TransferForecast;
  plan_provider_name : option string;
  plan_provider_strategy : option string;
  plan_required_capabilities : list string;
  plan_eligible_trust_classes : list string;
  plan_requested_concurrency : Z;
  plan_mutation_permitted : bool
}.

#[export] Instance WorkloadResourcePlan_post_init : Dataclass WorkloadResourcePlan := fun self =>
  raise_if (negb (mem (plan_operation_kind self) OPERATION_KINDS))
    (ValueError ("invalid resource-plan operation kind: " +:+ plan_operation_kind self));;
  raise_if (negb (fullmatch IDENTITY_PATTERN (plan_operation_id self)))
    (ValueError "resource-plan operation ID must be a canonical rcid/opid identity");;
  raise_if (String.eqb (plan_operation_kind self) "environment" &&
      negb (fullmatch ENVIRONMENT_ID_PATTERN (plan_operation_id self)))
    (ValueError "environment resource plans must bind an operational environment UUIDv7");;
  raise_if (list_empty (plan_estimates self))
    (ValueError "resource plans require at least one typed estimate");;
  _require_unique "resource estimate names" (est_name <$> plan_estimates self);;
  _require_unique "transfer forecast names" (tf_name <$> plan_transfers self);;
  _require_unique "required capabilities" (plan_required_capabilities self);;
  _require_unique "eligible trust classes" (plan_eligible_trust_classes self);;
  for_each (plan_required_capabilities self) (_require_token "required machine capability");;
  raise_if (list_empty (plan_eligible_trust_classes self) ||
      existsb (fun v => negb (mem v TRUST_CLASSES)) (plan_eligible_trust_classes self))
    (ValueError "resource plans require registered eligible trust classes");;
  raise_if (negb (Bool.eqb (is_none (plan_provider_name self)) (is_none (plan_provider_strategy self))))
    (ValueError "provider name and strategy must be supplied together");;
  match plan_provider_name self with
  | None => Ok tt
  | Some name =>
      _require_token "machine provider name" name;;
      _require_token "machine provider strategy" (default "" (plan_provider_strategy self))
  end;;
  _require_nonnegative_safe_integer "requested concurrency" (Some (plan_requested_concurrency self));;
  raise_if (plan_requested_concurrency self <? 1)
    (ValueError "requested concurrency must be at least one");;
  raise_if (plan_mutation_permitted self)
    (ValueError "resource plans must be explicitly non-mutating").

(** ** Admission policy *)

Record ConfidenceMargin := { cm_confidence : string; cm_basis_points : Z }.

#[export] Instance ConfidenceMargin_post_init : Dataclass ConfidenceMargin := fun self =>
  raise_if (negb (mem (cm_confidence self) MARGIN_CONFIDENCE_CLASSES))
    (ValueError "margin confidence must be known, measured, estimated, or bounded");;
  _require_nonnegative_safe_integer "confidence margin basis points" (Some (cm_basis_points self));;
  raise_if (100000 <? cm_basis_points self)
    (ValueError "confidence margin cannot exceed 1000 percent").

Record PoolSafetyReserve := {
  psr_pool_kind : string;
  psr_minimum_units : Z;
  psr_capacity_basis_points : Z
}.

#[export] Instance PoolSafetyReserve_post_init : Dataclass PoolSafetyReserve := fun self =>
  raise_if (negb (mem (psr_pool_kind self) RESOURCE_POOL_KINDS))
    (ValueError ("unknown reserve pool: " +:+ psr_pool_kind self));;
  _require_nonnegative_safe_integer "minimum reserve" (Some (psr_minimum_units self));;
  _require_nonnegative_safe_integer "reserve basis points" (Some (psr_capacity_basis_points self));;
  raise_if (10000 <? psr_capacity_basis_points self)
    (ValueError "capacity reserve cannot exceed 100 percent").

Record AdmissionPolicy := {
  pol_confidence_margins : list ConfidenceMargin;
  pol_pool_reserves : list PoolSafetyReserve;
  pol_max_concurrency : Z;
  pol_inventory_max_age_seconds : Z
}.

#[export] Instance AdmissionPolicy_post_init : Dataclass AdmissionPolicy := fun self =>
  let confidence_names := cm_confidence <$> pol_confidence_margins self in
  raise_if (negb (forallb (fun c => mem c MARGIN_CONFIDENCE_CLASSES) confidence_names &&
                  forallb (fun c => mem c confidence_names) MARGIN_CONFIDENCE_CLASSES) ||
      negb (length confidence_names =? length MARGIN_CONFIDENCE_CLASSES)%nat)
    (ValueError "admission policy must define each non-unknown confidence margin exactly once");;
  _require_unique "pool reserve policies" (psr_pool_kind <$> pol_pool_reserves self);;
  _require_nonnegative_safe_integer "maximum concurrency" (Some (pol_max_concurrency self));;
  _require_nonnegative_safe_integer "inventory maximum age" (Some (pol_inventory_max_age_seconds self));;
  raise_if ((pol_max_concurrency self <? 1) || (pol_inventory_max_age_seconds self <? 1))
    (ValueError "concurrency and inventory maximum age must be positive").

(** [next(...)] without a default raises [StopIteration]. *)
Definition margin_basis_points (self : AdmissionPolicy) (confidence : string) : result Z :=
  match List.find (fun m => String.eqb (cm_confidence m) confidence) (pol_confidence_margins self) with
  | Some m => Ok (cm_basis_points m)
  | None => Raise StopIteration
  end.

Definition reserve (self : AdmissionPolicy) (pool_kind : string) : PoolSafetyReserve :=
  match List.find (fun r => String.eqb (psr_pool_kind r) pool_kind) (pol_pool_reserves self) with
  | Some r => r
  | None => {| psr_pool_kind := pool_kind; psr_minimum_units := 0; psr_capacity_basis_points := 0 |}
  end.

(** ** Admission context and issues *)

Record ActiveResourceUsage := { aru_pool_kind : string; aru_unit : string; aru_amount : Z }.

#[export] Instance ActiveResourceUsage_post_init : Dataclass ActiveResourceUsage := fun self =>
  raise_if (negb (mem (aru_pool_kind self) RESOURCE_POOL_KINDS))
    (ValueError ("unknown active resource pool: " +:+ aru_pool_kind self));;
  raise_if (negb (mem (aru_unit self) RESOURCE_UNITS))
    (ValueError ("invalid active-resource unit: " +:+ aru_unit self));;
  unit_guards "active CPU usage must use logical_cpu units" "active non-CPU usage must use byte units"
    (aru_pool_kind self) (aru_unit self);;
  _require_nonnegative_safe_integer "active resource amount" (Some (aru_amount self)).

Record AdmissionContext := {
  ctx_active_concurrency : Z;
  ctx_active_usage : list ActiveResourceUsage
}.

#[export] Instance AdmissionContext_post_init : Dataclass AdmissionContext := fun self =>
  _require_nonnegative_safe_integer "active concurrency" (Some (ctx_active_concurrency self));;
  _require_unique "active resource pools" (aru_pool_kind <$> ctx_active_usage self).

Record AdmissionIssue := {
  iss_code : string;
  iss_category : string;
  iss_message : string;
  iss_remediation : string;
  iss_recoverable : bool;
  iss_pool_kind : option string;
  iss_required : option Z;
  iss_available : option Z
}.

#[export] Instance AdmissionIssue_post_init : Dataclass AdmissionIssue := fun self =>
  _require_token "admission issue code" (iss_code self);;
  raise_if (negb (mem (iss_category self) ISSUE_CATEGORIES))
    (ValueError ("invalid admission issue category: " +:+ iss_category self));;
  raise_if (str_empty (iss_message self) || str_empty (iss_remediation self))
    (ValueError "admission issues require a message and remediation");;
  raise_if (match iss_pool_kind self with Some k => negb (mem k RESOURCE_POOL_KINDS) | None => false end)
    (ValueError ("unknown issue resource pool: " +:+ default "None" (iss_pool_kind self)));;
  _require_nonnegative_safe_integer "issue required amount" (iss_required self);;
  _require_nonnegative_safe_integer "issue available amount" (iss_available self).

(** ** Evaluations and the report *)

Record ResourceEvaluation := {
  ev_pool_kind : string;
  ev_unit : string;
  ev_estimate_names : list string;
  ev_expected : option Z;
  ev_upper_bound : option Z;
  ev_margin : option Z;
  ev_required : option Z;
  ev_observed_available : option Z;
  ev_inventory_accuracy : string;
  ev_inventory_source : string;
  ev_safety_reserve : option Z;
  ev_active_usage : Z;
  ev_post_admission_available : option Z;
  ev_backing_store : option string;
  ev_status : string
}.

#[export] Instance ResourceEvaluation_post_init : Dataclass ResourceEvaluation := fun self =>
  raise_if (negb (mem (ev_pool_kind self) RESOURCE_POOL_KINDS) || negb (mem (ev_unit self) RESOURCE_UNITS))
    (ValueError "resource evaluation must name a typed pool and unit");;
  unit_guards "CPU evaluations must use logical_cpu units" "non-CPU evaluations must use byte units"
    (ev_pool_kind self) (ev_unit self);;
  raise_if (negb (mem (ev_inventory_accuracy self) ["exact"; "bounded"; "estimated"; "unknown"]))
    (ValueError "resource evaluation must preserve registered inventory accuracy");;
  raise_if (str_empty (ev_inventory_source self))
    (ValueError "resource evaluation must preserve inventory provenance");;
  raise_if (list_empty (ev_estimate_names self))
    (ValueError "resource evaluation requires estimate identities");;
  _require_unique "resource evaluation estimates" (ev_estimate_names self);;
  for_each (ev_estimate_names self) (_require_token "resource evaluation estimate name");;
  for_each [("expected", ev_expected self); ("upper_bound", ev_upper_bound self);
            ("margin", ev_margin self); ("required", ev_required self);
            ("observed_available", ev_observed_available self);
            ("safety_reserve", ev_safety_reserve self);
            ("active_usage", Some (ev_active_usage self));
            ("post_admission_available", ev_post_admission_available self)]
    (fun p => _require_nonnegative_safe_integer p.1 p.2);;
  raise_if (negb (mem (ev_status self) EVALUATION_STATES))
    (ValueError ("invalid resource evaluation state: " +:+ ev_status self)).

Record BackingStoreEvaluation := {
  bse_backing_store : string;
  bse_pool_kinds : list string;
  bse_required : Z;
  bse_observed_available : Z;
  bse_safety_reserve : Z;
  bse_active_usage : Z;
  bse_post_admission_available : Z;
  bse_status : string
}.

Definition disk_pools : list string :=
  filter (fun k => k ∉ ["ram"; "swap"; "cpu"]) RESOURCE_POOL_KINDS.

#[export] Instance BackingStoreEvaluation_post_init : Dataclass BackingStoreEvaluation := fun self =>
  raise_if (str_empty (bse_backing_store self) || (length (bse_pool_kinds self) <? 2)%nat)
    (ValueError "backing-store evaluations require an identity and at least two logical pools");;
  _require_unique "backing-store pool kinds" (bse_pool_kinds self);;
  raise_if (existsb (fun v => negb (mem v disk_pools)) (bse_pool_kinds self))
    (ValueError "backing-store evaluations may contain only disk-backed pools");;
  for_each [("required", bse_required self); ("observed_available", bse_observed_available self);
            ("safety_reserve", bse_safety_reserve self); ("active_usage", bse_active_usage self);
            ("post_admission_available", bse_post_admission_available self)]
    (fun p => _require_nonnegative_safe_integer p.1 (Some p.2));;
  raise_if (negb (mem (bse_status self) ["pass"; "fail"]))
    (ValueError "backing-store evaluation status must be pass or fail").

Record ResourceAdmissionReport := {
  rep_reservation_id : string;
  rep_stage : string;
  rep_outcome : string;
  rep_observed_at : string;
  rep_inventory_observed_at : string;
  rep_plan : WorkloadResourcePlan;
  rep_policy : AdmissionPolicy;
  rep_context : AdmissionContext;
  rep_resource_evaluations : list ResourceEvaluation;
  rep_backing_store_evaluations : list BackingStoreEvaluation;
  rep_issues : list AdmissionIssue;
  rep_mutation_permitted : bool
}.

Definition same_members (l1 l2 : list string) : bool :=
  forallb (fun k => mem k l2) l1 && forallb (fun k => mem k l1) l2.

#[export] Instance ResourceAdmissionReport_post_init : Dataclass ResourceAdmissionReport := fun self =>
  let outcome := rep_outcome self in
  let issues := rep_issues self in
  raise_if (negb (fullmatch RESOURCE_RESERVATION_ID_PATTERN (rep_reservation_id self)))
    (ValueError "reservation ID must be an operational resource-reservation UUIDv7");;
  raise_if (negb (mem (rep_stage self) ADMISSION_STAGES) || negb (mem outcome ADMISSION_OUTCOMES))
    (ValueError "invalid admission stage or outcome");;
  require_timestamp (rep_observed_at self);;
  require_timestamp (rep_inventory_observed_at self);;
  _require_unique "resource evaluation pools" (ev_pool_kind <$> rep_resource_evaluations self);;
  _require_unique "backing-store evaluations" (bse_backing_store <$> rep_backing_store_evaluations self);;
  raise_if (String.eqb outcome "admitted" && negb (list_empty issues))
    (ValueError "admitted resource reports cannot retain blocking issues");;
  raise_if (negb (String.eqb outcome "admitted") && list_empty issues)
    (ValueError "non-admitted resource reports require explicit issues");;
  raise_if (String.eqb (rep_stage self) "preflight" && negb (mem outcome ["admitted"; "rejected"]))
    (ValueError "preflight outcomes must be admitted or rejected");;
  raise_if (String.eqb (rep_stage self) "dynamic" && String.eqb outcome "rejected")
    (ValueError "dynamic admission uses backpressure or drain instead of rejected");;
  raise_if (String.eqb outcome "backpressure" && existsb (fun i => negb (iss_recoverable i)) issues)
    (ValueError "backpressure reports may contain only recoverable issues");;
  raise_if (String.eqb outcome "drain" && negb (existsb (fun i => negb (iss_recoverable i)) issues))
    (ValueError "drain reports require at least one non-recoverable issue");;
  raise_if (negb (same_members (est_pool_kind <$> plan_estimates (rep_plan self))
                               (ev_pool_kind <$> rep_resource_evaluations self)))
    (ValueError "resource reports must evaluate every and only planned typed pool");;
  raise_if (String.eqb outcome "admitted" &&
      existsb (fun e => negb (String.eqb (ev_status e) "pass")) (rep_resource_evaluations self))
    (ValueError "admitted reports require every typed resource evaluation to pass");;
  raise_if (String.eqb outcome "admitted" &&
      existsb (fun e => negb (String.eqb (bse_status e) "pass")) (rep_backing_store_evaluations self))
    (ValueError "admitted reports require every shared backing-store evaluation to pass");;
  raise_if (rep_mutation_permitted self)
    (ValueError "admission reports must be explicitly non-mutating").

(** ** Machine inventory *)

Definition _require_nonnegative (name : string) (value : option Z) : result unit :=
  raise_if (match value with Some v => v <? 0 | None => false end)
    (ValueError (name +:+ " must be non-negative or unknown")).

Record ResourcePool := {
  pool_kind : string;
  pool_unit : string;
  pool_status : string;
  pool_capacity : option Z;
  pool_used : option Z;
  pool_reserved : Z;
  pool_available : option Z;
  pool_source : string;
  pool_accuracy : string;
  pool_visibility : string;
  pool_observed_at : string;
  pool_staleness_seconds : Z;
  pool_backing_store : option string
}.

#[export] Instance ResourcePool_post_init : Dataclass ResourcePool := fun self =>
  raise_if (str_empty (pool_kind self) || str_empty (pool_unit self) || str_empty (pool_source self))
    (ValueError "resource kind, unit, and source are required");;
  raise_if (negb (mem (pool_status self) RESOURCE_STATES))
    (ValueError ("invalid resource status: " +:+ pool_status self));;
  raise_if (negb (mem (pool_accuracy self) ACCURACY_CLASSES))
    (ValueError ("invalid resource accuracy: " +:+ pool_accuracy self));;
  raise_if (negb (mem (pool_visibility self) VISIBILITY_CLASSES))
    (ValueError ("invalid resource visibility: " +:+ pool_visibility self));;
  require_timestamp (pool_observed_at self);;
  for_each [("capacity", pool_capacity self); ("used", pool_used self);
            ("reserved", Some (pool_reserved self)); ("available", pool_available self);
            ("staleness_seconds", Some (pool_staleness_seconds self))]
    (fun p => _require_nonnegative p.1 p.2);;
  raise_if (String.eqb (pool_status self) "unknown" &&
      (is_some (pool_capacity self) || is_some (pool_used self) || is_some (pool_available self)))
    (ValueError "unknown resource measurements must remain null");;
  match pool_capacity self with
  | None => Ok tt
  | Some capacity =>
      for_each [("used", pool_used self); ("reserved", Some (pool_reserved self));
                ("available", pool_available self)]
        (fun p => raise_if (match p.2 with Some v => capacity <? v | None => false end)
                    (ValueError (p.1 +:+ " exceeds resource capacity")));;
      raise_if (match pool_used self, pool_available self with
                | Some used, Some available => capacity <? used + pool_reserved self + available
                | _, _ => false
                end)
        (ValueError "resource accounting exceeds capacity")
  end.

Record ProviderCapability := {
  prov_name : string;
  prov_availability : string;
  prov_strategies : list string;
  prov_observed_at : string;
  prov_accuracy : string;
  prov_visibility : string;
  prov_staleness_seconds : Z;
  prov_executable : option string
}.

#[export] Instance ProviderCapability_post_init : Dataclass ProviderCapability := fun self =>
  raise_if (negb (mem (prov_availability self) PROVIDER_STATES))
    (ValueError ("invalid provider availability: " +:+ prov_availability self));;
  require_timestamp (prov_observed_at self);;
  raise_if (negb (mem (prov_accuracy self) ACCURACY_CLASSES) ||
            negb (mem (prov_visibility self) VISIBILITY_CLASSES))
    (ValueError "provider accuracy and visibility must use registered classes");;
  _require_nonnegative "staleness_seconds" (Some (prov_staleness_seconds self));;
  raise_if (String.eqb (prov_availability self) "unknown" && negb (String.eqb (prov_accuracy self) "unknown"))
    (ValueError "unknown provider availability must have unknown accuracy");;
  raise_if (negb (mem (prov_availability self) ["available"; "detected_unverified"]) &&
            is_some (prov_executable self))
    (ValueError "only an available or detected provider may expose an executable").

Record Capability := {
  cap_name : string;
  cap_status : string;
  cap_observed_at : string;
  cap_value : json;
  cap_accuracy : string;
  cap_visibility : string;
  cap_staleness_seconds : Z
}.

Definition is_JNull (v : json) : bool := match v with JNull => true | _ => false end.

#[export] Instance Capability_post_init : Dataclass Capability := fun self =>
  raise_if (negb (mem (cap_status self) CAPABILITY_STATES))
    (ValueError ("invalid capability status: " +:+ cap_status self));;
  require_timestamp (cap_observed_at self);;
  raise_if (negb (mem (cap_accuracy self) ACCURACY_CLASSES) ||
            negb (mem (cap_visibility self) VISIBILITY_CLASSES))
    (ValueError "capability accuracy and visibility must use registered classes");;
  _require_nonnegative "staleness_seconds" (Some (cap_staleness_seconds self));;
  raise_if (String.eqb (cap_status self) "unknown" && negb (String.eqb (cap_accuracy self) "unknown"))
    (ValueError "unknown capability status must have unknown accuracy");;
  raise_if (mem (cap_status self) ["unsupported"; "unknown"] && negb (is_JNull (cap_value self)))
    (ValueError "unsupported or unknown capability values must remain null").

Record TrustObservation := {
  trust_class : string;
  trust_source : string;
  trust_configured : bool
}.

Record DoctorReport := {
  doc_status : string;
  doc_observed_at : string;
  doc_valid_until : string;
  doc_trust : TrustObservation;
  doc_resources : list ResourcePool;
  doc_providers : list ProviderCapability;
  doc_capabilities : list Capability
}.

#[export] Instance DoctorReport_post_init : Dataclass DoctorReport := fun self =>
  raise_if (negb (mem (doc_status self) REPORT_STATES))
    (ValueError ("invalid doctor status: " +:+ doc_status self));;
  require_timestamp (doc_observed_at self);;
  require_timestamp (doc_valid_until self).
