(* ===== verification/TelemetryModels.v ===== *)
(** * Telemetry records and calibration

    The dataclasses of telemetry_models.py, their rendering and decoding, and
    [build_calibration].  The constant fields (schema version, record type, the
    two authority flags) are left out of the records and written by [to_dict];
    [from_dict] checks them.  A decoded field of the wrong JSON type raises; which
    of several bad fields is reported first is not modelled. *)

From S2P Require Export ResourceModels StrictJson Timestamps.

Definition TELEMETRY_SCHEMA_VERSION : string := "operational-telemetry.v1".
Definition TELEMETRY_ID_PATTERN : regex := RSeq (RLit "opid:v1:telemetry:u7:") UUID7.
Definition METRIC_KINDS : list string :=
  ["resource-usage"; "transfer-volume"; "transfer-rate"; "wall-clock"; "output-volume"].
Definition METRIC_UNITS : list string := ["bytes"; "bytes_per_second"; "logical_cpu"; "milliseconds"].
Definition SAMPLE_QUALITIES : list string := ["complete"; "partial"].

Module Tel.
Definition OPERATION_KINDS : list string :=
  ["environment"; "campaign"; "shard"; "execution"; "transfer"; "provider"].

Definition _safe_integer (label : string) (value minimum : Z) : result unit :=
  raise_if (negb ((minimum <=? value) && (value <=? SAFE_INTEGER_MAX)))
    (ValueError (label +:+ " must be a safe integer of at least " +:+ dec minimum)).

Definition _token (label value : string) : result unit :=
  require_token ValueError " must be a lowercase canonical token" label value.

Definition _timestamp (label value : string) : result unit :=
  raise_if (64 <? str_len value) (ValueError (label +:+ " must be a bounded RFC 3339 timestamp"));;
  match iso_parse value with
  | None => Raise (ValueError (label +:+ " must be an RFC 3339 timestamp"))
  | Some d => raise_if (is_none (utcoffset d)) (ValueError (label +:+ " must include a UTC offset"))
  end.

Definition _reference `{PyTables} `{JCS} (label value : string) : result unit :=
  raise_if (str_empty value || (512 <? str_len value) || negb (str_forallb is_printable value))
    (ValueError (label +:+ " must be bounded printable text"));;
  _ ← canonical_object [("reference", JStr value)]; Ok tt.
End Tel.
Import Tel.

(** ** Decoding *)

Definition TypeError : exn := OtherException "TypeError" "".

(** [value[key]] of a dict that has the key. *)
Definition field (key : string) (value : list (string * json)) : json :=
  match List.find (fun p => String.eqb key p.1) value with Some p => p.2 | None => JNull end.
Definition as_str (v : json) : result string := match v with JStr s => Ok s | _ => Raise TypeError end.
Definition as_opt_str (v : json) : result (option string) :=
  match v with JNull => Ok None | JStr s => Ok (Some s) | _ => Raise TypeError end.
Definition as_int (v : json) : result Z := match v with JInt z => Ok z | _ => Raise TypeError end.
(** [set(value) != fields] *)
Definition fields_differ (value : list (string * json)) (fields : list string) : bool :=
  negb (forallb (fun k => mem k fields) (fst <$> value) && forallb (fun k => mem k (fst <$> value)) fields).

(** ** Samples *)

Record TelemetryMetric := {
  tm_name : string;
  tm_metric_kind : string;
  tm_unit : string;
  tm_value : Z;
  tm_pool_kind : option string
}.

#[export] Instance TelemetryMetric_post_init : Dataclass TelemetryMetric := fun self =>
  _token "telemetry metric name" (tm_name self);;
  raise_if (negb (mem (tm_metric_kind self) METRIC_KINDS)) (ValueError "telemetry metric kind is unsupported");;
  raise_if (negb (mem (tm_unit self) METRIC_UNITS)) (ValueError "telemetry metric unit is unsupported");;
  _safe_integer "telemetry metric value" (tm_value self) 0;;
  (if String.eqb (tm_metric_kind self) "resource-usage" then
     raise_if (match tm_pool_kind self with Some k => negb (mem k RESOURCE_POOL_KINDS) | None => true end)
       (ValueError "resource telemetry requires a typed resource pool");;
     raise_if (negb (String.eqb (tm_unit self)
                       (if bool_decide (tm_pool_kind self = Some "cpu") then "logical_cpu" else "bytes")))
       (ValueError "resource telemetry unit does not match its typed pool")
   else raise_if (is_some (tm_pool_kind self)) (ValueError "non-resource telemetry cannot claim a resource pool"));;
  raise_if (mem (tm_metric_kind self) ["transfer-volume"; "output-volume"] && negb (String.eqb (tm_unit self) "bytes"))
    (ValueError "volume telemetry must use bytes");;
  raise_if (String.eqb (tm_metric_kind self) "transfer-rate" && negb (String.eqb (tm_unit self) "bytes_per_second"))
    (ValueError "transfer-rate telemetry must use bytes_per_second");;
  raise_if (String.eqb (tm_metric_kind self) "wall-clock" && negb (String.eqb (tm_unit self) "milliseconds"))
    (ValueError "wall-clock telemetry must use milliseconds").

#[export] Instance TelemetryMetric_eq_dec : EqDecision TelemetryMetric.
Proof. solve_decision. Defined.

Definition metric_to_dict (self : TelemetryMetric) : list (string * json) :=
  [("metric_kind", JStr (tm_metric_kind self)); ("name", JStr (tm_name self));
   ("pool_kind", JOptStr (tm_pool_kind self)); ("unit", JStr (tm_unit self)); ("value", JInt (tm_value self))].

Definition metric_from_dict (v : json) : result TelemetryMetric :=
  match v with
  | JObj value =>
      raise_if (fields_differ value ["metric_kind"; "name"; "pool_kind"; "unit"; "value"])
        (ValueError "telemetry metric fields are incomplete or unexpected");;
      name ← as_str (field "name" value);
      metric_kind ← as_str (field "metric_kind" value);
      unit ← as_str (field "unit" value);
      amount ← as_int (field "value" value);
      pool_kind ← as_opt_str (field "pool_kind" value);
      construct {| tm_name := name; tm_metric_kind := metric_kind; tm_unit := unit; tm_value := amount;
                   tm_pool_kind := pool_kind |}
  | _ => Raise TypeError
  end.

Record TelemetrySample := {
  ts_sample_id : string;
  ts_operation_kind : string;
  ts_calibration_key : string;
  ts_attempt_id : string;
  ts_observed_at : string;
  ts_quality : string;
  ts_source : string;
  ts_metrics : list TelemetryMetric
}.

#[export] Instance TelemetrySample_eq_dec : EqDecision TelemetrySample.
Proof. solve_decision. Defined.

Definition telemetry_sample_to_dict (self : TelemetrySample) : list (string * json) :=
  [("attempt_id", JStr (ts_attempt_id self)); ("calibration_key", JStr (ts_calibration_key self));
   ("canonical_authority", JBool false);
   ("metrics", JArr ((fun m => JObj (metric_to_dict m)) <$> sorted_by tm_name (ts_metrics self)));
   ("observed_at", JStr (ts_observed_at self)); ("operation_kind", JStr (ts_operation_kind self));
   ("quality", JStr (ts_quality self)); ("record_type", JStr "telemetry-sample");
   ("sample_id", JStr (ts_sample_id self)); ("schema_version", JStr TELEMETRY_SCHEMA_VERSION);
   ("semantic_authority", JBool false); ("source", JStr (ts_source self))].

Section Telemetry.
Context `{PyTables} `{JCS}.

#[export] Instance TelemetrySample_post_init : Dataclass TelemetrySample := fun self =>
  raise_if (negb (fullmatch TELEMETRY_ID_PATTERN (ts_sample_id self)))
    (ValueError "telemetry sample ID must be an operational telemetry UUIDv7");;
  raise_if (negb (mem (ts_operation_kind self) OPERATION_KINDS))
    (ValueError "telemetry operation kind is unsupported");;
  _reference "telemetry calibration key" (ts_calibration_key self);;
  raise_if (negb (str_startswith (ts_attempt_id self) "opid:v1:") ||
            negb (fullmatch IDENTITY_PATTERN (ts_attempt_id self)))
    (ValueError "telemetry attempt ID must be a canonical operational identity");;
  _timestamp "telemetry observation time" (ts_observed_at self);;
  raise_if (negb (mem (ts_quality self) SAMPLE_QUALITIES)) (ValueError "telemetry sample quality is unsupported");;
  _token "telemetry source" (ts_source self);;
  raise_if (list_empty (ts_metrics self)) (ValueError "telemetry samples require at least one metric");;
  raise_if (128 <? Z.of_nat (length (ts_metrics self)))
    (ValueError "telemetry samples require at most 128 typed metrics");;
  raise_if (has_duplicates (tm_name <$> ts_metrics self))
    (ValueError "telemetry samples cannot contain duplicate metric names");;
  _ ← canonical_object (telemetry_sample_to_dict self); Ok tt.

Definition sample_from_dict (value : list (string * json)) : result TelemetrySample :=
  raise_if (fields_differ value
              ["attempt_id"; "calibration_key"; "canonical_authority"; "metrics"; "observed_at"; "operation_kind";
               "quality"; "record_type"; "sample_id"; "schema_version"; "semantic_authority"; "source"] ||
            negb (match field "metrics" value with JArr _ => true | _ => false end))
    (ValueError "telemetry sample fields are incomplete or unexpected");;
  sample_id ← as_str (field "sample_id" value);
  operation_kind ← as_str (field "operation_kind" value);
  calibration_key ← as_str (field "calibration_key" value);
  attempt_id ← as_str (field "attempt_id" value);
  observed_at ← as_str (field "observed_at" value);
  quality ← as_str (field "quality" value);
  source ← as_str (field "source" value);
  metrics ← map_result metric_from_dict (match field "metrics" value with JArr l => l | _ => [] end);
  raise_if (negb (match field "canonical_authority" value with JBool false => true | _ => false end))
    (ValueError "operational telemetry cannot claim canonical authority");;
  raise_if (negb (match field "semantic_authority" value with JBool false => true | _ => false end))
    (ValueError "operational telemetry cannot claim regex semantic authority");;
  raise_if (negb (match field "schema_version" value with JStr s => String.eqb s TELEMETRY_SCHEMA_VERSION | _ => false end) ||
            negb (match field "record_type" value with JStr s => String.eqb s "telemetry-sample" | _ => false end))
    (ValueError "unsupported telemetry sample schema");;
  construct {| ts_sample_id := sample_id; ts_operation_kind := operation_kind; ts_calibration_key := calibration_key;
               ts_attempt_id := attempt_id; ts_observed_at := observed_at; ts_quality := quality; ts_source := source;
               ts_metrics := metrics |}.
End Telemetry.
