(* ===== verification/Calibration.v ===== *)
(** * Calibration of resource estimates

    [CalibrationPolicy], [CalibrationSnapshot] and [build_calibration] of
    telemetry_models.py, and what a snapshot promises: its numbers are nearest-rank
    percentiles of the newest complete measurements and its upper bound covers
    all of them. *)

From S2P Require Export TelemetryModels CleanText.
Import Tel.

Record CalibrationPolicy := {
  cpol_minimum_samples : Z;
  cpol_maximum_samples : Z;
  cpol_expected_percentile_basis_points : Z;
  cpol_upper_percentile_basis_points : Z;
  cpol_headroom_basis_points : Z
}.

(** [CalibrationPolicy()] *)
Definition default_policy : CalibrationPolicy :=
  {| cpol_minimum_samples := 3; cpol_maximum_samples := 64; cpol_expected_percentile_basis_points := 5000;
     cpol_upper_percentile_basis_points := 9500; cpol_headroom_basis_points := 2500 |}.

Definition percentile_guard (label : string) (value : Z) : result unit :=
  _safe_integer label value 1;;
  raise_if (10000 <? value) (ValueError (label +:+ " cannot exceed 100 percent")).

#[export] Instance CalibrationPolicy_post_init : Dataclass CalibrationPolicy := fun self =>
  _safe_integer "minimum calibration samples" (cpol_minimum_samples self) 1;;
  _safe_integer "maximum calibration samples" (cpol_maximum_samples self) (cpol_minimum_samples self);;
  raise_if (10000 <? cpol_maximum_samples self) (ValueError "calibration sample window cannot exceed 10000");;
  percentile_guard "expected calibration percentile" (cpol_expected_percentile_basis_points self);;
  percentile_guard "upper calibration percentile" (cpol_upper_percentile_basis_points self);;
  raise_if (cpol_upper_percentile_basis_points self <? cpol_expected_percentile_basis_points self)
    (ValueError "expected calibration percentile cannot exceed upper percentile");;
  _safe_integer "calibration headroom basis points" (cpol_headroom_basis_points self) 0;;
  raise_if (100000 <? cpol_headroom_basis_points self) (ValueError "calibration headroom cannot exceed 1000 percent").

Definition calibration_policy_to_dict (self : CalibrationPolicy) : json :=
  JObj [("expected_percentile_basis_points", JInt (cpol_expected_percentile_basis_points self));
        ("headroom_basis_points", JInt (cpol_headroom_basis_points self));
        ("maximum_samples", JInt (cpol_maximum_samples self)); ("minimum_samples", JInt (cpol_minimum_samples self));
        ("upper_percentile_basis_points", JInt (cpol_upper_percentile_basis_points self))].

(** [values[rank - 1]] of the rank [max(1, ceil(len * basis_points / 10000))]. *)
Definition nearest_index (n basis_points : Z) : Z := Z.max 1 ((n * basis_points + 9999) / 10000).
Definition tuple_item (item : option Z) : result Z :=
  match item with
  | Some v => Ok v
  | None => Raise (OtherException "IndexError" "tuple index out of range")
  end.
Definition _nearest_rank (values : list Z) (basis_points : Z) : result Z :=
  tuple_item (values !! Z.to_nat (nearest_index (Z.of_nat (length values)) basis_points - 1)).

Record CalibrationSnapshot := {
  csn_operation_kind : string;
  csn_calibration_key : string;
  csn_metric_name : string;
  csn_pool_kind : string;
  csn_unit : string;
  csn_sample_ids : list string;
  csn_sample_count : Z;
  csn_minimum : option Z;
  csn_maximum : option Z;
  csn_expected : option Z;
  csn_upper_bound : option Z;
  csn_eligible : bool;
  csn_calibration_digest : string;
  csn_policy : CalibrationPolicy
}.

Definition snapshot_to_dict (self : CalibrationSnapshot) : list (string * json) :=
  [("calibration_digest", JStr (csn_calibration_digest self)); ("calibration_key", JStr (csn_calibration_key self));
   ("canonical_authority", JBool false); ("eligible", JBool (csn_eligible self));
   ("expected", JOptInt (csn_expected self)); ("maximum", JOptInt (csn_maximum self));
   ("metric_name", JStr (csn_metric_name self)); ("minimum", JOptInt (csn_minimum self));
   ("operation_kind", JStr (csn_operation_kind self)); ("policy", calibration_policy_to_dict (csn_policy self));
   ("pool_kind", JStr (csn_pool_kind self)); ("record_type", JStr "calibration-snapshot");
   ("sample_count", JInt (csn_sample_count self)); ("sample_ids", JStrs (csn_sample_ids self));
   ("schema_version", JStr TELEMETRY_SCHEMA_VERSION); ("semantic_authority", JBool false);
   ("unit", JStr (csn_unit self)); ("upper_bound", JOptInt (csn_upper_bound self))].

(** [minimum <= expected <= maximum <= upper_bound] of an eligible snapshot. *)
Definition eligible_guards (self : CalibrationSnapshot) : result unit :=
  match csn_minimum self, csn_expected self, csn_maximum self, csn_upper_bound self with
  | Some low, Some expected, Some high, Some upper =>
      raise_if (negb ((low <=? expected) && (expected <=? high) && (high <=? upper)))
        (ValueError "eligible calibration bounds are inconsistent");;
      raise_if (csn_sample_count self <? cpol_minimum_samples (csn_policy self))
        (ValueError "eligible calibration snapshots require the minimum sample count")
  | _, _, _, _ => Raise (ValueError "eligible calibration snapshots require numeric bounds")
  end.

Definition bound_guard (label : string) (value : option Z) : result unit :=
  match value with Some z => _safe_integer label z 0 | None => Ok tt end.

Section Calibration.
Context `{PyTables} `{JCS}.

#[export] Instance CalibrationSnapshot_post_init : Dataclass CalibrationSnapshot := fun self =>
  raise_if (negb (mem (csn_operation_kind self) OPERATION_KINDS))
    (ValueError "calibration operation kind is unsupported");;
  _reference "calibration key" (csn_calibration_key self);;
  _token "calibration metric name" (csn_metric_name self);;
  raise_if (negb (mem (csn_pool_kind self) RESOURCE_POOL_KINDS))
    (ValueError "calibration snapshot requires a typed resource pool");;
  raise_if (negb (mem (csn_unit self) ["bytes"; "logical_cpu"])) (ValueError "calibration snapshot unit is unsupported");;
  unit_guards "CPU calibration must use logical_cpu" "non-CPU calibration must use bytes" (csn_pool_kind self) (csn_unit self);;
  _safe_integer "calibration sample count" (csn_sample_count self) 0;;
  raise_if (negb (csn_sample_count self =? Z.of_nat (length (csn_sample_ids self))) || has_duplicates (csn_sample_ids self))
    (ValueError "calibration sample IDs must be unique and match the sample count");;
  raise_if (existsb (fun v => negb (fullmatch TELEMETRY_ID_PATTERN v)) (csn_sample_ids self))
    (ValueError "calibration snapshot contains an invalid telemetry sample ID");;
  bound_guard "calibration minimum" (csn_minimum self);;
  bound_guard "calibration maximum" (csn_maximum self);;
  bound_guard "calibration expected" (csn_expected self);;
  bound_guard "calibration upper bound" (csn_upper_bound self);;
  (if csn_eligible self then eligible_guards self
   else raise_if (is_some (csn_minimum self) || is_some (csn_maximum self) || is_some (csn_expected self) ||
                  is_some (csn_upper_bound self))
          (ValueError "ineligible calibration snapshots cannot publish numeric recommendations"));;
  raise_if (negb (fullmatch SHA256_PATTERN (csn_calibration_digest self)))
    (ValueError "calibration digest must be SHA-256");;
  _ ← canonical_object (snapshot_to_dict self); Ok tt.

(** What a calibration is asked for. *)
Record request := {
  rq_operation_kind : string;
  rq_calibration_key : string;
  rq_metric_name : string;
  rq_pool_kind : string;
  rq_unit : string
}.

Definition sample_selected (rq : request) (sample : TelemetrySample) : bool :=
  String.eqb (ts_operation_kind sample) (rq_operation_kind rq) &&
  String.eqb (ts_calibration_key sample) (rq_calibration_key rq) && String.eqb (ts_quality sample) "complete".
Definition metric_selected (rq : request) (metric : TelemetryMetric) : bool :=
  String.eqb (tm_name metric) (rq_metric_name rq) && String.eqb (tm_metric_kind metric) "resource-usage" &&
  bool_decide (tm_pool_kind metric = Some (rq_pool_kind rq)) && String.eqb (tm_unit metric) (rq_unit rq).

(** The measurements asked for, of all samples. *)
Definition measurements (rq : request) (samples : list TelemetrySample) : list (TelemetrySample * TelemetryMetric) :=
  flat_map (fun sample => if sample_selected rq sample
    then (fun metric => (sample, metric)) <$> List.filter (metric_selected rq) (ts_metrics sample) else []) samples.

(** The newest [maximum_samples] of them, by observation time and identifier. *)
Definition measurement_key (item : TelemetrySample * TelemetryMetric) : string * string :=
  (ts_observed_at item.1, ts_sample_id item.1).
Definition window (rq : request) (policy : CalibrationPolicy) (samples : list TelemetrySample) :=
  let selected := sorted_by measurement_key (measurements rq samples) in
  drop (length selected - Z.to_nat (cpol_maximum_samples policy)) selected.

Definition digest_payload (rq : request) (policy : CalibrationPolicy)
    (selected : list (TelemetrySample * TelemetryMetric)) : list (string * json) :=
  [("calibration_key", JStr (rq_calibration_key rq)); ("metric_name", JStr (rq_metric_name rq));
   ("operation_kind", JStr (rq_operation_kind rq)); ("policy", calibration_policy_to_dict policy);
   ("pool_kind", JStr (rq_pool_kind rq)); ("sample_ids", JStrs ((fun item => ts_sample_id item.1) <$> selected));
   ("unit", JStr (rq_unit rq)); ("values", JArr ((fun item => JInt (tm_value item.2)) <$> selected))].

Definition snapshot_of (rq : request) (policy : CalibrationPolicy) (sample_ids : list string) (digest : string)
    (low high expected upper : option Z) (eligible : bool) : CalibrationSnapshot :=
  {| csn_operation_kind := rq_operation_kind rq; csn_calibration_key := rq_calibration_key rq;
     csn_metric_name := rq_metric_name rq; csn_pool_kind := rq_pool_kind rq; csn_unit := rq_unit rq;
     csn_sample_ids := sample_ids; csn_sample_count := Z.of_nat (length sample_ids); csn_minimum := low;
     csn_maximum := high; csn_expected := expected; csn_upper_bound := upper; csn_eligible := eligible;
     csn_calibration_digest := digest; csn_policy := policy |}.

Definition build_calibration (samples : list TelemetrySample) (rq : request) (policy : CalibrationPolicy)
    : result CalibrationSnapshot :=
  let selected := window rq policy samples in
  let sample_ids := (fun item => ts_sample_id item.1) <$> selected in
  '(_, digest) ← canonical_object (digest_payload rq policy selected);
  if Z.of_nat (length selected) <? cpol_minimum_samples policy then
    construct (snapshot_of rq policy sample_ids digest None None None None false)
  else
    let values := sorted_by id ((fun item => tm_value item.2) <$> selected) in
    expected ← _nearest_rank values (cpol_expected_percentile_basis_points policy);
    upper_observed ← _nearest_rank values (cpol_upper_percentile_basis_points policy);
    let upper_bound := (upper_observed * (10000 + cpol_headroom_basis_points policy) + 9999) / 10000 in
    let upper_bound := if SAFE_INTEGER_MAX <? upper_bound then SAFE_INTEGER_MAX else upper_bound in
    low ← tuple_item (head values);
    high ← tuple_item (last values);
    construct (snapshot_of rq policy sample_ids digest (Some low) (Some high) (Some expected)
                 (Some (Z.max (Z.max high expected) upper_bound)) true).
End Calibration.

(** ** Percentiles *)

Definition count_le (v : Z) (l : list Z) : Z := Z.of_nat (length (List.filter (fun w => w <=? v) l)).
Definition count_lt (v : Z) (l : list Z) : Z := Z.of_nat (length (List.filter (fun w => w <? v) l)).

(** [v] is the nearest-rank percentile of the measurements: the smallest of them
    that at least [basis_points] of 10000 do not exceed. *)
Record percentile (l : list Z) (basis_points v : Z) : Prop := {
  pct_member : v ∈ l;
  pct_covers : basis_points * Z.of_nat (length l) <= 10000 * count_le v l;
  pct_least : 10000 * count_lt v l < basis_points * Z.of_nat (length l)
}.

Lemma count_app (p : Z -> bool) l k :
  length (List.filter p (l ++ k)) = (length (List.filter p l) + length (List.filter p k))%nat.
Proof. by rewrite List.filter_app, length_app. Qed.

Lemma count_all (p : Z -> bool) l : Forall (fun v => p v = true) l -> length (List.filter p l) = length l.
Proof. induction 1 as [|v l Hv Hl IH]; cbn; [done|]. by rewrite Hv; cbn; rewrite IH. Qed.
Lemma count_none (p : Z -> bool) l : Forall (fun v => p v = false) l -> length (List.filter p l) = 0%nat.
Proof. induction 1 as [|v l Hv Hl IH]; cbn; [done|]. by rewrite Hv. Qed.
Lemma count_bound (p : Z -> bool) l : (length (List.filter p l) <= length l)%nat.
Proof. induction l as [|v l IH]; cbn; [done|]. destruct (p v); cbn; lia. Qed.

(** Around position [i] of an ascending list. *)
Lemma sorted_split (l : list Z) i v :
  StronglySorted (key_le id) l -> l !! i = Some v ->
  Forall (fun w => w <= v) (take (S i) l) /\ Forall (fun w => v <= w) (drop i l).
Proof.
  intros Hs. revert i. induction Hs as [|x l Hs IH Hx]; intros [|i] Hi; try done.
  - injection Hi as ->. split; [by repeat constructor|]. constructor; [lia|].
    eapply Forall_impl; [exact Hx|]. unfold key_le, key_leb. cbn. lia.
  - cbn in Hi |- *. destruct (IH i Hi) as [H1 H2]. split; [|done]. constructor; [|done].
    rewrite Forall_forall in Hx. specialize (Hx v). unfold key_le, key_leb in Hx. cbn in Hx.
    apply Z.leb_le, Hx. by eapply list_elem_of_lookup_2.
Qed.

Lemma nearest_index_bounds n bp : 0 < n -> 1 <= bp <= 10000 ->
  1 <= nearest_index n bp <= n /\ bp * n <= 10000 * nearest_index n bp /\ 10000 * (nearest_index n bp - 1) < bp * n.
Proof. intros Hn Hb. unfold nearest_index. nia. Qed.

Lemma nearest_rank_percentile l bp :
  StronglySorted (key_le id) l -> l <> [] -> 1 <= bp <= 10000 ->
  exists v, _nearest_rank l bp = Ok v /\ percentile l bp v.
Proof.
  intros Hs Hl Hb. destruct (nearest_index_bounds (Z.of_nat (length l)) bp) as (Hr & Hc & Hlt); [destruct l; cbn; [done|lia]|done|].
  unfold _nearest_rank. set (r := nearest_index _ bp) in *.
  destruct (lookup_lt_is_Some_2 l (Z.to_nat (r - 1))) as [v Hv]; [lia|]. exists v. rewrite Hv. split; [done|].
  destruct (sorted_split l _ v Hs Hv) as [Hle Hge]. constructor.
  - by eapply list_elem_of_lookup_2.
  - assert (r <= count_le v l); [|lia]. unfold count_le. rewrite <- (take_drop (S (Z.to_nat (r - 1))) l) at 1.
    rewrite count_app, count_all, length_take; [lia|]. eapply Forall_impl; [exact Hle|]. cbn. lia.
  - assert (count_lt v l <= r - 1); [|lia]. unfold count_lt. rewrite <- (take_drop (Z.to_nat (r - 1)) l) at 1.
    rewrite count_app, (count_none _ (drop _ _)); [|eapply Forall_impl; [exact Hge|]; cbn; lia].
    pose proof (count_bound (fun w => w <? v) (take (Z.to_nat (r - 1)) l)) as Hbd. rewrite length_take in Hbd. lia.
Qed.

Lemma percentile_perm l k bp v : l ≡ₚ k -> percentile l bp v -> percentile k bp v.
Proof.
  intros Hp [H1 H2 H3].
  assert (forall p : Z -> bool, length (List.filter p l) = length (List.filter p k)) as Hf.
  { intros p. clear -Hp. induction Hp; cbn; try done; repeat (destruct (p _)); cbn; lia. }
  unfold count_le, count_lt in *. constructor; [by rewrite <- Hp| |]; unfold count_le, count_lt; rewrite <- Hf, <- Hp; done.
Qed.

(** ** The window *)

Section Windows.
Context (rq : request) (policy : CalibrationPolicy).

(** Each sample measures a metric at most once, so its identifier occurs at most once. *)
Definition distinct_metrics (samples : list TelemetrySample) : Prop :=
  Forall (fun sample => NoDup (tm_name <$> ts_metrics sample)) samples.

Lemma one_measurement sample :
  NoDup (tm_name <$> ts_metrics sample) -> (length (List.filter (metric_selected rq) (ts_metrics sample)) <= 1)%nat.
Proof.
  intros Hn. apply (NoDup_fmap_lfilter tm_name (metric_selected rq)) in Hn.
  assert (Forall (fun m => tm_name m = rq_metric_name rq) (List.filter (metric_selected rq) (ts_metrics sample))) as Hf.
  { apply Forall_forall. intros m [_ Hm]%elem_of_lfilter. unfold metric_selected in Hm. bool_simp. done. }
  destruct (List.filter _ _) as [|m1 [|m2 l]]; cbn; [lia|lia|]. exfalso.
  apply Forall_cons in Hf as [H1 [H2 _]%Forall_cons]. cbn in Hn. apply NoDup_cons in Hn as [Hn _].
  apply Hn. rewrite H1, H2. left.
Qed.

Lemma measurement_ids samples : distinct_metrics samples ->
  sublist ((fun item => ts_sample_id item.1) <$> measurements rq samples) (ts_sample_id <$> samples).
Proof.
  induction 1 as [|s samples Hs _ IH]; [done|]. change (measurements rq (s :: samples)) with
    ((if sample_selected rq s then (fun metric => (s, metric)) <$> List.filter (metric_selected rq) (ts_metrics s) else []) ++
     measurements rq samples)%list.
  rewrite fmap_app, fmap_cons. destruct (sample_selected rq s); [|by apply sublist_cons].
  apply one_measurement in Hs. destruct (List.filter _ _) as [|m [|]]; cbn in *; [by apply sublist_cons|by apply sublist_skip|lia].
Qed.

Lemma measurement_elem samples s m :
  (s, m) ∈ measurements rq samples <-> s ∈ samples /\ sample_selected rq s = true /\ m ∈ ts_metrics s /\ metric_selected rq m = true.
Proof.
  unfold measurements. rewrite list_elem_of_In, in_flat_map. setoid_rewrite <- list_elem_of_In. split.
  - intros (s' & Hs & Hin). destruct (sample_selected rq s') eqn:E; [|by apply elem_of_nil in Hin].
    apply list_elem_of_fmap in Hin as (m' & [= -> ->] & Hm). by apply elem_of_lfilter in Hm as [? ?].
  - intros (Hs & Es & Hm & Em). exists s. split; [done|]. rewrite Es. apply list_elem_of_fmap. exists m. split; [done|].
    by apply elem_of_lfilter.
Qed.

Lemma measurements_perm samples samples' : samples ≡ₚ samples' -> measurements rq samples ≡ₚ measurements rq samples'.
Proof. intros Hp. unfold measurements. by rewrite Hp. Qed.

Lemma window_perm samples samples' :
  samples ≡ₚ samples' -> NoDup (ts_sample_id <$> samples) -> distinct_metrics samples ->
  window rq policy samples = window rq policy samples'.
Proof.
  intros Hp Hn Hd. unfold window.
  rewrite (sorted_by_ext measurement_key (measurements rq samples) (measurements rq samples')); [done| |by apply measurements_perm].
  apply (NoDup_fmap_1 snd). rewrite <- list_fmap_compose. by apply (sublist_NoDup _ _ Hn), measurement_ids.
Qed.

Lemma window_sublist samples : exists l, l ++ window rq policy samples ≡ₚ measurements rq samples.
Proof.
  unfold window. set (k := (_ - _)%nat). exists (take k (sorted_by measurement_key (measurements rq samples))). by rewrite take_drop, sorted_by_perm.
Qed.

Lemma window_elem samples item : item ∈ window rq policy samples -> item ∈ measurements rq samples.
Proof. intros Hi. destruct (window_sublist samples) as (l & <-). set_solver. Qed.

Lemma window_ids_NoDup samples : distinct_metrics samples -> NoDup (ts_sample_id <$> samples) ->
  NoDup ((fun item => ts_sample_id item.1) <$> window rq policy samples).
Proof.
  intros Hd Hn. assert (NoDup ((fun item => ts_sample_id item.1) <$> measurements rq samples)) as Hm.
  { by apply (sublist_NoDup _ _ Hn), measurement_ids. }
  destruct (window_sublist samples) as (l & Hl). rewrite <- Hl, fmap_app in Hm. by apply NoDup_app in Hm as (_ & _ & ?).
Qed.

Definition window_values (samples : list TelemetrySample) : list Z :=
  (fun item => tm_value item.2) <$> window rq policy samples.
End Windows.

(** ** What a calibration promises *)

(** [snapshot] summarizes the measured [values]. *)
Record summarizes (policy : CalibrationPolicy) (values : list Z) (snapshot : CalibrationSnapshot) : Prop := {
  sum_eligible : csn_eligible snapshot = (cpol_minimum_samples policy <=? Z.of_nat (length values));
  sum_silent : csn_eligible snapshot = false -> csn_expected snapshot = None /\ csn_upper_bound snapshot = None;
  sum_expected : csn_eligible snapshot = true -> exists e, csn_expected snapshot = Some e /\
    percentile values (cpol_expected_percentile_basis_points policy) e;
  sum_upper : csn_eligible snapshot = true -> exists u q, csn_upper_bound snapshot = Some u /\ u <= SAFE_INTEGER_MAX /\
    (forall v, v ∈ values -> v <= u) /\ percentile values (cpol_upper_percentile_basis_points policy) q /\
    Z.min SAFE_INTEGER_MAX (q + (q * cpol_headroom_basis_points policy + 9999) / 10000) <= u
}.

Definition valid_request `{PyTables} `{JCS} (rq : request) : Prop :=
  rq_operation_kind rq ∈ Tel.OPERATION_KINDS /\
  _reference "calibration key" (rq_calibration_key rq) = Ok tt /\
  fullmatch TOKEN_PATTERN (rq_metric_name rq) = true /\ rq_pool_kind rq ∈ RESOURCE_POOL_KINDS /\
  rq_unit rq = (if String.eqb (rq_pool_kind rq) "cpu" then "logical_cpu" else "bytes").

Lemma policy_facts policy : valid policy ->
  1 <= cpol_minimum_samples policy <= cpol_maximum_samples policy /\ cpol_maximum_samples policy <= 10000 /\
  1 <= cpol_expected_percentile_basis_points policy <= cpol_upper_percentile_basis_points policy /\
  cpol_upper_percentile_basis_points policy <= 10000 /\ 0 <= cpol_headroom_basis_points policy <= 100000.
Proof.
  unfold valid, post_init, CalibrationPolicy_post_init, percentile_guard, _safe_integer. intros Hv. ok_inv. bool_simp. lia.
Qed.

(** The first and the last of an ascending list. *)
Lemma extremes (l : list Z) : StronglySorted (key_le id) l -> l <> [] ->
  exists low high, head l = Some low /\ last l = Some high /\ low ∈ l /\ high ∈ l /\ forall v, v ∈ l -> low <= v <= high.
Proof.
  intros Hs Hl. destruct l as [|low l]; [done|]. destruct (last_is_Some (low :: l)) as [_ Hx]. destruct Hx as [high Hh]; [done|].
  exists low, high. pose proof (last_Some_elem_of _ _ Hh) as Hin. split_and!; [done|done|left|done|].
  intros v Hv. apply last_lookup_Some in Hh || rewrite last_lookup in Hh. split.
  - apply StronglySorted_inv in Hs as [_ Hx]. apply elem_of_cons in Hv as [->|Hv]; [lia|].
    rewrite Forall_forall in Hx. specialize (Hx v Hv). unfold key_le, key_leb in Hx. cbn in Hx. lia.
  - destruct (sorted_split _ _ _ Hs Hh) as [Hle _]. rewrite take_ge in Hle by (cbn; lia). rewrite Forall_forall in Hle. auto.
Qed.

Lemma percentile_mono l bp bp' v v' :
  percentile l bp v -> percentile l bp' v' -> bp <= bp' -> v <= v'.
Proof.
  intros [H1 H2 H3] [H1' H2' H3'] Hb. destruct (Z.le_gt_cases v v') as [|Hgt]; [done|]. exfalso.
  assert (count_le v' l <= count_lt v l); [|nia]. unfold count_le, count_lt. apply inj_le. clear -Hgt.
  induction l as [|w l IH]; cbn; [lia|]. destruct (w <=? v') eqn:E1, (w <? v) eqn:E2; cbn; lia.
Qed.

Section Building.
Context `{PyTables} `{JCSLaws}.

Lemma reference_clean label v : _reference label v = Ok tt -> clean (JStr v).
Proof.
  unfold _reference. intros Hr. apply bind_unit_ok in Hr as [_ Hr]. apply bind_ok in Hr as (p & Hr & _).
  unfold canonical_object in Hr. apply bind_ok in Hr as (t & Hr & _). apply canonical_json_clean in Hr as [Hc _].
  inversion Hc as [| | | | | |? Hf]; subst. by apply Forall_cons in Hf as [[_ ?] _].
Qed.

Lemma vocabulary_clean s l :
  s ∈ l -> forallb (str_forallb identifier_char) l = true -> clean (JStr s).
Proof. intros Hs Hl. eapply member_clean; [done|]. rewrite Forall_forall. rewrite forallb_forall in Hl.
  intros x Hx%list_elem_of_In. auto. Qed.

Lemma request_clean rq : valid_request rq ->
  clean (JStr (rq_operation_kind rq)) /\ clean (JStr (rq_calibration_key rq)) /\ clean (JStr (rq_metric_name rq)) /\
  clean (JStr (rq_pool_kind rq)) /\ clean (JStr (rq_unit rq)).
Proof.
  intros (R1 & R2 & R3 & R4 & R5). split_and!.
  - eapply vocabulary_clean; [exact R1|done].
  - by eapply reference_clean.
  - by apply token_clean.
  - eapply vocabulary_clean; [exact R4|done].
  - rewrite R5. destruct (String.eqb _ _); by apply identifier_clean.
Qed.

Lemma policy_clean policy : valid policy -> clean (calibration_policy_to_dict policy) /\ plain (calibration_policy_to_dict policy).
Proof.
  intros Hp%policy_facts. unfold calibration_policy_to_dict. split.
  - clean_object; apply clean_int; unfold SAFE_INTEGER_MAX; lia.
  - plain_object; apply plain_int; unfold SAFE_INTEGER_MAX; lia.
Qed.

(** Measured values are safe integers and sample identifiers well-formed. *)
Definition measured (item : TelemetrySample * TelemetryMetric) : Prop :=
  0 <= tm_value item.2 <= SAFE_INTEGER_MAX /\ fullmatch TELEMETRY_ID_PATTERN (ts_sample_id item.1) = true.

Lemma ids_clean ids : Forall (fun i => fullmatch TELEMETRY_ID_PATTERN i = true) ids -> clean (JStrs ids) /\ plain (JStrs ids).
Proof.
  intros Hi. unfold JStrs. split; constructor; apply Forall_fmap.
  - eapply Forall_impl; [exact Hi|]. intros i Hm. apply (pattern_clean TELEMETRY_ID_PATTERN); [by vm_compute|exact Hm].
  - apply Forall_true. intros i. constructor.
Qed.

Lemma measured_ids selected : Forall measured selected ->
  Forall (fun i => fullmatch TELEMETRY_ID_PATTERN i = true) ((fun item => ts_sample_id item.1) <$> selected).
Proof. intros Hm. apply Forall_fmap. eapply Forall_impl; [exact Hm|]. by intros ? [_ ?]. Qed.

Lemma digest_payload_total rq policy selected : valid_request rq -> valid policy -> Forall measured selected ->
  exists text, canonical_object (digest_payload rq policy selected) = Ok (text, sha256 text).
Proof.
  intros (C1 & C2 & C3 & C4 & C5)%request_clean [P1 P2]%policy_clean Hm.
  destruct (ids_clean _ (measured_ids _ Hm)) as [I1 I2].
  assert (clean (JArr ((fun item => JInt (tm_value item.2)) <$> selected)) /\
          plain (JArr ((fun item => JInt (tm_value item.2)) <$> selected))) as [V1 V2].
  { split; constructor; apply Forall_fmap; (eapply Forall_impl; [exact Hm|]); intros ? [? _]; constructor; lia. }
  apply canonical_object_total; unfold digest_payload.
  - clean_object; done.
  - plain_object; solve [done|constructor].
Qed.

(** *** The snapshot constructor accepts what [build_calibration] passes it *)

Lemma snapshot_dict_total snapshot :
  valid_request {| rq_operation_kind := csn_operation_kind snapshot; rq_calibration_key := csn_calibration_key snapshot;
    rq_metric_name := csn_metric_name snapshot; rq_pool_kind := csn_pool_kind snapshot; rq_unit := csn_unit snapshot |} ->
  valid (csn_policy snapshot) -> Forall (fun i => fullmatch TELEMETRY_ID_PATTERN i = true) (csn_sample_ids snapshot) ->
  fullmatch SHA256_PATTERN (csn_calibration_digest snapshot) = true ->
  0 <= csn_sample_count snapshot <= SAFE_INTEGER_MAX ->
  Forall (fun o => safe_nonneg_opt o = true)
    [csn_minimum snapshot; csn_maximum snapshot; csn_expected snapshot; csn_upper_bound snapshot] ->
  exists text, canonical_object (snapshot_to_dict snapshot) = Ok (text, sha256 text).
Proof.
  intros (C1 & C2 & C3 & C4 & C5)%request_clean [P1 P2]%policy_clean [I1 I2]%ids_clean D1%digest_clean Hn Hb.
  cbn in C1, C2, C3, C4, C5.
  assert (forall o, safe_nonneg_opt o = true -> clean (JOptInt o) /\ plain (JOptInt o)) as Ho.
  { intros [z|]; cbn; [|by repeat constructor]. intros Hz%safe_nonneg_spec. split; constructor; lia. }
  repeat (apply Forall_cons in Hb as [[? ?]%Ho Hb]).
  apply canonical_object_total; unfold snapshot_to_dict.
  - clean_object; first [assumption|apply clean_bool|by apply identifier_clean|apply clean_int; lia].
  - plain_object; first [assumption|apply plain_bool|apply plain_str|apply plain_int; lia].
Qed.

Lemma snapshot_valid rq policy ids digest low high expected upper eligible :
  let snapshot := snapshot_of rq policy ids digest low high expected upper eligible in
  valid_request rq -> valid policy -> Forall (fun i => fullmatch TELEMETRY_ID_PATTERN i = true) ids -> NoDup ids ->
  Z.of_nat (length ids) <= SAFE_INTEGER_MAX -> fullmatch SHA256_PATTERN digest = true ->
  Forall (fun o => safe_nonneg_opt o = true) [low; high; expected; upper] ->
  (if eligible then eligible_guards snapshot
   else raise_if (is_some low || is_some high || is_some expected || is_some upper)
          (ValueError "ineligible calibration snapshots cannot publish numeric recommendations")) = Ok tt ->
  valid snapshot.
Proof.
  intros snapshot Hr Hp Hi Hnd Hn Hd Hb He.
  destruct (snapshot_dict_total snapshot) as (text & Htext); [by destruct rq|done|done|done|cbn; lia|done|].
  destruct Hr as (R1 & R2 & R3 & R4 & R5).
  assert (forall label o, safe_nonneg_opt o = true -> bound_guard label o = Ok tt) as Ho.
  { intros label [z|]; cbn; [|done]. intros Hz%safe_nonneg_spec. unfold _safe_integer. apply raise_if_ok. bool_simp; lia. }
  repeat (apply Forall_cons in Hb as [? Hb]).
  unfold valid, post_init, CalibrationSnapshot_post_init.
  assert (unit_guards "CPU calibration must use logical_cpu" "non-CPU calibration must use bytes" (csn_pool_kind snapshot)
    (csn_unit snapshot) = Ok tt /\ mem (csn_unit snapshot) ["bytes"; "logical_cpu"] = true) as [Hu Hm].
  { cbn. rewrite R5. unfold unit_guards. by destruct (String.eqb (rq_pool_kind rq) "cpu"). }
  ok_intro; [| |unfold _token, require_token; apply raise_if_ok| | |exact Hu|unfold _safe_integer; apply raise_if_ok| | |
    by apply Ho..|exact He| |by rewrite Htext]; cbn [snapshot snapshot_of csn_operation_kind csn_calibration_key csn_metric_name
    csn_pool_kind csn_unit csn_sample_ids csn_sample_count csn_calibration_digest] in *.
  - apply negb_false_iff. by apply mem_spec.
  - exact R2.
  - by rewrite R3.
  - apply negb_false_iff. by apply mem_spec.
  - by rewrite Hm.
  - bool_simp; lia.
  - rewrite Z.eqb_refl. by apply has_duplicates_false.
  - apply existsb_false. eapply Forall_impl; [exact Hi|]. intros i Hx. by rewrite Hx.
  - by rewrite Hd.
Qed.

Lemma metric_value_safe m : valid m -> 0 <= tm_value m <= SAFE_INTEGER_MAX.
Proof.
  unfold valid, post_init, TelemetryMetric_post_init, _safe_integer. intros Hv.
  apply bind_unit_ok in Hv as [_ Hv]. do 2 apply bind_unit_ok in Hv as [_ Hv]. apply bind_unit_ok in Hv as [Hv _].
  apply raise_if_ok in Hv. bool_simp. lia.
Qed.

(** Samples as the store holds them: each is valid, with distinct identifiers. *)
Record sample_log (samples : list TelemetrySample) : Prop := {
  log_ids : Forall (fun s => fullmatch TELEMETRY_ID_PATTERN (ts_sample_id s) = true) samples;
  log_unique : NoDup (ts_sample_id <$> samples);
  log_metrics : distinct_metrics samples;
  log_values : Forall (fun s => Forall valid (ts_metrics s)) samples
}.

Lemma window_measured rq policy samples : sample_log samples -> Forall measured (window rq policy samples).
Proof.
  intros [Hi _ _ Hv]. apply Forall_forall. intros [s m] Hin%window_elem. apply measurement_elem in Hin as (Hs & _ & Hm & _).
  rewrite Forall_forall in Hi, Hv. split; [|by apply Hi]. specialize (Hv s Hs). rewrite Forall_forall in Hv.
  by apply metric_value_safe, Hv.
Qed.

Lemma window_length rq policy samples : valid policy -> Z.of_nat (length (window rq policy samples)) <= 10000.
Proof. intros Hp%policy_facts. unfold window. rewrite length_drop. lia. Qed.

(** The observed percentile with headroom, clamped to the safe integers. *)
Lemma headroom_facts q h high expected :
  0 <= q -> 0 <= h -> 0 <= high <= SAFE_INTEGER_MAX -> 0 <= expected <= SAFE_INTEGER_MAX ->
  let upper := (q * (10000 + h) + 9999) / 10000 in
  let u := Z.max (Z.max high expected) (if SAFE_INTEGER_MAX <? upper then SAFE_INTEGER_MAX else upper) in
  0 <= u <= SAFE_INTEGER_MAX /\ high <= u /\ Z.min SAFE_INTEGER_MAX (q + (q * h + 9999) / 10000) <= u.
Proof.
  intros Hq Hh Hx He upper u. assert (upper = q + (q * h + 9999) / 10000) as Eu.
  { unfold upper. replace (q * (10000 + h) + 9999) with (q * 10000 + (q * h + 9999)) by ring. by rewrite Z.div_add_l. }
  assert (0 <= upper) by (unfold upper; apply Z.div_pos; nia). rewrite <- Eu. unfold u.
  destruct (SAFE_INTEGER_MAX <? upper) eqn:E; unfold SAFE_INTEGER_MAX in *; lia.
Qed.

Lemma build_calibration_total samples rq policy :
  valid policy -> valid_request rq -> sample_log samples ->
  exists snapshot, build_calibration samples rq policy = Ok snapshot /\ valid snapshot /\
    summarizes policy (window_values rq policy samples) snapshot /\
    fullmatch SHA256_PATTERN (csn_calibration_digest snapshot) = true.
Proof.
  intros Hp Hr Hl. pose proof (window_measured rq policy samples Hl) as Hm. pose proof (window_length rq policy samples Hp) as Hlen.
  pose proof (window_ids_NoDup rq policy samples (log_metrics _ Hl) (log_unique _ Hl)) as Hnd.
  pose proof (measured_ids _ Hm) as Hids. destruct (digest_payload_total rq policy _ Hr Hp Hm) as (text & Ht).
  pose proof (policy_facts _ Hp) as Hpf. unfold build_calibration. rewrite Ht. cbn [mbind result_bind]. unfold window_values.
  set (selected := window rq policy samples) in *. set (ids := (fun item => ts_sample_id item.1) <$> selected) in *.
  assert (Z.of_nat (length ids) <= SAFE_INTEGER_MAX) as Hn by (unfold ids, SAFE_INTEGER_MAX; rewrite length_fmap; lia).
  assert (fullmatch SHA256_PATTERN (sha256 text) = true) as Hsha by apply Sha256.hexdigest_pattern.
  destruct (Z.of_nat (length selected) <? cpol_minimum_samples policy) eqn:Emin.
  - assert (valid (snapshot_of rq policy ids (sha256 text) None None None None false)) as Hs.
    { apply snapshot_valid; try done. by repeat constructor. }
    eexists. split; [by apply construct_valid|]. split_and!; [done| |exact Hsha].
    constructor; try done. cbn. rewrite length_fmap. lia.
  - set (values := sorted_by id ((fun item => tm_value item.2) <$> selected)).
    assert (values ≡ₚ (fun item => tm_value item.2) <$> selected) as Hperm by apply sorted_by_perm.
    assert (StronglySorted (key_le id) values) as Hsort by apply sorted_by_sorted.
    assert (length values = length selected) as Hlv by (unfold values; by rewrite length_sorted_by, length_fmap).
    assert (values <> []) as Hne by (intros E; rewrite E in Hlv; cbn in Hlv; lia).
    assert (Forall (fun v => 0 <= v <= SAFE_INTEGER_MAX) values) as Hsafe.
    { rewrite Hperm. apply Forall_fmap. eapply Forall_impl; [exact Hm|]. by intros ? [? _]. }
    destruct (nearest_rank_percentile values (cpol_expected_percentile_basis_points policy)) as (e & He & Pe); [done..|lia|].
    destruct (nearest_rank_percentile values (cpol_upper_percentile_basis_points policy)) as (q & Hq & Pq); [done..|lia|].
    assert (exists low high, head values = Some low /\ last values = Some high /\ low <= e <= high /\ 
      low ∈ values /\ high ∈ values /\ forall v, v ∈ values -> v <= high) as (low & high & Elow & Ehigh & Hb & Hlow & Hhigh & Hmax).
    { destruct (extremes values Hsort Hne) as (low & high & E1 & E2 & M1 & M2 & Hx). exists low, high.
      destruct (Hx e) as [? ?]; [apply Pe|]. split_and!; try done. intros v Hv. by apply Hx. }
    rewrite He, Hq, Elow, Ehigh. cbn [mbind result_bind tuple_item].
    rewrite Forall_forall in Hsafe. pose proof (Hsafe _ (pct_member _ _ _ Pe)). pose proof (Hsafe _ (pct_member _ _ _ Pq)).
    pose proof (Hsafe _ Hlow). pose proof (Hsafe _ Hhigh).
    destruct (headroom_facts q (cpol_headroom_basis_points policy) high e) as (Hu1 & Hu2 & Hu3); [lia..|].
    set (u := Z.max (Z.max high e) _) in *.
    assert (valid (snapshot_of rq policy ids (sha256 text) (Some low) (Some high) (Some e) (Some u) true)) as Hs.
    { apply snapshot_valid; try done.
      - repeat constructor; apply safe_nonneg_spec; lia.
      - unfold eligible_guards. cbn. ok_intro; bool_simp; [lia..|]. unfold ids. rewrite length_fmap. lia. }
    eexists. split; [by apply construct_valid|]. split_and!; [done| |exact Hsha]. constructor; cbn.
    + rewrite length_fmap. lia.
    + done.
    + intros _. exists e. split; [done|]. by eapply percentile_perm.
    + intros _. exists u, q. split_and!; [done|lia| |by eapply percentile_perm|exact Hu3].
      intros v Hv. rewrite <- Hperm in Hv. specialize (Hmax v Hv). lia.
Qed.
End Building.
