(* ===== verification/TelemetryStore.v ===== *)
(** * The telemetry store and the collector

    telemetry_store.py and telemetry_collector.py.  The [samples] table is the
    list of its rows in insertion order; a row keeps the index columns and the
    canonical JSON text with its digest, and every read decodes and re-validates
    the text.  An operation that raises is rolled back.  The database file, its
    permissions and its identity are not modelled.

    The second part shows that what is appended is what is read. *)

From S2P Require Export Calibration Effects.
From S2P Require Export JsonRoundtrip.

Import Tel.

Definition corruption (msg : string) : exn := OtherException "TelemetryStoreCorruptionError" msg.
Definition conflict (msg : string) : exn := OtherException "TelemetryStoreConflictError" msg.

Record sample_row := {
  sr_sample_id : string;
  sr_operation_kind : string;
  sr_calibration_key : string;
  sr_observed_at : string;
  sr_payload_json : string;
  sr_payload_sha256 : string
}.
Definition telemetry_store : Type := list sample_row.

Section Store.
Context `{PyTables} `{JCS} `{PyFloat}.

Definition _decode (payload_json payload_sha256 : string) : result TelemetrySample :=
  match (payload ← parse_canonical_object payload_json;
         '(canonical, digest) ← canonical_object payload;
         raise_if (negb (String.eqb canonical payload_json) || negb (String.eqb digest payload_sha256))
           (corruption "telemetry sample digest does not match its payload");;
         sample_from_dict payload) with
  | Raise (ValueError _ | StateModelError _ | SecretMaterialError _) =>
      Raise (corruption "stored telemetry sample is invalid")
  | Raise (OtherException cls _ as e) =>
      if String.eqb cls "TypeError" then Raise (corruption "stored telemetry sample is invalid") else Raise e
  | r => r
  end.

Definition sample_row_of (sample : TelemetrySample) (payload_json digest : string) : sample_row :=
  {| sr_sample_id := ts_sample_id sample; sr_operation_kind := ts_operation_kind sample;
     sr_calibration_key := ts_calibration_key sample; sr_observed_at := ts_observed_at sample;
     sr_payload_json := payload_json; sr_payload_sha256 := digest |}.

(** [True] when the sample is new, [False] for an exact replay. *)
Definition append (store : telemetry_store) (sample : TelemetrySample) : result (bool * telemetry_store) :=
  '(payload_json, digest) ← canonical_object (telemetry_sample_to_dict sample);
  match List.find (fun r => String.eqb (sr_sample_id r) (ts_sample_id sample)) store with
  | Some existing =>
      if String.eqb (sr_payload_json existing) payload_json && String.eqb (sr_payload_sha256 existing) digest
      then Ok (false, store)
      else Raise (conflict "immutable telemetry sample ID already has different content")
  | None => Ok (true, (store ++ [sample_row_of sample payload_json digest])%list)
  end.

Definition row_order (r : sample_row) : string * string := (sr_observed_at r, sr_sample_id r).

Definition samples (store : telemetry_store) (operation_kind calibration_key : string) : result (list TelemetrySample) :=
  map_result (fun r => _decode (sr_payload_json r) (sr_payload_sha256 r))
    (sorted_by row_order (List.filter (fun r =>
      String.eqb (sr_operation_kind r) operation_kind && String.eqb (sr_calibration_key r) calibration_key) store)).

(** The row loop of [verify]. *)
Definition verify_sample_row (r : sample_row) : result unit :=
  sample ← _decode (sr_payload_json r) (sr_payload_sha256 r);
  raise_if (negb (bool_decide ((sr_sample_id r, sr_operation_kind r, sr_calibration_key r, sr_observed_at r) =
                               (ts_sample_id sample, ts_operation_kind sample, ts_calibration_key sample, ts_observed_at sample))))
    (corruption "telemetry index columns do not match immutable payload").
Definition verify (store : telemetry_store) : result unit := for_each store verify_sample_row.

Definition calibration (store : telemetry_store) (rq : request) (policy : option CalibrationPolicy)
    : result CalibrationSnapshot :=
  l ← samples store (rq_operation_kind rq) (rq_calibration_key rq);
  build_calibration l rq (default default_policy policy).

(** The calibration asked for one estimate. *)
Definition request_of (estimate : ResourceEstimate) (operation_kind calibration_key : string) : request :=
  {| rq_operation_kind := operation_kind; rq_calibration_key := calibration_key;
     rq_metric_name := est_name estimate; rq_pool_kind := est_pool_kind estimate; rq_unit := est_unit estimate |}.

Definition calibrate_estimate (store : telemetry_store) (operation_kind calibration_key : string)
    (policy : option CalibrationPolicy) (estimate : ResourceEstimate) : result ResourceEstimate :=
  snapshot ← calibration store (request_of estimate operation_kind calibration_key) policy;
  if negb (csn_eligible snapshot) then Ok estimate
  else construct {| est_name := est_name estimate; est_pool_kind := est_pool_kind estimate; est_unit := est_unit estimate;
                    est_expected := csn_expected snapshot; est_upper_bound := csn_upper_bound snapshot;
                    est_confidence := "measured";
                    est_source := "telemetry-calibration:" +:+ csn_calibration_digest snapshot;
                    est_diagnostic := None |}.

Definition calibrate_all (store : telemetry_store) (estimates : list ResourceEstimate)
    (operation_kind calibration_key : string) (policy : option CalibrationPolicy) : result (list ResourceEstimate) :=
  map_result (calibrate_estimate store operation_kind calibration_key policy) estimates.

(** ** The collector *)

(** [Uuid7TelemetryIds.next_id], of a millisecond stamp and 74 random bits. *)
Definition telemetry_uuid (milliseconds randomness : Z) : result string :=
  raise_if (negb ((0 <=? milliseconds) && (milliseconds <? 2 ^ 48)))
    (ValueError "telemetry UUIDv7 timestamp must fit in 48 bits");;
  Ok ("opid:v1:telemetry:u7:" +:+
      uuid_str (uuid7_int (Z.land milliseconds (2 ^ 48 - 1)) (Z.land (Z.shiftr randomness 62) 4095)
                  (Z.land randomness (2 ^ 62 - 1)))).

(** [ids.next_id()], of the injected generator. *)
Class TelemetryIds (W : Type) := next_telemetry_id : eff W string.
(** [self._store.append(sample)] when a store is given. *)
Class SampleSink (W : Type) := sink_sample : option (TelemetrySample -> eff W unit).

Definition collect {W} `{Clock W} `{TelemetryIds W} `{SampleSink W} (operation_kind calibration_key attempt_id source : string)
    (metrics : list TelemetryMetric) (quality : string) : eff W TelemetrySample :=
  sample_id ← next_telemetry_id;
  t ← now;
  sample ← lift (construct {| ts_sample_id := sample_id; ts_operation_kind := operation_kind;
    ts_calibration_key := calibration_key; ts_attempt_id := attempt_id; ts_observed_at := rfc3339 t;
    ts_quality := quality; ts_source := source; ts_metrics := metrics |});
  _ ← match sink_sample with Some sink => sink sample | None => mret tt end;
  mret sample.

(** What [collect_containment] reads of a [ContainedExecutionResult]. *)
Record contained_result := {
  cex_outcome : string;
  cex_wall_time_ms : Z;
  cex_stdout_total_bytes : Z;
  cex_stderr_total_bytes : Z
}.

Definition measure (name kind unit : string) (value : Z) : result TelemetryMetric :=
  construct {| tm_name := name; tm_metric_kind := kind; tm_unit := unit; tm_value := value; tm_pool_kind := None |}.

Definition collect_containment {W} `{Clock W} `{TelemetryIds W} `{SampleSink W} (result : contained_result)
    (calibration_key attempt_id source : string) : eff W TelemetrySample :=
  let quality := if String.eqb (cex_outcome result) "completed" then "complete" else "partial" in
  metrics ← lift (
    wall ← measure "execution-wall-clock" "wall-clock" "milliseconds" (cex_wall_time_ms result);
    out ← measure "execution-stdout" "output-volume" "bytes" (cex_stdout_total_bytes result);
    err ← measure "execution-stderr" "output-volume" "bytes" (cex_stderr_total_bytes result);
    Ok [wall; out; err]);
  collect "execution" calibration_key attempt_id source metrics quality.
End Store.

(** * What is appended is what is read

    The invariant of a store built by [append]: every row encodes one sample of
    the log of accepted samples, so every read returns the logged samples with
    their metrics in name order. *)


Section Correct.
Context `{PyTables} `{JCSLaws}.

(** A sample as the constructors build it. *)
Definition well_formed (s : TelemetrySample) : Prop := valid s /\ Forall valid (ts_metrics s).

(** The sample with its metrics by name. *)
Definition normal_sample (s : TelemetrySample) : TelemetrySample :=
  {| ts_sample_id := ts_sample_id s; ts_operation_kind := ts_operation_kind s; ts_calibration_key := ts_calibration_key s;
     ts_attempt_id := ts_attempt_id s; ts_observed_at := ts_observed_at s; ts_quality := ts_quality s;
     ts_source := ts_source s; ts_metrics := sorted_by tm_name (ts_metrics s) |}.

Lemma normal_sample_dict s : telemetry_sample_to_dict (normal_sample s) = telemetry_sample_to_dict s.
Proof.
  unfold telemetry_sample_to_dict. cbn [normal_sample ts_sample_id ts_operation_kind ts_calibration_key ts_attempt_id
    ts_observed_at ts_quality ts_source ts_metrics].
  by rewrite (sorted_by_id tm_name _ (sorted_by_sorted tm_name _)).
Qed.

Lemma normal_sample_well_formed s : well_formed s -> well_formed (normal_sample s).
Proof.
  intros [Hv Hm]. split; [|cbn; by rewrite sorted_by_perm].
  unfold valid, post_init, TelemetrySample_post_init in *. rewrite normal_sample_dict.
  cbn [normal_sample ts_sample_id ts_operation_kind ts_calibration_key ts_attempt_id ts_observed_at ts_quality ts_source ts_metrics].
  assert (list_empty (sorted_by tm_name (ts_metrics s)) = list_empty (ts_metrics s)) as ->.
  { pose proof (length_sorted_by tm_name (ts_metrics s)) as Hl. by destruct (ts_metrics s), (sorted_by _ _). }
  rewrite length_sorted_by.
  assert (has_duplicates (tm_name <$> sorted_by tm_name (ts_metrics s)) = has_duplicates (tm_name <$> ts_metrics s)) as ->; [|exact Hv].
  apply Bool.eq_true_iff_eq. unfold has_duplicates. rewrite !negb_true_iff, !bool_decide_eq_false.
  by rewrite (fmap_Permutation tm_name _ _ (sorted_by_perm tm_name (ts_metrics s))).
Qed.

(** ** Rendering and decoding *)

Lemma metric_dict_normal m : normal (JObj (metric_to_dict m)) = JObj (metric_to_dict m).
Proof. by destruct m as [? ? ? ? []]. Qed.

Lemma metric_from_to_dict m : valid m -> metric_from_dict (JObj (metric_to_dict m)) = Ok m.
Proof. intros Hv. destruct m as [n k u v p]. by destruct p; cbn; apply construct_valid. Qed.

Lemma metrics_from_to_dict l : Forall valid l ->
  map_result metric_from_dict ((fun m => JObj (metric_to_dict m)) <$> l) = Ok l.
Proof.
  induction 1 as [|m l Hm Hl IH]; [done|]. rewrite fmap_cons. cbn [map_result]. rewrite metric_from_to_dict by done.
  cbn [mbind result_bind]. by rewrite IH.
Qed.

Lemma sample_dict_normal s : normal (JObj (telemetry_sample_to_dict s)) = JObj (telemetry_sample_to_dict s).
Proof.
  assert (normal (JArr ((fun m => JObj (metric_to_dict m)) <$> sorted_by tm_name (ts_metrics s))) =
    JArr ((fun m => JObj (metric_to_dict m)) <$> sorted_by tm_name (ts_metrics s))) as Hm.
  { cbn [normal]. f_equal. rewrite <- list_fmap_compose. apply list_fmap_ext. intros _ m _. apply metric_dict_normal. }
  unfold telemetry_sample_to_dict. revert Hm. generalize (JArr ((fun m => JObj (metric_to_dict m)) <$> sorted_by tm_name (ts_metrics s))).
  intros j Hj. cbn [normal]. rewrite !fmap_cons. cbn [fst snd]. rewrite Hj. reflexivity.
Qed.

Lemma sample_dict_plain s : Forall valid (ts_metrics s) -> plain (JObj (telemetry_sample_to_dict s)).
Proof.
  intros Hm. unfold telemetry_sample_to_dict. plain_object; first [apply plain_str|apply plain_bool|idtac].
  apply plain_arr, Forall_fmap. rewrite sorted_by_perm. eapply Forall_impl; [exact Hm|]. intros m Hv%metric_value_safe.
  unfold compose, metric_to_dict. plain_object; [apply plain_str..| |apply plain_str|apply plain_int; lia].
  destruct (tm_pool_kind m); [apply plain_str|apply plain_null].
Qed.

Lemma sample_from_to_dict s : well_formed s -> sample_from_dict (telemetry_sample_to_dict s) = Ok (normal_sample s).
Proof.
  intros [Hv Hm]%normal_sample_well_formed. cbn [normal_sample ts_metrics] in Hm.
  unfold sample_from_dict, telemetry_sample_to_dict.
  match goal with |- context [fields_differ ?a ?b] => change (fields_differ a b) with false end.
  cbn [field List.find String.eqb Ascii.eqb Bool.eqb fst snd orb negb raise_if mbind result_bind as_str].
  cbn -[metric_to_dict metric_from_dict map_result construct normal_sample sorted_by].
  rewrite (metrics_from_to_dict _ Hm). cbn -[construct sorted_by]. by apply construct_valid.
Qed.

Lemma well_formed_encodes s : well_formed s ->
  exists payload, canonical_object (telemetry_sample_to_dict s) = Ok (payload, sha256 payload).
Proof.
  intros [Hv _]. unfold valid, post_init, TelemetrySample_post_init in Hv.
  repeat (apply bind_unit_ok in Hv as [_ Hv]). apply bind_ok in Hv as ([p d] & Hc & _). exists p.
  unfold canonical_object in *. apply bind_ok in Hc as (t & Ht & [= -> _]). by rewrite Ht.
Qed.

Lemma decode_encoded s payload digest :
  well_formed s -> canonical_object (telemetry_sample_to_dict s) = Ok (payload, digest) ->
  _decode payload digest = Ok (normal_sample s).
Proof.
  intros Hw Hc. destruct (canonical_object_parse _ _ _ (sample_dict_plain s (proj2 Hw)) Hc) as (fields & Hn & Hp & Hc').
  rewrite sample_dict_normal in Hn. injection Hn as <-. unfold _decode. rewrite Hp. cbn [mbind result_bind]. rewrite Hc.
  cbn [mbind result_bind]. rewrite !String.eqb_refl. cbn [negb orb raise_if mbind result_bind]. by rewrite sample_from_to_dict.
Qed.

(** ** The log of a store *)

(** [st] holds the samples of [log], in the order they were accepted. *)
Inductive appended : list TelemetrySample -> telemetry_store -> Prop :=
| appended_nil : appended [] []
| appended_new log st s st' : appended log st -> well_formed s -> append st s = Ok (true, st') -> appended (log ++ [s]) st'
| appended_replay log st s st' : appended log st -> well_formed s -> append st s = Ok (false, st') -> appended log st'.

Definition encoded_row (s : TelemetrySample) (r : sample_row) : Prop :=
  exists payload digest, canonical_object (telemetry_sample_to_dict s) = Ok (payload, digest) /\
    r = sample_row_of s payload digest.

Record store_invariant (log : list TelemetrySample) (st : telemetry_store) : Prop := {
  si_rows : Forall2 encoded_row log st;
  si_formed : Forall well_formed log;
  si_unique : NoDup (ts_sample_id <$> log)
}.

Lemma encoded_id s r : encoded_row s r -> ts_sample_id s = sr_sample_id r.
Proof. by intros (p & d & _ & ->). Qed.

Lemma find_row log st id : Forall2 encoded_row log st ->
  match List.find (fun r => String.eqb (sr_sample_id r) id) st with
  | Some r => exists s, s ∈ log /\ ts_sample_id s = id /\ encoded_row s r
  | None => id ∉ ts_sample_id <$> log
  end.
Proof.
  induction 1 as [|s r log st Hsr Hf IH]; cbn [List.find]; [by intros ?%elem_of_nil|].
  pose proof (encoded_id _ _ Hsr) as E. destruct (String.eqb (sr_sample_id r) id) eqn:Ei.
  - apply String.eqb_eq in Ei. exists s. split_and!; [left|congruence|done].
  - apply String.eqb_neq in Ei. destruct (List.find _ st) as [r'|].
    + destruct IH as (s' & ? & ? & ?). exists s'. split_and!; [by right|done|done].
    + rewrite fmap_cons, not_elem_of_cons. split; [congruence|done].
Qed.

Lemma appended_invariant log st : appended log st -> store_invariant log st.
Proof.
  induction 1 as [|log st s st' _ [R F U] Hs Ha|log st s st' _ [R F U] Hs Ha]; [split; constructor| |].
  - unfold append in Ha. apply bind_ok in Ha as ([p d] & Hc & Ha). pose proof (find_row _ _ (ts_sample_id s) R) as Hfind.
    destruct (List.find _ st); [by destruct (_ && _)|]. injection Ha as <-. split.
    + apply Forall2_app; [done|]. repeat constructor. by exists p, d.
    + apply Forall_app. split; [done|]. by apply Forall_singleton.
    + rewrite fmap_app. apply NoDup_app. split_and!; [done| |apply NoDup_singleton].
      intros x Hx Hy. apply list_elem_of_singleton in Hy as ->. done.
  - unfold append in Ha. apply bind_ok in Ha as ([p d] & Hc & Ha). destruct (List.find _ st); [|done].
    destruct (_ && _); [|done]. by injection Ha as <-.
Qed.


Definition sample_order (s : TelemetrySample) : string * string := (ts_observed_at s, ts_sample_id s).
Definition sample_matches (operation_kind calibration_key : string) (s : TelemetrySample) : bool :=
  String.eqb (ts_operation_kind s) operation_kind && String.eqb (ts_calibration_key s) calibration_key.
(** The samples a read returns. *)
Definition matching (log : list TelemetrySample) (operation_kind calibration_key : string) : list TelemetrySample :=
  normal_sample <$> sorted_by sample_order (List.filter (sample_matches operation_kind calibration_key) log).

Lemma samples_spec log st operation_kind calibration_key : store_invariant log st ->
  samples st operation_kind calibration_key = Ok (matching log operation_kind calibration_key).
Proof.
  intros [R F _]. unfold samples, matching. apply map_result_ok. 
  set (p := fun r : sample_row => _ && _).
  assert (Forall2 encoded_row (sorted_by sample_order (List.filter (sample_matches operation_kind calibration_key) log))
    (sorted_by row_order (List.filter p st))) as Hs.
  { apply sorted_by_Forall2; [by intros ? ? (? & ? & _ & ->)|]. apply Forall2_lfilter; [by intros ? ? (? & ? & _ & ->)|done]. }
  assert (Forall well_formed (sorted_by sample_order (List.filter (sample_matches operation_kind calibration_key) log))) as Hw.
  { rewrite sorted_by_perm. apply Forall_forall. rewrite Forall_forall in F. by intros x [? _]%elem_of_lfilter; auto. }
  apply Forall2_fmap_r. induction Hs as [|s r l k (payload & digest & Hc & ->) Hf IH]; [done|].
  apply Forall_cons in Hw as [? ?]. constructor; [by apply decode_encoded|auto].
Qed.

Lemma matching_elem log kind key s :
  s ∈ matching log kind key -> exists s', s' ∈ log /\ s = normal_sample s' /\ sample_matches kind key s' = true.
Proof.
  unfold matching. intros (s' & -> & Hs)%list_elem_of_fmap. rewrite elem_of_sorted_by in Hs. apply elem_of_lfilter in Hs as [? ?].
  by exists s'.
Qed.

Lemma matching_sorted log kind key : StronglySorted (key_le sample_order) (matching log kind key).
Proof.
  unfold matching. pose proof (sorted_by_sorted sample_order (List.filter (sample_matches kind key) log)) as Hs.
  induction Hs as [|s l Hs IH Hf]; [constructor|]. rewrite fmap_cons. constructor; [done|]. by apply Forall_fmap.
Qed.

Lemma matching_perm log log' kind key : log ≡ₚ log' -> NoDup (ts_sample_id <$> log) -> matching log kind key = matching log' kind key.
Proof.
  intros Hp Hn. unfold matching. f_equal. apply sorted_by_ext.
  - apply (NoDup_fmap_1 snd). rewrite <- list_fmap_compose. change (NoDup (ts_sample_id <$> List.filter (sample_matches kind key) log)).
    by apply NoDup_fmap_lfilter.
  - clear Hn. induction Hp as [|x l l' _ IH|x y l|l l' l'' _ IH1 _ IH2]; cbn; [done|destruct (sample_matches _ _ x); by rewrite ?IH| |by etrans].
    destruct (sample_matches _ _ x), (sample_matches _ _ y); try done. apply perm_swap.
Qed.

(** What a read returns is a sample log in the sense of [build_calibration]. *)
Lemma matching_log log st kind key : store_invariant log st -> sample_log (matching log kind key).
Proof.
  intros [_ F U]. rewrite Forall_forall in F.
  assert (forall s, s ∈ matching log kind key -> well_formed s) as Hw.
  { intros s (s' & Hs & -> & _)%matching_elem. by apply normal_sample_well_formed, F. }
  split; try (apply Forall_forall; intros s [Hv Hm]%Hw; try exact Hm;
    unfold valid, post_init, TelemetrySample_post_init in Hv; ok_inv; bool_simp; assumption).
  unfold matching. rewrite <- list_fmap_compose. change (NoDup (ts_sample_id <$> sorted_by sample_order (List.filter (sample_matches kind key) log))).
  rewrite (fmap_Permutation ts_sample_id _ _ (sorted_by_perm sample_order _)). by apply NoDup_fmap_lfilter.
Qed.

Lemma verify_spec log st : store_invariant log st -> verify st = Ok tt.
Proof.
  intros [R F _]. apply for_each_ok. induction R as [|s r log st (p & d & Hc & ->) _ IH]; [done|].
  apply Forall_cons in F as [Hs F]. constructor; [|auto]. unfold verify_sample_row. cbn [sample_row_of sr_payload_json sr_payload_sha256].
  rewrite (decode_encoded s p d Hs Hc). cbn [mbind result_bind]. by rewrite bool_decide_eq_true_2.
Qed.

(** Appending a sample whose identifier is known: a replay or a conflict. *)
Lemma append_known log st s s' : store_invariant log st -> s ∈ log -> ts_sample_id s' = ts_sample_id s -> well_formed s' ->
  append st s' = if decide (normal_sample s' = normal_sample s) then Ok (false, st)
                 else Raise (conflict "immutable telemetry sample ID already has different content").
Proof.
  intros [R F U] Hs Hid Hw. destruct (well_formed_encodes s' Hw) as (p' & Hp'). unfold append. rewrite Hp'.
  cbn [mbind result_bind]. pose proof (find_row _ _ (ts_sample_id s') R) as Hf.
  destruct (List.find _ st) as [r|]; [|by destruct Hf; rewrite Hid; apply list_elem_of_fmap_2].
  destruct Hf as (s2 & Hs2 & Hid2 & (p & d & Hp & ->)). cbn [sample_row_of sr_payload_json sr_payload_sha256].
  assert (s2 = s) as -> by (by eapply (NoDup_fmap_elem_inj ts_sample_id); [exact U|..|congruence]).
  rewrite Forall_forall in F. pose proof (decode_encoded s p d (F s Hs) Hp) as Hd.
  pose proof (decode_encoded s' p' _ Hw Hp') as Hd'.
  assert (d = sha256 p) as -> by (unfold canonical_object in Hp; apply bind_ok in Hp as (t & _ & Hp); congruence).
  destruct (decide _) as [E|E].
  - rewrite <- normal_sample_dict, E, normal_sample_dict, Hp in Hp'. injection Hp' as ->. by rewrite !String.eqb_refl.
  - destruct (String.eqb p p') eqn:Ep; [|done]. apply String.eqb_eq in Ep as ->. congruence.
Qed.

Lemma append_fresh st s log : store_invariant log st -> well_formed s -> ts_sample_id s ∉ ts_sample_id <$> log ->
  exists st', append st s = Ok (true, st').
Proof.
  intros [R F U] Hw Hn. destruct (well_formed_encodes s Hw) as (p & Hp). unfold append. rewrite Hp. cbn [mbind result_bind].
  pose proof (find_row _ _ (ts_sample_id s) R) as Hf. destruct (List.find _ st) as [r|]; [|by eexists].
  destruct Hf as (s2 & Hs2 & Hid2 & _). destruct Hn. rewrite <- Hid2. by apply list_elem_of_fmap_2.
Qed.
End Correct.
