(* ===== verification/ResourcePlanner.v ===== *)
(** * The resource planner

    resource_planner.py: [ResourcePlanner._evaluate] and its helpers decide
    whether a workload may be admitted on a machine.  The list of issues the
    source appends to is the log of a writer monad over [result]; every
    [AdmissionIssue], evaluation and report goes through its validating
    constructor.  The clock, the reservation identifier and the policy are
    arguments. *)

From S2P Require Export ResourceModels.

(** ** The issue-logging monad *)

Definition logged (A : Type) : Type := result (A * list AdmissionIssue).
#[export] Instance logged_ret : MRet logged := fun A a => Ok (a, []).
#[export] Instance logged_bind : MBind logged := fun A B f m =>
  match m with
  | Raise e => Raise e
  | Ok (a, w) => match f a with Raise e => Raise e | Ok (b, w') => Ok (b, w ++ w') end
  end.
Definition log_lift {A} (m : result A) : logged A :=
  match m with Ok a => Ok (a, []) | Raise e => Raise e end.

(** [issues.append(AdmissionIssue(...))] *)
Definition report_issue (code category message remediation : string) (recoverable : bool)
    (kind : option string) (required available : option Z) : logged unit :=
  match construct {| iss_code := code; iss_category := category; iss_message := message;
    iss_remediation := remediation; iss_recoverable := recoverable; iss_pool_kind := kind;
    iss_required := required; iss_available := available |} with
  | Ok i => Ok (tt, [i])
  | Raise e => Raise e
  end.
Definition when (c : bool) (m : logged unit) : logged unit := if c then m else mret tt.

Fixpoint log_map {A B} (f : A -> logged B) (l : list A) : logged (list B) :=
  match l with
  | [] => mret []
  | x :: l' => y ← f x; ys ← log_map f l'; mret (y :: ys)
  end.

(** ** Arithmetic *)

Definition _ceil_basis_points (amount basis_points : Z) : result Z :=
  let r := (amount * basis_points + 9999) / 10000 in
  raise_if (SAFE_INTEGER_MAX <? r)
    (OverflowError "basis-point calculation exceeds the safe-integer domain");;
  Ok r.

Definition _safe_sum (values : list Z) : result Z :=
  let r := sumZ values in
  raise_if (SAFE_INTEGER_MAX <? r)
    (OverflowError "resource aggregation exceeds the safe-integer domain");;
  Ok r.

Definition us_per_second : Z := 1000000.

Definition _observation_problem (now : Z) (observed_at : string)
    (reported_staleness_seconds maximum_age_seconds : Z) : result (option string) :=
  observed ← parse_timestamp observed_at;
  let actual_age := now - observed in
  Ok (if actual_age <? 0 then Some "future"
      else if (maximum_age_seconds * us_per_second <? actual_age)
              || (maximum_age_seconds <? reported_staleness_seconds)
      then Some "stale" else None).

Section Planner.
(** [self._policy] *)
Context (policy : AdmissionPolicy).
Let max_age : Z := pol_inventory_max_age_seconds policy.

(** ** Inventory, trust and provider *)

Definition _evaluate_inventory (now : Z) (inventory : DoctorReport) : logged unit :=
  observed_at ← log_lift (parse_timestamp (doc_observed_at inventory));
  valid_until ← log_lift (parse_timestamp (doc_valid_until inventory));
  let age := now - observed_at in
  when (age <? 0)
    (report_issue "inventory-observed-in-future" "inventory"
      "machine inventory observation time is later than the admission clock"
      "Synchronize clocks and refresh the machine inventory before admitting work."
      false None None None);;
  when ((valid_until <? now) || (max_age * us_per_second <? age))
    (report_issue "inventory-stale" "inventory"
      "machine inventory is outside the configured admission freshness window"
      "Refresh machine inspection and repeat resource admission." false None None None);;
  when (String.eqb (doc_status inventory) "unsupported")
    (report_issue "inventory-unsupported" "inventory"
      "machine doctor reports an unsupported execution host"
      "Resolve machine-doctor error diagnostics before admitting work." false None None None).

Definition _evaluate_trust (plan : WorkloadResourcePlan) (inventory : DoctorReport) : logged unit :=
  let trust := doc_trust inventory in
  when (negb (mem (trust_class trust) (plan_eligible_trust_classes plan)))
    (report_issue "trust-class-ineligible" "trust"
      ("machine trust class " +:+ py_repr (trust_class trust) +:+ " is not eligible for this workload")
      "Use a machine with an explicitly eligible trust class or change the governed workload policy."
      false None None None);;
  when (negb (trust_configured trust))
    (report_issue "trust-class-unconfigured" "trust"
      "machine trust class was not explicitly configured"
      "Configure the governed trust class before admitting work." false None None None).

Definition _evaluate_provider (plan : WorkloadResourcePlan) (inventory : DoctorReport) (now : Z)
    : logged unit :=
  match plan_provider_name plan with
  | None => mret tt
  | Some pname =>
      match List.filter (fun p => String.eqb (prov_name p) pname) (doc_providers inventory) with
      | [provider] =>
          problem ← log_lift (_observation_problem now (prov_observed_at provider)
                                (prov_staleness_seconds provider) max_age);
          match problem with
          | None => mret tt
          | Some problem =>
              report_issue ("provider-inventory-" +:+ problem) "provider"
                ("provider " +:+ py_repr (prov_name provider) +:+ " has a " +:+ problem +:+ " observation")
                "Refresh provider discovery before admitting work." false None None None
          end;;
          when (negb (String.eqb (prov_accuracy provider) "exact"))
            (report_issue "provider-availability-ambiguous" "provider"
              ("provider " +:+ py_repr (prov_name provider) +:+ " availability is not exact")
              "Complete exact provider identity and health verification before admission."
              false None None None);;
          when (negb (String.eqb (prov_availability provider) "available"))
            (report_issue "provider-not-verified-available" "provider"
              ("provider " +:+ py_repr (prov_name provider) +:+ " is " +:+
               py_repr (prov_availability provider) +:+ ", not verified available")
              "Complete provider identity and health verification or choose a verified provider."
              false None None None);;
          when (negb (match plan_provider_strategy plan with
                      | Some s => mem s (prov_strategies provider) | None => false end))
            (report_issue "provider-strategy-unavailable" "provider"
              ("provider " +:+ py_repr (prov_name provider) +:+ " does not advertise strategy " +:+
               py_repr_opt (plan_provider_strategy plan))
              "Choose a provider that explicitly advertises the planned environment strategy."
              false None None None)
      | _ =>
          report_issue "provider-inventory-ambiguous" "provider"
            ("machine inventory does not contain exactly one provider named " +:+ py_repr pname)
            "Refresh provider discovery and remove missing or duplicate provider identities."
            false None None None
      end
  end.

(** ** Capabilities and concurrency *)

Definition _evaluate_capability (capabilities : gmap string Capability) (now : Z) (name : string)
    : logged unit :=
  let unavailable status :=
    report_issue "required-capability-unavailable" "capability"
      ("required machine capability " +:+ py_repr name +:+ " is " +:+ status)
      "Use a machine where discovery proves this capability is supported." false None None None in
  match capabilities !! name with
  | None => unavailable "absent"
  | Some capability =>
      if negb (String.eqb (cap_status capability) "supported") then unavailable (cap_status capability)
      else if negb (String.eqb (cap_accuracy capability) "exact") then
        report_issue "required-capability-ambiguous" "capability"
          ("required capability " +:+ py_repr name +:+ " is not known exactly")
          "Refresh discovery with exact support evidence before admitting work." false None None None
      else
        problem ← log_lift (_observation_problem now (cap_observed_at capability)
                              (cap_staleness_seconds capability) max_age);
        match problem with
        | None => mret tt
        | Some problem =>
            report_issue ("capability-inventory-" +:+ problem) "capability"
              ("required capability " +:+ py_repr name +:+ " has a " +:+ problem +:+ " observation")
              "Refresh machine capability discovery before admitting work." false None None None
        end
  end.

Definition _evaluate_capabilities (plan : WorkloadResourcePlan) (inventory : DoctorReport) (now : Z)
    : logged unit :=
  if has_duplicates (cap_name <$> doc_capabilities inventory) then
    report_issue "capability-inventory-ambiguous" "capability"
      "machine inventory contains duplicate capability identities"
      "Refresh discovery with one authoritative observation per capability." false None None None
  else
    log_map (_evaluate_capability (dict_of cap_name (doc_capabilities inventory)) now)
      (sorted_strings (plan_required_capabilities plan));;
    mret tt.

Definition _evaluate_concurrency (plan : WorkloadResourcePlan) (inventory : DoctorReport)
    (context : AdmissionContext) (now : Z) : logged unit :=
  match _safe_sum [ctx_active_concurrency context; plan_requested_concurrency plan] with
  | Raise _ =>
      report_issue "concurrency-plan-overflow" "plan"
        "active and requested concurrency exceed the safe-integer domain"
        "Wait for active work to finish and submit a bounded concurrency request."
        false (Some "cpu") None None
  | Ok requested_total =>
      when (pol_max_concurrency policy <? requested_total)
        (report_issue "concurrency-limit-reached" "concurrency"
          ("requested concurrency " +:+ dec requested_total +:+ " exceeds configured maximum " +:+
           dec (pol_max_concurrency policy))
          "Wait for active work to finish or reduce requested concurrency." true (Some "cpu")
          (Some requested_total)
          (Some (Z.max 0 (pol_max_concurrency policy - ctx_active_concurrency context))));;
      let unknown :=
        report_issue "cpu-capacity-unknown" "concurrency"
          "logical CPU visibility is unknown and cannot bound concurrency"
          "Refresh inventory with a supported logical CPU visibility probe." false (Some "cpu")
          (Some requested_total) None in
      match List.find (fun r => String.eqb (pool_kind r) "cpu") (doc_resources inventory) with
      | None => unknown
      | Some cpu =>
          match pool_capacity cpu with
          | None => unknown
          | Some capacity =>
              problem ← log_lift (_observation_problem now (pool_observed_at cpu)
                                    (pool_staleness_seconds cpu) max_age);
              if is_some problem then
                report_issue "cpu-inventory-stale" "concurrency"
                  "logical CPU capacity observation is stale or in the future"
                  "Refresh machine resource discovery before admitting work." false (Some "cpu")
                  (Some requested_total) None
              else
                when (capacity <? requested_total)
                  (report_issue "cpu-capacity-exceeded" "concurrency"
                    ("requested concurrency " +:+ dec requested_total +:+
                     " exceeds visible CPU capacity " +:+ dec capacity)
                    "Wait for active work to finish or reduce requested concurrency." true (Some "cpu")
                    (Some requested_total)
                    (Some (Z.max 0 (capacity - ctx_active_concurrency context))))
          end
      end
  end.

(** ** Typed pools *)

(** [result.setdefault(resource.kind, resource)]: the first pool of a kind, in
    inventory order. *)
Definition first_by_kind (resources : list ResourcePool) : list ResourcePool :=
  foldl (fun acc r =>
    if existsb (fun q => String.eqb (pool_kind q) (pool_kind r)) acc then acc else acc ++ [r])
    [] resources.

Definition pool_get (pool_map : list ResourcePool) (kind : string) : option ResourcePool :=
  List.find (fun q => String.eqb (pool_kind q) kind) pool_map.

Definition _pool_map (inventory : DoctorReport) : logged (list ResourcePool) :=
  when (has_duplicates (pool_kind <$> doc_resources inventory))
    (report_issue "resource-pool-inventory-ambiguous" "inventory"
      "machine inventory contains duplicate typed resource pools"
      "Refresh discovery with one authoritative observation per typed pool." false None None None);;
  mret (first_by_kind (doc_resources inventory)).

(** The amounts of one pool.  The source assigns the four variables in turn
    inside a [try]: those assigned before an overflow keep their value. *)
Record amounts := {
  am_expected : option Z; am_upper_bound : option Z; am_margin : option Z;
  am_required : option Z; am_overflow : bool
}.
Definition no_amounts : amounts :=
  {| am_expected := None; am_upper_bound := None; am_margin := None; am_required := None;
     am_overflow := false |}.

Definition estimate_margin (e : ResourceEstimate) : result Z :=
  bp ← margin_basis_points policy (est_confidence e);
  _ceil_basis_points (or_zero (est_upper_bound e)) bp.

Definition is_overflow (e : exn) : bool := match e with OverflowError _ => true | _ => false end.

Definition pool_amounts (estimates : list ResourceEstimate) : result amounts :=
  let stop expected upper margin e :=
    if is_overflow e then
      Ok {| am_expected := expected; am_upper_bound := upper; am_margin := margin;
            am_required := None; am_overflow := true |}
    else Raise e in
  match _safe_sum ((fun i => or_zero (est_expected i)) <$> estimates) with
  | Raise e => stop None None None e
  | Ok expected =>
      match _safe_sum ((fun i => or_zero (est_upper_bound i)) <$> estimates) with
      | Raise e => stop (Some expected) None None e
      | Ok upper =>
          match margins ← map_result estimate_margin estimates; _safe_sum margins with
          | Raise e => stop (Some expected) (Some upper) None e
          | Ok margin =>
              match _safe_sum [upper; margin] with
              | Raise e => stop (Some expected) (Some upper) (Some margin) e
              | Ok required =>
                  Ok {| am_expected := Some expected; am_upper_bound := Some upper;
                        am_margin := Some margin; am_required := Some required;
                        am_overflow := false |}
              end
          end
      end
  end.

(** [max(minimum_units, ceil(capacity * capacity_basis_points / 10000))] *)
Definition pool_reserve (kind : string) (capacity : Z) : result Z :=
  let rp := reserve policy kind in
  share ← _ceil_basis_points capacity (psr_capacity_basis_points rp);
  Ok (Z.max (psr_minimum_units rp) share).

Definition opt_or_eq (a b : option string) : bool := bool_decide (a = b).

(** The demand side of [_evaluate_pool]: issues about the estimates, and the amounts. *)
Definition _pool_demand (kind : string) (estimates : list ResourceEstimate) (unit_ : string)
    (active : option ActiveResourceUsage) : logged amounts :=
  let unknown := existsb (fun e => String.eqb (est_confidence e) "unknown") estimates in
  let conflict := existsb (fun e => negb (String.eqb (est_unit e) unit_)) estimates in
  when unknown
    (report_issue "resource-estimate-unknown" "plan"
      ("resource demand for " +:+ py_repr kind +:+ " is unknown")
      "Provide a governed conservative bound before admitting this work." false (Some kind) None None);;
  when conflict
    (report_issue "resource-estimate-unit-conflict" "plan"
      ("resource estimates for " +:+ py_repr kind +:+ " use conflicting units")
      "Normalize all estimates for one typed pool to its registered unit." false (Some kind) None None);;
  when (match active with Some a => negb (String.eqb (aru_unit a) unit_) | None => false end)
    (report_issue "active-resource-unit-conflict" "plan"
      ("active reservation for " +:+ py_repr kind +:+ " uses a conflicting unit")
      "Reconcile active reservation accounting before admitting more work." false (Some kind) None None);;
  if unknown || conflict then mret no_amounts
  else
    am ← log_lift (pool_amounts estimates);
    when (am_overflow am)
      (report_issue "resource-plan-overflow" "plan"
        ("aggregated resource demand for " +:+ py_repr kind +:+ " exceeds the safe-integer domain")
        "Split the work into smaller governed plans before admission." false (Some kind) None None);;
    mret am.

(** The supply side: the pool's unit, freshness, reserve and usable amount. *)
Definition _pool_supply (kind unit_ : string) (pool : ResourcePool) (active_amount : Z)
    (required : option Z) (now : Z) : logged (option string * option Z * option Z) :=
  when (negb (String.eqb (pool_unit pool) unit_))
    (report_issue "resource-pool-unit-mismatch" "inventory"
      ("pool " +:+ py_repr kind +:+ " reports " +:+ py_repr (pool_unit pool) +:+
       ", but the plan requires " +:+ py_repr unit_)
      "Correct the typed inventory or resource plan before admission." false (Some kind)
      required (pool_available pool));;
  problem ← log_lift (_observation_problem now (pool_observed_at pool)
                        (pool_staleness_seconds pool) max_age);
  match problem with
  | None => mret tt
  | Some p =>
      report_issue ("resource-pool-" +:+ p) "inventory"
        ("resource pool " +:+ py_repr kind +:+ " has a " +:+ p +:+ " observation")
        "Refresh machine resource discovery before admitting work." false (Some kind)
        required (pool_available pool)
  end;;
  reserve_ ← log_lift (match pool_capacity pool with
                       | None => Ok None
                       | Some capacity => r ← pool_reserve kind capacity; Ok (Some r)
                       end);
  when (is_none (pool_available pool) || mem (pool_accuracy pool) ["unknown"; "bounded"])
    (report_issue "resource-capacity-unknown" "resource"
      ("admissible available capacity for " +:+ py_repr kind +:+ " is not known")
      "Refresh inventory with exact or estimated available capacity, or choose another machine."
      false (Some kind) required None);;
  let usable := match pool_available pool, reserve_ with
                | Some a, Some r => Some (Z.max 0 (a - r - active_amount))
                | _, _ => None
                end in
  mret (problem, reserve_, usable).

Definition _evaluate_pool (active_usage : gmap string ActiveResourceUsage) (now : Z)
    (pool_map : list ResourcePool) (estimates_of : string -> list ResourceEstimate) (kind : string)
    : logged ResourceEvaluation :=
  let estimates := estimates_of kind in
  let names := sorted_strings (est_name <$> estimates) in
  match estimates with
  | [] => Raise (OtherException "IndexError" "list index out of range")
  | first :: _ =>
      let unit_ := est_unit first in
      let active := active_usage !! kind in
      let active_amount := match active with None => 0 | Some a => aru_amount a end in
      am ← _pool_demand kind estimates unit_ active;
      match pool_get pool_map kind with
      | None =>
          report_issue "resource-pool-missing" "inventory"
            ("required typed resource pool " +:+ py_repr kind +:+ " is missing")
            "Refresh machine discovery with the complete typed resource inventory." false
            (Some kind) (am_required am) None;;
          log_lift (construct {| ev_pool_kind := kind; ev_unit := unit_; ev_estimate_names := names;
            ev_expected := am_expected am; ev_upper_bound := am_upper_bound am;
            ev_margin := am_margin am; ev_required := am_required am;
            ev_observed_available := None; ev_inventory_accuracy := "unknown";
            ev_inventory_source := "missing"; ev_safety_reserve := None;
            ev_active_usage := active_amount; ev_post_admission_available := None;
            ev_backing_store := None; ev_status := "unknown" |})
      | Some pool =>
          '(problem, reserve_, usable) ←
            _pool_supply kind unit_ pool active_amount (am_required am) now;
          let fits := match am_required am, usable with
                      | Some r, Some u => r <=? u | _, _ => false end in
          let passed := fits && String.eqb (pool_unit pool) unit_ && is_none problem in
          match am_required am, usable with
          | Some r, Some u =>
              when (u <? r)
                (report_issue "resource-capacity-insufficient" "resource"
                  ("pool " +:+ py_repr kind +:+ " has " +:+ dec u +:+
                   " admissible units but requires " +:+ dec r)
                  "Wait for active work, reclaim governed cache where allowed, reduce work, or choose a larger pool."
                  true (Some kind) (Some r) (Some u))
          | _, _ => mret tt
          end;;
          let status := if passed then "pass"
                        else if is_none (am_required am) || is_none usable then "unknown" else "fail" in
          let post := match passed, usable, am_required am with
                      | true, Some u, Some r => Some (u - r) | _, _, _ => None end in
          log_lift (construct {| ev_pool_kind := kind; ev_unit := unit_; ev_estimate_names := names;
            ev_expected := am_expected am; ev_upper_bound := am_upper_bound am;
            ev_margin := am_margin am; ev_required := am_required am;
            ev_observed_available := pool_available pool;
            ev_inventory_accuracy := pool_accuracy pool; ev_inventory_source := pool_source pool;
            ev_safety_reserve := reserve_; ev_active_usage := active_amount;
            ev_post_admission_available := post; ev_backing_store := pool_backing_store pool;
            ev_status := status |})
      end
  end.

(** ** Shared backing stores *)

Definition is_disk (unit_ kind : string) : bool :=
  String.eqb unit_ "bytes" && negb (mem kind ["ram"; "swap"]).

(** The amounts of one shared store; [None] when the aggregation overflows. *)
Record store_amounts := {
  sa_required : Z; sa_active : Z; sa_reserve : Z; sa_available : Z; sa_total : Z
}.

Definition min_list (l : list Z) : Z :=
  match l with [] => 0 | x :: l' => foldl Z.min x l' end.

Definition backing_amounts (demanded : gmap string ResourceEvaluation)
    (active_usage : gmap string ActiveResourceUsage) (pools : list ResourcePool)
    : result store_amounts :=
  required ← _safe_sum (omap (fun p => (fun e => or_zero (ev_required e)) <$> demanded !! pool_kind p) pools);
  active ← _safe_sum (omap (fun p => aru_amount <$> active_usage !! pool_kind p) pools);
  reserves ← map_result (fun p => pool_reserve (pool_kind p) (or_zero (pool_capacity p))) pools;
  let reserve_ := foldr Z.max 0 reserves in
  let available := min_list ((fun p => or_zero (pool_available p)) <$> pools) in
  total ← _safe_sum [required; active; reserve_];
  Ok {| sa_required := required; sa_active := active; sa_reserve := reserve_;
        sa_available := available; sa_total := total |}.

(** One store: nothing when it holds fewer than two pools, none demanded, or
    an unobservable pool. *)
Definition _evaluate_store (demanded : gmap string ResourceEvaluation)
    (active_usage : gmap string ActiveResourceUsage) (store : string) (pools : list ResourcePool)
    : logged (option BackingStoreEvaluation) :=
  if (length pools <? 2)%nat || negb (existsb (fun p => is_some (demanded !! pool_kind p)) pools)
  then mret None
  else if existsb (fun p => is_none (pool_available p)) pools then
    report_issue "backing-store-capacity-unknown" "resource"
      ("shared backing store " +:+ py_repr store +:+ " has an unobservable logical pool")
      "Refresh all logical pools on the shared store before admission." false None None None;;
    mret None
  else
    match backing_amounts demanded active_usage pools with
    | Raise e =>
        if is_overflow e then
          report_issue "backing-store-plan-overflow" "plan"
            ("aggregate demand on shared store " +:+ py_repr store +:+ " exceeds safe-integer bounds")
            "Split the work into smaller governed plans before admission." false None None None;;
          mret None
        else Raise e
    | Ok sa =>
        let admitted := sa_total sa <=? sa_available sa in
        when (negb admitted)
          (report_issue "backing-store-capacity-insufficient" "resource"
            ("shared store " +:+ py_repr store +:+ " would be overcommitted by its logical pools")
            "Reduce aggregate disk demand, wait for active reservations, reclaim safe cache, or choose another store."
            true None (Some (sa_total sa)) (Some (sa_available sa)));;
        ev ← log_lift (construct {| bse_backing_store := store;
          bse_pool_kinds := sorted_strings (pool_kind <$> pools);
          bse_required := sa_required sa; bse_observed_available := sa_available sa;
          bse_safety_reserve := sa_reserve sa; bse_active_usage := sa_active sa;
          bse_post_admission_available := if admitted then sa_available sa - sa_total sa else 0;
          bse_status := if admitted then "pass" else "fail" |});
        mret (Some ev)
    end.

(** The disk pools that name a store, and the pools of one store. *)
Definition store_pools (pool_map : list ResourcePool) : list ResourcePool :=
  List.filter (fun p => is_disk (pool_unit p) (pool_kind p) &&
                        negb (opt_str_empty (pool_backing_store p))) pool_map.
Definition pools_of_store (pool_map : list ResourcePool) (store : string) : list ResourcePool :=
  List.filter (fun p => bool_decide (pool_backing_store p = Some store)) (store_pools pool_map).
Definition store_names (pool_map : list ResourcePool) : list string :=
  sorted_set (omap pool_backing_store (store_pools pool_map)).

Definition _evaluate_backing_stores (evaluations : list ResourceEvaluation)
    (pool_map : list ResourcePool) (active_usage : gmap string ActiveResourceUsage)
    : logged (list BackingStoreEvaluation) :=
  let disk := List.filter (fun e => is_disk (ev_unit e) (ev_pool_kind e)) evaluations in
  when ((1 <? length disk)%nat && existsb (fun e => is_none (ev_backing_store e)) disk)
    (report_issue "backing-store-identity-unknown" "inventory"
      "multiple disk pools are demanded but at least one physical backing-store identity is unknown"
      "Refresh filesystem discovery so shared capacity cannot be double counted."
      false None None None);;
  let demanded := dict_of ev_pool_kind disk in
  results ← log_map (fun store => _evaluate_store demanded active_usage store
                                    (pools_of_store pool_map store)) (store_names pool_map);
  mret (omap id results).

(** ** The decision *)

Definition outcome_of (stage : string) (issues : list AdmissionIssue) : string :=
  if list_empty issues then "admitted"
  else if String.eqb stage "preflight" then "rejected"
  else if existsb (fun i => negb (iss_recoverable i)) issues then "drain"
  else "backpressure".

Definition estimates_of (plan : WorkloadResourcePlan) (kind : string) : list ResourceEstimate :=
  List.filter (fun e => String.eqb (est_pool_kind e) kind) (plan_estimates plan).

(** Everything [_evaluate] logs before it builds the report. *)
Definition evaluate_all (plan : WorkloadResourcePlan) (inventory : DoctorReport)
    (context : AdmissionContext) (now : Z)
    : logged (list ResourceEvaluation * list BackingStoreEvaluation) :=
  _evaluate_inventory now inventory;;
  _evaluate_trust plan inventory;;
  _evaluate_provider plan inventory now;;
  _evaluate_capabilities plan inventory now;;
  _evaluate_concurrency plan inventory context now;;
  pool_map ← _pool_map inventory;
  let active_usage := dict_of aru_pool_kind (ctx_active_usage context) in
  evaluations ← log_map (_evaluate_pool active_usage now pool_map (estimates_of plan))
                  (sorted_set (est_pool_kind <$> plan_estimates plan));
  backing ← _evaluate_backing_stores evaluations pool_map active_usage;
  mret (evaluations, backing).

Definition _evaluate (now : Z) (reservation_id : string) (plan : WorkloadResourcePlan)
    (inventory : DoctorReport) (context : AdmissionContext) (stage : string)
    : result ResourceAdmissionReport :=
  '(p, issues) ← evaluate_all plan inventory context now;
  construct {| rep_reservation_id := reservation_id; rep_stage := stage;
    rep_outcome := outcome_of stage issues; rep_observed_at := rfc3339 now;
    rep_inventory_observed_at := doc_observed_at inventory; rep_plan := plan;
    rep_policy := policy; rep_context := context; rep_resource_evaluations := p.1;
    rep_backing_store_evaluations := p.2; rep_issues := issues; rep_mutation_permitted := false |}.

Definition empty_context : AdmissionContext := {| ctx_active_concurrency := 0; ctx_active_usage := [] |}.

Definition preflight (now : Z) (reservation_id : string) (plan : WorkloadResourcePlan)
    (inventory : DoctorReport) (context : option AdmissionContext) : result ResourceAdmissionReport :=
  _evaluate now reservation_id plan inventory (default empty_context context) "preflight".

Definition dynamic_admit (now : Z) (reservation_id : string) (plan : WorkloadResourcePlan)
    (inventory : DoctorReport) (context : option AdmissionContext) : result ResourceAdmissionReport :=
  _evaluate now reservation_id plan inventory (default empty_context context) "dynamic".
End Planner.
