(* ===== verification/ResourceAdmission.v ===== *)
(** * What resource admission guarantees

    [admissible] is the abstract admission contract: a predicate on the plan,
    the inventory, the context and the clock that mentions no issue and no
    evaluation order.  The planner logs an issue exactly when the contract
    fails ([evaluate_all_nil]), so an admitted report is sound and complete for
    it; the report itself, when the inputs are well formed, is always built. *)

From S2P Require Export ResourcePlanner.

(** ** The abstract contract *)

Definition fresh (max_age now : Z) (observed_at : string) (staleness : Z) : Prop :=
  exists t, parse_timestamp observed_at = Ok t /\
    0 <= now - t <= max_age * us_per_second /\ staleness <= max_age.

(** The conservative demand on one pool: every upper bound plus its margin. *)
Definition demand_of (policy : AdmissionPolicy) (estimates : list ResourceEstimate) (req : Z) : Prop :=
  let expected := sumZ ((fun i => or_zero (est_expected i)) <$> estimates) in
  let upper := sumZ ((fun i => or_zero (est_upper_bound i)) <$> estimates) in
  exists margins, map_result (estimate_margin policy) estimates = Ok margins /\
    req = upper + sumZ margins /\
    expected <= SAFE_INTEGER_MAX /\ upper <= SAFE_INTEGER_MAX /\
    sumZ margins <= SAFE_INTEGER_MAX /\ req <= SAFE_INTEGER_MAX.

Definition active_amount (active : gmap string ActiveResourceUsage) (kind : string) : Z :=
  match active !! kind with None => 0 | Some a => aru_amount a end.

Record pool_admits (policy : AdmissionPolicy) (now : Z) (active : gmap string ActiveResourceUsage)
    (kind : string) (estimates : list ResourceEstimate) (pool : ResourcePool) (req : Z) : Prop := {
  pa_units : Forall (fun e => est_unit e = pool_unit pool /\ est_confidence e <> "unknown") estimates;
  pa_active_unit : forall a, active !! kind = Some a -> aru_unit a = pool_unit pool;
  pa_demand : demand_of policy estimates req;
  pa_fresh : fresh (pol_inventory_max_age_seconds policy) now (pool_observed_at pool)
               (pool_staleness_seconds pool);
  pa_accuracy : pool_accuracy pool <> "unknown" /\ pool_accuracy pool <> "bounded";
  pa_fits : exists available capacity r,
    pool_available pool = Some available /\ pool_capacity pool = Some capacity /\
    pool_reserve policy kind capacity = Ok r /\
    req <= Z.max 0 (available - r - active_amount active kind)
}.

(** ** The logging monad *)

Lemma log_bind_ok {A B} (m : logged A) (f : A -> logged B) b w :
  mbind f m = Ok (b, w) <->
  exists a w1 w2, m = Ok (a, w1) /\ f a = Ok (b, w2) /\ w = w1 ++ w2.
Proof.
  unfold mbind, logged_bind. split.
  - destruct m as [[a w1]|e]; [|discriminate].
    destruct (f a) as [[b' w2]|e] eqn:E; [|discriminate]. intros [= -> <-]. eauto 10.
  - intros (a & w1 & w2 & -> & -> & ->). done.
Qed.

Lemma log_bind_nil {A B} (m : logged A) (f : A -> logged B) b :
  mbind f m = Ok (b, []) <-> exists a, m = Ok (a, []) /\ f a = Ok (b, []).
Proof.
  rewrite log_bind_ok. split.
  - intros (a & w1 & w2 & H1 & H2 & E). symmetry in E. apply app_nil in E as [-> ->]. eauto.
  - intros (a & H1 & H2). eauto 10.
Qed.

Lemma log_bind_known {A B} (m : logged A) (f : A -> logged B) a r :
  m = Ok (a, []) -> mbind f m = Ok r -> f a = Ok r.
Proof. intros -> H. cbn in H. by destruct (f a) as [[b w]|]. Qed.

Lemma log_map_ok {A B} (f : A -> logged B) l ys w :
  log_map f l = Ok (ys, w) ->
  exists ws, Forall2 (fun x yw => f x = Ok yw) l (zip ys ws) /\ w = concat ws /\
    length ys = length l /\ length ws = length l.
Proof.
  revert ys w. induction l as [|x l IH]; intros ys w; cbn.
  - intros [= <- <-]. exists []. repeat split; constructor.
  - intros (y & w1 & w2 & H1 & H2 & ->)%log_bind_ok.
    apply log_bind_ok in H2 as (ys' & w3 & w4 & H3 & [= <- <-] & ->).
    apply IH in H3 as (ws & HF & -> & Hl1 & Hl2). exists (w1 :: ws). cbn.
    rewrite app_nil_r. repeat split; [by constructor|congruence|congruence].
Qed.

Lemma log_map_nil {A B} (f : A -> logged B) l ys :
  log_map f l = Ok (ys, []) <-> Forall2 (fun x y => f x = Ok (y, [])) l ys.
Proof.
  revert ys. induction l as [|x l IH]; intros ys; cbn.
  - split; [intros [= <-]; constructor|by inversion 1].
  - rewrite log_bind_nil. split.
    + intros (y & Hy & H). apply log_bind_nil in H as (ys' & Hys & [= <-]).
      constructor; [done|]. by apply IH.
    + inversion 1; subst. eexists. split; [done|]. apply log_bind_nil.
      eexists. split; [by apply IH|done].
Qed.

Lemma log_lift_ok {A} (m : result A) a w : log_lift m = Ok (a, w) <-> m = Ok a /\ w = [].
Proof. destruct m; cbn; naive_solver. Qed.

Lemma report_issue_ok code category message remediation recoverable kind required available u w :
  report_issue code category message remediation recoverable kind required available = Ok (u, w) ->
  exists i, w = [i] /\ valid i /\ iss_recoverable i = recoverable /\ iss_code i = code.
Proof.
  unfold report_issue. destruct (construct _) as [i|e] eqn:E; [|discriminate].
  intros [= <- <-]. apply construct_ok in E as [Hv ->]. eauto 10.
Qed.

Lemma report_issue_not_nil code category message remediation recoverable kind required available u :
  report_issue code category message remediation recoverable kind required available <> Ok (u, []).
Proof. intros (i & ? & _)%report_issue_ok. done. Qed.

Lemma when_nil c m u :
  (forall u', m <> Ok (u', [])) -> when c m = Ok (u, []) <-> c = false.
Proof. intros Hm. destruct c, u; cbn; split; try done. by intros ?%Hm. Qed.

(** Reduce "the log is empty" to the conditions under which it is. *)
Ltac log_step := match goal with
  | H : mbind _ _ = Ok (_, []) |- _ =>
      let a := fresh "a" in let E := fresh "E" in
      apply log_bind_nil in H; destruct H as (a & E & H); try (match type of a with unit => destruct a end)
  | H : when _ (report_issue _ _ _ _ _ _ _ _) = Ok (_, []) |- _ =>
      apply when_nil in H; [|intros; apply report_issue_not_nil]
  | H : report_issue _ _ _ _ _ _ _ _ = Ok (_, []) |- _ => by apply report_issue_not_nil in H
  | H : log_lift _ = Ok (_, _) |- _ => apply log_lift_ok in H; destruct H as [H _]
  | H : mret _ = Ok (_, _) |- _ => injection H as H
  end.
Ltac log_inv := repeat log_step.

Lemma log_bind_nil_intro {A B} (m : logged A) (f : A -> logged B) a r :
  m = Ok (a, []) -> f a = r -> match r with Ok (_, []) => True | _ => False end -> mbind f m = r.
Proof.
  intros -> Hf. destruct r as [[b [|]]|]; try done. intros _.
  apply log_bind_nil. eauto.
Qed.

Lemma when_false m : when false m = Ok (tt, []).
Proof. done. Qed.

(** ** Each check logs nothing exactly when its part of the contract holds *)

Lemma observation_fresh now observed_at staleness max_age :
  _observation_problem now observed_at staleness max_age = Ok None <->
  fresh max_age now observed_at staleness.
Proof.
  unfold _observation_problem, fresh. destruct (parse_timestamp observed_at) as [t|e]; cbn.
  - split.
    + intros [= H]. exists t. repeat case_match; try discriminate. bool_simp. split; [done|lia].
    + intros (t' & [= <-] & H1 & H2). f_equal.
      assert ((now - t <? 0) = false) as -> by lia.
      assert ((max_age * us_per_second <? now - t) || (max_age <? staleness) = false) as -> by lia.
      done.
  - split; [done|]. by intros (t & ? & _).
Qed.

Definition inventory_admits (policy : AdmissionPolicy) (now : Z) (inventory : DoctorReport) : Prop :=
  exists o v, parse_timestamp (doc_observed_at inventory) = Ok o /\
    parse_timestamp (doc_valid_until inventory) = Ok v /\
    o <= now <= v /\ now - o <= pol_inventory_max_age_seconds policy * us_per_second /\
    doc_status inventory <> "unsupported".

Lemma inventory_nil policy now inventory :
  _evaluate_inventory policy now inventory = Ok (tt, []) <-> inventory_admits policy now inventory.
Proof.
  unfold _evaluate_inventory, inventory_admits. split.
  - intros H. log_inv. bool_simp. eexists _, _. repeat split; [done|done|lia..|done].
  - intros (o & v & -> & -> & H1 & H2 & H3). cbn [log_lift mbind logged_bind].
    assert ((now - o <? 0) = false) as -> by lia.
    assert ((v <? now) || (pol_inventory_max_age_seconds policy * us_per_second <? now - o) = false)
      as -> by lia.
    apply String.eqb_neq in H3 as ->. done.
Qed.

Definition trust_admits (plan : WorkloadResourcePlan) (inventory : DoctorReport) : Prop :=
  trust_class (doc_trust inventory) ∈ plan_eligible_trust_classes plan /\
  trust_configured (doc_trust inventory) = true.

Lemma trust_nil plan inventory :
  _evaluate_trust plan inventory = Ok (tt, []) <-> trust_admits plan inventory.
Proof.
  unfold _evaluate_trust, trust_admits. split.
  - intros H. log_inv. bool_simp. done.
  - intros [H1 H2]. apply mem_spec in H1 as ->. by rewrite H2.
Qed.

Definition provider_admits (policy : AdmissionPolicy) (now : Z) (plan : WorkloadResourcePlan)
    (inventory : DoctorReport) : Prop :=
  forall pname, plan_provider_name plan = Some pname ->
  exists provider strategy,
    List.filter (fun p => String.eqb (prov_name p) pname) (doc_providers inventory) = [provider] /\
    fresh (pol_inventory_max_age_seconds policy) now (prov_observed_at provider)
      (prov_staleness_seconds provider) /\
    prov_accuracy provider = "exact" /\ prov_availability provider = "available" /\
    plan_provider_strategy plan = Some strategy /\ strategy ∈ prov_strategies provider.

Lemma provider_nil policy plan inventory now :
  _evaluate_provider policy plan inventory now = Ok (tt, []) <->
  provider_admits policy now plan inventory.
Proof.
  unfold _evaluate_provider, provider_admits. destruct (plan_provider_name plan) as [pname|].
  2: { split; [done|]. done. }
  set (candidates := List.filter _ _). split.
  - intros H p [= <-]. fold candidates.
    destruct candidates as [|provider [|? ?]]; [by log_inv| |by log_inv].
    log_inv. destruct a as [problem|]; [by log_inv|]. log_inv. bool_simp.
    destruct (plan_provider_strategy plan) as [s|]; [|done]. bool_simp.
    apply observation_fresh in E. eauto 10.
  - intros H. destruct (H _ eq_refl) as (provider & s & Hc & Hf & Ha & Hv & Hs & Hin).
    fold candidates in Hc. rewrite Hc. apply observation_fresh in Hf as ->. cbn.
    rewrite Ha, Hv, Hs. apply mem_spec in Hin as ->. done.
Qed.

Definition capability_admits (policy : AdmissionPolicy) (now : Z) (inventory : DoctorReport)
    (name : string) : Prop :=
  exists c, c ∈ doc_capabilities inventory /\ cap_name c = name /\
    cap_status c = "supported" /\ cap_accuracy c = "exact" /\
    fresh (pol_inventory_max_age_seconds policy) now (cap_observed_at c) (cap_staleness_seconds c).

Lemma capability_nil policy inventory now name :
  NoDup (cap_name <$> doc_capabilities inventory) ->
  _evaluate_capability policy (dict_of cap_name (doc_capabilities inventory)) now name = Ok (tt, []) <->
  capability_admits policy now inventory name.
Proof.
  intros Hnd. unfold _evaluate_capability, capability_admits. split.
  - destruct (dict_of _ _ !! name) as [c|] eqn:E; [|intros H; by log_inv].
    apply dict_of_lookup_elem in E as [Hin Hname].
    destruct (negb _) eqn:E1; [intros H; by log_inv|].
    destruct (negb (String.eqb (cap_accuracy c) "exact")) eqn:E2; [intros H; by log_inv|].
    intros H. log_inv. destruct a as [p|]; [by log_inv|]. bool_simp.
    apply observation_fresh in E. eauto 10.
  - intros (c & Hin & <- & Hs & Ha & Hf). rewrite (dict_of_lookup cap_name _ _ Hnd Hin), Hs, Ha.
    apply observation_fresh in Hf. cbn. by rewrite Hf.
Qed.

Definition capabilities_admit (policy : AdmissionPolicy) (now : Z) (plan : WorkloadResourcePlan)
    (inventory : DoctorReport) : Prop :=
  NoDup (cap_name <$> doc_capabilities inventory) /\
  forall name, name ∈ plan_required_capabilities plan -> capability_admits policy now inventory name.

Lemma capabilities_nil policy plan inventory now :
  _evaluate_capabilities policy plan inventory now = Ok (tt, []) <->
  capabilities_admit policy now plan inventory.
Proof.
  unfold _evaluate_capabilities, capabilities_admit.
  destruct (has_duplicates _) eqn:E.
  - split; [intros H; by log_inv|]. intros [Hnd _]. apply has_duplicates_false in Hnd. congruence.
  - apply has_duplicates_false in E. rewrite log_bind_nil. split.
    + intros (us & H & _). split; [done|]. apply log_map_nil in H.
      intros name Hin. apply (elem_of_sorted_by id) in Hin.
      apply list_elem_of_lookup in Hin as [i Hi].
      destruct (Forall2_lookup_l _ _ _ _ _ H Hi) as ([] & _ & Hu). by apply capability_nil.
    + intros [_ Hall]. exists (replicate (length (sorted_strings (plan_required_capabilities plan))) tt).
      split; [|done]. apply log_map_nil, Forall2_same_length_lookup. split; [by rewrite length_replicate|].
      intros i name [] Hi _. apply capability_nil; [done|]. apply Hall.
      apply (elem_of_sorted_by id). by eapply list_elem_of_lookup_2.
Qed.

Definition concurrency_admits (policy : AdmissionPolicy) (now : Z) (plan : WorkloadResourcePlan)
    (inventory : DoctorReport) (context : AdmissionContext) : Prop :=
  let total := ctx_active_concurrency context + plan_requested_concurrency plan in
  total <= SAFE_INTEGER_MAX /\ total <= pol_max_concurrency policy /\
  exists cpu capacity,
    List.find (fun r => String.eqb (pool_kind r) "cpu") (doc_resources inventory) = Some cpu /\
    pool_capacity cpu = Some capacity /\ total <= capacity /\
    fresh (pol_inventory_max_age_seconds policy) now (pool_observed_at cpu) (pool_staleness_seconds cpu).

Lemma safe_sum_ok l r : _safe_sum l = Ok r <-> r = sumZ l /\ sumZ l <= SAFE_INTEGER_MAX.
Proof.
  unfold _safe_sum. destruct (SAFE_INTEGER_MAX <? sumZ l) eqn:E; cbn; split.
  - done.
  - intros [_ ?]. lia.
  - intros [= <-]. lia.
  - by intros [-> _].
Qed.

Lemma concurrency_nil policy plan inventory context now :
  _evaluate_concurrency policy plan inventory context now = Ok (tt, []) <->
  concurrency_admits policy now plan inventory context.
Proof.
  unfold _evaluate_concurrency, concurrency_admits. split.
  - destruct (_safe_sum _) as [total|e] eqn:Es; [|intros H; by log_inv].
    apply safe_sum_ok in Es as [-> Hs]. cbn [sumZ] in *. rewrite Z.add_0_r in *.
    intros H. log_inv. destruct (List.find _ _) as [cpu|] eqn:Ef; [|by log_inv].
    destruct (pool_capacity cpu) as [capacity|] eqn:Ec; [|by log_inv]. log_inv.
    destruct a as [p|]; cbn in H; [by log_inv|]. log_inv. apply observation_fresh in E0.
    split; [done|]. split; [lia|]. exists cpu, capacity. repeat split; [done|lia|done].
  - intros (Hs & Hm & cpu & capacity & -> & -> & Hc & Hf).
    assert (_safe_sum [ctx_active_concurrency context; plan_requested_concurrency plan]
      = Ok (ctx_active_concurrency context + plan_requested_concurrency plan)) as ->.
    { apply safe_sum_ok. cbn. lia. }
    apply observation_fresh in Hf as ->. cbn.
    assert ((pol_max_concurrency policy <?
      ctx_active_concurrency context + plan_requested_concurrency plan) = false) as -> by lia.
    assert ((capacity <? ctx_active_concurrency context + plan_requested_concurrency plan) = false)
      as -> by lia. done.
Qed.

(** *** Pools *)

Lemma pool_amounts_sound policy estimates am :
  pool_amounts policy estimates = Ok am -> am_overflow am = false ->
  exists req, am_required am = Some req /\ demand_of policy estimates req.
Proof.
  unfold pool_amounts, demand_of.
  destruct (_safe_sum (_ <$> _)) as [e|ex] eqn:E1.
  2: { destruct (is_overflow ex); [by intros [= <-]|done]. }
  apply safe_sum_ok in E1 as [-> H1].
  destruct (_safe_sum ((fun i => or_zero (est_upper_bound i)) <$> _)) as [u|ex] eqn:E2.
  2: { destruct (is_overflow ex); [by intros [= <-]|done]. }
  apply safe_sum_ok in E2 as [-> H2].
  destruct (mbind _ _) as [m|ex] eqn:E3.
  2: { destruct (is_overflow ex); [by intros [= <-]|done]. }
  apply bind_ok in E3 as (margins & Em & E3). apply safe_sum_ok in E3 as [-> H3].
  destruct (_safe_sum [_; _]) as [r|ex] eqn:E4.
  2: { destruct (is_overflow ex); [by intros [= <-]|done]. }
  apply safe_sum_ok in E4 as [-> H4]. cbn [sumZ] in *. rewrite Z.add_0_r in *.
  intros [= <-] _. eexists. split; [done|]. exists margins. done.
Qed.

Lemma pool_amounts_complete policy estimates req :
  demand_of policy estimates req ->
  exists am, pool_amounts policy estimates = Ok am /\ am_overflow am = false /\
    am_required am = Some req.
Proof.
  intros (margins & Hm & -> & H1 & H2 & H3 & H4). unfold pool_amounts.
  rewrite (proj2 (safe_sum_ok _ _) (conj eq_refl H1)).
  rewrite (proj2 (safe_sum_ok _ _) (conj eq_refl H2)), Hm. cbn [mbind result_bind].
  rewrite (proj2 (safe_sum_ok _ _) (conj eq_refl H3)).
  assert (_safe_sum [sumZ ((fun i => or_zero (est_upper_bound i)) <$> estimates); sumZ margins]
    = Ok (sumZ ((fun i => or_zero (est_upper_bound i)) <$> estimates) + sumZ margins)) as ->.
  { apply safe_sum_ok. cbn [sumZ]. lia. }
  eexists. done.
Qed.

Definition units_agree (estimates : list ResourceEstimate) (u : string) : Prop :=
  Forall (fun e => est_unit e = u /\ est_confidence e <> "unknown") estimates.

Lemma units_agree_bool estimates u :
  units_agree estimates u <->
  existsb (fun e => String.eqb (est_confidence e) "unknown") estimates = false /\
  existsb (fun e => negb (String.eqb (est_unit e) u)) estimates = false.
Proof.
  unfold units_agree. rewrite !existsb_false, <- Forall_and. apply Forall_iff. intros e.
  rewrite negb_false_iff, String.eqb_eq, String.eqb_neq. tauto.
Qed.

Definition active_agrees (active : option ActiveResourceUsage) (u : string) : Prop :=
  forall a, active = Some a -> aru_unit a = u.

Lemma active_agrees_bool active u :
  active_agrees active u <->
  match active with Some a => negb (String.eqb (aru_unit a) u) | None => false end = false.
Proof.
  unfold active_agrees. destruct active as [a|]; [|naive_solver].
  rewrite negb_false_iff, String.eqb_eq. naive_solver.
Qed.

Lemma pool_demand_nil policy kind estimates u active am :
  _pool_demand policy kind estimates u active = Ok (am, []) <->
  units_agree estimates u /\ active_agrees active u /\
  pool_amounts policy estimates = Ok am /\ am_overflow am = false.
Proof.
  unfold _pool_demand. rewrite units_agree_bool, active_agrees_bool. split.
  - intros H. log_inv. rewrite E, E0 in H. cbn [orb] in H. log_inv. subst. done.
  - intros ([H1 H2] & H3 & H4 & H5). rewrite H1, H2, H3. cbn [orb when mbind logged_bind app].
    rewrite H4. cbn [log_lift mbind logged_bind]. rewrite H5. done.
Qed.

Lemma pool_supply_nil policy kind u pool amount required now problem reserve_ usable :
  _pool_supply policy kind u pool amount required now = Ok (problem, reserve_, usable, []) <->
  pool_unit pool = u /\ problem = None /\
  fresh (pol_inventory_max_age_seconds policy) now (pool_observed_at pool) (pool_staleness_seconds pool) /\
  pool_accuracy pool <> "unknown" /\ pool_accuracy pool <> "bounded" /\
  (exists available, pool_available pool = Some available /\
    match pool_capacity pool with
    | None => reserve_ = None /\ usable = None
    | Some capacity => exists r, pool_reserve policy kind capacity = Ok r /\
        reserve_ = Some r /\ usable = Some (Z.max 0 (available - r - amount))
    end).
Proof.
  unfold _pool_supply. split.
  - intros H. log_inv. destruct a as [p|]; [by log_inv|]. log_inv.
    bool_simp. apply observation_fresh in E0. subst.
    destruct (pool_available pool) as [available|]; [|done].
    repeat split; [done|set_solver..|]. exists available. split; [done|].
    destruct (pool_capacity pool) as [capacity|].
    + apply bind_ok in E2 as (r & Hr & [= <-]). eauto.
    + by injection E2 as <-.
  - intros (-> & -> & Hf & Hu & Hb & available & Ha & Hc).
    rewrite String.eqb_refl. apply observation_fresh in Hf as ->.
    rewrite Ha. apply String.eqb_neq in Hu, Hb. cbn -[String.eqb pool_reserve].
    destruct (pool_capacity pool) as [capacity|].
    + destruct Hc as (r & -> & -> & ->). cbn -[String.eqb]. by rewrite Hu, Hb.
    + destruct Hc as [-> ->]. cbn -[String.eqb]. by rewrite Hu, Hb.
Qed.

(** An admitted pool: nothing logged and the evaluation passes. *)
Lemma evaluate_pool_sound policy active now pool_map est kind ev :
  _evaluate_pool policy active now pool_map est kind = Ok (ev, []) -> ev_status ev = "pass" ->
  exists pool req, pool_get pool_map kind = Some pool /\
    pool_admits policy now active kind (est kind) pool req /\
    ev_pool_kind ev = kind /\ ev_unit ev = pool_unit pool /\ ev_required ev = Some req /\
    ev_backing_store ev = pool_backing_store pool.
Proof.
  unfold _evaluate_pool. destruct (est kind) as [|first rest] eqn:Ee; [done|].
  set (estimates := first :: rest) in *. intros H Hst. log_inv.
  destruct (pool_get pool_map kind) as [pool|] eqn:Ep; [|by log_inv].
  log_inv. destruct a0 as [[problem reserve_] usable].
  apply pool_demand_nil in E as (Hu & Ha & Hm & Ho).
  apply pool_amounts_sound in Hm as (req & Hr & Hd); [|done].
  apply pool_supply_nil in E0 as (Hpu & -> & Hf & Hun & Hbo & available & Hav & Hc).
  rewrite Hr in *. log_inv. apply construct_ok in H as [_ ->]. cbn in Hst.
  destruct (pool_capacity pool) as [capacity|] eqn:Ecap.
  2: { destruct Hc as [-> ->]. cbn in Hst. done. }
  destruct Hc as (r & Hrs & -> & ->). log_inv.
  exists pool, req. repeat split; try done.
  - unfold units_agree in Hu. by rewrite <- Hpu in Hu.
  - by rewrite Hpu.
  - exists available, capacity, r. repeat split; try done.
    unfold active_amount. lia.
Qed.

Lemma evaluate_pool_complete policy active now pool_map est kind ev w pool req :
  _evaluate_pool policy active now pool_map est kind = Ok (ev, w) ->
  pool_get pool_map kind = Some pool ->
  pool_admits policy now active kind (est kind) pool req ->
  w = [] /\ ev_status ev = "pass" /\ ev_pool_kind ev = kind /\ ev_required ev = Some req /\
  ev_unit ev = pool_unit pool /\ ev_backing_store ev = pool_backing_store pool.
Proof.
  unfold _evaluate_pool. intros H Hp [Hu Ha Hd Hf [Hun Hbo] (available & capacity & r & Hav & Hc & Hr & Hreq)].
  destruct (est kind) as [|first rest] eqn:Ee; [done|].
  assert (est_unit first = pool_unit pool) as Hfu by (by inversion Hu as [|? ? [? ?] ?]).
  set (estimates := first :: rest) in *. rewrite Hfu, Hp in H.
  destruct (pool_amounts_complete _ _ _ Hd) as (am & Hm & Ho & Hq).
  apply log_bind_ok in H as (am' & w1 & w2 & H1 & H & ->).
  assert (_pool_demand policy kind estimates (pool_unit pool) (active !! kind) = Ok (am, [])) as Hdn.
  { apply pool_demand_nil. done. }
  rewrite Hdn in H1. injection H1 as <- <-. cbn [app].
  apply log_bind_ok in H as (sup & w3 & w4 & H3 & H & ->).
  assert (_pool_supply policy kind (pool_unit pool) pool (active_amount active kind) (am_required am) now
    = Ok (None, Some r, Some (Z.max 0 (available - r - active_amount active kind)), [])) as Hsn.
  { apply pool_supply_nil. rewrite Hc. eauto 15. }
  unfold active_amount in Hsn. rewrite Hsn in H3. injection H3 as <- <-. cbn [app].
  rewrite Hq in H. unfold active_amount in Hreq.
  assert ((Z.max 0 (available - r - match active !! kind with
    | Some a => aru_amount a | None => 0 end) <? req) = false) as Hlt by lia.
  rewrite Hlt in H. apply log_bind_ok in H as (u & w5 & w6 & [= <- <-] & H & ->).
  apply log_lift_ok in H as [H ->]. apply construct_ok in H as [_ ->].
  apply Z.ltb_ge, Z.leb_le in Hlt. rewrite Hlt, String.eqb_refl. done.
Qed.

(** *** Shared backing stores *)

(** One physical store behind several logical pools: the demand of every pool,
    the active use of every pool and the largest reserve fit in what any of the
    pools observes as available. *)
Record store_fits (policy : AdmissionPolicy) (active : gmap string ActiveResourceUsage)
    (demand : ResourcePool -> option Z) (pools : list ResourcePool) : Prop := {
  sf_observable : Forall (fun p => is_none (pool_available p) = false) pools;
  sf_total : exists reserves,
    map_result (fun p => pool_reserve policy (pool_kind p) (or_zero (pool_capacity p))) pools
      = Ok reserves /\
    let required := sumZ (omap demand pools) in
    let used := sumZ (omap (fun p => aru_amount <$> active !! pool_kind p) pools) in
    let total := required + used + foldr Z.max 0 reserves in
    required <= SAFE_INTEGER_MAX /\ used <= SAFE_INTEGER_MAX /\ total <= SAFE_INTEGER_MAX /\
    Forall (fun p => total <= or_zero (pool_available p)) pools
}.

Lemma min_list_le l m : l <> [] -> m <= min_list l <-> Forall (fun x => m <= x) l.
Proof.
  destruct l as [|x l]; [done|]. intros _. cbn [min_list]. rewrite Forall_cons.
  revert x. induction l as [|y l IH]; intros x; cbn [foldl].
  - rewrite Forall_nil. tauto.
  - rewrite IH, Forall_cons. split; [intros [? ?]|intros (? & ? & ?)]; repeat split; try done; lia.
Qed.

Definition demand_in (demanded : gmap string ResourceEvaluation) (p : ResourcePool) : option Z :=
  (fun e => or_zero (ev_required e)) <$> demanded !! pool_kind p.

Lemma backing_amounts_ok policy demanded active pools sa :
  pools <> [] ->
  Forall (fun p => is_none (pool_available p) = false) pools ->
  backing_amounts policy demanded active pools = Ok sa ->
  sa_total sa = sa_required sa + sa_active sa + sa_reserve sa /\
  (sa_total sa <= sa_available sa <-> store_fits policy active (demand_in demanded) pools).
Proof.
  intros Hne Hobs H. unfold backing_amounts in H. ok_inv.
  apply safe_sum_ok in E as [-> H1], E0 as [-> H2], E2 as [-> H3]. subst sa. cbn [sumZ] in *.
  cbn [sa_total sa_required sa_active sa_reserve sa_available].
  split; [lia|]. rewrite min_list_le by (by destruct pools). rewrite Forall_fmap. split.
  - intros Hle. split; [done|]. exists a1. split; [done|]. cbn zeta. unfold demand_in. repeat split; [done|done|lia|].
    eapply Forall_impl; [done|]. intros p Hp. cbn in Hp. lia.
  - intros [_ (rs & Hrs & _ & _ & _ & Hall)]. rewrite E1 in Hrs. injection Hrs as <-.
    eapply Forall_impl; [done|]. intros p Hp. cbn in Hp |- *.
    unfold demand_in in Hp. lia.
Qed.

Lemma store_fits_amounts policy demanded active pools :
  store_fits policy active (demand_in demanded) pools ->
  exists sa, backing_amounts policy demanded active pools = Ok sa.
Proof.
  intros [_ (rs & Hrs & H1 & H2 & H3 & _)]. unfold backing_amounts.
  unfold demand_in in *. rewrite (proj2 (safe_sum_ok _ _) (conj eq_refl H1)).
  rewrite (proj2 (safe_sum_ok _ _) (conj eq_refl H2)). cbn [mbind result_bind]. rewrite Hrs.
  cbn [mbind result_bind]. unfold _safe_sum at 1. cbn [sumZ].
  match goal with |- context [raise_if ?b _] => assert (b = false) as -> by lia end.
  cbn. eauto.
Qed.

Definition store_shared (demanded : gmap string ResourceEvaluation) (pools : list ResourcePool) : Prop :=
  (2 <= length pools)%nat /\ exists p, p ∈ pools /\ is_Some (demanded !! pool_kind p).

Lemma store_shared_bool demanded pools :
  ((length pools <? 2)%nat || negb (existsb (fun p => is_some (demanded !! pool_kind p)) pools)) = false <->
  store_shared demanded pools.
Proof.
  unfold store_shared. rewrite orb_false_iff, negb_false_iff, Nat.ltb_ge, existsb_exists.
  setoid_rewrite list_elem_of_In. apply and_iff_compat_l. unfold is_some.
  setoid_rewrite negb_true_iff. setoid_rewrite is_none_false. done.
Qed.

(** The check of one store logs nothing exactly when an evaluated store fits. *)
Lemma store_sound policy demanded active store pools r :
  _evaluate_store policy demanded active store pools = Ok (r, []) ->
  store_shared demanded pools -> store_fits policy active (demand_in demanded) pools.
Proof.
  unfold _evaluate_store. intros H Hs. pose proof Hs as [Hlen _]. apply store_shared_bool in Hs as Hsb.
  rewrite Hsb in H.
  destruct (existsb _ pools) eqn:Eo; [by log_inv|]. apply existsb_false in Eo.
  destruct (backing_amounts _ _ _ _) as [sa|e] eqn:Eb.
  - apply backing_amounts_ok in Eb as [_ Hiff]; [|by destruct pools; cbn in *; try lia|done].
    log_inv. apply Hiff. bool_simp. lia.
  - destruct (is_overflow e); [by log_inv|done].
Qed.

Lemma store_complete policy demanded active store pools r w :
  _evaluate_store policy demanded active store pools = Ok (r, w) ->
  (store_shared demanded pools -> store_fits policy active (demand_in demanded) pools) ->
  w = [] /\ (forall ev, r = Some ev -> bse_status ev = "pass").
Proof.
  unfold _evaluate_store. intros H Hf.
  destruct ((length pools <? 2)%nat || _) eqn:Eg; [injection H as <- <-; done|].
  apply store_shared_bool in Eg as Hs. specialize (Hf Hs). destruct Hs as [Hlen _].
  pose proof Hf as [Hobs _]. apply existsb_false in Hobs as Eo. rewrite Eo in H.
  destruct (store_fits_amounts _ _ _ _ Hf) as [sa Hsa]. rewrite Hsa in H.
  apply backing_amounts_ok in Hsa as [_ Hiff]; [|by destruct pools; cbn in *; try lia|done].
  apply Hiff in Hf. apply Z.leb_le in Hf. rewrite Hf in H. cbn [negb when] in H.
  apply log_bind_ok in H as ([] & w1 & w2 & [= <-] & H & ->).
  apply log_bind_ok in H as (ev & w3 & w4 & H & [= <- <-] & ->).
  apply log_lift_ok in H as [H ->]. apply construct_ok in H as [_ ->].
  split; [done|]. by intros ev [= <-].
Qed.

(** *** The whole decision *)

Definition planned (plan : WorkloadResourcePlan) : list string := est_pool_kind <$> plan_estimates plan.

Definition demand_on (plan : WorkloadResourcePlan) (req : string -> Z) (p : ResourcePool) : option Z :=
  if mem (pool_kind p) (planned plan) then Some (req (pool_kind p)) else None.

Definition disk_pool (p : ResourcePool) : bool := is_disk (pool_unit p) (pool_kind p).

(** Two demanded disk pools are admitted only with their physical stores known. *)
Definition stores_known (plan : WorkloadResourcePlan) (resources : list ResourcePool) : Prop :=
  forall p q, p ∈ resources -> q ∈ resources -> pool_kind p <> pool_kind q ->
    pool_kind p ∈ planned plan -> pool_kind q ∈ planned plan ->
    disk_pool p = true -> disk_pool q = true -> pool_backing_store p <> None.

Record admissible (policy : AdmissionPolicy) (now : Z) (plan : WorkloadResourcePlan)
    (inventory : DoctorReport) (context : AdmissionContext) : Prop := {
  ad_inventory : inventory_admits policy now inventory;
  ad_trust : trust_admits plan inventory;
  ad_provider : provider_admits policy now plan inventory;
  ad_capabilities : capabilities_admit policy now plan inventory;
  ad_concurrency : concurrency_admits policy now plan inventory context;
  ad_unique : NoDup (pool_kind <$> doc_resources inventory);
  ad_pools : exists req : string -> Z,
    let active := dict_of aru_pool_kind (ctx_active_usage context) in
    (forall kind, kind ∈ planned plan -> exists pool,
       pool ∈ doc_resources inventory /\ pool_kind pool = kind /\
       pool_admits policy now active kind (estimates_of plan kind) pool (req kind)) /\
    stores_known plan (doc_resources inventory) /\
    (forall store, let pools := pools_of_store (doc_resources inventory) store in
       (2 <= length pools)%nat -> (exists p, p ∈ pools /\ pool_kind p ∈ planned plan) ->
       store_fits policy active (demand_on plan req) pools)
}.

Lemma first_by_kind_id l : NoDup (pool_kind <$> l) -> first_by_kind l = l.
Proof.
  unfold first_by_kind. induction l as [|x l IH] using rev_ind; [done|].
  rewrite fmap_app, NoDup_app. intros (Hl & Hd & _). rewrite foldl_app, (IH Hl). cbn.
  destruct (existsb _ l) eqn:E; [|done]. apply existsb_exists in E as (q & Hq & Hk%String.eqb_eq).
  exfalso. apply (Hd (pool_kind q)).
  - apply list_elem_of_fmap_2. by apply list_elem_of_In.
  - rewrite Hk. left.
Qed.

Lemma pool_get_elem l kind p : pool_get l kind = Some p -> p ∈ l /\ pool_kind p = kind.
Proof.
  intros [H1 H2]%List.find_some. apply list_elem_of_In in H1. bool_simp. done.
Qed.

Lemma pool_get_unique l p : NoDup (pool_kind <$> l) -> p ∈ l -> pool_get l (pool_kind p) = Some p.
Proof.
  unfold pool_get. induction l as [|q l IH]; [by intros _ ?%elem_of_nil|]. cbn.
  intros [Hn Hd]%NoDup_cons [->|Hp]%elem_of_cons; [by rewrite String.eqb_refl|].
  destruct (String.eqb _ _) eqn:E; [|auto]. apply String.eqb_eq in E.
  exfalso. apply Hn. rewrite E. by apply list_elem_of_fmap_2.
Qed.

(** What the evaluations of an admissible plan look like. *)
Record evaluated (plan : WorkloadResourcePlan) (resources : list ResourcePool) (req : string -> Z)
    (evs : list ResourceEvaluation) : Prop := {
  ed_kinds : ev_pool_kind <$> evs = sorted_set (planned plan);
  ed_each : Forall (fun ev => exists pool, pool_get resources (ev_pool_kind ev) = Some pool /\
    ev_required ev = Some (req (ev_pool_kind ev)) /\ ev_unit ev = pool_unit pool /\
    ev_backing_store ev = pool_backing_store pool) evs
}.

Definition disk_evaluations (evs : list ResourceEvaluation) : list ResourceEvaluation :=
  List.filter (fun e => is_disk (ev_unit e) (ev_pool_kind e)) evs.

Section Evaluated.
Context (plan : WorkloadResourcePlan) (resources : list ResourcePool) (req : string -> Z).
Context (evs : list ResourceEvaluation) (Hev : evaluated plan resources req evs).
Context (Hnd : NoDup (pool_kind <$> resources)).
Let demanded := dict_of ev_pool_kind (disk_evaluations evs).

Lemma evaluated_elem k : k ∈ planned plan <-> exists ev, ev ∈ evs /\ ev_pool_kind ev = k.
Proof.
  rewrite <- elem_of_sorted_set, <- (ed_kinds _ _ _ _ Hev), list_elem_of_fmap.
  split; intros (ev & ? & ?); eauto.
Qed.

Lemma evaluated_pool ev : ev ∈ evs -> exists pool, pool ∈ resources /\
  pool_kind pool = ev_pool_kind ev /\ ev_required ev = Some (req (ev_pool_kind ev)) /\
  ev_unit ev = pool_unit pool /\ ev_backing_store ev = pool_backing_store pool.
Proof.
  intros Hin. pose proof (ed_each _ _ _ _ Hev) as Hall. rewrite Forall_forall in Hall.
  destruct (Hall _ Hin) as (pool & Hp & H). apply pool_get_elem in Hp as [? ?]. eauto.
Qed.

Lemma evaluated_inj e f : e ∈ evs -> f ∈ evs -> ev_pool_kind e = ev_pool_kind f -> e = f.
Proof.
  intros He Hf Hk. assert (NoDup (ev_pool_kind <$> evs)) as Hn.
  { rewrite (ed_kinds _ _ _ _ Hev). apply NoDup_sorted_set. }
  apply (dict_of_lookup ev_pool_kind _ _ Hn) in He, Hf. congruence.
Qed.

Lemma resource_inj p q : p ∈ resources -> q ∈ resources -> pool_kind p = pool_kind q -> p = q.
Proof.
  intros Hp Hq Hk. apply pool_get_unique in Hp, Hq; [|done..]. congruence.
Qed.

Lemma disk_evaluations_nodup : NoDup (ev_pool_kind <$> disk_evaluations evs).
Proof.
  apply NoDup_fmap_lfilter. rewrite (ed_kinds _ _ _ _ Hev). apply NoDup_sorted_set.
Qed.

Lemma demanded_lookup p :
  p ∈ resources -> disk_pool p = true -> demand_in demanded p = demand_on plan req p.
Proof.
  intros Hp Hd. unfold demand_in, demand_on, demanded. destruct (mem _ _) eqn:E.
  - apply mem_spec, evaluated_elem in E as (ev & Hin & Hk).
    destruct (evaluated_pool _ Hin) as (q & Hq & Hqk & Hr & Hu & _).
    assert (q = p) as -> by (apply resource_inj; congruence).
    rewrite <- Hk, (dict_of_lookup ev_pool_kind _ ev disk_evaluations_nodup).
    + cbn. by rewrite Hr.
    + apply elem_of_lfilter. split; [done|]. by rewrite Hu, Hk.
  - apply mem_false in E. destruct (dict_of _ _ !! _) as [ev|] eqn:El; [|done].
    apply dict_of_lookup_elem in El as [Hin Hk]. apply elem_of_lfilter in Hin as [Hin _].
    exfalso. apply E, evaluated_elem. eauto.
Qed.

Lemma demanded_some p :
  p ∈ resources -> disk_pool p = true ->
  is_Some (demanded !! pool_kind p) <-> pool_kind p ∈ planned plan.
Proof.
  intros Hp Hd. pose proof (demanded_lookup p Hp Hd) as H.
  unfold demand_in, demand_on in H. rewrite <- mem_spec.
  destruct (demanded !! _), (mem _ _); cbn in H; try done; split; intros; eauto; try done.
Qed.

Lemma pools_of_store_elem store p :
  p ∈ pools_of_store resources store <->
  p ∈ resources /\ disk_pool p = true /\ pool_backing_store p = Some store /\ store <> "".
Proof.
  unfold pools_of_store, store_pools. rewrite !elem_of_lfilter, bool_decide_eq_true, andb_true_iff.
  split.
  - intros [(? & ? & H) E]. rewrite E in H. cbn in H. unfold str_empty in H. by bool_simp.
  - intros (? & ? & E & ?). rewrite E. cbn. unfold str_empty. repeat split; try done. by bool_simp.
Qed.

Lemma shared_planned store :
  store_shared demanded (pools_of_store resources store) <->
  (2 <= length (pools_of_store resources store))%nat /\
  exists p, p ∈ pools_of_store resources store /\ pool_kind p ∈ planned plan.
Proof.
  unfold store_shared. apply and_iff_compat_l. split; intros (p & Hp & H); exists p;
    (split; [done|]); apply pools_of_store_elem in Hp as (? & ? & _); by apply demanded_some.
Qed.

Lemma store_fits_planned policy active store :
  store_fits policy active (demand_in demanded) (pools_of_store resources store) <->
  store_fits policy active (demand_on plan req) (pools_of_store resources store).
Proof.
  assert (omap (demand_in demanded) (pools_of_store resources store) =
          omap (demand_on plan req) (pools_of_store resources store)) as E.
  { assert (Forall (fun p => p ∈ pools_of_store resources store) (pools_of_store resources store))
      as Hall by (by apply Forall_forall).
    revert Hall. generalize (pools_of_store resources store) at 2 3 4 as l.
    induction 1 as [|p l Hp _ IH]; cbn; [done|].
    apply pools_of_store_elem in Hp as (? & ? & _). by rewrite demanded_lookup, IH. }
  split; intros [? (rs & ? & H)]; (split; [done|]); exists rs; (split; [done|]);
    cbn zeta in *; by rewrite ?E in *.
Qed.

Lemma stores_known_bool :
  ((1 <? length (disk_evaluations evs))%nat &&
   existsb (fun e => is_none (ev_backing_store e)) (disk_evaluations evs)) = false <->
  stores_known plan resources.
Proof.
  unfold stores_known. rewrite andb_false_iff, Nat.ltb_ge. split.
  - intros H p q Hp Hq Hne Kp Kq Dp Dq Hs.
    apply evaluated_elem in Kp as (e & He & Ke), Kq as (f & Hf & Kf).
    destruct (evaluated_pool _ He) as (p' & Hp' & Kp' & _ & Up & Sp).
    assert (p' = p) as -> by (apply resource_inj; congruence).
    destruct (evaluated_pool _ Hf) as (q' & Hq' & Kq' & _ & Uq & _).
    assert (q' = q) as -> by (apply resource_inj; congruence).
    assert (e ∈ disk_evaluations evs) as De.
    { apply elem_of_lfilter. split; [done|]. by rewrite Up, Ke. }
    assert (f ∈ disk_evaluations evs) as Df.
    { apply elem_of_lfilter. split; [done|]. by rewrite Uq, Kf. }
    destruct H as [H|H].
    + destruct (disk_evaluations evs) as [|x [|y l]]; [set_solver| |cbn in H; lia].
      apply list_elem_of_singleton in De, Df. congruence.
    + apply existsb_false in H. rewrite Forall_forall in H. apply H in De.
      rewrite Sp, Hs in De. done.
  - intros H. destruct (le_gt_dec (length (disk_evaluations evs)) 1) as [|Hlt]; [by left|]. right.
    apply existsb_false, Forall_forall. intros e He.
    pose proof disk_evaluations_nodup as Hn.
    assert (exists f, f ∈ disk_evaluations evs /\ ev_pool_kind f <> ev_pool_kind e) as (f & Hf & Hne).
    { destruct (disk_evaluations evs) as [|x [|y l]]; [cbn in Hlt; lia..|].
      cbn in Hn. apply NoDup_cons in Hn as [Hn _].
      destruct (decide (ev_pool_kind x = ev_pool_kind e)) as [E|]; [|exists x; set_solver].
      exists y. split; [set_solver|]. rewrite <- E. set_solver. }
    apply elem_of_lfilter in He as [He De], Hf as [Hf Df].
    destruct (evaluated_pool _ He) as (p & Hp & Kp & _ & Up & Sp).
    destruct (evaluated_pool _ Hf) as (q & Hq & Kq & _ & Uq & _).
    rewrite Up, <- Kp in De. rewrite Uq, <- Kq in Df.
    rewrite Sp. apply is_none_false. destruct (pool_backing_store p) eqn:Es; [eauto|].
    exfalso. eapply (H p q); try done; [congruence|apply evaluated_elem; eauto..].
Qed.
End Evaluated.

Lemma estimates_of_elem plan kind e : e ∈ estimates_of plan kind <-> e ∈ plan_estimates plan /\ est_pool_kind e = kind.
Proof. unfold estimates_of. rewrite elem_of_lfilter. by rewrite String.eqb_eq. Qed.

Lemma evaluate_pools_sound policy active now resources plan evs :
  log_map (_evaluate_pool policy active now resources (estimates_of plan))
    (sorted_set (planned plan)) = Ok (evs, []) ->
  Forall (fun e => ev_status e = "pass") evs ->
  exists req, evaluated plan resources req evs /\
    forall kind, kind ∈ planned plan -> exists pool, pool_get resources kind = Some pool /\
      pool_admits policy now active kind (estimates_of plan kind) pool (req kind).
Proof.
  intros H Hst. apply log_map_nil in H.
  assert (Forall2 (fun kind ev => exists pool r, pool_get resources kind = Some pool /\
    pool_admits policy now active kind (estimates_of plan kind) pool r /\ ev_pool_kind ev = kind /\
    ev_unit ev = pool_unit pool /\ ev_required ev = Some r /\
    ev_backing_store ev = pool_backing_store pool) (sorted_set (planned plan)) evs) as HF.
  { revert Hst. induction H as [|k ev ks evs Hk _ IH]; [constructor|].
    intros [H1 H2]%Forall_cons. constructor; [|auto].
    apply evaluate_pool_sound in Hk as (pool & r & ?); [|done]. eauto 10. }
  assert (ev_pool_kind <$> evs = sorted_set (planned plan)) as Hk.
  { induction HF as [|k ev ks evs' (? & ? & ? & ? & Hk & _) _ IH]; cbn; [done|].
    rewrite Hk. f_equal. apply IH; by inversion Hst; inversion H. }
  exists (fun kind => match dict_of ev_pool_kind evs !! kind with
                      | Some ev => or_zero (ev_required ev) | None => 0 end).
  assert (forall ev, ev ∈ evs -> dict_of ev_pool_kind evs !! ev_pool_kind ev = Some ev) as Hlk.
  { intros ev Hin. apply dict_of_lookup; [|done]. rewrite Hk. apply NoDup_sorted_set. }
  split; [split; [done|]|].
  - apply Forall_forall. intros ev Hin. rewrite (Hlk _ Hin).
    apply list_elem_of_lookup in Hin as [i Hi].
    destruct (Forall2_lookup_r _ _ _ _ _ HF Hi) as (k & _ & pool & r & ? & ? & -> & ? & Hr & ?).
    rewrite Hr. eauto 10.
  - intros kind Hin. apply elem_of_sorted_set, list_elem_of_lookup in Hin as [i Hi].
    destruct (Forall2_lookup_l _ _ _ _ _ HF Hi) as (ev & Hev & pool & r & Hp & Ha & E & ? & Hr & ?).
    apply list_elem_of_lookup_2, Hlk in Hev. rewrite E in Hev. rewrite Hev, Hr. eauto.
Qed.

Lemma evaluate_pools_complete policy active now resources plan evs w req :
  log_map (_evaluate_pool policy active now resources (estimates_of plan))
    (sorted_set (planned plan)) = Ok (evs, w) ->
  (forall kind, kind ∈ planned plan -> exists pool, pool_get resources kind = Some pool /\
      pool_admits policy now active kind (estimates_of plan kind) pool (req kind)) ->
  w = [] /\ evaluated plan resources req evs.
Proof.
  intros H Hall. setoid_rewrite <- elem_of_sorted_set in Hall.
  assert (w = [] /\ ev_pool_kind <$> evs = sorted_set (planned plan) /\
    Forall (fun ev => exists pool, pool_get resources (ev_pool_kind ev) = Some pool /\
    ev_required ev = Some (req (ev_pool_kind ev)) /\ ev_unit ev = pool_unit pool /\
    ev_backing_store ev = pool_backing_store pool) evs) as (-> & ? & ?); [|done].
  revert evs w H Hall. generalize (sorted_set (planned plan)) as ks.
  induction ks as [|k ks IH]; intros evs w H Hall; cbn in H.
  - injection H as <- <-. repeat constructor.
  - apply log_bind_ok in H as (ev & w1 & w2 & H1 & H & ->).
    apply log_bind_ok in H as (evs' & w3 & w4 & H3 & [= <- <-] & ->).
    destruct (Hall k) as (pool & Hp & Ha); [left|].
    destruct (evaluate_pool_complete _ _ _ _ _ _ _ _ _ _ H1 Hp Ha) as (-> & _ & Hk & Hr & ? & ?).
    destruct (IH _ _ H3) as (-> & IHk & IHf); [intros; apply Hall; by right|].
    split; [done|]. rewrite fmap_cons, Hk, IHk. split; [done|]. constructor; [|done].
    rewrite Hk. eauto.
Qed.

Lemma pool_map_nil inventory pm :
  _pool_map inventory = Ok (pm, []) <->
  NoDup (pool_kind <$> doc_resources inventory) /\ pm = doc_resources inventory.
Proof.
  unfold _pool_map. rewrite log_bind_nil. split.
  - intros ([] & H & H2). log_inv. bool_simp. split; [done|]. subst. by apply first_by_kind_id.
  - intros [Hn ->]. exists tt. rewrite first_by_kind_id by done.
    by apply has_duplicates_false in Hn as ->.
Qed.

Section Decision.
Context (policy : AdmissionPolicy) (now : Z) (plan : WorkloadResourcePlan).
Context (inventory : DoctorReport) (context : AdmissionContext).
Let active := dict_of aru_pool_kind (ctx_active_usage context).
Let resources := doc_resources inventory.

Lemma backing_stores_sound evs bse req :
  evaluated plan resources req evs -> NoDup (pool_kind <$> resources) ->
  _evaluate_backing_stores policy evs resources active = Ok (bse, []) ->
  stores_known plan resources /\
  forall store, let pools := pools_of_store resources store in
     (2 <= length pools)%nat -> (exists p, p ∈ pools /\ pool_kind p ∈ planned plan) ->
     store_fits policy active (demand_on plan req) pools.
Proof.
  intros Hev Hnd H. unfold _evaluate_backing_stores in H. fold (disk_evaluations evs) in H.
  log_inv. split; [by eapply stores_known_bool|]. intros store pools Hlen Hex.
  assert (store ∈ store_names resources) as Hin.
  { destruct Hex as (p & Hp & _). apply pools_of_store_elem in Hp as (? & ? & Hb & ?).
    apply elem_of_sorted_set, list_elem_of_omap. exists p. split; [|done].
    apply elem_of_lfilter. split; [done|]. rewrite Hb. cbn. unfold str_empty.
    apply andb_true_iff. split; [done|]. by bool_simp. }
  apply log_map_nil in E0. apply list_elem_of_lookup in Hin as [i Hi].
  destruct (Forall2_lookup_l _ _ _ _ _ E0 Hi) as (r & _ & Hr).
  eapply store_fits_planned; [done..|]. eapply store_sound; [done|].
  by eapply shared_planned.
Qed.

Lemma backing_stores_complete evs bse w req :
  evaluated plan resources req evs -> NoDup (pool_kind <$> resources) ->
  _evaluate_backing_stores policy evs resources active = Ok (bse, w) ->
  stores_known plan resources ->
  (forall store, let pools := pools_of_store resources store in
     (2 <= length pools)%nat -> (exists p, p ∈ pools /\ pool_kind p ∈ planned plan) ->
     store_fits policy active (demand_on plan req) pools) ->
  w = [].
Proof.
  intros Hev Hnd H Hk Hs. unfold _evaluate_backing_stores in H. fold (disk_evaluations evs) in H.
  eapply stores_known_bool in Hk; [|done..]. rewrite Hk in H.
  apply log_bind_ok in H as ([] & w1 & w2 & [= <-] & H & ->).
  apply log_bind_ok in H as (rs & w3 & w4 & H & [= <- <-] & ->).
  apply log_map_ok in H as (ws & HF & -> & Hl1 & Hl2). rewrite app_nil_r. cbn.
  assert (Forall (fun w => w = []) ws) as Hw.
  { apply Forall_lookup. intros i w Hw.
    assert (exists r, rs !! i = Some r) as [r Hr].
    { apply lookup_lt_is_Some. rewrite Hl1, <- Hl2. by eapply lookup_lt_Some. }
    assert (zip rs ws !! i = Some (r, w)) as Hz by (apply lookup_zip_with_Some; eauto).
    destruct (Forall2_lookup_r _ _ _ _ _ HF Hz) as (store & _ & Hst).
    eapply store_complete in Hst as [Hst _]; [done|]. intros Hsh.
    eapply store_fits_planned; [done..|]. apply Hs; by eapply shared_planned in Hsh as [? ?]. }
  clear -Hw. by induction Hw as [|x l -> _ IH].
Qed.

Lemma resources_get kind pool :
  NoDup (pool_kind <$> resources) ->
  pool_get resources kind = Some pool <-> pool ∈ resources /\ pool_kind pool = kind.
Proof.
  intros Hn. split; [apply pool_get_elem|]. intros [H <-]. by apply pool_get_unique.
Qed.

Lemma evaluate_all_sound p :
  evaluate_all policy plan inventory context now = Ok (p, []) ->
  Forall (fun e => ev_status e = "pass") p.1 -> admissible policy now plan inventory context.
Proof.
  unfold evaluate_all. intros H Hst. log_inv. subst p.
  apply inventory_nil in E. apply trust_nil in E0. apply provider_nil in E1.
  apply capabilities_nil in E2. apply concurrency_nil in E3. apply pool_map_nil in E4 as [Hn ->].
  apply evaluate_pools_sound in E5 as (req & Hev & Hp); [|done].
  destruct (backing_stores_sound _ _ _ Hev Hn E6) as [Hk Hs].
  split; [done..|]. exists req. split; [|done]. intros kind Hin.
  destruct (Hp kind Hin) as (pool & Hg & Ha). exists pool. by apply resources_get in Hg as [? ?].
Qed.

Lemma evaluate_all_complete p w :
  evaluate_all policy plan inventory context now = Ok (p, w) ->
  admissible policy now plan inventory context -> w = [].
Proof.
  unfold evaluate_all. intros H [H1 H2 H3 H4 H5 Hn (req & Hp & Hk & Hs)].
  apply inventory_nil in H1. apply trust_nil in H2. apply provider_nil in H3.
  apply capabilities_nil in H4. apply concurrency_nil in H5.
  assert (_pool_map inventory = Ok (doc_resources inventory, [])) as H6 by (by apply pool_map_nil).
  do 6 (eapply log_bind_known in H; [|done]).
  apply log_bind_ok in H as (evs & w1 & w2 & He & H & ->).
  apply log_bind_ok in H as (bse & w3 & w4 & Hb & [= <- <-] & ->).
  apply (evaluate_pools_complete _ _ _ _ _ _ _ req) in He as [-> Hev].
  - by eapply backing_stores_complete in Hb as ->.
  - intros kind Hin. destruct (Hp kind Hin) as (pool & ? & ? & ?). exists pool.
    split; [by apply resources_get|done].
Qed.
End Decision.

Lemma outcome_admitted stage issues : outcome_of stage issues = "admitted" <-> issues = [].
Proof. unfold outcome_of. destruct issues; cbn; [done|]. repeat case_match; done. Qed.

Lemma evaluate_report policy now rid plan inventory context stage rep :
  _evaluate policy now rid plan inventory context stage = Ok rep ->
  valid rep /\
  evaluate_all policy plan inventory context now =
    Ok ((rep_resource_evaluations rep, rep_backing_store_evaluations rep), rep_issues rep) /\
  rep_outcome rep = outcome_of stage (rep_issues rep) /\ rep_stage rep = stage /\
  rep_reservation_id rep = rid /\ rep_plan rep = plan /\ rep_mutation_permitted rep = false.
Proof.
  unfold _evaluate. intros H. apply bind_ok in H as ([[evs bse] issues] & He & H).
  apply construct_ok in H as [Hv ->]. cbn. done.
Qed.

Lemma report_pass rep : valid rep -> rep_outcome rep = "admitted" ->
  Forall (fun e => ev_status e = "pass") (rep_resource_evaluations rep) /\
  Forall (fun e => bse_status e = "pass") (rep_backing_store_evaluations rep).
Proof.
  intros Hv Ho. unfold valid, post_init, ResourceAdmissionReport_post_init in Hv. rewrite Ho in Hv.
  cbn [String.eqb Ascii.eqb Bool.eqb negb andb] in Hv. ok_inv.
  split; (eapply Forall_impl; [by apply existsb_false|]); intros e He; cbn in He; by bool_simp.
Qed.

(** C5: every report of the planner, preflight or dynamic, says [admitted] exactly when the
    workload is admissible: the inventory, provider, capability and CPU observations are fresh and
    sufficient, every demanded pool covers its conservative demand after its reserve and active
    use, and every physical store shared by several pools covers the aggregate. *)
Theorem admission_exact policy now rid plan inventory context stage rep :
  _evaluate policy now rid plan inventory context stage = Ok rep ->
  (rep_outcome rep = "admitted" <-> admissible policy now plan inventory context).
Proof.
  intros (Hv & He & Ho & _)%evaluate_report. rewrite Ho, outcome_admitted. split.
  - intros Hi. rewrite Hi in *. eapply evaluate_all_sound; [done|].
    by apply report_pass.
  - by eapply evaluate_all_complete.
Qed.
