(* ===== verification/AdmissionTotal.v ===== *)
(** * Resource admission always decides

    On a validated policy, plan, context and inventory the planner builds its
    report: no check raises, and the report passes its own validation.  The
    [returns] judgement is a small program logic for the logging monad; the
    inventory conditions the source assumes without validating them (registered
    pool kinds, safe amounts, a known capacity behind a known availability) are
    the fields of [pool_wf], and [unknown_capacity_raises] shows the last of them
    is needed. *)

From S2P Require Export ResourceAdmission.

(** ** A program logic for the logging monad *)

Definition returns {A} (m : logged A) (P : A -> Prop) : Prop := exists a w, m = Ok (a, w) /\ P a.

Lemma returns_ret {A} (a : A) (P : A -> Prop) : P a -> returns (mret a) P.
Proof. exists a, []. done. Qed.

Lemma returns_bind {A B} (m : logged A) (f : A -> logged B) P Q :
  returns m P -> (forall a, P a -> returns (f a) Q) -> returns (mbind f m) Q.
Proof.
  intros (a & w & -> & Ha) Hf. destruct (Hf a Ha) as (b & w' & E & Hb).
  exists b, (w ++ w'). cbn. by rewrite E.
Qed.

Lemma returns_mono {A} (m : logged A) (P Q : A -> Prop) :
  returns m P -> (forall a, P a -> Q a) -> returns m Q.
Proof. intros (a & w & -> & Ha) H. exists a, w. auto. Qed.

Lemma returns_lift {A} (m : result A) (P : A -> Prop) a : m = Ok a -> P a -> returns (log_lift m) P.
Proof. intros -> ?. exists a, []. done. Qed.

Lemma returns_when c m : (c = true -> returns m (fun _ => True)) -> returns (when c m) (fun _ => True).
Proof. destruct c; cbn; [auto|]. intros _. by apply returns_ret. Qed.

Lemma returns_map {A B} (f : A -> logged B) (Q : A -> B -> Prop) l :
  (forall x, x ∈ l -> returns (f x) (Q x)) -> returns (log_map f l) (Forall2 Q l).
Proof.
  induction l as [|x l IH]; intros H; cbn; [by apply returns_ret; constructor|].
  eapply returns_bind; [apply H; left|]. intros y Hy.
  eapply returns_bind; [apply IH; intros; apply H; by right|]. intros ys Hys.
  apply returns_ret. by constructor.
Qed.

Lemma returns_report code category message remediation recoverable kind required available :
  fullmatch TOKEN_PATTERN code = true -> mem category ISSUE_CATEGORIES = true ->
  str_empty message = false -> str_empty remediation = false ->
  match kind with Some k => mem k RESOURCE_POOL_KINDS = true | None => True end ->
  safe_nonneg_opt required = true -> safe_nonneg_opt available = true ->
  returns (report_issue code category message remediation recoverable kind required available)
    (fun _ => True).
Proof.
  intros H1 H2 H3 H4 H5 H6 H7. unfold report_issue. rewrite construct_valid.
  - eexists _, _. done.
  - unfold valid, post_init, AdmissionIssue_post_init, _require_token, require_token,
      _require_nonnegative_safe_integer.
    cbn [iss_code iss_category iss_message iss_remediation iss_pool_kind iss_required iss_available].
    rewrite H1, H2, H3, H4, H6, H7. destruct kind; [by rewrite H5|done].
Qed.


Ltac issue_step :=
  apply returns_report; [vm_compute; reflexivity|reflexivity|reflexivity|reflexivity|..].
Ltac then_ := eapply (returns_bind _ _ (fun _ => True)); [|intros [] _].
Ltac when_issue := apply returns_when; intros ?; issue_step; try reflexivity; try done.

(** ** Well-formed inventories *)

Definition parses (s : string) : Prop := exists t, parse_timestamp s = Ok t.

Record pool_wf (p : ResourcePool) : Prop := {
  pw_valid : valid p;
  pw_parses : parses (pool_observed_at p);
  pw_kind : mem (pool_kind p) RESOURCE_POOL_KINDS = true;
  pw_cpu : pool_kind p = "cpu" -> pool_unit p = "logical_cpu";
  pw_capacity_safe : safe_nonneg_opt (pool_capacity p) = true;
  pw_available_safe : safe_nonneg_opt (pool_available p) = true;
  pw_capacity_known : pool_available p <> None -> pool_capacity p <> None
}.

Record inventory_wf (inventory : DoctorReport) : Prop := {
  iw_valid : valid inventory;
  iw_observed : parses (doc_observed_at inventory);
  iw_until : parses (doc_valid_until inventory);
  iw_pools : Forall pool_wf (doc_resources inventory);
  iw_providers : Forall (fun p => parses (prov_observed_at p)) (doc_providers inventory);
  iw_capabilities : Forall (fun c => parses (cap_observed_at c)) (doc_capabilities inventory)
}.

Record policy_wf (policy : AdmissionPolicy) : Prop := {
  yw_valid : valid policy;
  yw_margins : Forall valid (pol_confidence_margins policy);
  yw_reserves : Forall valid (pol_pool_reserves policy)
}.

Record plan_wf (plan : WorkloadResourcePlan) : Prop := {
  nw_valid : valid plan;
  nw_estimates : Forall valid (plan_estimates plan)
}.

Record context_wf (context : AdmissionContext) : Prop := {
  xw_valid : valid context;
  xw_usage : Forall valid (ctx_active_usage context)
}.

(** ** The checks that do not touch pools *)

Lemma observation_returns now at_ staleness max_age :
  parses at_ ->
  returns (log_lift (_observation_problem now at_ staleness max_age))
    (fun o => forall p, o = Some p -> p = "future" \/ p = "stale").
Proof.
  intros [t Ht]. unfold _observation_problem. rewrite Ht. cbn [mbind result_bind].
  eapply returns_lift; [done|]. intros p. repeat case_match; intros [= <-]; auto.
Qed.

Lemma inventory_returns policy now inventory :
  inventory_wf inventory ->
  returns (_evaluate_inventory policy now inventory) (fun _ => True).
Proof.
  intros [_ [o Ho] [v Hv] _ _ _]. unfold _evaluate_inventory. rewrite Ho, Hv. cbn [log_lift].
  eapply returns_bind; [by eapply (returns_ret o (fun x => x = o))|]. intros ? ->.
  eapply returns_bind; [by eapply (returns_ret v (fun x => x = v))|]. intros ? ->.
  then_; [when_issue|]. then_; [when_issue|]. when_issue.
Qed.

Lemma trust_returns plan inventory : returns (_evaluate_trust plan inventory) (fun _ => True).
Proof. unfold _evaluate_trust. then_; when_issue. Qed.

Lemma provider_returns policy plan inventory now :
  inventory_wf inventory -> returns (_evaluate_provider policy plan inventory now) (fun _ => True).
Proof.
  intros Hw. unfold _evaluate_provider. destruct (plan_provider_name plan) as [pname|];
    [|by apply returns_ret].
  destruct (List.filter _ _) as [|p [|]] eqn:E; [issue_step; done| |issue_step; done].
  assert (p ∈ doc_providers inventory) as Hp.
  { assert (p ∈ List.filter (fun p => String.eqb (prov_name p) pname) (doc_providers inventory)) as H
      by (rewrite E; left). by apply elem_of_lfilter in H as [? _]. }
  pose proof (iw_providers _ Hw) as Hall. rewrite Forall_forall in Hall.
  eapply returns_bind; [apply observation_returns; auto|]. intros [problem|] Hpr.
  - then_. { destruct (Hpr _ eq_refl) as [-> | ->]; issue_step; done. }
    then_; [when_issue|]. then_; [when_issue|]. when_issue.
  - then_; [by apply returns_ret|]. then_; [when_issue|]. then_; [when_issue|]. when_issue.
Qed.

Lemma capability_returns policy inventory now name :
  inventory_wf inventory ->
  returns (_evaluate_capability policy (dict_of cap_name (doc_capabilities inventory)) now name)
    (fun _ => True).
Proof.
  intros Hw. unfold _evaluate_capability. destruct (dict_of _ _ !! name) as [c|] eqn:E.
  2: { issue_step; done. }
  apply dict_of_lookup_elem in E as [Hc _].
  pose proof (iw_capabilities _ Hw) as Hall. rewrite Forall_forall in Hall.
  destruct (negb _); [issue_step; done|]. destruct (negb _); [issue_step; done|].
  eapply returns_bind; [apply observation_returns; auto|]. intros [p|] Hp; [|by apply returns_ret].
  destruct (Hp _ eq_refl) as [-> | ->]; issue_step; done.
Qed.

Lemma capabilities_returns policy plan inventory now :
  inventory_wf inventory ->
  returns (_evaluate_capabilities policy plan inventory now) (fun _ => True).
Proof.
  intros Hw. unfold _evaluate_capabilities. destruct (has_duplicates _); [issue_step; done|].
  eapply returns_bind; [|intros; by apply returns_ret].
  apply returns_map. intros name _. by apply capability_returns.
Qed.

Lemma valid_plan_concurrency plan :
  valid plan -> 1 <= plan_requested_concurrency plan <= SAFE_INTEGER_MAX.
Proof.
  unfold valid, post_init, WorkloadResourcePlan_post_init, _require_nonnegative_safe_integer,
    safe_nonneg_opt, safe_nonneg. intros H. ok_inv. lia.
Qed.

Lemma valid_context_concurrency context :
  valid context -> 0 <= ctx_active_concurrency context <= SAFE_INTEGER_MAX.
Proof.
  unfold valid, post_init, AdmissionContext_post_init, _require_nonnegative_safe_integer,
    safe_nonneg_opt, safe_nonneg. intros H. ok_inv. lia.
Qed.

Lemma valid_policy_concurrency policy :
  valid policy -> 1 <= pol_max_concurrency policy <= SAFE_INTEGER_MAX.
Proof.
  unfold valid, post_init, AdmissionPolicy_post_init, _require_nonnegative_safe_integer,
    safe_nonneg_opt, safe_nonneg. intros H. ok_inv. lia.
Qed.

Lemma concurrency_returns policy plan inventory context now :
  policy_wf policy -> plan_wf plan -> context_wf context -> inventory_wf inventory ->
  returns (_evaluate_concurrency policy plan inventory context now) (fun _ => True).
Proof.
  intros [Hy%valid_policy_concurrency _ _] [Hp%valid_plan_concurrency _]
    [Hx%valid_context_concurrency _] Hw. unfold _evaluate_concurrency.
  destruct (_safe_sum _) as [total|e] eqn:Es; [|issue_step; done].
  apply safe_sum_ok in Es as [-> Hs]. cbn [sumZ] in *. rewrite Z.add_0_r in *.
  set (total := ctx_active_concurrency context + plan_requested_concurrency plan) in *.
  assert (safe_nonneg_opt (Some total) = true) as Ht by (apply safe_nonneg_spec; lia).
  assert (forall z, z <= SAFE_INTEGER_MAX ->
    safe_nonneg_opt (Some (Z.max 0 (z - ctx_active_concurrency context))) = true) as Hmax.
  { intros z Hz. apply safe_nonneg_spec. lia. }
  then_. { apply returns_when. intros _. issue_step; [done|done|]. apply Hmax. lia. }
  destruct (List.find _ _) as [cpu|] eqn:Ef; [|issue_step; done].
  apply List.find_some in Ef as [Hc _]. apply list_elem_of_In in Hc.
  pose proof (iw_pools _ Hw) as Hall. rewrite Forall_forall in Hall. destruct (Hall _ Hc).
  destruct (pool_capacity cpu) as [capacity|]; [|issue_step; done].
  eapply returns_bind; [by apply observation_returns|]. intros o _.
  destruct (is_some o); [issue_step; done|].
  apply returns_when. intros _. issue_step; [done|done|]. apply Hmax.
  cbn in pw_capacity_safe0. apply safe_nonneg_spec in pw_capacity_safe0. lia.
Qed.

(** ** Pools *)

Lemma valid_estimate e :
  valid e ->
  fullmatch TOKEN_PATTERN (est_name e) = true /\ mem (est_pool_kind e) RESOURCE_POOL_KINDS = true /\
  mem (est_unit e) RESOURCE_UNITS = true /\
  (est_pool_kind e = "cpu" -> est_unit e = "logical_cpu") /\
  (est_pool_kind e <> "cpu" -> est_unit e = "bytes") /\
  mem (est_confidence e) CONFIDENCE_CLASSES = true /\
  safe_nonneg_opt (est_expected e) = true /\ safe_nonneg_opt (est_upper_bound e) = true.
Proof.
  unfold valid, post_init, ResourceEstimate_post_init, _require_token, require_token, unit_guards,
    _validate_forecast, _require_nonnegative_safe_integer. intros H. ok_inv.
  clear H. repeat match goal with H : negb _ = false |- _ => apply negb_false_iff in H end.
  repeat split; try done.
  - intros Hk. rewrite Hk in *. cbn in *. by bool_simp.
  - intros Hk. apply String.eqb_neq in Hk. rewrite Hk in *. cbn in *. by bool_simp.
Qed.

Lemma unit_guards_ok m1 m2 kind u :
  (kind = "cpu" -> u = "logical_cpu") -> (kind <> "cpu" -> u = "bytes") -> unit_guards m1 m2 kind u = Ok tt.
Proof.
  intros H1 H2. unfold unit_guards. destruct (String.eqb kind "cpu") eqn:E; bool_simp.
  - by rewrite H1.
  - by rewrite H2.
Qed.

(** Every non-unknown confidence class has a margin in a valid policy. *)
Lemma margin_found policy c :
  policy_wf policy -> c ∈ MARGIN_CONFIDENCE_CLASSES ->
  exists bp, margin_basis_points policy c = Ok bp /\ 0 <= bp.
Proof.
  intros [Hv Hm _] Hc. unfold margin_basis_points.
  destruct (List.find _ _) as [m|] eqn:E.
  - eexists. split; [done|]. apply List.find_some in E as [Hin _]. apply list_elem_of_In in Hin.
    rewrite Forall_forall in Hm. specialize (Hm _ Hin).
    unfold valid, post_init, ConfidenceMargin_post_init, _require_nonnegative_safe_integer,
      safe_nonneg_opt, safe_nonneg in Hm. ok_inv. lia.
  - exfalso. unfold valid, post_init, AdmissionPolicy_post_init in Hv. ok_inv. clear -E E0 Hc.
    bool_simp. rewrite forallb_forall in H1. apply list_elem_of_In in Hc. apply H1 in Hc.
    apply mem_spec, list_elem_of_fmap in Hc as (m & -> & Hin). apply list_elem_of_In in Hin.
    apply (List.find_none _ _ E) in Hin. rewrite String.eqb_refl in Hin. done.
Qed.

Lemma reserve_valid policy kind :
  policy_wf policy ->
  0 <= psr_minimum_units (reserve policy kind) <= SAFE_INTEGER_MAX /\
  0 <= psr_capacity_basis_points (reserve policy kind) <= 10000.
Proof.
  intros [_ _ Hr]. unfold reserve. destruct (List.find _ _) as [r|] eqn:E; [|cbn; unfold SAFE_INTEGER_MAX; lia].
  apply List.find_some in E as [Hin _]. apply list_elem_of_In in Hin.
  rewrite Forall_forall in Hr. specialize (Hr _ Hin).
  unfold valid, post_init, PoolSafetyReserve_post_init, _require_nonnegative_safe_integer,
    safe_nonneg_opt, safe_nonneg in Hr. ok_inv. lia.
Qed.

(** A reserve never exceeds the safe integers: its share is at most the capacity. *)
Lemma pool_reserve_ok policy kind capacity :
  policy_wf policy -> 0 <= capacity <= SAFE_INTEGER_MAX ->
  exists r, pool_reserve policy kind capacity = Ok r /\ 0 <= r <= SAFE_INTEGER_MAX.
Proof.
  intros Hp Hc. destruct (reserve_valid policy kind Hp) as [H1 H2].
  unfold pool_reserve, _ceil_basis_points.
  set (bp := psr_capacity_basis_points _) in *.
  assert (capacity * bp <= capacity * 10000) by nia.
  set (share := (capacity * bp + 9999) / 10000). assert (0 <= share <= capacity) by (subst share; nia).
  assert ((SAFE_INTEGER_MAX <? share) = false) as -> by lia. cbn. eexists. split; [done|]. lia.
Qed.

Definition amounts_safe (am : amounts) : Prop :=
  safe_nonneg_opt (am_expected am) = true /\ safe_nonneg_opt (am_upper_bound am) = true /\
  safe_nonneg_opt (am_margin am) = true /\ safe_nonneg_opt (am_required am) = true.

Lemma safe_sum_cases l :
  Forall (fun z => 0 <= z) l ->
  (exists z, _safe_sum l = Ok z /\ safe_nonneg z = true) \/
  (exists e, _safe_sum l = Raise e /\ is_overflow e = true).
Proof.
  intros Hl%sumZ_nonneg. unfold _safe_sum. destruct (_ <? _) eqn:E; cbn; [right; eauto|left].
  eexists. split; [done|]. unfold safe_nonneg. lia.
Qed.

Lemma ceil_cases amount bp :
  0 <= amount -> 0 <= bp ->
  (exists z, _ceil_basis_points amount bp = Ok z /\ 0 <= z) \/
  (exists e, _ceil_basis_points amount bp = Raise e /\ is_overflow e = true).
Proof.
  intros Ha Hb. unfold _ceil_basis_points. destruct (_ <? _) eqn:E; cbn; [right; eauto|left].
  eexists. split; [done|]. assert (0 <= amount * bp) by nia. lia.
Qed.

Lemma margins_cases policy estimates :
  policy_wf policy ->
  Forall (fun e => valid e /\ est_confidence e <> "unknown") estimates ->
  (exists zs, map_result (estimate_margin policy) estimates = Ok zs /\ Forall (fun z => 0 <= z) zs) \/
  (exists e, map_result (estimate_margin policy) estimates = Raise e /\ is_overflow e = true).
Proof.
  intros Hp. induction 1 as [|e l [Hv Hu] Hl IH]; cbn [map_result]; [left; eauto|].
  apply valid_estimate in Hv as (_ & _ & _ & _ & _ & Hc & _ & Hub).
  destruct (margin_found policy (est_confidence e) Hp) as (bp & Em & Hbp).
  { apply mem_spec in Hc. unfold CONFIDENCE_CLASSES, MARGIN_CONFIDENCE_CLASSES in *. set_solver. }
  assert (0 <= or_zero (est_upper_bound e)) as Hz.
  { destruct (est_upper_bound e); [|done]. apply safe_nonneg_spec in Hub. apply Hub. }
  assert (estimate_margin policy e = _ceil_basis_points (or_zero (est_upper_bound e)) bp) as ->
    by (unfold estimate_margin; by rewrite Em).
  destruct (ceil_cases _ _ Hz Hbp) as [(z & -> & ?)|(x & -> & ?)]; cbn [mbind result_bind]; [|by right; eauto].
  destruct IH as [(zs & -> & ?)|(x & -> & ?)]; cbn [mbind result_bind]; [left|right]; eauto.
Qed.

Ltac overflow_case :=
  cbn beta iota zeta; match goal with H : is_overflow _ = true |- _ => rewrite H end;
  eexists; split; [reflexivity|]; repeat split; done.

Lemma pool_amounts_returns policy estimates :
  policy_wf policy ->
  Forall (fun e => valid e /\ est_confidence e <> "unknown") estimates ->
  exists am, pool_amounts policy estimates = Ok am /\ amounts_safe am.
Proof.
  intros Hp Hes. unfold pool_amounts, amounts_safe.
  assert (Forall (fun z => 0 <= z) ((fun i => or_zero (est_expected i)) <$> estimates) /\
          Forall (fun z => 0 <= z) ((fun i => or_zero (est_upper_bound i)) <$> estimates)) as [He Hu].
  { rewrite !Forall_fmap. split; (eapply Forall_impl; [done|]); intros e [Hv _]; cbn;
      apply valid_estimate in Hv as (_ & _ & _ & _ & _ & _ & H1 & H2);
      [destruct (est_expected e)|destruct (est_upper_bound e)]; try done;
      [apply safe_nonneg_spec in H1; apply H1|apply safe_nonneg_spec in H2; apply H2]. }
  destruct (safe_sum_cases _ He) as [(z1 & -> & ?)|(x & -> & Hov)]; [|overflow_case].
  destruct (safe_sum_cases _ Hu) as [(z2 & -> & H2)|(x & -> & Hov)]; [|overflow_case].
  destruct (margins_cases policy estimates Hp Hes) as [(zs & -> & Hz)|(x & -> & Hov)];
    cbn [mbind result_bind]; [|overflow_case].
  destruct (safe_sum_cases _ Hz) as [(z3 & -> & H3)|(x & -> & Hov)]; [|overflow_case].
  apply safe_nonneg_spec in H2 as H2', H3 as H3'.
  destruct (safe_sum_cases [z2; z3]) as [(z4 & -> & ?)|(x & -> & Hov)]; [repeat constructor; lia| |overflow_case].
  by eexists.
Qed.

Section Totality.
Context (policy : AdmissionPolicy) (Hy : policy_wf policy).
Context (plan : WorkloadResourcePlan) (Hn : plan_wf plan).
Context (inventory : DoctorReport) (Hi : inventory_wf inventory).
Context (context : AdmissionContext) (Hx : context_wf context).
Context (now : Z).
Let active := dict_of aru_pool_kind (ctx_active_usage context).

Lemma active_safe kind : safe_nonneg (active_amount active kind) = true.
Proof.
  unfold active_amount. destruct (active !! kind) as [a|] eqn:E; [|done].
  apply dict_of_lookup_elem in E as [Hin _]. destruct Hx as [_ Hu]. rewrite Forall_forall in Hu.
  specialize (Hu _ Hin). unfold valid, post_init, ActiveResourceUsage_post_init,
    _require_nonnegative_safe_integer in Hu. ok_inv. by apply negb_false_iff in Hu.
Qed.

Lemma demand_returns kind estimates u :
  mem kind RESOURCE_POOL_KINDS = true -> Forall valid estimates ->
  returns (_pool_demand policy kind estimates u (active !! kind)) amounts_safe.
Proof.
  intros Hk Hes. unfold _pool_demand.
  then_; [when_issue|]. then_; [when_issue|]. then_; [when_issue|].
  destruct (_ || _) eqn:E; [by apply returns_ret|].
  apply orb_false_iff in E as [H _]. rewrite existsb_false in H.
  destruct (pool_amounts_returns policy estimates Hy) as (am & -> & Hs).
  { apply Forall_and. split; [done|]. eapply Forall_impl; [done|]. intros e He. cbn in He.
    by bool_simp. }
  eapply returns_bind; [by eapply (returns_lift _ (fun x => x = am))|]. intros ? ->.
  then_; [when_issue|]. by apply returns_ret.
Qed.

Lemma supply_returns kind u pool am_req :
  mem kind RESOURCE_POOL_KINDS = true -> pool_wf pool -> safe_nonneg_opt am_req = true ->
  returns (_pool_supply policy kind u pool (active_amount active kind) am_req now)
    (fun r => safe_nonneg_opt r.1.2 = true /\ safe_nonneg_opt r.2 = true).
Proof.
  intros Hk [Hv Hp _ _ Hcs Has _] Hr. pose proof (active_safe kind) as Hact.
  unfold _pool_supply. then_; [when_issue|].
  eapply returns_bind; [by apply observation_returns|]. intros problem Hpr.
  then_. { destruct problem as [p|]; [|by apply returns_ret].
    destruct (Hpr _ eq_refl) as [-> | ->]; issue_step; done. }
  eapply (returns_bind _ _ (fun r => safe_nonneg_opt r = true)).
  - destruct (pool_capacity pool) as [c|]; [|by eapply returns_lift].
    apply safe_nonneg_spec in Hcs. destruct (pool_reserve_ok policy kind c Hy Hcs) as (r & -> & ?).
    eapply returns_lift; [done|]. by apply safe_nonneg_spec.
  - intros r Hrs. then_; [when_issue|]. apply returns_ret. split; [done|]. cbn [snd].
    destruct (pool_available pool) as [a|], r as [r|]; try done. cbn in *.
    apply safe_nonneg_spec in Has, Hrs, Hact. apply safe_nonneg_spec. lia.
Qed.

Lemma planned_estimates kind :
  kind ∈ planned plan ->
  estimates_of plan kind <> [] /\ mem kind RESOURCE_POOL_KINDS = true /\
  Forall (fun e => valid e /\ est_pool_kind e = kind) (estimates_of plan kind) /\
  NoDup (est_name <$> estimates_of plan kind).
Proof.
  intros Hin. destruct Hn as [Hv Hes]. rewrite Forall_forall in Hes.
  apply list_elem_of_fmap in Hin as (e & -> & He).
  assert (e ∈ estimates_of plan (est_pool_kind e)) as Hm by (by apply estimates_of_elem).
  repeat split.
  - intros Hnil. rewrite Hnil in Hm. by apply elem_of_nil in Hm.
  - by apply Hes, valid_estimate in He as (_ & ? & _).
  - apply Forall_forall. intros f [? ?]%estimates_of_elem. auto.
  - unfold estimates_of. apply NoDup_fmap_lfilter. unfold valid, post_init,
      WorkloadResourcePlan_post_init, _require_unique, require_unique in Hv. ok_inv.
    by apply has_duplicates_false.
Qed.

Lemma evaluation_valid ev :
  mem (ev_pool_kind ev) RESOURCE_POOL_KINDS = true -> mem (ev_unit ev) RESOURCE_UNITS = true ->
  (ev_pool_kind ev = "cpu" -> ev_unit ev = "logical_cpu") ->
  (ev_pool_kind ev <> "cpu" -> ev_unit ev = "bytes") ->
  mem (ev_inventory_accuracy ev) ACCURACY_CLASSES = true ->
  str_empty (ev_inventory_source ev) = false -> ev_estimate_names ev <> [] ->
  NoDup (ev_estimate_names ev) ->
  Forall (fun n => fullmatch TOKEN_PATTERN n = true) (ev_estimate_names ev) ->
  Forall (fun o => safe_nonneg_opt o = true)
    [ev_expected ev; ev_upper_bound ev; ev_margin ev; ev_required ev; ev_observed_available ev;
     ev_safety_reserve ev; Some (ev_active_usage ev); ev_post_admission_available ev] ->
  mem (ev_status ev) EVALUATION_STATES = true ->
  valid ev.
Proof.
  intros H1 H2 H3 H4 H5 H6 H7 H8 H9 H10 H11.
  unfold valid, post_init, ResourceEvaluation_post_init, _require_unique, require_unique,
    _require_token, require_token, _require_nonnegative_safe_integer.
  ok_intro.
  - by rewrite H1, H2.
  - by apply unit_guards_ok.
  - by apply negb_false_iff.
  - done.
  - by apply list_empty_false.
  - by apply has_duplicates_false.
  - eapply Forall_impl; [done|]. intros n Hm. cbn in Hm. by rewrite Hm.
  - repeat match goal with H : Forall _ (_ :: _) |- _ =>
      apply Forall_cons in H; let a := fresh in destruct H as [a H] end.
    repeat constructor; cbn [fst snd]; apply raise_if_intro, negb_false_iff; assumption.
  - by apply negb_false_iff.
Qed.

Lemma estimate_names_valid kind :
  kind ∈ planned plan ->
  let names := sorted_strings (est_name <$> estimates_of plan kind) in
  names <> [] /\ NoDup names /\ Forall (fun n => fullmatch TOKEN_PATTERN n = true) names.
Proof.
  intros Hin. destruct (planned_estimates kind Hin) as (Hne & _ & Hall & Hnd).
  cbn zeta. repeat split.
  - intros E. apply Hne. apply (f_equal length) in E.
    unfold sorted_strings in E. rewrite length_sorted_by, length_fmap in E.
    by apply nil_length_inv in E.
  - unfold sorted_strings. by rewrite sorted_by_perm.
  - apply Forall_forall. intros n Hm. unfold sorted_strings in Hm.
    apply elem_of_sorted_by, list_elem_of_fmap in Hm as (e & -> & He).
    rewrite Forall_forall in Hall. destruct (Hall _ He) as [Hv _]. apply valid_estimate in Hv. apply Hv.
Qed.

Lemma pool_returns resources kind :
  Forall pool_wf resources -> kind ∈ planned plan ->
  returns (_evaluate_pool policy active now resources (estimates_of plan) kind)
    (fun ev => ev_pool_kind ev = kind /\ valid ev).
Proof.
  intros Hr Hin. destruct (planned_estimates kind Hin) as (Hne & Hk & Hall & _).
  destruct (estimate_names_valid kind Hin) as (N1 & N2 & N3).
  unfold _evaluate_pool. destruct (estimates_of plan kind) as [|first rest] eqn:Ee; [done|].
  rewrite <- Ee in *.
  assert (valid first /\ est_pool_kind first = kind) as [Hf Hfk].
  { rewrite Ee in Hall. by inversion Hall. }
  apply valid_estimate in Hf as (_ & _ & U1 & U2 & U3 & _). rewrite Hfk in U2, U3.
  pose proof (active_safe kind) as Hact. unfold active_amount in Hact.
  eapply returns_bind.
  { apply demand_returns; [done|]. eapply Forall_impl; [done|]. by intros e [? _]. }
  intros am (S1 & S2 & S3 & S4).
  destruct (pool_get resources kind) as [pool|] eqn:Ep.
  - apply pool_get_elem in Ep as [Hp Hpk]. rewrite Forall_forall in Hr.
    pose proof (Hr _ Hp) as Hw. pose proof (pw_available_safe _ Hw) as Hav.
    pose proof (pw_valid _ Hw) as Hv. unfold valid, post_init, ResourcePool_post_init in Hv. ok_inv.
    eapply returns_bind; [by eapply (supply_returns kind (est_unit first) pool (am_required am))|].
    intros [[problem reserve_] usable] [Hs1 Hs2]. cbn [fst snd] in Hs1, Hs2.
    then_. { destruct (am_required am) as [r|], usable as [u|]; try by apply returns_ret.
      when_issue. }
    match goal with |- returns (log_lift (construct ?e)) _ => assert (valid e) as Hve end.
    { apply evaluation_valid; cbn [ev_pool_kind ev_unit ev_inventory_accuracy ev_inventory_source
        ev_estimate_names ev_status]; try done.
      - by apply negb_false_iff.
      - repeat match goal with H : (_ || _) = false |- _ => apply orb_false_iff in H as [? ?] end. done.
      - repeat (constructor; [try assumption|]); [|constructor].
        cbn [ev_post_admission_available].
        destruct (am_required am) as [r|], usable as [u|]; cbn [andb]; try (by repeat case_match).
        destruct (r <=? u) eqn:Ef; cbn [andb]; [|done]. destruct (pool_unit pool =? est_unit first)%string, problem; try done.
        apply safe_nonneg_spec in S4, Hs2. apply safe_nonneg_spec. lia.
      - by repeat case_match. }
    eapply returns_lift; [by apply construct_valid|]. done.
  - then_; [issue_step; done|].
    match goal with |- returns (log_lift (construct ?e)) _ => assert (valid e) as Hve end.
    { apply evaluation_valid; cbn [ev_pool_kind ev_unit ev_inventory_accuracy ev_inventory_source
        ev_estimate_names ev_status]; try done.
      repeat (constructor; [try done|]). constructor. }
    eapply returns_lift; [by apply construct_valid|]. done.
Qed.

(** ** Shared stores *)

Lemma reserves_ok pools :
  Forall pool_wf pools ->
  exists rs, map_result (fun p => pool_reserve policy (pool_kind p) (or_zero (pool_capacity p))) pools
    = Ok rs /\ 0 <= foldr Z.max 0 rs <= SAFE_INTEGER_MAX.
Proof.
  induction 1 as [|p l Hp _ (rs & IH & Hrs)]; cbn [map_result].
  - exists []. split; [done|]. cbn. unfold SAFE_INTEGER_MAX. lia.
  - assert (0 <= or_zero (pool_capacity p) <= SAFE_INTEGER_MAX) as Hc.
    { pose proof (pw_capacity_safe _ Hp) as H. destruct (pool_capacity p).
      - by apply safe_nonneg_spec in H.
      - cbn. unfold SAFE_INTEGER_MAX. lia. }
    destruct (pool_reserve_ok policy (pool_kind p) _ Hy Hc) as (r & -> & Hr).
    cbn [mbind result_bind]. rewrite IH. cbn [mbind result_bind].
    eexists. split; [done|]. cbn. lia.
Qed.

Lemma omap_nonneg {A} (f : A -> option Z) l :
  (forall x z, f x = Some z -> 0 <= z) -> Forall (fun z => 0 <= z) (omap f l).
Proof.
  intros H. induction l as [|x l IH]; [constructor|].
  cbn. destruct (f x) as [z|] eqn:E; [|done]. constructor; eauto.
Qed.

Lemma min_list_elem l : l <> [] -> min_list l ∈ l.
Proof.
  destruct l as [|x l]; [done|]. intros _. cbn [min_list]. revert x.
  induction l as [|y l IH]; intros x; cbn [foldl]; [left|].
  specialize (IH (Z.min x y)). apply elem_of_cons in IH as [->|]; [|set_solver].
  destruct (Z.min_spec x y) as [[_ ->]|[_ ->]]; set_solver.
Qed.

Lemma backing_amounts_returns (demanded : gmap string ResourceEvaluation) pools :
  Forall pool_wf pools -> pools <> [] -> (forall k ev, demanded !! k = Some ev -> valid ev) ->
  (exists sa, backing_amounts policy demanded active pools = Ok sa /\
     safe_nonneg (sa_required sa) = true /\ safe_nonneg (sa_active sa) = true /\
     safe_nonneg (sa_reserve sa) = true /\ safe_nonneg (sa_available sa) = true /\
     safe_nonneg (sa_total sa) = true) \/
  (exists e, backing_amounts policy demanded active pools = Raise e /\ is_overflow e = true).
Proof.
  intros Hw Hne Hd. unfold backing_amounts.
  assert (forall k ev, demanded !! k = Some ev -> 0 <= or_zero (ev_required ev)) as Hd'.
  { intros k ev Hk. specialize (Hd _ _ Hk). destruct (ev_required ev) as [r|] eqn:E; [|done].
    unfold valid, post_init, ResourceEvaluation_post_init in Hd. ok_inv. rewrite E in *.
    repeat match goal with H : Forall _ (_ :: _) |- _ => inversion_clear H end.
    repeat match goal with H : _require_nonnegative_safe_integer _ _ = Ok tt |- _ =>
      apply raise_if_ok, negb_false_iff in H; cbn [fst snd] in H end.
    match goal with H : safe_nonneg_opt (Some r) = true |- _ => apply safe_nonneg_spec in H end.
    cbn. lia. }
  destruct (safe_sum_cases (omap (fun p => (fun e => or_zero (ev_required e)) <$>
    demanded !! pool_kind p) pools)) as [(z1 & -> & H1)|(x & -> & ?)]; [| |by right; eauto].
  { apply omap_nonneg. intros p z (ev & Hk & ->)%fmap_Some. eauto. }
  cbn [mbind result_bind].
  destruct (safe_sum_cases (omap (fun p => aru_amount <$> active !! pool_kind p) pools))
    as [(z2 & -> & H2)|(x & -> & ?)]; [| |by right; eauto].
  { apply omap_nonneg. intros p z (a & Hk & ->)%fmap_Some.
    pose proof (active_safe (pool_kind p)) as Ha. unfold active_amount in Ha. rewrite Hk in Ha.
    by apply safe_nonneg_spec in Ha as [? _]. }
  cbn [mbind result_bind]. destruct (reserves_ok pools Hw) as (rs & -> & H3).
  cbn [mbind result_bind]. apply safe_nonneg_spec in H1 as H1', H2 as H2'.
  destruct (safe_sum_cases [z1; z2; foldr Z.max 0 rs]) as [(z3 & -> & ?)|(x & -> & ?)];
    [repeat constructor; lia| |by right; eauto].
  left. eexists. split; [done|]. cbn. repeat split; try done; [by apply safe_nonneg_spec|].
  assert (min_list ((fun p => or_zero (pool_available p)) <$> pools) ∈
          (fun p => or_zero (pool_available p)) <$> pools) as Hm.
  { apply min_list_elem. by destruct pools. }
  apply list_elem_of_fmap in Hm as (p & -> & Hp). rewrite Forall_forall in Hw.
  pose proof (pw_available_safe _ (Hw _ Hp)) as Ha. by destruct (pool_available p).
Qed.

Lemma store_returns demanded store pools :
  Forall pool_wf pools -> Forall (fun p => disk_pool p = true) pools ->
  NoDup (pool_kind <$> pools) -> store <> "" ->
  (forall k ev, demanded !! k = Some ev -> valid ev) ->
  returns (_evaluate_store policy demanded active store pools)
    (fun r => forall ev, r = Some ev -> bse_backing_store ev = store).
Proof.
  intros Hw Hdisk Hnd Hst Hd. unfold _evaluate_store.
  destruct (_ || _) eqn:Eg; [by apply returns_ret|]. apply orb_false_iff in Eg as [Hlen _].
  destruct (existsb _ _); [then_; [issue_step; done|]; by apply returns_ret|].
  destruct (backing_amounts_returns demanded pools Hw) as
    [(sa & -> & S1 & S2 & S3 & S4 & S5)|(e & -> & ->)];
    [by destruct pools|done| |then_; [issue_step; done|]; by apply returns_ret].
  then_; [when_issue|].
  match goal with |- context [construct ?e] => assert (valid e) as Hve end.
  { unfold valid, post_init, BackingStoreEvaluation_post_init, _require_unique, require_unique,
      _require_nonnegative_safe_integer.
    cbn [bse_backing_store bse_pool_kinds bse_required bse_observed_available bse_safety_reserve
      bse_active_usage bse_post_admission_available bse_status].
    assert (str_empty store = false) as Hse by (unfold str_empty; by bool_simp).
    ok_intro.
    - unfold sorted_strings. rewrite length_sorted_by, length_fmap. by rewrite Hse.
    - apply has_duplicates_false. unfold sorted_strings. by rewrite sorted_by_perm.
    - apply existsb_false, Forall_forall. intros k Hk. unfold sorted_strings in Hk.
      apply elem_of_sorted_by, list_elem_of_fmap in Hk as (p & -> & Hp).
      rewrite Forall_forall in Hw, Hdisk. specialize (Hw _ Hp). specialize (Hdisk _ Hp).
      pose proof (pw_kind _ Hw) as H1. pose proof (pw_cpu _ Hw) as H2.
      unfold disk_pool, is_disk in Hdisk. bool_simp. unfold RESOURCE_POOL_KINDS in H1.
      assert (pool_kind p <> "cpu") as H3 by (intros E; rewrite H2 in *; done).
      assert (forall k, k ∈ ["persistent_disk"; "environment_cache"; "build_scratch";
        "execution_scratch"; "result_spool"] -> k ∈ disk_pools) as Hsub.
      { intros k0 Hk0. vm_compute in Hk0 |- *. exact Hk0. }
      apply Hsub. set_solver.
    - repeat constructor; cbn [fst snd]; apply raise_if_intro, negb_false_iff; try assumption.
      destruct (_ <=? _) eqn:E; [|done]. cbn. apply safe_nonneg_spec in S4, S5.
      apply safe_nonneg_spec. lia.
    - by destruct (_ <=? _). }
  rewrite (construct_valid _ Hve). eapply (returns_bind _ _ (fun e => bse_backing_store e = store)).
  - by eapply returns_lift.
  - intros ev Hev. apply returns_ret. by intros ? [= <-].
Qed.

Lemma first_by_kind_sub l : (forall p, p ∈ first_by_kind l -> p ∈ l) /\
  NoDup (pool_kind <$> first_by_kind l).
Proof.
  unfold first_by_kind. induction l as [|x l IH] using rev_ind; [split; [done|constructor]|].
  rewrite foldl_app. cbn. destruct IH as [IH1 IH2]. destruct (existsb _ _) eqn:E.
  - split; [set_solver|done].
  - split; [set_solver|]. rewrite fmap_app. apply NoDup_app. split; [done|]. split; [|apply NoDup_singleton].
    intros k (q & -> & Hq)%list_elem_of_fmap [Hk|[]%elem_of_nil]%elem_of_cons.
    apply existsb_false in E. rewrite Forall_forall in E. apply E in Hq. by bool_simp.
Qed.

Lemma backing_returns evs resources :
  Forall pool_wf resources -> NoDup (pool_kind <$> resources) -> Forall valid evs ->
  returns (_evaluate_backing_stores policy evs resources active)
    (fun bse => NoDup (bse_backing_store <$> bse)).
Proof.
  intros Hw Hnd Hev. unfold _evaluate_backing_stores. then_; [when_issue|].
  eapply returns_bind.
  - apply returns_map. intros store Hs. apply store_returns.
    + apply Forall_forall. intros p Hp%pools_of_store_elem. rewrite Forall_forall in Hw. apply Hw, Hp.
    + apply Forall_forall. intros p Hp%pools_of_store_elem. apply Hp.
    + unfold pools_of_store, store_pools. by do 2 apply NoDup_fmap_lfilter.
    + apply elem_of_sorted_set, list_elem_of_omap in Hs as (p & Hp & E).
      apply elem_of_lfilter in Hp as [_ Hp]. rewrite E in Hp. cbn in Hp. unfold str_empty in Hp.
      by bool_simp.
    + intros k ev Hk. apply dict_of_lookup_elem in Hk as [Hk _]. apply elem_of_lfilter in Hk as [Hk _].
      rewrite Forall_forall in Hev. auto.
  - intros rs HF. apply returns_ret. revert HF. generalize (NoDup_sorted_set
      (omap pool_backing_store (store_pools resources))). fold (store_names resources).
    generalize (store_names resources) as ss. intros ss Hss HF.
    assert (forall s, s ∈ bse_backing_store <$> omap id rs -> s ∈ ss) as Hsub.
    { clear Hss. induction HF as [|s r ss rs Hr HF IH]; cbn; [set_solver|].
      destruct r as [ev|]; cbn; [rewrite (Hr ev eq_refl)|]; set_solver. }
    revert Hsub. induction HF as [|s r ss rs Hr HF IH]; intros Hsub; cbn in *; [constructor|].
    apply NoDup_cons in Hss as [Hni Hss].
    assert (forall s, s ∈ bse_backing_store <$> omap id rs -> s ∈ ss) as Hsub'.
    { clear -HF. induction HF as [|s r ss rs Hr HF IH]; cbn; [set_solver|].
      destruct r as [ev|]; cbn; [rewrite (Hr ev eq_refl)|]; set_solver. }
    destruct r as [ev|]; cbn; [|auto]. rewrite (Hr ev eq_refl). apply NoDup_cons. auto.
Qed.

Lemma evaluate_all_returns :
  returns (evaluate_all policy plan inventory context now)
    (fun p => ev_pool_kind <$> p.1 = sorted_set (planned plan) /\
              NoDup (bse_backing_store <$> p.2)).
Proof.
  unfold evaluate_all.
  then_; [by apply inventory_returns|]. then_; [apply trust_returns|].
  then_; [by apply provider_returns|]. then_; [by apply capabilities_returns|].
  then_; [by apply concurrency_returns|].
  eapply (returns_bind _ _ (fun pm => pm = first_by_kind (doc_resources inventory))).
  { unfold _pool_map. then_; [when_issue|]. by apply returns_ret. }
  intros pm ->. destruct (first_by_kind_sub (doc_resources inventory)) as [Hsub Hnd].
  assert (Forall pool_wf (first_by_kind (doc_resources inventory))) as Hw.
  { apply Forall_forall. intros p Hp%Hsub. pose proof (iw_pools _ Hi) as H.
    rewrite Forall_forall in H. auto. }
  eapply returns_bind.
  { apply (returns_map _ (fun kind ev => ev_pool_kind ev = kind /\ valid ev)).
    intros kind Hk. apply (elem_of_sorted_set (planned plan)) in Hk. exact (pool_returns _ kind Hw Hk). }
  intros evs HF. eapply returns_bind.
  { apply backing_returns; [done|done|]. apply Forall_forall. intros ev Hev.
    apply list_elem_of_lookup in Hev as [i Hev].
    by destruct (Forall2_lookup_r _ _ _ _ _ HF Hev) as (k & _ & _ & Hv). }
  intros bse Hb. apply returns_ret. split; [|done].
  cbn [fst]. change (est_pool_kind <$> plan_estimates plan) with (planned plan) in HF.
  revert HF. generalize (sorted_set (planned plan)) as ks. clear. intros ks HF.
  induction HF as [|k ev ks evs [Hk _] _ IH]; [done|]. by rewrite fmap_cons, Hk, IH.
Qed.

(** An evaluation that logs nothing passes. *)
Lemma pool_nil_pass resources kind ev :
  Forall pool_wf resources ->
  _evaluate_pool policy active now resources (estimates_of plan) kind = Ok (ev, []) ->
  ev_status ev = "pass".
Proof.
  intros Hw H. unfold _evaluate_pool in H. destruct (estimates_of plan kind) as [|first rest]; [done|].
  log_inv. destruct (pool_get resources kind) as [pool|] eqn:Ep; [|by log_inv].
  log_inv. destruct a0 as [[problem reserve_] usable].
  apply pool_demand_nil in E as (_ & _ & Hm & Ho).
  apply pool_amounts_sound in Hm as (req & Hr & _); [|done].
  apply pool_supply_nil in E0 as (Hpu & -> & _ & _ & _ & available & Hav & Hc).
  apply pool_get_elem in Ep as [Hp _]. rewrite Forall_forall in Hw.
  pose proof (pw_capacity_known _ (Hw _ Hp)) as Hcap. rewrite Hav in Hcap.
  destruct (pool_capacity pool) as [capacity|]; [|by destruct Hcap].
  destruct Hc as (r & _ & -> & ->). rewrite Hr in *. log_inv.
  apply construct_ok in H as [_ ->]. cbn [ev_status].
  rewrite Hpu, String.eqb_refl. cbn [is_none andb]. rewrite !andb_true_r.
  match goal with |- context [?a <=? ?b] => assert ((a <=? b) = true) as -> by lia end. done.
Qed.

Lemma evaluate_all_nil_pass p :
  evaluate_all policy plan inventory context now = Ok (p, []) ->
  Forall (fun e => ev_status e = "pass") p.1 /\ Forall (fun e => bse_status e = "pass") p.2.
Proof.
  unfold evaluate_all. intros H. log_inv. subst p. cbn [fst snd].
  apply pool_map_nil in E4 as [_ ->]. split.
  - apply log_map_nil in E5. apply Forall_forall. intros ev Hev.
    apply list_elem_of_lookup in Hev as [i Hev].
    destruct (Forall2_lookup_r _ _ _ _ _ E5 Hev) as (k & _ & Hk).
    eapply pool_nil_pass; [|exact Hk]. apply Hi.
  - unfold _evaluate_backing_stores in E6. log_inv. subst. apply log_map_nil in E7.
    clear -E7. induction E7 as [|s r ss rs Hr _ IH]; [constructor|].
    destruct r as [ev|]; cbn; [|done]. constructor; [|done].
    eapply store_complete; [exact Hr| |done]. by eapply store_sound.
Qed.
End Totality.

(** ** Issues that waiting cannot clear *)

Definition unrecoverable {A} (m : logged A) : Prop :=
  forall a w, m = Ok (a, w) -> Forall (fun i => iss_recoverable i = false) w.

Lemma unrecoverable_bind {A B} (m : logged A) (f : A -> logged B) :
  unrecoverable m -> (forall a, unrecoverable (f a)) -> unrecoverable (mbind f m).
Proof.
  intros Hm Hf b w (a & w1 & w2 & H1 & H2 & ->)%log_bind_ok. apply Forall_app. split; [by eapply Hm|by eapply Hf].
Qed.

Lemma unrecoverable_report code category message remediation kind required available :
  unrecoverable (report_issue code category message remediation false kind required available).
Proof. intros u w (i & -> & _ & Hr & _)%report_issue_ok. by constructor. Qed.

Lemma unrecoverable_ret {A} (a : A) : unrecoverable (mret a).
Proof. intros b w [= <- <-]. constructor. Qed.

Lemma unrecoverable_lift {A} (m : result A) : unrecoverable (log_lift m).
Proof. intros a w [_ ->]%log_lift_ok. constructor. Qed.

Lemma unrecoverable_map {A B} (f : A -> logged B) l :
  (forall x, unrecoverable (f x)) -> unrecoverable (log_map f l).
Proof.
  intros Hf. induction l as [|x l IH]; [apply unrecoverable_ret|]. cbn [log_map].
  apply unrecoverable_bind; [done|]. intros y. apply unrecoverable_bind; [done|].
  intros ys. apply unrecoverable_ret.
Qed.

Ltac unrecoverable_step := match goal with
  | |- unrecoverable (mbind _ _) => apply unrecoverable_bind; [|intros]
  | |- unrecoverable (report_issue _ _ _ _ false _ _ _) => apply unrecoverable_report
  | |- unrecoverable (log_lift _) => apply unrecoverable_lift
  | |- unrecoverable (mret _) => apply unrecoverable_ret
  | |- unrecoverable (log_map _ _) => apply unrecoverable_map; intros
  | |- unrecoverable (when ?c _) => destruct c; cbn [when]
  | |- unrecoverable (match ?x with _ => _ end) => destruct x
  end.

Lemma inventory_unrecoverable policy now inventory : unrecoverable (_evaluate_inventory policy now inventory).
Proof. unfold _evaluate_inventory. repeat unrecoverable_step. Qed.

Lemma trust_unrecoverable plan inventory : unrecoverable (_evaluate_trust plan inventory).
Proof. unfold _evaluate_trust. repeat unrecoverable_step. Qed.

Lemma provider_unrecoverable policy plan inventory now :
  unrecoverable (_evaluate_provider policy plan inventory now).
Proof. unfold _evaluate_provider. repeat unrecoverable_step. Qed.

Lemma capabilities_unrecoverable policy plan inventory now :
  unrecoverable (_evaluate_capabilities policy plan inventory now).
Proof. unfold _evaluate_capabilities, _evaluate_capability. repeat unrecoverable_step. Qed.

Lemma recoverable_nil {A} (m : logged A) a w :
  unrecoverable m -> m = Ok (a, w) -> Forall (fun i => iss_recoverable i = true) w -> w = [].
Proof.
  intros Hu Hm Hw. specialize (Hu _ _ Hm). destruct w as [|i w]; [done|].
  inversion Hu. inversion Hw. congruence.
Qed.

(** ** A concrete machine and workload *)

Module Sample.
Definition at_ : string := "2025-06-01T12:00:00.000Z".
Definition now : Z := 1748779205000000.
Definition reservation : string :=
  "opid:v1:resource-reservation:u7:0197269c-6f80-7abc-8def-0123456789ab".
Definition margins : list ConfidenceMargin :=
  [{| cm_confidence := "known"; cm_basis_points := 0 |};
   {| cm_confidence := "measured"; cm_basis_points := 500 |};
   {| cm_confidence := "estimated"; cm_basis_points := 2500 |};
   {| cm_confidence := "bounded"; cm_basis_points := 0 |}].
Definition policy : AdmissionPolicy :=
  {| pol_confidence_margins := margins;
     pol_pool_reserves := [{| psr_pool_kind := "build_scratch"; psr_minimum_units := 100;
                              psr_capacity_basis_points := 1000 |}];
     pol_max_concurrency := 4; pol_inventory_max_age_seconds := 60 |}.
Definition estimate (name kind : string) (amount : Z) : ResourceEstimate :=
  {| est_name := name; est_pool_kind := kind; est_unit := "bytes"; est_expected := Some amount;
     est_upper_bound := Some amount; est_confidence := "estimated"; est_source := "provider-plan";
     est_diagnostic := None |}.
Definition plan : WorkloadResourcePlan :=
  {| plan_operation_kind := "environment";
     plan_operation_id := "opid:v1:environment:u7:0197269c-6f80-7abc-8def-0123456789ab";
     plan_estimates := [estimate "scratch" "build_scratch" 1001; estimate "cache" "environment_cache" 10];
     plan_transfers := []; plan_provider_name := None; plan_provider_strategy := None;
     plan_required_capabilities := []; plan_eligible_trust_classes := ["development"];
     plan_requested_concurrency := 1; plan_mutation_permitted := false |}.
Definition pool (kind u : string) (capacity available : option Z) (store : option string) : ResourcePool :=
  {| pool_kind := kind; pool_unit := u; pool_status := "observed"; pool_capacity := capacity;
     pool_used := None; pool_reserved := 0; pool_available := available; pool_source := "statvfs";
     pool_accuracy := "exact"; pool_visibility := "host"; pool_observed_at := at_;
     pool_staleness_seconds := 0; pool_backing_store := store |}.
Definition machine (resources : list ResourcePool) : DoctorReport :=
  {| doc_status := "healthy"; doc_observed_at := at_; doc_valid_until := "2025-06-01T12:10:00.000Z";
     doc_trust := {| trust_class := "development"; trust_source := "config"; trust_configured := true |};
     doc_resources := resources; doc_providers := []; doc_capabilities := [] |}.
Definition inventory : DoctorReport :=
  machine [pool "cpu" "logical_cpu" (Some 8) (Some 8) None;
           pool "build_scratch" "bytes" (Some 10000) (Some 5000) (Some "dev-1");
           pool "environment_cache" "bytes" (Some 10000) (Some 5000) (Some "dev-1")].
(** The scratch pool reports what is available but not its capacity. *)
Definition no_capacity : DoctorReport :=
  machine [pool "cpu" "logical_cpu" (Some 8) (Some 8) None;
           pool "build_scratch" "bytes" None (Some 5000) None;
           pool "environment_cache" "bytes" (Some 10000) (Some 5000) (Some "dev-1")].
Definition scratch_only : WorkloadResourcePlan :=
  {| plan_operation_kind := "environment";
     plan_operation_id := "opid:v1:environment:u7:0197269c-6f80-7abc-8def-0123456789ab";
     plan_estimates := [estimate "scratch" "build_scratch" 1001];
     plan_transfers := []; plan_provider_name := None; plan_provider_strategy := None;
     plan_required_capabilities := []; plan_eligible_trust_classes := ["development"];
     plan_requested_concurrency := 1; plan_mutation_permitted := false |}.
(** Four running workloads: the configured maximum is reached. *)
Definition busy : AdmissionContext := {| ctx_active_concurrency := 4; ctx_active_usage := [] |}.

Ltac check_pool := constructor; try (by vm_compute); [eexists; vm_compute; reflexivity|..].

Lemma policy_ok : policy_wf policy.
Proof. split; [by vm_compute|..]; repeat constructor. Qed.
Lemma plan_ok : plan_wf plan.
Proof. split; [by vm_compute|]. repeat constructor. Qed.
Lemma context_ok : context_wf busy.
Proof. split; [by vm_compute|]. repeat constructor. Qed.
Lemma inventory_ok : inventory_wf inventory.
Proof.
  split; [by vm_compute|eexists; vm_compute; reflexivity..| |constructor|constructor].
  repeat constructor; try (by vm_compute); try (eexists; vm_compute; reflexivity).
Qed.
End Sample.

(** ** The theorems *)

Lemma empty_context_ok : context_wf empty_context.
Proof. split; [by vm_compute|constructor]. Qed.

(** The sample workload is admitted on the idle sample machine. *)
Lemma admission_exact_witness :
  exists rep, _evaluate Sample.policy Sample.now Sample.reservation Sample.plan Sample.inventory
      empty_context "preflight" = Ok rep /\
    rep_outcome rep = "admitted" /\
    admissible Sample.policy Sample.now Sample.plan Sample.inventory empty_context.
Proof.
  eexists. split; [vm_compute; reflexivity|]. split; [reflexivity|].
  eapply (admission_exact Sample.policy Sample.now Sample.reservation Sample.plan Sample.inventory
    empty_context "preflight"); [vm_compute; reflexivity|reflexivity].
Defined.

(** C29: admission is total: on a validated policy, plan and context and a well-formed inventory, at
    any clock the calendar can print, the planner builds a report that passes its own validation,
    binds the reservation identifier and the plan, and never permits mutation. *)
Theorem admission_total policy plan inventory context now rid stage :
  policy_wf policy -> plan_wf plan -> inventory_wf inventory -> context_wf context ->
  fullmatch RESOURCE_RESERVATION_ID_PATTERN rid = true -> stage ∈ ADMISSION_STAGES ->
  min_instant <= now <= max_instant ->
  exists rep, _evaluate policy now rid plan inventory context stage = Ok rep /\ valid rep /\
    rep_reservation_id rep = rid /\ rep_plan rep = plan /\ rep_mutation_permitted rep = false.
Proof.
  intros Hy Hn Hi Hx Hrid Hst Hnow.
  destruct (evaluate_all_returns policy Hy plan Hn inventory Hi context Hx now)
    as ([evs bse] & issues & He & Hk & Hb).
  assert (issues = [] -> Forall (fun e => ev_status e = "pass") evs /\
    Forall (fun e => bse_status e = "pass") bse) as Hpass.
  { intros ->. by apply (evaluate_all_nil_pass policy plan inventory Hi context now) in He. }
  unfold _evaluate. rewrite He. cbn [mbind result_bind fst snd] in *. eexists.
  match goal with |- construct ?r = _ /\ _ => assert (valid r) as Hv end.
  2: { by rewrite (construct_valid _ Hv). }
  unfold valid, post_init, ResourceAdmissionReport_post_init, _require_unique, require_unique.
  cbn [rep_reservation_id rep_stage rep_outcome rep_observed_at rep_inventory_observed_at rep_plan
    rep_policy rep_context rep_resource_evaluations rep_backing_store_evaluations rep_issues
    rep_mutation_permitted].
  apply mem_spec in Hst as Hstb.
  assert (stage = "preflight" \/ stage = "dynamic") as Hcase.
  { unfold ADMISSION_STAGES in Hst. set_solver. }
  ok_intro.
  - by rewrite Hrid.
  - rewrite Hstb. cbn [negb orb]. apply negb_false_iff, mem_spec.
    unfold outcome_of, ADMISSION_OUTCOMES. repeat case_match; set_solver.
  - by apply require_timestamp_rfc3339.
  - pose proof (iw_valid _ Hi) as Hv. unfold valid, post_init, DoctorReport_post_init in Hv. by ok_inv.
  - apply has_duplicates_false. rewrite Hk. apply NoDup_sorted_set.
  - by apply has_duplicates_false.
  - unfold outcome_of. destruct issues; [done|]. cbn. by repeat case_match.
  - unfold outcome_of. destruct issues; [done|]. apply andb_false_r.
  - unfold outcome_of. destruct Hcase as [-> | ->]; [|done]. by destruct issues.
  - unfold outcome_of. destruct Hcase as [-> | ->]; [done|]. destruct issues; [done|].
    cbn. by repeat case_match.
  - unfold outcome_of. destruct issues as [|i l]; [done|]. cbn [list_empty].
    destruct Hcase as [-> | ->]; [done|]. cbn [String.eqb Ascii.eqb Bool.eqb].
    by destruct (existsb _ _) eqn:E.
  - unfold outcome_of. destruct issues as [|i l]; [done|]. cbn [list_empty].
    destruct Hcase as [-> | ->]; [done|]. cbn [String.eqb Ascii.eqb Bool.eqb].
    by destruct (existsb _ _) eqn:E.
  - rewrite Hk. apply negb_false_iff. unfold same_members. apply andb_true_iff.
    split; apply forallb_forall; intros k Hin; apply list_elem_of_In in Hin; apply mem_spec;
      fold (planned plan) in *.
    + by rewrite elem_of_sorted_set.
    + by rewrite elem_of_sorted_set in Hin.
  - destruct issues; [|unfold outcome_of; cbn; by repeat case_match].
    destruct (Hpass eq_refl) as [H _]. apply existsb_false. eapply Forall_impl; [done|].
    intros e He'. cbn in He'. by rewrite He'.
  - destruct issues; [|unfold outcome_of; cbn; by repeat case_match].
    destruct (Hpass eq_refl) as [_ H]. apply existsb_false. eapply Forall_impl; [done|].
    intros e He'. cbn in He'. by rewrite He'.
  - done.
Qed.

Lemma admission_total_witness :
  exists rep, _evaluate Sample.policy Sample.now Sample.reservation Sample.plan Sample.inventory
      Sample.busy "dynamic" = Ok rep /\ valid rep /\
    rep_reservation_id rep = Sample.reservation /\ rep_plan rep = Sample.plan /\
    rep_mutation_permitted rep = false.
Proof.
  apply (admission_total Sample.policy Sample.plan Sample.inventory Sample.busy Sample.now
    Sample.reservation "dynamic"); [apply Sample.policy_ok|apply Sample.plan_ok|
    apply Sample.inventory_ok|apply Sample.context_ok|
    vm_compute; reflexivity|apply mem_spec; reflexivity|split; vm_compute; discriminate].
Defined.

(** Backpressure means that only capacity is short: a dynamic report asks the caller to wait only
    when the inventory, trust, provider and capability conditions all hold, and it lists the
    recoverable issues, at least one; an issue of those four kinds makes the machine drain. *)
Theorem backpressure_only_capacity policy now rid plan inventory context rep :
  _evaluate policy now rid plan inventory context "dynamic" = Ok rep ->
  rep_outcome rep = "backpressure" ->
  rep_issues rep <> [] /\ Forall (fun i => iss_recoverable i = true) (rep_issues rep) /\
  inventory_admits policy now inventory /\ trust_admits plan inventory /\
  provider_admits policy now plan inventory /\ capabilities_admit policy now plan inventory.
Proof.
  intros (Hv & He & Ho & _)%evaluate_report Hb. rewrite Hb in Ho. unfold outcome_of in Ho.
  destruct (list_empty (rep_issues rep)) eqn:El; [done|]. cbn in Ho.
  destruct (existsb _ _) eqn:Ex; [done|]. apply list_empty_false in El. apply existsb_false in Ex.
  assert (Forall (fun i => iss_recoverable i = true) (rep_issues rep)) as Hr.
  { eapply Forall_impl; [done|]. intros i Hi. cbn in Hi. by apply negb_false_iff in Hi. }
  split; [done|]. split; [done|]. clear Ex El. unfold evaluate_all in He.
  apply log_bind_ok in He as ([] & w1 & w & H1 & He & E). rewrite E in Hr.
  apply Forall_app in Hr as [Hr1 Hr].
  apply log_bind_ok in He as ([] & w2 & w' & H2 & He & ->). apply Forall_app in Hr as [Hr2 Hr].
  apply log_bind_ok in He as ([] & w3 & w'' & H3 & He & ->). apply Forall_app in Hr as [Hr3 Hr].
  apply log_bind_ok in He as ([] & w4 & w''' & H4 & He & ->). apply Forall_app in Hr as [Hr4 _].
  rewrite (recoverable_nil _ _ _ (inventory_unrecoverable _ _ _) H1 Hr1) in H1.
  rewrite (recoverable_nil _ _ _ (trust_unrecoverable _ _) H2 Hr2) in H2.
  rewrite (recoverable_nil _ _ _ (provider_unrecoverable _ _ _ _) H3 Hr3) in H3.
  rewrite (recoverable_nil _ _ _ (capabilities_unrecoverable _ _ _ _) H4 Hr4) in H4.
  apply inventory_nil in H1. apply trust_nil in H2. apply provider_nil in H3.
  by apply capabilities_nil in H4.
Qed.

Lemma backpressure_only_capacity_witness :
  exists rep, _evaluate Sample.policy Sample.now Sample.reservation Sample.plan Sample.inventory
      Sample.busy "dynamic" = Ok rep /\ rep_outcome rep = "backpressure" /\
    inventory_admits Sample.policy Sample.now Sample.inventory.
Proof.
  eexists. split; [vm_compute; reflexivity|]. split; [reflexivity|].
  eapply (backpressure_only_capacity Sample.policy Sample.now Sample.reservation Sample.plan
    Sample.inventory Sample.busy); [vm_compute; reflexivity|reflexivity].
Defined.

(** The condition [pw_capacity_known] cannot be dropped: on a valid inventory whose scratch pool
    reports 5000 available bytes and no capacity, no issue is logged, so the planner takes the
    outcome [admitted] for an evaluation whose status is [unknown], and its own report constructor
    rejects it: the caller gets an exception instead of a rejected report. *)
Theorem unknown_capacity_raises :
  valid Sample.no_capacity /\ Forall valid (doc_resources Sample.no_capacity) /\
  policy_wf Sample.policy /\ plan_wf Sample.scratch_only /\
  _evaluate Sample.policy Sample.now Sample.reservation Sample.scratch_only Sample.no_capacity
    empty_context "preflight"
  = Raise (ValueError "admitted reports require every typed resource evaluation to pass").
Proof.
  split; [by vm_compute|]. split; [repeat constructor|]. split; [apply Sample.policy_ok|].
  split; [split; [by vm_compute|repeat constructor]|by vm_compute].
Qed.

(** The conservative margin is the exact ceiling of amount times basis points over ten thousand, and
    the only failure is a result above the safe integers. *)
Theorem ceil_basis_points_exact amount bp r :
  0 <= amount -> 0 <= bp ->
  (_ceil_basis_points amount bp = Ok r <->
   10000 * (r - 1) < amount * bp <= 10000 * r /\ r <= SAFE_INTEGER_MAX).
Proof.
  intros Ha Hb. assert (0 <= amount * bp) by nia. unfold _ceil_basis_points.
  generalize dependent (amount * bp). intros x Hx.
  destruct (SAFE_INTEGER_MAX <? _) eqn:E; cbn; split.
  - done.
  - intros [H1 H2]. lia.
  - intros [= <-]. lia.
  - intros [H1 H2]. f_equal. lia.
Qed.

Lemma ceil_basis_points_exact_witness :
  0 <= 1001 /\ 0 <= 2500 /\ _ceil_basis_points 1001 2500 = Ok 251.
Proof.
  split; [lia|]. split; [lia|]. apply (ceil_basis_points_exact 1001 2500 251); [lia|lia|].
  unfold SAFE_INTEGER_MAX. lia.
Defined.
