(* ===== verification/WorkloadPlans.v ===== *)
(** * Workload plans and environment admission

    [workload_plan], [environment_plan] and [environment_decision] of
    resource_planner.py: where the planner meets telemetry (the calibrator it may
    be given) and the environment lifecycle (the transaction it plans for and the
    decision it hands back).

    [EstimateCalibrator] is the protocol class of the source, [CalibratorLaws]
    what the planner needs of an implementation; [store_calibrator] is the
    telemetry store, and [store_calibrator_laws] shows that it keeps the laws.

    The second part follows a plan of an environment to its admission. *)

From S2P Require Export EnvModels.
From S2P Require Export TelemetryStore ResourcePlanner.
From S2P Require Export EnvTotal.

#[export] Instance ConfidenceMargin_eq_dec : EqDecision ConfidenceMargin.
Proof. solve_decision. Defined.
#[export] Instance PoolSafetyReserve_eq_dec : EqDecision PoolSafetyReserve.
Proof. solve_decision. Defined.
#[export] Instance AdmissionPolicy_eq_dec : EqDecision AdmissionPolicy.
Proof. solve_decision. Defined.

(** [calibrate_all(estimates, operation_kind=..., calibration_key=...)] *)
Class EstimateCalibrator := calibrate_estimates : list ResourceEstimate -> string -> string -> result (list ResourceEstimate).

Section Plans.
Context (policy : AdmissionPolicy) (calibrator : option EstimateCalibrator).

Definition workload_plan (operation_kind operation_id : string) (estimates : list ResourceEstimate)
    (transfers : list TransferForecast) (provider_name provider_strategy : option string)
    (required_capabilities eligible_trust_classes : list string) (requested_concurrency : Z)
    (calibration_key : option string) : result WorkloadResourcePlan :=
  calibrated ← match calibrator, calibration_key with
               | Some c, Some key => @calibrate_estimates c estimates operation_kind key
               | _, _ => Ok estimates
               end;
  construct {| plan_operation_kind := operation_kind; plan_operation_id := operation_id; plan_estimates := calibrated;
    plan_transfers := transfers; plan_provider_name := provider_name; plan_provider_strategy := provider_strategy;
    plan_required_capabilities := required_capabilities; plan_eligible_trust_classes := eligible_trust_classes;
    plan_requested_concurrency := requested_concurrency; plan_mutation_permitted := false |}.

(** An estimate of the provider plan. *)
Definition provider_estimate (name pool_kind confidence : string) (amount : Z) : result ResourceEstimate :=
  construct {| est_name := name; est_pool_kind := pool_kind; est_unit := "bytes"; est_expected := Some amount;
    est_upper_bound := Some amount; est_confidence := confidence; est_source := "provider-plan"; est_diagnostic := None |}.

Definition DEFAULT_TRUST_CLASSES : list string := ["development"; "trusted_executioner"].

Definition environment_plan (record : EnvironmentLifecycleRecord) (machine_provider_name estimate_confidence : string)
    (supplemental_estimates : list ResourceEstimate) (required_capabilities eligible_trust_classes : list string)
    : result WorkloadResourcePlan :=
  match elr_plan record with
  | Some provider_plan =>
      raise_if (negb (String.eqb (elr_state record) "planned"))
        (ValueError "environment resource planning requires a planned provider transaction");;
      download ← provider_estimate "environment-download-cache" "environment_cache" estimate_confidence
                   (pp_expected_download_bytes provider_plan);
      expanded ← provider_estimate "environment-expanded-cache" "environment_cache" estimate_confidence
                   (pp_expected_expanded_bytes provider_plan);
      scratch ← provider_estimate "environment-build-scratch" "build_scratch" estimate_confidence
                  (pp_expected_scratch_bytes provider_plan);
      transfer ← construct {| tf_name := "environment-acquisition"; tf_direction := "download";
        tf_expected_bytes := Some (pp_expected_download_bytes provider_plan);
        tf_upper_bound_bytes := Some (pp_expected_download_bytes provider_plan); tf_confidence := estimate_confidence;
        tf_source := "provider-plan"; tf_diagnostic := None |};
      workload_plan "environment" (elr_transaction_id record) (download :: expanded :: scratch :: supplemental_estimates)
        [transfer] (Some machine_provider_name) (Some (rec_strategy (elr_recipe record))) required_capabilities
        eligible_trust_classes 1 (Some (rec_recipe_revision_id (elr_recipe record)))
  | None => Raise (ValueError "environment resource planning requires a planned provider transaction")
  end.

Definition environment_decision (record : EnvironmentLifecycleRecord) (report : ResourceAdmissionReport)
    : result AdmissionDecision :=
  raise_if (negb (String.eqb (elr_state record) "planned"))
    (ValueError "resource admission can only bind a planned environment");;
  raise_if (negb (String.eqb (rep_stage report) "preflight") ||
            negb (String.eqb (plan_operation_kind (rep_plan report)) "environment"))
    (ValueError "environment admission requires an environment preflight report");;
  raise_if (negb (bool_decide (rep_policy report = policy)))
    (ValueError "environment admission requires this planner's exact admission policy");;
  raise_if (negb (String.eqb (plan_operation_id (rep_plan report)) (elr_transaction_id record)))
    (ValueError "resource preflight belongs to a different environment transaction");;
  let admitted := String.eqb (rep_outcome report) "admitted" in
  raise_if (negb (mem (rep_outcome report) ["admitted"; "rejected"]))
    (ValueError "environment preflight outcome cannot be applied as an admission decision");;
  construct {| ad_admitted := admitted; ad_decision_id := rep_reservation_id report;
    ad_reason := if admitted
      then "resource preflight admitted all typed pools, shared stores, capabilities, and concurrency"
      else join "; " ((fun i => iss_code i +:+ ": " +:+ iss_message i) <$> rep_issues report) |}.
End Plans.

(** The telemetry store as a calibrator. *)
Definition store_calibrator `{PyTables} `{JCS} `{PyFloat} (store : telemetry_store) : EstimateCalibrator :=
  fun estimates operation_kind calibration_key => calibrate_all store estimates operation_kind calibration_key None.

(** ** What the planner needs of a calibrator *)

(** The estimate an estimate may be replaced with. *)
Definition same_demand (e e' : ResourceEstimate) : Prop :=
  est_name e' = est_name e /\ est_pool_kind e' = est_pool_kind e /\ est_unit e' = est_unit e.

(** Keys a calibrator can file measurements under. *)
Definition filing_key `{PyTables} `{JCS} (key : string) : Prop := Tel._reference "calibration key" key = Ok tt.

Class CalibratorLaws `{PyTables} `{JCS} (c : EstimateCalibrator) : Prop := calibrates estimates kind key :
  Forall valid estimates -> kind ∈ OPERATION_KINDS -> filing_key key ->
  exists estimates', @calibrate_estimates c estimates kind key = Ok estimates' /\ Forall valid estimates' /\
    Forall2 same_demand estimates estimates'.

Section Store.
Context `{PyTables} `{JCSLaws}.

(** What [e] becomes: itself while there are too few measurements of it, else an
    estimate that bounds all of them. *)
Definition calibrated_from (log : list TelemetrySample) (kind key : string) (e e' : ResourceEstimate) : Prop :=
  let values := window_values (request_of e kind key) default_policy (matching log kind key) in
  if 3 <=? Z.of_nat (length values) then
    same_demand e e' /\ est_confidence e' = "measured" /\
    exists x u, est_expected e' = Some x /\ est_upper_bound e' = Some u /\ percentile values 5000 x /\
      forall v, v ∈ values -> v <= u
  else e' = e.

Lemma request_valid e kind key : valid e -> kind ∈ OPERATION_KINDS -> filing_key key -> valid_request (request_of e kind key).
Proof.
  intros He Hk Hkey. unfold valid, post_init, ResourceEstimate_post_init, _require_token, require_token, unit_guards in He.
  ok_inv. bool_simp. unfold valid_request, request_of. cbn.
  split_and!; [clear -Hk; set_solver|done..|].
  repeat match goal with Hx : (_ && _)%bool = false |- _ => revert Hx end.
  destruct (String.eqb (est_pool_kind e) "cpu"); cbn; intros; by bool_simp.
Qed.

Lemma default_policy_valid : valid default_policy.
Proof. by vm_compute. Qed.

Lemma calibrate_estimate_spec log st e kind key :
  store_invariant log st -> valid e -> kind ∈ OPERATION_KINDS -> filing_key key ->
  exists e', calibrate_estimate st kind key None e = Ok e' /\ valid e' /\ calibrated_from log kind key e e'.
Proof.
  intros Hi He Hk Hkey. pose proof (request_valid e kind key He Hk Hkey) as Hr.
  destruct (build_calibration_total (matching log kind key) _ _ default_policy_valid Hr (matching_log _ _ kind key Hi))
    as (sn & Hb & Hv & [E1 E2 E3 E4] & Hd).
  unfold calibrate_estimate, calibration. cbn [request_of rq_operation_kind rq_calibration_key].
  rewrite (samples_spec log st kind key Hi). cbn [mbind result_bind default]. rewrite Hb. cbn [mbind result_bind].
  unfold calibrated_from. rewrite E1 in E2, E3, E4 |- *. cbn [default_policy cpol_minimum_samples cpol_expected_percentile_basis_points] in *.
  destruct (3 <=? Z.of_nat (length _)); cbn [negb].
  - destruct (E3 eq_refl) as (x & Ex & Px), (E4 eq_refl) as (u & q & Eu & Hu & Hall & _). rewrite Ex, Eu.
    assert (x <= u) by (apply Hall, Px).
    assert (0 <= x) as Hx.
    { pose proof (pct_member _ _ _ Px) as Hin. unfold window_values in Hin. apply list_elem_of_fmap in Hin as (item & -> & Hin).
      pose proof (window_measured (request_of e kind key) default_policy _ (matching_log _ _ kind key Hi)) as Hm.
      rewrite Forall_forall in Hm. by destruct (Hm _ Hin) as [[? _] _]. }
    assert (valid {| est_name := est_name e; est_pool_kind := est_pool_kind e; est_unit := est_unit e; est_expected := Some x;
      est_upper_bound := Some u; est_confidence := "measured";
      est_source := "telemetry-calibration:" +:+ csn_calibration_digest sn; est_diagnostic := None |}) as Hve.
    { unfold valid, post_init, ResourceEstimate_post_init in *. cbn [est_name est_pool_kind est_unit est_expected est_upper_bound
        est_confidence est_source est_diagnostic] in *.
      repeat (let Hg := fresh in apply bind_unit_ok in He as [Hg He]; rewrite Hg; cbn [mbind result_bind]).
      unfold _validate_forecast, _require_nonnegative_safe_integer. cbn [safe_nonneg_opt].
      rewrite (proj2 (safe_nonneg_spec x)), (proj2 (safe_nonneg_spec u)) by lia. cbn. by destruct (u <? x) eqn:E; [lia|]. }
    eexists. split; [by apply construct_valid|]. split; [done|]. split_and!; [done|done|]. by exists x, u.
  - by exists e.
Qed.

Lemma calibrate_all_spec log st estimates kind key :
  store_invariant log st -> Forall valid estimates -> kind ∈ OPERATION_KINDS -> filing_key key ->
  exists estimates', calibrate_all st estimates kind key None = Ok estimates' /\ Forall valid estimates' /\
    Forall2 (calibrated_from log kind key) estimates estimates'.
Proof.
  intros Hi He Hk Hkey. induction He as [|e l He Hl (l' & IH1 & IH2 & IH3)]; [by exists []|].
  destruct (calibrate_estimate_spec log st e kind key Hi He Hk Hkey) as (e' & H1' & H2' & H3').
  exists (e' :: l'). unfold calibrate_all in *. cbn [map_result]. rewrite H1'. cbn [mbind result_bind]. rewrite IH1.
  split; [done|]. by split; constructor.
Qed.

Lemma calibrated_same_demand log kind key e e' : calibrated_from log kind key e e' -> same_demand e e'.
Proof. unfold calibrated_from. destruct (3 <=? _); [by intros (? & _)|]. by intros ->. Qed.

Lemma store_calibrator_laws log st : store_invariant log st -> CalibratorLaws (store_calibrator st).
Proof.
  intros Hi estimates kind key He Hk Hkey. destruct (calibrate_all_spec log st estimates kind key Hi He Hk Hkey) as (l & H1' & H2' & H3').
  exists l. split_and!; [done..|]. eapply Forall2_impl; [exact H3'|]. intros ? ?. apply calibrated_same_demand.
Qed.
End Store.

(** * Planning an environment and admitting it

    The planner's client side of the calibrator interface, and the way from a
    planned environment over its resource plan and preflight report to the
    decision the environment manager applies. *)


(** ** Plans under a lawful calibrator *)

(** The plan with other estimates. *)
Definition with_estimates (estimates : list ResourceEstimate) (p : WorkloadResourcePlan) : WorkloadResourcePlan :=
  {| plan_operation_kind := plan_operation_kind p; plan_operation_id := plan_operation_id p; plan_estimates := estimates;
     plan_transfers := plan_transfers p; plan_provider_name := plan_provider_name p;
     plan_provider_strategy := plan_provider_strategy p; plan_required_capabilities := plan_required_capabilities p;
     plan_eligible_trust_classes := plan_eligible_trust_classes p; plan_requested_concurrency := plan_requested_concurrency p;
     plan_mutation_permitted := plan_mutation_permitted p |}.

Lemma with_estimates_valid l l' p : Forall2 same_demand l l' -> valid (with_estimates l p) -> valid (with_estimates l' p).
Proof.
  intros Hd. assert (est_name <$> l' = est_name <$> l) as En.
  { symmetry. apply list_eq_Forall2, Forall2_fmap. eapply Forall2_impl; [exact Hd|]. by intros ? ? (? & _). }
  assert (list_empty l' = list_empty l) as Ee by (by inversion Hd).
  unfold valid, post_init, WorkloadResourcePlan_post_init. cbn [with_estimates plan_estimates plan_operation_kind plan_operation_id
    plan_transfers plan_provider_name plan_provider_strategy plan_required_capabilities plan_eligible_trust_classes
    plan_requested_concurrency plan_mutation_permitted]. by rewrite En, Ee.
Qed.

Section Client.
Context `{PyTables} `{JCS} (c : EstimateCalibrator) `{!CalibratorLaws c}.

(** Calibration never makes a plan fail. *)
Lemma workload_plan_calibrated kind id estimates transfers name strategy caps trust n key p :
  workload_plan None kind id estimates transfers name strategy caps trust n (Some key) = Ok p ->
  Forall valid estimates -> filing_key key ->
  exists estimates', @calibrate_estimates c estimates kind key = Ok estimates' /\ Forall2 same_demand estimates estimates' /\
    workload_plan (Some c) kind id estimates transfers name strategy caps trust n (Some key) =
    Ok (with_estimates estimates' p) /\ valid (with_estimates estimates' p).
Proof.
  unfold workload_plan. cbn [mbind result_bind]. intros [Hp ->]%construct_ok He Hkey.
  assert (kind ∈ OPERATION_KINDS) as Hk.
  { unfold valid, post_init, WorkloadResourcePlan_post_init in Hp. apply bind_unit_ok in Hp as [Hk _]. apply raise_if_ok in Hk.
    by bool_simp. }
  destruct (CalibratorLaws0 estimates kind key He Hk Hkey) as (estimates' & Hc & _ & Hd). exists estimates'. rewrite Hc.
  cbn [mbind result_bind]. apply (with_estimates_valid _ _ _ Hd) in Hp. split_and!; [done|done| |done]. by apply construct_valid.
Qed.
End Client.

(** Recipe revisions are keys measurements can be filed under. *)
Lemma rcid_filing_key `{PyTables} `{JCSLaws} key : fullmatch RCID_PATTERN key = true -> str_len key <= 512 -> filing_key key.
Proof.
  intros Hk Hl. assert (str_forallb identifier_char key = true) as Hc.
  { eapply fullmatch_alphabet; [|exact Hk]. by vm_compute. }
  destruct (canonical_object_total [("reference", JStr key)]) as (text & Ht).
  { clean_object. by apply identifier_clean. }
  { plain_object. apply plain_str. }
  unfold filing_key, Tel._reference. rewrite Ht. cbn [mbind result_bind]. apply bind_unit_intro; [|done].
  apply raise_if_intro. rewrite (str_forallb_impl identifier_char is_printable key); [|by intros [[][][][][][][][]]|done].
  destruct key; [done|]. cbn [str_empty String.eqb orb negb]. rewrite orb_false_r. apply Z.ltb_ge. lia.
Qed.

(** ** Environment plans *)

(** The three estimates of a provider plan. *)
Definition provider_estimates (confidence : string) (p : ProviderPlan) : list ResourceEstimate :=
  (fun x : string * string * Z =>
     {| est_name := x.1.1; est_pool_kind := x.1.2; est_unit := "bytes"; est_expected := Some x.2; est_upper_bound := Some x.2;
        est_confidence := confidence; est_source := "provider-plan"; est_diagnostic := None |}) <$>
  [("environment-download-cache", "environment_cache", pp_expected_download_bytes p);
   ("environment-expanded-cache", "environment_cache", pp_expected_expanded_bytes p);
   ("environment-build-scratch", "build_scratch", pp_expected_scratch_bytes p)].

Lemma forecast_valid confidence amount :
  confidence ∈ MARGIN_CONFIDENCE_CLASSES -> safe_nonneg amount = true ->
  _validate_forecast confidence (Some amount) (Some amount) None = Ok tt.
Proof.
  intros Hc Ha. unfold _validate_forecast, _require_nonnegative_safe_integer. cbn [safe_nonneg_opt]. rewrite Ha.
  assert (mem confidence CONFIDENCE_CLASSES = true /\ String.eqb confidence "unknown" = false) as [-> ->].
  { revert confidence Hc. rewrite <- Forall_forall. by apply (bool_decide_unpack _); vm_compute. }
  cbn. rewrite andb_false_r. cbn. destruct (amount <? amount) eqn:E; [lia|]. cbn. rewrite bool_decide_eq_true_2 by done.
  cbn. by rewrite andb_false_r.
Qed.

Lemma provider_estimates_valid confidence p :
  confidence ∈ MARGIN_CONFIDENCE_CLASSES -> valid p -> Forall valid (provider_estimates confidence p).
Proof.
  intros Hc Hp. unfold valid, post_init, ProviderPlan_post_init in Hp. ok_inv. rename E1 into Ha.
  unfold Env._require_nonnegative_safe_integer in Ha. 
  assert (Forall (fun z => safe_nonneg z = true) [pp_expected_download_bytes p; pp_expected_expanded_bytes p; pp_expected_scratch_bytes p]) as Hz.
  { do 3 apply Forall_cons in Ha as [?%raise_if_ok Ha]. cbn in *. bool_simp. repeat (apply Forall_cons; split; [done|]). by apply Forall_nil. }
  do 3 apply Forall_cons in Hz as [? Hz].
  repeat constructor; unfold valid, post_init, ResourceEstimate_post_init; cbn [est_name est_pool_kind est_unit est_expected
    est_upper_bound est_confidence est_source est_diagnostic fst snd]; (ok_intro; [by vm_compute..|by apply forecast_valid]).
Qed.

(** A planned environment, and what the caller adds to its resource plan. *)
Record plannable (r : EnvironmentLifecycleRecord) (pp : ProviderPlan) (machine confidence : string)
    (supplemental : list ResourceEstimate) (caps trust : list string) : Prop := {
  pn_state : elr_state r = "planned";
  pn_plan : elr_plan r = Some pp;
  pn_record : valid r;
  pn_provider_plan : valid pp;
  pn_recipe : valid (elr_recipe r);
  pn_machine : fullmatch TOKEN_PATTERN machine = true;
  pn_confidence : confidence ∈ MARGIN_CONFIDENCE_CLASSES;
  pn_supplemental : Forall valid supplemental;
  pn_names : NoDup (est_name <$> provider_estimates confidence pp ++ supplemental);
  pn_caps : NoDup caps /\ Forall (fun c => fullmatch TOKEN_PATTERN c = true) caps;
  pn_trust : trust <> [] /\ NoDup trust /\ trust ⊆ TRUST_CLASSES
}.

Definition environment_workload (r : EnvironmentLifecycleRecord) (pp : ProviderPlan) (machine confidence : string)
    (supplemental : list ResourceEstimate) (caps trust : list string) : WorkloadResourcePlan :=
  {| plan_operation_kind := "environment"; plan_operation_id := elr_transaction_id r;
     plan_estimates := provider_estimates confidence pp ++ supplemental;
     plan_transfers := [{| tf_name := "environment-acquisition"; tf_direction := "download";
       tf_expected_bytes := Some (pp_expected_download_bytes pp); tf_upper_bound_bytes := Some (pp_expected_download_bytes pp);
       tf_confidence := confidence; tf_source := "provider-plan"; tf_diagnostic := None |}];
     plan_provider_name := Some machine; plan_provider_strategy := Some (rec_strategy (elr_recipe r));
     plan_required_capabilities := caps; plan_eligible_trust_classes := trust; plan_requested_concurrency := 1;
     plan_mutation_permitted := false |}.

Lemma recipe_facts recipe : valid recipe ->
  fullmatch RCID_PATTERN (rec_recipe_revision_id recipe) = true /\ fullmatch TOKEN_PATTERN (rec_strategy recipe) = true.
Proof.
  intros Hv. unfold valid, post_init, EnvironmentRecipe_post_init in Hv. apply bind_unit_ok in Hv as [Hr Hv].
  apply bind_unit_ok in Hv as [Ht _]. apply for_each_ok, Forall_cons in Hr as [Hr _].
  unfold Env._require_rcid, Env._require_token, require_token in *. apply raise_if_ok in Hr, Ht. by bool_simp.
Qed.

Lemma literal_inv w s : matches (RLit w) s -> s = w.
Proof.
  revert s. induction w as [|c w IH]; intros s Hm; apply matches_inv in Hm; [done|].
  destruct Hm as (s1 & s2 & -> & (d & -> & Hd)%matches_inv & ->%IH). cbn. f_equal. unfold in_class in Hd. cbn in Hd.
  rewrite orb_false_r in Hd. bool_simp. assert (code d = code c) as E by lia. unfold code in E. apply N2Z.inj, N_of_ascii_inj in E. done.
Qed.

Lemma environment_identity s :
  fullmatch OPERATIONAL_ENVIRONMENT_ID_PATTERN s = true -> fullmatch IDENTITY_PATTERN s = true.
Proof.
  rewrite !fullmatch_spec. intros Hm. apply matches_inv in Hm as (s1 & u & -> & ->%literal_inv & Hu).
  change ("opid:v1:environment:u7:" +:+ u) with ("opid" +:+ (":v1:" +:+ ("environment" +:+ (":" +:+ ("u7:" +:+ u))))).
  apply MSeq; [apply MAltL, matches_RLit|]. apply MSeq; [apply matches_RLit|].
  apply MSeq; [apply fullmatch_spec; by vm_compute|]. apply MSeq; [apply matches_RLit|].
  apply MAltL, MSeq; [apply matches_RLit|exact Hu].
Qed.

Section Environment.
Context (r : EnvironmentLifecycleRecord) (pp : ProviderPlan) (machine confidence : string).
Context (supplemental : list ResourceEstimate) (caps trust : list string).
Context (Hp : plannable r pp machine confidence supplemental caps trust).

Lemma environment_plan_unfold calibrator :
  environment_plan calibrator r machine confidence supplemental caps trust =
  workload_plan calibrator "environment" (elr_transaction_id r) (provider_estimates confidence pp ++ supplemental)
    (plan_transfers (environment_workload r pp machine confidence supplemental caps trust)) (Some machine)
    (Some (rec_strategy (elr_recipe r))) caps trust 1 (Some (rec_recipe_revision_id (elr_recipe r))).
Proof.
  pose proof (provider_estimates_valid confidence pp (pn_confidence _ _ _ _ _ _ _ Hp) (pn_provider_plan _ _ _ _ _ _ _ Hp)) as Hv.
  unfold environment_plan. rewrite (pn_plan _ _ _ _ _ _ _ Hp), (pn_state _ _ _ _ _ _ _ Hp). cbn [String.eqb negb].
  do 3 (apply Forall_cons in Hv as [? Hv]). unfold provider_estimate.
  assert (safe_nonneg (pp_expected_download_bytes pp) = true) as Hd.
  { pose proof (pn_provider_plan _ _ _ _ _ _ _ Hp) as Hpp. unfold valid, post_init, ProviderPlan_post_init in Hpp.
    ok_inv. apply Forall_cons in E1 as [E1 _]. apply raise_if_ok in E1. cbn in E1. by bool_simp. }
  rewrite !construct_valid; try done.
Qed.

Lemma environment_workload_valid : valid (environment_workload r pp machine confidence supplemental caps trust).
Proof.
  destruct Hp as [Hs Hpl Hr Hpp Hrec Hm Hc Hsup Hn [Hcn Hct] (Ht1 & Ht2 & Ht3)].
  apply recipe_facts in Hrec as [_ Hstr].
  assert (fullmatch OPERATIONAL_ENVIRONMENT_ID_PATTERN (elr_transaction_id r) = true) as Hid.
  { unfold valid, post_init, EnvironmentLifecycleRecord_post_init in Hr. apply bind_unit_ok in Hr as [Hr _].
    apply raise_if_ok in Hr. by bool_simp. }
  unfold valid, post_init, WorkloadResourcePlan_post_init, _require_unique, require_unique, _require_token, require_token.
  cbn [environment_workload plan_operation_kind plan_operation_id plan_estimates plan_transfers plan_provider_name
    plan_provider_strategy plan_required_capabilities plan_eligible_trust_classes plan_requested_concurrency plan_mutation_permitted].
  ok_intro; try done.
  - by rewrite environment_identity.
  - cbn. by rewrite (Hid : fullmatch ENVIRONMENT_ID_PATTERN _ = true).
  - by apply has_duplicates_false.
  - by apply has_duplicates_false.
  - by apply has_duplicates_false.
  - eapply Forall_impl; [exact Hct|]. intros x Hx. cbn. by rewrite Hx.
  - apply orb_false_iff. split; [by apply list_empty_false|]. apply existsb_false, Forall_forall. intros x Hx.
    apply negb_false_iff, mem_spec. by apply Ht3.
  - by rewrite Hm.
  - apply negb_false_iff, Hstr.
Qed.

Lemma environment_workload_planned :
  workload_plan None "environment" (elr_transaction_id r) (provider_estimates confidence pp ++ supplemental)
    (plan_transfers (environment_workload r pp machine confidence supplemental caps trust)) (Some machine)
    (Some (rec_strategy (elr_recipe r))) caps trust 1 (Some (rec_recipe_revision_id (elr_recipe r))) =
  Ok (environment_workload r pp machine confidence supplemental caps trust).
Proof. unfold workload_plan. cbn [mbind result_bind]. by apply construct_valid, environment_workload_valid. Qed.

Lemma planned_estimates_valid : Forall valid (provider_estimates confidence pp ++ supplemental).
Proof. apply Forall_app. split; [|apply Hp]. apply provider_estimates_valid; apply Hp. Qed.
End Environment.
