(* ===== verification/PlanProperties.v ===== *)
(** * Properties of telemetry, calibrated plans and environment admission *)

From S2P Require Export EnvProperties.
From S2P Require Export AdmissionTotal.
From S2P Require Export WorkloadPlans.

Section Telemetry.
Context `{PyTables} `{JCSLaws}.

(** C39: What is appended to a telemetry store is what is read from it.  A store
    built by [append] always verifies; for every kind and key, [samples] returns
    exactly the accepted samples, once each, their metrics in name order, by
    observation time; a sample with a known identifier is an accepted replay if it
    is the same sample and a conflict otherwise; and a new one is accepted. *)
Theorem telemetry_roundtrip log st :
  appended log st ->
  verify st = Ok tt /\
  (forall kind key, exists l, samples st kind key = Ok l /\ StronglySorted (key_le sample_order) l /\
     l ≡ₚ normal_sample <$> List.filter (sample_matches kind key) log) /\
  (forall s s', s ∈ log -> well_formed s' -> ts_sample_id s' = ts_sample_id s ->
     TelemetryStore.append st s' = if decide (normal_sample s' = normal_sample s) then Ok (false, st)
                    else Raise (conflict "immutable telemetry sample ID already has different content")) /\
  (forall s, well_formed s -> ts_sample_id s ∉ ts_sample_id <$> log ->
     exists st', TelemetryStore.append st s = Ok (true, st') /\ appended (log ++ [s]) st').
Proof.
  intros Ha. pose proof (appended_invariant _ _ Ha) as Hi. split_and!.
  - by eapply verify_spec.
  - intros kind key. exists (matching log kind key). split_and!; [by apply samples_spec|apply matching_sorted|].
    unfold matching. apply fmap_Permutation, sorted_by_perm.
  - intros s s' Hs Hw Hid. by apply (append_known log).
  - intros s Hw Hn. destruct (append_fresh st s log Hi Hw Hn) as (st' & Hst). exists st'. split; [done|].
    by eapply appended_new.
Qed.

(** A calibration is what its name says.  Over the newest complete measurements
    of a store, a snapshot is eligible exactly when there are enough of them; its
    expected amount is then the nearest-rank percentile the policy asks for, and
    its upper bound a safe integer that no measurement exceeds and that leaves the
    headroom over the upper percentile; otherwise it publishes no number.  The
    order in which the samples arrived makes no difference. *)
Theorem calibration_percentile log st rq policy :
  appended log st -> valid policy -> valid_request rq ->
  exists snapshot, calibration st rq (Some policy) = Ok snapshot /\
    summarizes policy (window_values rq policy (matching log (rq_operation_kind rq) (rq_calibration_key rq))) snapshot /\
    forall log' st', appended log' st' -> log' ≡ₚ log -> calibration st' rq (Some policy) = Ok snapshot.
Proof.
  intros Ha Hp Hr. pose proof (appended_invariant _ _ Ha) as Hi.
  destruct (build_calibration_total _ rq policy Hp Hr (matching_log _ _ (rq_operation_kind rq) (rq_calibration_key rq) Hi))
    as (snapshot & Hb & _ & Hs & _).
  assert (forall log' st', appended log' st' -> log' ≡ₚ log -> calibration st' rq (Some policy) = Ok snapshot) as Hall.
  { intros log' st' Ha'%appended_invariant Hl. unfold calibration. rewrite (samples_spec log' st') by done.
    cbn [mbind result_bind default]. by rewrite (matching_perm log' log _ _ Hl (si_unique _ _ Ha')). }
  exists snapshot. split_and!; [by eapply Hall|done|done].
Qed.

(** Planning a planned environment under a telemetry store always succeeds: the
    plan binds the environment's transaction, permits no mutation, and demands what
    the provider plan and the caller's estimates do, in order, each amount replaced
    by one that bounds its measurements once there are three of them. *)
Theorem environment_plan_calibrated log st r pp machine confidence supplemental caps trust :
  let key := rec_recipe_revision_id (elr_recipe r) in
  appended log st -> plannable r pp machine confidence supplemental caps trust -> str_len key <= 512 ->
  exists p, environment_plan (Some (store_calibrator st)) r machine confidence supplemental caps trust = Ok p /\ valid p /\
    plan_operation_kind p = "environment" /\ plan_operation_id p = elr_transaction_id r /\ plan_mutation_permitted p = false /\
    Forall2 (calibrated_from log "environment" key) (provider_estimates confidence pp ++ supplemental) (plan_estimates p).
Proof.
  intros key Ha Hp Hl. pose proof (appended_invariant _ _ Ha) as Hi. rewrite (environment_plan_unfold r pp) by done.
  assert (filing_key key) as Hkey by (apply rcid_filing_key; [apply recipe_facts, Hp|done]).
  pose proof (planned_estimates_valid _ _ _ _ _ _ _ Hp) as He.
  assert (CalibratorLaws (store_calibrator st)) as Hc by by eapply store_calibrator_laws.
  destruct (workload_plan_calibrated (store_calibrator st) _ _ _ _ _ _ _ _ _ key _
    (environment_workload_planned _ _ _ _ _ _ _ Hp) He Hkey) as (l & Hcal & _ & Hw & Hv).
  eexists. split; [exact Hw|]. split_and!; [exact Hv|done|done|done|].
  destruct (calibrate_all_spec log st _ "environment" key Hi He) as (l' & Hl' & _ & Hf); [by repeat constructor|done|].
  cbn [with_estimates plan_estimates]. unfold calibrate_estimates, store_calibrator in Hcal. rewrite Hl' in Hcal.
  by injection Hcal as ->.
Qed.
End Telemetry.

(** ** Admission *)

Lemma preflight_stage policy now rid p inventory context report :
  preflight policy now rid p inventory context = Ok report ->
  rep_stage report = "preflight" /\ rep_policy report = policy /\ rep_plan report = p /\ valid report.
Proof.
  unfold preflight, _evaluate. intros Hr. apply bind_ok in Hr as ([ev issues] & _ & Hr). by apply construct_ok in Hr as [Hv ->].
Qed.

(** The decision of a report. *)
Lemma decision_total policy r report :
  elr_state r = "planned" -> rep_stage report = "preflight" -> plan_operation_kind (rep_plan report) = "environment" ->
  rep_policy report = policy -> plan_operation_id (rep_plan report) = elr_transaction_id r -> valid report ->
  exists d, environment_decision policy r report = Ok d /\ ad_admitted d = String.eqb (rep_outcome report) "admitted" /\
    ad_decision_id d = rep_reservation_id report /\ str_empty (ad_reason d) = false.
Proof.
  intros Hs Hst Hk Hp Hid Hv. unfold valid, post_init, ResourceAdmissionReport_post_init in Hv.
  apply bind_unit_ok in Hv as [Hrid%raise_if_ok Hv]. do 5 apply bind_unit_ok in Hv as [_ Hv].
  apply bind_unit_ok in Hv as [_ Hv]. apply bind_unit_ok in Hv as [Hissues%raise_if_ok Hv].
  apply bind_unit_ok in Hv as [Hout%raise_if_ok _]. rewrite Hst in Hout. cbn [String.eqb Ascii.eqb Bool.eqb andb] in Hout.
  change (negb (mem (rep_outcome report) ["admitted"; "rejected"]) = false) in Hout.
  unfold environment_decision. rewrite Hs, Hst, Hk, Hid, bool_decide_eq_true_2, String.eqb_refl, Hout by done.
  cbn [String.eqb Ascii.eqb Bool.eqb negb orb raise_if mbind result_bind].
  match goal with |- context [construct ?d] => assert (str_empty (ad_reason d) = false /\ valid d) as [Hreason Hd]; [|rewrite (construct_valid d Hd); by eexists] end.
  match goal with |- str_empty ?x = false /\ _ => assert (str_empty x = false) as Hreason end.
  { cbn [ad_reason]. destruct (String.eqb (rep_outcome report) "admitted"); [done|]. cbn [negb andb] in Hissues.
    destruct (rep_issues report) as [|i l]; [done|]. rewrite fmap_cons. destruct l; cbn [fmap list_fmap join String.concat];
      by destruct (iss_code i). }
  split; [done|]. unfold valid, post_init, AdmissionDecision_post_init. apply raise_if_ok, orb_false_iff. split; [|done].
  cbn [ad_decision_id]. destruct (rep_reservation_id report); [|done]. bool_simp. by vm_compute in Hrid.
Qed.

Section Flow.
Context `{PyTables} `{JCS} `{JCSError} `{NFC} `{OSText} {W : Type} `{Clock W} `{EnvironmentIds W} `{Publisher W}.
Context `{ArtifactFiles W}.

Lemma planned_admission_valid a f r : elr_state r = "planned" -> valid r -> valid (with_admission a f r).
Proof.
  intros Hs. unfold valid, post_init, EnvironmentLifecycleRecord_post_init. unfold with_admission. cbn [elr_transaction_id elr_state
    elr_verified_artifacts elr_smoke_observations elr_verification_digest elr_environment_fingerprint_id elr_failure elr_transitions].
  by rewrite Hs.
Qed.

(** An admission step to a state the record explains. *)
Lemma admission_step r a f state detail w :
  lawful_world (W := W) -> on_course r -> elr_state r = "planned" -> state ∈ ["admitted"; "rejected"] ->
  (state = "rejected" -> is_some f = true) -> str_empty detail = false ->
  exists r' w', construct (with_admission a f r) = Ok (with_admission a f r) /\
    _transition (with_admission a f r) state detail w = (Ok r', w') /\ on_course r' /\ follows r r' /\
    elr_state r' = state /\ elr_admission r' = a /\ elr_failure r' = f.
Proof.
  intros Hw Hc Hs Hstate Hf Hd. pose proof (planned_admission_valid a f r Hs (oc_valid _ Hc)) as Hv.
  pose proof (revises_admission a f r) as Hre.
  assert (state ∈ LIFECYCLE_STATES /\ state <> "ready" /\ allowed (Some "planned") state /\
    (state ∉ ["cleanup_required"; "release_failed"]) /\
    (state ∈ ["rejected"; "failed"; "cleanup_required"; "release_failed"; "cancelled"] -> state = "rejected")) as (S1 & S2 & S3 & S4 & S5).
  { revert state Hstate Hf. intros state Hin _. revert state Hin. rewrite <- Forall_forall. by apply (bool_decide_unpack _). }
  destruct (transition_total Hw (with_admission a f r) state detail w) as (r' & w' & Ht); [done..| |done|].
  { split; [|done]. intros Hin. by apply Hf, S5. }
  exists r', w'. split; [by apply construct_valid|]. split; [done|].
  pose proof (transition_ok _ _ _ _ _ _ Ht) as (t & Er & _).
  apply transition_course in Ht as (C1 & C2 & C3); [|by eapply revises_course|cbn; by rewrite Hs].
  split_and!; [done|by etrans; [apply Hre|]|done|by rewrite Er|by rewrite Er].
Qed.

(** C28: A preflight report of an environment's own plan always becomes a decision,
    and the decision always moves the environment: to admitted exactly when the
    report admits the plan on the machine, and else to rejected with the issues of
    the report as its failure. *)
Theorem environment_admission_flow policy clock_now rid p inventory context report r w :
  lawful_world (W := W) -> on_course r -> elr_state r = "planned" ->
  plan_operation_kind p = "environment" -> plan_operation_id p = elr_transaction_id r ->
  preflight policy clock_now rid p inventory context = Ok report ->
  exists d, environment_decision policy r report = Ok d /\ ad_decision_id d = rid /\
  exists r' w', admit_ r d w = (Ok r', w') /\ on_course r' /\ follows r r' /\ elr_admission r' = Some d /\
    elr_state r' = (if String.eqb (rep_outcome report) "admitted" then "admitted" else "rejected") /\
    (elr_state r' = "rejected" -> exists f, elr_failure r' = Some f /\ lf_code f = "admission-denied" /\
       lf_message f = join "; " ((fun i => iss_code i +:+ ": " +:+ iss_message i) <$> rep_issues report)).
Proof.
  intros Hw Hc Hs Hk Hid Hpre. pose proof Hpre as Hrid. apply preflight_stage in Hpre as (P1 & P2 & P3 & P4). subst p policy.
  assert (rep_reservation_id report = rid) as <-.
  { unfold preflight, _evaluate in Hrid. apply bind_ok in Hrid as ([ev issues] & _ & Hr). by apply construct_ok in Hr as [_ ->]. }
  destruct (decision_total _ r report Hs P1 Hk eq_refl Hid P4) as (d & Hd & Had & Hdi & Hre). exists d. split_and!; [done|done|].
  unfold admit_, _require_state. rewrite Hs. unfold mbind at 1, eff_bind at 1. cbn [mem existsb String.eqb Ascii.eqb Bool.eqb orb negb raise_if lift].
  rewrite Had. destruct (String.eqb (rep_outcome report) "admitted") eqn:Eo; cbn [negb].
  - destruct (admission_step r (Some d) (elr_failure r) "admitted" (ad_reason d) w Hw Hc Hs) as (r' & w' & Hcon & Ht & C1 & C2 & C3 & C4 & C5);
      [in_strings|done|done|].
    exists r', w'. rewrite Hcon. split_and!; [exact Ht|done..|]. intros E. congruence.
  - destruct (failure_valid "admission" "admission-denied" (ad_reason d)) as (f & Hf & Hfv); [in_strings|by vm_compute|done|].
    destruct (admission_step r (Some d) (Some f) "rejected" (ad_reason d) w Hw Hc Hs) as (r' & w' & Hcon & Ht & C1 & C2 & C3 & C4 & C5);
      [in_strings|done|done|].
    exists r', w'. rewrite Hf. cbn [mbind result_bind]. rewrite Hcon. split_and!; [exact Ht|done..|]. intros _. exists f.
    apply construct_ok in Hf as [_ ->]. split_and!; [done|done|]. cbn [lf_message].
    unfold environment_decision in Hd. ok_inv. apply construct_ok in Hd as [_ ->]. cbn [ad_reason]. by rewrite Eo.
Qed.
End Flow.

(** ** A concrete store, plan and machine *)

Module PlanSample.
#[local] Existing Instance ascii_tables.
#[local] Existing Instance reference_jcs.
#[local] Existing Instance EnvSample.error_text.
#[local] Existing Instance EnvSample.normal_form.
#[local] Existing Instance EnvSample.system_text.
#[local] Existing Instance EnvSample.clock.
#[local] Existing Instance EnvSample.ids.
#[local] Existing Instance EnvSample.silent.
#[local] Existing Instance EnvSample.files.
#[local] Instance no_floats : PyFloat := fun _ => SpecFloat.S754_nan.

Definition key : string := EnvSample.rcid.
Definition sample (id at_ : string) (amount : Z) : TelemetrySample :=
  {| ts_sample_id := "opid:v1:telemetry:u7:01890a5d-ac96-774b-bcce-b302099a80" +:+ id; ts_operation_kind := "environment";
     ts_calibration_key := key; ts_attempt_id := "opid:v1:environment:u7:01890a5d-ac96-774b-bcce-b302099a8057";
     ts_observed_at := at_; ts_quality := "complete"; ts_source := "provider";
     ts_metrics := [{| tm_name := "environment-download-cache"; tm_metric_kind := "resource-usage"; tm_unit := "bytes";
                       tm_value := amount; tm_pool_kind := Some "environment_cache" |}] |}.
Definition first_run : TelemetrySample := sample "01" "2025-06-01T12:00:00.000Z" 100.
Definition second_run : TelemetrySample := sample "02" "2025-06-02T12:00:00.000Z" 300.
Definition third_run : TelemetrySample := sample "03" "2025-06-03T12:00:00.000Z" 200.
Definition log : list TelemetrySample := [first_run; second_run; third_run].
Definition after_append (st : telemetry_store) (s : TelemetrySample) : telemetry_store :=
  match TelemetryStore.append st s with Ok (_, st') => st' | Raise _ => st end.
Definition store1 : telemetry_store := Eval vm_compute in after_append [] first_run.
Definition store2 : telemetry_store := Eval vm_compute in after_append store1 second_run.
Definition store3 : telemetry_store := Eval vm_compute in after_append store2 third_run.

Lemma runs_formed : Forall well_formed log.
Proof. repeat constructor; vm_compute; reflexivity. Qed.

Lemma runs_appended : appended log store3.
Proof.
  pose proof runs_formed as Hw. do 3 apply Forall_cons in Hw as [? Hw].
  change log with (([] ++ [first_run]) ++ [second_run] ++ [third_run])%list.
  assert (appended ([] ++ [first_run]) store1) as Hst1.
  { eapply appended_new; [apply appended_nil|done|]. vm_cast_no_check (eq_refl (Ok (true, store1))). }
  assert (appended (([] ++ [first_run]) ++ [second_run]) store2) as Hst2.
  { eapply appended_new; [exact Hst1|done|]. vm_cast_no_check (eq_refl (Ok (true, store2))). }
  change (appended ((([] ++ [first_run]) ++ [second_run]) ++ [third_run]) store3).
  eapply appended_new; [exact Hst2|done|]. vm_cast_no_check (eq_refl (Ok (true, store3))).
Qed.

Lemma telemetry_roundtrip_witness :
  verify store3 = Ok tt /\ exists l, samples store3 "environment" key = Ok l /\ l ≡ₚ normal_sample <$> log.
Proof.
  destruct (telemetry_roundtrip log store3 runs_appended) as (Hv & Hs & _). split; [exact Hv|].
  destruct (Hs "environment" key) as (l & Hl & _ & Hp). exists l. split; [exact Hl|exact Hp].
Defined.

Definition wanted : request :=
  {| rq_operation_kind := "environment"; rq_calibration_key := key; rq_metric_name := "environment-download-cache";
     rq_pool_kind := "environment_cache"; rq_unit := "bytes" |}.

Lemma wanted_valid : valid_request wanted.
Proof. split_and!; [in_strings|vm_compute; reflexivity|vm_compute; reflexivity|in_strings|reflexivity]. Qed.

Lemma calibration_percentile_witness :
  exists snapshot, calibration store3 wanted (Some default_policy) = Ok snapshot /\ csn_eligible snapshot = true /\
    exists e, csn_expected snapshot = Some e /\ percentile [100; 300; 200] 5000 e.
Proof.
  destruct (calibration_percentile log store3 wanted default_policy runs_appended default_policy_valid wanted_valid)
    as (snapshot & Hc & [He _ Hx _] & _).
  exists snapshot. split; [exact Hc|]. assert (csn_eligible snapshot = true) as Et by (rewrite He; vm_compute; reflexivity).
  split; [exact Et|]. apply Hx in Et. exact Et.
Defined.

Lemma sample_plannable pp : elr_plan EnvSample.planned = Some pp ->
  plannable EnvSample.planned pp "machine" "estimated" [] [] DEFAULT_TRUST_CLASSES.
Proof.
  intros Hpp. assert (pp = {| pp_provider_name := "local"; pp_plan_token := "t"; pp_expected_download_bytes := 2;
    pp_expected_expanded_bytes := 2; pp_expected_scratch_bytes := 0; pp_diagnostics := []; pp_mutation_permitted := false |})
    as -> by (cbn in Hpp; congruence).
  split; [reflexivity|reflexivity|eapply oc_valid, plan_course, EnvSample.environment_planned|by vm_compute|by vm_compute|
    by vm_compute|in_strings|constructor| |split; constructor|].
  - apply (bool_decide_unpack _). by vm_compute.
  - split_and!; [done|apply (bool_decide_unpack _); by vm_compute|]. intros x Hx. revert x Hx. rewrite <- Forall_forall.
    apply (bool_decide_unpack _). by vm_compute.
Qed.

Lemma environment_plan_calibrated_witness :
  exists p, environment_plan (Some (store_calibrator store3)) EnvSample.planned "machine" "estimated" [] []
    DEFAULT_TRUST_CLASSES = Ok p /\ valid p /\ plan_operation_id p = elr_transaction_id EnvSample.planned.
Proof.
  destruct (environment_plan_calibrated log store3 EnvSample.planned _ "machine" "estimated" [] [] DEFAULT_TRUST_CLASSES
    runs_appended (sample_plannable _ eq_refl)) as (p & Hp & Hv & _ & Hid & _); [vm_compute; discriminate|].
  exists p. split; [exact Hp|]. split; [exact Hv|exact Hid].
Defined.

Definition workload : WorkloadResourcePlan :=
  {| plan_operation_kind := "environment"; plan_operation_id := elr_transaction_id EnvSample.planned;
     plan_estimates := plan_estimates Sample.plan; plan_transfers := []; plan_provider_name := None;
     plan_provider_strategy := None; plan_required_capabilities := []; plan_eligible_trust_classes := ["development"];
     plan_requested_concurrency := 1; plan_mutation_permitted := false |}.
Definition report : result ResourceAdmissionReport :=
  Eval vm_compute in preflight Sample.policy Sample.now Sample.reservation workload Sample.inventory None.

Lemma environment_admission_flow_witness :
  exists rep d r' w', report = Ok rep /\ environment_decision Sample.policy EnvSample.planned rep = Ok d /\
    admit_ EnvSample.planned d EnvSample.start = (Ok r', w') /\ elr_state r' = "admitted".
Proof.
  assert (on_course EnvSample.planned) as Hc by (eapply plan_course; exact EnvSample.environment_planned).
  destruct report as [rep|e] eqn:Er; [|discriminate Er].
  destruct (environment_admission_flow Sample.policy Sample.now Sample.reservation workload Sample.inventory None rep
    EnvSample.planned EnvSample.start EnvSample.sample_world Hc eq_refl eq_refl eq_refl) as (d & Hd & _ & r' & w' & Hr & _ & _ & _ & Hs & _).
  - rewrite <- Er. vm_compute. reflexivity.
  - exists rep, d, r', w'. split; [reflexivity|]. split; [exact Hd|]. split; [exact Hr|]. rewrite Hs.
    unfold report in Er. injection Er as <-. reflexivity.
Defined.
End PlanSample.
