(* ===== verification/SafePayload.v ===== *)
(** * Credential rejection for scheduler checkpoint payloads

    safe_payload.py of the scheduler.  It filters like the control plane's
    state_models.py ([Secrets]) with two differences: a URL that does not parse is
    unsafe here, and numbers are left to the serializer. *)

From S2P Require Export Secrets.

Section SafePayload.
Context `{PyTables}.

Definition FORBIDDEN_NAMES : list string :=
  ["accesstoken"; "apikey"; "authorization"; "bearertoken"; "clientsecret"; "cookie"; "credential";
   "credentials"; "password"; "passwd"; "privatekey"; "refreshtoken"; "secret"; "secretkey";
   "sessioncookie"; "token"].
Definition FORBIDDEN_QUERY_NAMES : list string :=
  FORBIDDEN_NAMES ++
  ["awsaccesskeyid"; "sig"; "signature"; "sharedaccesssignature"; "xamzsignature"; "xgoogsignature"].

Definition _normalized (value : string) : list Z := normalized_codes (codes value).

Definition _unsafe_string (value : string) : bool :=
  if str_contains value "-----BEGIN " && str_contains value "PRIVATE KEY-----" then true
  else if authorization_search false value then true
  else if negb (str_contains value "://") then false
  else match urlsplit value with
       | None => true
       | Some (netloc, query) =>
           if contains_char "@" netloc then true
           else existsb (fun key => codes_in (normalized_codes key) FORBIDDEN_QUERY_NAMES) (query_names query)
       end.

Definition UnsafeCheckpointPayloadError (msg : string) : exn := OtherException "UnsafeCheckpointPayloadError" msg.

Fixpoint validate_checkpoint_payload (field_name : option string) (value : json) : result unit :=
  raise_if (match field_name with
            | Some n => codes_in (_normalized n) FORBIDDEN_NAMES
            | None => false
            end)
    (UnsafeCheckpointPayloadError "scheduler checkpoints cannot persist credential-bearing fields");;
  match value with
  | JStr s => raise_if (_unsafe_string s)
      (UnsafeCheckpointPayloadError "scheduler checkpoints cannot persist credential-bearing values")
  | JObj fields => for_each fields (fun p => validate_checkpoint_payload (Some p.1) p.2)
  | JArr l => for_each l (validate_checkpoint_payload None)
  | _ => Ok tt
  end.

(** No field name is forbidden and no string is unsafe, anywhere in the tree. *)
#[warnings="-register-all"]
Inductive credential_free : json -> Prop :=
| free_null : credential_free JNull
| free_bool b : credential_free (JBool b)
| free_int z : credential_free (JInt z)
| free_float f : credential_free (JFloat f)
| free_str s : _unsafe_string s = false -> credential_free (JStr s)
| free_arr l : Forall credential_free l -> credential_free (JArr l)
| free_obj fields :
    Forall (fun p => codes_in (_normalized p.1) FORBIDDEN_NAMES = false /\ credential_free p.2) fields ->
    credential_free (JObj fields).

Lemma validate_field o v :
  validate_checkpoint_payload o v = Ok tt <->
  match o with Some n => codes_in (_normalized n) FORBIDDEN_NAMES = false | None => True end /\
  validate_checkpoint_payload None v = Ok tt.
Proof. destruct o, v; cbn [validate_checkpoint_payload]; rewrite ?bind_unit_ok, ?raise_if_ok; cbn; tauto. Qed.

(** The validator accepts exactly the credential-free trees. *)
Lemma validate_free v : validate_checkpoint_payload None v = Ok tt <-> credential_free v.
Proof.
  induction v as [|b|z|f|s|l IH|fields IH] using json_induction; cbn [validate_checkpoint_payload];
    rewrite bind_unit_ok, raise_if_ok.
  1-4: split; [constructor|done].
  - rewrite raise_if_ok. split; [intros [_ ?]; by constructor|by inversion 1].
  - rewrite for_each_ok. split.
    + intros [_ Hl]. constructor. rewrite Forall_forall in *. intros x Hx. by apply IH, Hl.
    + inversion 1 as [| | | | |? Hl|]; subst. split; [done|]. rewrite Forall_forall in *. intros x Hx. by apply IH; auto.
  - rewrite for_each_ok. split.
    + intros [_ Hl]. constructor. rewrite Forall_forall in *. intros [k x] Hx.
      pose proof (Hl _ Hx) as [Hk Hv]%validate_field. split; [done|]. by apply (IH (k, x) Hx).
    + inversion 1 as [| | | | | |? Hl]; subst. split; [done|]. rewrite Forall_forall in *.
      intros [k x] Hx. destruct (Hl _ Hx) as [Hk Hv]. apply validate_field. split; [done|]. by apply (IH (k, x) Hx).
Qed.

(** The scheduler's filter is at least as strict as the control plane's: a payload it
    accepts holds no credentials in the sense of [Secrets]. *)
Lemma unsafe_covers s : _unsafe_string s = false -> _string_contains_credentials s = false.
Proof.
  unfold _unsafe_string, _string_contains_credentials. repeat case_match; try done.
Qed.
End SafePayload.
