(* ===== verification/Recovery.v ===== *)
(** * The recovery journal

    recovery.py of the scheduler.  The four tables of the SQLite database are the
    lists of their rows; an operation runs as one transaction, so it returns the
    new tables only when it returns, and a constraint of a table is checked where
    its row is inserted.  [recorded_at] is stamped from the instant [now]
    (an attempt row from [created]), the physical run identifier the factory answers is the argument [fresh_run].  A
    session is a [RecoveryJournal] object; several may use the same tables one
    after another.  The checks of the database file are not modelled. *)

From S2P Require Export SafePayload StrictJson Timestamps.

Definition CHECKPOINT_STATES : list string :=
  ["leased"; "environment-ready"; "running"; "observation-finalized"; "spooled"; "segment-finalized";
   "uploaded"; "verified"; "manifest-committed"; "acknowledged"].
Definition COMMITTED_STATES : list string := ["manifest-committed"; "acknowledged"].

Definition safe_identifier_chars : list (ascii * ascii) :=
  [("A", "Z"); ("a", "z"); ("0", "9"); (".", "."); ("_", "_"); (":", ":"); ("/", "/"); ("@", "@");
   ("+", "+"); ("-", "-")]%char.
Definition SAFE_IDENTIFIER_PATTERN : regex :=
  RSeq (RClass [("A", "Z"); ("a", "z"); ("0", "9")]%char) (RUpTo 2047 (RClass safe_identifier_chars)).
Definition CAMPAIGN_MANIFEST : string := "rcid:v1:campaign-manifest:h:".
Definition LOGICAL_EXECUTION : string := "rcid:v1:logical-execution:h:".
Definition PHYSICAL_RUN : string := "rcid:v1:physical-run:u7:".
Definition TYPED_ID_PATTERNS : list (string * regex) :=
  [(CAMPAIGN_MANIFEST, RSeq (RLit "rcid:v1:campaign-manifest:h:jcs-sha256-v1:") (RRepeat 64 hexd));
   (LOGICAL_EXECUTION, RSeq (RLit "rcid:v1:logical-execution:h:jcs-sha256-v1:") (RRepeat 64 hexd));
   (PHYSICAL_RUN, RSeq (RLit "rcid:v1:physical-run:u7:") UUID7)].

Definition RecoveryConflictError (msg : string) : exn := OtherException "RecoveryConflictError" msg.
Definition RecoveryIntegrityError (msg : string) : exn := OtherException "RecoveryIntegrityError" msg.
Definition IntegrityError (msg : string) : exn := OtherException "sqlite3.IntegrityError" msg.
Definition AssertionError : exn := OtherException "AssertionError" "".

Definition _require_identifier (label value : string) : result unit :=
  raise_if (negb (fullmatch SAFE_IDENTIFIER_PATTERN value))
    (RecoveryConflictError (label +:+ " must be a bounded safe identifier")).
Definition _require_sha256 (label value : string) : result unit :=
  raise_if (negb (fullmatch SHA256_PATTERN value))
    (RecoveryConflictError (label +:+ " must be a lowercase SHA-256 digest")).
Definition typed_pattern (prefix : string) : option regex :=
  snd <$> List.find (fun p => String.eqb prefix p.1) TYPED_ID_PATTERNS.
Definition _require_typed_prefix (label value prefix : string) : result unit :=
  _require_identifier label value;;
  raise_if (match typed_pattern prefix with None => true | Some pattern => negb (fullmatch pattern value) end)
    (RecoveryConflictError (label +:+ " has the wrong typed identity namespace")).

Definition recovery_action_for_stage (stage : string) (same_session : bool) : string :=
  if negb (mem stage CHECKPOINT_STATES) then "quarantine"
  else if same_session then (if mem stage COMMITTED_STATES then "committed" else "continue")
  else if String.eqb stage "running" then "retry"
  else if mem stage COMMITTED_STATES then "committed"
  else "continue".

Record RecoveryDecision := {
  rd_action : string; rd_logical_execution_id : string; rd_physical_run_id : option string;
  rd_attempt_number : option Z; rd_resume_state : option string; rd_reason_code : string
}.
Definition recovery_decision_to_dict (d : RecoveryDecision) : list (string * json) :=
  [("action", JStr (rd_action d)); ("attempt_number", JOptInt (rd_attempt_number d));
   ("logical_execution_id", JStr (rd_logical_execution_id d));
   ("physical_run_id", JOptStr (rd_physical_run_id d)); ("reason_code", JStr (rd_reason_code d));
   ("resume_state", JOptStr (rd_resume_state d))].

Record AttemptRecord := {
  ar_logical_execution_id : string; ar_physical_run_id : string; ar_attempt_number : Z;
  ar_purpose : string; ar_disposition : string; ar_owner_session_id : string; ar_latest_state : string;
  ar_manifest_sha256 : option string; ar_commit_receipt_sha256 : option string
}.
Definition attempt_record_to_dict (a : AttemptRecord) : list (string * json) :=
  [("attempt_number", JInt (ar_attempt_number a));
   ("commit_receipt_sha256", JOptStr (ar_commit_receipt_sha256 a));
   ("disposition", JStr (ar_disposition a)); ("latest_state", JStr (ar_latest_state a));
   ("logical_execution_id", JStr (ar_logical_execution_id a));
   ("manifest_sha256", JOptStr (ar_manifest_sha256 a));
   ("owner_session_id", JStr (ar_owner_session_id a));
   ("physical_run_id", JStr (ar_physical_run_id a)); ("purpose", JStr (ar_purpose a))].

(** ** The tables *)

Record attempt_row := {
  at_run : string; at_logical : string; at_number : Z; at_purpose : string; at_disposition : string;
  at_owner : string; at_created : string
}.
Record checkpoint_row := {
  cp_run : string; cp_ordinal : Z; cp_state : string; cp_payload_json : string; cp_payload_sha256 : string;
  cp_manifest : option string; cp_receipt : option string; cp_previous : option string;
  cp_sha256 : string; cp_session : string; cp_recorded : string
}.
Record commit_row := { cm_logical : string; cm_run : string; cm_manifest : string; cm_receipt : string }.
Record tables := {
  t_metadata : gmap string string; t_attempts : list attempt_row; t_checkpoints : list checkpoint_row;
  t_commits : list commit_row
}.
Definition empty_tables : tables := {| t_metadata := ∅; t_attempts := []; t_checkpoints := []; t_commits := [] |}.

Definition with_owner (session : string) (a : attempt_row) : attempt_row :=
  {| at_run := at_run a; at_logical := at_logical a; at_number := at_number a; at_purpose := at_purpose a;
     at_disposition := at_disposition a; at_owner := session; at_created := at_created a |}.
Definition with_disposition (disposition : string) (a : attempt_row) : attempt_row :=
  {| at_run := at_run a; at_logical := at_logical a; at_number := at_number a; at_purpose := at_purpose a;
     at_disposition := disposition; at_owner := at_owner a; at_created := at_created a |}.

(** [UPDATE attempts SET ... WHERE physical_run_id = run] *)
Definition update_attempt (run : string) (f : attempt_row -> attempt_row) (t : tables) : tables :=
  {| t_metadata := t_metadata t;
     t_attempts := (fun a => if String.eqb (at_run a) run then f a else a) <$> t_attempts t;
     t_checkpoints := t_checkpoints t; t_commits := t_commits t |}.

(** [INSERT INTO attempts], with the constraints of the table. *)
Definition insert_attempt_row (a : attempt_row) (t : tables) : result tables :=
  raise_if (9223372036854775807 <? at_number a) (OverflowError "Python int too large to convert to SQLite INTEGER");;
  raise_if (negb (1 <=? at_number a) || negb (mem (at_purpose a) ["initial"; "retry"]) ||
            negb (mem (at_disposition a) ["active"; "interrupted"; "committed"]) ||
            existsb (fun b => String.eqb (at_run b) (at_run a)) (t_attempts t) ||
            existsb (fun b => String.eqb (at_logical b) (at_logical a) && (at_number b =? at_number a)) (t_attempts t))
    (RecoveryConflictError "physical run identity or attempt ordinal collided");;
  Ok {| t_metadata := t_metadata t; t_attempts := t_attempts t ++ [a]; t_checkpoints := t_checkpoints t;
        t_commits := t_commits t |}.

Definition insert_checkpoint_row (c : checkpoint_row) (t : tables) : result tables :=
  raise_if (negb (existsb (fun a => String.eqb (at_run a) (cp_run c)) (t_attempts t)))
    (IntegrityError "FOREIGN KEY constraint failed");;
  raise_if (negb (1 <=? cp_ordinal c)) (IntegrityError "CHECK constraint failed: checkpoint_ordinal >= 1");;
  raise_if (existsb (fun d => String.eqb (cp_run d) (cp_run c) && (cp_ordinal d =? cp_ordinal c)) (t_checkpoints t))
    (IntegrityError "UNIQUE constraint failed: checkpoints.physical_run_id, checkpoints.checkpoint_ordinal");;
  raise_if (existsb (fun d => String.eqb (cp_sha256 d) (cp_sha256 c)) (t_checkpoints t))
    (IntegrityError "UNIQUE constraint failed: checkpoints.checkpoint_sha256");;
  Ok {| t_metadata := t_metadata t; t_attempts := t_attempts t; t_checkpoints := t_checkpoints t ++ [c];
        t_commits := t_commits t |}.

Definition insert_commit_row (k : commit_row) (t : tables) : result tables :=
  raise_if (negb (existsb (fun a => String.eqb (at_run a) (cm_run k)) (t_attempts t)) ||
            existsb (fun d => String.eqb (cm_logical d) (cm_logical k)) (t_commits t) ||
            existsb (fun d => String.eqb (cm_run d) (cm_run k)) (t_commits t) ||
            existsb (fun d => String.eqb (cm_receipt d) (cm_receipt k)) (t_commits t))
    (RecoveryConflictError "logical execution already has a different commit");;
  Ok {| t_metadata := t_metadata t; t_attempts := t_attempts t; t_checkpoints := t_checkpoints t;
        t_commits := t_commits t ++ [k] |}.

(** ** Queries *)

Definition find_attempt (run : string) (t : tables) : option attempt_row :=
  List.find (fun a => String.eqb (at_run a) run) (t_attempts t).
Definition find_commit (logical : string) (t : tables) : option commit_row :=
  List.find (fun k => String.eqb (cm_logical k) logical) (t_commits t).
Definition run_commit (run : string) (t : tables) : option commit_row :=
  List.find (fun k => String.eqb (cm_run k) run) (t_commits t).

(** [ORDER BY checkpoint_ordinal] *)
Definition run_checkpoints (t : tables) (run : string) : list checkpoint_row :=
  sorted_by cp_ordinal (List.filter (fun c => String.eqb (cp_run c) run) (t_checkpoints t)).
(** [ORDER BY checkpoint_ordinal DESC LIMIT 1] *)
Definition latest_checkpoint (t : tables) (run : string) : option checkpoint_row := last (run_checkpoints t run).
(** [ORDER BY attempt_number] *)
Definition logical_attempts (t : tables) (logical : string) : list attempt_row :=
  sorted_by at_number (List.filter (fun a => String.eqb (at_logical a) logical) (t_attempts t)).

(** A row of the join of an attempt, its latest checkpoint and its commit. *)
Record attempt_view := {
  av_attempt : attempt_row; av_latest_state : string; av_manifest : option string; av_receipt : option string
}.
Definition coalesce {A} (x y : option A) : option A := match x with Some _ => x | None => y end.
Definition view (t : tables) (a : attempt_row) : option attempt_view :=
  c ← latest_checkpoint t (at_run a);
  let k := run_commit (at_run a) t in
  Some {| av_attempt := a; av_latest_state := cp_state c; av_manifest := coalesce (cp_manifest c) (cm_manifest <$> k);
          av_receipt := coalesce (cp_receipt c) (cm_receipt <$> k) |}.
Definition _latest_attempt_row (t : tables) (logical : string) : option attempt_view :=
  last (omap (view t) (logical_attempts t logical)).

(** The hooks of the audit's [json.loads]: a constant raises, members fill a dict. *)
Definition audit_hooks : JSONHooks :=
  {| object_pairs_hook := fun pairs => Ok (JObj (dict_of_pairs pairs)); parse_constant := fun _ => Raise (ValueError "") |}.

(** A session: the [RecoveryJournal] object without its connection. *)
Record RecoveryJournal := {
  campaign_manifest_id : string; logical_execution_ids : list string; controller_session_id : string
}.

Section Recovery.
Context `{JCS} `{PyTables} `{PyFloat}.

Definition _canonical_bytes (value : json) : result string :=
  match jcs_dumps value with
  | Some text => Ok text
  | None => Raise (RecoveryConflictError "recovery material is not RFC 8785 canonicalizable")
  end.
Definition _sha256 (value : json) : result string := text ← _canonical_bytes value; Ok (sha256 text).

Definition SCHEMA_VERSION : string := "1".

Definition expected_metadata (self : RecoveryJournal) : result (gmap string string) :=
  plan ← _sha256 (JStrs (logical_execution_ids self));
  Ok (<["campaign_manifest_id" := campaign_manifest_id self]> (<["logical_plan_sha256" := plan]>
      (<["schema_version" := SCHEMA_VERSION]> ∅))).

Definition checkpoint_body (self : RecoveryJournal) (a : attempt_row) (ordinal : Z) (receipt : option string)
    (session : string) (manifest : option string) (payload_sha256 : string) (previous : option string)
    (state recorded : string) : json :=
  JObj [("attempt_number", JInt (at_number a)); ("campaign_manifest_id", JStr (campaign_manifest_id self));
        ("checkpoint_ordinal", JInt ordinal); ("commit_receipt_sha256", JOptStr receipt);
        ("controller_session_id", JStr session); ("logical_execution_id", JStr (at_logical a));
        ("manifest_sha256", JOptStr manifest); ("payload_sha256", JStr payload_sha256);
        ("physical_run_id", JStr (at_run a)); ("previous_checkpoint_sha256", JOptStr previous);
        ("schema_version", JStr "attempt-checkpoint.v1"); ("state", JStr state); ("recorded_at", JStr recorded)].

Definition commit_receipt (self : RecoveryJournal) (logical : string) (manifest : option string) (run : string) : json :=
  JObj [("campaign_manifest_id", JStr (campaign_manifest_id self)); ("logical_execution_id", JStr logical);
        ("manifest_sha256", JOptStr manifest); ("physical_run_id", JStr run);
        ("schema_version", JStr "campaign-commit-receipt.v1")].

(** ** The audit *)

Definition audit_payload (c : checkpoint_row) : result unit :=
  '(stored, bytes) ← match (stored ← @json_loads _ audit_hooks (cp_payload_json c);
                            bytes ← _canonical_bytes stored; Ok (stored, bytes)) with
                     | Raise _ => Raise (RecoveryIntegrityError "attempt checkpoint payload is not strict canonical JSON")
                     | r => r
                     end;
  raise_if (match stored with JObj _ => false | _ => true end || negb (String.eqb bytes (cp_payload_json c)) ||
            negb (String.eqb (sha256 bytes) (cp_payload_sha256 c)))
    (RecoveryIntegrityError "attempt checkpoint payload failed canonical digest verification").

Fixpoint audit_chain (self : RecoveryJournal) (a : attempt_row) (previous : option string)
    (checkpoints : list checkpoint_row) : result unit :=
  match checkpoints with
  | [] => Ok tt
  | c :: rest =>
      audit_payload c;;
      digest ← _sha256 (checkpoint_body self a (cp_ordinal c) (cp_receipt c) (cp_session c) (cp_manifest c)
                          (cp_payload_sha256 c) previous (cp_state c) (cp_recorded c));
      raise_if (negb (bool_decide (cp_previous c = previous)) || negb (String.eqb (cp_sha256 c) digest))
        (RecoveryIntegrityError "attempt checkpoint hash chain failed verification");;
      audit_chain self a (Some (cp_sha256 c)) rest
  end.

Definition audit_disposition (disposition latest_state : string) : result unit :=
  raise_if (String.eqb disposition "interrupted" && negb (String.eqb latest_state "running"))
    (RecoveryIntegrityError "only a running attempt may become interrupted");;
  raise_if (String.eqb disposition "committed" && negb (mem latest_state COMMITTED_STATES))
    (RecoveryIntegrityError "committed attempt lacks its durable commit checkpoint");;
  raise_if (String.eqb disposition "active" && mem latest_state COMMITTED_STATES)
    (RecoveryIntegrityError "committed checkpoint cannot remain active").

Definition audit_attempt (self : RecoveryJournal) (t : tables) (a : attempt_row) : result unit :=
  raise_if (negb (mem (at_logical a) (logical_execution_ids self)))
    (RecoveryIntegrityError "attempt references unplanned logical execution");;
  let checkpoints := run_checkpoints t (at_run a) in
  match last checkpoints with
  | None => Raise (RecoveryIntegrityError "attempt lacks its leased checkpoint")
  | Some latest =>
      raise_if (negb (bool_decide (cp_ordinal <$> checkpoints = seqZ 1 (Z.of_nat (length checkpoints)))))
        (RecoveryIntegrityError "attempt checkpoint ordinals are not contiguous");;
      raise_if (negb (bool_decide (cp_state <$> checkpoints = take (length checkpoints) CHECKPOINT_STATES)))
        (RecoveryIntegrityError "attempt checkpoints are not an exact D090 prefix");;
      audit_chain self a None checkpoints;;
      audit_disposition (at_disposition a) (cp_state latest)
  end.

Definition open_or_committed (a : attempt_row) : bool := mem (at_disposition a) ["active"; "committed"].

Definition audit_logical (attempts : list attempt_row) : result unit :=
  raise_if (negb (bool_decide (at_number <$> attempts = seqZ 1 (Z.of_nat (length attempts)))))
    (RecoveryIntegrityError "physical attempt ordinals are not contiguous");;
  raise_if (negb (match attempts with a :: _ => String.eqb (at_purpose a) "initial" | [] => true end) ||
            existsb (fun a => negb (String.eqb (at_purpose a) "retry")) (tail attempts))
    (RecoveryIntegrityError "physical attempt purposes contradict their ordinals");;
  raise_if (negb (Nat.eqb (length (List.filter open_or_committed attempts)) 1))
    (RecoveryIntegrityError "logical execution has ambiguous active or committed attempts").

Definition audit_commit (self : RecoveryJournal) (t : tables) (k : commit_row) : result unit :=
  raise_if (match find_attempt (cm_run k) t,
                  List.find (fun c => String.eqb (cp_run c) (cm_run k) && String.eqb (cp_state c) "manifest-committed")
                    (t_checkpoints t) with
            | Some a, Some c =>
                negb (String.eqb (at_logical a) (cm_logical k)) || negb (String.eqb (at_disposition a) "committed") ||
                negb (bool_decide (cp_manifest c = Some (cm_manifest k))) ||
                negb (bool_decide (cp_receipt c = Some (cm_receipt k)))
            | _, _ => true
            end)
    (RecoveryIntegrityError "logical commit does not reconcile its physical attempt");;
  receipt ← _sha256 (commit_receipt self (cm_logical k) (Some (cm_manifest k)) (cm_run k));
  raise_if (negb (String.eqb (cm_receipt k) receipt))
    (RecoveryIntegrityError "logical commit receipt digest failed verification").

Definition by_logical (t : tables) : list (string * list attempt_row) :=
  (fun logical => (logical, logical_attempts t logical)) <$> sorted_set (at_logical <$> t_attempts t).

Definition committed_runs (t : tables) : list string :=
  at_run <$> List.filter (fun a => String.eqb (at_disposition a) "committed") (t_attempts t).

Definition same_set (k l : list string) : bool := forallb (fun x => mem x l) k && forallb (fun x => mem x k) l.

Definition _audit_in_transaction (self : RecoveryJournal) (t : tables) : result unit :=
  expected ← expected_metadata self;
  raise_if (negb (bool_decide (t_metadata t = expected)))
    (RecoveryIntegrityError "recovery metadata failed exact reconciliation");;
  for_each (sorted_by (fun a => (at_logical a, at_number a)) (t_attempts t)) (audit_attempt self t);;
  for_each (by_logical t) (fun p => audit_logical p.2);;
  raise_if (negb (same_set (committed_runs t) (cm_run <$> t_commits t)))
    (RecoveryIntegrityError "committed attempts and logical commit receipts do not reconcile");;
  for_each (t_commits t) (audit_commit self t).

(** [PRAGMA integrity_check] is SQLite's own; a transaction that only reads is rolled back. *)
Definition audit (self : RecoveryJournal) (t : tables) : result unit := _audit_in_transaction self t.

(** ** Opening *)

Definition _initialize (self : RecoveryJournal) (t : tables) : result tables :=
  expected ← expected_metadata self;
  if bool_decide (t_metadata t = ∅) then
    Ok {| t_metadata := expected; t_attempts := t_attempts t; t_checkpoints := t_checkpoints t; t_commits := t_commits t |}
  else
    raise_if (negb (bool_decide (t_metadata t = expected)))
      (RecoveryIntegrityError "recovery journal metadata contradicts the campaign plan");;
    Ok t.

(** [RecoveryJournal.__init__] on the tables found at the path. *)
Definition open_journal (self : RecoveryJournal) (t : tables) : result tables :=
  _require_typed_prefix "campaign manifest ID" (campaign_manifest_id self) CAMPAIGN_MANIFEST;;
  _require_identifier "controller session ID" (controller_session_id self);;
  raise_if (list_empty (logical_execution_ids self))
    (RecoveryConflictError "recovery plan requires at least one logical execution");;
  for_each (logical_execution_ids self) (fun logical =>
    _require_typed_prefix "logical execution ID" logical LOGICAL_EXECUTION);;
  raise_if (negb (bool_decide (sorted_strings (logical_execution_ids self) = logical_execution_ids self)) ||
            has_duplicates (logical_execution_ids self))
    (RecoveryConflictError "logical execution IDs must be unique and code-point ordered");;
  t ← _initialize self t;
  audit self t;;
  Ok t.

(** ** Checkpoints *)

Definition _append_checkpoint (self : RecoveryJournal) (now : Z) (run state : string)
    (payload : list (string * json)) (manifest : option string) (t : tables) : result (tables * string) :=
  match validate_checkpoint_payload None (JObj payload) with
  | Raise (OtherException _ msg) => Raise (RecoveryConflictError msg)
  | r => r
  end;;
  payload_json ← _canonical_bytes (JObj payload);
  let payload_sha256 := sha256 payload_json in
  let previous := latest_checkpoint t run in
  let ordinal := match previous with None => 1 | Some c => cp_ordinal c + 1 end in
  let previous_digest := cp_sha256 <$> previous in
  match find_attempt run t with
  | None => Raise AssertionError
  | Some a =>
      receipt ← (if String.eqb state "manifest-committed" then
                   raise_if (is_none manifest) AssertionError;;
                   receipt ← _sha256 (commit_receipt self (at_logical a) manifest run); Ok (Some receipt)
                 else Ok None);
      let recorded := rfc3339 now in
      digest ← _sha256 (checkpoint_body self a ordinal receipt (controller_session_id self) manifest payload_sha256
                          previous_digest state recorded);
      t ← insert_checkpoint_row
            {| cp_run := run; cp_ordinal := ordinal; cp_state := state; cp_payload_json := payload_json;
               cp_payload_sha256 := payload_sha256; cp_manifest := manifest; cp_receipt := receipt;
               cp_previous := previous_digest; cp_sha256 := digest; cp_session := controller_session_id self;
               cp_recorded := recorded |} t;
      t ← (if String.eqb state "manifest-committed" then
             match manifest, receipt with
             | Some m, Some r =>
                 insert_commit_row {| cm_logical := at_logical a; cm_run := run; cm_manifest := m; cm_receipt := r |} t
             | _, _ => Raise AssertionError
             end
           else Ok t);
      Ok (t, digest)
  end.

Definition checkpoint (self : RecoveryJournal) (now : Z) (run state : string)
    (payload : option (list (string * json))) (manifest : option string) (t : tables) : result (tables * string) :=
  _require_typed_prefix "physical run ID" run PHYSICAL_RUN;;
  _audit_in_transaction self t;;
  match find_attempt run t with
  | None => Raise (RecoveryConflictError "physical run is unknown")
  | Some a =>
      raise_if (negb (String.eqb (at_owner a) (controller_session_id self)))
        (RecoveryConflictError "physical run is owned by another controller session");;
      raise_if (negb (String.eqb (at_disposition a) "active"))
        (RecoveryConflictError "only an active physical run can advance");;
      match latest_checkpoint t run with
      | None => Raise AssertionError
      | Some latest =>
          match list_find (eq (cp_state latest)) CHECKPOINT_STATES with
          | None => Raise (ValueError "tuple.index(x): x not in tuple")
          | Some (index, _) =>
              raise_if (negb (bool_decide (CHECKPOINT_STATES !! S index = Some state)))
                (RecoveryConflictError "checkpoint transition is not the exact next D090 state");;
              (if String.eqb state "manifest-committed" then
                 match manifest with
                 | None => Raise (RecoveryConflictError "manifest commit requires a verified manifest digest")
                 | Some m => _require_sha256 "manifest digest" m
                 end
               else
                 raise_if (is_some manifest)
                   (RecoveryConflictError "manifest digest is permitted only at manifest commit"));;
              '(t, digest) ← _append_checkpoint self now run state (default [] payload) manifest t;
              Ok (if String.eqb state "manifest-committed" then update_attempt run (with_disposition "committed") t else t,
                  digest)
          end
      end
  end.

Definition acknowledge (self : RecoveryJournal) (now : Z) (run : string) (t : tables) : result (tables * string) :=
  _require_typed_prefix "physical run ID" run PHYSICAL_RUN;;
  _audit_in_transaction self t;;
  match find_attempt run t with
  | None => Raise (RecoveryConflictError "committed physical run is unknown or not reclaimed")
  | Some a =>
      raise_if (negb (String.eqb (at_owner a) (controller_session_id self)))
        (RecoveryConflictError "committed physical run is unknown or not reclaimed");;
      raise_if (negb (String.eqb (at_disposition a) "committed"))
        (RecoveryConflictError "acknowledgment requires a committed physical run");;
      match latest_checkpoint t run with
      | None => Raise AssertionError
      | Some latest =>
          if String.eqb (cp_state latest) "acknowledged" then Ok (t, cp_sha256 latest)
          else
            raise_if (negb (String.eqb (cp_state latest) "manifest-committed"))
              (RecoveryIntegrityError "committed attempt lacks a manifest checkpoint");;
            _append_checkpoint self now run "acknowledged" [] None t
      end
  end.

(** ** Starting and resuming *)

Definition _insert_attempt (self : RecoveryJournal) (created now : Z) (fresh_run logical : string) (number : Z) (purpose : string)
    (t : tables) : result tables :=
  _require_typed_prefix "physical run ID" fresh_run PHYSICAL_RUN;;
  t ← insert_attempt_row
        {| at_run := fresh_run; at_logical := logical; at_number := number; at_purpose := purpose;
           at_disposition := "active"; at_owner := controller_session_id self; at_created := rfc3339 created |} t;
  '(t, _) ← _append_checkpoint self now fresh_run "leased"
              [("attempt_number", JInt number); ("purpose", JStr purpose)] None t;
  Ok t.

Definition decision (action logical run : string) (number : Z) (state reason : string) : RecoveryDecision :=
  {| rd_action := action; rd_logical_execution_id := logical; rd_physical_run_id := Some run;
     rd_attempt_number := Some number; rd_resume_state := Some state; rd_reason_code := reason |}.

Definition start_or_resume (self : RecoveryJournal) (created now : Z) (fresh_run logical : string) (t : tables)
    : result (tables * RecoveryDecision) :=
  raise_if (negb (mem logical (logical_execution_ids self)))
    (RecoveryConflictError "logical execution is outside the frozen campaign plan");;
  _audit_in_transaction self t;;
  let session := controller_session_id self in
  match find_commit logical t with
  | Some _ =>
      match _latest_attempt_row t logical with
      | None => Raise AssertionError
      | Some latest =>
          let run := at_run (av_attempt latest) in
          Ok (update_attempt run (with_owner session) t,
              decision "committed" logical run (at_number (av_attempt latest)) (av_latest_state latest)
                "verified-manifest-commit")
      end
  | None =>
      match _latest_attempt_row t logical with
      | None =>
          t ← _insert_attempt self created now fresh_run logical 1 "initial" t;
          Ok (t, decision "start" logical fresh_run 1 "leased" "initial-attempt")
      | Some latest =>
          let a := av_attempt latest in
          let stage := av_latest_state latest in
          let same_session := String.eqb (at_owner a) session in
          let action := recovery_action_for_stage stage same_session in
          raise_if (String.eqb action "quarantine")
            (RecoveryIntegrityError "latest attempt checkpoint has an unknown state");;
          if String.eqb action "retry" then
            raise_if (negb (String.eqb (at_disposition a) "active"))
              (RecoveryIntegrityError "retry source attempt is not active");;
            let t := update_attempt (at_run a) (with_disposition "interrupted") t in
            let number := at_number a + 1 in
            t ← _insert_attempt self created now fresh_run logical number "retry" t;
            Ok (t, decision "retry" logical fresh_run number "leased" "interrupted-target-invocation")
          else
            let t := update_attempt (at_run a) (with_owner session) t in
            Ok (t, decision action logical (at_run a) (at_number a) stage
                     (if same_session then "duplicate-delivery" else "durable-checkpoint"))
      end
  end.

(** ** Reading *)

Definition latest_checkpoint_payload (self : RecoveryJournal) (run : string) (t : tables) : result (list (string * json)) :=
  _require_typed_prefix "physical run ID" run PHYSICAL_RUN;;
  audit self t;;
  match latest_checkpoint t run with
  | None => Raise (RecoveryConflictError "physical run is unknown")
  | Some c =>
      payload ← @json_loads _ default_hooks (cp_payload_json c);
      match payload with JObj fields => Ok fields | _ => Raise AssertionError end
  end.

Definition attempts (logical : option string) (t : tables) : list AttemptRecord :=
  (fun v : attempt_view =>
     let a := av_attempt v in
     {| ar_logical_execution_id := at_logical a; ar_physical_run_id := at_run a; ar_attempt_number := at_number a;
        ar_purpose := at_purpose a; ar_disposition := at_disposition a; ar_owner_session_id := at_owner a;
        ar_latest_state := av_latest_state v; ar_manifest_sha256 := av_manifest v;
        ar_commit_receipt_sha256 := av_receipt v |}) <$>
  omap (view t)
    (sorted_by (fun a => (at_logical a, at_number a))
      (List.filter (fun a => match logical with Some l => String.eqb (at_logical a) l | None => true end) (t_attempts t))).
End Recovery.

(** ** The reference table of restarts *)

Definition restart_case (key : string) (stage : option string) (action : string) (preserve requires_new : bool) : string * json :=
  (key, JObj [("case_key", JStr key); ("expected_action", JStr action); ("latest_checkpoint", JOptStr stage);
              ("preserve_physical_run", JBool preserve); ("requires_new_physical_run", JBool requires_new)]).
Definition restart_cases : list (string * json) :=
  ((fun stage => let action := recovery_action_for_stage stage false in
     restart_case ("restart-after-" +:+ stage) (Some stage) action (negb (String.eqb action "retry")) (String.eqb action "retry"))
   <$> CHECKPOINT_STATES) ++
  [restart_case "corrupt-checkpoint-chain" None "quarantine" false false;
   restart_case "duplicate-active-delivery" (Some "running") "continue" true false;
   restart_case "repeated-running-restarts" (Some "running") "retry" false true;
   restart_case "uncommitted-transaction" (Some "leased") "continue" true false].
Definition action_count (action : string) (cases : list (string * json)) : json :=
  JInt (Z.of_nat (length (List.filter (fun c => match c.2 with
                                                | JObj fields => existsb (fun p => String.eqb p.1 "expected_action" &&
                                                    match p.2 with JStr s => String.eqb s action | _ => false end) fields
                                                | _ => false
                                                end) cases))).
Definition build_restart_resume_reference_report : list (string * json) :=
  let cases := sorted_by fst restart_cases in
  [("cases", JArr (snd <$> cases));
   ("classification", JObj [("canonical_authority", JBool false); ("normative_authority", JBool false);
                            ("operational_qualification_only", JBool true); ("semantic_authority", JBool false)]);
   ("schema_version", JStr "restart-resume-qualification.v1");
   ("summary", JObj [("case_count", JInt (Z.of_nat (length cases))); ("committed_case_count", action_count "committed" cases);
                     ("continue_case_count", action_count "continue" cases); ("quarantine_case_count", action_count "quarantine" cases);
                     ("retry_case_count", action_count "retry" cases)])].

Example restart_summary : last build_restart_resume_reference_report =
  Some ("summary", JObj [("case_count", JInt 14); ("committed_case_count", JInt 2); ("continue_case_count", JInt 9);
                         ("quarantine_case_count", JInt 1); ("retry_case_count", JInt 2)]).
Proof. reflexivity. Qed.
