(* ===== verification/RecoveryInvariant.v ===== *)
(** * The tables of the recovery journal under its updates

    How the queries answer after a row is inserted or an attempt is updated, and
    the constraints SQLite keeps on the tables.

    The second part is the invariant of the journal and the verdict of the audit:
    it passes exactly when every stored payload reads back ([readable]). *)

From S2P Require Export Recovery Rows.

(** ** The constraints of the tables *)

Record constraints (t : tables) : Prop := {
  attempts_primary : NoDup (at_run <$> t_attempts t);
  attempts_unique : NoDup ((fun a => (at_logical a, at_number a)) <$> t_attempts t);
  checkpoints_primary : NoDup ((fun c => (cp_run c, cp_ordinal c)) <$> t_checkpoints t);
  checkpoints_unique : NoDup (cp_sha256 <$> t_checkpoints t);
  checkpoints_foreign c : c ∈ t_checkpoints t -> cp_run c ∈ (at_run <$> t_attempts t);
  commits_primary : NoDup (cm_logical <$> t_commits t);
  commits_run_unique : NoDup (cm_run <$> t_commits t);
  commits_receipt_unique : NoDup (cm_receipt <$> t_commits t)
}.

Definition add_attempt (a : attempt_row) (t : tables) : tables :=
  {| t_metadata := t_metadata t; t_attempts := t_attempts t ++ [a]; t_checkpoints := t_checkpoints t; t_commits := t_commits t |}.
Definition add_checkpoint (c : checkpoint_row) (t : tables) : tables :=
  {| t_metadata := t_metadata t; t_attempts := t_attempts t; t_checkpoints := t_checkpoints t ++ [c]; t_commits := t_commits t |}.
Definition add_commit (k : commit_row) (t : tables) : tables :=
  {| t_metadata := t_metadata t; t_attempts := t_attempts t; t_checkpoints := t_checkpoints t; t_commits := t_commits t ++ [k] |}.

Lemma insert_attempt_ok a t t' :
  insert_attempt_row a t = Ok t' -> constraints t -> t' = add_attempt a t /\ (at_run a ∉ (at_run <$> t_attempts t)) /\ constraints t'.
Proof.
  unfold insert_attempt_row. intros Hi [Hr Hn Hp Hu Hf H1 H2 H3]. ok_inv. subst t'. rewrite !orb_false_iff in E0.
  destruct E0 as ((_ & Hk%existsb_key) & Hl). split; [done|]. split; [done|]. constructor; cbn; auto.
  - rewrite fmap_app. by apply NoDup_snoc.
  - rewrite fmap_app. apply NoDup_snoc. split; [done|]. intros (b & [= El En] & Hb)%list_elem_of_fmap.
    rewrite existsb_false, Forall_forall in Hl. specialize (Hl b Hb). cbn in Hl. rewrite El, En, String.eqb_refl, Z.eqb_refl in Hl. done.
  - intros c Hc. rewrite fmap_app. apply elem_of_app. left. auto.
Qed.

Lemma insert_checkpoint_ok c t t' :
  insert_checkpoint_row c t = Ok t' -> constraints t -> t' = add_checkpoint c t /\ constraints t'.
Proof.
  unfold insert_checkpoint_row. intros Hi [Hr Hn Hp Hu Hf H1 H2 H3]. ok_inv. subst t'. split; [done|]. constructor; cbn; auto.
  - rewrite fmap_app. apply NoDup_snoc. split; [done|]. intros (b & [= El En] & Hb)%list_elem_of_fmap.
    rewrite existsb_false, Forall_forall in E1. specialize (E1 b Hb). cbn in E1. rewrite El, En, String.eqb_refl, Z.eqb_refl in E1. done.
  - rewrite fmap_app. apply NoDup_snoc. split; [done|]. by apply existsb_key.
  - intros d [Hd| ->%list_elem_of_singleton]%elem_of_app; [auto|]. apply negb_false_iff, existsb_exists in E as (a & Ha & <-%String.eqb_eq).
    by apply list_elem_of_fmap_2, list_elem_of_In.
Qed.

Lemma insert_commit_ok k t t' :
  insert_commit_row k t = Ok t' -> constraints t -> t' = add_commit k t /\ (cm_logical k ∉ (cm_logical <$> t_commits t)) /\ constraints t'.
Proof.
  unfold insert_commit_row. intros Hi [Hr Hn Hp Hu Hf H1 H2 H3]. ok_inv. subst t'. rewrite !orb_false_iff in E.
  destruct E as (((_ & ?%existsb_key) & ?%existsb_key) & ?%existsb_key). split; [done|]. split; [done|].
  constructor; cbn; auto; rewrite fmap_app; by apply NoDup_snoc.
Qed.

(** ** Updating an attempt *)

(** An update that keeps the identity of an attempt. *)
Definition keeps_identity (f : attempt_row -> attempt_row) : Prop :=
  forall a, at_run (f a) = at_run a /\ at_logical (f a) = at_logical a /\ at_number (f a) = at_number a /\ at_purpose (f a) = at_purpose a.

Lemma with_owner_identity s : keeps_identity (with_owner s).
Proof. done. Qed.
Lemma with_disposition_identity d : keeps_identity (with_disposition d).
Proof. done. Qed.
#[export] Hint Resolve with_owner_identity with_disposition_identity : core.

Definition at_run_only (run : string) (f : attempt_row -> attempt_row) (a : attempt_row) : attempt_row :=
  if String.eqb (at_run a) run then f a else a.

Lemma at_run_only_identity run f : keeps_identity f -> keeps_identity (at_run_only run f).
Proof. intros Hf a. unfold at_run_only. destruct (String.eqb _ _); auto. Qed.

Lemma update_attempt_eq run f t :
  t_attempts (update_attempt run f t) = at_run_only run f <$> t_attempts t.
Proof. done. Qed.

Lemma fmap_identity {A} (f : attempt_row -> attempt_row) (g : attempt_row -> A) (l : list attempt_row) :
  (forall a, g (f a) = g a) -> g <$> (f <$> l) = g <$> l.
Proof. intros Hg. rewrite <- list_fmap_compose. apply list_fmap_ext. intros; apply Hg. Qed.

Lemma update_constraints run f t : keeps_identity f -> constraints t -> constraints (update_attempt run f t).
Proof.
  intros Hf%(at_run_only_identity run) [Hr Hn Hp Hu Hfo H1 H2 H3].
  constructor; rewrite ?update_attempt_eq; cbn; auto.
  - rewrite fmap_identity; [done|]. intros a. apply Hf.
  - rewrite fmap_identity; [done|]. intros a. destruct (Hf a) as (_ & -> & -> & _). done.
  - intros c Hc. rewrite fmap_identity; [by apply Hfo|]. intros a. apply Hf.
Qed.

Lemma logical_attempts_update run f t l :
  keeps_identity f -> logical_attempts (update_attempt run f t) l = at_run_only run f <$> logical_attempts t l.
Proof.
  intros Hf%(at_run_only_identity run). unfold logical_attempts. rewrite update_attempt_eq, filter_update, sorted_by_update; [done| |].
  - intros a. apply Hf.
  - intros a. by destruct (Hf a) as (_ & -> & _).
Qed.

Lemma find_attempt_update run f run' t :
  keeps_identity f -> find_attempt run' (update_attempt run f t) = at_run_only run f <$> find_attempt run' t.
Proof.
  intros Hf%(at_run_only_identity run). unfold find_attempt. rewrite update_attempt_eq. apply find_update.
  intros a. by destruct (Hf a) as (-> & _).
Qed.

Lemma find_attempt_elem t run a : constraints t -> a ∈ t_attempts t -> at_run a = run -> find_attempt run t = Some a.
Proof. intros Hc Ha <-. by apply find_key; [apply attempts_primary|]. Qed.

Lemma find_attempt_some t run a : find_attempt run t = Some a -> a ∈ t_attempts t /\ at_run a = run.
Proof. intros [Ha E%String.eqb_eq]%List.find_some. split; [by apply list_elem_of_In|done]. Qed.

Lemma elem_of_logical t l a : a ∈ logical_attempts t l <-> a ∈ t_attempts t /\ at_logical a = l.
Proof. unfold logical_attempts. rewrite elem_of_sorted_by, elem_of_lfilter, String.eqb_eq. done. Qed.

Lemma elem_of_run_checkpoints t run c : c ∈ run_checkpoints t run <-> c ∈ t_checkpoints t /\ cp_run c = run.
Proof. unfold run_checkpoints. rewrite elem_of_sorted_by, elem_of_lfilter, String.eqb_eq. done. Qed.

(** ** Adding a checkpoint or an attempt *)

Lemma run_checkpoints_add t c run :
  Forall (fun d => cp_ordinal d < cp_ordinal c) (run_checkpoints t (cp_run c)) ->
  run_checkpoints (add_checkpoint c t) run =
  if String.eqb (cp_run c) run then run_checkpoints t run ++ [c] else run_checkpoints t run.
Proof.
  intros Hc. unfold run_checkpoints. cbn [add_checkpoint t_checkpoints]. rewrite filter_app. cbn [List.filter].
  destruct (String.eqb_spec (cp_run c) run) as [<-|]; [|by rewrite app_nil_r].
  apply sorted_by_last. rewrite Forall_forall in *. intros d Hd. apply Hc. unfold run_checkpoints. by rewrite elem_of_sorted_by.
Qed.

Lemma logical_attempts_add t a l :
  Forall (fun b => at_number b < at_number a) (logical_attempts t (at_logical a)) ->
  logical_attempts (add_attempt a t) l =
  if String.eqb (at_logical a) l then logical_attempts t l ++ [a] else logical_attempts t l.
Proof.
  intros Hc. unfold logical_attempts. cbn [add_attempt t_attempts]. rewrite filter_app. cbn [List.filter].
  destruct (String.eqb_spec (at_logical a) l) as [<-|]; [|by rewrite app_nil_r].
  apply sorted_by_last. rewrite Forall_forall in *. intros d Hd. apply Hc. unfold logical_attempts. by rewrite elem_of_sorted_by.
Qed.

Lemma run_checkpoints_unknown t run : constraints t -> run ∉ (at_run <$> t_attempts t) -> run_checkpoints t run = [].
Proof.
  intros Hc Hr. destruct (run_checkpoints t run) as [|c l] eqn:E; [done|].
  assert (c ∈ run_checkpoints t run) as [Hin Hrun]%elem_of_run_checkpoints by (rewrite E; left).
  destruct Hr. rewrite <- Hrun. by apply checkpoints_foreign.
Qed.

(** * The invariant of the recovery journal

    [recovery_ok] says what the tables of a campaign look like: every attempt has a
    hash-chained prefix of the checkpoint states that fits its disposition, the
    attempts of an execution are numbered from one and only the last of them is not
    interrupted, and the commits are exactly those of the committed attempts.  With
    it the audit of every session depends on one thing only, that the payload texts
    read back ([audit_verdict]). *)


Section Plan.
Context `{JCSLaws} `{PyTables}.
Context (campaign : string) (plan : list string).

(** The sessions of one campaign differ in their identifier only. *)
Definition sess (session : string) : RecoveryJournal :=
  {| campaign_manifest_id := campaign; logical_execution_ids := plan; controller_session_id := session |}.
Let base : RecoveryJournal := sess "".

(** ** What holds of the rows *)

(** The text of the payload decodes to an object with that canonical text. *)
Definition payload_reads (c : checkpoint_row) : bool :=
  match @json_loads _ audit_hooks (cp_payload_json c) with
  | Ok (JObj fields) => bool_decide (jcs_dumps (JObj fields) = Some (cp_payload_json c))
  | _ => false
  end.
Definition readable (t : tables) : bool := forallb payload_reads (t_checkpoints t).

(** The hash chain of the rows after the digest [previous]. *)
Fixpoint hash_linked (a : attempt_row) (previous : option string) (rows : list checkpoint_row) : Prop :=
  match rows with
  | [] => True
  | c :: rest =>
      cp_payload_sha256 c = sha256 (cp_payload_json c) /\ cp_previous c = previous /\
      _sha256 (checkpoint_body base a (cp_ordinal c) (cp_receipt c) (cp_session c) (cp_manifest c)
                 (cp_payload_sha256 c) previous (cp_state c) (cp_recorded c)) = Ok (cp_sha256 c) /\
      hash_linked a (Some (cp_sha256 c)) rest
  end.

Record rows_ok (a : attempt_row) (rows : list checkpoint_row) : Prop := {
  rows_ordinals : cp_ordinal <$> rows = seqZ 1 (Z.of_nat (length rows));
  rows_states : cp_state <$> rows = take (length rows) CHECKPOINT_STATES;
  rows_chain : hash_linked a None rows
}.

Record attempt_ok (t : tables) (a : attempt_row) : Prop := {
  attempt_planned : at_logical a ∈ plan;
  attempt_rows : rows_ok a (run_checkpoints t (at_run a));
  attempt_latest : exists latest, latest_checkpoint t (at_run a) = Some latest /\
    audit_disposition (at_disposition a) (cp_state latest) = Ok tt
}.

Definition purposes (n : nat) : list string :=
  match n with O => [] | S m => "initial" :: replicate m "retry" end.

(** The attempts of an execution with nothing in progress. *)
Record settled_group (l : list attempt_row) : Prop := {
  group_numbers : at_number <$> l = seqZ 1 (Z.of_nat (length l));
  group_purposes : at_purpose <$> l = purposes (length l);
  group_interrupted : Forall (fun a => at_disposition a = "interrupted") l
}.

(** The attempts of an execution: all but the last are interrupted. *)
Definition group_ok (l : list attempt_row) : Prop :=
  at_number <$> l = seqZ 1 (Z.of_nat (length l)) /\ at_purpose <$> l = purposes (length l) /\
  exists init a, l = init ++ [a] /\ Forall (fun b => at_disposition b = "interrupted") init /\
    (at_disposition a = "active" \/ at_disposition a = "committed").

Definition manifest_row (run : string) (c : checkpoint_row) : bool :=
  String.eqb (cp_run c) run && String.eqb (cp_state c) "manifest-committed".

Record commit_ok (t : tables) (k : commit_row) : Prop := {
  commit_attempt : exists a, find_attempt (cm_run k) t = Some a /\ at_logical a = cm_logical k /\ at_disposition a = "committed";
  commit_checkpoint : exists c, List.find (manifest_row (cm_run k)) (t_checkpoints t) = Some c /\
    cp_manifest c = Some (cm_manifest k) /\ cp_receipt c = Some (cm_receipt k);
  commit_digest : _sha256 (commit_receipt base (cm_logical k) (Some (cm_manifest k)) (cm_run k)) = Ok (cm_receipt k)
}.

(** The invariant, but for the group of one execution, which has nothing in progress. *)
Record tables_ok (settled : option string) (t : tables) : Prop := {
  ok_metadata : expected_metadata base = Ok (t_metadata t);
  ok_constraints : constraints t;
  ok_attempts a : a ∈ t_attempts t -> attempt_ok t a;
  ok_groups l : l ∈ (at_logical <$> t_attempts t) -> settled <> Some l -> group_ok (logical_attempts t l);
  ok_settled l : settled = Some l -> settled_group (logical_attempts t l);
  ok_commits k : k ∈ t_commits t -> commit_ok t k;
  ok_committed run : run ∈ committed_runs t -> run ∈ (cm_run <$> t_commits t)
}.
Definition recovery_ok : tables -> Prop := tables_ok None.

(** ** The audit of tables that satisfy the invariant *)

(** What a check answers: [x] if [b], else an integrity error. *)
Definition verdict {A} (b : bool) (x : A) (r : result A) : Prop :=
  if b then r = Ok x else exists msg, r = Raise (RecoveryIntegrityError msg).

Lemma verdict_bind {A B} b x (y : B) (m : result A) (f : A -> result B) :
  verdict b x m -> f x = Ok y -> verdict b y (mbind f m).
Proof. destruct b; cbn; [by intros ->|]. intros (msg & ->) _. by exists msg. Qed.

Lemma verdict_each {A} (g : A -> bool) (f : A -> result unit) l :
  (forall x, x ∈ l -> verdict (g x) tt (f x)) -> verdict (forallb g l) tt (for_each l f).
Proof.
  induction l as [|x l IH]; intros Hf; [done|]. pose proof (Hf x ltac:(left)) as Hx. cbn [forallb for_each].
  destruct (g x); cbn [andb] in *.
  - rewrite Hx. apply IH. intros y Hy. apply Hf. by right.
  - destruct Hx as (msg & ->). by exists msg.
Qed.

Lemma audit_payload_verdict c :
  cp_payload_sha256 c = sha256 (cp_payload_json c) -> verdict (payload_reads c) tt (audit_payload c).
Proof.
  intros Hs. unfold payload_reads, audit_payload, _canonical_bytes.
  destruct (@json_loads _ audit_hooks (cp_payload_json c)) as [v|]; [|by eexists]. cbn [mbind result_bind].
  destruct v as [| | | | | |fields]; try (destruct (jcs_dumps _); by eexists).
  destruct (jcs_dumps (JObj fields)) as [text|]; [|by eexists]. cbn [mbind result_bind orb].
  destruct (bool_decide_reflect (Some text = Some (cp_payload_json c))) as [[= ->]|Hne].
  - cbn. by rewrite Hs, !String.eqb_refl.
  - assert (String.eqb text (cp_payload_json c) = false) as -> by (apply String.eqb_neq; congruence). by eexists.
Qed.

Lemma audit_chain_verdict s a previous rows :
  hash_linked a previous rows -> verdict (forallb payload_reads rows) tt (audit_chain (sess s) a previous rows).
Proof.
  revert previous. induction rows as [|c rows IH]; intros previous; [done|]. cbn [hash_linked audit_chain forallb].
  intros (Hp & Hpr & Hd & Hl). pose proof (audit_payload_verdict c Hp) as Hv. destruct (payload_reads c); cbn [andb] in *.
  - rewrite Hv. change (checkpoint_body (sess s)) with (checkpoint_body base). cbn [mbind result_bind]. rewrite Hd. cbn [mbind result_bind].
    rewrite bool_decide_eq_true_2, String.eqb_refl by done. by apply IH.
  - destruct Hv as (msg & ->). by exists msg.
Qed.

Definition attempt_reads (t : tables) (a : attempt_row) : bool := forallb payload_reads (run_checkpoints t (at_run a)).

Lemma audit_attempt_verdict s t a : attempt_ok t a -> verdict (attempt_reads t a) tt (audit_attempt (sess s) t a).
Proof.
  intros [Hp [Ho Hs Hc] (latest & Hl & Hd)]. unfold audit_attempt, latest_checkpoint in *. apply mem_spec in Hp.
  cbn [sess logical_execution_ids]. rewrite Hp, Hl, !bool_decide_eq_true_2 by done. cbn [negb raise_if mbind result_bind].
  apply (verdict_bind _ tt tt _ (fun _ => audit_disposition (at_disposition a) (cp_state latest)));
    [by apply (audit_chain_verdict s a None)|exact Hd].
Qed.

Lemma interrupted_closed a : at_disposition a = "interrupted" -> open_or_committed a = false.
Proof. unfold open_or_committed. by intros ->. Qed.

Lemma purposes_retry n : Forall (fun p => p = "retry") (tail (purposes n)).
Proof. destruct n; cbn; [constructor|]. apply Forall_replicate. done. Qed.

Lemma audit_logical_passes l : group_ok l -> audit_logical l = Ok tt.
Proof.
  intros (Hn & Hp & init & a & -> & Hi & Ha). unfold audit_logical. rewrite bool_decide_eq_true_2 by done. cbn [negb raise_if mbind result_bind].
  assert (match init ++ [a] with a :: _ => String.eqb (at_purpose a) "initial" | [] => true end = true) as ->.
  { rewrite length_app, Nat.add_comm in Hp. destruct init as [|b init]; cbn in *; injection Hp as ->; done. }
  assert (existsb (fun a => negb (String.eqb (at_purpose a) "retry")) (tail (init ++ [a])) = false) as ->.
  { pose proof (purposes_retry (length (init ++ [a]))) as Hr. rewrite <- Hp in Hr.
    apply existsb_false. revert Hr. destruct (init ++ [a]) as [|b l]; cbn; [done|]. rewrite Forall_fmap. intros Hr.
    eapply Forall_impl; [done|]. intros b' Hb. cbn in Hb. by rewrite Hb. }
  cbn [negb orb raise_if mbind result_bind].
  assert (List.filter open_or_committed (init ++ [a]) = [a]) as ->; [|done].
  rewrite filter_app. cbn [List.filter]. assert (open_or_committed a = true) as ->.
  { unfold open_or_committed. by destruct Ha as [-> | ->]. }
  rewrite <- (app_nil_l [a]) at 2. f_equal. clear Hn Hp. induction Hi as [|b l Hb _ IH]; [done|]. cbn [List.filter]. by rewrite interrupted_closed.
Qed.

Lemma audit_commit_passes s t k : commit_ok t k -> audit_commit (sess s) t k = Ok tt.
Proof.
  intros [(a & Ha & El & Ed) (c & Hc & Em & Er) Hd]. unfold audit_commit. fold (manifest_row (cm_run k)).
  rewrite Ha, Hc, El, Ed, !String.eqb_refl, !bool_decide_eq_true_2 by done. cbn.
  change (commit_receipt (sess s)) with (commit_receipt base). rewrite Hd. cbn. by rewrite String.eqb_refl.
Qed.

Lemma elem_of_committed_runs t run :
  run ∈ committed_runs t <-> exists a, a ∈ t_attempts t /\ at_run a = run /\ at_disposition a = "committed".
Proof.
  unfold committed_runs. rewrite list_elem_of_fmap. split.
  - intros (a & -> & [Ha Hd%String.eqb_eq]%elem_of_lfilter). eauto.
  - intros (a & Ha & <- & Hd). exists a. split; [done|]. apply elem_of_lfilter. by rewrite Hd.
Qed.

Lemma commit_is_committed t k : commit_ok t k -> cm_run k ∈ committed_runs t.
Proof.
  intros [(a & [Ha Er]%find_attempt_some & _ & Ed) _ _]. apply elem_of_committed_runs. eauto.
Qed.

Lemma same_set_intro k l : (forall x, x ∈ k <-> x ∈ l) -> same_set k l = true.
Proof.
  intros Hkl. unfold same_set. apply andb_true_iff. split; apply List.forallb_forall; intros x Hx%list_elem_of_In; apply mem_spec; by apply Hkl.
Qed.

(** Every checkpoint is one of an attempt. *)
Lemma readable_attempts t : constraints t ->
  readable t = forallb (attempt_reads t) (sorted_by (fun a => (at_logical a, at_number a)) (t_attempts t)).
Proof.
  intros Hc. apply Bool.eq_true_iff_eq. unfold readable. rewrite !forallb_forall. split.
  - intros Hr a _. unfold attempt_reads. apply forallb_forall. intros c Hin%list_elem_of_In.
    apply elem_of_run_checkpoints in Hin as [Hin _]. by apply Hr, list_elem_of_In.
  - intros Hr c Hin%list_elem_of_In. pose proof (checkpoints_foreign t Hc c Hin) as (a & Er & Ha)%list_elem_of_fmap.
    assert (attempt_reads t a = true) as Hat by (apply Hr, list_elem_of_In; by rewrite elem_of_sorted_by).
    unfold attempt_reads in Hat. rewrite forallb_forall in Hat. by apply Hat, list_elem_of_In, elem_of_run_checkpoints.
Qed.

(** The audit of a session passes exactly when every payload reads back. *)
Theorem audit_verdict s t : recovery_ok t -> verdict (readable t) tt (_audit_in_transaction (sess s) t).
Proof.
  intros [Hm Hc Ha Hg _ Hk Hr]. unfold _audit_in_transaction.
  change (expected_metadata (sess s)) with (expected_metadata base). rewrite Hm. cbn [mbind result_bind].
  rewrite bool_decide_eq_true_2 by done. cbn [negb raise_if mbind result_bind]. rewrite (readable_attempts t Hc).
  apply (verdict_bind _ tt tt _ (fun _ => for_each (by_logical t) (fun p => audit_logical p.2);; _)).
  { apply verdict_each. intros a. rewrite elem_of_sorted_by. intros Hin. by apply audit_attempt_verdict, Ha. }
  assert (for_each (by_logical t) (fun p => audit_logical p.2) = Ok tt) as ->.
  { apply for_each_ok, Forall_fmap, Forall_forall. intros l. rewrite elem_of_sorted_set. intros Hl. by apply audit_logical_passes, Hg. }
  cbn [mbind result_bind]. rewrite same_set_intro.
  - apply for_each_ok, Forall_forall. intros k Hin. by apply audit_commit_passes, Hk.
  - intros run. split; [apply Hr|]. intros (k & -> & Hin)%list_elem_of_fmap. by apply commit_is_committed, Hk.
Qed.

Lemma audit_passes s t : recovery_ok t -> readable t = true -> _audit_in_transaction (sess s) t = Ok tt.
Proof. intros Hok Hr. pose proof (audit_verdict s t Hok) as Hv. by rewrite Hr in Hv. Qed.

(** ** The next checkpoint of a run *)

Definition same_identity (a b : attempt_row) : Prop :=
  at_run a = at_run b /\ at_logical a = at_logical b /\ at_number a = at_number b.

Lemma hash_linked_identity a b previous rows :
  same_identity a b -> hash_linked a previous rows -> hash_linked b previous rows.
Proof.
  intros Hab. revert previous. induction rows as [|c rows IH]; intros previous; [done|]. cbn [hash_linked].
  destruct Hab as (Er & El & En). unfold checkpoint_body. rewrite Er, El, En. intros (? & ? & ? & ?). split_and!; auto.
Qed.

Lemma rows_ok_identity a b rows : same_identity a b -> rows_ok a rows -> rows_ok b rows.
Proof. intros Hab [Ho Hs Hc]. split; [done|done|]. by apply (hash_linked_identity a b). Qed.

Lemma hash_linked_snoc a previous rows c :
  hash_linked a previous rows -> hash_linked a (coalesce (cp_sha256 <$> last rows) previous) [c] ->
  hash_linked a previous (rows ++ [c]).
Proof.
  revert previous. induction rows as [|d rows IH]; intros previous; [done|].
  cbn [app hash_linked]. intros (? & ? & ? & Hc) Hl. split_and!; [done..|]. apply IH; [done|].
  rewrite last_cons in Hl. by destruct (last rows).
Qed.

(** The row that continues the rows of a run. *)
Record next_row (a : attempt_row) (rows : list checkpoint_row) (c : checkpoint_row) : Prop := {
  next_run : cp_run c = at_run a;
  next_ordinal : cp_ordinal c = Z.of_nat (length rows) + 1;
  next_state : CHECKPOINT_STATES !! length rows = Some (cp_state c);
  next_link : hash_linked a (cp_sha256 <$> last rows) [c]
}.

Lemma rows_ok_snoc a rows c : rows_ok a rows -> next_row a rows c -> rows_ok a (rows ++ [c]).
Proof.
  intros [Ho Hs Hc] [_ En Es Hl]. split.
  - rewrite fmap_app, Ho, length_app, Nat.add_1_r, seqZ_S. cbn [fmap list_fmap]. by rewrite En, Z.add_comm.
  - rewrite fmap_app, Hs, length_app, Nat.add_1_r. cbn [fmap list_fmap]. by rewrite (take_S_r _ _ _ Es).
  - apply hash_linked_snoc; [done|]. by destruct (last rows).
Qed.

Lemma rows_ordinals_below a rows c : rows_ok a rows -> next_row a rows c -> Forall (fun d => cp_ordinal d < cp_ordinal c) rows.
Proof.
  intros [Ho _ _] [_ En _ _]. rewrite Forall_forall. intros d Hd. apply (list_elem_of_fmap_2 cp_ordinal) in Hd.
  rewrite Ho, elem_of_seqZ in Hd. lia.
Qed.

Lemma run_checkpoints_next t a c run :
  rows_ok a (run_checkpoints t (at_run a)) -> next_row a (run_checkpoints t (at_run a)) c ->
  run_checkpoints (add_checkpoint c t) run =
  if String.eqb (at_run a) run then run_checkpoints t run ++ [c] else run_checkpoints t run.
Proof.
  intros Hr Hn. rewrite run_checkpoints_add; rewrite (next_run _ _ _ Hn); [done|]. by eapply rows_ordinals_below.
Qed.

Lemma attempt_ok_next t a c :
  attempt_ok t a -> next_row a (run_checkpoints t (at_run a)) c ->
  audit_disposition (at_disposition a) (cp_state c) = Ok tt -> attempt_ok (add_checkpoint c t) a.
Proof.
  intros [Hp Hr _] Hn Hd. pose proof (run_checkpoints_next t a c (at_run a) Hr Hn) as E. rewrite String.eqb_refl in E. split; [done| |].
  - rewrite E. by apply rows_ok_snoc.
  - exists c. unfold latest_checkpoint. by rewrite E, last_snoc.
Qed.

Lemma attempt_ok_rows t t' a : run_checkpoints t' (at_run a) = run_checkpoints t (at_run a) -> attempt_ok t a -> attempt_ok t' a.
Proof. intros E [Hp Hr Hl]. unfold latest_checkpoint in *. split; unfold latest_checkpoint; by rewrite ?E. Qed.

Lemma run_unique t a b : constraints t -> a ∈ t_attempts t -> b ∈ t_attempts t -> at_run a = at_run b -> a = b.
Proof. intros Hc. apply NoDup_fmap_elem_inj, attempts_primary, Hc. Qed.

Lemma find_manifest_add t c run d :
  List.find (manifest_row run) (t_checkpoints t) = Some d -> List.find (manifest_row run) (t_checkpoints (add_checkpoint c t)) = Some d.
Proof. intros E. cbn. by rewrite find_app, E. Qed.

(** A checkpoint that is not a commit. *)
Lemma add_checkpoint_ok t a c :
  recovery_ok t -> constraints (add_checkpoint c t) -> a ∈ t_attempts t ->
  next_row a (run_checkpoints t (at_run a)) c -> audit_disposition (at_disposition a) (cp_state c) = Ok tt ->
  recovery_ok (add_checkpoint c t).
Proof.
  intros [Hm Hc Ha Hg _ Hk Hr] Hc' Hin Hn Hd. split; [done|done| |done|done| |done].
  - intros b Hb. destruct (decide (at_run a = at_run b)) as [E|E].
    + apply (run_unique t a b Hc Hin Hb) in E as <-. by apply attempt_ok_next; [apply Ha|..].
    + eapply attempt_ok_rows; [|by apply Ha]. rewrite (run_checkpoints_next t a) by (done || by apply Ha).
      by apply String.eqb_neq in E as ->.
  - intros k Hin'. destruct (Hk k Hin') as [Hka (d & Hf & Hd') Hkd]. split; [done| |done].
    exists d. split; [by apply find_manifest_add|done].
Qed.

(** ** Updating the latest attempt of an execution *)

Lemma at_run_only_hit run f a : at_run a = run -> at_run_only run f a = f a.
Proof. intros <-. unfold at_run_only. by rewrite String.eqb_refl. Qed.
Lemma at_run_only_miss run f a : at_run a <> run -> at_run_only run f a = a.
Proof. unfold at_run_only. by intros ->%String.eqb_neq. Qed.

Lemma elem_of_update t run f a :
  a ∈ t_attempts (update_attempt run f t) <-> exists b, b ∈ t_attempts t /\ a = at_run_only run f b.
Proof. rewrite update_attempt_eq, list_elem_of_fmap. naive_solver. Qed.

Lemma attempts_update t run f :
  keeps_identity f -> (forall a, a ∈ t_attempts t -> attempt_ok t a) ->
  (forall a latest, a ∈ t_attempts t -> at_run a = run -> latest_checkpoint t run = Some latest ->
    audit_disposition (at_disposition (f a)) (cp_state latest) = Ok tt) ->
  forall a, a ∈ t_attempts (update_attempt run f t) -> attempt_ok (update_attempt run f t) a.
Proof.
  intros Hf Ha Hd a (b & Hb & ->)%elem_of_update. pose proof (Ha b Hb) as [Hp Hr (latest & Hl & Hdb)].
  destruct (at_run_only_identity run f Hf b) as (Er & El & En & _). split.
  - by rewrite El.
  - rewrite Er. by apply (rows_ok_identity b).
  - rewrite Er. exists latest. split; [done|]. destruct (decide (at_run b = run)) as [E|E].
    + rewrite at_run_only_hit by done. apply Hd; [done|done|]. by rewrite <- E.
    + by rewrite at_run_only_miss.
Qed.

(** The members of another execution are left alone. *)
Lemma logical_attempts_other t a f l :
  constraints t -> a ∈ t_attempts t -> keeps_identity f -> at_logical a <> l ->
  logical_attempts (update_attempt (at_run a) f t) l = logical_attempts t l.
Proof.
  intros Hc Ha Hf Hl. rewrite logical_attempts_update by done. rewrite <- (list_fmap_id (logical_attempts t l)) at 2.
  apply list_fmap_ext. intros i b [Hb Eb]%list_elem_of_lookup_2%elem_of_logical. unfold at_run_only.
  destruct (String.eqb_spec (at_run b) (at_run a)) as [E|]; [|done].
  apply (run_unique t b a Hc Hb Ha) in E as ->. done.
Qed.

Lemma logicals_update t run f : keeps_identity f ->
  at_logical <$> t_attempts (update_attempt run f t) = at_logical <$> t_attempts t.
Proof. intros Hf%(at_run_only_identity run). rewrite update_attempt_eq. apply fmap_identity. intros a. apply Hf. Qed.

(** The last attempt of a group is updated, the interrupted ones before it are not. *)
Lemma update_last t run f l init a :
  constraints t -> keeps_identity f -> logical_attempts t l = init ++ [a] -> at_run a = run ->
  logical_attempts (update_attempt run f t) l = init ++ [f a].
Proof.
  intros Hc Hf El <-. rewrite logical_attempts_update, El, fmap_app by done. cbn [fmap list_fmap].
  rewrite at_run_only_hit by done. f_equal. rewrite <- (list_fmap_id init) at 2. apply list_fmap_ext.
  intros i b Hb. unfold at_run_only. destruct (String.eqb_spec (at_run b) (at_run a)) as [E|]; [|done]. exfalso.
  assert (b ∈ logical_attempts t l) as [Hbin _]%elem_of_logical by (rewrite El; apply elem_of_app; left; by eapply list_elem_of_lookup_2).
  assert (a ∈ logical_attempts t l) as [Hain _]%elem_of_logical by (rewrite El; apply elem_of_app; right; left).
  apply (run_unique t b a Hc Hbin Hain) in E as ->.
  assert (NoDup (init ++ [a])) as (_ & Hd & _)%NoDup_app.
  { rewrite <- El. unfold logical_attempts. rewrite sorted_by_perm. apply NoDup_ListNoDup, List.NoDup_filter, NoDup_ListNoDup.
    apply (NoDup_fmap_1 at_run), attempts_primary, Hc. }
  apply (Hd a); [by eapply list_elem_of_lookup_2|left].
Qed.

Lemma group_ok_update init a b :
  group_ok (init ++ [a]) -> Forall (fun c => at_disposition c = "interrupted") init ->
  at_number b = at_number a -> at_purpose b = at_purpose a -> (at_disposition b = "active" \/ at_disposition b = "committed") ->
  group_ok (init ++ [b]).
Proof.
  intros (Hn & Hp & _) Hi En Ep Hd. unfold group_ok. rewrite !fmap_app, !length_app in *. cbn [fmap list_fmap length] in *.
  rewrite En, Ep. split_and!; [done|done|]. by exists init, b.
Qed.

(** The latest attempt is the last of its group. *)
Definition is_last (t : tables) (a : attempt_row) : Prop :=
  exists init, logical_attempts t (at_logical a) = init ++ [a] /\ Forall (fun b => at_disposition b = "interrupted") init.

Lemma is_last_elem t a : is_last t a -> a ∈ t_attempts t.
Proof. intros (init & E & _). apply (elem_of_logical t (at_logical a)). rewrite E. apply elem_of_app. right. left. Qed.

Lemma open_is_last t a :
  recovery_ok t -> a ∈ t_attempts t -> (at_disposition a = "active" \/ at_disposition a = "committed") -> is_last t a.
Proof.
  intros Hok Ha Hd. assert (a ∈ logical_attempts t (at_logical a)) as Hin by by apply elem_of_logical.
  destruct (ok_groups _ _ Hok (at_logical a)) as (_ & _ & init & b & E & Hi & Hb); [by apply list_elem_of_fmap_2|done|].
  exists init. rewrite E in *. apply elem_of_app in Hin as [Hin|Hin].
  - rewrite Forall_forall in Hi. apply Hi in Hin. rewrite Hin in Hd. by destruct Hd.
  - apply list_elem_of_singleton in Hin as ->. done.
Qed.

Lemma latest_is_last t l a init : logical_attempts t l = init ++ [a] -> at_logical a = l.
Proof. intros E. apply (elem_of_logical t). rewrite E. apply elem_of_app. right. left. Qed.

Lemma groups_update_last t a f l :
  recovery_ok t -> is_last t a -> keeps_identity f -> (at_disposition (f a) = "active" \/ at_disposition (f a) = "committed") ->
  l ∈ (at_logical <$> t_attempts t) -> group_ok (logical_attempts (update_attempt (at_run a) f t) l).
Proof.
  intros Hok Hl Hf Hd Hin. pose proof (is_last_elem _ _ Hl) as Ha. destruct (decide (at_logical a = l)) as [<-|Hne].
  - destruct Hl as (init & E & Hi). rewrite (update_last t _ f _ init a) by (done || apply Hok).
    apply (group_ok_update init a); [|done|apply Hf|apply Hf|done]. rewrite <- E. by apply Hok.
  - rewrite logical_attempts_other by (done || apply Hok). by apply Hok.
Qed.

Lemma commit_ok_update t k a f :
  constraints t -> a ∈ t_attempts t -> keeps_identity f ->
  (at_disposition a = "committed" -> at_disposition (f a) = "committed") ->
  commit_ok t k -> commit_ok (update_attempt (at_run a) f t) k.
Proof.
  intros Hc Ha Hf Hd [(b & Hb & El & Ed) Hcp Hdg]. split; [|done|done].
  destruct (at_run_only_identity (at_run a) f Hf b) as (Er & El' & _).
  exists (at_run_only (at_run a) f b). rewrite find_attempt_update, Hb, El' by done. split_and!; [done|done|].
  unfold at_run_only. destruct (String.eqb_spec (at_run b) (at_run a)) as [E|]; [|done].
  apply find_attempt_some in Hb as [Hb _]. apply (run_unique t b a Hc Hb Ha) in E as ->. by apply Hd.
Qed.

Lemma committed_runs_update t a f run :
  constraints t -> a ∈ t_attempts t -> keeps_identity f ->
  (at_disposition (f a) = "committed" -> at_disposition a = "committed") ->
  run ∈ committed_runs (update_attempt (at_run a) f t) -> run ∈ committed_runs t.
Proof.
  intros Hc Ha Hf Hd. rewrite !elem_of_committed_runs. intros (b & (b' & Hb & ->)%elem_of_update & <- & Ed).
  destruct (at_run_only_identity (at_run a) f Hf b') as (-> & _). exists b'. split_and!; [done|done|].
  unfold at_run_only in Ed. destruct (String.eqb_spec (at_run b') (at_run a)) as [E|]; [|done].
  apply (run_unique t b' a Hc Hb Ha) in E as ->. by apply Hd.
Qed.

(** Another session claims the latest attempt. *)
Lemma claim_ok t a s : recovery_ok t -> is_last t a -> recovery_ok (update_attempt (at_run a) (with_owner s) t).
Proof.
  intros Hok Hl. pose proof (is_last_elem _ _ Hl) as Ha. pose proof Hok as [Hm Hc Hat Hg _ Hk Hr].
  assert (at_disposition a = "active" \/ at_disposition a = "committed") as Hd.
  { destruct Hl as (init & E & _). destruct (Hg (at_logical a)) as (_ & _ & init' & a' & E' & _ & Hd); [by apply list_elem_of_fmap_2|done|].
    rewrite E in E'. apply app_inj_tail in E' as [_ [= <-]]. done. }
  split; [done|by apply update_constraints| | |done| |].
  - apply attempts_update; [done|done|]. intros b latest Hb Er Hlat. cbn [with_owner at_disposition].
    destruct (Hat b Hb) as [_ _ (latest' & Hl' & Hdis)]. rewrite Er, Hlat in Hl'. by injection Hl' as <-.
  - intros l. rewrite logicals_update by done. intros Hin _. by apply groups_update_last.
  - intros k Hin. apply commit_ok_update; auto.
  - intros run Hrun. apply Hr. by apply (committed_runs_update t a (with_owner s)).
Qed.

(** ** Committing, interrupting, attempting *)

Lemma manifest_next_none t a c run :
  rows_ok a (run_checkpoints t (at_run a)) -> next_row a (run_checkpoints t (at_run a)) c ->
  cp_state c = "manifest-committed" -> run = at_run a -> List.find (manifest_row run) (t_checkpoints t) = None.
Proof.
  intros [_ Hs _] [_ _ Hst _] Es ->. destruct (List.find _ _) as [d|] eqn:E; [|done]. exfalso.
  apply List.find_some in E as [Hd Hm%andb_true_iff]. destruct Hm as [Er%String.eqb_eq Ed%String.eqb_eq].
  assert (d ∈ run_checkpoints t (at_run a)) as Hin by (apply elem_of_run_checkpoints; split; [by apply list_elem_of_In|done]).
  apply (list_elem_of_fmap_2 cp_state) in Hin. rewrite Hs, Ed in Hin. apply elem_of_take in Hin as (i & Hi & Hlt).
  rewrite Es in Hst. assert (NoDup CHECKPOINT_STATES) as Hnd by (apply (bool_decide_unpack _); by vm_compute).
  rewrite (NoDup_lookup _ _ _ _ Hnd Hi Hst) in Hlt. lia.
Qed.

(** The manifest checkpoint of an active attempt, with its commit. *)
Lemma add_commit_ok t a c k :
  recovery_ok t -> is_last t a -> at_disposition a = "active" ->
  constraints (add_commit k (add_checkpoint c t)) ->
  next_row a (run_checkpoints t (at_run a)) c -> cp_state c = "manifest-committed" ->
  cm_run k = at_run a -> cm_logical k = at_logical a ->
  cp_manifest c = Some (cm_manifest k) -> cp_receipt c = Some (cm_receipt k) ->
  _sha256 (commit_receipt base (cm_logical k) (Some (cm_manifest k)) (cm_run k)) = Ok (cm_receipt k) ->
  recovery_ok (update_attempt (at_run a) (with_disposition "committed") (add_commit k (add_checkpoint c t))).
Proof.
  intros Hok Hl Hact Hc' Hn Es Er El Em Erc Hdg. pose proof (is_last_elem _ _ Hl) as Ha.
  pose proof Hok as [Hm Hc Hat Hg _ Hk Hr]. pose proof (Hat a Ha) as [_ Hrows _].
  assert (forall run, run_checkpoints (add_commit k (add_checkpoint c t)) run =
    if String.eqb (at_run a) run then run_checkpoints t run ++ [c] else run_checkpoints t run) as Hrc
    by (intros run; by apply run_checkpoints_next).
  split; [done|by apply update_constraints| | |done| |].
  - intros b (b0 & Hb & ->)%elem_of_update. cbn in Hb. destruct (Hat b0 Hb) as [Hp Hrb Hlb].
    destruct (at_run_only_identity (at_run a) (with_disposition "committed") (with_disposition_identity _) b0) as (Erb & Elb & Enb & _).
    destruct (String.eqb_spec (at_run b0) (at_run a)) as [E|E].
    + apply (run_unique t b0 a Hc Hb Ha) in E as ->. split; [by rewrite Elb| |]; unfold latest_checkpoint; rewrite ?Erb.
      * change (rows_ok (at_run_only (at_run a) (with_disposition "committed") a) (run_checkpoints (add_commit k (add_checkpoint c t)) (at_run a))).
        rewrite Hrc, String.eqb_refl. apply (rows_ok_identity a); [done|]. by apply rows_ok_snoc.
      * exists c. change (last (run_checkpoints (add_commit k (add_checkpoint c t)) (at_run a)) = Some c /\
          audit_disposition (at_disposition (at_run_only (at_run a) (with_disposition "committed") a)) (cp_state c) = Ok tt).
        rewrite Hrc, String.eqb_refl, last_snoc, at_run_only_hit, Es by done. done.
    + rewrite at_run_only_miss by done. eapply (attempt_ok_rows t); [|by apply Hat].
      change (run_checkpoints (add_commit k (add_checkpoint c t)) (at_run b0) = run_checkpoints t (at_run b0)).
      rewrite Hrc. apply not_eq_sym, String.eqb_neq in E as ->. done.
  - intros l. rewrite logicals_update by done. intros Hin _. exact (groups_update_last t a _ l Hok Hl (with_disposition_identity _) (or_intror eq_refl) Hin).
  - intros k' Hin. cbn in Hin. apply elem_of_app in Hin as [Hin | ->%list_elem_of_singleton].
    + destruct (commit_ok_update t k' a (with_disposition "committed")) as [Hca (d & Hf & Hd) Hdg']; auto.
      split; [exact Hca| |done]. exists d. split; [by apply (find_manifest_add t c)|done].
    + split; [| |done].
      * exists (with_disposition "committed" a). split_and!; [|done|done]. rewrite find_attempt_update by done.
        change (at_run_only (at_run a) (with_disposition "committed") <$> find_attempt (cm_run k) t = Some (with_disposition "committed" a)).
        rewrite (find_attempt_elem t (cm_run k) a) by done. cbn. by rewrite at_run_only_hit.
      * exists c. split_and!; [|done|done]. cbn. rewrite find_app, (manifest_next_none t a c) by done. cbn.
        unfold manifest_row. by rewrite (next_run _ _ _ Hn), Er, Es, !String.eqb_refl.
  - intros run (b & (b0 & Hb & ->)%elem_of_update & <- & Hd)%elem_of_committed_runs. cbn in Hb |- *.
    destruct (at_run_only_identity (at_run a) (with_disposition "committed") (with_disposition_identity _) b0) as (-> & _).
    rewrite fmap_app, elem_of_app. destruct (String.eqb_spec (at_run b0) (at_run a)) as [E|E].
    + right. cbn. rewrite E, <- Er. left.
    + left. apply Hr, elem_of_committed_runs. rewrite at_run_only_miss in Hd by done. eauto.
Qed.

(** The latest attempt was running when its controller stopped. *)
Lemma interrupt_ok t a latest :
  recovery_ok t -> is_last t a -> at_disposition a = "active" -> latest_checkpoint t (at_run a) = Some latest ->
  cp_state latest = "running" ->
  tables_ok (Some (at_logical a)) (update_attempt (at_run a) (with_disposition "interrupted") t).
Proof.
  intros Hok Hl Hact Hlat Hst. pose proof (is_last_elem _ _ Hl) as Ha. pose proof Hok as [Hm Hc Hat Hg _ Hk Hr].
  split; [done|by apply update_constraints| | | | |].
  - apply attempts_update; [done|done|]. intros b latest' Hb Er Hlat'. rewrite Hlat in Hlat'. injection Hlat' as <-.
    cbn [with_disposition at_disposition]. by rewrite Hst.
  - intros l. rewrite logicals_update by done. intros Hin Hne. rewrite logical_attempts_other by (done || congruence). by apply Hg.
  - intros l [= <-]. destruct Hl as (init & E & Hi). rewrite (update_last t _ _ _ init a) by done.
    destruct (Hg (at_logical a)) as (Hn & Hp & _); [by apply list_elem_of_fmap_2|done|]. rewrite E in Hn, Hp.
    split; rewrite ?fmap_app, ?length_app in *; [done|done|]. apply Forall_app. by split; [|constructor].
  - intros k Hin. apply commit_ok_update; auto. by rewrite Hact.
  - intros run Hrun. apply Hr. by apply (committed_runs_update t a (with_disposition "interrupted")).
Qed.

Lemma settled_new t l : recovery_ok t -> l ∉ (at_logical <$> t_attempts t) -> tables_ok (Some l) t.
Proof.
  intros [Hm Hc Hat Hg _ Hk Hr] Hl. split; [done|done|done| | |done|done].
  - intros l' Hin _. by apply Hg.
  - intros l' [= <-]. assert (logical_attempts t l = []) as ->; [|by split].
    destruct (logical_attempts t l) as [|a r] eqn:E; [done|].
    assert (a ∈ logical_attempts t l) as [Ha <-]%elem_of_logical by (rewrite E; left). destruct Hl. by apply list_elem_of_fmap_2.
Qed.

Lemma group_ok_new l a :
  settled_group l -> at_number a = Z.of_nat (length l) + 1 -> at_purpose a = (if list_empty l then "initial" else "retry") ->
  at_disposition a = "active" -> group_ok (l ++ [a]).
Proof.
  intros [Hn Hp Hi] En Ep Ed. unfold group_ok. rewrite !fmap_app, length_app, Nat.add_1_r, Hn, Hp. cbn [fmap list_fmap].
  rewrite seqZ_S, En, Ep. split_and!; [by rewrite Z.add_comm| |].
  - destruct l as [|b l]; [done|]. cbn [list_empty length purposes app]. by rewrite replicate_S_end.
  - exists l, a. auto.
Qed.

Lemma settled_numbers_below l n : settled_group l -> n = Z.of_nat (length l) + 1 -> Forall (fun b => at_number b < n) l.
Proof.
  intros [Hn _ _] En. rewrite Forall_forall. intros b Hb. apply (list_elem_of_fmap_2 at_number) in Hb. rewrite Hn, elem_of_seqZ in Hb. lia.
Qed.

(** A new attempt with its first checkpoint. *)
Lemma new_attempt_ok t a c :
  tables_ok (Some (at_logical a)) t -> at_logical a ∈ plan ->
  at_number a = Z.of_nat (length (logical_attempts t (at_logical a))) + 1 ->
  at_purpose a = (if list_empty (logical_attempts t (at_logical a)) then "initial" else "retry") ->
  at_disposition a = "active" -> at_run a ∉ (at_run <$> t_attempts t) ->
  constraints (add_checkpoint c (add_attempt a t)) -> next_row a [] c ->
  recovery_ok (add_checkpoint c (add_attempt a t)).
Proof.
  intros [Hm Hc Hat Hg Hs Hk Hr] Hp En Ep Ed Hnew Hc' Hn. specialize (Hs _ eq_refl).
  pose proof (run_checkpoints_unknown t (at_run a) Hc Hnew) as Hnil.
  assert (forall run, run_checkpoints (add_checkpoint c (add_attempt a t)) run =
    if String.eqb (at_run a) run then run_checkpoints t run ++ [c] else run_checkpoints t run) as Hrc.
  { intros run. change (run_checkpoints (add_checkpoint c t) run =
      if String.eqb (at_run a) run then run_checkpoints t run ++ [c] else run_checkpoints t run).
    rewrite run_checkpoints_add; rewrite (next_run _ _ _ Hn); [done|]. by rewrite Hnil. }
  assert (forall l, logical_attempts (add_checkpoint c (add_attempt a t)) l =
    if String.eqb (at_logical a) l then logical_attempts t l ++ [a] else logical_attempts t l) as Hla.
  { intros l. apply (logical_attempts_add t a). by apply settled_numbers_below. }
  split; [done|done| | |done| |].
  - intros b [Hb | ->%list_elem_of_singleton]%elem_of_app.
    + eapply (attempt_ok_rows t); [|by apply Hat]. rewrite Hrc. destruct (String.eqb_spec (at_run a) (at_run b)) as [E|]; [|done].
      destruct Hnew. rewrite E. by apply list_elem_of_fmap_2.
    + split; [done| |]; unfold latest_checkpoint; rewrite Hrc, String.eqb_refl, Hnil.
      * apply rows_ok_snoc; [by split|done].
      * exists c. split; [done|]. rewrite Ed. pose proof (next_state _ _ _ Hn) as Est. cbn in Est. injection Est as <-. done.
  - intros l Hin _. rewrite Hla. destruct (String.eqb_spec (at_logical a) l) as [<-|E]; [by apply group_ok_new|].
    apply Hg; [|congruence]. cbn in Hin. rewrite fmap_app in Hin. apply elem_of_app in Hin as [Hin|Hin]; [done|].
    apply list_elem_of_singleton in Hin. congruence.
  - intros k Hin. destruct (Hk k Hin) as [(b & Hb & Hbl) (d & Hf & Hd) Hdg]. split; [| |done].
    + exists b. split; [|done]. unfold find_attempt in *. cbn. by rewrite find_app, Hb.
    + exists d. split; [by apply (find_manifest_add t c)|done].
  - intros run (b & [Hb | ->%list_elem_of_singleton]%elem_of_app & <- & Hd)%elem_of_committed_runs; [|by rewrite Ed in Hd].
    apply Hr, elem_of_committed_runs. eauto.
Qed.

(** ** What the operations do to the tables *)

Lemma audit_loads text v : loads text = Ok v -> @json_loads _ audit_hooks text = Ok v.
Proof. apply loads_lenient. intros pairs Hp. cbn. by rewrite dict_of_id. Qed.

Lemma canonical_bytes_ok v text : _canonical_bytes v = Ok text <-> jcs_dumps v = Some text.
Proof. unfold _canonical_bytes. destruct (jcs_dumps v); split; congruence. Qed.

(** A payload without floats reads back. *)
Lemma plain_reads c payload :
  plain (JObj payload) -> jcs_dumps (JObj payload) = Some (cp_payload_json c) -> payload_reads c = true.
Proof.
  intros Hp Ht. unfold payload_reads. pose proof (dumps_loads _ _ Hp Ht) as Hl%audit_loads. pose proof (dumps_normal _ _ Hp Ht) as Hn.
  rewrite Hl. cbn [normal] in *. by apply bool_decide_eq_true.
Qed.

Lemma append_readable self now run state payload manifest t t' digest :
  _append_checkpoint self now run state payload manifest t = Ok (t', digest) ->
  plain (JObj payload) -> readable t = true -> readable t' = true.
Proof.
  intros Hap Hp Hr. unfold _append_checkpoint in Hap. apply bind_ok in Hap as ([] & _ & Hap).
  apply bind_ok in Hap as (text & Ht%canonical_bytes_ok & Hap). destruct (find_attempt run t) as [a|]; [|done].
  apply bind_ok in Hap as (receipt & _ & Hap). apply bind_ok in Hap as (dg & _ & Hap).
  apply bind_ok in Hap as (t1 & Hi & Hap). apply bind_ok in Hap as (t2 & Hk & [= -> _]).
  assert (t_checkpoints t' = t_checkpoints t1) as E.
  { destruct (String.eqb state "manifest-committed"); [|by injection Hk as <-].
    destruct manifest, receipt; try done. unfold insert_commit_row in Hk. ok_inv. by subst. }
  unfold readable in *. rewrite E. unfold insert_checkpoint_row in Hi. ok_inv. subst t1. cbn [t_checkpoints].
  rewrite forallb_app, Hr. cbn [forallb andb]. rewrite andb_true_r. by apply (plain_reads _ payload).
Qed.

Lemma rows_previous a rows : rows_ok a rows ->
  match last rows with None => 1 | Some d => cp_ordinal d + 1 end = Z.of_nat (length rows) + 1.
Proof.
  intros [Ho _ _]. destruct (last rows) as [d|] eqn:E.
  - apply last_Some in E as [rest ->]. rewrite fmap_app, length_app, Nat.add_1_r, seqZ_S in Ho. cbn [fmap list_fmap] in Ho.
    apply app_inj_tail in Ho as [_ Ho]. rewrite length_app, Nat.add_1_r. lia.
  - apply last_None in E as ->. done.
Qed.

(** What [_append_checkpoint] adds: the next row of the run and, at the manifest, its commit. *)
Lemma append_ok s now run state payload manifest t t' digest a :
  _append_checkpoint (sess s) now run state payload manifest t = Ok (t', digest) ->
  constraints t -> find_attempt run t = Some a -> rows_ok a (run_checkpoints t run) ->
  CHECKPOINT_STATES !! length (run_checkpoints t run) = Some state ->
  exists c, next_row a (run_checkpoints t run) c /\ cp_state c = state /\ cp_sha256 c = digest /\ cp_manifest c = manifest /\
    constraints t' /\
    (state <> "manifest-committed" /\ t' = add_checkpoint c t \/
     state = "manifest-committed" /\ exists m r, manifest = Some m /\ cp_receipt c = Some r /\
       _sha256 (commit_receipt base (at_logical a) (Some m) run) = Ok r /\
       t' = add_commit {| cm_logical := at_logical a; cm_run := run; cm_manifest := m; cm_receipt := r |} (add_checkpoint c t)).
Proof.
  intros Hap Hc Hf Hr Hst. unfold _append_checkpoint in Hap. pose proof (find_attempt_some _ _ _ Hf) as [_ Er].
  apply bind_ok in Hap as ([] & _ & Hap). apply bind_ok in Hap as (text & Ht%canonical_bytes_ok & Hap).
  rewrite Hf in Hap. unfold latest_checkpoint in Hap. rewrite (rows_previous a) in Hap by done.
  apply bind_ok in Hap as (receipt & Hrec & Hap). apply bind_ok in Hap as (dg & Hdg & Hap).
  apply bind_ok in Hap as (t1 & Hi1 & Hap). apply bind_ok in Hap as (t2 & Hi2 & [= -> ->]).
  apply insert_checkpoint_ok in Hi1 as [-> Hc1]; [|done].
  set (c := {| cp_run := run |}) in *.
  assert (next_row a (run_checkpoints t run) c) as Hn.
  { split; [done|done|done|]. cbn [hash_linked]. split_and!; [done|done|exact Hdg|done]. }
  exists c. split_and!; [done|done|done|done| |].
  - destruct (String.eqb state "manifest-committed"); [|by injection Hi2 as <-].
    destruct manifest as [m|]; [|done]. destruct receipt as [r|]; [|done]. by apply insert_commit_ok in Hi2 as (_ & _ & ?).
  - destruct (String.eqb_spec state "manifest-committed") as [->|Hne]; [right|left; injection Hi2 as <-; done].
    split; [done|]. destruct manifest as [m|]; [|done]. destruct receipt as [r|]; [|done]. exists m, r.
    apply insert_commit_ok in Hi2 as (-> & _ & _); [|done]. apply bind_ok in Hrec as ([] & _ & Hrec).
    apply bind_ok in Hrec as (r' & Hr' & [= ->]). split_and!; done.
Qed.

Lemma latest_row t a latest : attempt_ok t a -> latest_checkpoint t (at_run a) = Some latest ->
  exists index, CHECKPOINT_STATES !! index = Some (cp_state latest) /\ length (run_checkpoints t (at_run a)) = S index /\
    list_find (eq (cp_state latest)) CHECKPOINT_STATES = Some (index, cp_state latest).
Proof.
  intros [_ [_ Hs _] _] Hl. unfold latest_checkpoint in Hl. apply last_Some in Hl as [rest E]. rewrite E in Hs |- *.
  rewrite fmap_app, length_app, Nat.add_1_r in Hs. exists (length rest). rewrite length_app, Nat.add_1_r.
  assert (CHECKPOINT_STATES !! length rest = Some (cp_state latest)) as Hi.
  { rewrite <- (lookup_take_lt _ (S (length rest))) by lia. rewrite <- Hs, lookup_app_r, length_fmap, Nat.sub_diag by (by rewrite length_fmap). done. }
  split_and!; [done|done|]. apply list_find_Some. split_and!; [done|done|]. intros j y Hj Hlt <-.
  assert (NoDup CHECKPOINT_STATES) as Hnd by (apply (bool_decide_unpack _); by vm_compute).
  pose proof (NoDup_lookup _ _ _ _ Hnd Hi Hj). lia.
Qed.

Lemma open_disposition t a : recovery_ok t -> a ∈ t_attempts t -> at_disposition a <> "active" -> at_disposition a <> "committed" -> at_disposition a = "interrupted".
Proof.
  intros Hok Ha H1' H2'. destruct (ok_groups _ _ Hok (at_logical a)) as (_ & _ & init & b & E & Hi & Hb); [by apply list_elem_of_fmap_2|done|].
  assert (a ∈ init ++ [b]) as Hin by (rewrite <- E; by apply elem_of_logical).
  apply elem_of_app in Hin as [Hin|Hin%list_elem_of_singleton]; [rewrite Forall_forall in Hi; by apply Hi|]. subst. by destruct Hb.
Qed.
End Plan.
