(* ===== verification/RecoverySteps.v ===== *)
(** * The operations of the recovery journal keep its invariant

    A step is an operation of any session that returned; the tables a campaign
    reaches are those after an [open_journal] on an empty database and any steps.

    The second part is the refinement of a machine per execution. *)

From S2P Require Export RecoveryInvariant.

Section Steps.
Context `{JCSLaws} `{PyTables}.
Context (campaign : string) (plan : list string).
#[local] Notation sess := (sess campaign plan).
#[local] Notation recovery_ok := (recovery_ok campaign plan).
#[local] Notation attempt_ok := (attempt_ok campaign plan).
#[local] Notation next_row := (next_row campaign plan).

(** ** Commits stay, and a committed execution gets no further attempt *)

Definition runs (t : tables) (logical : string) : list string := at_run <$> logical_attempts t logical.

Record grows (t t' : tables) : Prop := {
  grows_commits : t_commits t `prefix_of` t_commits t';
  grows_runs l : l ∈ (cm_logical <$> t_commits t) -> runs t' l = runs t l
}.

#[export] Instance grows_preorder : PreOrder grows.
Proof.
  split; [by intros t; split|]. intros t u v [Hc Hr] [Hc' Hr']. split; [by trans (t_commits u)|].
  intros l Hl. rewrite Hr'; [by apply Hr|]. destruct Hc as [rest ->]. rewrite fmap_app. apply elem_of_app. by left.
Qed.

Lemma grows_update run f t : keeps_identity f -> grows t (update_attempt run f t).
Proof.
  intros Hf. split; [done|]. intros l _. unfold runs. rewrite logical_attempts_update by done.
  apply fmap_identity. intros a. by apply at_run_only_identity.
Qed.

Lemma grows_checkpoint c t : grows t (add_checkpoint c t).
Proof. by split. Qed.

Lemma grows_commit k t : grows t (add_commit k t).
Proof. split; [by eexists|done]. Qed.

Lemma grows_attempt a t :
  Forall (fun b => at_number b < at_number a) (logical_attempts t (at_logical a)) ->
  at_logical a ∉ (cm_logical <$> t_commits t) -> grows t (add_attempt a t).
Proof.
  intros Hn Ha. split; [done|]. intros l Hl. unfold runs. rewrite logical_attempts_add by done.
  destruct (String.eqb_spec (at_logical a) l) as [<-|]; done.
Qed.

(** ** The transitions of the tables

    Every operation that changes the tables makes one of five transitions, which
    concern one execution. *)
Inductive event := Started (run : string) | Claimed | Retried (run : string) | Advanced (state : string).

Definition typed_run (run : string) : Prop := _require_typed_prefix "physical run ID" run PHYSICAL_RUN = Ok tt.

Inductive transition (s : string) (t : tables) : string -> event -> tables -> Prop :=
| tr_claim a :
    is_last t a -> (exists c, latest_checkpoint t (at_run a) = Some c /\ (cp_state c <> "running" \/ at_owner a = s)) ->
    transition s t (at_logical a) Claimed (update_attempt (at_run a) (with_owner s) t)
| tr_next a c :
    is_last t a -> at_owner a = s -> next_row a (run_checkpoints t (at_run a)) c ->
    constraints (add_checkpoint c t) -> audit_disposition (at_disposition a) (cp_state c) = Ok tt ->
    transition s t (at_logical a) (Advanced (cp_state c)) (add_checkpoint c t)
| tr_commit a c k :
    is_last t a -> at_owner a = s -> at_disposition a = "active" -> next_row a (run_checkpoints t (at_run a)) c ->
    constraints (add_commit k (add_checkpoint c t)) -> cp_state c = "manifest-committed" ->
    cm_run k = at_run a -> cm_logical k = at_logical a ->
    cp_manifest c = Some (cm_manifest k) -> cp_receipt c = Some (cm_receipt k) ->
    _sha256 (commit_receipt (sess "") (cm_logical k) (Some (cm_manifest k)) (cm_run k)) = Ok (cm_receipt k) ->
    transition s t (at_logical a) (Advanced "manifest-committed")
      (update_attempt (at_run a) (with_disposition "committed") (add_commit k (add_checkpoint c t)))
| tr_start a c :
    at_logical a ∉ (at_logical <$> t_attempts t) -> at_logical a ∈ plan -> at_owner a = s ->
    at_number a = 1 -> at_purpose a = "initial" -> at_disposition a = "active" ->
    at_run a ∉ (at_run <$> t_attempts t) -> constraints (add_checkpoint c (add_attempt a t)) -> next_row a [] c ->
    typed_run (at_run a) -> transition s t (at_logical a) (Started (at_run a)) (add_checkpoint c (add_attempt a t))
| tr_retry b latest a c :
    is_last t b -> at_disposition b = "active" -> latest_checkpoint t (at_run b) = Some latest ->
    cp_state latest = "running" -> at_owner b <> s ->
    at_logical a = at_logical b -> at_owner a = s -> at_number a = at_number b + 1 -> at_purpose a = "retry" ->
    at_disposition a = "active" -> at_run a ∉ (at_run <$> t_attempts t) ->
    let u := update_attempt (at_run b) (with_disposition "interrupted") t in
    constraints (add_checkpoint c (add_attempt a u)) -> next_row a [] c ->
    typed_run (at_run a) -> transition s t (at_logical a) (Retried (at_run a)) (add_checkpoint c (add_attempt a u)).

Lemma last_number t a : recovery_ok t -> is_last t a -> at_number a = Z.of_nat (length (logical_attempts t (at_logical a))).
Proof.
  intros Hok Hl. pose proof (is_last_elem _ _ Hl) as Ha. destruct Hl as (init & E & _).
  destruct (ok_groups _ _ _ _ Hok (at_logical a)) as (Hn & _); [by apply list_elem_of_fmap_2|done|].
  rewrite E, fmap_app, length_app, Nat.add_1_r, seqZ_S in Hn. apply app_inj_tail in Hn as [_ Hn]. rewrite E, length_app, Nat.add_1_r. lia.
Qed.

Lemma unknown_logical t l : l ∉ (at_logical <$> t_attempts t) -> logical_attempts t l = [].
Proof.
  intros Hl. destruct (logical_attempts t l) as [|a r] eqn:E; [done|].
  assert (a ∈ logical_attempts t l) as [Ha <-]%elem_of_logical by (rewrite E; left). destruct Hl. by apply list_elem_of_fmap_2.
Qed.

Theorem transition_keeps s t l ev t' : recovery_ok t -> transition s t l ev t' -> recovery_ok t'.
Proof.
  intros Hok. destruct 1 as [a Hl _|a c Hl _ Hn Hc Hd|a c k Hl _ Hact Hn Hc Hs Er El Em Ec Hdg|a c Hun Hp _ En Ep Ed Hnew Hc Hn _
    |b latest a c Hl Hact Hlat Hrun _ El _ En Ep Ed Hnew u Hc Hn _].
  - by apply claim_ok.
  - eapply add_checkpoint_ok; [done|done|by apply is_last_elem|done|done].
  - by eapply add_commit_ok.
  - pose proof (unknown_logical _ _ Hun) as Hnil. apply new_attempt_ok; [by apply settled_new|done| |by rewrite Hnil|done|done|done|done].
    by rewrite Hnil.
  - pose proof (interrupt_ok _ _ t b latest Hok Hl Hact Hlat Hrun) as Hs. pose proof (last_number t b Hok Hl) as Hb. rewrite <- El in Hs, Hb.
    assert (length (logical_attempts u (at_logical a)) = length (logical_attempts t (at_logical a))) as Elen
      by (unfold u; by rewrite logical_attempts_update, length_fmap).
    assert (at_logical a ∈ plan) as Hp.
    { rewrite El. by apply (attempt_planned campaign plan t b), (ok_attempts _ _ _ _ Hok), is_last_elem. }
    apply new_attempt_ok; [done|done|by rewrite En, Hb, Elen| |done| |done|done].
    + rewrite Ep. destruct (logical_attempts u (at_logical a)) as [|x r]; [|done]. exfalso. destruct Hl as (init & E & _).
      rewrite El, E, length_app in Elen. cbn in Elen. lia.
    + unfold u. rewrite update_attempt_eq, fmap_identity; [done|]. intros x. by apply at_run_only_identity.
Qed.

Lemma last_committed t k a : recovery_ok t -> k ∈ t_commits t -> is_last t a -> at_logical a = cm_logical k -> at_disposition a = "committed".
Proof.
  intros Hok Hk (init & E & Hi) El. destruct (ok_commits _ _ _ _ Hok k Hk) as [(b & [Hb _]%find_attempt_some & Elb & Hd) _ _].
  assert (b ∈ logical_attempts t (at_logical a)) as Hin by (apply elem_of_logical; by rewrite El).
  rewrite E in Hin. apply elem_of_app in Hin as [Hin|Hin%list_elem_of_singleton]; [|by subst].
  rewrite Forall_forall in Hi. apply Hi in Hin. by rewrite Hd in Hin.
Qed.

Theorem transition_grows s t l ev t' : recovery_ok t -> transition s t l ev t' -> grows t t'.
Proof.
  intros Hok. destruct 1 as [a Hl _|a c Hl _ Hn Hc Hd|a c k Hl _ Hact Hn Hc Hs Er El Em Ec Hdg|a c Hun Hp _ En Ep Ed Hnew Hc Hn _
    |b latest a c Hl Hact Hlat Hrun _ El _ En Ep Ed Hnew u Hc Hn _].
  - by apply grows_update.
  - apply grows_checkpoint.
  - rewrite <- grows_update, <- grows_commit, <- grows_checkpoint; done.
  - rewrite <- grows_checkpoint. apply grows_attempt; [by rewrite unknown_logical|].
    intros (k & Ek & Hk)%list_elem_of_fmap. destruct (ok_commits _ _ _ _ Hok k Hk) as [(b & [Hb _]%find_attempt_some & Elb & _) _ _].
    apply Hun. rewrite Ek, <- Elb. by apply list_elem_of_fmap_2.
  - rewrite <- grows_checkpoint. assert (grows u (add_attempt a u)) as Hg.
    { apply grows_attempt.
      - pose proof (interrupt_ok _ _ t b latest Hok Hl Hact Hlat Hrun) as Hs. rewrite <- El in Hs.
        apply settled_numbers_below; [by apply (ok_settled _ _ _ _ Hs)|]. unfold u. rewrite logical_attempts_update, length_fmap, En, El by done.
        by rewrite (last_number t b).
      - intros (k & Ek & Hk)%list_elem_of_fmap. rewrite El in Ek. by rewrite (last_committed t k b Hok Hk Hl Ek) in Hact. }
    rewrite <- Hg. by apply grows_update.
Qed.

(** ** Each operation *)

Lemma NoDup_states : NoDup CHECKPOINT_STATES.
Proof. apply (bool_decide_unpack _). by vm_compute. Qed.

Lemma found_attempt_ok t run a : recovery_ok t -> find_attempt run t = Some a ->
  a ∈ t_attempts t /\ at_run a = run /\ attempt_ok t a.
Proof. intros Hok [Ha Er]%find_attempt_some. split_and!; [done|done|]. by apply (ok_attempts _ _ _ _ Hok). Qed.

Lemma active_not_committed t a latest : attempt_ok t a -> at_disposition a = "active" ->
  latest_checkpoint t (at_run a) = Some latest -> cp_state latest ∉ COMMITTED_STATES.
Proof.
  intros Ha Hd Hl Hm. destruct (attempt_latest _ _ _ _ Ha) as (latest' & Hl' & Hdis). rewrite Hl in Hl'. injection Hl' as <-.
  apply mem_spec in Hm. unfold audit_disposition in Hdis. by rewrite Hd, Hm in Hdis.
Qed.

(** The states an active attempt may enter. *)
Lemma active_next t a latest index state : attempt_ok t a -> at_disposition a = "active" ->
  latest_checkpoint t (at_run a) = Some latest -> CHECKPOINT_STATES !! index = Some (cp_state latest) ->
  CHECKPOINT_STATES !! S index = Some state -> state <> "manifest-committed" ->
  audit_disposition (at_disposition a) state = Ok tt.
Proof.
  intros Ha Hd Hl Hi Hn Hne. pose proof (active_not_committed t a latest Ha Hd Hl) as Hc. rewrite Hd.
  do 9 (destruct index as [|index]; [injection Hn as <-; first [done|destruct Hc; injection Hi as <-; apply mem_spec; done]|]).
  done.
Qed.

Lemma checkpoint_transition s now run state payload manifest t t' digest :
  recovery_ok t -> checkpoint (sess s) now run state payload manifest t = Ok (t', digest) ->
  exists a, find_attempt run t = Some a /\ transition s t (at_logical a) (Advanced state) t'.
Proof.
  intros Hok Hck. unfold checkpoint in Hck. apply bind_ok in Hck as ([] & _ & Hck). apply bind_ok in Hck as ([] & _ & Hck).
  destruct (find_attempt run t) as [a|] eqn:Hf; [|done]. destruct (found_attempt_ok t run a Hok Hf) as (Hin & Er & Ha).
  apply bind_ok in Hck as ([] & Hown & Hck). apply raise_if_ok, negb_false_iff, String.eqb_eq in Hown.
  apply bind_ok in Hck as ([] & Hact & Hck). apply raise_if_ok, negb_false_iff, String.eqb_eq in Hact.
  destruct (latest_checkpoint t run) as [latest|] eqn:Hl; [|done]. rewrite <- Er in Hl.
  destruct (latest_row _ _ t a latest Ha Hl) as (index & Hi & Hlen & Hfind). rewrite Hfind in Hck. cbn in Hck.
  apply bind_ok in Hck as ([] & Hnext & Hck). apply raise_if_ok, negb_false_iff, bool_decide_eq_true in Hnext.
  apply bind_ok in Hck as ([] & _ & Hck). apply bind_ok in Hck as ([t1 dg] & Hap & [= <- <-]).
  assert (is_last t a) as Hlast by (apply (open_is_last campaign plan); auto). subst run.
  apply (append_ok campaign plan s now _ state _ manifest t t1 dg a) in Hap as (c & Hn & Hs & _ & Hm & Hcs & Hcase);
    [|by apply Hok|done|by apply Ha|by rewrite Hlen].
  destruct Hcase as [[Hne ->]|(-> & m & r & Em & Ec & Hdg & ->)].
  - apply String.eqb_neq in Hne as E. rewrite E. exists a. split; [done|].
    rewrite <- Hs. apply (tr_next s t a c); [done|done|done|done|]. rewrite Hs. by eapply active_next.
  - rewrite String.eqb_refl. exists a. split; [done|]. by apply (tr_commit s t a c); rewrite ?Hm.
Qed.

Lemma acknowledge_transition s now run t t' digest :
  recovery_ok t -> acknowledge (sess s) now run t = Ok (t', digest) ->
  exists a latest, find_attempt run t = Some a /\ at_owner a = s /\ at_disposition a = "committed" /\
    latest_checkpoint t run = Some latest /\
    (cp_state latest = "acknowledged" /\ t' = t \/ transition s t (at_logical a) (Advanced "acknowledged") t').
Proof.
  intros Hok Hck. unfold acknowledge in Hck. apply bind_ok in Hck as ([] & _ & Hck). apply bind_ok in Hck as ([] & _ & Hck).
  destruct (find_attempt run t) as [a|] eqn:Hf; [|done]. destruct (found_attempt_ok t run a Hok Hf) as (Hin & Er & Ha).
  apply bind_ok in Hck as ([] & Hown & Hck). apply raise_if_ok, negb_false_iff, String.eqb_eq in Hown.
  apply bind_ok in Hck as ([] & Hact & Hck). apply raise_if_ok, negb_false_iff, String.eqb_eq in Hact.
  destruct (latest_checkpoint t run) as [latest|] eqn:Hl; [|done]. exists a, latest. split_and!; [done|done|done|done|].
  rewrite <- Er in Hl. destruct (String.eqb_spec (cp_state latest) "acknowledged"); [left; by injection Hck as <- _|right].
  apply bind_ok in Hck as ([] & Hst & Hap). apply raise_if_ok, negb_false_iff, String.eqb_eq in Hst.
  destruct (latest_row _ _ t a latest Ha Hl) as (index & Hi & Hlen & _). subst run. rewrite Hst in Hi.
  assert (index = 8%nat) as -> by (by apply (NoDup_lookup _ _ _ _ NoDup_states Hi)).
  assert (is_last t a) as Hlast by (apply (open_is_last campaign plan); auto).
  apply (append_ok campaign plan s now _ _ _ _ t t' digest a) in Hap as (c & Hn & Hs & _ & _ & Hcs & Hcase);
    [|by apply Hok|done|by apply Ha|by rewrite Hlen].
  destruct Hcase as [[_ ->]|(? & _)]; [|done]. rewrite <- Hs.
  apply (tr_next s t a c); [done|done|done|done|by rewrite Hact, Hs].
Qed.

Lemma view_some t a v : view t a = Some v -> av_attempt v = a /\
  exists c, latest_checkpoint t (at_run a) = Some c /\ av_latest_state v = cp_state c.
Proof. unfold view. destruct (latest_checkpoint t (at_run a)) as [c|]; cbn; [|done]. intros [= <-]. split; [done|]. by exists c. Qed.

(** The latest attempt row is the last attempt of the execution. *)
Lemma latest_attempt_row_ok t logical :
  recovery_ok t ->
  match _latest_attempt_row t logical with
  | None => logical ∉ (at_logical <$> t_attempts t)
  | Some v => is_last t (av_attempt v) /\ at_logical (av_attempt v) = logical /\
      exists c, latest_checkpoint t (at_run (av_attempt v)) = Some c /\ av_latest_state v = cp_state c
  end.
Proof.
  intros Hok. unfold _latest_attempt_row. destruct (decide (logical ∈ (at_logical <$> t_attempts t))) as [Hin|Hout].
  - destruct (ok_groups _ _ _ _ Hok logical Hin) as (_ & _ & init & a & E & Hi & _); [done|]. rewrite E, omap_app. cbn [omap list_omap].
    assert (at_logical a = logical) as El by by eapply latest_is_last.
    assert (a ∈ t_attempts t) as Ha by (apply (elem_of_logical t logical); rewrite E; apply elem_of_app; right; left).
    destruct (ok_attempts _ _ _ _ Hok a Ha) as [_ _ (c & Hc & _)]. destruct (view t a) as [v|] eqn:Ev.
    + rewrite last_snoc. apply view_some in Ev as [<- (c' & Hc' & Es)]. split_and!; [|done|by exists c'].
      exists init. by rewrite El.
    + unfold view in Ev. by rewrite Hc in Ev.
  - destruct (logical_attempts t logical) as [|a r] eqn:E; [done|].
    assert (a ∈ logical_attempts t logical) as [Ha <-]%elem_of_logical by (rewrite E; left). destruct Hout. by apply list_elem_of_fmap_2.
Qed.


(** ** Starting *)

(** The row [_insert_attempt] adds, with its leased checkpoint. *)
Lemma insert_attempt_rows s created now fresh logical number purpose t t' :
  constraints t -> _insert_attempt (sess s) created now fresh logical number purpose t = Ok t' ->
  exists a c, at_run a = fresh /\ at_logical a = logical /\ at_number a = number /\ at_purpose a = purpose /\
    at_disposition a = "active" /\ at_owner a = s /\ (at_run a ∉ (at_run <$> t_attempts t)) /\ next_row a [] c /\
    constraints t' /\ t' = add_checkpoint c (add_attempt a t) /\ typed_run (at_run a).
Proof.
  intros Hct Hi. unfold _insert_attempt in Hi. apply bind_ok in Hi as ([] & Htyped & Hi).
  apply bind_ok in Hi as (t1 & Hins & Hi). apply bind_ok in Hi as ([t2 dg] & Hap & [= <-]).
  apply insert_attempt_ok in Hins as (-> & Hnew & Hc); [|done]. set (a := {| at_run := fresh |}) in *.
  assert (run_checkpoints (add_attempt a t) fresh = []) as Hnil.
  { change (run_checkpoints t fresh = []). by apply run_checkpoints_unknown. }
  apply (append_ok campaign plan s now fresh "leased" _ None _ t2 dg a) in Hap as (c & Hn & _ & _ & _ & Hc' & Hcase);
    [|done|by apply find_attempt_elem; [|apply elem_of_app; right; left|]|by rewrite Hnil; split|by rewrite Hnil].
  destruct Hcase as [[_ ->]|(? & _)]; [|done]. rewrite Hnil in Hn. exists a, c. by split_and!.
Qed.

(** What [start_or_resume] answers after an event of the execution. *)
Definition answers (t : tables) (fresh logical : string) (ev : event) (d : RecoveryDecision) : Prop :=
  match ev with
  | Started run => run = fresh /\ d = decision "start" logical fresh 1 "leased" "initial-attempt"
  | Retried run => run = fresh /\ exists v, _latest_attempt_row t logical = Some v /\
      d = decision "retry" logical fresh (at_number (av_attempt v) + 1) "leased" "interrupted-target-invocation"
  | Claimed => exists v reason, _latest_attempt_row t logical = Some v /\
      d = decision (if mem (av_latest_state v) COMMITTED_STATES then "committed" else "continue") logical
            (at_run (av_attempt v)) (at_number (av_attempt v)) (av_latest_state v) reason
  | Advanced _ => False
  end.

Lemma recovery_action_cases stage same :
  recovery_action_for_stage stage same <> "quarantine" -> recovery_action_for_stage stage same <> "retry" ->
  recovery_action_for_stage stage same = if mem stage COMMITTED_STATES then "committed" else "continue".
Proof. unfold recovery_action_for_stage. repeat case_match; done. Qed.

Lemma start_transition s created now fresh logical t t' d :
  recovery_ok t -> start_or_resume (sess s) created now fresh logical t = Ok (t', d) ->
  exists ev, transition s t logical ev t' /\ answers t fresh logical ev d.
Proof.
  intros Hok Hst. unfold start_or_resume in Hst. apply bind_ok in Hst as ([] & Hin & Hst).
  apply raise_if_ok, negb_false_iff, mem_spec in Hin. apply bind_ok in Hst as ([] & _ & Hst).
  pose proof (latest_attempt_row_ok t logical Hok) as Hlat. destruct (find_commit logical t) as [k|] eqn:Hun.
  - destruct (_latest_attempt_row t logical) as [v|] eqn:Hv; [|done]. injection Hst as <- <-. destruct Hlat as (Hl & El & c & Hc & Es).
    apply List.find_some in Hun as [Hk%list_elem_of_In Ek%String.eqb_eq].
    pose proof (last_committed t k (av_attempt v) Hok Hk Hl) as Hd. pose proof (ok_attempts _ _ _ _ Hok _ (is_last_elem _ _ Hl)) as [_ _ (c' & Hc' & Hdis)].
    rewrite Hc in Hc'. injection Hc' as <-. rewrite Hd in Hdis by congruence. rewrite <- Es in Hdis. exists Claimed. split.
    + rewrite <- El. apply tr_claim; [done|]. exists c. split; [done|]. left. intros E. rewrite Es, E in Hdis. done.
    + exists v, "verified-manifest-commit". split; [done|]. unfold audit_disposition in Hdis.
      destruct (mem (av_latest_state v) COMMITTED_STATES); done.
  - destruct (_latest_attempt_row t logical) as [v|] eqn:Hv.
    + destruct Hlat as (Hl & El & c & Hc & Es). apply bind_ok in Hst as ([] & Hq%raise_if_ok%String.eqb_neq & Hst).
      set (b := av_attempt v) in *. destruct (String.eqb (recovery_action_for_stage _ _) "retry") eqn:Er.
      * apply bind_ok in Hst as ([] & Hact & Hst). apply raise_if_ok, negb_false_iff, String.eqb_eq in Hact.
        apply bind_ok in Hst as (t1 & Hi & [= <- <-]).
        assert (av_latest_state v = "running" /\ at_owner b <> s) as [Hrun Hown].
        { cbn [sess controller_session_id] in Er. clear -Er. unfold recovery_action_for_stage in Er. repeat case_match; try done.
          split; [by apply String.eqb_eq|by apply String.eqb_neq]. }
        pose proof (last_number t b Hok Hl) as Hb. rewrite El in Hb.
        apply insert_attempt_rows in Hi as (a & c' & <- & Ela & En & Ep & Ed & Eo & Hnew & Hn & Hcs & -> & Hty);
          [|by apply update_constraints; [|apply Hok]].
        rewrite update_attempt_eq, fmap_identity in Hnew by (intros x; by apply at_run_only_identity).
        exists (Retried (at_run a)). split; [rewrite <- Ela; apply (tr_retry s t b c a c'); try done; congruence|].
        split; [done|]. by exists v.
      * injection Hst as <- <-. apply String.eqb_neq in Er as Er'. exists Claimed.
        split; [|exists v; eexists; split; [done|]; by rewrite <- (recovery_action_cases _ _ Hq Er')]. clear Hq Er'.
        rewrite <- El. apply tr_claim; [done|]. exists c. split; [done|].
        cbn [sess controller_session_id] in Er. fold b in Er. rewrite <- Es. clear -Er. unfold recovery_action_for_stage in Er.
        destruct (String.eqb_spec (at_owner b) s); [by right|]. left. intros E. by rewrite E in Er.
    + apply bind_ok in Hst as (t1 & Hi & [= <- <-]).
      apply insert_attempt_rows in Hi as (a & c' & <- & Ela & En & Ep & Ed & Eo & Hnew & Hn & Hcs & -> & Hty); [|by apply Hok].
      exists (Started (at_run a)). split; [|done]. rewrite <- Ela. by apply tr_start; rewrite ?Ela.
Qed.

(** ** Opening *)

Lemma open_keeps s t t' : recovery_ok t -> open_journal (sess s) t = Ok t' -> t' = t.
Proof.
  intros Hok Ho. unfold open_journal in Ho. do 5 (apply bind_ok in Ho as ([] & _ & Ho)).
  apply bind_ok in Ho as (u & Hi & Ho). apply bind_ok in Ho as ([] & _ & [= <-]). unfold _initialize in Hi.
  change (expected_metadata (sess s)) with (expected_metadata (sess "")) in Hi. rewrite (ok_metadata _ _ _ _ Hok) in Hi. cbn [mbind result_bind] in Hi.
  destruct (bool_decide_reflect (t_metadata t = ∅)) as [E|_]; [|apply bind_ok in Hi as ([] & _ & [= <-]); done].
  injection Hi as <-. by destruct t.
Qed.

Lemma open_empty s t : open_journal (sess s) empty_tables = Ok t -> recovery_ok t.
Proof.
  intros Ho. unfold open_journal in Ho. do 5 (apply bind_ok in Ho as ([] & _ & Ho)).
  apply bind_ok in Ho as (u & Hi & Ho). apply bind_ok in Ho as ([] & _ & [= <-]). unfold _initialize in Hi.
  apply bind_ok in Hi as (m & Hm & Hi). rewrite bool_decide_eq_true_2 in Hi by done. injection Hi as <-.
  split; try done; [by constructor; try apply NoDup_nil_2; intros ? ?%elem_of_nil|..]; cbn.
  all: try (by intros ? ?%elem_of_nil).
Qed.

(** The checks of [open_journal] on the plan and the session hold whatever the tables. *)
Lemma open_again s s' t u : open_journal (sess s) empty_tables = Ok t -> recovery_ok u ->
  fullmatch SAFE_IDENTIFIER_PATTERN s' = true -> verdict (readable u) u (open_journal (sess s') u).
Proof.
  intros Ho Hok Hs. unfold open_journal in Ho |- *. apply bind_ok in Ho as ([] & H1' & Ho).
  change (campaign_manifest_id (sess s')) with (campaign_manifest_id (sess s)). rewrite H1'. cbn [mbind result_bind].
  apply bind_ok in Ho as ([] & _ & Ho). assert (_require_identifier "controller session ID" (controller_session_id (sess s')) = Ok tt) as ->
    by (unfold _require_identifier; cbn [sess controller_session_id]; by rewrite Hs). cbn [mbind result_bind].
  do 3 (apply bind_ok in Ho as ([] & E & Ho); change (logical_execution_ids (sess s')) with (logical_execution_ids (sess s)); rewrite E; cbn [mbind result_bind]; clear E).
  assert (_initialize (sess s') u = Ok u) as ->.
  { unfold _initialize. change (expected_metadata (sess s')) with (expected_metadata (sess "")). rewrite (ok_metadata _ _ _ _ Hok). cbn [mbind result_bind].
    destruct (bool_decide_reflect (t_metadata u = ∅)) as [E|_]; [by destruct u|]. by rewrite bool_decide_eq_true_2. }
  cbn [mbind result_bind]. apply (verdict_bind _ tt u _ (fun _ => Ok u)); [|done]. by apply audit_verdict.
Qed.

(** ** Reachable tables *)

(** An operation of session [s] that returned. *)
Inductive step (s : string) (t t' : tables) : Prop :=
| step_open : open_journal (sess s) t = Ok t' -> step s t t'
| step_start created now fresh logical d :
    start_or_resume (sess s) created now fresh logical t = Ok (t', d) -> step s t t'
| step_checkpoint now run state payload manifest digest :
    checkpoint (sess s) now run state payload manifest t = Ok (t', digest) -> step s t t'
| step_acknowledge now run digest : acknowledge (sess s) now run t = Ok (t', digest) -> step s t t'.

(** The same with a payload of plain data: no floats, safe integers (also the attempt number, which a start records). *)
Inductive plain_step (s : string) (t t' : tables) : Prop :=
| plain_open : open_journal (sess s) t = Ok t' -> plain_step s t t'
| plain_start created now fresh logical d :
    Z.of_nat (length (logical_attempts t logical)) < SAFE_INTEGER_MAX ->
    start_or_resume (sess s) created now fresh logical t = Ok (t', d) -> plain_step s t t'
| plain_checkpoint now run state payload manifest digest :
    plain (JObj (default [] payload)) ->
    checkpoint (sess s) now run state payload manifest t = Ok (t', digest) -> plain_step s t t'
| plain_acknowledge now run digest : acknowledge (sess s) now run t = Ok (t', digest) -> plain_step s t t'.

Lemma plain_is_step s t t' : plain_step s t t' -> step s t t'.
Proof.
  destruct 1; [by apply step_open|by eapply step_start|by eapply step_checkpoint|by eapply step_acknowledge].
Qed.

Definition some_step (t t' : tables) : Prop := exists s, step s t t'.
Definition reachable (t : tables) : Prop :=
  exists s t0, open_journal (sess s) empty_tables = Ok t0 /\ rtc some_step t0 t.

Lemma step_transition s t t' : recovery_ok t -> step s t t' -> t' = t \/ exists l ev, transition s t l ev t'.
Proof.
  intros Hok. destruct 1.
  - left. by apply (open_keeps s).
  - right. exists logical. edestruct start_transition as (ev & Ht & _); eauto.
  - right. edestruct checkpoint_transition as (a & _ & ?); eauto.
  - edestruct acknowledge_transition as (a & latest & _ & _ & _ & _ & [[_ ?]|?]); eauto.
Qed.

Lemma step_keeps s t t' : recovery_ok t -> step s t t' -> recovery_ok t' /\ grows t t'.
Proof.
  intros Hok [-> |(l & ev & Ht)]%step_transition; [done| |done]. split; [by eapply transition_keeps|by eapply transition_grows].
Qed.

Lemma steps_keep t t' : recovery_ok t -> rtc some_step t t' -> recovery_ok t' /\ grows t t'.
Proof.
  intros Hok. induction 1 as [t|t u t' [s Hs] _ IH]; [done|]. destruct (step_keeps s t u Hok Hs) as [Hu Hg].
  destruct (IH Hu) as [Ht' Hg']. split; [done|]. by trans u.
Qed.

Lemma reachable_recovery_ok t : reachable t -> recovery_ok t.
Proof. intros (s & t0 & Ho%open_empty & Hs). by apply (steps_keep t0). Qed.

(** ** Payloads that read back *)

Lemma insert_readable s created now fresh logical number purpose t t' :
  - SAFE_INTEGER_MAX <= number <= SAFE_INTEGER_MAX ->
  _insert_attempt (sess s) created now fresh logical number purpose t = Ok t' -> readable t = true -> readable t' = true.
Proof.
  intros Hn Hi Hr. unfold _insert_attempt in Hi. apply bind_ok in Hi as ([] & _ & Hi).
  apply bind_ok in Hi as (t1 & Hins & Hi). apply bind_ok in Hi as ([t2 dg] & Hap & [= <-]).
  apply append_readable in Hap; [done| |].
  - apply plain_obj; [by apply (bool_decide_unpack _)|]. by repeat constructor; lia.
  - unfold insert_attempt_row in Hins. ok_inv. by subst t1.
Qed.

Lemma start_readable s created now fresh logical t t' d :
  recovery_ok t -> Z.of_nat (length (logical_attempts t logical)) < SAFE_INTEGER_MAX ->
  start_or_resume (sess s) created now fresh logical t = Ok (t', d) -> readable t = true -> readable t' = true.
Proof.
  intros Hok Hmax Hst Hr. pose proof (latest_attempt_row_ok t logical Hok) as Hlat. unfold start_or_resume in Hst.
  apply bind_ok in Hst as ([] & _ & Hst). apply bind_ok in Hst as ([] & _ & Hst).
  destruct (find_commit logical t) as [k|].
  { destruct (_latest_attempt_row t logical); [|done]. by injection Hst as <- _. }
  destruct (_latest_attempt_row t logical) as [v|].
  - destruct Hlat as (Hl & El & _). pose proof (last_number t _ Hok Hl) as Hn. rewrite El in Hn.
    apply bind_ok in Hst as ([] & _ & Hst). destruct (String.eqb _ "retry"); [|by injection Hst as <- _].
    apply bind_ok in Hst as ([] & _ & Hst). apply bind_ok in Hst as (t1 & Hi & [= <- _]).
    eapply insert_readable; [|exact Hi|done]. lia.
  - apply bind_ok in Hst as (t1 & Hi & [= <- _]). eapply insert_readable; [|exact Hi|done]. done.
Qed.

(** Plain data keep the tables readable. *)
Lemma plain_step_readable s t t' : recovery_ok t -> plain_step s t t' -> readable t = true -> readable t' = true.
Proof.
  intros Hok Hs Hr. destruct Hs as [Ho|created now fresh logical d Hmax Hst|now run state payload manifest digest Hp Hc|now run digest Ha].
  - by rewrite (open_keeps s t t' Hok Ho).
  - by eapply start_readable.
  - unfold checkpoint in Hc. apply bind_ok in Hc as ([] & _ & Hc). apply bind_ok in Hc as ([] & _ & Hc).
    destruct (find_attempt run t) as [a|]; [|done]. apply bind_ok in Hc as ([] & _ & Hc). apply bind_ok in Hc as ([] & _ & Hc).
    destruct (latest_checkpoint t run) as [latest|]; [|done]. destruct (list_find _ _) as [[index x]|]; [|done].
    apply bind_ok in Hc as ([] & _ & Hc). apply bind_ok in Hc as ([] & _ & Hc). apply bind_ok in Hc as ([t1 dg] & Hap & [= <- _]).
    apply append_readable in Hap; [|done..]. by destruct (String.eqb state "manifest-committed").
  - unfold acknowledge in Ha. apply bind_ok in Ha as ([] & _ & Ha). apply bind_ok in Ha as ([] & _ & Ha).
    destruct (find_attempt run t) as [a|]; [|done]. apply bind_ok in Ha as ([] & _ & Ha). apply bind_ok in Ha as ([] & _ & Ha).
    destruct (latest_checkpoint t run) as [latest|]; [|done]. destruct (String.eqb _ "acknowledged"); [by injection Ha as <- _|].
    apply bind_ok in Ha as ([] & _ & Hap). apply append_readable in Hap; [done| |done]. by repeat constructor.
Qed.

(** Tables that do not read back refuse every operation. *)
Lemma start_unreadable s created now fresh logical t : recovery_ok t -> readable t = false -> logical ∈ plan ->
  exists msg, start_or_resume (sess s) created now fresh logical t = Raise (RecoveryIntegrityError msg).
Proof.
  intros Hok Hr Hp. pose proof (audit_verdict campaign plan s t Hok) as Hv. rewrite Hr in Hv. destruct Hv as (msg & Hv).
  exists msg. unfold start_or_resume. cbn [sess logical_execution_ids]. apply mem_spec in Hp as ->. by rewrite Hv.
Qed.

Lemma step_readable s t t' : recovery_ok t -> step s t t' -> readable t = true.
Proof.
  intros Hok Hs. pose proof (audit_verdict campaign plan s t Hok) as Hv. destruct (readable t) eqn:Hr; [done|].
  destruct Hv as (msg & Hv). destruct Hs as [Ho|created now fresh logical d Hst|now run state payload manifest digest Hc|now run digest Ha].
  - pose proof (open_keeps s t t' Hok Ho) as ->. unfold open_journal in Ho. do 5 (apply bind_ok in Ho as ([] & _ & Ho)).
    apply bind_ok in Ho as (u & _ & Ho). apply bind_ok in Ho as ([] & Hu & [= ->]). unfold audit in Hu. by rewrite Hv in Hu.
  - unfold start_or_resume in Hst. apply bind_ok in Hst as ([] & _ & Hst). by rewrite Hv in Hst.
  - unfold checkpoint in Hc. apply bind_ok in Hc as ([] & _ & Hc). by rewrite Hv in Hc.
  - unfold acknowledge in Ha. apply bind_ok in Ha as ([] & _ & Ha). by rewrite Hv in Ha.
Qed.
End Steps.

(** * The recovery journal refines a machine per execution

    An execution is seen as its latest attempt: the physical run, its number, the
    stage of its last checkpoint and the session that owns it ([execution_of]).
    [execution_step] is the specification: how an event moves it. *)


Record execution := { ex_run : string; ex_attempt : Z; ex_stage : string; ex_owner : string }.

Definition execution_of (t : tables) (logical : string) : option execution :=
  a ← last (logical_attempts t logical);
  c ← latest_checkpoint t (at_run a);
  Some {| ex_run := at_run a; ex_attempt := at_number a; ex_stage := cp_state c; ex_owner := at_owner a |}.

Definition next_stage (stage : string) : option string :=
  p ← list_find (eq stage) CHECKPOINT_STATES; CHECKPOINT_STATES !! S p.1.

(** The target was running under another session: its outcome is unknown. *)
Definition interrupted (s : string) (e : execution) : bool :=
  String.eqb (ex_stage e) "running" && negb (String.eqb (ex_owner e) s).

Inductive execution_step (s : string) : event -> option execution -> execution -> Prop :=
| ex_started run :
    execution_step s (Started run) None {| ex_run := run; ex_attempt := 1; ex_stage := "leased"; ex_owner := s |}
| ex_claimed e :
    interrupted s e = false ->
    execution_step s Claimed (Some e)
      {| ex_run := ex_run e; ex_attempt := ex_attempt e; ex_stage := ex_stage e; ex_owner := s |}
| ex_retried e run :
    interrupted s e = true -> run <> ex_run e ->
    execution_step s (Retried run) (Some e)
      {| ex_run := run; ex_attempt := ex_attempt e + 1; ex_stage := "leased"; ex_owner := s |}
| ex_advanced e state :
    ex_owner e = s -> next_stage (ex_stage e) = Some state ->
    execution_step s (Advanced state) (Some e)
      {| ex_run := ex_run e; ex_attempt := ex_attempt e; ex_stage := state; ex_owner := s |}.

Section Refinement.
Context `{JCSLaws} `{PyTables}.
Context (campaign : string) (plan : list string).
#[local] Notation sess := (sess campaign plan).
#[local] Notation recovery_ok := (recovery_ok campaign plan).
#[local] Notation transition := (transition campaign plan).

Lemma execution_of_last t init a c logical :
  logical_attempts t logical = init ++ [a] -> latest_checkpoint t (at_run a) = Some c ->
  execution_of t logical = Some {| ex_run := at_run a; ex_attempt := at_number a; ex_stage := cp_state c; ex_owner := at_owner a |}.
Proof. intros E Hc. unfold execution_of. by rewrite E, last_snoc; cbn; rewrite Hc. Qed.

Lemma execution_of_is_last t a c :
  is_last t a -> latest_checkpoint t (at_run a) = Some c ->
  execution_of t (at_logical a) = Some {| ex_run := at_run a; ex_attempt := at_number a; ex_stage := cp_state c; ex_owner := at_owner a |}.
Proof. intros (init & E & _). by apply (execution_of_last t init). Qed.

Lemma execution_of_some t logical e :
  recovery_ok t -> execution_of t logical = Some e ->
  exists a c, is_last t a /\ at_logical a = logical /\ latest_checkpoint t (at_run a) = Some c /\
    e = {| ex_run := at_run a; ex_attempt := at_number a; ex_stage := cp_state c; ex_owner := at_owner a |}.
Proof.
  intros Hok He. unfold execution_of in He. destruct (last (logical_attempts t logical)) as [a|] eqn:El; [|done]. cbn in He.
  destruct (latest_checkpoint t (at_run a)) as [c|] eqn:Ec; [|done]. cbn in He. injection He as <-.
  apply last_Some in El as [init El]. pose proof (latest_is_last _ _ _ _ El) as Hl. exists a, c. split_and!; [|done|done|done].
  destruct (ok_groups _ _ _ _ Hok logical) as (_ & _ & init' & a' & E' & Hi & _); [|done|].
  - rewrite <- Hl. apply list_elem_of_fmap_2. apply (elem_of_logical t logical). rewrite El. apply elem_of_app. right. left.
  - rewrite El in E'. apply app_inj_tail in E' as [<- <-]. exists init. by rewrite Hl.
Qed.

Lemma execution_of_none t logical : recovery_ok t -> execution_of t logical = None <-> logical ∉ (at_logical <$> t_attempts t).
Proof.
  intros Hok. split.
  - intros He Hin. destruct (ok_groups _ _ _ _ Hok logical Hin) as (_ & _ & init & a & E & _); [done|].
    assert (a ∈ t_attempts t) as Ha by (apply (elem_of_logical t logical); rewrite E; apply elem_of_app; right; left).
    destruct (ok_attempts _ _ _ _ Hok a Ha) as [_ _ (c & Hc & _)]. by rewrite (execution_of_last t init a c logical E Hc) in He.
  - intros Hl. unfold execution_of. by rewrite unknown_logical.
Qed.

(** An execution is left alone by what leaves its attempts and their checkpoints alone. *)
Lemma execution_of_same t t' logical :
  logical_attempts t' logical = logical_attempts t logical ->
  (forall a, a ∈ logical_attempts t logical -> latest_checkpoint t' (at_run a) = latest_checkpoint t (at_run a)) ->
  execution_of t' logical = execution_of t logical.
Proof.
  intros E Hc. unfold execution_of. rewrite E. destruct (last (logical_attempts t logical)) as [a|] eqn:El; [|done]. cbn.
  rewrite Hc; [done|]. apply last_Some in El as [init ->]. apply elem_of_app. right. left.
Qed.

Lemma latest_next t a c : rows_ok campaign plan a (run_checkpoints t (at_run a)) ->
  next_row campaign plan a (run_checkpoints t (at_run a)) c ->
  forall run, latest_checkpoint (add_checkpoint c t) run = if String.eqb (at_run a) run then Some c else latest_checkpoint t run.
Proof.
  intros Hr Hn run. unfold latest_checkpoint. rewrite (run_checkpoints_next campaign plan t a c run Hr Hn).
  destruct (String.eqb (at_run a) run); [by rewrite last_snoc|done].
Qed.

Lemma next_stage_of t a latest c : attempt_ok campaign plan t a -> latest_checkpoint t (at_run a) = Some latest ->
  next_row campaign plan a (run_checkpoints t (at_run a)) c -> next_stage (cp_state latest) = Some (cp_state c).
Proof.
  intros Ha Hl Hn. destruct (latest_row _ _ t a latest Ha Hl) as (index & _ & Hlen & Hf). unfold next_stage. rewrite Hf.
  change (CHECKPOINT_STATES !! S index = Some (cp_state c)). rewrite <- Hlen. apply Hn.
Qed.

(** The members of another execution run elsewhere. *)
Lemma other_run t a b logical : constraints t -> a ∈ t_attempts t -> b ∈ logical_attempts t logical -> at_logical a <> logical ->
  at_run a <> at_run b.
Proof. intros Hc Ha [Hb El]%elem_of_logical Hne E. apply (run_unique t a b Hc Ha Hb) in E as ->. done. Qed.

Definition refines (s : string) (t : tables) (logical : string) (ev : event) (t' : tables) : Prop :=
  (exists e', execution_of t' logical = Some e' /\ execution_step s ev (execution_of t logical) e') /\
  forall other, other <> logical -> execution_of t' other = execution_of t other.

Lemma claim_refines s t a c :
  recovery_ok t -> is_last t a -> latest_checkpoint t (at_run a) = Some c -> cp_state c <> "running" \/ at_owner a = s ->
  refines s t (at_logical a) Claimed (update_attempt (at_run a) (with_owner s) t).
Proof.
  intros Hok Hl Hc Hs. pose proof (ok_constraints _ _ _ _ Hok) as Hcs. split.
  - rewrite (execution_of_is_last t a c Hl Hc). destruct Hl as (init & E & _).
    eexists. split; [eapply (execution_of_last _ init (with_owner s a) c); [by apply update_last|exact Hc]|].
    refine (ex_claimed s {| ex_run := at_run a |} _). unfold interrupted. cbn. apply andb_false_iff.
    destruct Hs as [Hs| ->]; [left; by apply String.eqb_neq|right; by rewrite String.eqb_refl].
  - intros other Hne. apply execution_of_same; [|done]. apply logical_attempts_other; [done|by apply is_last_elem|done|congruence].
Qed.

Lemma next_refines s t a c :
  recovery_ok t -> is_last t a -> at_owner a = s -> next_row campaign plan a (run_checkpoints t (at_run a)) c ->
  refines s t (at_logical a) (Advanced (cp_state c)) (add_checkpoint c t).
Proof.
  intros Hok Hl Ho Hn. pose proof (is_last_elem _ _ Hl) as Ha. pose proof (ok_attempts _ _ _ _ Hok a Ha) as Hat.
  pose proof (latest_next t a c (attempt_rows _ _ _ _ Hat) Hn) as Hlat. destruct (attempt_latest _ _ _ _ Hat) as (latest & Hc & _). split.
  - rewrite (execution_of_is_last t a latest Hl Hc). destruct Hl as (init & E & _).
    eexists. split; [apply (execution_of_last _ init a c); [exact E|by rewrite Hlat, String.eqb_refl]|]. rewrite Ho.
    refine (ex_advanced s {| ex_run := at_run a |} (cp_state c) eq_refl _). by eapply next_stage_of.
  - intros other Hne. apply execution_of_same; [done|]. intros b Hb. rewrite Hlat.
    assert (at_run a <> at_run b) as ->%String.eqb_neq by (eapply other_run; [by apply Hok|done|done|congruence]). done.
Qed.

(** Changing the disposition of an attempt, or adding a commit, does not show. *)
Lemma disposition_unseen t run d logical : execution_of (update_attempt run (with_disposition d) t) logical = execution_of t logical.
Proof.
  unfold execution_of. rewrite logical_attempts_update by done. rewrite fmap_last.
  destruct (last (logical_attempts t logical)) as [a|]; [|done]. cbn. unfold at_run_only. by destruct (String.eqb (at_run a) run).
Qed.

(** A new attempt of the execution with its first checkpoint. *)
Lemma new_attempt_seen s t u a c :
  constraints t -> (at_run a ∉ (at_run <$> t_attempts t)) -> next_row campaign plan a [] c -> at_owner a = s ->
  t_checkpoints u = t_checkpoints t -> (at_run <$> t_attempts u) = (at_run <$> t_attempts t) ->
  (forall l, execution_of u l = execution_of t l) ->
  Forall (fun b => at_number b < at_number a) (logical_attempts u (at_logical a)) ->
  execution_of (add_checkpoint c (add_attempt a u)) (at_logical a) =
    Some {| ex_run := at_run a; ex_attempt := at_number a; ex_stage := "leased"; ex_owner := s |} /\
  forall other, other <> at_logical a -> execution_of (add_checkpoint c (add_attempt a u)) other = execution_of t other.
Proof.
  intros Hcs Hnew Hn Ho Hcp Hru Hu Hnum. pose proof (run_checkpoints_unknown t (at_run a) Hcs Hnew) as Hnil.
  assert (forall run, run_checkpoints u run = run_checkpoints t run) as Hrc by (intros run; unfold run_checkpoints; by rewrite Hcp).
  assert (forall run, latest_checkpoint (add_checkpoint c (add_attempt a u)) run =
    if String.eqb (at_run a) run then Some c else latest_checkpoint u run) as Hlat.
  { intros run. unfold latest_checkpoint. change (run_checkpoints (add_checkpoint c (add_attempt a u)) run) with (run_checkpoints (add_checkpoint c u) run).
    rewrite run_checkpoints_add; rewrite (next_run _ _ _ _ _ Hn); [|by rewrite Hrc, Hnil].
    destruct (String.eqb (at_run a) run); [by rewrite last_snoc|done]. }
  assert (forall l, logical_attempts (add_checkpoint c (add_attempt a u)) l =
    if String.eqb (at_logical a) l then logical_attempts u l ++ [a] else logical_attempts u l) as Hla by (intros l; by apply logical_attempts_add).
  split.
  - pose proof (next_state _ _ _ _ _ Hn) as Hst. cbn in Hst. injection Hst as Hst. rewrite Hst, <- Ho.
    apply (execution_of_last _ (logical_attempts u (at_logical a))); [by rewrite Hla, String.eqb_refl|by rewrite Hlat, String.eqb_refl].
  - intros other Hne. rewrite <- Hu. apply execution_of_same.
    + rewrite Hla. apply not_eq_sym, String.eqb_neq in Hne as ->. done.
    + intros b [Hb _]%elem_of_logical. rewrite Hlat. destruct (String.eqb_spec (at_run a) (at_run b)) as [E|]; [|done].
      destruct Hnew. rewrite E, <- Hru. by apply list_elem_of_fmap_2.
Qed.

Theorem transition_refines s t logical ev t' :
  recovery_ok t -> transition s t logical ev t' -> refines s t logical ev t'.
Proof.
  intros Hok. pose proof (ok_constraints _ _ _ _ Hok) as Hcs.
  destruct 1 as [a Hl (c & Hc & Hs)|a c Hl Ho Hn Hc Hd|a c k Hl Ho Hact Hn Hc Hs Er El Em Ec Hdg|a c Hun Hp Ho En Ep Ed Hnew Hc Hn _
    |b latest a c Hl Hact Hlat Hrun Hne El Ho En Ep Ed Hnew u Hc Hn _].
  - by eapply claim_refines.
  - by apply next_refines.
  - destruct (next_refines s t a c Hok Hl Ho Hn) as [(e' & He & Hst) Hoth]. rewrite Hs in Hst. split.
    + exists e'. split; [|done]. by rewrite disposition_unseen.
    + intros other Hne. rewrite disposition_unseen. by apply Hoth.
  - destruct (new_attempt_seen s t t a c Hcs Hnew Hn Ho eq_refl eq_refl (fun _ => eq_refl)) as [He Hoth]; [by rewrite unknown_logical|].
    split; [|done]. eexists. split; [exact He|]. rewrite (proj2 (execution_of_none t _ Hok) Hun), En. constructor.
  - pose proof (last_number campaign plan t b Hok Hl) as Hb.
    destruct (new_attempt_seen s t u a c Hcs Hnew Hn Ho eq_refl) as [He Hoth].
    + unfold u. rewrite update_attempt_eq. apply fmap_identity. intros x. by apply at_run_only_identity.
    + intros l. apply disposition_unseen.
    + pose proof (interrupt_ok _ _ t b latest Hok Hl Hact Hlat Hrun) as Hset. rewrite <- El in Hset.
      apply (settled_numbers_below (logical_attempts u (at_logical a))); [by apply (ok_settled _ _ _ _ Hset)|].
      unfold u. by rewrite logical_attempts_update, length_fmap, En, El, Hb.
    + split; [|done]. eexists. split; [exact He|]. rewrite El, (execution_of_is_last t b latest Hl Hlat), En.
      refine (ex_retried s {| ex_run := at_run b |} (at_run a) _ _).
      * unfold interrupted. cbn. rewrite Hrun. by apply String.eqb_neq in Hne as ->.
      * cbn. intros E. apply Hnew. rewrite E. by apply list_elem_of_fmap_2, is_last_elem.
Qed.

(** The answer of [start_or_resume] describes the execution it leaves. *)
Definition action_of (ev : event) (stage : string) : string :=
  match ev with
  | Started _ => "start"
  | Retried _ => "retry"
  | _ => if mem stage COMMITTED_STATES then "committed" else "continue"
  end.

Theorem start_refines s created now fresh logical t t' d :
  recovery_ok t -> start_or_resume (sess s) created now fresh logical t = Ok (t', d) ->
  exists ev e' reason, transition s t logical ev t' /\ execution_of t' logical = Some e' /\
    execution_step s ev (execution_of t logical) e' /\ ex_owner e' = s /\
    d = decision (action_of ev (ex_stage e')) logical (ex_run e') (ex_attempt e') (ex_stage e') reason.
Proof.
  intros Hok Hs. destruct (start_transition campaign plan s created now fresh logical t t' d Hok Hs) as (ev & Ht & Hd).
  destruct (transition_refines s t logical ev t' Hok Ht) as [(e' & He' & Hst) _]. pose proof (latest_attempt_row_ok campaign plan t logical Hok) as Hlat.
  assert (forall v, _latest_attempt_row t logical = Some v -> execution_of t logical =
    Some {| ex_run := at_run (av_attempt v); ex_attempt := at_number (av_attempt v); ex_stage := av_latest_state v; ex_owner := at_owner (av_attempt v) |}) as Hv.
  { intros v Hv. rewrite Hv in Hlat. destruct Hlat as (Hl & El & c & Hc & Es). rewrite <- El, Es. by apply execution_of_is_last. }
  exists ev, e'. remember (execution_of t logical) as o eqn:Eo. pose proof Hst as Hst'.
  destruct Hst as [run|e Hi|e run Hi Hr|e state Ho Hn]; cbn [answers] in Hd; [| | |done].
  - destruct Hd as [-> ->]. by eexists.
  - destruct Hd as (v & reason & Hlv & ->). exists reason. pose proof (Hv v Hlv) as [= ->]. by split_and!.
  - destruct Hd as (-> & v & Hlv & ->). eexists. pose proof (Hv v Hlv) as [= ->]. by split_and!.
Qed.
End Refinement.
