(* ===== verification/RecoveryTotal.v ===== *)
(** * A restarted execution completes

    Every operation of the recovery journal that its caller may ask for returns,
    unless the SHA-256 digest of the new checkpoint or receipt is already in the
    table ([settles]).  A controller that resumes an execution and walks the
    stages ([complete]) therefore commits and acknowledges it, wherever the last
    one stopped, as long as the stored payloads read back ([readable]). *)

From S2P Require Export RecoverySteps.

Definition digest_collision : exn := IntegrityError "UNIQUE constraint failed: checkpoints.checkpoint_sha256".
Definition receipt_collision : exn := RecoveryConflictError "logical execution already has a different commit".

(** The call returns with [Q], or two digests collide. *)
Definition settles {A} (Q : A -> Prop) (r : result A) : Prop :=
  match r with Ok x => Q x | Raise e => e = digest_collision \/ e = receipt_collision end.

Lemma settles_bind {A B} (P : A -> Prop) (Q : B -> Prop) (m : result A) (f : A -> result B) :
  settles P m -> (forall x, m = Ok x -> P x -> settles Q (f x)) -> settles Q (mbind f m).
Proof. destruct m as [x|e]; cbn; auto. Qed.

Lemma settles_ok {A B} (Q : B -> Prop) (x : A) (m : result A) (f : A -> result B) :
  m = Ok x -> settles Q (f x) -> settles Q (mbind f m).
Proof. by intros ->. Qed.

Section Total.
Context `{JCSLaws} `{PyTables}.
Context (campaign : string) (plan : list string).
#[local] Notation sess := (sess campaign plan).
#[local] Notation recovery_ok := (recovery_ok campaign plan).
#[local] Notation transition := (transition campaign plan).

Definition typed (t : tables) : Prop := Forall (fun a => typed_run (at_run a)) (t_attempts t).

Lemma update_typed run f t : keeps_identity f -> typed t -> typed (update_attempt run f t).
Proof.
  intros Hf Ht. unfold typed. rewrite update_attempt_eq, Forall_fmap. eapply Forall_impl; [exact Ht|]. intros a Ha. cbn.
  by destruct (at_run_only_identity run f Hf a) as (-> & _).
Qed.

Lemma add_typed a t : typed_run (at_run a) -> typed t -> typed (add_attempt a t).
Proof. intros Ha Ht. apply Forall_app. by split; [|constructor]. Qed.

Lemma transition_typed s t logical ev t' : typed t -> transition s t logical ev t' -> typed t'.
Proof.
  intros Ht. destruct 1; try done.
  - by apply update_typed.
  - by apply (update_typed _ _ (add_commit k (add_checkpoint c t))).
  - by apply (add_typed a t).
  - by apply (add_typed a), update_typed.
Qed.

Lemma dumps_bytes v : plain v -> exists text, _canonical_bytes v = Ok text.
Proof. intros (text & Ht)%dumps_total. exists text. by apply canonical_bytes_ok. Qed.
Lemma dumps_sha v : plain v -> exists digest, _sha256 v = Ok digest.
Proof. intros (text & Ht)%dumps_bytes. exists (sha256 text). unfold _sha256. by rewrite Ht. Qed.

Lemma plain_opt o : plain (JOptStr o).
Proof. destruct o; constructor. Qed.

Lemma receipt_plain self logical manifest run : plain (commit_receipt self logical manifest run).
Proof. apply plain_obj; [by apply (bool_decide_unpack _)|]. repeat constructor. apply plain_opt. Qed.

Lemma body_plain self a ordinal receipt session manifest payload previous state recorded :
  1 <= at_number a <= SAFE_INTEGER_MAX -> 1 <= ordinal <= 10 ->
  plain (checkpoint_body self a ordinal receipt session manifest payload previous state recorded).
Proof.
  intros Hn Ho. apply plain_obj; [by apply (bool_decide_unpack _)|]. unfold SAFE_INTEGER_MAX in Hn.
  repeat constructor; try apply plain_opt; unfold SAFE_INTEGER_MAX; cbn; lia.
Qed.

(** Appending the next row returns. *)
Lemma append_total s now run state payload manifest t a :
  plain (JObj payload) -> validate_checkpoint_payload None (JObj payload) = Ok tt ->
  find_attempt run t = Some a -> rows_ok campaign plan a (run_checkpoints t run) ->
  CHECKPOINT_STATES !! length (run_checkpoints t run) = Some state -> 1 <= at_number a <= SAFE_INTEGER_MAX ->
  (state = "manifest-committed" -> manifest <> None /\ (at_logical a ∉ (cm_logical <$> t_commits t)) /\ (run ∉ (cm_run <$> t_commits t))) ->
  settles (fun _ => True) (_append_checkpoint (sess s) now run state payload manifest t).
Proof.
  intros Hp Hv Hf Hr Hst Hnum Hman. unfold _append_checkpoint. rewrite Hv. cbn [mbind result_bind].
  destruct (dumps_bytes _ Hp) as [text ->]. cbn [mbind result_bind]. rewrite Hf. unfold latest_checkpoint. rewrite (rows_previous campaign plan a) by done.
  set (n := length (run_checkpoints t run)) in *. pose proof (lookup_lt_Some _ _ _ Hst) as Hlt. cbn in Hlt.
  assert (exists receipt, (if String.eqb state "manifest-committed" then
     raise_if (is_none manifest) AssertionError;; receipt ← _sha256 (commit_receipt (sess s) (at_logical a) manifest run); Ok (Some receipt)
     else Ok None) = Ok receipt /\ (state = "manifest-committed" -> receipt <> None)) as (receipt & Hrec & Hsome).
  { destruct (String.eqb_spec state "manifest-committed") as [E|]; [|by exists None]. destruct (Hman E) as [Hm _]. destruct manifest; [|done].
    destruct (dumps_sha _ (receipt_plain (sess s) (at_logical a) (Some s0) run)) as [d Hd]. exists (Some d). cbn. by rewrite Hd. }
  eapply settles_ok; [exact Hrec|]. destruct (dumps_sha (checkpoint_body (sess s) a (Z.of_nat n + 1) receipt (controller_session_id (sess s)) manifest
    (sha256 text) (cp_sha256 <$> last (run_checkpoints t run)) state (rfc3339 now))) as [d Hd]; [apply body_plain; lia|].
  eapply settles_ok; [exact Hd|]. eapply (settles_bind (fun _ => True)).
  - unfold insert_checkpoint_row. cbn [cp_run cp_ordinal cp_sha256].
    assert (existsb (fun b => String.eqb (at_run b) run) (t_attempts t) = true) as ->.
    { apply find_attempt_some in Hf as [Hin Er]. apply existsb_exists. exists a. by rewrite <- list_elem_of_In, String.eqb_eq. }
    assert ((1 <=? Z.of_nat n + 1) = true) as -> by lia. cbn [negb raise_if mbind result_bind].
    assert (existsb (fun d => String.eqb (cp_run d) run && (cp_ordinal d =? Z.of_nat n + 1)) (t_checkpoints t) = false) as ->.
    { apply existsb_false, Forall_forall. intros c Hc. destruct (String.eqb_spec (cp_run c) run) as [E|]; [|done]. apply Z.eqb_neq.
      assert (c ∈ run_checkpoints t run) as Hin by by apply elem_of_run_checkpoints.
      apply (list_elem_of_fmap_2 cp_ordinal) in Hin. rewrite (rows_ordinals _ _ _ _ Hr), elem_of_seqZ in Hin. fold n in Hin. lia. }
    cbn [raise_if mbind result_bind]. destruct (existsb _ _); cbn; [by left|done].
  - intros u Hu _. eapply (settles_bind (fun _ => True)); [|done]. destruct (String.eqb_spec state "manifest-committed") as [E|]; [|done].
    destruct (Hman E) as (Hm & Hl & Hrun). specialize (Hsome E). destruct manifest as [m|]; [|done]. destruct receipt as [r|]; [|done].
    unfold insert_commit_row. match goal with |- settles _ (mbind _ (raise_if ?c _)) => destruct c; [by right|exact I] end.
Qed.

(** ** The operations *)

(** An execution that is not committed is active; its last attempt has a number and rows. *)
Lemma execution_facts t logical e :
  recovery_ok t -> typed t -> execution_of t logical = Some e ->
  exists a c, find_attempt (ex_run e) t = Some a /\ is_last t a /\ at_logical a = logical /\ at_run a = ex_run e /\
    latest_checkpoint t (ex_run e) = Some c /\ cp_state c = ex_stage e /\ at_owner a = ex_owner e /\ at_number a = ex_attempt e /\
    typed_run (ex_run e) /\ attempt_ok campaign plan t a /\ 1 <= ex_attempt e /\
    at_disposition a = (if mem (ex_stage e) COMMITTED_STATES then "committed" else "active").
Proof.
  intros Hok Hty He. destruct (execution_of_some _ _ t logical e Hok He) as (a & c & Hl & El & Hc & ->). cbn [ex_run ex_stage ex_attempt ex_owner].
  pose proof (is_last_elem _ _ Hl) as Ha. pose proof (ok_attempts _ _ _ _ Hok a Ha) as Hat.
  exists a, c. split_and!; try done.
  - apply find_attempt_elem; [by apply Hok|done|done].
  - unfold typed in Hty. rewrite Forall_forall in Hty. by apply Hty.
  - rewrite (last_number campaign plan t a Hok Hl). destruct Hl as (init & -> & _). rewrite length_app. cbn. lia.
  - destruct (attempt_latest _ _ _ _ Hat) as (c' & Hc' & Hd). rewrite Hc in Hc'. injection Hc' as <-.
    destruct Hl as (init & E & _). destruct (ok_groups _ _ _ _ Hok (at_logical a)) as (_ & _ & init' & a' & E' & _ & Hdis);
      [by apply list_elem_of_fmap_2|done|]. rewrite E in E'. apply app_inj_tail in E' as [_ <-].
    revert Hd. unfold audit_disposition. destruct Hdis as [Hx|Hx]; rewrite Hx;
      destruct (mem (cp_state c) COMMITTED_STATES), (String.eqb (cp_state c) "running"); cbn; done.
Qed.

Definition on_stage (e : execution) (state : string) : execution :=
  {| ex_run := ex_run e; ex_attempt := ex_attempt e; ex_stage := state; ex_owner := ex_owner e |}.

(** What a caller relies on between two operations. *)
Definition stands (t : tables) (logical : string) (e : execution) : Prop :=
  recovery_ok t /\ typed t /\ execution_of t logical = Some e /\ readable t = true.

Lemma stands_advance s t t' logical e state :
  stands t logical e -> transition s t logical (Advanced state) t' -> ex_owner e = s -> readable t' = true ->
  stands t' logical (on_stage e state).
Proof.
  intros (Hok & Hty & He & _) Ht Ho Hr'. split_and!; [by eapply transition_keeps|by eapply transition_typed| |done].
  destruct (transition_refines _ _ _ _ _ _ _ Hok Ht) as [(e' & -> & Hst) _]. rewrite He in Hst. inversion Hst; subst. done.
Qed.

Lemma next_index t a c state : attempt_ok campaign plan t a -> latest_checkpoint t (at_run a) = Some c -> next_stage (cp_state c) = Some state ->
  exists index, list_find (eq (cp_state c)) CHECKPOINT_STATES = Some (index, cp_state c) /\
    CHECKPOINT_STATES !! S index = Some state /\ length (run_checkpoints t (at_run a)) = S index.
Proof.
  intros Ha Hc Hn. destruct (latest_row _ _ t a c Ha Hc) as (index & _ & Hlen & Hf). exists index. split_and!; [done| |done].
  unfold next_stage in Hn. rewrite Hf in Hn. exact Hn.
Qed.

Lemma active_uncommitted t a logical : recovery_ok t -> is_last t a -> at_logical a = logical -> at_disposition a = "active" ->
  (logical ∉ (cm_logical <$> t_commits t)) /\ (at_run a ∉ (cm_run <$> t_commits t)).
Proof.
  intros Hok Hl El Hd. split; intros (k & Ek & Hk)%list_elem_of_fmap.
  - assert (at_disposition a = "committed") by (apply (last_committed campaign plan t k); congruence). congruence.
  - destruct (ok_commits _ _ _ _ Hok k Hk) as [(b & [Hb Eb]%find_attempt_some & _ & Hdb) _ _].
    assert (a = b) as <- by (apply (run_unique t); [by apply Hok|by apply is_last_elem|done|congruence]). congruence.
Qed.

Definition manifest_for (state : string) (manifest : string) : option string :=
  if String.eqb state "manifest-committed" then Some manifest else None.

Lemma checkpoint_total s now t logical e state manifest :
  stands t logical e -> ex_owner e = s -> ex_attempt e <= SAFE_INTEGER_MAX -> next_stage (ex_stage e) = Some state ->
  state <> "acknowledged" -> fullmatch SHA256_PATTERN manifest = true ->
  settles (fun r => stands r.1 logical (on_stage e state)) (checkpoint (sess s) now (ex_run e) state None (manifest_for state manifest) t).
Proof.
  intros Hst Ho Hmax Hn Hack Hsha. pose proof Hst as (Hok & Hty & He & Hr).
  destruct (execution_facts t logical e Hok Hty He) as (a & c & Hf & Hl & El & Er & Hc & Es & Eo & En & Htr & Hat & Hpos & Hdis).
  rewrite <- Es in Hn. rewrite <- Er in Hc. destruct (next_index t a c state Hat Hc Hn) as (index & Hfind & Hnext & Hlen). rewrite Er in Hc, Hlen.
  assert (mem (ex_stage e) COMMITTED_STATES = false) as Hopen.
  { apply not_true_iff_false. intros [E|[E|[]%elem_of_nil]%elem_of_cons]%mem_spec%elem_of_cons; rewrite <- Es in E; rewrite E in Hn; [|done].
    by injection Hn as <-. }
  rewrite Hopen in Hdis. destruct (checkpoint (sess s) now (ex_run e) state None (manifest_for state manifest) t) as [[t' digest]|x] eqn:Hck.
  - assert (readable t' = true) as Hr'
      by (apply (plain_step_readable campaign plan s t t'); [done| |done]; eapply plain_checkpoint; [|exact Hck]; by repeat constructor).
    apply (checkpoint_transition campaign plan) in Hck as (a' & Hf' & Htr'); [|done]. rewrite Hf in Hf'. injection Hf' as <-.
    rewrite El in Htr'. by apply (stands_advance s t).
  - unfold checkpoint in Hck. rewrite Htr in Hck. cbn [mbind result_bind] in Hck. rewrite (audit_passes campaign plan s t Hok Hr) in Hck.
    cbn [mbind result_bind] in Hck. rewrite Hf, Eo, Ho, Hdis, !String.eqb_refl, Hc in Hck. cbn [sess controller_session_id] in Hck.
    rewrite ?String.eqb_refl, Hfind in Hck. cbn [negb raise_if mbind result_bind] in Hck. rewrite bool_decide_eq_true_2 in Hck by done.
    cbn [negb raise_if mbind result_bind default] in Hck.
    assert ((if String.eqb state "manifest-committed" then match manifest_for state manifest with
      | None => Raise (RecoveryConflictError "manifest commit requires a verified manifest digest")
      | Some m => _require_sha256 "manifest digest" m end
      else raise_if (is_some (manifest_for state manifest)) (RecoveryConflictError "manifest digest is permitted only at manifest commit")) = Ok tt) as Hman.
    { unfold manifest_for, _require_sha256. destruct (String.eqb state "manifest-committed"); [by rewrite Hsha|done]. }
    rewrite Hman in Hck. cbn [mbind result_bind] in Hck.
    assert (settles (fun _ => True) (_append_checkpoint (sess s) now (ex_run e) state [] (manifest_for state manifest) t)) as Happ.
    { apply (append_total s now (ex_run e) state [] _ t a); [by repeat constructor|by vm_compute|done|rewrite <- Er; apply Hat|by rewrite Hlen|lia|].
      intros ->. destruct (active_uncommitted t a logical Hok Hl El Hdis). split_and!; [done|by rewrite El|by rewrite <- Er]. }
    destruct (_append_checkpoint _ _ _ _ _ _ _) as [[u dg]|y]; [done|]. injection Hck as <-. exact Happ.
Qed.

Lemma acknowledge_total s now t logical e :
  stands t logical e -> ex_owner e = s -> ex_attempt e <= SAFE_INTEGER_MAX -> ex_stage e ∈ COMMITTED_STATES ->
  settles (fun r => stands r.1 logical (on_stage e "acknowledged")) (acknowledge (sess s) now (ex_run e) t).
Proof.
  intros Hst Ho Hmax Hcom. pose proof Hst as (Hok & Hty & He & Hr).
  destruct (execution_facts t logical e Hok Hty He) as (a & c & Hf & Hl & El & Er & Hc & Es & Eo & En & Htr & Hat & Hpos & Hdis).
  apply mem_spec in Hcom as Hm. rewrite Hm in Hdis.
  destruct (acknowledge (sess s) now (ex_run e) t) as [[t' digest]|x] eqn:Hck.
  - assert (readable t' = true) as Hr'
      by (apply (plain_step_readable campaign plan s t t'); [done| |done]; by eapply plain_acknowledge).
    apply (acknowledge_transition campaign plan) in Hck as (a' & c' & Hf' & _ & _ & Hc' & Hcase); [|done].
    rewrite Hf in Hf'. injection Hf' as <-. rewrite Hc in Hc'. injection Hc' as <-. rewrite El in Hcase.
    destruct Hcase as [[Ea ->]|Ht]; [|by apply (stands_advance s t)]. split_and!; [done|done| |done]. cbn [fst]. rewrite He. unfold on_stage. rewrite <- Ea, Es. by destruct e.
  - unfold acknowledge in Hck. rewrite Htr in Hck. cbn [mbind result_bind] in Hck. rewrite (audit_passes campaign plan s t Hok Hr) in Hck.
    cbn [mbind result_bind] in Hck. rewrite Hf, Eo, Ho, Hdis, !String.eqb_refl, Hc in Hck. cbn [sess controller_session_id] in Hck.
    rewrite ?String.eqb_refl in Hck. cbn [negb raise_if mbind result_bind] in Hck. destruct (String.eqb_spec (cp_state c) "acknowledged") as [|Hne]; [done|].
    assert (cp_state c = "manifest-committed") as Hmc.
    { rewrite <- Es in Hcom. apply elem_of_cons in Hcom as [?|[?|[]%elem_of_nil]%elem_of_cons]; done. }
    rewrite Hmc in Hck. change (_append_checkpoint (sess s) now (ex_run e) "acknowledged" [] None t = Raise x) in Hck. rewrite <- Er in Hc.
    destruct (next_index t a c "acknowledged" Hat Hc) as (index & _ & Hnext & Hlen); [by rewrite Hmc|].
    assert (settles (fun _ => True) (_append_checkpoint (sess s) now (ex_run e) "acknowledged" [] None t)) as Happ.
    { apply (append_total s now (ex_run e) "acknowledged" [] None t a); [by repeat constructor|by vm_compute|done|rewrite <- Er; apply Hat| |lia|done].
      by rewrite <- Er, Hlen. }
    rewrite Hck in Happ. exact Happ.
Qed.

Lemma insert_attempt_total s created now fresh logical number purpose t :
  constraints t -> typed_run fresh -> (fresh ∉ (at_run <$> t_attempts t)) ->
  Forall (fun b => at_number b < number) (logical_attempts t logical) -> 1 <= number <= SAFE_INTEGER_MAX ->
  purpose ∈ ["initial"; "retry"] ->
  settles (fun _ => True) (_insert_attempt (sess s) created now fresh logical number purpose t).
Proof.
  intros Hc Hty Hnew Hnum Hb Hp. unfold _insert_attempt. rewrite Hty. cbn [mbind result_bind].
  set (a := {| at_run := fresh |}). assert (insert_attempt_row a t = Ok (add_attempt a t)) as Hins.
  { unfold insert_attempt_row, a. cbn [at_run at_logical at_number at_purpose at_disposition]. unfold SAFE_INTEGER_MAX in Hb.
    assert ((9223372036854775807 <? number) = false) as -> by lia. assert ((1 <=? number) = true) as -> by lia.
    apply mem_spec in Hp as ->. apply existsb_key in Hnew as ->. cbn [raise_if mbind result_bind negb orb].
    assert (existsb (fun b => String.eqb (at_logical b) logical && (at_number b =? number)) (t_attempts t) = false) as ->; [|done].
    apply existsb_false, Forall_forall. intros b Hin. destruct (String.eqb_spec (at_logical b) logical) as [E|]; [|done]. apply Z.eqb_neq.
    rewrite Forall_forall in Hnum. specialize (Hnum b). rewrite elem_of_logical in Hnum. specialize (Hnum (conj Hin E)). lia. }
  eapply settles_ok; [exact Hins|]. apply insert_attempt_ok in Hins as (_ & _ & Hc'); [|done].
  assert (run_checkpoints (add_attempt a t) fresh = []) as Hnil by (change (run_checkpoints t fresh = []); by apply run_checkpoints_unknown).
  eapply (settles_bind (fun _ => True)); [|by intros [u d]].
  apply (append_total s now fresh "leased" _ None _ a); [| | |by rewrite Hnil; split|by rewrite Hnil|done|done].
  - apply plain_obj; [by apply (bool_decide_unpack _)|]. by repeat constructor; lia.
  - apply elem_of_cons in Hp as [->|[->|[]%elem_of_nil]%elem_of_cons]; by vm_compute.
  - apply find_attempt_elem; [done|apply elem_of_app; right; left|done].
Qed.

Lemma start_total s created now fresh t logical :
  recovery_ok t -> readable t = true -> typed t -> logical ∈ plan -> typed_run fresh -> (fresh ∉ (at_run <$> t_attempts t)) ->
  Z.of_nat (length (logical_attempts t logical)) < SAFE_INTEGER_MAX ->
  settles (fun _ => True) (start_or_resume (sess s) created now fresh logical t).
Proof.
  intros Hok Hr Hty Hp Hf Hnew Hmax. unfold start_or_resume. cbn [sess logical_execution_ids]. apply mem_spec in Hp as ->.
  rewrite (audit_passes campaign plan s t Hok Hr). cbn [negb raise_if mbind result_bind].
  pose proof (latest_attempt_row_ok campaign plan t logical Hok) as Hlat. destruct (find_commit logical t) as [k|] eqn:Hk.
  { destruct (_latest_attempt_row t logical) as [v|]; [done|]. apply List.find_some in Hk as [Hk%list_elem_of_In <-%String.eqb_eq].
    destruct (ok_commits _ _ _ _ Hok k Hk) as [(b & [Hb _]%find_attempt_some & El & _) _ _]. destruct Hlat. rewrite <- El. by apply list_elem_of_fmap_2. }
  destruct (_latest_attempt_row t logical) as [v|].
  - destruct Hlat as (Hl & El & c & Hc & Es). pose proof (is_last_elem _ _ Hl) as Ha. pose proof (ok_attempts _ _ _ _ Hok _ Ha) as Hat.
    destruct (latest_row _ _ t _ c Hat Hc) as (index & Hi & _ & _). pose proof (last_number campaign plan t _ Hok Hl) as Hn. rewrite El in Hn.
    assert (mem (av_latest_state v) CHECKPOINT_STATES = true) as Hm by (apply mem_spec; rewrite Es; by eapply list_elem_of_lookup_2).
    destruct (String.eqb_spec (recovery_action_for_stage (av_latest_state v) (String.eqb (at_owner (av_attempt v)) (controller_session_id (sess s)))) "quarantine") as [E|_].
    { unfold recovery_action_for_stage in E. rewrite Hm in E. revert E. repeat case_match; done. }
    cbn [raise_if mbind result_bind]. destruct (String.eqb (recovery_action_for_stage _ _) "retry") eqn:Er; [|done].
    assert (av_latest_state v = "running") as Hrun.
    { revert Er. unfold recovery_action_for_stage. rewrite Hm. cbn [negb]. repeat case_match; try done. intros _. by apply String.eqb_eq. }
    rewrite Es in Hrun. assert (at_disposition (av_attempt v) = "active") as Hact.
    { pose proof (execution_of_is_last t _ c Hl Hc) as Hex. rewrite El in Hex.
      destruct (execution_facts t logical _ Hok Hty Hex) as (a & c' & Hfa & _ & _ & _ & _ & _ & _ & _ & _ & _ & _ & Hd).
      cbn [ex_run ex_stage] in *.
      rewrite (find_attempt_elem t _ _ (ok_constraints _ _ _ _ Hok) Ha eq_refl) in Hfa. injection Hfa as <-. by rewrite Hd, Hrun. }
    rewrite Hact. change (negb (String.eqb "active" "active")) with false. cbn [raise_if mbind result_bind].
    eapply (settles_bind (fun _ => True)); [|done]. apply insert_attempt_total; [by apply update_constraints; [|apply Hok]|done| | | |by right; left].
    + rewrite update_attempt_eq, fmap_identity; [done|]. intros x. by apply at_run_only_identity.
    + pose proof (interrupt_ok _ _ t (av_attempt v) c Hok Hl Hact Hc Hrun) as Hset. rewrite El in Hset.
      apply settled_numbers_below; [by apply (ok_settled _ _ _ _ Hset)|]. by rewrite logical_attempts_update, length_fmap, Hn.
    + rewrite Hn. lia.
  - eapply (settles_bind (fun _ => True)); [|done]. apply insert_attempt_total; [by apply Hok|done|done|by rewrite unknown_logical|done|left].
Qed.

(** ** A controller that restarts *)

(** The states between a stage and the commit. *)
Definition stages_after (stage : string) : list string :=
  match list_find (eq stage) CHECKPOINT_STATES with
  | Some (i, _) => drop (S i) (take 9 CHECKPOINT_STATES)
  | None => []
  end.

Fixpoint walk_stages (s : string) (clock : string -> Z) (run manifest : string) (states : list string) (t : tables) : result tables :=
  match states with
  | [] => Ok t
  | state :: rest =>
      '(t, _) ← checkpoint (sess s) (clock state) run state None (manifest_for state manifest) t;
      walk_stages s clock run manifest rest t
  end.

(** Start or resume, walk the remaining stages, acknowledge. *)
Definition complete (s : string) (clock : string -> Z) (fresh logical manifest : string) (t : tables) : result tables :=
  '(t, d) ← start_or_resume (sess s) (clock "created") (clock "leased") fresh logical t;
  match rd_physical_run_id d, rd_resume_state d with
  | Some run, Some stage =>
      t ← walk_stages s clock run manifest (stages_after stage) t;
      '(t, _) ← acknowledge (sess s) (clock "acknowledged") run t;
      Ok t
  | _, _ => Raise AssertionError
  end.

Lemma stages_after_next stage state rest : stages_after stage = state :: rest ->
  next_stage stage = Some state /\ stages_after state = rest /\ state <> "acknowledged".
Proof.
  unfold stages_after, next_stage. destruct (list_find (eq stage) CHECKPOINT_STATES) as [[i x]|] eqn:E; [|done].
  apply list_find_Some in E as (Hi & _). intros Hd. cbn [mbind option_bind fst].
  do 9 (destruct i as [|i]; [first [injection Hd as <- <-; by repeat split|discriminate Hd]|]).
  destruct i; discriminate.
Qed.

Lemma stages_after_nil stage : stage ∈ CHECKPOINT_STATES -> stages_after stage = [] -> stage ∈ COMMITTED_STATES.
Proof.
  intros (i & Hi)%list_elem_of_lookup. do 10 (destruct i as [|i]; [injection Hi as <-; intros Hs; first [discriminate Hs|apply mem_spec; reflexivity]|]). done.
Qed.

Lemma stage_listed t logical e : recovery_ok t -> execution_of t logical = Some e -> ex_stage e ∈ CHECKPOINT_STATES.
Proof.
  intros Hok He. destruct (execution_of_some _ _ t logical e Hok He) as (a & c & Hl & _ & Hc & ->).
  destruct (latest_row _ _ t a c (ok_attempts _ _ _ _ Hok a (is_last_elem _ _ Hl)) Hc) as (i & Hi & _). by eapply list_elem_of_lookup_2.
Qed.

Lemma walk_total s clock logical manifest states : fullmatch SHA256_PATTERN manifest = true ->
  forall t e, stands t logical e -> ex_owner e = s -> ex_attempt e <= SAFE_INTEGER_MAX -> stages_after (ex_stage e) = states ->
  settles (fun t' => exists state, state ∈ COMMITTED_STATES /\ stands t' logical (on_stage e state))
    (walk_stages s clock (ex_run e) manifest states t).
Proof.
  intros Hsha. induction states as [|state rest IH]; intros t e Hst Ho Hmax Hs; cbn [walk_stages].
  - exists (ex_stage e). split; [apply stages_after_nil; [by apply (stage_listed t logical); apply Hst|done]|]. by destruct e.
  - apply stages_after_next in Hs as (Hn & Hrest & Hack).
    eapply settles_bind; [by apply (checkpoint_total s (clock state) t logical e state manifest)|]. intros [u d] _ Hu. cbn [fst] in Hu.
    exact (IH u (on_stage e state) Hu Ho Hmax Hrest).
Qed.

Lemma complete_total s clock fresh logical manifest t :
  recovery_ok t -> readable t = true -> typed t -> logical ∈ plan -> typed_run fresh -> (fresh ∉ (at_run <$> t_attempts t)) ->
  Z.of_nat (length (logical_attempts t logical)) < SAFE_INTEGER_MAX -> fullmatch SHA256_PATTERN manifest = true ->
  settles (fun t' => exists e, stands t' logical e /\ ex_owner e = s /\ ex_stage e = "acknowledged") (complete s clock fresh logical manifest t).
Proof.
  intros Hok Hr Hty Hp Hf Hnew Hmax Hsha. unfold complete. eapply settles_bind; [by apply start_total|]. intros [u d] Hs _.
  destruct (start_refines campaign plan s _ _ fresh logical t u d Hok Hs) as (ev & e & reason & Ht & He & Hst & Ho & ->).
  cbn [decision rd_physical_run_id rd_resume_state]. assert (stands u logical e) as Hu.
  { split_and!; [by eapply transition_keeps|by eapply transition_typed|done|]. by eapply start_readable. }
  assert (ex_attempt e <= SAFE_INTEGER_MAX) as Hatt.
  { assert (forall x, execution_of t logical = Some x -> ex_attempt x < SAFE_INTEGER_MAX) as Hlt.
    { intros x Hx. destruct (execution_of_some _ _ t logical x Hok Hx) as (a & c & Hl & <- & _ & ->). cbn. by rewrite (last_number campaign plan t a Hok Hl). }
    destruct (execution_of t logical) as [x|]; inversion Hst; subst; cbn [ex_attempt]; try done; specialize (Hlt _ eq_refl); lia. }
  eapply settles_bind; [by apply (walk_total s clock logical manifest _ Hsha u e)|]. intros v _ (state & Hcom & Hv).
  eapply settles_bind; [by apply (acknowledge_total s (clock "acknowledged") v logical (on_stage e state))|]. intros [w dg] _ Hw.
  exists (on_stage (on_stage e state) "acknowledged"). by split_and!.
Qed.

Lemma step_typed s t t' : recovery_ok t -> typed t -> step campaign plan s t t' -> typed t'.
Proof. intros Hok Hty [-> |(l & ev & Ht)]%step_transition; [done| |done]. by eapply transition_typed. Qed.

Lemma reachable_typed t : reachable campaign plan t -> typed t.
Proof.
  intros (s & t0 & Ho & Hs). pose proof (open_empty _ _ _ _ Ho) as Hok. assert (typed t0) as Hty.
  { unfold open_journal in Ho. do 5 (apply bind_ok in Ho as ([] & _ & Ho)). apply bind_ok in Ho as (u & Hi & Ho).
    apply bind_ok in Ho as ([] & _ & [= <-]). unfold _initialize in Hi. apply bind_ok in Hi as (m & Hm & Hi). rewrite bool_decide_eq_true_2 in Hi by done. injection Hi as <-. constructor. }
  clear Ho. induction Hs as [t|t u t' [s' Hst] _ IH]; [done|]. apply IH; [by eapply step_keeps|by apply (step_typed s' t u)].
Qed.

(** What a completing controller does are steps of the journal. *)
Lemma walk_steps s clock run manifest states t t' :
  walk_stages s clock run manifest states t = Ok t' -> rtc (some_step campaign plan) t t'.
Proof.
  revert t. induction states as [|state rest IH]; intros t; cbn [walk_stages]; [by intros [= ->]|].
  intros ([u d] & Hc & Ha)%bind_ok. eapply rtc_l; [|by apply IH]. exists s.
  exact (step_checkpoint _ _ s t u (clock state) run state None (manifest_for state manifest) d Hc).
Qed.

Lemma complete_steps s clock fresh logical manifest t t' :
  complete s clock fresh logical manifest t = Ok t' -> rtc (some_step campaign plan) t t'.
Proof.
  unfold complete. intros ([u d] & Hs & Hc)%bind_ok. eapply rtc_l; [exists s; by eapply step_start|].
  destruct (rd_physical_run_id d) as [run|], (rd_resume_state d) as [stage|]; try done.
  apply bind_ok in Hc as (v & Hv%walk_steps & Hc). apply bind_ok in Hc as ([w dg] & Ha & [= <-]).
  eapply rtc_r; [exact Hv|]. exists s. by eapply step_acknowledge.
Qed.
End Total.
