(* ===== verification/RecoveryProperties.v ===== *)
(** * Properties of the recovery journal

    What the scheduler's recovery journal guarantees over every sequence of
    sessions and operations, with a concrete campaign in [RecoverySample]. *)

From S2P Require Export RecoveryTotal.
From S2P Require Import JsonRoundtrip.

Section Properties.
Context `{JCSLaws} `{PyTables}.
Context (campaign : string) (plan : list string).
#[local] Notation sess := (sess campaign plan).
#[local] Notation reachable := (reachable campaign plan).

(** C26: the journal rejects itself for one reason only.  Whatever sessions did with it, in whatever order and with
    whatever payloads the checkpoints accept, its audit (metadata, checkpoint prefixes, hash chains, dispositions,
    attempt numbers, commits and receipts) passes for every session, and every session with a valid identifier can
    open it again, exactly as long as the stored text of every payload reads back: decodes to an object with that
    canonical text.  Payloads without floats always do.  Once one does not, the audit and the opening raise
    RecoveryIntegrityError and no operation of any session returns any more. *)
Theorem recovery_always_audits t :
  reachable t ->
  (forall s, verdict (readable t) tt (audit (sess s) t)) /\
  (forall s, fullmatch SAFE_IDENTIFIER_PATTERN s = true -> verdict (readable t) t (open_journal (sess s) t)) /\
  (forall s t', plain_step campaign plan s t t' -> readable t' = true) /\
  (forall s t', step campaign plan s t t' -> readable t = true).
Proof.
  intros Hr. pose proof (reachable_recovery_ok _ _ t Hr) as Hok. split_and!.
  - intros s. by apply audit_verdict.
  - intros s Hs. destruct Hr as (s0 & t0 & Ho & _). by apply (open_again campaign plan s0 s t0 t).
  - intros s t' Hs. pose proof (step_readable _ _ s t t' Hok (plain_is_step _ _ s t t' Hs)). by apply (plain_step_readable campaign plan s t).
  - intros s t'. by apply step_readable.
Qed.

(** C27: the journal implements one state machine per execution: an operation of session [s] that returns changes at
    most one execution, and that one as specified: it starts at attempt 1, [leased]; it is claimed as it stands; it is
    retried under a new physical run and the next number, only when its target was running under another session; or
    its owner advances it to the next stage. *)
Theorem recovery_refines s t t' :
  reachable t -> step campaign plan s t t' ->
  (forall logical, execution_of t' logical = execution_of t logical) \/
  exists logical ev e', execution_of t' logical = Some e' /\ execution_step s ev (execution_of t logical) e' /\
    forall other, other <> logical -> execution_of t' other = execution_of t other.
Proof.
  intros Hr Hs. pose proof (reachable_recovery_ok _ _ t Hr) as Hok.
  destruct (step_transition _ _ s t t' Hok Hs) as [->|(logical & ev & Ht)]; [by left|right].
  destruct (transition_refines _ _ s t logical ev t' Hok Ht) as [(e' & He & Hst) Hoth]. by exists logical, ev, e'.
Qed.

Lemma commit_planned t k : recovery_ok campaign plan t -> k ∈ t_commits t -> cm_logical k ∈ plan.
Proof.
  intros Hok Hk. destruct (ok_commits _ _ _ _ Hok k Hk) as [(a & [Ha _]%find_attempt_some & <- & _) _ _].
  by apply (attempt_planned campaign plan t a), (ok_attempts _ _ _ _ Hok).
Qed.

Lemma committed_start s created now fresh t k :
  recovery_ok campaign plan t -> readable t = true -> k ∈ t_commits t ->
  exists t' d, start_or_resume (sess s) created now fresh (cm_logical k) t = Ok (t', d) /\
    rd_action d = "committed" /\ rd_physical_run_id d = Some (cm_run k).
Proof.
  intros Hok Hread Hk. destruct (ok_commits _ _ _ _ Hok k Hk) as [(a & Hf & El & Ed) _ _]. apply find_attempt_some in Hf as [Ha Er].
  pose proof (open_is_last _ _ t a Hok Ha (or_intror Ed)) as Hl. pose proof (latest_attempt_row_ok _ _ t (cm_logical k) Hok) as Hlat.
  unfold start_or_resume. cbn [sess logical_execution_ids].
  pose proof (attempt_planned _ _ _ _ (ok_attempts _ _ _ _ Hok a Ha)) as Hp. rewrite El in Hp. apply mem_spec in Hp as ->.
  rewrite (audit_passes campaign plan s t Hok Hread). cbn [negb raise_if mbind result_bind].
  assert (find_commit (cm_logical k) t = Some k) as -> by (apply find_key; [apply (ok_constraints _ _ _ _ Hok)|done]).
  destruct (_latest_attempt_row t (cm_logical k)) as [v|].
  - destruct Hlat as ((init & E & _) & El' & _). destruct Hl as (init' & E' & _). rewrite El' in E. rewrite El, E in E'.
    apply app_inj_tail in E' as [_ Ev]. eexists _, _. split; [done|]. cbn. by rewrite Ev, Er.
  - destruct Hlat. rewrite <- El. by apply list_elem_of_fmap_2.
Qed.

(** C10: an execution is committed at most once and for good: once a commit is recorded, every later journal holds
    that commit and no other of the execution, and no further attempt of it.  Whoever asks to start or resume it is
    answered with the committed physical run as long as the payload texts of the journal read back (which those of
    payloads without floats do); otherwise the request raises RecoveryIntegrityError. *)
Theorem commit_exactly_once t t' k :
  reachable t -> rtc (some_step campaign plan) t t' -> k ∈ t_commits t ->
  k ∈ t_commits t' /\ (forall k', k' ∈ t_commits t' -> cm_logical k' = cm_logical k -> k' = k) /\
  runs t' (cm_logical k) = runs t (cm_logical k) /\
  forall s created now fresh,
    if readable t' then exists t'' d,
      start_or_resume (sess s) created now fresh (cm_logical k) t' = Ok (t'', d) /\
      rd_action d = "committed" /\ rd_physical_run_id d = Some (cm_run k)
    else exists msg, start_or_resume (sess s) created now fresh (cm_logical k) t' = Raise (RecoveryIntegrityError msg).
Proof.
  intros Hr Hs Hk. pose proof (reachable_recovery_ok _ _ t Hr) as Hok. destruct (steps_keep _ _ t t' Hok Hs) as [Hok' [Hc Hruns]].
  assert (k ∈ t_commits t') as Hk' by (destruct Hc as [rest ->]; apply elem_of_app; by left). split_and!; [done| | |].
  - intros k' Hin E. by apply (NoDup_fmap_elem_inj cm_logical (t_commits t')); [apply (ok_constraints _ _ _ _ Hok')|..].
  - apply Hruns. by apply list_elem_of_fmap_2.
  - intros s created now fresh. destruct (readable t') eqn:Hread; [by apply committed_start|].
    apply (start_unreadable campaign plan); [done..|]. by apply (commit_planned t').
Qed.

(** C6: wherever earlier sessions stopped, a new session that starts or resumes an execution of the plan, walks the
    remaining stages and acknowledges ends with the execution committed and acknowledged in a journal that is again
    reachable and reads back.  Two things can stop it: two records with one SHA-256 digest, which the tables refuse,
    and a recorded payload whose text does not read back (never one without floats), for which the start raises
    RecoveryIntegrityError. *)
Theorem restart_completes s clock fresh logical manifest t :
  reachable t -> logical ∈ plan -> typed_run fresh -> (fresh ∉ (at_run <$> t_attempts t)) ->
  Z.of_nat (length (logical_attempts t logical)) < SAFE_INTEGER_MAX -> fullmatch SHA256_PATTERN manifest = true ->
  if readable t then
    settles (fun t' => reachable t' /\ readable t' = true /\
                       exists e k, execution_of t' logical = Some e /\ ex_stage e = "acknowledged" /\
                       ex_owner e = s /\ k ∈ t_commits t' /\ cm_logical k = logical /\ cm_run k = ex_run e)
      (complete campaign plan s clock fresh logical manifest t)
  else exists msg, complete campaign plan s clock fresh logical manifest t = Raise (RecoveryIntegrityError msg).
Proof.
  intros Hr Hp Hf Hnew Hmax Hsha. pose proof (reachable_recovery_ok _ _ t Hr) as Hok. destruct (readable t) eqn:Hread.
  2:{ destruct (start_unreadable campaign plan s (clock "created") (clock "leased") fresh logical t Hok Hread Hp) as (msg & Hst).
      exists msg. unfold complete. by rewrite Hst. }
  pose proof (complete_total campaign plan s clock fresh logical manifest t Hok Hread (reachable_typed _ _ t Hr) Hp Hf Hnew Hmax Hsha) as Hc.
  destruct (complete _ _ _ _ _ _ _ _) as [t'|] eqn:Hcomplete; [|done]. destruct Hc as (e & (Hok' & Hty & He & Hread') & Ho & Hs).
  apply complete_steps in Hcomplete. split_and!; [destruct Hr as (s0 & t0 & Ho' & Hs'); exists s0, t0; split; [done|by trans t]|done|].
  destruct (execution_facts campaign plan t' logical e Hok' Hty He) as (a & c & Hfa & Hl & El & Er & _ & _ & _ & _ & _ & _ & _ & Hd).
  rewrite Hs in Hd. assert (at_run a ∈ committed_runs t') as Hrun by (apply elem_of_committed_runs; exists a; split_and!; [by apply is_last_elem|done|done]).
  apply (ok_committed _ _ _ _ Hok'), list_elem_of_fmap in Hrun as (k & Ek & Hk). exists e, k. split_and!; try done; [|congruence].
  destruct (ok_commits _ _ _ _ Hok' k Hk) as [(b & Hb & Elb & _) _ _]. rewrite <- Ek, Er, Hfa in Hb. injection Hb as <-. congruence.
Qed.
End Properties.

(** ** A campaign interrupted while its target runs *)
Module RecoverySample.
#[local] Existing Instance ascii_tables.
#[local] Existing Instance reference_jcs.
#[local] Instance sample_float : PyFloat := fun _ => SpecFloat.S754_nan.

Definition digest64 : string := "0123456789abcdef0123456789abcdef0123456789abcdef0123456789abcdef".
Definition campaign : string := "rcid:v1:campaign-manifest:h:jcs-sha256-v1:" +:+ digest64.
Definition first : string := "rcid:v1:logical-execution:h:jcs-sha256-v1:" +:+ digest64.
Definition plan : list string := [first].
Definition run1 : string := "rcid:v1:physical-run:u7:01890a5d-ac96-774b-bcce-b302099a8057".
Definition run2 : string := "rcid:v1:physical-run:u7:01890a5d-ac96-774b-bcce-b302099a8058".
Definition clock (state : string) : Z := 1700000000000000 + str_len state.

(** Session [night] starts the execution and stops while the target runs. *)
Definition opened : tables := Eval vm_compute in
  match open_journal (sess campaign plan "night") empty_tables with Ok t => t | Raise _ => empty_tables end.
Definition returned {A} (default : A) (r : result (tables * A)) : tables * A := match r with Ok p => p | Raise _ => (empty_tables, default) end.
Definition starting : tables * RecoveryDecision := Eval vm_compute in
  returned (decision "" "" "" 0 "" "") (start_or_resume (sess campaign plan "night") 0 1 run1 first opened).
Definition preparing : tables * string := Eval vm_compute in
  returned "" (checkpoint (sess campaign plan "night") 2 run1 "environment-ready" None None starting.1).
Definition engine : list (string * json) := [("engine", JStr "pcre2")].
Definition launching : tables * string := Eval vm_compute in
  returned "" (checkpoint (sess campaign plan "night") 3 run1 "running" (Some engine) None preparing.1).
Definition started : tables := starting.1.
Definition running : tables := launching.1.

(** Session [morning] completes it. *)
Definition completed : tables := Eval vm_compute in
  match complete campaign plan "morning" clock run2 first digest64 running with Ok t => t | Raise _ => empty_tables end.
Definition receipt : commit_row := Eval vm_compute in
  match t_commits completed with k :: _ => k | [] => {| cm_logical := ""; cm_run := ""; cm_manifest := ""; cm_receipt := "" |} end.

Lemma opened_night : open_journal (sess campaign plan "night") empty_tables = Ok opened.
Proof. vm_cast_no_check (eq_refl (Ok opened)). Qed.

Lemma starting_step : step campaign plan "night" opened started.
Proof.
  apply (step_start _ _ _ _ _ 0 1 run1 first starting.2). vm_cast_no_check (eq_refl (Ok starting)).
Qed.

Lemma running_reachable : reachable campaign plan running.
Proof.
  exists "night", opened. split; [exact opened_night|]. apply (rtc_l _ _ started); [|apply (rtc_l _ _ preparing.1); [|apply rtc_once]]; exists "night".
  - exact starting_step.
  - apply (step_checkpoint _ _ _ _ _ 2 run1 "environment-ready" None None preparing.2).
    vm_cast_no_check (eq_refl (Ok preparing)).
  - apply (step_checkpoint _ _ _ _ _ 3 run1 "running" (Some engine) None launching.2).
    vm_cast_no_check (eq_refl (Ok launching)).
Qed.

Lemma completed_morning : complete campaign plan "morning" clock run2 first digest64 running = Ok completed.
Proof. vm_cast_no_check (eq_refl (Ok completed)). Qed.

Lemma completed_reachable : reachable campaign plan completed.
Proof.
  destruct running_reachable as (s & t & Ho & Hs). exists s, t. split; [done|]. trans running; [done|].
  eapply complete_steps; exact completed_morning.
Qed.
End RecoverySample.

Import RecoverySample.
#[local] Existing Instance ascii_tables.
#[local] Existing Instance reference_jcs.
#[local] Existing Instance sample_float.

Lemma running_readable : readable running = true.
Proof. vm_cast_no_check (eq_refl true). Qed.
Lemma completed_readable : readable completed = true.
Proof. vm_cast_no_check (eq_refl true). Qed.

Lemma recovery_always_audits_witness :
  (forall s, audit (sess campaign plan s) running = Ok tt) /\
  open_journal (sess campaign plan "morning") running = Ok running.
Proof.
  destruct (recovery_always_audits campaign plan running running_reachable) as (Ha & Ho & _). rewrite running_readable in Ha, Ho.
  split; [exact Ha|]. apply Ho. by vm_compute.
Defined.

Lemma recovery_refines_witness :
  execution_of opened first = None /\
  execution_of started first = Some {| ex_run := run1; ex_attempt := 1; ex_stage := "leased"; ex_owner := "night" |} /\
  ((forall logical, execution_of started logical = execution_of opened logical) \/
   exists logical ev e', execution_of started logical = Some e' /\ execution_step "night" ev (execution_of opened logical) e' /\
     forall other, other <> logical -> execution_of started other = execution_of opened other).
Proof.
  split; [by vm_compute|]. split; [by vm_compute|]. apply (recovery_refines campaign plan "night" opened started).
  - exists "night", opened. split; [exact opened_night|apply rtc_refl].
  - exact starting_step.
Defined.

Lemma commit_exactly_once_witness :
  cm_run receipt = run2 /\ receipt ∈ t_commits completed /\
  forall s created now fresh, exists t'' d,
    start_or_resume (sess campaign plan s) created now fresh (cm_logical receipt) completed = Ok (t'', d) /\
    rd_action d = "committed" /\ rd_physical_run_id d = Some (cm_run receipt).
Proof.
  assert (receipt ∈ t_commits completed) as Hin by (vm_compute; left).
  split; [done|]. split; [exact Hin|].
  destruct (commit_exactly_once campaign plan completed completed receipt completed_reachable (rtc_refl _ _) Hin) as (_ & _ & _ & Hs).
  rewrite completed_readable in Hs. exact Hs.
Defined.

Lemma restart_completes_witness :
  complete campaign plan "morning" clock run2 first digest64 running = Ok completed /\
  settles (fun t' => reachable campaign plan t' /\ readable t' = true /\
             exists e k, execution_of t' first = Some e /\ ex_stage e = "acknowledged" /\ ex_owner e = "morning" /\ k ∈ t_commits t' /\ cm_logical k = first /\ cm_run k = ex_run e)
    (complete campaign plan "morning" clock run2 first digest64 running).
Proof.
  split; [exact completed_morning|].
  pose proof (restart_completes campaign plan "morning" clock run2 first digest64 running running_reachable) as Hc.
  rewrite running_readable in Hc. apply Hc.
  - left.
  - by vm_compute.
  - apply mem_false. by vm_compute.
  - by vm_compute.
  - by vm_compute.
Defined.

(** ** A payload that does not read back

    RFC 8785 writes an integral double below 10^21 as its digits. *)
Module FloatSample.

Definition integral_digits (f : SpecFloat.spec_float) : option string :=
  match f with
  | SpecFloat.S754_zero _ => Some "0"
  | SpecFloat.S754_finite s m e =>
      let z := (if s then Z.neg m else Z.pos m) * 2 ^ e in
      if (0 <=? e) && (Z.abs z <? 10 ^ 21) then Some (dec z) else None
  | _ => None
  end.

(** The reference serializer, with integral floats. *)
Fixpoint number_text (v : json) : option string :=
  match v with
  | JFloat f => integral_digits f
  | JArr l => items ← mapM number_text l; Some ("[" +:+ join "," items +:+ "]")
  | JObj fields =>
      items ← mapM (fun p => t ← number_text p.2; Some (p.1, json_quote p.1 +:+ ":" +:+ t)) fields;
      Some ("{" +:+ join "," (snd <$> sorted_by fst items) +:+ "}")
  | v => json_text v
  end.
#[local] Instance number_jcs : JCS := number_text.

(** The float 1e16, the payload with it and the tables after its checkpoint. *)
Definition huge : json := JFloat (SpecFloat.S754_finite false 5000000000000000 1).
Definition stuck : tables * string := Eval vm_compute in
  returned "" (checkpoint (sess campaign plan "night") 3 run1 "running" (Some [("x", huge)]) None preparing.1).

(** The checkpoint is accepted and from then on the journal refuses every start. *)
Lemma float_payload_locks :
  checkpoint (sess campaign plan "night") 3 run1 "running" (Some [("x", huge)]) None preparing.1 = Ok stuck /\
  (cp_payload_json <$> latest_checkpoint stuck.1 run1) = Some ("{" +:+ json_quote "x" +:+ ":10000000000000000}") /\
  readable stuck.1 = false /\
  start_or_resume (sess campaign plan "night") 4 5 run2 first stuck.1 =
    Raise (RecoveryIntegrityError "attempt checkpoint payload is not strict canonical JSON").
Proof.
  split; [vm_cast_no_check (eq_refl (Ok stuck))|]. split; [reflexivity|]. split; [vm_cast_no_check (eq_refl false)|].
  match goal with |- _ = ?r => vm_cast_no_check (eq_refl r) end.
Qed.
End FloatSample.
