(* ===== verification/Sharding.v ===== *)
(** * Sharding: logical executions partitioned by selection

    sharding.py of the scheduler.  An execution is the pair of fields the source
    reads; [identity] is its argument. *)

From S2P Require Export Prelude.

Record logical_execution := { selection_key : string; logical_execution_id : string }.
Record shard := { shard_id : string; sh_logical_execution_ids : list string; sh_selection_key : string }.

(** [members[offset : offset + size] for offset in range(0, len(members), size)] *)
Definition slices (size : nat) (members : list string) : list (list string) :=
  (fun i => take size (drop (i * size) members)) <$> seq 0 ((length members + (size - 1)) / size).

(** ** Slices *)

Lemma slices_cons size l : (0 < size)%nat -> l <> [] -> slices size l = take size l :: slices size (drop size l).
Proof.
  intros Hs Hl. unfold slices. assert (0 < length l)%nat as Hp by (destruct l; [done|cbn; lia]).
  assert ((length l + (size - 1)) / size = S ((length (drop size l) + (size - 1)) / size))%nat as ->.
  { rewrite length_drop. destruct (le_lt_dec size (length l)).
    - replace (length l + (size - 1))%nat with (length l - size + (size - 1) + 1 * size)%nat by lia.
      rewrite Nat.div_add by lia. lia.
    - replace (length l - size)%nat with 0%nat by lia. rewrite (Nat.div_small (0 + _)) by lia.
      symmetry. apply (Nat.div_unique _ _ _ (length l - 1)); lia. }
  cbn [seq fmap list_fmap]. rewrite drop_0. f_equal. rewrite <- seq_shift, <- list_fmap_compose.
  apply list_fmap_ext. intros i x _. cbn. rewrite drop_drop. done.
Qed.

Lemma slices_nil size : slices size [] = [].
Proof. unfold slices. cbn. destruct size as [|size]; [done|]. rewrite Nat.div_small; [done|lia]. Qed.

(** The slices concatenate to the list; each has between one and [size] members. *)
Lemma slices_spec size l : (0 < size)%nat ->
  mjoin (slices size l) = l /\ Forall (fun s => (1 <= length s <= size)%nat) (slices size l).
Proof.
  intros Hs. remember (length l) as n eqn:En. revert l En. induction (lt_wf n) as [n _ IH]. intros l ->.
  destruct l as [|x l]; [by rewrite slices_nil|]. rewrite slices_cons by done.
  destruct (IH (length (drop size (x :: l)))) with (l := drop size (x :: l)) as [Hj Hf]; [rewrite length_drop; cbn; lia|done|].
  split; [etransitivity; [|apply (take_drop size)]; by rewrite <- Hj at 2|]. constructor; [|done]. rewrite length_take. cbn. lia.
Qed.

(** ** Shards *)

Section Sharding.
Context (identity : list string -> string -> string).

Definition members (executions : list logical_execution) (selection : string) : list string :=
  sorted_strings (logical_execution_id <$> List.filter (fun e => String.eqb (selection_key e) selection) executions).
Definition selection_shards (size : nat) (executions : list logical_execution) (selection : string) : list shard :=
  (fun ids => {| shard_id := identity ids selection; sh_logical_execution_ids := ids; sh_selection_key := selection |})
    <$> slices size (members executions selection).
Definition shard_by_selection_locality (executions : list logical_execution) (maximum_size : Z) : result (list shard) :=
  raise_if (maximum_size <? 1) (ValueError "maximum shard size must be a positive integer");;
  Ok (sorted_by shard_id
        (sorted_set (selection_key <$> executions) ≫= selection_shards (Z.to_nat maximum_size) executions)).

(** ** Grouping by selection *)

Lemma filter_split {A} (p q : A -> bool) l :
  (forall x, p x = true -> q x = false) ->
  List.filter (fun x => p x || q x) l ≡ₚ List.filter p l ++ List.filter q l.
Proof.
  intros Hpq. induction l as [|x l IH]; [done|]. cbn. destruct (p x) eqn:E; cbn.
  - rewrite (Hpq x E). cbn. by rewrite IH.
  - destruct (q x); [|done]. rewrite IH. apply Permutation_middle.
Qed.

Lemma group_by {A} (key : A -> string) keys l :
  NoDup keys -> (keys ≫= fun k => List.filter (fun x => String.eqb (key x) k) l) ≡ₚ List.filter (fun x => mem (key x) keys) l.
Proof.
  induction 1 as [|k keys Hk _ IH]; cbn [mbind list_bind].
  - cbn. induction l; [done|]. cbn. done.
  - rewrite IH. symmetry. etransitivity; [|apply filter_split].
    + apply Permutation_refl', List.filter_ext. intros x. unfold mem. cbn. by rewrite String.eqb_sym.
    + intros x Hx%String.eqb_eq. apply mem_false. by rewrite Hx.
Qed.

Lemma filter_true {A} (p : A -> bool) l : Forall (fun x => p x = true) l -> List.filter p l = l.
Proof. induction 1 as [|x l Hx _ IH]; cbn; [done|]. by rewrite Hx, IH. Qed.

Definition placed (s : shard) : list (string * string) := (fun id => (sh_selection_key s, id)) <$> sh_logical_execution_ids s.
Definition placement (e : logical_execution) : string * string := (selection_key e, logical_execution_id e).

Lemma selection_placed size l k : (0 < size)%nat ->
  (selection_shards size l k ≫= placed) ≡ₚ placement <$> List.filter (fun e => String.eqb (selection_key e) k) l.
Proof.
  intros Hs. unfold selection_shards. destruct (slices_spec size (members l k) Hs) as [Hj _].
  assert (((fun ids => {| shard_id := identity ids k; sh_logical_execution_ids := ids; sh_selection_key := k |}) <$> slices size (members l k)) ≫= placed =
    (fun id => (k, id)) <$> members l k) as ->.
  { rewrite <- Hj at 2. generalize (slices size (members l k)). intros ss. induction ss as [|s ss IH]; [done|].
    cbn [fmap list_fmap mbind list_bind mjoin list_join]. rewrite fmap_app. by f_equal. }
  unfold members, sorted_strings. rewrite sorted_by_perm, <- list_fmap_compose. apply Permutation_refl'. apply list_fmap_ext.
  intros i e [_ He%String.eqb_eq]%list_elem_of_lookup_2%elem_of_lfilter. unfold placement. cbn. by rewrite He.
Qed.

Lemma bind_bind {A B C} (f : A -> list B) (g : B -> list C) l : (l ≫= f) ≫= g = l ≫= (fun x => f x ≫= g).
Proof. induction l as [|x l IH]; [done|]. cbn. by rewrite bind_app, IH. Qed.

Lemma bind_fmap {A B C} (f : A -> list B) (g : B -> C) l : g <$> (l ≫= f) = l ≫= (fun x => g <$> f x).
Proof. induction l as [|x l IH]; [done|]. cbn. by rewrite fmap_app, IH. Qed.

Lemma bind_perm {A B} (f g : A -> list B) l : (forall x, f x ≡ₚ g x) -> l ≫= f ≡ₚ l ≫= g.
Proof. intros Hfg. induction l as [|x l IH]; [done|]. cbn. by rewrite Hfg, IH. Qed.

Lemma sorted_strings_perm l k : l ≡ₚ k -> sorted_strings l = sorted_strings k.
Proof.
  intros Hlk. unfold sorted_strings. assert (forall l, StronglySorted (key_le id) (sorted_by id l)) as Hs by apply sorted_by_sorted.
  assert (sorted_by id l ≡ₚ sorted_by id k) as Hp by by rewrite !sorted_by_perm. revert Hp. generalize (Hs l) (Hs k).
  generalize (sorted_by id l) as a, (sorted_by id k) as b. clear. intros a b Ha. revert b.
  induction Ha as [|x a Ha IH Hx]; intros b Hb Hp; [by apply symmetry, Permutation_nil_r in Hp|].
  destruct b as [|y b]; [by apply Permutation_nil_r in Hp|]. apply StronglySorted_inv in Hb as [Hb Hy].
  assert (x = y) as ->.
  { assert (y ∈ x :: a) as Hin by (rewrite Hp; left). assert (x ∈ y :: b) as Hin2 by (rewrite <- Hp; left).
    apply elem_of_cons in Hin as [->|Hin]; [done|]. apply elem_of_cons in Hin2 as [->|Hin2]; [done|].
    rewrite Forall_forall in Hx, Hy. exact (py_leb_antisym x y (Hx _ Hin) (Hy _ Hin2)). }
  f_equal. apply IH; [done|]. by apply Permutation_cons_inv in Hp.
Qed.

Lemma lfilter_perm {A} (p : A -> bool) (l k : list A) : l ≡ₚ k -> List.filter p l ≡ₚ List.filter p k.
Proof.
  induction 1 as [|x l k _ IH|x y l|l m k _ IH1 _ IH2]; cbn; [done| | |by etransitivity].
  - destruct (p x); by rewrite IH.
  - destruct (p x), (p y); try done. apply perm_swap.
Qed.

Lemma shards_place executions maximum_size shards :
  shard_by_selection_locality executions maximum_size = Ok shards -> (shards ≫= placed) ≡ₚ (placement <$> executions).
Proof.
  unfold shard_by_selection_locality. intros [Hm%raise_if_ok [= <-]]%bind_unit_ok. apply Z.ltb_ge in Hm.
  rewrite sorted_by_perm, bind_bind. etransitivity; [apply bind_perm; intros k; apply selection_placed; lia|].
  rewrite <- bind_fmap. apply fmap_Permutation. rewrite group_by by apply NoDup_sorted_set.
  rewrite filter_true; [done|]. apply Forall_forall. intros e He. apply mem_spec, elem_of_sorted_set. by apply list_elem_of_fmap_2.
Qed.

End Sharding.

(** Sharding places every logical execution in exactly one shard, with its selection; no shard is
    empty or larger than the maximum, and the shards do not depend on the order in which the executions are listed. *)
Theorem shards_partition identity executions maximum_size shards :
  shard_by_selection_locality identity executions maximum_size = Ok shards ->
  (shards ≫= placed) ≡ₚ (placement <$> executions) /\
  Forall (fun s => 1 <= Z.of_nat (length (sh_logical_execution_ids s)) <= maximum_size) shards /\
  (forall executions', executions' ≡ₚ executions ->
    shard_by_selection_locality identity executions' maximum_size = Ok shards).
Proof.
  intros Hs. split; [by eapply shards_place|]. unfold shard_by_selection_locality in Hs |- *.
  apply bind_unit_ok in Hs as [Hm%raise_if_ok [= <-]]. apply Z.ltb_ge in Hm. split.
  - rewrite sorted_by_perm. apply Forall_forall. intros s (k & Hs & _)%list_elem_of_bind.
    apply list_elem_of_fmap in Hs as (ids & -> & Hids). cbn [sh_logical_execution_ids].
    destruct (slices_spec (Z.to_nat maximum_size) (members executions k)) as [_ Hf]; [lia|]. rewrite Forall_forall in Hf.
    specialize (Hf ids Hids). lia.
  - intros executions' Hp. assert ((maximum_size <? 1) = false) as -> by lia. cbn. do 2 f_equal.
    assert (sorted_set (selection_key <$> executions') = sorted_set (selection_key <$> executions)) as ->.
    { unfold sorted_set. apply sorted_strings_perm, NoDup_Permutation; [apply NoDup_remove_dups..|].
      intros x. by rewrite !elem_of_remove_dups, Hp. }
    apply list_bind_ext; [|done]. intros k. unfold selection_shards, members.
    by rewrite (sorted_strings_perm _ _ (fmap_Permutation _ _ _ (lfilter_perm _ _ _ Hp))).
Qed.

Definition sample_executions : list logical_execution :=
  [{| selection_key := "pcre2"; logical_execution_id := "e3" |}; {| selection_key := "re"; logical_execution_id := "e2" |};
   {| selection_key := "pcre2"; logical_execution_id := "e1" |}; {| selection_key := "pcre2"; logical_execution_id := "e4" |}].
Definition sample_identity (ids : list string) (selection : string) : string := selection +:+ ":" +:+ String.concat "," ids.
Definition sample_shards : list shard := Eval vm_compute in
  match shard_by_selection_locality sample_identity sample_executions 2 with Ok shards => shards | Raise _ => [] end.

Lemma shards_partition_witness :
  shard_by_selection_locality sample_identity sample_executions 2 = Ok sample_shards /\ length sample_shards = 3%nat /\
  (sample_shards ≫= placed) ≡ₚ (placement <$> sample_executions).
Proof.
  split; [by vm_compute|]. split; [done|]. apply (shards_partition sample_identity sample_executions 2 sample_shards). by vm_compute.
Defined.
