(* ===== verification/StateRecords.v ===== *)
(** * Operational state records

    The records of state_models.py that the local state store keeps: provenance
    sources, versioned records and mutations, snapshots, and the observations,
    issues, actions, plans and reports of a reconciliation, each with its
    [__post_init__], its builders and its rendering.  A payload is kept as its
    canonical text, like in the source.

    The second part is the schema of the state database. *)

From S2P Require Export StrictJson Timestamps.

Definition STATE_RECORD_KINDS : list string :=
  ["cache-inventory"; "campaign-assignment"; "environment-instance"; "event-cursor"; "lease"; "machine-inventory";
   "resource-measurement"; "shard-checkpoint"; "spool-publication"; "transfer"; "worker-telemetry"].
Definition SOURCE_KINDS : list string :=
  ["immutable-evidence"; "local-operation"; "provider-reality"; "repository-manifest"].
Definition RECONCILIATION_SOURCE_KINDS : list string :=
  List.filter (fun k => negb (String.eqb k "local-operation")) SOURCE_KINDS.
Definition VERIFICATION_STATES : list string := ["provisional"; "quarantined"; "unverified"; "verified"].
Definition ADMISSION_STATES : list string := ["blocked"; "ready"; "reconciliation-required"].
Definition PRIOR_SHUTDOWN_STATES : list string := ["clean"; "new"; "unclean"].
Definition RECONCILIATION_ACTIONS : list string := ["create"; "quarantine"; "replace"; "tombstone"; "verify"].

Module State.
Definition _require_token (label value : string) : result unit :=
  require_token StateModelError " must be a lowercase hyphenated token" label value.
Definition _require_sha256 (label value : string) : result unit := require_sha256 StateModelError label value.
Definition _require_safe_integer (positive : bool) (label : string) (value : Z) : result unit :=
  raise_if (negb (((if positive then 1 else 0) <=? value) && (value <=? SAFE_INTEGER_MAX)))
    (StateModelError (label +:+ " must be a " +:+ (if positive then "positive " else "non-negative ") +:+ "safe integer")).
Definition _parse_timestamp (label value : string) : result Z :=
  match iso_parse value with
  | None => Raise (StateModelError (label +:+ " must be an RFC 3339 timestamp"))
  | Some d =>
      raise_if (is_none (utcoffset d)) (StateModelError (label +:+ " must include a timezone"));;
      raise_if (negb ((min_instant <=? instant d) && (instant d <=? max_instant)))
        (OverflowError "date value out of range");;
      Ok (instant d)
  end.
End State.
Import State.

(** [any(character in value for character in "\r\n\x00")] *)
Definition multi_line (value : string) : bool :=
  contains_char creturn value || contains_char newline value || contains_char "000" value.

Definition invalid_key (record_kind record_id : string) : bool :=
  negb (mem record_kind STATE_RECORD_KINDS) || negb (fullmatch RECORD_ID_PATTERN record_id).

Record StateSourceReference := { src_kind : string; src_id : string; src_observed_at : string; src_verified : bool }.
#[export] Instance StateSourceReference_eq_dec : EqDecision StateSourceReference.
Proof. solve_decision. Defined.

Definition identity (s : StateSourceReference) : string * string := (src_kind s, src_id s).
Definition source_to_dict (s : StateSourceReference) : json :=
  JObj [("observed_at", JStr (src_observed_at s)); ("source_id", JStr (src_id s));
        ("source_kind", JStr (src_kind s)); ("verified", JBool (src_verified s))].

Definition _validate_sources (sources : list StateSourceReference) : result unit :=
  raise_if (list_empty sources) (StateModelError "operational records require at least one provenance source");;
  raise_if (negb (bool_decide (sorted_by identity sources = sources)))
    (StateModelError "operational record sources must use deterministic identity order");;
  raise_if (has_duplicates (identity <$> sources))
    (StateModelError "operational record sources must be unique by kind and ID").

Definition is_local (s : StateSourceReference) : bool := String.eqb (src_kind s) "local-operation".

(** [not all(item.verified ...) or not any(item.source_kind != "local-operation" ...)] *)
Definition unverified_provenance (sources : list StateSourceReference) : bool :=
  existsb (fun s => negb (src_verified s)) sources || negb (existsb (fun s => negb (is_local s)) sources).

Record OperationalStateRecord := {
  osr_kind : string; osr_id : string; osr_generation : Z; osr_lifecycle : string; osr_verification : string;
  osr_payload_json : string; osr_payload_sha256 : string; osr_updated_at : string;
  osr_sources : list StateSourceReference; osr_tombstoned : bool
}.
#[export] Instance OperationalStateRecord_eq_dec : EqDecision OperationalStateRecord.
Proof. solve_decision. Defined.
Definition osr_key (r : OperationalStateRecord) : string * string := (osr_kind r, osr_id r).

Record StateMutation := {
  mut_kind : string; mut_id : string; mut_lifecycle : string; mut_verification : string;
  mut_payload_json : string; mut_payload_sha256 : string; mut_sources : list StateSourceReference;
  mut_expected_generation : option Z; mut_tombstoned : bool
}.
Definition mut_key (m : StateMutation) : string * string := (mut_kind m, mut_id m).

Record StateSnapshot := {
  snap_store_id : string; snap_schema_version : Z; snap_epoch : Z; snap_admission : string;
  snap_prior_shutdown : string; snap_observed_at : string; snap_records : list OperationalStateRecord;
  snap_digest : string
}.

Record ReconciliationObservation := {
  obs_kind : string; obs_id : string; obs_exists : bool; obs_lifecycle : option string;
  obs_payload_json : string; obs_payload_sha256 : string; obs_observed_at : string;
  obs_source_kind : string; obs_source_id : string; obs_verified : bool
}.
Definition obs_key (o : ReconciliationObservation) : string * string := (obs_kind o, obs_id o).
Definition source_identity (o : ReconciliationObservation) : string * string := (obs_source_kind o, obs_source_id o).
Definition state_signature (o : ReconciliationObservation) : bool * option string * string :=
  (obs_exists o, obs_lifecycle o, obs_payload_sha256 o).

Record ReconciliationIssue := {
  iss_kind : string; iss_id : string; iss_code : string; iss_detail : string; iss_blocking : bool
}.
#[export] Instance ReconciliationIssue_eq_dec : EqDecision ReconciliationIssue.
Proof. solve_decision. Defined.
Definition iss_key (i : ReconciliationIssue) : string * (string * string) := (iss_kind i, (iss_id i, iss_code i)).

Record ReconciliationAction := {
  act_action : string; act_reason : string; act_kind : string; act_id : string;
  act_expected_generation : option Z; act_lifecycle : string; act_verification : string;
  act_payload_json : string; act_payload_sha256 : string; act_sources : list StateSourceReference;
  act_tombstoned : bool
}.
#[export] Instance ReconciliationAction_eq_dec : EqDecision ReconciliationAction.
Proof. solve_decision. Defined.
Definition act_key (a : ReconciliationAction) : string * string := (act_kind a, act_id a).

Record ReconciliationPlan := {
  plan_id : string; plan_snapshot_digest : string; plan_observation_digest : string; plan_planned_at : string;
  plan_maximum_age : Z; plan_actions : list ReconciliationAction; plan_issues : list ReconciliationIssue;
  plan_ready_after_apply : bool; plan_digest : string
}.

Record ReconciliationActionResult := {
  res_action : string; res_kind : string; res_id : string; res_generation : Z; res_code : string
}.
#[export] Instance ReconciliationActionResult_eq_dec : EqDecision ReconciliationActionResult.
Proof. solve_decision. Defined.
Definition res_key (r : ReconciliationActionResult) : string * string := (res_kind r, res_id r).

Record ReconciliationReport := {
  rpt_plan_id : string; rpt_plan_digest : string; rpt_before : string; rpt_after : string;
  rpt_completed_at : string; rpt_status : string; rpt_results : list ReconciliationActionResult;
  rpt_issues : list ReconciliationIssue; rpt_digest : string
}.
#[export] Instance ReconciliationReport_eq_dec : EqDecision ReconciliationReport.
Proof. solve_decision. Defined.

Section Records.
Context `{PyTables} `{JCS} `{PyFloat}.

(** ** Sources *)

Definition _validate_external_identifier (label value : string) : result unit :=
  raise_if (str_empty value || (2048 <? str_len value) || multi_line value)
    (StateModelError (label +:+ " must be a bounded single-line identifier"));;
  raise_if (_string_contains_credentials value) (SecretMaterialError (label +:+ " cannot contain credentials")).

#[export] Instance StateSourceReference_post_init : Dataclass StateSourceReference := fun self =>
  raise_if (negb (mem (src_kind self) SOURCE_KINDS)) (StateModelError "unknown operational state source kind");;
  _validate_external_identifier "state source ID" (src_id self);;
  _ ← _parse_timestamp "state source observation" (src_observed_at self); Ok tt.

(** ** Records *)

(** The payload of a record, a mutation or an observation: its text is canonical
    and has the digest; the members are returned. *)
Definition checked_payload (digest_label mismatch : string) (payload_json payload_sha256 : string)
    : result (list (string * json)) :=
  payload ← parse_canonical_object payload_json;
  _require_sha256 digest_label payload_sha256;;
  raise_if (negb (String.eqb (sha256 payload_json) payload_sha256)) (StateModelError mismatch);;
  Ok payload.

#[export] Instance OperationalStateRecord_post_init : Dataclass OperationalStateRecord := fun self =>
  raise_if (negb (mem (osr_kind self) STATE_RECORD_KINDS)) (StateModelError "unknown operational state record kind");;
  raise_if (negb (fullmatch RECORD_ID_PATTERN (osr_id self)))
    (StateModelError "operational record ID contains unsupported characters");;
  _require_safe_integer true "operational record generation" (osr_generation self);;
  _require_token "operational lifecycle state" (osr_lifecycle self);;
  raise_if (negb (mem (osr_verification self) VERIFICATION_STATES))
    (StateModelError "unknown operational verification status");;
  payload ← checked_payload "operational payload digest" "operational payload digest does not match the stored payload"
              (osr_payload_json self) (osr_payload_sha256 self);
  _ ← _parse_timestamp "operational record update" (osr_updated_at self);
  _validate_sources (osr_sources self);;
  raise_if (String.eqb (osr_verification self) "verified" && unverified_provenance (osr_sources self))
    (StateModelError "verified operational state requires verified external provenance");;
  raise_if (osr_tombstoned self &&
            (negb (String.eqb (osr_lifecycle self) "absent") || negb (String.eqb (osr_verification self) "verified") ||
             negb (list_empty payload) || existsb is_local (osr_sources self)))
    (StateModelError "operational tombstones must be verified absent records with an empty payload");;
  raise_if (String.eqb (osr_lifecycle self) "quarantined" && negb (String.eqb (osr_verification self) "quarantined"))
    (StateModelError "quarantined records require quarantined verification status");;
  raise_if (String.eqb (osr_verification self) "quarantined" && negb (String.eqb (osr_lifecycle self) "quarantined"))
    (StateModelError "quarantined verification status requires quarantined lifecycle state").

Definition record_from_payload (record_kind record_id : string) (generation : Z)
    (lifecycle_state verification_status : string) (payload : list (string * json)) (updated_at : string)
    (sources : list StateSourceReference) (tombstoned : bool) : result OperationalStateRecord :=
  jd ← canonical_object payload;
  construct {| osr_kind := record_kind; osr_id := record_id; osr_generation := generation;
    osr_lifecycle := lifecycle_state; osr_verification := verification_status; osr_payload_json := jd.1;
    osr_payload_sha256 := jd.2; osr_updated_at := updated_at; osr_sources := sorted_by identity sources;
    osr_tombstoned := tombstoned |}.

Definition record_to_dict (self : OperationalStateRecord) : result json :=
  payload ← parse_canonical_object (osr_payload_json self);
  Ok (JObj [("canonical_authority", JBool false); ("generation", JInt (osr_generation self));
            ("lifecycle_state", JStr (osr_lifecycle self)); ("payload", JObj payload);
            ("payload_sha256", JStr (osr_payload_sha256 self)); ("record_id", JStr (osr_id self));
            ("record_kind", JStr (osr_kind self)); ("schema_version", JStr "operational-state-record.v1");
            ("sources", JArr (source_to_dict <$> osr_sources self)); ("tombstoned", JBool (osr_tombstoned self));
            ("updated_at", JStr (osr_updated_at self)); ("verification_status", JStr (osr_verification self))]).

Definition digest_of (document : json) : result string := encoded ← canonical_json document; Ok (sha256 encoded).
Definition integrity_digest (self : OperationalStateRecord) : result string :=
  document ← record_to_dict self; digest_of document.

(** ** Mutations *)

#[export] Instance StateMutation_post_init : Dataclass StateMutation := fun self =>
  raise_if (invalid_key (mut_kind self) (mut_id self)) (StateModelError "state mutation has an invalid record key");;
  _require_token "state mutation lifecycle" (mut_lifecycle self);;
  raise_if (negb (mem (mut_verification self) VERIFICATION_STATES))
    (StateModelError "state mutation has an invalid verification status");;
  _ ← checked_payload "state mutation payload digest" "state mutation payload digest does not match"
        (mut_payload_json self) (mut_payload_sha256 self);
  _validate_sources (mut_sources self);;
  raise_if (String.eqb (mut_verification self) "verified" && unverified_provenance (mut_sources self))
    (StateModelError "verified state mutations require verified external provenance");;
  match mut_expected_generation self with
  | Some generation => _require_safe_integer true "expected state generation" generation
  | None => Ok tt
  end;;
  raise_if (mut_tombstoned self &&
            (negb (String.eqb (mut_lifecycle self) "absent") || negb (String.eqb (mut_verification self) "verified") ||
             negb (String.eqb (mut_payload_json self) "{}") || existsb is_local (mut_sources self)))
    (StateModelError "state mutation tombstones must be verified empty absent records").

Definition mutation_from_payload (record_kind record_id lifecycle_state verification_status : string)
    (payload : list (string * json)) (sources : list StateSourceReference) (expected_generation : option Z)
    (tombstoned : bool) : result StateMutation :=
  jd ← canonical_object payload;
  construct {| mut_kind := record_kind; mut_id := record_id; mut_lifecycle := lifecycle_state;
    mut_verification := verification_status; mut_payload_json := jd.1; mut_payload_sha256 := jd.2;
    mut_sources := sorted_by identity sources; mut_expected_generation := expected_generation;
    mut_tombstoned := tombstoned |}.

Definition mutation_to_dict (self : StateMutation) : result json :=
  payload ← parse_canonical_object (mut_payload_json self);
  Ok (JObj [("expected_generation", JOptInt (mut_expected_generation self));
            ("lifecycle_state", JStr (mut_lifecycle self)); ("payload", JObj payload);
            ("payload_sha256", JStr (mut_payload_sha256 self)); ("record_id", JStr (mut_id self));
            ("record_kind", JStr (mut_kind self)); ("sources", JArr (source_to_dict <$> mut_sources self));
            ("tombstoned", JBool (mut_tombstoned self)); ("verification_status", JStr (mut_verification self))]).

(** ** Snapshots *)

Definition snapshot_digest (store_id : string) (database_schema_version epoch : Z) (admission_state prior_shutdown : string)
    (records : list OperationalStateRecord) : result string :=
  documents ← map_result record_to_dict records;
  digest_of (JObj [("admission_state", JStr admission_state); ("canonical_authority", JBool false);
                   ("database_schema_version", JInt database_schema_version); ("epoch", JInt epoch);
                   ("prior_shutdown", JStr prior_shutdown); ("records", JArr documents);
                   ("schema_version", JStr "local-operational-state.v1"); ("store_id", JStr store_id)]).

#[export] Instance StateSnapshot_post_init : Dataclass StateSnapshot := fun self =>
  raise_if (negb (fullmatch OPERATIONAL_ID_PATTERN (snap_store_id self)))
    (StateModelError "state store ID must be an operational UUIDv7");;
  raise_if (negb (str_startswith (snap_store_id self) "opid:v1:control-plane-state:u7:"))
    (StateModelError "state store ID must use the control-plane-state namespace");;
  _require_safe_integer true "database schema version" (snap_schema_version self);;
  _require_safe_integer false "state store epoch" (snap_epoch self);;
  raise_if (negb (mem (snap_admission self) ADMISSION_STATES)) (StateModelError "unknown state admission status");;
  raise_if (negb (mem (snap_prior_shutdown self) PRIOR_SHUTDOWN_STATES))
    (StateModelError "unknown prior shutdown status");;
  _ ← _parse_timestamp "state snapshot observation" (snap_observed_at self);
  raise_if (negb (bool_decide (sorted_by osr_key (snap_records self) = snap_records self)))
    (StateModelError "state snapshot records must use deterministic key order");;
  raise_if (has_duplicates (osr_key <$> snap_records self))
    (StateModelError "state snapshot records must have unique keys");;
  _require_sha256 "state snapshot digest" (snap_digest self);;
  digest ← snapshot_digest (snap_store_id self) (snap_schema_version self) (snap_epoch self) (snap_admission self)
             (snap_prior_shutdown self) (snap_records self);
  raise_if (negb (String.eqb (snap_digest self) digest))
    (StateModelError "state snapshot digest does not match its contents").

Definition build_snapshot (store_id : string) (database_schema_version epoch : Z) (admission_state prior_shutdown : string)
    (observed_at : string) (records : list OperationalStateRecord) : result StateSnapshot :=
  let ordered := sorted_by osr_key records in
  digest ← snapshot_digest store_id database_schema_version epoch admission_state prior_shutdown ordered;
  construct {| snap_store_id := store_id; snap_schema_version := database_schema_version; snap_epoch := epoch;
    snap_admission := admission_state; snap_prior_shutdown := prior_shutdown; snap_observed_at := observed_at;
    snap_records := ordered; snap_digest := digest |}.

(** ** Observations *)

#[export] Instance ReconciliationObservation_post_init : Dataclass ReconciliationObservation := fun self =>
  raise_if (invalid_key (obs_kind self) (obs_id self))
    (StateModelError "reconciliation observation has an invalid record key");;
  payload ← checked_payload "reconciliation payload digest" "reconciliation payload digest does not match"
              (obs_payload_json self) (obs_payload_sha256 self);
  (if obs_exists self then
     match obs_lifecycle self with
     | None => Raise (StateModelError "present reconciliation observations require lifecycle state")
     | Some lifecycle => _require_token "reconciliation lifecycle state" lifecycle
     end
   else raise_if (is_some (obs_lifecycle self) || negb (list_empty payload))
          (StateModelError "absent reconciliation observations require null state and empty payload"));;
  _ ← _parse_timestamp "reconciliation observation" (obs_observed_at self);
  raise_if (negb (mem (obs_source_kind self) RECONCILIATION_SOURCE_KINDS))
    (StateModelError "reconciliation observations require an external reality or authority source");;
  _validate_external_identifier "reconciliation source ID" (obs_source_id self).

Definition observation_present (record_kind record_id lifecycle_state : string) (payload : list (string * json))
    (observed_at source_kind source_id : string) (verified : bool) : result ReconciliationObservation :=
  jd ← canonical_object payload;
  construct {| obs_kind := record_kind; obs_id := record_id; obs_exists := true; obs_lifecycle := Some lifecycle_state;
    obs_payload_json := jd.1; obs_payload_sha256 := jd.2; obs_observed_at := observed_at;
    obs_source_kind := source_kind; obs_source_id := source_id; obs_verified := verified |}.
Definition observation_absent (record_kind record_id observed_at source_kind source_id : string) (verified : bool)
    : result ReconciliationObservation :=
  jd ← canonical_object [];
  construct {| obs_kind := record_kind; obs_id := record_id; obs_exists := false; obs_lifecycle := None;
    obs_payload_json := jd.1; obs_payload_sha256 := jd.2; obs_observed_at := observed_at;
    obs_source_kind := source_kind; obs_source_id := source_id; obs_verified := verified |}.

Definition source_reference (self : ReconciliationObservation) : result StateSourceReference :=
  construct {| src_kind := obs_source_kind self; src_id := obs_source_id self;
               src_observed_at := obs_observed_at self; src_verified := obs_verified self |}.

Definition observation_to_dict (self : ReconciliationObservation) : result json :=
  payload ← parse_canonical_object (obs_payload_json self);
  Ok (JObj [("canonical_authority", JBool false); ("exists", JBool (obs_exists self));
            ("lifecycle_state", JOptStr (obs_lifecycle self)); ("observed_at", JStr (obs_observed_at self));
            ("payload", JObj payload); ("payload_sha256", JStr (obs_payload_sha256 self));
            ("record_id", JStr (obs_id self)); ("record_kind", JStr (obs_kind self));
            ("source_id", JStr (obs_source_id self)); ("source_kind", JStr (obs_source_kind self));
            ("verified", JBool (obs_verified self))]).

(** ** Issues and actions *)

#[export] Instance ReconciliationIssue_post_init : Dataclass ReconciliationIssue := fun self =>
  raise_if (invalid_key (iss_kind self) (iss_id self)) (StateModelError "reconciliation issue has an invalid record key");;
  _require_token "reconciliation issue code" (iss_code self);;
  raise_if (str_empty (iss_detail self) || (512 <? str_len (iss_detail self)) || multi_line (iss_detail self))
    (StateModelError "reconciliation issue detail must be bounded single-line text");;
  raise_if (_string_contains_credentials (iss_detail self))
    (SecretMaterialError "reconciliation issue detail cannot contain credentials").

Definition issue_to_dict (self : ReconciliationIssue) : json :=
  JObj [("blocking", JBool (iss_blocking self)); ("code", JStr (iss_code self)); ("detail", JStr (iss_detail self));
        ("record_id", JStr (iss_id self)); ("record_kind", JStr (iss_kind self))].

Definition action_mutation (self : ReconciliationAction) : StateMutation :=
  {| mut_kind := act_kind self; mut_id := act_id self; mut_lifecycle := act_lifecycle self;
     mut_verification := act_verification self; mut_payload_json := act_payload_json self;
     mut_payload_sha256 := act_payload_sha256 self; mut_sources := act_sources self;
     mut_expected_generation := act_expected_generation self; mut_tombstoned := act_tombstoned self |}.
Definition to_mutation (self : ReconciliationAction) : result StateMutation := construct (action_mutation self).

#[export] Instance ReconciliationAction_post_init : Dataclass ReconciliationAction := fun self =>
  raise_if (negb (mem (act_action self) RECONCILIATION_ACTIONS)) (StateModelError "unknown reconciliation action");;
  _require_token "reconciliation action reason" (act_reason self);;
  mutation ← to_mutation self;
  raise_if (String.eqb (act_action self) "create" && is_some (mut_expected_generation mutation))
    (StateModelError "reconciliation create action cannot expect an existing generation");;
  raise_if (negb (String.eqb (act_action self) "create") && is_none (mut_expected_generation mutation))
    (StateModelError "reconciliation update action requires an expected generation");;
  raise_if (negb (String.eqb (act_action self) "quarantine") &&
            (existsb (fun s => negb (src_verified s)) (act_sources self) || existsb is_local (act_sources self)))
    (StateModelError "reconciliation actions require verified external sources").

Definition action_to_dict (self : ReconciliationAction) : result json :=
  payload ← parse_canonical_object (act_payload_json self);
  Ok (JObj [("action", JStr (act_action self)); ("expected_generation", JOptInt (act_expected_generation self));
            ("lifecycle_state", JStr (act_lifecycle self)); ("payload", JObj payload);
            ("payload_sha256", JStr (act_payload_sha256 self)); ("reason_code", JStr (act_reason self));
            ("record_id", JStr (act_id self)); ("record_kind", JStr (act_kind self));
            ("sources", JArr (source_to_dict <$> act_sources self)); ("tombstoned", JBool (act_tombstoned self));
            ("verification_status", JStr (act_verification self))]).

(** ** Plans *)

Definition RECONCILIATION_ID : string := "opid:v1:state-reconciliation:u7:".

Definition reconciliation_plan_digest (plan_id snapshot_digest observation_digest planned_at : string) (maximum_age : Z)
    (actions : list ReconciliationAction) (issues : list ReconciliationIssue) (ready_after_apply : bool) : result string :=
  documents ← map_result action_to_dict actions;
  digest_of (JObj [("actions", JArr documents); ("canonical_authority", JBool false);
                   ("issues", JArr (issue_to_dict <$> issues)); ("maximum_observation_age_seconds", JInt maximum_age);
                   ("observation_digest", JStr observation_digest); ("plan_id", JStr plan_id);
                   ("planned_at", JStr planned_at); ("ready_after_apply", JBool ready_after_apply);
                   ("schema_version", JStr "state-reconciliation-plan.v1"); ("snapshot_digest", JStr snapshot_digest)]).

#[export] Instance ReconciliationPlan_post_init : Dataclass ReconciliationPlan := fun self =>
  raise_if (negb (fullmatch OPERATIONAL_ID_PATTERN (plan_id self)))
    (StateModelError "reconciliation plan ID must be an operational UUIDv7");;
  raise_if (negb (str_startswith (plan_id self) RECONCILIATION_ID))
    (StateModelError "reconciliation plan ID must use the state-reconciliation namespace");;
  _require_sha256 "reconciliation snapshot digest" (plan_snapshot_digest self);;
  _require_sha256 "reconciliation observation digest" (plan_observation_digest self);;
  _ ← _parse_timestamp "reconciliation plan time" (plan_planned_at self);
  _require_safe_integer true "maximum reconciliation observation age" (plan_maximum_age self);;
  raise_if (negb (bool_decide (sorted_by act_key (plan_actions self) = plan_actions self)))
    (StateModelError "reconciliation actions must use deterministic key order");;
  raise_if (has_duplicates (act_key <$> plan_actions self))
    (StateModelError "reconciliation plan may mutate each key at most once");;
  raise_if (negb (bool_decide (sorted_by iss_key (plan_issues self) = plan_issues self)))
    (StateModelError "reconciliation issues must use deterministic order");;
  raise_if (plan_ready_after_apply self && existsb iss_blocking (plan_issues self))
    (StateModelError "reconciliation plan cannot claim readiness with blocking issues");;
  _require_sha256 "reconciliation plan digest" (plan_digest self);;
  digest ← reconciliation_plan_digest (plan_id self) (plan_snapshot_digest self) (plan_observation_digest self)
             (plan_planned_at self) (plan_maximum_age self) (plan_actions self) (plan_issues self)
             (plan_ready_after_apply self);
  raise_if (negb (String.eqb (plan_digest self) digest))
    (StateModelError "reconciliation plan digest does not match its contents").

Definition build_reconciliation_plan (plan_id snapshot_digest observation_digest planned_at : string) (maximum_age : Z)
    (actions : list ReconciliationAction) (issues : list ReconciliationIssue) (ready_after_apply : bool)
    : result ReconciliationPlan :=
  let actions := sorted_by act_key actions in
  let issues := sorted_by iss_key issues in
  digest ← reconciliation_plan_digest plan_id snapshot_digest observation_digest planned_at maximum_age actions issues
             ready_after_apply;
  construct {| plan_id := plan_id; plan_snapshot_digest := snapshot_digest;
    plan_observation_digest := observation_digest; plan_planned_at := planned_at; plan_maximum_age := maximum_age;
    plan_actions := actions; plan_issues := issues; plan_ready_after_apply := ready_after_apply;
    plan_digest := digest |}.

(** ** Reports *)

#[export] Instance ReconciliationActionResult_post_init : Dataclass ReconciliationActionResult := fun self =>
  raise_if (negb (mem (res_action self) RECONCILIATION_ACTIONS)) (StateModelError "unknown reconciliation result action");;
  raise_if (invalid_key (res_kind self) (res_id self)) (StateModelError "reconciliation result has invalid record key");;
  _require_safe_integer true "reconciliation result generation" (res_generation self);;
  _require_token "reconciliation result code" (res_code self).

Definition action_result_to_dict (self : ReconciliationActionResult) : json :=
  JObj [("action", JStr (res_action self)); ("code", JStr (res_code self)); ("record_id", JStr (res_id self));
        ("record_kind", JStr (res_kind self)); ("resulting_generation", JInt (res_generation self))].

Definition reconciliation_report_digest (plan_id plan_digest before after completed_at status : string)
    (results : list ReconciliationActionResult) (issues : list ReconciliationIssue) : result string :=
  digest_of (JObj [("action_results", JArr (action_result_to_dict <$> results)); ("after_snapshot_digest", JStr after);
                   ("before_snapshot_digest", JStr before); ("canonical_authority", JBool false);
                   ("completed_at", JStr completed_at); ("issues", JArr (issue_to_dict <$> issues));
                   ("plan_digest", JStr plan_digest); ("plan_id", JStr plan_id);
                   ("schema_version", JStr "state-reconciliation-report.v1"); ("status", JStr status)]).

#[export] Instance ReconciliationReport_post_init : Dataclass ReconciliationReport := fun self =>
  raise_if (negb (fullmatch OPERATIONAL_ID_PATTERN (rpt_plan_id self)))
    (StateModelError "reconciliation report plan ID must be an operational UUIDv7");;
  raise_if (negb (str_startswith (rpt_plan_id self) RECONCILIATION_ID))
    (StateModelError "reconciliation report must identify a state-reconciliation plan");;
  _require_sha256 "reconciliation plan digest" (rpt_plan_digest self);;
  _require_sha256 "reconciliation before snapshot digest" (rpt_before self);;
  _require_sha256 "reconciliation after snapshot digest" (rpt_after self);;
  _require_sha256 "reconciliation report digest" (rpt_digest self);;
  _ ← _parse_timestamp "reconciliation completion" (rpt_completed_at self);
  raise_if (negb (mem (rpt_status self) ["blocked"; "ready"])) (StateModelError "unknown reconciliation report status");;
  raise_if (negb (bool_decide (sorted_by res_key (rpt_results self) = rpt_results self)))
    (StateModelError "reconciliation results must use deterministic order");;
  raise_if (negb (bool_decide (sorted_by iss_key (rpt_issues self) = rpt_issues self)))
    (StateModelError "reconciliation report issues must use deterministic order");;
  raise_if (String.eqb (rpt_status self) "ready" && existsb iss_blocking (rpt_issues self))
    (StateModelError "ready reconciliation report cannot contain blocking issues");;
  digest ← reconciliation_report_digest (rpt_plan_id self) (rpt_plan_digest self) (rpt_before self) (rpt_after self)
             (rpt_completed_at self) (rpt_status self) (rpt_results self) (rpt_issues self);
  raise_if (negb (String.eqb (rpt_digest self) digest))
    (StateModelError "reconciliation report digest does not match its contents").

Definition build_report (plan_id plan_digest before after completed_at status : string)
    (action_results : list ReconciliationActionResult) (issues : list ReconciliationIssue) : result ReconciliationReport :=
  let results := sorted_by res_key action_results in
  let issues := sorted_by iss_key issues in
  digest ← reconciliation_report_digest plan_id plan_digest before after completed_at status results issues;
  construct {| rpt_plan_id := plan_id; rpt_plan_digest := plan_digest; rpt_before := before; rpt_after := after;
    rpt_completed_at := completed_at; rpt_status := status; rpt_results := results; rpt_issues := issues;
    rpt_digest := digest |}.

Definition report_to_dict (self : ReconciliationReport) : json :=
  JObj [("action_results", JArr (action_result_to_dict <$> rpt_results self));
        ("after_snapshot_digest", JStr (rpt_after self)); ("before_snapshot_digest", JStr (rpt_before self));
        ("canonical_authority", JBool false); ("completed_at", JStr (rpt_completed_at self));
        ("issues", JArr (issue_to_dict <$> rpt_issues self)); ("plan_digest", JStr (rpt_plan_digest self));
        ("plan_id", JStr (rpt_plan_id self)); ("report_digest", JStr (rpt_digest self));
        ("schema_version", JStr "state-reconciliation-report.v1"); ("status", JStr (rpt_status self))].

(** The renderings the source writes for snapshots and plans. *)
Definition snapshot_to_dict (self : StateSnapshot) : result json :=
  documents ← map_result record_to_dict (snap_records self);
  Ok (JObj [("admission_state", JStr (snap_admission self)); ("canonical_authority", JBool false);
            ("database_schema_version", JInt (snap_schema_version self)); ("epoch", JInt (snap_epoch self));
            ("observed_at", JStr (snap_observed_at self)); ("prior_shutdown", JStr (snap_prior_shutdown self));
            ("records", JArr documents); ("schema_version", JStr "local-operational-state.v1");
            ("snapshot_digest", JStr (snap_digest self)); ("store_id", JStr (snap_store_id self))]).
Definition reconciliation_plan_to_dict (self : ReconciliationPlan) : result json :=
  documents ← map_result action_to_dict (plan_actions self);
  Ok (JObj [("actions", JArr documents); ("canonical_authority", JBool false);
            ("issues", JArr (issue_to_dict <$> plan_issues self));
            ("maximum_observation_age_seconds", JInt (plan_maximum_age self));
            ("observation_digest", JStr (plan_observation_digest self)); ("plan_digest", JStr (plan_digest self));
            ("plan_id", JStr (plan_id self)); ("planned_at", JStr (plan_planned_at self));
            ("ready_after_apply", JBool (plan_ready_after_apply self));
            ("schema_version", JStr "state-reconciliation-plan.v1");
            ("snapshot_digest", JStr (plan_snapshot_digest self))]).
End Records.

(** * The schema of the state database

    [Migration] and [MIGRATIONS] of state_store.py: the statements of the one
    migration there is, verbatim, and the digest that the database records of it. *)


(** [str.strip] *)
Fixpoint rstrip (p : ascii -> bool) (s : string) : string :=
  match s with
  | EmptyString => EmptyString
  | String c s' => let r := rstrip p s' in if str_empty r && p c then EmptyString else String c r
  end.
Definition strip (s : string) : string :=
  let p c := is_space (code c) in rstrip p (lstrip p s).

Record Migration := { mig_version : Z; mig_name : string; mig_statements : list string }.
Definition statement_mark : string := str1 newline +:+ "-- statement --" +:+ str1 newline.
Definition migration_sha256 (m : Migration) : string := sha256 (join statement_mark (strip <$> mig_statements m)).

Definition initial_statements : list string :=
  ["
            CREATE TABLE schema_migrations (
                version INTEGER PRIMARY KEY,
                name TEXT NOT NULL,
                sha256 TEXT NOT NULL,
                applied_at TEXT NOT NULL
            )
            ";
   "
            CREATE TABLE metadata (
                key TEXT PRIMARY KEY,
                value TEXT NOT NULL
            )
            ";
   "
            CREATE TABLE operational_records (
                record_kind TEXT NOT NULL,
                record_id TEXT NOT NULL,
                generation INTEGER NOT NULL CHECK (generation >= 1),
                lifecycle_state TEXT NOT NULL,
                verification_status TEXT NOT NULL,
                payload_json TEXT NOT NULL,
                payload_sha256 TEXT NOT NULL,
                updated_at TEXT NOT NULL,
                sources_json TEXT NOT NULL,
                tombstoned INTEGER NOT NULL CHECK (tombstoned IN (0, 1)),
                PRIMARY KEY (record_kind, record_id)
            )
            ";
   "
            CREATE TABLE state_transitions (
                sequence INTEGER PRIMARY KEY AUTOINCREMENT,
                command_id TEXT NOT NULL,
                record_kind TEXT NOT NULL,
                record_id TEXT NOT NULL,
                from_generation INTEGER,
                to_generation INTEGER NOT NULL,
                from_payload_sha256 TEXT,
                to_payload_sha256 TEXT NOT NULL,
                from_state_sha256 TEXT,
                to_state_sha256 TEXT NOT NULL,
                action TEXT NOT NULL,
                reason_code TEXT NOT NULL,
                committed_at TEXT NOT NULL,
                UNIQUE (command_id, record_kind, record_id)
            )
            ";
   "
            CREATE TABLE commands (
                command_id TEXT PRIMARY KEY,
                request_sha256 TEXT NOT NULL,
                committed_epoch INTEGER NOT NULL,
                committed_at TEXT NOT NULL
            )
            ";
   "
            CREATE TABLE controller_sessions (
                session_id TEXT PRIMARY KEY,
                started_at TEXT NOT NULL,
                ended_at TEXT,
                termination TEXT NOT NULL,
                prior_session_id TEXT
            )
            ";
   "
            CREATE TABLE reconciliation_runs (
                plan_id TEXT PRIMARY KEY,
                plan_sha256 TEXT NOT NULL,
                report_json TEXT NOT NULL,
                completed_at TEXT NOT NULL
            )
            ";
   "CREATE INDEX idx_transitions_record ON state_transitions (record_kind, record_id, sequence)";
   "CREATE INDEX idx_sessions_started ON controller_sessions (started_at, session_id)";
   "
            CREATE TRIGGER immutable_migrations_update
            BEFORE UPDATE ON schema_migrations BEGIN
                SELECT RAISE(ABORT, 'schema migration history is immutable');
            END
            ";
   "
            CREATE TRIGGER immutable_migrations_delete
            BEFORE DELETE ON schema_migrations BEGIN
                SELECT RAISE(ABORT, 'schema migration history is immutable');
            END
            ";
   "
            CREATE TRIGGER immutable_transitions_update
            BEFORE UPDATE ON state_transitions BEGIN
                SELECT RAISE(ABORT, 'state transition history is immutable');
            END
            ";
   "
            CREATE TRIGGER immutable_transitions_delete
            BEFORE DELETE ON state_transitions BEGIN
                SELECT RAISE(ABORT, 'state transition history is immutable');
            END
            ";
   "
            CREATE TRIGGER immutable_commands_update
            BEFORE UPDATE ON commands BEGIN
                SELECT RAISE(ABORT, 'state command history is immutable');
            END
            ";
   "
            CREATE TRIGGER immutable_commands_delete
            BEFORE DELETE ON commands BEGIN
                SELECT RAISE(ABORT, 'state command history is immutable');
            END
            ";
   "
            CREATE TRIGGER immutable_reconciliations_update
            BEFORE UPDATE ON reconciliation_runs BEGIN
                SELECT RAISE(ABORT, 'reconciliation history is immutable');
            END
            ";
   "
            CREATE TRIGGER immutable_reconciliations_delete
            BEFORE DELETE ON reconciliation_runs BEGIN
                SELECT RAISE(ABORT, 'reconciliation history is immutable');
            END
            "].

Definition MIGRATIONS : list Migration :=
  [{| mig_version := 1; mig_name := "initial-durable-operational-state"; mig_statements := initial_statements |}].
Definition CURRENT_DATABASE_SCHEMA_VERSION : Z := 1.
