(* ===== verification/StateStore.v ===== *)
(** * The local state store

    [LocalStateStore] of state_store.py.  The tables of the SQLite database are the
    maps and lists of their rows; a transaction is a function that returns the new
    tables only when it commits, and a constraint of a table is checked where its row
    is inserted.  Each reading of the clock and each identifier a generator answers
    is an argument.  A store is the Python object without its connection: one process
    at a time holds the lock, and a process that dies leaves the tables of the last
    commit.  The checks SQLite makes of the file itself (quick check, object names,
    column layout), the path and lock handling are not modelled. *)

From S2P Require Export StateRecords Effects.
Import State.

(** [int(text)] *)
Fixpoint int_digits (after_digit : bool) (acc : Z) (s : string) : option Z :=
  match s with
  | EmptyString => if after_digit then Some acc else None
  | String c s' =>
      if is_digit c then int_digits true (acc * 10 + (code c - 48)) s'
      else if Ascii.eqb c "_" && after_digit then int_digits false acc s' else None
  end.
Definition py_int (text : string) : result Z :=
  let s := strip text in
  let '(negative, ds) := match s with
    | String c s' => if Ascii.eqb c "-" then (true, s') else if Ascii.eqb c "+" then (false, s') else (false, s)
    | EmptyString => (false, s)
    end in
  raise_if (4300 <? str_len (remove_chars (Ascii.eqb "_") ds))
    (ValueError "Exceeds the limit (4300 digits) for integer string conversion");;
  match int_digits false 0 ds with
  | Some z => Ok (if negative then - z else z)
  | None => Raise (ValueError ("invalid literal for int() with base 10: " +:+ py_repr text))
  end.

Definition IntegrityError (msg : string) : exn := OtherException "sqlite3.IntegrityError" msg.
Definition OperationalError (msg : string) : exn := OtherException "sqlite3.OperationalError" msg.
Definition IncompatibleStateVersionError (msg : string) : exn := OtherException "IncompatibleStateVersionError" msg.
Definition StateStoreError (msg : string) : exn := OtherException "StateStoreError" msg.
Definition TypeError (msg : string) : exn := OtherException "TypeError" msg.
Definition AttributeError (msg : string) : exn := OtherException "AttributeError" msg.

(** ** The tables *)

Record migration_row := { mr_version : Z; mr_name : string; mr_sha256 : string; mr_applied_at : string }.
(** A row of [operational_records], but for its primary key. *)
Record record_cells := {
  rc_generation : Z; rc_lifecycle : string; rc_verification : string; rc_payload_json : string;
  rc_payload_sha256 : string; rc_updated_at : string; rc_sources_json : string; rc_tombstoned : bool
}.
Record transition_row := {
  tr_sequence : Z; tr_command : string; tr_kind : string; tr_id : string; tr_from_generation : option Z;
  tr_to_generation : Z; tr_from_payload : option string; tr_to_payload : string; tr_from_state : option string;
  tr_to_state : string; tr_action : string; tr_reason : string; tr_committed_at : string
}.
Record command_cells := { cc_request : string; cc_epoch : Z; cc_committed_at : string }.
Record session_cells := {
  sc_started : string; sc_ended : option string; sc_termination : string; sc_prior : option string
}.
Record run_cells := { rn_plan_sha256 : string; rn_report_json : string; rn_completed_at : string }.

Record tables := {
  t_migrations : list migration_row; t_metadata : gmap string string;
  t_records : gmap (string * string) record_cells; t_transitions : list transition_row;
  t_commands : gmap string command_cells; t_sessions : gmap string session_cells; t_runs : gmap string run_cells
}.
Definition empty_tables : tables :=
  {| t_migrations := []; t_metadata := ∅; t_records := ∅; t_transitions := []; t_commands := ∅; t_sessions := ∅;
     t_runs := ∅ |}.

(** A database: [PRAGMA user_version], and the tables once the schema exists. *)
Record database := { db_user_version : Z; db_tables : option tables }.
(** A file SQLite has just created. *)
Definition new_database : database := {| db_user_version := 0; db_tables := None |}.

Definition set_metadata (m : gmap string string) (t : tables) : tables :=
  {| t_migrations := t_migrations t; t_metadata := m; t_records := t_records t; t_transitions := t_transitions t;
     t_commands := t_commands t; t_sessions := t_sessions t; t_runs := t_runs t |}.
Definition set_records (r : gmap (string * string) record_cells) (t : tables) : tables :=
  {| t_migrations := t_migrations t; t_metadata := t_metadata t; t_records := r; t_transitions := t_transitions t;
     t_commands := t_commands t; t_sessions := t_sessions t; t_runs := t_runs t |}.
Definition add_transition (row : transition_row) (t : tables) : tables :=
  {| t_migrations := t_migrations t; t_metadata := t_metadata t; t_records := t_records t;
     t_transitions := t_transitions t ++ [row]; t_commands := t_commands t; t_sessions := t_sessions t; t_runs := t_runs t |}.
Definition set_commands (c : gmap string command_cells) (t : tables) : tables :=
  {| t_migrations := t_migrations t; t_metadata := t_metadata t; t_records := t_records t; t_transitions := t_transitions t;
     t_commands := c; t_sessions := t_sessions t; t_runs := t_runs t |}.
Definition set_sessions (s : gmap string session_cells) (t : tables) : tables :=
  {| t_migrations := t_migrations t; t_metadata := t_metadata t; t_records := t_records t; t_transitions := t_transitions t;
     t_commands := t_commands t; t_sessions := s; t_runs := t_runs t |}.
Definition set_runs (r : gmap string run_cells) (t : tables) : tables :=
  {| t_migrations := t_migrations t; t_metadata := t_metadata t; t_records := t_records t; t_transitions := t_transitions t;
     t_commands := t_commands t; t_sessions := t_sessions t; t_runs := r |}.
Definition add_migration (row : migration_row) (t : tables) : tables :=
  {| t_migrations := t_migrations t ++ [row]; t_metadata := t_metadata t; t_records := t_records t;
     t_transitions := t_transitions t; t_commands := t_commands t; t_sessions := t_sessions t; t_runs := t_runs t |}.

(** [INSERT INTO] a table keyed by a text primary key. *)
Definition insert_row {A} (table key : string) (cells : A) (m : gmap string A) : result (gmap string A) :=
  match m !! key with
  | Some _ => Raise (IntegrityError ("UNIQUE constraint failed: " +:+ table))
  | None => Ok (<[key := cells]> m)
  end.
(** [UPDATE metadata SET value = value WHERE key = key] *)
Definition update_metadata (key value : string) (t : tables) : tables :=
  set_metadata (alter (fun _ => value) key (t_metadata t)) t.
(** [metadata[key]] *)
Definition metadata (t : tables) (key : string) : result string :=
  match t_metadata t !! key with Some v => Ok v | None => Raise (KeyError key) end.
Definition epoch_of (t : tables) : result Z := text ← metadata t "epoch"; py_int text.

(** The [AUTOINCREMENT] value of the next transition; no row is ever deleted. *)
Definition next_sequence (t : tables) : Z := 1 + foldr Z.max 0 (tr_sequence <$> t_transitions t).
Definition insert_transition (row : transition_row) (t : tables) : result tables :=
  raise_if (existsb (fun r => String.eqb (tr_command r) (tr_command row) && String.eqb (tr_kind r) (tr_kind row) &&
                              String.eqb (tr_id r) (tr_id row)) (t_transitions t))
    (IntegrityError "UNIQUE constraint failed: state_transitions");;
  Ok (add_transition row t).

(** ** Namespaces *)

Definition STORE_ID : string := "opid:v1:control-plane-state:u7:".
Definition SESSION_ID : string := "opid:v1:control-plane-session:u7:".
Definition new_store_id (stamp r12 r62 : Z) : result string := uuid7_new StateModelError "control-plane-state" stamp r12 r62.
Definition new_session_id (stamp r12 r62 : Z) : result string := uuid7_new StateModelError "control-plane-session" stamp r12 r62.
Definition new_reconciliation_id (stamp r12 r62 : Z) : result string := uuid7_new StateModelError "state-reconciliation" stamp r12 r62.

(** [len(digest) != 64 or any(character not in "0123456789abcdef" ...)] *)
Definition bad_digest (digest : string) : bool :=
  negb (str_len digest =? 64) || negb (str_forallb (fun c => contains_char c "0123456789abcdef") digest).

Definition stored_timestamp (value : string) : result Z :=
  match iso_parse value with
  | None => Raise (StateModelError "stored state timestamp is not RFC 3339")
  | Some d =>
      raise_if (is_none (utcoffset d)) (StateModelError "stored state timestamp must include a timezone");;
      raise_if (negb ((min_instant <=? instant d) && (instant d <=? max_instant)))
        (OverflowError "date value out of range");;
      Ok (instant d)
  end.

(** ** Decoding rows *)

(** The keyword arguments of a call: exactly the parameters, each once. *)
Definition keyword (name : string) (fields : list (string * json)) : result json :=
  match List.find (fun p => String.eqb p.1 name) fields with
  | Some p => Ok p.2
  | None => Raise (TypeError ("missing a required argument: " +:+ py_repr name))
  end.
Definition keywords (names : list string) (fields : list (string * json)) : result unit :=
  raise_if (existsb (fun p => negb (mem p.1 names)) fields) (TypeError "got an unexpected keyword argument").
Definition type_error : exn := TypeError "unexpected type".
Definition as_str (v : json) : result string := match v with JStr s => Ok s | _ => Raise type_error end.
Definition as_bool (error : exn) (v : json) : result bool := match v with JBool b => Ok b | _ => Raise error end.
Definition as_int (error : exn) (v : json) : result Z := match v with JInt z => Ok z | _ => Raise error end.

(** [except (TypeError, StateModelError) as error: raise wrapped from error] *)
Definition wraps (also_key : bool) (wrapped : exn) {A} (m : result A) : result A :=
  match m with
  | Ok a => Ok a
  | Raise e =>
      Raise (match e with
             | StateModelError _ | SecretMaterialError _ => wrapped
             | KeyError _ => if also_key then wrapped else e
             | OtherException cls _ => if String.eqb cls "TypeError" then wrapped else e
             | _ => e
             end)
  end.

(** The object that the store's methods are called on. *)
Record LocalStateStore := { ls_prior_shutdown : string; ls_session_id : string; ls_closed : bool }.

(** The last transition seen of each record: its generation and the two digests. *)
Abbreviation latest_map := (gmap (string * string) (Z * string * string)) (only parsing).

Section Store.
Context `{PyTables} `{JCS} `{PyFloat}.

(** [json.loads(value)], with the exceptions the readers convert. *)
Definition loads_or (error : exn) (value : string) : result json :=
  match @json_loads _ default_hooks value with
  | Raise (OtherException cls _ as e) => if String.eqb cls "JSONDecodeError" then Raise error else Raise e
  | Raise (ValueError _) => Raise error
  | r => r
  end.

Definition decode_source (item : json) : result StateSourceReference :=
  match item with
  | JObj fields =>
      keywords ["source_kind"; "source_id"; "observed_at"; "verified"] fields;;
      kind ← keyword "source_kind" fields; kind ← as_str kind;
      id ← keyword "source_id" fields; id ← as_str id;
      at' ← keyword "observed_at" fields;
      observed_at ← match at' with JStr s => Ok s | _ => Raise (AttributeError "'replace'") end;
      verified ← keyword "verified" fields;
      verified ← as_bool (StateModelError "state source verification must be boolean") verified;
      construct {| src_kind := kind; src_id := id; src_observed_at := observed_at; src_verified := verified |}
  | _ => Raise type_error
  end.

Definition _decode_sources (value : string) : result (list StateSourceReference) :=
  parsed ← loads_or (StateModelError "stored state sources are not strict JSON") value;
  match parsed with
  | JArr items =>
      encoded ← canonical_json parsed;
      raise_if (negb (String.eqb encoded value)) (StateModelError "stored state sources are not a canonical JSON array");;
      wraps false (StateModelError "stored state sources are malformed") (map_result decode_source items)
  | _ => Raise (StateModelError "stored state sources are not a canonical JSON array")
  end.

Definition _record_from_row (row : (string * string) * record_cells) : result OperationalStateRecord :=
  let '((kind, id), cells) := row in
  sources ← _decode_sources (rc_sources_json cells);
  construct {| osr_kind := kind; osr_id := id; osr_generation := rc_generation cells; osr_lifecycle := rc_lifecycle cells;
    osr_verification := rc_verification cells; osr_payload_json := rc_payload_json cells;
    osr_payload_sha256 := rc_payload_sha256 cells; osr_updated_at := rc_updated_at cells; osr_sources := sources;
    osr_tombstoned := rc_tombstoned cells |}.

(** [SELECT * FROM operational_records ORDER BY record_kind, record_id] *)
Definition select_records (t : tables) : list ((string * string) * record_cells) := sorted_by fst (map_to_list (t_records t)).
Definition stored_records (t : tables) : result (list OperationalStateRecord) := map_result _record_from_row (select_records t).

Definition decode_issue (item : json) : result ReconciliationIssue :=
  match item with
  | JObj fields =>
      keywords ["record_kind"; "record_id"; "code"; "detail"; "blocking"] fields;;
      kind ← keyword "record_kind" fields; kind ← as_str kind;
      id ← keyword "record_id" fields; id ← as_str id;
      code ← keyword "code" fields; code ← as_str code;
      detail ← keyword "detail" fields; detail ← as_str detail;
      blocking ← (match List.find (fun p => String.eqb p.1 "blocking") fields with
                  | Some p => as_bool (StateModelError "reconciliation issue blocking flag must be boolean") p.2
                  | None => Ok true
                  end);
      construct {| iss_kind := kind; iss_id := id; iss_code := code; iss_detail := detail; iss_blocking := blocking |}
  | _ => Raise type_error
  end.

Definition decode_action_result (item : json) : result ReconciliationActionResult :=
  match item with
  | JObj fields =>
      keywords ["action"; "record_kind"; "record_id"; "resulting_generation"; "code"] fields;;
      action ← keyword "action" fields; action ← as_str action;
      kind ← keyword "record_kind" fields; kind ← as_str kind;
      id ← keyword "record_id" fields; id ← as_str id;
      generation ← keyword "resulting_generation" fields;
      generation ← as_int (StateModelError "reconciliation result generation must be a positive safe integer") generation;
      code ← keyword "code" fields; code ← as_str code;
      construct {| res_action := action; res_kind := kind; res_id := id; res_generation := generation; res_code := code |}
  | _ => Raise type_error
  end.

(** [parsed[name]] of a dict. *)
Definition item_of (name : string) (fields : list (string * json)) : result json :=
  match List.find (fun p => String.eqb p.1 name) fields with Some p => Ok p.2 | None => Raise (KeyError name) end.
Definition str_item (name : string) (fields : list (string * json)) : result string := v ← item_of name fields; as_str v.
(** Iteration over a JSON value: a list yields its items, a dict or a string texts. *)
Definition iter_item (v : json) : result (list json) :=
  match v with
  | JArr l => Ok l
  | JObj fields => Ok ((fun p => JStr p.1) <$> fields)
  | JStr s => Ok ((fun c => JStr (str1 c)) <$> list_ascii_of_string s)
  | _ => Raise type_error
  end.

Definition decode_report (fields : list (string * json)) : result ReconciliationReport :=
  issues ← item_of "issues" fields; issues ← iter_item issues; issues ← map_result decode_issue issues;
  results ← item_of "action_results" fields; results ← iter_item results; results ← map_result decode_action_result results;
  plan_id ← str_item "plan_id" fields;
  plan_digest ← str_item "plan_digest" fields;
  before ← str_item "before_snapshot_digest" fields;
  after ← str_item "after_snapshot_digest" fields;
  completed_at ← item_of "completed_at" fields;
  completed_at ← match completed_at with JStr s => Ok s | _ => Raise (AttributeError "'replace'") end;
  status ← str_item "status" fields;
  report_digest ← str_item "report_digest" fields;
  construct {| rpt_plan_id := plan_id; rpt_plan_digest := plan_digest; rpt_before := before; rpt_after := after;
    rpt_completed_at := completed_at; rpt_status := status; rpt_results := results; rpt_issues := issues;
    rpt_digest := report_digest |}.

Definition _parse_report (value : string) : result ReconciliationReport :=
  parsed ← loads_or (StateCorruptionError "stored reconciliation report is invalid JSON") value;
  match parsed with
  | JObj fields =>
      encoded ← canonical_json parsed;
      raise_if (negb (String.eqb encoded value))
        (StateCorruptionError "stored reconciliation report is not canonical JSON");;
      wraps true (StateCorruptionError "stored reconciliation report violates its model") (decode_report fields)
  | _ => Raise (StateCorruptionError "stored reconciliation report is not canonical JSON")
  end.

(** ** Verification *)

Definition METADATA_KEYS : list string := ["active_session_id"; "admission_state"; "epoch"; "store_id"].

Definition _verify_integrity (d : database) : result unit :=
  raise_if (negb (db_user_version d =? CURRENT_DATABASE_SCHEMA_VERSION))
    (IncompatibleStateVersionError "state database did not reach the supported schema version");;
  match db_tables d with
  | None => Raise (OperationalError "no such table: schema_migrations")
  | Some t =>
      raise_if (negb (bool_decide ((fun m => (mr_version m, mr_name m, mr_sha256 m)) <$> sorted_by mr_version (t_migrations t) =
                                   (fun m => (mig_version m, mig_name m, migration_sha256 m)) <$> MIGRATIONS)))
        (StateCorruptionError "state migration history does not match compiled migrations")
  end.

Definition _verify_metadata (t : tables) : result unit :=
  raise_if (negb (bool_decide (dom (t_metadata t) = list_to_set (C := gset string) METADATA_KEYS)))
    (StateCorruptionError "state metadata keys are missing or unexpected");;
  store_id ← metadata t "store_id";
  raise_if (negb (fullmatch OPERATIONAL_ID_PATTERN store_id)) (StateCorruptionError "state store ID is invalid");;
  raise_if (negb (str_startswith store_id STORE_ID)) (StateCorruptionError "state store ID uses the wrong namespace");;
  text ← metadata t "epoch";
  epoch ← match py_int text with
          | Raise (ValueError _) => Raise (StateCorruptionError "state epoch is not an integer")
          | r => r
          end;
  raise_if (negb (safe_nonneg epoch)) (StateCorruptionError "state epoch is outside the safe-integer domain");;
  admission ← metadata t "admission_state";
  raise_if (negb (mem admission ["blocked"; "ready"; "reconciliation-required"]))
    (StateCorruptionError "state admission metadata is invalid");;
  active ← metadata t "active_session_id";
  raise_if (negb (str_empty active) && negb (fullmatch OPERATIONAL_ID_PATTERN active))
    (StateCorruptionError "active state session ID is invalid");;
  raise_if (negb (str_empty active) && negb (str_startswith active SESSION_ID))
    (StateCorruptionError "active state session ID uses the wrong namespace").

Definition _verify_records (t : tables) : result unit := _ ← stored_records t; Ok tt.

Definition verify_command (current_epoch : Z) (row : string * command_cells) : result unit :=
  raise_if (negb (fullmatch OPERATIONAL_ID_PATTERN row.1))
    (StateCorruptionError "state command history contains an invalid ID");;
  raise_if (bad_digest (cc_request row.2)) (StateCorruptionError "state command history contains an invalid digest");;
  raise_if (negb ((1 <=? cc_epoch row.2) && (cc_epoch row.2 <=? SAFE_INTEGER_MAX)))
    (StateCorruptionError "state command history contains an invalid epoch");;
  raise_if (current_epoch <? cc_epoch row.2) (StateCorruptionError "state command history claims a future epoch");;
  _ ← stored_timestamp (cc_committed_at row.2); Ok tt.

Definition verify_run (row : string * run_cells) : result unit :=
  raise_if (negb (fullmatch OPERATIONAL_ID_PATTERN row.1))
    (StateCorruptionError "reconciliation history contains an invalid plan ID");;
  raise_if (negb (str_startswith row.1 RECONCILIATION_ID))
    (StateCorruptionError "reconciliation history plan ID uses the wrong namespace");;
  report ← _parse_report (rn_report_json row.2);
  raise_if (negb (String.eqb (rpt_plan_id report) row.1) || negb (String.eqb (rpt_plan_digest report) (rn_plan_sha256 row.2)))
    (StateCorruptionError "reconciliation history does not bind its plan and report");;
  raise_if (negb (String.eqb (rpt_completed_at report) (rn_completed_at row.2)))
    (StateCorruptionError "reconciliation history completion time is inconsistent").

(** [str] of a nullable column. *)
Definition str_or_none (o : option string) : string := default "None" o.

Definition verify_digest_pair (previous : option string) (from : option string) (inconsistent first : string) : result unit :=
  raise_if (match previous with Some p => negb (String.eqb (str_or_none from) p) | None => false end)
    (StateCorruptionError inconsistent);;
  raise_if (match previous with Some _ => false | None => is_some from end) (StateCorruptionError first).

Definition verify_transition (known : gset string) (st : Z * gset string * latest_map) (row : transition_row)
    : result (Z * gset string * latest_map) :=
  let '(expected_sequence, anchors, latest) := st in
  raise_if (negb (tr_sequence row =? expected_sequence)) (StateCorruptionError "state transition sequence is not contiguous");;
  raise_if (negb (bool_decide (tr_command row ∈ known)))
    (StateCorruptionError "state transition is not anchored by a command or reconciliation");;
  raise_if (negb (mem (tr_kind row) STATE_RECORD_KINDS))
    (StateCorruptionError "state transition contains an invalid record kind");;
  let expected_generation := match tr_from_generation row with None => 1 | Some g => g + 1 end in
  raise_if (negb (tr_to_generation row =? expected_generation) || negb (1 <=? tr_to_generation row) ||
            negb (tr_to_generation row <=? SAFE_INTEGER_MAX))
    (StateCorruptionError "state transition generation chain is invalid");;
  let previous := latest !! (tr_kind row, tr_id row) in
  raise_if (match previous with Some p => negb (bool_decide (tr_from_generation row = Some p.1.1)) | None => false end)
    (StateCorruptionError "state transition does not continue its record history");;
  raise_if (match previous with Some _ => false | None => is_some (tr_from_generation row) end)
    (StateCorruptionError "first state transition cannot claim a previous generation");;
  verify_digest_pair (snd ∘ fst <$> previous) (tr_from_payload row) "state transition previous digest is inconsistent"
    "first state transition cannot claim a previous digest";;
  raise_if (bad_digest (tr_to_payload row)) (StateCorruptionError "state transition contains an invalid payload digest");;
  verify_digest_pair (snd <$> previous) (tr_from_state row) "state transition previous record digest is inconsistent"
    "first state transition cannot claim a previous record digest";;
  raise_if (bad_digest (tr_to_state row)) (StateCorruptionError "state transition contains an invalid record digest");;
  raise_if (negb (mem (tr_action row) ["create"; "tombstone"; "update"]))
    (StateCorruptionError "state transition contains an invalid action");;
  _require_token "state transition reason" (tr_reason row);;
  _ ← stored_timestamp (tr_committed_at row);
  Ok (expected_sequence + 1, {[tr_command row]} ∪ anchors,
      <[(tr_kind row, tr_id row) := (tr_to_generation row, tr_to_payload row, tr_to_state row)]> latest).

Definition record_state (record : OperationalStateRecord) : result ((string * string) * (Z * string * string)) :=
  digest ← integrity_digest record; Ok (osr_key record, (osr_generation record, osr_payload_sha256 record, digest)).

Definition verify_session (sessions : gmap string session_cells) (row : string * session_cells) : result unit :=
  let '(session_id, cells) := row in
  raise_if (negb (fullmatch OPERATIONAL_ID_PATTERN session_id))
    (StateCorruptionError "controller session history contains an invalid ID");;
  raise_if (negb (str_startswith session_id SESSION_ID))
    (StateCorruptionError "controller session history contains an ID in the wrong namespace");;
  started ← stored_timestamp (sc_started cells);
  raise_if (negb (mem (sc_termination cells) ["aborted"; "active"; "clean"; "interrupted"]))
    (StateCorruptionError "controller session history contains an invalid termination");;
  (if String.eqb (sc_termination cells) "active" then
     raise_if (is_some (sc_ended cells)) (StateCorruptionError "active controller session cannot have an end time")
   else
     match sc_ended cells with
     | None => Raise (StateCorruptionError "terminated controller session requires an end time")
     | Some ended_at =>
         ended ← stored_timestamp ended_at;
         raise_if (ended <? started) (StateCorruptionError "controller session ends before it starts")
     end);;
  raise_if (match sc_prior cells with
            | None => false
            | Some prior =>
                negb (fullmatch OPERATIONAL_ID_PATTERN prior) || negb (str_startswith prior SESSION_ID) ||
                negb (bool_decide (prior ∈ dom sessions)) || String.eqb prior session_id
            end)
    (StateCorruptionError "controller session history contains an invalid predecessor").

Definition active_sessions (t : tables) : list string :=
  fst <$> List.filter (fun row => String.eqb (sc_termination row.2) "active") (map_to_list (t_sessions t)).

(** [ORDER BY started_at, session_id] *)
Definition select_sessions (t : tables) : list (string * session_cells) :=
  sorted_by (fun row => (sc_started row.2, row.1)) (map_to_list (t_sessions t)).

Definition _verify_history (t : tables) : result unit :=
  current_epoch ← epoch_of t;
  for_each (sorted_by (fun row => cc_epoch row.2) (map_to_list (t_commands t))) (verify_command current_epoch);;
  for_each (sorted_by (fun row => (rn_completed_at row.2, row.1)) (map_to_list (t_runs t))) verify_run;;
  let known := dom (t_commands t) ∪ dom (t_runs t) in
  '(_, anchors, latest) ← fold_result (verify_transition known) (sorted_by tr_sequence (t_transitions t)) (1, ∅, ∅);
  records ← stored_records t;
  states ← map_result record_state records;
  raise_if (negb (bool_decide (list_to_map (M := gmap (string * string) (Z * string * string)) states = latest)))
    (StateCorruptionError "current state records do not match append-only transition history");;
  raise_if (negb (bool_decide (dom (t_commands t) ⊆ anchors)))
    (StateCorruptionError "state command history contains a mutation-free command");;
  for_each (select_sessions t) (verify_session (t_sessions t));;
  raise_if (1 <? Z.of_nat (length (active_sessions t)))
    (StateCorruptionError "multiple controller sessions claim to be active");;
  active ← metadata t "active_session_id";
  raise_if (negb (bool_decide (list_to_set (C := gset string) (active_sessions t) = (if str_empty active then ∅ else {[active]}))))
    (StateCorruptionError "active session history and metadata disagree").
End Store.
