(* ===== verification/StateOperations.v ===== *)
(** * The operations of the local state store

    The methods of [LocalStateStore] of state_store.py over the tables of
    [StateStore]: opening and closing, snapshots, mutation batches and
    reconciliations.  [transaction] is BEGIN ... COMMIT with the ROLLBACK of its
    exception handler. *)

From S2P Require Export StateStore.
Import State.

(** BEGIN; body; COMMIT, and ROLLBACK when the body raises. *)
Definition transaction {W A} (body : W -> result (A * W)) : eff W A := fun w =>
  match body w with Ok (a, w') => (Ok a, w') | Raise e => (Raise e, w) end.
Definition reading {W A} (query : W -> result A) : eff W A := fun w => (query w, w).

Section Operations.
Context `{PyTables} `{JCS} `{PyFloat}.

(** ** Opening *)

(** The statements of the first migration create the tables. *)
Definition create_schema (d : database) : result tables :=
  match db_tables d with
  | Some _ => Raise (OperationalError "table schema_migrations already exists")
  | None => Ok empty_tables
  end.

Fixpoint apply_migrations (migrations : list Migration) (applied_at : Z) (current : Z) : eff database unit :=
  match migrations with
  | [] => mret tt
  | migration :: rest =>
      if mig_version migration <=? current then apply_migrations rest applied_at current
      else
        _ ← lift (raise_if (negb (mig_version migration =? current + 1))
              (StateCorruptionError "state migrations are not contiguous"));
        _ ← transaction (fun d =>
              t ← create_schema d;
              Ok (tt, {| db_user_version := mig_version migration;
                         db_tables := Some (add_migration {| mr_version := mig_version migration; mr_name := mig_name migration;
                           mr_sha256 := migration_sha256 migration; mr_applied_at := rfc3339 applied_at |} t) |}));
        apply_migrations rest applied_at (mig_version migration)
  end.

Definition _apply_migrations (applied_at : Z) : eff database unit := fun d =>
  (_ ← lift (raise_if (CURRENT_DATABASE_SCHEMA_VERSION <? db_user_version d)
        (IncompatibleStateVersionError "state schema version is newer than supported version"));
   apply_migrations MIGRATIONS applied_at (db_user_version d)) d.

(** A statement over the tables of a database that has them. *)
Definition on_tables {A} (m : eff tables A) : eff database A := fun d =>
  match db_tables d with
  | None => (Raise (OperationalError "no such table"), d)
  | Some t => let '(r, t') := m t in (r, {| db_user_version := db_user_version d; db_tables := Some t' |})
  end.

Definition _initialize_metadata (store_id : string) : eff tables unit :=
  _ ← lift (raise_if (negb (fullmatch OPERATIONAL_ID_PATTERN store_id))
        (StateModelError "state store ID generator returned an invalid ID"));
  _ ← lift (raise_if (negb (str_startswith store_id STORE_ID))
        (StateModelError "state store ID generator returned the wrong namespace"));
  transaction (fun t =>
    raise_if (negb (bool_decide (t_metadata t = ∅)))
      (StateCorruptionError "new state database unexpectedly contains metadata");;
    Ok (tt, set_metadata (<["active_session_id" := ""]> (<["admission_state" := "reconciliation-required"]>
                         (<["epoch" := "0"]> (<["store_id" := store_id]> ∅)))) t)).

(** The session the new one follows: its identifier, how it ended, and the
    sessions with it ended if it was still active. *)
Definition prior_session (stamp active : string) (t : tables) : result (option string * string * gmap string session_cells) :=
  if negb (str_empty active) then
    match t_sessions t !! active with
    | Some cells =>
        raise_if (negb (String.eqb (sc_termination cells) "active"))
          (StateCorruptionError "active session metadata does not identify an active session");;
        Ok (Some active, "unclean",
            <[active := {| sc_started := sc_started cells; sc_ended := Some stamp; sc_termination := "interrupted";
                           sc_prior := sc_prior cells |}]> (t_sessions t))
    | None => Raise (StateCorruptionError "active session metadata does not identify an active session")
    end
  else
    Ok match last (select_sessions t) with
       | None => (None, "new", t_sessions t)
       | Some (id, cells) =>
           (Some id, if String.eqb (sc_termination cells) "clean" then "clean" else "unclean", t_sessions t)
       end.

Definition _start_session (stamp session_id : string) : eff tables (string * string) :=
  transaction (fun t =>
    active ← metadata t "active_session_id";
    '(prior, prior_shutdown, sessions) ← prior_session stamp active t;
    raise_if (negb (fullmatch OPERATIONAL_ID_PATTERN session_id))
      (StateModelError "state session ID generator returned an invalid ID");;
    raise_if (negb (str_startswith session_id SESSION_ID))
      (StateModelError "state session ID generator returned the wrong namespace");;
    sessions ← insert_row "controller_sessions" session_id
                 {| sc_started := stamp; sc_ended := None; sc_termination := "active"; sc_prior := prior |} sessions;
    Ok ((prior_shutdown, session_id),
        update_metadata "admission_state" "reconciliation-required"
          (update_metadata "active_session_id" session_id (set_sessions sessions t)))).

(** The exceptions [_open_with_lock] converts. *)
Definition open_error (e : exn) : exn :=
  let corrupt := StateCorruptionError "local state failed integrity or schema validation" in
  match e with
  | StateModelError _ | SecretMaterialError _ | ValueError _ | OSError _ _ => corrupt
  | OtherException cls _ =>
      if mem cls ["sqlite3.IntegrityError"; "sqlite3.OperationalError"; "JSONDecodeError"; "UnicodeError"] then corrupt else e
  | _ => e
  end.

(** [_open_with_lock], after the database file has been opened: [migrated_at] and
    [opened_at] are the two readings of the clock. *)
Definition open_database (new_database : bool) (migrated_at opened_at : Z) (store_id session_id : string)
    : eff database LocalStateStore :=
  _ ← (fun d => lift (raise_if (CURRENT_DATABASE_SCHEMA_VERSION <? db_user_version d)
                  (IncompatibleStateVersionError "state schema version is newer than supported version")) d);
  try_eff
    (_ ← _apply_migrations migrated_at;
     _ ← reading _verify_integrity;
     let stamp := rfc3339 opened_at in
     _ ← (if new_database then on_tables (_initialize_metadata store_id) else mret tt);
     _ ← on_tables (reading _verify_metadata);
     _ ← on_tables (reading _verify_records);
     _ ← on_tables (reading _verify_history);
     '(prior_shutdown, session_id) ← on_tables (_start_session stamp session_id);
     mret {| ls_prior_shutdown := prior_shutdown; ls_session_id := session_id; ls_closed := false |})
    (fun e => lift (Raise (open_error e))).

(** ** Closing *)

Definition _ensure_open (self : LocalStateStore) : result unit :=
  raise_if (ls_closed self) (StateStoreError "local state store is closed").

(** The object after [close], whether it raised or not. *)
Definition closed_store (self : LocalStateStore) : LocalStateStore :=
  {| ls_prior_shutdown := ls_prior_shutdown self; ls_session_id := ls_session_id self; ls_closed := true |}.

Definition close (clean : bool) (closed_at : Z) (self : LocalStateStore) : eff tables unit :=
  if ls_closed self then mret tt
  else transaction (fun t =>
    match t_sessions t !! ls_session_id self with
    | Some cells =>
        raise_if (negb (String.eqb (sc_termination cells) "active"))
          (StateCorruptionError "active state session disappeared before close");;
        let ended := {| sc_started := sc_started cells; sc_ended := Some (rfc3339 closed_at);
                        sc_termination := if clean then "clean" else "aborted"; sc_prior := sc_prior cells |} in
        Ok (tt, update_metadata "active_session_id" "" (set_sessions (<[ls_session_id self := ended]> (t_sessions t)) t))
    | None => Raise (StateCorruptionError "active state session disappeared before close")
    end).

(** ** Reading *)

Definition _snapshot_locked (self : LocalStateStore) (observed_at : string) (t : tables) : result StateSnapshot :=
  records ← stored_records t;
  store_id ← metadata t "store_id";
  epoch ← epoch_of t;
  admission_state ← metadata t "admission_state";
  build_snapshot store_id CURRENT_DATABASE_SCHEMA_VERSION epoch admission_state (ls_prior_shutdown self) observed_at records.

Definition snapshot (self : LocalStateStore) (now : Z) (t : tables) : result StateSnapshot :=
  _ensure_open self;; _snapshot_locked self (rfc3339 now) t.

Definition require_ready (self : LocalStateStore) (now : Z) (t : tables) : result unit :=
  snap ← snapshot self now t;
  raise_if (negb (String.eqb (snap_admission snap) "ready"))
    (StateAdmissionError ("controller admission is " +:+ snap_admission snap +:+ "; startup reconciliation must pass first")).

Definition transition_history (self : LocalStateStore) (record_kind record_id : string) (t : tables)
    : result (list (list (string * json))) :=
  raise_if (negb (mem record_kind STATE_RECORD_KINDS)) (ValueError "unknown state record kind");;
  _ensure_open self;;
  let rows := List.filter (fun r => String.eqb (tr_kind r) record_kind && String.eqb (tr_id r) record_id) (t_transitions t) in
  Ok ((fun r => [("sequence", JInt (tr_sequence r)); ("command_id", JStr (tr_command r));
                 ("from_generation", JOptInt (tr_from_generation r)); ("to_generation", JInt (tr_to_generation r));
                 ("from_payload_sha256", JOptStr (tr_from_payload r)); ("to_payload_sha256", JStr (tr_to_payload r));
                 ("action", JStr (tr_action r)); ("reason_code", JStr (tr_reason r));
                 ("committed_at", JStr (tr_committed_at r))]) <$> sorted_by tr_sequence rows).

Definition health_check (self : LocalStateStore) (now : Z) (d : database) : result (list (string * json)) :=
  _ensure_open self;;
  _verify_integrity d;;
  t ← match db_tables d with Some t => Ok t | None => Raise (OperationalError "no such table") end;
  _verify_metadata t;;
  _verify_records t;;
  _verify_history t;;
  snap ← _snapshot_locked self (rfc3339 now) t;
  Ok [("admission_state", JStr (snap_admission snap)); ("canonical_authority", JBool false);
      ("database_schema_version", JInt CURRENT_DATABASE_SCHEMA_VERSION);
      ("migration_digests", JStrs (migration_sha256 <$> MIGRATIONS)); ("quick_check", JStr "ok");
      ("record_count", JInt (Z.of_nat (length (snap_records snap)))); ("store_id", JStr (snap_store_id snap))].

(** ** Mutations *)

Definition cells_of (record : OperationalStateRecord) (sources_json : string) : record_cells :=
  {| rc_generation := osr_generation record; rc_lifecycle := osr_lifecycle record;
     rc_verification := osr_verification record; rc_payload_json := osr_payload_json record;
     rc_payload_sha256 := osr_payload_sha256 record; rc_updated_at := osr_updated_at record;
     rc_sources_json := sources_json; rc_tombstoned := osr_tombstoned record |}.

(** The generation a mutation produces. *)
Definition next_generation (mutation : StateMutation) (current : option OperationalStateRecord) : result Z :=
  match mut_expected_generation mutation, current with
  | None, Some _ => Raise (StateConflictError "state create expected no existing generation")
  | None, None => Ok 1
  | Some _, None => Raise (StateConflictError "state update expected a record that is absent")
  | Some expected, Some record =>
      raise_if (negb (osr_generation record =? expected))
        (StateConflictError ("state generation changed from expected " +:+ dec expected +:+ " to " +:+ dec (osr_generation record)));;
      raise_if (SAFE_INTEGER_MAX <? osr_generation record + 1)
        (StateConflictError "state record generation exhausted the safe-integer domain");;
      Ok (osr_generation record + 1)
  end.

Definition mutated_record (mutation : StateMutation) (generation : Z) (committed_at : string) : OperationalStateRecord :=
  {| osr_kind := mut_kind mutation; osr_id := mut_id mutation; osr_generation := generation;
     osr_lifecycle := mut_lifecycle mutation; osr_verification := mut_verification mutation;
     osr_payload_json := mut_payload_json mutation; osr_payload_sha256 := mut_payload_sha256 mutation;
     osr_updated_at := committed_at; osr_sources := mut_sources mutation; osr_tombstoned := mut_tombstoned mutation |}.

(** [None if current is None else f(current)] *)
Definition of_current {A} (f : OperationalStateRecord -> result A) (current : option OperationalStateRecord) : result (option A) :=
  match current with None => Ok None | Some record => a ← f record; Ok (Some a) end.

Definition current_record (key : string * string) (t : tables) : result (option OperationalStateRecord) :=
  match t_records t !! key with
  | None => Ok None
  | Some cells => record ← _record_from_row (key, cells); Ok (Some record)
  end.

Definition _persist_mutation (mutation : StateMutation) (command_id reason_code committed_at : string) (t : tables)
    : result (OperationalStateRecord * tables) :=
  current ← current_record (mut_key mutation) t;
  generation ← next_generation mutation current;
  record ← construct (mutated_record mutation generation committed_at);
  sources_json ← canonical_json (JArr (source_to_dict <$> osr_sources record));
  let t' := set_records (<[osr_key record := cells_of record sources_json]> (t_records t)) t in
  let action := if is_none current then "create" else if osr_tombstoned record then "tombstone" else "update" in
  from_state ← of_current integrity_digest current;
  to_state ← integrity_digest record;
  t'' ← insert_transition {| tr_sequence := next_sequence t; tr_command := command_id; tr_kind := osr_kind record;
          tr_id := osr_id record; tr_from_generation := osr_generation <$> current; tr_to_generation := generation;
          tr_from_payload := osr_payload_sha256 <$> current; tr_to_payload := osr_payload_sha256 record;
          tr_from_state := from_state; tr_to_state := to_state; tr_action := action; tr_reason := reason_code;
          tr_committed_at := committed_at |} t';
  Ok (record, t'').

Definition _request_digest (expected_epoch : Z) (reason_code : string) (mutations : list StateMutation) : result string :=
  documents ← map_result mutation_to_dict mutations;
  digest_of (JObj [("expected_epoch", JInt expected_epoch); ("mutations", JArr documents);
                   ("reason_code", JStr reason_code)]).

Definition bump_epoch (current : Z) (t : tables) : result (Z * tables) :=
  let next := current + 1 in
  raise_if (SAFE_INTEGER_MAX <? next) (StateConflictError "state epoch exhausted the safe-integer domain");;
  Ok (next, update_metadata "epoch" (dec next) t).

(** The loop over the ordered mutations. *)
Fixpoint persist_all (mutations : list StateMutation) (command_id reason_code committed_at : string) (t : tables)
    : result tables :=
  match mutations with
  | [] => Ok t
  | mutation :: rest =>
      '(_, t') ← _persist_mutation mutation command_id reason_code committed_at t;
      persist_all rest command_id reason_code committed_at t'
  end.

Definition batch_transaction (ordered : list StateMutation) (command_id reason_code request_digest : string)
    (expected_epoch committed_at : Z) (t : tables) : result (unit * tables) :=
  match t_commands t !! command_id with
  | Some cells =>
      raise_if (negb (String.eqb (cc_request cells) request_digest))
        (StateConflictError "state command ID was reused with different content");;
      Ok (tt, t)
  | None =>
      admission ← metadata t "admission_state";
      raise_if (negb (String.eqb admission "ready"))
        (StateAdmissionError "state mutations are blocked until reconciliation succeeds");;
      current_epoch ← epoch_of t;
      raise_if (negb (current_epoch =? expected_epoch))
        (StateConflictError ("state epoch changed from expected " +:+ dec expected_epoch +:+ " to " +:+ dec current_epoch));;
      let stamp := rfc3339 committed_at in
      t ← persist_all ordered command_id reason_code stamp t;
      '(next, t) ← bump_epoch current_epoch t;
      commands ← insert_row "commands" command_id
                   {| cc_request := request_digest; cc_epoch := next; cc_committed_at := stamp |} (t_commands t);
      Ok (tt, set_commands commands t)
  end.

Definition apply_batch (self : LocalStateStore) (mutations : list StateMutation) (command_id reason_code : string)
    (expected_epoch committed_at now : Z) : eff tables StateSnapshot :=
  let ordered := sorted_by mut_key mutations in
  _ ← lift (raise_if (list_empty ordered) (ValueError "state mutation batch cannot be empty"));
  _ ← lift (raise_if (has_duplicates (mut_key <$> ordered))
        (StateConflictError "state mutation batch contains a duplicate record key"));
  _ ← lift (raise_if (negb (fullmatch OPERATIONAL_ID_PATTERN command_id))
        (StateModelError "state command ID must be an operational UUIDv7"));
  _ ← lift (_require_token "state transition reason" reason_code);
  _ ← lift (raise_if (negb (safe_nonneg expected_epoch))
        (StateModelError "expected state epoch must be a non-negative safe integer"));
  request_digest ← lift (_request_digest expected_epoch reason_code ordered);
  _ ← lift (_ensure_open self);
  _ ← transaction (batch_transaction ordered command_id reason_code request_digest expected_epoch committed_at);
  reading (_snapshot_locked self (rfc3339 now)).

(** ** Reconciliation *)

(** The loop over the actions of a plan, with the result of each. *)
Fixpoint persist_actions (actions : list ReconciliationAction) (plan_id committed_at : string) (t : tables)
    : result (list ReconciliationActionResult * tables) :=
  match actions with
  | [] => Ok ([], t)
  | action :: rest =>
      mutation ← to_mutation action;
      '(record, t) ← _persist_mutation mutation plan_id (act_reason action) committed_at t;
      result ← construct {| res_action := act_action action; res_kind := act_kind action; res_id := act_id action;
                            res_generation := osr_generation record; res_code := "applied" |};
      '(results, t) ← persist_actions rest plan_id committed_at t;
      Ok (result :: results, t)
  end.

Definition resulting_status (plan : ReconciliationPlan) : string :=
  if plan_ready_after_apply plan then "ready" else "blocked".

(** [planned_at] is the clock at the snapshot taken first, [applied_at] the stamp. *)
Definition reconciliation_transaction (self : LocalStateStore) (plan : ReconciliationPlan) (read_at applied_at : Z) (t : tables)
    : result (ReconciliationReport * tables) :=
  match t_runs t !! plan_id plan with
  | Some cells =>
      raise_if (negb (String.eqb (rn_plan_sha256 cells) (plan_digest plan)))
        (StateConflictError "reconciliation plan ID was reused with different content");;
      report ← _parse_report (rn_report_json cells);
      Ok (report, t)
  | None =>
      before ← _snapshot_locked self (rfc3339 read_at) t;
      raise_if (negb (String.eqb (snap_digest before) (plan_snapshot_digest plan)))
        (StaleReconciliationPlanError "local state changed after reconciliation planning");;
      let stamp := rfc3339 applied_at in
      '(results, t) ← persist_actions (plan_actions plan) (plan_id plan) stamp t;
      '(_, t) ← bump_epoch (snap_epoch before) t;
      let status := resulting_status plan in
      let t := update_metadata "admission_state" status t in
      after ← _snapshot_locked self stamp t;
      report ← build_report (plan_id plan) (plan_digest plan) (snap_digest before) (snap_digest after) stamp status results
                 (plan_issues plan);
      report_json ← canonical_json (report_to_dict report);
      runs ← insert_row "reconciliation_runs" (plan_id plan)
               {| rn_plan_sha256 := plan_digest plan; rn_report_json := report_json; rn_completed_at := stamp |} (t_runs t);
      Ok (report, set_runs runs t)
  end.

Definition apply_reconciliation (self : LocalStateStore) (plan : ReconciliationPlan) (read_at applied_at : Z)
    : eff tables ReconciliationReport :=
  _ ← lift (_ensure_open self);
  transaction (reconciliation_transaction self plan read_at applied_at).
End Operations.
