(* ===== verification/StateCodec.v ===== *)
(** * Rows of the state store read back what was written

    The numeral of an epoch, the provenance sources of a record and the report of a
    reconciliation, as the store writes and decodes them. *)

From S2P Require Export StateOperations JsonRoundtrip CleanText.
Import State.

(** ** Integers *)

Lemma int_digits_all ds acc :
  all_digits ds -> int_digits true acc ds = Some (value_from acc ds).
Proof.
  unfold all_digits. revert acc. induction ds as [|c ds IH]; intros acc; [done|].
  cbn. rewrite andb_true_iff. intros [-> Hd]. by rewrite IH.
Qed.

Lemma digits_no_char p ds :
  (forall c, is_digit c = true -> p c = false) -> all_digits ds -> remove_chars p ds = ds.
Proof.
  intros Hp Hd. apply remove_chars_id. eapply str_forallb_impl; [|exact Hd]. intros c Hc. by rewrite Hp.
Qed.

Lemma digit_not_space c : is_digit c = true -> is_space (code c) = false.
Proof. unfold is_digit, is_space. lia. Qed.

Lemma rstrip_id p s : str_forallb (fun c => negb (p c)) s = true -> rstrip p s = s.
Proof.
  induction s as [|c s IH]; cbn; [done|]. rewrite andb_true_iff, negb_true_iff. intros [Hc Hs]. rewrite IH by done.
  by rewrite Hc, andb_false_r.
Qed.
Lemma lstrip_id p s : str_forallb (fun c => negb (p c)) s = true -> lstrip p s = s.
Proof. destruct s as [|c s]; cbn; [done|]. rewrite andb_true_iff, negb_true_iff. by intros [-> _]. Qed.

Lemma strip_digits ds : all_digits ds -> strip ds = ds.
Proof.
  intros Hd. assert (str_forallb (fun c => negb (is_space (code c))) ds = true) as Hs.
  { eapply str_forallb_impl; [|exact Hd]. intros c Hc. by rewrite digit_not_space. }
  unfold strip. by rewrite lstrip_id, rstrip_id by (rewrite ?lstrip_id; done).
Qed.

Lemma py_int_dec z : 0 <= z <= SAFE_INTEGER_MAX -> py_int (dec z) = Ok z.
Proof.
  intros Hz. destruct z as [|p|p]; [done| |lia]. destruct (dec_pos p) as (ds & -> & [D V (c & s & -> & Hc) S]).
  pose proof D as Dc. unfold all_digits in Dc. cbn in Dc. apply andb_true_iff in Dc as [Dc Ds].
  unfold py_int. rewrite strip_digits by done.
  assert (Ascii.eqb c "-" = false /\ Ascii.eqb c "+" = false) as [-> ->].
  { clear -Dc. destruct c as [[][][][][][][][]]; vm_compute in Dc |- *; done. }
  rewrite (digits_no_char (Ascii.eqb "_")); [| |done].
  2:{ intros d Hd. clear -Hd. destruct d as [[][][][][][][][]]; vm_compute in Hd |- *; done. }
  assert ((4300 <? str_len (String c s)) = false) as ->.
  { apply Z.ltb_ge. destruct (Z.le_gt_cases (str_len (String c s)) 4300) as [|Hl]; [done|]. exfalso.
    assert (10 ^ 17 <= 10 ^ (str_len (String c s) - 1)) by (apply Z.pow_le_mono_r; lia).
    unfold SAFE_INTEGER_MAX in *. norm_pow2. change (10 ^ 17) with 100000000000000000 in *. lia. }
  cbn [raise_if mbind result_bind int_digits]. rewrite Dc.
  rewrite int_digits_all by done. f_equal. specialize (V 0). unfold value_from in *. cbn in *. lia.
Qed.

(** ** Documents that are written with their members in order *)

Section Codec.
Context `{JCSLaws} `{PyTables}.

(** A canonical text decodes to its document when that is plain and in order. *)
Lemma loads_or_canonical error v text :
  plain v -> normal v = v -> canonical_json v = Ok text -> loads_or error text = Ok v.
Proof.
  intros Hp Hn [_ Ht]%canonical_json_clean. unfold loads_or.
  assert (@json_loads _ default_hooks text = Ok v) as ->; [|done].
  apply loads_lenient; [intros pairs Hd; cbn; by rewrite dict_of_id|].
  rewrite <- Hn. by apply dumps_loads.
Qed.

Lemma normal_map {A} (f : A -> json) (l : list A) : (forall x, normal (f x) = f x) -> normal <$> (f <$> l) = f <$> l.
Proof. intros Hf. rewrite <- list_fmap_compose. apply list_fmap_ext. intros i x _. apply Hf. Qed.

Lemma source_normal s : normal (source_to_dict s) = source_to_dict s.
Proof. reflexivity. Qed.
Lemma issue_normal i : normal (issue_to_dict i) = issue_to_dict i.
Proof. reflexivity. Qed.
Lemma action_result_normal r : normal (action_result_to_dict r) = action_result_to_dict r.
Proof. reflexivity. Qed.
Lemma report_normal r : normal (report_to_dict r) = report_to_dict r.
Proof.
  unfold report_to_dict. cbn [normal fmap list_fmap fst snd].
  change (list_fmap json json normal (list_fmap _ _ action_result_to_dict (rpt_results r)))
    with (normal <$> (action_result_to_dict <$> rpt_results r)).
  change (list_fmap json json normal (list_fmap _ _ issue_to_dict (rpt_issues r)))
    with (normal <$> (issue_to_dict <$> rpt_issues r)).
  rewrite !normal_map by auto using action_result_normal, issue_normal. reflexivity.
Qed.

(** ** Sources *)

Lemma source_plain s : plain (source_to_dict s).
Proof. constructor; [by apply (bool_decide_unpack _)|]. repeat constructor. Qed.

Lemma decode_source_dict s : valid s -> decode_source (source_to_dict s) = Ok s.
Proof. destruct s. intros Hv. unfold decode_source. cbn. by apply construct_valid. Qed.

Lemma map_decode {A} (f : A -> json) (decode : json -> result A) l :
  Forall (fun x => decode (f x) = Ok x) l -> map_result decode (f <$> l) = Ok l.
Proof. intros Hl. apply map_result_ok. induction Hl; constructor; done. Qed.

Lemma decode_sources_text sources text :
  Forall valid sources -> canonical_json (JArr (source_to_dict <$> sources)) = Ok text -> _decode_sources text = Ok sources.
Proof.
  intros Hv Ht. unfold _decode_sources. rewrite (loads_or_canonical _ (JArr (source_to_dict <$> sources))); [|..|done].
  - cbn [mbind result_bind]. rewrite Ht. cbn [mbind result_bind]. rewrite String.eqb_refl. cbn [negb raise_if mbind result_bind].
    rewrite map_decode; [done|]. eapply Forall_impl; [done|]. apply decode_source_dict.
  - constructor. apply Forall_fmap, Forall_true. apply source_plain.
  - cbn [normal]. by rewrite normal_map by apply source_normal.
Qed.

(** A stored record is read back. *)
Lemma record_from_cells record text :
  valid record -> Forall valid (osr_sources record) ->
  canonical_json (JArr (source_to_dict <$> osr_sources record)) = Ok text ->
  _record_from_row (osr_key record, cells_of record text) = Ok record.
Proof.
  intros Hv Hs Ht. unfold _record_from_row, osr_key. cbn [rc_sources_json cells_of].
  rewrite (decode_sources_text _ _ Hs Ht). cbn. destruct record. by apply construct_valid.
Qed.

(** ** Reports *)

Lemma issue_plain i : plain (issue_to_dict i).
Proof. constructor; [by apply (bool_decide_unpack _)|]. repeat constructor. Qed.
Lemma action_result_plain r : valid r -> plain (action_result_to_dict r).
Proof.
  intros Hv. unfold valid, post_init, ReconciliationActionResult_post_init, _require_safe_integer in Hv. ok_inv. bool_simp.
  constructor; [by apply (bool_decide_unpack _)|].
  assert (plain (JInt (res_generation r))) by (constructor; unfold SAFE_INTEGER_MAX in *; lia).
  repeat apply Forall_cons_2; try apply Forall_nil_2; cbn; first [done|constructor].
Qed.
Lemma decode_issue_dict i : valid i -> decode_issue (issue_to_dict i) = Ok i.
Proof. destruct i. intros Hv. unfold decode_issue. cbn. by apply construct_valid. Qed.
Lemma decode_action_result_dict r : valid r -> decode_action_result (action_result_to_dict r) = Ok r.
Proof. destruct r. intros Hv. unfold decode_action_result. cbn. by apply construct_valid. Qed.

Record report_typed (r : ReconciliationReport) : Prop := {
  report_valid : valid r;
  report_results : Forall valid (rpt_results r);
  report_issues : Forall valid (rpt_issues r)
}.

Lemma report_plain r : report_typed r -> plain (report_to_dict r).
Proof.
  intros [_ Hr Hi]. constructor; [by apply (bool_decide_unpack _)|]. repeat apply Forall_cons_2; try solve [constructor]; cbn; constructor.
  - apply Forall_fmap. eapply Forall_impl; [done|]. apply action_result_plain.
  - apply Forall_fmap, Forall_true. apply issue_plain.
Qed.

Lemma decode_report_dict r fields :
  report_typed r -> report_to_dict r = JObj fields -> decode_report fields = Ok r.
Proof.
  intros [Hv Hr Hi] [= <-]. unfold decode_report.
  apply bind_ok. exists (JArr (issue_to_dict <$> rpt_issues r)). split; [reflexivity|].
  apply bind_ok. exists (issue_to_dict <$> rpt_issues r). split; [reflexivity|].
  apply bind_ok. exists (rpt_issues r). split; [apply map_decode; eapply Forall_impl; [exact Hi|apply decode_issue_dict]|].
  apply bind_ok. exists (JArr (action_result_to_dict <$> rpt_results r)). split; [reflexivity|].
  apply bind_ok. exists (action_result_to_dict <$> rpt_results r). split; [reflexivity|].
  apply bind_ok. exists (rpt_results r).
  split; [apply map_decode; eapply Forall_impl; [exact Hr|apply decode_action_result_dict]|].
  repeat (apply bind_ok; eexists; split; [reflexivity|]). destruct r. by apply construct_valid.
Qed.

Lemma parse_report_text r text :
  report_typed r -> canonical_json (report_to_dict r) = Ok text -> _parse_report text = Ok r.
Proof.
  intros Hr Ht. unfold _parse_report.
  rewrite (loads_or_canonical _ (report_to_dict r)); [|by apply report_plain|apply report_normal|done].
  destruct (report_to_dict r) as [| | | | | |fields] eqn:E; try done.
  cbn [mbind result_bind]. rewrite Ht. cbn [mbind result_bind]. rewrite String.eqb_refl. cbn [negb raise_if mbind result_bind].
  by rewrite (decode_report_dict r fields Hr E).
Qed.
End Codec.
