(* ===== verification/StateInvariant.v ===== *)
(** * The invariant of the state store

    [store_ok] says what the tables of an initialised store look like between two
    transactions: the transitions replay to the current records, commands and runs
    verify, at most one session is active and sessions do not end before they start.
    It implies that the store passes its own verification ([verification_passes]). *)

From S2P Require Export StateCodec Rows.
Import State.

(** ** Replaying transitions *)

Lemma verify_transition_mono known known' st row st' :
  known ⊆ known' -> verify_transition known st row = Ok st' -> verify_transition known' st row = Ok st'.
Proof.
  intros Hk. destruct st as [[n anchors] latest]. unfold verify_transition. intros Hv.
  apply bind_unit_ok in Hv as [-> Hv]. apply bind_unit_ok in Hv as [Hin Hv]. apply raise_if_ok, negb_false_iff, bool_decide_eq_true in Hin.
  cbn [mbind result_bind]. rewrite bool_decide_eq_true_2 by set_solver. exact Hv.
Qed.

Lemma replay_mono known known' l st st' :
  known ⊆ known' -> fold_result (verify_transition known) l st = Ok st' -> fold_result (verify_transition known') l st = Ok st'.
Proof.
  intros Hk. revert st. induction l as [|row l IH]; intros st; cbn; [done|].
  intros (st1 & H1 & H2)%bind_ok. apply (verify_transition_mono known known') in H1; [|done]. rewrite H1. cbn. by apply IH.
Qed.

Lemma foldr_max_le l x : x ∈ l -> x <= foldr Z.max 0 l.
Proof. induction l as [|y l IH]; [by intros ?%elem_of_nil|]. intros [->|Hx]%elem_of_cons; cbn; [lia|]. specialize (IH Hx). lia. Qed.
Lemma foldr_max_snoc l x : 0 <= x -> foldr Z.max 0 (l ++ [x]) = Z.max (foldr Z.max 0 l) x.
Proof. intros Hx. induction l as [|y l IH]; cbn; [lia|]. rewrite IH. lia. Qed.

(** The row of a transition gets the next sequence number. *)
Lemma next_sequence_snoc row r t :
  tr_sequence row = next_sequence t -> next_sequence (add_transition row (set_records r t)) = next_sequence t + 1.
Proof.
  intros Hr. unfold next_sequence at 1. cbn [add_transition t_transitions set_records]. rewrite fmap_app. cbn [fmap list_fmap].
  assert (0 <= foldr Z.max 0 (tr_sequence <$> t_transitions t)) by (induction (t_transitions t); cbn; lia).
  rewrite foldr_max_snoc; rewrite Hr; unfold next_sequence; lia.
Qed.

Section Invariant.
Context `{JCSLaws} `{PyTables}.

(** The state of a stored record, as its last transition reports it. *)
Definition key_state (key : string * string) (cells : record_cells) : result (Z * string * string) :=
  record ← _record_from_row (key, cells); state ← record_state record; Ok state.2.

Definition latest_matches (latest : latest_map) (records : gmap (string * string) record_cells) : Prop :=
  forall key, match records !! key with
              | None => latest !! key = None
              | Some cells => exists s, key_state key cells = Ok s /\ latest !! key = Some s
              end.

Record history_ok (known anchors : gset string) (t : tables) : Prop := {
  history_sorted : sorted_by tr_sequence (t_transitions t) = t_transitions t;
  history_next : next_sequence t = 1 + Z.of_nat (length (t_transitions t));
  history_replay : exists latest, latest_matches latest (t_records t) /\
    fold_result (verify_transition known) (t_transitions t) (1, ∅, ∅) = Ok (next_sequence t, anchors, latest)
}.

Lemma record_from_row_key row record : _record_from_row row = Ok record -> valid record /\ osr_key record = row.1.
Proof. destruct row as [[kind id] cells]. cbn. intros Hr. ok_inv. apply construct_ok in Hr as [Hv ->]. split; done. Qed.

(** *** The records are read, and their states are the last transitions *)

Lemma stored_states latest t :
  latest_matches latest (t_records t) ->
  exists records states, stored_records t = Ok records /\ map_result record_state records = Ok states /\
    list_to_map states = latest.
Proof.
  intros Hl. unfold stored_records, select_records. set (rows := sorted_by fst (map_to_list (t_records t))).
  assert (forall row, row ∈ rows <-> t_records t !! row.1 = Some row.2) as Hrows.
  { intros [key cells]. unfold rows. by rewrite elem_of_sorted_by, elem_of_map_to_list. }
  assert (Forall (fun row => exists record state, _record_from_row row = Ok record /\ record_state record = Ok state /\
    state.1 = row.1 /\ latest !! row.1 = Some state.2) rows) as Hall.
  { apply Forall_forall. intros row Hr%Hrows. specialize (Hl row.1). rewrite Hr in Hl. destruct Hl as (s & Hs & Hk).
    unfold key_state in Hs. rewrite <- surjective_pairing in Hs. apply bind_ok in Hs as (record & Hrec & Hs).
    apply bind_ok in Hs as (state & Hst & [= <-]). exists record, state. split_and!; try done.
    apply record_from_row_key in Hrec as [_ <-]. unfold record_state in Hst. ok_inv. by subst state. }
  assert (exists records states, Forall2 (fun row r => _record_from_row row = Ok r) rows records /\
    Forall2 (fun r s => record_state r = Ok s) records states /\
    Forall2 (fun row s => s.1 = row.1 /\ latest !! row.1 = Some s.2) rows states) as (records & states & H3 & H4 & H5).
  { clear Hrows. induction Hall as [|row rows' (record & state & ? & ? & ? & ?) _ (records & states & ? & ? & ?)].
    - exists [], []. repeat constructor.
    - exists (record :: records), (state :: states). split_and!; constructor; auto. }
  exists records, states. split; [by apply map_result_ok|]. split; [by apply map_result_ok|].
  assert (fst <$> states = fst <$> rows) as Hf.
  { clear -H5. induction H5 as [|row s rows states [E _] _ IH]; cbn; [done|]. by rewrite IH, E. }
  assert (NoDup (fst <$> states)) as Hnd.
  { rewrite Hf. unfold rows. rewrite sorted_by_perm. apply NoDup_fst_map_to_list. }
  apply map_eq. intros key. specialize (Hl key). destruct (t_records t !! key) as [cells|] eqn:E.
  - assert ((key, cells) ∈ rows) as Hin by by apply Hrows. apply list_elem_of_lookup in Hin as [i Hi].
    destruct (Forall2_lookup_l _ _ _ _ _ H5 Hi) as ([k' s'] & Hs' & E1 & E2). cbn in E1, E2. subst k'.
    transitivity (Some s'); [|symmetry; exact E2]. apply elem_of_list_to_map; [done|]. by eapply list_elem_of_lookup_2.
  - transitivity (None : option (Z * string * string)); [|symmetry; exact Hl]. apply not_elem_of_list_to_map. rewrite Hf. intros ([k c] & -> & Hin)%list_elem_of_fmap.
    apply Hrows in Hin. cbn in *. congruence.
Qed.

(** ** One mutation *)

Lemma record_facts r : valid r ->
  osr_kind r ∈ STATE_RECORD_KINDS /\ 1 <= osr_generation r <= SAFE_INTEGER_MAX /\
  fullmatch SHA256_PATTERN (osr_payload_sha256 r) = true.
Proof.
  unfold valid, post_init, OperationalStateRecord_post_init, _require_safe_integer, checked_payload, _require_sha256, require_sha256.
  intros Hv. ok_inv. bool_simp. split_and!; auto; lia.
Qed.

Lemma good_digest d : fullmatch SHA256_PATTERN d = true -> bad_digest d = false.
Proof.
  intros [Hl Hd]%fullmatch_spec%matches_repeat_class. unfold bad_digest. apply orb_false_iff. split.
  - apply negb_false_iff, Z.eqb_eq. unfold str_len. rewrite Hl. done.
  - apply negb_false_iff. eapply str_forallb_impl; [|exact Hd]. intros c. clear.
    destruct c as [[][][][][][][][]]; vm_compute; done.
Qed.

Lemma digest_of_good v d : digest_of v = Ok d -> bad_digest d = false.
Proof. unfold digest_of. intros Hd. ok_inv. subst d. apply good_digest, Sha256.hexdigest_pattern. Qed.
Lemma integrity_good r d : integrity_digest r = Ok d -> bad_digest d = false.
Proof. unfold integrity_digest. intros Hd. ok_inv. by eapply digest_of_good. Qed.

(** What a mutation that returned did. *)
Record persisted (m : StateMutation) (command reason stamp : string) (t t' : tables) (record : OperationalStateRecord)
    : Prop := {
  persisted_record : record = mutated_record m (osr_generation record) stamp /\ valid record;
  persisted_guard : exists current, current_record (mut_key m) t = Ok current /\
    next_generation m current = Ok (osr_generation record);
  persisted_tables : exists cells row, _record_from_row (mut_key m, cells) = Ok record /\
    t' = add_transition row (set_records (<[mut_key m := cells]> (t_records t)) t) /\ tr_command row = command
}.

Definition stamp_ok (stamp : string) : Prop := exists z, stored_timestamp stamp = Ok z.

Lemma current_state latest t key current :
  latest_matches latest (t_records t) -> current_record key t = Ok current ->
  match current with
  | None => latest !! key = None
  | Some r => valid r /\ exists d, integrity_digest r = Ok d /\ latest !! key = Some (osr_generation r, osr_payload_sha256 r, d)
  end.
Proof.
  intros Hl Hc. specialize (Hl key). unfold current_record in Hc. destruct (t_records t !! key) as [cells|].
  - apply bind_ok in Hc as (r & Hr & [= <-]). destruct Hl as (s & Hs & Hk). unfold key_state in Hs. rewrite Hr in Hs.
    cbn [mbind result_bind] in Hs. unfold record_state in Hs. apply bind_ok in Hs as (state & Hd & [= <-]).
    apply bind_ok in Hd as (d & Hd & [= <-]). split; [by eapply record_from_row_key|]. eauto.
  - by injection Hc as <-.
Qed.

Lemma next_generation_from m r g :
  next_generation m r = Ok g -> g = match osr_generation <$> r with None => 1 | Some g => g + 1 end.
Proof. unfold next_generation. destruct (mut_expected_generation m), r; intros Hg; ok_inv; done. Qed.

Lemma persist_history known anchors m command reason stamp t record t' :
  history_ok known anchors t -> command ∈ known -> fullmatch TOKEN_PATTERN reason = true -> stamp_ok stamp ->
  Forall valid (mut_sources m) -> _persist_mutation m command reason stamp t = Ok (record, t') ->
  history_ok known ({[command]} ∪ anchors) t' /\ persisted m command reason stamp t t' record.
Proof.
  intros [Hs Hn (latest & Hl & Hr)] Hk Ht [z Hz] Hv Hp. unfold _persist_mutation in Hp.
  apply bind_ok in Hp as (current & Hc & Hp). apply bind_ok in Hp as (g & Hg & Hp). apply bind_ok in Hp as (r & Hrec & Hp).
  apply construct_ok in Hrec as [Hval ->]. apply bind_ok in Hp as (text & Htext & Hp). apply bind_ok in Hp as (from & Hf & Hp).
  apply bind_ok in Hp as (to & Hto & Hp). apply bind_ok in Hp as (t'' & Hi & [= <- <-]).
  unfold insert_transition in Hi. apply bind_unit_ok in Hi as [_ [= <-]].
  set (record := mutated_record m g stamp) in *. set (row := Build_transition_row _ _ _ _ _ _ _ _ _ _ _ _ _) in *.
  pose proof (record_from_cells record text Hval Hv Htext) as Hcells. change (osr_key record) with (mut_key m) in Hcells.
  destruct (record_facts record Hval) as (Hkind & Hgen & Hsha). pose proof (current_state _ _ _ _ Hl Hc) as Hcur.
  split; [constructor|].
  - cbn [add_transition t_transitions set_records]. rewrite sorted_by_last; [by rewrite Hs|]. apply Forall_forall. intros x Hx.
    apply (list_elem_of_fmap_2 tr_sequence), foldr_max_le in Hx. cbn [tr_sequence row]. unfold next_sequence. cbn. lia.
  - rewrite next_sequence_snoc by done. cbn [add_transition t_transitions set_records]. rewrite length_app. cbn [length]. lia.
  - exists (<[mut_key m := (g, osr_payload_sha256 record, to)]> latest). split.
    + intros key. cbn [add_transition t_records set_records]. destruct (decide (mut_key m = key)) as [<-|Hne].
      * rewrite lookup_insert_eq. eexists. rewrite lookup_insert_eq. split; [|reflexivity]. unfold key_state. rewrite Hcells.
        cbn [mbind result_bind]. unfold record_state. by rewrite Hto.
      * rewrite lookup_insert_ne by done. specialize (Hl key). destruct (t_records t !! key); by rewrite lookup_insert_ne.
    + cbn [add_transition t_transitions set_records]. rewrite fold_result_app, Hr. cbn [mbind result_bind fold_result].
      assert (forall r1 r2 : result (Z * gset string * latest_map), r1 = r2 -> (x ← r1; Ok x) = r2) as Hret by (by intros [] ? <-).
      apply Hret. unfold verify_transition.
      apply bind_unit_intro; [apply raise_if_intro; cbn [row tr_sequence]; unfold next_sequence; cbn; lia|].
      apply bind_unit_intro; [apply raise_if_intro, negb_false_iff, bool_decide_eq_true; done|].
      apply bind_unit_intro; [apply raise_if_intro; by bool_simp|].
      apply bind_unit_intro; [apply raise_if_intro|].
      { apply next_generation_from in Hg. cbn [row tr_to_generation tr_from_generation]. cbn in Hgen.
        destruct (osr_generation <$> current); subst g; lia. }
      cbn [row tr_kind tr_id tr_from_generation tr_from_payload tr_from_state tr_to_payload tr_to_state].
      change (mut_kind m, mut_id m) with (mut_key m).
      assert (match current with
              | None => latest !! mut_key m = None /\ from = None
              | Some r => exists d, from = Some d /\ latest !! mut_key m = Some (osr_generation r, osr_payload_sha256 r, d)
              end) as Hprev.
      { destruct current as [r|]; unfold of_current in Hf; [|by injection Hf as <-].
        apply bind_ok in Hf as (d' & Hd' & [= <-]). destruct Hcur as (_ & d & Hd & Hk'). rewrite Hd in Hd'.
        injection Hd' as <-. by exists d. }
      assert (exists a, tr_action row = a /\ mem a ["create"; "tombstone"; "update"] = true) as (action & Ea & Hact).
      { eexists. split; [reflexivity|]. cbn. destruct current; [destruct (mut_tombstoned m)|]; done. }
      change (osr_payload_sha256 record) with (mut_payload_sha256 m) in Hsha. rewrite Ea, Hact. clear Hcur Hf Hact Ea Hg.
      destruct current as [r|]; [destruct Hprev as (d & -> & ->)|destruct Hprev as [-> ->]]; cbn [fmap option_fmap option_map fst snd compose].
      all: unfold verify_digest_pair, str_or_none; cbn [default from_option]; rewrite ?bool_decide_eq_true_2, ?String.eqb_refl by done; cbn.
      all: unfold _require_token, require_token; rewrite Ht, (integrity_good _ _ Hto), (good_digest _ Hsha), Hz; cbn.
      all: by rewrite next_sequence_snoc.
  - constructor.
    + split; done.
    + exists current. done.
    + eexists _, row. split; [exact Hcells|]. split; [|done]. reflexivity.
Qed.

(** ** A sequence of mutations *)

Inductive persists (command stamp : string) : list (StateMutation * string) -> tables -> list OperationalStateRecord -> tables -> Prop :=
| persists_nil t : persists command stamp [] t [] t
| persists_cons m reason l t record t1 records t2 :
    persisted m command reason stamp t t1 record -> persists command stamp l t1 records t2 ->
    persists command stamp ((m, reason) :: l) t (record :: records) t2.

(** What the mutations leave alone. *)
Record same_rest (t t' : tables) : Prop := {
  same_migrations : t_migrations t' = t_migrations t;
  same_metadata : t_metadata t' = t_metadata t;
  same_commands : t_commands t' = t_commands t;
  same_sessions : t_sessions t' = t_sessions t;
  same_runs : t_runs t' = t_runs t
}.

Lemma persists_rest command stamp l t records t' : persists command stamp l t records t' -> same_rest t t'.
Proof.
  induction 1 as [|m reason l t record t1 records t2 [_ _ (cells & row & _ & -> & _)] _ []]; constructor; cbn in *; congruence.
Qed.

Definition written (known anchors : gset string) (command : string) (n : nat) (t : tables) : Prop :=
  exists anchors', anchors ⊆ anchors' /\ history_ok known anchors' t /\ (n <> 0%nat -> command ∈ anchors').

Lemma written_none known anchors command t : history_ok known anchors t -> written known anchors command 0 t.
Proof. intros Hh. exists anchors. split_and!; [done|done|lia]. Qed.

Lemma written_cons known anchors command n t : written known ({[command]} ∪ anchors) command n t -> written known anchors command (S n) t.
Proof. intros (a & Ha & Hh & _). exists a. split_and!; [set_solver|done|set_solver]. Qed.

Lemma persist_all_written known anchors ms command reason stamp t t' :
  history_ok known anchors t -> command ∈ known -> fullmatch TOKEN_PATTERN reason = true -> stamp_ok stamp ->
  Forall (fun m => Forall valid (mut_sources m)) ms -> persist_all ms command reason stamp t = Ok t' ->
  written known anchors command (length ms) t' /\
  exists records, persists command stamp ((fun m => (m, reason)) <$> ms) t records t'.
Proof.
  intros Hh Hk Hr Hz Hv. revert t anchors Hh. induction Hv as [|m ms Hm Hv IH]; intros t anchors Hh Hp.
  - injection Hp as <-. split; [by apply written_none|]. exists []. constructor.
  - cbn [persist_all] in Hp. apply bind_ok in Hp as ([record t1] & Hp1 & Hp). eapply persist_history in Hp1 as [Hh1 Hp1]; eauto.
    destruct (IH _ _ Hh1 Hp) as (Hw & records & Hps). split; [by apply written_cons|].
    exists (record :: records). econstructor; eauto.
Qed.

Definition action_typed (a : ReconciliationAction) : Prop := valid a /\ Forall valid (act_sources a).

Lemma action_reason_token a : valid a -> fullmatch TOKEN_PATTERN (act_reason a) = true.
Proof.
  unfold valid, post_init, ReconciliationAction_post_init, _require_token, require_token. intros Hv.
  apply bind_unit_ok in Hv as [_ Hv]. apply bind_unit_ok in Hv as [Ht _]. by apply raise_if_ok, negb_false_iff in Ht.
Qed.

Definition result_of (stamp : string) (a : ReconciliationAction) (record : OperationalStateRecord) : ReconciliationActionResult :=
  {| res_action := act_action a; res_kind := act_kind a; res_id := act_id a; res_generation := osr_generation record;
     res_code := "applied" |}.

Lemma persist_actions_written known anchors actions command stamp t results t' :
  history_ok known anchors t -> command ∈ known -> stamp_ok stamp -> Forall action_typed actions ->
  persist_actions actions command stamp t = Ok (results, t') ->
  written known anchors command (length actions) t' /\ Forall valid results /\
  exists records, persists command stamp ((fun a => (action_mutation a, act_reason a)) <$> actions) t records t' /\
    Forall2 (fun p r => r = result_of stamp p.1 p.2) (zip actions records) results.
Proof.
  intros Hh Hk Hz Hv. revert t anchors results Hh. induction Hv as [|a actions [Ha Hs] Hv IH]; intros t anchors results Hh Hp.
  - injection Hp as <- <-. split_and!; [by apply written_none|constructor|]. exists []. split; constructor.
  - cbn [persist_actions] in Hp. apply bind_ok in Hp as (m & Hm & Hp). unfold to_mutation in Hm. apply construct_ok in Hm as [_ ->].
    apply bind_ok in Hp as ([record t1] & Hp1 & Hp). eapply persist_history in Hp1 as [Hh1 Hp1]; eauto using action_reason_token.
    apply bind_ok in Hp as (r & Hr & Hp). apply construct_ok in Hr as [Hr ->]. apply bind_ok in Hp as ([rs t2] & Hp & [= <- <-]).
    destruct (IH _ _ _ Hh1 Hp) as (Hw & Hrs & records & Hps & Hz2). split_and!; [by apply written_cons|by constructor|].
    exists (record :: records). split; [econstructor; eauto|]. by constructor.
Qed.
End Invariant.
