(* ===== verification/StateSteps.v ===== *)
(** * Every operation keeps the state store well-formed

    [store_ok T m t]: the tables [t] of a store whose metadata are [m] and whose
    stamps are not after [T].  Such a store passes its verification, and each
    transaction of [StateOperations] leads from one to another.

    The parts after it are about batches and reconciliations, and about every sequence
    of sessions. *)

From S2P Require Export StateInvariant.

Import State.

(** The metadata of an initialised store. *)
Record meta := { m_active : string; m_admission : string; m_epoch : Z; m_store : string }.
Definition meta_map (m : meta) : gmap string string :=
  <["active_session_id" := m_active m]> (<["admission_state" := m_admission m]>
    (<["epoch" := dec (m_epoch m)]> (<["store_id" := m_store m]> ∅))).
Definition with_epoch (epoch : Z) (m : meta) : meta :=
  {| m_active := m_active m; m_admission := m_admission m; m_epoch := epoch; m_store := m_store m |}.
Definition with_admission (admission : string) (m : meta) : meta :=
  {| m_active := m_active m; m_admission := admission; m_epoch := m_epoch m; m_store := m_store m |}.
Definition with_active (active : string) (m : meta) : meta :=
  {| m_active := active; m_admission := m_admission m; m_epoch := m_epoch m; m_store := m_store m |}.

Lemma update_epoch epoch m t : t_metadata t = meta_map m ->
  t_metadata (update_metadata "epoch" (dec epoch) t) = meta_map (with_epoch epoch m).
Proof. intros E. unfold update_metadata. cbn. by rewrite E. Qed.
Lemma update_admission admission m t : t_metadata t = meta_map m ->
  t_metadata (update_metadata "admission_state" admission t) = meta_map (with_admission admission m).
Proof. intros E. unfold update_metadata. cbn. by rewrite E. Qed.
Lemma update_active active m t : t_metadata t = meta_map m ->
  t_metadata (update_metadata "active_session_id" active t) = meta_map (with_active active m).
Proof. intros E. unfold update_metadata. cbn. by rewrite E. Qed.

Section Reading.
Context (m : meta) (t : tables) (Hm : t_metadata t = meta_map m).
Lemma read_active : metadata t "active_session_id" = Ok (m_active m).
Proof. unfold metadata. by rewrite Hm. Qed.
Lemma read_admission : metadata t "admission_state" = Ok (m_admission m).
Proof. unfold metadata. by rewrite Hm. Qed.
Lemma read_store : metadata t "store_id" = Ok (m_store m).
Proof. unfold metadata. by rewrite Hm. Qed.
Lemma read_epoch_text : metadata t "epoch" = Ok (dec (m_epoch m)).
Proof. unfold metadata. by rewrite Hm. Qed.
Lemma read_epoch : 0 <= m_epoch m <= SAFE_INTEGER_MAX -> epoch_of t = Ok (m_epoch m).
Proof. intros He. unfold epoch_of. rewrite read_epoch_text. cbn. by apply py_int_dec. Qed.
Lemma metadata_keys : dom (t_metadata t) = list_to_set (C := gset string) METADATA_KEYS.
Proof. rewrite Hm. unfold meta_map. rewrite !dom_insert_L. reflexivity. Qed.
End Reading.

(** A clock reading up to [T], and its stamp. *)
Definition reading_ok (T u : Z) : Prop := min_instant <= u <= max_instant /\ u <= T.

Lemma stored_stamp u : min_instant <= u <= max_instant -> stored_timestamp (rfc3339 u) = Ok (ms_floor u).
Proof.
  intros Hu. unfold stored_timestamp. rewrite iso_parse_rfc3339 by done. cbn [utcoffset is_none raise_if mbind result_bind].
  unfold instant. cbn [local_us utcoffset default]. rewrite Z.sub_0_r. pose proof (ms_floor_bounds u).
  assert (min_instant <= ms_floor u <= max_instant) as [H3 H4] by (unfold ms_floor, min_instant, max_instant in *; lia).
  apply Z.leb_le in H3, H4. cbn [id]. by rewrite H3, H4.
Qed.
Lemma stamp_of_reading T u : reading_ok T u -> stamp_ok (rfc3339 u).
Proof. intros [Hu _]. exists (ms_floor u). by apply stored_stamp. Qed.

Definition session_id_ok (id : string) : Prop := fullmatch OPERATIONAL_ID_PATTERN id = true /\ str_startswith id SESSION_ID = true.

Record session_ok (T : Z) (sessions : gmap string session_cells) (id : string) (cells : session_cells) : Prop := {
  session_named : session_id_ok id;
  session_times : exists u, sc_started cells = rfc3339 u /\ reading_ok T u /\
    match sc_ended cells with
    | None => sc_termination cells = "active"
    | Some ended => mem (sc_termination cells) ["aborted"; "clean"; "interrupted"] = true /\
        exists v, ended = rfc3339 v /\ reading_ok T v /\ u <= v
    end;
  session_prior : match sc_prior cells with None => True | Some prior => prior ∈ dom sessions /\ prior <> id end
}.

Section Steps.
Context `{JCSLaws} `{PyTables}.

Record store_ok (T : Z) (m : meta) (t : tables) : Prop := {
  ok_migrations : (fun row => (mr_version row, mr_name row, mr_sha256 row)) <$> sorted_by mr_version (t_migrations t) =
                  (fun m => (mig_version m, mig_name m, migration_sha256 m)) <$> MIGRATIONS;
  ok_metadata : t_metadata t = meta_map m;
  ok_store : fullmatch OPERATIONAL_ID_PATTERN (m_store m) = true /\ str_startswith (m_store m) STORE_ID = true;
  ok_epoch : 0 <= m_epoch m <= SAFE_INTEGER_MAX;
  ok_admission : mem (m_admission m) ["blocked"; "ready"; "reconciliation-required"] = true;
  ok_commands id cells : t_commands t !! id = Some cells -> verify_command (m_epoch m) (id, cells) = Ok tt;
  ok_runs id cells : t_runs t !! id = Some cells -> verify_run (id, cells) = Ok tt;
  ok_history : exists anchors, history_ok (dom (t_commands t) ∪ dom (t_runs t)) anchors t /\ dom (t_commands t) ⊆ anchors;
  ok_sessions id cells : t_sessions t !! id = Some cells -> session_ok T (t_sessions t) id cells;
  ok_active id cells : t_sessions t !! id = Some cells -> sc_termination cells = "active" <-> m_active m = id;
  ok_known : m_active m = "" \/ m_active m ∈ dom (t_sessions t)
}.

(** ** The verification passes *)

Lemma session_id_nonempty id : session_id_ok id -> id <> "".
Proof. by intros [_ Hs] ->. Qed.

Lemma active_id_ok T m t : store_ok T m t -> m_active m = "" \/ session_id_ok (m_active m).
Proof.
  intros Hs. destruct (ok_known _ _ _ Hs) as [|[cells Hc]%elem_of_dom]; [by left|]. right. by eapply (ok_sessions _ _ _ Hs).
Qed.

Lemma session_passes T t m id cells :
  store_ok T m t -> t_sessions t !! id = Some cells -> verify_session (t_sessions t) (id, cells) = Ok tt.
Proof.
  intros Hs Hc. destruct (ok_sessions _ _ _ Hs id cells Hc) as [[Hi Hn] (u & Hu & [Hr _] & He) Hp].
  unfold verify_session. rewrite Hi, Hn, Hu, stored_stamp by done. cbn [negb raise_if mbind result_bind].
  assert (raise_if (match sc_prior cells with
      | None => false
      | Some prior => negb (fullmatch OPERATIONAL_ID_PATTERN prior) || negb (str_startswith prior SESSION_ID) ||
          negb (bool_decide (prior ∈ dom (t_sessions t))) || String.eqb prior id
      end) (StateCorruptionError "controller session history contains an invalid predecessor") = Ok tt) as ->.
  { apply raise_if_ok. destruct (sc_prior cells) as [prior|]; [|done]. destruct Hp as [Hd Hne]. apply String.eqb_neq in Hne as ->.
    rewrite bool_decide_eq_true_2 by done. apply elem_of_dom in Hd as [pc Hpc]. destruct (ok_sessions _ _ _ Hs _ _ Hpc) as [[-> ->] _ _]. done. }
  destruct (sc_ended cells) as [ended|].
  - destruct He as [Ht (v & -> & [Hv _] & Huv)]. rewrite stored_stamp by done. apply ms_floor_mono in Huv.
    assert ((ms_floor v <? ms_floor u) = false) as Hlt by lia.
    apply mem_spec in Ht. repeat (apply elem_of_cons in Ht as [-> | Ht]; [cbn; by rewrite Hlt|]). by apply elem_of_nil in Ht.
  - rewrite He. done.
Qed.

Lemma active_sessions_of T m t : store_ok T m t -> active_sessions t = if str_empty (m_active m) then [] else [m_active m].
Proof.
  intros Hs. unfold active_sessions. set (rows := List.filter _ _).
  assert (forall id cells, (id, cells) ∈ rows <-> t_sessions t !! id = Some cells /\ m_active m = id) as Hrows.
  { intros id cells. unfold rows. rewrite elem_of_lfilter, elem_of_map_to_list. cbn [fst snd]. rewrite String.eqb_eq.
    split; intros [Hl Ha]; (split; [done|]); by eapply (ok_active _ _ _ Hs). }
  assert (NoDup (fst <$> rows)) as Hnd by apply NoDup_fmap_lfilter, NoDup_fst_map_to_list.
  destruct (ok_known _ _ _ Hs) as [E|[cells Hc]%elem_of_dom].
  - rewrite E. destruct rows as [|[id cells] rows]; [done|]. destruct (Hrows id cells) as [Hin _].
    destruct Hin as [Hc Hid]; [left|]. destruct (ok_sessions _ _ _ Hs _ _ Hc) as [Hn _ _]. apply session_id_nonempty in Hn. congruence.
  - assert (str_empty (m_active m) = false) as ->.
    { apply String.eqb_neq. destruct (ok_sessions _ _ _ Hs _ _ Hc) as [Hn _ _]. by apply session_id_nonempty. }
    assert ((m_active m, cells) ∈ rows) as Hin by by apply Hrows.
    assert (forall id, id ∈ (fst <$> rows) -> id = m_active m) as Hall.
    { intros id ([i c] & -> & Hr)%list_elem_of_fmap. by apply Hrows in Hr as [_ <-]. }
    apply (list_elem_of_fmap_2 fst) in Hin. cbn in Hin. destruct (fst <$> rows) as [|a [|b l]]; [by apply elem_of_nil in Hin| |].
    + f_equal. apply Hall. left.
    + exfalso. apply NoDup_cons in Hnd as [Hna _]. apply Hna. rewrite (Hall a), <- (Hall b) by (repeat constructor). left.
Qed.

Theorem verification_passes T m t :
  store_ok T m t ->
  _verify_integrity {| db_user_version := 1; db_tables := Some t |} = Ok tt /\
  _verify_metadata t = Ok tt /\ _verify_records t = Ok tt /\ _verify_history t = Ok tt.
Proof.
  intros Hs. pose proof Hs as [Hmig Hm [Hst Hns] He Ha Hc Hr (anchors & [Hsort Hnext (latest & Hl & Hrep)] & Hd) _ _ _].
  destruct (stored_states latest t Hl) as (records & states & H3 & H4 & H5). split_and!.
  - unfold _verify_integrity. cbn [db_user_version db_tables Z.eqb]. by rewrite bool_decide_eq_true_2.
  - unfold _verify_metadata. rewrite bool_decide_eq_true_2 by by eapply metadata_keys. rewrite (read_store m) by done. cbn [negb raise_if mbind result_bind].
    rewrite Hst, Hns, (read_epoch_text m) by done. cbn [negb raise_if mbind result_bind].
    rewrite py_int_dec by done. cbn [mbind result_bind].
    assert (safe_nonneg (m_epoch m) = true) as -> by by apply safe_nonneg_spec.
    rewrite (read_admission m) by done. cbn [negb raise_if mbind result_bind].
    rewrite Ha, (read_active m) by done. cbn [negb raise_if mbind result_bind].
    destruct (active_id_ok _ _ _ Hs) as [-> | [-> ->]]; [done|]. by rewrite !andb_false_r.
  - unfold _verify_records. by rewrite H3.
  - unfold _verify_history. rewrite (read_epoch m) by done. cbn [mbind result_bind].
    apply bind_unit_intro.
    { apply for_each_ok, Forall_forall. intros [id cells]. rewrite elem_of_sorted_by, elem_of_map_to_list. apply Hc. }
    apply bind_unit_intro.
    { apply for_each_ok, Forall_forall. intros [id cells]. rewrite elem_of_sorted_by, elem_of_map_to_list. apply Hr. }
    rewrite Hsort, Hrep. cbn [mbind result_bind]. rewrite H3. cbn [mbind result_bind]. rewrite H4. cbn [mbind result_bind].
    rewrite !bool_decide_eq_true_2 by done. cbn [negb raise_if mbind result_bind].
    apply bind_unit_intro.
    { apply for_each_ok, Forall_forall. intros [id cells]. unfold select_sessions. rewrite elem_of_sorted_by, elem_of_map_to_list.
      by eapply session_passes. }
    rewrite (active_sessions_of _ _ _ Hs), (read_active m) by done.
    assert ((1 <? Z.of_nat (length (if str_empty (m_active m) then [] else [m_active m]))) = false) as -> by by destruct (str_empty _).
    cbn [raise_if mbind result_bind]. rewrite bool_decide_eq_true_2; [done|].
    destruct (str_empty (m_active m)); cbn; by rewrite ?(right_id_L ∅ (∪)).
Qed.

(** The history is about the records and their transitions only. *)
Lemma history_frame known anchors t t' :
  t_records t' = t_records t -> t_transitions t' = t_transitions t -> history_ok known anchors t -> history_ok known anchors t'.
Proof. intros Er Et [Hs Hn Hr]. unfold next_sequence in *. constructor; unfold next_sequence; by rewrite ?Er, ?Et. Qed.
Lemma history_same t t' :
  t_records t' = t_records t -> t_transitions t' = t_transitions t -> t_commands t' = t_commands t -> t_runs t' = t_runs t ->
  (exists anchors, history_ok (dom (t_commands t) ∪ dom (t_runs t)) anchors t /\ dom (t_commands t) ⊆ anchors) ->
  exists anchors, history_ok (dom (t_commands t') ∪ dom (t_runs t')) anchors t' /\ dom (t_commands t') ⊆ anchors.
Proof. intros Er Et Ec Eu (anchors & Hh & Hd). exists anchors. rewrite Ec, Eu. split; [by apply (history_frame _ _ t)|done]. Qed.

(** ** Sessions *)

Lemma session_ok_grows T T' s1 s2 id cells :
  session_ok T s1 id cells -> T <= T' -> dom s1 ⊆ dom s2 -> session_ok T' s2 id cells.
Proof.
  intros [Hn (u & Hu & [Hr Hl] & He) Hp] HT Hd. constructor; [done| |].
  - exists u. split; [done|]. split; [split; [done|lia]|]. destruct (sc_ended cells) as [e|]; [|done].
    destruct He as [Ht (v & Hv & [Hr' Hl'] & Huv)]. split; [done|]. exists v. split; [done|]. split; [split; [done|lia]|done].
  - destruct (sc_prior cells) as [p|]; [|done]. destruct Hp. split; [set_solver|done].
Qed.

Lemma store_ok_later T T' m t : store_ok T m t -> T <= T' -> store_ok T' m t.
Proof. intros [] HT. constructor; auto. intros id cells Hc. eapply session_ok_grows; [auto|done|done]. Qed.

Definition ended_sessions (T : Z) (sessions : gmap string session_cells) : Prop :=
  forall id cells, sessions !! id = Some cells -> session_ok T sessions id cells /\ sc_termination cells <> "active".

(** The session that ends now. *)
Lemma end_session T T' m t cells termination :
  store_ok T m t -> T <= T' -> min_instant <= T' <= max_instant -> t_sessions t !! m_active m = Some cells ->
  mem termination ["aborted"; "clean"; "interrupted"] = true ->
  ended_sessions T' (<[m_active m := {| sc_started := sc_started cells; sc_ended := Some (rfc3339 T');
    sc_termination := termination; sc_prior := sc_prior cells |}]> (t_sessions t)).
Proof.
  intros Hs HT Hr Hc Ht id c. set (sessions := <[_ := _]> _). assert (dom (t_sessions t) ⊆ dom sessions) as Hd.
  { unfold sessions. rewrite dom_insert. set_solver. }
  destruct (ok_sessions _ _ _ Hs _ _ Hc) as [Hn (u & Hu & [Hru Hlu] & _) Hp].
  unfold sessions at 1. destruct (decide (m_active m = id)) as [<-|Hne].
  - rewrite lookup_insert_eq. intros [= <-]. split; [constructor; cbn [sc_started sc_ended sc_termination sc_prior]|].
    + done.
    + exists u. split; [done|]. split; [split; [done|lia]|]. split; [done|]. exists T'. split; [done|]. split; [split; [done|lia]|lia].
    + destruct (sc_prior cells) as [p|]; [|done]. destruct Hp. split; [set_solver|done].
    + cbn. intros ->. done.
  - rewrite lookup_insert_ne by done. intros Hl. split; [eapply session_ok_grows; [by apply (ok_sessions _ _ _ Hs)|done|done]|].
    intros E. by apply (ok_active _ _ _ Hs _ _ Hl) in E.
Qed.

Lemma prior_session_ok T T' m t prior shutdown sessions :
  store_ok T m t -> T <= T' -> min_instant <= T' <= max_instant ->
  prior_session (rfc3339 T') (m_active m) t = Ok (prior, shutdown, sessions) ->
  ended_sessions T' sessions /\ dom sessions = dom (t_sessions t) /\ mem shutdown PRIOR_SHUTDOWN_STATES = true /\
  match prior with None => True | Some p => p ∈ dom sessions end.
Proof.
  intros Hs HT Hr. unfold prior_session. destruct (negb (str_empty (m_active m))) eqn:Ea.
  - destruct (t_sessions t !! m_active m) as [cells|] eqn:Hc; [|done]. intros Hp. apply bind_unit_ok in Hp as [_ [= <- <- <-]].
    split; [by eapply end_session|]. rewrite dom_insert_L. apply elem_of_dom_2 in Hc. split; [set_solver|]. split; [done|]. set_solver.
  - intros Hp. apply negb_false_iff, String.eqb_eq in Ea.
    assert (ended_sessions T' (t_sessions t)) as He.
    { intros id cells Hc. pose proof (ok_sessions _ _ _ Hs _ _ Hc) as Hok. split; [by eapply session_ok_grows|].
      intros Et. apply (ok_active _ _ _ Hs _ _ Hc) in Et. destruct Hok as [Hn _ _]. apply session_id_nonempty in Hn. congruence. }
    destruct (last (select_sessions t)) as [[id cells]|] eqn:El; injection Hp as <- <- <-; split_and!; try done.
    + by destruct (String.eqb _ _).
    + apply last_Some in El as [l El]. assert ((id, cells) ∈ select_sessions t) as Hin by (rewrite El; set_solver).
      unfold select_sessions in Hin. rewrite elem_of_sorted_by, elem_of_map_to_list in Hin. by eapply elem_of_dom_2.
Qed.

Definition started (session_id : string) (m : meta) : meta := with_admission "reconciliation-required" (with_active session_id m).

Theorem start_session_ok T T' m t session_id shutdown id t' :
  store_ok T m t -> T <= T' -> min_instant <= T' <= max_instant ->
  _start_session (rfc3339 T') session_id t = (Ok (shutdown, id), t') ->
  id = session_id /\ store_ok T' (started id m) t' /\ t_runs t' = t_runs t /\ t_records t' = t_records t /\ mem shutdown PRIOR_SHUTDOWN_STATES = true /\
  exists cells, t_sessions t' !! id = Some cells /\ sc_started cells = rfc3339 T'.
Proof.
  intros Hs HT Hr. unfold _start_session, transaction. destruct (_ ← _; _) as [[[sh i] t1]|] eqn:E; [|done]. intros [= -> -> ->].
  rewrite (read_active m) in E by apply Hs. cbn [mbind result_bind] in E.
  apply bind_ok in E as ([[prior sh] sessions] & Hp & E). apply bind_unit_ok in E as [Hi E]. apply bind_unit_ok in E as [Hn E].
  apply raise_if_ok, negb_false_iff in Hi, Hn. apply bind_ok in E as (sessions' & Hins & [= <- <- <-]).
  destruct (prior_session_ok _ _ _ _ _ _ _ Hs HT Hr Hp) as (He & Hd & Hsh & Hprior).
  unfold insert_row in Hins. destruct (sessions !! session_id) eqn:Hf; [done|]. injection Hins as <-.
  pose proof (store_ok_later _ T' _ _ Hs HT) as [].
  set (cells := Build_session_cells _ _ _ _). split; [done|]. assert (store_ok T' (started session_id m)
    (update_metadata "admission_state" "reconciliation-required" (update_metadata "active_session_id" session_id
       (set_sessions (<[session_id:=cells]> sessions) t)))) as Hok.
  { constructor; try done; cbn [update_metadata set_metadata set_sessions t_sessions].
    - by apply update_admission, update_active.
    - by apply (history_same t).
    - intros id c. destruct (decide (session_id = id)) as [<-|Hne].
      + rewrite lookup_insert_eq. intros [= <-]. constructor; cbn.
        * done.
        * exists T'. split; [done|]. split; [split; [done|lia]|done].
        * destruct prior as [p|]; [|done]. split; [rewrite dom_insert; set_solver|]. intros ->. by apply not_elem_of_dom in Hf.
      + rewrite lookup_insert_ne by done. intros Hc. eapply session_ok_grows; [by apply He|done|rewrite dom_insert; set_solver].
    - intros id c. cbn. destruct (decide (session_id = id)) as [<-|Hne].
      + rewrite lookup_insert_eq. by intros [= <-].
      + rewrite lookup_insert_ne by done. intros Hc. apply He in Hc as [_ Hc]. split; intros; congruence.
    - right. cbn. rewrite dom_insert. set_solver. }
  split_and!; [done|done|done|done|]. exists cells. split; [|done]. cbn. apply lookup_insert_eq.
Qed.

(** A start with a fresh identifier succeeds. *)
Theorem start_session_total T T' m t session_id :
  store_ok T m t -> session_id_ok session_id -> (session_id ∉ dom (t_sessions t)) ->
  exists shutdown t', _start_session (rfc3339 T') session_id t = (Ok (shutdown, session_id), t').
Proof.
  intros Hs [Hi Hn] Hf. unfold _start_session, transaction. rewrite (read_active m) by apply Hs. cbn [mbind result_bind].
  assert (exists p, prior_session (rfc3339 T') (m_active m) t = Ok p /\ dom p.2 = dom (t_sessions t)) as ([[prior sh] sessions] & -> & Hd).
  { unfold prior_session. destruct (ok_known _ _ _ Hs) as [->|Hk].
    - cbn. eexists. split; [reflexivity|]. by destruct (last (select_sessions t)) as [[]|].
    - apply elem_of_dom in Hk as [cells Hc]. destruct (negb _); [|eexists; split; [reflexivity|by destruct (last _) as [[]|]]].
      rewrite Hc. assert (sc_termination cells = "active") as -> by by apply (ok_active _ _ _ Hs _ _ Hc).
      cbn. eexists. split; [reflexivity|]. cbn. rewrite dom_insert_L. apply elem_of_dom_2 in Hc. set_solver. }
  cbn [mbind result_bind]. rewrite Hi, Hn. cbn [negb raise_if mbind result_bind]. unfold insert_row.
  cbn in Hd. assert (sessions !! session_id = None) as -> by by apply not_elem_of_dom; rewrite Hd. cbn. eauto.
Qed.

Theorem close_ok T T' m t s clean t' :
  store_ok T m t -> T <= T' -> min_instant <= T' <= max_instant -> ls_session_id s = m_active m -> ls_closed s = false ->
  close clean T' s t = (Ok tt, t') -> store_ok T' (with_active "" m) t'.
Proof.
  intros Hs HT Hr Hid Hcl. unfold close, transaction. rewrite Hcl, Hid. destruct (t_sessions t !! m_active m) as [cells|] eqn:Hc; [|done].
  destruct (raise_if _ _); [|done]. cbn [mbind result_bind]. intros [= <-]. pose proof (store_ok_later _ T' _ _ Hs HT) as [].
  pose proof (end_session T T' m t cells (if clean then "clean" else "aborted") Hs HT Hr Hc ltac:(by destruct clean)) as He.
  constructor; try done; cbn [update_metadata set_metadata set_sessions t_sessions].
  - by apply update_active.
  - by apply (history_same t).
  - intros id c Hl. by apply He.
  - intros id c Hl. cbn. destruct (He _ _ Hl) as [[Hn _ _] Ht]. apply session_id_nonempty in Hn. split; congruence.
  - by left.
Qed.
End Steps.

(** * Batches and reconciliations keep the store well-formed

    [batch_ok] and [reconciliation_ok]: what a committed mutation batch and a
    committed reconciliation do to a well-formed store. *)


Section Apply.
Context `{JCSLaws} `{PyTables}.

Definition mutation_typed (m : StateMutation) : Prop := valid m /\ Forall valid (mut_sources m).
Record plan_typed (p : ReconciliationPlan) : Prop := {
  plan_valid : valid p;
  plan_actions_typed : Forall action_typed (plan_actions p);
  plan_issues_typed : Forall valid (plan_issues p)
}.

Lemma bump_epoch_ok e t n t' : 0 <= e -> bump_epoch e t = Ok (n, t') -> n = e + 1 /\ n <= SAFE_INTEGER_MAX /\ t' = update_metadata "epoch" (dec n) t.
Proof. unfold bump_epoch. intros He Hb. apply bind_unit_ok in Hb as [Hl%raise_if_ok [= <- <-]]. split_and!; [done|lia|done]. Qed.

Lemma verify_command_later e e' row : e <= e' -> verify_command e row = Ok tt -> verify_command e' row = Ok tt.
Proof.
  intros He. unfold verify_command. intros Hv. repeat (apply bind_unit_ok in Hv as [-> Hv]; cbn [mbind result_bind]).
  apply bind_unit_ok in Hv as [Hl Hv]. apply raise_if_ok in Hl.
  assert ((e' <? cc_epoch row.2) = false) as -> by lia. done.
Qed.

Lemma history_known known known' anchors t : known ⊆ known' -> history_ok known anchors t -> history_ok known' anchors t.
Proof. intros Hk [Hs Hn (latest & Hl & Hr)]. constructor; [done|done|]. exists latest. split; [done|]. by eapply replay_mono. Qed.

Lemma fullmatch_sha d : fullmatch SHA256_PATTERN (sha256 d) = true.
Proof. apply Sha256.hexdigest_pattern. Qed.

(** ** Batches *)

Record batch_committed (ordered : list StateMutation) (command reason request : string) (T : Z) (m : meta) (t t' : tables) : Prop := {
  batch_was_ready : m_admission m = "ready";
  batch_new : t_commands t !! command = None;
  batch_ok : store_ok T (with_epoch (m_epoch m + 1) m) t';
  batch_effect : exists records t1, persists command (rfc3339 T) ((fun x => (x, reason)) <$> ordered) t records t1 /\
    t' = set_commands (<[command := {| cc_request := request; cc_epoch := m_epoch m + 1; cc_committed_at := rfc3339 T |}]>
           (t_commands t)) (update_metadata "epoch" (dec (m_epoch m + 1)) t1)
}.

Theorem batch_transaction_ok T T' m t ordered command reason request epoch t' :
  store_ok T m t -> T <= T' -> min_instant <= T' <= max_instant -> Forall mutation_typed ordered -> ordered <> [] ->
  fullmatch OPERATIONAL_ID_PATTERN command = true -> fullmatch TOKEN_PATTERN reason = true ->
  fullmatch SHA256_PATTERN request = true ->
  batch_transaction ordered command reason request epoch T' t = Ok (tt, t') ->
  (t' = t /\ exists cells, t_commands t !! command = Some cells /\ cc_request cells = request) \/
  (m_epoch m = epoch /\ batch_committed ordered command reason request T' m t t').
Proof.
  intros Hs HT Hr Hty Hne Hc Hreason Hq Hb. unfold batch_transaction in Hb. destruct (t_commands t !! command) as [cells|] eqn:Hl.
  { apply bind_unit_ok in Hb as [Hg [= <-]]. apply raise_if_ok, negb_false_iff, String.eqb_eq in Hg. left. eauto. }
  right. rewrite (read_admission m), (read_epoch m) in Hb by apply Hs. cbn [mbind result_bind] in Hb.
  apply bind_unit_ok in Hb as [Ha Hb]. apply raise_if_ok, negb_false_iff, String.eqb_eq in Ha.
  apply bind_unit_ok in Hb as [He Hb]. apply raise_if_ok, negb_false_iff, Z.eqb_eq in He.
  apply bind_ok in Hb as (t1 & Hp & Hb). apply bind_ok in Hb as ([next t2] & Hn & Hb). apply bind_ok in Hb as (cs & Hi & [= <-]).
  apply bump_epoch_ok in Hn as (-> & Hmax & ->); [|apply Hs].
  pose proof (store_ok_later _ T' _ _ Hs HT) as Hs'. destruct (ok_history _ _ _ Hs) as (anchors & Hh & Hd).
  set (known := dom (t_commands t) ∪ {[command]} ∪ dom (t_runs t)).
  eapply (persist_all_written known) in Hp as [(anchors' & Hsub & Hh' & Hin) (records & Hps)];
    [|by eapply history_known; [|exact Hh]; set_solver|set_solver|done|apply (stamp_of_reading T'); split; [done|lia]|
      eapply Forall_impl; [exact Hty|]; by intros x [_ Hx]].
  pose proof (persists_rest _ _ _ _ _ _ Hps) as [Emi Eme Eco Ese Eru].
  unfold insert_row in Hi. cbn [update_metadata set_metadata t_commands] in Hi. rewrite Eco, Hl in Hi. injection Hi as <-.
  pose proof (ok_commands _ _ _ Hs') as Hcommands. destruct Hs' as []. split; [done|]. constructor; cbn [set_commands update_metadata set_metadata t_commands t_sessions t_runs]; try done.
  - constructor; cbn [set_commands update_metadata set_metadata t_commands t_sessions t_runs t_migrations]; rewrite ?Emi, ?Ese, ?Eru; try done.
    + apply update_epoch. by rewrite Eme.
    + cbn. lia.
    + intros id cells. destruct (decide (command = id)) as [<-|Hne'].
      * rewrite lookup_insert_eq. intros [= <-]. unfold verify_command. cbn [fst snd cc_request cc_epoch cc_committed_at].
        rewrite Hc, good_digest by done. cbn [negb raise_if mbind result_bind with_epoch m_epoch].
        assert ((1 <=? m_epoch m + 1) && (m_epoch m + 1 <=? SAFE_INTEGER_MAX) = true) as -> by lia.
        rewrite Z.ltb_irrefl, stored_stamp by done. done.
      * rewrite lookup_insert_ne by done. intros Hid. eapply verify_command_later; [|by apply Hcommands]. cbn. lia.
    + exists anchors'. rewrite dom_insert_L. assert (command ∈ anchors') by (apply Hin; by destruct ordered).
      split; [|set_solver]. eapply history_frame; [| |eapply history_known; [|exact Hh']]; try done. set_solver.
  - by exists records, t1.
Qed.

(** ** Reconciliations *)

Lemma stored_sorted t records : stored_records t = Ok records -> sorted_by osr_key records = records.
Proof.
  intros Hrec%map_result_ok. pose proof (sorted_by_Forall2 fst osr_key _ _ _
    (fun row r Hr => eq_sym (proj2 (record_from_row_key row r Hr))) Hrec) as Hsorted.
  unfold select_records in Hsorted, Hrec. rewrite (sorted_by_id fst) in Hsorted by apply sorted_by_sorted.
  apply map_result_ok in Hsorted, Hrec. congruence.
Qed.

Lemma snapshot_facts self observed_at T m t snap :
  store_ok T m t -> _snapshot_locked self observed_at t = Ok snap ->
  valid snap /\ snap_epoch snap = m_epoch m /\ snap_admission snap = m_admission m /\ snap_store_id snap = m_store m /\
  stored_records t = Ok (snap_records snap) /\ fullmatch SHA256_PATTERN (snap_digest snap) = true.
Proof.
  intros Hs. unfold _snapshot_locked. intros Hsn. apply bind_ok in Hsn as (records & Hrec & Hsn).
  rewrite (read_store m), (read_epoch m), (read_admission m) in Hsn by apply Hs. cbn [mbind result_bind] in Hsn.
  unfold build_snapshot in Hsn. apply bind_ok in Hsn as (d & Hd & Hsn). apply construct_ok in Hsn as [Hv ->].
  split; [done|]. cbn [snap_epoch snap_admission snap_store_id snap_records snap_digest]. split_and!; try done.
  - by rewrite (stored_sorted t).
  - unfold snapshot_digest, digest_of in Hd. ok_inv. subst d. apply fullmatch_sha.
Qed.

Definition reconciled_meta (plan : ReconciliationPlan) (m : meta) : meta :=
  with_admission (resulting_status plan) (with_epoch (m_epoch m + 1) m).

Record reconciliation_committed (self : LocalStateStore) (plan : ReconciliationPlan) (report : ReconciliationReport)
    (T : Z) (m : meta) (t t' : tables) : Prop := {
  rec_fresh : exists observed_at before, _snapshot_locked self observed_at t = Ok before /\ snap_digest before = plan_snapshot_digest plan;
  rec_ok : store_ok T (reconciled_meta plan m) t';
  rec_after : exists after, _snapshot_locked self (rfc3339 T) t' = Ok after;
  rec_report : valid report /\ rpt_status report = resulting_status plan /\ rpt_issues report = sorted_by iss_key (plan_issues plan);
  rec_effect : exists records t1 cells,
    persists (plan_id plan) (rfc3339 T) ((fun a => (action_mutation a, act_reason a)) <$> plan_actions plan) t records t1 /\
    rn_completed_at cells = rfc3339 T /\ rn_plan_sha256 cells = plan_digest plan /\ _parse_report (rn_report_json cells) = Ok report /\
    t' = set_runs (<[plan_id plan := cells]> (t_runs t))
           (update_metadata "admission_state" (resulting_status plan) (update_metadata "epoch" (dec (m_epoch m + 1)) t1))
}.

Lemma plan_facts plan : valid plan ->
  fullmatch OPERATIONAL_ID_PATTERN (plan_id plan) = true /\ str_startswith (plan_id plan) RECONCILIATION_ID = true.
Proof.
  unfold valid, post_init, ReconciliationPlan_post_init. intros Hv. apply bind_unit_ok in Hv as [H3 Hv].
  apply bind_unit_ok in Hv as [H4 _]. by apply raise_if_ok, negb_false_iff in H3, H4.
Qed.

Lemma build_report_ok pid pd before after at' status results issues report :
  build_report pid pd before after at' status results issues = Ok report -> Forall valid results -> Forall valid issues ->
  report_typed report /\ rpt_plan_id report = pid /\ rpt_plan_digest report = pd /\ rpt_completed_at report = at' /\
  rpt_status report = status /\ rpt_issues report = sorted_by iss_key issues.
Proof.
  unfold build_report. intros Hb Hr Hi. apply bind_ok in Hb as (d & _ & Hb). apply construct_ok in Hb as [Hv ->].
  split; [|done]. constructor; [done|by apply Forall_sorted_by|by apply Forall_sorted_by].
Qed.

Theorem reconciliation_transaction_ok T T' m t self plan read_at report t' :
  store_ok T m t -> T <= T' -> min_instant <= T' <= max_instant -> plan_typed plan ->
  reconciliation_transaction self plan read_at T' t = Ok (report, t') ->
  (t' = t /\ exists cells, t_runs t !! plan_id plan = Some cells /\ rn_plan_sha256 cells = plan_digest plan /\
     _parse_report (rn_report_json cells) = Ok report) \/
  (t_runs t !! plan_id plan = None /\ reconciliation_committed self plan report T' m t t').
Proof.
  intros Hs HT Hr [Hpv Hpa Hpi] Hb. unfold reconciliation_transaction in Hb.
  destruct (t_runs t !! plan_id plan) as [cells|] eqn:Hl.
  { apply bind_unit_ok in Hb as [Hg Hb]. apply raise_if_ok, negb_false_iff, String.eqb_eq in Hg.
    apply bind_ok in Hb as (r & Hpr & [= <- <-]). left. eauto. }
  right. split; [done|]. apply bind_ok in Hb as (before & Hbefore & Hb). pose proof (snapshot_facts _ _ _ _ _ _ Hs Hbefore) as (_ & Eep & _).
  apply bind_unit_ok in Hb as [Hg Hb]. apply raise_if_ok, negb_false_iff, String.eqb_eq in Hg.
  apply bind_ok in Hb as ([results t1] & Hp & Hb). apply bind_ok in Hb as ([next t2] & Hn & Hb). rewrite Eep in Hn.
  apply bump_epoch_ok in Hn as (-> & Hmax & ->); [|apply Hs]. apply bind_ok in Hb as (after & Hafter & Hb).
  apply bind_ok in Hb as (r & Hrep & Hb). apply bind_ok in Hb as (json & Hjson & Hb). apply bind_ok in Hb as (rs & Hi & [= <- <-]).
  destruct (plan_facts plan Hpv) as [Hid Hns]. pose proof (store_ok_later _ T' _ _ Hs HT) as Hs'.
  destruct (ok_history _ _ _ Hs) as (anchors & Hh & Hd). set (known := dom (t_commands t) ∪ ({[plan_id plan]} ∪ dom (t_runs t))).
  eapply (persist_actions_written known) in Hp as [(anchors' & Hsub & Hh' & _) (Hres & records & Hps & _)];
    [|by eapply history_known; [|exact Hh]; set_solver|set_solver|apply (stamp_of_reading T'); split; [done|lia]|done].
  pose proof (persists_rest _ _ _ _ _ _ Hps) as [Emi Eme Eco Ese Eru].
  apply build_report_ok in Hrep as (Hty & E1 & E2 & E3 & E4 & E5); [|done|done].
  pose proof (parse_report_text r json Hty Hjson) as Hparse.
  unfold insert_row in Hi. cbn [update_metadata set_metadata t_runs] in Hi. rewrite Eru, Hl in Hi. injection Hi as <-.
  pose proof (ok_commands _ _ _ Hs') as Hcommands. pose proof (ok_runs _ _ _ Hs') as Hruns. destruct Hs' as []. constructor.
  - by exists (rfc3339 read_at), before.
  - constructor; cbn [set_runs update_metadata set_metadata t_commands t_sessions t_runs t_migrations]; rewrite ?Emi, ?Ese, ?Eco; try done.
    + apply update_admission, update_epoch. by rewrite Eme.
    + cbn. lia.
    + cbn. unfold resulting_status. by destruct (plan_ready_after_apply plan).
    + intros id cells Hc. eapply verify_command_later; [|by apply Hcommands]. cbn. lia.
    + intros id cells. destruct (decide (plan_id plan = id)) as [<-|Hne].
      * rewrite lookup_insert_eq. intros [= <-]. unfold verify_run. cbn [fst snd rn_report_json rn_plan_sha256 rn_completed_at].
        rewrite Hid, Hns, Hparse. cbn [negb raise_if mbind result_bind]. by rewrite E1, E2, E3, !String.eqb_refl.
      * rewrite lookup_insert_ne by done. apply Hruns.
    + exists anchors'. rewrite dom_insert_L. split; [|set_solver].
      eapply history_frame; [| |exact Hh']; done.
  - by exists after.
  - split; [by destruct Hty|]. done.
  - exists records, t1, {| rn_plan_sha256 := plan_digest plan; rn_report_json := json; rn_completed_at := rfc3339 T' |}.
    split; [exact Hps|]. split_and!; [| |exact Hparse|]; done.
Qed.
End Apply.

(** * The life of a state store

    Opening a store for the first time and again, and [step]: the sessions of one
    store, one after the other, each with its batches, reconciliations and its end
    by [close] or by the death of the process.  [reachable_ok]: whatever they do, the
    store stays well-formed. *)


(** ** What mutations leave in the tables *)

Lemma history_records `{JCS} `{PyFloat} `{PyTables} known anchors t key :
  history_ok known anchors t -> exists current, current_record key t = Ok current.
Proof.
  intros [_ _ (latest & Hl & _)]. specialize (Hl key). unfold current_record. destruct (t_records t !! key) as [cells|]; [|eauto].
  destruct Hl as (s & Hs & _). unfold key_state in Hs. apply bind_ok in Hs as (r & -> & _). cbn. eauto.
Qed.

Section Records.
Context `{JCS} `{PyFloat} `{PyTables}.

(** The record the store holds under a key. *)
Definition record_at (t : tables) (key : string * string) : option OperationalStateRecord :=
  match current_record key t with Ok current => current | Raise _ => None end.

(** The versioned store the operations implement: a mutation is admitted when the
    generation it expects is the current one, and counts it up. *)
Definition admitted (m : StateMutation) (current : option OperationalStateRecord) : Prop :=
  mut_expected_generation m = osr_generation <$> current.
Definition next_record (stamp : string) (m : StateMutation) (current : option OperationalStateRecord) : OperationalStateRecord :=
  mutated_record m (from_option osr_generation 0 current + 1) stamp.

Lemma next_generation_spec m current g :
  next_generation m current = Ok g -> admitted m current /\ g = from_option osr_generation 0 current + 1.
Proof.
  unfold next_generation, admitted. destruct (mut_expected_generation m) as [e|], current as [r|]; cbn; intros Hg; ok_inv; bool_simp; try done.
  split; [|done]. f_equal. lia.
Qed.

Lemma persists_lookup command stamp l t records t' :
  persists command stamp l t records t' -> NoDup (mut_key ∘ fst <$> l) ->
  (forall key, key ∉ (mut_key ∘ fst <$> l) -> t_records t' !! key = t_records t !! key) /\
  (forall m reason, (m, reason) ∈ l -> exists current, current_record (mut_key m) t = Ok current /\ admitted m current /\
     current_record (mut_key m) t' = Ok (Some (next_record stamp m current)) /\ valid (next_record stamp m current)).
Proof.
  induction 1 as [t|m reason l t record t1 records t2 [[Er Hv] (current & Hc & Hg) (cells & row & Hcells & -> & _)] _ IH].
  - split; [done|]. by intros m reason ?%elem_of_nil.
  - cbn [fmap list_fmap compose fst]. intros [Hm Hnd]%NoDup_cons. destruct (IH Hnd) as [IH1 IH2].
    apply next_generation_spec in Hg as [Ha Hgen].
    assert (current_record (mut_key m) t2 = Ok (Some record)) as Hlast.
    { unfold current_record. rewrite IH1 by done. cbn [add_transition t_records set_records].
      rewrite lookup_insert_eq. by rewrite Hcells. }
    split.
    + intros key [Hne Hk]%not_elem_of_cons. rewrite IH1 by done. cbn. by rewrite lookup_insert_ne.
    + intros m' reason' [[= -> ->]|Hin]%elem_of_cons.
      * exists current. unfold next_record. rewrite <- Hgen, <- Er. done.
      * destruct (IH2 _ _ Hin) as (c & Hc' & Hrest). exists c. split; [|done]. unfold current_record in Hc' |- *. cbn [add_transition t_records set_records] in Hc'.
        rewrite lookup_insert_ne in Hc'; [done|]. intros E. apply Hm. rewrite E.
        by apply (list_elem_of_fmap_2 (mut_key ∘ fst) l (m', reason')).
Qed.
End Records.

(** A check before a transaction: it raises and nothing changes, or it passes. *)
Lemma lift_cases {W A B} (c : result A) (f : A -> eff W B) w r w' :
  (x ← lift c; f x) w = (r, w') -> w' = w \/ (exists a, c = Ok a /\ f a w = (r, w')).
Proof. unfold mbind, eff_bind, lift. destruct c; [eauto|]. intros [= _ <-]. by left. Qed.

Section Life.
Context `{JCSLaws} `{PyTables}.

(** What [apply_batch] checks before it looks at the tables. *)
Record batch_checked (self : LocalStateStore) (ordered : list StateMutation) (command reason request : string) (epoch : Z) : Prop := {
  checked_some : list_empty ordered = false;
  checked_keys : has_duplicates (mut_key <$> ordered) = false;
  checked_command : fullmatch OPERATIONAL_ID_PATTERN command = true;
  checked_reason : fullmatch TOKEN_PATTERN reason = true;
  checked_epoch : safe_nonneg epoch = true;
  checked_request : _request_digest epoch reason ordered = Ok request;
  checked_open : ls_closed self = false
}.

Lemma apply_batch_cases self ms command reason epoch T' now t r t' :
  apply_batch self ms command reason epoch T' now t = (r, t') ->
  t' = t \/ exists request, batch_checked self (sorted_by mut_key ms) command reason request epoch /\
    batch_transaction (sorted_by mut_key ms) command reason request epoch T' t = Ok (tt, t').
Proof.
  unfold apply_batch. intros Ha. apply lift_cases in Ha as [Ha|([] & Hne & Ha)]; [by left|].
  apply lift_cases in Ha as [Ha|([] & Hnd & Ha)]; [by left|]. apply lift_cases in Ha as [Ha|([] & Hc & Ha)]; [by left|].
  apply lift_cases in Ha as [Ha|([] & Hr & Ha)]; [by left|]. apply lift_cases in Ha as [Ha|([] & He & Ha)]; [by left|].
  apply lift_cases in Ha as [Ha|(request & Hq & Ha)]; [by left|]. apply lift_cases in Ha as [Ha|([] & Ho & Ha)]; [by left|].
  unfold transaction, mbind, eff_bind, reading in Ha. destruct (batch_transaction _ _ _ _ _ _ _) as [[[] t1]|e] eqn:Hb.
  - injection Ha as _ <-. right. exists request. apply raise_if_ok in Hne, Hnd, Hc, Hr, He, Ho. apply negb_false_iff in Hc, Hr, He. by constructor.
  - injection Ha as _ <-. by left.
Qed.

Lemma request_pattern epoch reason ordered request : _request_digest epoch reason ordered = Ok request -> fullmatch SHA256_PATTERN request = true.
Proof.
  unfold _request_digest, digest_of. intros Hq. apply bind_ok in Hq as (docs & _ & Hq). apply bind_ok in Hq as (text & _ & [= <-]). apply fullmatch_sha.
Qed.

(** A call whose command the tables know answers with their snapshot. *)
Lemma apply_batch_replay self ms command reason epoch request T' now t cells :
  batch_checked self (sorted_by mut_key ms) command reason request epoch -> t_commands t !! command = Some cells ->
  cc_request cells = request -> apply_batch self ms command reason epoch T' now t = (_snapshot_locked self (rfc3339 now) t, t).
Proof.
  intros [Hne Hnd Hc Hr He Hq Ho] Hl Hcq. unfold apply_batch, _require_token, require_token, _ensure_open, mbind, eff_bind, lift.
  rewrite Hne, Hnd, Hc, Hr, He, Hq, Ho. cbn [negb raise_if]. unfold transaction, batch_transaction, reading. rewrite Hl, Hcq, String.eqb_refl. done.
Qed.

Lemma apply_reconciliation_cases self plan read_at T' t r t' :
  apply_reconciliation self plan read_at T' t = (r, t') ->
  t' = t \/ exists report, r = Ok report /\ reconciliation_transaction self plan read_at T' t = Ok (report, t').
Proof.
  unfold apply_reconciliation. intros Ha. apply lift_cases in Ha as [Ha|([] & _ & Ha)]; [by left|].
  unfold transaction in Ha. destruct (reconciliation_transaction _ _ _ _ _) as [[report t1]|e] eqn:Hb; injection Ha as <- <-; [|by left].
  right. eauto.
Qed.

(** ** Opening *)

(** The tables of a database that has just been migrated, and with its metadata. *)
Definition migrated_tables (applied_at : Z) : tables :=
  add_migration {| mr_version := 1; mr_name := "initial-durable-operational-state";
    mr_sha256 := migration_sha256 {| mig_version := 1; mig_name := "initial-durable-operational-state"; mig_statements := initial_statements |};
    mr_applied_at := rfc3339 applied_at |} empty_tables.
Definition new_meta (store_id : string) : meta :=
  {| m_active := ""; m_admission := "reconciliation-required"; m_epoch := 0; m_store := store_id |}.
Definition new_store (applied_at : Z) (store_id : string) : tables :=
  set_metadata (meta_map (new_meta store_id)) (migrated_tables applied_at).
Definition database_of (t : tables) : database := {| db_user_version := 1; db_tables := Some t |}.

Definition store_id_ok (id : string) : Prop := fullmatch OPERATIONAL_ID_PATTERN id = true /\ str_startswith id STORE_ID = true.

Lemma new_store_ok T applied_at store_id : store_id_ok store_id -> store_ok T (new_meta store_id) (new_store applied_at store_id).
Proof.
  intros Hid. constructor; try done; [|by left].
  exists ∅. split; [|done]. constructor; [done|done|]. exists ∅. split; [|done]. intros key. done.
Qed.

(** What the last step of opening makes of a started session. *)
Definition opened (started : result (string * string) * tables) : result LocalStateStore * database :=
  (match started.1 with
   | Ok (shutdown, id) => Ok {| ls_prior_shutdown := shutdown; ls_session_id := id; ls_closed := false |}
   | Raise e => Raise (open_error e)
   end, database_of started.2).

Lemma open_verified T m t migrated_at opened_at store_id session_id :
  store_ok T m t ->
  open_database false migrated_at opened_at store_id session_id (database_of t) =
  opened (_start_session (rfc3339 opened_at) session_id t).
Proof.
  intros Hs. destruct (verification_passes _ _ _ Hs) as (Hi & Hm & Hr & Hh).
  assert (_apply_migrations migrated_at (database_of t) = (Ok tt, database_of t)) as Hmig by reflexivity.
  unfold open_database, mbind at 1, eff_bind at 1. cbn [lift raise_if database_of db_user_version CURRENT_DATABASE_SCHEMA_VERSION Z.ltb Z.compare Pos.compare Pos.compare_cont].
  unfold try_eff, mbind, eff_bind. rewrite Hmig. unfold reading. change (database_of t) with {| db_user_version := 1; db_tables := Some t |} in *. rewrite Hi. cbn [mret eff_ret].
  unfold on_tables. cbn [db_tables db_user_version]. rewrite Hm. cbn [db_tables db_user_version]. rewrite Hr. cbn [db_tables db_user_version].
  rewrite Hh. cbn [db_tables db_user_version]. unfold opened. by destruct (_start_session _ _ _) as [[[sh id]|e] t'].
Qed.

Lemma open_new migrated_at opened_at store_id session_id :
  store_id_ok store_id ->
  open_database true migrated_at opened_at store_id session_id new_database =
  opened (_start_session (rfc3339 opened_at) session_id (new_store migrated_at store_id)).
Proof.
  intros Hid. pose proof (new_store_ok opened_at migrated_at store_id Hid) as Hs.
  destruct (verification_passes _ _ _ Hs) as (Hi & Hm & Hr & Hh).
  assert (_apply_migrations migrated_at new_database = (Ok tt, database_of (migrated_tables migrated_at))) as Hmig by reflexivity.
  assert (_initialize_metadata store_id (migrated_tables migrated_at) = (Ok tt, new_store migrated_at store_id)) as Hinit.
  { destruct Hid as [H3 H4]. unfold _initialize_metadata, mbind, eff_bind, lift. rewrite H3, H4. reflexivity. }
  unfold open_database, mbind at 1, eff_bind at 1.
  cbn [lift raise_if new_database db_user_version CURRENT_DATABASE_SCHEMA_VERSION Z.ltb Z.compare].
  unfold try_eff, mbind, eff_bind. change {| db_user_version := 0; db_tables := None |} with new_database. rewrite Hmig. unfold reading.
  assert (_verify_integrity (database_of (migrated_tables migrated_at)) = Ok tt) as ->.
  { unfold _verify_integrity. cbn [db_user_version db_tables database_of Z.eqb]. rewrite bool_decide_eq_true_2; [done|].
    exact (ok_migrations _ _ _ Hs). }
  unfold on_tables. cbn [db_tables db_user_version database_of]. rewrite Hinit. cbn [db_tables db_user_version].
  rewrite Hm. cbn [db_tables db_user_version]. rewrite Hr. cbn [db_tables db_user_version].
  rewrite Hh. cbn [db_tables db_user_version]. unfold opened. by destruct (_start_session _ _ _) as [[[sh id]|e] t'].
Qed.

(** ** The system: one store, the clock, and the session of the process that holds the lock *)

Record system := { sys_clock : Z; sys_tables : tables; sys_session : option LocalStateStore }.

Definition ok_store_of (r : result LocalStateStore) : option LocalStateStore := match r with Ok s => Some s | Raise _ => None end.

(** The instant of an operation: not before the last one. *)
Definition tick (sys : system) (T : Z) : Prop := sys_clock sys <= T /\ min_instant <= T <= max_instant.

Inductive start : system -> Prop :=
| start_new T migrated_at store_id session_id r t :
    min_instant <= T <= max_instant -> store_id_ok store_id ->
    open_database true migrated_at T store_id session_id new_database = (r, database_of t) ->
    start {| sys_clock := T; sys_tables := t; sys_session := ok_store_of r |}.

Inductive step (sys : system) : system -> Prop :=
| step_open T migrated_at store_id session_id r t :
    sys_session sys = None -> tick sys T ->
    open_database false migrated_at T store_id session_id (database_of (sys_tables sys)) = (r, database_of t) ->
    step sys {| sys_clock := T; sys_tables := t; sys_session := ok_store_of r |}
| step_batch self ms command reason epoch T now r t :
    sys_session sys = Some self -> tick sys T -> Forall mutation_typed ms ->
    apply_batch self ms command reason epoch T now (sys_tables sys) = (r, t) ->
    step sys {| sys_clock := T; sys_tables := t; sys_session := Some self |}
| step_reconcile self plan read_at T r t :
    sys_session sys = Some self -> tick sys T -> plan_typed plan ->
    apply_reconciliation self plan read_at T (sys_tables sys) = (r, t) ->
    step sys {| sys_clock := T; sys_tables := t; sys_session := Some self |}
| step_close self clean T r t :
    sys_session sys = Some self -> tick sys T -> close clean T self (sys_tables sys) = (r, t) ->
    step sys {| sys_clock := T; sys_tables := t; sys_session := None |}
| step_crash T : tick sys T -> step sys {| sys_clock := T; sys_tables := sys_tables sys; sys_session := None |}.

Inductive reachable : system -> Prop :=
| reachable_start sys : start sys -> reachable sys
| reachable_step sys sys' : reachable sys -> step sys sys' -> reachable sys'.

(** Admission is ready only when the session has reconciled. *)
Definition reconciled_since (m : meta) (t : tables) : Prop :=
  exists cells plan run report u v, t_sessions t !! m_active m = Some cells /\ t_runs t !! plan = Some run /\
    _parse_report (rn_report_json run) = Ok report /\ rpt_status report = "ready" /\
    sc_started cells = rfc3339 u /\ rn_completed_at run = rfc3339 v /\ u <= v.

Record session_live (m : meta) (t : tables) (self : LocalStateStore) : Prop := {
  live_open : ls_closed self = false;
  live_active : ls_session_id self = m_active m;
  live_shutdown : mem (ls_prior_shutdown self) PRIOR_SHUTDOWN_STATES = true;
  live_started : exists cells, t_sessions t !! m_active m = Some cells;
  live_ready : m_admission m = "ready" -> reconciled_since m t
}.

Record system_ok (sys : system) (m : meta) : Prop := {
  system_range : min_instant <= sys_clock sys <= max_instant;
  system_store : store_ok (sys_clock sys) m (sys_tables sys);
  system_live self : sys_session sys = Some self -> session_live m (sys_tables sys) self
}.

Lemma start_session_system T T' m t session_id r d :
  store_ok T m t -> T <= T' -> min_instant <= T' <= max_instant ->
  opened (_start_session (rfc3339 T') session_id t) = (r, d) ->
  exists t' m', d = database_of t' /\ system_ok {| sys_clock := T'; sys_tables := t'; sys_session := ok_store_of r |} m'.
Proof.
  intros Hs HT Hr. destruct (_start_session _ _ t) as [[[sh id]|e] t'] eqn:E; unfold opened; cbn [fst snd]; intros [= <- <-].
  - eapply start_session_ok in E as (-> & Hok & _ & _ & Hsh & cells & Hc & _); [|done..]. exists t', (started session_id m).
    split; [done|]. constructor; [done|done|]. intros self [= <-]. constructor; try done. by exists cells.
  - unfold _start_session, transaction in E. destruct (_ ← _; _) as [[]|]; [done|]. injection E as _ <-.
    exists t, m. split; [done|]. constructor; [done|by eapply store_ok_later|done].
Qed.

Lemma reconciled_same m m' t t' :
  m_active m' = m_active m -> t_sessions t' = t_sessions t -> t_runs t' = t_runs t -> reconciled_since m t -> reconciled_since m' t'.
Proof. unfold reconciled_since. by intros -> -> ->. Qed.

Lemma store_sessions_started T m t id cells :
  store_ok T m t -> t_sessions t !! id = Some cells -> exists u, sc_started cells = rfc3339 u /\ u <= T.
Proof. intros Hs Hc. destruct (ok_sessions _ _ _ Hs _ _ Hc) as [_ (u & Hu & [_ Hl] & _) _]. eauto. Qed.

Lemma step_system sys sys' m : system_ok sys m -> step sys sys' -> exists m', system_ok sys' m'.
Proof.
  intros [Hrange Hs Hlive] Hstep.
  destruct Hstep as [T mig sid ssid r t Hnone [HT Hr] Ho|self ms command reason epoch T now r t Hself [HT Hr] Hty Ha
    |self plan read_at T r t Hself [HT Hr] Hty Ha|self clean T r t Hself [HT Hr] Hc|T [HT Hr]].
  - rewrite (open_verified (sys_clock sys) m) in Ho by done.
    destruct (start_session_system _ _ _ _ _ _ _ Hs HT Hr Ho) as (t' & m' & [= <-] & Hok). by exists m'.
  - specialize (Hlive self Hself). assert (system_ok {| sys_clock := T; sys_tables := sys_tables sys; sys_session := Some self |} m) as Hsame.
    { constructor; [done|by eapply store_ok_later|]. by intros self' [= <-]. }
    apply apply_batch_cases in Ha as [->|(request & [Hne _ Hc Hrs _ Hq _] & Hb)]; [by exists m|]. apply request_pattern in Hq. apply list_empty_false in Hne.
    eapply batch_transaction_ok in Hb as [[-> _]|[_ [Hready _ Hok (records & t1 & Hps & Et)]]]; try done; [by exists m| |by apply Forall_sorted_by].
    subst t.
    exists (with_epoch (m_epoch m + 1) m). constructor; [done|exact Hok|]. intros self' [= <-].
    apply persists_rest in Hps as [_ _ _ Ese Eru]. destruct Hlive as [H3 H4 H5 H6 H7].
    constructor; [done|done|done|change (exists cells, t_sessions t1 !! m_active m = Some cells); by rewrite Ese|].
    intros Hm. eapply (reconciled_same m); [reflexivity|exact Ese|exact Eru|]. by apply H7.
  - specialize (Hlive self Hself). assert (system_ok {| sys_clock := T; sys_tables := sys_tables sys; sys_session := Some self |} m) as Hsame.
    { constructor; [done|by eapply store_ok_later|]. by intros self' [= <-]. }
    apply apply_reconciliation_cases in Ha as [->|(report & _ & Hb)]; [by exists m|].
    eapply reconciliation_transaction_ok in Hb as [[-> _]|[_ [_ Hok _ (_ & Hst & _) (records & t1 & cells & Hps & Hat & _ & Hparse & Et)]]]; try done; [by exists m|].
    subst t.
    exists (reconciled_meta plan m). constructor; [done|done|]. intros self' [= <-].
    apply persists_rest in Hps as [_ _ _ Ese Eru]. destruct Hlive as [H3 H4 H5 [scells H6] H7].
    constructor; [done|done|done|change (exists cells, t_sessions t1 !! m_active m = Some cells); rewrite Ese; by exists scells|].
    intros Hm. destruct (store_sessions_started _ _ _ _ _ Hs H6) as (u & Hu & Hle).
    exists scells, (plan_id plan), cells, report, u, T. cbn. rewrite Ese. split; [done|]. rewrite lookup_insert_eq. split_and!; try done; [rewrite Hst; exact Hm|lia].
  - specialize (Hlive self Hself). destruct Hlive as [Ho Hid _ _ _]. destruct r as [[]|e].
    + eapply close_ok in Hc; [|done..]. exists (with_active "" m). by constructor.
    + unfold close, transaction in Hc. rewrite Ho in Hc. destruct (match _ with Some _ => _ | None => _ end) as [[]|]; [done|]. injection Hc as _ <-.
      exists m. constructor; [done|by eapply store_ok_later|done].
  - exists m. constructor; [done|by eapply store_ok_later|done].
Qed.

Theorem reachable_system sys : reachable sys -> exists m, system_ok sys m.
Proof.
  induction 1 as [sys [T mig sid ssid r t Hr Hid Ho]|sys sys' _ [m Hm] Hstep]; [|by eapply step_system].
  rewrite open_new in Ho by done. pose proof (new_store_ok T mig sid Hid) as Hs.
  destruct (start_session_system T T _ _ _ _ _ Hs ltac:(lia) Hr Ho) as (t' & m' & [= <-] & Hok). by exists m'.
Qed.
End Life.
