(* ===== verification/StateReconciler.v ===== *)
(** * The state reconciler

    [StateReconciler.plan] and [DurableStateService] of state_store.py: what the
    observations of the outside world say of each local record, and the actions and
    issues that follow.  The instant [now] is the reading of the reconciler's clock. *)

From S2P Require Export StateSteps.
Import State.

Definition _ALLOWED_RECONCILIATION_SOURCES (record_kind : string) : list string :=
  if mem record_kind ["event-cursor"; "shard-checkpoint"; "spool-publication"; "transfer"]
  then ["immutable-evidence"; "provider-reality"]
  else if String.eqb record_kind "campaign-assignment" then ["immutable-evidence"; "provider-reality"; "repository-manifest"]
  else if mem record_kind STATE_RECORD_KINDS then ["provider-reality"]
  else [].

Definition observation_order (o : ReconciliationObservation) : string * (string * (string * string)) :=
  (obs_kind o, (obs_id o, (obs_source_kind o, obs_source_id o))).

(** [local.get(key)] and [grouped.get(key, [])] *)
Definition local_record (records : list OperationalStateRecord) (key : string * string) : option OperationalStateRecord :=
  last (List.filter (fun r => bool_decide (osr_key r = key)) records).
Definition grouped (ordered : list ReconciliationObservation) (key : string * string) : list ReconciliationObservation :=
  List.filter (fun o => bool_decide (obs_key o = key)) ordered.
(** [sorted(set(local) | set(grouped))] *)
Definition planned_keys (records : list OperationalStateRecord) (ordered : list ReconciliationObservation) : list (string * string) :=
  sorted_by id (remove_dups ((osr_key <$> records) ++ (obs_key <$> ordered))).

(** [invalid_code or code] *)
Definition coalesce_str (o : option string) (code : string) : option string :=
  match o with Some c => if str_empty c then Some code else o | None => Some code end.
Definition five_minutes : Z := 300000000.

Section Reconciler.
Context `{PyTables} `{JCS} `{PyFloat}.

Definition _quarantine (record : OperationalStateRecord) (reason_code : string) : result (option ReconciliationAction) :=
  if String.eqb (osr_lifecycle record) "quarantined" && String.eqb (osr_verification record) "quarantined" then Ok None
  else
    action ← construct {| act_action := "quarantine"; act_reason := reason_code; act_kind := osr_kind record;
      act_id := osr_id record; act_expected_generation := Some (osr_generation record); act_lifecycle := "quarantined";
      act_verification := "quarantined"; act_payload_json := osr_payload_json record;
      act_payload_sha256 := osr_payload_sha256 record; act_sources := osr_sources record; act_tombstoned := false |};
    Ok (Some action).

(** One pass of the loop that looks for a reason to distrust the candidates. *)
Definition distrust (now maximum_age : Z) (invalid_code : option string) (o : ReconciliationObservation) : result (option string) :=
  let keep code := Ok (coalesce_str invalid_code code) in
  if negb (mem (obs_source_kind o) (_ALLOWED_RECONCILIATION_SOURCES (obs_kind o))) then keep "wrong-source-authority"
  else if negb (obs_verified o) then keep "unverified-reality"
  else
    observed ← stored_timestamp (obs_observed_at o);
    raise_if (max_instant <? now + five_minutes) (OverflowError "date value out of range");;
    if now + five_minutes <? observed then keep "future-reality"
    else if maximum_age * 1000000 <? now - observed then keep "stale-reality"
    else Ok invalid_code.

(** What one key adds to the plan. *)
Definition finding : Type := option ReconciliationAction * option ReconciliationIssue.

Definition distrusted (key : string * string) (record : option OperationalStateRecord) (code detail : string) : result finding :=
  issue ← construct {| iss_kind := key.1; iss_id := key.2; iss_code := code; iss_detail := detail; iss_blocking := true |};
  action ← match record with Some r => _quarantine r code | None => Ok None end;
  Ok (action, Some issue).

Definition act (action reason : string) (key : string * string) (expected : option Z) (lifecycle payload_json payload_sha256 : string)
    (sources : list StateSourceReference) (tombstoned : bool) : result finding :=
  a ← construct {| act_action := action; act_reason := reason; act_kind := key.1; act_id := key.2;
        act_expected_generation := expected; act_lifecycle := lifecycle; act_verification := "verified";
        act_payload_json := payload_json; act_payload_sha256 := payload_sha256; act_sources := sources;
        act_tombstoned := tombstoned |};
  Ok (Some a, None).

Definition matches_observation (record : OperationalStateRecord) (o : ReconciliationObservation) : bool :=
  negb (osr_tombstoned record) && bool_decide (Some (osr_lifecycle record) = obs_lifecycle o) &&
  String.eqb (osr_payload_sha256 record) (obs_payload_sha256 o).

(** [selected.lifecycle_state or "unknown"] *)
Definition observed_lifecycle (o : ReconciliationObservation) : string :=
  match obs_lifecycle o with Some s => if str_empty s then "unknown" else s | None => "unknown" end.

(** The candidates agree: what follows from the first of them and their sources. *)
Definition settle (key : string * string) (record : option OperationalStateRecord) (selected : ReconciliationObservation)
    (sources : list StateSourceReference) : result finding :=
  if negb (obs_exists selected) then
    match record with
    | None => Ok (None, None)
    | Some r =>
        if osr_tombstoned r && bool_decide (osr_sources r = sources) then Ok (None, None)
        else act "tombstone" "verified-absent" key (Some (osr_generation r)) "absent" "{}" (sha256 "{}") sources true
    end
  else
    match record with
    | None => act "create" "source-rebuild" key None (observed_lifecycle selected) (obs_payload_json selected)
                (obs_payload_sha256 selected) sources false
    | Some r =>
        let matches := matches_observation r selected in
        if matches && String.eqb (osr_verification r) "verified" && bool_decide (osr_sources r = sources) then Ok (None, None)
        else act (if matches then "verify" else "replace") (if matches then "source-verified" else "source-reconciled") key
               (Some (osr_generation r)) (observed_lifecycle selected) (obs_payload_json selected) (obs_payload_sha256 selected)
               sources false
    end.

Definition plan_key (now maximum_age : Z) (records : list OperationalStateRecord) (ordered : list ReconciliationObservation)
    (key : string * string) : result finding :=
  let record := local_record records key in
  match grouped ordered key with
  | [] =>
      match record with
      | Some r => distrusted key record "missing-reality" "no fresh source accounted for local state"
      | None => Ok (None, None)
      end
  | (selected :: _) as candidates =>
      invalid_code ← fold_result (distrust now maximum_age) candidates None;
      match invalid_code with
      | Some code => distrusted key record code "source facts cannot safely qualify local state"
      | None =>
          if existsb (fun o => negb (bool_decide (state_signature o = state_signature selected))) candidates then
            distrusted key record "source-conflict" "fresh verified sources disagree about state"
          else
            sources ← map_result source_reference candidates;
            settle key record selected (sorted_by identity sources)
      end
  end.

Definition plan (snapshot : StateSnapshot) (observations : list ReconciliationObservation) (maximum_age now : Z)
    (reconciliation_id : string) : result ReconciliationPlan :=
  raise_if (negb ((1 <=? maximum_age) && (maximum_age <=? SAFE_INTEGER_MAX)))
    (ValueError "maximum observation age must be a positive safe integer");;
  let ordered := sorted_by observation_order observations in
  raise_if (has_duplicates ((fun o => (obs_key o, source_identity o)) <$> ordered))
    (StateModelError "reconciliation observations duplicate a source identity for one record");;
  documents ← map_result observation_to_dict ordered;
  observation_digest ← digest_of (JArr documents);
  findings ← map_result (plan_key now maximum_age (snap_records snapshot) ordered) (planned_keys (snap_records snapshot) ordered);
  let actions := omap fst findings in
  let issues := omap snd findings in
  build_reconciliation_plan reconciliation_id (snap_digest snapshot) observation_digest (rfc3339 now) maximum_age actions issues
    (negb (existsb iss_blocking issues)).

(** ** The service *)

Record DurableStateService := { svc_store : LocalStateStore; svc_maximum_age : Z }.

Definition open_service (store : LocalStateStore) (maximum_age : Z) : result DurableStateService :=
  raise_if (negb ((1 <=? maximum_age) && (maximum_age <=? SAFE_INTEGER_MAX)))
    (ValueError "maximum observation age must be a positive safe integer");;
  Ok {| svc_store := store; svc_maximum_age := maximum_age |}.

Definition plan_reconciliation (self : DurableStateService) (observations : list ReconciliationObservation)
    (read_at planned_at : Z) (reconciliation_id : string) (t : tables) : result ReconciliationPlan :=
  snap ← snapshot (svc_store self) read_at t;
  plan snap observations (svc_maximum_age self) planned_at reconciliation_id.

Definition reconcile (self : DurableStateService) (observations : list ReconciliationObservation)
    (read_at planned_at reread_at applied_at : Z) (reconciliation_id : string) : eff tables ReconciliationReport :=
  p ← reading (plan_reconciliation self observations read_at planned_at reconciliation_id);
  apply_reconciliation (svc_store self) p reread_at applied_at.
End Reconciler.
