(* ===== verification/StateConvergence.v ===== *)
(** * Reconciliation makes the store agree with the world

    [reconciled]: after a reconciliation that reports ready, every record of the store
    is what verified, fresh and unanimous observations say; [converged]: planning
    again over the same observations leaves nothing to do. *)

From S2P Require Export StateReconciler.
Import State.

Lemma decw_digits w z : str_forallb identifier_char (decw w z) = true.
Proof.
  induction w as [|w IH]; [done|]. cbn [decw str_forallb]. destruct (digit_char (z / 10 ^ Z.of_nat w)) as [Hd _].
  unfold identifier_char at 1. by rewrite Hd, orb_true_r, IH.
Qed.

Lemma stamp_clean `{PyTables} t : clean (JStr (rfc3339 t)).
Proof.
  apply identifier_clean. unfold rfc3339. destruct (civil_from_days _) as [[y mo] d].
  by rewrite !str_forallb_app, !decw_digits.
Qed.

Lemma opid_clean `{PyTables} id : fullmatch OPERATIONAL_ID_PATTERN id = true -> clean (JStr id).
Proof. apply pattern_clean. by vm_compute. Qed.

Lemma omap_none {A B} (f : A -> option B) l : omap f l = [] <-> Forall (fun x => f x = None) l.
Proof.
  induction l as [|x l IH]; cbn; [split; auto|]. rewrite Forall_cons, <- IH. destruct (f x); naive_solver.
Qed.

Section Convergence.
Context `{JCSLaws} `{PyTables}.

(** ** What qualifies a record *)

(** An observation from a source entitled to it, verified, and recent at [now]. *)
Record qualified (now maximum_age : Z) (o : ReconciliationObservation) : Prop := {
  qualified_source : obs_source_kind o ∈ _ALLOWED_RECONCILIATION_SOURCES (obs_kind o);
  qualified_verified : obs_verified o = true;
  qualified_recent : exists observed, stored_timestamp (obs_observed_at o) = Ok observed /\
    observed <= now + five_minutes /\ now - observed <= maximum_age * 1000000
}.

(** The observations of one key qualify, and agree with the first of them. *)
Record unanimous (now maximum_age : Z) (selected : ReconciliationObservation) (candidates : list ReconciliationObservation) : Prop := {
  unanimous_first : head candidates = Some selected;
  unanimous_qualified : Forall (qualified now maximum_age) candidates;
  unanimous_agree : Forall (fun o => state_signature o = state_signature selected) candidates
}.

Lemma distrust_some now age c o r : distrust now age (Some c) o = Ok r -> exists c', r = Some c'.
Proof.
  unfold distrust, coalesce_str. intros Hd.
  assert (forall code, exists c', (if str_empty c then Some code else Some c) = Some c') as Hk by (intros code; destruct (str_empty c); eauto).
  destruct (negb (mem _ _)); [injection Hd as <-; apply Hk|]. destruct (negb (obs_verified o)); [injection Hd as <-; apply Hk|].
  apply bind_ok in Hd as (z & _ & Hd). apply bind_unit_ok in Hd as [_ Hd].
  destruct (_ <? z); [injection Hd as <-; apply Hk|]. destruct (_ <? now - z); injection Hd as <-; [apply Hk|eauto].
Qed.

Lemma distrust_none now age o : distrust now age None o = Ok None <-> qualified now age o /\ now + five_minutes <= max_instant.
Proof.
  unfold distrust, coalesce_str. split.
  - intros Hd. destruct (mem _ _) eqn:Em; cbn [negb] in Hd; [|done]. destruct (obs_verified o) eqn:Ev; cbn [negb] in Hd; [|done].
    apply bind_ok in Hd as (z & Hz & Hd). apply bind_unit_ok in Hd as [Hm Hd]. apply raise_if_ok in Hm.
    destruct (_ <? z) eqn:E1; [done|]. destruct (_ <? now - z) eqn:E2; [done|].
    split; [|lia]. constructor; [by apply mem_spec|done|]. exists z. split; [done|]. lia.
  - intros [[Hs%mem_spec Hv (z & Hz & H3 & H4)] Hm]. rewrite Hs, Hv, Hz. cbn [negb mbind result_bind].
    assert ((max_instant <? now + five_minutes) = false) as -> by lia. cbn [raise_if mbind result_bind].
    assert ((now + five_minutes <? z) = false) as -> by lia. assert ((age * 1000000 <? now - z) = false) as -> by lia. done.
Qed.

Lemma distrust_fold_some now age l c r : fold_result (distrust now age) l (Some c) = Ok r -> exists c', r = Some c'.
Proof.
  revert c. induction l as [|o l IH]; intros c; cbn; [intros [= <-]; eauto|].
  intros (r' & Hr & Hl)%bind_ok. apply distrust_some in Hr as [c' ->]. eauto.
Qed.

Lemma distrust_fold now age l :
  fold_result (distrust now age) l None = Ok None <-> Forall (fun o => qualified now age o /\ now + five_minutes <= max_instant) l.
Proof.
  induction l as [|o l IH]; cbn; [split; auto|]. rewrite Forall_cons, <- IH, <- distrust_none, bind_ok. split.
  - intros (r & Hr & Hl). destruct r as [c|]; [|done]. apply distrust_fold_some in Hl as [? ?]. done.
  - intros [Hr Hl]. eauto.
Qed.

(** ** The plan of one key *)

Lemma quarantine_some record code oa : _quarantine record code = Ok oa -> forall a, oa = Some a -> act_key a = osr_key record.
Proof. unfold _quarantine. intros Hq a ->. destruct (_ && _); [done|]. apply bind_ok in Hq as (a' & Ha & [= <-]). by apply construct_ok in Ha as [_ ->]. Qed.

Lemma local_record_key records key r : local_record records key = Some r -> osr_key r = key /\ r ∈ records.
Proof.
  unfold local_record. intros Hr. apply last_Some in Hr as [l Hl].
  assert (r ∈ List.filter (fun r => bool_decide (osr_key r = key)) records) as Hin by (rewrite Hl; set_solver).
  apply elem_of_lfilter in Hin as [Hin Hk%bool_decide_eq_true]. done.
Qed.

Lemma distrusted_issue key record code detail f : distrusted key record code detail = Ok f -> exists i, f.2 = Some i /\ iss_blocking i = true.
Proof.
  unfold distrusted. intros Hd. apply bind_ok in Hd as (i & Hi & Hd). apply bind_ok in Hd as (oa & _ & [= <-]).
  apply construct_ok in Hi as [_ ->]. eauto.
Qed.

Lemma plan_key_action now age records ordered key f a :
  plan_key now age records ordered key = Ok f -> f.1 = Some a -> act_key a = key.
Proof.
  assert (forall record code detail, local_record records key = record -> distrusted key record code detail = Ok f -> f.1 = Some a -> act_key a = key) as Hdis.
  { intros record code detail Hr Hd Hf. unfold distrusted in Hd. apply bind_ok in Hd as (i & _ & Hd). apply bind_ok in Hd as (oa & Ho & [= <-]).
    cbn in Hf. subst oa. destruct record as [r|]; [|done]. apply local_record_key in Hr as [<- _]. by eapply quarantine_some. }
  assert (forall action reason expected lifecycle pj ps sources tomb, act action reason key expected lifecycle pj ps sources tomb = Ok f -> f.1 = Some a -> act_key a = key) as Hact.
  { intros. unfold act in *. match goal with Hx : mbind _ _ = Ok f |- _ => apply bind_ok in Hx as (a' & Ha & [= <-]) end.
    apply construct_ok in Ha as [_ ->]. cbn in *. simplify_eq. by destruct key. }
  unfold plan_key. destruct (grouped ordered key) as [|selected rest].
  - destruct (local_record records key) eqn:E; [by apply Hdis|]. by intros [= <-].
  - intros Hp. apply bind_ok in Hp as ([code|] & _ & Hp); [revert Hp; by apply Hdis|].
    destruct (existsb _ _); [revert Hp; by apply Hdis|]. apply bind_ok in Hp as (sources & _ & Hp). unfold settle in Hp.
    destruct (local_record records key) as [r|]; destruct (negb (obs_exists selected)).
    all: try (destruct (_ && _); [by injection Hp as <-|]). all: try (by injection Hp as <-). all: by eapply Hact.
Qed.

(** What a record is that the sources of its key account for. *)
Record accounted (selected : ReconciliationObservation) (sources : list StateSourceReference) (r : OperationalStateRecord) : Prop := {
  accounted_verified : osr_verification r = "verified";
  accounted_sources : osr_sources r = sources;
  accounted_state : if obs_exists selected
    then osr_tombstoned r = false /\ Some (osr_lifecycle r) = obs_lifecycle selected /\ osr_payload_sha256 r = obs_payload_sha256 selected
    else osr_tombstoned r = true
}.

Definition sources_of (candidates : list ReconciliationObservation) (sources : list StateSourceReference) : Prop :=
  exists l, map_result source_reference candidates = Ok l /\ sources = sorted_by identity l.

Lemma plan_key_clear now age records ordered key f :
  plan_key now age records ordered key = Ok f -> f.2 = None ->
  (grouped ordered key = [] /\ local_record records key = None /\ f.1 = None) \/
  exists selected sources, unanimous now age selected (grouped ordered key) /\ sources_of (grouped ordered key) sources /\
    now + five_minutes <= max_instant /\ settle key (local_record records key) selected sources = Ok f.
Proof.
  assert (forall record code detail, distrusted key record code detail = Ok f -> f.2 <> None) as Hdis.
  { intros record code detail (i & Hi & _)%distrusted_issue. congruence. }
  unfold plan_key. intros Hp Hf. destruct (grouped ordered key) as [|selected rest].
  - destruct (local_record records key); [by apply Hdis in Hp|]. injection Hp as <-. by left.
  - right. apply bind_ok in Hp as ([code|] & Hq & Hp); [by apply Hdis in Hp|]. apply distrust_fold in Hq.
    destruct (existsb _ _) eqn:Es; [by apply Hdis in Hp|]. apply bind_ok in Hp as (l & Hl & Hp).
    exists selected, (sorted_by identity l). split_and!; [|exists l; split; [exact Hl|reflexivity]|by apply Forall_cons in Hq as [[_ ?] _]|done].
    constructor; [done| |].
    + eapply Forall_impl; [exact Hq|]. by intros o [Ho _].
    + rewrite existsb_false, Forall_forall in Es. apply Forall_forall. intros o Ho. specialize (Es o Ho). cbn in Es. bool_simp. done.
Qed.

(** ** What the settlement of a key leaves *)

Lemma tombstone_verified r : valid r -> osr_tombstoned r = true -> osr_verification r = "verified".
Proof.
  unfold valid, post_init, OperationalStateRecord_post_init. intros Hv Ht. ok_inv. rewrite Ht in *. cbn [andb] in *. bool_simp. done.
Qed.

Lemma observed_token o : valid o -> obs_exists o = true -> obs_lifecycle o = Some (observed_lifecycle o).
Proof.
  unfold valid, post_init, ReconciliationObservation_post_init. intros Hv He. rewrite He in Hv. apply bind_unit_ok in Hv as [_ Hv].
  apply bind_ok in Hv as (payload & _ & Hv). apply bind_unit_ok in Hv as [Hl _]. unfold observed_lifecycle.
  destruct (obs_lifecycle o) as [s|]; [|done]. unfold _require_token, require_token in Hl. apply raise_if_ok in Hl.
  destruct s as [|c s]; [by vm_compute in Hl|done].
Qed.

(** The record of a key after its action, if it has one. *)
Definition outcome (stamp : string) (oa : option ReconciliationAction) (record : option OperationalStateRecord) : option OperationalStateRecord :=
  match oa with Some a => Some (next_record stamp (action_mutation a) record) | None => record end.

Lemma settle_outcome key record selected sources f stamp :
  settle key record selected sources = Ok f -> valid selected -> (forall r, record = Some r -> valid r) ->
  match outcome stamp f.1 record with
  | Some r => accounted selected sources r
  | None => obs_exists selected = false
  end.
Proof.
  intros Hs Hv Hr. unfold settle in Hs. destruct (obs_exists selected) eqn:Ee; cbn [negb] in Hs.
  - pose proof (observed_token selected Hv Ee) as Hl. destruct record as [r|].
    + destruct (_ && _) eqn:Em.
      * injection Hs as <-. cbn. unfold matches_observation in Em. rewrite !andb_true_iff in Em. destruct Em as [[[[Ht Hlc] Hp] Hver] Hso].
        bool_simp. constructor; [done|done|]. by rewrite Ee.
      * unfold act in Hs. apply bind_ok in Hs as (a & Ha & [= <-]). apply construct_ok in Ha as [_ ->]. cbn.
        constructor; cbn; [done|done|]. by rewrite Ee.
    + unfold act in Hs. apply bind_ok in Hs as (a & Ha & [= <-]). apply construct_ok in Ha as [_ ->]. cbn.
      constructor; cbn; [done|done|]. by rewrite Ee.
  - destruct record as [r|]; [|by injection Hs as <-]. destruct (_ && _) eqn:Em.
    + injection Hs as <-. cbn. apply andb_true_iff in Em as [Ht Hso]. apply bool_decide_eq_true in Hso.
      constructor; [by apply tombstone_verified; [apply Hr|]|done|]. by rewrite Ee.
    + unfold act in Hs. apply bind_ok in Hs as (a & Ha & [= <-]). apply construct_ok in Ha as [_ ->]. cbn.
      constructor; cbn; [done|done|]. by rewrite Ee.
Qed.

(** Nothing is left to do for a record that is accounted for. *)
Lemma settle_idle key record selected sources :
  match record with Some r => accounted selected sources r | None => obs_exists selected = false end ->
  settle key record selected sources = Ok (None, None).
Proof.
  unfold settle, matches_observation. destruct record as [r|]; [|by intros ->]. intros [Hv Hs Ha]. destruct (obs_exists selected); cbn [negb].
  - destruct Ha as (-> & Hl & ->). by rewrite Hl, Hv, Hs, !bool_decide_eq_true_2, !String.eqb_refl by done.
  - by rewrite Ha, Hs, bool_decide_eq_true_2 by done.
Qed.

(** ** The records of a snapshot are the records of the store *)

Lemma stored_record_at t records r :
  stored_records t = Ok records -> r ∈ records <-> record_at t (osr_key r) = Some r.
Proof.
  intros Hs%map_result_ok. unfold record_at, current_record. split.
  - intros Hr. apply list_elem_of_lookup in Hr as [i Hi]. destruct (Forall2_lookup_r _ _ _ _ _ Hs Hi) as ([key cells] & Hrow & Hfrom).
    pose proof (record_from_row_key _ _ Hfrom) as [_ ->]. cbn [fst].
    apply list_elem_of_lookup_2 in Hrow. unfold select_records in Hrow. rewrite elem_of_sorted_by, elem_of_map_to_list in Hrow.
    by rewrite Hrow, Hfrom.
  - destruct (t_records t !! osr_key r) as [cells|] eqn:E; [|done]. destruct (_record_from_row _) as [r'|] eqn:Hfrom; [|done]. intros [= ->].
    assert ((osr_key r, cells) ∈ select_records t) as Hin.
    { unfold select_records. by rewrite elem_of_sorted_by, elem_of_map_to_list. }
    apply list_elem_of_lookup in Hin as [i Hi]. destruct (Forall2_lookup_l _ _ _ _ _ Hs Hi) as (r' & Hr' & Hfrom').
    rewrite Hfrom in Hfrom'. injection Hfrom' as <-. by eapply list_elem_of_lookup_2.
Qed.

Lemma record_at_key t key r : record_at t key = Some r -> osr_key r = key /\ valid r.
Proof.
  unfold record_at, current_record. destruct (t_records t !! key); [|done]. destruct (_record_from_row _) eqn:E; [|done].
  intros [= <-]. by apply record_from_row_key in E as [].
Qed.

Lemma local_record_at t records key : stored_records t = Ok records -> local_record records key = record_at t key.
Proof.
  intros Hs. destruct (local_record records key) as [r|] eqn:El.
  - apply local_record_key in El as [<- Hr]. symmetry. by apply (stored_record_at t records).
  - destruct (record_at t key) as [r|] eqn:Er; [|done]. pose proof (record_at_key _ _ _ Er) as [<- _].
    apply (stored_record_at t records) in Er; [|done]. unfold local_record in El. apply last_None in El.
    assert (r ∈ List.filter (fun r' => bool_decide (osr_key r' = osr_key r)) records) as Hin.
    { apply elem_of_lfilter. split; [done|]. by apply bool_decide_eq_true. }
    rewrite El in Hin. by apply elem_of_nil in Hin.
Qed.

(** ** Plans are built from constructed parts *)

Lemma map_result_forall {A B} (f : A -> result B) (P : B -> Prop) l k :
  map_result f l = Ok k -> (forall x y, x ∈ l -> f x = Ok y -> P y) -> Forall P k.
Proof.
  intros Hm%map_result_ok Hf. induction Hm as [|x y l k Hxy _ IH]; constructor.
  - apply (Hf x); [left|done].
  - apply IH. intros x' y' Hx. apply Hf. by right.
Qed.

Lemma decode_source_valid item s : decode_source item = Ok s -> valid s.
Proof. unfold decode_source. destruct item; try done. intros Hd. ok_inv. by apply construct_ok in Hd as [Hv ->]. Qed.

Lemma stored_typed t records : stored_records t = Ok records -> Forall (fun r => valid r /\ Forall valid (osr_sources r)) records.
Proof.
  intros Hs. eapply map_result_forall; [exact Hs|]. intros [[kind id] cells] r _ Hr. cbn in Hr.
  apply bind_ok in Hr as (sources & Hd & Hr). apply construct_ok in Hr as [Hv ->]. split; [done|]. cbn.
  unfold _decode_sources in Hd. apply bind_ok in Hd as (parsed & _ & Hd). destruct parsed as [| | | | |items|]; try done.
  apply bind_ok in Hd as (text & _ & Hd). apply bind_unit_ok in Hd as [_ Hd]. unfold wraps in Hd.
  destruct (map_result decode_source items) as [l|] eqn:El; [|done]. injection Hd as ->.
  eapply map_result_forall; [exact El|]. intros x y _. apply decode_source_valid.
Qed.

Definition finding_typed (f : finding) : Prop :=
  (forall a, f.1 = Some a -> action_typed a) /\ (forall i, f.2 = Some i -> valid i).

Lemma distrusted_typed key record code detail f :
  (forall r, record = Some r -> Forall valid (osr_sources r)) -> distrusted key record code detail = Ok f -> finding_typed f.
Proof.
  intros Hr Hd. unfold distrusted in Hd. apply bind_ok in Hd as (i & Hi & Hd). apply bind_ok in Hd as (oa & Ho & [= <-]).
  apply construct_ok in Hi as [Hi ->]. split; cbn; [|by intros ? [= <-]]. intros a ->.
  destruct record as [r|]; [|done]. unfold _quarantine in Ho. destruct (_ && _); [done|].
  apply bind_ok in Ho as (a' & Ha & [= ->]). apply construct_ok in Ha as [Ha ->]. split; [done|]. by apply Hr.
Qed.

Lemma act_typed action reason key expected lifecycle pj ps sources tomb f :
  Forall valid sources -> act action reason key expected lifecycle pj ps sources tomb = Ok f -> finding_typed f.
Proof.
  intros Hs Ha. unfold act in Ha. apply bind_ok in Ha as (a & Ha & [= <-]). apply construct_ok in Ha as [Ha ->].
  split; cbn; [|done]. by intros ? [= <-].
Qed.

Lemma plan_key_typed now age records ordered key f :
  Forall (fun r => valid r /\ Forall valid (osr_sources r)) records -> plan_key now age records ordered key = Ok f -> finding_typed f.
Proof.
  intros Hr. assert (forall r, local_record records key = Some r -> Forall valid (osr_sources r)) as Hl.
  { intros r [_ Hin]%local_record_key. rewrite Forall_forall in Hr. by apply Hr. }
  unfold plan_key. destruct (grouped ordered key) as [|selected rest].
  - destruct (local_record records key) as [r|]; [by apply distrusted_typed|]. by intros [= <-].
  - intros Hp. apply bind_ok in Hp as ([code|] & _ & Hp); [by eapply distrusted_typed|].
    destruct (existsb _ _); [by eapply distrusted_typed|]. apply bind_ok in Hp as (l & Hsrc & Hp).
    assert (Forall valid (sorted_by identity l)) as Hv.
    { apply Forall_sorted_by. eapply map_result_forall; [exact Hsrc|]. intros o s _ Ho. unfold source_reference in Ho.
      by apply construct_ok in Ho as [Ho ->]. }
    unfold settle in Hp. destruct (local_record records key) as [r|]; destruct (negb (obs_exists selected)).
    all: try (destruct (_ && _); [by injection Hp as <-|]). all: try (by injection Hp as <-). all: by eapply act_typed.
Qed.

(** A plan that was built, taken apart. *)
Record planned (snap : StateSnapshot) (observations : list ReconciliationObservation) (age now : Z) (id : string)
    (p : ReconciliationPlan) (findings : list finding) : Prop := {
  planned_findings : Forall2 (fun key f => plan_key now age (snap_records snap) (sorted_by observation_order observations) key = Ok f)
    (planned_keys (snap_records snap) (sorted_by observation_order observations)) findings;
  planned_valid : valid p;
  planned_id : plan_id p = id;
  planned_actions : plan_actions p = sorted_by act_key (omap fst findings);
  planned_issues : plan_issues p = sorted_by iss_key (omap snd findings);
  planned_ready : plan_ready_after_apply p = negb (existsb iss_blocking (omap snd findings))
}.

Lemma plan_planned snap observations age now id p :
  plan snap observations age now id = Ok p -> exists findings, planned snap observations age now id p findings.
Proof.
  unfold plan. intros Hp. apply bind_unit_ok in Hp as [_ Hp]. apply bind_unit_ok in Hp as [_ Hp]. apply bind_ok in Hp as (docs & _ & Hp).
  apply bind_ok in Hp as (digest & _ & Hp). apply bind_ok in Hp as (findings & Hf & Hp). apply map_result_ok in Hf.
  unfold build_reconciliation_plan in Hp. apply bind_ok in Hp as (d & _ & Hp). apply construct_ok in Hp as [Hv ->].
  exists findings. constructor; done.
Qed.

Lemma omap_forall {A B} (f : A -> option B) (P : B -> Prop) l : Forall (fun x => forall y, f x = Some y -> P y) l -> Forall P (omap f l).
Proof. intros Hl. apply Forall_forall. intros y (x & Hx & Hf)%list_elem_of_omap. rewrite Forall_forall in Hl. by eapply Hl. Qed.

Lemma planned_typed snap observations age now id p findings :
  Forall (fun r => valid r /\ Forall valid (osr_sources r)) (snap_records snap) -> planned snap observations age now id p findings -> plan_typed p.
Proof.
  intros Hr [Hf Hv _ Ea Ei _]. assert (Forall finding_typed findings) as Hft.
  { clear -H1 H2 Hf Hr. induction Hf; constructor; [|done]. by eapply plan_key_typed. }
  constructor; [done| |].
  - rewrite Ea. apply Forall_sorted_by, omap_forall. eapply Forall_impl; [exact Hft|]. by intros f [Hfa _].
  - rewrite Ei. apply Forall_sorted_by, omap_forall. eapply Forall_impl; [exact Hft|]. by intros f [_ Hfi].
Qed.

(** ** A reconciliation that reports ready *)

Lemma apply_reconciliation_ok self p read_at T' t report t' :
  apply_reconciliation self p read_at T' t = (Ok report, t') -> reconciliation_transaction self p read_at T' t = Ok (report, t').
Proof.
  unfold apply_reconciliation. intros Ha. apply eff_bind_ok in Ha as (u & t1 & [_ ->]%lift_ok & Ha). unfold transaction in Ha.
  destruct (reconciliation_transaction _ _ _ _ _) as [[r t2]|]; [by injection Ha as -> ->|done].
Qed.

Lemma plan_keys_distinct p : valid p -> NoDup (act_key <$> plan_actions p).
Proof.
  unfold valid, post_init, ReconciliationPlan_post_init. intros Hv. ok_inv. by bool_simp.
Qed.

(** A snapshot that builds builds at any time. *)
Lemma state_stamp label u : min_instant <= u <= max_instant -> State._parse_timestamp label (rfc3339 u) = Ok (ms_floor u).
Proof.
  intros Hu. pose proof (stored_stamp u Hu) as Hs. unfold stored_timestamp in Hs. unfold State._parse_timestamp.
  destruct (iso_parse (rfc3339 u)) as [d|]; [|done]. apply bind_unit_ok in Hs as [Ha Hs]. apply raise_if_ok in Ha. rewrite Ha.
  apply bind_unit_ok in Hs as [Hb Hs]. apply raise_if_ok in Hb. cbn [raise_if mbind result_bind]. by rewrite Hb.
Qed.

Lemma snapshot_later self observed_at t s u :
  _snapshot_locked self observed_at t = Ok s -> min_instant <= u <= max_instant ->
  exists s', _snapshot_locked self (rfc3339 u) t = Ok s' /\ snap_records s' = snap_records s /\ snap_digest s' = snap_digest s.
Proof.
  unfold _snapshot_locked. intros Hs Hu. apply bind_ok in Hs as (records & -> & Hs). apply bind_ok in Hs as (store_id & -> & Hs).
  apply bind_ok in Hs as (epoch & -> & Hs). apply bind_ok in Hs as (admission & -> & Hs). cbn [mbind result_bind].
  unfold build_snapshot in *. apply bind_ok in Hs as (d & -> & Hs). apply construct_ok in Hs as [Hv ->]. cbn [mbind result_bind].
  eexists. split; [apply construct_valid|split; reflexivity]. unfold valid, post_init, StateSnapshot_post_init in Hv |- *.
  cbn [snap_store_id snap_schema_version snap_epoch snap_admission snap_prior_shutdown snap_observed_at snap_records snap_digest] in *.
  do 6 (apply bind_unit_ok in Hv as [-> Hv]; cbn [mbind result_bind]). apply bind_ok in Hv as (z & _ & Hv).
  rewrite state_stamp by done. exact Hv.
Qed.

(** What a plan takes from its observations alone. *)
Record inputs_ok (observations : list ReconciliationObservation) (age : Z) (digest : string) : Prop := {
  inputs_age : 1 <= age <= SAFE_INTEGER_MAX;
  inputs_distinct : has_duplicates ((fun o => (obs_key o, source_identity o)) <$> sorted_by observation_order observations) = false;
  inputs_digest : exists docs, map_result observation_to_dict (sorted_by observation_order observations) = Ok docs /\
    digest_of (JArr docs) = Ok digest
}.
Lemma plan_inputs snap observations age now id p :
  plan snap observations age now id = Ok p -> exists digest, inputs_ok observations age digest.
Proof.
  unfold plan. intros Hp. apply bind_unit_ok in Hp as [Ha Hp]. apply bind_unit_ok in Hp as [Hd Hp]. apply raise_if_ok in Ha, Hd.
  apply bind_ok in Hp as (docs & Hdocs & Hp). apply bind_ok in Hp as (digest & Hdigest & _). exists digest. constructor; [lia|done|eauto].
Qed.

Lemma digest_pattern v d : digest_of v = Ok d -> fullmatch SHA256_PATTERN d = true.
Proof. unfold digest_of. intros Hd. apply bind_ok in Hd as (text & _ & [= <-]). apply fullmatch_sha. Qed.

(** A plan with nothing in it always builds. *)
Lemma empty_plan_total id snapshot_digest digest now age :
  fullmatch OPERATIONAL_ID_PATTERN id = true -> str_startswith id RECONCILIATION_ID = true ->
  fullmatch SHA256_PATTERN snapshot_digest = true -> fullmatch SHA256_PATTERN digest = true ->
  min_instant <= now <= max_instant -> 1 <= age <= SAFE_INTEGER_MAX ->
  exists p, build_reconciliation_plan id snapshot_digest digest (rfc3339 now) age [] [] true = Ok p /\
    plan_actions p = [] /\ plan_issues p = [] /\ plan_ready_after_apply p = true.
Proof.
  intros Hi Hn Hs Hd Hnow Hage. unfold build_reconciliation_plan. cbn [sorted_by foldr].
  assert (exists d, reconciliation_plan_digest id snapshot_digest digest (rfc3339 now) age [] [] true = Ok d /\ fullmatch SHA256_PATTERN d = true)
    as (d & Hpd & Hpat).
  { unfold reconciliation_plan_digest. cbn [map_result mbind result_bind fmap list_fmap]. unfold digest_of. set (doc := JObj _).
    assert (clean doc) as Hc.
    { unfold doc. clean_object; eauto with clean; try (by constructor).
      - constructor. unfold SAFE_INTEGER_MAX in *. lia.
      - by apply opid_clean.
      - apply stamp_clean. }
    assert (plain doc) as Hp.
    { unfold doc. plain_object; repeat constructor. all: unfold SAFE_INTEGER_MAX in *; lia. }
    destruct (dumps_total doc Hp) as (text & Ht). rewrite (canonical_json_intro doc text Hc Ht). cbn. eexists. split; [reflexivity|]. apply fullmatch_sha. }
  rewrite Hpd. cbn [mbind result_bind]. eexists. split; [apply construct_valid|split_and!; reflexivity].
  unfold valid, post_init, ReconciliationPlan_post_init, _require_sha256, require_sha256, _require_safe_integer.
  cbn [plan_id plan_snapshot_digest plan_observation_digest plan_planned_at plan_maximum_age plan_actions plan_issues plan_ready_after_apply plan_digest].
  rewrite Hi, Hn, Hs, Hd, Hpat, Hpd, state_stamp by done. cbn [negb raise_if mbind result_bind].
  assert ((1 <=? age) && (age <=? SAFE_INTEGER_MAX) = true) as -> by lia. cbn. by rewrite String.eqb_refl.
Qed.

(** The runs of one reconciliation that reports ready, over a well-formed store. *)
Section Ready.
Context (T T' : Z) (m : meta) (t t' : tables) (self : DurableStateService) (observations : list ReconciliationObservation).
Context (read_at planned_at reread_at : Z) (id : string) (report : ReconciliationReport).
Context (Hs : store_ok T m t) (HT : T <= T') (Hr : min_instant <= T' <= max_instant).
Context (Hobs : Forall valid observations) (Hid : t_runs t !! id = None).
Context (Hrec : reconcile self observations read_at planned_at reread_at T' id t = (Ok report, t')).
Context (Hready : rpt_status report = "ready").
Let ordered : list ReconciliationObservation := sorted_by observation_order observations.

Lemma ready_parts : exists records findings p,
  stored_records t = Ok records /\ plan_id p = id /\
  Forall2 (fun key f => plan_key planned_at (svc_maximum_age self) records ordered key = Ok f) (planned_keys records ordered) findings /\
  Forall (fun f : finding => f.2 = None) findings /\ plan_typed p /\ plan_actions p = sorted_by act_key (omap fst findings) /\
  reconciliation_committed (svc_store self) p report T' m t t'.
Proof.
  unfold reconcile in Hrec. apply eff_bind_ok in Hrec as (p & t1 & Hp & Ha). unfold reading in Hp. injection Hp as Hp ->.
  unfold plan_reconciliation in Hp. apply bind_ok in Hp as (snap & Hsn & Hp). unfold snapshot in Hsn. apply bind_unit_ok in Hsn as [_ Hsn].
  destruct (snapshot_facts _ _ _ _ _ _ Hs Hsn) as (_ & _ & _ & _ & Hrecords & _). apply plan_planned in Hp as [findings Hpl].
  pose proof (planned_typed _ _ _ _ _ _ _ (stored_typed _ _ Hrecords) Hpl) as Hty. destruct Hpl as [Hf Hpv Hpid Hpa Hpi Hpr].
  apply apply_reconciliation_ok in Ha. eapply reconciliation_transaction_ok in Ha as [[_ (cells & Hc & _)]|[_ Hcom]]; [congruence| |done..].
  exists (snap_records snap), findings, p. split_and!; try done.
  pose proof (rec_report _ _ _ _ _ _ _ Hcom) as (_ & Hst & _). rewrite Hready in Hst. unfold resulting_status in Hst.
  rewrite Hpr in Hst. destruct (existsb iss_blocking (omap snd findings)) eqn:Eb; [done|]. apply existsb_false in Eb.
  apply Forall_forall. intros f Hin. destruct f.2 as [i|] eqn:Ei; [|done]. exfalso.
  assert (i ∈ omap snd findings) as Hi by (apply list_elem_of_omap; eauto). rewrite Forall_forall in Eb. apply Eb in Hi as Hb.
  apply list_elem_of_lookup in Hin as [k Hk]. destruct (Forall2_lookup_r _ _ _ _ _ Hf Hk) as (key & _ & Hkey).
  revert Hkey Ei Hb. clear. unfold plan_key. intros Hkey Ei Hb.
  assert (forall record code detail, distrusted key record code detail = Ok f -> False) as Hdis.
  { intros record code detail (i' & Hi' & Hb')%distrusted_issue. rewrite Ei in Hi'. injection Hi' as <-. congruence. }
  assert (forall action reason expected lifecycle pj ps sources tomb, act action reason key expected lifecycle pj ps sources tomb = Ok f -> False) as Hact.
  { intros. unfold act in *. match goal with Hx : mbind _ _ = Ok f |- _ => apply bind_ok in Hx as (a' & Ha & [= <-]) end. done. }
  destruct (grouped _ key) as [|selected rest].
  - destruct (local_record _ key); [by eapply Hdis|]. by injection Hkey as <-.
  - apply bind_ok in Hkey as ([code|] & _ & Hkey); [by eapply Hdis|]. destruct (existsb _ _); [by eapply Hdis|].
    apply bind_ok in Hkey as (l & _ & Hkey). unfold settle in Hkey.
    destruct (local_record _ key) as [r|]; destruct (negb (obs_exists selected)).
    all: try (destruct (_ && _); [by injection Hkey as <-|]). all: try (by injection Hkey as <-). all: by eapply Hact.
Qed.

(** The record of a planned key after the actions. *)
Lemma acted_record records findings p recs t1 key f :
  stored_records t = Ok records -> valid p ->
  Forall2 (fun key f => plan_key planned_at (svc_maximum_age self) records ordered key = Ok f) (planned_keys records ordered) findings ->
  plan_actions p = sorted_by act_key (omap fst findings) ->
  persists (plan_id p) (rfc3339 T') ((fun a => (action_mutation a, act_reason a)) <$> plan_actions p) t recs t1 ->
  plan_key planned_at (svc_maximum_age self) records ordered key = Ok f ->
  (key ∈ planned_keys records ordered \/ f.1 = None) ->
  record_at t1 key = outcome (rfc3339 T') f.1 (record_at t key).
Proof.
  intros Hrecords Hpv Hf Hpa Hps Hkey Hin. apply plan_keys_distinct in Hpv.
  destruct (persists_lookup _ _ _ _ _ _ Hps) as [Hother Hmine]; [by rewrite <- list_fmap_compose|].
  destruct f.1 as [a|] eqn:Ea.
  - destruct Hin as [Hin|]; [|done]. apply list_elem_of_lookup in Hin as [k Hk].
    destruct (Forall2_lookup_l _ _ _ _ _ Hf Hk) as (f' & Hf' & Hkey'). rewrite Hkey in Hkey'. injection Hkey' as <-.
    apply list_elem_of_lookup_2 in Hf'. pose proof (plan_key_action _ _ _ _ _ _ _ Hkey Ea) as Hak.
    destruct (Hmine (action_mutation a) (act_reason a)) as (current & Hc & _ & Hc' & _).
    { apply list_elem_of_fmap. exists a. split; [done|]. rewrite Hpa, elem_of_sorted_by. apply list_elem_of_omap. eauto. }
    change (mut_key (action_mutation a)) with (act_key a) in *. rewrite Hak in *. unfold record_at. by rewrite Hc, Hc'.
  - unfold record_at, current_record. cbn [outcome]. rewrite Hother; [done|]. rewrite <- list_fmap_compose.
    intros (a & -> & Ha)%list_elem_of_fmap. rewrite Hpa, elem_of_sorted_by in Ha. apply list_elem_of_omap in Ha as (f' & Hf' & Ha).
    apply list_elem_of_lookup in Hf' as [k Hk]. destruct (Forall2_lookup_r _ _ _ _ _ Hf Hk) as (key' & _ & Hkey').
    pose proof (plan_key_action _ _ _ _ _ _ _ Hkey' Ha) as Hak. cbn in Hkey. change (mut_key (action_mutation a)) with (act_key a) in Hkey.
    rewrite Hak, Hkey' in Hkey. injection Hkey as ->. congruence.
Qed.

(** What the store holds of every key. *)
Lemma ready_records key :
  match record_at t' key with
  | Some r => exists selected sources, unanimous planned_at (svc_maximum_age self) selected (grouped ordered key) /\
      sources_of (grouped ordered key) sources /\ accounted selected sources r
  | None => grouped ordered key = [] \/
      exists selected sources, unanimous planned_at (svc_maximum_age self) selected (grouped ordered key) /\
        sources_of (grouped ordered key) sources /\ obs_exists selected = false
  end.
Proof.
  destruct ready_parts as (records & findings & p & Hrecords & _ & Hf & Hclear & Hty & Hpa & [_ _ _ _ (recs & t1 & cells & Hps & _ & _ & _ & Ht')]).
  assert (record_at t' key = record_at t1 key) as -> by (rewrite Ht'; reflexivity).
  pose proof (local_record_at t records key Hrecords) as Hlocal.
  destruct (decide (key ∈ planned_keys records ordered)) as [Hin|Hout].
  - apply list_elem_of_lookup in Hin as Hin'. destruct Hin' as [k Hk]. destruct (Forall2_lookup_l _ _ _ _ _ Hf Hk) as (f & Hfk & Hkey).
    rewrite (acted_record records findings p recs t1 key f) by (try done; try apply Hty; by left).
    assert (f.2 = None) as Hf2 by (rewrite Forall_forall in Hclear; by apply Hclear, (list_elem_of_lookup_2 _ k)).
    destruct (plan_key_clear _ _ _ _ _ _ Hkey Hf2) as [(Hg & Hl & Ef)|(selected & sources & Hu & Hsrc & _ & Hset)].
    + rewrite Ef. cbn [outcome]. rewrite <- Hlocal, Hl. by left.
    + assert (valid selected) as Hv.
      { destruct Hu as [Hh _ _]. assert (selected ∈ grouped ordered key) as Hg by (destruct (grouped ordered key); [done|injection Hh as ->; left]).
        unfold grouped in Hg. apply elem_of_lfilter in Hg as [Hg _]. unfold ordered in Hg. rewrite elem_of_sorted_by in Hg.
        rewrite Forall_forall in Hobs. by apply Hobs. }
      rewrite Hlocal in Hset. pose proof (settle_outcome _ _ _ _ _ (rfc3339 T') Hset Hv ltac:(by intros r [_ ?]%record_at_key)) as Ho.
      destruct (outcome _ _ _); eauto 10.
  - unfold planned_keys in Hout. rewrite elem_of_sorted_by, elem_of_remove_dups, not_elem_of_app in Hout. destruct Hout as [Ho1 Ho2].
    assert (grouped ordered key = []) as Hg.
    { destruct (grouped ordered key) as [|o l] eqn:Eg; [done|]. exfalso. assert (o ∈ grouped ordered key) as Hin by (rewrite Eg; left).
      unfold grouped in Hin. apply elem_of_lfilter in Hin as [Hin <-%bool_decide_eq_true]. apply Ho2. by apply list_elem_of_fmap_2. }
    assert (record_at t key = None) as Hnone.
    { destruct (record_at t key) as [r|] eqn:Er; [|done]. exfalso. pose proof (record_at_key _ _ _ Er) as [<- _].
      apply (stored_record_at t records) in Er; [|done]. apply Ho1. by apply list_elem_of_fmap_2. }
    rewrite (acted_record records findings p recs t1 key (None, None)); try done; try apply Hty.
    + cbn. rewrite Hnone. by left.
    + unfold plan_key. by rewrite Hg, Hlocal, Hnone.
    + by right.
Qed.

(** ** Planning again *)

Context (read_again planned_again : Z) (id_again : string).
Context (Hread : min_instant <= read_again <= max_instant) (Hplanned : min_instant <= planned_again <= max_instant).
Context (Hsoon : planned_again + five_minutes <= max_instant).
Context (Hstill : Forall (qualified planned_again (svc_maximum_age self)) observations).
Context (Hnew : fullmatch OPERATIONAL_ID_PATTERN id_again = true /\ str_startswith id_again RECONCILIATION_ID = true).

Lemma still_grouped key : Forall (fun o => qualified planned_again (svc_maximum_age self) o /\ planned_again + five_minutes <= max_instant) (grouped ordered key).
Proof.
  apply Forall_forall. intros o Ho. unfold grouped in Ho. apply elem_of_lfilter in Ho as [Ho _]. unfold ordered in Ho.
  rewrite elem_of_sorted_by in Ho. rewrite Forall_forall in Hstill. split; [by apply Hstill|done].
Qed.

Lemma idle_key records key :
  stored_records t' = Ok records -> plan_key planned_again (svc_maximum_age self) records ordered key = Ok (None, None).
Proof.
  intros Hrecords. unfold plan_key. rewrite (local_record_at t' records key Hrecords). pose proof (ready_records key) as Hkey.
  assert (forall selected sources record, unanimous planned_at (svc_maximum_age self) selected (grouped ordered key) ->
    sources_of (grouped ordered key) sources ->
    match record with Some r => accounted selected sources r | None => obs_exists selected = false end ->
    match grouped ordered key with
    | [] => False
    | (selected :: _) as candidates =>
        fold_result (distrust planned_again (svc_maximum_age self)) candidates None = Ok None /\
        existsb (fun o => negb (bool_decide (state_signature o = state_signature selected))) candidates = false /\
        exists l, map_result source_reference candidates = Ok l /\ settle key record selected (sorted_by identity l) = Ok (None, None)
    end) as Hidle.
  { intros selected sources record [Hh _ Hag] (l & Hl & ->) Hacc. pose proof (still_grouped key) as Hq.
    destruct (grouped ordered key) as [|o rest]; [done|]. injection Hh as ->. split; [by apply distrust_fold|]. split.
    - apply existsb_false. eapply Forall_impl; [exact Hag|]. intros o Ho. cbn. by rewrite bool_decide_eq_true_2.
    - exists l. split; [done|]. by apply settle_idle. }
  destruct (record_at t' key) as [r|].
  - destruct Hkey as (selected & sources & Hu & Hsrc & Hacc). specialize (Hidle selected sources (Some r) Hu Hsrc Hacc).
    destruct (grouped ordered key) as [|o rest]; [done|]. destruct Hidle as (-> & -> & l & -> & Hset). exact Hset.
  - destruct Hkey as [->|(selected & sources & Hu & Hsrc & Hab)]; [done|]. specialize (Hidle selected sources None Hu Hsrc Hab).
    destruct (grouped ordered key) as [|o rest]; [done|]. destruct Hidle as (-> & -> & l & -> & Hset). exact Hset.
Qed.

Lemma planned_again_empty :
  exists p, plan_reconciliation self observations read_again planned_again id_again t' = Ok p /\
    plan_actions p = [] /\ plan_issues p = [] /\ plan_ready_after_apply p = true.
Proof.
  destruct ready_parts as (_ & _ & p0 & _ & _ & _ & _ & _ & _ & [_ Hs' [after Hafter] _ _]).
  destruct (snapshot_later _ _ _ _ _ Hafter Hread) as (snap & Hsnap & _ & _).
  destruct (snapshot_facts _ _ _ _ _ _ Hs' Hsnap) as (_ & _ & _ & _ & Hrecords & Hsd).
  assert (ls_closed (svc_store self) = false /\ exists digest, inputs_ok observations (svc_maximum_age self) digest) as [Hopen [digest Hin]].
  { unfold reconcile in Hrec. apply eff_bind_ok in Hrec as (p & t1 & Hp & _). unfold reading in Hp. injection Hp as Hp _.
    unfold plan_reconciliation in Hp. apply bind_ok in Hp as (s & Hsn & Hp). unfold snapshot, _ensure_open in Hsn. apply bind_unit_ok in Hsn as [Ho _].
    apply raise_if_ok in Ho. split; [done|]. by eapply plan_inputs. }
  destruct Hin as [Hage Hdist (docs & Hdocs & Hdigest)]. destruct Hnew as [Hi Hn].
  unfold plan_reconciliation, snapshot, _ensure_open. rewrite Hopen. cbn [raise_if mbind result_bind]. rewrite Hsnap. cbn [mbind result_bind].
  unfold plan. assert ((1 <=? svc_maximum_age self) && (svc_maximum_age self <=? SAFE_INTEGER_MAX) = true) as -> by lia.
  rewrite Hdist, Hdocs. cbn [negb raise_if mbind result_bind]. rewrite Hdigest. cbn [mbind result_bind].
  set (keys := planned_keys _ _).
  assert (map_result (plan_key planned_again (svc_maximum_age self) (snap_records snap) (sorted_by observation_order observations)) keys =
    Ok (replicate (length keys) (None, None))) as ->.
  { apply map_result_ok. clearbody keys. induction keys as [|key keys IH]; constructor; [|exact IH]. by apply idle_key. }
  cbn [mbind result_bind]. assert (omap fst (replicate (length keys) (None, None) : list finding) = []) as ->.
  { by apply omap_none, Forall_replicate. }
  assert (omap snd (replicate (length keys) (None, None) : list finding) = []) as -> by by apply omap_none, Forall_replicate.
  apply empty_plan_total; try done. by eapply digest_pattern.
Qed.
End Ready.
End Convergence.
