(* ===== verification/StateProperties.v ===== *)
(** * What the state store guarantees

    The theorems about the local state store and its reconciler: it always passes its
    own verification and can be opened again, batches are atomic compare-and-set
    steps admitted only after a reconciliation of the same session, a reconciliation
    that reports ready makes the records agree with the world and leaves nothing to
    reconcile; and two ways to a store that can never be opened again. *)

From S2P Require Export StateConvergence.
Import State.

Section Properties.
Context `{JCSLaws} `{PyTables}.

(** C1: a state store never locks itself out: after any sequence of sessions, with any batches and
    reconciliations, successful or not, and closed or killed at any point between transactions, the database
    passes every check of its own verification, and the next process, given an unused session identifier and a
    clock that did not go back, opens it. *)
Theorem store_always_verifies sys :
  reachable sys ->
  _verify_integrity (database_of (sys_tables sys)) = Ok tt /\ _verify_metadata (sys_tables sys) = Ok tt /\
  _verify_records (sys_tables sys) = Ok tt /\ _verify_history (sys_tables sys) = Ok tt /\
  forall T migrated_at store_id session_id,
    tick sys T -> session_id_ok session_id -> (session_id ∉ dom (t_sessions (sys_tables sys))) ->
    exists store t, open_database false migrated_at T store_id session_id (database_of (sys_tables sys)) = (Ok store, database_of t).
Proof.
  intros Hr. destruct (reachable_system sys Hr) as [m [_ Hs _]]. destruct (verification_passes _ _ _ Hs) as (H3 & H4 & H5 & H6).
  split_and!; try done. intros T migrated_at store_id session_id _ Hid Hnew. rewrite (open_verified (sys_clock sys) m) by done.
  destruct (start_session_total (sys_clock sys) T m (sys_tables sys) session_id Hs Hid Hnew) as (sh & t' & ->). unfold opened. cbn. eauto.
Qed.

(** C36: what the store reads back is well typed: the stored records always decode, to valid records with valid
    sources, in key order and one per key, and a verified record rests on verified sources, one of them external. *)
Theorem stored_records_typed sys :
  reachable sys -> exists records, stored_records (sys_tables sys) = Ok records /\
    Forall (fun r => valid r /\ Forall valid (osr_sources r)) records /\
    StronglySorted (key_le osr_key) records /\
    (forall r, r ∈ records <-> record_at (sys_tables sys) (osr_key r) = Some r) /\
    Forall (fun r => osr_verification r = "verified" ->
      Forall (fun s => src_verified s = true) (osr_sources r) /\ Exists (fun s => src_kind s <> "local-operation") (osr_sources r)) records.
Proof.
  intros Hr. destruct (reachable_system sys Hr) as [m [_ Hs _]]. destruct (ok_history _ _ _ Hs) as (anchors & [_ _ (latest & Hl & _)] & _).
  destruct (stored_states latest _ Hl) as (records & _ & Hrec & _ & _). exists records. pose proof (stored_typed _ _ Hrec) as Hty.
  split_and!; [done|done|rewrite <- (stored_sorted _ _ Hrec); apply sorted_by_sorted|intros r; by apply stored_record_at|].
  eapply Forall_impl; [exact Hty|]. intros r [Hv _] Hver. unfold valid, post_init, OperationalStateRecord_post_init in Hv. ok_inv.
  match goal with Hx : String.eqb _ "verified" && unverified_provenance _ = false |- _ => rename Hx into Hprov end.
  rewrite Hver, String.eqb_refl in Hprov. cbn [andb] in Hprov. unfold unverified_provenance in Hprov. apply orb_false_iff in Hprov as [H3 H4].
  split.
  - apply existsb_false in H3. eapply Forall_impl; [exact H3|]. intros s Hsv. by apply negb_false_iff in Hsv.
  - apply negb_false_iff, existsb_exists in H4 as (s & Hin%list_elem_of_In & Hloc). apply Exists_exists. exists s. split; [done|].
    unfold is_local in Hloc. by bool_simp.
Qed.

(** C2: a batch is an atomic compare-and-set on the versioned records: either nothing changes, or (it is a
    replay and nothing changes) or every expected generation was the current one, exactly the named records were
    replaced, each with its generation counted up, and the epoch was the expected one and counted up; and the same
    call made again changes nothing and answers with the current state. *)
Theorem batch_compare_and_set sys self ms command reason epoch T now r t' :
  reachable sys -> sys_session sys = Some self -> tick sys T -> Forall mutation_typed ms ->
  apply_batch self ms command reason epoch T now (sys_tables sys) = (r, t') ->
  t' = sys_tables sys \/
  (metadata (sys_tables sys) "admission_state" = Ok "ready" /\
   epoch_of (sys_tables sys) = Ok epoch /\ epoch_of t' = Ok (epoch + 1) /\
   (forall m, m ∈ ms -> admitted m (record_at (sys_tables sys) (mut_key m))) /\
   (forall key, record_at t' key =
      match List.find (fun m => bool_decide (mut_key m = key)) ms with
      | Some m => Some (next_record (rfc3339 T) m (record_at (sys_tables sys) key))
      | None => record_at (sys_tables sys) key
      end) /\
   forall T2 now2, apply_batch self ms command reason epoch T2 now2 t' = (_snapshot_locked self (rfc3339 now2) t', t')).
Proof.
  intros Hr Hself [HT Hrange] Hty Ha. destruct (reachable_system sys Hr) as [m [_ Hs Hlive]].
  apply apply_batch_cases in Ha as [->|(request & Hchecked & Hb)]; [by left|]. pose proof Hchecked as [Hne Hnd Hc Hreason _ Hq _].
  apply request_pattern in Hq as Hsha. apply list_empty_false in Hne. apply has_duplicates_false in Hnd.
  eapply batch_transaction_ok in Hb as [[-> _]|[He [Hready Hnew Hok (records & t1 & Hps & Ht')]]]; try done;
    [by left| |by apply Forall_sorted_by]. right.
  destruct (persists_lookup _ _ _ _ _ _ Hps) as [Hother Hmine]; [by rewrite <- list_fmap_compose|].
  assert (forall key, record_at t' key = record_at t1 key) as Hat by (intros key; rewrite Ht'; reflexivity).
  assert (forall x, x ∈ ms -> (x, reason) ∈ ((fun x => (x, reason)) <$> sorted_by mut_key ms)) as Hin.
  { intros x Hx. apply list_elem_of_fmap. exists x. by rewrite elem_of_sorted_by. }
  split_and!.
  - rewrite (read_admission m), Hready by apply Hs. done.
  - by rewrite (read_epoch m), He by apply Hs.
  - rewrite (read_epoch (with_epoch (m_epoch m + 1) m)) by apply Hok. cbn. by rewrite He.
  - intros x Hx. destruct (Hmine x reason (Hin x Hx)) as (current & Hcur & Hadm & _). unfold record_at. by rewrite Hcur.
  - intros key. rewrite Hat. destruct (List.find _ ms) as [x|] eqn:Ef.
    + apply List.find_some in Ef as [Hx%list_elem_of_In <-%bool_decide_eq_true].
      destruct (Hmine x reason (Hin x Hx)) as (current & Hcur & _ & Hnext & _). unfold record_at. by rewrite Hcur, Hnext.
    + unfold record_at, current_record. rewrite Hother; [done|]. rewrite <- list_fmap_compose.
      intros (x & -> & Hx)%list_elem_of_fmap. rewrite elem_of_sorted_by in Hx. apply list_elem_of_In in Hx.
      apply (List.find_none _ _ Ef) in Hx. cbn in Hx. by rewrite bool_decide_eq_true_2 in Hx.
  - intros T2 now2. eapply apply_batch_replay; [exact Hchecked|rewrite Ht'; cbn; apply lookup_insert_eq|reflexivity].
Qed.

(** No batch without a reconciliation: a batch that writes a new command finds, in the same session, a
    recorded reconciliation that reported ready after the session had started. *)
Theorem batch_after_reconciliation sys self ms command reason epoch T now r t' :
  reachable sys -> sys_session sys = Some self -> tick sys T -> Forall mutation_typed ms ->
  apply_batch self ms command reason epoch T now (sys_tables sys) = (r, t') -> t' <> sys_tables sys ->
  exists cells plan run report started completed,
    t_sessions (sys_tables sys) !! ls_session_id self = Some cells /\ sc_started cells = rfc3339 started /\
    t_runs (sys_tables sys) !! plan = Some run /\ _parse_report (rn_report_json run) = Ok report /\
    rpt_status report = "ready" /\ rn_completed_at run = rfc3339 completed /\ started <= completed.
Proof.
  intros Hr Hself [HT Hrange] Hty Ha Hne'. destruct (reachable_system sys Hr) as [m [_ Hs Hlive]].
  apply apply_batch_cases in Ha as [->|(request & [Hne _ Hc Hreason _ Hq _] & Hb)]; [done|].
  apply request_pattern in Hq as Hsha. apply list_empty_false in Hne.
  eapply batch_transaction_ok in Hb as [[-> _]|[He [Hready Hnew Hok _]]]; try done; [|by apply Forall_sorted_by].
  destruct (Hlive self Hself) as [_ -> _ _ Hsince]. destruct (Hsince Hready) as (cells & plan & run & report & u & v & ? & ? & ? & ? & ? & ? & ?).
  exists cells, plan, run, report, u, v. done.
Qed.

(** C3: ready means real: after a reconciliation that reports ready, every record of the store is accounted for by
    observations of its key that come from entitled sources, are verified and recent, and agree: it is verified, its
    sources are exactly theirs, and it has the state they report, or is a tombstone when they report absence; and a key
    the store has no record of has no observation, or is reported absent. *)
Theorem ready_means_real sys self observations read_at planned_at reread_at T id report t' :
  reachable sys -> sys_session sys = Some (svc_store self) -> tick sys T -> Forall valid observations ->
  t_runs (sys_tables sys) !! id = None ->
  reconcile self observations read_at planned_at reread_at T id (sys_tables sys) = (Ok report, t') -> rpt_status report = "ready" ->
  forall key, let candidates := grouped (sorted_by observation_order observations) key in
  match record_at t' key with
  | Some r => exists selected sources, unanimous planned_at (svc_maximum_age self) selected candidates /\
      sources_of candidates sources /\ accounted selected sources r
  | None => candidates = [] \/
      exists selected sources, unanimous planned_at (svc_maximum_age self) selected candidates /\
        sources_of candidates sources /\ obs_exists selected = false
  end.
Proof.
  intros Hr _ [HT Hrange] Hobs Hid Hrec Hready key. destruct (reachable_system sys Hr) as [m [_ Hs _]].
  by eapply (ready_records (sys_clock sys) T m (sys_tables sys) t' self observations read_at planned_at reread_at id report).
Qed.

(** C35: reconciliation converges: after a reconciliation that reports ready, planning again over the same
    observations, as long as they are still recent, always succeeds and finds nothing to do. *)
Theorem reconciliation_converges sys self observations read_at planned_at reread_at T id report t' read_again planned_again id_again :
  reachable sys -> sys_session sys = Some (svc_store self) -> tick sys T -> Forall valid observations ->
  t_runs (sys_tables sys) !! id = None ->
  reconcile self observations read_at planned_at reread_at T id (sys_tables sys) = (Ok report, t') -> rpt_status report = "ready" ->
  min_instant <= read_again <= max_instant -> min_instant <= planned_again -> planned_again + five_minutes <= max_instant ->
  Forall (qualified planned_again (svc_maximum_age self)) observations ->
  fullmatch OPERATIONAL_ID_PATTERN id_again = true -> str_startswith id_again RECONCILIATION_ID = true ->
  exists p, plan_reconciliation self observations read_again planned_again id_again t' = Ok p /\
    plan_actions p = [] /\ plan_issues p = [] /\ plan_ready_after_apply p = true.
Proof.
  intros Hr _ [HT Hrange] Hobs Hid Hrec Hready Hread Hp1 Hp2 Hq Hi Hn. destruct (reachable_system sys Hr) as [m [_ Hs _]].
  unfold five_minutes in *.
  eapply (planned_again_empty (sys_clock sys) T m (sys_tables sys) t' self observations read_at planned_at reread_at id report);
    try done. lia.
Qed.

(** ** Two ways to a store that cannot be opened again *)

Lemma migrations_current migrated_at t : _apply_migrations migrated_at (database_of t) = (Ok tt, database_of t).
Proof. reflexivity. Qed.

(** A database with a bad history is not opened, and not touched. *)
Lemma open_rejects migrated_at opened_at store_id session_id t :
  _verify_history t <> Ok tt ->
  exists e, open_database false migrated_at opened_at store_id session_id (database_of t) = (Raise e, database_of t).
Proof.
  intros Hv. unfold open_database, mbind at 1, eff_bind at 1. cbn [lift raise_if database_of db_user_version CURRENT_DATABASE_SCHEMA_VERSION Z.ltb Z.compare Pos.compare Pos.compare_cont].
  change {| db_user_version := 1; db_tables := Some t |} with (database_of t).
  unfold try_eff, mbind, eff_bind. rewrite migrations_current. unfold reading.
  destruct (_verify_integrity _) as [_|]; [|by eexists]. unfold mret at 1, eff_ret at 1. unfold on_tables at 1. cbn [database_of db_tables].
  destruct (_verify_metadata t) as [_|]; [|by eexists]. cbn [db_tables].
  unfold on_tables at 1. cbn [db_tables]. destruct (_verify_records t) as [_|]; [|by eexists].
  unfold on_tables at 1. cbn [db_tables]. destruct (_verify_history t) as [[]|]; [done|by eexists].
Qed.

(** The first opening is not atomic: the schema and the metadata are two transactions, and a process that dies
    between them leaves a database that no later opening, at any time and with any identifiers, gets past. *)
Theorem crash_before_metadata_locks_out applied_at migrated_at opened_at store_id session_id :
  open_database false migrated_at opened_at store_id session_id (database_of (migrated_tables applied_at)) =
  (Raise (StateCorruptionError "state metadata keys are missing or unexpected"), database_of (migrated_tables applied_at)).
Proof.
  assert (_verify_integrity (database_of (migrated_tables applied_at)) = Ok tt) as Hi.
  { unfold _verify_integrity. cbn [db_user_version db_tables database_of Z.eqb]. rewrite bool_decide_eq_true_2; [done|].
    exact (ok_migrations _ _ _ (new_store_ok 0 applied_at "opid:v1:control-plane-state:u7:01890a5d-ac96-774b-bcce-b302099a8057" ltac:(by vm_compute))). }
  assert (_apply_migrations migrated_at (database_of (migrated_tables applied_at)) = (Ok tt, database_of (migrated_tables applied_at))) as Hmig by reflexivity.
  unfold open_database, mbind at 1, eff_bind at 1. cbn [lift raise_if database_of db_user_version CURRENT_DATABASE_SCHEMA_VERSION Z.ltb Z.compare Pos.compare Pos.compare_cont].
  unfold try_eff, mbind, eff_bind. change {| db_user_version := 1; db_tables := Some (migrated_tables applied_at) |} with (database_of (migrated_tables applied_at)).
  rewrite Hmig. unfold reading. rewrite Hi. cbn [mret eff_ret]. reflexivity.
Qed.

Lemma history_sessions t id cells :
  _verify_history t = Ok tt -> t_sessions t !! id = Some cells -> verify_session (t_sessions t) (id, cells) = Ok tt.
Proof.
  unfold _verify_history. intros Hv Hc.
  apply bind_ok in Hv as (epoch & _ & Hv). apply bind_unit_ok in Hv as [_ Hv]. apply bind_unit_ok in Hv as [_ Hv].
  apply bind_ok in Hv as ([[u anchors] latest] & _ & Hv). apply bind_ok in Hv as (records & _ & Hv).
  apply bind_ok in Hv as (states & _ & Hv). apply bind_unit_ok in Hv as [_ Hv]. apply bind_unit_ok in Hv as [_ Hv].
  apply bind_unit_ok in Hv as [Hv _]. apply for_each_ok in Hv. rewrite Forall_forall in Hv. apply Hv.
  unfold select_sessions. by rewrite elem_of_sorted_by, elem_of_map_to_list.
Qed.

(** A clock that goes back locks the store: a session that is closed at a reading of the clock before the
    millisecond it was opened in is recorded as ending before it starts, and from then on every opening fails. *)
Theorem clock_back_locks_out t self clean started closed t' cells :
  ls_closed self = false -> t_sessions t !! ls_session_id self = Some cells -> sc_started cells = rfc3339 started ->
  min_instant <= started <= max_instant -> min_instant <= closed <= max_instant -> ms_floor closed < ms_floor started ->
  close clean closed self t = (Ok tt, t') ->
  forall migrated_at opened_at store_id session_id, exists e,
    open_database false migrated_at opened_at store_id session_id (database_of t') = (Raise e, database_of t').
Proof.
  intros Ho Hc Hst Hstarted Hrange Hlt Hcl migrated_at opened_at store_id session_id.
  unfold close, transaction in Hcl. rewrite Ho, Hc in Hcl. destruct (raise_if _ _); [|done]. cbn [mbind result_bind] in Hcl. injection Hcl as <-.
  set (ended := Build_session_cells _ _ _ _) in *. apply open_rejects. intros Hv. eapply history_sessions in Hv as Hall; [|apply lookup_insert_eq].
  unfold verify_session, ended in Hall. cbn [sc_started sc_ended sc_termination sc_prior] in Hall.
  rewrite Hst, !stored_stamp in Hall by done. apply bind_unit_ok in Hall as [_ Hall]. apply bind_unit_ok in Hall as [_ Hall].
  cbn [mbind result_bind] in Hall. apply bind_unit_ok in Hall as [_ Hall]. apply bind_unit_ok in Hall as [Hall _].
  apply Z.ltb_lt in Hlt. by destruct clean; cbn in Hall; rewrite Hlt in Hall.
Qed.
End Properties.

(** ** A store opened, reconciled and written *)
Module StateSample.
#[local] Existing Instance ascii_tables.
#[local] Existing Instance reference_jcs.
#[local] Instance sample_float : PyFloat := fun _ => SpecFloat.S754_nan.

Definition uuid7 (n : string) : string := "01890a5d-ac96-774b-bcce-b302099a80" +:+ n.
Definition store_id : string := STORE_ID +:+ uuid7 "57".
Definition session1 : string := SESSION_ID +:+ uuid7 "58".
Definition session2 : string := SESSION_ID +:+ uuid7 "59".
Definition run1 : string := RECONCILIATION_ID +:+ uuid7 "60".
Definition run2 : string := RECONCILIATION_ID +:+ uuid7 "61".
Definition command1 : string := "opid:v1:state-command:u7:" +:+ uuid7 "62".
Definition noon : Z := 1700000000000000.
Definition second (n : Z) : Z := noon + n * 1000000.

(** The first opening. *)
Definition self : LocalStateStore := {| ls_prior_shutdown := "new"; ls_session_id := session1; ls_closed := false |}.
Definition opening : result (string * string) * tables := _start_session (rfc3339 noon) session1 (new_store noon store_id).
Definition opened0 : tables := snd opening.
Definition sys0 : system := {| sys_clock := noon; sys_tables := opened0; sys_session := Some self |}.

Lemma opening_result : opening.1 = Ok ("new", session1).
Proof. by vm_compute. Qed.
Lemma store_id_good : store_id_ok store_id.
Proof. split; by vm_compute. Qed.
Lemma instant_good n : 0 <= n <= 1000 -> min_instant <= second n <= max_instant.
Proof. unfold min_instant, max_instant, second, noon. lia. Qed.

Lemma reachable0 : reachable sys0.
Proof.
  apply reachable_start.
  apply (start_new noon noon store_id session1 (Ok self) opened0); [apply (instant_good 0); lia|exact store_id_good|].
  rewrite open_new by exact store_id_good. change (_start_session _ _ _) with opening. unfold opened. by rewrite opening_result.
Qed.

(** The provider reports one event cursor; the reconciliation rebuilds its record. *)
Definition payload : string := "{}".
Definition seen : ReconciliationObservation :=
  {| obs_kind := "event-cursor"; obs_id := "journal-a"; obs_exists := true; obs_lifecycle := Some "open";
     obs_payload_json := payload; obs_payload_sha256 := sha256 payload; obs_observed_at := rfc3339 noon;
     obs_source_kind := "provider-reality"; obs_source_id := "host-a"; obs_verified := true |}.
Definition service : DurableStateService := {| svc_store := self; svc_maximum_age := 3600 |}.
Definition planned : result ReconciliationPlan := plan_reconciliation service [seen] (second 1) (second 1) run1 opened0.
Definition reconciling : result ReconciliationReport * tables :=
  reconcile service [seen] (second 1) (second 1) (second 2) (second 2) run1 opened0.
Definition plan1 : ReconciliationPlan := Eval vm_compute in
  match planned with
  | Ok p => p
  | Raise _ => {| plan_id := ""; plan_snapshot_digest := ""; plan_observation_digest := ""; plan_planned_at := "";
                  plan_maximum_age := 0; plan_actions := []; plan_issues := []; plan_ready_after_apply := false; plan_digest := "" |}
  end.
Definition report1 : ReconciliationReport := Eval vm_compute in
  match reconciling.1 with
  | Ok r => r
  | Raise _ => {| rpt_plan_id := ""; rpt_plan_digest := ""; rpt_before := ""; rpt_after := ""; rpt_completed_at := "";
                  rpt_status := ""; rpt_results := []; rpt_issues := []; rpt_digest := "" |}
  end.
Definition ready1 : tables := snd reconciling.
Definition sys1 : system := {| sys_clock := second 2; sys_tables := ready1; sys_session := Some self |}.

Lemma planned_result : planned = Ok plan1.
Proof. vm_cast_no_check (eq_refl (Ok plan1)). Qed.
Lemma reconciling_first : reconciling.1 = Ok report1.
Proof. vm_cast_no_check (eq_refl (Ok report1)). Qed.
Lemma reconciling_result : reconciling = (Ok report1, ready1).
Proof. unfold ready1. rewrite <- reconciling_first. apply surjective_pairing. Qed.
Lemma cursor_valid : Forall valid [seen].
Proof. apply Forall_singleton. by vm_compute. Qed.

Lemma plan1_typed : plan_typed plan1.
Proof.
  constructor; [by vm_compute| |apply Forall_nil_2]. apply Forall_singleton. split; [by vm_compute|]. apply Forall_singleton. by vm_compute.
Qed.

Lemma reachable1 : reachable sys1.
Proof.
  apply (reachable_step sys0); [exact reachable0|].
  apply (step_reconcile sys0 self plan1 (second 2) (second 2) (Ok report1) ready1); [done| |exact plan1_typed|].
  - split; [cbn; unfold second; lia|apply instant_good; lia].
  - pose proof reconciling_result as Hr. unfold reconciling, reconcile, reading, mbind, eff_bind in Hr.
    change (plan_reconciliation _ _ _ _ _ _) with planned in Hr. rewrite planned_result in Hr. exact Hr.
Qed.

Lemma rebuilt1 : is_some (record_at ready1 ("event-cursor", "journal-a")) = true.
Proof. vm_cast_no_check (eq_refl true). Qed.

(** The engine advances the cursor. *)
Definition move : StateMutation :=
  {| mut_kind := "event-cursor"; mut_id := "journal-a"; mut_lifecycle := "open"; mut_verification := "provisional";
     mut_payload_json := payload; mut_payload_sha256 := sha256 payload;
     mut_sources := [{| src_kind := "local-operation"; src_id := "controller"; src_observed_at := rfc3339 noon; src_verified := false |}];
     mut_expected_generation := Some 1; mut_tombstoned := false |}.
Definition batch : result StateSnapshot * tables := apply_batch self [move] command1 "cursor-advanced" 1 (second 3) (second 3) ready1.
Definition written : tables := snd batch.
Definition sys2 : system := {| sys_clock := second 3; sys_tables := written; sys_session := Some self |}.

Lemma advance_typed : Forall mutation_typed [move].
Proof. apply Forall_singleton. split; [by vm_compute|]. apply Forall_singleton. by vm_compute. Qed.
Lemma tick1 : tick sys1 (second 3).
Proof. split; [cbn; unfold second; lia|apply instant_good; lia]. Qed.

Lemma reachable2 : reachable sys2.
Proof.
  apply (reachable_step sys1); [exact reachable1|].
  apply (step_batch sys1 self [move] command1 "cursor-advanced" 1 (second 3) (second 3) batch.1 written);
    [done|exact tick1|exact advance_typed|]. apply surjective_pairing.
Qed.

Lemma written_new : t_commands ready1 !! command1 = None /\ is_some (t_commands written !! command1) = true.
Proof. split; by vm_compute. Qed.
Lemma written_differs : written <> ready1.
Proof. intros E. destruct written_new as [H3 H4]. by rewrite E, H3 in H4. Qed.
End StateSample.

Import StateSample.
#[local] Existing Instance ascii_tables.
#[local] Existing Instance reference_jcs.
#[local] Existing Instance sample_float.

Lemma store_always_verifies_witness :
  is_some (t_commands written !! command1) = true /\ _verify_history written = Ok tt /\
  exists store t, open_database false noon (second 4) store_id session2 (database_of written) = (Ok store, database_of t).
Proof.
  destruct (store_always_verifies sys2 reachable2) as (_ & _ & _ & Hv & Ho). split; [apply written_new|]. split; [exact Hv|].
  apply (Ho (second 4) noon store_id session2).
  - split; [cbn; unfold second; lia|apply instant_good; lia].
  - split; by vm_compute.
  - apply not_elem_of_dom. by vm_compute.
Defined.

Lemma stored_records_typed_witness :
  (osr_generation <$> record_at written ("event-cursor", "journal-a")) = Some 2 /\
  exists records, stored_records written = Ok records /\ Forall (fun r => valid r /\ Forall valid (osr_sources r)) records.
Proof.
  split; [by vm_compute|]. destruct (stored_records_typed sys2 reachable2) as (records & Hr & Hty & _).
  exists records. split; [exact Hr|exact Hty].
Defined.

Lemma batch_compare_and_set_witness :
  admitted move (record_at ready1 ("event-cursor", "journal-a")) /\ epoch_of written = Ok 2 /\
  (forall T2 now2, apply_batch self [move] command1 "cursor-advanced" 1 T2 now2 written =
                   (_snapshot_locked self (rfc3339 now2) written, written)).
Proof.
  destruct (batch_compare_and_set sys1 self [move] command1 "cursor-advanced" 1 (second 3) (second 3) batch.1 written
              reachable1 (eq_refl _) tick1 advance_typed (surjective_pairing _)) as [E|(_ & _ & He & Ha & _ & Hre)].
  - exfalso. exact (written_differs E).
  - split; [apply (Ha move), list_elem_of_singleton; reflexivity|]. split; [exact He|exact Hre].
Defined.

Lemma batch_after_reconciliation_witness :
  exists cells plan run report started completed,
    t_sessions ready1 !! session1 = Some cells /\ sc_started cells = rfc3339 started /\
    t_runs ready1 !! plan = Some run /\ _parse_report (rn_report_json run) = Ok report /\
    rpt_status report = "ready" /\ rn_completed_at run = rfc3339 completed /\ started <= completed.
Proof.
  exact (batch_after_reconciliation sys1 self [move] command1 "cursor-advanced" 1 (second 3) (second 3) batch.1 written
           reachable1 (eq_refl _) tick1 advance_typed (surjective_pairing _) written_differs).
Defined.

Lemma ready_means_real_witness :
  match record_at ready1 ("event-cursor", "journal-a") with
  | Some r => exists selected sources, unanimous (second 1) 3600 selected [seen] /\ sources_of [seen] sources /\ accounted selected sources r
  | None => False
  end.
Proof.
  pose proof (ready_means_real sys0 service [seen] (second 1) (second 1) (second 2) (second 2) run1 report1 ready1 reachable0 (eq_refl _)) as Hready.
  specialize (Hready ltac:(split; [cbn; unfold second; lia|apply instant_good; lia]) cursor_valid ltac:(by vm_compute) reconciling_result (eq_refl _)
                ("event-cursor", "journal-a")).
  pose proof rebuilt1 as Hsome.
  change (grouped (sorted_by observation_order [seen]) ("event-cursor", "journal-a")) with [seen] in Hready.
  destruct (record_at ready1 ("event-cursor", "journal-a")); [exact Hready|discriminate].
Defined.

Lemma reconciliation_converges_witness :
  exists p, plan_reconciliation service [seen] (second 3) (second 3) run2 ready1 = Ok p /\
    plan_actions p = [] /\ plan_issues p = [] /\ plan_ready_after_apply p = true.
Proof.
  apply (reconciliation_converges sys0 service [seen] (second 1) (second 1) (second 2) (second 2) run1 report1 ready1
           (second 3) (second 3) run2 reachable0 (eq_refl _)).
  - split; [cbn; unfold second; lia|apply instant_good; lia].
  - exact cursor_valid.
  - by vm_compute.
  - exact reconciling_result.
  - reflexivity.
  - apply instant_good; lia.
  - apply instant_good; lia.
  - unfold second, noon, five_minutes, max_instant. lia.
  - apply Forall_singleton. constructor; [apply mem_spec; by vm_compute|reflexivity|]. exists noon. split_and!; by vm_compute.
  - by vm_compute.
  - by vm_compute.
Defined.

Lemma clock_back_locks_out_witness :
  exists t', close true (noon - 1000000) self opened0 = (Ok tt, t') /\
  forall migrated_at opened_at store_id session_id, exists e,
    open_database false migrated_at opened_at store_id session_id (database_of t') = (Raise e, database_of t').
Proof.
  assert (exists cells, t_sessions opened0 !! session1 = Some cells /\ sc_started cells = rfc3339 noon) as (cells & Hc & Hst).
  { eexists. split; by vm_compute. }
  exists (close true (noon - 1000000) self opened0).2.
  assert (close true (noon - 1000000) self opened0 = (Ok tt, (close true (noon - 1000000) self opened0).2)) as Hcl.
  { apply injective_projections; [by vm_compute|reflexivity]. }
  split; [exact Hcl|].
  apply (clock_back_locks_out opened0 self true noon (noon - 1000000) (close true (noon - 1000000) self opened0).2 cells).
  - reflexivity.
  - exact Hc.
  - exact Hst.
  - apply (instant_good 0); lia.
  - unfold noon, min_instant, max_instant. lia.
  - by vm_compute.
  - exact Hcl.
Defined.
