(* ===== verification/ConformanceJson.v ===== *)
(** * The JSON of the schema tooling

    errors.py and jsonio.py of src/schemas/tooling: an exception keeps its stable code
    only.  Strings have Latin-1 characters, so [_reject_lone_surrogates] has none to
    find.

    A plain document is read back from its canonical bytes, up to the order of keys
    ([loads_canonical]). *)

From S2P Require Export JsonRoundtrip Effects.

Definition has_class (classes : list string) (e : exn) : bool := mem (exn_class e) classes.
Definition ConformanceDataError (code : string) : exn := OtherException "ConformanceDataError" code.
(** [fail(code, message, path)] *)
Definition fail {A} (code : string) : result A := Raise (ConformanceDataError code).

Definition _unique_object (pairs : list (string * json)) : result json :=
  raise_if (has_duplicates (fst <$> pairs)) (ConformanceDataError "duplicate-json-key");;
  Ok (JObj pairs).
Definition _reject_constant (constant : string) : result json := Raise (ConformanceDataError "invalid-json-number").
Definition data_hooks : JSONHooks := {| object_pairs_hook := _unique_object; parse_constant := _reject_constant |}.

Section Documents.
Context `{JCS} `{PyFloat}.

Definition loads_strict (text : string) : result json :=
  match @json_loads _ data_hooks text with
  | Raise e => Raise (if has_class ["JSONDecodeError"; "UnicodeError"] e then ConformanceDataError "invalid-json" else e)
  | r => r
  end.
Definition canonical_bytes (value : json) : result string :=
  match jcs_dumps value with Some text => Ok text | None => Raise (ConformanceDataError "canonicalization-failed") end.
End Documents.

(** ** Canonical text *)

Lemma normal_idem v : normal (normal v) = normal v.
Proof.
  induction v as [| | | | |l IH|fields IH] using json_induction; cbn [normal]; try done.
  - f_equal. rewrite <- list_fmap_compose. apply list_fmap_ext. intros i x Hx%list_elem_of_lookup_2. rewrite Forall_forall in IH. by apply IH.
  - f_equal. set (g := fun p : string * json => (p.1, normal p.2)).
    assert (g <$> sorted_by fst (g <$> fields) = sorted_by fst (g <$> fields)) as ->.
    { rewrite <- (list_fmap_id (sorted_by fst (g <$> fields))) at 2. apply list_fmap_ext. intros i x Hx%list_elem_of_lookup_2.
      rewrite elem_of_sorted_by in Hx. apply list_elem_of_fmap in Hx as (p & -> & Hp). rewrite Forall_forall in IH. unfold g. cbn. by rewrite (IH p Hp). }
    apply sorted_by_id, sorted_by_sorted.
Qed.

(** RFC 8785 has no integer beyond 2^53 - 1: the serializer rejects them. *)
#[warnings="-register-all"]
Inductive in_domain : json -> Prop :=
| domain_null : in_domain JNull
| domain_bool b : in_domain (JBool b)
| domain_int z : - SAFE_INTEGER_MAX <= z <= SAFE_INTEGER_MAX -> in_domain (JInt z)
| domain_float f : in_domain (JFloat f)
| domain_str s : in_domain (JStr s)
| domain_arr l : Forall in_domain l -> in_domain (JArr l)
| domain_obj fields : Forall (fun p => in_domain p.2) fields -> in_domain (JObj fields).
Class JCSDomain `{JCS} : Prop := dumps_domain v text : jcs_dumps v = Some text -> in_domain v.

#[export] Instance reference_domain : @JCSDomain reference_jcs.
Proof.
  intros v. unfold jcs_dumps, reference_jcs. induction v as [|b|z|f|s|l IH|fields IH] using json_induction; intros text Hd; try constructor.
  - cbn in Hd. destruct (Z.leb_spec (Z.abs z) SAFE_INTEGER_MAX); [lia|done].
  - apply json_text_arr in Hd as (ts & Hts & _). induction Hts; constructor; inversion IH; subst; eauto.
  - cbn in Hd. apply bind_Some in Hd as (items & Hm & _). apply mapM_Some in Hm. induction Hm as [|p i ps its Hp _ IHm]; constructor; inversion IH; subst; [|by apply IHm].
    apply bind_Some in Hp as (t & Ht & _). eauto.
Qed.

Section Text.
Context `{JCSLaws}.

Lemma canonical_bytes_total v : plain v -> exists text, canonical_bytes v = Ok text.
Proof. intros Hp. unfold canonical_bytes. destruct (dumps_total v Hp) as [text ->]. by exists text. Qed.

Lemma canonical_bytes_normal v : plain v -> canonical_bytes (normal v) = canonical_bytes v.
Proof. intros Hp. unfold canonical_bytes. destruct (dumps_total v Hp) as [text Ht]. by rewrite Ht, (dumps_normal v text Hp Ht). Qed.

Lemma loads_canonical v text : plain v -> canonical_bytes v = Ok text -> loads_strict text = Ok (normal v).
Proof.
  unfold canonical_bytes, loads_strict. intros Hp Hc. destruct (jcs_dumps v) as [t|] eqn:E; [|done]. injection Hc as ->.
  assert (@json_loads _ data_hooks text = Ok (normal v)) as ->; [|done].
  apply loads_lenient; [|by apply dumps_loads]. intros pairs Hd. cbn. unfold _unique_object.
  destruct (has_duplicates _) eqn:Ed; [|done]. apply has_duplicates_false in Hd. congruence.
Qed.

(** Plain documents with the same text are the same up to the order of members. *)
Lemma canonical_bytes_inj v w text : plain v -> plain w -> canonical_bytes v = Ok text -> canonical_bytes w = Ok text -> normal v = normal w.
Proof. intros Hv Hw Ev Ew. apply loads_canonical in Ev, Ew; try done. congruence. Qed.
End Text.
