(* ===== verification/ScaleLedger.v ===== *)
(** * The shard ledger of a scale campaign

    scale_recovery.py of the scheduler, over the strict JSON of the schema tooling
    ([ConformanceJson]).  The SQLite tables are lists of rows; a constraint is checked where
    its row is inserted.  A connection keeps the committed tables and, inside a
    transaction, the pending ones: the source leaves the driver in its default mode,
    in which a modifying statement opens a transaction that stays open, whether the
    statement failed or not, until [commit] or [rollback]. *)

From S2P Require Export ConformanceJson.

Definition ScaleRecoveryError (msg : string) : exn := OtherException "ScaleRecoveryError" msg.
Definition IntegrityError (msg : string) : exn := OtherException "sqlite3.IntegrityError" msg.
Definition OperationalError (msg : string) : exn := OtherException "sqlite3.OperationalError" msg.

Definition sqlite_error : exn -> bool := has_class ["sqlite3.IntegrityError"; "sqlite3.OperationalError"].
(** [ConformanceDataError] is a [ValueError]. *)
Definition value_error : exn -> bool := has_class ["ValueError"; "ConformanceDataError"; "UnicodeError"; "JSONDecodeError"].

(** ** The tables *)

Record session_row := {
  ss_id : string; ss_started : string; ss_ended : option string; ss_outcome : option string
}.
Record segment_row := {
  sg_ordinal : Z; sg_shard : string; sg_kind : string; sg_attempt : Z; sg_reference : string;
  sg_committed_at : string; sg_previous : option string; sg_sha256 : string
}.
Record interruption_row := {
  in_key : string; in_action : string; in_after : Z; in_observed : string; in_session : string;
  in_worker : option string; in_sha256 : string
}.
Record tables := {
  t_metadata : gmap string string; t_sessions : list session_row; t_segments : list segment_row;
  t_interruptions : list interruption_row
}.
Definition empty_tables : tables := {| t_metadata := ∅; t_sessions := []; t_segments := []; t_interruptions := [] |}.

Definition with_metadata (m : gmap string string) (t : tables) : tables :=
  {| t_metadata := m; t_sessions := t_sessions t; t_segments := t_segments t; t_interruptions := t_interruptions t |}.
Definition with_sessions (s : list session_row) (t : tables) : tables :=
  {| t_metadata := t_metadata t; t_sessions := s; t_segments := t_segments t; t_interruptions := t_interruptions t |}.

Definition insert_session (s : session_row) (t : tables) : result (unit * tables) :=
  raise_if (existsb (fun r => String.eqb (ss_id r) (ss_id s)) (t_sessions t))
    (IntegrityError "UNIQUE constraint failed: sessions.session_id");;
  Ok (tt, with_sessions (t_sessions t ++ [s]) t).

Definition insert_segment (s : segment_row) (t : tables) : result (unit * tables) :=
  raise_if (negb (mem (sg_kind s) ["attempt"; "result"])) (IntegrityError "CHECK constraint failed: segment_kind");;
  raise_if (negb (1 <=? sg_attempt s)) (IntegrityError "CHECK constraint failed: attempt_number >= 1");;
  raise_if (existsb (fun r => sg_ordinal r =? sg_ordinal s) (t_segments t))
    (IntegrityError "UNIQUE constraint failed: segment_commits.ordinal");;
  raise_if (existsb (fun r => String.eqb (sg_sha256 r) (sg_sha256 s)) (t_segments t))
    (IntegrityError "UNIQUE constraint failed: segment_commits.commit_sha256");;
  raise_if (existsb (fun r => String.eqb (sg_shard r) (sg_shard s) && String.eqb (sg_kind r) (sg_kind s) &&
                              (sg_attempt r =? sg_attempt s)) (t_segments t))
    (IntegrityError "UNIQUE constraint failed: segment_commits.shard_id, segment_kind, attempt_number");;
  raise_if (String.eqb (sg_kind s) "result" &&
            existsb (fun r => String.eqb (sg_kind r) "result" && String.eqb (sg_shard r) (sg_shard s)) (t_segments t))
    (IntegrityError "UNIQUE constraint failed: one_result_per_shard");;
  Ok (tt, {| t_metadata := t_metadata t; t_sessions := t_sessions t; t_segments := t_segments t ++ [s];
             t_interruptions := t_interruptions t |}).

Definition insert_interruption (i : interruption_row) (t : tables) : result (unit * tables) :=
  raise_if (existsb (fun r => String.eqb (in_key r) (in_key i)) (t_interruptions t))
    (IntegrityError "UNIQUE constraint failed: interruptions.interruption_key");;
  raise_if (existsb (fun r => String.eqb (in_sha256 r) (in_sha256 i)) (t_interruptions t))
    (IntegrityError "UNIQUE constraint failed: interruptions.event_sha256");;
  Ok (tt, {| t_metadata := t_metadata t; t_sessions := t_sessions t; t_segments := t_segments t;
             t_interruptions := t_interruptions t ++ [i] |}).

(** ** The connection *)

Record connection := { c_committed : tables; c_pending : option tables }.
(** A connection just opened on a database. *)
Definition connect (t : tables) : connection := {| c_committed := t; c_pending := None |}.
(** What a statement of the connection sees. *)
Definition view (c : connection) : tables := default (c_committed c) (c_pending c).

Definition query {A} (q : tables -> result A) : eff connection A := fun c => (q (view c), c).
Definition dml {A} (statement : tables -> result (A * tables)) : eff connection A := fun c =>
  match statement (view c) with
  | Ok (a, t) => (Ok a, {| c_committed := c_committed c; c_pending := Some t |})
  | Raise e => (Raise e, {| c_committed := c_committed c; c_pending := Some (view c) |})
  end.
Definition begin_immediate : eff connection unit := fun c =>
  match c_pending c with
  | Some _ => (Raise (OperationalError "cannot start a transaction within a transaction"), c)
  | None => (Ok tt, {| c_committed := c_committed c; c_pending := Some (c_committed c) |})
  end.
Definition commit : eff connection unit := fun c => (Ok tt, connect (view c)).
Definition rollback : eff connection unit := fun c => (Ok tt, connect (c_committed c)).

(** [except classes: rollback(); raise] *)
Definition rolling_back {A} (caught : exn -> bool) (m : eff connection A) : eff connection A :=
  try_eff m (fun e => if caught e then (_ ← rollback; lift (Raise e)) else lift (Raise e)).
(** [except IntegrityError as error: raise ScaleRecoveryError(msg) from error] *)
Definition converting {A} (msg : string) (m : eff connection A) : eff connection A :=
  try_eff m (fun e => lift (Raise (if has_class ["sqlite3.IntegrityError"] e then ScaleRecoveryError msg else e))).

Section Ledger.
Context `{JCS} `{PyFloat}.

Definition _digest (value : json) : result string := text ← canonical_bytes value; Ok (sha256 text).

Definition SCHEMA_VERSION : string := "scale-recovery-ledger.v1".
Definition expected_metadata (campaign_manifest_id : string) : gmap string string :=
  <["campaign_manifest_id" := campaign_manifest_id]> (<["schema_version" := SCHEMA_VERSION]> ∅).

(** The script creates missing tables; [connect] starts from all of them. *)
Definition _create (campaign_manifest_id : string) : eff connection unit :=
  existing ← query (fun t => Ok (t_metadata t));
  if bool_decide (existing = ∅) then
    _ ← dml (fun t => Ok (tt, with_metadata (expected_metadata campaign_manifest_id) t)); commit
  else
    lift (raise_if (negb (bool_decide (existing = expected_metadata campaign_manifest_id)))
      (ScaleRecoveryError "scale recovery database belongs to another campaign or schema")).

(** ** Sessions *)

Definition begin_session (session_id : string) (now : Z) : eff connection unit :=
  converting "controller session identity was reused"
    (_ ← dml (insert_session {| ss_id := session_id; ss_started := rfc3339 now; ss_ended := None; ss_outcome := None |});
     commit).

(** [WHERE ended_at IS NULL] *)
Definition is_active (s : session_row) : bool := is_none (ss_ended s).
Definition ended (stamp outcome : string) (s : session_row) : session_row :=
  {| ss_id := ss_id s; ss_started := ss_started s; ss_ended := Some stamp; ss_outcome := Some outcome |}.
Definition recovered_outcome (t : tables) (s : session_row) : string :=
  if existsb (fun i => String.eqb (in_session i) (ss_id s)) (t_interruptions t) then "forced-interruption" else "failed".

Definition recover_active_sessions (now : Z) : eff connection Z :=
  let ended_at := rfc3339 now in
  _ ← begin_immediate;
  rolling_back sqlite_error
    (rowcount ← dml (fun t => Ok (Z.of_nat (length (List.filter is_active (t_sessions t))),
        with_sessions ((fun s => if is_active s then ended ended_at (recovered_outcome t s) s else s) <$> t_sessions t) t));
     _ ← commit;
     mret rowcount).

Definition end_session (session_id outcome : string) (now : Z) : eff connection unit :=
  _ ← lift (raise_if (negb (mem outcome ["completed"; "forced-interruption"; "failed"]))
        (ScaleRecoveryError "controller session outcome is invalid"));
  let hit s := String.eqb (ss_id s) session_id && is_active s in
  rowcount ← dml (fun t => Ok (Z.of_nat (length (List.filter hit (t_sessions t))),
      with_sessions ((fun s => if hit s then ended (rfc3339 now) outcome s else s) <$> t_sessions t) t));
  _ ← lift (raise_if (negb (rowcount =? 1)) (ScaleRecoveryError "controller session is absent or already terminal"));
  commit.

(** ** Segments *)

Definition _commit_body (ordinal : Z) (shard_id segment_kind : string) (attempt_number : Z) (reference : json)
    (committed_at : string) (previous : option string) : json :=
  JObj [("attempt_number", JInt attempt_number); ("committed_at", JStr committed_at); ("ordinal", JInt ordinal);
        ("previous_commit_sha256", JOptStr previous); ("reference", reference);
        ("schema_version", JStr "scale-segment-commit.v1"); ("segment_kind", JStr segment_kind); ("shard_id", JStr shard_id)].

(** [ORDER BY ordinal] *)
Definition ordered_segments (t : tables) : list segment_row := sorted_by sg_ordinal (t_segments t).

Definition commit_segment (shard_id segment_kind : string) (attempt_number : Z) (reference : list (string * json)) (now : Z)
    : eff connection string :=
  _ ← lift (raise_if (negb (mem segment_kind ["attempt"; "result"]) || (attempt_number <? 1))
        (ScaleRecoveryError "scale segment commit coordinates are invalid"));
  encoded_reference ← lift (canonical_bytes (JObj reference));
  let committed_at := rfc3339 now in
  _ ← begin_immediate;
  rolling_back (fun e => sqlite_error e || value_error e)
    (previous_row ← query (fun t => Ok (last (ordered_segments t)));
     let ordinal := match previous_row with None => 1 | Some r => sg_ordinal r + 1 end in
     let previous := sg_sha256 <$> previous_row in
     commit_sha256 ← lift (_digest (_commit_body ordinal shard_id segment_kind attempt_number (JObj reference) committed_at previous));
     _ ← dml (insert_segment {| sg_ordinal := ordinal; sg_shard := shard_id; sg_kind := segment_kind; sg_attempt := attempt_number;
           sg_reference := encoded_reference; sg_committed_at := committed_at; sg_previous := previous; sg_sha256 := commit_sha256 |});
     _ ← commit;
     mret commit_sha256).

(** ** Interruptions *)

Definition interruption_body (action : string) (after_committed_shards : Z) (controller_session_id interruption_key observed_at : string)
    (worker_process : json) : list (string * json) :=
  [("action", JStr action); ("after_committed_shards", JInt after_committed_shards);
   ("controller_session_id", JStr controller_session_id); ("interruption_key", JStr interruption_key);
   ("observed_at", JStr observed_at); ("schema_version", JStr "scale-interruption-event.v1"); ("worker_process", worker_process)].
Definition worker_json (worker_process : option (list (string * json))) : json :=
  match worker_process with None => JNull | Some fields => JObj fields end.

Definition record_interruption (interruption_key action : string) (after_committed_shards : Z) (controller_session_id : string)
    (worker_process : option (list (string * json))) (now : Z) : eff connection (list (string * json)) :=
  let observed_at := rfc3339 now in
  let body := interruption_body action after_committed_shards controller_session_id interruption_key observed_at (worker_json worker_process) in
  event_sha256 ← lift (_digest (JObj body));
  _ ← converting "planned interruption was recorded twice"
        (worker ← lift (match worker_process with None => Ok None | Some fields => text ← canonical_bytes (JObj fields); Ok (Some text) end);
         _ ← dml (insert_interruption {| in_key := interruption_key; in_action := action; in_after := after_committed_shards;
               in_observed := observed_at; in_session := controller_session_id; in_worker := worker; in_sha256 := event_sha256 |});
         commit);
  mret (body ++ [("event_sha256", JStr event_sha256)]).

(** ** Queries *)

Definition interruption_event (i : interruption_row) : result (list (string * json)) :=
  worker ← match in_worker i with None => Ok JNull | Some text => loads_strict text end;
  Ok (interruption_body (in_action i) (in_after i) (in_session i) (in_key i) (in_observed i) worker ++
      [("event_sha256", JStr (in_sha256 i))]).
(** [ORDER BY after_committed_shards, interruption_key] *)
Definition ordered_interruptions (t : tables) : list interruption_row :=
  sorted_by (fun i => (in_after i, in_key i)) (t_interruptions t).
Definition interruptions (t : tables) : result (list (list (string * json))) :=
  map_result interruption_event (ordered_interruptions t).

Record CommittedSegment := {
  cs_ordinal : Z; cs_shard_id : string; cs_segment_kind : string; cs_attempt_number : Z;
  cs_reference : list (string * json); cs_commit_sha256 : string
}.
Definition committed_segment (r : segment_row) : result CommittedSegment :=
  reference ← loads_strict (sg_reference r);
  match reference with
  | JObj fields => Ok {| cs_ordinal := sg_ordinal r; cs_shard_id := sg_shard r; cs_segment_kind := sg_kind r;
      cs_attempt_number := sg_attempt r; cs_reference := fields; cs_commit_sha256 := sg_sha256 r |}
  | _ => Raise (ScaleRecoveryError "segment reference is not an object")
  end.
Definition segments (t : tables) : result (list CommittedSegment) := map_result committed_segment (ordered_segments t).

Definition is_result (r : segment_row) : bool := String.eqb (sg_kind r) "result".
Definition result_shard_ids (t : tables) : gset string := list_to_set (sg_shard <$> List.filter is_result (t_segments t)).
Definition shard_segments (t : tables) (shard_id : string) : list segment_row :=
  List.filter (fun r => String.eqb (sg_shard r) shard_id) (t_segments t).
Definition attempt_number (t : tables) (shard_id : string) : Z := foldr Z.max 0 (sg_attempt <$> shard_segments t shard_id) + 1.

Definition count_outcome (t : tables) (outcome : option string) : Z :=
  Z.of_nat (length (List.filter (fun s => bool_decide (ss_outcome s = outcome)) (t_sessions t))).
Definition session_summary (t : tables) : list (string * json) :=
  [("active", JInt (count_outcome t None)); ("completed", JInt (count_outcome t (Some "completed")));
   ("failed", JInt (count_outcome t (Some "failed")));
   ("forced_interruption", JInt (count_outcome t (Some "forced-interruption")));
   ("total", JInt (Z.of_nat (length (t_sessions t))))].

(** ** Verification *)

Definition verify_segment_row (st : Z * option string) (r : segment_row) : result (Z * option string) :=
  let '(expected_ordinal, previous) := st in
  raise_if (negb (sg_ordinal r =? expected_ordinal)) (ScaleRecoveryError "scale segment commit ordinals are not contiguous");;
  reference ← match loads_strict (sg_reference r) with
              | Raise e => Raise (if value_error e then ScaleRecoveryError "scale segment commit reference is not strict JSON" else e)
              | r => r
              end;
  encoded ← canonical_bytes reference;
  raise_if (negb (String.eqb encoded (sg_reference r))) (ScaleRecoveryError "scale segment commit reference is not canonical JSON");;
  let body := _commit_body (sg_ordinal r) (sg_shard r) (sg_kind r) (sg_attempt r) reference (sg_committed_at r) previous in
  let corrupt := ScaleRecoveryError "scale segment commit hash chain is corrupt" in
  raise_if (negb (bool_decide (sg_previous r = previous))) corrupt;;
  digest ← _digest body;
  raise_if (negb (String.eqb (sg_sha256 r) digest)) corrupt;;
  Ok (expected_ordinal + 1, Some (sg_sha256 r)).

Definition verify_interruption (i : interruption_row) : result unit :=
  worker ← match in_worker i with None => Ok JNull | Some text => loads_strict text end;
  digest ← _digest (JObj (interruption_body (in_action i) (in_after i) (in_session i) (in_key i) (in_observed i) worker));
  raise_if (negb (String.eqb (in_sha256 i) digest)) (ScaleRecoveryError "scale interruption event digest is corrupt").

Definition verify (campaign_manifest_id : string) (t : tables) : result unit :=
  raise_if (negb (bool_decide (t_metadata t = expected_metadata campaign_manifest_id)))
    (ScaleRecoveryError "scale recovery metadata changed");;
  raise_if (existsb (fun s => xorb (is_none (ss_ended s)) (is_none (ss_outcome s))) (t_sessions t))
    (ScaleRecoveryError "scale controller session state is contradictory");;
  _ ← fold_result verify_segment_row (ordered_segments t) (1, None);
  _ ← interruptions t;
  for_each (ordered_interruptions t) verify_interruption.

(** The constructor, after the file has been opened: it closes the connection if
    it raises. *)
Definition open_ledger (campaign_manifest_id : string) : eff connection unit :=
  _ ← _create campaign_manifest_id; query (verify campaign_manifest_id).
End Ledger.
