(* ===== verification/LedgerInvariant.v ===== *)
(** * The invariant of the shard ledger

    [ledger_ok]: the tables of a ledger whose segment commits form a hash chain.
    Every operation of [ScaleLedger] keeps it, whether it returns or raises, and
    leaves the connection with nothing pending that is not committed.

    The second part is what each operation does. *)

From S2P Require Export ScaleLedger JsonRoundtrip Rows.

(** ** The invariant *)

Section Invariant.
Context `{JCSLaws} `{!JCSDomain}.

Record segment_ok (r : segment_row) : Prop := {
  segment_kind_ok : mem (sg_kind r) ["attempt"; "result"] = true;
  segment_attempt_ok : 1 <= sg_attempt r;
  segment_reference_ok : exists fields, plain (JObj fields) /\ canonical_bytes (JObj fields) = Ok (sg_reference r)
}.

Definition chain (l : list segment_row) : Prop :=
  fold_result verify_segment_row l (1, None) = Ok (Z.of_nat (length l) + 1, sg_sha256 <$> last l).

Record interruption_ok (i : interruption_row) : Prop := {
  interruption_verifies : verify_interruption i = Ok tt;
  interruption_decodes : exists event, interruption_event i = Ok event
}.

Record ledger_ok (campaign : string) (t : tables) : Prop := {
  lo_metadata : t_metadata t = expected_metadata campaign;
  lo_sessions : Forall (fun s => is_none (ss_ended s) = is_none (ss_outcome s)) (t_sessions t);
  lo_session_ids : NoDup (ss_id <$> t_sessions t);
  lo_chain : chain (t_segments t);
  lo_segments : Forall segment_ok (t_segments t);
  lo_results : NoDup (sg_shard <$> List.filter is_result (t_segments t));
  lo_interruptions : Forall interruption_ok (t_interruptions t);
  lo_keys : NoDup (in_key <$> t_interruptions t)
}.

(** What the chain says of the ordinals. *)
Lemma verify_row_ok n p r st : verify_segment_row (n, p) r = Ok st -> sg_ordinal r = n /\ st = (n + 1, Some (sg_sha256 r)).
Proof.
  unfold verify_segment_row. intros Hv. apply bind_unit_ok in Hv as [Hn Hv]. apply raise_if_ok, negb_false_iff, Z.eqb_eq in Hn.
  apply bind_ok in Hv as (v & _ & Hv). apply bind_ok in Hv as (w & _ & Hv). apply bind_unit_ok in Hv as [_ Hv].
  apply bind_unit_ok in Hv as [_ Hv]. apply bind_ok in Hv as (d & _ & Hv). apply bind_unit_ok in Hv as [_ [= <-]]. done.
Qed.

Lemma chain_ordinals l n p st :
  fold_result verify_segment_row l (n, p) = Ok st ->
  StronglySorted (key_le sg_ordinal) l /\ Forall (fun r => n <= sg_ordinal r < n + Z.of_nat (length l)) l.
Proof.
  revert n p. induction l as [|r l IH]; intros n p Hf; [split; constructor|].
  cbn in Hf. apply bind_ok in Hf as (st1 & Hr & Hf). apply verify_row_ok in Hr as [Hn ->]. apply IH in Hf as [Hs Hb]. split.
  - constructor; [done|]. eapply Forall_impl; [exact Hb|]. intros x Hx. cbn beta in Hx. unfold key_le. cbn. apply Z.leb_le. lia.
  - constructor; [cbn [length]; lia|]. eapply Forall_impl; [exact Hb|]. intros x Hx. cbn beta in *. cbn [length]. lia.
Qed.

Lemma chain_ordered t : chain (t_segments t) -> ordered_segments t = t_segments t.
Proof. intros Hc. apply sorted_by_id. by apply chain_ordinals in Hc as [Hs _]. Qed.

Theorem ledger_verifies campaign t : ledger_ok campaign t -> verify campaign t = Ok tt.
Proof.
  intros [Hm Hs _ Hc _ _ Hi _]. unfold verify. rewrite bool_decide_eq_true_2 by done. cbn [negb raise_if mbind result_bind].
  assert (existsb (fun s => xorb (is_none (ss_ended s)) (is_none (ss_outcome s))) (t_sessions t) = false) as ->.
  { apply existsb_false. eapply Forall_impl; [exact Hs|]. intros s E. cbn in E |- *. rewrite E. apply xorb_nilpotent. }
  cbn [raise_if mbind result_bind]. rewrite chain_ordered by done. rewrite Hc. cbn [mbind result_bind].
  assert (Forall interruption_ok (ordered_interruptions t)) as Ho.
  { unfold ordered_interruptions. by rewrite sorted_by_perm. }
  assert (exists events, interruptions t = Ok events) as [events ->].
  { unfold interruptions. induction Ho as [|i l [_ [e He]] _ [es Hes]]; [by eexists|]. cbn. rewrite He. cbn. rewrite Hes. by eexists. }
  cbn [mbind result_bind]. apply for_each_ok. eapply Forall_impl; [exact Ho|]. by intros i [Hv _].
Qed.

(** ** Appending a commit *)

Lemma commit_body_plain ordinal shard kind attempt reference stamp previous :
  -SAFE_INTEGER_MAX <= ordinal <= SAFE_INTEGER_MAX -> -SAFE_INTEGER_MAX <= attempt <= SAFE_INTEGER_MAX -> plain reference ->
  plain (_commit_body ordinal shard kind attempt reference stamp previous).
Proof.
  intros Ho Ha Hr. constructor; [by apply (bool_decide_unpack _)|].
  repeat apply Forall_cons_2; try apply Forall_nil_2; cbn; first [done|by constructor|destruct previous; constructor].
Qed.
Lemma commit_body_normal ordinal shard kind attempt reference stamp previous :
  normal (_commit_body ordinal shard kind attempt reference stamp previous) =
  _commit_body ordinal shard kind attempt (normal reference) stamp previous.
Proof. by destruct previous. Qed.

Lemma digest_domain v digest : _digest v = Ok digest -> in_domain v.
Proof. unfold _digest, canonical_bytes. destruct (jcs_dumps v) as [text|] eqn:E; [|done]. intros _. by eapply dumps_domain. Qed.
Lemma commit_body_domain ordinal shard kind attempt reference stamp previous :
  in_domain (_commit_body ordinal shard kind attempt reference stamp previous) ->
  -SAFE_INTEGER_MAX <= ordinal <= SAFE_INTEGER_MAX /\ -SAFE_INTEGER_MAX <= attempt <= SAFE_INTEGER_MAX.
Proof.
  intros Hd. inversion Hd as [| | | | | |fields Hf E]; subst. apply Forall_cons in Hf as [Ha Hf]. apply Forall_cons in Hf as [_ Hf]. apply Forall_cons in Hf as [Ho _].
  cbn in Ha, Ho. inversion Ha. inversion Ho. done.
Qed.

(** The digest of a commit does not depend on the order of members in its reference. *)
Lemma commit_digest_normal ordinal shard kind attempt reference stamp previous :
  -SAFE_INTEGER_MAX <= ordinal <= SAFE_INTEGER_MAX -> -SAFE_INTEGER_MAX <= attempt <= SAFE_INTEGER_MAX -> plain reference ->
  _digest (_commit_body ordinal shard kind attempt (normal reference) stamp previous) =
  _digest (_commit_body ordinal shard kind attempt reference stamp previous).
Proof.
  intros Ho Ha Hr. unfold _digest. rewrite <- (canonical_bytes_normal (_commit_body _ _ _ _ reference _ _)) by by apply commit_body_plain.
  by rewrite commit_body_normal.
Qed.

(** The row [commit_segment] appends. *)
Definition next_ordinal (t : tables) : Z := Z.of_nat (length (t_segments t)) + 1.
Definition previous_digest (t : tables) : option string := sg_sha256 <$> last (t_segments t).

Lemma chain_snoc t r reference :
  chain (t_segments t) -> plain reference -> canonical_bytes reference = Ok (sg_reference r) ->
  sg_ordinal r = next_ordinal t -> sg_previous r = previous_digest t ->
  _digest (_commit_body (sg_ordinal r) (sg_shard r) (sg_kind r) (sg_attempt r) reference (sg_committed_at r) (sg_previous r)) = Ok (sg_sha256 r) ->
  chain (t_segments t ++ [r]).
Proof.
  intros Hc Hp Href Ho Hprev Hd. pose proof (commit_body_domain _ _ _ _ _ _ _ (digest_domain _ _ Hd)) as [Hn Ha]. rewrite Ho in Hn. unfold chain. rewrite fold_result_app, Hc. cbn [mbind result_bind fold_result].
  rewrite last_snoc, length_app. cbn [length fmap option_fmap option_map]. unfold next_ordinal in *.
  unfold verify_segment_row. rewrite Ho, Z.eqb_refl. cbn [negb raise_if mbind result_bind].
  rewrite (loads_canonical reference) by done. cbn [mbind result_bind]. rewrite canonical_bytes_normal, Href by done.
  cbn [mbind result_bind]. rewrite String.eqb_refl. cbn [negb raise_if mbind result_bind].
  unfold previous_digest in Hprev. rewrite <- Hprev, bool_decide_eq_true_2 by done. cbn [negb raise_if mbind result_bind].
  rewrite commit_digest_normal by done. rewrite <- Ho, Hd. cbn [mbind result_bind].
  rewrite String.eqb_refl. cbn [negb raise_if mbind result_bind]. rewrite Ho. do 3 f_equal. lia.
Qed.
End Invariant.

(** * What the operations of the ledger do

    Each operation of [ScaleLedger], on a connection with nothing pending but what
    is committed ([quiet]): the ways it ends and the tables it leaves. *)


(** What the connection sees is what is committed. *)
Definition quiet (c : connection) : Prop := view c = c_committed c.
(** A statement failed and its transaction is still open. *)
Definition stuck (c : connection) : connection := {| c_committed := c_committed c; c_pending := Some (c_committed c) |}.

Lemma quiet_connect t : quiet (connect t).
Proof. done. Qed.
Lemma quiet_stuck c : quiet (stuck c).
Proof. done. Qed.
Lemma quiet_idle c : quiet c -> c_pending c = None -> connect (c_committed c) = c.
Proof. destruct c as [t [p|]]; done. Qed.
Lemma quiet_cases c : quiet c -> c = connect (c_committed c) \/ c = stuck c.
Proof. destruct c as [t [p|]]; unfold quiet; cbn; intros E; [subst; by right|by left]. Qed.

(** A statement and its commit. *)
Lemma dml_commit {A} (s : tables -> result (A * tables)) c :
  quiet c ->
  (a ← dml s; _ ← commit; mret a) c =
  match s (c_committed c) with Ok (a, t) => (Ok a, connect t) | Raise e => (Raise e, stuck c) end.
Proof. intros Hq. unfold dml, commit, mbind, eff_bind. rewrite Hq. by destruct (s (c_committed c)) as [[a t]|e]. Qed.

Section Steps.
Context `{JCSLaws} `{!JCSDomain}.

Definition add_session (s : session_row) (t : tables) : tables := with_sessions (t_sessions t ++ [s]) t.
Definition active_session (id : string) (now : Z) : session_row :=
  {| ss_id := id; ss_started := rfc3339 now; ss_ended := None; ss_outcome := None |}.

(** A session identifier is accepted once; a refused one leaves the transaction open. *)
Lemma begin_session_cases id now c :
  quiet c ->
  begin_session id now c =
  if decide (id ∈ (ss_id <$> t_sessions (c_committed c)))
  then (Raise (ScaleRecoveryError "controller session identity was reused"), stuck c)
  else (Ok tt, connect (add_session (active_session id now) (c_committed c))).
Proof.
  intros Hq. unfold begin_session, converting, try_eff, dml, insert_session, commit, mbind, eff_bind. rewrite Hq. cbn [ss_id].
  destruct (decide _) as [Hin|Hin].
  - destruct (existsb _ _) eqn:E; [done|]. by apply existsb_key in E.
  - apply existsb_key in Hin. by rewrite Hin.
Qed.

Lemma recover_cases now c :
  quiet c ->
  recover_active_sessions now c =
  match c_pending c with
  | Some _ => (Raise (OperationalError "cannot start a transaction within a transaction"), c)
  | None => (Ok (Z.of_nat (length (List.filter is_active (t_sessions (c_committed c))))),
             connect (with_sessions ((fun s => if is_active s then ended (rfc3339 now) (recovered_outcome (c_committed c) s) s else s)
                                       <$> t_sessions (c_committed c)) (c_committed c)))
  end.
Proof. destruct c as [t [p|]]; done. Qed.

Definition close_session (id outcome : string) (now : Z) (t : tables) : tables :=
  with_sessions ((fun s => if String.eqb (ss_id s) id && is_active s then ended (rfc3339 now) outcome s else s) <$> t_sessions t) t.

Lemma with_sessions_same l t : l = t_sessions t -> with_sessions l t = t.
Proof. intros ->. by destruct t. Qed.

Lemma count_one {A} (key : A -> string) (p : A -> bool) k l :
  NoDup (key <$> l) -> (length (List.filter (fun x => String.eqb (key x) k && p x) l) <= 1)%nat.
Proof.
  induction l as [|x l IH]; [cbn; lia|]. cbn. intros [Hx Hn]%NoDup_cons. destruct (String.eqb_spec (key x) k) as [<-|]; [|by apply IH].
  assert (List.filter (fun y => String.eqb (key y) (key x) && p y) l = []) as ->.
  { apply filter_none. apply Forall_forall. intros y Hy. destruct (String.eqb_spec (key y) (key x)) as [E|]; [|done].
    destruct Hx. rewrite <- E. by apply list_elem_of_fmap_2. }
  destruct (_ && _); cbn; lia.
Qed.

(** Ending a session closes the active one of that name, or changes nothing and
    leaves the transaction open. *)
Lemma end_session_cases id outcome now c :
  quiet c -> NoDup (ss_id <$> t_sessions (c_committed c)) -> mem outcome ["completed"; "forced-interruption"; "failed"] = true ->
  end_session id outcome now c =
  if existsb (fun s => String.eqb (ss_id s) id && is_active s) (t_sessions (c_committed c))
  then (Ok tt, connect (close_session id outcome now (c_committed c)))
  else (Raise (ScaleRecoveryError "controller session is absent or already terminal"), stuck c).
Proof.
  intros Hq Hn Ho. unfold end_session. rewrite Ho. unfold lift, dml, commit, mbind, eff_bind. cbn [negb raise_if]. rewrite Hq.
  pose proof (count_one ss_id is_active id _ Hn) as Hone. destruct (existsb _ _) eqn:E.
  - apply existsb_exists in E as (s & Hs & Hhit). assert (List.In s (List.filter (fun s => String.eqb (ss_id s) id && is_active s) (t_sessions (c_committed c)))) as Hin.
    { by apply List.filter_In. }
    destruct (List.filter _ _) as [|s1 [|s2 l]]; [done|done|cbn in Hone; lia].
  - apply existsb_false in E. rewrite filter_none by (eapply Forall_impl; [exact E|]; cbn; intros s ->; done). cbn [length Z.of_nat Z.eqb negb raise_if].
    do 2 f_equal. unfold stuck. do 2 f_equal. apply with_sessions_same. transitivity ((fun s => s) <$> t_sessions (c_committed c)).
    + apply list_fmap_ext. intros i s Hs%list_elem_of_lookup_2. rewrite Forall_forall in E. by rewrite (E s Hs).
    + apply list_fmap_id.
Qed.

Definition add_segment (r : segment_row) (t : tables) : tables :=
  {| t_metadata := t_metadata t; t_sessions := t_sessions t; t_segments := t_segments t ++ [r]; t_interruptions := t_interruptions t |}.
Definition next_row (t : tables) (shard kind : string) (attempt : Z) (text : string) (now : Z) (digest : string) : segment_row :=
  {| sg_ordinal := next_ordinal t; sg_shard := shard; sg_kind := kind; sg_attempt := attempt; sg_reference := text;
     sg_committed_at := rfc3339 now; sg_previous := previous_digest t; sg_sha256 := digest |}.

(** What a returned commit has appended. *)
Record committed (t : tables) (shard kind : string) (attempt : Z) (reference : list (string * json)) (now : Z) (r : segment_row) : Prop := {
  committed_kind : mem kind ["attempt"; "result"] = true;
  committed_attempt : 1 <= attempt;
  committed_text : canonical_bytes (JObj reference) = Ok (sg_reference r);
  committed_digest : _digest (_commit_body (next_ordinal t) shard kind attempt (JObj reference) (rfc3339 now) (previous_digest t)) = Ok (sg_sha256 r);
  committed_row : r = next_row t shard kind attempt (sg_reference r) now (sg_sha256 r);
  committed_free : insert_segment r t = Ok (tt, add_segment r t)
}.

Lemma ordered_last t : chain (t_segments t) ->
  next_ordinal t = match last (ordered_segments t) with None => 1 | Some r => sg_ordinal r + 1 end.
Proof.
  intros Hc. rewrite chain_ordered by done. unfold next_ordinal. destruct (last (t_segments t)) as [r|] eqn:E.
  - apply last_Some in E as [l El]. rewrite El in *. unfold chain in Hc.
    rewrite fold_result_app in Hc. apply bind_ok in Hc as ([n p] & _ & Hc). apply bind_ok in Hc as (st & Hr & [= ->]).
    apply verify_row_ok in Hr as [Hn [= Hr _]]. lia.
  - apply last_None in E as ->. done.
Qed.

Lemma raise_if_bind {A} (b : bool) (x e : exn) (f : unit -> result A) :
  (u ← raise_if b x; f u) = Raise e -> e = x \/ f tt = Raise e.
Proof. destruct b; cbn; [intros [= <-]; by left|by right]. Qed.
Lemma insert_segment_error row t e : insert_segment row t = Raise e -> sqlite_error e = true.
Proof. unfold insert_segment. intros Hi. repeat (apply raise_if_bind in Hi as [->|Hi]; [done|]). done. Qed.
Record segment_free (row : segment_row) (t : tables) : Prop := {
  free_digest : sg_sha256 row ∉ (sg_sha256 <$> t_segments t);
  free_attempt : Forall (fun r => ~ (sg_shard r = sg_shard row /\ sg_kind r = sg_kind row /\ sg_attempt r = sg_attempt row)) (t_segments t);
  free_result : sg_kind row = "result" -> sg_shard row ∉ (sg_shard <$> List.filter is_result (t_segments t))
}.
Lemma insert_segment_free row t u t' : insert_segment row t = Ok (u, t') -> segment_free row t.
Proof.
  unfold insert_segment. intros Hi. do 3 apply bind_unit_ok in Hi as [_ Hi]. apply bind_unit_ok in Hi as [Hd%raise_if_ok Hi].
  apply bind_unit_ok in Hi as [Ha%raise_if_ok Hi]. apply bind_unit_ok in Hi as [Hr%raise_if_ok _]. constructor.
  - by apply existsb_key in Hd.
  - apply existsb_false in Ha. eapply Forall_impl; [exact Ha|]. intros r Hf (E1 & E2 & E3). cbn in Hf.
    by rewrite E1, E2, E3, !String.eqb_refl, Z.eqb_refl in Hf.
  - intros Ek (r & Es & Hin)%list_elem_of_fmap. apply list_elem_of_In, List.filter_In in Hin as [Hin Hres].
    rewrite Ek, String.eqb_refl in Hr. cbn [andb] in Hr. apply existsb_false in Hr. rewrite Forall_forall in Hr.
    apply list_elem_of_In in Hin. apply Hr in Hin. unfold is_result in Hres. by rewrite Hres, Es, String.eqb_refl in Hin.
Qed.
Lemma insert_segment_row row t u t' : insert_segment row t = Ok (u, t') -> t' = add_segment row t.
Proof. unfold insert_segment. intros Hi. repeat apply bind_unit_ok in Hi as [_ Hi]. by injection Hi. Qed.
Lemma digest_error v e : _digest v = Raise e -> value_error e = true.
Proof. unfold _digest, canonical_bytes. destruct (jcs_dumps v); [done|]. by intros [= <-]. Qed.

(** A commit is atomic: it raises and changes nothing, or it appends its row. *)
Lemma commit_segment_cases shard kind attempt reference now c r c' :
  quiet c -> chain (t_segments (c_committed c)) ->
  commit_segment shard kind attempt reference now c = (r, c') ->
  (exists e, r = Raise e /\ c' = c) \/
  exists row, c_pending c = None /\ committed (c_committed c) shard kind attempt reference now row /\
    r = Ok (sg_sha256 row) /\ c' = connect (add_segment row (c_committed c)).
Proof.
  intros Hq Hc. unfold commit_segment. destruct c as [t [p|]]; cbn [c_committed c_pending] in *; unfold lift, mbind, eff_bind;
    (destruct (raise_if _ _) as [[]|e] eqn:Eg; [|intros [= <- <-]; eauto]); (destruct (canonical_bytes _) as [text|e] eqn:Et; [|intros [= <- <-]; eauto]);
    cbn [begin_immediate c_pending]; [intros [= <- <-]; eauto|].
  apply raise_if_ok, orb_false_iff in Eg as [Hk%negb_false_iff Ha%Z.ltb_ge]. unfold rolling_back, try_eff, query, rollback, commit, dml.
  unfold view. cbn [default c_pending c_committed from_option id]. rewrite <- ordered_last by done.
  assert (sg_sha256 <$> last (ordered_segments t) = previous_digest t) as -> by by rewrite chain_ordered by done.
  destruct (_digest _) as [digest|e] eqn:Ed.
  - change (Build_segment_row _ _ _ _ _ _ _ _) with (next_row t shard kind attempt text now digest).
    destruct (insert_segment _ _) as [[[] t']|e] eqn:Ei.
    + intros [= <- <-]. right. exists (next_row t shard kind attempt text now digest). apply insert_segment_row in Ei as E. subst t'.
      split_and!; [done| |done|done]. by constructor.
    + apply insert_segment_error in Ei. rewrite Ei. cbn [orb]. intros [= <- <-]. left. by exists e.
  - apply digest_error in Ed. rewrite Ed, orb_true_r. intros [= <- <-]. left. by exists e.
Qed.

Lemma commit_segment_returns t shard kind attempt reference now row :
  chain (t_segments t) -> committed t shard kind attempt reference now row ->
  commit_segment shard kind attempt reference now (connect t) = (Ok (sg_sha256 row), connect (add_segment row t)).
Proof.
  intros Hc [Hk Ha Ht Hd Hr Hi]. unfold commit_segment, lift, mbind, eff_bind. rewrite Hk. assert ((attempt <? 1) = false) as -> by lia.
  cbn [negb orb raise_if]. rewrite Ht. cbn [begin_immediate connect c_pending c_committed].
  unfold rolling_back, try_eff, query, dml, view. cbn [default c_pending c_committed from_option id]. rewrite <- ordered_last by done.
  assert (sg_sha256 <$> last (ordered_segments t) = previous_digest t) as -> by by rewrite chain_ordered by done.
  rewrite Hd. change (Build_segment_row _ _ _ _ _ _ _ _) with (next_row t shard kind attempt (sg_reference row) now (sg_sha256 row)).
  rewrite <- Hr, Hi. reflexivity.
Qed.

(** ** Interruptions *)

Definition add_interruption (i : interruption_row) (t : tables) : tables :=
  {| t_metadata := t_metadata t; t_sessions := t_sessions t; t_segments := t_segments t; t_interruptions := t_interruptions t ++ [i] |}.

Record recorded (key action : string) (after : Z) (session : string) (worker : option (list (string * json))) (now : Z)
    (t : tables) (i : interruption_row) : Prop := {
  recorded_digest : _digest (JObj (interruption_body action after session key (rfc3339 now) (worker_json worker))) = Ok (in_sha256 i);
  recorded_worker : match worker with
                    | None => in_worker i = None
                    | Some fields => exists text, in_worker i = Some text /\ canonical_bytes (JObj fields) = Ok text
                    end;
  recorded_row : i = {| in_key := key; in_action := action; in_after := after; in_observed := rfc3339 now; in_session := session;
                        in_worker := in_worker i; in_sha256 := in_sha256 i |};
  recorded_new : key ∉ (in_key <$> t_interruptions t)
}.

Lemma insert_interruption_row i t u t' :
  insert_interruption i t = Ok (u, t') -> t' = add_interruption i t /\ (in_key i ∉ (in_key <$> t_interruptions t)).
Proof.
  unfold insert_interruption. intros Hi. apply bind_unit_ok in Hi as [Hk Hi]. apply bind_unit_ok in Hi as [_ [= _ <-]].
  split; [done|]. apply raise_if_ok in Hk. by apply existsb_key in Hk.
Qed.

Lemma record_interruption_cases key action after session worker now c r c' :
  quiet c -> record_interruption key action after session worker now c = (r, c') ->
  (exists e, r = Raise e /\ (c' = c \/ c' = stuck c)) \/
  exists i event, recorded key action after session worker now (c_committed c) i /\ r = Ok event /\ c' = connect (add_interruption i (c_committed c)).
Proof.
  intros Hq. unfold record_interruption. rewrite lift_bind. destruct (_digest _) as [digest|e] eqn:Ed; [|intros [= <- <-]; eauto].
  unfold converting, try_eff. set (encoded := match worker with None => _ | Some _ => _ end).
  unfold lift, mbind at 1 2, eff_bind at 1 2. destruct encoded as [text|e] eqn:Et; [|intros [= <- <-]; eauto].
  unfold dml, commit, mbind at 1, eff_bind at 1. rewrite Hq. destruct (insert_interruption _ _) as [[[] t']|e] eqn:Ei; [|intros [= <- <-]; eauto].
  intros [= <- <-]. right. apply insert_interruption_row in Ei as [-> Hn]. cbn [in_key] in Hn.
  eexists _, _. split_and!; [|reflexivity|reflexivity]. constructor; cbn [in_worker in_sha256]; try done.
  subst encoded. destruct worker as [fields|]; [|by injection Et as <-]. apply bind_ok in Et as (t0 & Ht & [= <-]). by exists t0.
Qed.

(** ** The invariant is kept *)

Lemma add_session_ok campaign id now t :
  ledger_ok campaign t -> (id ∉ (ss_id <$> t_sessions t)) -> ledger_ok campaign (add_session (active_session id now) t).
Proof.
  intros [] Hid. constructor; try done; cbn.
  - apply Forall_app. split; [done|]. by apply Forall_singleton.
  - rewrite fmap_app. apply NoDup_snoc. done.
Qed.

(** Ending some of the sessions. *)
Lemma end_sessions_ok campaign (hit : session_row -> bool) stamp (outcome : session_row -> string) t :
  ledger_ok campaign t ->
  ledger_ok campaign (with_sessions ((fun s => if hit s then ended stamp (outcome s) s else s) <$> t_sessions t) t).
Proof.
  intros [Hm lo_sessions lo_session_ids Hc Hsg Hr Hi Hk]. constructor; try done; cbn.
  - apply Forall_fmap. eapply Forall_impl; [exact lo_sessions|]. intros s Hs. cbn. by destruct (hit s).
  - rewrite <- list_fmap_compose. erewrite list_fmap_ext; [exact lo_session_ids|]. intros i s _. cbn. by destruct (hit s).
Qed.

Lemma add_segment_ok campaign shard kind attempt reference now r t :
  ledger_ok campaign t -> committed t shard kind attempt reference now r -> plain (JObj reference) -> ledger_ok campaign (add_segment r t).
Proof.
  intros [] [Hk Ha Ht Hd Hr Hi] Hp. assert (sg_kind r = kind /\ sg_attempt r = attempt /\ sg_shard r = shard) as (Ek & Ea & Es) by (rewrite Hr; done).
  constructor; try done; cbn.
  - apply (chain_snoc t r (JObj reference)); try done; rewrite Hr; cbn; done.
  - apply Forall_app. split; [done|]. apply Forall_singleton. constructor; [by rewrite Ek|by rewrite Ea|eauto].
  - rewrite filter_app. cbn. unfold is_result at 2. destruct (String.eqb (sg_kind r) "result") eqn:Er; [|by rewrite app_nil_r].
    rewrite fmap_app. cbn. apply NoDup_snoc. split; [done|]. apply insert_segment_free in Hi as [_ _ Hf]. apply Hf. by apply String.eqb_eq.
Qed.

Lemma interruption_body_plain action after session key stamp worker :
  -SAFE_INTEGER_MAX <= after <= SAFE_INTEGER_MAX -> plain worker -> plain (JObj (interruption_body action after session key stamp worker)).
Proof.
  intros Ha Hw. constructor; [by apply (bool_decide_unpack _)|].
  repeat apply Forall_cons_2; try apply Forall_nil_2; cbn; first [done|by constructor].
Qed.

Lemma add_interruption_ok campaign key action after session worker now i t :
  ledger_ok campaign t -> recorded key action after session worker now t i -> plain (worker_json worker) -> ledger_ok campaign (add_interruption i t).
Proof.
  intros [] [Hd Hw Hi Hn] Hp. assert (-SAFE_INTEGER_MAX <= after <= SAFE_INTEGER_MAX) as Ha.
  { apply digest_domain in Hd. inversion Hd as [| | | | | |fields Hf E]; subst. apply Forall_cons in Hf as [_ Hf]. apply Forall_cons in Hf as [Ha _]. by inversion Ha. }
  constructor; try done; cbn.
  - apply Forall_app. split; [done|]. apply Forall_singleton.
    assert (match in_worker i with None => Ok JNull | Some text => loads_strict text end = Ok (normal (worker_json worker))) as Hl.
    { destruct worker as [fields|]; [|by rewrite Hw]. destruct Hw as (text & -> & Ht). by apply loads_canonical. }
    constructor.
    + unfold verify_interruption. rewrite Hl. cbn [mbind result_bind]. rewrite Hi. cbn [in_action in_after in_session in_key in_observed in_sha256].
      change (JObj (interruption_body action after session key (rfc3339 now) (normal (worker_json worker)))) with
        (normal (JObj (interruption_body action after session key (rfc3339 now) (worker_json worker)))).
      unfold _digest in *. rewrite canonical_bytes_normal by by apply interruption_body_plain. rewrite Hd. cbn [mbind result_bind].
      by rewrite String.eqb_refl.
    + unfold interruption_event. rewrite Hl. by eexists.
  - rewrite fmap_app. apply NoDup_snoc. split; [done|]. by rewrite Hi.
Qed.
End Steps.
