(* ===== verification/LedgerProperties.v ===== *)
(** * What the shard ledger guarantees

    A ledger in the hands of controllers that come and go: every state it can reach
    verifies and opens again, its commits are final and form a chain that binds
    everything recorded, and a refused statement leaves a transaction open that
    keeps commits out. *)

From S2P Require Export LedgerInvariant.

Section Life.
Context `{JCSLaws} `{!JCSDomain}.

(** ** The connection over time *)

(** One operation, returned or not, or the death of the process: the next one
    connects to what is committed. *)
Inductive ledger_step (campaign : string) (c : connection) : connection -> Prop :=
| step_begin id now : ledger_step campaign c (begin_session id now c).2
| step_recover now : ledger_step campaign c (recover_active_sessions now c).2
| step_end id outcome now : ledger_step campaign c (end_session id outcome now c).2
| step_commit shard kind attempt reference now :
    plain (JObj reference) -> ledger_step campaign c (commit_segment shard kind attempt reference now c).2
| step_interruption key action after session worker now :
    plain (worker_json worker) -> ledger_step campaign c (record_interruption key action after session worker now c).2
| step_reopen : ledger_step campaign c (open_ledger campaign (connect (c_committed c))).2.

Definition reachable (campaign : string) (c : connection) : Prop :=
  exists c0, open_ledger campaign (connect empty_tables) = (Ok tt, c0) /\ rtc (ledger_step campaign) c0 c.

Record connection_ok (campaign : string) (c : connection) : Prop := {
  co_quiet : quiet c;
  co_ledger : ledger_ok campaign (c_committed c)
}.

Lemma ledger_open_again campaign t : ledger_ok campaign t -> open_ledger campaign (connect t) = (Ok tt, connect t).
Proof.
  intros Hok. unfold open_ledger, _create, query, mbind, eff_bind. cbn [view connect c_pending c_committed default from_option id].
  rewrite (lo_metadata _ _ Hok). rewrite bool_decide_eq_false_2 by (apply insert_non_empty). rewrite bool_decide_eq_true_2 by done.
  cbn [negb raise_if lift]. unfold view. cbn. by rewrite (ledger_verifies campaign).
Qed.

Definition new_tables (campaign : string) : tables := with_metadata (expected_metadata campaign) empty_tables.
Lemma new_ledger campaign :
  open_ledger campaign (connect empty_tables) = (Ok tt, connect (new_tables campaign)) /\ ledger_ok campaign (new_tables campaign).
Proof.
  assert (ledger_ok campaign (new_tables campaign)) as Hok. { constructor; try done; constructor. }
  split; [|done]. unfold open_ledger, _create, query, dml, commit, mbind, eff_bind.
  cbn [view connect c_pending c_committed default from_option id empty_tables t_metadata]. rewrite bool_decide_eq_true_2 by done.
  unfold view. cbn. by rewrite (ledger_verifies campaign (new_tables campaign)).
Qed.

Lemma step_ok campaign c c' : connection_ok campaign c -> ledger_step campaign c c' -> connection_ok campaign c'.
Proof.
  intros [Hq Hok] Hstep. assert (connection_ok campaign c) as Hc by done. assert (connection_ok campaign (stuck c)) as Hstuck by done.
  assert (forall t, ledger_ok campaign t -> connection_ok campaign (connect t)) as Hcon by done.
  destruct Hstep as [id now|now|id outcome now|shard kind attempt reference now Hp|key action after session worker now Hp|].
  - rewrite begin_session_cases by done. case_decide; cbn; [done|]. by apply Hcon, add_session_ok.
  - rewrite recover_cases by done. destruct (c_pending c); cbn; [done|]. by apply Hcon, end_sessions_ok.
  - destruct (mem outcome ["completed"; "forced-interruption"; "failed"]) eqn:Ho.
    + rewrite end_session_cases by (done || apply Hok). destruct (existsb _ _); cbn; [|done].
      by apply Hcon, (end_sessions_ok campaign (fun s => String.eqb (ss_id s) id && is_active s) _ (fun _ => outcome)).
    + unfold end_session. rewrite Ho. done.
  - destruct (commit_segment _ _ _ _ _ c) as [r c'] eqn:E. apply commit_segment_cases in E as [(e & -> & ->)|(row & _ & Hr & -> & ->)]; [done| |done|apply Hok].
    by eapply Hcon, add_segment_ok.
  - destruct (record_interruption _ _ _ _ _ _ c) as [r c'] eqn:E.
    apply record_interruption_cases in E as [(e & -> & [-> | ->])|(i & event & Hr & -> & ->)]; [done|done| |done].
    by eapply Hcon, add_interruption_ok.
  - rewrite ledger_open_again by done. done.
Qed.

Lemma ledger_reachable_ok campaign c : reachable campaign c -> connection_ok campaign c.
Proof.
  intros (c0 & Ho & Hs). destruct (new_ledger campaign) as (Ht & Hok). rewrite Ht in Ho. injection Ho as <-.
  assert (connection_ok campaign (connect (new_tables campaign))) as H3 by done. clear Ht Hok.
  induction Hs as [|c1 c2 c3 Hstep _ IH]; [done|]. by apply IH, (step_ok campaign c1).
Qed.


(** ** Commits are final *)

Lemma step_segments campaign c c' :
  connection_ok campaign c -> ledger_step campaign c c' -> t_segments (c_committed c) `prefix_of` t_segments (c_committed c').
Proof.
  intros [Hq Hok] Hstep. destruct Hstep as [id now|now|id outcome now|shard kind attempt reference now Hp|key action after session worker now Hp|].
  - rewrite begin_session_cases by done. by case_decide.
  - rewrite recover_cases by done. by destruct (c_pending c).
  - destruct (mem outcome ["completed"; "forced-interruption"; "failed"]) eqn:Ho.
    + rewrite end_session_cases by (done || apply Hok). by destruct (existsb _ _).
    + unfold end_session. by rewrite Ho.
  - destruct (commit_segment _ _ _ _ _ c) as [r c'] eqn:E. apply commit_segment_cases in E as [(e & -> & ->)|(row & _ & _ & -> & ->)]; [done| |done|apply Hok].
    by apply prefix_app_r.
  - destruct (record_interruption _ _ _ _ _ _ c) as [r c'] eqn:E.
    by apply record_interruption_cases in E as [(e & -> & [-> | ->])|(i & event & _ & -> & ->)].
  - by rewrite ledger_open_again.
Qed.

Lemma elem_of_results t shard : shard ∈ result_shard_ids t <-> exists r, r ∈ t_segments t /\ sg_shard r = shard /\ sg_kind r = "result".
Proof.
  unfold result_shard_ids. rewrite elem_of_list_to_set, list_elem_of_fmap. split.
  - intros (r & -> & Hr%list_elem_of_In). apply List.filter_In in Hr as [Hr Hk%String.eqb_eq]. exists r. by rewrite list_elem_of_In.
  - intros (r & Hr & <- & Hk). exists r. split; [done|]. apply list_elem_of_In, List.filter_In. split; [by apply list_elem_of_In|by apply String.eqb_eq].
Qed.

Lemma one_result campaign t r r' :
  ledger_ok campaign t -> r ∈ t_segments t -> r' ∈ t_segments t -> sg_kind r = "result" -> sg_kind r' = "result" -> sg_shard r = sg_shard r' -> r = r'.
Proof.
  intros Hok Hr Hr' Hk Hk' Hs. pose proof (lo_results _ _ Hok) as Hn.
  apply (NoDup_fmap_elem_inj sg_shard (List.filter is_result (t_segments t))); try done;
    apply list_elem_of_In, List.filter_In; (split; [by apply list_elem_of_In|by apply String.eqb_eq]).
Qed.

(** C30: a result is committed once: commits are only ever appended, a shard has at most one result in any
    reachable ledger, and every attempt to commit another one raises and changes nothing. *)
Theorem result_committed_once campaign c c' :
  reachable campaign c -> rtc (ledger_step campaign) c c' ->
  t_segments (c_committed c) `prefix_of` t_segments (c_committed c') /\
  (forall r r', r ∈ t_segments (c_committed c') -> r' ∈ t_segments (c_committed c') ->
     sg_kind r = "result" -> sg_kind r' = "result" -> sg_shard r = sg_shard r' -> r = r') /\
  forall shard attempt reference now, shard ∈ result_shard_ids (c_committed c) ->
    exists e, commit_segment shard "result" attempt reference now c' = (Raise e, c').
Proof.
  intros Hc%ledger_reachable_ok Hs. assert (connection_ok campaign c' /\ t_segments (c_committed c) `prefix_of` t_segments (c_committed c')) as [Hc' Hpre].
  { induction Hs as [c|c1 c2 c3 Hstep _ IH]; [done|]. destruct IH as [H3 H4]; [by eapply step_ok|]. split; [done|].
    etrans; [by eapply step_segments|done]. }
  split_and!; [done| |].
  - intros r r'. eapply one_result, co_ledger. exact Hc'.
  - intros shard attempt reference now Hres. destruct (commit_segment _ _ _ _ _ c') as [r c''] eqn:E.
    apply commit_segment_cases in E as [(e & -> & ->)|(row & _ & Hr & _ & _)]; [by exists e| |apply Hc'|apply Hc'].
    exfalso. destruct Hr as [_ _ _ _ Hrow Hi]. apply insert_segment_free in Hi as [_ _ Hf]. rewrite Hrow in Hf. cbn in Hf. apply (Hf eq_refl).
    apply elem_of_results in Hres as (r0 & Hr0 & <- & Hk0). apply list_elem_of_fmap_2, list_elem_of_In, List.filter_In.
    split; [|by apply String.eqb_eq]. apply list_elem_of_In. by eapply elem_of_prefix.
Qed.

(** ** Attempts go on *)

Lemma attempt_above t shard r : r ∈ t_segments t -> sg_shard r = shard -> sg_attempt r < attempt_number t shard.
Proof.
  intros Hr Hs. unfold attempt_number, shard_segments. assert (r ∈ List.filter (fun r => String.eqb (sg_shard r) shard) (t_segments t)) as Hin.
  { apply list_elem_of_In, List.filter_In. split; [by apply list_elem_of_In|by apply String.eqb_eq]. }
  revert Hin. generalize (List.filter (fun r => String.eqb (sg_shard r) shard) (t_segments t)). induction l as [|x l IH]; [by intros ?%elem_of_nil|].
  intros [->|Hx]%elem_of_cons; cbn; [lia|]. apply IH in Hx. lia.
Qed.

Lemma insert_segment_intro row t :
  mem (sg_kind row) ["attempt"; "result"] = true -> 1 <= sg_attempt row -> Forall (fun r => sg_ordinal r < sg_ordinal row) (t_segments t) ->
  segment_free row t -> insert_segment row t = Ok (tt, add_segment row t).
Proof.
  intros Hk Ha Ho [Hd Hat Hr]. unfold insert_segment. apply Z.leb_le in Ha. rewrite Hk, Ha. cbn [negb raise_if mbind result_bind].
  assert (existsb (fun r => sg_ordinal r =? sg_ordinal row) (t_segments t) = false) as ->.
  { apply existsb_false. eapply Forall_impl; [exact Ho|]. intros r Hlt. cbn in Hlt. lia. }
  apply existsb_key in Hd as ->.
  assert (existsb (fun r => String.eqb (sg_shard r) (sg_shard row) && String.eqb (sg_kind r) (sg_kind row) && (sg_attempt r =? sg_attempt row)) (t_segments t) = false) as ->.
  { apply existsb_false. eapply Forall_impl; [exact Hat|]. intros r Hf. cbn in Hf. apply not_true_is_false. intros Hx. bool_simp. apply Hf. naive_solver lia. }
  assert (String.eqb (sg_kind row) "result" && existsb (fun r => String.eqb (sg_kind r) "result" && String.eqb (sg_shard r) (sg_shard row)) (t_segments t) = false) as ->; [|done].
  apply andb_false_iff. destruct (String.eqb_spec (sg_kind row) "result") as [Ek|]; [right|by left]. specialize (Hr Ek).
  apply existsb_false, Forall_forall. intros r Hin. apply not_true_is_false. intros Hx. bool_simp. apply Hr.
  match goal with E : sg_shard r = _ |- _ => rewrite <- E end. apply list_elem_of_fmap_2, list_elem_of_In, List.filter_In. split; [by apply list_elem_of_In|by apply String.eqb_eq].
Qed.

Definition used_digest : exn := IntegrityError "UNIQUE constraint failed: segment_commits.commit_sha256".

(** The next attempt of a shard without a result is committed, or its digest is that
    of an earlier commit. *)
Definition commits_next (c : connection) (shard kind : string) (reference : list (string * json)) (now : Z) : Prop :=
  let t := c_committed c in let attempt := attempt_number t shard in
  (exists row, commit_segment shard kind attempt reference now c = (Ok (sg_sha256 row), connect (add_segment row t)) /\
     committed t shard kind attempt reference now row /\
     forall other, other ∈ result_shard_ids (add_segment row t) <-> other ∈ result_shard_ids t \/ other = shard /\ kind = "result") \/
  exists r digest, r ∈ t_segments t /\ sg_sha256 r = digest /\
    _digest (_commit_body (next_ordinal t) shard kind attempt (JObj reference) (rfc3339 now) (previous_digest t)) = Ok digest /\
    commit_segment shard kind attempt reference now c = (Raise used_digest, c).

Lemma commit_segment_collides t shard kind attempt reference now text r :
  chain (t_segments t) -> mem kind ["attempt"; "result"] = true -> 1 <= attempt -> canonical_bytes (JObj reference) = Ok text -> r ∈ t_segments t ->
  _digest (_commit_body (next_ordinal t) shard kind attempt (JObj reference) (rfc3339 now) (previous_digest t)) = Ok (sg_sha256 r) ->
  commit_segment shard kind attempt reference now (connect t) = (Raise used_digest, connect t).
Proof.
  intros Hc Hk Ha Ht Hr Hd. unfold commit_segment, lift, mbind, eff_bind. rewrite Hk. assert ((attempt <? 1) = false) as -> by lia.
  cbn [negb orb raise_if]. rewrite Ht. cbn [begin_immediate connect c_pending c_committed].
  unfold rolling_back, try_eff, query, dml, view. cbn [default c_pending c_committed from_option id]. rewrite <- ordered_last by done.
  assert (sg_sha256 <$> last (ordered_segments t) = previous_digest t) as -> by by rewrite chain_ordered by done.
  rewrite Hd. change (Build_segment_row _ _ _ _ _ _ _ _) with (next_row t shard kind attempt text now (sg_sha256 r)).
  assert (insert_segment (next_row t shard kind attempt text now (sg_sha256 r)) t = Raise used_digest) as ->; [|done].
  unfold insert_segment. cbn [next_row sg_kind sg_attempt sg_ordinal sg_sha256]. apply Z.leb_le in Ha. rewrite Hk, Ha. cbn [negb raise_if mbind result_bind].
  assert (existsb (fun r0 => sg_ordinal r0 =? next_ordinal t) (t_segments t) = false) as ->.
  { pose proof (chain_ordinals _ _ _ _ Hc) as [_ Hb]. apply existsb_false. eapply Forall_impl; [exact Hb|]. intros x Hx. cbn in Hx |- *. unfold next_ordinal. lia. }
  assert (existsb (fun r0 => String.eqb (sg_sha256 r0) (sg_sha256 r)) (t_segments t) = true) as ->; [|done].
  apply existsb_exists. exists r. by rewrite <- list_elem_of_In, String.eqb_refl.
Qed.

Lemma next_commits campaign c shard kind reference now :
  connection_ok campaign c -> c_pending c = None -> mem kind ["attempt"; "result"] = true -> plain (JObj reference) ->
  (kind = "result" -> shard ∉ result_shard_ids (c_committed c)) ->
  attempt_number (c_committed c) shard <= SAFE_INTEGER_MAX -> next_ordinal (c_committed c) <= SAFE_INTEGER_MAX ->
  commits_next c shard kind reference now.
Proof.
  intros [Hq Hok] Hidle Hk Hp Hres Ha Hn. unfold commits_next. set (t := c_committed c) in *. set (attempt := attempt_number t shard).
  destruct (canonical_bytes_total _ Hp) as [text Ht].
  assert (1 <= attempt) as Ha1. { unfold attempt, attempt_number. induction (sg_attempt <$> _) as [|x l IH]; cbn; lia. }
  assert (0 < next_ordinal t) as Hn1 by (unfold next_ordinal; lia).
  destruct (canonical_bytes_total (_commit_body (next_ordinal t) shard kind attempt (JObj reference) (rfc3339 now) (previous_digest t))) as [body Hbody].
  { apply commit_body_plain; unfold SAFE_INTEGER_MAX in *; [lia|subst attempt; lia|done]. }
  assert (_digest (_commit_body (next_ordinal t) shard kind attempt (JObj reference) (rfc3339 now) (previous_digest t)) = Ok (sha256 body)) as Hd.
  { unfold _digest. by rewrite Hbody. }
  destruct (decide (sha256 body ∈ (sg_sha256 <$> t_segments t))) as [(r & Er & Hr)%list_elem_of_fmap|Hnew]; [right|left].
  { exists r, (sha256 body). split_and!; try done. pose proof (quiet_idle c Hq Hidle) as Ec. fold t in Ec.
    pose proof (commit_segment_collides t shard kind attempt reference now text r (lo_chain _ _ Hok) Hk Ha1 Ht Hr) as Hx.
    rewrite Ec in Hx. apply Hx. by rewrite Hd, Er. }
  set (row := next_row t shard kind attempt text now (sha256 body)).
  assert (insert_segment row t = Ok (tt, add_segment row t)) as Hi.
  { apply insert_segment_intro; try done.
    - pose proof (chain_ordinals _ _ _ _ (lo_chain _ _ Hok)) as [_ Hb]. eapply Forall_impl; [exact Hb|]. intros r Hr. cbn in Hr |- *. unfold next_ordinal. lia.
    - constructor; [done| |].
      + apply Forall_forall. intros r Hr (Es & _ & Ea). apply (attempt_above t shard r Hr) in Es. cbn in Ea. unfold attempt in Ea. lia.
      + intros Ek. cbn in Ek |- *. specialize (Hres Ek). intros (r & Er & Hr)%list_elem_of_fmap. apply Hres. apply elem_of_results.
        apply list_elem_of_In, List.filter_In in Hr as [Hr Hrk%String.eqb_eq]. exists r. by rewrite list_elem_of_In. }
  assert (committed t shard kind attempt reference now row) as Hcom by by constructor.
  exists row. split_and!; [|done|].
  - rewrite <- (quiet_idle c Hq Hidle). by apply commit_segment_returns; [apply Hok|].
  - intros other. rewrite !elem_of_results. cbn. setoid_rewrite elem_of_app. setoid_rewrite list_elem_of_singleton. split.
    + intros (r & [Hr| ->] & Er & Hrk); [left; eauto|right]. cbn in Er, Hrk. by subst.
    + intros [(r & Hr & Er & Hrk)|[-> ->]]; [exists r; auto|exists row; auto].
Qed.

(** Work can always be recorded: on an idle connection of a reachable ledger, the next attempt of any shard
    (and a result while the shard has none) is committed, unless its digest collides with that of an earlier
    commit, when it raises and changes nothing; and the shard then is complete exactly if it was one or the attempt
    is a result. *)
Theorem fresh_attempt_commits campaign c shard kind reference now :
  reachable campaign c -> c_pending c = None -> mem kind ["attempt"; "result"] = true -> plain (JObj reference) ->
  (kind = "result" -> shard ∉ result_shard_ids (c_committed c)) ->
  attempt_number (c_committed c) shard <= SAFE_INTEGER_MAX -> next_ordinal (c_committed c) <= SAFE_INTEGER_MAX ->
  commits_next c shard kind reference now.
Proof. intros Hc%ledger_reachable_ok. by eapply next_commits. Qed.

(** ** A refused statement *)

(** A refused statement blocks the ledger: beginning a session under a known identifier, or ending one that is
    not active, raises and leaves its transaction open, and as long as nothing else is committed every commit of a
    segment raises "cannot start a transaction within a transaction" and so does every recovery. *)
Theorem refused_statement_blocks campaign c id now :
  reachable campaign c -> id ∈ (ss_id <$> t_sessions (c_committed c)) ->
  exists c', begin_session id now c = (Raise (ScaleRecoveryError "controller session identity was reused"), c') /\
  (Forall (fun s => is_active s = false) (t_sessions (c_committed c)) ->
     forall id' outcome now', mem outcome ["completed"; "forced-interruption"; "failed"] = true ->
       end_session id' outcome now' c = (Raise (ScaleRecoveryError "controller session is absent or already terminal"), c')) /\
  (forall now', recover_active_sessions now' c' = (Raise (OperationalError "cannot start a transaction within a transaction"), c')) /\
  forall shard kind attempt reference now', mem kind ["attempt"; "result"] = true -> 1 <= attempt -> plain (JObj reference) ->
    commit_segment shard kind attempt reference now' c' = (Raise (OperationalError "cannot start a transaction within a transaction"), c').
Proof.
  intros [Hq Hok]%ledger_reachable_ok Hid. exists (stuck c). rewrite begin_session_cases, decide_True by done. split_and!; [done| |done|].
  - intros Hno id' outcome now' Ho. rewrite end_session_cases by (done || apply Hok).
    assert (existsb (fun s => String.eqb (ss_id s) id' && is_active s) (t_sessions (c_committed c)) = false) as ->; [|done].
    apply existsb_false. eapply Forall_impl; [exact Hno|]. intros s Hs. cbn in Hs |- *. by rewrite Hs, andb_false_r.
  - intros shard kind attempt reference now' Hk Ha Hp. unfold commit_segment, lift, mbind, eff_bind. rewrite Hk.
    assert ((attempt <? 1) = false) as -> by lia. cbn [negb orb raise_if]. destruct (canonical_bytes_total _ Hp) as [text ->]. done.
Qed.

(** ** The chain binds *)

(** A reference without floating-point numbers. *)
Definition row_typed (r : segment_row) : Prop := forall v, loads_strict (sg_reference r) = Ok v -> plain v.

Definition collision : Prop := exists a b, a <> b /\ sha256 a = sha256 b.

(** What one verified row says. *)
Lemma verify_row_digest n p r st :
  verify_segment_row (n, p) r = Ok st -> row_typed r ->
  exists reference body, plain reference /\ normal reference = reference /\ canonical_bytes reference = Ok (sg_reference r) /\
    sg_previous r = p /\ plain (_commit_body (sg_ordinal r) (sg_shard r) (sg_kind r) (sg_attempt r) reference (sg_committed_at r) p) /\
    canonical_bytes (_commit_body (sg_ordinal r) (sg_shard r) (sg_kind r) (sg_attempt r) reference (sg_committed_at r) p) = Ok body /\
    sg_sha256 r = sha256 body.
Proof.
  unfold verify_segment_row. intros Hv Hr. apply bind_unit_ok in Hv as [_ Hv]. apply bind_ok in Hv as (reference & Hl & Hv).
  destruct (loads_strict (sg_reference r)) as [v|] eqn:El; [|done]. injection Hl as ->. specialize (Hr _ El).
  apply bind_ok in Hv as (text & Ht & Hv). apply bind_unit_ok in Hv as [He%raise_if_ok Hv]. apply negb_false_iff, String.eqb_eq in He. subst text.
  apply bind_unit_ok in Hv as [Hp%raise_if_ok Hv]. apply negb_false_iff, bool_decide_eq_true in Hp.
  apply bind_ok in Hv as (d & Hd & Hv). apply bind_unit_ok in Hv as [He%raise_if_ok _]. apply negb_false_iff, String.eqb_eq in He.
  pose proof (commit_body_domain _ _ _ _ _ _ _ (digest_domain _ _ Hd)) as [Ho Ha].
  unfold _digest in Hd. apply bind_ok in Hd as (body & Hb & [= <-]). exists reference, body. split_and!; try done.
  - apply loads_canonical in Ht; [|done]. congruence.
  - by apply commit_body_plain.
Qed.

(** Rows with the same digest are the same, and so are the digests before them. *)
Lemma row_digest_inj n1 n2 p1 p2 r1 r2 st1 st2 :
  verify_segment_row (n1, p1) r1 = Ok st1 -> verify_segment_row (n2, p2) r2 = Ok st2 -> row_typed r1 -> row_typed r2 ->
  sg_sha256 r1 = sg_sha256 r2 -> r1 = r2 /\ p1 = p2 \/ collision.
Proof.
  intros H3 H4 Ht1 Ht2 Hd. apply verify_row_digest in H3 as (v1 & b1 & Hv1 & N1 & C1 & P1 & L1 & B1 & D1); [|done].
  apply verify_row_digest in H4 as (v2 & b2 & Hv2 & N2 & C2 & P2 & L2 & B2 & D2); [|done].
  destruct (decide (b1 = b2)) as [->|Hne]; [left|right; exists b1, b2; split; congruence].
  pose proof (canonical_bytes_inj _ _ _ L1 L2 B1 B2) as Hn. rewrite !commit_body_normal, N1, N2 in Hn.
  destruct r1, r2. cbn in *. injection Hn. intros. subst. rewrite C1 in C2. injection C2 as ->.
  assert (p1 = p2) as -> by (destruct p1, p2; cbn in *; congruence). done.
Qed.

Lemma chain_inj l1 : forall l2 n1 n2 p,
  fold_result verify_segment_row l1 (1, None) = Ok (n1, p) -> fold_result verify_segment_row l2 (1, None) = Ok (n2, p) ->
  Forall row_typed l1 -> Forall row_typed l2 -> l1 = l2 \/ collision.
Proof.
  induction l1 as [|r1 l1 IH] using rev_ind; intros l2 n1 n2 p F1 F2 T1 T2; destruct l2 as [|r2 l2 _] using rev_ind.
  - by left.
  - cbn in F1. injection F1 as _ <-. rewrite fold_result_app in F2. apply bind_ok in F2 as ([m q] & _ & F2).
    apply bind_ok in F2 as (st & Hr & [= ->]). by apply verify_row_ok in Hr as [_ [=]].
  - cbn in F2. injection F2 as _ <-. rewrite fold_result_app in F1. apply bind_ok in F1 as ([m q] & _ & F1).
    apply bind_ok in F1 as (st & Hr & [= ->]). by apply verify_row_ok in Hr as [_ [=]].
  - rewrite fold_result_app in F1, F2. apply bind_ok in F1 as ([m1 q1] & F1 & E1). apply bind_ok in F2 as ([m2 q2] & F2 & E2).
    apply bind_ok in E1 as (st1 & R1 & [= ->]). apply bind_ok in E2 as (st2 & R2 & [= ->]).
    apply Forall_app in T1 as [T1 [X1 _]%Forall_cons], T2 as [T2 [X2 _]%Forall_cons].
    pose proof (verify_row_ok _ _ _ _ R1) as [_ [= _ Ep1]]. pose proof (verify_row_ok _ _ _ _ R2) as [_ [= _ Ep2]].
    destruct (row_digest_inj _ _ _ _ _ _ _ _ R1 R2 X1 X2) as [[-> ->]|]; [congruence| |by right].
    destruct (IH l2 m1 m2 q2 F1 F2 T1 T2) as [->|]; [by left|by right].
Qed.

(** The last digest binds the whole history: two ledgers that both verify and end in the same commit digest
    record exactly the same segments, references included, or SHA-256 has a collision. *)
Theorem chain_binds campaign1 campaign2 t1 t2 :
  verify campaign1 t1 = Ok tt -> verify campaign2 t2 = Ok tt ->
  Forall row_typed (t_segments t1) -> Forall row_typed (t_segments t2) ->
  sg_sha256 <$> last (ordered_segments t1) = sg_sha256 <$> last (ordered_segments t2) ->
  ordered_segments t1 = ordered_segments t2 \/ collision.
Proof.
  assert (forall campaign t, verify campaign t = Ok tt -> exists n, fold_result verify_segment_row (ordered_segments t) (1, None) = Ok (n, sg_sha256 <$> last (ordered_segments t))) as Hfold.
  { intros campaign t Hv. unfold verify in Hv. apply bind_unit_ok in Hv as [_ Hv]. apply bind_unit_ok in Hv as [_ Hv].
    apply bind_ok in Hv as ([n p] & Hf & _). exists n. rewrite Hf. do 2 f_equal. destruct (ordered_segments t) as [|r l _] using rev_ind; [by injection Hf|].
    rewrite fold_result_app in Hf. apply bind_ok in Hf as ([m q] & _ & Hf). apply bind_ok in Hf as (st & Hr & [= ->]).
    apply verify_row_ok in Hr as [_ [= _ ->]]. by rewrite last_snoc. }
  intros V1 V2 T1 T2 E. destruct (Hfold _ _ V1) as [n1 F1], (Hfold _ _ V2) as [n2 F2]. rewrite <- E in F2.
  eapply chain_inj; [exact F1|exact F2| |]; unfold ordered_segments; by rewrite sorted_by_perm.
Qed.
End Life.

(** ** A ledger *)

Module LedgerSample.
#[local] Existing Instance reference_jcs.
#[local] Instance sample_float : PyFloat := fun _ => SpecFloat.S754_nan.

Definition campaign : string := "campaign-a".
Definition noon : Z := 1700000000000000.
Definition reference (path : string) : list (string * json) := [("path", JStr path); ("size_bytes", JInt 12)].

(** A session whose first attempt fails and whose second is the result. *)
Definition new : connection := connect (new_tables campaign).
Definition begun : connection := (begin_session "session-1" noon new).2.
Definition tried : connection := (commit_segment "shard-1" "attempt" 1 (reference "a") (noon + 1000000) begun).2.
Definition done_once : connection := (commit_segment "shard-1" "result" 2 (reference "b") (noon + 2000000) tried).2.
Definition stopped : connection := (record_interruption "stop-1" "controller-restart" 1 "session-1" None (noon + 3000000) done_once).2.
Definition closed : connection := (end_session "session-1" "forced-interruption" (noon + 4000000) stopped).2.

Lemma reference_plain path : plain (JObj (reference path)).
Proof.
  constructor; [apply (bool_decide_unpack _); by vm_compute|]. repeat (apply Forall_cons; split; [constructor; unfold SAFE_INTEGER_MAX; lia|]). apply Forall_nil_2.
Qed.
Lemma reachable_new : reachable campaign new.
Proof. exists new. split; [apply new_ledger|done]. Qed.
Lemma tried_steps : rtc (ledger_step campaign) new tried.
Proof. eapply rtc_l; [apply (step_begin campaign new "session-1" noon)|]. apply rtc_once, step_commit, reference_plain. Qed.
Lemma done_steps : rtc (ledger_step campaign) tried done_once.
Proof. apply rtc_once, step_commit, reference_plain. Qed.
Lemma closed_steps : rtc (ledger_step campaign) done_once closed.
Proof.
  eapply rtc_l; [apply (step_interruption campaign done_once "stop-1" "controller-restart" 1 "session-1" None (noon + 3000000)), plain_null|].
  apply rtc_once, step_end.
Qed.
Lemma reachable_tried : reachable campaign tried.
Proof. exists new. split; [apply new_ledger|exact tried_steps]. Qed.
Lemma reachable_done : reachable campaign done_once.
Proof. exists new. split; [apply new_ledger|]. etrans; [exact tried_steps|exact done_steps]. Qed.
Lemma reachable_closed : reachable campaign closed.
Proof. exists new. split; [apply new_ledger|]. etrans; [exact tried_steps|]. etrans; [exact done_steps|exact closed_steps]. Qed.

Lemma tried_idle : c_pending tried = None.
Proof. by vm_compute. Qed.
Lemma done_result : "shard-1" ∈ result_shard_ids (c_committed done_once).
Proof. apply (bool_decide_unpack _). by vm_compute. Qed.
Lemma tried_result : "shard-1" ∉ result_shard_ids (c_committed tried).
Proof. apply (bool_decide_unpack _). by vm_compute. Qed.
Lemma closed_session : "session-1" ∈ (ss_id <$> t_sessions (c_committed closed)).
Proof. apply (bool_decide_unpack _). by vm_compute. Qed.
End LedgerSample.

Import LedgerSample.
#[local] Existing Instance reference_jcs.
#[local] Existing Instance sample_float.


Lemma result_committed_once_witness :
  exists e, commit_segment "shard-1" "result" 3 (reference "c") (noon + 5000000) closed = (Raise e, closed).
Proof.
  destruct (result_committed_once campaign done_once closed reachable_done closed_steps) as (_ & _ & Hno). apply Hno, done_result.
Defined.

Lemma fresh_attempt_commits_witness : commits_next tried "shard-1" "result" (reference "b") (noon + 2000000) /\ attempt_number (c_committed tried) "shard-1" = 2.
Proof.
  split; [|by vm_compute]. apply (fresh_attempt_commits campaign); [exact reachable_tried|exact tried_idle|done|apply reference_plain|intros _; exact tried_result| |];
    apply Z.leb_le; by vm_compute.
Defined.

Lemma refused_statement_blocks_witness :
  exists c', begin_session "session-1" (noon + 5000000) closed = (Raise (ScaleRecoveryError "controller session identity was reused"), c') /\
    commit_segment "shard-2" "attempt" 1 (reference "d") (noon + 6000000) c' =
      (Raise (OperationalError "cannot start a transaction within a transaction"), c').
Proof.
  destruct (refused_statement_blocks campaign closed "session-1" (noon + 5000000) reachable_closed closed_session) as (c' & Hb & _ & _ & Hc).
  exists c'. split; [exact Hb|]. apply Hc; [done|lia|apply reference_plain].
Defined.

(** Text of [reference] reads as a plain document. *)
Lemma closed_typed : Forall row_typed (t_segments (c_committed closed)).
Proof.
  pose proof (lo_segments _ _ (co_ledger _ _ (ledger_reachable_ok _ _ reachable_closed))) as Hs. eapply Forall_impl; [exact Hs|].
  intros r [_ _ (fields & Hp & Ht)] v Hv. pose proof (loads_canonical _ _ Hp Ht) as Hl. rewrite Hl in Hv. injection Hv as <-. apply (plain_normal (JObj fields) Hp).
Qed.
Lemma chain_binds_witness : ordered_segments (c_committed closed) = ordered_segments (c_committed done_once) \/ collision.
Proof.
  apply (chain_binds campaign campaign).
  - apply ledger_verifies, (co_ledger _ _ (ledger_reachable_ok _ _ reachable_closed)).
  - apply ledger_verifies, (co_ledger _ _ (ledger_reachable_ok _ _ reachable_done)).
  - exact closed_typed.
  - assert (t_segments (c_committed done_once) = t_segments (c_committed closed)) as -> by (vm_cast_no_check (eq_refl (t_segments (c_committed closed)))). exact closed_typed.
  - vm_cast_no_check (eq_refl (sg_sha256 <$> last (ordered_segments (c_committed closed)))).
Defined.
