(* ===== verification/ScaleController.v ===== *)
(** * The controller of a scale campaign

    [ScaleCampaignController] of execution.py: a session verifies and recovers the
    shard ledger, then runs one shard after another until every shard has a result or
    a planned interruption is due.  The worker, the evidence store, the store of
    logical executions, the clock and the sources of fresh identifiers are the class
    [ScaleWorld] over an abstract world; the state of a run is the connection to the
    ledger and the world.  [PlannedInterruption] is a result, not an exception. *)

From S2P Require Export ScaleLedger.

Definition ScaleExecutionError (msg : string) : exn := OtherException "ScaleExecutionError" msg.

(** ** The plan *)

Record planned_interruption := { pi_key : string; pi_action : string; pi_after_committed_shards : Z }.
Record scale_shard := { sd_shard_id : string; sd_selection_key : string; sd_fields : list (string * json) }.
Record scale_plan := {
  pl_campaign_manifest_id : string; pl_shards : list scale_shard; pl_planned_interruptions : list planned_interruption
}.

Record logical_execution := { le_id : string; le_fields : list (string * json) }.
Record infrastructure_failure := { if_code : string; if_message : string }.
Record attempt_record := {
  ar_attempt_number : Z; ar_ended_at : string; ar_infrastructure_failure : option infrastructure_failure;
  ar_logical_execution_id : string; ar_outcome : string; ar_physical_run_id : string; ar_started_at : string
}.
(** What [force_kill] reports of the worker process. *)
Record killed_process := {
  kp_started_at : string; kp_ended_at : string; kp_trust_class : string; kp_exit_code : option Z; kp_selection_key : string
}.
Record evidence_manifest := {
  em_accepted_observation_count : Z; em_attempt_count : Z; em_evidence_manifest_id : string; em_reference : json;
  em_infrastructure_failure_attempt_count : Z; em_logical_execution_count : Z; em_result_shard_count : Z
}.

(** ** The collaborators *)

Class ScaleWorld (W : Type) := {
  world_clock : W -> Z * W;
  new_session : eff W string;
  assigned_run_id : eff W string;
  load_shard : scale_shard -> eff W (list logical_execution);
  execute_shard : string -> list logical_execution -> eff W (list json * list (string * json));
  force_kill : string -> eff W killed_process;
  write_result_segment : scale_shard -> list logical_execution -> Z -> list attempt_record -> list json ->
    list (string * json) -> string -> eff W (list (string * json));
  verify_segment : list (string * json) -> scale_shard -> list logical_execution -> eff W (list (string * json));
  publish_manifest : list CommittedSegment -> list (list (string * json)) -> eff W evidence_manifest;
  validate_report : json -> result unit
}.

(** [dict.get(key)] and [{**fields, key: value}] *)
Definition dict_get (key : string) (fields : list (string * json)) : option json :=
  snd <$> List.find (fun p => String.eqb p.1 key) fields.
Definition dict_update (fields updates : list (string * json)) : list (string * json) :=
  foldl (fun d p => dict_set p.1 p.2 d) fields updates.

(** [try: m except Exception as error], both ways as a value. *)
Definition attempting {W A} (m : eff W A) : eff W (A + exn) := fun w =>
  match m w with (Ok a, w') => (Ok (inl a), w') | (Raise e, w') => (Ok (inr e), w') end.
(** [mapM] of an effectful function. *)
Fixpoint eff_map {W A B} (f : A -> eff W B) (l : list A) : eff W (list B) :=
  match l with [] => mret [] | x :: l' => y ← f x; ys ← eff_map f l'; mret (y :: ys) end.

Section Controller.
Context `{JCS} `{PyFloat} `{OSText} {W : Type} `{World : ScaleWorld W}.
Context (plan : scale_plan).

(** The ledger and the world. *)
Definition on_world {A} (m : eff W A) : eff (connection * W) A := fun s =>
  let '(r, w) := m s.2 in (r, (s.1, w)).
Definition on_ledger {A} (m : Z -> eff connection A) : eff (connection * W) A := fun s =>
  let '(now, w) := world_clock s.2 in let '(r, c) := m now s.1 in (r, (c, w)).
Definition reading {A} (q : tables -> result A) : eff (connection * W) A := fun s => (q (view s.1), s).
Definition _stamp : eff (connection * W) string := fun s => let '(now, w) := world_clock s.2 in (Ok (rfc3339 now), (s.1, w)).

(** [{item["shard_id"]: item for item in plan["shards"]}]; the constructor refuses
    colliding identities. *)
Definition shard_by_id (shard_id : string) : option scale_shard :=
  last (List.filter (fun s => String.eqb (sd_shard_id s) shard_id) (pl_shards plan)).
Definition collision_check : result unit :=
  raise_if (has_duplicates (sd_shard_id <$> pl_shards plan)) (ScaleExecutionError "scale plan contains colliding shard identities").

Definition _attempts (logicals : list logical_execution) (attempt_number : Z) (started_at ended_at : string)
    (failure : option infrastructure_failure) : eff (connection * W) (list attempt_record) :=
  let outcome := match failure with None => "target-observation" | Some _ => "infrastructure-failure" end in
  eff_map (fun logical =>
    run ← on_world assigned_run_id;
    mret {| ar_attempt_number := attempt_number; ar_ended_at := ended_at; ar_infrastructure_failure := failure;
            ar_logical_execution_id := le_id logical; ar_outcome := outcome; ar_physical_run_id := run;
            ar_started_at := started_at |}) logicals.

Definition _progress : eff (connection * W) json :=
  completed ← reading (fun t => Ok (Z.of_nat (size (result_shard_ids t))));
  events ← reading interruptions;
  mret (JObj [("campaign_manifest_id", JStr (pl_campaign_manifest_id plan)); ("committed_result_shards", JInt completed);
              ("interruption_count", JInt (Z.of_nat (length events)));
              ("remaining_result_shards", JInt (Z.of_nat (length (pl_shards plan)) - completed));
              ("schema_version", JStr "scale-execution-progress.v1")]).

Definition recover_segment (committed : CommittedSegment) : eff (connection * W) unit :=
  match shard_by_id (cs_shard_id committed) with
  | None => lift (Raise (ScaleExecutionError "recovery ledger references a shard outside the campaign"))
  | Some shard =>
      logicals ← on_world (load_shard shard);
      _ ← on_world (verify_segment (cs_reference committed) shard logicals);
      mret tt
  end.
Definition _verify_recovery : eff (connection * W) unit :=
  _ ← reading (verify (pl_campaign_manifest_id plan));
  _ ← on_ledger recover_active_sessions;
  committed ← reading segments;
  _ ← eff_map recover_segment committed;
  mret tt.

(** [item["interruption_key"]] of an event. *)
Definition event_key (event : list (string * json)) : string :=
  match dict_get "interruption_key" event with Some (JStr key) => key | _ => "" end.
Definition _due_interruption : eff (connection * W) (option planned_interruption) :=
  completed ← reading (fun t => Ok (Z.of_nat (size (result_shard_ids t))));
  events ← reading interruptions;
  let observed := event_key <$> events in
  mret (List.find (fun i => (pi_after_committed_shards i =? completed) && negb (mem (pi_key i) observed))
          (pl_planned_interruptions plan)).

(** The first shard without a result. *)
Definition next_shard (completed : gset string) : option scale_shard :=
  List.find (fun s => negb (bool_decide (sd_shard_id s ∈ completed))) (pl_shards plan).

Definition record (session_id : string) (interruption : planned_interruption) (worker : option (list (string * json)))
    : eff (connection * W) (list (string * json)) :=
  on_ledger (record_interruption (pi_key interruption) (pi_action interruption) (pi_after_committed_shards interruption)
               session_id worker).

(** The worker process an attempt of an earlier session has recorded for this
    interruption, if it died before the interruption was. *)
Definition killed_before (interruption : planned_interruption) (provenance : list (string * json)) : option (list (string * json)) :=
  match dict_get "forced_interruption" provenance, dict_get "worker_process" provenance with
  | Some (JStr key), Some (JObj worker) => if String.eqb key (pi_key interruption) then Some worker else None
  | _, _ => None
  end.

Definition worker_fields (worker : killed_process) : list (string * json) :=
  [("exit_code", JOptInt (kp_exit_code worker)); ("forced", JBool true); ("selection_key", JStr (kp_selection_key worker))].

(** Kill the worker of the shard and record the attempt and the interruption. *)
Definition kill_worker (session_id : string) (interruption : planned_interruption) (shard : scale_shard)
    (logicals : list logical_execution) : eff (connection * W) (list (string * json)) :=
  attempt ← reading (fun t => Ok (attempt_number t (sd_shard_id shard)));
  worker ← on_world (force_kill (sd_selection_key shard));
  attempts ← _attempts logicals attempt (kp_started_at worker) (kp_ended_at worker)
    (Some {| if_code := "forced-worker-process-kill"; if_message := "qualification deliberately killed the exact shard worker" |});
  reference ← on_world (write_result_segment shard logicals attempt attempts []
    [("controller_session_id", JStr session_id); ("forced_interruption", JStr (pi_key interruption));
     ("trust_class", JStr (kp_trust_class worker)); ("worker_process", JObj (worker_fields worker))] "attempt");
  _ ← on_ledger (commit_segment (sd_shard_id shard) "attempt" attempt reference);
  record session_id interruption (Some (worker_fields worker)).

Definition _interrupt (session_id : string) (interruption : planned_interruption)
    : eff (connection * W) (list (string * json) * json) :=
  event ←
    (if String.eqb (pi_action interruption) "controller-restart" then record session_id interruption None
     else
       completed ← reading (fun t => Ok (result_shard_ids t));
       match next_shard completed with
       | None => lift (Raise StopIteration)
       | Some shard =>
           logicals ← on_world (load_shard shard);
           committed ← reading segments;
           let prior := List.filter (fun s => String.eqb (cs_shard_id s) (sd_shard_id shard) &&
                                              String.eqb (cs_segment_kind s) "attempt") committed in
           match last prior with
           | None => kill_worker session_id interruption shard logicals
           | Some segment =>
               provenance ← on_world (verify_segment (cs_reference segment) shard logicals);
               match killed_before interruption provenance with
               | Some worker => record session_id interruption (Some worker)
               | None => kill_worker session_id interruption shard logicals
               end
           end
       end);
  _ ← on_ledger (end_session session_id "forced-interruption");
  progress ← _progress;
  mret (event, progress).

(** [str(error)[:1900]] *)
Definition failure_of (error : exn) : infrastructure_failure :=
  {| if_code := "scale-shard-infrastructure-failure";
     if_message := exn_class error +:+ ": " +:+ String.substring 0 1900 (exn_str error) |}.

(** One shard: run it, and record what came of it. *)
Definition run_shard (session_id trust_class : string) (shard : scale_shard) : eff (connection * W) unit :=
  logicals ← on_world (load_shard shard);
  attempt ← reading (fun t => Ok (attempt_number t (sd_shard_id shard)));
  _ ← lift (raise_if (3 <? attempt) (ScaleExecutionError "scale shard exhausted its frozen physical-attempt limit"));
  started_at ← _stamp;
  outcome ← attempting (on_world (execute_shard (sd_selection_key shard) logicals));
  ended_at ← _stamp;
  match outcome with
  | inr error =>
      attempts ← _attempts logicals attempt started_at ended_at (Some (failure_of error));
      reference ← on_world (write_result_segment shard logicals attempt attempts []
        [("controller_session_id", JStr session_id); ("failure_type", JStr (exn_class error));
         ("trust_class", JStr trust_class)] "attempt");
      _ ← on_ledger (commit_segment (sd_shard_id shard) "attempt" attempt reference);
      mret tt
  | inl (results, provenance) =>
      attempts ← _attempts logicals attempt started_at ended_at None;
      reference ← on_world (write_result_segment shard logicals attempt attempts results
        (dict_update provenance [("controller_session_id", JStr session_id); ("trust_class", JStr trust_class)]) "result");
      _ ← on_ledger (commit_segment (sd_shard_id shard) "result" attempt reference);
      mret tt
  end.

(** The loop of [execute]; every pass but the last commits a segment. *)
Fixpoint run_shards (fuel : nat) (session_id trust_class : string)
    : eff (connection * W) (option (list (string * json) * json)) :=
  match fuel with
  | O => lift (Raise no_fuel)
  | S n =>
      interruption ← _due_interruption;
      match interruption with
      | Some i => planned ← _interrupt session_id i; mret (Some planned)
      | None =>
          completed ← reading (fun t => Ok (result_shard_ids t));
          match next_shard completed with
          | None => mret None
          | Some shard => _ ← run_shard session_id trust_class shard; run_shards n session_id trust_class
          end
      end
  end.

Inductive execution :=
| Completed (manifest : evidence_manifest) (report : json)
| Interrupted (event : list (string * json)) (progress : json).

(** After the loop: every planned interruption has happened, and the manifest. *)
Definition finish (session_id : string) : eff (connection * W) (evidence_manifest * Z) :=
  events ← reading interruptions;
  _ ← lift (raise_if (negb (Z.of_nat (length events) =? Z.of_nat (length (pl_planned_interruptions plan))))
        (ScaleExecutionError "campaign completed shards without every planned interruption"));
  committed ← reading segments;
  manifest ← on_world (publish_manifest committed events);
  _ ← on_ledger (end_session session_id "completed");
  mret (manifest, Z.of_nat (length events)).

Definition execution_report (trust_class : string) (manifest : evidence_manifest) (interruption_count : Z)
    (summary : list (string * json)) : json :=
  JObj [("accepted_observation_count", JInt (em_accepted_observation_count manifest));
        ("attempt_count", JInt (em_attempt_count manifest));
        ("campaign_manifest_id", JStr (pl_campaign_manifest_id plan));
        ("evidence_manifest_id", JStr (em_evidence_manifest_id manifest));
        ("evidence_manifest_reference", em_reference manifest);
        ("infrastructure_failure_attempt_count", JInt (em_infrastructure_failure_attempt_count manifest));
        ("interruption_count", JInt interruption_count);
        ("logical_execution_count", JInt (em_logical_execution_count manifest));
        ("reconciliation", JStr "exact"); ("result_shard_count", JInt (em_result_shard_count manifest));
        ("schema_version", JStr "scale-execution-report.v1"); ("session_summary", JObj summary);
        ("trust_class", JStr trust_class)].

(** What runs before the session is terminal. *)
Definition session_body (fuel : nat) (session_id trust_class : string)
    : eff (connection * W) ((list (string * json) * json) + (evidence_manifest * Z)) :=
  planned ← run_shards fuel session_id trust_class;
  match planned with
  | Some p => mret (inl p)
  | None => done ← finish session_id; mret (inr done)
  end.

Definition execute (fuel : nat) (trust_class : string) : eff (connection * W) execution :=
  _ ← _verify_recovery;
  session_id ← on_world new_session;
  _ ← on_ledger (begin_session session_id);
  outcome ← try_eff (session_body fuel session_id trust_class)
    (fun e => _ ← on_ledger (end_session session_id "failed"); lift (Raise e));
  match outcome with
  | inl (event, progress) => mret (Interrupted event progress)
  | inr (manifest, interruption_count) =>
      summary ← reading (fun t => Ok (session_summary t));
      let report := execution_report trust_class manifest interruption_count summary in
      _ ← lift (validate_report report);
      mret (Completed manifest report)
  end.
End Controller.
