(* ===== verification/ScaleRuns.v ===== *)
(** * Runs of the scale controller

    A run of [execute] is a sequence of ledger operations: [run P m] says that the
    computation [m] takes the ledger by [ledger_step]s from one well-formed
    connection to another and that a value it returns satisfies [P].  Each part of
    the controller is shown to be such a run by composing its parts. *)

From S2P Require Export ScaleController LedgerProperties.

(** What the collaborators promise: documents they hand to the ledger are plain. *)
Class ScaleWorldLaws (W : Type) `{ScaleWorld W} : Prop := {
  written_plain shard logicals attempt attempts results provenance kind w reference w' :
    write_result_segment shard logicals attempt attempts results provenance kind w = (Ok reference, w') -> plain (JObj reference);
  verified_plain reference shard logicals w provenance w' :
    verify_segment reference shard logicals w = (Ok provenance, w') -> plain (JObj provenance);
  killed_plain key w worker w' : force_kill key w = (Ok worker, w') -> plain (JObj (worker_fields worker))
}.

Section Runs.
Context `{JCSLaws} `{!JCSDomain} `{OSText} {W : Type} `{World : ScaleWorld W} `{!ScaleWorldLaws W}.
Context (plan : scale_plan).
Abbreviation campaign := (pl_campaign_manifest_id plan).

(** A recorded interruption is the planned one. *)
Definition planned_row (row : interruption_row) : Prop :=
  exists i, i ∈ pl_planned_interruptions plan /\ in_key row = pi_key i /\ in_after row = pi_after_committed_shards i.
(** On the way, results are committed within the limit of three attempts, and only
    for shards of the plan, and only planned interruptions are recorded. *)
Record within (c c' : connection) : Prop := {
  within_limit : forall r, r ∈ t_segments (c_committed c') -> r ∈ t_segments (c_committed c) \/ sg_kind r = "attempt" \/ sg_attempt r <= 3;
  within_shards : forall r, r ∈ t_segments (c_committed c') -> r ∈ t_segments (c_committed c) \/ sg_shard r ∈ (sd_shard_id <$> pl_shards plan);
  within_plan : forall i, i ∈ t_interruptions (c_committed c') -> i ∈ t_interruptions (c_committed c) \/ planned_row i
}.
Lemma within_same c c' :
  t_segments (c_committed c') = t_segments (c_committed c) -> t_interruptions (c_committed c') = t_interruptions (c_committed c) -> within c c'.
Proof. intros Es Ei. constructor; intros r Hr; left; congruence. Qed.
Definition moves (c c' : connection) : Prop := rtc (ledger_step campaign) c c' /\ within c c'.
#[global] Instance moves_preorder : PreOrder moves.
Proof.
  split; [intros c; split; [done|by apply within_same]|]. intros c1 c2 c3 [S1 [W1 U1 V1]] [S2 [W2 U2 V2]]. split; [by etrans|]. constructor.
  - intros r Hr. destruct (W2 r Hr) as [Hr2|]; [by apply W1|by right].
  - intros r Hr. destruct (U2 r Hr) as [Hr2|]; [by apply U1|by right].
  - intros r Hr. destruct (V2 r Hr) as [Hr2|]; [by apply V1|by right].
Qed.

Definition run {A} (P : A -> Prop) (m : eff (connection * W) A) : Prop :=
  forall c w r c' w', connection_ok campaign c -> m (c, w) = (r, (c', w')) ->
    moves c c' /\ match r with Ok a => P a | Raise _ => True end.

Lemma steps_ok c c' : connection_ok campaign c -> rtc (ledger_step campaign) c c' -> connection_ok campaign c'.
Proof. intros Hc. induction 1 as [|c1 c2 c3 Hs _ IH]; [done|]. by eapply IH, step_ok. Qed.

Lemma moves_ok c c' : connection_ok campaign c -> moves c c' -> connection_ok campaign c'.
Proof. intros Hc [Hs _]. by eapply steps_ok. Qed.
Lemma run_weaken {A} (P Q : A -> Prop) m : run P m -> (forall a, P a -> Q a) -> run Q m.
Proof. intros Hm HPQ c w r c' w' Hc E. destruct (Hm _ _ _ _ _ Hc E) as [Hs Hr]. split; [done|]. destruct r; auto. Qed.
Lemma run_true {A} (P : A -> Prop) m : run P m -> run (fun _ => True) m.
Proof. intros Hm. by eapply run_weaken. Qed.
Lemma run_ret {A} (P : A -> Prop) a : P a -> run P (mret a).
Proof. intros Ha c w r c' w' _ [= <- <- _]. done. Qed.
Lemma run_lift {A} (P : A -> Prop) (x : result A) : (forall a, x = Ok a -> P a) -> run P (lift x).
Proof. intros Hx c w r c' w' _ [= <- <- _]. split; [done|]. destruct x; auto. Qed.
Lemma run_bind {A B} (P : A -> Prop) (Q : B -> Prop) m f : run P m -> (forall a, P a -> run Q (f a)) -> run Q (a ← m; f a).
Proof.
  intros Hm Hf c w r c' w' Hc. unfold mbind, eff_bind. destruct (m (c, w)) as [[a|e] [c1 w1]] eqn:E.
  - intros E'. destruct (Hm _ _ _ _ _ Hc E) as [Hs Ha]. destruct (Hf a Ha _ _ _ _ _ (moves_ok _ _ Hc Hs) E') as [Hs' Hr]. split; [by etrans|done].
  - intros [= <- <- <-]. by destruct (Hm _ _ _ _ _ Hc E).
Qed.
Lemma run_reading {A} (P : A -> Prop) (q : tables -> result A) : (forall t a, q t = Ok a -> P a) -> run P (reading q).
Proof. intros Hq c w r c' w' _ [= <- <- _]. split; [done|]. cbn. destruct (q (view c)) eqn:E; eauto. Qed.
Lemma run_world {A} (P : A -> Prop) (m : eff W A) : (forall w a w', m w = (Ok a, w') -> P a) -> run P (on_world m).
Proof.
  intros Hm c w r c' w' _. unfold on_world. cbn. destruct (m w) as [x w1] eqn:E. intros [= <- <- <-]. split; [done|]. destruct x; eauto.
Qed.
Lemma run_stamp : run (fun _ => True) _stamp.
Proof. intros c w r c' w' _. unfold _stamp. cbn. destruct (world_clock w) as [now w1]. by intros [= <- <- <-]. Qed.
Lemma run_ledger {A} (m : Z -> eff connection A) :
  (forall now c, connection_ok campaign c -> moves c (m now c).2) -> run (fun _ => True) (on_ledger m).
Proof.
  intros Hm c w r c' w' Hc. unfold on_ledger. cbn. destruct (world_clock w) as [now w1]. specialize (Hm now c Hc). destruct (m now c) as [x c1].
  intros [= <- <- <-]. split; [done|by destruct x].
Qed.
Lemma run_session {A} (m : Z -> eff connection A) :
  (forall now c, ledger_step campaign c (m now c).2) ->
  (forall now c, connection_ok campaign c -> t_segments (c_committed (m now c).2) = t_segments (c_committed c) /\
     t_interruptions (c_committed (m now c).2) = t_interruptions (c_committed c)) -> run (fun _ => True) (on_ledger m).
Proof. intros Hm Hs. apply run_ledger. intros now c Hc. split; [by apply rtc_once|]. destruct (Hs now c Hc). by apply within_same. Qed.
Lemma run_begin session : run (fun _ => True) (on_ledger (begin_session session)).
Proof. apply run_session; [by constructor|]. intros now c [Hq _]. rewrite begin_session_cases by done. by case_decide. Qed.
Lemma run_recover : run (fun _ => True) (on_ledger recover_active_sessions).
Proof. apply run_session; [by constructor|]. intros now c [Hq _]. rewrite recover_cases by done. by destruct (c_pending c). Qed.
Lemma end_session_segments session outcome now c :
  connection_ok campaign c -> t_segments (c_committed (end_session session outcome now c).2) = t_segments (c_committed c) /\
    t_interruptions (c_committed (end_session session outcome now c).2) = t_interruptions (c_committed c).
Proof.
  intros [Hq Hok]. destruct (mem outcome ["completed"; "forced-interruption"; "failed"]) eqn:Ho.
  - rewrite end_session_cases by (done || apply Hok). by destruct (existsb _ _).
  - unfold end_session. by rewrite Ho.
Qed.
Lemma run_end session outcome : run (fun _ => True) (on_ledger (end_session session outcome)).
Proof. apply run_session; [by constructor|]. apply end_session_segments. Qed.
Lemma run_attempting {A} (m : eff (connection * W) A) : run (fun _ => True) m -> run (fun _ => True) (attempting m).
Proof.
  intros Hm c w r c' w' Hc. unfold attempting. destruct (m (c, w)) as [[a|e] [c1 w1]] eqn:E; intros [= <- <- <-]; by destruct (Hm _ _ _ _ _ Hc E).
Qed.
Lemma run_try {A} (P : A -> Prop) m h : run P m -> (forall e, run P (h e)) -> run P (try_eff m h).
Proof.
  intros Hm Hh c w r c' w' Hc. unfold try_eff. destruct (m (c, w)) as [[a|e] [c1 w1]] eqn:E; destruct (Hm _ _ _ _ _ Hc E) as [Hs Ha].
  - by intros [= <- <- <-].
  - intros E'. destruct (Hh e _ _ _ _ _ (moves_ok _ _ Hc Hs) E') as [Hs' Hr]. split; [by etrans|done].
Qed.
Lemma run_map {A B} (f : A -> eff (connection * W) B) l : (forall x, run (fun _ => True) (f x)) -> run (fun _ => True) (eff_map f l).
Proof.
  intros Hf. induction l as [|x l IH]; cbn; [by apply run_ret|]. eapply run_bind; [apply Hf|]. intros y _.
  eapply run_bind; [exact IH|]. intros ys _. by apply run_ret.
Qed.

#[local] Opaque run.

(** Find the parts. *)
Ltac run_step := first
  [ done
  | apply run_ret; done
  | apply run_lift; done
  | apply run_stamp
  | apply run_reading; done
  | apply run_map; intros ?
  | apply run_attempting
  | first [apply run_begin|apply run_recover|apply run_end]
  | eapply (run_bind (fun _ => True)); [|intros ? _]
  | apply run_world; done ].
Ltac runs := repeat run_step.

Lemma run_attempts logicals attempt started_at ended_at failure : run (fun _ => True) (_attempts logicals attempt started_at ended_at failure).
Proof. unfold _attempts. runs. Qed.
Lemma run_progress : run (fun _ => True) (_progress plan).
Proof. unfold _progress. runs. Qed.

Lemma run_write shard logicals attempt attempts results provenance kind :
  run (fun reference => plain (JObj reference)) (on_world (write_result_segment shard logicals attempt attempts results provenance kind)).
Proof. apply run_world. intros w a w'. apply written_plain. Qed.
Lemma run_commit shard kind attempt reference :
  shard ∈ (sd_shard_id <$> pl_shards plan) -> plain (JObj reference) -> kind = "attempt" \/ attempt <= 3 -> run (fun _ => True) (on_ledger (commit_segment shard kind attempt reference)).
Proof.
  intros Hin Hp Hlimit. apply run_ledger. intros now c [Hq Hok]. split; [by apply rtc_once, step_commit|].
  destruct (commit_segment _ _ _ _ _ c) as [x c'] eqn:E.
  apply commit_segment_cases in E as [(e & -> & ->)|(row & _ & Hrow & -> & ->)]; [by apply within_same| |done|apply Hok].
  pose proof (committed_row _ _ _ _ _ _ _ Hrow) as Er. constructor; [| |by left]; intros r; cbn; rewrite elem_of_app, list_elem_of_singleton;
    (intros [Hr| ->]; [by left|right]); by rewrite Er.
Qed.
Lemma run_record session i worker :
  i ∈ pl_planned_interruptions plan -> plain (worker_json worker) -> run (fun _ => True) (record session i worker).
Proof.
  intros Hi Hp. apply run_ledger. intros now c [Hq _]. split; [by apply rtc_once, step_interruption|].
  destruct (record_interruption _ _ _ _ _ _ c) as [x c'] eqn:E.
  apply record_interruption_cases in E as [(e & -> & [-> | ->])|(row & event & Hrow & -> & ->)]; [by apply within_same..| |done].
  constructor; [by left..|]. intros r. cbn. rewrite elem_of_app, list_elem_of_singleton. intros [Hr| ->]; [by left|right]. exists i.
  by rewrite (recorded_row _ _ _ _ _ _ _ _ Hrow).
Qed.

Lemma next_shard_some completed shard : next_shard plan completed = Some shard -> shard ∈ pl_shards plan /\ (sd_shard_id shard ∉ completed).
Proof. unfold next_shard. intros [Hin%list_elem_of_In Hb]%List.find_some. split; [done|]. by apply negb_true_iff, bool_decide_eq_false in Hb. Qed.

Lemma run_shard_run session trust shard : shard ∈ pl_shards plan -> run (fun _ => True) (run_shard session trust shard).
Proof.
  intros Hin%(list_elem_of_fmap_2 sd_shard_id). unfold run_shard. do 2 (eapply (run_bind (fun _ => True)); [runs|intros ? _]).
  eapply (run_bind (fun _ => _ <= 3)); [apply run_lift; intros ? Hg%raise_if_ok%Z.ltb_ge; exact Hg|intros ? Hlimit].
  do 2 (eapply (run_bind (fun _ => True)); [runs|intros ? _]). eapply (run_bind (fun _ => True)); [runs|intros ended_at _].
  match goal with |- run _ (match ?o with _ => _ end) => destruct o as [[results provenance]|error] end;
    (eapply run_bind; [apply run_attempts|intros attempts _]); (eapply run_bind; [apply run_write|intros reference Hp]);
    (eapply run_bind; [apply run_commit; [done|done|by right]|intros ? _]); by apply run_ret.
Qed.

Lemma run_kill session i shard logicals : i ∈ pl_planned_interruptions plan -> shard ∈ pl_shards plan -> run (fun _ => True) (kill_worker session i shard logicals).
Proof.
  intros Hi Hin%(list_elem_of_fmap_2 sd_shard_id). unfold kill_worker. eapply (run_bind (fun _ => True)); [runs|intros attempt _].
  eapply (run_bind (fun worker => plain (JObj (worker_fields worker)))); [apply run_world; intros w worker w'; apply killed_plain|intros worker Hw].
  eapply run_bind; [apply run_attempts|intros attempts _]. eapply run_bind; [apply run_write|intros reference Hp].
  eapply run_bind; [apply run_commit; [done|done|by left]|intros ? _]. by apply run_record.
Qed.

Lemma dict_get_plain key fields v : plain (JObj fields) -> dict_get key fields = Some v -> plain v.
Proof.
  intros Hp. unfold dict_get. destruct (List.find _ _) as [p|] eqn:E; [|done]. intros [= <-]. apply List.find_some in E as [Hin%list_elem_of_In _].
  inversion Hp as [| | | | |fs _ Hf]; subst. rewrite Forall_forall in Hf. by apply (Hf p).
Qed.
Lemma killed_before_plain i provenance worker : plain (JObj provenance) -> killed_before i provenance = Some worker -> plain (JObj worker).
Proof.
  intros Hp. unfold killed_before. destruct (dict_get "forced_interruption" provenance) as [[]|]; try done.
  destruct (dict_get "worker_process" provenance) as [[]|] eqn:E; try done. case_match; [|done]. intros [= <-]. by eapply dict_get_plain.
Qed.

Lemma run_interrupt session i : i ∈ pl_planned_interruptions plan -> run (fun _ => True) (_interrupt plan session i).
Proof.
  intros Hi. unfold _interrupt. eapply (run_bind (fun _ => True)).
  - destruct (String.eqb _ _); [by apply run_record; [|apply plain_null]|]. eapply (run_bind (fun _ => True)); [runs|intros completed _].
    destruct (next_shard plan completed) as [shard|] eqn:En; [|runs]. apply next_shard_some in En as [Hin _]. do 2 (eapply (run_bind (fun _ => True)); [runs|intros ? _]).
    destruct (last _) as [segment|]; [|by apply run_kill].
    eapply (run_bind (fun provenance => plain (JObj provenance))); [apply run_world; intros w p w'; apply verified_plain|intros provenance Hp].
    destruct (killed_before i provenance) as [worker|] eqn:E; [|by apply run_kill]. apply run_record; [done|]. by eapply killed_before_plain.
  - intros event _. eapply (run_bind (fun _ => True)); [runs|intros ? _]. eapply run_bind; [apply run_progress|intros progress _]. runs.
Qed.

Lemma run_shards_run fuel session trust : run (fun _ => True) (run_shards plan fuel session trust).
Proof.
  induction fuel as [|n IH]; cbn [run_shards]; [runs|]. eapply (run_bind (fun due => forall i, due = Some i -> i ∈ pl_planned_interruptions plan)).
  { unfold _due_interruption. do 2 (eapply (run_bind (fun _ => True)); [runs|intros ? _]). apply run_ret.
    by intros i [Hi%list_elem_of_In _]%List.find_some. }
  intros due Hdue. destruct due as [i|]; [eapply run_bind; [by apply run_interrupt, Hdue|intros planned _]; runs|].
  eapply (run_bind (fun _ => True)); [runs|intros completed _]. destruct (next_shard plan completed) as [shard|] eqn:En; [|runs]. apply next_shard_some in En as [Hin _].
  eapply run_bind; [by apply run_shard_run|intros ? _]. exact IH.
Qed.

Lemma run_finish session : run (fun _ => True) (finish plan session).
Proof. unfold finish. runs. Qed.

Lemma run_verify_recovery : run (fun _ => True) (_verify_recovery plan).
Proof. unfold _verify_recovery. runs. unfold recover_segment. case_match; runs. Qed.

Theorem run_execute fuel trust : run (fun _ => True) (execute plan fuel trust).
Proof.
  unfold execute. eapply (run_bind (fun _ => True)).
  { apply run_verify_recovery. }
  intros _ _. do 2 (eapply (run_bind (fun _ => True)); [runs|intros ? _]). eapply (run_bind (fun _ => True)).
  - apply run_try; [|intros e; runs]. unfold session_body. eapply run_bind; [apply run_shards_run|intros planned _].
    destruct planned as [p|]; [runs|]. eapply run_bind; [apply run_finish|intros done _]. runs.
  - intros outcome _. destruct outcome as [[event progress]|[manifest count]]; runs.
Qed.
End Runs.
