(* ===== verification/ScaleProperties.v ===== *)
(** * What a scale campaign guarantees

    [execute] always ends, whatever the worker does; it takes the ledger through its
    own operations only, with results within the attempt limit; and when it completes,
    every shard has its one result and every planned interruption has happened. *)

From S2P Require Export ScaleRuns.

(** Two continuations that agree on what the first part returns. *)
Lemma eff_bind_agree {W A B} (m : eff W A) (f g : A -> eff W B) s :
  (forall a s', m s = (Ok a, s') -> f a s' = g a s') -> (a ← m; f a) s = (a ← m; g a) s.
Proof. intros Hfg. unfold mbind, eff_bind. destruct (m s) as [[a|e] s1]; [by apply Hfg|done]. Qed.

Section Measure.
Context (plan : scale_plan).

(** The attempts a shard has left, and those of the whole plan. *)
Definition remaining (t : tables) (shard : scale_shard) : nat :=
  if bool_decide (sd_shard_id shard ∈ result_shard_ids t) then 0 else Z.to_nat (4 - attempt_number t (sd_shard_id shard)).
Definition attempts_left (t : tables) : nat := sum_list_with (remaining t) (pl_shards plan).

Lemma attempt_number_pos t shard : 1 <= attempt_number t shard.
Proof. unfold attempt_number. induction (sg_attempt <$> _) as [|x l IH]; cbn; lia. Qed.
Lemma attempts_left_le t : (attempts_left t <= 3 * length (pl_shards plan))%nat.
Proof.
  unfold attempts_left. induction (pl_shards plan) as [|s l IH]; cbn; [lia|]. unfold remaining at 1.
  pose proof (attempt_number_pos t (sd_shard_id s)). case_bool_decide; lia.
Qed.

Lemma results_add t row other :
  other ∈ result_shard_ids (add_segment row t) <-> other ∈ result_shard_ids t \/ sg_kind row = "result" /\ other = sg_shard row.
Proof.
  rewrite !elem_of_results. cbn. setoid_rewrite elem_of_app. setoid_rewrite list_elem_of_singleton. split.
  - intros (r & [Hr| ->] & Er & Hk); [left; eauto|by right].
  - intros [(r & Hr & Er & Hk)|[Hk ->]]; [exists r; auto|exists row; auto].
Qed.
Lemma attempt_number_add t row shard :
  attempt_number (add_segment row t) shard =
  if String.eqb (sg_shard row) shard then Z.max (attempt_number t shard) (sg_attempt row + 1) else attempt_number t shard.
Proof.
  unfold attempt_number, shard_segments. cbn. rewrite filter_app, fmap_app, foldr_app. cbn. destruct (String.eqb _ _); cbn; [|done].
  assert (forall l a, 0 <= a -> foldr Z.max (Z.max a 0) l = Z.max (foldr Z.max 0 l) a) as Hf.
  { intros l a Ha. induction l as [|x l IH]; cbn; lia. }
  set (l := sg_attempt <$> _). assert (forall a, foldr Z.max (Z.max a 0) l + 1 = Z.max (foldr Z.max 0 l + 1) (a + 1)) as ->; [|done].
  intros a. assert (0 <= foldr Z.max 0 l) by (induction l; cbn; lia). destruct (Z.le_ge_cases 0 a); [rewrite Hf; lia|].
  replace (Z.max a 0) with 0 by lia. lia.
Qed.

(** A commit of the next attempt of an unfinished shard uses one attempt up. *)
Lemma attempts_left_add t row shard :
  NoDup (sd_shard_id <$> pl_shards plan) -> shard ∈ pl_shards plan -> sg_shard row = sd_shard_id shard ->
  sd_shard_id shard ∉ result_shard_ids t -> sg_attempt row = attempt_number t (sd_shard_id shard) -> sg_attempt row <= 3 ->
  (attempts_left (add_segment row t) < attempts_left t)%nat.
Proof.
  unfold attempts_left. intros Hnd Hin Hs Hres Ha Hle.
  assert (forall s, sd_shard_id s <> sd_shard_id shard -> remaining (add_segment row t) s = remaining t s) as Hother.
  { intros s Hne. unfold remaining. rewrite attempt_number_add, Hs. apply not_eq_sym, String.eqb_neq in Hne as Hb. rewrite Hb.
    assert (sd_shard_id s ∈ result_shard_ids (add_segment row t) <-> sd_shard_id s ∈ result_shard_ids t) as E.
    { rewrite results_add, Hs. naive_solver. } by rewrite (bool_decide_ext _ _ E). }
  assert (remaining (add_segment row t) shard < remaining t shard)%nat as Hmine.
  { unfold remaining. rewrite attempt_number_add, Hs, String.eqb_refl, <- Ha. rewrite (bool_decide_eq_false_2 _ Hres).
    pose proof (attempt_number_pos t (sd_shard_id shard)). case_bool_decide; lia. }
  induction (pl_shards plan) as [|s l IH]; [by apply elem_of_nil in Hin|]. cbn in Hnd |- *. apply NoDup_cons in Hnd as [Hn Hnd].
  apply elem_of_cons in Hin as [->|Hin].
  - assert (sum_list_with (remaining (add_segment row t)) l = sum_list_with (remaining t) l) as ->; [|lia].
    assert (Forall (fun x => sd_shard_id x <> sd_shard_id s) l) as Hne.
    { apply Forall_forall. intros x Hx E. destruct Hn. rewrite <- E. by apply list_elem_of_fmap_2. }
    clear -Hother Hne. induction Hne as [|x l Hx _ IHl]; cbn; [done|]. by rewrite Hother, IHl.
  - rewrite Hother; [specialize (IH Hnd Hin); lia|]. intros E. destruct Hn. rewrite E. by apply list_elem_of_fmap_2.
Qed.
End Measure.

Section Parts.
Context `{JCSLaws} `{!JCSDomain} `{OSText} {W : Type} `{World : ScaleWorld W} `{!ScaleWorldLaws W}.
Context (plan : scale_plan).
Abbreviation campaign := (pl_campaign_manifest_id plan).

Lemma on_world_ok {A} (m : eff W A) c w a s : on_world m (c, w) = (Ok a, s) -> s.1 = c.
Proof. unfold on_world. cbn. destruct (m w). by intros [= _ <-]. Qed.
Lemma stamp_ok c w a s : _stamp (c, w) = (Ok a, s) -> s.1 = c.
Proof. unfold _stamp. cbn. destruct (world_clock w). by intros [= _ <-]. Qed.
Lemma reading_ok {A} (q : tables -> result A) (s : connection * W) a s' : reading q s = (Ok a, s') -> q (view s.1) = Ok a /\ s' = s.
Proof. by intros [= ? <-]. Qed.
Lemma on_ledger_ok {A} (m : Z -> eff connection A) c w r s : on_ledger m (c, w) = (r, s) -> exists now, m now c = (r, s.1).
Proof. unfold on_ledger. cbn. destruct (world_clock w) as [now w1]. destruct (m now c) as [x c1] eqn:E. intros [= <- <-]. by exists now. Qed.
Lemma attempting_ok {A} (m : eff W A) c w a s : attempting (on_world m) (c, w) = (Ok a, s) -> s.1 = c.
Proof. unfold attempting, on_world. cbn. destruct (m w) as [[]]; by intros [= _ <-]. Qed.
Lemma attempts_ok logicals n started_at ended_at failure c w a s : _attempts logicals n started_at ended_at failure (c, w) = (Ok a, s) -> s.1 = c.
Proof.
  unfold _attempts. revert c w a s. induction logicals as [|l logicals IH]; cbn [eff_map]; intros c w a s Hr; [by injection Hr as _ <-|].
  eff_inv. match goal with E : on_world _ _ = _ |- _ => apply on_world_ok in E end.
  match goal with E : eff_map _ _ ?s1 = _ |- _ => destruct s1; apply IH in E end. cbn in *. congruence.
Qed.

(** A pass that returns has committed the next attempt of the shard. *)
Lemma run_shard_ok session trust shard c w u s :
  connection_ok campaign c -> run_shard session trust shard (c, w) = (Ok u, s) ->
  exists row, s.1 = connect (add_segment row (c_committed c)) /\ sg_shard row = sd_shard_id shard /\
    sg_attempt row = attempt_number (c_committed c) (sd_shard_id shard) /\ sg_attempt row <= 3.
Proof.
  intros [Hq Hok] Hr. unfold run_shard in Hr.
  apply eff_bind_ok in Hr as (logicals & [c1 w1] & E1%on_world_ok & Hr). cbn in E1. subst c1.
  apply eff_bind_ok in Hr as (n & s2 & [[= <-] ->]%reading_ok & Hr). cbn [fst] in Hr. rewrite Hq in Hr.
  apply eff_bind_ok in Hr as (u1 & s3 & [Hg%raise_if_ok ->]%lift_ok & Hr). apply Z.ltb_ge in Hg.
  apply eff_bind_ok in Hr as (started_at & [c4 w4] & E4%stamp_ok & Hr). cbn in E4. subst c4.
  apply eff_bind_ok in Hr as (outcome & [c5 w5] & E5%attempting_ok & Hr). cbn in E5. subst c5.
  apply eff_bind_ok in Hr as (ended_at & [c6 w6] & E6%stamp_ok & Hr). cbn in E6. subst c6.
  assert (forall kind reference now s', commit_segment (sd_shard_id shard) kind (attempt_number (c_committed c) (sd_shard_id shard)) reference now c = (Ok s', s.1) ->
    exists row, s.1 = connect (add_segment row (c_committed c)) /\ sg_shard row = sd_shard_id shard /\
      sg_attempt row = attempt_number (c_committed c) (sd_shard_id shard) /\ sg_attempt row <= 3) as Hcommit.
  { intros kind reference now s' Hc. apply commit_segment_cases in Hc as [(e & [=] & _)|(row & _ & Hrow & _ & ->)]; [|done|apply Hok].
    exists row. pose proof (committed_row _ _ _ _ _ _ _ Hrow) as Er. split_and!; [done|by rewrite Er|by rewrite Er|by rewrite Er]. }
  destruct outcome as [[results provenance]|error];
    apply eff_bind_ok in Hr as (attempts & [c7 w7] & E7%attempts_ok & Hr); cbn in E7; subst c7;
    apply eff_bind_ok in Hr as (reference & [c8 w8] & E8%on_world_ok & Hr); cbn in E8; subst c8;
    apply eff_bind_ok in Hr as (digest & s9 & [now E9]%on_ledger_ok & [= _ ->]); by eapply Hcommit.
Qed.

Lemma next_shard_none completed shard : next_shard plan completed = None -> shard ∈ pl_shards plan -> sd_shard_id shard ∈ completed.
Proof. unfold next_shard. intros Hn Hin%list_elem_of_In. apply (List.find_none _ _ Hn) in Hin. by apply negb_false_iff, bool_decide_eq_true in Hin. Qed.

Lemma due_ok c (w : W) due s : _due_interruption plan (c, w) = (due, s) -> s = (c, w).
Proof.
  unfold _due_interruption, reading, mbind, eff_bind. destruct (interruptions _); by intros [= _ <-].
Qed.

(** The [while True] of [execute]: what its passes come to. *)
Inductive while_true (session trust : string) (s : connection * W) : result (option (list (string * json) * json)) * (connection * W) -> Prop :=
| query_raises e s1 : _due_interruption plan s = (Raise e, s1) -> while_true session trust s (Raise e, s1)
| pass_interrupted i s1 planned s2 :
    _due_interruption plan s = (Ok (Some i), s1) -> _interrupt plan session i s1 = (Ok planned, s2) -> while_true session trust s (Ok (Some planned), s2)
| interrupt_raises i s1 e s2 :
    _due_interruption plan s = (Ok (Some i), s1) -> _interrupt plan session i s1 = (Raise e, s2) -> while_true session trust s (Raise e, s2)
| pass_breaks s1 : _due_interruption plan s = (Ok None, s1) -> next_shard plan (result_shard_ids (view s1.1)) = None -> while_true session trust s (Ok None, s1)
| pass_raises s1 shard e s2 :
    _due_interruption plan s = (Ok None, s1) -> next_shard plan (result_shard_ids (view s1.1)) = Some shard ->
    run_shard session trust shard s1 = (Raise e, s2) -> while_true session trust s (Raise e, s2)
| pass_continues s1 shard u s2 r :
    _due_interruption plan s = (Ok None, s1) -> next_shard plan (result_shard_ids (view s1.1)) = Some shard ->
    run_shard session trust shard s1 = (Ok u, s2) -> while_true session trust s2 r -> while_true session trust s r.

(** A pass that commits leaves fewer attempts. *)
Lemma pass_left session trust shard c w u c1 w1 :
  NoDup (sd_shard_id <$> pl_shards plan) -> connection_ok campaign c -> next_shard plan (result_shard_ids (view c)) = Some shard ->
  run_shard session trust shard (c, w) = (Ok u, (c1, w1)) ->
  (attempts_left plan (c_committed c1) < attempts_left plan (c_committed c))%nat /\ connection_ok campaign c1.
Proof.
  intros Hnd Hc [Hin Hres]%next_shard_some Er. pose proof (co_quiet _ _ Hc) as Hq. rewrite Hq in Hres.
  pose proof (run_shard_ok _ _ _ _ _ _ _ Hc Er) as (row & E1 & Es & Ea & Hle). cbn in E1. split; [subst c1; by eapply attempts_left_add|].
  eapply (moves_ok plan c); [done|]. by destruct (run_shard_run plan session trust shard Hin _ _ _ _ _ Hc Er) as [Hmv _].
Qed.

(** The loop with enough fuel is the loop. *)
Lemma run_shards_while session trust n : forall c w,
  NoDup (sd_shard_id <$> pl_shards plan) -> connection_ok campaign c -> (attempts_left plan (c_committed c) < n)%nat ->
  while_true session trust (c, w) (run_shards plan n session trust (c, w)).
Proof.
  induction n as [|n IH]; intros c w Hnd Hc Hn; [lia|]. cbn [run_shards]. unfold mbind at 1, eff_bind at 1.
  destruct (_due_interruption plan (c, w)) as [[due|e] s] eqn:Ed; [|by apply query_raises]. apply due_ok in Ed as E. subst s. destruct due as [i|].
  - unfold mbind, eff_bind. destruct (_interrupt plan session i (c, w)) as [[p|e] s] eqn:Ei; [by eapply pass_interrupted|by eapply interrupt_raises].
  - unfold mbind at 1, eff_bind at 1, reading. cbn [fst]. destruct (next_shard plan _) as [shard|] eqn:En; [|by apply pass_breaks].
    unfold mbind, eff_bind. destruct (run_shard session trust shard (c, w)) as [[u|e] [c1 w1]] eqn:Er; [|by eapply pass_raises].
    destruct (pass_left _ _ _ _ _ _ _ _ Hnd Hc En Er) as [Hlt Hc1]. eapply pass_continues; [done..|]. apply IH; [done..|lia].
Qed.

(** The loop does not depend on its fuel once that exceeds the attempts left. *)
Lemma run_shards_fuel session trust n : forall m c w,
  NoDup (sd_shard_id <$> pl_shards plan) -> connection_ok campaign c ->
  (attempts_left plan (c_committed c) < n)%nat -> (attempts_left plan (c_committed c) < m)%nat ->
  run_shards plan n session trust (c, w) = run_shards plan m session trust (c, w).
Proof.
  induction n as [|n IH]; intros [|m] c w Hnd Hc Hn Hm; [lia|lia|lia|]. cbn [run_shards].
  apply eff_bind_agree. intros due s ->%due_ok. destruct due as [i|]; [done|].
  apply eff_bind_agree. intros completed s [[= <-] ->]%reading_ok. cbn [fst]. destruct (next_shard plan _) as [shard|] eqn:En; [|done].
  apply eff_bind_agree. intros u [c1 w1] Er. destruct (pass_left _ _ _ _ _ _ _ _ Hnd Hc En Er) as [Hlt Hc1]. apply IH; [done..|lia|lia].
Qed.

(** ** Inside a session *)

Lemma record_ok session i worker c w event s :
  connection_ok campaign c -> record session i worker (c, w) = (Ok event, s) ->
  exists row, s.1 = connect (add_interruption row (c_committed c)) /\ in_key row = pi_key i /\
    in_after row = pi_after_committed_shards i /\ in_session row = session.
Proof.
  intros [Hq _] [now Hr]%on_ledger_ok. apply record_interruption_cases in Hr as [(e & [=] & _)|(row & ev & Hrow & _ & ->)]; [|done].
  exists row. pose proof (recorded_row _ _ _ _ _ _ _ _ Hrow) as Er. split_and!; [done|by rewrite Er..].
Qed.

Lemma end_session_ok session outcome c w u s :
  connection_ok campaign c -> mem outcome ["completed"; "forced-interruption"; "failed"] = true ->
  on_ledger (end_session session outcome) (c, w) = (Ok u, s) ->
  exists now, s.1 = connect (close_session session outcome now (c_committed c)) /\
    existsb (fun r => String.eqb (ss_id r) session && is_active r) (t_sessions (c_committed c)) = true.
Proof.
  intros [Hq Hok] Ho [now Hr]%on_ledger_ok. rewrite end_session_cases in Hr by (done || apply Hok).
  destruct (existsb _ _); [|done]. injection Hr as _ <-. by exists now.
Qed.

(** The ledger after a session that stopped at the interruption [i]. *)
Record interrupted (session : string) (i : planned_interruption) (c c' : connection) : Prop := {
  interrupted_planned : i ∈ pl_planned_interruptions plan;
  interrupted_boundary : pi_after_committed_shards i = Z.of_nat (size (result_shard_ids (c_committed c')));
  interrupted_once : exists row, t_interruptions (c_committed c') = t_interruptions (c_committed c) ++ [row] /\ in_key row = pi_key i /\
    in_after row = pi_after_committed_shards i /\ in_session row = session;
  interrupted_idle : c_pending c' = None
}.

Lemma results_attempt row t : sg_kind row = "attempt" -> result_shard_ids (add_segment row t) = result_shard_ids t.
Proof. intros Hk. apply set_eq. intros x. rewrite results_add, Hk. naive_solver. Qed.

Lemma kill_ok session i shard logicals c w event s :
  connection_ok campaign c -> shard ∈ pl_shards plan -> kill_worker session i shard logicals (c, w) = (Ok event, s) ->
  exists seg row, s.1 = connect (add_interruption row (add_segment seg (c_committed c))) /\ sg_kind seg = "attempt" /\ in_key row = pi_key i /\
    in_after row = pi_after_committed_shards i /\ in_session row = session.
Proof.
  intros Hc Hin Hr. pose proof Hc as [Hq Hok]. unfold kill_worker in Hr. apply eff_bind_ok in Hr as (n & s1 & [[= <-] ->]%reading_ok & Hr).
  apply eff_bind_ok in Hr as (worker & [c2 w2] & E2 & Hr). apply on_world_ok in E2 as E. cbn in E. subst c2.
  apply eff_bind_ok in Hr as (attempts & [c3 w3] & E3%attempts_ok & Hr). cbn in E3. subst c3.
  apply eff_bind_ok in Hr as (reference & [c4 w4] & E4 & Hr). apply on_world_ok in E4 as E. cbn in E. subst c4.
  apply eff_bind_ok in Hr as (digest & [c5 w5] & E5 & Hr).
  assert (connection_ok campaign c5) as Hc5.
  { destruct (run_write plan shard logicals _ _ _ _ _ _ _ _ _ _ Hc E4) as [_ Hp].
    destruct (run_commit plan (sd_shard_id shard) "attempt" _ reference (list_elem_of_fmap_2 sd_shard_id _ _ Hin) Hp (or_introl eq_refl) _ _ _ _ _ Hc E5) as [Hm _]. by eapply moves_ok. }
  apply on_ledger_ok in E5 as [now E5]. apply commit_segment_cases in E5 as [(e & [=] & _)|(seg & _ & Hseg & _ & E5)]; [|done|apply Hok].
  cbn in E5. subst c5. apply record_ok in Hr as (row & -> & Hrow); [|done]. exists seg, row. split; [done|]. split; [|done].
  by rewrite (committed_row _ _ _ _ _ _ _ Hseg).
Qed.

(** The ledger just after the interruption has been recorded. *)
Definition just_recorded (session : string) (i : planned_interruption) (c c1 : connection) : Prop :=
  exists row t, c1 = connect (add_interruption row t) /\ connection_ok campaign c1 /\ t_interruptions t = t_interruptions (c_committed c) /\
    result_shard_ids t = result_shard_ids (c_committed c) /\ in_key row = pi_key i /\
    in_after row = pi_after_committed_shards i /\ in_session row = session.

Lemma interrupt_records session i c w planned s :
  connection_ok campaign c -> i ∈ pl_planned_interruptions plan -> pi_after_committed_shards i = Z.of_nat (size (result_shard_ids (c_committed c))) ->
  _interrupt plan session i (c, w) = (Ok planned, s) -> interrupted session i c s.1.
Proof.
  intros Hc Hin Hat Hr. unfold _interrupt in Hr. apply eff_bind_ok in Hr as (event & [c1 w1] & E1 & Hr).
  apply eff_bind_ok in Hr as (u & [c2 w2] & E2 & Hr).
  assert (s.1 = c2) as ->.
  { apply eff_bind_ok in Hr as (progress & s3 & E3 & [= _ <-]). unfold _progress in E3.
    apply eff_bind_ok in E3 as (n & s4 & [_ ->]%reading_ok & E3). apply eff_bind_ok in E3 as (l & s5 & [_ ->]%reading_ok & [= _ <-]). done. }
  assert (just_recorded session i c c1) as (row & t & -> & Hc1 & Et & Er & Hrow).
  { assert (forall worker w1', plain (worker_json worker) -> record session i worker (c, w1') = (Ok event, (c1, w1)) -> just_recorded session i c c1) as Hrec.
    { intros worker w1' Hp E. destruct (run_record plan session i worker Hin Hp _ _ _ _ _ Hc E) as [Hm _].
      apply record_ok in E as (row & E & Hrow); [|done]. exists row, (c_committed c). cbn in E. split_and!; try done; try apply Hrow. by eapply moves_ok. }
    assert (forall shard logicals w1', shard ∈ pl_shards plan -> kill_worker session i shard logicals (c, w1') = (Ok event, (c1, w1)) -> just_recorded session i c c1) as Hkill.
    { intros shard logicals w1' Hsh E. destruct (run_kill plan session i shard logicals Hin Hsh _ _ _ _ _ Hc E) as [Hm _].
      apply kill_ok in E as (seg & row & E & Hk & Hrow); [|done..]. exists row, (add_segment seg (c_committed c)). cbn in E.
      split_and!; try done; try apply Hrow; [by eapply moves_ok|by apply results_attempt]. }
    destruct (String.eqb _ _); [by eapply (Hrec None w); [apply plain_null|]|].
    apply eff_bind_ok in E1 as (completed & s3 & [_ ->]%reading_ok & E1). destruct (next_shard plan completed) as [shard|] eqn:En; [|done].
    apply next_shard_some in En as [Hsh _].
    apply eff_bind_ok in E1 as (logicals & [c4 w4] & E4%on_world_ok & E1). cbn in E4. subst c4.
    apply eff_bind_ok in E1 as (committed & s5 & [_ ->]%reading_ok & E1). destruct (last _) as [segment|]; [|by eapply Hkill].
    apply eff_bind_ok in E1 as (provenance & [c6 w6] & E6 & E1). apply on_world_ok in E6 as E. cbn in E. subst c6.
    destruct (killed_before i provenance) as [worker|] eqn:Ek; [|by eapply Hkill].
    assert (plain (JObj worker)) as Hp.
    { eapply killed_before_plain; [|exact Ek]. unfold on_world in E6. cbn in E6. destruct (verify_segment _ _ _ _) as [x w7] eqn:Ev.
      injection E6 as -> _. by eapply verified_plain. }
    by eapply (Hrec (Some worker) w6). }
  apply end_session_ok in E2 as (now & E2 & _); [|done..]. cbn in E2. subst c2. constructor; cbn; try done.
  - by rewrite Hat, <- Er.
  - exists row. by rewrite Et.
Qed.

(** What the loop returns: every shard is complete, or a planned interruption was due
    after some commits and has been recorded. *)
Lemma run_shards_ok session trust fuel : forall c w planned s,
  connection_ok campaign c -> run_shards plan fuel session trust (c, w) = (Ok planned, s) ->
  match planned with
  | None => (forall shard, shard ∈ pl_shards plan -> sd_shard_id shard ∈ result_shard_ids (c_committed s.1)) /\
      t_interruptions (c_committed s.1) = t_interruptions (c_committed c)
  | Some _ => exists i c1, interrupted session i c1 s.1 /\ t_interruptions (c_committed c1) = t_interruptions (c_committed c)
  end.
Proof.
  induction fuel as [|n IH]; cbn [run_shards]; intros c w planned s Hc Hr; [done|]. pose proof (co_quiet _ _ Hc) as Hq.
  apply eff_bind_ok in Hr as (due & s1 & Ed & Hr). apply due_ok in Ed as E. subst s1. destruct due as [i|].
  - apply eff_bind_ok in Hr as (p & s2 & Ei & [= <- <-]). exists i, c. split; [|done].
    unfold _due_interruption in Ed. apply eff_bind_ok in Ed as (completed & s3 & [[= <-] ->]%reading_ok & Ed).
    apply eff_bind_ok in Ed as (events & s4 & [_ ->]%reading_ok & [= Ed]). apply List.find_some in Ed as [Hin%list_elem_of_In Hb].
    apply andb_true_iff in Hb as [Hat%Z.eqb_eq _]. cbn [fst] in Hat. rewrite Hq in Hat. by eapply interrupt_records.
  - apply eff_bind_ok in Hr as (completed & s1 & [[= <-] ->]%reading_ok & Hr). cbn [fst] in Hr. rewrite Hq in Hr.
    destruct (next_shard plan _) as [shard|] eqn:En.
    + apply eff_bind_ok in Hr as (u & [c2 w2] & E2 & Hr).
      assert (connection_ok campaign c2) as Hc2.
      { pose proof (next_shard_some _ _ _ En) as [Hin _].
        destruct (run_shard_run plan session trust shard Hin _ _ _ _ _ Hc E2) as [Hm _]. by eapply moves_ok. }
      apply run_shard_ok in E2 as (row & E2 & _); [|done]. cbn in E2. subst c2. apply IH in Hr; [|done]. exact Hr.
    + injection Hr as <- <-. split; [|done]. intros shard Hin. by eapply next_shard_none.
Qed.

Lemma finish_ok session c w done s :
  connection_ok campaign c -> finish plan session (c, w) = (Ok done, s) ->
  length (t_interruptions (c_committed c)) = length (pl_planned_interruptions plan) /\
  exists now, s.1 = connect (close_session session "completed" now (c_committed c)) /\
    existsb (fun r => String.eqb (ss_id r) session && is_active r) (t_sessions (c_committed c)) = true.
Proof.
  intros Hc Hr. pose proof (co_quiet _ _ Hc) as Hq. unfold finish in Hr.
  apply eff_bind_ok in Hr as (events & s1 & [He ->]%reading_ok & Hr). cbn [fst] in He. rewrite Hq in He.
  apply eff_bind_ok in Hr as (u & s2 & [Hg%raise_if_ok ->]%lift_ok & Hr). apply negb_false_iff, Z.eqb_eq in Hg.
  apply eff_bind_ok in Hr as (committed & s3 & [_ ->]%reading_ok & Hr).
  apply eff_bind_ok in Hr as (manifest & [c4 w4] & E4%on_world_ok & Hr). cbn in E4. subst c4.
  apply eff_bind_ok in Hr as (u5 & s5 & E5 & [= _ <-]). split; [|by eapply end_session_ok].
  unfold interruptions in He. apply map_result_ok, Forall2_length in He. unfold ordered_interruptions in He.
  rewrite sorted_by_perm in He. lia.
Qed.

Lemma closed_session_outcome session outcome now t :
  existsb (fun r => String.eqb (ss_id r) session && is_active r) (t_sessions t) = true ->
  exists r, r ∈ t_sessions (close_session session outcome now t) /\ ss_id r = session /\ ss_outcome r = Some outcome.
Proof.
  intros (r & Hr%list_elem_of_In & Hb)%existsb_exists. exists (ended (rfc3339 now) outcome r). cbn.
  pose proof Hb as [E%String.eqb_eq _]%andb_true_iff. split; [|done]. apply list_elem_of_fmap. exists r. by rewrite Hb.
Qed.

(** The two ways a session ends well. *)
Record session_completed (c c' : connection) : Prop := {
  completed_shards : forall shard, shard ∈ pl_shards plan -> sd_shard_id shard ∈ result_shard_ids (c_committed c');
  completed_interruptions : length (t_interruptions (c_committed c')) = length (pl_planned_interruptions plan);
  completed_kept : t_interruptions (c_committed c') = t_interruptions (c_committed c);
  completed_session : exists r, r ∈ t_sessions (c_committed c') /\ ss_outcome r = Some "completed";
  completed_idle : c_pending c' = None
}.

Lemma recover_interruptions c w u s :
  _verify_recovery plan (c, w) = (Ok u, s) -> connection_ok campaign c -> t_interruptions (c_committed s.1) = t_interruptions (c_committed c).
Proof.
  intros Hr Hc. unfold _verify_recovery in Hr. apply eff_bind_ok in Hr as (u1 & s1 & [_ ->]%reading_ok & Hr).
  apply eff_bind_ok in Hr as (n & [c2 w2] & [now E2]%on_ledger_ok & Hr). cbn in E2.
  apply eff_bind_ok in Hr as (l & s3 & [_ ->]%reading_ok & Hr). apply eff_bind_ok in Hr as (us & s4 & E4 & [= _ <-]).
  assert (s4.1 = c2) as ->.
  { clear -E4. revert w2 us s4 E4. induction l as [|x l IH]; cbn [eff_map]; intros w2 us s4 E4; [by injection E4 as _ <-|].
    apply eff_bind_ok in E4 as (y & [c5 w5] & E5 & E4). assert (c5 = c2) as ->.
    { unfold recover_segment in E5. destruct (shard_by_id _ _); [|done]. apply eff_bind_ok in E5 as (logicals & [c6 w6] & E6%on_world_ok & E5).
      cbn in E6. subst c6. apply eff_bind_ok in E5 as (v & [c7 w7] & E7%on_world_ok & [= _ <- _]). done. }
    apply eff_bind_ok in E4 as (ys & s6 & E6 & [= _ <-]). by eapply IH. }
  rewrite recover_cases in E2 by apply Hc. destruct (c_pending c); [done|]. by injection E2 as _ <-.
Qed.

Lemma execute_ok fuel trust c w e s :
  connection_ok campaign c -> execute plan fuel trust (c, w) = (Ok e, s) ->
  match e with
  | Completed manifest report => session_completed c s.1
  | Interrupted event progress => exists session i c1, interrupted session i c1 s.1 /\ t_interruptions (c_committed c1) = t_interruptions (c_committed c)
  end.
Proof.
  intros Hc Hr. unfold execute in Hr. apply eff_bind_ok in Hr as (u & [c1 w1] & E1 & Hr).
  pose proof (recover_interruptions _ _ _ _ E1 Hc) as I1. cbn in I1.
  assert (connection_ok campaign c1) as Hc1.
  { refine (moves_ok plan c c1 Hc _). assert (run plan (fun _ => True) (_verify_recovery plan)) as Hrun by apply run_verify_recovery.
    by destruct (Hrun _ _ _ _ _ Hc E1). }
  apply eff_bind_ok in Hr as (session & [c2 w2] & E2%on_world_ok & Hr). cbn in E2. subst c2.
  apply eff_bind_ok in Hr as (u3 & [c3 w3] & E3 & Hr).
  assert (connection_ok campaign c3) as Hc3 by (eapply (moves_ok plan c1); [done|]; by destruct (run_begin plan session _ _ _ _ _ Hc1 E3)).
  apply on_ledger_ok in E3 as [now E3]. cbn in E3. rewrite begin_session_cases in E3 by apply Hc1. case_decide; [done|]. injection E3 as _ <-.
  apply eff_bind_ok in Hr as (outcome & s4 & E4 & Hr). unfold try_eff in E4.
  destruct (session_body _ _ _ _ _) as [[x|er] s5] eqn:E5; [injection E4 as -> ->|].
  2:{ apply eff_bind_ok in E4 as (u6 & s6 & _ & E4). by apply lift_ok in E4 as [? _]. }
  unfold session_body in E5. apply eff_bind_ok in E5 as (planned & [c6 w6] & E6 & E5).
  assert (connection_ok campaign c6) as Hc6 by (eapply moves_ok; [exact Hc3|]; by destruct (run_shards_run plan fuel session trust _ _ _ _ _ Hc3 E6)).
  apply run_shards_ok in E6; [|done]. destruct planned as [p|].
  - injection E5 as <- <-. destruct p as [event progress]. injection Hr as <- <-. destruct E6 as (i & c7 & Hi & E7).
    exists session, i, c7. split; [done|]. etrans; [exact E7|exact I1].
  - apply eff_bind_ok in E5 as (dn & s7 & E7 & [= <- <-]). destruct dn as [manifest count].
    apply finish_ok in E7 as (Hlen & now7 & E7 & Hact); [|done]. destruct E6 as [Hall Hint].
    assert (e = Completed manifest (match e with Completed _ report => report | _ => JNull end) /\ s = s7) as [-> ->].
    { apply eff_bind_ok in Hr as (summary & s8 & [_ ->]%reading_ok & Hr). apply eff_bind_ok in Hr as (u9 & s9 & [_ ->]%lift_ok & [= <- <-]). done. }
    rewrite E7. constructor; cbn; try done; [etrans; [exact Hint|exact I1]|].
    destruct (closed_session_outcome session "completed" now7 _ Hact) as (r & Hin & _ & Ho). by exists r.
Qed.
End Parts.

(** ** Campaigns *)

Section Campaigns.
Context `{JCSLaws} `{!JCSDomain} `{OSText} {W : Type} `{World : ScaleWorld W} `{!ScaleWorldLaws W}.
Context (plan : scale_plan).
Abbreviation campaign := (pl_campaign_manifest_id plan).

(** Controllers come and go over one ledger: one executes, whatever comes of it, or a
    new process opens the ledger. *)
Inductive campaign_step (c : connection) : connection -> Prop :=
| step_execute fuel trust w r c' w' : execute plan fuel trust (c, w) = (r, (c', w')) -> campaign_step c c'
| step_process : campaign_step c (open_ledger campaign (connect (c_committed c))).2.
Definition campaign_reaches (c : connection) : Prop :=
  exists c0, open_ledger campaign (connect empty_tables) = (Ok tt, c0) /\ rtc campaign_step c0 c.

(** What a campaign keeps: a well-formed ledger of its own runs. *)
Record campaign_ok (c : connection) : Prop := {
  cm_connection : connection_ok campaign c;
  cm_limit : forall r, r ∈ t_segments (c_committed c) -> sg_kind r = "attempt" \/ sg_attempt r <= 3;
  cm_shards : forall r, r ∈ t_segments (c_committed c) -> sg_shard r ∈ (sd_shard_id <$> pl_shards plan);
  cm_planned : forall i, i ∈ t_interruptions (c_committed c) -> planned_row plan i
}.

Lemma campaign_moves c c' : campaign_ok c -> moves plan c c' -> campaign_ok c'.
Proof.
  intros [Hc Hl Hsh Hp] [Hs [Wl Wsh Wp]]. constructor; [by eapply steps_ok| | |].
  - intros r Hr. destruct (Wl r Hr) as [Hr'|]; [by apply Hl|done].
  - intros r Hr. destruct (Wsh r Hr) as [Hr'|]; [by apply Hsh|done].
  - intros i Hi. destruct (Wp i Hi) as [Hi'|]; [by apply Hp|done].
Qed.
Lemma campaign_new c0 : open_ledger campaign (connect empty_tables) = (Ok tt, c0) -> campaign_ok c0.
Proof.
  intros Ho. destruct (new_ledger campaign) as (Ht & Hok). rewrite Ho in Ht. injection Ht as ->.
  constructor; [done|..]; by intros r ?%elem_of_nil.
Qed.
Lemma campaign_execute fuel trust c w r c' w' :
  campaign_ok c -> execute plan fuel trust (c, w) = (r, (c', w')) -> campaign_ok c' /\ moves plan c c'.
Proof. intros Hc E. destruct (run_execute plan fuel trust _ _ _ _ _ (cm_connection _ Hc) E) as [Hm _]. split; [by eapply campaign_moves|done]. Qed.
Lemma campaign_reaches_ok c : campaign_reaches c -> campaign_ok c.
Proof.
  intros (c0 & Ho%campaign_new & Hs). induction Hs as [|c1 c2 c3 Hstep _ IH]; [done|]. apply IH.
  destruct Hstep as [fuel trust w r c' w' E|]; [by destruct (campaign_execute _ _ _ _ _ _ _ Ho E)|].
  rewrite ledger_open_again by apply Ho. by destruct Ho as [[Hq Hk] Hl Hsh Hp].
Qed.

Lemma collisions_none : collision_check plan = Ok tt -> NoDup (sd_shard_id <$> pl_shards plan).
Proof. unfold collision_check. intros Hg%raise_if_ok. by apply has_duplicates_false. Qed.

(** A session ends: whatever the worker and the stores do and however many attempts fail, the loop of [execute]
    ends, after at most three passes per shard, and the fuel of the model plays no part in the result. *)
Theorem execute_terminates c n session trust w :
  collision_check plan = Ok tt -> campaign_reaches c -> (3 * length (pl_shards plan) < n)%nat ->
  while_true plan session trust (c, w) (run_shards plan n session trust (c, w)) /\
  forall m, (3 * length (pl_shards plan) < m)%nat -> execute plan m trust (c, w) = execute plan n trust (c, w).
Proof.
  intros Hnd%collisions_none [Hc _ _ _]%campaign_reaches_ok Hn. split.
  - apply run_shards_while; [done..|]. pose proof (attempts_left_le plan (c_committed c)). lia.
  - intros m Hm. unfold execute. apply eff_bind_agree. intros u [c1 w1] E1. assert (connection_ok campaign c1) as Hc1.
    { assert (run plan (fun _ => True) (_verify_recovery plan)) as Hrun by apply run_verify_recovery.
      apply (moves_ok plan c c1 Hc). by destruct (Hrun _ _ _ _ _ Hc E1). }
    apply eff_bind_agree. intros id [c2 w2] E2%on_world_ok. cbn in E2. subst c2. apply eff_bind_agree. intros u3 [c3 w3] E3.
    assert (connection_ok campaign c3) as Hc3 by (apply (moves_ok plan c1 c3 Hc1); by destruct (run_begin plan id _ _ _ _ _ Hc1 E3)).
    unfold mbind, eff_bind, try_eff, session_body. unfold mbind, eff_bind. pose proof (attempts_left_le plan (c_committed c3)).
    by rewrite (run_shards_fuel plan id trust m n c3 w3) by (done || lia).
Qed.

(** C18: [execute] works by the operations of the ledger: returned, interrupted or raised, it takes the ledger along
    operations of [ScaleLedger] to one that verifies, keeps every commit, and in no campaign does the
    ledger get a commit for a shard outside the plan, a result beyond a third attempt, or an interruption that was
    not planned. *)
Theorem execute_keeps_ledger c fuel trust w r c' w' :
  campaign_reaches c -> execute plan fuel trust (c, w) = (r, (c', w')) ->
  rtc (ledger_step campaign) c c' /\ verify campaign (c_committed c') = Ok tt /\
  t_segments (c_committed c) `prefix_of` t_segments (c_committed c') /\
  (forall row, row ∈ t_segments (c_committed c') ->
     sg_shard row ∈ (sd_shard_id <$> pl_shards plan) /\ (sg_kind row = "result" -> sg_attempt row <= 3)) /\
  (forall row, row ∈ t_interruptions (c_committed c') -> planned_row plan row).
Proof.
  intros Hc%campaign_reaches_ok E. destruct (campaign_execute _ _ _ _ _ _ _ Hc E) as [[[Hq Hok] Hl Hsh Hp] [Hs _]]. split_and!; [done|by apply ledger_verifies| | |done].
  2:{ intros row Hr. split; [by apply Hsh|]. intros Hk. destruct (Hl row Hr); [congruence|done]. }
  destruct Hc as [Hc _ _ _]. clear E Hq Hok Hl Hsh Hp. induction Hs as [|c1 c2 c3 Hstep _ IH]; [done|]. etrans; [by eapply step_segments|by eapply IH, step_ok].
Qed.

(** C4: a campaign that completes is complete: every shard of the plan has exactly one result in the ledger, from
    one of its first three attempts, the interruptions that happened are the planned ones, each once, and no
    transaction is left open. *)
Theorem campaign_completed c fuel trust w manifest report c' w' :
  campaign_reaches c -> execute plan fuel trust (c, w) = (Ok (Completed manifest report), (c', w')) ->
  (forall shard, shard ∈ pl_shards plan -> exists row, row ∈ t_segments (c_committed c') /\ sg_shard row = sd_shard_id shard /\
     sg_kind row = "result" /\ sg_attempt row <= 3 /\
     forall row', row' ∈ t_segments (c_committed c') -> sg_shard row' = sd_shard_id shard -> sg_kind row' = "result" -> row' = row) /\
  (in_key <$> t_interruptions (c_committed c')) ≡ₚ (pi_key <$> pl_planned_interruptions plan) /\
  (exists session, session ∈ t_sessions (c_committed c') /\ ss_outcome session = Some "completed") /\ c_pending c' = None.
Proof.
  intros Hc%campaign_reaches_ok E. destruct (campaign_execute _ _ _ _ _ _ _ Hc E) as [[[Hq Hok] Hl Hsl Hp] _].
  apply execute_ok in E as [Hsh Hint Hkept Hses Hidle]; [|apply Hc]. cbn in *. split_and!; [|  |done|done].
  - intros shard Hin. specialize (Hsh shard Hin). apply elem_of_results in Hsh as (row & Hr & Es & Hk). exists row. split_and!; try done.
    + destruct (Hl row Hr); [congruence|done].
    + intros row' Hr' Es' Hk'. eapply one_result; [done..|congruence].
  - apply submseteq_length_Permutation; [|rewrite !length_fmap; lia]. apply NoDup_submseteq; [apply Hok|].
    intros key (row & -> & Hr)%list_elem_of_fmap. destruct (Hp row Hr) as (i & Hi & -> & _). by apply list_elem_of_fmap_2.
Qed.

(** A planned interruption stops the campaign at its boundary, once: when [execute] reports one, exactly one
    interruption has been added to the ledger, it is a planned one that had not happened before, the shards with a
    result number exactly its boundary, and no transaction is left open. *)
Theorem interrupted_at_boundary c fuel trust w event progress c' w' :
  campaign_reaches c -> execute plan fuel trust (c, w) = (Ok (Interrupted event progress), (c', w')) ->
  exists row i, t_interruptions (c_committed c') = t_interruptions (c_committed c) ++ [row] /\
    i ∈ pl_planned_interruptions plan /\ in_key row = pi_key i /\ (pi_key i ∉ (in_key <$> t_interruptions (c_committed c))) /\
    pi_after_committed_shards i = Z.of_nat (size (result_shard_ids (c_committed c'))) /\ c_pending c' = None.
Proof.
  intros Hc%campaign_reaches_ok E. destruct (campaign_execute _ _ _ _ _ _ _ Hc E) as [[[_ Hok] _ _ _] _].
  apply execute_ok in E as (session & i & c1 & [Hi Hb (row & Er & Ek & _) Hidle] & E1); [|apply Hc]. cbn in *. rewrite E1 in Er.
  exists row, i. split_and!; try done. pose proof (lo_keys _ _ Hok) as Hnd. rewrite Er, fmap_app in Hnd. rewrite <- Ek.
  apply NoDup_app in Hnd as (_ & Hd & _). intros Hin. apply (Hd _ Hin). cbn. by left.
Qed.
End Campaigns.

(** ** A campaign *)

Module ScaleSample.
#[local] Existing Instance ascii_tables.
#[local] Existing Instance reference_jcs.
#[local] Instance sample_float : PyFloat := fun _ => SpecFloat.S754_nan.
#[local] Instance system_text : OSText := fun cls _ => cls.

(** A world that counts its calls; with [flaky], the first executions of a shard fail. *)
#[local] Instance world (flaky : bool) : ScaleWorld Z := {|
  world_clock w := (1700000000000000 + w * 1000000, w + 1);
  new_session w := (Ok (if w <? 20 then "session-1" else "session-2"), w + 1);
  assigned_run_id w := (Ok "rcid:v1:physical-run:1", w + 1);
  load_shard shard w := (Ok [{| le_id := sd_selection_key shard; le_fields := [] |}], w + 1);
  execute_shard key logicals w := (if flaky && (w <? 9) then Raise (OtherException "WorkerError" "lost") else Ok ([], []), w + 1);
  force_kill key w := (Ok {| kp_started_at := ""; kp_ended_at := ""; kp_trust_class := "local"; kp_exit_code := Some (-9); kp_selection_key := key |}, w + 1);
  write_result_segment shard logicals attempt attempts results provenance kind w :=
    (Ok [("path", JStr (sd_shard_id shard)); ("kind", JStr kind)], w + 1);
  verify_segment reference shard logicals w := (Ok [], w + 1);
  publish_manifest segments events w :=
    (Ok {| em_accepted_observation_count := 0; em_attempt_count := Z.of_nat (length segments); em_evidence_manifest_id := "manifest-1"; em_reference := JNull;
           em_infrastructure_failure_attempt_count := 0; em_logical_execution_count := 2; em_result_shard_count := 2 |}, w + 1);
  validate_report report := Ok tt
|}.
#[local] Instance world_laws flaky : @ScaleWorldLaws Z (world flaky).
Proof.
  split.
  - intros * [= <- _]. constructor; [apply (bool_decide_unpack _); by vm_compute|]. repeat (apply Forall_cons; split; [constructor|]). apply Forall_nil_2.
  - intros * [= <- _]. constructor; [apply NoDup_nil_2|apply Forall_nil_2].
  - intros * [= <- _]. constructor; [apply (bool_decide_unpack _); by vm_compute|].
    repeat (apply Forall_cons; split; [constructor; unfold SAFE_INTEGER_MAX; lia|]). apply Forall_nil_2.
Qed.

(** Two shards and a restart after the first. *)
Definition shard (name : string) : scale_shard := {| sd_shard_id := "shard-" +:+ name; sd_selection_key := "sel-" +:+ name; sd_fields := [] |}.
Definition stop : planned_interruption := {| pi_key := "stop-1"; pi_action := "controller-restart"; pi_after_committed_shards := 1 |}.
Definition plan : scale_plan :=
  {| pl_campaign_manifest_id := "campaign-a"; pl_shards := [shard "1"; shard "2"]; pl_planned_interruptions := [stop] |}.

Definition new : connection := connect (new_tables "campaign-a").
Definition session (flaky : bool) (w : Z) (c : connection) : result execution * (connection * Z) := execute (World := world flaky) plan 7 "local" (c, w).
Definition restarted : connection := (session true 0 new).2.1.
Definition finished : connection := (session true 30 restarted).2.1.

Lemma session_pair flaky w c : session flaky w c = ((session flaky w c).1, ((session flaky w c).2.1, (session flaky w c).2.2)).
Proof. by destruct (session flaky w c) as [r [c' w']]. Qed.

(** The first session fails once, commits the first shard and stops; the second
    session commits the other. *)
Lemma first_session : exists event progress, (session true 0 new).1 = Ok (Interrupted event progress).
Proof. do 2 eexists. vm_compute. reflexivity. Qed.
Lemma second_session : exists manifest report, (session true 30 restarted).1 = Ok (Completed manifest report).
Proof. do 2 eexists. vm_compute. reflexivity. Qed.
Lemma restarted_content :
  ((fun r => (sg_shard r, sg_kind r, sg_attempt r)) <$> t_segments (c_committed restarted)) = [("shard-1", "attempt", 1); ("shard-1", "result", 2)].
Proof. by vm_compute. Qed.

Lemma reaches_new flaky : @campaign_reaches _ _ _ _ (world flaky) plan new.
Proof. exists new. split; [apply new_ledger|done]. Qed.
Lemma reaches_restarted : @campaign_reaches _ _ _ _ (world true) plan restarted.
Proof.
  exists new. split; [apply new_ledger|]. apply rtc_once. eapply (step_execute (World := world true) plan new 7 "local" 0). apply (session_pair true 0 new).
Qed.
End ScaleSample.

Import ScaleSample.
#[local] Existing Instance ascii_tables.
#[local] Existing Instance reference_jcs.
#[local] Existing Instance sample_float.
#[local] Existing Instance system_text.
#[local] Existing Instance world_laws.

Lemma execute_terminates_witness : execute (World := world true) plan 100 "local" (restarted, 30) = session true 30 restarted.
Proof.
  destruct (execute_terminates (World := world true) plan restarted 7 "session-2" "local" 30) as [_ E]; [by vm_compute|exact reaches_restarted|cbn; lia|].
  apply E. cbn. lia.
Defined.

Lemma execute_keeps_ledger_witness :
  verify "campaign-a" (c_committed finished) = Ok tt /\ t_segments (c_committed restarted) `prefix_of` t_segments (c_committed finished).
Proof.
  destruct (execute_keeps_ledger (World := world true) plan restarted 7 "local" 30 _ _ _ reaches_restarted (session_pair true 30 restarted)) as (_ & Hv & Hp & _).
  split; [exact Hv|exact Hp].
Defined.

Lemma campaign_completed_witness :
  (exists row, row ∈ t_segments (c_committed finished) /\ sg_shard row = "shard-2" /\ sg_kind row = "result") /\
  (in_key <$> t_interruptions (c_committed finished)) ≡ₚ ["stop-1"].
Proof.
  destruct second_session as (manifest & report & E). pose proof (session_pair true 30 restarted) as Hs. rewrite E in Hs.
  destruct (campaign_completed (World := world true) plan restarted 7 "local" 30 manifest report _ _ reaches_restarted Hs) as (Hr & Hi & _).
  split; [|exact Hi]. destruct (Hr (shard "2")) as (row & Hrow & Es & Hk & _); [apply list_elem_of_further, list_elem_of_here|].
  exists row. split; [exact Hrow|]. split; [exact Es|exact Hk].
Defined.

Lemma interrupted_at_boundary_witness :
  exists row i, t_interruptions (c_committed restarted) = [row] /\ i ∈ [stop] /\ in_key row = pi_key i /\
    pi_after_committed_shards i = Z.of_nat (size (result_shard_ids (c_committed restarted))).
Proof.
  destruct first_session as (event & progress & E). pose proof (session_pair true 0 new) as Hs. rewrite E in Hs.
  destruct (interrupted_at_boundary (World := world true) plan new 7 "local" 0 event progress _ _ (reaches_new true) Hs) as (row & i & Hr & Hi & Hk & _ & Hb & _).
  exists row, i. split; [exact Hr|]. split; [exact Hi|]. split; [exact Hk|exact Hb].
Defined.
