(* ===== verification/ScaleLiveness.v ===== *)
(** * A campaign gets done

    When the collaborators do their part and the planned interruptions are behind,
    one more session of [execute] completes the ledger of the campaign, unless a
    commit digest collides; whether it also returns its report is up to the schema
    the report is validated against at the end. *)

From S2P Require Export ScaleProperties.

(** Collaborators whose calls return. *)
Class Cooperative (W : Type) `{ScaleWorld W} : Prop := {
  session_returns w : exists id w', new_session w = (Ok id, w');
  assigned_returns w : exists id w', assigned_run_id w = (Ok id, w');
  load_returns shard w : exists logicals w', load_shard shard w = (Ok logicals, w');
  execute_returns key logicals w : exists results w', execute_shard key logicals w = (Ok results, w');
  write_returns shard logicals attempt attempts results provenance kind w :
    exists reference w', write_result_segment shard logicals attempt attempts results provenance kind w = (Ok reference, w');
  verify_returns reference shard logicals w : exists provenance w', verify_segment reference shard logicals w = (Ok provenance, w');
  publish_returns segments events w : exists manifest w', publish_manifest segments events w = (Ok manifest, w')
}.

Section Liveness.
Context `{JCSLaws} `{!JCSDomain} `{OSText} {W : Type} `{World : ScaleWorld W} `{!ScaleWorldLaws W} `{!Cooperative W}.
Context (plan : scale_plan).
Abbreviation campaign := (pl_campaign_manifest_id plan).

(** One part of a computation that returns. *)
Lemma bind_step {S A B} (m : eff S A) (f : A -> eff S B) s a s1 r : m s = (Ok a, s1) -> f a s1 = r -> (a ← m; f a) s = r.
Proof. intros Hm Hf. unfold mbind, eff_bind. by rewrite Hm. Qed.
Lemma bind_raise {S A B} (m : eff S A) (f : A -> eff S B) s e s1 : m s = (Raise e, s1) -> (a ← m; f a) s = (Raise e, s1).
Proof. intros Hm. unfold mbind, eff_bind. by rewrite Hm. Qed.

Lemma on_world_eq {A} (m : eff W A) (c : connection) w a w' : m w = (Ok a, w') -> on_world m (c, w) = (Ok a, (c, w')).
Proof. intros Hm. unfold on_world. cbn. by rewrite Hm. Qed.
Lemma reading_eq {A} (q : tables -> result A) t (w : W) a : q t = Ok a -> reading q (connect t, w) = (Ok a, (connect t, w)).
Proof. intros Hq. unfold reading. cbn. by rewrite <- Hq. Qed.
Lemma on_ledger_at {A} (m : Z -> eff connection A) c (w : W) : exists now w', on_ledger m (c, w) = ((m now c).1, ((m now c).2, w')).
Proof. unfold on_ledger. cbn. destruct (world_clock w) as [now w']. exists now, w'. by destruct (m now c). Qed.

Lemma attempts_returns logicals n started_at ended_at failure (c : connection) (w : W) :
  exists attempts w', _attempts logicals n started_at ended_at failure (c, w) = (Ok attempts, (c, w')).
Proof.
  unfold _attempts. revert w. induction logicals as [|l logicals IH]; intros w; cbn [eff_map]; [by eexists _, _|].
  destruct (assigned_returns w) as (id & w1 & E1), (IH w1) as (ys & w2 & E2). eexists _, w2.
  eapply bind_step; [eapply bind_step; [by apply on_world_eq|done]|]. by eapply bind_step.
Qed.
Lemma stamp_returns (c : connection) (w : W) : exists stamp w', _stamp (c, w) = (Ok stamp, (c, w')).
Proof. unfold _stamp. cbn. destruct (world_clock w). by eexists _, _. Qed.

(** ** Recovery *)

Lemma event_key_of i event : interruption_event i = Ok event -> event_key event = in_key i.
Proof. unfold interruption_event. intros (worker & _ & [= <-])%bind_ok. done. Qed.
Lemma events_returned t :
  ledger_ok campaign t -> exists events, interruptions t = Ok events /\ (event_key <$> events) ≡ₚ (in_key <$> t_interruptions t).
Proof.
  intros Hok. destruct (map_result_returns interruption_event (fun i e => event_key e = in_key i) (ordered_interruptions t)) as (events & E & Hall).
  { unfold ordered_interruptions. rewrite sorted_by_perm. eapply Forall_impl; [apply Hok|]. intros i [_ [e He]]. exists e. split; [done|]. by eapply event_key_of. }
  exists events. split; [done|]. trans (in_key <$> ordered_interruptions t); [|unfold ordered_interruptions; by rewrite sorted_by_perm].
  clear E. by induction Hall as [|i e l es Hk _ IH]; cbn; [|rewrite Hk, IH].
Qed.
Lemma segments_returned t :
  ledger_ok campaign t -> exists l, segments t = Ok l /\ Forall (fun s => exists r, r ∈ t_segments t /\ cs_shard_id s = sg_shard r) l.
Proof.
  intros Hok. unfold segments. rewrite chain_ordered by apply Hok.
  destruct (map_result_returns committed_segment (fun r s => r ∈ t_segments t /\ cs_shard_id s = sg_shard r) (t_segments t)) as (l & E & Hall).
  { pose proof (lo_segments _ _ Hok) as Hs. rewrite Forall_forall in Hs |- *. intros r Hr. destruct (Hs r Hr) as [_ _ (fields & Hp & Ht)].
    unfold committed_segment. pose proof (loads_canonical _ _ Hp Ht) as ->. cbn. by eexists. }
  exists l. split; [done|]. eapply Forall2_Forall_r; [exact Hall|]. apply Forall_true. intros r s Hrs. by exists r.
Qed.
Lemma shard_by_id_some shard_id : shard_id ∈ (sd_shard_id <$> pl_shards plan) -> exists shard, shard_by_id plan shard_id = Some shard.
Proof.
  intros (s & -> & Hs)%list_elem_of_fmap. unfold shard_by_id.
  destruct (last _) as [x|] eqn:E; [by eexists|]. apply last_None in E.
  assert (s ∈ List.filter (fun s0 => String.eqb (sd_shard_id s0) (sd_shard_id s)) (pl_shards plan)) as Hf; [|rewrite E in Hf; by apply elem_of_nil in Hf].
  apply list_elem_of_In, List.filter_In. by rewrite <- list_elem_of_In, String.eqb_refl.
Qed.
Lemma eff_map_returns {A} (f : A -> eff (connection * W) unit) l c :
  Forall (fun x => forall w, exists w', f x (c, w) = (Ok tt, (c, w'))) l -> forall w, exists us w', eff_map f l (c, w) = (Ok us, (c, w')).
Proof.
  induction 1 as [|x l Hx _ IH]; intros w; [by eexists _, _|]. destruct (Hx w) as [w1 E1], (IH w1) as (us & w2 & E2). cbn [eff_map]. eexists _, w2.
  eapply bind_step; [exact E1|]. by eapply bind_step.
Qed.
Lemma recovery_returns t w :
  campaign_ok plan (connect t) ->
  exists t' w', _verify_recovery plan (connect t, w) = (Ok tt, (connect t', w')) /\ t_segments t' = t_segments t /\
    t_interruptions t' = t_interruptions t /\ (ss_id <$> t_sessions t') = (ss_id <$> t_sessions t) /\ ledger_ok campaign t'.
Proof.
  intros [[Hq Hok] _ Hsh _]. cbn in Hok, Hsh.
  destruct (on_ledger_at recover_active_sessions (connect t) w) as (now & w1 & E1). rewrite recover_cases in E1 by done. cbn [c_pending connect c_committed fst snd] in E1.
  set (t' := with_sessions _ _) in E1. assert (ledger_ok campaign t') as Hok'.
  { pose proof (step_ok campaign (connect t) _ (Build_connection_ok _ _ Hq Hok) (step_recover campaign (connect t) now)) as [_ Hk]. by rewrite recover_cases in Hk. }
  destruct (segments_returned t' Hok') as (l & El & Hl).
  assert (Forall (fun x => forall w0, exists w', recover_segment plan x (connect t', w0) = (Ok tt, (connect t', w'))) l) as Hall.
  { eapply Forall_impl; [exact Hl|]. intros x (r & Hr & Es) w0. unfold recover_segment. rewrite Es. destruct (shard_by_id_some _ (Hsh r Hr)) as [shard ->].
    destruct (load_returns shard w0) as (logicals & w2 & E2), (verify_returns (cs_reference x) shard logicals w2) as (pv & w3 & E3). exists w3.
    eapply bind_step; [by apply on_world_eq|]. by eapply bind_step; [apply on_world_eq|]. }
  destruct (eff_map_returns _ _ _ Hall w1) as (us & w2 & E2). exists t', w2. split_and!; [|done|done| |done].
  - unfold _verify_recovery. eapply bind_step; [by apply reading_eq, ledger_verifies|]. eapply bind_step; [exact E1|].
    eapply bind_step; [by apply reading_eq|]. by eapply bind_step.
  - cbn. rewrite <- list_fmap_compose. apply list_fmap_ext. intros _ r _. cbn. by destruct (is_active r).
Qed.

(** ** The loop *)

(** Every planned interruption has happened. *)
Definition settled (t : tables) : Prop := forall i, i ∈ pl_planned_interruptions plan -> pi_key i ∈ (in_key <$> t_interruptions t).

Lemma none_due t (w : W) : ledger_ok campaign t -> settled t -> _due_interruption plan (connect t, w) = (Ok None, (connect t, w)).
Proof.
  intros Hok Hset. destruct (events_returned t Hok) as (events & Ee & Hperm). unfold _due_interruption. eapply bind_step; [by apply reading_eq|].
  eapply bind_step; [by apply reading_eq|]. unfold mret, eff_ret. do 2 f_equal. destruct (List.find _ _) as [i|] eqn:Ef; [|done].
  apply List.find_some in Ef as [Hi%list_elem_of_In Hb]. apply andb_true_iff in Hb as [_ Hb%negb_true_iff].
  specialize (Hset i Hi). rewrite <- Hperm in Hset. apply mem_spec in Hset. congruence.
Qed.

Lemma attempting_eq {A} (m : eff W A) (c : connection) w a w' : m w = (Ok a, w') -> attempting (on_world m) (c, w) = (Ok (inl a), (c, w')).
Proof. intros Hm. unfold attempting. by rewrite (on_world_eq _ _ _ _ _ Hm). Qed.

(** What a pass makes of an unfinished shard. *)
Lemma pass_returns session trust shard t w :
  ledger_ok campaign t -> sd_shard_id shard ∉ result_shard_ids t -> attempt_number t (sd_shard_id shard) <= 3 ->
  next_ordinal t <= SAFE_INTEGER_MAX ->
  exists w', (exists row, run_shard session trust shard (connect t, w) = (Ok tt, (connect (add_segment row t), w')) /\
      ledger_ok campaign (add_segment row t) /\ sg_shard row = sd_shard_id shard /\ sg_kind row = "result") \/
    run_shard session trust shard (connect t, w) = (Raise used_digest, (connect t, w')).
Proof.
  intros Hok Hres Ha Hn. destruct (load_returns shard w) as (logicals & w1 & E1), (stamp_returns (connect t) w1) as (started & w2 & E2).
  destruct (execute_returns (sd_selection_key shard) logicals w2) as ([results pv] & w3 & E3), (stamp_returns (connect t) w3) as (stopped & w4 & E4).
  destruct (attempts_returns logicals (attempt_number t (sd_shard_id shard)) started stopped None (connect t) w4) as (attempts & w5 & E5).
  destruct (write_returns shard logicals (attempt_number t (sd_shard_id shard)) attempts results
    (dict_update pv [("controller_session_id", JStr session); ("trust_class", JStr trust)]) "result" w5) as (reference & w6 & E6).
  pose proof (written_plain _ _ _ _ _ _ _ _ _ _ E6) as Hp. destruct (world_clock w6) as [now w7] eqn:E7. exists w7.
  assert (connection_ok campaign (connect t)) as Hc by done.
  assert (forall r c', commit_segment (sd_shard_id shard) "result" (attempt_number t (sd_shard_id shard)) reference now (connect t) = (r, c') ->
    run_shard session trust shard (connect t, w) = (match r with Ok _ => Ok tt | Raise e => Raise e end, (c', w7))) as Hrun.
  { intros r c' Hcommit. unfold run_shard. eapply bind_step; [by apply on_world_eq|]. eapply bind_step; [by apply reading_eq|]. cbv beta.
    eapply bind_step; [unfold lift; by rewrite (proj2 (Z.ltb_ge _ _) Ha)|]. eapply bind_step; [exact E2|].
    eapply bind_step; [by apply attempting_eq|]. eapply bind_step; [exact E4|]. cbv beta iota. eapply bind_step; [exact E5|].
    eapply bind_step; [by apply on_world_eq|]. unfold mbind, eff_bind, on_ledger. cbn [fst snd]. rewrite E7, Hcommit. by destruct r. }
  destruct (next_commits campaign (connect t) (sd_shard_id shard) "result" reference now) as [(row & E & Hrow & _)|(r & digest & _ & _ & _ & E)]; try done.
  - cbn. unfold SAFE_INTEGER_MAX. lia.
  - left. exists row. split; [by apply Hrun in E|]. pose proof (committed_row _ _ _ _ _ _ _ Hrow) as Er. split_and!; [|by rewrite Er..].
    pose proof (step_ok campaign _ _ Hc (step_commit campaign _ (sd_shard_id shard) "result" (attempt_number t (sd_shard_id shard)) reference now Hp)) as [_ Hk].
    cbn in E. by rewrite E in Hk.
  - right. by apply Hrun in E.
Qed.

(** The shards that wait for a result. *)
Definition unfinished (t : tables) : nat := length (List.filter (fun s => negb (bool_decide (sd_shard_id s ∈ result_shard_ids t))) (pl_shards plan)).
Lemma unfinished_add row t shard :
  shard ∈ pl_shards plan -> sd_shard_id shard ∉ result_shard_ids t -> sg_kind row = "result" -> sg_shard row = sd_shard_id shard ->
  (unfinished (add_segment row t) < unfinished t)%nat.
Proof.
  intros Hin Hres Hk Hs. apply (filter_shorter _ _ _ shard); [|done|by rewrite bool_decide_eq_false_2|].
  - intros s. rewrite !negb_true_iff, !bool_decide_eq_false, results_add. naive_solver.
  - by rewrite bool_decide_eq_true_2 by (rewrite results_add; auto).
Qed.

(** The ledger has room for the session's work. *)
Record ready (t : tables) : Prop := {
  ready_ledger : ledger_ok campaign t;
  ready_settled : settled t;
  ready_attempts : forall shard, shard ∈ pl_shards plan -> sd_shard_id shard ∉ result_shard_ids t -> attempt_number t (sd_shard_id shard) <= 3;
  ready_room : Z.of_nat (length (t_segments t) + unfinished t) <= SAFE_INTEGER_MAX
}.

Lemma loop_returns session trust n : forall t w,
  ready t -> NoDup (sd_shard_id <$> pl_shards plan) -> (unfinished t < n)%nat ->
  exists r t' w', run_shards plan n session trust (connect t, w) = (r, (connect t', w')) /\
    (r = Ok None /\ next_shard plan (result_shard_ids t') = None \/ r = Raise used_digest) /\
    ledger_ok campaign t' /\ t_sessions t' = t_sessions t /\ t_interruptions t' = t_interruptions t.
Proof.
  induction n as [|n IH]; intros t w Hr Hnd Hn; [lia|]. pose proof Hr as [Hok Hset Hatt Hroom].
  destruct (next_shard plan (result_shard_ids t)) as [shard|] eqn:En.
  - pose proof (next_shard_some _ _ _ En) as [Hin Hres]. assert (1 <= unfinished t)%nat as H1n.
    { unfold unfinished. assert (shard ∈ List.filter (fun s => negb (bool_decide (sd_shard_id s ∈ result_shard_ids t))) (pl_shards plan)) as Hf.
      { apply list_elem_of_In, List.filter_In. rewrite <- list_elem_of_In. by rewrite bool_decide_eq_false_2. }
      destruct (List.filter _ _); [by apply elem_of_nil in Hf|cbn; lia]. }
    destruct (pass_returns session trust shard t w) as (w1 & [(row & E & Hok1 & Es & Hk)|E]); [done|done|by apply Hatt|unfold next_ordinal; lia| |].
    + pose proof (unfinished_add row t shard Hin Hres Hk Es) as Hlt. destruct (IH (add_segment row t) w1) as (r & t' & w' & E' & Hrest); [|done|lia|].
      { constructor; [done|done| |].
        - intros s Hs Hsr. rewrite results_add in Hsr. rewrite attempt_number_add. destruct (String.eqb_spec (sg_shard row) (sd_shard_id s)) as [Eq|_].
          + destruct Hsr. right. by rewrite Hk.
          + apply Hatt; naive_solver.
        - cbn. rewrite length_app. cbn. lia. }
      exists r, t', w'. split; [|done]. cbn [run_shards]. eapply bind_step; [by apply none_due|]. eapply bind_step; [by apply reading_eq|].
      rewrite En. by eapply bind_step.
    + exists (Raise used_digest), t, w1. split; [|by auto]. cbn [run_shards]. eapply bind_step; [by apply none_due|]. eapply bind_step; [by apply reading_eq|].
      rewrite En. by apply bind_raise.
  - exists (Ok None), t, w. split; [|by auto]. cbn [run_shards]. eapply bind_step; [by apply none_due|]. eapply bind_step; [by apply reading_eq|].
    by rewrite En.
Qed.

(** Ending the session that is active. *)
Lemma end_returns session outcome t w :
  ledger_ok campaign t -> mem outcome ["completed"; "forced-interruption"; "failed"] = true ->
  (exists r, r ∈ t_sessions t /\ ss_id r = session /\ is_active r = true) ->
  exists now w', on_ledger (end_session session outcome) (connect t, w) = (Ok tt, (connect (close_session session outcome now t), w')).
Proof.
  intros Hok Ho (r & Hr & Es & Ha). assert (existsb (fun s => String.eqb (ss_id s) session && is_active s) (t_sessions t) = true) as Hex.
  { apply existsb_exists. exists r. rewrite <- list_elem_of_In. by rewrite Es, String.eqb_refl. }
  destruct (on_ledger_at (end_session session outcome) (connect t) w) as (now & w' & E).
  rewrite end_session_cases in E by (done || apply Hok). cbn [c_committed connect] in E. rewrite Hex in E. by exists now, w'.
Qed.

Lemma finish_returns session t w :
  ledger_ok campaign t -> length (t_interruptions t) = length (pl_planned_interruptions plan) ->
  (exists r, r ∈ t_sessions t /\ ss_id r = session /\ is_active r = true) ->
  exists manifest now w', finish plan session (connect t, w) =
    (Ok (manifest, Z.of_nat (length (pl_planned_interruptions plan))), (connect (close_session session "completed" now t), w')).
Proof.
  intros Hok Hlen Hact. destruct (events_returned t Hok) as (events & Ee & Hperm), (segments_returned t Hok) as (l & El & _).
  destruct (publish_returns l events w) as (manifest & w1 & E1), (end_returns session "completed" t w1 Hok eq_refl Hact) as (now & w2 & E2).
  exists manifest, now, w2. unfold finish. eapply bind_step; [by apply reading_eq|].
  assert (length events = length (t_interruptions t)) as Hl by (apply Permutation_length in Hperm; by rewrite !length_fmap in Hperm).
  eapply bind_step; [unfold lift; by rewrite Hl, Hlen, Z.eqb_refl|]. eapply bind_step; [by apply reading_eq|].
  eapply bind_step; [by apply on_world_eq|]. rewrite <- Hlen, <- Hl. by eapply bind_step.
Qed.

(** The ledger of a campaign that is done: every shard has its result, the interruptions that happened are the
    planned ones, a session is recorded as completed and no transaction is open. *)
Record ledger_done (c : connection) : Prop := {
  ld_results shard : shard ∈ pl_shards plan -> sd_shard_id shard ∈ result_shard_ids (c_committed c);
  ld_interruptions : (in_key <$> t_interruptions (c_committed c)) ≡ₚ (pi_key <$> pl_planned_interruptions plan);
  ld_session : exists session, session ∈ t_sessions (c_committed c) /\ ss_outcome session = Some "completed";
  ld_idle : c_pending c = None
}.

(** C11: a campaign gets done: with collaborators whose calls return, an idle ledger whose planned interruptions have
    happened, attempts left for every unfinished shard and a fresh session identifier, the next [execute] leaves a
    ledger that is done, unless a commit digest collides with an earlier one.  It returns the manifest and the report
    of that ledger when the report validates, and raises what the validation raises when it does not. *)
Theorem campaign_completes c n trust w :
  collision_check plan = Ok tt -> NoDup (pi_key <$> pl_planned_interruptions plan) -> campaign_reaches plan c -> c_pending c = None ->
  settled (c_committed c) ->
  (forall shard, shard ∈ pl_shards plan -> sd_shard_id shard ∉ result_shard_ids (c_committed c) -> attempt_number (c_committed c) (sd_shard_id shard) <= 3) ->
  Z.of_nat (length (t_segments (c_committed c)) + length (pl_shards plan)) <= SAFE_INTEGER_MAX ->
  (forall c1 w1 id w2, _verify_recovery plan (c, w) = (Ok tt, (c1, w1)) -> new_session w1 = (Ok id, w2) ->
     id ∉ (ss_id <$> t_sessions (c_committed c))) ->
  (3 * length (pl_shards plan) < n)%nat ->
  exists c' w',
    execute plan n trust (c, w) = (Raise used_digest, (c', w')) \/
    ledger_done c' /\ exists manifest,
      let report := execution_report plan trust manifest (Z.of_nat (length (pl_planned_interruptions plan)))
                      (session_summary (c_committed c')) in
      execute plan n trust (c, w) = (validate_report report;; Ok (Completed manifest report), (c', w')).
Proof.
  intros Hnd%collisions_none Hkeys Hc%campaign_reaches_ok Hidle Hset Hatt Hroom Hfresh Hn.
  assert (c = connect (c_committed c)) as Ec by (symmetry; apply quiet_idle; [apply Hc|done]).
  revert Hc Hset Hatt Hroom Hfresh. rewrite Ec. generalize (c_committed c). clear Ec Hidle c. intros t Hc Hset Hatt Hroom Hfresh. cbn [c_committed connect] in *.
  destruct (recovery_returns t w Hc) as (t1 & w1 & E1 & Es1 & Ei1 & En1 & Hok1). destruct (session_returns w1) as (id & w2 & E2).
  assert (id ∉ (ss_id <$> t_sessions t1)) as Hid by (rewrite En1; by apply (Hfresh _ _ _ _ E1 E2)).
  destruct (on_ledger_at (begin_session id) (connect t1) w2) as (now & w3 & E3). rewrite begin_session_cases in E3 by done.
  cbn [c_committed connect] in E3. rewrite decide_False in E3 by done. cbn [fst snd] in E3. set (t3 := add_session _ _) in E3.
  assert (ready t3) as Hready.
  { constructor.
    - pose proof (step_ok campaign (connect t1) _ (Build_connection_ok campaign (connect t1) (quiet_connect t1) Hok1) (step_begin campaign (connect t1) id now)) as [_ Hk].
      rewrite begin_session_cases in Hk by done. by rewrite decide_False in Hk.
    - intros i Hi. cbn. rewrite Ei1. by apply Hset.
    - intros shard Hin Hres. unfold attempt_number, shard_segments, result_shard_ids in *. cbn in *. rewrite Es1 in *. by apply Hatt.
    - cbn. rewrite Es1. unfold unfinished. pose proof (List.filter_length_le (fun s => negb (bool_decide (sd_shard_id s ∈ result_shard_ids t3))) (pl_shards plan)). lia. }
  assert (unfinished t3 < n)%nat as Hfuel.
  { unfold unfinished. pose proof (List.filter_length_le (fun s => negb (bool_decide (sd_shard_id s ∈ result_shard_ids t3))) (pl_shards plan)). lia. }
  destruct (loop_returns id trust n t3 w3 Hready Hnd Hfuel) as (r & t4 & w4 & E4 & Hr & Hok4 & Hs4 & Hi4).
  assert (exists r, r ∈ t_sessions t4 /\ ss_id r = id /\ is_active r = true) as Hact.
  { exists (active_session id now). split; [|done]. rewrite Hs4. cbn. apply elem_of_app. right. by apply list_elem_of_singleton. }
  unfold execute. destruct Hr as [[-> Hnone] | ->].
  - assert ((in_key <$> t_interruptions t4) ≡ₚ (pi_key <$> pl_planned_interruptions plan)) as Hperm.
    { rewrite Hi4. cbn. rewrite Ei1. apply (NoDup_Permutation); [apply Hc|done|]. intros key. split.
      - intros (row & -> & Hr)%list_elem_of_fmap. destruct (cm_planned _ _ Hc row Hr) as (i & Hi & -> & _). by apply list_elem_of_fmap_2.
      - intros (i & -> & Hi)%list_elem_of_fmap. by apply Hset. }
    destruct (finish_returns id t4 w4) as (manifest & ended & w5 & E5); [done|apply Permutation_length in Hperm; by rewrite !length_fmap in Hperm|done|].
    exists (connect (close_session id "completed" ended t4)), w5. right. split; [|exists manifest].
    { constructor; [|exact Hperm| |done].
      - intros shard Hin. by eapply next_shard_none.
      - destruct Hact as (r & Hr & Es & Ha). eexists. split; [cbn; by apply list_elem_of_fmap_2, Hr|]. cbv beta. by rewrite Es, String.eqb_refl, Ha. }
    cbv zeta. eapply bind_step; [exact E1|]. eapply bind_step; [by apply on_world_eq|]. eapply bind_step; [exact E3|].
    eapply bind_step; [|]. { unfold try_eff, session_body. unfold mbind, eff_bind. rewrite E4, E5. done. }
    cbv beta iota. eapply bind_step; [by apply reading_eq|]. cbv zeta. unfold mbind, eff_bind, lift. by destruct (validate_report _).
  - destruct (end_returns id "failed" t4 w4 Hok4 eq_refl Hact) as (ended & w5 & E5). eexists _, _. left. eapply bind_step; [exact E1|].
    eapply bind_step; [by apply on_world_eq|]. eapply bind_step; [exact E3|]. apply bind_raise. unfold try_eff, session_body, mbind, eff_bind.
    rewrite E4, E5. done.
Qed.
End Liveness.

(** ** The sample campaign gets done *)

Import ScaleSample.
#[local] Existing Instance ascii_tables.
#[local] Existing Instance reference_jcs.
#[local] Existing Instance sample_float.
#[local] Existing Instance system_text.
#[local] Existing Instance world_laws.

#[local] Instance world_cooperates : @Cooperative Z (world false).
Proof. split; intros; by repeat eexists. Qed.

Definition paused : connection := (session false 0 new).2.1.
Lemma reaches_paused : @campaign_reaches _ _ _ _ (world false) plan paused.
Proof.
  exists new. split; [apply new_ledger|]. apply rtc_once. eapply (step_execute (World := world false) plan new 7 "local" 0). apply (session_pair false 0 new).
Qed.
Lemma paused_keys : (in_key <$> t_interruptions (c_committed paused)) = ["stop-1"].
Proof. by vm_compute. Qed.
Lemma paused_settled : settled plan (c_committed paused).
Proof. intros i [-> | []%elem_of_nil]%elem_of_cons. rewrite paused_keys. by apply list_elem_of_singleton. Qed.
Lemma paused_attempts shard : shard ∈ pl_shards plan -> attempt_number (c_committed paused) (sd_shard_id shard) <= 3.
Proof. intros [-> | [-> | []%elem_of_nil]%elem_of_cons]%elem_of_cons; apply Z.leb_le; by vm_compute. Qed.
Lemma second_clock : (20 <=? (_verify_recovery (World := world false) plan (paused, 30)).2.2) = true.
Proof. by vm_compute. Qed.
Lemma fresh_id c1 w1 id w2 :
  _verify_recovery (World := world false) plan (paused, 30) = (Ok tt, (c1, w1)) -> new_session (ScaleWorld := world false) w1 = (Ok id, w2) ->
  id ∉ (ss_id <$> t_sessions (c_committed paused)).
Proof.
  intros E. pose proof second_clock as Hw. rewrite E in Hw. cbn in Hw |- *. apply Z.leb_le in Hw. assert ((w1 <? 20) = false) as -> by lia.
  intros [= <- _]. apply (bool_decide_unpack _). by vm_compute.
Qed.

Lemma campaign_completes_witness :
  exists c' w',
    execute (World := world false) plan 7 "local" (paused, 30) = (Raise used_digest, (c', w')) \/
    @ledger_done plan c' /\ exists manifest report,
      execute (World := world false) plan 7 "local" (paused, 30) = (Ok (Completed manifest report), (c', w')).
Proof.
  destruct (campaign_completes (World := world false) plan paused 7 "local" 30) as (c' & w' & [E|(Hd & manifest & E)]).
  - by vm_compute.
  - apply NoDup_singleton.
  - exact reaches_paused.
  - by vm_compute.
  - exact paused_settled.
  - intros shard Hin _. by apply paused_attempts.
  - apply Z.leb_le. by vm_compute.
  - exact fresh_id.
  - cbn. lia.
  - exists c', w'. left. exact E.
  - exists c', w'. right. split; [exact Hd|]. eexists manifest, _. exact E.
Defined.
