(* ===== verification/Bytes.v ===== *)
(** * Bytes, UTF-8 and base 64

    Bytes are a [string] of characters 0..255.  A reader takes the bytes from a
    position on and returns what it read and the bytes that are left; [reads] says
    that it reads back what a writer wrote. *)

From S2P Require Export StrictJson.

Definition UnicodeDecodeError : exn := OtherException "UnicodeDecodeError" "".

Definition byte (z : Z) : ascii := ascii_of_N (Z.to_N z).
Definition bytes := string.

(** [raw.decode("utf-8")]; characters beyond Latin-1 are outside the model. *)
Fixpoint utf8_text (b : bytes) : result string :=
  match b with
  | EmptyString => Ok ""
  | String c r =>
      if code c <? 128 then s ← utf8_text r; Ok (String c s)
      else if (194 <=? code c) && (code c <=? 195) then
        match r with
        | String d r' =>
            if (128 <=? code d) && (code d <=? 191)
            then s ← utf8_text r'; Ok (String (byte ((code c - 192) * 64 + (code d - 128))) s)
            else Raise UnicodeDecodeError
        | EmptyString => Raise UnicodeDecodeError
        end
      else if (196 <=? code c) && (code c <=? 244) then Raise beyond
      else Raise UnicodeDecodeError
  end.

(** [[a-z0-9]+(?:-[a-z0-9]+)*]: a token that may start with a digit. *)
Definition DIGIT_TOKEN : regex := RSeq (RPlus az09) (RStar (RSeq dash (RPlus az09))).

(** ** Lemmas *)

(** [read] takes [e] for [a] and leaves the rest. *)
Definition reads {A} (read : bytes -> result (A * bytes)) (e : bytes) (a : A) : Prop := forall rest, read (e +:+ rest) = Ok (a, rest).

Lemma str_take_app_n n a b : String.length a = n -> str_take n (a +:+ b) = a.
Proof. intros <-. apply str_take_app. Qed.
Lemma str_drop_app_n n a b : String.length a = n -> str_drop n (a +:+ b) = b.
Proof. intros <-. apply str_drop_app. Qed.
Lemma code_bounds c : 0 <= code c < 256.
Proof. unfold code. pose proof (N_ascii_bounded c). lia. Qed.
Lemma code_byte z : 0 <= z < 256 -> code (byte z) = z.
Proof. apply code_ascii_of_Z. Qed.
Lemma byte_code c : byte (code c) = c.
Proof. unfold byte, code. rewrite N2Z.id. apply ascii_N_embedding. Qed.
Lemma code_inj c d : code c = code d -> c = d.
Proof. intros H. rewrite <- (byte_code c), H. apply byte_code. Qed.

Lemma utf8_text_encode s : utf8_text (utf8_encode s) = Ok s.
Proof.
  induction s as [|c s IH]; [done|]. pose proof (code_bounds c) as Hc. cbn [utf8_encode]. destruct (Z.ltb_spec (code c) 128) as [Hl|Hl]; cbn [utf8_text].
  - rewrite (proj2 (Z.ltb_lt _ _) Hl), IH. done.
  - fold (byte (192 + code c / 64)). fold (byte (128 + code c mod 64)). rewrite !code_byte by lia.
    rewrite (proj2 (Z.ltb_ge (192 + code c / 64) 128)) by lia. assert ((194 <=? 192 + code c / 64) && (192 + code c / 64 <=? 195) = true) as -> by lia.
    assert ((128 <=? 128 + code c mod 64) && (128 + code c mod 64 <=? 191) = true) as -> by lia. rewrite IH. cbn [mbind result_bind].
    do 2 f_equal. replace ((192 + code c / 64 - 192) * 64 + (128 + code c mod 64 - 128)) with (code c) by lia. apply byte_code.
Qed.
Lemma utf8_encode_inj s t : utf8_encode s = utf8_encode t -> s = t.
Proof. intros H. pose proof (utf8_text_encode s) as Hs. rewrite H, utf8_text_encode in Hs. by injection Hs. Qed.

(** ** Base 64 *)

Definition base64_char (d : Z) : ascii :=
  if d <? 26 then byte (65 + d) else if d <? 52 then byte (71 + d) else if d <? 62 then byte (d - 4) else if d =? 62 then "-"%char else "_"%char.
Definition base64_digit (c : ascii) : option Z :=
  if is_upper c then Some (code c - 65) else if is_lower c then Some (code c - 71) else if is_digit c then Some (code c + 4)
  else if Ascii.eqb c "-" then Some 62 else if Ascii.eqb c "_" then Some 63 else None.
(** [base64.urlsafe_b64encode(value).decode("ascii").rstrip("=")] *)
Fixpoint base64_encode (b : bytes) : string :=
  match b with
  | String x (String y (String z b)) =>
      let n := (code x * 256 + code y) * 256 + code z in
      String (base64_char (n / 262144)) (String (base64_char (n / 4096 mod 64))
        (String (base64_char (n / 64 mod 64)) (String (base64_char (n mod 64)) (base64_encode b))))
  | String x (String y EmptyString) =>
      let n := (code x * 256 + code y) * 4 in
      String (base64_char (n / 4096)) (String (base64_char (n / 64 mod 64)) (str1 (base64_char (n mod 64))))
  | String x EmptyString => let n := code x * 16 in String (base64_char (n / 64)) (str1 (base64_char (n mod 64)))
  | EmptyString => ""
  end.
(** [base64.urlsafe_b64decode] of the text with its padding; bits that are left are dropped. *)
Fixpoint base64_decode (s : string) : option bytes :=
  match s with
  | EmptyString => Some ""
  | String a (String b s) =>
      a ← base64_digit a; b ← base64_digit b;
      let x := byte ((a * 64 + b) / 16) in
      match s with
      | EmptyString => Some (str1 x)
      | String c s =>
          c ← base64_digit c;
          let y := byte (((a * 64 + b) * 64 + c) / 4 mod 256) in
          match s with
          | EmptyString => Some (String x (str1 y))
          | String d s => d ← base64_digit d; r ← base64_decode s; Some (String x (String y (String (byte ((((a * 64 + b) * 64 + c) * 64 + d) mod 256)) r)))
          end
      end
  | String _ EmptyString => None
  end.

Lemma base64_digit_char d : 0 <= d < 64 -> base64_digit (base64_char d) = Some d.
Proof.
  intros Hd. unfold base64_char, base64_digit.
  destruct (Z.ltb_spec d 26); [|destruct (Z.ltb_spec d 52); [|destruct (Z.ltb_spec d 62); [|destruct (Z.eqb_spec d 62)]]].
  - unfold is_upper, is_lower, is_digit. rewrite code_byte by lia. assert ((65 <=? 65 + d) && (65 + d <=? 90) = true) as -> by lia. f_equal. lia.
  - unfold is_upper, is_lower, is_digit. rewrite code_byte by lia. assert ((65 <=? 71 + d) && (71 + d <=? 90) = false) as -> by lia.
    assert ((97 <=? 71 + d) && (71 + d <=? 122) = true) as -> by lia. f_equal. lia.
  - unfold is_upper, is_lower, is_digit. rewrite code_byte by lia. assert ((65 <=? d - 4) && (d - 4 <=? 90) = false) as -> by lia.
    assert ((97 <=? d - 4) && (d - 4 <=? 122) = false) as -> by lia. assert ((48 <=? d - 4) && (d - 4 <=? 57) = true) as -> by lia. f_equal. lia.
  - by subst.
  - assert (d = 63) as -> by lia. done.
Qed.

(** Three bytes at a time. *)
Lemma bytes_induction (P : bytes -> Prop) :
  P "" -> (forall x, P (str1 x)) -> (forall x y, P (String x (str1 y))) -> (forall x y z b, P b -> P (String x (String y (String z b)))) -> forall b, P b.
Proof.
  intros H0 H1 H2 H3. fix IH 1. intros [|x [|y [|z b]]]; [apply H0|apply H1|apply H2|apply H3, IH].
Qed.
Lemma base64_round_trip b : base64_decode (base64_encode b) = Some b.
Proof.
  induction b as [|x|x y|x y z b IH] using bytes_induction; [done|..]; unfold str1 in *; cbn [base64_encode base64_decode]; unfold str1; cbn [base64_decode].
  - pose proof (code_bounds x). rewrite !base64_digit_char by lia. cbn [mbind option_bind]. do 2 f_equal.
    replace ((code x * 16 / 64 * 64 + code x * 16 mod 64) / 16) with (code x) by lia. apply byte_code.
  - pose proof (code_bounds x). pose proof (code_bounds y). rewrite !base64_digit_char by lia. cbn [mbind option_bind]. set (n := (code x * 256 + code y) * 4).
    replace ((n / 4096 * 64 + n / 64 mod 64) / 16) with (code x) by (subst n; lia). replace (((n / 4096 * 64 + n / 64 mod 64) * 64 + n mod 64) / 4 mod 256) with (code y) by (subst n; lia).
    by rewrite !byte_code.
  - pose proof (code_bounds x). pose proof (code_bounds y). pose proof (code_bounds z). rewrite !base64_digit_char by lia. cbn [mbind option_bind]. rewrite IH. cbn [mbind option_bind].
    set (n := (code x * 256 + code y) * 256 + code z).
    assert (((n / 262144 * 64 + n / 4096 mod 64) * 64 + n / 64 mod 64) * 64 + n mod 64 = n) as En by (subst n; lia).
    replace ((n / 262144 * 64 + n / 4096 mod 64) / 16) with (code x) by (subst n; lia).
    replace (((n / 262144 * 64 + n / 4096 mod 64) * 64 + n / 64 mod 64) / 4 mod 256) with (code y) by (subst n; lia).
    replace ((((n / 262144 * 64 + n / 4096 mod 64) * 64 + n / 64 mod 64) * 64 + n mod 64) mod 256) with (code z) by (rewrite En; subst n; lia).
    by rewrite !byte_code.
Qed.
Lemma base64_chars b : str_forallb (fun c => is_some (base64_digit c)) (base64_encode b) = true.
Proof.
  induction b as [|x|x y|x y z b IH] using bytes_induction; [done|..]; unfold str1 in *; cbn [base64_encode str_forallb str1]; unfold str1; cbn [str_forallb].
  - pose proof (code_bounds x). by rewrite !base64_digit_char by lia.
  - pose proof (code_bounds x). pose proof (code_bounds y). by rewrite !base64_digit_char by lia.
  - pose proof (code_bounds x). pose proof (code_bounds y). pose proof (code_bounds z). rewrite !base64_digit_char by lia. by rewrite IH.
Qed.
