(* ===== verification/TokenCodec.v ===== *)
(** * The token codec of the evidence archives

    [TokenTables] of factorized_evidence.py: evidence documents are written as bytes
    over three tables, of identifier prefixes, of strings and of object shapes, with
    variable-length integers.  Bytes are a [string] of characters 0..255; a position
    [data, offset] is the bytes from the offset on.  Text has Latin-1 characters,
    as everywhere in this library, and is written as UTF-8. *)

From S2P Require Export Rows Identifiers Timestamps Bytes.
From Stdlib Require Import SpecFloat.

Definition FactorizedEvidenceError (msg : string) : exn := OtherException "FactorizedEvidenceError" msg.
Definition _fail (message : string) : exn := FactorizedEvidenceError message.
(** Tuples compare element by element, a proper prefix first. *)
Fixpoint list_leb `{PyOrd A} `{EqDecision A} (l k : list A) : bool :=
  match l, k with
  | [], _ => true
  | _ :: _, [] => false
  | x :: l', y :: k' => if decide (x = y) then list_leb l' k' else py_leb x y
  end.
#[export] Instance list_ord `{PyOrd A} `{EqDecision A} : PyOrd (list A).
Proof.
  refine {| py_leb := list_leb |}.
  - intros l. induction l as [|x l IH]; intros [|y k]; cbn; auto. repeat case_decide; subst; try congruence; auto using py_leb_total.
  - intros l. induction l as [|x l IH]; intros [|y k] [|z j]; cbn; try done. repeat case_decide; subst; try congruence; eauto using py_leb_trans.
    intros H3 H4. exfalso. eauto using py_leb_antisym.
  - intros l. induction l as [|x l IH]; intros [|y k]; cbn; try done. repeat case_decide; subst; try congruence; intros.
    + f_equal. by apply IH.
    + exfalso. eauto using py_leb_antisym.
Defined.

(** ** Variable-length integers *)

(** The loop of [_uvarint]; each pass divides the value by 128. *)
Fixpoint uvarint_go (fuel : nat) (value : Z) : bytes :=
  match fuel with
  | O => ""
  | S n => if 128 <=? value then String (byte (Z.lor (Z.land value 127) 128)) (uvarint_go n (Z.shiftr value 7)) else str1 (byte value)
  end.
Definition uvarint_fuel (value : Z) : nat := S (Z.to_nat (Z.log2 value)).
Definition _uvarint (value : Z) : result bytes :=
  raise_if (value <? 0) (_fail "unsigned varint cannot encode a negative value");;
  Ok (uvarint_go (uvarint_fuel value) value).

Fixpoint read_uvarint_go (data : bytes) (shift acc : Z) : result (Z * bytes) :=
  match data with
  | EmptyString => Raise (_fail "invalid or truncated varint")
  | String c rest =>
      if 63 <? shift then Raise (_fail "invalid or truncated varint") else
      let acc := Z.lor acc (Z.shiftl (Z.land (code c) 127) shift) in
      if code c <? 128 then Ok (acc, rest) else read_uvarint_go rest (shift + 7) acc
  end.
Definition _read_uvarint (data : bytes) : result (Z * bytes) := read_uvarint_go data 0 0.

Definition _svarint (value : Z) : result bytes := _uvarint (if 0 <=? value then value * 2 else - value * 2 - 1).
Definition _read_svarint (data : bytes) : result (Z * bytes) :=
  '(raw, rest) ← _read_uvarint data; Ok (if raw mod 2 =? 0 then raw / 2 else - (raw / 2) - 1, rest).

Definition _pack_bytes (value : bytes) : result bytes := size ← _uvarint (str_len value); Ok (size +:+ value).
(** [bytes(data[offset:offset + n])], if there are as many. *)
Definition take_exact (n : nat) (msg : string) (data : bytes) : result (bytes * bytes) :=
  raise_if (Nat.ltb (String.length data) n) (_fail msg);; Ok (str_take n data, str_drop n data).
Definition _read_bytes (data : bytes) : result (bytes * bytes) :=
  '(length, rest) ← _read_uvarint data;
  raise_if (str_len rest <? length) (_fail "truncated length-delimited value");;
  Ok (str_take (Z.to_nat length) rest, str_drop (Z.to_nat length) rest).

(** ** Digits *)

(** [value.hex()] *)
Fixpoint hex (b : bytes) : string := match b with EmptyString => "" | String c r => hexw 2 (code c) +:+ hex r end.
(** [bytes.fromhex(s)] of hexadecimal digits. *)
Fixpoint fromhex (s : string) : result bytes :=
  match s with
  | EmptyString => Ok ""
  | String a (String b r) =>
      match hex_digit a, hex_digit b with
      | Some x, Some y => t ← fromhex r; Ok (String (byte (x * 16 + y)) t)
      | _, _ => Raise (ValueError "non-hexadecimal number found in fromhex() arg")
      end
  | String _ EmptyString => Raise (ValueError "non-hexadecimal number found in fromhex() arg")
  end.

(** [s.replace("-", "")] *)
Definition without_dashes (s : string) : string := replace_char "-" "" s.
(** The UUID text of 32 digits. *)
Definition with_dashes (s : string) : string :=
  str_take 8 s +:+ "-" +:+ str_take 4 (str_drop 8 s) +:+ "-" +:+ str_take 4 (str_drop 12 s) +:+ "-" +:+
  str_take 4 (str_drop 16 s) +:+ "-" +:+ str_drop 20 s.

(** The two groups of a pattern whose second is a suffix of [n] characters. *)
Definition groups (pattern : regex) (n : nat) (s : string) : option (string * string) :=
  if fullmatch pattern s then Some (str_take (String.length s - n) s, str_drop (String.length s - n) s) else None.

Definition digit : regex := RClass [("0", "9")]%char.
Definition hexd_dash : regex := RClass [("0", "9"); ("a", "f"); ("-", "-")]%char.
Definition identity_kind : regex := RSeq (RLit "rcid:v1:") DIGIT_TOKEN.
Definition _RCID_HASH (s : string) : option (string * string) :=
  groups (RSeq identity_kind (RSeq (RLit ":h:jcs-sha256-v1:") (RRepeat 64 hexd))) 64 s.
Definition _RCID_UUID (s : string) : option (string * string) :=
  groups (RSeq identity_kind (RSeq (RLit ":u7:") (RRepeat 36 hexd_dash))) 36 s.
Definition _HEX64 (s : string) : bool := fullmatch (RRepeat 64 hexd) s.
Definition _UUID (s : string) : bool :=
  fullmatch (RSeq (RRepeat 8 hexd) (RSeq dash (RSeq (RRepeat 4 hexd) (RSeq dash (RSeq (RRepeat 4 hexd) (RSeq dash
    (RSeq (RRepeat 4 hexd) (RSeq dash (RRepeat 12 hexd))))))))) s.
Definition _MILLISECOND_UTC (s : string) : bool :=
  fullmatch (RSeq (RRepeat 4 digit) (RSeq dash (RSeq (RRepeat 2 digit) (RSeq dash (RSeq (RRepeat 2 digit) (RSeq (RLit "T")
    (RSeq (RRepeat 2 digit) (RSeq (RLit ":") (RSeq (RRepeat 2 digit) (RSeq (RLit ":") (RSeq (RRepeat 2 digit)
    (RSeq (RLit ".") (RSeq (RRepeat 3 digit) (RLit "Z")))))))))))))) s.

(** ** Instants

    [int(instant.timestamp() * 1000)] goes through binary64: [timestamp] divides the
    microseconds by a million, rounding to nearest. *)

(** [a / b], rounded to the nearest integer, ties to even. *)
Definition round_even (a b : Z) : Z :=
  let q := a / b in let r := a mod b in
  if 2 * r <? b then q else if b <? 2 * r then q + 1 else if Z.even q then q else q + 1.
(** The binary64 number nearest to [n / d] as [(m, e)], for [m * 2 ^ e]. *)
Definition nearest_double (n d : Z) : Z * Z :=
  if n =? 0 then (0, 0) else
  let k := Z.log2 (Z.abs n) - Z.log2 d in
  let k := if Z.abs n * 2 ^ Z.max 0 (- k) <? d * 2 ^ Z.max 0 k then k - 1 else k in
  let e := k - 52 in
  let m := round_even (Z.abs n * 2 ^ Z.max 0 (- e)) (d * 2 ^ Z.max 0 e) in
  (Z.sgn n * m, e).
(** [x * 1000], and [int(x)], which truncates. *)
Definition double_times (k : Z) (x : Z * Z) : Z * Z := nearest_double (k * x.1 * 2 ^ Z.max 0 x.2) (2 ^ Z.max 0 (- x.2)).
Definition double_int (x : Z * Z) : Z := Z.quot (x.1 * 2 ^ Z.max 0 x.2) (2 ^ Z.max 0 (- x.2)).
Definition timestamp (us : Z) : Z * Z := nearest_double us 1000000.
Definition stored_milliseconds (us : Z) : Z := double_int (double_times 1000 (timestamp us)).

Definition encode_instant (value : string) : result Z :=
  match fromisoformat (str_take (String.length value - 1) value +:+ "+00:00") with
  | None => Raise (ValueError ("Invalid isoformat string: " +:+ py_repr value))
  | Some d => Ok (stored_milliseconds (instant d))
  end.

(** What the platform decides: the text of a year below 1000 by [strftime("%Y")] and
    the exception of [fromtimestamp] outside the years 1 to 9999. *)
Class Platform := { year_text : Z -> string; date_error : Z -> exn }.
Class PlatformLaws `{Platform} : Prop := year_text_four y : 1000 <= y <= 9999 -> year_text y = decw 4 y.

(** ** Tables *)

Record TokenTables := {
  tt_strings : list string; tt_string_indexes : gmap string Z;
  tt_prefixes : list string; tt_prefix_indexes : gmap string Z;
  tt_shapes : list (list string); tt_shape_indexes : gmap (list string) Z
}.

(** [{value: index for index, value in enumerate(l)}] *)
Fixpoint indexes_from `{Countable K} (n : Z) (l : list K) : gmap K Z -> gmap K Z :=
  fun m => match l with [] => m | x :: l' => indexes_from (n + 1) l' (<[x := n]> m) end.
Definition indexes `{Countable K} (l : list K) : gmap K Z := indexes_from 0 l ∅.

Definition make_tables (strings prefixes : list string) (shapes : list (list string)) : TokenTables :=
  {| tt_strings := strings; tt_string_indexes := indexes strings; tt_prefixes := prefixes;
     tt_prefix_indexes := indexes prefixes; tt_shapes := shapes; tt_shape_indexes := indexes shapes |}.

(** The values of the model: documents and byte strings. *)
#[warnings="-register-all"]
Inductive value :=
| VNone
| VBool (b : bool)
| VInt (z : Z)
| VFloat (f : spec_float)
| VStr (s : string)
| VBytes (b : bytes)
| VList (l : list value)
| VDict (fields : list (string * value)).

Lemma value_induction (P : value -> Prop) :
  P VNone -> (forall b, P (VBool b)) -> (forall z, P (VInt z)) -> (forall f, P (VFloat f)) -> (forall s, P (VStr s)) ->
  (forall b, P (VBytes b)) -> (forall l, Forall P l -> P (VList l)) ->
  (forall fields, Forall (fun p => P p.2) fields -> P (VDict fields)) -> forall v, P v.
Proof.
  intros H1 H2 H3 H4 H5 H6 H7 H8. fix IH 1. intros [|b|z|f|s|b|l|fields];
    [apply H1|apply H2|apply H3|apply H4|apply H5|apply H6|apply H7|apply H8].
  - induction l as [|x l IHl]; constructor; [apply IH|exact IHl].
  - induction fields as [|[k x] l IHl]; constructor; [apply IH|exact IHl].
Qed.

(** [tuple(sorted(item, key=lambda key: key.encode("utf-8")))] *)
Definition shape_of (fields : list (string * value)) : list string := sorted_by utf8_encode (fst <$> fields).

(** The strings and shapes [_walk] yields. *)
Fixpoint strings_of (v : value) : list string :=
  match v with
  | VStr s => [s]
  | VList l => concat (strings_of <$> l)
  | VDict fields => concat ((fun p => p.1 :: strings_of p.2) <$> fields)
  | _ => []
  end.
Fixpoint shapes_of (v : value) : list (list string) :=
  match v with
  | VList l => concat (shapes_of <$> l)
  | VDict fields => shape_of fields :: concat ((fun p => shapes_of p.2) <$> fields)
  | _ => []
  end.
Definition prefix_of (s : string) : option string :=
  match _RCID_HASH s with Some m => Some m.1 | None => fst <$> _RCID_UUID s end.

Definition build (values : list value) (extra_strings : list string) : TokenTables :=
  let strings := sorted_by utf8_encode (remove_dups (extra_strings ++ concat (strings_of <$> values))) in
  let prefixes := sorted_by utf8_encode (remove_dups (omap prefix_of strings)) in
  let rank (shape : list string) := (fun key => default 0 (indexes strings !! key)) <$> shape in
  make_tables strings prefixes (sorted_by rank (remove_dups (concat (shapes_of <$> values)))).

(** ** Encoding the tables *)

(** [for x in l: output += f(x)] *)
Fixpoint output_each {A} (f : A -> result bytes) (l : list A) : result bytes :=
  match l with [] => Ok "" | x :: l' => a ← f x; b ← output_each f l'; Ok (a +:+ b) end.
Definition with_count {A} (f : A -> result bytes) (l : list A) : result bytes :=
  n ← _uvarint (Z.of_nat (length l)); b ← output_each f l; Ok (n +:+ b).

Definition index_of `{Countable K} (key : K) (m : gmap K Z) (e : exn) : result Z :=
  match m !! key with Some i => Ok i | None => Raise e end.

Definition encode_string (self : TokenTables) (value : string) : result bytes :=
  match _RCID_HASH value, _RCID_UUID value with
  | Some (prefix, suffix), _ =>
      i ← index_of prefix (tt_prefix_indexes self) (KeyError prefix); n ← _uvarint i; b ← fromhex suffix;
      Ok (String (byte 1) (n +:+ b))
  | None, Some (prefix, suffix) =>
      i ← index_of prefix (tt_prefix_indexes self) (KeyError prefix); n ← _uvarint i; b ← fromhex (without_dashes suffix);
      Ok (String (byte 2) (n +:+ b))
  | None, None =>
      if _HEX64 value then b ← fromhex value; Ok (String (byte 3) b)
      else if _UUID value then b ← fromhex (without_dashes value); Ok (String (byte 4) b)
      else if _MILLISECOND_UTC value then n ← encode_instant value; b ← _svarint n; Ok (String (byte 5) b)
      else b ← _pack_bytes (utf8_encode value); Ok (String (byte 0) b)
  end.
Definition encode_shape (self : TokenTables) (shape : list string) : result bytes :=
  with_count (fun key => i ← index_of key (tt_string_indexes self) (KeyError key); _uvarint i) shape.

Definition encode_tables (self : TokenTables) : result bytes :=
  prefixes ← with_count (fun p => _pack_bytes (utf8_encode p)) (tt_prefixes self);
  strings ← with_count (encode_string self) (tt_strings self);
  shapes ← with_count (encode_shape self) (tt_shapes self);
  Ok ("TBL1" +:+ prefixes +:+ strings +:+ shapes).

(** ** Decoding the tables *)

(** [for _ in range(n)]: every pass reads at least one byte. *)
Fixpoint read_times {A} (fuel : nat) (n : Z) (read : bytes -> result (A * bytes)) (data : bytes) : result (list A * bytes) :=
  if n <=? 0 then Ok ([], data) else
  match fuel with
  | O => Raise no_fuel
  | S m => '(x, data) ← read data; '(l, data) ← read_times m (n - 1) read data; Ok (x :: l, data)
  end.
Definition read_counted {A} (read : bytes -> result (A * bytes)) (data : bytes) : result (list A * bytes) :=
  '(n, data) ← _read_uvarint data; read_times (S (String.length data)) n read data.

(** [l[i]] of an index that is checked first. *)
Definition item_at {A} (l : list A) (i : Z) (msg : string) : result A :=
  raise_if (Z.of_nat (length l) <=? i) (_fail msg);;
  match l !! Z.to_nat i with Some x => Ok x | None => Raise (OtherException "IndexError" "list index out of range") end.

Section Decoding.
Context `{Platform}.

Definition decode_instant (milliseconds : Z) : result string :=
  let seconds := milliseconds / 1000 in let remainder := milliseconds mod 1000 in
  raise_if (negb ((min_instant <=? seconds * 1000000) && (seconds * 1000000 <=? max_instant))) (date_error seconds);;
  let '(y, m, d) := civil_from_days (seconds / 86400) in
  let s := seconds mod 86400 in
  Ok (year_text y +:+ "-" +:+ decw 2 m +:+ "-" +:+ decw 2 d +:+ "T" +:+
      decw 2 (s / 3600) +:+ ":" +:+ decw 2 (s / 60 mod 60) +:+ ":" +:+ decw 2 (s mod 60) +:+ "." +:+ decw 3 remainder +:+ "Z").

Definition decode_string (prefixes : list string) (data : bytes) : result (string * bytes) :=
  match data with
  | EmptyString => Raise (_fail "truncated token table")
  | String c data =>
      let kind := code c in
      if kind =? 0 then '(raw, data) ← _read_bytes data; s ← utf8_text raw; Ok (s, data)
      else if (kind =? 1) || (kind =? 2) then
        '(i, data) ← _read_uvarint data;
        prefix ← item_at prefixes i "token prefix index is out of range";
        '(raw, data) ← take_exact (if kind =? 1 then 32%nat else 16%nat) "truncated typed identity" data;
        Ok (prefix +:+ (if kind =? 2 then with_dashes (hex raw) else hex raw), data)
      else if kind =? 3 then '(raw, data) ← take_exact 32 "truncated digest" data; Ok (hex raw, data)
      else if kind =? 4 then '(raw, data) ← take_exact 16 "truncated UUID" data; Ok (with_dashes (hex raw), data)
      else if kind =? 5 then '(n, data) ← _read_svarint data; s ← decode_instant n; Ok (s, data)
      else Raise (_fail "unknown typed string kind")
  end.
Definition decode_prefix (data : bytes) : result (string * bytes) := '(raw, data) ← _read_bytes data; s ← utf8_text raw; Ok (s, data).
Definition decode_key (strings : list string) (data : bytes) : result (string * bytes) :=
  '(i, data) ← _read_uvarint data; key ← item_at strings i "shape key index is out of range"; Ok (key, data).

Definition decode_tables (encoded : bytes) : result (TokenTables * bytes) :=
  raise_if (negb (String.eqb (str_take 4 encoded) "TBL1")) (_fail "token table magic differs");;
  '(prefixes, data) ← read_counted decode_prefix (str_drop 4 encoded);
  '(strings, data) ← read_counted (decode_string prefixes) data;
  '(shapes, data) ← read_counted (read_counted (decode_key strings)) data;
  Ok (make_tables strings prefixes shapes, data).
End Decoding.

(** ** Values *)

Fixpoint encode_value (self : TokenTables) (item : value) : result bytes :=
  match item with
  | VNone => Ok (str1 (byte 0))
  | VBool false => Ok (str1 (byte 1))
  | VBool true => Ok (str1 (byte 2))
  | VInt z => b ← _svarint z; Ok (String (byte 3) b)
  | VFloat _ => Raise (_fail "floating-point values are not permitted in the factorized model")
  | VStr s => i ← index_of s (tt_string_indexes self) (_fail "value references an absent token"); b ← _uvarint i; Ok (String (byte 4) b)
  | VBytes raw => b ← _pack_bytes raw; Ok (String (byte 7) b)
  | VList l => b ← with_count (fun r => r) (encode_value self <$> l); Ok (String (byte 5) b)
  | VDict fields =>
      let shape := shape_of fields in
      i ← index_of shape (tt_shape_indexes self) (_fail "object references an absent shape"); n ← _uvarint i;
      let encoded := (fun p => (p.1, encode_value self p.2)) <$> fields in
      b ← output_each (fun key => default (Raise (KeyError key)) (find_field key encoded)) shape;
      Ok (String (byte 6) (n +:+ b))
  end.

(** [{key: visit() for key in shape}], a repeated key keeping its first place. *)
Fixpoint read_fields {A} (read : bytes -> result (A * bytes)) (shape : list string) (data : bytes) : result (list A * bytes) :=
  match shape with [] => Ok ([], data) | _ :: shape' => '(x, data) ← read data; '(l, data) ← read_fields read shape' data; Ok (x :: l, data) end.
Definition dict_of {A} (shape : list string) (l : list A) : list (string * A) :=
  foldl (fun d p => if existsb (fun q => String.eqb q.1 p.1) d then (fun q => if String.eqb q.1 p.1 then p else q) <$> d else d ++ [p]) [] (zip shape l).

(** [visit] of [decode_value]; every call reads a byte. *)
Fixpoint visit (fuel : nat) (self : TokenTables) (data : bytes) : result (value * bytes) :=
  match fuel, data with
  | O, _ => Raise no_fuel
  | S _, EmptyString => Raise (_fail "truncated factorized value")
  | S n, String c data =>
      let tag := code c in
      if tag =? 0 then Ok (VNone, data)
      else if tag =? 1 then Ok (VBool false, data)
      else if tag =? 2 then Ok (VBool true, data)
      else if tag =? 3 then '(z, data) ← _read_svarint data; Ok (VInt z, data)
      else if tag =? 4 then
        '(i, data) ← _read_uvarint data; s ← item_at (tt_strings self) i "string index is out of range"; Ok (VStr s, data)
      else if tag =? 5 then '(l, data) ← read_counted (visit n self) data; Ok (VList l, data)
      else if tag =? 6 then
        '(i, data) ← _read_uvarint data; shape ← item_at (tt_shapes self) i "shape index is out of range";
        '(l, data) ← read_fields (visit n self) shape data; Ok (VDict (dict_of shape l), data)
      else if tag =? 7 then '(b, data) ← _read_bytes data; Ok (VBytes b, data)
      else Raise (_fail "unknown factorized value tag")
  end.
Definition decode_value (self : TokenTables) (encoded : bytes) : result (value * bytes) := visit (S (String.length encoded)) self encoded.
