(* ===== verification/TokenBytes.v ===== *)
(** * Bytes that read back

    The parts of the token codec: what each writes is read back, with whatever
    follows left over.  [reads read e a] is that statement, and its lemmas follow
    the structure of the encoders.

    The parts after it are about instants through binary64 and about typed strings. *)

From S2P Require Export TokenCodec.

(** ** Integers *)

(** Enough fuel: the bits of the value. *)
Lemma uvarint_fuel_enough value : 0 <= value -> exists n, uvarint_fuel value = S n /\ value < 2 ^ (Z.of_nat n + 1).
Proof.
  intros H. eexists. split; [done|]. rewrite Z2Nat.id by apply Z.log2_nonneg. destruct (decide (value = 0)) as [->|Hne]; [done|].
  rewrite Z.add_1_r. apply Z.log2_spec. lia.
Qed.

Lemma low_septet value : 0 <= value -> code (byte (Z.lor (Z.land value 127) 128)) = value mod 128 + 128.
Proof.
  intros H. change 127 with (Z.ones 7). rewrite Z.land_ones by lia. change (2 ^ 7) with 128.
  rewrite Z.lor_comm. change 128 with (1 * 2 ^ 7) at 1. rewrite lor_add by (change (2 ^ 7) with 128; lia). rewrite code_byte; lia.
Qed.
Lemma take_septet acc c shift :
  0 <= shift -> 0 <= acc < 2 ^ shift -> Z.lor acc (Z.shiftl (Z.land (code c) 127) shift) = acc + code c mod 128 * 2 ^ shift.
Proof.
  intros Hs Ha. change 127 with (Z.ones 7). rewrite Z.land_ones, Z.shiftl_mul_pow2, Z.lor_comm by lia. rewrite lor_add by done. change (2 ^ 7) with 128. lia.
Qed.

(** How the loops of writer and reader meet: at a shift of [7 * k] bits. *)
Lemma septet_room value k : 0 <= k <= 9 -> value < 2 ^ (70 - 7 * k) -> 128 <= value -> k + 1 <= 9 /\ value / 128 < 2 ^ (70 - 7 * (k + 1)).
Proof.
  intros Hk Hv Hl. assert (k <> 9) by (intros ->; change (2 ^ (70 - 7 * 9)) with 128 in Hv; lia). split; [lia|].
  replace (70 - 7 * k) with (70 - 7 * (k + 1) + 7) in Hv by lia. rewrite Z.pow_add_r in Hv by lia. change (2 ^ 7) with 128 in Hv.
  apply Z.div_lt_upper_bound; lia.
Qed.
Lemma fuel_step n value : 0 <= value < 2 ^ (Z.of_nat (S n) + 1) -> 0 <= value / 128 < 2 ^ (Z.of_nat n + 1).
Proof. intros Hv. replace (Z.of_nat (S n) + 1) with (Z.of_nat n + 1 + 1) in Hv by lia. rewrite Z.pow_add_r in Hv by lia. lia. Qed.
Lemma acc_step acc value k :
  0 <= k -> 0 <= acc < 2 ^ (7 * k) -> 0 <= value ->
  0 <= acc + value mod 128 * 2 ^ (7 * k) < 2 ^ (7 * (k + 1)) /\
  acc + value mod 128 * 2 ^ (7 * k) + value / 128 * 2 ^ (7 * (k + 1)) = acc + value * 2 ^ (7 * k).
Proof.
  intros Hk Ha Hv. replace (7 * (k + 1)) with (7 * k + 7) by lia. rewrite Z.pow_add_r by lia. change (2 ^ 7) with 128.
  pose proof (Z.div_mod value 128 ltac:(lia)) as Hd. pose proof (Z.mod_pos_bound value 128 ltac:(lia)). set (p := 2 ^ (7 * k)) in *. split; [nia|].
  rewrite Hd at 3. ring.
Qed.

(** A pass of the reader over a byte of the writer. *)
Lemma read_more value rest k acc :
  0 <= k <= 9 -> 0 <= value -> 0 <= acc < 2 ^ (7 * k) ->
  read_uvarint_go (String (byte (Z.lor (Z.land value 127) 128)) rest) (7 * k) acc =
  read_uvarint_go rest (7 * (k + 1)) (acc + value mod 128 * 2 ^ (7 * k)).
Proof.
  intros Hk Hv Ha. cbn [read_uvarint_go]. rewrite (proj2 (Z.ltb_ge 63 (7 * k))) by lia. rewrite take_septet, low_septet by lia.
  rewrite (proj2 (Z.ltb_ge (value mod 128 + 128) 128)) by lia. replace (value mod 128 + 128) with (value mod 128 + 1 * 128) by lia.
  rewrite Z.mod_add, Z.mod_mod by lia. by replace (7 * k + 7) with (7 * (k + 1)) by lia.
Qed.

Lemma read_uvarint_ok n : forall value k acc rest,
  0 <= k <= 9 -> 0 <= value < 2 ^ (Z.of_nat n + 1) -> value < 2 ^ (70 - 7 * k) -> 0 <= acc < 2 ^ (7 * k) ->
  read_uvarint_go (uvarint_go (S n) value +:+ rest) (7 * k) acc = Ok (acc + value * 2 ^ (7 * k), rest).
Proof.
  induction n as [|n IH]; intros value k acc rest Hk Hv Hr Ha.
  - change (2 ^ (Z.of_nat 0 + 1)) with 2 in Hv. cbn [uvarint_go]. rewrite (proj2 (Z.leb_gt 128 value)) by lia. cbn [String.append read_uvarint_go str1].
    rewrite (proj2 (Z.ltb_ge 63 (7 * k))) by lia. rewrite take_septet, code_byte by lia. rewrite (proj2 (Z.ltb_lt value 128)) by lia. by rewrite Z.mod_small by lia.
  - remember (S n) as m eqn:Em. cbn [uvarint_go]. destruct (Z.leb_spec 128 value) as [Hl|Hl].
    + cbn [String.append]. rewrite read_more by lia. destruct (septet_room value k Hk Hr Hl) as [Hk' Hr'].
      destruct (acc_step acc value k) as [Hb He]; [lia..|]. rewrite Em in Hv. apply fuel_step in Hv.
      rewrite Z.shiftr_div_pow2 by lia. change (2 ^ 7) with 128. rewrite IH; [by rewrite He|lia|exact Hv|exact Hr'|exact Hb].
    + cbn [String.append read_uvarint_go str1]. rewrite (proj2 (Z.ltb_ge 63 (7 * k))) by lia. rewrite take_septet, code_byte by lia.
      rewrite (proj2 (Z.ltb_lt value 128)) by lia. by rewrite Z.mod_small by lia.
Qed.
Lemma read_uvarint_large n : forall value k acc rest,
  0 <= k <= 10 -> 0 <= value < 2 ^ (Z.of_nat n + 1) -> 2 ^ (70 - 7 * k) <= value -> 0 <= acc < 2 ^ (7 * k) ->
  read_uvarint_go (uvarint_go (S n) value +:+ rest) (7 * k) acc = Raise (_fail "invalid or truncated varint").
Proof.
  induction n as [|n IH]; intros value k acc rest Hk Hv Hr Ha; (assert (k = 10 \/ k <= 9) as [->|Hk9] by lia;
    [cbn [uvarint_go]; destruct (128 <=? value); done|]); (assert (128 <= value) as Hl;
    [etrans; [|exact Hr]; change 128 with (2 ^ 7); apply Z.pow_le_mono_r; lia|]).
  - change (2 ^ (Z.of_nat 0 + 1)) with 2 in Hv. lia.
  - remember (S n) as m eqn:Em. cbn [uvarint_go]. rewrite (proj2 (Z.leb_le 128 value) Hl). cbn [String.append]. rewrite read_more by lia.
    destruct (acc_step acc value k) as [Hb _]; [lia..|]. rewrite Em in Hv. apply fuel_step in Hv.
    rewrite Z.shiftr_div_pow2 by lia. change (2 ^ 7) with 128. apply IH; [lia|exact Hv| |exact Hb].
    replace (70 - 7 * k) with (70 - 7 * (k + 1) + 7) in Hr by lia. rewrite Z.pow_add_r in Hr by lia. change (2 ^ 7) with 128 in Hr.
    apply Z.div_le_lower_bound; lia.
Qed.

Lemma uvarint_ok value : 0 <= value -> _uvarint value = Ok (uvarint_go (uvarint_fuel value) value).
Proof. intros H. unfold _uvarint. by rewrite (proj2 (Z.ltb_ge value 0)) by lia. Qed.
Lemma uvarint_inv value b : _uvarint value = Ok b -> 0 <= value /\ b = uvarint_go (uvarint_fuel value) value.
Proof. unfold _uvarint. intros [Hg%raise_if_ok%Z.ltb_ge [= <-]]%bind_unit_ok. done. Qed.
Lemma uvarint_nonempty value b : _uvarint value = Ok b -> (1 <= String.length b)%nat.
Proof. intros [_ ->]%uvarint_inv. unfold uvarint_fuel. cbn [uvarint_go]. destruct (128 <=? value); cbn; lia. Qed.
Lemma uvarint_reads value b : _uvarint value = Ok b -> value < 2 ^ 70 -> reads _read_uvarint b value.
Proof.
  intros [Hv ->]%uvarint_inv Hlt rest. destruct (uvarint_fuel_enough value Hv) as (n & -> & Hf). unfold _read_uvarint.
  change 0 with (7 * 0) at 1. rewrite read_uvarint_ok by (rewrite ?Z.mul_0_r; try lia; done). f_equal. f_equal. rewrite Z.mul_0_r, Z.pow_0_r. lia.
Qed.
Lemma uvarint_too_large value b rest :
  _uvarint value = Ok b -> 2 ^ 70 <= value -> _read_uvarint (b +:+ rest) = Raise (_fail "invalid or truncated varint").
Proof.
  intros [Hv ->]%uvarint_inv Hge. destruct (uvarint_fuel_enough value Hv) as (n & -> & Hf). unfold _read_uvarint.
  change 0 with (7 * 0) at 1. apply read_uvarint_large; rewrite ?Z.mul_0_r; try lia; done.
Qed.

Definition zigzag (value : Z) : Z := if 0 <=? value then value * 2 else - value * 2 - 1.
Lemma zigzag_back value : (if zigzag value mod 2 =? 0 then zigzag value / 2 else - (zigzag value / 2) - 1) = value.
Proof. unfold zigzag. destruct (Z.leb_spec 0 value) as [H|H]; [destruct (Z.eqb_spec (value * 2 mod 2) 0)|destruct (Z.eqb_spec ((- value * 2 - 1) mod 2) 0)]; lia. Qed.
Lemma svarint_reads value b : _svarint value = Ok b -> - 2 ^ 69 <= value < 2 ^ 69 -> reads _read_svarint b value.
Proof.
  intros Hb Hv rest. unfold _read_svarint. rewrite (uvarint_reads (zigzag value) b Hb).
  - cbn [mbind result_bind]. by rewrite zigzag_back.
  - unfold zigzag. change (2 ^ 70) with (2 * 2 ^ 69). destruct (Z.leb_spec 0 value); lia.
Qed.
Lemma svarint_total value : exists b, _svarint value = Ok b /\ (1 <= String.length b)%nat.
Proof.
  destruct (_svarint value) as [b|e] eqn:E; [exists b; split; [done|by eapply uvarint_nonempty]|].
  unfold _svarint in E. rewrite uvarint_ok in E; [done|]. destruct (Z.leb_spec 0 value); lia.
Qed.

Lemma pack_bytes_inv s b : _pack_bytes s = Ok b -> exists n, _uvarint (str_len s) = Ok n /\ b = n +:+ s.
Proof. unfold _pack_bytes. intros (n & Hn & [= <-])%bind_ok. by exists n. Qed.
Lemma pack_bytes_total s : exists b, _pack_bytes s = Ok b.
Proof. unfold _pack_bytes. rewrite uvarint_ok by (unfold str_len; lia). by eexists. Qed.
Lemma pack_bytes_reads s b : _pack_bytes s = Ok b -> str_len b < 2 ^ 63 -> reads _read_bytes b s.
Proof.
  intros (n & Hn & ->)%pack_bytes_inv Hb rest. rewrite str_len_app in Hb. unfold _read_bytes. rewrite str_app_assoc.
  rewrite (uvarint_reads _ _ Hn) by (unfold str_len in *; lia). cbn [mbind result_bind]. rewrite str_len_app.
  rewrite (proj2 (Z.ltb_ge (str_len s + str_len rest) (str_len s))) by (unfold str_len; lia). cbn [raise_if mbind result_bind]. unfold str_len. rewrite Nat2Z.id, str_take_app, str_drop_app. done.
Qed.

(** ** Text *)

Definition hexs (s : string) : bool := str_forallb is_hex_lower s.
Lemma hex_digit_lower c : is_hex_lower c = true -> exists x, hex_digit c = Some x /\ 0 <= x < 16 /\ hex_char x = c.
Proof.
  unfold is_hex_lower, hex_digit. intros H. destruct (is_digit c) eqn:Ed.
  - unfold is_digit in Ed. exists (code c - 48). split; [done|]. split; [lia|]. apply code_inj. rewrite hex_char_code by lia.
    rewrite (proj2 (Z.ltb_lt (code c - 48) 10)); lia.
  - cbn [orb] in H. rewrite H. exists (code c - 87). split; [done|]. split; [lia|]. apply code_inj. rewrite hex_char_code by lia.
    rewrite (proj2 (Z.ltb_ge (code c - 87) 10)); lia.
Qed.
Lemma hexw_byte x y : 0 <= x < 16 -> 0 <= y < 16 -> hexw 2 (x * 16 + y) = String (hex_char x) (str1 (hex_char y)).
Proof.
  intros Hx Hy. cbn [hexw]. rewrite !land_15_mod, !Z.shiftr_div_pow2 by lia. change (2 ^ (4 * Z.of_nat 1)) with 16. change (2 ^ (4 * Z.of_nat 0)) with 1.
  unfold str1. do 2 f_equal; [|f_equal]; f_equal; lia.
Qed.
Lemma fromhex_ok n : forall s, hexs s = true -> String.length s = (2 * n)%nat -> exists b, fromhex s = Ok b /\ hex b = s /\ String.length b = n.
Proof.
  induction n as [|n IH]; intros s Hs Hl; [destruct s; [|cbn in Hl; lia]; by exists ""|].
  destruct s as [|a [|b s]]; [cbn in Hl; lia..|]. cbn in Hs. apply andb_true_iff in Hs as [Ha [Hb Hs]%andb_true_iff].
  destruct (hex_digit_lower a Ha) as (x & Ex & Bx & Cx), (hex_digit_lower b Hb) as (y & Ey & By & Cy).
  destruct (IH s Hs) as (t & Et & Ht & Lt); [cbn in Hl; lia|]. exists (String (byte (x * 16 + y)) t). cbn [fromhex hex]. rewrite Ex, Ey, Et. split; [done|].
  rewrite code_byte, hexw_byte, Cx, Cy, Ht by lia. cbn. by rewrite Lt.
Qed.
Lemma hex_pattern n s : fullmatch (RRepeat n hexd) s = true -> hexs s = true /\ String.length s = n.
Proof.
  intros [Hl Hs]%fullmatch_spec%matches_repeat_class. split; [|done]. clear Hl. unfold hexs. induction s as [|c s IH]; [done|].
  cbn in Hs |- *. apply andb_true_iff in Hs as [Hc Hs]. rewrite IH by done. rewrite andb_true_r. unfold is_hex_lower, is_digit. revert Hc.
  change (code "0"%char) with 48. change (code "9"%char) with 57. change (code "a"%char) with 97. change (code "f"%char) with 102.
  rewrite orb_false_r. done.
Qed.

(** ** Counted lists *)

Lemma output_each_cons {A} (write : A -> result bytes) x l b :
  output_each write (x :: l) = Ok b -> exists b1 b2, write x = Ok b1 /\ output_each write l = Ok b2 /\ b = b1 +:+ b2.
Proof. cbn. intros (b1 & H1 & (b2 & H2 & [= <-])%bind_ok)%bind_ok. by exists b1, b2. Qed.

Lemma output_each_length {A} (write : A -> result bytes) l b : (forall x b, x ∈ l -> write x = Ok b -> (1 <= String.length b)%nat) -> output_each write l = Ok b -> (length l <= String.length b)%nat.
Proof.
  revert b. induction l as [|x l IH]; intros b Hne Hb; [cbn; lia|]. apply output_each_cons in Hb as (b1 & b2 & H1 & H2 & ->).
  rewrite str_length_app. pose proof (Hne x b1 (list_elem_of_here _ _) H1). assert (length l <= String.length b2)%nat; [|cbn; lia].
  apply IH; [|done]. intros y c Hy. apply Hne. by right.
Qed.

Section Counted.
Context {A B : Type} (write : A -> result bytes) (read : bytes -> result (B * bytes)) (back : A -> B).

(** What is written element by element is read element by element. *)
Lemma read_times_ok l : forall b fuel rest,
  output_each write l = Ok b -> (forall x b, x ∈ l -> write x = Ok b -> reads read b (back x)) -> (length l <= fuel)%nat ->
  read_times fuel (Z.of_nat (length l)) read (b +:+ rest) = Ok (back <$> l, rest).
Proof.
  induction l as [|x l IH]; intros b fuel rest Hb Hr Hf; [injection Hb as <-; by destruct fuel|].
  apply output_each_cons in Hb as (b1 & b2 & H1 & H2 & ->). destruct fuel as [|fuel]; [cbn in Hf; lia|]. cbn [read_times length].
  rewrite (proj2 (Z.leb_gt (Z.of_nat (S (length l))) 0)) by lia. rewrite str_app_assoc, (Hr x b1 (list_elem_of_here _ _) H1). cbn [mbind result_bind].
  replace (Z.of_nat (S (length l)) - 1) with (Z.of_nat (length l)) by lia. rewrite (IH b2); [done|done| |cbn in Hf; lia].
  intros y c Hy. apply Hr. by right.
Qed.

Lemma with_count_reads l b :
  with_count write l = Ok b -> str_len b < 2 ^ 63 ->
  (forall x c, x ∈ l -> write x = Ok c -> (1 <= String.length c <= String.length b)%nat -> reads read c (back x)) ->
  (forall x c, x ∈ l -> write x = Ok c -> (1 <= String.length c)%nat) ->
  reads (read_counted read) b (back <$> l) /\ (1 <= String.length b)%nat.
Proof.
  unfold with_count. intros (n & Hn & (c & Hc & [= <-])%bind_ok)%bind_ok Hlen Hr Hne.
  pose proof (output_each_length write l c Hne Hc) as Hl. rewrite str_len_app in Hlen. split.
  - intros rest. unfold read_counted. rewrite str_app_assoc, (uvarint_reads _ _ Hn) by (unfold str_len in Hlen; lia). cbn [mbind result_bind].
    apply read_times_ok; [done| |rewrite str_length_app; lia]. intros x d Hx Hd. apply Hr; [done..|]. split; [by eapply Hne|].
    assert (String.length d <= String.length c)%nat; [|rewrite str_length_app; lia]. clear -Hc Hx Hd. revert c Hc.
    induction l as [|y l IH]; intros c Hc; [by apply elem_of_nil in Hx|]. apply output_each_cons in Hc as (b1 & b2 & H1 & H2 & ->). rewrite str_length_app.
    apply elem_of_cons in Hx as [->|Hx]; [assert (b1 = d) as -> by congruence; lia|]. specialize (IH Hx b2 H2). lia.
  - rewrite str_length_app. apply uvarint_nonempty in Hn. lia.
Qed.
End Counted.

(** * Instants through binary64

    [encode_instant] stores the milliseconds a float comes to.  They are exact in
    every binade of seconds but for its last 2.4 percent ([stored_exact]); between 2004
    and the end of the 32-bit clock in 2038 that makes the codec of a time stamp
    exact ([instant_round_trip]). *)


(** ** Rounding *)

Lemma round_even_near a b : 0 < b -> 2 * Z.abs (round_even a b * b - a) <= b.
Proof.
  intros Hb. unfold round_even. pose proof (Z.div_mod a b ltac:(lia)). pose proof (Z.mod_pos_bound a b Hb).
  destruct (Z.ltb_spec (2 * (a mod b)) b); [nia|]. destruct (Z.ltb_spec b (2 * (a mod b))); [nia|]. destruct (Z.even (a / b)); nia.
Qed.
Lemma round_even_unique a b q : 0 < b -> 2 * Z.abs (q * b - a) < b -> round_even a b = q.
Proof. intros Hb Hq. pose proof (round_even_near a b Hb). nia. Qed.

(** The exponent of a quotient of at least one. *)
Lemma quotient_exponent n d K :
  0 <= K -> 0 < d -> d * 2 ^ K <= n < d * 2 ^ (K + 1) ->
  (let k := Z.log2 n - Z.log2 d in if n * 2 ^ Z.max 0 (- k) <? d * 2 ^ Z.max 0 k then k - 1 else k) = K.
Proof.
  intros HK Hd [Hl Hu]. pose proof (Z.log2_spec d Hd) as [Hd1 Hd2]. assert (0 < 2 ^ K) as Hp by (apply Z.pow_pos_nonneg; lia).
  assert (0 < n) as Hn by nia. pose proof (Z.log2_spec n Hn) as [Hn1 Hn2]. pose proof (Z.log2_nonneg d). pose proof (Z.log2_nonneg n).
  assert (Z.log2 d + K <= Z.log2 n) as H1.
  { apply Z.log2_le_pow2; [done|]. rewrite Z.pow_add_r by lia. nia. }
  assert (Z.log2 n <= Z.log2 d + K + 1) as H2.
  { assert (Z.log2 n < Z.log2 d + K + 2); [|lia]. apply Z.log2_lt_pow2; [done|]. replace (Z.log2 d + K + 2) with (Z.succ (Z.log2 d) + (K + 1)) by lia.
    rewrite (Z.pow_add_r 2 (Z.succ (Z.log2 d)) (K + 1)) by lia. assert (0 < 2 ^ (K + 1)) by (apply Z.pow_pos_nonneg; lia). nia. }
  cbn zeta. rewrite !Z.max_l, !Z.max_r, Z.pow_0_r, Z.mul_1_r by lia. assert (Z.log2 n - Z.log2 d = K \/ Z.log2 n - Z.log2 d = K + 1) as [-> | ->] by lia.
  - by rewrite (proj2 (Z.ltb_ge n (d * 2 ^ K)) Hl).
  - rewrite (proj2 (Z.ltb_lt n (d * 2 ^ (K + 1))) Hu). lia.
Qed.

Lemma nearest_double_at n d K :
  0 <= K < 52 -> 0 < d -> d * 2 ^ K <= n < d * 2 ^ (K + 1) ->
  nearest_double n d = (round_even (n * 2 ^ (52 - K)) d, K - 52).
Proof.
  intros HK Hd Hn. assert (0 < n) as Hpos by (assert (0 < 2 ^ K) by (apply Z.pow_pos_nonneg; lia); nia).
  unfold nearest_double. rewrite (proj2 (Z.eqb_neq n 0)) by lia. rewrite Z.abs_eq by lia.
  pose proof (quotient_exponent n d K ltac:(lia) Hd Hn) as E. cbn zeta in E |- *. rewrite E.
  rewrite Z.max_r, Z.max_l, Z.pow_0_r, Z.mul_1_r, Z.sgn_pos by lia. f_equal. replace (- (K - 52)) with (52 - K) by lia. lia.
Qed.

(** A stamp of [n] milliseconds is stored exactly in the lower 97.6 percent of every
    binade of seconds. *)
Lemma stored_exact n K : 0 <= K <= 41 -> 2 ^ (K + 10) < n < 2000 * 2 ^ K -> stored_milliseconds (1000 * n) = n.
Proof.
  intros HK [Hl Hu]. unfold stored_milliseconds, timestamp. assert (0 < 2 ^ K) as Hp by (apply Z.pow_pos_nonneg; lia).
  rewrite Z.pow_add_r in Hl by lia. change (2 ^ 10) with 1024 in Hl.
  rewrite (nearest_double_at (1000 * n) 1000000 K) by (rewrite ?Z.pow_add_r by lia; change (2 ^ 1) with 2; lia).
  set (P := 2 ^ (52 - K)). assert (2 ^ 11 <= P) as HP by (apply Z.pow_le_mono_r; lia). change (2 ^ 11) with 2048 in HP.
  assert (P * 2 ^ K = 2 ^ 52) as HPK by (unfold P; rewrite <- Z.pow_add_r by lia; f_equal; lia).
  set (m := round_even (1000 * n * P) 1000000). pose proof (round_even_near (1000 * n * P) 1000000 ltac:(lia)) as Hm. fold m in Hm.
  assert (Z.abs (1000 * m - n * P) <= 500) as Hr by lia.
  unfold double_times. cbn [fst snd]. rewrite Z.max_l, Z.pow_0_r, Z.mul_1_r by lia. replace (Z.max 0 (- (K - 52))) with (52 - K) by lia. fold P.
  assert (2 ^ 52 * 1024 < n * P - 500 /\ n * P + 500 < 2 ^ 52 * 2000) as [Hb1 Hb2] by (rewrite <- HPK; nia).
  assert (P * 2 ^ (K + 10) = 2 ^ 52 * 1024) as E10 by (rewrite Z.pow_add_r by lia; change (2 ^ 10) with 1024; nia).
  assert (P * 2 ^ (K + 10 + 1) = 2 ^ 52 * 2048) as E11 by (rewrite !Z.pow_add_r by lia; change (2 ^ 10) with 1024; change (2 ^ 1) with 2; nia).
  rewrite (nearest_double_at (1000 * m) P (K + 10)) by (rewrite ?E10, ?E11; lia).
  set (Q := 2 ^ (52 - (K + 10))). assert (0 < Q) as HQ by (apply Z.pow_pos_nonneg; lia).
  assert (P = 1024 * Q) as HPQ. { unfold P, Q. change 1024 with (2 ^ 10). rewrite <- Z.pow_add_r by lia. f_equal. lia. }
  rewrite (round_even_unique _ _ (n * Q)) by nia. unfold double_int. cbn [fst snd].
  rewrite Z.max_l, Z.pow_0_r, Z.mul_1_r by lia. replace (Z.max 0 (- (K + 10 - 52))) with (52 - (K + 10)) by lia. fold Q. apply Z.quot_mul. lia.
Qed.

(** ** Text and instant *)

(** [rfc3339] without its final letter. *)
Definition stamp_body (t : Z) : string :=
  let '(y, m, d) := civil_from_days (t / us_per_day) in
  let us := t mod us_per_day in
  decw 4 y +:+ "-" +:+ decw 2 m +:+ "-" +:+ decw 2 d +:+ "T" +:+ decw 2 (us / 3600000000) +:+ ":" +:+ decw 2 (us / 60000000 mod 60) +:+ ":" +:+
  decw 2 (us / 1000000 mod 60) +:+ "." +:+ decw 3 (us / 1000 mod 1000).
Lemma rfc3339_body t : rfc3339 t = stamp_body t +:+ "Z".
Proof. unfold rfc3339, stamp_body. destruct (civil_from_days _) as [[y m] d]. by rewrite !str_app_assoc. Qed.
Lemma stamp_body_parses t : min_instant <= t <= max_instant ->
  fromisoformat (stamp_body t +:+ "+00:00") = Some {| local_us := ms_floor t; utcoffset := Some 0 |}.
Proof.
  intros Ht. rewrite <- iso_parse_rfc3339 by done. unfold iso_parse. f_equal. rewrite rfc3339_body. unfold stamp_body.
  destruct (civil_from_days _) as [[y m] d]. rewrite !str_app_assoc.
  repeat first [rewrite replace_Z_decw | progress cbn [String.append replace_char Ascii.eqb Bool.eqb str1]]. done.
Qed.

Lemma encode_instant_stamp n :
  0 <= 1000 * n <= max_instant -> encode_instant (rfc3339 (1000 * n)) = Ok (stored_milliseconds (1000 * n)).
Proof.
  intros Hn. unfold encode_instant. rewrite rfc3339_body, str_length_app. change (String.length "Z") with 1%nat.
  rewrite Nat.add_sub, str_take_app, stamp_body_parses by (unfold min_instant; lia). unfold instant. cbn [local_us utcoffset default].
  unfold ms_floor. do 2 f_equal. rewrite (Z.mul_comm 1000 n), Z.div_mul by lia. cbn. lia.
Qed.

Lemma modern_year days : 0 <= days -> 1000 <= (civil_from_days days).1.1.
Proof.
  unfold civil_from_days. intros Hd. cbn [fst]. set (z := days + 719468). assert (719468 <= z) as Hz by lia. clearbody z.
  assert (4 <= z / 146097) by lia. set (doe := z mod 146097).
  set (yoe := (doe - doe / 1460 + doe / 36524 - doe / 146096) / 365). assert (0 <= doe < 146097) by (subst doe; lia). assert (0 <= yoe) by (subst yoe; lia).
  clearbody yoe. destruct (_ <=? 2); lia.
Qed.

Lemma decode_instant_stamp `{PlatformLaws} n : 0 <= 1000 * n <= max_instant -> decode_instant n = Ok (rfc3339 (1000 * n)).
Proof.
  intros Hn. unfold decode_instant, rfc3339. assert (1000 * n / us_per_day = n / 1000 / 86400) as -> by (unfold us_per_day; lia).
  pose proof (modern_year (n / 1000 / 86400) ltac:(lia)) as Hy1.
  pose proof (civil_year_range (1000 * n) ltac:(unfold min_instant; lia)) as Hy2.
  assert (1000 * n / us_per_day = n / 1000 / 86400) as E by (unfold us_per_day; lia). rewrite E in Hy2.
  assert ((min_instant <=? n / 1000 * 1000000) && (n / 1000 * 1000000 <=? max_instant) = true) as -> by (unfold min_instant, max_instant in *; lia).
  cbn [negb raise_if mbind result_bind]. destruct (civil_from_days _) as [[y m] d]. cbn [fst] in *. rewrite year_text_four by lia.
  assert (1000 * n mod us_per_day = 1000 * (n mod 86400000)) as -> by (unfold us_per_day; lia).
  set (q := n mod 86400000). assert (0 <= q < 86400000) as Hq by (subst q; lia).
  assert ((n / 1000) mod 86400 = q / 1000) as -> by (subst q; lia). assert (n mod 1000 = q mod 1000) as -> by (subst q; lia). clearbody q.
  replace (1000 * q / 3600000000) with (q / 1000 / 3600) by lia. replace (1000 * q / 60000000) with (q / 1000 / 60) by lia.
  replace (1000 * q / 1000000) with (q / 1000) by lia. replace (1000 * q / 1000) with q by lia. done.
Qed.

(** A stamp the codec keeps. *)
Definition kept_stamp (s : string) : Prop :=
  exists n K, s = rfc3339 (1000 * n) /\ 0 <= K <= 41 /\ 2 ^ (K + 10) < n < 2000 * 2 ^ K /\ 1000 * n <= max_instant.

Lemma instant_round_trip `{PlatformLaws} s : kept_stamp s -> exists n, encode_instant s = Ok n /\ decode_instant n = Ok s /\ 0 <= n < 2 ^ 69.
Proof.
  intros (n & K & -> & HK & Hn & Hmax). assert (0 < 2 ^ (K + 10)) by (apply Z.pow_pos_nonneg; lia). exists n.
  rewrite encode_instant_stamp, (stored_exact n K) by lia. split; [done|]. split; [apply decode_instant_stamp; lia|].
  unfold max_instant in Hmax. change (2 ^ 69) with 590295810358705651712. lia.
Qed.

(** * Typed strings and the three tables

    Identifiers, digests, UUIDs and stamps are written by their value; [kept_string]
    says which of them read back, and every table of such strings does. *)


(** ** Indexes *)

Lemma indexes_from_some `{Countable K} (l : list K) : forall n m k i,
  indexes_from n l m !! k = Some i -> m !! k = Some i \/ exists j, l !! j = Some k /\ i = n + Z.of_nat j.
Proof.
  induction l as [|x l IH]; intros n m k i; cbn [indexes_from]; [by left|]. intros [Hm|(j & Hj & ->)]%IH.
  - destruct (decide (x = k)) as [->|Hne]; [rewrite lookup_insert_eq in Hm; injection Hm as <-; right; exists 0%nat; split; [done|lia]|].
    rewrite lookup_insert_ne in Hm by done. by left.
  - right. exists (S j). split; [done|lia].
Qed.
Lemma indexes_some `{Countable K} (l : list K) k i : indexes l !! k = Some i -> 0 <= i < Z.of_nat (length l) /\ l !! Z.to_nat i = Some k.
Proof.
  intros [Hm|(j & Hj & ->)]%indexes_from_some; [by rewrite lookup_empty in Hm|]. pose proof (lookup_lt_Some _ _ _ Hj). split; [lia|].
  by replace (Z.to_nat (0 + Z.of_nat j)) with j by lia.
Qed.
Lemma indexes_from_is_some `{Countable K} (l : list K) : forall n m k, k ∈ l \/ is_Some (m !! k) -> is_Some (indexes_from n l m !! k).
Proof.
  induction l as [|x l IH]; intros n m k Hk; cbn [indexes_from]; [destruct Hk as [Hk|]; [by apply elem_of_nil in Hk|done]|].
  apply IH. destruct Hk as [[->|Hk]%elem_of_cons|Hk]; [right; by rewrite lookup_insert_eq|by left|].
  right. destruct (decide (x = k)) as [->|]; [by rewrite lookup_insert_eq|by rewrite lookup_insert_ne].
Qed.
Lemma indexes_is_some `{Countable K} (l : list K) k : k ∈ l -> is_Some (indexes l !! k).
Proof. intros Hk. apply indexes_from_is_some. by left. Qed.

Lemma index_of_some `{Countable K} (l : list K) k e i : index_of k (indexes l) e = Ok i -> 0 <= i < Z.of_nat (length l) /\ l !! Z.to_nat i = Some k.
Proof. unfold index_of. destruct (indexes l !! k) eqn:E; [|done]. intros [= ->]. by apply indexes_some. Qed.
Lemma item_at_index {A} (l : list A) i x msg : 0 <= i < Z.of_nat (length l) -> l !! Z.to_nat i = Some x -> item_at l i msg = Ok x.
Proof. intros Hi Hl. unfold item_at. rewrite (proj2 (Z.leb_gt (Z.of_nat (length l)) i)) by lia. cbn. by rewrite Hl. Qed.

(** ** Groups of the patterns *)

Lemma groups_split pattern n s p q :
  groups pattern n s = Some (p, q) -> s = p +:+ q /\ fullmatch pattern s = true /\ q = str_drop (String.length s - n) s.
Proof. unfold groups. destruct (fullmatch pattern s); [|done]. intros [= <- <-]. by rewrite str_take_drop. Qed.
(** The suffix of a match of [r1 (r2 r{n})] is what the repetition matched. *)
Lemma suffix_group r1 r2 rs n s p q :
  groups (RSeq r1 (RSeq r2 (RRepeat n (RClass rs)))) n s = Some (p, q) -> s = p +:+ q /\ matches (RRepeat n (RClass rs)) q /\ String.length q = n.
Proof.
  intros (Es & (s1 & t & E1 & _ & (s2 & s3 & E2 & _ & H3)%matches_inv)%fullmatch_spec%matches_inv & Eq)%groups_split.
  pose proof H3 as [Hl _]%matches_repeat_class. assert (q = s3) as Eq3; [|by rewrite Eq3 in Es |- *]. rewrite Eq. rewrite E1, E2, <- str_app_assoc.
  apply str_drop_app_n. rewrite (str_length_app (s1 +:+ s2) s3). lia.
Qed.

Lemma without_dashes_app s t : without_dashes (s +:+ t) = without_dashes s +:+ without_dashes t.
Proof. unfold without_dashes. induction s as [|c s IH]; [done|]. cbn [String.append replace_char]. by rewrite IH, str_app_assoc. Qed.
Lemma without_dashes_hexs s : hexs s = true -> without_dashes s = s.
Proof.
  unfold hexs, without_dashes. induction s as [|c s IH]; [done|]. cbn [str_forallb replace_char]. intros [Hc Hs]%andb_true_iff. rewrite IH by done.
  destruct (Ascii.eqb_spec "-" c) as [<-|]; [by vm_compute in Hc|done].
Qed.
Lemma hexs_app s t : hexs (s +:+ t) = hexs s && hexs t.
Proof. unfold hexs. induction s as [|c s IH]; [done|]. cbn. by rewrite IH, andb_assoc. Qed.

Lemma hex_part n s : matches (RRepeat n hexd) s -> hexs s = true /\ String.length s = n.
Proof. intros H%fullmatch_spec. by apply hex_pattern. Qed.
(** A UUID: five groups of digits; without its dashes, 32 digits. *)
Lemma uuid_groups s : _UUID s = true ->
  hexs (without_dashes s) = true /\ String.length (without_dashes s) = 32%nat /\ with_dashes (without_dashes s) = s.
Proof.
  unfold _UUID. intros (a & s1 & -> & [Ha La]%hex_part & H1)%fullmatch_spec%matches_inv.
  apply matches_inv in H1 as (d1 & s2 & -> & D1 & H2). apply matches_inv in H2 as (b & s3 & -> & [Hb Lb]%hex_part & H3).
  apply matches_inv in H3 as (d2 & s4 & -> & D2 & H4). apply matches_inv in H4 as (c & s5 & -> & [Hc Lc]%hex_part & H5).
  apply matches_inv in H5 as (d3 & s6 & -> & D3 & H6). apply matches_inv in H6 as (d & s7 & -> & [Hd Ld]%hex_part & H7).
  apply matches_inv in H7 as (d4 & e & -> & D4 & [He Le]%hex_part).
  assert (forall x, matches dash x -> x = "-") as Hdash.
  { intros x Hx. apply matches_inv in Hx as (x1 & x2 & -> & (ch & -> & Hch)%matches_inv & ->%matches_inv). cbn in Hch. rewrite orb_false_r in Hch.
    change "-" with (str1 "-"). rewrite str_app_nil_r. f_equal. apply code_inj. change (code "-") with 45 in Hch |- *. lia. }
  apply Hdash in D1, D2, D3, D4. subst d1 d2 d3 d4.
  rewrite !without_dashes_app. change (without_dashes "-") with "". cbn [String.append].
  rewrite (without_dashes_hexs a), (without_dashes_hexs b), (without_dashes_hexs c), (without_dashes_hexs d), (without_dashes_hexs e) by done.
  rewrite !hexs_app, Ha, Hb, Hc, Hd, He, !str_length_app, La, Lb, Lc, Ld, Le. split_and!; [done|done|]. unfold with_dashes.
  rewrite (str_take_app_n 8 a) by done. rewrite (str_drop_app_n 8 a) by done. rewrite (str_take_app_n 4 b) by done.
  assert (str_drop 12 (a +:+ b +:+ c +:+ d +:+ e) = c +:+ d +:+ e) as ->.
  { rewrite <- (str_app_assoc a b). apply str_drop_app_n. rewrite str_length_app. lia. }
  assert (str_drop 16 (a +:+ b +:+ c +:+ d +:+ e) = d +:+ e) as ->.
  { rewrite <- (str_app_assoc b c), <- (str_app_assoc a (b +:+ c)). apply str_drop_app_n. rewrite !str_length_app. lia. }
  assert (str_drop 20 (a +:+ b +:+ c +:+ d +:+ e) = e) as ->.
  { rewrite <- (str_app_assoc c d), <- (str_app_assoc b (c +:+ d)), <- (str_app_assoc a (b +:+ c +:+ d)). apply str_drop_app_n. rewrite !str_length_app. lia. }
  rewrite (str_take_app_n 4 c), (str_take_app_n 4 d) by done. by rewrite ?str_app_assoc.
Qed.

(** ** Strings *)

Lemma take_exact_reads n msg b : String.length b = n -> reads (take_exact n msg) b b.
Proof.
  intros Hb rest. unfold take_exact. rewrite str_length_app. assert (Nat.ltb (String.length b + String.length rest) n = false) as -> by (apply Nat.ltb_ge; lia).
  cbn. by rewrite str_take_app_n, str_drop_app_n.
Qed.

(** The strings that read back: an identifier whose UUID has its dashes where they
    belong, a stamp of an instant binary64 keeps. *)
Record kept_string (s : string) : Prop := {
  kept_uuid : forall p q, _RCID_HASH s = None -> _RCID_UUID s = Some (p, q) -> _UUID q = true;
  kept_instant : _MILLISECOND_UTC s = true -> kept_stamp s
}.

Section Strings.
Context `{PlatformLaws} (t : TokenTables) (prefixes : list string).
Hypothesis (Hprefixes : tt_prefix_indexes t = indexes prefixes) (Hmany : Z.of_nat (length prefixes) < 2 ^ 63).

Lemma decode_kind k b rest : 0 <= k < 256 -> decode_string prefixes (String (byte k) b +:+ rest) = decode_string prefixes (String (byte k) (b +:+ rest)).
Proof. done. Qed.

Lemma encode_string_reads s b : encode_string t s = Ok b -> kept_string s -> str_len b < 2 ^ 63 -> reads (decode_string prefixes) b s.
Proof.
  intros Hb [Hu Hi] Hlen rest. unfold encode_string in Hb. rewrite Hprefixes in Hb.
  destruct (_RCID_HASH s) as [[p q]|] eqn:Eh; [|destruct (_RCID_UUID s) as [[p q]|] eqn:Eu].
  - apply suffix_group in Eh as (-> & [Hx Lx]%hex_part & _). apply bind_ok in Hb as (i & [Hir Hil]%index_of_some & Hb).
    apply bind_ok in Hb as (n & Hn & Hb). apply bind_ok in Hb as (raw & Hraw & [= <-]).
    destruct (fromhex_ok 32 q Hx Lx) as (raw' & E & <- & Lr). rewrite Hraw in E. injection E as ->.
    unfold decode_string. cbn [String.append]. rewrite code_byte by lia. cbn [Z.eqb orb Pos.eqb]. rewrite str_app_assoc, (uvarint_reads _ _ Hn) by lia.
    cbn [mbind result_bind]. rewrite (item_at_index prefixes i p) by done. cbn [mbind result_bind]. rewrite (take_exact_reads 32) by done. done.
  - specialize (Hu p q eq_refl eq_refl). apply uuid_groups in Hu as (Hx & Lx & Hd).
    assert (s = p +:+ q) as -> by by apply groups_split in Eu as [-> _]. apply bind_ok in Hb as (i & [Hir Hil]%index_of_some & Hb).
    apply bind_ok in Hb as (n & Hn & Hb). apply bind_ok in Hb as (raw & Hraw & [= <-]).
    destruct (fromhex_ok 16 _ Hx Lx) as (raw' & E & Er & Lr). rewrite Hraw in E. injection E as ->.
    unfold decode_string. cbn [String.append]. rewrite code_byte by lia. cbn [Z.eqb orb Pos.eqb]. rewrite str_app_assoc, (uvarint_reads _ _ Hn) by lia.
    cbn [mbind result_bind]. rewrite (item_at_index prefixes i p) by done. cbn [mbind result_bind]. rewrite (take_exact_reads 16) by done.
    cbn [mbind result_bind]. by rewrite Er, Hd.
  - destruct (_HEX64 s) eqn:E3; [|destruct (_UUID s) eqn:E4; [|destruct (_MILLISECOND_UTC s) eqn:E5]].
    + apply hex_pattern in E3 as [Hx Lx]. apply bind_ok in Hb as (raw & Hraw & [= <-]).
      destruct (fromhex_ok 32 s Hx Lx) as (raw' & E & <- & Lr). rewrite Hraw in E. injection E as ->.
      unfold decode_string. cbn [String.append]. rewrite code_byte by lia. cbn [Z.eqb orb Pos.eqb]. by rewrite (take_exact_reads 32).
    + apply uuid_groups in E4 as (Hx & Lx & Hd). apply bind_ok in Hb as (raw & Hraw & [= <-]).
      destruct (fromhex_ok 16 _ Hx Lx) as (raw' & E & Er & Lr). rewrite Hraw in E. injection E as ->.
      unfold decode_string. cbn [String.append]. rewrite code_byte by lia. cbn [Z.eqb orb Pos.eqb]. rewrite (take_exact_reads 16) by done.
      cbn [mbind result_bind]. by rewrite Er, Hd.
    + apply bind_ok in Hb as (n & Hn & Hb). apply bind_ok in Hb as (raw & Hraw & [= <-]).
      destruct (instant_round_trip s (Hi eq_refl)) as (n' & En & Ed & Bn). rewrite Hn in En. injection En as ->.
      unfold decode_string. cbn [String.append]. rewrite code_byte by lia. cbn [Z.eqb orb Pos.eqb]. rewrite (svarint_reads _ _ Hraw) by lia.
      cbn [mbind result_bind]. by rewrite Ed.
    + apply bind_ok in Hb as (raw & Hraw & [= <-]). unfold decode_string. cbn [String.append]. rewrite code_byte by lia. cbn [Z.eqb].
      rewrite (pack_bytes_reads _ _ Hraw) by (unfold str_len in *; cbn [String.length] in Hlen; lia). cbn [mbind result_bind]. by rewrite utf8_text_encode.
Qed.
End Strings.
