(* ===== verification/TokenCorrect.v ===== *)
(** * Tables and values read back

    What [encode_tables] and [encode_value] write, [decode_tables] and [decode_value]
    read; and the tables [build] makes of some documents encode them all.

    The parts after it are about the tables of a set of documents, equal documents and
    the decoding of any bytes. *)

From S2P Require Export TokenBytes.

(** ** The tables *)

Lemma with_count_length {A} (write : A -> result bytes) l b :
  with_count write l = Ok b -> (forall x c, x ∈ l -> write x = Ok c -> (1 <= String.length c)%nat) -> (length l < String.length b)%nat.
Proof.
  unfold with_count. intros (n & Hn & (c & Hc & [= <-])%bind_ok)%bind_ok Hne. apply output_each_length in Hc; [|done].
  apply uvarint_nonempty in Hn. rewrite str_length_app. lia.
Qed.
Lemma with_count_reads_id {A} (write : A -> result bytes) read l b :
  with_count write l = Ok b -> str_len b < 2 ^ 63 ->
  (forall x c, x ∈ l -> write x = Ok c -> (1 <= String.length c <= String.length b)%nat -> reads read c x) ->
  (forall x c, x ∈ l -> write x = Ok c -> (1 <= String.length c)%nat) -> reads (read_counted read) b l.
Proof. intros Hb Hl Hr Hne. destruct (with_count_reads write read id l b Hb Hl Hr Hne) as [H _]. by rewrite list_fmap_id in H. Qed.

Lemma pack_bytes_nonempty s b : _pack_bytes s = Ok b -> (1 <= String.length b)%nat.
Proof. intros (n & Hn & ->)%pack_bytes_inv. apply uvarint_nonempty in Hn. rewrite str_length_app. lia. Qed.
Lemma encode_string_nonempty t s b : encode_string t s = Ok b -> (1 <= String.length b)%nat.
Proof.
  unfold encode_string. intros H. destruct (_RCID_HASH s) as [[]|]; [|destruct (_RCID_UUID s) as [[]|]; [|repeat case_match]];
    repeat (apply bind_ok in H as (? & _ & H)); injection H as <-; cbn; lia.
Qed.
Lemma encode_shape_nonempty t shape b : encode_shape t shape = Ok b -> (1 <= String.length b)%nat.
Proof. unfold encode_shape, with_count. intros (n & Hn & (c & _ & [= <-])%bind_ok)%bind_ok. apply uvarint_nonempty in Hn. rewrite str_length_app. lia. Qed.

Section Tables.
Context `{PlatformLaws} (strings prefixes : list string) (shapes : list (list string)).
Abbreviation t := (make_tables strings prefixes shapes).

Lemma key_reads key b :
  (i ← index_of key (tt_string_indexes t) (KeyError key); _uvarint i) = Ok b -> Z.of_nat (length strings) < 2 ^ 63 -> reads (decode_key strings) b key.
Proof.
  intros (i & [Hi Hl]%index_of_some & Hb)%bind_ok Hlen rest. unfold decode_key. rewrite (uvarint_reads _ _ Hb) by lia. cbn [mbind result_bind].
  by rewrite (item_at_index strings i key).
Qed.
Lemma shape_reads shape b : encode_shape t shape = Ok b -> Z.of_nat (length strings) < 2 ^ 63 -> str_len b < 2 ^ 63 -> reads (read_counted (decode_key strings)) b shape.
Proof.
  intros Hb Hs Hl. apply (with_count_reads_id _ _ _ _ Hb Hl).
  - intros key c _ Hc _. by apply key_reads.
  - intros key c _ (i & _ & Hc)%bind_ok. by eapply uvarint_nonempty.
Qed.
Lemma prefix_reads p b : _pack_bytes (utf8_encode p) = Ok b -> str_len b < 2 ^ 63 -> reads decode_prefix b p.
Proof. intros Hb Hl rest. unfold decode_prefix. rewrite (pack_bytes_reads _ _ Hb Hl). cbn [mbind result_bind]. by rewrite utf8_text_encode. Qed.

Lemma tables_read b : encode_tables t = Ok b -> Forall kept_string strings -> str_len b < 2 ^ 63 ->
  reads decode_tables b t /\ Z.of_nat (length strings) < 2 ^ 63 /\ Z.of_nat (length shapes) < 2 ^ 63.
Proof.
  intros Hb Hk Hlen. apply bind_ok in Hb as (b1 & H1 & Hb). apply bind_ok in Hb as (b2 & H2 & Hb). apply bind_ok in Hb as (b3 & H3 & Hb).
  assert (b = "TBL1" +:+ b1 +:+ b2 +:+ b3) as -> by congruence. clear Hb. cbn [tt_prefixes tt_strings tt_shapes make_tables] in H1, H2, H3. rewrite !str_len_app in Hlen. change (str_len "TBL1") with 4 in Hlen.
  assert (length prefixes < String.length b1)%nat as L1. { eapply with_count_length; [exact H1|]. intros x c _. apply pack_bytes_nonempty. }
  assert (length strings < String.length b2)%nat as L2. { eapply with_count_length; [exact H2|]. intros x c _. apply encode_string_nonempty. }
  assert (length shapes < String.length b3)%nat as L3. { eapply with_count_length; [exact H3|]. intros x c _. apply encode_shape_nonempty. }
  unfold str_len in Hlen. split; [|lia]. intros rest. unfold decode_tables. rewrite !str_app_assoc.
  rewrite (str_take_app_n 4), (str_drop_app_n 4) by done. rewrite String.eqb_refl. cbn [negb raise_if mbind result_bind].
  rewrite (with_count_reads_id _ decode_prefix _ _ H1); [|unfold str_len; lia| |intros x c _; apply pack_bytes_nonempty].
  2:{ intros x c _ Hc Hl. apply prefix_reads; [done|unfold str_len; lia]. }
  cbn [mbind result_bind]. rewrite (with_count_reads_id _ (decode_string prefixes) _ _ H2); [|unfold str_len; lia| |intros x c _; apply encode_string_nonempty].
  2:{ intros x c Hx Hc Hl. rewrite Forall_forall in Hk. apply (encode_string_reads t prefixes); [done|lia|done|by apply Hk|unfold str_len; lia]. }
  cbn [mbind result_bind]. rewrite (with_count_reads_id _ (read_counted (decode_key strings)) _ _ H3); [done|unfold str_len; lia| |intros x c _; apply encode_shape_nonempty].
  intros x c _ Hc Hl. apply shape_reads; [done|lia|unfold str_len; lia].
Qed.
End Tables.

(** ** Values *)

(** The values the codec keeps: integers of 70 bits, sign included, and objects
    whose keys are distinct, as those of a dict. *)
#[warnings="-register-all"]
Inductive kept_value : value -> Prop :=
| kept_none : kept_value VNone
| kept_bool b : kept_value (VBool b)
| kept_int z : - 2 ^ 69 <= z < 2 ^ 69 -> kept_value (VInt z)
| kept_str s : kept_value (VStr s)
| kept_bytes b : kept_value (VBytes b)
| kept_list l : Forall kept_value l -> kept_value (VList l)
| kept_dict fields : NoDup (fst <$> fields) -> Forall (fun p => kept_value p.2) fields -> kept_value (VDict fields).

Definition by_key {A} (fields : list (string * A)) : list (string * A) := sorted_by (fun p => utf8_encode p.1) fields.
(** The same value with every dict in key order. *)
Fixpoint canonical (v : value) : value :=
  match v with
  | VList l => VList (canonical <$> l)
  | VDict fields => VDict (by_key ((fun p => (p.1, canonical p.2)) <$> fields))
  | v => v
  end.

Lemma by_key_keys (fields : list (string * value)) : fst <$> by_key fields = shape_of fields.
Proof.
  unfold by_key, shape_of. pose proof (sorted_by_Forall2 (fun p : string * value => utf8_encode p.1) utf8_encode (fun p k => p.1 = k) fields (fst <$> fields)) as H.
  assert (Forall2 (fun (p : string * value) k => p.1 = k) fields (fst <$> fields)) as H0 by (clear; apply Forall2_fmap_r, Forall_Forall2_diag, Forall_true; done).
  specialize (H ltac:(cbn; by intros a b ->) H0). clear H0. induction H as [|p k l ks E _ IH]; [done|]. cbn. by rewrite IH, E.
Qed.
Lemma by_key_map {A B} (f : A -> B) (fields : list (string * A)) :
  by_key ((fun p => (p.1, f p.2)) <$> fields) = (fun p => (p.1, f p.2)) <$> by_key fields.
Proof.
  unfold by_key. pose proof (sorted_by_Forall2 (fun p : string * A => utf8_encode p.1) (fun p : string * B => utf8_encode p.1) (fun p q => q = (p.1, f p.2)) fields ((fun p => (p.1, f p.2)) <$> fields)) as H.
  assert (Forall2 (fun (p : string * A) q => q = (p.1, f p.2)) fields ((fun p => (p.1, f p.2)) <$> fields)) as H0 by (clear; apply Forall2_fmap_r, Forall_Forall2_diag, Forall_true; done).
  specialize (H ltac:(cbn; by intros a b ->) H0). clear H0. induction H as [|p q l k E _ IH]; [done|]. cbn. by rewrite IH, E.
Qed.
Lemma output_each_map {A B} (h : A -> B) (f : B -> result bytes) (g : A -> result bytes) l :
  (forall x, x ∈ l -> f (h x) = g x) -> output_each f (h <$> l) = output_each g l.
Proof.
  induction l as [|x l IH]; intros Hfg; [done|]. cbn. rewrite (Hfg x) by apply list_elem_of_here. rewrite IH; [done|]. intros y Hy. apply Hfg. by right.
Qed.
Lemma read_fields_ok {A B} (write : A -> result bytes) (read : bytes -> result (B * bytes)) (back : A -> B) l : forall b shape rest,
  output_each write l = Ok b -> length shape = length l -> (forall x c, x ∈ l -> write x = Ok c -> (String.length c <= String.length b)%nat -> reads read c (back x)) ->
  read_fields read shape (b +:+ rest) = Ok (back <$> l, rest).
Proof.
  induction l as [|x l IH]; intros b [|k shape] rest Hb Hl Hr; try done; [by injection Hb as <-|].
  apply output_each_cons in Hb as (b1 & b2 & H1 & H2 & ->). cbn [read_fields]. rewrite str_length_app in Hr. rewrite str_app_assoc, (Hr x b1 (list_elem_of_here _ _) H1) by lia.
  cbn [mbind result_bind]. rewrite (IH b2); [done|done|cbn in Hl; lia|]. intros y c Hy Hc Hlen. apply Hr; [by right|done|lia].
Qed.
Lemma dict_of_zip {A} (d l : list (string * A)) :
  NoDup (fst <$> d ++ l) ->
  foldl (fun d p => if existsb (fun q => String.eqb q.1 p.1) d then (fun q => if String.eqb q.1 p.1 then p else q) <$> d else d ++ [p]) d l = d ++ l.
Proof.
  revert d. induction l as [|p l IH]; intros d Hn; cbn [foldl]; [by rewrite app_nil_r|].
  assert (existsb (fun q => String.eqb q.1 p.1) d = false) as ->.
  { apply (existsb_key fst d p.1). rewrite fmap_app in Hn. apply NoDup_app in Hn as (_ & Hd & _). intros Hin. apply (Hd _ Hin). cbn. by left. }
  rewrite IH; [by rewrite <- app_assoc|by rewrite <- app_assoc].
Qed.
Lemma dict_of_by_key {A} (fields : list (string * A)) (l : list A) :
  NoDup (fst <$> fields) -> (snd <$> fields) = l -> dict_of (fst <$> fields) l = fields.
Proof.
  intros Hn <-. unfold dict_of. assert (zip (fst <$> fields) (snd <$> fields) = fields) as -> by (clear; induction fields as [|[] ? IH]; cbn; [done|by rewrite IH]).
  by apply (dict_of_zip []).
Qed.

Section Values.
Context (t : TokenTables).
Hypothesis (Hstrings : tt_string_indexes t = indexes (tt_strings t)) (Hshapes : tt_shape_indexes t = indexes (tt_shapes t)).
Hypothesis (Hmany : Z.of_nat (length (tt_strings t)) < 2 ^ 63) (Hforms : Z.of_nat (length (tt_shapes t)) < 2 ^ 63).

Lemma encode_value_nonempty v b : encode_value t v = Ok b -> (1 <= String.length b)%nat.
Proof.
  destruct v as [|[]| | | | | |]; cbn [encode_value]; intros Hb; try done; repeat (apply bind_ok in Hb as (? & _ & Hb)); injection Hb as <-; cbn; lia.
Qed.

Lemma value_reads v : kept_value v -> forall b fuel, encode_value t v = Ok b -> str_len b < 2 ^ 63 -> (String.length b <= fuel)%nat -> reads (visit fuel t) b (canonical v).
Proof.
  induction v as [|bo|z|f|s|raw|l IH|fields IH] using value_induction; intros Hk b fuel Hb Hlen Hf;
    (destruct fuel as [|fuel]; [apply encode_value_nonempty in Hb; lia|]); cbn [encode_value] in Hb; intros rest.
  - injection Hb as <-. cbn [String.append str1 visit]. by rewrite code_byte by lia.
  - destruct bo; injection Hb as <-; cbn [String.append str1 visit]; by rewrite code_byte by lia.
  - apply bind_ok in Hb as (c & Hc & [= <-]). inversion Hk; subst. cbn [String.append visit]. rewrite code_byte by lia. cbn [Z.eqb Pos.eqb].
    by rewrite (svarint_reads _ _ Hc).
  - done.
  - apply bind_ok in Hb as (i & Hi & Hb). apply bind_ok in Hb as (c & Hc & [= <-]). rewrite Hstrings in Hi. apply index_of_some in Hi as [Hi Hl].
    cbn [String.append visit]. rewrite code_byte by lia. cbn [Z.eqb Pos.eqb]. rewrite (uvarint_reads _ _ Hc) by lia. cbn [mbind result_bind].
    by rewrite (item_at_index _ i s).
  - apply bind_ok in Hb as (c & Hc & [= <-]). cbn [String.append visit]. rewrite code_byte by lia. cbn [Z.eqb Pos.eqb].
    rewrite (pack_bytes_reads _ _ Hc); [done|]. unfold str_len in *. cbn in Hlen. lia.
  - apply bind_ok in Hb as (c & Hc & [= <-]). cbn [String.append visit]. rewrite code_byte by lia. cbn [Z.eqb Pos.eqb]. cbn [String.length] in Hf.
    unfold str_len in Hlen. cbn [String.length] in Hlen. inversion Hk as [| | | | |l' Hall|]; subst. rewrite Forall_forall in IH, Hall.
    assert (with_count (encode_value t) l = Ok c) as Hc'.
    { rewrite <- Hc. unfold with_count. rewrite length_fmap. by rewrite (output_each_map (encode_value t) (fun r => r) (encode_value t)). }
    destruct (with_count_reads (encode_value t) (visit fuel t) canonical l c Hc') as [Hr _]; [unfold str_len; lia| | |by rewrite Hr].
    + intros x d Hx Hd Hl. apply IH; [done|by apply Hall|done|unfold str_len; lia|lia].
    + intros x d _. apply encode_value_nonempty.
  - apply bind_ok in Hb as (i & Hi & Hb). rewrite Hshapes in Hi. apply index_of_some in Hi as [Hi Hl]. apply bind_ok in Hb as (n & Hn & Hb).
    apply bind_ok in Hb as (c & Hc & [= <-]). cbn [String.append visit]. rewrite code_byte by lia. cbn [Z.eqb Pos.eqb].
    rewrite str_app_assoc, (uvarint_reads _ _ Hn) by lia. cbn [mbind result_bind]. rewrite (item_at_index _ i (shape_of fields)) by done.
    cbn [mbind result_bind]. unfold str_len in Hlen. cbn [String.length] in Hlen, Hf. rewrite str_length_app in Hlen, Hf.
    inversion Hk as [| | | | | |fields' Hnd Hall]; subst. rewrite Forall_forall in IH, Hall.
    assert (output_each (fun p => encode_value t p.2) (by_key fields) = Ok c) as Hc'.
    { rewrite <- Hc, <- by_key_keys. symmetry. apply output_each_map. intros p Hp. unfold by_key in Hp. rewrite elem_of_sorted_by in Hp.
      rewrite (find_field_found ((fun p => (p.1, encode_value t p.2)) <$> fields) (p.1, encode_value t p.2)); [done|by rewrite <- list_fmap_compose|].
      apply list_elem_of_fmap. by exists p. }
    rewrite (read_fields_ok (fun p => encode_value t p.2) (visit fuel t) (fun p => canonical p.2) (by_key fields) c); [|done| |].
    + cbn [mbind result_bind]. do 2 f_equal. cbn [canonical]. f_equal. rewrite by_key_map, <- by_key_keys.
      assert (NoDup (fst <$> by_key fields)) as Hnk by (unfold by_key; by rewrite sorted_by_perm).
      pose proof (dict_of_by_key ((fun p => (p.1, canonical p.2)) <$> by_key fields) _ ltac:(by rewrite <- list_fmap_compose) eq_refl) as Hd.
      by rewrite <- !list_fmap_compose in Hd.
    + rewrite <- by_key_keys. by rewrite length_fmap.
    + intros p d Hp Hd Hld. unfold by_key in Hp. rewrite elem_of_sorted_by in Hp. apply IH; [done|by apply Hall|done|unfold str_len; lia|lia].
Qed.
End Values.

(** * The tables of a set of documents

    [build] collects every string, prefix and shape its documents use, so their
    encodings exist; and a document is encoded by what it says, whatever the order
    its dicts were filled in ([same_value]). *)


(** ** Everything is collected *)

Lemma elem_of_sorted_set_by {K} `{PyOrd K} {A} `{EqDecision A} (key : A -> K) (l : list A) x : x ∈ sorted_by key (remove_dups l) <-> x ∈ l.
Proof. by rewrite elem_of_sorted_by, elem_of_remove_dups. Qed.

Lemma elem_of_concat_map {A B} (f : A -> list B) l y : y ∈ concat (f <$> l) <-> exists x, x ∈ l /\ y ∈ f x.
Proof.
  rewrite list_elem_of_In, in_concat. split.
  - intros (k & Hk & Hy). apply list_elem_of_In, list_elem_of_fmap in Hk as (x & -> & Hx). exists x. by rewrite <- list_elem_of_In in Hy.
  - intros (x & Hx & Hy). exists (f x). split; [|by apply list_elem_of_In]. apply list_elem_of_In. by apply list_elem_of_fmap_2.
Qed.

Section Build.
Context (values : list value) (extra : list string).
Abbreviation t := (build values extra).

Lemma build_strings s : s ∈ tt_strings t <-> s ∈ extra \/ exists v, v ∈ values /\ s ∈ strings_of v.
Proof.
  unfold build. cbn [make_tables tt_strings]. by rewrite elem_of_sorted_set_by, elem_of_app, elem_of_concat_map.
Qed.
Lemma build_shapes shape : shape ∈ tt_shapes t <-> exists v, v ∈ values /\ shape ∈ shapes_of v.
Proof.
  unfold build. cbn [make_tables tt_shapes]. by rewrite elem_of_sorted_set_by, elem_of_concat_map.
Qed.
Lemma build_prefixes p : p ∈ tt_prefixes t <-> exists s, s ∈ tt_strings t /\ prefix_of s = Some p.
Proof. unfold build. cbn [make_tables tt_prefixes tt_strings]. rewrite elem_of_sorted_set_by, list_elem_of_omap. done. Qed.
Lemma build_made : t = make_tables (tt_strings t) (tt_prefixes t) (tt_shapes t).
Proof. done. Qed.
End Build.

(** The keys of a shape are among the strings of its document. *)
Lemma shape_keys v : forall shape key, shape ∈ shapes_of v -> key ∈ shape -> key ∈ strings_of v.
Proof.
  induction v as [| | | | | |l IH|fields IH] using value_induction; intros shape key Hs Hk; cbn [shapes_of strings_of] in *;
    try by apply elem_of_nil in Hs.
  - rewrite Forall_forall in IH. apply elem_of_concat_map in Hs as (v & Hv & Hs). apply elem_of_concat_map. exists v. split; [done|by eapply IH].
  - rewrite Forall_forall in IH. apply elem_of_concat_map. apply elem_of_cons in Hs as [->|(p & Hp & Hs)%elem_of_concat_map].
    + unfold shape_of in Hk. rewrite elem_of_sorted_by in Hk. apply list_elem_of_fmap in Hk as (p & -> & Hp). exists p. split; [done|left].
    + exists p. split; [done|]. right. by eapply (IH p).
Qed.

(** ** Encodings exist *)

Lemma index_of_exists `{Countable K} (l : list K) k e : k ∈ l -> exists i, index_of k (indexes l) e = Ok i /\ 0 <= i.
Proof.
  intros Hk. destruct (indexes_is_some l k Hk) as [i Hi]. exists i. pose proof (indexes_some l k i Hi) as [Hb _].
  unfold index_of. rewrite Hi. split; [done|lia].
Qed.
Lemma uvarint_total value : 0 <= value -> exists b, _uvarint value = Ok b.
Proof. intros H. rewrite uvarint_ok by done. by eexists. Qed.
Lemma output_each_total {A} (f : A -> result bytes) l : (forall x, x ∈ l -> exists b, f x = Ok b) -> exists b, output_each f l = Ok b.
Proof.
  induction l as [|x l IH]; intros Hf; [by exists ""|]. destruct (Hf x (list_elem_of_here _ _)) as [b Hb].
  destruct IH as [c Hc]; [intros y Hy; apply Hf; by right|]. exists (b +:+ c). cbn. by rewrite Hb, Hc.
Qed.
Lemma with_count_total {A} (f : A -> result bytes) l : (forall x, x ∈ l -> exists b, f x = Ok b) -> exists b, with_count f l = Ok b.
Proof.
  intros Hf. unfold with_count. destruct (uvarint_total (Z.of_nat (length l)) ltac:(lia)) as [n ->]. destruct (output_each_total f l Hf) as [b ->]. by eexists.
Qed.
Lemma key_total (strings : list string) key e : key ∈ strings -> exists b, (i ← index_of key (indexes strings) e; _uvarint i) = Ok b.
Proof. intros Hk. destruct (index_of_exists strings key e Hk) as (i & -> & Hi). by apply uvarint_total. Qed.

Section Total.
Context (values : list value) (extra : list string).
Abbreviation t := (build values extra).

Lemma prefix_total s p e : s ∈ tt_strings t -> prefix_of s = Some p -> exists i, index_of p (tt_prefix_indexes t) e = Ok i /\ 0 <= i.
Proof. intros Hs Hp. apply (index_of_exists (tt_prefixes t)). apply build_prefixes. by exists s. Qed.
Lemma encode_string_total s : s ∈ tt_strings t -> kept_string s -> exists b, encode_string t s = Ok b.
Proof.
  intros Hs [Hu Hi]. unfold encode_string. pose proof (fun p => prefix_total s p (KeyError p) Hs) as Hp. unfold prefix_of in Hp.
  destruct (_RCID_HASH s) as [[p q]|] eqn:Eh; [|destruct (_RCID_UUID s) as [[p q]|] eqn:Eu].
  - apply suffix_group in Eh as (_ & [Hx Lx]%hex_part & _). destruct (Hp p eq_refl) as (i & -> & Bi). cbn [mbind result_bind].
    destruct (uvarint_total i Bi) as [n ->], (fromhex_ok 32 q Hx Lx) as (raw & -> & _). by eexists.
  - specialize (Hu p q eq_refl eq_refl). apply uuid_groups in Hu as (Hx & Lx & _). destruct (Hp p eq_refl) as (i & -> & Bi). cbn [mbind result_bind].
    destruct (uvarint_total i Bi) as [n ->], (fromhex_ok 16 _ Hx Lx) as (raw & -> & _). by eexists.
  - destruct (_HEX64 s) eqn:E3; [|destruct (_UUID s) eqn:E4; [|destruct (_MILLISECOND_UTC s) eqn:E5]].
    + apply hex_pattern in E3 as [Hx Lx]. destruct (fromhex_ok 32 s Hx Lx) as (raw & -> & _). by eexists.
    + apply uuid_groups in E4 as (Hx & Lx & _). destruct (fromhex_ok 16 _ Hx Lx) as (raw & -> & _). by eexists.
    + specialize (Hi eq_refl) as (n & K & -> & HK & Hn & Hm). assert (0 < 2 ^ (K + 10)) by (apply Z.pow_pos_nonneg; lia).
      rewrite encode_instant_stamp by lia. cbn [mbind result_bind]. destruct (svarint_total (stored_milliseconds (1000 * n))) as (b & -> & _). by eexists.
    + destruct (pack_bytes_total (utf8_encode s)) as [b ->]. by eexists.
Qed.

Lemma encode_tables_total : Forall kept_string (tt_strings t) -> exists b, encode_tables t = Ok b.
Proof.
  rewrite Forall_forall. intros Hk. unfold encode_tables.
  destruct (with_count_total (fun p => _pack_bytes (utf8_encode p)) (tt_prefixes t)) as [b1 ->]; [intros p _; apply pack_bytes_total|].
  destruct (with_count_total (encode_string t) (tt_strings t)) as [b2 ->]; [intros s Hs; by apply encode_string_total, Hk|].
  destruct (with_count_total (encode_shape t) (tt_shapes t)) as [b3 ->]; [|by eexists].
  intros shape (v & Hv & Hs)%build_shapes. apply with_count_total. intros key Hkey. apply (key_total (tt_strings t)).
  apply build_strings. right. exists v. split; [done|]. by eapply shape_keys.
Qed.

(** A document of strings and shapes in the tables. *)
Lemma value_total v :
  kept_value v -> (forall s, s ∈ strings_of v -> s ∈ tt_strings t) -> (forall shape, shape ∈ shapes_of v -> shape ∈ tt_shapes t) ->
  exists b, encode_value t v = Ok b.
Proof.
  induction v as [|[]|z|f|s|raw|l IH|fields IH] using value_induction; intros Hk Hs Hf; cbn [encode_value]; try by eexists.
  - destruct (svarint_total z) as (b & -> & _). by eexists.
  - inversion Hk.
  - destruct (index_of_exists (tt_strings t) s (_fail "value references an absent token")) as (i & Hi & Bi); [apply Hs; by left|].
    change (tt_string_indexes t) with (indexes (tt_strings t)). rewrite Hi. cbn [mbind result_bind]. destruct (uvarint_total i Bi) as [b ->]. by eexists.
  - destruct (pack_bytes_total raw) as [b ->]. by eexists.
  - inversion Hk as [| | | | |l' Hall|]; subst. rewrite Forall_forall in IH, Hall. edestruct (with_count_total (fun r : result bytes => r) (encode_value t <$> l)) as [b ->]; [|by eexists].
    intros r (x & -> & Hx)%list_elem_of_fmap. apply IH; [done|by apply Hall| |]; intros y Hy; [apply Hs|apply Hf]; cbn;
      apply elem_of_concat_map; by exists x.
  - inversion Hk as [| | | | | |fields' Hnd Hall]; subst. rewrite Forall_forall in IH, Hall.
    destruct (index_of_exists (tt_shapes t) (shape_of fields) (_fail "object references an absent shape")) as (i & Hi & Bi); [apply Hf; by left|].
    change (tt_shape_indexes t) with (indexes (tt_shapes t)). rewrite Hi. cbn [mbind result_bind]. destruct (uvarint_total i Bi) as [n ->]. cbn [mbind result_bind].
    edestruct (output_each_total (fun key => default (Raise (KeyError key)) (find_field key ((fun p => (p.1, encode_value t p.2)) <$> fields))) (shape_of fields))
      as [b Hb]; [|rewrite Hb; by eexists]. intros key Hkey. unfold shape_of in Hkey. rewrite elem_of_sorted_by in Hkey.
    apply list_elem_of_fmap in Hkey as (p & -> & Hp).
    rewrite (find_field_found ((fun p => (p.1, encode_value t p.2)) <$> fields) (p.1, encode_value t p.2));
      [|by rewrite <- list_fmap_compose|apply list_elem_of_fmap; by exists p].
    apply IH; [done|by apply Hall| |]; intros y Hy; [apply Hs|apply Hf; right]; cbn; apply elem_of_concat_map; exists p; [|done].
    split; [done|by right].
Qed.
Lemma encode_value_total v : v ∈ values -> kept_value v -> exists b, encode_value t v = Ok b.
Proof.
  intros Hv Hk. apply value_total; [done| |].
  - intros s Hs. apply build_strings. right. by exists v.
  - intros shape Hs. apply build_shapes. by exists v.
Qed.
End Total.

(** * Equal documents

    [same_value] is equality of documents, whose dicts have no order: an equivalence
    that [encode_value] respects and [decode_value] restores. *)


#[warnings="-register-all"]
Inductive same_value : value -> value -> Prop :=
| same_refl v : same_value v v
| same_list l k : Forall2 same_value l k -> same_value (VList l) (VList k)
| same_dict f g :
    NoDup (fst <$> f) -> NoDup (fst <$> g) -> (forall key, option_Forall2 same_value (find_field key f) (find_field key g)) ->
    same_value (VDict f) (VDict g).
#[export] Instance value_equiv : Equiv value := same_value.

Lemma same_value_sym v w : same_value v w -> same_value w v.
Proof.
  revert w. induction v as [| | | | | |l IH|f IH] using value_induction; intros w Hs; inversion Hs as [|? k Hl|? g N1 N2 Hf]; subst; try constructor; auto.
  - clear Hs. induction Hl as [|x y l k Hx _ IHl]; [constructor|]. apply Forall_cons in IH as [IHx IH]. constructor; auto.
  - intros key. rewrite Forall_forall in IH. specialize (Hf key). inversion Hf as [x y Hx E1 E2|]; [|constructor]. constructor.
    by apply (IH (key, x)); [apply find_field_in|].
Qed.
Lemma same_value_trans v w u : same_value v w -> same_value w u -> same_value v u.
Proof.
  revert w u. induction v as [| | | | | |l IH|f IH] using value_induction; intros w u H1; inversion H1 as [|? k Hl|? g N1 N2 Hf]; subst; try done; intros H2.
  - inversion H2 as [|? j Hj|]; subst; [done|]. constructor. clear H1 H2. revert j Hj.
    induction Hl as [|x y l k Hx _ IHl]; intros j Hj; inversion Hj; subst; [constructor|]. apply Forall_cons in IH as [IHx IH]. constructor; eauto.
  - inversion H2 as [|? j Hj|? g' N3 N4 Hg]; subst; [done|]. constructor; [done..|]. intros key. rewrite Forall_forall in IH.
    specialize (Hf key). specialize (Hg key). inversion Hf as [x y Hx E1 E2|E1 E2]; rewrite <- E2 in Hg; inversion Hg as [x' y' Hx' E3 E4|]; constructor.
    subst. by apply (IH (key, x) ltac:(by apply find_field_in) y).
Qed.
#[export] Instance value_equivalence : Equivalence (≡@{value}).
Proof. split; [intros v; apply same_refl|intros v w; apply same_value_sym|intros v w u; apply same_value_trans]. Qed.

(** The two dicts have the same keys. *)
Lemma same_shape f g :
  NoDup (fst <$> f) -> NoDup (fst <$> g) -> (forall key, option_Forall2 same_value (find_field key f) (find_field key g)) -> shape_of f = shape_of g.
Proof.
  intros N1 N2 Hf. apply sorted_by_ext.
  - apply NoDup_fmap_2; [|done]. intros s s'. apply utf8_encode_inj.
  - apply NoDup_Permutation; [done..|]. intros key. specialize (Hf key). pose proof (find_field_none key f). pose proof (find_field_none key g).
    destruct (decide (key ∈ f.*1)), (decide (key ∈ g.*1)); try tauto; inversion Hf as [? ? ? E1 E2|E1 E2]; rewrite <- E1, <- E2 in *; naive_solver.
Qed.

#[export] Instance encode_value_proper t : Proper ((≡) ==> (=)) (encode_value t).
Proof.
  intros v. induction v as [| | | | | |l IH|f IH] using value_induction; intros w Hs; inversion Hs as [|? k Hl|? g N1 N2 Hf]; subst; try done; cbn [encode_value].
  - do 2 f_equal. clear Hs. induction Hl as [|x y l k Hx _ IHl]; [done|]. apply Forall_cons in IH as [IHx IH]. cbn. rewrite (IHx y Hx). f_equal. auto.
  - rewrite (same_shape f g N1 N2 Hf). destruct (index_of _ _ _) as [i|]; [|done]. cbn [mbind result_bind]. destruct (_uvarint i) as [n|]; [|done]. cbn [mbind result_bind].
    assert (forall key, find_field key ((fun p => (p.1, encode_value t p.2)) <$> f) = find_field key ((fun p => (p.1, encode_value t p.2)) <$> g)) as He.
    { intros key. rewrite !find_field_map. specialize (Hf key). rewrite Forall_forall in IH. inversion Hf as [x y Hx E1 E2|]; [|done].
      cbn. f_equal. apply (IH (key, x)); [by apply find_field_in|done]. }
    assert (forall shape, output_each (fun key => default (Raise (KeyError key)) (find_field key ((fun p => (p.1, encode_value t p.2)) <$> f))) shape =
      output_each (fun key => default (Raise (KeyError key)) (find_field key ((fun p => (p.1, encode_value t p.2)) <$> g))) shape) as ->; [|done].
    intros shape. induction shape as [|key shape IHs]; [done|]. cbn [output_each]. by rewrite He, IHs.
Qed.

(** Key order is a choice of representative. *)
Lemma canonical_same v : kept_value v -> canonical v ≡ v.
Proof.
  induction v as [| | | | | |l IH|f IH] using value_induction; intros Hk; try done; cbn [canonical].
  - inversion Hk as [| | | | |l' Hall|]; subst. clear Hk. constructor. induction Hall as [|x l Hx _ IHl]; [constructor|]. apply Forall_cons in IH as [IHx IH].
    constructor; [by apply IHx|auto].
  - inversion Hk as [| | | | | |f' Hnd Hall]; subst. rewrite Forall_forall in IH, Hall.
    assert (NoDup (fst <$> ((fun p => (p.1, canonical p.2)) <$> f))) as Hn by by rewrite <- list_fmap_compose. constructor; [|done|].
    + unfold by_key. by rewrite sorted_by_perm.
    + intros key. rewrite <- (find_field_perm key ((fun p => (p.1, canonical p.2)) <$> f)) by (done || (unfold by_key; by rewrite sorted_by_perm)).
      rewrite find_field_map. destruct (find_field key f) as [x|] eqn:E; constructor. apply find_field_in in E. apply (IH (key, x)); [done|by apply (Hall (key, x))].
Qed.

(** * Decoding any bytes

    The decoder of values ends on every input: it reads some bytes and leaves the
    rest, or raises the error of the codec. *)


(** The outcome of a decoder of [data]: a value from [k] bytes or more of its front,
    or an error of the codec. *)
Definition consumes {A} (k : nat) (data : bytes) (r : result (A * bytes)) : Prop :=
  match r with
  | Ok (_, rest) => exists used, data = used +:+ rest /\ (k <= String.length used)%nat
  | Raise e => exists msg, e = FactorizedEvidenceError msg
  end.

Lemma consumes_ok {A} (a : A) data : consumes 0 data (Ok (a, data)).
Proof. exists "". split; [done|cbn; lia]. Qed.
Lemma consumes_fail {A} k data msg : consumes k data (Raise (_fail msg) : result (A * bytes)).
Proof. by exists msg. Qed.
Lemma consumes_weaken {A} k j data (r : result (A * bytes)) : (j <= k)%nat -> consumes k data r -> consumes j data r.
Proof. intros Hj. destruct r as [[a rest]|]; [|done]. intros (used & -> & Hk). exists used. split; [done|lia]. Qed.
Lemma consumes_char {A} k c data (r : result (A * bytes)) : consumes k data r -> consumes (S k) (String c data) r.
Proof. destruct r as [[a rest]|]; [|done]. intros (used & -> & Hk). exists (String c used). split; [done|cbn; lia]. Qed.
Lemma consumes_bind {A B} k j data (r : result (A * bytes)) (f : A * bytes -> result (B * bytes)) :
  consumes k data r ->
  (forall a used rest, r = Ok (a, rest) -> data = used +:+ rest -> (k <= String.length used)%nat -> consumes j rest (f (a, rest))) -> consumes (k + j) data (r ≫= f).
Proof.
  destruct r as [[a rest]|e]; cbn [mbind result_bind]; [|by intros (msg & ->) _; exists msg]. intros (used & -> & Hk) Hf.
  specialize (Hf a used rest eq_refl eq_refl Hk). unfold bytes in *. destruct (f (a, rest)) as [[b rest']|]; [|exact Hf]. destruct Hf as (used' & -> & Hj).
  exists (used +:+ used'). split; [by rewrite str_app_assoc|]. rewrite str_length_app. lia.
Qed.
Lemma consumes_item {A B} k data (l : list A) i msg (f : A -> result (B * bytes)) :
  0 <= i -> (forall a, consumes k data (f a)) -> consumes k data (item_at l i msg ≫= f).
Proof.
  intros Hi Hf. unfold item_at. destruct (Z.leb_spec (Z.of_nat (length l)) i) as [|Hl]; [apply consumes_fail|]. cbn [raise_if mbind result_bind].
  destruct (lookup_lt_is_Some_2 l (Z.to_nat i)) as [x ->]; [lia|apply Hf].
Qed.

Lemma read_uvarint_consumes data : consumes 1 data (_read_uvarint data).
Proof.
  unfold _read_uvarint. generalize 0 at 2. generalize 0. induction data as [|c data IH]; intros shift acc; cbn [read_uvarint_go]; [apply consumes_fail|].
  destruct (63 <? shift); [apply consumes_fail|]. destruct (code c <? 128); [exact (consumes_char 0 c data _ (consumes_ok _ _))|].
  pose proof (IH (shift + 7) (Z.lor acc (Z.shiftl (Z.land (code c) 127) shift))) as H. apply (consumes_char 1 c) in H. revert H. apply consumes_weaken. lia.
Qed.
Lemma read_uvarint_nonneg data n rest : _read_uvarint data = Ok (n, rest) -> 0 <= n.
Proof.
  unfold _read_uvarint. assert (0 <= 0) as H0 by lia. revert H0. generalize 0 at 2 4. assert (0 <= 0) as H0 by lia. revert H0. generalize 0 at 2 4.
  intros shift Hs acc Ha. revert shift Hs acc Ha. induction data as [|c data IH]; intros shift Hs acc Ha; cbn [read_uvarint_go]; [done|].
  destruct (63 <? shift); [done|]. cbn zeta. assert (0 <= Z.lor acc (Z.shiftl (Z.land (code c) 127) shift)) as Hacc.
  { apply Z.lor_nonneg. split; [done|]. apply Z.shiftl_nonneg, Z.land_nonneg. right. lia. }
  destruct (code c <? 128); [by intros [= <- <-]|]. apply IH; [lia|done].
Qed.
Lemma read_svarint_consumes data : consumes 1 data (_read_svarint data).
Proof. apply (consumes_bind 1 0); [apply read_uvarint_consumes|]. intros; apply consumes_ok. Qed.
Lemma read_bytes_consumes data : consumes 1 data (_read_bytes data).
Proof.
  apply (consumes_bind 1 0); [apply read_uvarint_consumes|]. intros n _ rest _ _ _. destruct (_ <? n); [apply consumes_fail|]. cbn [raise_if mbind result_bind].
  exists (str_take (Z.to_nat n) rest). split; [by rewrite str_take_drop|lia].
Qed.

Section Readers.
Context {A} (read : bytes -> result (A * bytes)) (bound : nat).
Hypothesis (Hread : forall data, (String.length data < bound)%nat -> consumes 1 data (read data)).

Lemma read_times_consumes fuel : forall n data, (String.length data < fuel)%nat -> (String.length data < bound)%nat -> consumes 0 data (read_times fuel n read data).
Proof.
  induction fuel as [|fuel IH]; intros n data Hf Hb; [lia|]. cbn [read_times]. destruct (n <=? 0); [apply consumes_ok|].
  eapply (consumes_weaken (1 + 0)); [|apply consumes_bind; [by apply Hread|]]; [lia|].
  intros x used rest _ -> Hu. rewrite str_length_app in Hf, Hb. apply (consumes_bind 0 0); [apply IH; lia|]. intros; apply consumes_ok.
Qed.
Lemma read_counted_consumes data : (String.length data <= bound)%nat -> consumes 1 data (read_counted read data).
Proof.
  intros Hb. apply (consumes_bind 1 0); [apply read_uvarint_consumes|]. intros n used rest _ -> Hu. rewrite str_length_app in Hb. apply read_times_consumes; lia.
Qed.
Lemma read_fields_consumes shape : forall data, (String.length data < bound)%nat -> consumes 0 data (read_fields read shape data).
Proof.
  induction shape as [|key shape IH]; intros data Hb; cbn [read_fields]; [apply consumes_ok|].
  eapply (consumes_weaken (1 + 0)); [|apply consumes_bind; [by apply Hread|]]; [lia|].
  intros x used rest _ -> Hu. rewrite str_length_app in Hb. apply (consumes_bind 0 0); [apply IH; lia|]. intros; apply consumes_ok.
Qed.
End Readers.

Lemma visit_consumes t fuel : forall data, (String.length data < fuel)%nat -> consumes 1 data (visit fuel t data).
Proof.
  induction fuel as [|fuel IH]; intros [|c data] Hf; [lia..|apply consumes_fail|]. cbn [String.length] in Hf. cbn [visit]. cbn zeta.
  repeat match goal with |- context [if ?b then _ else _] => destruct b end; try exact (consumes_char 0 c data _ (consumes_ok _ _)); try apply consumes_fail;
    (eapply consumes_weaken; [|apply (consumes_char 1 c)]; [lia|]); apply (consumes_bind 1 0);
    try first [apply read_svarint_consumes|apply read_bytes_consumes|apply read_uvarint_consumes|by apply (read_counted_consumes _ fuel IH); lia];
    try by (intros; apply consumes_ok).
  - intros i used rest Hi _ _. apply consumes_item; [by eapply read_uvarint_nonneg|]. intros s. apply consumes_ok.
  - intros i used rest Hi -> Hu. rewrite str_length_app in Hf. apply consumes_item; [by eapply read_uvarint_nonneg|]. intros shape. apply (consumes_bind 0 0).
    + apply (read_fields_consumes _ fuel IH). lia.
    + intros. apply consumes_ok.
Qed.
