(* ===== verification/TokenProperties.v ===== *)
(** * Properties of the token codec

    Archives read back as the documents they were made of; the integers and instants
    that do; equal documents have equal bytes; every input of the decoder is decoded
    or refused. *)

From S2P Require Export TokenCorrect.

(** ** Archives *)

Section Archive.
Context `{PlatformLaws} (values : list value) (extra : list string).
Abbreviation t := (build values extra).

Lemma archive_tables b : encode_tables t = Ok b -> Forall kept_string (tt_strings t) -> str_len b < 2 ^ 63 ->
  reads decode_tables b t /\ Z.of_nat (length (tt_strings t)) < 2 ^ 63 /\ Z.of_nat (length (tt_shapes t)) < 2 ^ 63.
Proof. rewrite build_made. apply tables_read. Qed.
Lemma archive_value v b c rest :
  encode_tables t = Ok b -> Forall kept_string (tt_strings t) -> str_len b < 2 ^ 63 -> kept_value v -> encode_value t v = Ok c -> str_len c < 2 ^ 63 ->
  decode_value t (c +:+ rest) = Ok (canonical v, rest).
Proof.
  intros Hb Hk Hl Hv Hc Hlc. destruct (archive_tables b Hb Hk Hl) as (_ & Hs & Hf). unfold decode_value.
  apply (value_reads t eq_refl eq_refl Hs Hf v Hv c); [done..|]. rewrite str_length_app. lia.
Qed.
End Archive.

(** C13: an archive is lossless: for documents without floats, with integers of 70 bits,
    and whose strings are kept (a UUID identity has its dashes in place, a time stamp
    is an instant binary64 keeps), the tables [build] makes are encoded and read back
    unchanged, and every document is encoded and read back as an equal document, with
    the bytes that follow left over. *)
Theorem archive_lossless `{PlatformLaws} values extra :
  Forall kept_string (tt_strings (build values extra)) -> Forall kept_value values ->
  exists b, encode_tables (build values extra) = Ok b /\
    (str_len b < 2 ^ 63 ->
     (forall rest, decode_tables (b +:+ rest) = Ok (build values extra, rest)) /\
     Forall (fun v => exists c, encode_value (build values extra) v = Ok c /\
       (str_len c < 2 ^ 63 -> forall rest, exists w, decode_value (build values extra) (c +:+ rest) = Ok (w, rest) /\ w ≡ v)) values).
Proof.
  intros Hs Hv. destruct (encode_tables_total values extra Hs) as [b Hb]. exists b. split; [done|]. intros Hl. split.
  - by apply (archive_tables values extra b Hb Hs Hl).
  - rewrite Forall_forall in Hv |- *. intros v Hin. destruct (encode_value_total values extra v Hin (Hv v Hin)) as [c Hc]. exists c. split; [done|].
    intros Hlc rest. exists (canonical v). split; [by eapply archive_value; eauto|by apply canonical_same, Hv].
Qed.

(** C21: equal documents have equal bytes: [encode_value] does not depend on the order
    of the keys of any dict, at any depth. *)
Theorem equal_documents_equal_bytes t v w : v ≡ w -> encode_value t v = encode_value t w.
Proof. by intros ->. Qed.

(** C19: the decoder ends on every input: it returns a value read from a non-empty
    front of the bytes, with the rest left over, or raises the error of the codec. *)
Theorem decode_value_total t data :
  (exists v used rest, decode_value t data = Ok (v, rest) /\ data = used +:+ rest /\ used <> "") \/
  (exists msg, decode_value t data = Raise (FactorizedEvidenceError msg)).
Proof.
  pose proof (visit_consumes t (S (String.length data)) data ltac:(lia)) as H. unfold decode_value. destruct (visit _ _ _) as [[v rest]|e].
  - left. destruct H as (used & -> & Hl). exists v, used, rest. split; [done|]. split; [done|]. by intros ->; cbn in Hl; lia.
  - right. destruct H as (msg & ->). by exists msg.
Qed.

(** C40: every integer is written, and read back exactly when it has 70 bits, sign
    included; a longer one makes a document the decoder refuses. *)
Theorem integers_of_70_bits t z :
  exists b, encode_value t (VInt z) = Ok b /\ forall rest,
    decode_value t (b +:+ rest) = if (- 2 ^ 69 <=? z) && (z <? 2 ^ 69) then Ok (VInt z, rest) else Raise (_fail "invalid or truncated varint").
Proof.
  destruct (svarint_total z) as (b & Hb & _). exists (String (byte 3) b). cbn [encode_value]. rewrite Hb. split; [done|]. intros rest.
  unfold decode_value. cbn [String.append visit]. rewrite code_byte by lia. cbn [Z.eqb Pos.eqb].
  destruct (_ && _) eqn:E; [rewrite (svarint_reads z b Hb) by lia; done|].
  unfold _read_svarint. rewrite (uvarint_too_large (zigzag z) b rest Hb); [done|].
  unfold zigzag. change (2 ^ 70) with (2 * 2 ^ 69). destruct (Z.leb_spec 0 z); lia.
Qed.

(** A time stamp of milliseconds from 9 November 2004 to 19 January 2038 is stored
    and read back exactly, although its milliseconds pass through binary64. *)
Theorem stamps_of_2004_to_2038 `{PlatformLaws} n :
  1099511627776 < n < 2147483648000 -> encode_instant (rfc3339 (1000 * n)) = Ok n /\ decode_instant n = Ok (rfc3339 (1000 * n)).
Proof.
  intros Hn. rewrite encode_instant_stamp by (unfold max_instant; lia). rewrite (stored_exact n 30) by (cbn; lia). split; [done|].
  apply decode_instant_stamp. unfold max_instant. lia.
Qed.

(** ** Where it is not lossless *)

(** The platform of C library time: years of four digits. *)
#[local] Instance sample_platform : Platform := {| year_text := decw 4; date_error _ := ValueError "year is out of range" |}.
#[local] Instance sample_laws : PlatformLaws.
Proof. done. Qed.

(** A millisecond less. *)
Theorem stamp_loses_a_millisecond :
  encode_instant "1970-01-01T00:00:01.001Z" = Ok 1000 /\ decode_instant 1000 = Ok "1970-01-01T00:00:01.000Z".
Proof. by vm_compute. Qed.
(** [_RCID_UUID] accepts dashes anywhere, and the decoder puts them where they belong. *)
Theorem misplaced_dashes_move :
  let t := build [] ["rcid:v1:run:u7:0123456789abcdef0123456789abcdef----"] in
  exists b u, encode_tables t = Ok b /\ decode_tables b = Ok (u, "") /\ tt_strings u = ["rcid:v1:run:u7:01234567-89ab-cdef-0123-456789abcdef"].
Proof. eexists _, _. split; [vm_compute; reflexivity|]. split; [vm_compute; reflexivity|]. by vm_compute. Qed.
(** Of 36 digits, 18 bytes are written and 16 read. *)
Theorem long_uuid_unreadable :
  let t := build [] ["rcid:v1:run:u7:0123456789abcdef0123456789abcdef0123"] in
  exists b, encode_tables t = Ok b /\ decode_tables b <> Ok (t, "").
Proof. eexists. split; [vm_compute; reflexivity|]. vm_compute. congruence. Qed.

(** ** Witnesses *)

Definition kept_plain (s : string) : bool := negb (bool_decide (is_Some (_RCID_UUID s))) && negb (_MILLISECOND_UTC s).
Lemma kept_plain_string s : kept_plain s = true -> kept_string s.
Proof.
  unfold kept_plain. intros [Hu Hi]%andb_true_iff. split.
  - intros p q _ E. rewrite E in Hu. cbn in Hu. done.
  - intros E. by rewrite E in Hi.
Qed.

Definition sample_document : value :=
  VDict [("run", VStr "rcid:v1:run:u7:01234567-89ab-cdef-0123-456789abcdef"); ("at", VStr "2026-01-02T03:04:05.678Z");
         ("counts", VList [VInt 3; VInt (-200); VBool true; VNone]); ("raw", VBytes (str1 (byte 255)))].
Lemma sample_strings : Forall kept_string (tt_strings (build [sample_document] [])).
Proof.
  assert (tt_strings (build [sample_document] []) =
    ["2026-01-02T03:04:05.678Z"; "at"; "counts"; "raw"; "rcid:v1:run:u7:01234567-89ab-cdef-0123-456789abcdef"; "run"]) as -> by (vm_compute; reflexivity).
  repeat apply Forall_cons_2; try apply Forall_nil_2; try (apply kept_plain_string; vm_compute; reflexivity).
  - split; [by vm_compute|]. intros _. exists 1767323045678, 30. split; [by vm_compute|]. split_and!; done.
  - split; [|intros E; exfalso; by vm_compute in E]. intros p q _ E. vm_compute in E. injection E as <- <-. by vm_compute.
Qed.
Lemma sample_kept : Forall kept_value [sample_document].
Proof.
  apply Forall_singleton. unfold sample_document. apply kept_dict.
  - cbn. repeat (apply NoDup_cons; split; [set_solver|]). apply NoDup_nil. done.
  - repeat apply Forall_cons_2; try apply Forall_nil_2; cbn; constructor. repeat apply Forall_cons_2; try apply Forall_nil_2; constructor; lia.
Qed.

Lemma archive_lossless_witness :
  exists b, encode_tables (build [sample_document] []) = Ok b /\
    (str_len b < 2 ^ 63 ->
     (forall rest, decode_tables (b +:+ rest) = Ok (build [sample_document] [], rest)) /\
     Forall (fun v => exists c, encode_value (build [sample_document] []) v = Ok c /\
       (str_len c < 2 ^ 63 -> forall rest, exists w, decode_value (build [sample_document] []) (c +:+ rest) = Ok (w, rest) /\ w ≡ v)) [sample_document]).
Proof. apply (archive_lossless [sample_document] []); [exact sample_strings|exact sample_kept]. Defined.

Lemma equal_documents_equal_bytes_witness :
  encode_value (build [VDict [("a", VInt 1); ("b", VNone)]] []) (VDict [("a", VInt 1); ("b", VNone)]) =
  encode_value (build [VDict [("a", VInt 1); ("b", VNone)]] []) (VDict [("b", VNone); ("a", VInt 1)]).
Proof.
  apply equal_documents_equal_bytes. apply same_dict.
  - cbn. repeat (apply NoDup_cons; split; [set_solver|]). by apply NoDup_nil.
  - cbn. repeat (apply NoDup_cons; split; [set_solver|]). by apply NoDup_nil.
  - intros key. unfold find_field. cbn [List.find fst]. destruct (String.eqb_spec "a" key) as [<-|Ha]; [cbn; constructor; constructor|].
    destruct (String.eqb "b" key); constructor; constructor.
Defined.

Lemma stamps_of_2004_to_2038_witness :
  encode_instant (rfc3339 (1000 * 1767323045678)) = Ok 1767323045678 /\ decode_instant 1767323045678 = Ok (rfc3339 (1000 * 1767323045678)).
Proof. apply stamps_of_2004_to_2038. split; reflexivity. Defined.
