(* ===== verification/Dicts.v ===== *)
(** * Dicts of JSON

    A decoded JSON object as the source reads it: [value[key]], the comparisons of a
    member with a constant, the keys of a dict as a set, and what the order of the
    fields does not change. *)

From S2P Require Export Rows Json.

(** [value[key]] of a key it has. *)
Definition member (key : string) (value : list (string * json)) : json := default JNull (find_field key value).

Definition is_null (v : json) : bool := match v with JNull => true | _ => false end.
(** [v == s] of a string or an integer. *)
Definition is_str (v : json) (s : string) : bool := match v with JStr t => String.eqb t s | _ => false end.
Definition is_int (v : json) (z : Z) : bool := match v with JInt n => n =? z | _ => false end.
(** [set(value) != fields] *)
Definition keys_differ (value : list (string * json)) (fields : list string) : bool :=
  negb (forallb (fun k => mem k fields) (fst <$> value) && forallb (fun k => mem k (fst <$> value)) fields).

(** Two lists of fields with the same keys and the same value under each are the same dict. *)
Lemma fields_perm (f g : list (string * json)) :
  NoDup (fst <$> f) -> NoDup (fst <$> g) -> (forall k, find_field k f = find_field k g) -> f ≡ₚ g.
Proof.
  intros Hf Hg He. assert (forall l l' : list (string * json), NoDup (fst <$> l) -> (forall k, find_field k l = find_field k l') -> forall p, p ∈ l -> p ∈ l') as Hin.
  { intros l l' Hl Hk [k v] Hp. apply find_field_in. rewrite <- Hk. by apply (find_field_found l (k, v)). }
  apply NoDup_Permutation; [by eapply NoDup_fmap_1|by eapply NoDup_fmap_1|]. intros p. split; [by apply Hin|]. by apply Hin.
Qed.

Lemma member_perm k (f g : list (string * json)) : NoDup (fst <$> f) -> f ≡ₚ g -> member k f = member k g.
Proof. intros Hn Hp. unfold member. by rewrite (find_field_perm k f g Hn Hp). Qed.
(** A dict that has the keys and the members of a record. *)
Lemma record_perm (fields record : list (string * json)) :
  NoDup (fst <$> fields) -> NoDup (fst <$> record) -> (forall k, k ∈ (fst <$> fields) <-> k ∈ (fst <$> record)) ->
  Forall (fun p => member p.1 fields = p.2) record -> fields ≡ₚ record.
Proof.
  intros Hf Hr Hk Hm. apply fields_perm; [done..|]. intros k. destruct (find_field k record) as [v|] eqn:E.
  - apply find_field_in in E. rewrite Forall_forall in Hm. specialize (Hm (k, v) E). cbn in Hm. unfold member in Hm.
    destruct (find_field k fields) as [x|] eqn:Ef; [cbn in Hm; by subst|]. apply find_field_none in Ef. destruct Ef. apply Hk. by apply (list_elem_of_fmap_2 fst _ (k, v)).
  - apply find_field_none in E. apply find_field_none. by rewrite Hk.
Qed.

Lemma is_null_true v : is_null v = true <-> v = JNull.
Proof. by destruct v. Qed.
Lemma is_str_true v s : is_str v s = true <-> v = JStr s.
Proof. destruct v; cbn; try (split; congruence). rewrite String.eqb_eq. split; congruence. Qed.
Lemma is_int_true v z : is_int v z = true <-> v = JInt z.
Proof. destruct v; cbn; try (split; congruence). rewrite Z.eqb_eq. split; congruence. Qed.
Lemma keys_differ_false value fields : keys_differ value fields = false <-> forall k, k ∈ (fst <$> value) <-> k ∈ fields.
Proof.
  unfold keys_differ. rewrite negb_false_iff, andb_true_iff, !forallb_forall. setoid_rewrite mem_spec. setoid_rewrite <- list_elem_of_In. naive_solver.
Qed.
