(* ===== verification/FaultAttribution.v ===== *)
(** * Attribution of deliberate faults

    fault_attribution.py of the control plane: a stimulus is a closed set of facts about
    an injected fault; the classifier attributes it to a layer and says whether it may
    count as a terminal observation of the target. *)

From S2P Require Export Dicts Bytes CleanText JsonRoundtrip.

Definition TOKEN : regex := DIGIT_TOKEN.
Definition INJECTION_POINTS : list string := ["adapter-process"; "evidence-storage"; "network-acquisition"; "target-invocation"; "worker-process"].
Definition CONTAINMENT_OUTCOMES : list string :=
  ["completed"; "cpu-time-limit"; "launch-failed"; "not-run"; "stderr-limit"; "stdout-limit"; "wall-time-limit"].
Definition PROTOCOL_CHECKPOINTS : list string := ["not-applicable"; "target-invocation-started"; "target-not-started"; "target-response-complete"].
Definition ADAPTER_RESPONSE_STATES : list string := ["malformed"; "missing"; "not-applicable"; "valid"].
Definition HEALTH_STATES : list string := ["healthy"; "unhealthy"; "unknown"].
Definition FAULT_STIMULUS_SCHEMA_VERSION : string := "deliberate-fault-stimulus.v1".
Definition FAULT_ASSESSMENT_SCHEMA_VERSION : string := "fault-attribution-assessment.v1".

Definition stimulus_fields : list string :=
  ["adapter_response_state"; "containment"; "environment_health_after"; "environment_health_before"; "fault_key"; "injection_point";
   "network_observation"; "protocol_checkpoint"; "schema_version"; "storage_observation"; "supervisor_health"].
Definition _require_enum (value : json) (allowed : list string) (label : string) : result string :=
  match value with
  | JStr s => raise_if (negb (mem s allowed)) (FaultAttributionError (label +:+ " is outside the closed vocabulary"));; Ok s
  | _ => Raise (FaultAttributionError (label +:+ " is outside the closed vocabulary"))
  end.
Definition did_not_run (outcome : string) : bool := mem outcome ["launch-failed"; "not-run"].

(** The guards on the containment fact. *)
Definition validate_containment (value : json) : result unit :=
  containment ← match value with
    | JObj containment =>
        raise_if (keys_differ containment ["exit_code"; "outcome"]) (FaultAttributionError "containment fact requires exact outcome and exit code");;
        Ok containment
    | _ => Raise (FaultAttributionError "containment fact requires exact outcome and exit code")
    end;
  outcome ← _require_enum (member "outcome" containment) CONTAINMENT_OUTCOMES "containment outcome";
  let exit_code := member "exit_code" containment in
  raise_if (match exit_code with JNull | JInt _ => false | _ => true end) (FaultAttributionError "containment exit code must be an integer or null");;
  raise_if (did_not_run outcome && negb (is_null exit_code)) (FaultAttributionError "a process that did not run cannot have an exit code");;
  raise_if (negb (did_not_run outcome) && is_null exit_code) (FaultAttributionError "a launched process requires an exit code").

Section Classifier.
Context `{PyTables} `{JCS}.

Definition validate_stimulus (value : json) : result unit :=
  value ← match value with
    | JObj value => raise_if (keys_differ value stimulus_fields) (FaultAttributionError "fault stimulus requires the exact bounded fact set");; Ok value
    | _ => Raise (FaultAttributionError "fault stimulus requires the exact bounded fact set")
    end;
  raise_if (negb (is_str (member "schema_version" value) FAULT_STIMULUS_SCHEMA_VERSION)) (FaultAttributionError "unsupported deliberate-fault stimulus schema");;
  raise_if (match member "fault_key" value with JStr key => negb (fullmatch TOKEN key) | _ => true end)
    (FaultAttributionError "fault key must be a canonical token");;
  _ ← _require_enum (member "injection_point" value) INJECTION_POINTS "injection point";
  _ ← _require_enum (member "protocol_checkpoint" value) PROTOCOL_CHECKPOINTS "protocol checkpoint";
  _ ← _require_enum (member "adapter_response_state" value) ADAPTER_RESPONSE_STATES "adapter response state";
  _ ← _require_enum (member "environment_health_before" value) HEALTH_STATES "pre-fault environment health";
  _ ← _require_enum (member "environment_health_after" value) HEALTH_STATES "post-fault environment health";
  _ ← _require_enum (member "supervisor_health" value) HEALTH_STATES "supervisor health";
  _ ← _require_enum (member "network_observation" value) ["none"; "transport-failed"] "network observation";
  _ ← _require_enum (member "storage_observation" value) ["none"; "publication-failed"] "storage observation";
  validate_containment (member "containment" value);;
  _ ← canonical_object value;
  Ok tt.

Definition _result (stimulus : list (string * json)) (outcome_class attribution_layer reason_code : string) (eligible : bool) : result (list (string * json)) :=
  '(_, digest) ← canonical_object stimulus;
  let result :=
    [("attribution_layer", JStr attribution_layer); ("c5_terminal_eligible", JBool eligible); ("canonical_authority", JBool false);
     ("completion_disposition", JStr (if eligible then "accepted-terminal-observation" else "inconclusive-attempt"));
     ("fault_key", member "fault_key" stimulus); ("logical_execution_satisfied", JBool eligible); ("normative_authority", JBool false);
     ("outcome_class", JStr outcome_class); ("reason_code", JStr reason_code); ("schema_version", JStr FAULT_ASSESSMENT_SCHEMA_VERSION);
     ("semantic_authority", JBool false); ("stimulus_sha256", JStr digest)] in
  _ ← canonical_object result;
  Ok result.

(** The facts that prove the target was invoked in a healthy environment and did not answer. *)
Definition target_proven (stimulus : list (string * json)) : bool :=
  is_str (member "injection_point" stimulus) "target-invocation" && is_str (member "protocol_checkpoint" stimulus) "target-invocation-started" &&
  is_str (member "adapter_response_state" stimulus) "missing" && is_str (member "environment_health_before" stimulus) "healthy" &&
  is_str (member "environment_health_after" stimulus) "healthy" && is_str (member "supervisor_health" stimulus) "healthy" &&
  is_str (member "network_observation" stimulus) "none" && is_str (member "storage_observation" stimulus) "none".

Definition classify_fault (value : json) : result (list (string * json)) :=
  validate_stimulus value;;
  let stimulus := match value with JObj stimulus => stimulus | _ => [] end in
  let point := member "injection_point" stimulus in
  let containment := match member "containment" stimulus with JObj containment => containment | _ => [] end in
  let malformed := is_str (member "adapter_response_state" stimulus) "malformed" in
  if is_str (member "storage_observation" stimulus) "publication-failed" then
    _result stimulus "storage-publication-failure" "storage" "publication-failed-before-evidence-commit" false
  else if is_str (member "network_observation" stimulus) "transport-failed" then
    _result stimulus "network-failure" "network" "transport-failed-before-target-invocation" false
  else if is_str point "worker-process" then
    _result stimulus "worker-failure" "worker" "worker-terminated-without-target-attribution" false
  else if malformed || is_str point "adapter-process" then
    _result stimulus "adapter-protocol-failure" "adapter-protocol" (if malformed then "malformed-adapter-response" else "adapter-process-terminated") false
  else if target_proven stimulus && is_str (member "outcome" containment) "wall-time-limit" then
    _result stimulus "target-timeout" "target" "verified-target-wall-time-limit" true
  else if target_proven stimulus && is_str (member "outcome" containment) "completed" &&
          match member "exit_code" containment with JInt exit_code => exit_code <? 0 | _ => false end then
    _result stimulus "target-crash" "target" "verified-target-signal" true
  else _result stimulus "inconclusive" "unknown" "insufficient-or-contradictory-attribution" false.

(** ** The reference faults *)

(** [{**common, ...}] with the facts that vary. *)
Definition reference_stimulus (fault_key point response outcome : string) (exit_code : option Z) (network checkpoint storage : string) : list (string * json) :=
  [("adapter_response_state", JStr response); ("containment", JObj [("exit_code", JOptInt exit_code); ("outcome", JStr outcome)]);
   ("environment_health_after", JStr "healthy"); ("environment_health_before", JStr "healthy"); ("network_observation", JStr network);
   ("protocol_checkpoint", JStr checkpoint); ("schema_version", JStr FAULT_STIMULUS_SCHEMA_VERSION); ("storage_observation", JStr storage);
   ("supervisor_health", JStr "healthy"); ("fault_key", JStr fault_key); ("injection_point", JStr point)].
Definition reference_values : list (list (string * json)) :=
  [reference_stimulus "adapter-process-crash" "adapter-process" "missing" "completed" (Some (-6)) "none" "target-not-started" "none";
   reference_stimulus "malformed-adapter-response" "adapter-process" "malformed" "completed" (Some 0) "none" "target-response-complete" "none";
   reference_stimulus "network-acquisition-failure" "network-acquisition" "not-applicable" "not-run" None "transport-failed" "not-applicable" "none";
   reference_stimulus "storage-publication-failure" "evidence-storage" "valid" "completed" (Some 0) "none" "target-response-complete" "publication-failed";
   reference_stimulus "target-process-crash" "target-invocation" "missing" "completed" (Some (-6)) "none" "target-invocation-started" "none";
   reference_stimulus "target-timeout" "target-invocation" "missing" "wall-time-limit" (Some (-15)) "none" "target-invocation-started" "none";
   reference_stimulus "worker-kill" "worker-process" "missing" "completed" (Some (-9)) "none" "target-not-started" "none"].
Definition fault_key_of (stimulus : list (string * json)) : string := match member "fault_key" stimulus with JStr key => key | _ => "" end.
Definition reference_stimuli : result (list (list (string * json))) :=
  let result := sorted_by fault_key_of reference_values in
  for_each result (fun item => validate_stimulus (JObj item));;
  Ok result.

Definition eligible_case (assessment : list (string * json)) : bool := match member "c5_terminal_eligible" assessment with JBool b => b | _ => false end.
Definition build_reference_report : result (list (string * json)) :=
  stimuli ← reference_stimuli;
  cases ← map_result (fun stimulus => assessment ← classify_fault (JObj stimulus); Ok (assessment, stimulus)) stimuli;
  let accepted := List.filter (fun c => eligible_case c.1) cases in
  let inconclusive := List.filter (fun c => negb (eligible_case c.1)) cases in
  let report :=
    [("cases", JArr ((fun c => JObj [("assessment", JObj c.1); ("stimulus", JObj c.2)]) <$> cases));
     ("classification", JObj [("normative_authority", JBool false); ("operational_qualification_only", JBool true); ("semantic_authority", JBool false)]);
     ("schema_version", JStr "fault-classification-report.v1");
     ("summary", JObj [("accepted_terminal_count", JInt (Z.of_nat (length accepted))); ("case_count", JInt (Z.of_nat (length cases)));
                       ("inconclusive_attempt_count", JInt (Z.of_nat (length inconclusive)))])] in
  _ ← canonical_object report;
  Ok report.
End Classifier.

(** ** What a stimulus says *)

Definition vocabularies : list (string * list string) :=
  [("injection_point", INJECTION_POINTS); ("protocol_checkpoint", PROTOCOL_CHECKPOINTS); ("adapter_response_state", ADAPTER_RESPONSE_STATES);
   ("environment_health_before", HEALTH_STATES); ("environment_health_after", HEALTH_STATES); ("supervisor_health", HEALTH_STATES);
   ("network_observation", ["none"; "transport-failed"]); ("storage_observation", ["none"; "publication-failed"])].

(** A containment fact: an exit code exactly for a process that ran. *)
Definition containment_fact (value : json) : Prop := exists containment outcome code,
  value = JObj containment /\ (forall k, k ∈ (fst <$> containment) <-> k ∈ ["exit_code"; "outcome"]) /\
  member "outcome" containment = JStr outcome /\ outcome ∈ CONTAINMENT_OUTCOMES /\
  member "exit_code" containment = JOptInt code /\ (code = None <-> outcome ∈ ["launch-failed"; "not-run"]).
(** The closed set of facts. *)
Record fault_facts (stimulus : list (string * json)) : Prop := {
  facts_keys : forall k, k ∈ (fst <$> stimulus) <-> k ∈ stimulus_fields;
  facts_version : member "schema_version" stimulus = JStr FAULT_STIMULUS_SCHEMA_VERSION;
  facts_key : exists key, member "fault_key" stimulus = JStr key /\ fullmatch TOKEN key = true;
  facts_vocabulary : Forall (fun p => exists v, member p.1 stimulus = JStr v /\ v ∈ p.2) vocabularies;
  facts_containment : containment_fact (member "containment" stimulus)
}.

(** The target was invoked, everything around it was healthy, nothing came back, and it was
    stopped at its time limit or killed by a signal. *)
Record target_observed (stimulus : list (string * json)) : Prop := {
  observed_invoked : member "injection_point" stimulus = JStr "target-invocation" /\
                     member "protocol_checkpoint" stimulus = JStr "target-invocation-started";
  observed_silent : member "adapter_response_state" stimulus = JStr "missing";
  observed_health : Forall (fun k => member k stimulus = JStr "healthy") ["environment_health_before"; "environment_health_after"; "supervisor_health"];
  observed_quiet : Forall (fun k => member k stimulus = JStr "none") ["network_observation"; "storage_observation"];
  observed_symptom : exists containment, member "containment" stimulus = JObj containment /\
    (member "outcome" containment = JStr "wall-time-limit" \/
     member "outcome" containment = JStr "completed" /\ exists code, member "exit_code" containment = JInt code /\ code < 0)
}.

Lemma require_enum_ok value allowed label s : _require_enum value allowed label = Ok s <-> value = JStr s /\ s ∈ allowed.
Proof.
  destruct value as [| | | |t| |]; cbn; try (split; [done|by intros [? _]]).
  rewrite bind_unit_ok, raise_if_ok, negb_false_iff, mem_spec. split; [intros [Ht [= <-]]; done|intros [[= <-] Hs]; done].
Qed.
Lemma require_enum_unit {A} value allowed label (m : result A) a :
  (_ ← _require_enum value allowed label; m) = Ok a <-> (exists v, value = JStr v /\ v ∈ allowed) /\ m = Ok a.
Proof.
  split.
  - intros (s & Hs%require_enum_ok & Hm)%bind_ok. split; [by exists s|done].
  - intros [(s & Hs%(require_enum_ok _ _ label)) Hm]. by rewrite Hs.
Qed.

Lemma did_not_run_true outcome : did_not_run outcome = true <-> outcome ∈ ["launch-failed"; "not-run"].
Proof. apply mem_spec. Qed.
Lemma validate_containment_ok value : validate_containment value = Ok tt <-> containment_fact value.
Proof.
  unfold validate_containment, containment_fact. split.
  - intros (c & Hc & (o & [Ho Hin]%require_enum_ok & [Ht%raise_if_ok [Hr%raise_if_ok Hl%raise_if_ok]%bind_unit_ok]%bind_unit_ok)%bind_ok)%bind_ok.
    destruct value as [| | | | | |fields]; try discriminate. apply bind_unit_ok in Hc as [Hk%raise_if_ok [= <-]]. pose proof (proj1 (keys_differ_false _ _) Hk) as Hkeys.
    destruct (member "exit_code" fields) as [| |z| | | |] eqn:E; try discriminate; cbn [is_null] in *.
    + exists fields, o, None. split_and!; try done. split; [intros _|done]. rewrite <- did_not_run_true. destruct (did_not_run o); done.
    + exists fields, o, (Some z). split_and!; try done. split; [done|]. rewrite <- did_not_run_true. destruct (did_not_run o); done.
  - intros (c & o & code & -> & Hk & Ho & Hin & Hcode & Hiff). rewrite (proj2 (keys_differ_false _ _) Hk). cbn [raise_if mbind result_bind].
    rewrite (proj2 (require_enum_ok _ _ _ _) (conj Ho Hin)). cbn [mbind result_bind]. rewrite Hcode. rewrite <- did_not_run_true in Hiff.
    destruct code as [z|], (did_not_run o); cbn; naive_solver.
Qed.

Section Proofs.
Context `{JCSLaws} `{PyTables}.

Lemma validate_stimulus_ok value :
  validate_stimulus value = Ok tt <-> exists stimulus, value = JObj stimulus /\ fault_facts stimulus /\ exists r, canonical_object stimulus = Ok r.
Proof.
  unfold validate_stimulus. split.
  - intros (s & Hs & Hv)%bind_ok. destruct value as [| | | | | |fields]; try discriminate.
    apply bind_unit_ok in Hs as [Hk%raise_if_ok [= <-]]. pose proof (proj1 (keys_differ_false _ _) Hk) as Hkeys. exists fields. split; [done|].
    apply bind_unit_ok in Hv as [Hver%raise_if_ok Hv]. apply bind_unit_ok in Hv as [Hkey%raise_if_ok Hv].
    rewrite !require_enum_unit in Hv. destruct Hv as (V1 & V2 & V3 & V4 & V5 & V6 & V7 & V8 & Hv).
    apply bind_unit_ok in Hv as [Hc%validate_containment_ok Hv]. apply bind_ok in Hv as (r & Hr & _). split; [|by exists r].
    split; [done|by apply negb_false_iff, is_str_true in Hver| |by repeat (constructor; [assumption|])|done].
    destruct (member "fault_key" fields); try discriminate. eexists. split; [done|]. by apply negb_false_iff in Hkey.
  - intros (s & -> & [Hk Hver (key & Hkey & Htok) Hvoc Hc] & r & Hr). rewrite (proj2 (keys_differ_false _ _) Hk). cbn [raise_if mbind result_bind].
    rewrite (proj2 (is_str_true _ _) Hver), Hkey, Htok. cbn [raise_if negb mbind result_bind].
    unfold vocabularies in Hvoc. rewrite !Forall_cons in Hvoc. cbn [fst snd] in Hvoc. rewrite !require_enum_unit. split_and!; try apply Hvoc.
    rewrite (proj2 (validate_containment_ok _) Hc), Hr. done.
Qed.

(** Valid facts hold no credentials. *)
Lemma facts_clean stimulus : plain (JObj stimulus) -> fault_facts stimulus -> clean (JObj stimulus).
Proof.
  intros Hp [Hk Hver (key & Hkey & Htok) Hvoc (c & o & code & Hcont & Hck & Ho & Hin & Hcode & _)]. inversion Hp as [| | | | |? Hnd Hpl]; subst.
  assert (forall fields k v, NoDup (fst <$> fields) -> (k, v) ∈ fields -> v = member k fields) as Hmem.
  { intros fields k v Hn Hkv. unfold member. pose proof (find_field_found fields (k, v) Hn Hkv) as Hf. cbn in Hf. by rewrite Hf. }
  rewrite Forall_forall in Hpl. constructor. apply Forall_forall. intros [k v] Hkv. cbn [fst snd]. pose proof (Hmem _ _ _ Hnd Hkv) as Hv. specialize (Hpl _ Hkv). cbn in Hpl.
  pose proof (proj1 (Hk k) (list_elem_of_fmap_2 fst _ (k, v) Hkv)) as Hf. unfold vocabularies in Hvoc. rewrite !Forall_cons in Hvoc. cbn [fst snd] in Hvoc.
  destruct Hvoc as ((v1 & E1 & I1) & (v2 & E2 & I2) & (v3 & E3 & I3) & (v4 & E4 & I4) & (v5 & E5 & I5) & (v6 & E6 & I6) & (v7 & E7 & I7) & (v8 & E8 & I8) & _).
  clear Hkv. unfold stimulus_fields in Hf. repeat (apply elem_of_cons in Hf as [->|Hf]; [split; [by vm_compute|]|]); [..|by apply elem_of_nil in Hf];
    rewrite ?E1, ?E2, ?E3, ?E4, ?E5, ?E6, ?E7, ?E8, ?Hver, ?Hkey in Hv; subst v;
    try (eapply member_clean; [eassumption|by repeat constructor]); [|eapply pattern_clean; [|exact Htok]; by vm_compute|by apply identifier_clean; vm_compute].
  rewrite Hcont in Hpl |- *. inversion Hpl as [| | | | |? Hcn Hcp]; subst. rewrite Forall_forall in Hcp. constructor. apply Forall_forall. intros [k v] Hkv.
  cbn [fst snd]. pose proof (Hmem _ _ _ Hcn Hkv) as Hv. specialize (Hcp _ Hkv). cbn in Hcp. pose proof (proj1 (Hck k) (list_elem_of_fmap_2 fst _ (k, v) Hkv)) as Hf.
  clear Hkv. repeat (apply elem_of_cons in Hf as [->|Hf]; [split; [by vm_compute|]|]); [..|by apply elem_of_nil in Hf]; rewrite ?Ho, ?Hcode in Hv; subst v.
  - destruct code; [inversion Hcp; by constructor|constructor].
  - eapply member_clean; [exact Hin|]. by repeat constructor.
Qed.

(** The members of a result. *)
Lemma result_members stimulus outcome_class layer reason eligible text :
  canonical_object stimulus = Ok (text, sha256 text) -> (exists key, member "fault_key" stimulus = JStr key /\ fullmatch TOKEN key = true) ->
  Forall (fun s => str_forallb identifier_char s = true) [outcome_class; layer; reason] ->
  exists a, _result stimulus outcome_class layer reason eligible = Ok a /\ member "fault_key" a = member "fault_key" stimulus /\
    member "attribution_layer" a = JStr layer /\ member "c5_terminal_eligible" a = JBool eligible /\ member "stimulus_sha256" a = JStr (sha256 text) /\
    member "completion_disposition" a = JStr (if eligible then "accepted-terminal-observation" else "inconclusive-attempt").
Proof.
  intros Hc (key & Hkey & Htok) Hid. rewrite !Forall_cons in Hid. destruct Hid as (I1 & I2 & I3 & _). unfold _result. rewrite Hc. cbn [mbind result_bind]. rewrite Hkey.
  set (d := sha256 text). assert (fullmatch SHA256_PATTERN d = true) as Hd by apply Sha256.hexdigest_pattern. clearbody d.
  match goal with |- context [canonical_object ?o] => destruct (canonical_object_total o) as (t & Ht) end.
  - clean_object; first [apply clean_bool|by apply identifier_clean|by apply digest_clean|eapply pattern_clean; [|exact Htok]; by vm_compute|by destruct eligible; apply identifier_clean; vm_compute].
  - plain_object; constructor.
  - rewrite Ht. eexists. split; [done|]. split_and!; done.
Qed.

Lemma target_proven_true s : target_proven s = true <->
  (member "injection_point" s = JStr "target-invocation" /\ member "protocol_checkpoint" s = JStr "target-invocation-started") /\
  member "adapter_response_state" s = JStr "missing" /\
  Forall (fun k => member k s = JStr "healthy") ["environment_health_before"; "environment_health_after"; "supervisor_health"] /\
  Forall (fun k => member k s = JStr "none") ["network_observation"; "storage_observation"].
Proof. unfold target_proven. rewrite !andb_true_iff, !is_str_true, !Forall_cons, !Forall_nil. tauto. Qed.
Lemma symptom_exact containment :
  is_str (member "outcome" containment) "wall-time-limit" ||
    is_str (member "outcome" containment) "completed" && match member "exit_code" containment with JInt exit_code => exit_code <? 0 | _ => false end = true <->
  member "outcome" containment = JStr "wall-time-limit" \/
  member "outcome" containment = JStr "completed" /\ exists code, member "exit_code" containment = JInt code /\ code < 0.
Proof.
  rewrite orb_true_iff, andb_true_iff, !is_str_true. apply or_iff_compat_l, and_iff_compat_l.
  destruct (member "exit_code" containment); try (split; [done|by intros (? & ? & _)]). rewrite Z.ltb_lt. split; [eauto|]. by intros (? & [= ->] & ?).
Qed.

Ltac classified Hiff := do 4 eexists; split; [reflexivity|]; split; [clear -Hiff; intuition congruence|split; [split; congruence|repeat first [constructor|case_match]]].
(** What the classifier answers, and that only an observation of the target is attributed to it. *)
Lemma classify_cases stimulus :
  fault_facts stimulus -> (exists r, canonical_object stimulus = Ok r) -> exists outcome_class layer reason eligible,
    classify_fault (JObj stimulus) = _result stimulus outcome_class layer reason eligible /\
    (eligible = true <-> target_observed stimulus) /\ (layer = "target" <-> eligible = true) /\
    Forall (fun s => str_forallb identifier_char s = true) [outcome_class; layer; reason].
Proof.
  intros Hf Hr. assert (validate_stimulus (JObj stimulus) = Ok tt) as Hv by (apply validate_stimulus_ok; eauto).
  destruct (facts_containment _ Hf) as (c & _ & _ & Hc & _). unfold classify_fault. rewrite Hv. cbn [mbind result_bind]. cbv zeta. rewrite Hc.
  assert (target_observed stimulus <-> target_proven stimulus = true /\
    (member "outcome" c = JStr "wall-time-limit" \/ member "outcome" c = JStr "completed" /\ exists code, member "exit_code" c = JInt code /\ code < 0)) as Hiff.
  { rewrite target_proven_true. split.
    - intros [Hi Hs Hh Hq (c' & Hc' & Hsym)]. rewrite Hc in Hc'. injection Hc' as <-. done.
    - intros [(Hi & Hs & Hh & Hq) Hsym]. split; try done. by exists c. }
  rewrite <- symptom_exact in Hiff. set (crash := match member "exit_code" c with JInt exit_code => exit_code <? 0 | _ => false end) in *. clearbody crash.
  set (wall := is_str (member "outcome" c) "wall-time-limit") in *. set (completed := is_str (member "outcome" c) "completed") in *. clearbody wall completed.
  destruct (target_proven stimulus) eqn:Hp.
  - apply target_proven_true in Hp as ([Hi Hcp] & Hs & Hh & Hq). rewrite !Forall_cons in Hq. destruct Hq as (Hn & Hst & _).
    assert (is_str (member "storage_observation" stimulus) "publication-failed" = false /\ is_str (member "network_observation" stimulus) "transport-failed" = false /\
      is_str (member "injection_point" stimulus) "worker-process" = false /\ is_str (member "injection_point" stimulus) "adapter-process" = false /\
      is_str (member "adapter_response_state" stimulus) "malformed" = false) as (-> & -> & -> & -> & ->) by (by rewrite Hst, Hn, Hi, Hs).
    destruct wall; [|destruct completed, crash]; cbn [andb orb] in Hiff |- *; classified Hiff.
  - cbn [andb]. repeat (case_match; [classified Hiff|]). classified Hiff.
Qed.

(** C22: the classifier answers exactly the stimuli that are a closed, consistent set of facts, and its answer
    names the stimulus by key and digest. A fault is attributed to the target, counts as a terminal observation and
    satisfies the logical execution exactly when the target was invoked in a healthy environment, nothing came back,
    storage and network were quiet, and it was stopped at its wall-time limit or killed by a signal; every other fault
    is an inconclusive attempt. *)
Theorem attribution_exact stimulus :
  plain (JObj stimulus) ->
  ((exists a, classify_fault (JObj stimulus) = Ok a) <-> fault_facts stimulus) /\
  forall a, classify_fault (JObj stimulus) = Ok a ->
    member "fault_key" a = member "fault_key" stimulus /\
    (exists text, jcs_dumps (JObj stimulus) = Some text /\ member "stimulus_sha256" a = JStr (sha256 text)) /\
    (member "attribution_layer" a = JStr "target" <-> target_observed stimulus) /\
    (member "c5_terminal_eligible" a = JBool true <-> target_observed stimulus) /\
    (member "completion_disposition" a = JStr "inconclusive-attempt" <-> ~ target_observed stimulus).
Proof.
  intros Hp. assert (forall a, classify_fault (JObj stimulus) = Ok a -> fault_facts stimulus) as Hfacts.
  { intros a Ha. unfold classify_fault in Ha. apply bind_unit_ok in Ha as [Hv _]. apply validate_stimulus_ok in Hv as (s & [= <-] & Hf & _). done. }
  assert (fault_facts stimulus -> exists text, canonical_object stimulus = Ok (text, sha256 text)) as Hcan.
  { intros Hf. by apply canonical_object_total; [apply facts_clean|]. }
  assert (fault_facts stimulus -> exists a, classify_fault (JObj stimulus) = Ok a /\ member "fault_key" a = member "fault_key" stimulus /\
    exists text layer eligible, canonical_object stimulus = Ok (text, sha256 text) /\ (eligible = true <-> target_observed stimulus) /\ (layer = "target" <-> eligible = true) /\
      member "attribution_layer" a = JStr layer /\ member "c5_terminal_eligible" a = JBool eligible /\ member "stimulus_sha256" a = JStr (sha256 text) /\
      member "completion_disposition" a = JStr (if eligible then "accepted-terminal-observation" else "inconclusive-attempt")) as Hall.
  { intros Hf. destruct (Hcan Hf) as (text & Ht). destruct (classify_cases stimulus Hf) as (oc & layer & reason & e & -> & He & Hl & Hid); [by eauto|].
    destruct (result_members stimulus oc layer reason e text Ht (facts_key _ Hf) Hid) as (a & Ha & Hk & Hm). exists a. do 2 (split; [done|]). by exists text, layer, e. }
  split; [split; [by intros (a & Ha%Hfacts)|]|].
  - intros Hf. destruct (Hall Hf) as (a & Ha & _). by exists a.
  - intros a Ha. destruct (Hall (Hfacts _ Ha)) as (a' & Ha' & Hk & text & layer & e & Ht & He & Hl & M1 & M2 & M3 & M4).
    rewrite Ha in Ha'. injection Ha' as <-. rewrite M1, M2, M3, M4. split; [done|]. split.
    + exists text. split; [|done]. unfold canonical_object in Ht. apply bind_ok in Ht as (t & Ht & [= -> _]). by apply canonical_json_clean in Ht as [_ ?].
    + rewrite <- He. split_and!; [rewrite <- Hl; naive_solver|naive_solver|destruct e; naive_solver].
Qed.
End Proofs.

(** ** The reference faults *)
Module FaultSample.

#[local] Instance sample_jcs : JCS := reference_jcs.
#[local] Instance sample_tables : PyTables := ascii_tables.
#[local] Instance sample_float : PyFloat := fun _ => SpecFloat.S754_nan.

(** The report of the reference faults: two of the seven are observations of the target. *)
Definition reported : list (string * json) := Eval vm_compute in match build_reference_report with Ok report => report | Raise _ => [] end.
Lemma reference_report :
  build_reference_report = Ok reported /\
  member "summary" reported = JObj [("accepted_terminal_count", JInt 2); ("case_count", JInt 7); ("inconclusive_attempt_count", JInt 5)].
Proof. split; vm_compute; reflexivity. Qed.

Definition timeout : list (string * json) :=
  reference_stimulus "target-timeout" "target-invocation" "missing" "wall-time-limit" (Some (-15)) "none" "target-invocation-started" "none".
Definition attributed : list (string * json) := Eval vm_compute in match classify_fault (JObj timeout) with Ok a => a | Raise _ => [] end.

Lemma attribution_exact_witness :
  plain (JObj timeout) /\ fault_facts timeout /\ target_observed timeout /\ classify_fault (JObj timeout) = Ok attributed.
Proof.
  assert (plain (JObj timeout)) as Hp.
  { repeat first [apply plain_obj; [apply (bool_decide_unpack _); vm_compute; exact I|] | apply plain_str | apply plain_int; unfold SAFE_INTEGER_MAX; lia
                 | apply Forall_nil_2 | apply Forall_cons_2; cbn [fst snd]]. }
  assert (classify_fault (JObj timeout) = Ok attributed) as Ha by (vm_compute; reflexivity).
  destruct (attribution_exact timeout Hp) as [[Hf _] Hall]. destruct (Hall attributed Ha) as (_ & _ & _ & Hobs & _).
  split; [exact Hp|]. split; [apply Hf; exists attributed; exact Ha|]. split; [|exact Ha]. apply Hobs. reflexivity.
Defined.
End FaultSample.
