(* ===== verification/TypedIds.v ===== *)
(** * Typed identifiers

    formats.py of the schema tooling and the identifiers of its identity.py: the grammar
    of assigned (UUIDv7) and content-addressed identifiers, the registry of namespaces,
    the generator and the guard against digest collisions.  [uuid.UUID] and [int(_, 16)]
    are modelled as far as they are used.  No group of the two patterns of identifiers
    admits a colon, so the groups are the pieces between colons ([rcid_groups_exact],
    [opid_groups_exact]). *)

From S2P Require Export ConformanceJson Rows Bytes CleanText.

(** ** formats.py *)

Definition NAMESPACE_PATTERN : regex := TOKEN_PATTERN.
Definition core_number : regex := RAlt (RLit "0") (RSeq (RClass [("1", "9")]%char) (RStar (RClass [("0", "9")]%char))).
Definition SEMVER_PATTERN : regex := RSeq core_number (RSeq (RLit ".") (RSeq core_number (RSeq (RLit ".") core_number))).
Definition DIGEST_PATTERN : regex := RSeq (RAlt (RLit "sha256:") REps) (RRepeat 64 hexd).
Definition uuid_text : regex := RRepeat 36 (RClass [("0", "9"); ("a", "f"); ("-", "-")]%char).
Definition RCID_PATTERN : regex :=
  RSeq (RLit "rcid:v1:") (RSeq NAMESPACE_PATTERN (RSeq (RLit ":")
    (RAlt (RSeq (RLit "u7:") uuid_text) (RSeq (RLit "h:") (RSeq NAMESPACE_PATTERN (RSeq (RLit ":") (RRepeat 64 hexd))))))).
Definition OPID_PATTERN : regex := RSeq (RLit "opid:v1:") (RSeq NAMESPACE_PATTERN (RSeq (RLit ":u7:") uuid_text)).

(** The groups of a match: the namespace, and the UUID or the policy and the digest. *)
Definition rcid_groups (s : string) : option (string * (string + string * string)) :=
  match split_on ":" s with
  | [scheme; version; namespace; mode; uuid] =>
      if String.eqb scheme "rcid" && String.eqb version "v1" && fullmatch NAMESPACE_PATTERN namespace && String.eqb mode "u7" && fullmatch uuid_text uuid
      then Some (namespace, inl uuid) else None
  | [scheme; version; namespace; mode; policy; digest] =>
      if String.eqb scheme "rcid" && String.eqb version "v1" && fullmatch NAMESPACE_PATTERN namespace && String.eqb mode "h" &&
         fullmatch NAMESPACE_PATTERN policy && fullmatch SHA256_PATTERN digest
      then Some (namespace, inr (policy, digest)) else None
  | _ => None
  end.
Definition opid_groups (s : string) : option (string * string) :=
  match split_on ":" s with
  | [scheme; version; namespace; mode; uuid] =>
      if String.eqb scheme "opid" && String.eqb version "v1" && fullmatch NAMESPACE_PATTERN namespace && String.eqb mode "u7" && fullmatch uuid_text uuid
      then Some (namespace, uuid) else None
  | _ => None
  end.

(** ** [uuid.UUID(text)] *)

(** [s.replace(pat, "")]: a match is skipped, the search goes on behind it. *)
Fixpoint remove_all (pat s : string) (skip : nat) : string :=
  match s with
  | EmptyString => ""
  | String c s' =>
      match skip with
      | S skip => remove_all pat s' skip
      | O => if str_startswith s pat then remove_all pat s' (pred (String.length pat)) else String c (remove_all pat s' 0)
      end
  end.
Definition str_reverse (s : string) : string := string_of_list_ascii (rev (list_ascii_of_string s)).
Definition strip (p : ascii -> bool) (s : string) : string := str_reverse (lstrip p (str_reverse (lstrip p s))).

Definition hex_value (c : ascii) : option Z :=
  if is_digit c then Some (code c - 48) else if (97 <=? code c) && (code c <=? 102) then Some (code c - 87)
  else if (65 <=? code c) && (code c <=? 70) then Some (code c - 55) else None.
(** Digits with single underscores between them; [digit]: the last character was one. *)
Fixpoint hex_digits (digit : bool) (n : Z) (s : string) : option Z :=
  match s with
  | EmptyString => if digit then Some n else None
  | String c s =>
      if Ascii.eqb c "_" then (if digit then hex_digits false n s else None)
      else d ← hex_value c; hex_digits true (16 * n + d) s
  end.
(** [int(s, 16)] of a text without minus signs; ASCII texts have fewer spaces. *)
Definition int_16 (s : string) : option Z :=
  let ascii_text := str_forallb (fun c => code c <? 128) s in
  let space (c : ascii) := if ascii_text then ((9 <=? code c) && (code c <=? 13)) || (code c =? 32) else is_space (code c) in
  let s := strip space s in
  let s := match s with String "+" s' => s' | _ => s end in
  match s with
  | String "0" (String x s') =>
      if contains_char x "xX" then hex_digits false 0 (match s' with String "_" s'' => s'' | _ => s' end) else hex_digits false 0 s
  | _ => hex_digits false 0 s
  end.
Definition uuid_of_text (text : string) : option Z :=
  let hex := remove_all "uuid:" (remove_all "urn:" text 0) 0 in
  let hex := remove_chars (Ascii.eqb "-") (strip (fun c => contains_char c "{}") hex) in
  if str_len hex =? 32 then int_16 hex else None.
(** [parsed.variant == uuid.RFC_4122] and [parsed.version], which needs that variant. *)
Definition variant_rfc (n : Z) : bool := Z.testbit n 63 && negb (Z.testbit n 62).
Definition uuid_version (n : Z) : option Z := if variant_rfc n then Some (Z.land (Z.shiftr n 76) 15) else None.

(** ** identity.py *)

Definition HASH_POLICY : string := "jcs-sha256-v1".
Record ParsedIdentifier := { pi_scheme : string; pi_namespace : string; pi_mode : string; pi_payload : string }.

Definition _validate_uuid7 (value : string) : result unit :=
  match uuid_of_text value with
  | None => fail "invalid-uuid"
  | Some parsed =>
      if negb (String.eqb (uuid_str parsed) value) || negb (bool_decide (uuid_version parsed = Some 7)) || negb (variant_rfc parsed)
      then fail "invalid-uuid7" else Ok tt
  end.
Definition parse_identifier (identifier : string) : result ParsedIdentifier :=
  match rcid_groups identifier with
  | Some (namespace, inl uuid) =>
      _validate_uuid7 uuid;; Ok {| pi_scheme := "rcid"; pi_namespace := namespace; pi_mode := "u7"; pi_payload := uuid |}
  | Some (namespace, inr (policy, digest)) =>
      Ok {| pi_scheme := "rcid"; pi_namespace := namespace; pi_mode := "h"; pi_payload := policy +:+ ":" +:+ digest |}
  | None =>
      match opid_groups identifier with
      | Some (namespace, uuid) =>
          _validate_uuid7 uuid;; Ok {| pi_scheme := "opid"; pi_namespace := namespace; pi_mode := "u7"; pi_payload := uuid |}
      | None => fail "invalid-identifier"
      end
  end.

(** The loaded record: the namespaces of each mode of each scheme, and the hash policies. *)
Record NamespaceRegistry := { rg_record : list (string * list (string * list string)); rg_hash_policies : list string }.
Definition permits (self : NamespaceRegistry) (scheme mode namespace : string) : bool :=
  mem namespace (default [] (find_field mode (default [] (find_field scheme (rg_record self))))).
Definition validate (self : NamespaceRegistry) (identifier : string) : result ParsedIdentifier :=
  parsed ← parse_identifier identifier;
  raise_if (negb (permits self (pi_scheme parsed) (pi_mode parsed) (pi_namespace parsed))) (ConformanceDataError "unregistered-namespace");;
  raise_if (String.eqb (pi_mode parsed) "h" && negb (mem (before ":" (pi_payload parsed)) (rg_hash_policies self)))
    (ConformanceDataError "unregistered-hash-policy");;
  Ok parsed.

(** [int(time.time() * 1000)] and [secrets.randbits(bits)] *)
Class IdSource (W : Type) := { time_ms : eff W Z; randbits : Z -> eff W Z }.

Section Generator.
Context `{IdSource W}.

(** [uuid7()], as text *)
Definition uuid7 : eff W string :=
  stamp ← time_ms;
  _ ← lift (raise_if (negb ((0 <=? stamp) && (stamp <? 2 ^ 48))) (ConformanceDataError "invalid-uuid7-time"));
  random_a ← randbits 12;
  random_b ← randbits 62;
  mret (uuid_str (uuid7_int stamp random_a random_b)).
Definition generate_assigned_id (registry : NamespaceRegistry) (scheme namespace : string) : eff W string :=
  _ ← lift (raise_if (negb (mem scheme ["rcid"; "opid"])) (ConformanceDataError "invalid-id-scheme");;
            raise_if (negb (permits registry scheme "u7" namespace)) (ConformanceDataError "unregistered-namespace"));
  uuid ← uuid7;
  mret (scheme +:+ ":v1:" +:+ namespace +:+ ":u7:" +:+ uuid).
End Generator.

(** *** The guard against collisions *)

Record CollisionGuard := { cg_observations : gmap string bytes; cg_quarantined : gset string }.
Definition observe (content_id : string) (canonical : bytes) : eff CollisionGuard unit := fun self =>
  if match cg_observations self !! content_id with Some previous => negb (String.eqb previous canonical) | None => false end then
    (fail "digest-collision", {| cg_observations := cg_observations self; cg_quarantined := {[content_id]} ∪ cg_quarantined self |})
  else (Ok tt, {| cg_observations := <[content_id := canonical]> (cg_observations self); cg_quarantined := cg_quarantined self |}).

(** ** Reading UUIDs back *)

Lemma hexw_app a b z : hexw (a + b) z = hexw a (Z.shiftr z (4 * Z.of_nat b)) +:+ hexw b z.
Proof.
  induction a as [|a IH]; [done|]. cbn [Nat.add hexw String.append]. rewrite IH. do 3 f_equal. rewrite Z.shiftr_shiftr by lia. do 2 f_equal. lia.
Qed.
Definition hex_text : string -> bool := str_forallb (fun c => in_class c [("0", "9"); ("a", "f")]%char).
Lemma hexw_text w z : hex_text (hexw w z) = true.
Proof. apply str_forallb_hexw, hex_char_in_class. Qed.
Lemma hex_value_char d : 0 <= d < 16 -> hex_value (hex_char d) = Some d.
Proof.
  intros Hd. unfold hex_value. pose proof (hex_char_code d Hd) as Hc. unfold is_digit. rewrite Hc.
  destruct (Z.ltb_spec d 10); repeat case_match; f_equal; lia.
Qed.
Lemma hex_char_not_underscore d : 0 <= d < 16 -> Ascii.eqb (hex_char d) "_" = false.
Proof.
  intros Hd. apply Ascii.eqb_neq. intros He. pose proof (hex_char_code d Hd) as Hc. rewrite He in Hc. change (code "_") with 95 in Hc. destruct (d <? 10) eqn:E; lia.
Qed.
Lemma hex_digits_hexw w z digit m : (digit = true \/ w <> O) -> hex_digits digit m (hexw w z) = Some (m * 16 ^ Z.of_nat w + z mod 16 ^ Z.of_nat w).
Proof.
  revert digit m. induction w as [|w IH]; intros digit m Hd.
  - destruct Hd as [->|]; [|done]. cbn. f_equal. rewrite Z.mod_1_r. lia.
  - cbn [hexw hex_digits]. pose proof (land_15_bounds (Z.shiftr z (4 * Z.of_nat w))) as Hb. rewrite hex_char_not_underscore, hex_value_char by done.
    cbn [mbind option_bind]. rewrite IH by by left. f_equal. rewrite land_15_mod, Z.shiftr_div_pow2 by lia.
    replace (2 ^ (4 * Z.of_nat w)) with (16 ^ Z.of_nat w) by (rewrite (Z.pow_mul_r 2 4) by lia; done).
    replace (16 ^ Z.of_nat (S w)) with (16 ^ Z.of_nat w * 16) by (rewrite Nat2Z.inj_succ, Z.pow_succ_r by lia; lia).
    rewrite (Z.rem_mul_r z) by (apply Z.pow_nonzero || lia; lia). lia.
Qed.

(** Characters of hexadecimal digits and dashes are left alone. *)
Definition uuid_char (c : ascii) : bool := in_class c [("0", "9"); ("a", "f"); ("-", "-")]%char.
Lemma remove_all_none pat s : (forall n, str_startswith (str_drop n s) pat = false) -> remove_all pat s 0 = s.
Proof.
  induction s as [|c s IH]; intros Hp; cbn [remove_all]; [done|]. rewrite (Hp O : str_startswith (String c s) pat = false). f_equal.
  apply IH. intros n. apply (Hp (S n)).
Qed.
Lemma str_forallb_drop p n s : str_forallb p s = true -> str_forallb p (str_drop n s) = true.
Proof. revert n. induction s as [|c s IH]; intros [|n]; cbn; try done. intros [_ Hs]%andb_true_iff. by apply IH. Qed.
Lemma startswith_outside p c pat s : str_forallb p s = true -> p c = false -> str_startswith s (String c pat) = false.
Proof.
  unfold str_startswith. destruct s as [|d s]; [done|]. intros [Hd _]%andb_true_iff Hc. cbn. destruct (ascii_dec c d) as [->|]; [congruence|done].
Qed.
Lemma remove_all_outside p c pat s : str_forallb p s = true -> p c = false -> remove_all (String c pat) s 0 = s.
Proof. intros Hs Hc. apply remove_all_none. intros n. eapply startswith_outside; [by apply str_forallb_drop|done]. Qed.

Lemma list_of_reverse s : list_ascii_of_string (str_reverse s) = rev (list_ascii_of_string s).
Proof. unfold str_reverse. by rewrite list_ascii_of_string_of_list_ascii. Qed.
Lemma str_forallb_list p s : str_forallb p s = forallb p (list_ascii_of_string s).
Proof. induction s as [|c s IH]; cbn; [done|]. by rewrite IH. Qed.
Lemma str_forallb_reverse p s : str_forallb p (str_reverse s) = str_forallb p s.
Proof. rewrite !str_forallb_list, list_of_reverse. apply eq_bool_prop_intro. rewrite !Is_true_true, !forallb_forall. setoid_rewrite <- in_rev. done. Qed.
Lemma str_reverse_involutive s : str_reverse (str_reverse s) = s.
Proof. unfold str_reverse at 1. by rewrite list_of_reverse, rev_involutive, string_of_list_ascii_of_string. Qed.
Lemma lstrip_none p q s : (forall c, q c = true -> p c = false) -> str_forallb q s = true -> lstrip p s = s.
Proof. intros Hpq. destruct s as [|c s]; [done|]. cbn. intros [Hc _]%andb_true_iff. by rewrite (Hpq c Hc). Qed.
Lemma strip_none p q s : (forall c, q c = true -> p c = false) -> str_forallb q s = true -> strip p s = s.
Proof.
  intros Hpq Hs. unfold strip. rewrite (lstrip_none p q s) by done. rewrite (lstrip_none p q) by (done || by rewrite str_forallb_reverse). apply str_reverse_involutive.
Qed.

Lemma remove_chars_app p s t : remove_chars p (s +:+ t) = remove_chars p s +:+ remove_chars p t.
Proof. induction s as [|c s IH]; cbn; [done|]. destruct (p c); cbn; by rewrite IH. Qed.
Lemma remove_chars_none p q s : (forall c, q c = true -> p c = false) -> str_forallb q s = true -> remove_chars p s = s.
Proof. intros Hpq. induction s as [|c s IH]; cbn; [done|]. intros [Hc Hs]%andb_true_iff. rewrite (Hpq c Hc). f_equal. by apply IH. Qed.

Lemma hexw_dashes w z : remove_chars (Ascii.eqb "-") (hexw w z) = hexw w z.
Proof. eapply remove_chars_none; [|apply hexw_text]. intros c Hc. by destruct c as [[][][][][][][][]]. Qed.
Lemma uuid_str_hex n : remove_chars (Ascii.eqb "-") (uuid_str n) = hexw 32 n.
Proof.
  unfold uuid_str. repeat (rewrite remove_chars_app; rewrite ?hexw_dashes). cbn [remove_chars Ascii.eqb Bool.eqb String.append].
  change 32%nat with (8 + (4 + (4 + (4 + 12))))%nat. by rewrite !hexw_app.
Qed.
Lemma uuid_str_chars n : str_forallb uuid_char (uuid_str n) = true.
Proof.
  unfold uuid_str. assert (forall w z, str_forallb uuid_char (hexw w z) = true) as Hw.
  { intros w z. eapply str_forallb_impl; [|apply (hexw_text w z)]. intros c Hc. unfold uuid_char. unfold in_class in *. by destruct c as [[][][][][][][][]]. }
  rewrite !str_forallb_app, !Hw. done.
Qed.

Lemma int_16_hexw n : 0 <= n < 2 ^ 128 -> int_16 (hexw 32 n) = Some n.
Proof.
  intros Hn. unfold int_16. set (h := hexw 32 n). assert (hex_text h = true) as Hh by apply hexw_text.
  rewrite (strip_none _ (fun c => in_class c [("0", "9"); ("a", "f")]%char)); [|intros c Hc; case_match; by destruct c as [[][][][][][][][]]|done].
  assert (hex_digits false 0 h = Some n) as Hd.
  { subst h. rewrite hex_digits_hexw by by right. f_equal. rewrite Z.mod_small; [lia|]. change (16 ^ Z.of_nat 32) with (2 ^ 128). lia. }
  clearbody h. destruct h as [|c h]; [done|]. unfold hex_text in Hh. cbn [str_forallb] in Hh. apply andb_true_iff in Hh as [Hc Hh].
  assert (match String c h with String "+" s' => s' | _ => String c h end = String c h) as -> by (by destruct c as [[][][][][][][][]]).
  destruct h as [|x h]; [by destruct c as [[][][][][][][][]]|]. cbn [str_forallb] in Hh. apply andb_true_iff in Hh as [Hx _].
  destruct (Ascii.eqb_spec c "0") as [->|Hne]; [|by destruct c as [[][][][][][][][]]].
  assert (contains_char x "xX" = false) as -> by (by destruct x as [[][][][][][][][]]). done.
Qed.

Lemma uuid_read_back n : 0 <= n < 2 ^ 128 -> uuid_of_text (uuid_str n) = Some n.
Proof.
  intros Hn. unfold uuid_of_text. cbv zeta. pose proof (uuid_str_chars n) as Hc.
  rewrite (remove_all_outside uuid_char "u" "rn:" (uuid_str n)), (remove_all_outside uuid_char "u" "uid:" (uuid_str n)) by done.
  rewrite (strip_none _ uuid_char) by (done || (intros c ?; by destruct c as [[][][][][][][][]])).
  rewrite uuid_str_hex. unfold str_len. rewrite length_hexw. cbn. by apply int_16_hexw.
Qed.

Lemma hexw_injective w a b : hexw w a = hexw w b -> a mod 16 ^ Z.of_nat w = b mod 16 ^ Z.of_nat w.
Proof.
  intros He. assert (hex_digits true 0 (hexw w a) = hex_digits true 0 (hexw w b)) as Hd by by rewrite He.
  rewrite !hex_digits_hexw in Hd by (by left). injection Hd as Hd. lia.
Qed.

(** An UUID that is accepted is one that [uuid7] writes. *)
Definition uuid7_text (s : string) : Prop :=
  exists stamp a b, 0 <= stamp < 2 ^ 48 /\ 0 <= a < 2 ^ 12 /\ 0 <= b < 2 ^ 62 /\ s = uuid_str (uuid7_int stamp a b).

Lemma uuid7_int_bounds stamp a b : 0 <= stamp < 2 ^ 48 -> 0 <= a < 2 ^ 12 -> 0 <= b < 2 ^ 62 -> 0 <= uuid7_int stamp a b < 2 ^ 128.
Proof. intros. rewrite uuid7_int_sum by done. norm_pow2. lia. Qed.

Lemma variant_version n : 0 <= n < 2 ^ 128 -> variant_rfc n = true -> uuid_version n = Some 7 ->
  exists stamp a b, 0 <= stamp < 2 ^ 48 /\ 0 <= a < 2 ^ 12 /\ 0 <= b < 2 ^ 62 /\ n = uuid7_int stamp a b.
Proof.
  intros Hn Hvar. unfold uuid_version. rewrite Hvar. intros [= Hver]. unfold variant_rfc in Hvar.
  rewrite land_15_mod, Z.shiftr_div_pow2 in Hver by lia. apply andb_true_iff in Hvar as [H63 H62%negb_true_iff].
  apply Z.testbit_true in H63; [|lia]. apply Z.testbit_false in H62; [|lia].
  exists (n / 2 ^ 80), (n / 2 ^ 64 mod 2 ^ 12), (n mod 2 ^ 62). norm_pow2. split_and!; [lia..|].
  rewrite uuid7_int_sum by (norm_pow2; lia). norm_pow2. lia.
Qed.
Lemma uuid7_int_fields stamp a b : 0 <= stamp < 2 ^ 48 -> 0 <= a < 2 ^ 12 -> 0 <= b < 2 ^ 62 ->
  variant_rfc (uuid7_int stamp a b) = true /\ uuid_version (uuid7_int stamp a b) = Some 7.
Proof.
  intros Hs Ha Hb. assert (variant_rfc (uuid7_int stamp a b) = true) as Hv.
  { unfold variant_rfc. rewrite uuid7_int_sum by done. apply andb_true_iff. rewrite negb_true_iff. split.
    - apply Z.testbit_true; [lia|]. norm_pow2. lia.
    - apply Z.testbit_false; [lia|]. norm_pow2. lia. }
  split; [done|]. unfold uuid_version. rewrite Hv. f_equal. rewrite land_15_mod, Z.shiftr_div_pow2, uuid7_int_sum by (done || lia). norm_pow2. lia.
Qed.

Lemma hex_digits_bounds digit n s r : hex_digits digit n s = Some r -> 0 <= n -> 0 <= r < (n + 1) * 16 ^ str_len s.
Proof.
  unfold str_len. revert digit n. induction s as [|c s IH]; intros digit n Hr Hn; cbn [hex_digits String.length] in *.
  - destruct digit; [|done]. injection Hr as <-. cbn. lia.
  - rewrite Nat2Z.inj_succ, Z.pow_succ_r by lia. set (p := 16 ^ Z.of_nat (String.length s)) in *.
    destruct (Ascii.eqb c "_"); [destruct digit; [|done]|].
    + apply IH in Hr; [|done]. lia.
    + destruct (hex_value c) as [d|] eqn:E; [|done]. cbn [mbind option_bind] in Hr.
      assert (0 <= d < 16) as Hd by (unfold hex_value, is_digit in E; repeat case_match; try done; injection E as <-; lia).
      apply IH in Hr; [|lia]. split; [lia|]. nia.
Qed.
Lemma lstrip_length p s : str_len (lstrip p s) <= str_len s.
Proof. induction s as [|c s IH]; cbn [lstrip]; [done|]. destruct (p c); [|done]. unfold str_len in *. cbn. lia. Qed.
Lemma str_reverse_length s : str_len (str_reverse s) = str_len s.
Proof.
  unfold str_len. assert (forall s, String.length s = length (list_ascii_of_string s)) as Hl by (clear; induction s as [|c s IH]; cbn; [done|by rewrite IH]).
  by rewrite !Hl, list_of_reverse, length_rev.
Qed.
Lemma strip_length p s : str_len (strip p s) <= str_len s.
Proof. unfold strip. rewrite str_reverse_length. etransitivity; [apply lstrip_length|]. rewrite str_reverse_length. apply lstrip_length. Qed.
Lemma hex_digits_within s t r : hex_digits false 0 t = Some r -> str_len t <= str_len s -> 0 <= r < 16 ^ str_len s.
Proof.
  intros Hr Hl. apply hex_digits_bounds in Hr; [|done]. assert (16 ^ str_len t <= 16 ^ str_len s) by (apply Z.pow_le_mono_r; unfold str_len in *; lia). lia.
Qed.
Lemma str_len_cons c s : str_len (String c s) = str_len s + 1.
Proof. unfold str_len. cbn [String.length]. lia. Qed.
Lemma drop_plus_length s : str_len (match s with String "+" s' => s' | _ => s end) <= str_len s.
Proof. destruct s as [|c s]; [done|]. rewrite str_len_cons. destruct c as [[][][][][][][][]]; rewrite ?str_len_cons; lia. Qed.
Lemma drop_underscore_length s : str_len (match s with String "_" s' => s' | _ => s end) <= str_len s.
Proof. destruct s as [|c s]; [done|]. rewrite str_len_cons. destruct c as [[][][][][][][][]]; rewrite ?str_len_cons; lia. Qed.
Lemma int_16_bounds s r : int_16 s = Some r -> 0 <= r < 16 ^ str_len s.
Proof.
  unfold int_16. cbv zeta. set (sp := fun c => _). pose proof (strip_length sp s) as Hl. revert Hl. generalize (strip sp s). intros t Ht.
  pose proof (drop_plus_length t) as Hu. revert Hu. generalize (match t with String "+" s' => s' | _ => t end). intros u Hu Hr.
  assert (exists v, hex_digits false 0 v = Some r /\ str_len v <= str_len u) as (v & Hv & Hlv); [|apply (hex_digits_within s v r Hv); lia].
  destruct u as [|c u]; [by exists ""|]. destruct (Ascii.eqb_spec c "0") as [->|Hne].
  - destruct u as [|x u]; [by exists "0"|]. destruct (contains_char x "xX"); [|by eexists].
    eexists. split; [exact Hr|]. etransitivity; [apply drop_underscore_length|]. rewrite !str_len_cons. lia.
  - exists (String c u). split; [|done]. by destruct c as [[][][][][][][][]].
Qed.
Lemma uuid_of_text_bounds text n : uuid_of_text text = Some n -> 0 <= n < 2 ^ 128.
Proof.
  unfold uuid_of_text. cbv zeta. destruct (str_len _ =? 32) eqn:E; [|done]. apply Z.eqb_eq in E. intros Hn%int_16_bounds. rewrite E in Hn.
  change (16 ^ 32) with (2 ^ 128) in Hn. done.
Qed.
Lemma validate_uuid7_ok value : _validate_uuid7 value = Ok tt <-> uuid7_text value.
Proof.
  unfold _validate_uuid7. split.
  - destruct (uuid_of_text value) as [n|] eqn:E; [|done]. case_match eqn:G; [done|]. intros _. rewrite !orb_false_iff, !negb_false_iff, bool_decide_eq_true in G.
    destruct G as [[Hs%String.eqb_eq Hver] Hvar]. assert (0 <= n < 2 ^ 128) as Hn by by eapply uuid_of_text_bounds.
    destruct (variant_version n Hn Hvar Hver) as (stamp & a & b & H1 & H2 & H3 & ->). exists stamp, a, b. done.
  - intros (stamp & a & b & Hs & Ha & Hb & ->). rewrite uuid_read_back by by apply uuid7_int_bounds.
    destruct (uuid7_int_fields stamp a b Hs Ha Hb) as [-> ->]. by rewrite String.eqb_refl.
Qed.

(** ** The groups of an identifier *)

Lemma matches_RLit_inv t s : matches (RLit t) s -> s = t.
Proof.
  revert s. induction t as [|c t IH]; intros s Hs; apply matches_inv in Hs; [done|]. destruct Hs as (s1 & s2 & -> & H1 & H2).
  apply matches_inv in H1 as (d & -> & Hd). apply IH in H2 as ->. unfold in_class in Hd. cbn in Hd. rewrite orb_false_r, andb_true_iff, !Z.leb_le in Hd.
  assert (d = c) as -> by (apply code_inj; lia). done.
Qed.
Definition no_colon (c : ascii) : bool := negb (Ascii.eqb ":" c).
Lemma no_colon_contains s : str_forallb no_colon s = true -> contains_char ":" s = false.
Proof. induction s as [|c s IH]; cbn [str_forallb contains_char]; [done|]. intros [Hc%negb_true_iff Hs]%andb_true_iff. rewrite IH by done. by rewrite Hc. Qed.
Lemma piece_no_colon r s : alphabet no_colon r = true -> fullmatch r s = true -> contains_char ":" s = false.
Proof. intros Hr Hs. apply no_colon_contains. by eapply fullmatch_alphabet. Qed.
Lemma namespace_piece s : fullmatch NAMESPACE_PATTERN s = true -> contains_char ":" s = false.
Proof. apply piece_no_colon. by vm_compute. Qed.
Lemma uuid_piece s : fullmatch uuid_text s = true -> contains_char ":" s = false.
Proof. apply piece_no_colon. by vm_compute. Qed.
Lemma digest_piece s : fullmatch SHA256_PATTERN s = true -> contains_char ":" s = false.
Proof. apply piece_no_colon. by vm_compute. Qed.

(** The text of an identifier. *)
Definition assigned_text (scheme namespace uuid : string) : string := scheme +:+ ":v1:" +:+ namespace +:+ ":u7:" +:+ uuid.
Definition content_text (namespace policy digest : string) : string := "rcid:v1:" +:+ namespace +:+ ":h:" +:+ policy +:+ ":" +:+ digest.

Lemma split_assigned scheme namespace uuid :
  contains_char ":" scheme = false -> fullmatch NAMESPACE_PATTERN namespace = true -> fullmatch uuid_text uuid = true ->
  split_on ":" (assigned_text scheme namespace uuid) = [scheme; "v1"; namespace; "u7"; uuid].
Proof.
  intros Hs Hn%namespace_piece Hu%uuid_piece. apply (split_join ":" [scheme; "v1"; namespace; "u7"; uuid]); [done|]. by repeat constructor.
Qed.
Lemma split_content namespace policy digest :
  fullmatch NAMESPACE_PATTERN namespace = true -> fullmatch NAMESPACE_PATTERN policy = true -> fullmatch SHA256_PATTERN digest = true ->
  split_on ":" (content_text namespace policy digest) = ["rcid"; "v1"; namespace; "h"; policy; digest].
Proof.
  intros Hn%namespace_piece Hp%namespace_piece Hd%digest_piece. apply (split_join ":" ["rcid"; "v1"; namespace; "h"; policy; digest]); [done|]. by repeat constructor.
Qed.

Ltac split_pieces s := 
  pose proof (join_split ":" s) as Hjoin; destruct (split_on ":" s) as [|? [|? [|? [|? [|? [|? [|? ?]]]]]]]; try done;
  case_match; try done; rewrite !andb_true_iff, !String.eqb_eq in *; destruct_and!; simplify_eq/=; subst.

Lemma rcid_assigned s namespace uuid :
  rcid_groups s = Some (namespace, inl uuid) <->
  s = assigned_text "rcid" namespace uuid /\ fullmatch NAMESPACE_PATTERN namespace = true /\ fullmatch uuid_text uuid = true.
Proof.
  split.
  - unfold rcid_groups. intros Hs. split_pieces s. done.
  - intros (-> & Hn & Hu). unfold rcid_groups. rewrite split_assigned by done. by rewrite Hn, Hu.
Qed.
Lemma rcid_content s namespace policy digest :
  rcid_groups s = Some (namespace, inr (policy, digest)) <->
  s = content_text namespace policy digest /\ fullmatch NAMESPACE_PATTERN namespace = true /\ fullmatch NAMESPACE_PATTERN policy = true /\
  fullmatch SHA256_PATTERN digest = true.
Proof.
  split.
  - unfold rcid_groups. intros Hs. split_pieces s. done.
  - intros (-> & Hn & Hp & Hd). unfold rcid_groups. rewrite split_content by done. by rewrite Hn, Hp, Hd.
Qed.
Lemma opid_assigned s namespace uuid :
  opid_groups s = Some (namespace, uuid) <->
  s = assigned_text "opid" namespace uuid /\ fullmatch NAMESPACE_PATTERN namespace = true /\ fullmatch uuid_text uuid = true.
Proof.
  split.
  - unfold opid_groups. intros Hs. split_pieces s. done.
  - intros (-> & Hn & Hu). unfold opid_groups. rewrite split_assigned by done. by rewrite Hn, Hu.
Qed.

Lemma matches_seq_lit t r s : matches (RSeq (RLit t) r) s <-> exists s', s = t +:+ s' /\ matches r s'.
Proof.
  split.
  - intros (s1 & s2 & -> & ->%matches_RLit_inv & H)%matches_inv. by exists s2.
  - intros (s' & -> & H). apply MSeq; [apply matches_RLit|done].
Qed.
Lemma matches_seq_full r1 r2 s : matches (RSeq r1 r2) s <-> exists s1 s2, s = s1 +:+ s2 /\ fullmatch r1 s1 = true /\ matches r2 s2.
Proof.
  setoid_rewrite fullmatch_spec. split; [intros (s1 & s2 & H)%matches_inv; by exists s1, s2|]. intros (s1 & s2 & -> & H1 & H2). by apply MSeq.
Qed.

(** The groups are there exactly when the pattern matches. *)
Lemma rcid_groups_exact s : fullmatch RCID_PATTERN s = is_some (rcid_groups s).
Proof.
  apply eq_bool_prop_intro. rewrite !Is_true_true, fullmatch_spec. unfold RCID_PATTERN. rewrite matches_seq_lit. setoid_rewrite matches_seq_full. split.
  - intros (s' & -> & ns & s1 & -> & Hn & (s2 & -> & H2)%matches_seq_lit). apply matches_inv in H2 as [(u & -> & Hu)%matches_seq_lit|(s3 & -> & H3)%matches_seq_lit].
    + apply fullmatch_spec in Hu. by rewrite (proj2 (rcid_assigned _ ns u)).
    + apply matches_seq_full in H3 as (policy & s4 & -> & Hp & (digest & -> & Hd)%matches_seq_lit). apply fullmatch_spec in Hd.
      by rewrite (proj2 (rcid_content _ ns policy digest)).
  - destruct (rcid_groups s) as [[ns [u|[policy digest]]]|] eqn:E; [| |done]; intros _.
    + apply rcid_assigned in E as (-> & Hn & Hu). exists (ns +:+ ":u7:" +:+ u). split; [done|]. exists ns, (":u7:" +:+ u). split_and!; [done..|].
      apply matches_seq_lit. exists ("u7:" +:+ u). split; [done|]. apply MAltL, matches_seq_lit. exists u. split; [done|]. by apply fullmatch_spec.
    + apply rcid_content in E as (-> & Hn & Hp & Hd). exists (ns +:+ ":h:" +:+ policy +:+ ":" +:+ digest). split; [done|].
      exists ns, (":h:" +:+ policy +:+ ":" +:+ digest). split_and!; [done..|]. apply matches_seq_lit. exists ("h:" +:+ policy +:+ ":" +:+ digest). split; [done|].
      apply MAltR, matches_seq_lit. exists (policy +:+ ":" +:+ digest). split; [done|]. apply matches_seq_full. exists policy, (":" +:+ digest).
      split_and!; [done..|]. apply matches_seq_lit. exists digest. split; [done|]. by apply fullmatch_spec.
Qed.
Lemma opid_groups_exact s : fullmatch OPID_PATTERN s = is_some (opid_groups s).
Proof.
  apply eq_bool_prop_intro. rewrite !Is_true_true, fullmatch_spec. unfold OPID_PATTERN. rewrite matches_seq_lit. setoid_rewrite matches_seq_full. split.
  - intros (s' & -> & ns & s1 & -> & Hn & (u & -> & Hu)%matches_seq_lit). apply fullmatch_spec in Hu. by rewrite (proj2 (opid_assigned _ ns u)).
  - destruct (opid_groups s) as [[ns u]|] eqn:E; [|done]; intros _. apply opid_assigned in E as (-> & Hn & Hu).
    exists (ns +:+ ":u7:" +:+ u). split; [done|]. exists ns, (":u7:" +:+ u). split_and!; [done..|]. apply matches_seq_lit. exists u. split; [done|]. by apply fullmatch_spec.
Qed.

(** ** Identifiers back and forth *)

(** A well-formed identifier and its text. *)
Inductive identifier : ParsedIdentifier -> string -> Prop :=
| assigned scheme namespace uuid : scheme ∈ ["rcid"; "opid"] -> fullmatch NAMESPACE_PATTERN namespace = true -> uuid7_text uuid ->
    identifier {| pi_scheme := scheme; pi_namespace := namespace; pi_mode := "u7"; pi_payload := uuid |} (assigned_text scheme namespace uuid)
| content namespace policy digest :
    fullmatch NAMESPACE_PATTERN namespace = true -> fullmatch NAMESPACE_PATTERN policy = true -> fullmatch SHA256_PATTERN digest = true ->
    identifier {| pi_scheme := "rcid"; pi_namespace := namespace; pi_mode := "h"; pi_payload := policy +:+ ":" +:+ digest |}
      (content_text namespace policy digest).

Lemma uuid7_text_uuid s : uuid7_text s -> fullmatch uuid_text s = true.
Proof.
  intros (stamp & a & b & _ & _ & _ & ->). apply fullmatch_spec, matches_repeat_class. split; [|apply uuid_str_chars].
  unfold uuid_str. by rewrite !str_length_app, !length_hexw.
Qed.
Lemma rcid_not_opid s : is_some (opid_groups s) = true -> rcid_groups s = None.
Proof.
  destruct (opid_groups s) as [[ns u]|] eqn:E; [|done]. intros _. apply opid_assigned in E as (-> & Hn & Hu).
  unfold rcid_groups. by rewrite split_assigned.
Qed.
Lemma parse_identifier_exact s p : parse_identifier s = Ok p <-> identifier p s.
Proof.
  unfold parse_identifier. split.
  - destruct (rcid_groups s) as [[ns [u|[policy digest]]]|] eqn:E.
    + apply rcid_assigned in E as (-> & Hn & Hu). intros [Hv%validate_uuid7_ok [= <-]]%bind_unit_ok. constructor; [set_solver|done..].
    + apply rcid_content in E as (-> & Hn & Hp & Hd). intros [= <-]. by constructor.
    + destruct (opid_groups s) as [[ns u]|] eqn:E'; [|done]. apply opid_assigned in E' as (-> & Hn & Hu).
      intros [Hv%validate_uuid7_ok [= <-]]%bind_unit_ok. constructor; [set_solver|done..].
  - intros [scheme ns u Hs Hn Hu|ns policy digest Hn Hp Hd].
    + pose proof (uuid7_text_uuid u Hu) as Hm. apply validate_uuid7_ok in Hu. apply elem_of_cons in Hs as [->|Hs].
      * by rewrite (proj2 (rcid_assigned _ ns u)), Hu.
      * apply list_elem_of_singleton in Hs as ->. assert (opid_groups (assigned_text "opid" ns u) = Some (ns, u)) as Ho by by apply opid_assigned.
        rewrite rcid_not_opid by by rewrite Ho. by rewrite Ho, Hu.
    + by rewrite (proj2 (rcid_content _ ns policy digest)).
Qed.

(** ** The registry and the generator *)

(** What the registry accepts. *)
Definition registered (self : NamespaceRegistry) (p : ParsedIdentifier) : Prop :=
  permits self (pi_scheme p) (pi_mode p) (pi_namespace p) = true /\
  (pi_mode p = "h" -> before ":" (pi_payload p) ∈ rg_hash_policies self).
Lemma validate_exact self s p : validate self s = Ok p <-> identifier p s /\ registered self p.
Proof.
  unfold validate, registered. rewrite <- parse_identifier_exact. destruct (parse_identifier s) as [q|e]; cbn [mbind result_bind].
  - rewrite !bind_unit_ok, !raise_if_ok, negb_false_iff, andb_false_iff, negb_false_iff, mem_spec, String.eqb_neq. split.
    + intros (H1 & H2 & [= ->]). split; [done|]. split; [done|]. intros Hm. by destruct H2.
    + intros ([= ->] & H1 & H2). split; [done|]. split; [|done]. destruct (decide (pi_mode p = "h")); auto.
  - split; [done|by intros [? _]].
Qed.
Lemma before_piece p s : contains_char ":" p = false -> before ":" (p +:+ String ":" s) = p.
Proof.
  unfold before. induction p as [|c p IH]; [done|]. cbn [contains_char String.append partition_at]. intros [Hc Hp]%orb_false_iff. rewrite Hc.
  specialize (IH Hp). destruct (partition_at (Ascii.eqb ":") (p +:+ String ":" s)) as [a b]. cbn in *. by rewrite IH.
Qed.

Lemma pieces_inj p p' s s' : contains_char ":" p = false -> contains_char ":" p' = false -> p +:+ String ":" s = p' +:+ String ":" s' -> p = p' /\ s = s'.
Proof.
  intros Hp Hp' He. assert (p = p') as <- by (rewrite <- (before_piece p s Hp), <- (before_piece p' s' Hp'); by rewrite He).
  split; [done|]. apply (inj (String.append p)) in He. by injection He.
Qed.

(** [secrets.randbits]: so many bits. *)
Class IdSourceLaws W `{IdSource W} : Prop :=
  randbits_range bits w n w' : 0 <= bits -> randbits bits w = (Ok n, w') -> 0 <= n < 2 ^ bits.

Section Generated.
Context `{IdSourceLaws W}.

Lemma uuid7_ok w u w' : uuid7 w = (Ok u, w') -> uuid7_text u.
Proof.
  unfold uuid7. intros Hu. eff_inv. 
  match goal with A : raise_if _ _ = Ok _, B : randbits 12 _ = _, C : randbits 62 _ = _ |- _ =>
    apply raise_if_ok, negb_false_iff, andb_true_iff in A as [? ?]; apply randbits_range in B; [|lia]; apply randbits_range in C; [|lia] end.
  do 3 eexists. split_and!; [..|reflexivity]; lia.
Qed.
Lemma generate_ok registry scheme namespace w id w' :
  generate_assigned_id registry scheme namespace w = (Ok id, w') ->
  scheme ∈ ["rcid"; "opid"] /\ permits registry scheme "u7" namespace = true /\ exists uuid, uuid7_text uuid /\ id = assigned_text scheme namespace uuid.
Proof.
  unfold generate_assigned_id. intros Hg. eff_inv.
  match goal with A : (raise_if _ _;; raise_if _ _) = Ok _ |- _ => apply bind_unit_ok in A as [Hs%raise_if_ok Hp%raise_if_ok] end.
  apply negb_false_iff in Hs, Hp. apply mem_spec in Hs. match goal with A : uuid7 _ = _ |- _ => apply uuid7_ok in A end. eauto 10.
Qed.
End Generated.

(** ** The guard *)

Definition new_guard : CollisionGuard := {| cg_observations := ∅; cg_quarantined := ∅ |}.
(** Observations one after the other, whether they raise or not. *)
Definition observe_all (l : list (string * bytes)) (self : CollisionGuard) : CollisionGuard := foldl (fun g p => (observe p.1 p.2 g).2) self l.
Definition first_seen (id : string) (l : list (string * bytes)) : option bytes := find_field id l.

Lemma first_seen_snoc id l p : first_seen id (l ++ [p]) = match first_seen id l with Some b => Some b | None => if String.eqb p.1 id then Some p.2 else None end.
Proof.
  unfold first_seen, find_field. induction l as [|q l IH]; cbn [app List.find].
  - by destruct (String.eqb p.1 id).
  - by destruct (String.eqb q.1 id).
Qed.
Lemma guard_state l : let g := observe_all l new_guard in
  (forall id, cg_observations g !! id = first_seen id l) /\
  (forall id, id ∈ cg_quarantined g <-> exists a b, (id, a) ∈ l /\ (id, b) ∈ l /\ a <> b).
Proof.
  cbn zeta. induction l as [|[id c] l [IHo IHq]] using rev_ind; [split; intros id; [done|]; split; [set_solver|by intros (? & ? & Hn%elem_of_nil & _)]|].
  unfold observe_all in *. rewrite foldl_app. cbn [foldl fst snd]. set (g := foldl _ _ _) in *. clearbody g. unfold observe. rewrite IHo.
  assert (forall b, first_seen id l = Some b -> (id, b) ∈ l) as Hin by (intros b; apply find_field_in).
  assert (first_seen id l = None -> forall b, (id, b) ∉ l) as Hout.
  { intros Hn b Hb. apply find_field_none in Hn. apply Hn. by apply (list_elem_of_fmap_2 fst _ (id, b)). }
  assert (forall i b, (i, b) ∈ l ++ [(id, c)] <-> (i, b) ∈ l \/ (i = id /\ b = c)) as Hsnoc.
  { intros i b. rewrite elem_of_app, list_elem_of_singleton. naive_solver. }
  setoid_rewrite Hsnoc. setoid_rewrite first_seen_snoc. cbn [fst snd]. destruct (first_seen id l) as [b|] eqn:E.
  - destruct (String.eqb_spec b c) as [->|Hne]; cbn [negb cg_observations cg_quarantined snd].
    + split; intros i; [|rewrite IHq].
      * rewrite lookup_insert. case_decide as Hd; [subst; by rewrite E|]. rewrite IHo. destruct (first_seen i l); [done|]. by apply String.eqb_neq in Hd as ->.
      * split; [intros (a & b & Ha & Hb & Hab); exists a, b; auto|]. specialize (Hin c eq_refl). intros (a & b & [Ha|[-> ->]] & [Hb|[Hi ->]] & Hab); subst; eauto 10; done.
    + split; intros i.
      * rewrite IHo. destruct (first_seen i l) eqn:Ei; [done|]. destruct (String.eqb_spec id i) as [->|]; [congruence|done].
      * rewrite elem_of_union, elem_of_singleton, IHq. split; [intros [->|(a & d & Ha & Hb & Hab)]; [exists b, c|exists a, d]; auto|].
        intros (a & b' & [Ha|[-> ->]] & [Hb|[Hi ->]] & Hab); subst; eauto 10.
  - split; intros i; cbn [cg_observations cg_quarantined snd].
    + rewrite lookup_insert. case_decide as Hd; [subst; by rewrite E, String.eqb_refl|]. rewrite IHo. destruct (first_seen i l); [done|].
      by apply String.eqb_neq in Hd as ->.
    + rewrite IHq. split; [intros (a & b & Ha & Hb & Hab); exists a, b; auto|]. specialize (Hout eq_refl).
      intros (a & b' & [Ha|[-> ->]] & [Hb|[Hi ->]] & Hab); subst; eauto 10; [by destruct (Hout a)|by destruct (Hout b')|done].
Qed.

(** ** What identifiers guarantee *)

(** C23: the registry accepts exactly the texts of well-formed identifiers whose namespace, and hash policy, it lists:
    assigned identifiers carry a UUID that [uuid7] can write, in its one canonical form, and content identifiers a
    policy and a digest; and an identifier has one text. *)
Theorem identifiers_round_trip self : forall s p,
  (validate self s = Ok p <-> identifier p s /\ registered self p) /\ forall t, identifier p s -> identifier p t -> s = t.
Proof.
  intros s p. split; [apply validate_exact|]. intros t [scheme ns u _ _ _|ns policy digest _ Hp _]; inversion 1; subst; [done|].
  match goal with E : _ +:+ _ = _ +:+ _ |- _ => apply pieces_inj in E as [-> ->]; [done|by apply namespace_piece..] end.
Qed.

(** What the generator returns is an identifier of the scheme and namespace it was asked for, which the registry
    accepts, whatever the clock and the random bits are. *)
Theorem generated_identifiers_valid `{IdSourceLaws W} registry scheme namespace w id w' :
  Forall (fun p => Forall (fun q => Forall (fun n => fullmatch NAMESPACE_PATTERN n = true) q.2) p.2) (rg_record registry) ->
  generate_assigned_id registry scheme namespace w = (Ok id, w') ->
  exists uuid, validate registry id = Ok {| pi_scheme := scheme; pi_namespace := namespace; pi_mode := "u7"; pi_payload := uuid |}.
Proof.
  intros Hr (Hs & Hp & uuid & Hu & ->)%generate_ok. exists uuid. apply validate_exact. split; [|split; [exact Hp|done]]. constructor; [done| |done].
  unfold permits in Hp. apply mem_spec in Hp. destruct (find_field scheme (rg_record registry)) as [modes|] eqn:Em; cbn [from_option id] in Hp; [|by apply elem_of_nil in Hp].
  apply find_field_in in Em. destruct (find_field "u7" modes) as [l|] eqn:El; cbn [from_option id] in Hp; [|by apply elem_of_nil in Hp].
  apply find_field_in in El. rewrite Forall_forall in Hr. specialize (Hr _ Em). cbn in Hr. rewrite Forall_forall in Hr. specialize (Hr _ El). cbn in Hr.
  rewrite Forall_forall in Hr. by apply Hr.
Qed.

(** Over any sequence of observations, refused ones included, the guard keeps the first bytes seen under every
    content identifier and quarantines exactly those seen with different bytes; an observation is refused exactly
    when it differs from the first one. *)
Theorem guard_remembers l : let guard := observe_all l new_guard in
  (forall id, cg_observations guard !! id = first_seen id l) /\
  (forall id, id ∈ cg_quarantined guard <-> exists a b, (id, a) ∈ l /\ (id, b) ∈ l /\ a <> b) /\
  (forall id canonical, (observe id canonical guard).1 = Ok tt <-> first_seen id l = None \/ first_seen id l = Some canonical).
Proof.
  cbn zeta. destruct (guard_state l) as [Ho Hq]. split_and!; [done|done|]. intros id canonical. unfold observe. rewrite Ho.
  destruct (first_seen id l) as [b|]; [|naive_solver]. destruct (String.eqb_spec b canonical) as [->|]; cbn; naive_solver.
Qed.

(** ** Witnesses *)
Module IdSample.

Definition registry : NamespaceRegistry :=
  {| rg_record := [("rcid", [("u7", ["schema-family"; "physical-run"]); ("h", ["campaign-content"])]); ("opid", [("u7", ["environment"])])];
     rg_hash_policies := [HASH_POLICY] |}.
(** A clock that stands still and random bits counted up. *)
#[local] Instance sample_source : IdSource Z := {| time_ms := fun w => (Ok 1790000000000, w); randbits := fun bits w => (Ok (w mod 2 ^ bits), w + 1) |}.
#[local] Instance sample_source_laws : IdSourceLaws Z.
Proof. intros bits w n w' Hb [= <- _]. apply Z.mod_pos_bound. lia. Qed.

Definition family : string := "rcid:v1:schema-family:u7:019ff82c-9517-76fb-a67d-c461e9145384".
Definition family_parsed : ParsedIdentifier :=
  {| pi_scheme := "rcid"; pi_namespace := "schema-family"; pi_mode := "u7"; pi_payload := "019ff82c-9517-76fb-a67d-c461e9145384" |}.
(** A version 4 UUID is refused. *)
Example other_version : validate registry "rcid:v1:schema-family:u7:019ff82c-9517-46fb-a67d-c461e9145384" = fail "invalid-uuid7".
Proof. by vm_compute. Qed.

Lemma identifiers_round_trip_witness : identifier family_parsed family /\ registered registry family_parsed.
Proof. apply (identifiers_round_trip registry family family_parsed). vm_compute. reflexivity. Defined.

Definition generated : string := Eval vm_compute in match (generate_assigned_id registry "rcid" "physical-run" 7).1 with Ok id => id | Raise _ => "" end.
Lemma generated_identifiers_valid_witness :
  generate_assigned_id registry "rcid" "physical-run" 7 = (Ok generated, 9) /\
  exists uuid, validate registry generated = Ok {| pi_scheme := "rcid"; pi_namespace := "physical-run"; pi_mode := "u7"; pi_payload := uuid |}.
Proof.
  assert (generate_assigned_id registry "rcid" "physical-run" 7 = (Ok generated, 9)) as Hg by (vm_compute; reflexivity). split; [exact Hg|].
  apply (generated_identifiers_valid registry "rcid" "physical-run" 7 generated 9); [|exact Hg].
  repeat first [apply Forall_nil_2 | apply Forall_cons_2; cbn [snd]]; vm_compute; reflexivity.
Defined.
End IdSample.
