(* ===== verification/IdentityProfile.v ===== *)
(** * Content identity

    profile.py of the schema tooling: a profile says which facts identify a record and
    which of their variations do not matter (the order of keys, the order and the
    repetition of the members of a set, the composition of canonical text), and
    [_project] brings a value into the one form that stands for all of them.
    [build_content_identity] of identity.py digests that form.

    A loaded profile is a tree of [node]s. *)

From S2P Require Export TypedIds Dicts Timestamps JsonRoundtrip.

Definition SAFE_INTEGER_LIMIT : Z := 9007199254740991.
Definition digit : regex := RClass [("0", "9")]%char.
Definition EXACT_DECIMAL_PATTERN : regex :=
  RSeq (RAlt (RLit "-") REps) (RSeq core_number (RAlt (RSeq (RLit ".") (RSeq (RStar digit) (RClass [("1", "9")]%char))) REps)).
Definition DATE_PATTERN : regex := RSeq (RRepeat 4 digit) (RSeq dash (RSeq (RRepeat 2 digit) (RSeq dash (RRepeat 2 digit)))).
Definition BASE64URL_PATTERN : regex := RStar (RClass [("A", "Z"); ("a", "z"); ("0", "9"); ("_", "_"); ("-", "-")]%char).

#[warnings="-register-all"]
Inductive node :=
| NObject (properties : list (string * node)) (required : list string)
| NSequence (items : node)
| NSet (items : node)
| NEnum (values : list string)
| NInstant (precision : nat)
| NUuid (version : option Z)
| NScalar (kind : string).
Record IdentityProfile := { ip_profile_version : string; ip_root : node }.

(** [value != value.lower()] *)
Definition has_upper (c : ascii) : bool := is_upper c || ((192 <=? code c) && (code c <=? 222) && negb (code c =? 215)).

(** [dt.date.fromisoformat(value)] succeeds. *)
Definition calendar_date (value : string) : bool :=
  match parse_date value with
  | Some (y, m, d, rest) => str_empty rest && (1 <=? y) && (1 <=? m) && (m <=? 12) && (1 <=? d) && (d <=? days_in_month y m)
  | None => false
  end.

(** [_project_instant] *)
Definition instant_pattern (precision : nat) : regex :=
  RSeq DATE_PATTERN (RSeq (RLit "T") (RSeq (RRepeat 2 digit) (RSeq (RLit ":") (RSeq (RRepeat 2 digit) (RSeq (RLit ":") (RSeq (RRepeat 2 digit)
    (RSeq (match precision with O => REps | _ => RSeq (RLit ".") (RRepeat precision digit) end) (RLit "Z")))))))).
Definition _project_instant (value : json) (precision : nat) : result json :=
  match value with
  | JStr s =>
      raise_if (negb (fullmatch (instant_pattern precision) s)) (ConformanceDataError "noncanonical-instant");;
      raise_if (negb (is_some (fromisoformat (str_take (String.length s - 1) s +:+ "+00:00")))) (ConformanceDataError "invalid-instant");;
      Ok value
  | _ => fail "wrong-type"
  end.

Definition _project_uuid (value : json) (expected_version : option Z) : result json :=
  match value with
  | JStr s =>
      raise_if (negb (str_forallb (fun c => negb (has_upper c)) s)) (ConformanceDataError "noncanonical-uuid");;
      parsed ← match uuid_of_text s with Some parsed => Ok parsed | None => fail "invalid-uuid" end;
      raise_if (negb (String.eqb (uuid_str parsed) s)) (ConformanceDataError "noncanonical-uuid");;
      raise_if (negb (variant_rfc parsed)) (ConformanceDataError "invalid-uuid");;
      raise_if (match expected_version with Some v => negb (bool_decide (uuid_version parsed = Some v)) | None => false end)
        (ConformanceDataError "wrong-uuid-version");;
      Ok value
  | _ => fail "noncanonical-uuid"
  end.

Section Profile.
Context `{JCS} `{NFC}.

(** [if pattern.fullmatch(value) is None: fail(code, ...)] *)
Definition matching (r : regex) (code : string) (s : string) : result json :=
  raise_if (negb (fullmatch r s)) (ConformanceDataError code);; Ok (JStr s).
Definition project_text (kind s : string) : result json :=
  if String.eqb kind "raw_text" then Ok (JStr s)
  else if String.eqb kind "canonical_text" then Ok (JStr (nfc s))
  else if String.eqb kind "token" then matching TOKEN_PATTERN "invalid-token" s
  else if String.eqb kind "exact_decimal" then
    raise_if (negb (fullmatch EXACT_DECIMAL_PATTERN s) || mem s ["-0"; "-0.0"]) (ConformanceDataError "noncanonical-decimal");; Ok (JStr s)
  else if String.eqb kind "date" then
    raise_if (negb (fullmatch DATE_PATTERN s)) (ConformanceDataError "invalid-date");;
    raise_if (negb (calendar_date s)) (ConformanceDataError "invalid-date");; Ok (JStr s)
  else if String.eqb kind "base64url" then
    raise_if (contains_char "=" s || negb (fullmatch BASE64URL_PATTERN s)) (ConformanceDataError "noncanonical-base64url");;
    decoded ← match base64_decode s with Some decoded => Ok decoded | None => fail "noncanonical-base64url" end;
    raise_if (negb (String.eqb (base64_encode decoded) s)) (ConformanceDataError "noncanonical-base64url");; Ok (JStr s)
  else if String.eqb kind "semver" then matching SEMVER_PATTERN "invalid-semver" s
  else if String.eqb kind "rcid" then matching RCID_PATTERN "invalid-rcid" s
  else matching DIGEST_PATTERN "invalid-digest" s.
Definition text_kinds : list string :=
  ["raw_text"; "canonical_text"; "token"; "exact_decimal"; "date"; "base64url"; "semver"; "rcid"; "digest"].
Definition _project_scalar (kind : string) (value : json) : result json :=
  if mem kind text_kinds then match value with JStr s => project_text kind s | _ => fail "wrong-type" end
  else if String.eqb kind "safe_integer" then
    match value with
    | JInt z => raise_if (negb ((- SAFE_INTEGER_LIMIT <=? z) && (z <=? SAFE_INTEGER_LIMIT))) (ConformanceDataError "unsafe-integer");; Ok value
    | _ => fail "wrong-type"
    end
  else if String.eqb kind "boolean" then match value with JBool _ => Ok value | _ => fail "wrong-type" end
  else if String.eqb kind "null" then match value with JNull => Ok value | _ => fail "wrong-type" end
  else fail "unknown-profile-kind".

(** [keyed = {canonical_bytes(member): member for member in members}], sorted by key. *)
Definition set_members (members : list json) : result (list json) :=
  pairs ← map_result (fun m => text ← canonical_bytes m; Ok (text, m)) members;
  Ok (snd <$> sorted_by fst (dict_of_pairs pairs)).
(** The guards of [_project_object]. *)
Definition check_object (properties required keys : list string) : result unit :=
  raise_if (negb (forallb (fun k => mem k properties) keys)) (ConformanceDataError "unknown-field");;
  raise_if (negb (forallb (fun k => mem k keys) required)) (ConformanceDataError "missing-field").

(** The comprehension over the properties the value has. *)
Definition project_properties (project : node -> json -> result json) (fields : list (string * json)) :
    list (string * node) -> result (list (string * json)) :=
  fix go properties :=
    match properties with
    | [] => Ok []
    | (key, n) :: properties =>
        match find_field key fields with
        | Some v => p ← project n v; l ← go properties; Ok ((key, p) :: l)
        | None => go properties
        end
    end.

Fixpoint _project (n : node) (value : json) : result json :=
  match n with
  | NObject properties required =>
      match value with
      | JObj fields =>
          check_object (fst <$> properties) required (fst <$> fields);;
          members ← project_properties _project fields properties;
          Ok (JObj members)
      | _ => fail "wrong-type"
      end
  | NSequence items => match value with JArr l => members ← map_result (_project items) l; Ok (JArr members) | _ => fail "wrong-type" end
  | NSet items =>
      match value with
      | JArr l => members ← map_result (_project items) l; members ← set_members members; Ok (JArr members)
      | _ => fail "wrong-type"
      end
  | NEnum values => match value with JStr s => raise_if (negb (mem s values)) (ConformanceDataError "invalid-enum");; Ok value | _ => fail "invalid-enum" end
  | NInstant precision => _project_instant value precision
  | NUuid version => _project_uuid value version
  | NScalar kind => _project_scalar kind value
  end.

(** ** identity.py *)

Definition CONTENT_DOMAIN : string := "strling.regex-conformance.content-id".
Definition content_envelope (namespace identity_schema_family_id identity_schema_version : string) (identity : json) : list (string * json) :=
  [("domain", JStr CONTENT_DOMAIN); ("hash_policy", JStr HASH_POLICY); ("namespace", JStr namespace);
   ("identity_schema_family_id", JStr identity_schema_family_id); ("identity_schema_version", JStr identity_schema_version); ("identity", identity)].
Record ContentIdentity := {
  ci_projection : json; ci_envelope : list (string * json); ci_canonical_utf8 : bytes; ci_canonical_byte_length : Z; ci_sha256 : string; ci_content_id : string
}.
Definition build_content_identity (registry : NamespaceRegistry) (profile : IdentityProfile)
    (namespace identity_schema_family_id identity_schema_version : string) (identity : json) : result ContentIdentity :=
  raise_if (negb (permits registry "rcid" "h" namespace)) (ConformanceDataError "unregistered-namespace");;
  family ← validate registry identity_schema_family_id;
  raise_if (negb (bool_decide ((pi_scheme family, pi_namespace family, pi_mode family) = ("rcid", "schema-family", "u7"))))
    (ConformanceDataError "invalid-schema-family-id");;
  raise_if (negb (String.eqb identity_schema_version (ip_profile_version profile))) (ConformanceDataError "profile-version-mismatch");;
  projection ← _project (ip_root profile) identity;
  let envelope := content_envelope namespace identity_schema_family_id identity_schema_version projection in
  encoded ← canonical_bytes (JObj envelope);
  let digest := sha256 encoded in
  let content_id := "rcid:v1:" +:+ namespace +:+ ":h:" +:+ HASH_POLICY +:+ ":" +:+ digest in
  _ ← validate registry content_id;
  Ok {| ci_projection := projection; ci_envelope := envelope; ci_canonical_utf8 := encoded;
        ci_canonical_byte_length := str_len encoded; ci_sha256 := digest; ci_content_id := content_id |}.
End Profile.

(** ** Profiles as trees *)

Lemma node_induction (P : node -> Prop) :
  (forall properties required, Forall (fun p => P p.2) properties -> P (NObject properties required)) ->
  (forall items, P items -> P (NSequence items)) -> (forall items, P items -> P (NSet items)) ->
  (forall values, P (NEnum values)) -> (forall precision, P (NInstant precision)) -> (forall version, P (NUuid version)) ->
  (forall kind, P (NScalar kind)) -> forall n, P n.
Proof.
  intros H1 H2 H3 H4 H5 H6 H7. fix IH 1. intros [properties required|items|items|values|precision|version|kind];
    [apply H1|apply H2, IH|apply H3, IH|apply H4|apply H5|apply H6|apply H7].
  induction properties as [|[k n] l IHl]; constructor; [apply IH|exact IHl].
Qed.
(** The properties of an object are a dict. *)
#[warnings="-register-all"]
Inductive well_formed : node -> Prop :=
| wf_object properties required : NoDup (fst <$> properties) -> Forall (fun p => well_formed p.2) properties -> well_formed (NObject properties required)
| wf_sequence items : well_formed items -> well_formed (NSequence items)
| wf_set items : well_formed items -> well_formed (NSet items)
| wf_enum values : well_formed (NEnum values)
| wf_instant precision : well_formed (NInstant precision)
| wf_uuid version : well_formed (NUuid version)
| wf_scalar kind : well_formed (NScalar kind).

(** ** Objects *)

(** The properties a value has. *)
Definition present_in (fields : list (string * json)) (p : string * node) : bool := is_some (find_field p.1 fields).
(** What the projection of an object says of a property. *)
Definition projects_member (project : node -> json -> result json) (fields : list (string * json)) (p : string * node) (m : string * json) : Prop :=
  m.1 = p.1 /\ exists v, find_field p.1 fields = Some v /\ project p.2 v = Ok m.2.
Lemma project_properties_ok project fields properties members :
  project_properties project fields properties = Ok members <->
  Forall2 (projects_member project fields) (List.filter (present_in fields) properties) members.
Proof.
  revert members. induction properties as [|[key n] properties IH]; intros members; cbn [project_properties List.filter].
  - split; [by intros [= <-]|by inversion 1].
  - unfold present_in at 1. cbn [fst]. destruct (find_field key fields) as [v|] eqn:E; cbn [is_some]; [|apply IH].
    rewrite bind_ok. setoid_rewrite bind_ok. split.
    + intros (p & Hp & l & Hl%IH & [= <-]). constructor; [|done]. split; [done|]. by exists v.
    + inversion 1 as [|? [k p] ? l [Hk (v' & Hv & Hp)] Hl]; subst. cbn [fst snd] in *. subst. rewrite E in Hv. injection Hv as <-.
      exists p. split; [done|]. exists l. split; [by apply IH|done].
Qed.
Lemma check_object_ok properties required keys :
  check_object properties required keys = Ok tt <-> (forall k, k ∈ keys -> k ∈ properties) /\ forall k, k ∈ required -> k ∈ keys.
Proof.
  unfold check_object. rewrite bind_unit_ok, !raise_if_ok, !negb_false_iff, !forallb_forall. setoid_rewrite mem_spec. setoid_rewrite <- list_elem_of_In. done.
Qed.
Lemma projected_keys project fields properties members :
  Forall2 (projects_member project fields) (List.filter (present_in fields) properties) members ->
  fst <$> members = fst <$> List.filter (present_in fields) properties.
Proof. induction 1 as [|p m l k [Hm _] _ IH]; [done|]. rewrite !fmap_cons. by f_equal. Qed.

Lemma Forall2_in {A B} (R : A -> B -> Prop) l k : Forall2 R l k -> Forall2 (fun x y => R x y /\ x ∈ l /\ y ∈ k) l k.
Proof.
  intros Hr. apply Forall2_same_length_lookup. split; [by eapply Forall2_length|]. intros i x y Hx Hy. split; [by eapply Forall2_lookup_lr|].
  split; by eapply list_elem_of_lookup_2.
Qed.
Lemma elem_of_present fields properties p : p ∈ List.filter (present_in fields) properties <-> p ∈ properties /\ p.1 ∈ (fst <$> fields).
Proof.
  rewrite elem_of_lfilter. apply and_iff_compat_l. unfold present_in. destruct (find_field p.1 fields) as [v|] eqn:E; cbn.
  - apply find_field_in in E. split; [|done]. intros _. by apply (list_elem_of_fmap_2 fst _ (p.1, v)).
  - apply find_field_none in E. done.
Qed.
Lemma present_ext fields fields' properties :
  (forall p, p ∈ properties -> (p.1 ∈ (fst <$> fields) <-> p.1 ∈ (fst <$> fields'))) ->
  List.filter (present_in fields) properties = List.filter (present_in fields') properties.
Proof.
  induction properties as [|p l IH]; intros He; [done|]. cbn. rewrite IH by (intros q Hq; apply He; by right).
  pose proof (elem_of_present fields [p] p) as H1. pose proof (elem_of_present fields' [p] p) as H2. specialize (He p (list_elem_of_here _ _)).
  cbn in H1, H2. destruct (present_in fields p), (present_in fields' p); try done; exfalso; set_solver.
Qed.
Lemma present_nodup fields properties : NoDup (fst <$> properties) -> NoDup (fst <$> List.filter (present_in fields) properties).
Proof.
  induction properties as [|p l IH]; [done|]. rewrite fmap_cons, NoDup_cons. intros [Hn Hl]. cbn. destruct (present_in fields p); [|by apply IH].
  rewrite fmap_cons. constructor; [|by apply IH]. intros (q & Hq & [Hin _]%elem_of_lfilter)%list_elem_of_fmap. apply Hn. rewrite Hq. by apply list_elem_of_fmap_2.
Qed.

(** ** Sets *)

Lemma dict_set_keys k v pairs : forall x, x ∈ (fst <$> dict_set k v pairs) <-> x = k \/ x ∈ (fst <$> pairs).
Proof.
  intros x. induction pairs as [|[k' v'] pairs IH]; cbn [dict_set]; [set_solver|]. destruct (String.eqb_spec k k') as [->|]; cbn; [set_solver|].
  rewrite !elem_of_cons, IH. tauto.
Qed.
Lemma dict_set_in k v pairs p : p ∈ dict_set k v pairs -> p = (k, v) \/ p ∈ pairs.
Proof.
  induction pairs as [|[k' v'] pairs IH]; cbn [dict_set]; [set_solver|]. destruct (String.eqb_spec k k') as [->|]; set_solver.
Qed.
Lemma dict_set_nodup k v pairs : NoDup (fst <$> pairs) -> NoDup (fst <$> dict_set k v pairs).
Proof.
  induction pairs as [|[k' v'] pairs IH]; cbn [dict_set]; [intros _; apply NoDup_singleton|]. destruct (String.eqb_spec k k') as [->|Hne]; [done|].
  rewrite !fmap_cons, !NoDup_cons. cbn [fst]. intros [Hn Hp]. split; [|by apply IH]. rewrite dict_set_keys. by intros [->|?].
Qed.
Lemma dict_of_pairs_facts pairs :
  NoDup (fst <$> dict_of_pairs pairs) /\ (forall p, p ∈ dict_of_pairs pairs -> p ∈ pairs) /\
  (forall k, k ∈ (fst <$> dict_of_pairs pairs) <-> k ∈ (fst <$> pairs)).
Proof.
  unfold dict_of_pairs. assert (forall d, NoDup (fst <$> d) -> let r := foldl (fun d p => dict_set p.1 p.2 d) d pairs in
    NoDup (fst <$> r) /\ (forall p, p ∈ r -> p ∈ d \/ p ∈ pairs) /\ (forall k, k ∈ (fst <$> r) <-> k ∈ (fst <$> d) \/ k ∈ (fst <$> pairs))) as Hgen.
  { induction pairs as [|[k v] pairs IH]; intros d Hd; cbn [foldl fst snd]; [set_solver|].
    destruct (IH (dict_set k v d) (dict_set_nodup k v d Hd)) as (H1 & H2 & H3). split; [done|]. split.
    - intros p [Hp%dict_set_in|Hp]%H2; [destruct Hp as [->|]; [right; left|by left]|right; by right].
    - intros x. rewrite H3, dict_set_keys, fmap_cons, elem_of_cons. cbn [fst]. tauto. }
  destruct (Hgen [] (NoDup_nil_2 : NoDup (fst <$> []))) as (H1 & H2 & H3). split; [done|]. split; [intros p [?%elem_of_nil|]%H2; done|].
  intros k. rewrite H3. set_solver.
Qed.

Section Projection.
Context `{JCSLaws} `{NFC} (Hnfc : forall s, nfc (nfc s) = nfc s).

(** A text and the member it stands for. *)
Definition keyed (m : json) (p : string * json) : Prop := canonical_bytes m = Ok p.1 /\ p.2 = m.
Lemma set_members_ok l q :
  set_members l = Ok q <-> exists pairs, Forall2 keyed l pairs /\ q = snd <$> sorted_by fst (dict_of_pairs pairs).
Proof.
  unfold set_members. rewrite bind_ok. setoid_rewrite map_result_ok. split.
  - intros (pairs & Hp & [= <-]). exists pairs. split; [|done]. eapply Forall2_impl; [exact Hp|]. intros m p (t & Ht & [= <-])%bind_ok. done.
  - intros (pairs & Hp & ->). exists pairs. split; [|done]. eapply Forall2_impl; [exact Hp|]. intros m [t m'] [Ht Hm]. cbn in *. by rewrite Ht, Hm.
Qed.
Lemma keyed_elem l pairs p : Forall2 keyed l pairs -> p ∈ pairs -> p.2 ∈ l /\ canonical_bytes p.2 = Ok p.1.
Proof.
  intros Hk. induction Hk as [|m q l pairs [Ht Hm] _ IH]; [by intros ?%elem_of_nil|]. intros [->|Hp]%elem_of_cons; [|set_solver].
  rewrite Hm. split; [left|done].
Qed.
Lemma keyed_self pairs : Forall (fun p => canonical_bytes p.2 = Ok p.1) pairs -> Forall2 keyed (snd <$> pairs) pairs.
Proof. induction 1; constructor; done. Qed.
Lemma set_members_fixed l q : set_members l = Ok q -> set_members q = Ok q /\ forall m, m ∈ q -> m ∈ l.
Proof.
  intros (pairs & Hp & ->)%set_members_ok. destruct (dict_of_pairs_facts pairs) as (Hnd & Hin & _).
  assert (forall p, p ∈ sorted_by fst (dict_of_pairs pairs) -> p.2 ∈ l /\ canonical_bytes p.2 = Ok p.1) as Hall.
  { intros p Hq%elem_of_sorted_by%Hin. by eapply keyed_elem. }
  split.
  - apply set_members_ok. exists (sorted_by fst (dict_of_pairs pairs)). split.
    + apply keyed_self, Forall_forall. intros p Hq. by apply Hall.
    + rewrite (dict_of_id (sorted_by _ _)) by by rewrite sorted_by_perm. f_equal. symmetry. apply sorted_by_id, sorted_by_sorted.
  - intros m (p & -> & Hq)%list_elem_of_fmap. by apply Hall.
Qed.

(** ** A projection is its own projection *)

Lemma project_text_kept kind s p : project_text kind s = Ok p -> p = JStr (if String.eqb kind "canonical_text" then nfc s else s).
Proof.
  unfold project_text, matching. destruct (String.eqb_spec kind "raw_text") as [->|_]; [by intros [= <-]|].
  destruct (String.eqb kind "canonical_text"); [by intros [= <-]|].
  intros Hs. repeat case_match; repeat match goal with
    | E : mbind _ _ = Ok _ |- _ => first [apply bind_unit_ok in E as [_ E] | apply bind_ok in E as (? & _ & E)]
    end; by injection Hs as <-.
Qed.
Lemma project_scalar_kept kind v p :
  _project_scalar kind v = Ok p -> p = v \/ kind = "canonical_text" /\ exists s, v = JStr s /\ p = JStr (nfc s).
Proof.
  unfold _project_scalar. destruct (mem kind text_kinds).
  - destruct v as [| | | |s| |]; try done. intros Hs%project_text_kept. destruct (String.eqb_spec kind "canonical_text"); [right|left; done]. eauto.
  - intros Hs. left. destruct v; repeat case_match; try done; try (by injection Hs as <-). by apply bind_unit_ok in Hs as [_ [= <-]].
Qed.
Lemma project_scalar_fixed kind v p : _project_scalar kind v = Ok p -> _project_scalar kind p = Ok p.
Proof.
  intros Hs. destruct (project_scalar_kept kind v p Hs) as [->|(-> & s & -> & ->)]; [done|]. cbn. by rewrite Hnfc.
Qed.
Lemma project_instant_kept v precision p : _project_instant v precision = Ok p -> p = v.
Proof. destruct v; try done. cbn. intros [_ [_ [= <-]]%bind_unit_ok]%bind_unit_ok. done. Qed.
Lemma project_uuid_kept v version p : _project_uuid v version = Ok p -> p = v.
Proof.
  destruct v; try done. cbn. intros [_ (d & _ & [_ [_ [_ [= <-]]%bind_unit_ok]%bind_unit_ok]%bind_unit_ok)%bind_ok]%bind_unit_ok. done.
Qed.

(** The projection of a property. *)
Lemma projected_found project fields properties members p :
  NoDup (fst <$> properties) -> Forall2 (projects_member project fields) (List.filter (present_in fields) properties) members ->
  p ∈ properties -> p.1 ∈ (fst <$> fields) -> exists v m, find_field p.1 fields = Some v /\ project p.2 v = Ok m /\ find_field p.1 members = Some m.
Proof.
  intros Hnd Hf Hp Hk. pose proof (projected_keys _ _ _ _ Hf) as Hkeys. assert (NoDup (fst <$> members)) as Hm by (rewrite Hkeys; by apply present_nodup).
  assert (p ∈ List.filter (present_in fields) properties) as Hin by by apply elem_of_present.
  apply list_elem_of_lookup in Hin as [i Hi]. destruct (Forall2_lookup_l _ _ _ _ _ Hf Hi) as (m & Hmi & Hm1 & v & Hv & Hpv).
  exists v, m.2. split_and!; [done..|]. rewrite <- Hm1. apply find_field_found; [done|]. by eapply list_elem_of_lookup_2.
Qed.

Lemma project_fixed n v p : well_formed n -> _project n v = Ok p -> _project n p = Ok p.
Proof.
  revert v p. induction n as [properties required IH|items IH|items IH|values|precision|version|kind] using node_induction; intros v p Hw Hv; inversion Hw as [? ? Hnd Hwp|? Hwi|? Hwi| | | |]; subst.
  - cbn [_project] in Hv. destruct v as [| | | | | |fields]; try done. apply bind_unit_ok in Hv as [[Hk Hr]%check_object_ok (members & Hm%project_properties_ok & [= <-])%bind_ok].
    pose proof (projected_keys _ _ _ _ Hm) as Hkeys.
    assert (forall k, k ∈ (fst <$> members) <-> k ∈ (fst <$> properties) /\ k ∈ (fst <$> fields)) as Hmk.
    { intros k. rewrite Hkeys. split; [intros (p & -> & [Hp Hf]%elem_of_present)%list_elem_of_fmap; split; [by apply list_elem_of_fmap_2|done]|].
      intros [(p & -> & Hp)%list_elem_of_fmap Hf]. apply list_elem_of_fmap_2, elem_of_present. done. }
    cbn [_project]. assert (check_object (fst <$> properties) required (fst <$> members) = Ok tt) as ->.
    { apply check_object_ok. split; [intros k Hin; by apply Hmk|]. intros k Hin%Hr. apply Hmk. split; [by apply Hk|done]. }
    cbn [mbind result_bind]. assert (project_properties _project members properties = Ok members) as ->; [|done]. apply project_properties_ok.
    rewrite (present_ext members fields) by (intros p Hp; rewrite Hmk; split; [by intros [_ ?]|intros Hf; split; [by apply list_elem_of_fmap_2|done]]).
    eapply Forall2_impl; [apply Forall2_in, Hm|]. intros p m ((Hm1 & v & Hv & Hpv) & [Hp _]%elem_of_present & Hin). split; [done|]. exists m.2.
    rewrite Forall_forall in IH, Hwp. split; [|by apply (IH p Hp v); [apply Hwp|]]. rewrite <- Hm1. apply find_field_found; [|done]. rewrite Hkeys. by apply present_nodup.
  - cbn [_project] in Hv. destruct v as [| | | | |l|]; try done. apply bind_ok in Hv as (members & Hm%map_result_ok & [= <-]). cbn [_project].
    assert (map_result (_project items) members = Ok members) as ->; [|done]. apply map_result_ok. clear Hw. induction Hm; constructor; [by eapply IH|done].
  - cbn [_project] in Hv. destruct v as [| | | | |l|]; try done. apply bind_ok in Hv as (members & Hm%map_result_ok & (q & Hq & [= <-])%bind_ok). cbn [_project].
    apply set_members_fixed in Hq as [Hq Hin]. assert (map_result (_project items) q = Ok q) as ->; [|cbn [mbind result_bind]; by rewrite Hq].
    apply map_result_ok, Forall_Forall2_diag, Forall_forall. intros m Hmq%Hin. apply list_elem_of_lookup in Hmq as [i Hi].
    destruct (Forall2_lookup_r _ _ _ _ _ Hm Hi) as (x & _ & Hx). by eapply IH.
  - cbn [_project] in *. destruct v; try done. apply bind_unit_ok in Hv as [Hg [= <-]]. by rewrite Hg.
  - cbn [_project] in *. pose proof Hv as Hv'. by apply project_instant_kept in Hv' as ->.
  - cbn [_project] in *. pose proof Hv as Hv'. by apply project_uuid_kept in Hv' as ->.
  - cbn [_project] in *. by eapply project_scalar_fixed.
Qed.
(** ** Projections are plain documents *)

Lemma projected_key fields properties project members k :
  Forall2 (projects_member project fields) (List.filter (present_in fields) properties) members ->
  k ∈ (fst <$> members) <-> k ∈ (fst <$> properties) /\ k ∈ (fst <$> fields).
Proof.
  intros Hm. rewrite (projected_keys _ _ _ _ Hm). split.
  - intros (p & -> & [Hp Hf]%elem_of_present)%list_elem_of_fmap. split; [by apply list_elem_of_fmap_2|done].
  - intros [(p & -> & Hp)%list_elem_of_fmap Hf]. by apply list_elem_of_fmap_2, elem_of_present.
Qed.
(** Neither an array nor an object. *)
Definition atom (v : json) : Prop := match v with JArr _ | JObj _ => False | _ => True end.
Lemma project_scalar_atom kind v p : _project_scalar kind v = Ok p -> atom p /\ plain p.
Proof.
  intros Hs. destruct (project_scalar_kept kind v p Hs) as [->|(_ & s & _ & ->)]; [|split; [done|constructor]].
  unfold _project_scalar in Hs. destruct v as [| |z| | | |]; try (split; [done|by constructor]); repeat case_match; try done.
  apply bind_unit_ok in Hs as [Hz%raise_if_ok _]. split; [done|]. constructor. unfold SAFE_INTEGER_LIMIT in Hz. unfold SAFE_INTEGER_MAX. lia.
Qed.
Lemma project_instant_atom v precision p : _project_instant v precision = Ok p -> atom p /\ plain p.
Proof. intros Hv. pose proof (project_instant_kept _ _ _ Hv) as ->. destruct v; cbn in Hv; try done. split; [done|constructor]. Qed.
Lemma project_uuid_atom v version p : _project_uuid v version = Ok p -> atom p /\ plain p.
Proof. intros Hv. pose proof (project_uuid_kept _ _ _ Hv) as ->. destruct v; cbn in Hv; try done. split; [done|constructor]. Qed.
Lemma project_enum_atom v values p : _project (NEnum values) v = Ok p -> atom p /\ plain p.
Proof. cbn. destruct v; try done. intros [_ [= <-]]%bind_unit_ok. split; [done|constructor]. Qed.
Lemma atom_normal v : atom v -> normal v = v.
Proof. by destruct v. Qed.

Lemma project_plain n v p : well_formed n -> _project n v = Ok p -> plain p.
Proof.
  revert v p. induction n as [properties required IH|items IH|items IH|values|precision|version|kind] using node_induction; intros v p Hw Hv; inversion Hw as [? ? Hnd Hwp|? Hwi|? Hwi| | | |]; subst.
  - cbn [_project] in Hv. destruct v as [| | | | | |fields]; try done. apply bind_unit_ok in Hv as [_ (members & Hm%project_properties_ok & [= <-])%bind_ok].
    constructor; [rewrite (projected_keys _ _ _ _ Hm); by apply present_nodup|]. rewrite Forall_forall in IH, Hwp. apply Forall_forall. intros m Hin.
    apply list_elem_of_lookup in Hin as [i Hi]. destruct (Forall2_lookup_r _ _ _ _ _ Hm Hi) as (q & Hq%list_elem_of_lookup_2 & _ & x & _ & Hx).
    apply elem_of_present in Hq as [Hq _]. by apply (IH q Hq x); [apply Hwp|].
  - cbn [_project] in Hv. destruct v as [| | | | |l|]; try done. apply bind_ok in Hv as (members & Hm%map_result_ok & [= <-]). constructor.
    clear Hw. induction Hm; constructor; [by eapply IH|done].
  - cbn [_project] in Hv. destruct v as [| | | | |l|]; try done. apply bind_ok in Hv as (members & Hm%map_result_ok & (q & Hq & [= <-])%bind_ok). constructor.
    apply set_members_fixed in Hq as [_ Hin]. apply Forall_forall. intros m Hmq%Hin. apply list_elem_of_lookup in Hmq as [i Hi].
    destruct (Forall2_lookup_r _ _ _ _ _ Hm Hi) as (x & _ & Hx). by eapply IH.
  - by eapply project_enum_atom.
  - by eapply project_instant_atom.
  - by eapply project_uuid_atom.
  - by eapply project_scalar_atom.
Qed.

(** ** A projection is determined by its canonical bytes *)

Lemma list_normal_inj (P : json -> Prop) q q' :
  (forall m m', P m -> P m' -> normal m = normal m' -> m = m') -> Forall P q -> Forall P q' -> normal <$> q = normal <$> q' -> q = q'.
Proof.
  intros HP Hq. revert q'. induction Hq as [|m q Hm _ IH]; intros [|m' q'] Hq'; try done. apply Forall_cons in Hq' as [Hm' Hq'].
  rewrite !fmap_cons. intros [= Hn Hl]. f_equal; [by apply HP|by apply IH].
Qed.
Lemma projected_normal_inj properties fields fields' members members' :
  NoDup (fst <$> properties) ->
  Forall (fun p => forall v v' m m', _project p.2 v = Ok m -> _project p.2 v' = Ok m' -> normal m = normal m' -> m = m') properties ->
  Forall2 (projects_member _project fields) (List.filter (present_in fields) properties) members ->
  Forall2 (projects_member _project fields') (List.filter (present_in fields') properties) members' ->
  normal (JObj members) = normal (JObj members') -> members = members'.
Proof.
  intros Hnd IH Hm Hm' [= Hn]. set (norm := fun p : string * json => (p.1, normal p.2)) in Hn.
  assert (norm <$> members ≡ₚ norm <$> members') as Hp by by rewrite <- (sorted_by_perm fst (norm <$> members)), Hn, sorted_by_perm.
  assert (forall l : list (string * json), fst <$> (norm <$> l) = fst <$> l) as Hfst by (intros l; by rewrite <- list_fmap_compose).
  assert (forall k, k ∈ (fst <$> members) <-> k ∈ (fst <$> members')) as Hk by (intros k; by rewrite <- (Hfst members), Hp, Hfst).
  rewrite (present_ext fields' fields) in Hm'.
  2:{ intros p Hin. apply (list_elem_of_fmap_2 fst) in Hin. specialize (Hk p.1). rewrite (projected_key _ _ _ _ _ Hm), (projected_key _ _ _ _ _ Hm') in Hk. tauto. }
  assert (NoDup (fst <$> members)) as Hnm by (rewrite (projected_keys _ _ _ _ Hm); by apply present_nodup).
  apply list_eq_Forall2. apply Forall2_same_length_lookup. split; [by rewrite <- (Forall2_length _ _ _ Hm), (Forall2_length _ _ _ Hm')|].
  intros i m m' Hi Hi'. destruct (Forall2_lookup_r _ _ _ _ _ Hm Hi) as (p & Hpi & Hp1 & v & _ & Hv).
  destruct (Forall2_lookup_r _ _ _ _ _ Hm' Hi') as (p' & Hpi' & Hp1' & v' & _ & Hv'). rewrite Hpi in Hpi'. injection Hpi' as <-.
  destruct m as [k m], m' as [k' m']. cbn [fst snd] in *. subst k k'. f_equal. apply list_elem_of_lookup_2, elem_of_present in Hpi as [Hin _].
  rewrite Forall_forall in IH. apply (IH p Hin v v'); [done..|]. assert (find_field p.1 (norm <$> members) = find_field p.1 (norm <$> members')) as He by (apply find_field_perm; [by rewrite Hfst|done]).
  apply list_elem_of_lookup_2 in Hi, Hi'. assert (NoDup (fst <$> members')) as Hnm' by by rewrite <- Hfst, <- Hp, Hfst.
  unfold norm in He. rewrite !find_field_map in He. pose proof (find_field_found _ _ Hnm Hi) as H1f. pose proof (find_field_found _ _ Hnm' Hi') as H2f. cbn [fst snd] in *.
  rewrite H1f, H2f in He. by injection He.
Qed.
Lemma projections items l members : Forall2 (fun x m => _project items x = Ok m) l members -> Forall (fun m => exists x, _project items x = Ok m) members.
Proof. induction 1; constructor; eauto. Qed.
Lemma project_normal_inj n v v' p p' :
  well_formed n -> _project n v = Ok p -> _project n v' = Ok p' -> normal p = normal p' -> p = p'.
Proof.
  revert v v' p p'. induction n as [properties required IH|items IH|items IH|values|precision|version|kind] using node_induction;
    intros v v' p p' Hw Hv Hv' Hn; inversion Hw as [? ? Hnd Hwp|? Hwi|? Hwi| | | |]; subst.
  - cbn [_project] in Hv, Hv'. destruct v as [| | | | | |fields], v' as [| | | | | |fields']; try done.
    apply bind_unit_ok in Hv as [_ (members & Hm%project_properties_ok & [= <-])%bind_ok].
    apply bind_unit_ok in Hv' as [_ (members' & Hm'%project_properties_ok & [= <-])%bind_ok]. f_equal.
    eapply (projected_normal_inj properties); [exact Hnd| |exact Hm|exact Hm'|exact Hn]. rewrite Forall_forall in IH, Hwp |- *.
    intros q Hq x x' m m' Hx Hx'. by apply (IH q Hq x x'); [apply Hwp|..].
  - cbn [_project] in Hv, Hv'. destruct v as [| | | | |l|], v' as [| | | | |l'|]; try done.
    apply bind_ok in Hv as (members & Hm%map_result_ok & [= <-]). apply bind_ok in Hv' as (members' & Hm'%map_result_ok & [= <-]).
    cbn [normal] in Hn. injection Hn as Hn. f_equal. apply (list_normal_inj (fun m => exists x, _project items x = Ok m)); [|by eapply projections; exact Hm|by eapply projections; exact Hm'|done].
    intros m m' [x Hx] [x' Hx']. by apply (IH x x').
  - cbn [_project] in Hv, Hv'. destruct v as [| | | | |l|], v' as [| | | | |l'|]; try done.
    apply bind_ok in Hv as (members & Hm%map_result_ok & (q & Hq & [= <-])%bind_ok). apply bind_ok in Hv' as (members' & Hm'%map_result_ok & (q' & Hq' & [= <-])%bind_ok).
    apply set_members_fixed in Hq as [_ Hq], Hq' as [_ Hq']. apply projections in Hm, Hm'. rewrite Forall_forall in Hm, Hm'.
    cbn [normal] in Hn. injection Hn as Hn. f_equal. apply (list_normal_inj (fun m => exists x, _project items x = Ok m)); [|apply Forall_forall; eauto..|done].
    intros m m' [x Hx] [x' Hx']. by apply (IH x x').
  - apply project_enum_atom in Hv as [Ha _], Hv' as [Ha' _]. by rewrite !atom_normal in Hn.
  - apply project_instant_atom in Hv as [Ha _], Hv' as [Ha' _]. by rewrite !atom_normal in Hn.
  - apply project_uuid_atom in Hv as [Ha _], Hv' as [Ha' _]. by rewrite !atom_normal in Hn.
  - apply project_scalar_atom in Hv as [Ha _], Hv' as [Ha' _]. by rewrite !atom_normal in Hn.
Qed.
(** ** What does not matter *)

(** Values that differ in the order of keys, in the order and the repetition of the members of sets, and in the
    composition of canonical text. *)
#[warnings="-register-all"]
Inductive alike : node -> json -> json -> Prop :=
| alike_same n v : alike n v v
| alike_object properties required f g : (forall k, k ∈ (fst <$> f) <-> k ∈ (fst <$> g)) ->
    (forall p v w, p ∈ properties -> find_field p.1 f = Some v -> find_field p.1 g = Some w -> alike p.2 v w) ->
    alike (NObject properties required) (JObj f) (JObj g)
| alike_sequence items l l' : Forall2 (alike items) l l' -> alike (NSequence items) (JArr l) (JArr l')
| alike_set items l l' : (forall v, v ∈ l -> exists w, w ∈ l' /\ alike items v w) -> (forall w, w ∈ l' -> exists v, v ∈ l /\ alike items v w) ->
    alike (NSet items) (JArr l) (JArr l')
| alike_text s t : nfc s = nfc t -> alike (NScalar "canonical_text") (JStr s) (JStr t).

(** The same members, in any order and number, are the same set. *)
Lemma set_members_same l l' q :
  (forall m m' text, m ∈ l -> m' ∈ l -> canonical_bytes m = Ok text -> canonical_bytes m' = Ok text -> m = m') ->
  (forall m, m ∈ l <-> m ∈ l') -> set_members l = Ok q -> set_members l' = Ok q.
Proof.
  intros Hinj Hl (pairs & Hp & ->)%set_members_ok.
  assert (exists pairs', Forall2 keyed l' pairs') as (pairs' & Hp').
  { assert (Forall (fun m => exists p, keyed m p) l') as Hk.
    { apply Forall_forall. intros m Hm%Hl. apply list_elem_of_lookup in Hm as [i Hi]. destruct (Forall2_lookup_l _ _ _ _ _ Hp Hi) as (p & _ & Hk). by exists p. }
    clear -Hk. induction Hk as [|m l' (p & Hp) _ (pairs & IH)]; [by exists []|exists (p :: pairs); by constructor]. }
  apply set_members_ok. exists pairs'. split; [done|]. f_equal.
  assert (forall p, p ∈ pairs <-> p ∈ pairs') as Hpp.
  { assert (forall k k' ps ps', (forall m : json, m ∈ k -> m ∈ k') -> Forall2 keyed k ps -> Forall2 keyed k' ps' -> forall p, p ∈ ps -> p ∈ ps') as Hgen; [|intros p; split; [apply (Hgen l l')|apply (Hgen l' l)]; try done; intros m Hm; by apply Hl].
    intros k k' ps ps' Hsub Hk Hk' [t m] Hin. destruct (keyed_elem _ _ _ Hk Hin) as [Hm%Hsub Ht]. cbn in *. apply list_elem_of_lookup in Hm as [i Hi].
    destruct (Forall2_lookup_l _ _ _ _ _ Hk' Hi) as ([t' m'] & Hi' & Ht' & Hm'). cbn in *. subst. rewrite Ht in Ht'. injection Ht' as <-. by eapply list_elem_of_lookup_2. }
  destruct (dict_of_pairs_facts pairs) as (N1 & I1 & K1), (dict_of_pairs_facts pairs') as (N2 & I2 & K2).
  assert (forall t m m', (t, m) ∈ pairs -> (t, m') ∈ pairs -> m = m') as Hfun.
  { intros t m m' H1' H2'. destruct (keyed_elem _ _ _ Hp H1') as [M1 T1], (keyed_elem _ _ _ Hp H2') as [M2 T2]. by eapply Hinj. }
  assert (forall k (ps d : list (string * json)), (forall p, p ∈ d -> p ∈ ps) -> (forall x, x ∈ (fst <$> d) <-> x ∈ (fst <$> ps)) -> (forall p, p ∈ ps <-> p ∈ pairs) -> k ∈ d <-> k ∈ pairs) as Hd.
  { intros [t m] ps d Hin Hkeys Hps. split; [by intros ?%Hin%Hps|]. intros Hm. assert (t ∈ (fst <$> d)) as ([t' m'] & -> & Hd)%list_elem_of_fmap.
    { apply Hkeys. apply Hps in Hm. by apply (list_elem_of_fmap_2 fst _ (t, m)). }
    cbn [fst] in *. by rewrite (Hfun t' m m' Hm (proj1 (Hps _) (Hin _ Hd))). }
  apply sorted_by_ext; [done|]. apply NoDup_Permutation; [by eapply NoDup_fmap_1|by eapply NoDup_fmap_1|]. intros p.
  rewrite (Hd p pairs) by done. symmetry. apply (Hd p pairs'); [done..|]. intros x. by rewrite Hpp.
Qed.
Lemma project_alike n v w p : well_formed n -> alike n v w -> _project n v = Ok p -> _project n w = Ok p.
Proof.
  revert v w p. induction n as [properties required IH|items IH|items IH|values|precision|version|kind] using node_induction;
    intros v w p Hw Ha Hv; inversion Hw as [? ? Hnd Hwp|? Hwi|? Hwi| | | |]; inversion Ha as [|? ? f g Hk Hfg|? l l' Hl|? l l' Hl Hl'|s t Hst]; subst; try exact Hv.
  - cbn [_project] in Hv |- *. apply bind_unit_ok in Hv as [[H1' H2']%check_object_ok (members & Hm%project_properties_ok & [= <-])%bind_ok].
    rewrite (proj2 (check_object_ok _ _ _)) by (split; intros k Hin; [by apply H1', Hk|by apply Hk, H2']). cbn [mbind result_bind].
    assert (project_properties _project g properties = Ok members) as ->; [|done]. apply project_properties_ok.
    rewrite (present_ext g f) by (intros q _; by rewrite Hk). eapply Forall2_impl; [apply Forall2_in, Hm|].
    intros q m ((Hm1 & x & Hx & Hq) & [Hin Hf]%elem_of_present & _). split; [done|]. destruct (find_field q.1 g) as [y|] eqn:E; [|by apply find_field_none in E; destruct E; apply Hk].
    exists y. split; [done|]. rewrite Forall_forall in IH, Hwp. by apply (IH q Hin x y); [apply Hwp|apply (Hfg q x y)|].
  - cbn [_project] in Hv |- *. apply bind_ok in Hv as (members & Hm%map_result_ok & [= <-]).
    assert (map_result (_project items) l' = Ok members) as ->; [|done]. apply map_result_ok. clear Ha Hw. revert l' Hl. induction Hm as [|x m l members Hx Hm IHm]; intros l' Hl.
    + inversion Hl; constructor.
    + inversion Hl as [|? y ? ? Hxy]; subst. constructor; [by eapply IH|by apply IHm].
  - cbn [_project] in Hv |- *. apply bind_ok in Hv as (members & Hm%map_result_ok & (q & Hq & [= <-])%bind_ok).
    assert (exists members', Forall2 (fun x m => _project items x = Ok m) l' members' /\ (forall m, m ∈ members' -> m ∈ members)) as (members' & Hm' & Hsub).
    { assert (Forall (fun y => exists m, _project items y = Ok m /\ m ∈ members) l') as Hall.
      { apply Forall_forall. intros y (x & [i Hi]%list_elem_of_lookup & Hxy)%Hl'. destruct (Forall2_lookup_l _ _ _ _ _ Hm Hi) as (m & Hmi & Hx).
        exists m. split; [by eapply IH|by eapply list_elem_of_lookup_2]. }
      clear -Hall. induction Hall as [|y l' (m & Hy & Hin) _ (ms & Hms & Hsub)]; [exists []; split; [done|by intros m ?%elem_of_nil]|].
      exists (m :: ms). split; [by constructor|]. intros m' [->|Hm']%elem_of_cons; [done|by apply Hsub]. }
    rewrite (proj2 (map_result_ok _ _ _) Hm'). cbn [mbind result_bind]. rewrite (set_members_same members members' q); [done| | |done].
    + apply projections in Hm. rewrite Forall_forall in Hm. intros m m' text [x Hx]%Hm [x' Hx']%Hm Ht Ht'.
      eapply (project_normal_inj items); [done|exact Hx|exact Hx'|]. eapply canonical_bytes_inj; [by eapply project_plain|by eapply project_plain|exact Ht|exact Ht'].
    + intros m. split; [|apply Hsub]. intros [i Hi]%list_elem_of_lookup. destruct (Forall2_lookup_r _ _ _ _ _ Hm Hi) as (x & Hxi%list_elem_of_lookup_2 & Hx).
      destruct (Hl x Hxi) as (y & [j Hj]%list_elem_of_lookup & Hxy). destruct (Forall2_lookup_l _ _ _ _ _ Hm' Hj) as (m' & Hmj & Hy).
      pose proof (IH _ _ _ Hwi Hxy Hx) as Hy'. rewrite Hy' in Hy. injection Hy as ->. by eapply list_elem_of_lookup_2.
  - cbn [_project] in Hv |- *. unfold _project_scalar in *. cbn in *. by rewrite <- Hst.
Qed.
End Projection.

(** C20: projecting a value gives the one form that stands for all values alike it: a plain document, which is its own
    projection, and the projection of every value that differs in the order of keys, in the order or the repetition of
    the members of sets, or in the composition of canonical text. *)
Theorem projection_canonical `{JCSLaws} `{NFC} n v p :
  (forall s, nfc (nfc s) = nfc s) -> well_formed n -> _project n v = Ok p ->
  plain p /\ _project n p = Ok p /\ forall w, alike n v w -> _project n w = Ok p.
Proof.
  intros Hnfc Hw Hv. split; [by eapply project_plain|]. split; [by eapply project_fixed|]. intros w Ha. by eapply project_alike.
Qed.

(** ** Content identities *)

Section Content.
Context `{JCSLaws} `{NFC} (Hnfc : forall s, nfc (nfc s) = nfc s).

Lemma envelope_normal ns family version p : normal (JObj (content_envelope ns family version p)) =
  JObj [("domain", JStr CONTENT_DOMAIN); ("hash_policy", JStr HASH_POLICY); ("identity", normal p); ("identity_schema_family_id", JStr family);
        ("identity_schema_version", JStr version); ("namespace", JStr ns)].
Proof. reflexivity. Qed.
Lemma envelope_plain ns family version p : plain p -> plain (JObj (content_envelope ns family version p)).
Proof. intros Hp. constructor; [by apply (bool_decide_unpack _); vm_compute|]. repeat constructor. done. Qed.

(** What a content identity is made of. *)
Lemma content_built registry profile ns family version v c :
  build_content_identity registry profile ns family version v = Ok c <->
  permits registry "rcid" "h" ns = true /\
  (exists uuid, validate registry family = Ok {| pi_scheme := "rcid"; pi_namespace := "schema-family"; pi_mode := "u7"; pi_payload := uuid |}) /\
  version = ip_profile_version profile /\
  exists p text, _project (ip_root profile) v = Ok p /\ canonical_bytes (JObj (content_envelope ns family version p)) = Ok text /\
    (exists q, validate registry (content_text ns HASH_POLICY (sha256 text)) = Ok q) /\
    c = {| ci_projection := p; ci_envelope := content_envelope ns family version p; ci_canonical_utf8 := text;
           ci_canonical_byte_length := str_len text; ci_sha256 := sha256 text; ci_content_id := content_text ns HASH_POLICY (sha256 text) |}.
Proof.
  unfold build_content_identity. rewrite bind_unit_ok, raise_if_ok, negb_false_iff, bind_ok. apply and_iff_compat_l. split.
  - intros ([scheme namespace mode uuid] & Hf & [Hb%raise_if_ok [Hver%raise_if_ok (p & Hp & (text & Ht & (q & Hq & [= <-])%bind_ok)%bind_ok)%bind_ok]%bind_unit_ok]%bind_unit_ok).
    apply negb_false_iff, bool_decide_eq_true in Hb as [= -> -> ->]. apply negb_false_iff, String.eqb_eq in Hver.
    split; [by exists uuid|]. split; [done|]. exists p, text. eauto.
  - intros ((uuid & Hf) & -> & p & text & Hp & Ht & (q & Hq) & ->). eexists. split; [exact Hf|]. cbn [pi_scheme pi_namespace pi_mode].
    rewrite bool_decide_eq_true_2, String.eqb_refl by done. cbn [negb raise_if mbind result_bind]. rewrite Hp. cbn [mbind result_bind]. rewrite Ht. cbn [mbind result_bind].
    change ("rcid:v1:" +:+ ns +:+ ":h:" +:+ HASH_POLICY +:+ ":" +:+ sha256 text) with (content_text ns HASH_POLICY (sha256 text)). by rewrite Hq.
Qed.
Lemma content_text_digest ns ns' text text' : content_text ns HASH_POLICY (sha256 text) = content_text ns' HASH_POLICY (sha256 text') -> sha256 text = sha256 text'.
Proof.
  assert (forall n t, exists s, content_text n HASH_POLICY (sha256 t) = s +:+ sha256 t) as Hs.
  { intros n t. exists ("rcid:v1:" +:+ n +:+ ":h:" +:+ HASH_POLICY +:+ ":"). unfold content_text. by rewrite !str_app_assoc. }
  assert (forall t, String.length (sha256 t) = 64%nat) as Hl.
  { intros t. pose proof (Sha256.hexdigest_pattern t) as Hp. apply fullmatch_spec, matches_repeat_class in Hp. apply Hp. }
  destruct (Hs ns text) as (s & ->), (Hs ns' text') as (s' & ->). intros He. pose proof (f_equal String.length He) as Hlen. rewrite !str_length_app, !Hl in Hlen.
  rewrite <- (str_drop_app_n _ s (sha256 text) eq_refl), <- (str_drop_app_n (String.length s) s' (sha256 text')) by lia. by rewrite He.
Qed.

Lemma content_identity_same registry registry' profile ns ns' family family' version version' v w c c' :
  well_formed (ip_root profile) ->
  build_content_identity registry profile ns family version v = Ok c -> build_content_identity registry' profile ns' family' version' w = Ok c' ->
  ci_canonical_utf8 c = ci_canonical_utf8 c' -> c = c'.
Proof.
  intros Hw (_ & _ & _ & p & text & Hp & Ht & _ & ->)%content_built (_ & _ & _ & p' & text' & Hp' & Ht' & _ & ->)%content_built. cbn. intros <-.
  apply (canonical_bytes_inj _ _ _ (envelope_plain _ _ _ _ (project_plain Hnfc _ _ _ Hw Hp)) (envelope_plain _ _ _ _ (project_plain Hnfc _ _ _ Hw Hp')) Ht) in Ht'.
  rewrite !envelope_normal in Ht'. injection Ht' as Hn <- <- <-. by rewrite (project_normal_inj Hnfc _ _ _ _ _ Hw Hp Hp' Hn).
Qed.
End Content.

(** C14: a content identifier names a projection: the registry accepts it, it is the digest of a plain envelope, values
    that are alike have the same one, and equal identifiers under a profile, from any registries, mean the same
    projection, namespace, family and version, unless SHA-256 collides. *)
Theorem content_identity_binds `{JCSLaws} `{NFC} registry profile ns family version v c :
  (forall s, nfc (nfc s) = nfc s) -> well_formed (ip_root profile) ->
  build_content_identity registry profile ns family version v = Ok c ->
  (exists p, validate registry (ci_content_id c) = Ok p) /\ plain (JObj (ci_envelope c)) /\ ci_sha256 c = sha256 (ci_canonical_utf8 c) /\
  (forall w, alike (ip_root profile) v w -> build_content_identity registry profile ns family version w = Ok c) /\
  (forall registry' ns' family' version' w c', build_content_identity registry' profile ns' family' version' w = Ok c' ->
    ci_content_id c = ci_content_id c' ->
    c = c' \/ ci_canonical_utf8 c <> ci_canonical_utf8 c' /\ sha256 (ci_canonical_utf8 c) = sha256 (ci_canonical_utf8 c')).
Proof.
  intros Hnfc Hw Hc. pose proof Hc as (Hperm & Hf & Hver & p & text & Hp & Ht & Hq & ->)%content_built. cbn [ci_content_id ci_envelope ci_sha256 ci_canonical_utf8].
  split; [done|]. split; [by eapply envelope_plain, project_plain|]. split; [done|]. split.
  - intros w Ha. apply content_built. do 3 (split; [done|]). exists p, text. split; [by eapply project_alike|done].
  - intros registry' ns' family' version' w c' Hc' Hid. destruct (String.eqb_spec text (ci_canonical_utf8 c')) as [He|Hne].
    + left. by eapply (content_identity_same Hnfc registry registry' profile).
    + right. split; [done|]. apply content_built in Hc' as (_ & _ & _ & p' & text' & _ & _ & _ & ->). cbn in *. by apply content_text_digest in Hid.
Qed.

(** ** Witnesses *)
Module ProfileSample.
Import IdSample.

#[local] Instance sample_jcs : JCS := reference_jcs.
#[local] Instance sample_float : PyFloat := fun _ => SpecFloat.S754_nan.
#[local] Instance sample_nfc : NFC := fun s => s.

Definition root : node :=
  NObject [("engine", NScalar "token"); ("flags", NSet (NObject [("name", NScalar "token"); ("level", NScalar "safe_integer")] ["name"]));
           ("title", NScalar "canonical_text")] ["engine"; "flags"].
Definition profile : IdentityProfile := {| ip_profile_version := "1.0.0"; ip_root := root |}.
Definition flag (name : string) (level : Z) : json := JObj [("level", JInt level); ("name", JStr name)].
Definition value : json := JObj [("flags", JArr [flag "unicode" 2; flag "dotall" 1; flag "unicode" 2]); ("engine", JStr "pcre2")].
Definition other : json := JObj [("engine", JStr "pcre2"); ("flags", JArr [flag "dotall" 1; flag "unicode" 2])].
Definition projection : json :=
  JObj [("engine", JStr "pcre2"); ("flags", JArr [JObj [("name", JStr "dotall"); ("level", JInt 1)]; JObj [("name", JStr "unicode"); ("level", JInt 2)]])].

Lemma root_well_formed : well_formed root.
Proof.
  constructor; [by apply (bool_decide_unpack _); vm_compute|]. apply Forall_cons_2; [constructor|]. apply Forall_cons_2; [|repeat constructor].
  constructor. constructor; [by apply (bool_decide_unpack _); vm_compute|repeat constructor].
Qed.
Lemma values_alike : alike root value other.
Proof.
  constructor; [intros k; cbn; set_solver|]. intros p v w Hp Hv Hw. unfold root in Hp.
  repeat (apply elem_of_cons in Hp as [->|Hp]; [cbn in Hv, Hw; first [discriminate | injection Hv as <-; injection Hw as <-]|]); [constructor| |by apply elem_of_nil in Hp].
  cbn [snd]. constructor; intros x Hx; (exists x; split; [set_solver|constructor]).
Qed.

Lemma projection_canonical_witness : _project root value = Ok projection /\ plain projection /\ _project root other = Ok projection.
Proof.
  assert (_project root value = Ok projection) as Hv by (vm_compute; reflexivity). split; [exact Hv|].
  destruct (projection_canonical root value projection (fun s => eq_refl) root_well_formed Hv) as (Hp & _ & Ha). split; [exact Hp|]. apply Ha, values_alike.
Defined.

Definition identified : ContentIdentity := Eval vm_compute in
  match build_content_identity registry profile "campaign-content" family "1.0.0" value with
  | Ok c => c
  | Raise _ => {| ci_projection := JNull; ci_envelope := []; ci_canonical_utf8 := ""; ci_canonical_byte_length := 0; ci_sha256 := ""; ci_content_id := "" |}
  end.
Lemma content_identity_binds_witness :
  build_content_identity registry profile "campaign-content" family "1.0.0" value = Ok identified /\
  build_content_identity registry profile "campaign-content" family "1.0.0" other = Ok identified.
Proof.
  assert (build_content_identity registry profile "campaign-content" family "1.0.0" value = Ok identified) as Hc by (vm_compute; reflexivity). split; [exact Hc|].
  destruct (content_identity_binds registry profile "campaign-content" family "1.0.0" value identified (fun s => eq_refl) root_well_formed Hc) as (_ & _ & _ & Ha & _).
  apply Ha, values_alike.
Defined.
End ProfileSample.
