(* ===== verification/CampaignCoordinator.v ===== *)
(** * The campaign coordinator

    campaign_manager.py of the control plane: every shard of a compiled campaign goes to
    a worker, its physical attempts are checked against the shard and numbered, and all
    of them are published, infrastructure failures included; only a complete campaign
    returns its manifest.  Identities that are lists count as unorderable. *)

From S2P Require Export TypedIds Dicts Sharding Timestamps.

(** What the coordinator reads of a compiled campaign. *)
Record logical := { le_execution : logical_execution; le_document : list (string * json) }.
Record compiled_campaign := { cc_logical_executions : list logical; cc_shards : list shard }.
Definition attempt := list (string * json).
Definition le_id (l : logical) : string := logical_execution_id (le_execution l).

(** The worker and the evidence sink. *)
Class Campaign (W : Type) := {
  execute_shard : string -> list logical -> eff W (list attempt);
  publish : compiled_campaign -> list (shard * list attempt) -> eff W (list (string * json))
}.
Definition _stamp `{Clock W} : eff W string := t ← now; mret (rfc3339 t).

(** [attempt.setdefault(key, value)] *)
Definition setdefault (key : string) (value : json) (fields : list (string * json)) : list (string * json) :=
  match find_field key fields with Some _ => fields | None => fields ++ [(key, value)] end.
(** [bool(v)] and [v == n] *)
Definition truthy (v : json) : bool :=
  match v with
  | JNull => false | JBool b => b | JInt z => negb (z =? 0) | JFloat (SpecFloat.S754_zero _) => false | JFloat _ => true
  | JStr s => negb (str_empty s) | JArr l => negb (list_empty l) | JObj l => negb (list_empty l)
  end.
Definition equals_int (v : json) (n : Z) : bool :=
  match v with
  | JInt z => z =? n
  | JBool b => (if b then 1 else 0) =? n
  | JFloat (SpecFloat.S754_zero _) => n =? 0
  | JFloat (SpecFloat.S754_finite s m e) => (if s then - Z.pos m else Z.pos m) * 2 ^ Z.max 0 e =? n * 2 ^ Z.max 0 (- e)
  | _ => false
  end.

(** [sorted(observed) != sorted(ids) or len(observed) != len(set(observed))] *)
Definition numeric (v : json) : bool := match v with JInt _ | JBool _ | JFloat _ => true | _ => false end.
Definition check_observed (observed : list json) (ids : list string) : result unit :=
  let e := CampaignExecutionError "worker result set did not equal the shard denominator" in
  match mapM (fun v => match v with JStr s => Some s | _ => None end) observed with
  | Some observed => raise_if (negb (bool_decide (sorted_strings observed = sorted_strings ids)) || has_duplicates observed) e
  | None => Raise (if Nat.leb (length observed) 1 || forallb numeric observed then e else OtherException "TypeError" "")
  end.
(** [logical_by_id[item]] *)
Definition logical_by_id (compiled : compiled_campaign) (item : string) : result logical :=
  match List.find (fun l => String.eqb (le_id l) item) (rev (cc_logical_executions compiled)) with
  | Some l => Ok l
  | None => Raise (KeyError item)
  end.
Definition present (key : string) (a : attempt) : bool := match find_field key a with Some JNull | None => false | Some _ => true end.

Section Coordinator.
Context `{Campaign W} `{IdSource W} `{Clock W} (registry : NamespaceRegistry).

Definition number_attempt (raw : attempt) : eff W attempt :=
  physical_run_id ← generate_assigned_id registry "rcid" "physical-run";
  let attempt := dict_set "physical_run_id" (JStr physical_run_id) raw in
  let attempt := setdefault "attempt_number" (JInt 1) attempt in
  stamp ← _stamp;
  let attempt := setdefault "observed_at" (JStr stamp) attempt in
  _ ← lift (raise_if (Bool.eqb (present "response" attempt) (present "infrastructure_failure" attempt))
              (CampaignExecutionError "physical attempt must contain exactly one target response or infrastructure failure"));
  mret attempt.
Fixpoint number_attempts (raws : list attempt) : eff W (list attempt) :=
  match raws with
  | [] => mret []
  | raw :: raws => a ← number_attempt raw; l ← number_attempts raws; mret (a :: l)
  end.
Definition run_shard (compiled : compiled_campaign) (s : shard) : eff W (shard * list attempt) :=
  logicals ← lift (map_result (logical_by_id compiled) (sh_logical_execution_ids s));
  raw_attempts ← execute_shard (sh_selection_key s) logicals;
  _ ← lift (check_observed ((fun raw => default JNull (find_field "logical_execution_id" raw)) <$> raw_attempts) (sh_logical_execution_ids s));
  attempts ← number_attempts raw_attempts;
  mret (s, attempts).
Fixpoint run_shards (compiled : compiled_campaign) (shards : list shard) : eff W (list (shard * list attempt)) :=
  match shards with
  | [] => mret []
  | s :: shards => r ← run_shard compiled s; l ← run_shards compiled shards; mret (r :: l)
  end.

(** The attempts without a target response. *)
Definition infrastructure_failures (attempts_by_shard : list (shard * list attempt)) : Z :=
  Z.of_nat (length (List.filter (present "infrastructure_failure") (concat (snd <$> attempts_by_shard)))).

Definition execute (compiled : compiled_campaign) : eff W (list (string * json)) :=
  _ ← lift (raise_if (has_duplicates (le_id <$> cc_logical_executions compiled))
              (CampaignExecutionError "logical execution identities are not unique"));
  attempts_by_shard ← run_shards compiled (cc_shards compiled);
  manifest ← publish compiled attempts_by_shard;
  let failures := infrastructure_failures attempts_by_shard in
  _ ← lift (raise_if (negb (failures =? 0))
              (CampaignExecutionError ("campaign preserved " +:+ dec failures +:+ " infrastructure failure(s); denominator remains incomplete")));
  _ ← lift (raise_if (negb (truthy (default JNull (find_field "complete" manifest))) ||
                      negb (equals_int (default JNull (find_field "accepted_observation_count" manifest)) (Z.of_nat (length (cc_logical_executions compiled)))))
              (CampaignExecutionError "evidence manifest did not reconcile the complete logical denominator"));
  mret manifest.
End Coordinator.

(** ** What a shard run establishes *)

Lemma find_dict_set k k' v fields : find_field k' (dict_set k v fields) = if String.eqb k k' then Some v else find_field k' fields.
Proof.
  unfold find_field. induction fields as [|[x y] fields IH]; cbn [dict_set List.find fst]; [by destruct (String.eqb k k')|].
  destruct (String.eqb_spec k x) as [->|Hne]; cbn [List.find fst]; [by destruct (String.eqb x k')|].
  destruct (String.eqb_spec x k') as [->|]; [|exact IH]. by rewrite (proj2 (String.eqb_neq k k') Hne).
Qed.
Lemma find_setdefault k k' v fields : k <> k' -> find_field k' (setdefault k v fields) = find_field k' fields.
Proof.
  intros Hne. unfold setdefault. destruct (find_field k fields); [done|]. unfold find_field. induction fields as [|[x y] fields IH]; cbn [app List.find fst].
  - by rewrite (proj2 (String.eqb_neq k k') Hne).
  - by destruct (String.eqb x k').
Qed.

Lemma check_observed_ok observed ids : check_observed observed ids = Ok tt -> exists l, observed = JStr <$> l /\ l ≡ₚ ids /\ NoDup l.
Proof.
  unfold check_observed. destruct (mapM _ observed) as [l|] eqn:E; [|done]. intros Hg%raise_if_ok. apply orb_false_iff in Hg as [Hs%negb_false_iff%bool_decide_eq_true Hd%has_duplicates_false].
  exists l. split_and!; [| |done].
  - clear Hs Hd. apply mapM_Some in E. induction E as [|v s observed l Hv _ IH]; [done|]. cbn [fmap list_fmap]. destruct v; try done. injection Hv as ->. by f_equal.
  - unfold sorted_strings in Hs. by rewrite <- (sorted_by_perm id l), Hs, sorted_by_perm.
Qed.

(** A published attempt: the result of one logical execution, with a run of its own. *)
Definition numbered (raw a : attempt) : Prop :=
  find_field "logical_execution_id" a = find_field "logical_execution_id" raw /\
  present "response" a = negb (present "infrastructure_failure" a) /\
  exists uuid, uuid7_text uuid /\ member "physical_run_id" a = JStr (assigned_text "rcid" "physical-run" uuid).

Section Runs.
Context `{Campaign W} `{IdSourceLaws W} `{Clock W} (registry : NamespaceRegistry).

Lemma number_attempt_ok raw w a w' : number_attempt registry raw w = (Ok a, w') -> numbered raw a.
Proof.
  unfold number_attempt. intros Hn. eff_inv.
  match goal with A : generate_assigned_id _ _ _ _ = _, B : raise_if _ _ = _ |- _ => apply generate_ok in A as (_ & _ & uuid & Hu & ->); apply raise_if_ok, eqb_false_iff in B; rename B into Hx end.
  split; [|split; [|exists uuid; split; [done|]]].
  - by rewrite !find_setdefault, find_dict_set.
  - destruct (present _ _), (present _ _); done.
  - unfold member. by rewrite !find_setdefault, find_dict_set.
Qed.
Lemma number_attempts_ok raws w l w' : number_attempts registry raws w = (Ok l, w') -> Forall2 numbered raws l.
Proof.
  revert w l. induction raws as [|raw raws IH]; intros w l Hn; cbn [number_attempts] in Hn; eff_inv; constructor; [by eapply number_attempt_ok|by eapply IH].
Qed.
Lemma numbered_ids raws l ids : Forall2 numbered raws l -> (fun raw => default JNull (find_field "logical_execution_id" raw)) <$> raws = JStr <$> ids ->
  find_field "logical_execution_id" <$> l = (fun id => Some (JStr id)) <$> ids.
Proof.
  intros Hn. revert ids. induction Hn as [|raw b raws k Hb _ IH]; intros [|id ids] Hids; try done.
  cbn [fmap list_fmap] in Hids |- *. injection Hids as Hid Hids. rewrite (IH ids Hids). f_equal.
  destruct Hb as (-> & _). destruct (find_field "logical_execution_id" raw); cbn in Hid; [by subst|done].
Qed.
(** The attempts of a shard are one of each of its logical executions. *)
Definition covers (s : shard) (l : list attempt) : Prop :=
  (find_field "logical_execution_id" <$> l) ≡ₚ (fun id => Some (JStr id)) <$> sh_logical_execution_ids s /\
  Forall (fun a => exists raw, numbered raw a) l.
Lemma shard_covered compiled s w r w' : run_shard registry compiled s w = (Ok r, w') -> r.1 = s /\ covers s r.2.
Proof.
  unfold run_shard. intros Hr. eff_inv. split; [done|]. cbn [snd]. repeat match goal with u : unit |- _ => destruct u end.
  match goal with A : check_observed _ _ = Ok _, B : number_attempts _ ?raws _ = (Ok ?l, _) |- covers _ ?l =>
    destruct (check_observed_ok _ _ A) as (ids & Hids & Hp & _); apply number_attempts_ok in B; rename B into Hn end.
  split; [|apply Forall_forall; intros b [i Hi]%list_elem_of_lookup; destruct (Forall2_lookup_r _ _ _ _ _ Hn Hi) as (raw & _ & ?); by exists raw].
  rewrite <- Hp. apply Permutation_refl'. by eapply numbered_ids.
Qed.
Lemma shards_covered compiled shards w l w' :
  run_shards registry compiled shards w = (Ok l, w') -> fst <$> l = shards /\ Forall (fun r => covers r.1 r.2) l.
Proof.
  revert w l. induction shards as [|s shards IH]; intros w l Hr; cbn [run_shards] in Hr; eff_inv; [done|].
  match goal with A : run_shard _ _ _ _ = _, B : run_shards _ _ _ _ = _ |- _ => apply shard_covered in A as [<- Hc]; apply IH in B as [<- Hl] end.
  split; [done|]. by constructor.
Qed.
Lemma covered_ids l : Forall (fun r => covers r.1 r.2) l ->
  (find_field "logical_execution_id" <$> concat (snd <$> l)) ≡ₚ (fun id => Some (JStr id)) <$> ((fst <$> l) ≫= sh_logical_execution_ids).
Proof.
  induction 1 as [|[s a] l [Hp _] _ IH]; [done|]. cbn [fmap list_fmap concat mbind list_bind fst snd] in *. rewrite !fmap_app. by rewrite Hp, IH.
Qed.
End Runs.

(** C15: a campaign whose shards partition its logical executions returns a manifest only when the sink has published,
    shard by shard, exactly one attempt of every logical execution, each with a target response, no infrastructure
    failure and a run identifier of its own; with any infrastructure failure among the attempts everything is published
    all the same and the campaign is refused. *)
Theorem coordinator_complete `{Campaign W} `{IdSourceLaws W} `{Clock W} registry identity size compiled :
  shard_by_selection_locality identity (le_execution <$> cc_logical_executions compiled) size = Ok (cc_shards compiled) ->
  (forall w manifest w', execute registry compiled w = (Ok manifest, w') -> exists attempts w1,
    publish compiled attempts w1 = (Ok manifest, w') /\ fst <$> attempts = cc_shards compiled /\
    NoDup (le_id <$> cc_logical_executions compiled) /\
    (find_field "logical_execution_id" <$> concat (snd <$> attempts)) ≡ₚ (fun l => Some (JStr (le_id l))) <$> cc_logical_executions compiled /\
    Forall (fun a => present "response" a = true /\ present "infrastructure_failure" a = false /\
      exists uuid, uuid7_text uuid /\ member "physical_run_id" a = JStr (assigned_text "rcid" "physical-run" uuid)) (concat (snd <$> attempts))) /\
  (forall w attempts w1 manifest w2, NoDup (le_id <$> cc_logical_executions compiled) ->
    run_shards registry compiled (cc_shards compiled) w = (Ok attempts, w1) -> publish compiled attempts w1 = (Ok manifest, w2) ->
    Exists (fun a => present "infrastructure_failure" a = true) (concat (snd <$> attempts)) ->
    exists message, execute registry compiled w = (Raise (CampaignExecutionError message), w2)).
Proof.
  intros Hs. apply shards_place in Hs. split.
  - intros w manifest w' He. unfold execute in He. eff_inv.
    match goal with A : run_shards _ _ _ _ = _ |- _ => apply shards_covered in A as [Hf Hc] end.
    match goal with A : publish _ ?l ?w = _ |- _ => exists l, w; split; [exact A|] end. split; [done|].
    match goal with A : raise_if (has_duplicates _) _ = _, B : raise_if (negb (infrastructure_failures _ =? 0)) _ = _ |- _ =>
      apply raise_if_ok, has_duplicates_false in A; apply raise_if_ok, negb_false_iff, Z.eqb_eq in B; rename A into Hnd, B into Hz end.
    split; [done|]. split.
    + rewrite (covered_ids _ Hc), Hf. apply (fmap_Permutation (fun p : string * string => Some (JStr p.2))) in Hs.
      rewrite bind_fmap, <- !list_fmap_compose in Hs. unfold compose in Hs. rewrite <- Hs, bind_fmap. apply Permutation_refl', list_bind_ext; [|done].
      intros s. unfold placed. by rewrite <- list_fmap_compose.
    + unfold infrastructure_failures in Hz. apply Forall_forall. intros b Hb.
      assert (present "infrastructure_failure" b = false) as Hi.
      { destruct (present "infrastructure_failure" b) eqn:E; [|done]. assert (b ∈ List.filter (present "infrastructure_failure") (concat (snd <$> a0))) as Hin by by apply elem_of_lfilter.
        destruct (List.filter _ _); [by apply elem_of_nil in Hin|done]. }
      apply list_elem_of_In, in_concat in Hb as (l & Hl%list_elem_of_In & Hb%list_elem_of_In). apply list_elem_of_fmap in Hl as (r & -> & Hr).
      rewrite Forall_forall in Hc. destruct (Hc r Hr) as [_ Hall]. rewrite Forall_forall in Hall. destruct (Hall b Hb) as (raw & _ & Hx & Hu).
      rewrite Hi in Hx. done.
  - intros w attempts w1 manifest w2 Hnd Hr Hp Hx. unfold execute. rewrite lift_bind. rewrite (proj2 (has_duplicates_false _) Hnd). cbn [raise_if].
    unfold mbind at 1, eff_bind at 1. rewrite Hr. unfold mbind at 1, eff_bind at 1. rewrite Hp. rewrite lift_bind.
    assert ((infrastructure_failures attempts =? 0) = false) as ->; [|by eexists].
    apply Z.eqb_neq. unfold infrastructure_failures. apply Exists_exists in Hx as (b & Hb & Hi).
    assert (b ∈ List.filter (present "infrastructure_failure") (concat (snd <$> attempts))) as Hin by by apply elem_of_lfilter.
    destruct (List.filter _ _); [by apply elem_of_nil in Hin|done].
Qed.

(** ** Witness *)
Module CampaignSample.
Import IdSample.

Definition executions : list logical :=
  (fun p => {| le_execution := {| selection_key := p.1; logical_execution_id := p.2 |}; le_document := [] |}) <$> [("re", "e1"); ("pcre2", "e2"); ("re", "e3")].
Definition sharded : list shard := Eval vm_compute in
  match shard_by_selection_locality sample_identity (le_execution <$> executions) 2 with Ok shards => shards | Raise _ => [] end.
Definition compiled : compiled_campaign := {| cc_logical_executions := executions; cc_shards := sharded |}.
Definition answer_of (l : logical) : attempt := [("logical_execution_id", JStr (le_id l)); ("response", JStr "match")].
#[local] Instance sample_campaign : Campaign Z := {|
  execute_shard := fun selection logicals w => (Ok (answer_of <$> rev logicals), w);
  publish := fun compiled attempts w =>
    (Ok [("complete", JBool true); ("accepted_observation_count", JInt (Z.of_nat (length (concat (snd <$> attempts)))))], w)
|}.
#[local] Instance sample_ids : IdSource Z := {| time_ms := fun w => (Ok 1790000000000, w); randbits := fun bits w => (Ok (w mod 2 ^ bits), w + 1) |}.
#[local] Instance sample_id_laws : IdSourceLaws Z.
Proof. intros bits w n w' Hb [= <- _]. apply Z.mod_pos_bound. lia. Qed.
#[local] Instance sample_clock : Clock Z := fun w => (Ok (1790000000000000 + w), w).

Lemma coordinator_complete_witness :
  shard_by_selection_locality sample_identity (le_execution <$> cc_logical_executions compiled) 2 = Ok (cc_shards compiled) /\
  execute registry compiled 0 = (Ok [("complete", JBool true); ("accepted_observation_count", JInt 3)], 6) /\
  NoDup (le_id <$> cc_logical_executions compiled).
Proof.
  assert (shard_by_selection_locality sample_identity (le_execution <$> cc_logical_executions compiled) 2 = Ok (cc_shards compiled)) as Hs by (vm_compute; reflexivity).
  assert (execute registry compiled 0 = (Ok [("complete", JBool true); ("accepted_observation_count", JInt 3)], 6)) as He by (vm_compute; reflexivity).
  split; [exact Hs|]. split; [exact He|].
  destruct (coordinator_complete registry sample_identity 2 compiled Hs) as [Hall _]. destruct (Hall _ _ _ He) as (attempts & w1 & _ & _ & Hnd & _). exact Hnd.
Defined.
End CampaignSample.
