(* ===== verification/AdapterFrames.v ===== *)
(** * The frames of the adapter protocol

    errors.py and jsonio.py of src/adapters/python/regex_conformance_adapters: messages
    are JSON objects of limited depth and size without floats, written in one canonical
    form after a length of four bytes.  A stream is the bytes still to be read;
    [stream.read(n)] returns fewer than [n] only at its end.  The text of a payload is
    decoded by the scanner of [StrictJson], which reads UTF-8.

    The second part shows what a frame carries. *)

From S2P Require Export Bytes Effects.
From S2P Require Export JsonRoundtrip.

(** ** errors.py *)

Definition AdapterError (code message : string) : exn := AdapterException "AdapterError" code message "protocol" "request-validation".
Definition UnsupportedRequest (code message : string) : exn := AdapterException "UnsupportedRequest" code message "materialization" "unsupported".
Definition BackendFailure (code message layer kind : string) : exn := AdapterException "BackendFailure" code message layer kind.

(** ** Limits *)

Definition MAX_FRAME_BYTES : Z := 1048576.
Definition MAX_LIST_ITEMS : Z := 65536.
Definition MAX_MESSAGE_COUNT : Z := 1000000.
Definition MAX_NESTING_DEPTH : Z := 32.
Definition SAFE_INTEGER : Z := 9007199254740991.

(** ** Values *)

(** The loop of [_strict_object]. *)
Fixpoint strict_object_go (result : list (string * json)) (pairs : list (string * json)) : Prelude.result json :=
  match pairs with
  | [] => Ok (JObj result)
  | (key, value) :: pairs =>
      raise_if (mem key (fst <$> result)) (AdapterError "duplicate-json-key" ("duplicate JSON key " +:+ py_repr key));;
      strict_object_go (result ++ [(key, value)]) pairs
  end.
Definition _strict_object (pairs : list (string * json)) : result json := strict_object_go [] pairs.
Definition _reject_constant (value : string) : result json :=
  Raise (AdapterError "nonfinite-json-number" ("non-finite JSON number " +:+ py_repr value +:+ " is forbidden")).
Definition adapter_hooks : JSONHooks := {| object_pairs_hook := _strict_object; parse_constant := _reject_constant |}.

(** A character below the space that is not a tab or a line end. *)
Definition forbidden_control (c : ascii) : bool :=
  (code c <? 32) && negb (contains_char c (String "009" (String newline (str1 creturn)))).
(** [_walk] of a string. *)
Definition walk_text (depth : Z) (value : string) : result unit :=
  raise_if (MAX_NESTING_DEPTH <? depth) (AdapterError "json-depth-exceeded" "JSON nesting exceeds the protocol limit");;
  raise_if (negb (str_forallb (fun c => negb (forbidden_control c)) value))
    (AdapterError "unsafe-json-text" "JSON text contains a forbidden control character").
Fixpoint _walk (depth : Z) (value : json) : result unit :=
  raise_if (MAX_NESTING_DEPTH <? depth) (AdapterError "json-depth-exceeded" "JSON nesting exceeds the protocol limit");;
  match value with
  | JNull | JBool _ => Ok tt
  | JInt value =>
      raise_if (negb ((- SAFE_INTEGER <=? value) && (value <=? SAFE_INTEGER)))
        (AdapterError "unsafe-json-integer" "JSON integers must fit the interoperable safe range")
  | JFloat _ => Raise (AdapterError "json-float-forbidden" "adapter protocol numbers must be exact integers")
  | JStr value => walk_text depth value
  | JArr value =>
      raise_if (MAX_LIST_ITEMS <? Z.of_nat (length value)) (AdapterError "json-list-limit" "JSON list exceeds the protocol limit");;
      for_each value (_walk (depth + 1))
  | JObj value =>
      raise_if (MAX_LIST_ITEMS <? Z.of_nat (length value)) (AdapterError "json-object-limit" "JSON object exceeds the protocol limit");;
      for_each value (fun p => walk_text (depth + 1) p.1;; _walk (depth + 1) p.2)
  end.

Definition strict_loads `{PyFloat} (payload : bytes) : result (list (string * json)) :=
  match utf8_text payload with
  | Raise e => Raise (if decide (e = UnicodeDecodeError) then AdapterError "invalid-frame-utf8" "frame is not valid UTF-8" else e)
  | Ok _ => Ok tt
  end;;
  value ← match @json_loads _ adapter_hooks payload with
          | Raise e => Raise (if mem (exn_class e) ["JSONDecodeError"; "ValueError"]
                              then AdapterError "invalid-json" "frame does not contain one valid JSON value" else e)
          | r => r
          end;
  _walk 0 value;;
  match value with JObj fields => Ok fields | _ => Raise (AdapterError "frame-not-object" "protocol frames must contain JSON objects") end.

(** [json.dumps] with sorted keys, no spaces and no ASCII escapes, as UTF-8. *)
Definition canonical_bytes (value : json) : result bytes :=
  _walk 0 value;;
  match json_text value with
  | Some text => Ok text
  | None => Raise (AdapterError "canonicalization-failed" "value cannot be serialized canonically")
  end.

(** ** Frames *)

(** [struct.pack(">I", n)] and its inverse. *)
Definition pack_uint32 (n : Z) : bytes :=
  String (byte (n / 16777216)) (String (byte (n / 65536 mod 256)) (String (byte (n / 256 mod 256)) (str1 (byte (n mod 256))))).
Definition unpack_uint32 (header : bytes) : Z := fold_left (fun n c => n * 256 + code c) (list_ascii_of_string header) 0.

Definition encode_frame (value : json) : result bytes :=
  payload ← canonical_bytes value;
  raise_if (MAX_FRAME_BYTES <? str_len payload) (AdapterError "frame-size-exceeded" "serialized frame exceeds the protocol limit");;
  Ok (pack_uint32 (str_len payload) +:+ payload).

Definition read_frame `{PyFloat} (stream : bytes) : result (option (list (string * json)) * bytes) :=
  let header := str_take 4 stream in let stream := str_drop 4 stream in
  if str_empty header then Ok (None, stream) else
  raise_if (negb (str_len header =? 4)) (AdapterError "truncated-frame-header" "frame ended inside its length prefix");;
  let length := unpack_uint32 header in
  raise_if (length =? 0) (AdapterError "empty-frame" "zero-length protocol frames are forbidden");;
  raise_if (MAX_FRAME_BYTES <? length) (AdapterError "frame-size-exceeded" "declared frame length exceeds the protocol limit");;
  let payload := str_take (Z.to_nat length) stream in let stream := str_drop (Z.to_nat length) stream in
  raise_if (negb (str_len payload =? length)) (AdapterError "truncated-frame" "frame ended before its declared length");;
  fields ← strict_loads payload;
  Ok (Some fields, stream).

(** [write_frame], of an output stream in front of the world [W]. *)
Definition write_frame {W} (value : json) : eff (bytes * W) unit := fun '(output, w) =>
  match encode_frame value with Ok frame => (Ok tt, (output +:+ frame, w)) | Raise e => (Raise e, (output, w)) end.

(** * What a frame carries

    A frame reads back as its message, its objects in key order; and a stream is read
    as a message that satisfies the limits, or refused. *)


(** ** Lengths *)

Lemma unpack_pack n : 0 <= n < 2 ^ 32 -> unpack_uint32 (pack_uint32 n) = n.
Proof.
  intros Hn. unfold unpack_uint32, pack_uint32, str1. cbn [list_ascii_of_string fold_left].
  rewrite !code_byte by lia. lia.
Qed.

(** ** Objects *)

Lemma strict_object_go_ok pairs : forall acc, NoDup (fst <$> acc ++ pairs) -> strict_object_go acc pairs = Ok (JObj (acc ++ pairs)).
Proof.
  induction pairs as [|[k v] pairs IH]; intros acc Hn; cbn [strict_object_go]; [by rewrite app_nil_r|].
  assert (mem k (fst <$> acc) = false) as ->.
  { apply not_true_is_false. rewrite mem_spec. rewrite fmap_app in Hn. apply NoDup_app in Hn as (_ & Hd & _). intros Hin. apply (Hd _ Hin). by left. }
  cbn. rewrite IH; [by rewrite <- app_assoc|by rewrite <- app_assoc].
Qed.
Lemma strict_object_ok pairs : NoDup (fst <$> pairs) -> _strict_object pairs = Ok (JObj pairs).
Proof. intros Hn. by apply (strict_object_go_ok pairs []). Qed.
Lemma strict_object_inv pairs : forall acc v, strict_object_go acc pairs = Ok v -> NoDup (fst <$> acc) -> v = JObj (acc ++ pairs) /\ NoDup (fst <$> acc ++ pairs).
Proof.
  induction pairs as [|[k x] pairs IH]; intros acc v; cbn [strict_object_go]; [intros [= <-]; by rewrite app_nil_r|].
  intros [Hm%raise_if_ok Hg]%bind_unit_ok Hn. apply IH in Hg as [-> Hnd]; [by rewrite <- app_assoc in Hnd |- *|].
  rewrite fmap_app, NoDup_app. split_and!; [done| |by apply NoDup_singleton].
  intros y Hy Hk. apply list_elem_of_singleton in Hk as ->. apply mem_spec in Hy. cbn in Hy, Hm. congruence.
Qed.
Lemma strict_object_raises pairs : forall acc e, strict_object_go acc pairs = Raise e -> exists code msg, e = AdapterError code msg.
Proof.
  induction pairs as [|[k x] pairs IH]; intros acc e; cbn [strict_object_go]; [done|]. destruct (mem k _); cbn; [|apply IH]. intros [= <-]. by do 2 eexists.
Qed.

(** ** UTF-8 *)

Definition utf8 (b : bytes) : Prop := exists s, utf8_text b = Ok s.

Lemma utf8_text_app b s : utf8 b -> utf8 s -> utf8 (b +:+ s).
Proof.
  intros [x Hx] [y Hy]. exists (x +:+ y). revert x Hx. assert (forall n b x, (String.length b <= n)%nat -> utf8_text b = Ok x -> utf8_text (b +:+ s) = Ok (x +:+ y)) as H;
    [|intros; by eapply H]. clear b. induction n as [|n IH]; intros [|c b] x Hl; cbn [String.length] in Hl; try lia; cbn [utf8_text String.append].
  - by intros [= <-].
  - by intros [= <-].
  - destruct (code c <? 128); [intros (z & Hz & [= <-])%bind_ok; by rewrite (IH b z) by (done || lia)|].
    destruct ((194 <=? code c) && (code c <=? 195)); [|by destruct (_ && _)]. destruct b as [|d b]; [done|]. cbn [String.append].
    destruct (_ && _); [|done]. cbn [String.length] in Hl. intros (z & Hz & [= <-])%bind_ok. by rewrite (IH b z) by (done || lia).
Qed.
Lemma utf8_ascii s : str_forallb (fun c => code c <? 128) s = true -> utf8 s.
Proof.
  intros H. exists s. induction s as [|c s IH]; [done|]. cbn in H |- *. apply andb_true_iff in H as [-> Hs]. by rewrite (IH Hs).
Qed.
Lemma utf8_encoded s : utf8 (utf8_encode s).
Proof. exists s. apply utf8_text_encode. Qed.

Lemma hexw_ascii w z : str_forallb (fun c => code c <? 128) (hexw w z) = true.
Proof.
  induction w as [|w IH]; [done|]. cbn [hexw str_forallb]. rewrite IH, andb_true_r. pose proof (land_15_bounds (Z.shiftr z (4 * Z.of_nat w))) as Hb.
  rewrite hex_char_code by done. destruct (_ <? 10); lia.
Qed.
Lemma quote_char_utf8 c : utf8 (quote_char c).
Proof.
  unfold quote_char. destruct (short_escape c) as [e|] eqn:E.
  - apply utf8_ascii. unfold short_escape in E. cbn [str_forallb str1].
    assert ((code e <? 128) = true) as ->; [|done].
    destruct (Ascii.eqb_spec c dquote) as [->|]; [by injection E as <-|]. destruct (Ascii.eqb_spec c backslash) as [->|]; [by injection E as <-|].
    cbn [orb] in E. repeat (destruct (Ascii.eqb c _) in E; [by injection E as <-|]). done.
  - destruct (code c <? 32); [|apply utf8_encoded]. apply utf8_ascii. cbn [str_forallb String.append]. rewrite hexw_ascii. done.
Qed.
Lemma json_quote_utf8 s : utf8 (json_quote s).
Proof.
  unfold json_quote. change (String dquote (quote_tail s)) with (str1 dquote +:+ quote_tail s). apply utf8_text_app; [by apply utf8_ascii|].
  induction s as [|c s IH]; [by apply utf8_ascii|]. cbn [quote_tail]. apply utf8_text_app; [apply quote_char_utf8|done].
Qed.
Lemma join_utf8 l : Forall utf8 l -> utf8 (join "," l).
Proof.
  induction 1 as [|x [|y l] Hx Hl IH]; [by apply utf8_ascii|done|]. rewrite join_cons2. apply utf8_text_app; [done|]. apply utf8_text_app; [by apply utf8_ascii|done].
Qed.
Lemma dec_ascii z : str_forallb (fun c => code c <? 128) (dec z) = true.
Proof.
  assert (forall p, str_forallb (fun c => code c <? 128) (dec (Zpos p)) = true) as H.
  { intros p. destruct (dec_pos p) as (ds & -> & [D _ _ _]). revert D. apply str_forallb_impl. unfold is_digit. intros c. lia. }
  destruct z as [|p|p]; [done|apply H|]. change (dec (Z.neg p)) with (String "-" (dec (Zpos p))). cbn [str_forallb]. by rewrite H.
Qed.
Lemma json_text_utf8 v t : json_text v = Some t -> utf8 t.
Proof.
  revert t. induction v as [|[]|z|f|s|l IH|fields IH] using json_induction; intros t.
  1-3: intros [= <-]; by apply utf8_ascii.
  - cbn [json_text]. destruct (_ <=? _); [|done]. intros [= <-]. apply utf8_ascii, dec_ascii.
  - done.
  - intros [= <-]. apply json_quote_utf8.
  - intros (ts & Hts & ->)%json_text_arr. repeat apply utf8_text_app; try by apply utf8_ascii. apply join_utf8.
    clear -IH Hts. induction Hts as [|v t l ts Hv _ IHts]; [done|]. apply Forall_cons in IH as [Hx IH]. constructor; auto.
  - intros (items & Hts & ->)%json_text_obj. repeat apply utf8_text_app; try by apply utf8_ascii. apply join_utf8. rewrite sorted_by_perm.
    clear -IH Hts. induction Hts as [|p i l items Hi _ IHts]; [done|]. apply Forall_cons in IH as [Hx IH]. cbn. constructor; [|auto].
    apply item_of_some in Hi as (_ & t & Ht & ->). change (utf8 (json_quote p.1 +:+ ":" +:+ t)). apply utf8_text_app; [apply json_quote_utf8|]. apply utf8_text_app; [by apply utf8_ascii|auto].
Qed.

(** ** Messages *)

Lemma walk_text_ok d s u : walk_text d s = Ok u <-> d <= MAX_NESTING_DEPTH /\ str_forallb (fun c => negb (forbidden_control c)) s = true.
Proof.
  unfold walk_text. split.
  - intros [Hd%raise_if_ok Hs%raise_if_ok]%bind_unit_ok. split; [lia|by apply negb_false_iff in Hs].
  - destruct u. intros [Hd ->]. by rewrite (proj2 (Z.ltb_ge MAX_NESTING_DEPTH d)) by lia.
Qed.
Lemma walk_list d l u : _walk d (JArr l) = Ok u <-> d <= MAX_NESTING_DEPTH /\ Z.of_nat (length l) <= MAX_LIST_ITEMS /\ Forall (fun v => _walk (d + 1) v = Ok tt) l.
Proof.
  destruct u. cbn [_walk]. split.
  - intros [Hd%raise_if_ok [Hl%raise_if_ok Hf%for_each_ok]%bind_unit_ok]%bind_unit_ok. split; [lia|]. split; [lia|done].
  - intros (Hd & Hl & Hf). rewrite (proj2 (Z.ltb_ge MAX_NESTING_DEPTH d)), (proj2 (Z.ltb_ge MAX_LIST_ITEMS (Z.of_nat (length l)))) by lia.
    by apply for_each_ok.
Qed.
Definition walk_member (d : Z) (p : string * json) : Prop := walk_text d p.1 = Ok tt /\ _walk d p.2 = Ok tt.
Lemma walk_object d fields u :
  _walk d (JObj fields) = Ok u <-> d <= MAX_NESTING_DEPTH /\ Z.of_nat (length fields) <= MAX_LIST_ITEMS /\ Forall (walk_member (d + 1)) fields.
Proof.
  destruct u. cbn [_walk]. assert (forall p, (walk_text (d + 1) p.1;; _walk (d + 1) p.2) = Ok tt <-> walk_member (d + 1) p) as Hm.
  { intros p. unfold walk_member. split; [by intros [H1 H2]%bind_unit_ok|]. by intros [-> ->]. }
  split.
  - intros [Hd%raise_if_ok [Hl%raise_if_ok Hf%for_each_ok]%bind_unit_ok]%bind_unit_ok. split; [lia|]. split; [lia|].
    eapply Forall_impl; [exact Hf|]. intros p. apply Hm.
  - intros (Hd & Hl & Hf). rewrite (proj2 (Z.ltb_ge MAX_NESTING_DEPTH d)), (proj2 (Z.ltb_ge MAX_LIST_ITEMS (Z.of_nat (length fields)))) by lia.
    apply for_each_ok. eapply Forall_impl; [exact Hf|]. intros p. apply Hm.
Qed.

Lemma walk_normal v : forall d, _walk d v = Ok tt -> _walk d (normal v) = Ok tt.
Proof.
  induction v as [| | | | |l IH|fields IH] using json_induction; intros d; try done; cbn [normal]; rewrite Forall_forall in IH.
  - rewrite !walk_list, length_fmap, !Forall_forall. intros (Hd & Hl & Hf). split_and!; [done..|].
    intros x (y & -> & Hy)%list_elem_of_fmap. by apply IH, Hf.
  - rewrite !walk_object, length_sorted_by, length_fmap, !Forall_forall. intros (Hd & Hl & Hf). split_and!; [done..|].
    intros p. rewrite elem_of_sorted_by. intros (q & -> & Hq)%list_elem_of_fmap. destruct (Hf q Hq) as [H1 H2]. split; [done|]. by apply IH.
Qed.
(** A message a frame can carry. *)
Definition message (fields : list (string * json)) : Prop := plain (JObj fields) /\ exists frame, encode_frame (JObj fields) = Ok frame.
Definition in_key_order (fields : list (string * json)) : list (string * json) := sorted_by fst ((fun p => (p.1, normal p.2)) <$> fields).

Lemma encode_frame_inv v frame : encode_frame v = Ok frame ->
  exists payload, _walk 0 v = Ok tt /\ json_text v = Some payload /\ str_len payload <= MAX_FRAME_BYTES /\ frame = pack_uint32 (str_len payload) +:+ payload.
Proof.
  unfold encode_frame, canonical_bytes. intros (payload & Hp & [Hl%raise_if_ok [= <-]]%bind_unit_ok)%bind_ok.
  apply bind_ok in Hp as ([] & Hw & Hp). destruct (json_text v) as [text|] eqn:E; [|done]. injection Hp as ->. exists payload. split_and!; [done..|lia|done].
Qed.

Lemma strict_loads_text `{PyFloat} fields payload :
  plain (JObj fields) -> _walk 0 (JObj fields) = Ok tt -> json_text (JObj fields) = Some payload -> strict_loads payload = Ok (in_key_order fields).
Proof.
  intros Hp Hw Ht. unfold strict_loads. destruct (json_text_utf8 _ _ Ht) as [s ->]. cbn [mbind result_bind].
  assert (@json_loads _ adapter_hooks payload = Ok (normal (JObj fields))) as ->.
  { apply loads_lenient; [apply strict_object_ok|]. by apply (@dumps_loads reference_jcs _ reference_laws (JObj fields)). }
  cbn [mbind result_bind]. rewrite (walk_normal _ _ Hw). done.
Qed.
Lemma frame_reads `{PyFloat} fields frame :
  plain (JObj fields) -> encode_frame (JObj fields) = Ok frame -> reads read_frame frame (Some (in_key_order fields)).
Proof.
  intros Hp (payload & Hw & Ht & Hl & ->)%encode_frame_inv rest. unfold MAX_FRAME_BYTES in Hl. unfold read_frame.
  rewrite str_app_assoc, (str_take_app_n 4), (str_drop_app_n 4) by done.
  assert (0 < str_len payload) as Hpos. { apply text_opens in Ht as (c & s & -> & _). unfold str_len. cbn. lia. }
  change (str_empty (pack_uint32 _)) with false. cbn iota. change (str_len (pack_uint32 _) =? 4) with true. cbn [negb raise_if mbind result_bind].
  rewrite unpack_pack by lia. rewrite (proj2 (Z.eqb_neq (str_len payload) 0)) by lia. unfold MAX_FRAME_BYTES. rewrite (proj2 (Z.ltb_ge 1048576 (str_len payload))) by lia.
  cbn [raise_if mbind result_bind]. unfold str_len at 1 2 4. rewrite Nat2Z.id, str_take_app, str_drop_app. fold (str_len payload). rewrite Z.eqb_refl.
  cbn [negb raise_if mbind result_bind]. by rewrite (strict_loads_text fields).
Qed.

(** ** Any bytes *)

Definition adapter_error (e : exn) : Prop := exists cls code msg layer kind, e = AdapterException cls code msg layer kind.
Lemma adapter_error_intro cls code msg layer kind : adapter_error (AdapterException cls code msg layer kind).
Proof. by do 5 eexists. Qed.
Create HintDb adapter.
Lemma adapter_error_protocol code msg : adapter_error (AdapterError code msg).
Proof. by do 5 eexists. Qed.
(** What a reader of frames may raise; [beyond] stands for the text the model leaves out. *)
Definition frame_error (e : exn) : Prop := adapter_error e \/ e = beyond.
Lemma frame_error_adapter e : adapter_error e -> frame_error e.
Proof. by left. Qed.
#[export] Hint Resolve adapter_error_intro adapter_error_protocol frame_error_adapter : adapter.

Lemma utf8_text_raises b e : utf8_text b = Raise e -> e = UnicodeDecodeError \/ e = beyond.
Proof.
  revert e. assert (forall n b e, (String.length b <= n)%nat -> utf8_text b = Raise e -> e = UnicodeDecodeError \/ e = beyond) as H; [|intros; by eapply H].
  clear b. induction n as [|n IH]; intros [|c b] e Hl; cbn [String.length] in Hl; try lia; cbn [utf8_text]; [done..|].
  destruct (code c <? 128). { pose proof (IH b) as IHb. destruct (utf8_text b); cbn; [done|]. intros [= <-]. apply IHb; [lia|done]. }
  destruct ((194 <=? code c) && (code c <=? 195)); [|destruct (_ && _); intros [= <-]; auto].
  destruct b as [|d b]; [intros [= <-]; auto|]. destruct (_ && _); [|intros [= <-]; auto]. cbn [String.length] in Hl. pose proof (IH b) as IHb.
  destruct (utf8_text b); cbn; [done|]. intros [= <-]. apply IHb; [lia|done].
Qed.

Lemma for_each_raises {A} (l : list A) f e : for_each l f = Raise e -> exists x, x ∈ l /\ f x = Raise e.
Proof.
  unfold for_each. induction l as [|x l IH]; [done|]. destruct (f x) as [[]|e'] eqn:E; cbn; [|intros [= <-]; exists x; split; [left|done]].
  intros (y & Hy & He)%IH. exists y. split; [by right|done].
Qed.
Lemma walk_text_raises d s e : walk_text d s = Raise e -> adapter_error e.
Proof. unfold walk_text. destruct (_ <? d); [by intros [= <-]; auto with adapter|]. destruct (negb _); [by intros [= <-]; auto with adapter|done]. Qed.
Lemma walk_raises v : forall d e, _walk d v = Raise e -> adapter_error e.
Proof.
  induction v as [| | | | |l IH|fields IH] using json_induction; intros d e; cbn [_walk];
    (destruct (_ <? d); cbn [raise_if mbind result_bind]; [intros [= <-]; auto with adapter|]); try done.
  - destruct (negb _); [by intros [= <-]; auto with adapter|done].
  - intros [= <-]. auto with adapter.
  - apply walk_text_raises.
  - destruct (_ <? _); cbn [raise_if mbind result_bind]; [intros [= <-]; auto with adapter|]. intros (x & Hx & He)%for_each_raises.
    rewrite Forall_forall in IH. by eapply IH.
  - destruct (_ <? _); cbn [raise_if mbind result_bind]; [intros [= <-]; auto with adapter|]. intros (p & Hp & He)%for_each_raises.
    rewrite Forall_forall in IH. destruct (walk_text (d + 1) p.1) as [[]|e'] eqn:E; cbn [mbind result_bind] in He; [by eapply IH|].
    injection He as ->. by eapply walk_text_raises.
Qed.

Lemma strict_loads_raises `{PyFloat} payload e : strict_loads payload = Raise e -> frame_error e.
Proof.
  unfold strict_loads. destruct (utf8_text payload) as [s|e'] eqn:Eu; cbn [mbind result_bind].
  2:{ intros [= <-]. apply utf8_text_raises in Eu as [-> | ->]; [rewrite decide_True by done; auto with adapter|]. rewrite decide_False by done. by right. }
  destruct (@json_loads _ adapter_hooks payload) as [v|e'] eqn:El; cbn [mbind result_bind].
  - destruct (_walk 0 v) as [[]|e''] eqn:Ew; cbn [mbind result_bind]; [|intros [= <-]; left; by eapply walk_raises].
    destruct v; try done; intros [= <-]; auto with adapter.
  - intros [= <-]. destruct (_ || _) eqn:Em; [auto with adapter|].
    apply (json_loads_raises (fun e => frame_error e \/ e = JSONDecodeError \/ exists m, e = ValueError m)) in El as [?|[-> |[m ->]]];
      [done|by vm_compute in Em|by vm_compute in Em|by right; left|by left; right|by right; right; eexists| |].
    + intros pairs e (code & msg & ->)%strict_object_raises. left. auto with adapter.
    + intros c e [= <-]. left. auto with adapter.
Qed.

Lemma read_frame_cases `{PyFloat} stream :
  match read_frame stream with
  | Ok (None, _) => stream = ""
  | Ok (Some fields, rest) => (String.length rest < String.length stream)%nat /\ _walk 0 (JObj fields) = Ok tt
  | Raise e => frame_error e
  end.
Proof.
  unfold read_frame. destruct (str_empty (str_take 4 stream)) eqn:E0; [by destruct stream|].
  unfold raise_if. cbn zeta. do 4 (match goal with |- context [if ?b then Raise _ else Ok tt] => destruct b end; cbn [mbind result_bind]); try by auto with adapter.
  destruct (strict_loads _) as [fields|e] eqn:Es; cbn [mbind result_bind]; [|by eapply strict_loads_raises]. split.
  - rewrite !str_drop_length. destruct stream; [done|]. cbn [String.length]. lia.
  - unfold strict_loads in Es. apply bind_ok in Es as ([] & _ & Es). apply bind_ok in Es as (v & _ & Es). apply bind_ok in Es as ([] & Hw & Es).
    destruct v; try done. by injection Es as ->.
Qed.
