(* ===== verification/AdapterModel.v ===== *)
(** * Requests of the adapter protocol

    model.py of src/adapters/python/regex_conformance_adapters: the checks of decoded
    JSON, typed data and the execute request.  Decoded JSON has no floats ([_walk]) and
    no repeated keys ([_strict_object]).  [diagnostic_record] is left out: it decodes
    with replacement characters, which are beyond Latin-1. *)

From S2P Require Export Dicts AdapterFrames.

Definition TOKEN : regex := DIGIT_TOKEN.
Definition id_start : regex := RClass [("A", "Z"); ("a", "z"); ("0", "9")]%char.
Definition id_char : regex := RClass [("A", "Z"); ("a", "z"); ("0", "9"); (".", "."); ("_", "_"); (":", ":"); ("-", "-")]%char.
(** [[A-Za-z0-9][A-Za-z0-9._:-]{0,n}] *)
Definition opaque_id (n : Z) (s : string) : bool := fullmatch (RSeq id_start (RStar id_char)) s && (str_len s <=? n + 1).
Definition CORRELATION : string -> bool := opaque_id 127.
Definition uuid_char : regex := RClass [("0", "9"); ("a", "f"); ("-", "-")]%char.
Definition MANIFEST_ID (s : string) : bool :=
  fullmatch (RSeq (RLit "rcid:v1:adapter-release-manifest:h:jcs-sha256-v1:") (RRepeat 64 hexd)) s.
Definition PROFILE_ID (s : string) : bool := fullmatch (RSeq (RLit "rcid:v1:profile:u7:") (RRepeat 36 uuid_char)) s.
Definition RELEASE_ID (s : string) : bool := fullmatch (RSeq (RLit "rcid:v1:release:u7:") (RRepeat 36 uuid_char)) s.
Definition OPERATIONS : list string :=
  ["callback-replacement"; "capture-extraction"; "compile"; "find-all"; "full-match"; "next-match"; "replace-all"; "replace-once";
   "search"; "split"; "test"].
Definition OBSERVATIONS : list string :=
  ["capture-history"; "captures"; "compile-diagnostics"; "cursor"; "match-state"; "native-errors"; "replacement-output";
   "runtime-identity"; "spans"; "split-output"].
Definition ABSENCE_REASONS : list string :=
  ["indeterminate"; "not-applicable"; "not-exposed"; "not-requested"; "prior-layer-failure"; "redacted"; "truncated"; "unsupported"].

(** ** Decoded JSON *)

Definition TypeError : exn := OtherException "TypeError" "unhashable type".

(** Members of a set are hashed first. *)
Definition hash (v : json) : result unit := match v with JArr _ | JObj _ => Raise TypeError | _ => Ok tt end.
Definition in_strings (v : json) (l : list string) : result bool :=
  hash v;; Ok (match v with JStr s => mem s l | _ => false end).

Definition exact_object (value : json) (fields : list string) (label : string) : result (list (string * json)) :=
  match value with
  | JObj value =>
      let missing := sorted_set (List.filter (fun k => negb (mem k (fst <$> value))) fields) in
      let unknown := sorted_set (List.filter (fun k => negb (mem k fields)) (fst <$> value)) in
      raise_if (negb (list_empty missing && list_empty unknown))
        (AdapterError "object-shape-invalid"
           (label +:+ " fields differ; missing=" +:+ py_repr_list missing +:+ ", unknown=" +:+ py_repr_list unknown));;
      Ok value
  | _ => Raise (AdapterError "wrong-type" (label +:+ " must be an object"))
  end.

Definition require_string (value : json) (label : string) (maximum : Z) : result string :=
  let e := AdapterError "string-invalid" (label +:+ " must be a bounded non-empty string") in
  match value with
  | JStr value => raise_if (str_empty value || (maximum <? str_len value)) e;; Ok value
  | _ => Raise e
  end.
Definition require_token (value : json) (label : string) : result string :=
  text ← require_string value label 96;
  raise_if (negb (fullmatch TOKEN text)) (AdapterError "token-invalid" (label +:+ " must be a lowercase canonical token"));;
  Ok text.
Definition require_integer (value : json) (label : string) (minimum maximum : Z) : result Z :=
  let e := AdapterError "integer-invalid" (label +:+ " must be an integer in [" +:+ dec minimum +:+ ", " +:+ dec maximum +:+ "]") in
  match value with
  | JInt value => raise_if (negb ((minimum <=? value) && (value <=? maximum))) e;; Ok value
  | _ => Raise e
  end.

(** The strings of an array, if there is nothing else in it. *)
Definition strings (value : json) : option (list string) :=
  match value with JArr l => mapM (fun v => match v with JStr s => Some s | _ => None end) l | _ => None end.
Definition sorted_unique_strings (value : json) (label : string) (allowed : option (list string)) : result (list string) :=
  match strings value with
  | None => Raise (AdapterError "list-invalid" (label +:+ " must be an array of strings"))
  | Some result =>
      raise_if (negb (bool_decide (result = sorted_strings result)) || has_duplicates result)
        (AdapterError "list-order-invalid" (label +:+ " must use unique deterministic lexical order"));;
      raise_if (match allowed with Some allowed => negb (forallb (fun s => mem s allowed) result) | None => false end)
        (AdapterError "list-member-invalid" (label +:+ " contains an unsupported value"));;
      Ok result
  end.

(** ** Base 64 *)

(** ** Typed data *)

Inductive datum_value := DOctets (b : bytes) | DText (s : string) | DUnits (l : list Z).
Record Datum := {
  d_domain : string; d_value : datum_value; d_encoding : option string; d_endianness : option string; d_unit_width_bits : option Z
}.

Definition octets_from_record (fields : list (string * json)) (label : string) : result Datum :=
  fields ← exact_object (JObj fields) ["data"; "domain"; "encoding"; "endianness"; "unit_width_bits"] label;
  raise_if (negb (is_null (member "encoding" fields)) || negb (is_null (member "endianness" fields)) || negb (is_int (member "unit_width_bits" fields) 8))
    (AdapterError "datum-metadata-invalid" (label +:+ " octet metadata is inconsistent"));;
  encoded ← match member "data" fields with
            | JStr s => if str_forallb (fun c => is_some (base64_digit c)) s then Ok s
                        else Raise (AdapterError "base64url-invalid" (label +:+ " octets require canonical unpadded base64url"))
            | _ => Raise (AdapterError "base64url-invalid" (label +:+ " octets require canonical unpadded base64url"))
            end;
  decoded ← match base64_decode encoded with
            | Some b => Ok b
            | None => Raise (AdapterError "base64url-invalid" (label +:+ " base64url is malformed"))
            end;
  raise_if (negb (String.eqb (base64_encode decoded) encoded)) (AdapterError "base64url-invalid" (label +:+ " base64url is noncanonical"));;
  Ok {| d_domain := "octets"; d_value := DOctets decoded; d_encoding := None; d_endianness := None; d_unit_width_bits := Some 8 |}.

Definition scalars_from_record (fields : list (string * json)) (label : string) : result Datum :=
  fields ← exact_object (JObj fields) ["domain"; "encoding"; "endianness"; "text"; "unit_width_bits"] label;
  text ← match member "text" fields with
         | JStr s => raise_if (4194304 <? str_len s) (AdapterError "datum-text-invalid" (label +:+ " scalar text is invalid or too large"));; Ok s
         | _ => Raise (AdapterError "datum-text-invalid" (label +:+ " scalar text is invalid or too large"))
         end;
  raise_if (negb (is_str (member "encoding" fields) "unicode-scalar-values") || negb (is_null (member "endianness" fields)) ||
            negb (is_null (member "unit_width_bits" fields)))
    (AdapterError "datum-metadata-invalid" (label +:+ " scalar metadata is inconsistent"));;
  Ok {| d_domain := "unicode-scalars"; d_value := DText text; d_encoding := Some "unicode-scalar-values"; d_endianness := None;
        d_unit_width_bits := None |}.

(** [(width, encoding) not in {(16, "utf-16"), (32, "utf-32")} or endianness not in {"big", "little"}] *)
Definition unit_metadata (width encoding endianness : json) : result (option (Z * string * string)) :=
  hash width;; hash encoding;;
  match (if is_int width 16 && is_str encoding "utf-16" then Some (16, "utf-16")
         else if is_int width 32 && is_str encoding "utf-32" then Some (32, "utf-32") else None) with
  | None => Ok None
  | Some (width, encoding) =>
      hash endianness;;
      Ok (if is_str endianness "big" then Some (width, encoding, "big")
          else if is_str endianness "little" then Some (width, encoding, "little") else None)
  end.
Definition units_from_record (fields : list (string * json)) (label : string) : result Datum :=
  fields ← exact_object (JObj fields) ["domain"; "encoding"; "endianness"; "unit_width_bits"; "units"] label;
  metadata ← unit_metadata (member "unit_width_bits" fields) (member "encoding" fields) (member "endianness" fields);
  match metadata with
  | None => Raise (AdapterError "datum-metadata-invalid" (label +:+ " code-unit metadata is inconsistent"))
  | Some (width, encoding, endianness) =>
      let e := AdapterError "datum-units-invalid" (label +:+ " code-unit array is invalid or too large") in
      match member "units" fields with
      | JArr units =>
          raise_if (4194304 <? Z.of_nat (length units)) e;;
          result ← map_result (fun item => require_integer item (label +:+ " unit") 0 (Z.shiftl 1 width - 1)) units;
          Ok {| d_domain := "code-units"; d_value := DUnits result; d_encoding := Some encoding; d_endianness := Some endianness;
                d_unit_width_bits := Some width |}
      | _ => Raise e
      end
  end.

Definition datum_from_record (value : json) (label : string) : result Datum :=
  match value with
  | JObj fields =>
      match find_field "domain" fields with
      | Some (JStr domain) =>
          if String.eqb domain "octets" then octets_from_record fields label
          else if String.eqb domain "unicode-scalars" then scalars_from_record fields label
          else if String.eqb domain "code-units" then units_from_record fields label
          else Raise (AdapterError "datum-domain-unknown" (label +:+ " uses an unknown data domain"))
      | _ => Raise (AdapterError "datum-invalid" (label +:+ " must be a typed datum object"))
      end
  | _ => Raise (AdapterError "datum-invalid" (label +:+ " must be a typed datum object"))
  end.

Definition datum_to_record (self : Datum) : list (string * json) :=
  match d_value self with
  | DOctets b =>
      [("data", JStr (base64_encode b)); ("domain", JStr "octets"); ("encoding", JNull); ("endianness", JNull); ("unit_width_bits", JInt 8)]
  | DText s =>
      [("domain", JStr "unicode-scalars"); ("encoding", JStr "unicode-scalar-values"); ("endianness", JNull); ("text", JStr s);
       ("unit_width_bits", JNull)]
  | DUnits l =>
      [("domain", JStr "code-units"); ("encoding", JOptStr (d_encoding self)); ("endianness", JOptStr (d_endianness self));
       ("unit_width_bits", JOptInt (d_unit_width_bits self)); ("units", JArr (JInt <$> l))]
  end.

(** ** Requests *)

(** The member of a named value: null, a boolean, a safe integer or a short string. *)
Definition named_member (value : json) (label : string) : result unit :=
  match value with
  | JInt _ => _ ← require_integer value label (- 9007199254740991) 9007199254740991; Ok tt
  | JStr s => raise_if (4096 <? str_len s) (AdapterError "named-value-size-invalid" (label +:+ " is too large"))
  | JNull | JBool _ => Ok tt
  | JFloat _ | JArr _ | JObj _ => Raise (AdapterError "named-value-type-invalid" (label +:+ " has an unsupported type"))
  end.
Definition named_value (item : json) (label : string) : result (string * json) :=
  record ← exact_object item ["name"; "value"] label;
  name ← require_token (member "name" record) (label +:+ ".name");
  named_member (member "value" record) (label +:+ ".value");;
  Ok (name, member "value" record).
Definition _named_values (value : json) (label : string) : result (list (string * json)) :=
  let e := AdapterError "named-values-invalid" (label +:+ " must be a bounded array") in
  match value with
  | JArr value =>
      raise_if (64 <? Z.of_nat (length value)) e;;
      result ← map_result (fun p => named_value p.2 (label +:+ "[" +:+ dec p.1 +:+ "]")) (imap (fun i v => (Z.of_nat i, v)) value);
      raise_if (negb (bool_decide ((fst <$> result) = sorted_strings (fst <$> result))))
        (AdapterError "named-value-order-invalid" (label +:+ " must use deterministic name order"));;
      raise_if (has_duplicates (fst <$> result)) (AdapterError "named-value-collision" (label +:+ " contains duplicate names"));;
      Ok result
  | _ => Raise e
  end.

Record ExecuteRequest := {
  er_correlation_id : string; er_adapter_release_manifest_id : string; er_profile_id : string; er_target_release_id : string;
  er_operation : string; er_pattern : Datum; er_subjects : list Datum; er_replacement : option Datum;
  er_callback_fixture : option (list (string * json)); er_options : list (string * json); er_environment_inputs : list (string * json);
  er_start_offset : Z; er_occurrence : Z; er_requested_observations : list string; er_maximum_matches : Z;
  er_maximum_diagnostic_bytes : Z; er_maximum_output_bytes : Z; er_wall_time_ms : Z; er_trace_reference : option string
}.

(** A string that satisfies [p]. *)
Definition require_matching (p : string -> bool) (value : json) (e : exn) : result string :=
  match value with JStr s => raise_if (negb (p s)) e;; Ok s | _ => Raise e end.

Definition request_fields : list string :=
  ["adapter_release_manifest_id"; "callback_fixture"; "correlation_id"; "environment_inputs"; "initial_state"; "limits"; "message_type";
   "operation"; "options"; "pattern"; "profile_id"; "replacement"; "requested_observations"; "schema_version"; "subjects";
   "target_release_id"; "trace_reference"].

(** The operation, its name checked against [OPERATIONS]. *)
Definition request_operation (value : json) : result string :=
  let e := AdapterError "operation-invalid" "operation name/version is unsupported by protocol v1" in
  operation ← exact_object value ["name"; "version"] "operation";
  raise_if (negb (is_str (member "version" operation) "1.0.0")) e;;
  known ← in_strings (member "name" operation) OPERATIONS;
  raise_if (negb known) e;;
  Ok (match member "name" operation with JStr name => name | _ => "" end).
Definition request_callback (value : json) : result (option (list (string * json))) :=
  if is_null value then Ok None else
  callback ← exact_object value ["fixture_id"; "parameters"] "callback fixture";
  _ ← require_token (member "fixture_id" callback) "callback fixture ID";
  _ ← _named_values (member "parameters" callback) "callback parameters";
  Ok (Some callback).
(** Replacement and callback are there exactly when the operation needs them. *)
Definition operation_guards (operation : string) (replacement callback : bool) : result unit :=
  let replacing := mem operation ["replace-all"; "replace-once"] in let calling := String.eqb operation "callback-replacement" in
  raise_if (replacing && negb replacement) (AdapterError "replacement-missing" "replacement operation requires typed replacement data");;
  raise_if (negb replacing && replacement) (AdapterError "replacement-unexpected" "non-replacement operation cannot carry replacement data");;
  raise_if (calling && negb callback) (AdapterError "callback-missing" "callback replacement requires a registered fixture");;
  raise_if (negb calling && callback) (AdapterError "callback-unexpected" "non-callback operation cannot carry a callback fixture").

(** The data of the subjects, labelled by their index. *)
Definition data_from_records (l : list json) : result (list Datum) :=
  map_result (fun p => datum_from_record p.2 ("subject[" +:+ dec p.1 +:+ "]")) (imap (fun i v => (Z.of_nat i, v)) l).

Definition from_record (value : json) : result ExecuteRequest :=
  record ← exact_object value request_fields "execute request";
  raise_if (negb (is_str (member "schema_version" record) "adapter-request.v1") || negb (is_str (member "message_type" record) "execute"))
    (AdapterError "request-version-invalid" "execute request schema/message version is unsupported");;
  correlation ← require_matching CORRELATION (member "correlation_id" record) (AdapterError "correlation-invalid" "execute correlation ID is invalid");
  manifest_id ← require_matching MANIFEST_ID (member "adapter_release_manifest_id" record)
    (AdapterError "manifest-id-invalid" "execute request adapter manifest ID is invalid");
  profile ← require_matching PROFILE_ID (member "profile_id" record) (AdapterError "profile-id-invalid" "execute request profile ID is invalid");
  release ← require_matching RELEASE_ID (member "target_release_id" record) (AdapterError "release-id-invalid" "execute request release ID is invalid");
  operation ← request_operation (member "operation" record);
  subjects_value ← match member "subjects" record with
    | JArr l => if (1 <=? Z.of_nat (length l)) && (Z.of_nat (length l) <=? 16) then Ok l
                else Raise (AdapterError "subjects-invalid" "execute request requires one to sixteen subjects")
    | _ => Raise (AdapterError "subjects-invalid" "execute request requires one to sixteen subjects")
    end;
  replacement ← (if is_null (member "replacement" record) then Ok None
                 else d ← datum_from_record (member "replacement" record) "replacement"; Ok (Some d));
  callback ← request_callback (member "callback_fixture" record);
  operation_guards operation (is_some replacement) (is_some callback);;
  state ← exact_object (member "initial_state" record) ["occurrence"; "start_offset"] "initial state";
  limits ← exact_object (member "limits" record)
    ["maximum_diagnostic_bytes"; "maximum_matches"; "maximum_output_bytes"; "wall_time_ms"] "execution limits";
  trace ← (if is_null (member "trace_reference" record) then Ok None
           else t ← require_matching (opaque_id 255) (member "trace_reference" record)
                      (AdapterError "trace-reference-invalid" "trace reference is not an opaque bounded identifier"); Ok (Some t));
  pattern ← datum_from_record (member "pattern" record) "pattern";
  subjects ← data_from_records subjects_value;
  options ← _named_values (member "options" record) "options";
  environment_inputs ← _named_values (member "environment_inputs" record) "environment inputs";
  start_offset ← require_integer (member "start_offset" state) "start offset" 0 9007199254740991;
  occurrence ← require_integer (member "occurrence" state) "occurrence" 1 9007199254740991;
  requested ← sorted_unique_strings (member "requested_observations" record) "requested observations" (Some OBSERVATIONS);
  maximum_matches ← require_integer (member "maximum_matches" limits) "maximum matches" 1 1000000;
  maximum_diagnostic ← require_integer (member "maximum_diagnostic_bytes" limits) "maximum diagnostic bytes" 1 1048576;
  maximum_output ← require_integer (member "maximum_output_bytes" limits) "maximum output bytes" 1 16777216;
  wall_time_ms ← require_integer (member "wall_time_ms" limits) "wall time" 1 86400000;
  Ok {| er_correlation_id := correlation; er_adapter_release_manifest_id := manifest_id; er_profile_id := profile;
        er_target_release_id := release; er_operation := operation; er_pattern := pattern; er_subjects := subjects;
        er_replacement := replacement; er_callback_fixture := callback; er_options := options; er_environment_inputs := environment_inputs;
        er_start_offset := start_offset; er_occurrence := occurrence; er_requested_observations := requested;
        er_maximum_matches := maximum_matches; er_maximum_diagnostic_bytes := maximum_diagnostic;
        er_maximum_output_bytes := maximum_output; er_wall_time_ms := wall_time_ms; er_trace_reference := trace |}.

(** ** Parts of observations *)

Definition span_record (start end_ : Z) (basis provenance : string) (origin_subject : Z) (encoding : option string)
    (unit_width_bits : option Z) (endianness : option string) : result (list (string * json)) :=
  raise_if ((start <? 0) || (end_ <? start))
    (AdapterException "AdapterError" "native-span-invalid" "native span bounds are invalid" "serialization" "serialization");;
  Ok [("api_provenance", JStr provenance); ("base_origin", JInt 0); ("basis", JStr basis); ("encoding", JOptStr encoding); ("end", JInt end_);
      ("endianness", JOptStr endianness); ("interval", JStr "half-open"); ("origin_subject", JInt origin_subject); ("sentinel", JStr "none");
      ("start", JInt start); ("unit_width_bits", JOptInt unit_width_bits)].
Definition absence (field reason : string) : result (list (string * json)) :=
  raise_if (negb (mem reason ABSENCE_REASONS)) (AdapterError "absence-reason-invalid" "adapter attempted to emit an unknown absence reason");;
  Ok [("field", JStr field); ("reason", JStr reason)].
