(* ===== verification/AdapterServer.v ===== *)
(** * Sessions of an engine adapter

    backend.py and server.py of src/adapters/python/regex_conformance_adapters: the checks
    every backend shares, and the server: a handshake, then requests, one frame each.
    The backend proper, which calls the regex engine, is the class [AdapterBackend] over
    a world [W]. *)

From S2P Require Export AdapterModel.

Record RuntimeIdentity := { ri_facts : list (string * string) }.
#[export] Instance RuntimeIdentity_post_init : Dataclass RuntimeIdentity := fun self =>
  let names := fst <$> ri_facts self in
  raise_if (list_empty (ri_facts self) || negb (bool_decide (names = sorted_strings names)) || has_duplicates names)
    (ValueError "runtime identity facts must be non-empty, unique, and sorted").
Definition runtime_to_record (self : RuntimeIdentity) : list (string * json) :=
  [("facts", JArr ((fun p => JObj [("name", JStr p.1); ("value", JStr p.2)]) <$> ri_facts self))].

Record AdapterManifest := {
  am_selection_key : string; am_manifest_id : string; am_adapter_id : string; am_adapter_release_id : string; am_profile_id : string;
  am_target_release_id : string; am_protocol_revision_id : string; am_source_digest : string; am_capabilities : list string;
  am_runtime_constraints : list (string * string); am_protocol_major : Z; am_minimum_minor : Z; am_maximum_minor : Z;
  am_schema_versions : list string
}.

Class AdapterBackend (W : Type) := {
  manifest : AdapterManifest;
  runtime_identity : eff W RuntimeIdentity;
  backend_execute : ExecuteRequest -> eff W (list (string * json))
}.

(** ** ThinBackend *)

(** What a concrete backend declares. *)
Record surface := {
  supported_operations : list string; supported_options : list string; supported_environment_inputs : list string; supported_domains : list string
}.
(** [sorted(names - supported)] *)
Definition unsupported (names supported : list string) : list string := sorted_set (List.filter (fun n => negb (mem n supported)) names).
Definition native_length (datum : Datum) : Z :=
  match d_value datum with DOctets b => str_len b | DText s => str_len s | DUnits l => Z.of_nat (length l) end.

Definition validate_request (manifest : AdapterManifest) (self : surface) (request : ExecuteRequest) : result unit :=
  raise_if (negb (String.eqb (er_adapter_release_manifest_id request) (am_manifest_id manifest)))
    (AdapterError "adapter-binding-mismatch" "request names a different adapter release manifest");;
  raise_if (negb (String.eqb (er_profile_id request) (am_profile_id manifest)) ||
            negb (String.eqb (er_target_release_id request) (am_target_release_id manifest)))
    (AdapterError "target-binding-mismatch" "request profile/release differs from the certified adapter binding");;
  raise_if (negb (mem (er_operation request) (supported_operations self)))
    (UnsupportedRequest "operation-unsupported" ("target surface does not expose " +:+ py_repr (er_operation request)));;
  raise_if (negb (Z.of_nat (length (er_subjects request)) =? 1))
    (UnsupportedRequest "subject-arity-unsupported" "minimal adapter operations require exactly one subject");;
  let domains := d_domain (er_pattern request) :: (d_domain <$> er_subjects request) ++ from_option (fun d => [d_domain d]) [] (er_replacement request) in
  let unsupported_domains := unsupported domains (supported_domains self) in
  raise_if (negb (list_empty unsupported_domains))
    (UnsupportedRequest "datum-domain-unsupported" ("target profile does not expose data domains " +:+ py_repr_list unsupported_domains));;
  let unknown_options := unsupported (fst <$> er_options request) (supported_options self) in
  raise_if (negb (list_empty unknown_options))
    (UnsupportedRequest "option-unsupported" ("target surface does not expose options " +:+ py_repr_list unknown_options));;
  let unknown_environment := unsupported (fst <$> er_environment_inputs request) (supported_environment_inputs self) in
  raise_if (negb (list_empty unknown_environment))
    (UnsupportedRequest "environment-input-unsupported"
       ("target surface does not expose environment inputs " +:+ py_repr_list unknown_environment));;
  raise_if (match er_subjects request with subject :: _ => native_length subject <? er_start_offset request | [] => false end)
    (AdapterException "AdapterError" "start-offset-out-of-range" "start offset exceeds the subject in the target's native index basis"
       "materialization" "request-validation").

(** ** AdapterServer *)

Definition HANDSHAKE_SCHEMAS : list string :=
  ["adapter-handshake-offer.v1"; "adapter-handshake-result.v1"; "adapter-request.v1"; "adapter-response.v1"].
Definition _limits : list (string * Z) :=
  [("maximum_frame_bytes", MAX_FRAME_BYTES); ("maximum_list_items", MAX_LIST_ITEMS); ("maximum_message_count", MAX_MESSAGE_COUNT);
   ("maximum_nesting_depth", MAX_NESTING_DEPTH)].

(** What the server takes of an offer. *)
Record offer := {
  of_record : list (string * json); of_correlation : string; of_major : Z; of_minimum_minor : Z; of_maximum_minor : Z;
  of_schemas : list string; of_required : list string; of_optional : list string; of_limits : list Z
}.
Definition read_offer (value : json) : result offer :=
  record ← exact_object value ["correlation_id"; "limits"; "message_type"; "offered_schema_versions"; "optional_capabilities"; "protocol";
                               "required_capabilities"; "schema_version"] "handshake offer";
  correlation ← require_matching (fun s => negb (str_empty s) && (str_len s <=? 128)) (member "correlation_id" record)
    (AdapterError "handshake-correlation-invalid" "handshake correlation ID is invalid");
  raise_if (negb (is_str (member "schema_version" record) "adapter-handshake-offer.v1") || negb (is_str (member "message_type" record) "handshake-offer"))
    (AdapterError "handshake-version-invalid" "first frame must be a v1 handshake offer");;
  protocol ← exact_object (member "protocol" record) ["major"; "maximum_minor"; "minimum_minor"] "protocol offer";
  major ← require_integer (member "major" protocol) "protocol major" 0 65535;
  minimum_minor ← require_integer (member "minimum_minor" protocol) "protocol minimum minor" 0 65535;
  maximum_minor ← require_integer (member "maximum_minor" protocol) "protocol maximum minor" 0 65535;
  raise_if (maximum_minor <? minimum_minor) (AdapterError "protocol-range-invalid" "offered protocol minor range is inverted");;
  offered_schemas ← sorted_unique_strings (member "offered_schema_versions" record) "offered schema versions" None;
  required ← sorted_unique_strings (member "required_capabilities" record) "required capabilities" None;
  optional ← sorted_unique_strings (member "optional_capabilities" record) "optional capabilities" None;
  raise_if (existsb (fun c => mem c optional) required) (AdapterError "capability-offer-ambiguous" "required and optional capabilities overlap");;
  offered_limits ← exact_object (member "limits" record) (fst <$> _limits) "offered limits";
  limits ← map_result (fun l => require_integer (member l.1 offered_limits) ("offered " +:+ l.1) 1 l.2) _limits;
  Ok {| of_record := record; of_correlation := correlation; of_major := major; of_minimum_minor := minimum_minor;
        of_maximum_minor := maximum_minor; of_schemas := offered_schemas; of_required := required; of_optional := optional; of_limits := limits |}.

Definition handshake_failure (m : AdapterManifest) (o : offer) : option (string * string) :=
  if negb (of_major o =? am_protocol_major m) then Some ("protocol-major-mismatch", "adapter and caller have no compatible protocol major")
  else if (of_maximum_minor o <? am_minimum_minor m) || (am_maximum_minor m <? of_minimum_minor o)
  then Some ("protocol-minor-mismatch", "adapter and caller have no compatible protocol minor")
  else if negb (forallb (fun s => mem s (of_schemas o)) HANDSHAKE_SCHEMAS)
  then Some ("schema-set-mismatch", "caller did not offer every required v1 message schema")
  else if negb (forallb (fun c => mem c (am_capabilities m)) (of_required o))
  then Some ("required-capability-unknown", "adapter does not implement every required capability")
  else None.
Definition selected_capabilities (m : AdapterManifest) (o : offer) : list string :=
  sorted_set (of_required o ++ List.filter (fun c => mem c (am_capabilities m)) (of_optional o)).
Definition limit_record (limits : list Z) : json := JObj (zip (fst <$> _limits) (JInt <$> limits)).
Definition negotiated_limits (o : offer) : list Z := zip_with Z.min (of_limits o) (snd <$> _limits).

(** A handshake result up to its last member, the digest of the transcript. *)
Definition accepted_result (m : AdapterManifest) (o : offer) (runtime : RuntimeIdentity) : list (string * json) :=
  [("adapter_release_manifest_id", JStr (am_manifest_id m)); ("canonical_authority", JBool false);
   ("capabilities", JStrs (selected_capabilities m o)); ("correlation_id", JStr (of_correlation o)); ("failure", JNull);
   ("limits", limit_record (negotiated_limits o)); ("message_type", JStr "handshake-result"); ("outcome", JStr "accepted");
   ("runtime_identity", JObj (runtime_to_record runtime ++ [("profile_id", JStr (am_profile_id m)); ("target_release_id", JStr (am_target_release_id m))]));
   ("schema_version", JStr "adapter-handshake-result.v1"); ("selected_protocol", JObj [("major", JInt 1); ("minor", JInt 0)]);
   ("semantic_authority", JBool false)].
Definition rejected_result (o : offer) (failure : string * string) : list (string * json) :=
  [("adapter_release_manifest_id", JNull); ("canonical_authority", JBool false); ("capabilities", JArr []);
   ("correlation_id", JStr (of_correlation o)); ("failure", JObj [("code", JStr failure.1); ("message", JStr failure.2)]);
   ("limits", limit_record (snd <$> _limits)); ("message_type", JStr "handshake-result"); ("outcome", JStr "rejected");
   ("runtime_identity", JNull); ("schema_version", JStr "adapter-handshake-result.v1"); ("selected_protocol", JNull);
   ("semantic_authority", JBool false)].
Definition with_transcript (o : offer) (result : list (string * json)) : Prelude.result (list (string * json)) :=
  transcript ← canonical_bytes (JObj [("offer", JObj (of_record o)); ("result", JObj result)]);
  Ok (result ++ [("transcript_sha256", JStr (sha256 transcript))]).

Section Server.
Context `{AdapterBackend W}.

(** The result of the handshake and whether it was accepted. *)
Definition _handshake (value : json) : eff W (list (string * json) * bool) :=
  o ← lift (read_offer value);
  match handshake_failure manifest o with
  | None =>
      runtime ← runtime_identity;
      result ← lift (with_transcript o (accepted_result manifest o runtime));
      mret (result, true)
  | Some failure => result ← lift (with_transcript o (rejected_result o failure)); mret (result, false)
  end.

Definition response (request : option ExecuteRequest) (failure observation : json) (status : string) : list (string * json) :=
  [("adapter_release_manifest_id", JStr (am_manifest_id manifest)); ("canonical_authority", JBool false);
   ("correlation_id", JStr (from_option er_correlation_id "invalid-request" request)); ("failure", failure);
   ("message_type", JStr "execute-result"); ("observation", observation); ("profile_id", JStr (am_profile_id manifest));
   ("schema_version", JStr "adapter-response.v1"); ("semantic_authority", JBool false); ("status", JStr status);
   ("target_release_id", JStr (am_target_release_id manifest)); ("trace_reference", JOptStr (request ≫= er_trace_reference))].

Definition failure_status (cls : string) : string :=
  if String.eqb cls "UnsupportedRequest" then "unsupported" else if String.eqb cls "BackendFailure" then "failed" else "rejected".
(** [_failure_response] of an adapter error, and of the wrapper of any other one. *)
Definition _failure_response (request : option ExecuteRequest) (cls code message layer kind : string) : list (string * json) :=
  response request
    (JObj [("code", JStr code); ("diagnostic", JNull); ("kind", JStr kind); ("layer", JStr layer); ("message", JStr (str_take 1024 message))])
    JNull (failure_status cls).
Definition error_response (request : option ExecuteRequest) (error : exn) : list (string * json) :=
  match error with
  | AdapterException cls code message layer kind => _failure_response request cls code message layer kind
  | _ => _failure_response request "BackendFailure" "adapter-unhandled-exception" ("adapter invocation failed with " +:+ exn_class error)
           "invocation" "adapter-invocation"
  end.
Definition execute (value : json) : eff W (list (string * json)) :=
  match from_record value with
  | Raise error => mret (error_response None error)
  | Ok request =>
      try_eff (observation ← backend_execute request; mret (response (Some request) JNull (JObj observation) "completed"))
        (fun error => mret (error_response (Some request) error))
  end.

Context `{PyFloat}.

(** A call on the world behind the output stream. *)
Definition inside {A} (m : eff W A) : eff (bytes * W) A := fun '(output, w) => let '(r, w) := m w in (r, (output, w)).

(** [serve], from a loop pass on. *)
Fixpoint serve_go (fuel : nat) (negotiated : bool) (count : Z) (input : bytes) : eff (bytes * W) Z :=
  match fuel with
  | O => lift (Raise no_fuel)
  | S n =>
      '(frame, input) ← lift (read_frame input);
      match frame with
      | None => mret (if negotiated then 0 else 2)
      | Some frame =>
          let count := count + 1 in
          _ ← lift (raise_if (MAX_MESSAGE_COUNT <? count) (AdapterError "message-count-exceeded" "session exceeds the negotiated message limit"));
          if negotiated then
            reply ← inside (execute (JObj frame));
            _ ← write_frame (JObj reply);
            serve_go n true count input
          else
            '(reply, accepted) ← inside (_handshake (JObj frame));
            _ ← write_frame (JObj reply);
            if accepted : bool then serve_go n true count input else mret 2
      end
  end.
Definition serve (input : bytes) : eff (bytes * W) Z := serve_go (S (String.length input)) false 0 input.
End Server.
