(* ===== verification/AdapterData.v ===== *)
(** * Typed data, back and forth

    [datum_from_record] accepts exactly the records that [datum_to_record] writes, up to
    the order of their keys. *)

From S2P Require Export AdapterModel.

(** ** Members *)

Lemma elem_of_missing keys fields k : k ∈ sorted_set (List.filter (fun k => negb (mem k fields)) keys) <-> k ∈ keys /\ (k ∉ fields).
Proof.
  rewrite elem_of_sorted_set, elem_of_lfilter, negb_true_iff. split.
  - intros [Hk Hm]. split; [done|]. intros Hin%mem_spec. congruence.
  - intros [Hk Hn]. split; [done|]. apply not_true_is_false. by rewrite mem_spec.
Qed.
Lemma exact_object_ok fields keys label r :
  exact_object (JObj fields) keys label = Ok r <-> r = fields /\ (forall k, k ∈ (fst <$> fields) <-> k ∈ keys).
Proof.
  unfold exact_object. cbn zeta. pose proof (elem_of_missing keys (fst <$> fields)) as Hm. pose proof (elem_of_missing (fst <$> fields) keys) as Hu.
  
  set (missing := sorted_set (List.filter (fun k => negb (mem k (fst <$> fields))) keys)) in *.
  set (unknown := sorted_set (List.filter (fun k => negb (mem k keys)) (fst <$> fields))) in *. clearbody missing unknown. split.
  - intros [Hg%raise_if_ok [= <-]]%bind_unit_ok. split; [done|]. apply negb_false_iff, andb_true_iff in Hg as [->%list_empty_true ->%list_empty_true].
    intros k. specialize (Hm k). specialize (Hu k). destruct (decide (k ∈ fst <$> fields)), (decide (k ∈ keys)); set_solver.
  - intros [-> Hk]. assert (missing = []) as ->. { apply elem_of_nil_inv. intros k [? Hn]%Hm. apply Hn. by apply Hk. }
    assert (unknown = []) as ->; [|done]. apply elem_of_nil_inv. intros k [Hin Hn]%Hu. apply Hn. by apply Hk.
Qed.

Lemma require_integer_ok v label lo hi z : require_integer v label lo hi = Ok z <-> v = JInt z /\ lo <= z <= hi.
Proof.
  destruct v as [| |n| | | |]; cbn; try (split; [done|by intros [? _]]). split.
  - intros [Hg%raise_if_ok [= <-]]%bind_unit_ok. split; [done|lia].
  - intros [[= ->] Hz]. assert ((lo <=? z) && (z <=? hi) = true) as -> by lia. done.
Qed.

(** ** The records of data *)

#[warnings="-register-all"]
Inductive well_formed_datum : Datum -> Prop :=
| wf_octets b :
    well_formed_datum {| d_domain := "octets"; d_value := DOctets b; d_encoding := None; d_endianness := None; d_unit_width_bits := Some 8 |}
| wf_scalars s : str_len s <= 4194304 ->
    well_formed_datum {| d_domain := "unicode-scalars"; d_value := DText s; d_encoding := Some "unicode-scalar-values"; d_endianness := None;
                         d_unit_width_bits := None |}
| wf_units l width encoding endianness :
    (width, encoding) ∈ [(16, "utf-16"); (32, "utf-32")] -> endianness ∈ ["big"; "little"] ->
    Z.of_nat (length l) <= 4194304 -> Forall (fun u => 0 <= u < 2 ^ width) l ->
    well_formed_datum {| d_domain := "code-units"; d_value := DUnits l; d_encoding := Some encoding; d_endianness := Some endianness;
                         d_unit_width_bits := Some width |}.

Section Records.
Context (fields : list (string * json)) (label : string) (Hnd : NoDup (fst <$> fields)).

(** Reading the fields of a record in another order. *)
Lemma record_members record : fields ≡ₚ record -> NoDup (fst <$> record) -> (forall k, k ∈ (fst <$> fields) <-> k ∈ (fst <$> record)) /\ Forall (fun p => member p.1 fields = p.2) record.
Proof.
  intros Hp Hr. split; [intros k; by rewrite Hp|]. rewrite Forall_forall. intros p Hin. rewrite (member_perm p.1 fields record) by done.
  unfold member. by rewrite (find_field_found record p).
Qed.
Lemma exact_record keys record :
  fields ≡ₚ record -> NoDup (fst <$> record) -> (forall k, k ∈ (fst <$> record) <-> k ∈ keys) -> exact_object (JObj fields) keys label = Ok fields.
Proof. intros Hp Hr Hk. apply exact_object_ok. split; [done|]. intros k. by rewrite Hp. Qed.
Lemma domain_field d : find_field "domain" fields = Some (JStr d) -> member "domain" fields = JStr d.
Proof. unfold member. by intros ->. Qed.

Lemma octets_record d :
  find_field "domain" fields = Some (JStr "octets") ->
  octets_from_record fields label = Ok d <-> exists b, d = {| d_domain := "octets"; d_value := DOctets b; d_encoding := None; d_endianness := None; d_unit_width_bits := Some 8 |} /\ fields ≡ₚ datum_to_record d.
Proof.
  intros Hd. unfold octets_from_record. split.
  - intros (r & [-> Hk]%exact_object_ok & [Hg%raise_if_ok (s & Hs & (b & Hb & [He%raise_if_ok [= <-]]%bind_unit_ok)%bind_ok)%bind_ok]%bind_unit_ok)%bind_ok.
    exists b. split; [done|]. rewrite !orb_false_iff, !negb_false_iff, !is_null_true, is_int_true in Hg. destruct Hg as [[Hg1 Hg2] Hg3].
    apply negb_false_iff, String.eqb_eq in He. destruct (member "data" fields) as [| | | |t| |] eqn:Et; try done. destruct (str_forallb _ t); [|done].
    injection Hs as ->. destruct (base64_decode s) as [b'|]; [|done]. injection Hb as ->. cbn [datum_to_record d_value]. rewrite He.
    apply record_perm; [done|by apply (bool_decide_unpack _); vm_compute| |].
    + intros k. by rewrite Hk.
    + repeat (apply Forall_cons; split; [cbn [fst snd]; first [done|by apply domain_field]|]); by apply Forall_nil.
  - intros (b & -> & Hp). cbn [datum_to_record d_value] in Hp. pose proof (record_members _ Hp ltac:(by apply (bool_decide_unpack _); vm_compute)) as [_ Hm].
    rewrite !Forall_cons in Hm. cbn [fst snd] in Hm. destruct Hm as (M1 & M2 & M3 & M4 & M5 & _).
    rewrite (exact_record _ _ Hp); [|by apply (bool_decide_unpack _); vm_compute|done]. cbn [mbind result_bind]. rewrite M1, M3, M4, M5. cbn.
    rewrite base64_chars. cbn [mbind result_bind]. rewrite base64_round_trip. cbn [mbind result_bind]. by rewrite String.eqb_refl.
Qed.

Lemma scalars_record d :
  find_field "domain" fields = Some (JStr "unicode-scalars") ->
  scalars_from_record fields label = Ok d <-> exists s, str_len s <= 4194304 /\
    d = {| d_domain := "unicode-scalars"; d_value := DText s; d_encoding := Some "unicode-scalar-values"; d_endianness := None; d_unit_width_bits := None |} /\
    fields ≡ₚ datum_to_record d.
Proof.
  intros Hd. unfold scalars_from_record. split.
  - intros (r & [-> Hk]%exact_object_ok & (s & Hs & [Hg%raise_if_ok [= <-]]%bind_unit_ok)%bind_ok)%bind_ok.
    destruct (member "text" fields) as [| | | |t| |] eqn:Et; try done. apply bind_unit_ok in Hs as [Hl%raise_if_ok [= <-]]. exists t. split; [lia|]. split; [done|].
    rewrite !orb_false_iff, !negb_false_iff, !is_null_true, is_str_true in Hg. destruct Hg as [[Hg1 Hg2] Hg3]. cbn [datum_to_record d_value].
    apply record_perm; [done|by apply (bool_decide_unpack _); vm_compute| |].
    + intros k. by rewrite Hk.
    + repeat (apply Forall_cons; split; [cbn [fst snd]; first [done|by apply domain_field]|]); by apply Forall_nil.
  - intros (s & Hl & -> & Hp). cbn [datum_to_record d_value] in Hp.
    pose proof (record_members _ Hp ltac:(by apply (bool_decide_unpack _); vm_compute)) as [_ Hm].
    rewrite !Forall_cons in Hm. cbn [fst snd] in Hm. destruct Hm as (M1 & M2 & M3 & M4 & M5 & _).
    rewrite (exact_record _ _ Hp); [|by apply (bool_decide_unpack _); vm_compute|done]. cbn [mbind result_bind]. rewrite M2, M3, M4, M5.
    by rewrite (proj2 (Z.ltb_ge 4194304 (str_len s))) by lia.
Qed.

Lemma unit_metadata_ok width encoding endianness w e n :
  unit_metadata width encoding endianness = Ok (Some (w, e, n)) <->
  width = JInt w /\ encoding = JStr e /\ endianness = JStr n /\ (w, e) ∈ [(16, "utf-16"); (32, "utf-32")] /\ n ∈ ["big"; "little"].
Proof.
  split.
  - intros ([] & _ & ([] & _ & Hm)%bind_ok)%bind_ok.
    destruct (is_int width 16 && is_str encoding "utf-16") eqn:E1; [|destruct (is_int width 32 && is_str encoding "utf-32") eqn:E2; [|done]].
    + apply andb_true_iff in E1 as [->%is_int_true ->%is_str_true]. apply bind_ok in Hm as ([] & _ & [= Hm]).
      destruct (is_str endianness "big") eqn:B; [|destruct (is_str endianness "little") eqn:L; [|done]];
        [apply is_str_true in B as -> | apply is_str_true in L as ->]; injection Hm as <- <- <-; split_and!; try done; set_solver.
    + apply andb_true_iff in E2 as [->%is_int_true ->%is_str_true]. apply bind_ok in Hm as ([] & _ & [= Hm]).
      destruct (is_str endianness "big") eqn:B; [|destruct (is_str endianness "little") eqn:L; [|done]];
        [apply is_str_true in B as -> | apply is_str_true in L as ->]; injection Hm as <- <- <-; split_and!; try done; set_solver.
  - intros (-> & -> & -> & Hw & Hn). rewrite !elem_of_cons, elem_of_nil in Hw. rewrite !elem_of_cons, elem_of_nil in Hn.
    destruct Hw as [[= -> ->]|[[= -> ->]|[]]], Hn as [-> |[-> |[]]]; reflexivity.
Qed.
Lemma units_record d :
  find_field "domain" fields = Some (JStr "code-units") ->
  units_from_record fields label = Ok d <-> exists l width encoding endianness,
    (width, encoding) ∈ [(16, "utf-16"); (32, "utf-32")] /\ endianness ∈ ["big"; "little"] /\
    Z.of_nat (length l) <= 4194304 /\ Forall (fun u => 0 <= u < 2 ^ width) l /\
    d = {| d_domain := "code-units"; d_value := DUnits l; d_encoding := Some encoding; d_endianness := Some endianness; d_unit_width_bits := Some width |} /\
    fields ≡ₚ datum_to_record d.
Proof.
  intros Hd. unfold units_from_record.
  assert (forall width encoding units l, (width, encoding) ∈ [(16, "utf-16"); (32, "utf-32")] ->
    map_result (fun item => require_integer item (label +:+ " unit") 0 (Z.shiftl 1 width - 1)) units = Ok l <-> units = JInt <$> l /\ Forall (fun u => 0 <= u < 2 ^ width) l) as Hu.
  { intros width encoding units l Hw. assert (Z.shiftl 1 width = 2 ^ width) as ->.
    { rewrite !elem_of_cons, elem_of_nil in Hw. by destruct Hw as [[= -> _]|[[= -> _]|[]]]. }
    rewrite map_result_ok. clear. split.
    - induction 1 as [|v u units l Hv _ [-> IH]]; [done|]. apply require_integer_ok in Hv as [-> Hu]. split; [done|]. constructor; [lia|done].
    - intros [-> Hf]. apply Forall2_fmap_l, Forall_Forall2_diag. eapply Forall_impl; [exact Hf|]. intros u Hu. apply require_integer_ok. split; [done|cbn in Hu; lia]. }
  split.
  - intros (r & [-> Hk]%exact_object_ok & (meta & Hmeta & H)%bind_ok)%bind_ok. destruct meta as [[[w e] n]|]; [|done].
    apply unit_metadata_ok in Hmeta as (Hw & He & Hn & Hwe & Hen). destruct (member "units" fields) as [| | | | |units|] eqn:Et; try done.
    apply bind_unit_ok in H as [Hl%raise_if_ok (l & Hl' & [= <-])%bind_ok]. apply (Hu w e units l Hwe) in Hl' as [-> Hf]. rewrite length_fmap in Hl.
    exists l, w, e, n. split_and!; [done|done|lia|done|done|]. cbn [datum_to_record d_value d_encoding d_endianness d_unit_width_bits].
    apply record_perm; [done|by apply (bool_decide_unpack _); vm_compute| |].
    + intros k. by rewrite Hk.
    + repeat (apply Forall_cons; split; [cbn [fst snd]; first [done|by apply domain_field]|]); by apply Forall_nil.
  - intros (l & w & e & n & Hwe & Hen & Hl & Hf & -> & Hp). cbn [datum_to_record d_value d_encoding d_endianness d_unit_width_bits] in Hp.
    pose proof (record_members _ Hp ltac:(by apply (bool_decide_unpack _); vm_compute)) as [_ Hm].
    rewrite !Forall_cons in Hm. cbn [fst snd] in Hm. destruct Hm as (M1 & M2 & M3 & M4 & M5 & _).
    rewrite (exact_record _ _ Hp); [|by apply (bool_decide_unpack _); vm_compute|done]. cbn [mbind result_bind]. rewrite M2, M3, M4, M5.
    rewrite (proj2 (unit_metadata_ok (JOptInt (Some w)) (JOptStr (Some e)) (JOptStr (Some n)) w e n)) by done. cbn [mbind result_bind].
    rewrite length_fmap, (proj2 (Z.ltb_ge 4194304 (Z.of_nat (length l)))) by lia. cbn [raise_if mbind result_bind].
    by rewrite (proj2 (Hu w e (JInt <$> l) l Hwe) (conj eq_refl Hf)).
Qed.

Lemma datum_records d : datum_from_record (JObj fields) label = Ok d <-> well_formed_datum d /\ fields ≡ₚ datum_to_record d.
Proof.
  cbn [datum_from_record]. split.
  - intros H. destruct (find_field "domain" fields) as [[| | | |domain| |]|] eqn:Ed; try done.
    destruct (String.eqb_spec domain "octets") as [->|]; [|destruct (String.eqb_spec domain "unicode-scalars") as [->|]; [|destruct (String.eqb_spec domain "code-units") as [->|]; [|done]]].
    + apply octets_record in H as (b & -> & Hp); [|done]. by split; [constructor|].
    + apply scalars_record in H as (s & Hs & -> & Hp); [|done]. by split; [constructor|].
    + apply units_record in H as (l & w & e & en & ? & ? & ? & ? & -> & Hp); [|done]. by split; [constructor|].
  - intros [Hw Hp]. assert (find_field "domain" fields = Some (JStr (d_domain d))) as Ed.
    { rewrite (find_field_perm "domain" _ _ Hnd Hp). by destruct Hw. }
    rewrite Ed. destruct Hw; cbn [d_domain] in *; cbn [String.eqb Ascii.eqb Bool.eqb].
    + apply octets_record; [done|]. by eexists.
    + apply scalars_record; [done|]. by eexists.
    + apply units_record; [done|]. by do 4 eexists.
Qed.
End Records.
