(* ===== verification/AdapterSessions.v ===== *)
(** * Sessions as conversations

    The server of frames refines a conversation of messages: a handshake opens or closes
    it, an open one answers every request.  [serve_conversation] says so of any bytes and
    any end of [serve]; [serve_answers] that a client of well-formed messages gets all
    the answers.

    The second part is about what the checks of a request may raise. *)

From S2P Require Export AdapterServer AdapterFrames.
From S2P Require Export AdapterServer.

Section Sessions.
Context `{AdapterBackend W} `{PyFloat}.

(** ** The conversation *)

Inductive phase := Greeting | Open | Closed.
Inductive exchange : phase -> W -> list (string * json) -> list (string * json) -> phase -> W -> Prop :=
| exchange_accept message reply w w' : _handshake (JObj message) w = (Ok (reply, true), w') -> exchange Greeting w message reply Open w'
| exchange_reject message reply w w' : _handshake (JObj message) w = (Ok (reply, false), w') -> exchange Greeting w message reply Closed w'
| exchange_answer message reply w w' : execute (JObj message) w = (Ok reply, w') -> exchange Open w message reply Open w'.
(** Messages with their replies. *)
Inductive conversation : phase -> W -> list (list (string * json) * list (string * json)) -> phase -> W -> Prop :=
| conversation_nil p w : conversation p w [] p w
| conversation_cons p w message reply p1 w1 events p2 w2 :
    exchange p w message reply p1 w1 -> conversation p1 w1 events p2 w2 -> conversation p w ((message, reply) :: events) p2 w2.

(** The messages at the front of a stream. *)
Inductive received : bytes -> list (list (string * json)) -> bytes -> Prop :=
| received_nil stream : received stream [] stream
| received_cons stream message stream1 messages rest :
    read_frame stream = Ok (Some message, stream1) -> received stream1 messages rest -> received stream (message :: messages) rest.
(** The frames of some replies. *)
Definition written (replies : list (list (string * json))) (output : bytes) : Prop :=
  exists frames, Forall2 (fun r f => encode_frame (JObj r) = Ok f) replies frames /\ output = foldr String.append "" frames.

(** Why a session ended with an exception, [count] messages after its start. *)
Definition interrupted (p : phase) (w : W) (rest : bytes) (count : Z) (e : exn) (w' : W) : Prop :=
  (read_frame rest = Raise e /\ w' = w) \/
  (exists message rest', read_frame rest = Ok (Some message, rest') /\
    ((count = MAX_MESSAGE_COUNT /\ e = AdapterError "message-count-exceeded" "session exceeds the negotiated message limit" /\ w' = w) \/
     (p = Greeting /\ _handshake (JObj message) w = (Raise e, w')) \/
     (exists reply p', exchange p w message reply p' w' /\ encode_frame (JObj reply) = Raise e))).

Lemma execute_returns value w : exists reply w', execute value w = (Ok reply, w').
Proof.
  unfold execute. destruct (from_record value) as [request|e]; [|by do 2 eexists]. unfold try_eff, mbind, eff_bind.
  destruct (backend_execute request w) as [[observation|e] w']; by do 2 eexists.
Qed.

Definition start_phase (negotiated : bool) : phase := if negotiated then Open else Greeting.

Lemma written_nothing : written [] "".
Proof. by exists []. Qed.
Lemma written_reply r f replies output : encode_frame (JObj r) = Ok f -> written replies output -> written (r :: replies) (f +:+ output).
Proof. intros Hf (frames & Hr & ->). exists (f :: frames). split; [by constructor|done]. Qed.

(** The end of a session that starts in phase [p], after [count] messages. *)
Definition explained (p : phase) (w : W) (count : Z) (input output : bytes) (r : result Z) (output' : bytes) (w' : W) : Prop :=
  exists events p1 w1 rest out, conversation p w events p1 w1 /\ received input (fst <$> events) rest /\
    written (snd <$> events) out /\ output' = output +:+ out /\
    match r with
    | Ok code => w' = w1 /\ ((code = 0 /\ p1 = Open /\ rest = "") \/ (code = 2 /\ p1 = Closed) \/ (code = 2 /\ p1 = Greeting /\ events = [] /\ input = ""))
    | Raise e => interrupted p1 w1 rest (count + Z.of_nat (length events)) e w'
    end.

Lemma explained_now p w count input output r w' :
  match r with
  | Ok code => w' = w /\ input = "" /\ (code = 0 /\ p = Open \/ code = 2 /\ p = Greeting)
  | Raise e => interrupted p w input count e w'
  end -> explained p w count input output r output w'.
Proof.
  intros Hr. exists [], p, w, input, "". split; [constructor|]. split; [constructor|]. split; [apply written_nothing|]. split; [by rewrite str_app_nil_r|].
  destruct r as [code|e]; [|cbn; by rewrite Z.add_0_r]. destruct Hr as (-> & Hi & [[-> ->]|[-> ->]]); (split; [done|]); auto. by right; right.
Qed.
(** After an exchange. *)
Lemma explained_after p w count input output message reply p1 w1 rest f r output' w' :
  read_frame input = Ok (Some message, rest) -> exchange p w message reply p1 w1 -> encode_frame (JObj reply) = Ok f ->
  p1 <> Greeting -> explained p1 w1 (count + 1) rest (output +:+ f) r output' w' -> explained p w count input output r output' w'.
Proof.
  intros Hf He Hw Hp (events & p2 & w2 & rest2 & out & Hc & Hr & Hout & -> & Hend).
  exists ((message, reply) :: events), p2, w2, rest2, (f +:+ out). split; [by econstructor|]. split; [by econstructor|]. split; [by apply written_reply|].
  split; [by rewrite str_app_assoc|]. destruct r as [code|e].
  - destruct Hend as (-> & [?|[?|(_ & -> & -> & _)]]); (split; [done|]); auto. by inversion Hc.
  - cbn [length]. by replace (count + Z.of_nat (S (length events))) with (count + 1 + Z.of_nat (length events)) by lia.
Qed.
(** The reply is too long to be written. *)
Lemma explained_unwritten p w count input output message reply p1 w1 rest e :
  read_frame input = Ok (Some message, rest) -> exchange p w message reply p1 w1 -> encode_frame (JObj reply) = Raise e ->
  explained p w count input output (Raise e) output w1.
Proof. intros Hf He Hw. apply explained_now. right. exists message, rest. split; [done|]. right; right. by exists reply, p1. Qed.

Lemma serve_explained n : forall negotiated count input output w r output' w',
  (String.length input < n)%nat -> 0 <= count <= MAX_MESSAGE_COUNT ->
  serve_go n negotiated count input (output, w) = (r, (output', w')) -> explained (start_phase negotiated) w count input output r output' w'.
Proof.
  induction n as [|n IH]; intros negotiated count input output w r output' w' Hn Hc Hs; [lia|]. cbn [serve_go] in Hs.
  unfold mbind at 1, eff_bind at 1, lift at 1 in Hs. pose proof (read_frame_cases input) as Hr. destruct (read_frame input) as [[[message|] rest]|e] eqn:Er.
  2:{ subst input. injection Hs as <- <- <-. apply explained_now. split; [done|]. split; [done|]. destruct negotiated; auto. }
  2:{ injection Hs as <- <- <-. apply explained_now. by left. }
  destruct Hr as [Hl _]. destruct (Z.ltb_spec MAX_MESSAGE_COUNT (count + 1)) as [Hm|Hm].
  { injection Hs as <- <- <-. apply explained_now. right. exists message, rest. split; [done|]. left. split; [lia|done]. }
  unfold mbind at 1, eff_bind at 1, lift, raise_if in Hs. destruct negotiated; unfold mbind at 1, eff_bind at 1, inside at 1 in Hs.
  - destruct (execute_returns (JObj message) w) as (reply & w1 & He). rewrite He in Hs.
    assert (exchange Open w message reply Open w1) as Hx by by constructor. unfold mbind at 1, eff_bind at 1, write_frame at 1 in Hs.
    destruct (encode_frame (JObj reply)) as [f|e] eqn:Ef; [|injection Hs as <- <- <-; by eapply explained_unwritten].
    eapply explained_after; [exact Er|exact Hx|exact Ef|done|]. apply (IH true) in Hs; [exact Hs|lia..].
  - destruct (_handshake (JObj message) w) as [[[reply accepted]|e] w1] eqn:Eh.
    2:{ injection Hs as <- <- <-. apply explained_now. right. exists message, rest. split; [done|]. right; left. done. }
    assert (exchange Greeting w message reply (if accepted then Open else Closed) w1) as Hx by (destruct accepted; by constructor).
    unfold mbind at 1, eff_bind at 1, write_frame at 1 in Hs.
    destruct (encode_frame (JObj reply)) as [f|e] eqn:Ef; [|injection Hs as <- <- <-; by eapply explained_unwritten].
    eapply explained_after; [exact Er|exact Hx|exact Ef|by destruct accepted|]. destruct accepted; [apply (IH true) in Hs; [exact Hs|lia..]|].
    injection Hs as <- <- <-. exists [], Closed, w1, rest, "". split; [constructor|]. split; [constructor|]. split; [apply written_nothing|].
    split; [by rewrite str_app_nil_r|]. split; [done|]. by right; left.
Qed.

(** ** Well-formed messages *)

(** The replies to some requests. *)
Fixpoint answers (requests : list (list (string * json))) : eff W (list (list (string * json))) :=
  match requests with
  | [] => mret []
  | request :: requests => reply ← execute (JObj request); replies ← answers requests; mret (reply :: replies)
  end.

Definition framed (messages : list (list (string * json))) (frames : list bytes) : Prop :=
  Forall2 (fun m f => plain (JObj m) /\ encode_frame (JObj m) = Ok f) messages frames.

Lemma frame_nonempty v f : encode_frame v = Ok f -> (1 <= String.length f)%nat.
Proof. intros (payload & _ & _ & _ & ->)%encode_frame_inv. cbn. lia. Qed.

Lemma serve_answers requests frames : framed requests frames -> forall n count output w replies w' outs,
  count + Z.of_nat (length requests) <= MAX_MESSAGE_COUNT -> (String.length (foldr String.append "" frames) < n)%nat ->
  answers (in_key_order <$> requests) w = (Ok replies, w') -> Forall2 (fun r f => encode_frame (JObj r) = Ok f) replies outs ->
  serve_go n true count (foldr String.append "" frames) (output, w) = (Ok 0, (output +:+ foldr String.append "" outs, w')).
Proof.
  induction 1 as [|m f requests frames [Hp Hf] _ IH]; intros n count output w replies w' outs Hc Hn Ha Ho; (destruct n as [|n]; [lia|]).
  - injection Ha as <- <-. inversion Ho; subst. cbn. by rewrite str_app_nil_r.
  - cbn [foldr fmap list_fmap answers length] in *. cbn [serve_go]. rewrite (frame_reads m f Hp Hf). unfold mbind at 1, eff_bind at 1, lift at 1.
    rewrite (proj2 (Z.ltb_ge MAX_MESSAGE_COUNT (count + 1))) by lia. unfold mbind at 1, eff_bind at 1, lift at 1, raise_if.
    destruct (execute_returns (JObj (in_key_order m)) w) as (reply & w1 & He). unfold mbind at 1, eff_bind at 1, inside at 1. rewrite He.
    unfold mbind at 1, eff_bind at 1 in Ha. rewrite He in Ha. unfold mbind at 1, eff_bind at 1 in Ha.
    destruct (answers (in_key_order <$> requests) w1) as [[rs|e] w2] eqn:Er; [|done]. injection Ha as <- <-. inversion Ho as [|? o ? outs' Hr Hrs]; subst.
    unfold mbind at 1, eff_bind at 1, write_frame at 1. rewrite Hr. apply frame_nonempty in Hf. rewrite str_length_app in Hn.
    rewrite (IH n (count + 1) _ w1 rs w2 outs'); [by rewrite str_app_assoc|lia|lia|done|done].
Qed.
End Sessions.

(** * What the checks of a request may raise

    Decoded JSON is refused with an adapter error; only the hashing of a list or object
    escapes as a [TypeError]. *)


Definition protocol_error (e : exn) : Prop := (exists code message, e = AdapterError code message) \/ e = TypeError.
Lemma protocol_error_adapter code message : protocol_error (AdapterError code message).
Proof. left. by do 2 eexists. Qed.

(** [m] returns, or raises an error of the protocol. *)
Definition checked {A} (m : result A) : Prop := match m with Ok _ => True | Raise e => protocol_error e end.
Create HintDb checks.
Lemma checked_ok {A} (a : A) : checked (Ok a).
Proof. done. Qed.
Lemma checked_error {A} code message : checked (Raise (AdapterError code message) : result A).
Proof. apply protocol_error_adapter. Qed.
Lemma checked_bind {A B} (m : result A) (f : A -> result B) : checked m -> (forall a, checked (f a)) -> checked (m ≫= f).
Proof. destruct m as [a|e]; [intros _ Hf; apply Hf|done]. Qed.
Lemma checked_if {A} (b : bool) (m n : result A) : checked m -> checked n -> checked (if b then m else n).
Proof. by destruct b. Qed.
Lemma checked_raise_if (b : bool) code message : checked (raise_if b (AdapterError code message)).
Proof. destruct b; [apply protocol_error_adapter|done]. Qed.
Lemma checked_map {A B} (f : A -> result B) l : (forall x, checked (f x)) -> checked (map_result f l).
Proof. intros Hf. induction l as [|x l IH]; [done|]. cbn. apply checked_bind; [apply Hf|]. intros y. apply checked_bind; [done|]. done. Qed.
#[export] Hint Resolve checked_ok checked_error checked_bind checked_if checked_raise_if checked_map : checks.

(** One step into a check: a bind, a condition or the cases of a value. *)
Ltac check_step :=
  intros; cbn zeta;
  first [ solve [auto with checks]
        | apply checked_bind
        | apply checked_map
        | match goal with |- checked (match ?x with _ => _ end) => destruct x end ].
Ltac check := repeat check_step.

Lemma hash_checked v : checked (hash v).
Proof. destruct v; try done; by right. Qed.
#[export] Hint Resolve hash_checked : checks.
Lemma in_strings_checked v l : checked (in_strings v l).
Proof. unfold in_strings. check. Qed.
Lemma exact_object_checked v keys label : checked (exact_object v keys label).
Proof. unfold exact_object. check. Qed.
Lemma require_string_checked v label n : checked (require_string v label n).
Proof. unfold require_string. check. Qed.
#[export] Hint Resolve in_strings_checked exact_object_checked require_string_checked : checks.
Lemma require_token_checked v label : checked (require_token v label).
Proof. unfold require_token. check. Qed.
Lemma require_integer_checked v label lo hi : checked (require_integer v label lo hi).
Proof. unfold require_integer. check. Qed.
Lemma sorted_unique_strings_checked v label allowed : checked (sorted_unique_strings v label allowed).
Proof. unfold sorted_unique_strings. check. Qed.
Lemma require_matching_checked p v code message : checked (require_matching p v (AdapterError code message)).
Proof. unfold require_matching. check. Qed.
#[export] Hint Resolve require_token_checked require_integer_checked sorted_unique_strings_checked require_matching_checked : checks.
Lemma unit_metadata_checked w e n : checked (unit_metadata w e n).
Proof. unfold unit_metadata. check. Qed.
#[export] Hint Resolve unit_metadata_checked : checks.
Lemma datum_checked v label : checked (datum_from_record v label).
Proof. unfold datum_from_record, octets_from_record, scalars_from_record, units_from_record. check. Qed.
Lemma named_member_checked v label : checked (named_member v label).
Proof. unfold named_member. check. Qed.
#[export] Hint Resolve datum_checked named_member_checked : checks.
Lemma named_values_checked v label : checked (_named_values v label).
Proof. unfold _named_values, named_value. check. Qed.
#[export] Hint Resolve named_values_checked : checks.
Lemma request_operation_checked v : checked (request_operation v).
Proof. unfold request_operation. check. Qed.
Lemma request_callback_checked v : checked (request_callback v).
Proof. unfold request_callback. check. Qed.
Lemma operation_guards_checked o r c : checked (operation_guards o r c).
Proof. unfold operation_guards. check. Qed.
Lemma data_checked l : checked (data_from_records l).
Proof. unfold data_from_records. check. Qed.
#[export] Hint Resolve request_operation_checked request_callback_checked operation_guards_checked data_checked : checks.
Lemma from_record_checked v : checked (from_record v).
Proof. unfold from_record. check. Qed.
Lemma read_offer_checked v : checked (read_offer v).
Proof. unfold read_offer. check. Qed.
