(* ===== verification/AdapterProperties.v ===== *)
(** * Properties of the adapter protocol

    Frames carry messages, typed data has one record, a handshake accepts exactly the
    compatible offers, and a session answers every request of its client. *)

From S2P Require Export AdapterData AdapterSessions.

(** ** Frames and data *)

(** C32: a stream of frames is received as the messages they were made of, in order, with
    nothing left: each message a document without floats whose objects do not repeat a
    key, its keys in order. *)
Theorem frames_round_trip `{PyFloat} messages frames :
  framed messages frames -> received (foldr String.append "" frames) (in_key_order <$> messages) "" /\ read_frame "" = Ok (None, "").
Proof.
  intros Hf. split; [|done]. induction Hf as [|m f messages frames [Hp He] _ IH]; [constructor|]. cbn.
  econstructor; [by apply frame_reads|done].
Qed.

(** C33: the records of data: a dict is accepted as a datum exactly when it is, up to the
    order of its keys, the record the datum is written as; so base 64 is canonical, and
    texts and arrays of units keep to their limits and their width. *)
Theorem datum_record_exact fields label d :
  NoDup (fst <$> fields) -> datum_from_record (JObj fields) label = Ok d <-> well_formed_datum d /\ fields ≡ₚ datum_to_record d.
Proof. intros Hn. by apply datum_records. Qed.

(** ** The handshake *)

(** What both sides can agree on. *)
Record compatible (m : AdapterManifest) (o : offer) : Prop := {
  same_major : of_major o = am_protocol_major m;
  common_minor : exists minor, of_minimum_minor o <= minor <= of_maximum_minor o /\ am_minimum_minor m <= minor <= am_maximum_minor m;
  known_schemas : Forall (fun s => s ∈ of_schemas o) HANDSHAKE_SCHEMAS;
  known_capabilities : Forall (fun c => c ∈ am_capabilities m) (of_required o)
}.

Lemma read_offer_range value o : read_offer value = Ok o -> of_minimum_minor o <= of_maximum_minor o /\ Forall2 (fun l (maximum : string * Z) => 1 <= l <= maximum.2) (of_limits o) _limits.
Proof.
  unfold read_offer. intros H. repeat first [apply bind_unit_ok in H as [? H]|apply bind_ok in H as (? & ? & H)]. injection H as <-. cbn. split.
  - match goal with Hr : raise_if (_ <? _) (AdapterError "protocol-range-invalid" _) = Ok _ |- _ => apply raise_if_ok in Hr; lia end.
  - match goal with Hm : map_result _ _limits = Ok _ |- _ => apply map_result_ok in Hm; apply Forall2_flip; eapply Forall2_impl; [exact Hm|] end.
    intros [n m] l Hl. by apply require_integer_ok in Hl as [_ Hl].
Qed.

Lemma handshake_failure_none m o :
  am_minimum_minor m <= am_maximum_minor m -> of_minimum_minor o <= of_maximum_minor o -> handshake_failure m o = None <-> compatible m o.
Proof.
  intros Hm Ho. unfold handshake_failure. split.
  - destruct (Z.eqb_spec (of_major o) (am_protocol_major m)) as [Hj|]; cbn [negb]; [|done].
    destruct (_ || _) eqn:Er; [done|]. destruct (forallb _ HANDSHAKE_SCHEMAS) eqn:Es; cbn [negb]; [|done].
    destruct (forallb _ (of_required o)) eqn:Ec; cbn [negb]; [|done]. intros _. split; [done| | |].
    + exists (Z.max (of_minimum_minor o) (am_minimum_minor m)). lia.
    + rewrite forallb_forall in Es. rewrite Forall_forall. intros s Hs. by apply mem_spec, Es, list_elem_of_In.
    + rewrite forallb_forall in Ec. rewrite Forall_forall. intros c Hc. by apply mem_spec, Ec, list_elem_of_In.
  - intros [Hj (k & Hk1 & Hk2) Hs Hc]. rewrite (proj2 (Z.eqb_eq _ _) Hj). cbn [negb].
    assert ((of_maximum_minor o <? am_minimum_minor m) || (am_maximum_minor m <? of_minimum_minor o) = false) as -> by lia.
    assert (forallb (fun s => mem s (of_schemas o)) HANDSHAKE_SCHEMAS = true) as ->.
    { apply forallb_forall. intros s Hin. rewrite Forall_forall in Hs. by apply mem_spec, Hs, list_elem_of_In. }
    assert (forallb (fun c => mem c (am_capabilities m)) (of_required o) = true) as ->; [|done].
    apply forallb_forall. intros c Hin. rewrite Forall_forall in Hc. by apply mem_spec, Hc, list_elem_of_In.
Qed.
Lemma selected_spec m o c : c ∈ selected_capabilities m o <-> c ∈ of_required o \/ (c ∈ of_optional o /\ c ∈ am_capabilities m).
Proof. unfold selected_capabilities. rewrite elem_of_sorted_set, elem_of_app, elem_of_lfilter, mem_spec. done. Qed.

Lemma with_transcript_inv o result reply : with_transcript o result = Ok reply -> exists digest, reply = result ++ [("transcript_sha256", JStr digest)].
Proof. unfold with_transcript. intros (t & _ & [= <-])%bind_ok. by eexists. Qed.

(** C31: a handshake accepts exactly the compatible offers; it then selects the required
    capabilities and those optional ones that the adapter has, limits that neither side
    exceeds, and both results repeat the correlation of the offer.  A rejected offer does
    not reach the backend. *)
Theorem handshake_exact `{AdapterBackend W} value o reply accepted w w' :
  am_minimum_minor manifest <= am_maximum_minor manifest -> read_offer value = Ok o -> _handshake value w = (Ok (reply, accepted), w') ->
  (accepted = true <-> compatible manifest o) /\ member "correlation_id" reply = JStr (of_correlation o) /\
  (accepted = true ->
     exists capabilities limits, member "outcome" reply = JStr "accepted" /\ member "capabilities" reply = JStrs capabilities /\
       (forall c, c ∈ capabilities <-> c ∈ of_required o \/ (c ∈ of_optional o /\ c ∈ am_capabilities manifest)) /\
       member "limits" reply = limit_record limits /\
       Forall2 (fun l o => 1 <= l <= o) limits (of_limits o) /\ Forall2 (fun l (m : string * Z) => l <= m.2) limits _limits) /\
  (accepted = false -> member "outcome" reply = JStr "rejected" /\ w' = w).
Proof.
  intros Hm Ho Hh. destruct (read_offer_range value o Ho) as [Hr Hl]. unfold _handshake in Hh. unfold mbind at 1, eff_bind at 1, lift at 1 in Hh.
  rewrite Ho in Hh. pose proof (handshake_failure_none manifest o Hm Hr) as Hc. destruct (handshake_failure manifest o) as [failure|].
  - unfold mbind at 1, eff_bind at 1, lift at 1 in Hh. destruct (with_transcript _ _) as [result|] eqn:Et; [|done]. injection Hh as <- <- <-.
    apply with_transcript_inv in Et as (digest & ->). split_and!; [|done|done|done]. split; [done|]. by intros ?%Hc.
  - unfold mbind at 1, eff_bind at 1 in Hh. destruct (runtime_identity w) as [[runtime|] w1]; [|done].
    unfold mbind at 1, eff_bind at 1, lift at 1 in Hh. destruct (with_transcript _ _) as [result|] eqn:Et; [|done]. injection Hh as <- <- <-.
    apply with_transcript_inv in Et as (digest & ->). split_and!; [|done| |done].
    + split; [by intros _; apply Hc|done].
    + intros _. exists (selected_capabilities manifest o), (negotiated_limits o). split_and!; [done|done| |done| |].
      * apply selected_spec.
      * unfold negotiated_limits. clear -Hl. induction Hl as [|l m ls ms Hlm _ IH]; [constructor|]. cbn. constructor; [lia|exact IH].
      * unfold negotiated_limits. clear -Hl. induction Hl as [|l m ls ms Hlm _ IH]; [constructor|]. cbn. constructor; [lia|exact IH].
Qed.

(** ** Requests *)

(** C34: every value gets one answer, whatever the backend raises.  One that is no request
    is answered without calling the backend, as rejected unless a list or an object was
    hashed on the way; a request is answered under its own correlation, as completed
    with the observation exactly when the backend returned one. *)
Theorem execute_answers `{AdapterBackend W} value w :
  exists reply w', execute value w = (Ok reply, w') /\
    match from_record value with
    | Raise e =>
        w' = w /\ member "correlation_id" reply = JStr "invalid-request" /\ member "observation" reply = JNull /\
        (e = TypeError \/ exists code message, e = AdapterError code message /\ member "status" reply = JStr "rejected")
    | Ok request =>
        member "correlation_id" reply = JStr (er_correlation_id request) /\
        match backend_execute request w with
        | (Ok observation, w1) => w' = w1 /\ member "status" reply = JStr "completed" /\ member "observation" reply = JObj observation
        | (Raise e, w1) =>
            w' = w1 /\ member "observation" reply = JNull /\ member "failure" reply <> JNull /\
            member "status" reply = JStr (match e with AdapterException cls _ _ _ _ => failure_status cls | _ => "failed" end)
        end
    end.
Proof.
  unfold execute. pose proof (from_record_checked value) as Hc. destruct (from_record value) as [request|e].
  - unfold try_eff, mbind, eff_bind. destruct (backend_execute request w) as [[observation|e] w1]; do 2 eexists; (split; [reflexivity|]); [done|].
    split; [by destruct e|]. split; [done|]. by destruct e.
  - do 2 eexists. split; [reflexivity|]. split; [done|]. split; [by destruct e|]. split; [by destruct e|].
    destruct Hc as [(code & message & ->)| ->]; [right|by left]. by exists code, message.
Qed.

(** ** Sessions *)

(** C16: any session is a conversation: of any bytes on the input and however it ends,
    [serve] has read some messages off the front of the stream and written the frames of
    their replies, in order; the first is a handshake, which opens or closes the session,
    and only an open one executes requests.  It returns 0 exactly from an open session at
    the end of the stream, 2 after a rejection or an empty stream; and it is interrupted
    only by an unreadable frame, the message limit, an exception of the handshake or a
    reply that has no frame. *)
Theorem serve_conversation `{AdapterBackend W} `{PyFloat} input output w r output' w' :
  serve input (output, w) = (r, (output', w')) ->
  exists events p w1 rest out, conversation Greeting w events p w1 /\ received input (fst <$> events) rest /\
    written (snd <$> events) out /\ output' = output +:+ out /\
    match r with
    | Ok code => w' = w1 /\ ((code = 0 /\ p = Open /\ rest = "") \/ (code = 2 /\ p = Closed) \/ (code = 2 /\ events = [] /\ input = ""))
    | Raise e => interrupted p w1 rest (Z.of_nat (length events)) e w'
    end.
Proof.
  intros Hs. apply (serve_explained _ false 0) in Hs as (events & p & w1 & rest & out & Hc & Hr & Ho & -> & He); [|lia|by unfold MAX_MESSAGE_COUNT].
  exists events, p, w1, rest, out. split; [exact Hc|]. split; [exact Hr|]. split; [exact Ho|]. split; [done|].
  destruct r as [code|e]; [|exact He]. destruct He as (-> & [?|[?|(-> & _ & -> & ->)]]); auto 6.
Qed.

(** C17: a client that sends an offer the server accepts and then its requests, as frames
    and within the message limit, gets the handshake and the answer to each request, in
    order, and the session ends with 0. *)
Theorem session_answers `{AdapterBackend W} `{PyFloat} offer requests frames greeting replies outs output w w1 w2 :
  framed (offer :: requests) frames -> Z.of_nat (length requests) < MAX_MESSAGE_COUNT ->
  _handshake (JObj (in_key_order offer)) w = (Ok (greeting, true), w1) -> answers (in_key_order <$> requests) w1 = (Ok replies, w2) ->
  Forall2 (fun r f => encode_frame (JObj r) = Ok f) (greeting :: replies) outs ->
  serve (foldr String.append "" frames) (output, w) = (Ok 0, (output +:+ foldr String.append "" outs, w2)).
Proof.
  intros Hf Hn Hh Ha Ho. inversion Hf as [|? f ? fs [Hp He] Hfs]; subst. inversion Ho as [|? o ? os Hr Hrs]; subst. cbn [foldr].
  unfold serve. cbn [serve_go]. rewrite (frame_reads offer f Hp He). unfold mbind at 1, eff_bind at 1, lift at 1.
  change (MAX_MESSAGE_COUNT <? 0 + 1) with false. unfold mbind at 1, eff_bind at 1, lift at 1, raise_if. unfold mbind at 1, eff_bind at 1, inside at 1. rewrite Hh.
  unfold mbind at 1, eff_bind at 1, write_frame at 1. rewrite Hr. apply frame_nonempty in He.
  rewrite (serve_answers requests fs Hfs _ (0 + 1) _ w1 replies w2 os); [by rewrite str_app_assoc|lia|rewrite str_length_app; lia|done|done].
Qed.

(** ** Where a request is not the backend's fault *)

Module AdapterSample.
#[local] Instance sample_float : PyFloat := fun _ => SpecFloat.S754_nan.
Definition digits (n : nat) : string := String.concat "" (repeat "0" n).
Definition sample_profile : string := "rcid:v1:profile:u7:019ffb61-586b-7d24-aa51-33d64636d741".
Definition sample_release : string := "rcid:v1:release:u7:019ffb61-653a-7ca1-a185-5544b82ce17b".
Definition manifest_id : string := "rcid:v1:adapter-release-manifest:h:jcs-sha256-v1:" +:+ digits 64.
Definition sample_manifest : AdapterManifest :=
  {| am_selection_key := "python-re"; am_manifest_id := manifest_id; am_adapter_id := "a"; am_adapter_release_id := "r"; am_profile_id := sample_profile;
     am_target_release_id := sample_release; am_protocol_revision_id := "p"; am_source_digest := digits 64; am_capabilities := ["captures"; "search"];
     am_runtime_constraints := [("python", "3.12")]; am_protocol_major := 1; am_minimum_minor := 0; am_maximum_minor := 0;
     am_schema_versions := HANDSHAKE_SCHEMAS |}.
(** A backend that counts its calls and finds nothing. *)
#[local] Instance sample_backend : AdapterBackend Z := {|
  manifest := sample_manifest;
  runtime_identity := mret {| ri_facts := [("python", "3.12")] |};
  backend_execute request := fun calls => (Ok [("match_state", JStr "no-match"); ("subjects", JInt (Z.of_nat (length (er_subjects request))))], calls + 1)
|}.

Definition sample_offer : list (string * json) :=
  [("correlation_id", JStr "session-1"); ("message_type", JStr "handshake-offer"); ("schema_version", JStr "adapter-handshake-offer.v1");
   ("protocol", JObj [("major", JInt 1); ("minimum_minor", JInt 0); ("maximum_minor", JInt 3)]);
   ("offered_schema_versions", JStrs HANDSHAKE_SCHEMAS); ("required_capabilities", JStrs ["search"]); ("optional_capabilities", JStrs ["captures"; "cursor"]);
   ("limits", JObj [("maximum_frame_bytes", JInt 65536); ("maximum_list_items", JInt 100); ("maximum_message_count", JInt 1); ("maximum_nesting_depth", JInt 16)])].
Definition sample_datum : list (string * json) :=
  datum_to_record {| d_domain := "octets"; d_value := DOctets "ab"; d_encoding := None; d_endianness := None; d_unit_width_bits := Some 8 |}.
Definition sample_request (operation : json) : list (string * json) :=
  [("adapter_release_manifest_id", JStr manifest_id); ("callback_fixture", JNull); ("correlation_id", JStr "request-1"); ("environment_inputs", JArr []);
   ("initial_state", JObj [("occurrence", JInt 1); ("start_offset", JInt 0)]);
   ("limits", JObj [("maximum_diagnostic_bytes", JInt 4096); ("maximum_matches", JInt 10); ("maximum_output_bytes", JInt 65536); ("wall_time_ms", JInt 1000)]);
   ("message_type", JStr "execute"); ("operation", JObj [("name", operation); ("version", JStr "1.0.0")]); ("options", JArr []);
   ("pattern", JObj sample_datum); ("profile_id", JStr sample_profile); ("replacement", JNull); ("requested_observations", JStrs ["match-state"; "spans"]);
   ("schema_version", JStr "adapter-request.v1"); ("subjects", JArr [JObj sample_datum]); ("target_release_id", JStr sample_release); ("trace_reference", JStr "trace-1")].

(** A name that is a list is hashed before it is compared: the request is reported as a
    failure of the adapter's invocation, though no backend was called. *)
Theorem unhashable_name_fails : forall calls, exists reply,
  execute (JObj (sample_request (JArr []))) calls = (Ok reply, calls) /\ member "status" reply = JStr "failed".
Proof. intros calls. eexists. split; [vm_compute; reflexivity|]. reflexivity. Qed.

Definition sample_messages : list (list (string * json)) := [sample_offer; sample_request (JStr "search")].
Definition frame_of (message : list (string * json)) : bytes := match encode_frame (JObj message) with Ok frame => frame | Raise _ => "" end.
Definition greeting : list (string * json) * Z :=
  match _handshake (JObj (in_key_order sample_offer)) 0 with (Ok (reply, _), calls) => (reply, calls) | _ => ([], 0) end.
Definition answer : list (string * json) * Z :=
  match execute (JObj (in_key_order (sample_request (JStr "search")))) 0 with (Ok reply, calls) => (reply, calls) | _ => ([], 0) end.

(** The number of messages the sides agree on is not enforced: a session that agreed on
    one message answers the second. *)
Theorem agreed_limit_unenforced :
  member "limits" greeting.1 = limit_record [65536; 100; 1; 16] /\
  serve (foldr String.append "" (frame_of <$> sample_messages)) ("", 0) = (Ok 0, (frame_of greeting.1 +:+ frame_of answer.1, 1)).
Proof. split; vm_compute; reflexivity. Qed.

(** ** Witnesses *)

Ltac prove_plain :=
  repeat first [apply plain_obj; [apply (bool_decide_unpack _); vm_compute; exact I|] | apply plain_arr | apply plain_str | apply plain_null | apply plain_bool
               | apply plain_int; unfold SAFE_INTEGER_MAX; lia | apply Forall_nil_2 | apply Forall_cons_2; cbn [fst snd]].
Lemma sample_framed : framed sample_messages (frame_of <$> sample_messages).
Proof.
  constructor; [|constructor; [|constructor]]; (split; [|vm_compute; reflexivity]);
    unfold sample_offer, sample_request, sample_datum, datum_to_record, JStrs; cbn [d_value fmap list_fmap HANDSHAKE_SCHEMAS]; prove_plain.
Qed.

Lemma frames_round_trip_witness :
  received (foldr String.append "" (frame_of <$> sample_messages)) (in_key_order <$> sample_messages) "" /\ read_frame "" = Ok (None, "").
Proof. apply frames_round_trip. exact sample_framed. Defined.

Lemma datum_record_exact_witness :
  datum_from_record (JObj sample_datum) "pattern" = Ok {| d_domain := "octets"; d_value := DOctets "ab"; d_encoding := None; d_endianness := None; d_unit_width_bits := Some 8 |}.
Proof. apply datum_record_exact; [apply (bool_decide_unpack _); vm_compute; exact I|]. split; [constructor|reflexivity]. Defined.

Definition offer_read : offer :=
  match read_offer (JObj sample_offer) with
  | Ok o => o
  | Raise _ => {| of_record := []; of_correlation := ""; of_major := 0; of_minimum_minor := 0; of_maximum_minor := 0; of_schemas := []; of_required := [];
                  of_optional := []; of_limits := [] |}
  end.
Lemma handshake_exact_witness : compatible sample_manifest offer_read.
Proof.
  destruct (_handshake (JObj sample_offer) 0) as [[[reply accepted]|] calls] eqn:E; [|vm_compute in E; discriminate E].
  destruct (handshake_exact (JObj sample_offer) offer_read reply accepted 0 calls) as [Ha _];
    [vm_compute; discriminate|vm_compute; reflexivity|exact E|]. apply Ha. vm_compute in E. by injection E as <- <- <-.
Defined.

Lemma serve_conversation_witness :
  exists events p w1 rest out, conversation Greeting 0 events p w1 /\ received "" (fst <$> events) rest /\ written (snd <$> events) out /\ "" = "" +:+ out /\
    0 = w1 /\ ((2 = 0 /\ p = Open /\ rest = "") \/ (2 = 2 /\ p = Closed) \/ (2 = 2 /\ events = [] /\ "" = "")).
Proof. exact (serve_conversation "" "" 0 (Ok 2) "" 0 eq_refl). Defined.

Lemma session_answers_witness :
  serve (foldr String.append "" (frame_of <$> sample_messages)) ("", 0) = (Ok 0, ("" +:+ foldr String.append "" [frame_of greeting.1; frame_of answer.1], 1)).
Proof.
  apply (session_answers sample_offer [sample_request (JStr "search")] _ greeting.1 [answer.1] _ "" 0 0 1); [exact sample_framed|reflexivity|vm_compute; reflexivity|vm_compute; reflexivity|].
  constructor; [vm_compute; reflexivity|]. constructor; [vm_compute; reflexivity|constructor].
Defined.
End AdapterSample.
